(* ===== verification/_CoqProject ===== *)
-Q . S2P
Prelude.v
Memory.v
CStruct.v
ElfTypes.v
ElfConsts.v
ElfMachine.v
ElfLoader.v
Paging.v
Loader16.v
Friend16.v
Kernel.v
CallInterface.v
CpuHotplug.v
CpuDevice.v
FriendLoader.v
Hakase.v
BootChain.v
Offload.v
OffloadRefine.v
FriendInit.v
Programs.v
TestPrograms.v
StackTest.v
SmallPrograms.v
VirtMem.v
FriendVm.v
Idt.v
Interrupt.v
TutorialPaging.v
CopyOnWrite.v
OldRuntime.v
SampleOld.v
OldApps.v
OldAppTables.v
OldExercise.v
OldStale.v
InterruptController.v
OffloadTests.v
