(* ===== verification/Prelude.v ===== *)
(** * Toshokan: a verification development

    Toshokan runs bare-metal "friend" code on the cores of a Linux machine that the
    kernel is made to give up, next to a normal Linux process, the "hakase" (host).
    Four parts make that work, and the files below model them from the sources.

    - The kernel module FriendLoader (FriendLoader/*.c) exports the reserved physical
      memory (/dev/friend_mem: 1 GB from 4 GB on, /dev/friend_bootmem0x70000: the 8 KB
      trampoline), one device file per processor (/dev/friend_cpu<i>, whose open starts
      the processor at the trampoline) and its version in sysfs.
    - The host runtime (hakase/*.cc) checks the machine, maps the friend region, loads
      the friend's ELF image into it, prepares the trampoline and its page tables,
      stores the exported symbols and starts the cores.
    - The friend runtime (friend/boot.S, friend/init.cc) gives every core a stack, runs
      constructors, friend_main and destructors, and raises the flag the host polls.
    - The offloading layer (common/offload.{h,S}) lets a friend core run a piece of its
      code on the host, by handing its saved context over.

    ** Files

    - [Prelude] (this file): machine integers ([wrap], [u64], [sext]), the error and
      state monad [M] with its faults ([SegFault], [Undefined], [OutOfFuel]) and its
      weakest preconditions ([wp]), little-endian bytes, tactics and hints.
    - [Memory]: common/memory.h and common/align.h ([Layout]); a process's memory as a
      finite map from addresses to bytes, where an access to an unmapped byte faults;
      memcpy and memset.
    - [CStruct]: C structures by their x86-64 layout, and access to members.
    - [ElfTypes], [ElfConsts], [ElfMachine]: common/elfhead.h, its structures and macros,
      the constants all machines share with the relocation types, and the constants of
      particular machines.
    - [ElfLoader]: hakase/elf_loader.{h,cc}, [Deploy] and [GetEntry] at the level of the
      bytes of the file; its specification [spec_deploy] on decoded headers.
    - [Paging]: the x86-64 page walk and updates of table entries.
    - [Loader16]: hakase/loader16.cc, [Init] and [InitPageTables].
    - [Friend16]: hakase/friend_boot16.S, the trampoline of a started core, from the
      start-up interrupt in real mode to the jump to the friend's entry in long mode.
    - [Kernel]: what the module asks of Linux.  Every call of a kernel function is an
      event of a history with the answer the kernel gave, and the answers are a
      parameter (class [Kernel]); [live] is what a history has acquired and not given
      back.
    - [CallInterface], [CpuHotplug], [CpuDevice], [FriendLoader]: call_interface.c,
      cpu_hotplug.c, cpudevice.c, and version.c with main.c.
    - [Hakase]: hakase/hakase.cc, [setup] and [boot], over the record
      [env] (files, devices and symbols of the process).
    - [Offload]: [Asm], the instructions of offload.S under an interpreter; [Protocol],
      the hand-over of [_OFFLOAD] and [TryReceive] as a step relation.
    - [OffloadRefine]: friend cores and a host that execute the instructions of [Asm] on
      one memory in any interleaving, with the C code of offload.h between the calls, as
      a refinement of [Protocol].
    - [FriendInit]: boot.S and init.cc as a step relation, with an executable scheduler.
    - [BootChain]: the composition of [Hakase.setup] with [Friend16]: the memory that
      setup leaves is the memory the trampoline runs in.
    - [VirtMem]: a running friend core: accesses go through the translation lookaside
      buffer and the page walk, may fault, and depend on CR0.WP and CR3.
    - [FriendVm]: the address space the trampoline hands to the friend, on [VirtMem].
    - [Idt], [Interrupt]: tutorial/interrupt, the descriptor table, the delivery of an
      exception and the handlers of the divide error.
    - [TutorialPaging], [CopyOnWrite]: the programs of tutorial/paging.
    - [Programs]: a whole program, a host and its friend cores, as a step relation over
      [FriendInit], [Offload] and the variables they share; [TestPrograms], [StackTest]:
      sample, tutorial/toshokan and the programs under tests as instances of it.
    - [OffloadTests]: common/tests/offload.cc, threads that offload to a receiver, over
      the hand-over of [Offload].
    - [SmallPrograms]: tests/elf, whose friend only counts its cores, the test of align(),
      the hosts of the tutorials and of tutorial/toshokan/monitor.
    - [OldRuntime], [SampleOld], [OldApps], [OldAppTables]: sample_old, programs for an
      earlier runtime (a hypothesis, [old_runtime]) on [VirtMem]: the functions they share;
      the programs that build tables; the programs that run applications from images in
      memory, copied (021 to 023) or mapped (024, 041, 042); [OldExercise]: the exercise
      100 as it stands, on a page walk that checks reserved bits; [OldStale]: the page
      042 takes away, on a processor that keeps its translations.
    - [InterruptController]: hakase/deprecated/interrupt.cc, the table of callbacks.

    ** What the theorems show

    - Loading: [Deploy] returns, refines a specification on the decoded headers, writes
      every byte the headers prescribe, touches nothing outside the friend region for
      any file, ends on any file, and succeeds exactly on acceptable images.
    - The ELF header: each structure of elfhead.h survives a round trip through its
      representation, packing macros invert, names and numbers of relocations determine
      each other, index macros stay in range, and the constants of particular machines
      stay in the ranges and masks the generic part reserves for them.
    - Booting: after [Init] the trampoline holds the entry point, and the page walk from
      INITIAL_PML4T maps the first 2 MB and the friend region to themselves and nothing
      else below 512 GB (the PML4 entries above are left as they were); [setup] composes
      the version check, the mapping, [Deploy], [Init] and the export of symbols, and where
      a check refuses, the file it read is left open; [boot] starts the processors in
      order.
    - The module: an mmap of its devices reaches the device's memory and nothing else;
      initialisers hold exactly what they report or give everything back; loading and
      unloading is balanced where the kernel grants the requests and there are two
      processors; the exact calls of a start for each answer of the kernel; what
      unplugging lists.
    - The two sides fit: the version the module publishes is the one the host accepts,
      and the memory the host's mmap calls give it is what the module's handlers map.
    - Offloading: longjmp undoes setjmp; in every interleaving of any number of cores an
      offloaded piece of code runs exactly once and on the host, the cores exclude each
      other, and every core that has started an offload can finish it; the processors
      that execute the routines one instruction at a time never fault and do what this
      protocol does, with the contexts of the right core.
    - The friend's life: stacks are disjoint (the first has only half of STACK_SIZE above
      the binary), constructors run once, every maximal run
      ends with the flag raised; with all cores arrived first the flag means that all
      have returned, and runs are exhibited that break this without that condition.
    - The mode switch: the trampoline reaches long mode with paging on, the tables that
      [InitPageTables] wrote in CR3 and the entry point of the image in the instruction
      pointer; after [setup] any core that is started so arrives at the image's entry.
    - The tutorials: on every buffer policy the programs of tutorial/paging read what the
      tables they have written say, the handlers of the page fault and of the divide
      error are reached and return where the program says, and the copy-on-write program
      never copies (the trampoline leaves CR0.WP clear).
    - Whole programs: [test_main] of a program on one core returns what the sequential run
      of its friend code and offloads prescribes, in every interleaving, and can always
      go on to return; on all cores sample and the tests return 1 when all cores have
      arrived before the first returns, and a run of sample that fails otherwise is
      exhibited; the stacks test never leaves its array; the tests of the offloader pass
      in every interleaving and can always end when their uninitialised fixture holds
      zeros, and never end when its [stop] does not; tests/elf returns 1 only when every
      core has counted itself, which nothing but its sleep waits for.
    - The old samples: the programs keep the friend's memory over the write to CR3, show
      exactly the pages they enter and store where they mean to (032 only if the table it
      does not clear held no present entry); two applications at one address never run
      each other's code, whatever the translation cache keeps; the lock of
      their [puts] excludes nobody; the exercise 100 ends at its write to CR3; a
      processor may still read the page that 042 takes away.
    - The interrupt controller: no sequence of calls uses an indeterminate entry, and only
      an unchecked vector can leave the table; vectors are handed out in order and
      dispatch to the callback they were given for.

    ** Modelling choices

    Integers are [Z] with the wrap of their width written out.  Undefined behaviour of C
    (a signed overflow, overlapping memcpy, an access to unmapped memory, a buffer
    overrun) is a fault of the monad, so a theorem that a function returns [Done] also
    says that it has none.  Loops without a structural bound run on fuel: [deploy_fuel]
    is 2^16, more than the 16-bit counts of an ELF header allow, [map_fuel] is one more
    than the 512 pages of the region, [export_fuel] one more than the entries of the
    table, [boot_fuel] is 10000, at which the path buffer of [boot] is full; the theorems
    show that the fuel is never what ends the loop.  The concurrent parts interleave
    single accesses to shared words in the order of the program; x86 keeps the order of
    stores and of loads, and the hand-overs only pass data before a flag.  In
    [__sync_add_and_fetch(...) == init_count] the left operand is evaluated first.
    friend_main and the offloaded code are opaque and return in [FriendInit] and
    [Offload].

    The translation lookaside buffer of [VirtMem] is a parameter (class [TlbPolicy]): at
    every access it may forget any entries, and a walk may or may not leave its result.
    A theorem over all policies holds for every processor that caches complete
    translations.  Caches of upper levels of the tables and the stack frame an exception
    pushes are not modelled.  A piece of offloaded code of the tutorials, which prints or
    reads on the host, is the call of that host function.

    ** Not modelled

    The linker scripts and build files; the macros of the libc shims; the exercise
    tutorial/paging/generate_pagetable, whose body is left to the reader; the earlier
    runtime of sample_old and its channel, which are not in the repository; the copies of
    the tutorials under tutorial_template, which are the files of tutorial. *)

From Stdlib Require Export ZArith Lia List String Ascii Bool.
From stdpp Require Export base tactics numbers option list gmap strings.

#[global] Open Scope Z_scope.

(** ** Scope, hint databases and tactics of the development *)

Declare Scope toshokan_scope.
Delimit Scope toshokan_scope with tsk.
#[global] Open Scope toshokan_scope.

Create HintDb tsk.

(** Case analysis on the boolean integer tests of the code, turning each into
    the (in)equality it decides. *)
Ltac zbool :=
  repeat match goal with
  | H : (_ && _)%bool = true |- _ => apply andb_true_iff in H as [? ?]
  | H : (_ && _)%bool = false |- _ => apply andb_false_iff in H
  | H : (_ || _)%bool = true |- _ => apply orb_true_iff in H
  | H : (_ || _)%bool = false |- _ => apply orb_false_iff in H as [? ?]
  | H : negb _ = true |- _ => apply negb_true_iff in H
  | H : negb _ = false |- _ => apply negb_false_iff in H
  | H : (_ <? _) = true |- _ => apply Z.ltb_lt in H
  | H : (_ <? _) = false |- _ => apply Z.ltb_ge in H
  | H : (_ <=? _) = true |- _ => apply Z.leb_le in H
  | H : (_ <=? _) = false |- _ => apply Z.leb_gt in H
  | H : (_ >? _) = _ |- _ => rewrite Z.gtb_ltb in H
  | H : (_ >=? _) = _ |- _ => rewrite Z.geb_leb in H
  | H : (_ =? _) = true |- _ => apply Z.eqb_eq in H
  | H : (_ =? _) = false |- _ => apply Z.eqb_neq in H
  end.

(** Destruct the scrutinee of an [if] or [match] in the goal, then clean the
    integer tests up. *)
Ltac split_if :=
  match goal with
  | |- context [if ?b then _ else _] => destruct b eqn:?; zbool
  end.

(** ** Machine integers

    A [w]-bit unsigned integer is a [Z] in [0, 2^w); arithmetic at that width
    is the [Z] operation followed by [wrap w].  [sext w] reads a [w]-bit
    pattern as a two's complement signed integer. *)

Definition wrap (w x : Z) : Z := x mod 2 ^ w.

Definition u8 (x : Z) : Z := wrap 8 x.
Definition u16 (x : Z) : Z := wrap 16 x.
Definition u32 (x : Z) : Z := wrap 32 x.
Definition u64 (x : Z) : Z := wrap 64 x.

Definition sext (w x : Z) : Z :=
  let y := wrap w x in if y <? 2 ^ (w - 1) then y else y - 2 ^ w.

(** [uint w x]: [x] is representable as a [w]-bit unsigned integer. *)
Definition uint (w x : Z) : Prop := 0 <= x < 2 ^ w.
Definition sint (w x : Z) : Prop := - 2 ^ (w - 1) <= x < 2 ^ (w - 1).

#[export] Instance uint_dec w x : Decision (uint w x).
Proof. unfold uint. apply _. Defined.
#[export] Instance sint_dec w x : Decision (sint w x).
Proof. unfold sint. apply _. Defined.

Definition INT_MAX : Z := 2147483647.
Definition INT_MIN : Z := -2147483648.

Lemma wrap_range w x : 0 <= w -> uint w (wrap w x).
Proof.
  intros Hw. unfold uint, wrap. apply Z.mod_pos_bound.
  apply Z.pow_pos_nonneg; lia.
Qed.

Lemma wrap_small w x : uint w x -> wrap w x = x.
Proof. apply Z.mod_small. Qed.

Lemma wrap_idemp w x : 0 <= w -> wrap w (wrap w x) = wrap w x.
Proof. intros. by apply wrap_small, wrap_range. Qed.

Lemma u64_range x : 0 <= u64 x < 2 ^ 64.
Proof. by apply wrap_range. Qed.

Lemma u64_small x : 0 <= x < 2 ^ 64 -> u64 x = x.
Proof. apply wrap_small. Qed.

Lemma sext_of_sint w x : 0 < w -> sint w x -> sext w x = x.
Proof.
  intros Hw [Hlo Hhi]. unfold sext, wrap.
  assert (2 ^ w = 2 * 2 ^ (w - 1)) as E.
  { rewrite <- Z.pow_succ_r by lia. f_equal. lia. }
  assert (0 < 2 ^ (w - 1)) by (apply Z.pow_pos_nonneg; lia).
  destruct (decide (0 <= x)).
  - rewrite Z.mod_small by lia. case (Z.ltb_spec x (2 ^ (w - 1))); lia.
  - replace (x mod 2 ^ w) with (x + 2 ^ w)
      by (symmetry; rewrite <- (Z.mod_add x 1), Z.mul_1_l by lia; apply Z.mod_small; lia).
    case (Z.ltb_spec (x + 2 ^ w) (2 ^ (w - 1))); lia.
Qed.

(** Or-ing flags below bit [k] into a value with these bits clear. *)
Lemma lor_flags k base f :
  0 <= k -> base mod 2 ^ k = 0 -> 0 <= f < 2 ^ k -> Z.lor base f = base + f.
Proof.
  intros Hk Hb Hf. assert (Z.land base f = 0) as E.
  { apply Z.bits_inj'. intros i Hi. rewrite Z.land_spec, Z.bits_0.
    destruct (decide (i < k)).
    - replace base with (base / 2 ^ k * 2 ^ k) by (pose proof (Z.div_mod base (2 ^ k)); lia).
      rewrite Z.mul_pow2_bits_low by lia. done.
    - replace f with (f mod 2 ^ k) by (by apply Z.mod_small).
      rewrite Z.mod_pow2_bits_high by lia. apply andb_false_r. }
  rewrite Z.add_nocarry_lxor by done. symmetry. by apply Z.lxor_lor.
Qed.

Lemma lor_bound n a b : 0 <= n -> uint n a -> uint n b -> uint n (Z.lor a b).
Proof.
  intros Hn Ha Hb. replace (Z.lor a b) with (wrap n (Z.lor a b)); [by apply wrap_range|].
  unfold wrap. rewrite <- Z.land_ones, Z.land_lor_distr_l, !Z.land_ones by done.
  f_equal; by apply Z.mod_small.
Qed.

Lemma land_bound n a b : 0 <= n -> uint n b -> uint n (Z.land a b).
Proof.
  intros Hn Hb. replace (Z.land a b) with (wrap n (Z.land a b)); [by apply wrap_range|].
  unfold wrap. rewrite <- Z.land_ones, <- Z.land_assoc, Z.land_ones by done.
  f_equal. by apply Z.mod_small.
Qed.

#[export] Hint Resolve wrap_range u64_range : tsk.

(** ** Outcomes and the state monad of the models

    A C/C++ computation either finishes with a value, dereferences an unmapped
    address, reaches undefined behaviour, or (for loops modelled with fuel)
    runs out of fuel.  Every model with fuel has a theorem that [OutOfFuel]
    is not reached. *)

Inductive fault : Type :=
| SegFault
| Undefined
| Indeterminate   (* the value of an object nothing was stored in *)
| OutOfFuel.

#[export] Instance fault_eq_dec : EqDecision fault.
Proof. solve_decision. Defined.

Inductive outcome (A : Type) : Type :=
| Done (a : A)
| Fault (f : fault).
Arguments Done {A} a.
Arguments Fault {A} f.

Definition M (S A : Type) : Type := S -> outcome (A * S).

#[export] Instance M_ret S : MRet (M S) := fun A a s => Done (a, s).
#[export] Instance M_bind S : MBind (M S) := fun A B k c s =>
  match c s with
  | Done (a, s') => k a s'
  | Fault f => Fault f
  end.

Definition fail {S A} (f : fault) : M S A := fun _ => Fault f.
Definition get {S} : M S S := fun s => Done (s, s).
Definition put {S} (s : S) : M S unit := fun _ => Done (tt, s).

(** Run a computation on a state and keep the value, or the state. *)
Definition value_of {A S} (o : outcome (A * S)) : option A :=
  match o with Done (a, _) => Some a | Fault _ => None end.
Definition state_of {A S} (o : outcome (A * S)) : option S :=
  match o with Done (_, s) => Some s | Fault _ => None end.

Lemma value_of_done {A S} (o : outcome (A * S)) a :
  value_of o = Some a -> exists s, o = Done (a, s).
Proof. destruct o as [[b s]|]; [|done]. intros [= ->]. by exists s. Qed.

Lemma bind_done {S A B} (c : M S A) (k : A -> M S B) s a s' :
  c s = Done (a, s') -> (c ≫= k) s = k a s'.
Proof. intros H. unfold mbind, M_bind. by rewrite H. Qed.

Lemma bind_inv {S A B} (c : M S A) (k : A -> M S B) s b s' :
  (c ≫= k) s = Done (b, s') ->
  exists a s1, c s = Done (a, s1) /\ k a s1 = Done (b, s').
Proof. unfold mbind, M_bind. destruct (c s) as [[a s1]|f]; naive_solver. Qed.

Lemma bind_assoc {S A B C} (c : M S A) (k : A -> M S B) (h : B -> M S C) s :
  ((c ≫= k) ≫= h) s = (c ≫= fun a => k a ≫= h) s.
Proof. unfold mbind, M_bind. by destruct (c s) as [[a s1]|f]. Qed.

Lemma bind_fault {S A B} (c : M S A) (k : A -> M S B) s f :
  (c ≫= k) s = Fault f ->
  c s = Fault f \/ exists a s1, c s = Done (a, s1) /\ k a s1 = Fault f.
Proof. unfold mbind, M_bind. destruct (c s) as [[a s1]|f']; naive_solver. Qed.

(** [Reader c]: [c] never changes the state.  [FuelFree c]: [c] never runs out
    of fuel.  Both are proved by walking through the structure of a
    computation. *)
Class Reader {S A} (c : M S A) : Prop :=
  reader_state : forall s a s', c s = Done (a, s') -> s' = s.
Class FuelFree {S A} (c : M S A) : Prop :=
  fuel_free : forall s, c s <> Fault OutOfFuel.

#[export] Instance reader_ret {S A} (a : A) : Reader (mret a : M S A).
Proof. intros s b s'. by intros [= _ <-]. Qed.
#[export] Instance reader_fail {S A} f : Reader (fail f : M S A).
Proof. done. Qed.
Lemma reader_bind {S A B} (c : M S A) (k : A -> M S B) :
  Reader c -> (forall a, Reader (k a)) -> Reader (c ≫= k).
Proof.
  intros Hc Hk s b s' H. apply bind_inv in H as (a & s1 & E & H).
  apply Hc in E as ->. by apply Hk in H.
Qed.
Lemma reader_if {S A} (b : bool) (c d : M S A) :
  Reader c -> Reader d -> Reader (if b then c else d).
Proof. by destruct b. Qed.

#[export] Instance fuel_free_ret {S A} (a : A) : FuelFree (mret a : M S A).
Proof. done. Qed.
#[export] Instance fuel_free_undefined {S A} : FuelFree (fail Undefined : M S A).
Proof. done. Qed.
#[export] Instance fuel_free_segfault {S A} : FuelFree (fail SegFault : M S A).
Proof. done. Qed.
Lemma fuel_free_bind {S A B} (c : M S A) (k : A -> M S B) :
  FuelFree c -> (forall a, FuelFree (k a)) -> FuelFree (c ≫= k).
Proof.
  intros Hc Hk s H. apply bind_fault in H as [H|(a & s1 & _ & H)].
  - by apply Hc in H.
  - by apply Hk in H.
Qed.
Lemma bind_out_of_fuel {S A B} (c : M S A) (k : A -> M S B) s :
  FuelFree c -> (c ≫= k) s = Fault OutOfFuel ->
  exists a s1, c s = Done (a, s1) /\ k a s1 = Fault OutOfFuel.
Proof. intros Hc H. apply bind_fault in H as [H|H]; [by apply Hc in H|done]. Qed.
Lemma fuel_free_if {S A} (b : bool) (c d : M S A) :
  FuelFree c -> FuelFree d -> FuelFree (if b then c else d).
Proof. by destruct b. Qed.

(** Walk through the structure of a computation; the leaves are closed by
    instances. *)
Ltac solve_computation :=
  repeat match goal with
  | |- forall _, _ => intro
  | |- Reader (mbind _ _) => apply reader_bind
  | |- Reader (if _ then _ else _) => apply reader_if
  | |- Reader (match ?o with Some _ => _ | None => _ end) => destruct o
  | |- FuelFree (mbind _ _) => apply fuel_free_bind
  | |- FuelFree (if _ then _ else _) => apply fuel_free_if
  | |- FuelFree (match ?o with Some _ => _ | None => _ end) => destruct o
  | |- _ => apply _
  end.

(** Decompose a hypothesis that a monadic computation is [Done]. *)
Ltac minv H :=
  repeat match type of H with
  | (_ ≫= _) _ = Done _ =>
      let a := fresh "a" in let s := fresh "s" in
      let E := fresh "E" in
      apply bind_inv in H as (a & s & E & H)
  end.

(** ** Weakest preconditions

    [wp c Q s]: run from [s], [c] finishes without a fault, in a state and with a
    value that satisfy [Q]. *)
Definition wp {S A} (c : M S A) (Q : A -> S -> Prop) (s : S) : Prop :=
  match c s with Done (a, s') => Q a s' | Fault _ => False end.

Lemma wp_ret {S A} (a : A) (Q : A -> S -> Prop) s : Q a s -> wp (mret a) Q s.
Proof. done. Qed.

Lemma wp_bind {S A B} (c : M S A) (k : A -> M S B) Q s :
  wp c (fun a => wp (k a) Q) s -> wp (c ≫= k) Q s.
Proof. unfold wp, mbind, M_bind. by destruct (c s) as [[a s1]|f]. Qed.

Lemma wp_if {S A} (b : bool) (c d : M S A) Q s :
  (b = true -> wp c Q s) -> (b = false -> wp d Q s) -> wp (if b then c else d) Q s.
Proof. destruct b; auto. Qed.

Lemma wp_mono {S A} (c : M S A) (P Q : A -> S -> Prop) s :
  wp c P s -> (forall a s', P a s' -> Q a s') -> wp c Q s.
Proof. unfold wp. destruct (c s) as [[a s1]|f]; auto. Qed.

Lemma wp_and {S A} (c : M S A) (P Q : A -> S -> Prop) s :
  wp c P s -> wp c Q s -> wp c (fun a s' => P a s' /\ Q a s') s.
Proof. unfold wp. by destruct (c s) as [[a s1]|f]. Qed.

Lemma wp_done {S A} (c : M S A) Q s :
  wp c Q s -> exists a s', c s = Done (a, s') /\ Q a s'.
Proof. unfold wp. destruct (c s) as [[a s1]|f]; [eauto|done]. Qed.

Lemma wp_value {S A} (c : M S A) Q s a s' : wp c Q s -> c s = Done (a, s') -> Q a s'.
Proof. unfold wp. intros H E. by rewrite E in H. Qed.

(** Reasoning about a first part of several steps. *)
Lemma wp_assoc {S A B C} (c : M S A) (d : A -> M S B) (k : B -> M S C) Q s :
  wp (c ≫= d) (fun b => wp (k b) Q) s -> wp (c ≫= fun a => d a ≫= k) Q s.
Proof.
  unfold wp, mbind, M_bind. destruct (c s) as [[a s1]|f]; [|done]. by destruct (d a s1) as [[b s2]|f].
Qed.

(** A computation that faults after a first part that does not. *)
Lemma wp_then_fault {S A B} (c : M S A) (k : A -> M S B) f s :
  wp c (fun a s' => k a s' = Fault f) s -> (c ≫= k) s = Fault f.
Proof. unfold wp, mbind, M_bind. by destruct (c s) as [[a s1]|g]. Qed.

(** One step of a computation; a component adds the rules of its primitives. *)
Ltac wp_prim := fail.
Ltac wp_step :=
  lazymatch goal with
  | |- wp (mbind _ _) _ _ => apply wp_bind
  | |- wp (mret _) _ _ => apply wp_ret
  | |- wp (if _ then _ else _) _ _ => apply wp_if; intros ?; zbool
  | |- wp (let x := ?v in _) _ _ => cbv zeta
  | |- wp _ _ _ => wp_prim
  end; cbv beta.

(** ** Bytes and little-endian integers *)

Fixpoint le_bytes (n : nat) (z : Z) : list Z :=
  match n with
  | O => []
  | S n' => z mod 256 :: le_bytes n' (z / 256)
  end.

Fixpoint le_value (bs : list Z) : Z :=
  match bs with
  | [] => 0
  | b :: bs' => b mod 256 + 256 * le_value bs'
  end.

Lemma length_le_bytes n z : length (le_bytes n z) = n.
Proof. revert z. induction n; intros; simpl; auto. Qed.

Lemma le_value_range bs : 0 <= le_value bs < 2 ^ (8 * Z.of_nat (length bs)).
Proof.
  induction bs as [|b bs IH]; cbn [le_value length]; [done|].
  replace (8 * Z.of_nat (S (length bs))) with (8 + 8 * Z.of_nat (length bs)) by lia.
  rewrite Z.pow_add_r by lia. pose proof (Z.mod_pos_bound b 256). lia.
Qed.

Lemma le_value_bytes n z : le_value (le_bytes n z) = z mod 2 ^ (8 * Z.of_nat n).
Proof.
  revert z. induction n as [|n IH]; intros z; cbn [le_bytes le_value].
  { change (2 ^ (8 * Z.of_nat 0)) with 1. by rewrite Z.mod_1_r. }
  rewrite IH, Z.mod_mod by lia.
  replace (8 * Z.of_nat (S n)) with (8 + 8 * Z.of_nat n) by lia.
  rewrite Z.pow_add_r by lia.
  rewrite (Z.rem_mul_r z (2 ^ 8)) by lia. reflexivity.
Qed.

Lemma le_value_bytes_small n z :
  0 <= z < 2 ^ (8 * Z.of_nat n) -> le_value (le_bytes n z) = z.
Proof. intros. rewrite le_value_bytes. by apply Z.mod_small. Qed.

(** The low bytes of an integer start the bytes of a wider reading of it. *)
Lemma le_bytes_prefix m n z :
  (m <= n)%nat -> le_bytes m z ++ drop m (le_bytes n z) = le_bytes n z.
Proof.
  revert n z. induction m as [|m IH]; intros n z H; [done|]. destruct n as [|n]; [lia|].
  cbn [le_bytes drop app]. by rewrite IH by lia.
Qed.

(** ** Lists *)

Definition zeros (n : nat) : list Z := replicate n 0.

Lemma take_drop_app_middle {A} (l1 l2 l3 : list A) :
  take (length l2) (drop (length l1) (l1 ++ l2 ++ l3)) = l2.
Proof. by rewrite drop_app_length, take_app_length. Qed.
