(* ===== verification/Memory.v ===== *)
(** * Memory: the memory map of the system and byte-addressed memory

    - [Layout]: the constants of [common/memory.h] and [align] of
      [common/align.h], with the layout facts the other components rely on;
    - the byte-addressed memory of a process, with the loads, the stores and
      the C library's [memcpy] and [memset] that the loaders use. *)

From S2P Require Import Prelude.

(** ** common/memory.h and common/align.h *)

Module Layout.

Definition DEPLOY_PHYS_ADDR_START : Z := 0x100000000.
Definition DEPLOY_PHYS_ADDR_END : Z := 0x140000000.
Definition DEPLOY_PHYS_MEM_SIZE : Z := DEPLOY_PHYS_ADDR_END - DEPLOY_PHYS_ADDR_START.
Definition PAGE_SIZE : Z := 0x1000.
Definition TRAMPOLINE_ADDR : Z := 0x70000.
Definition TRAMPOLINE_SIZE : Z := 0x2000.
Definition TRAMPOLINE_ADDR_STR : string := "0x70000".
Definition INITIAL_PML4T : Z := TRAMPOLINE_ADDR + PAGE_SIZE.

(** [align<T>(val, align_val)] at the width [w] of the unsigned type [T]; a
    zero [align_val] is undefined behaviour. *)
Definition align (w val align_val : Z) : outcome Z :=
  if align_val =? 0 then Fault Undefined
  else Done (wrap w ((val / align_val) * align_val)).

(** The friend region [DEPLOY_PHYS_ADDR_START, DEPLOY_PHYS_ADDR_END). *)
Definition in_friend_region (a : Z) : Prop :=
  DEPLOY_PHYS_ADDR_START <= a < DEPLOY_PHYS_ADDR_END.
Definition in_trampoline (a : Z) : Prop :=
  TRAMPOLINE_ADDR <= a < TRAMPOLINE_ADDR + TRAMPOLINE_SIZE.

#[export] Instance in_friend_region_dec a : Decision (in_friend_region a).
Proof. unfold in_friend_region. apply _. Defined.
#[export] Instance in_trampoline_dec a : Decision (in_trampoline a).
Proof. unfold in_trampoline. apply _. Defined.

(** [align] returns the greatest multiple of [align_val] not above [val]. *)
Lemma align_spec w val a r :
  0 <= w -> uint w val -> 0 < a ->
  align w val a = Done r <->
  (exists k, r = k * a) /\ r <= val < r + a.
Proof.
  intros Hw [Hlo Hhi] Ha. unfold align.
  destruct (Z.eqb_spec a 0) as [E|_]; [lia|].
  pose proof (Z.div_mod val a ltac:(lia)). pose proof (Z.mod_pos_bound val a Ha).
  pose proof (Z.div_pos val a Hlo Ha).
  assert (0 <= val / a * a <= val) by nia.
  rewrite wrap_small by (unfold uint; lia).
  split.
  - intros [= <-]. split; [by exists (val / a)|lia].
  - intros [[k ->] Hk]. do 2 f_equal.
    assert (val / a = k) as -> by (symmetry; apply (Z.div_unique val a k (val - k * a)); lia).
    done.
Qed.

End Layout.

(** ** Byte-addressed memory

    The memory of a process maps the addresses that are mapped to their byte;
    touching any other address is a segmentation fault.  Pointer arithmetic
    wraps at 64 bits. *)

Abbreviation mem := (gmap Z Z).

Fixpoint read_bytes (m : mem) (a : Z) (n : nat) : option (list Z) :=
  match n with
  | O => Some []
  | S n' =>
      b ← m !! u64 a;
      bs ← read_bytes m (a + 1) n';
      Some (b :: bs)
  end.

Fixpoint write_bytes (m : mem) (a : Z) (bs : list Z) : option mem :=
  match bs with
  | [] => Some m
  | b :: bs' =>
      match m !! u64 a with
      | None => None
      | Some _ => write_bytes (<[u64 a := b]> m) (a + 1) bs'
      end
  end.

(** Little-endian load and store of an [n]-byte unsigned integer. *)
Definition load (n : nat) (a : Z) : M mem Z := fun m =>
  match read_bytes m a n with
  | Some bs => Done (le_value bs, m)
  | None => Fault SegFault
  end.

Definition store (n : nat) (a v : Z) : M mem unit := fun m =>
  match write_bytes m a (le_bytes n v) with
  | Some m' => Done (tt, m')
  | None => Fault SegFault
  end.

(** C's [memcpy]: undefined when the two ranges overlap. *)
Definition ranges_overlap (d s n : Z) : bool := (d <? s + n) && (s <? d + n).

Definition memcpy (dst src n : Z) : M mem unit := fun m =>
  if n =? 0 then Done (tt, m)
  else if ranges_overlap dst src n then Fault Undefined
  else match read_bytes m src (Z.to_nat n) with
       | None => Fault SegFault
       | Some bs =>
           match write_bytes m dst bs with
           | None => Fault SegFault
           | Some m' => Done (tt, m')
           end
       end.

Definition memset (dst c n : Z) : M mem unit := fun m =>
  match write_bytes m dst (replicate (Z.to_nat n) (u8 c)) with
  | None => Fault SegFault
  | Some m' => Done (tt, m')
  end.

(** [holds m a bs]: the bytes [bs] are stored at [a]. *)
Definition holds (m : mem) (a : Z) (bs : list Z) : Prop :=
  forall i b, bs !! i = Some b -> m !! (a + Z.of_nat i) = Some b.

(** [mapped m a n]: the [n] bytes from [a] are mapped. *)
Definition mapped (m : mem) (a n : Z) : Prop :=
  forall x, a <= x < a + n -> is_Some (m !! x).

(** [same_outside P m m']: the memories agree on the addresses outside [P]. *)
Definition same_outside (P : Z -> Prop) (m m' : mem) : Prop :=
  forall x, ~ P x -> m' !! x = m !! x.

#[export] Instance same_outside_preorder P : PreOrder (same_outside P).
Proof.
  split; [done|]. intros m1 m2 m3 H12 H23 x Hx. by rewrite H23, H12.
Qed.

(** *** Reads *)

Lemma read_bytes_length m a n bs : read_bytes m a n = Some bs -> length bs = n.
Proof.
  revert a bs. induction n as [|n IH]; intros a bs; simpl; [naive_solver|].
  destruct (m !! u64 a); simpl; [|done].
  destruct (read_bytes m (a + 1) n) as [bs'|] eqn:E; simpl; [|done].
  intros [= <-]. simpl. by rewrite (IH _ _ E).
Qed.

(** Inside the address space no pointer wraps, and a read returns the bytes
    stored in the range. *)
Lemma read_bytes_lookup m a n bs :
  0 <= a -> a + Z.of_nat n <= 2 ^ 64 ->
  read_bytes m a n = Some bs <-> length bs = n /\ holds m a bs.
Proof.
  revert a bs. induction n as [|n IH]; intros a bs Ha Hb; cbn [read_bytes].
  { split; [intros [= <-]; split; [done|]; intros i b; by rewrite lookup_nil|].
    intros [Hl _]. by destruct bs. }
  rewrite u64_small by lia. split.
  - destruct (m !! a) as [b|] eqn:Eb; simpl; [|done].
    destruct (read_bytes m (a + 1) n) as [bs'|] eqn:E; simpl; [|done].
    intros [= <-]. apply IH in E as [Hl Hh]; [|lia..].
    split; [by simpl; rewrite Hl|].
    intros [|i] c; simpl; [intros [= <-]; by rewrite Z.add_0_r|].
    intros Hi. rewrite <- (Hh _ _ Hi). f_equal. lia.
  - intros [Hl Hh]. destruct bs as [|b bs]; [done|].
    pose proof (Hh 0%nat b eq_refl) as H0. rewrite Z.add_0_r in H0. rewrite H0. simpl.
    assert (read_bytes m (a + 1) n = Some bs) as ->; [|done].
    apply IH; [lia..|]. split; [simpl in Hl; lia|].
    intros i c Hi. rewrite <- (Hh (S i) c Hi). f_equal. lia.
Qed.

Lemma read_bytes_mapped m a n :
  0 <= a -> a + Z.of_nat n <= 2 ^ 64 -> mapped m a (Z.of_nat n) ->
  is_Some (read_bytes m a n).
Proof.
  revert a. induction n as [|n IH]; intros a Ha Hb Hm; cbn [read_bytes]; [eauto|].
  rewrite u64_small by lia.
  destruct (Hm a) as [b ->]; [lia|]. simpl.
  destruct (IH (a + 1)) as [bs ->]; [lia..| |simpl; eauto].
  intros x Hx. apply Hm. lia.
Qed.

(** A read only depends on the range it reads. *)
Lemma read_bytes_agree m m' a n :
  0 <= a -> a + Z.of_nat n <= 2 ^ 64 ->
  (forall x, a <= x < a + Z.of_nat n -> m' !! x = m !! x) ->
  read_bytes m' a n = read_bytes m a n.
Proof.
  revert a. induction n as [|n IH]; intros a Ha Hb Hm; cbn [read_bytes]; [done|].
  rewrite u64_small, Hm, IH by lia || (intros; apply Hm; lia).
  done.
Qed.

(** Two memories that agree up to a displacement. *)
Lemma read_bytes_shift m m' a a' n :
  0 <= a -> a + Z.of_nat n <= 2 ^ 64 -> 0 <= a' -> a' + Z.of_nat n <= 2 ^ 64 ->
  (forall i, 0 <= i < Z.of_nat n -> m' !! (a' + i) = m !! (a + i)) ->
  read_bytes m' a' n = read_bytes m a n.
Proof.
  revert a a'. induction n as [|n IH]; intros a a' Ha Hb Ha' Hb' Hm; cbn [read_bytes]; [done|].
  pose proof (Hm 0 ltac:(lia)) as H0. rewrite !Z.add_0_r in H0.
  rewrite !u64_small, H0, (IH (a + 1) (a' + 1)); [done|lia..| |lia|lia].
  intros i Hi. rewrite <- !Z.add_assoc. apply Hm. lia.
Qed.

(** *** Writes *)

(** Outside the address space: a write of a range that reaches past the top of
    the address space touches its last byte. *)
Lemma write_bytes_top m a bs :
  0 <= a < 2 ^ 64 -> 2 ^ 64 <= a + Z.of_nat (length bs) ->
  m !! (2 ^ 64 - 1) = None -> write_bytes m a bs = None.
Proof.
  revert a m. induction bs as [|b bs IH]; intros a m Ha Hb Hm; [simpl in Hb; lia|].
  cbn [write_bytes]. rewrite u64_small by lia.
  destruct (decide (a = 2 ^ 64 - 1)) as [->|Hne]; [by rewrite Hm|].
  destruct (m !! a); [|done].
  apply IH; [lia| |].
  - cbn [length] in Hb. lia.
  - by rewrite lookup_insert_ne by lia.
Qed.

Lemma write_bytes_lookup m a bs m' :
  0 <= a -> a + Z.of_nat (length bs) <= 2 ^ 64 ->
  write_bytes m a bs = Some m' ->
  (forall x, ~ (a <= x < a + Z.of_nat (length bs)) -> m' !! x = m !! x) /\
  holds m' a bs.
Proof.
  revert a m. induction bs as [|b bs IH]; intros a m Ha Hb; cbn [write_bytes length].
  { intros [= <-]. split; [done|]. intros i c. by rewrite lookup_nil. }
  cbn [length] in Hb. rewrite u64_small by lia.
  destruct (m !! a) eqn:E; [|done]. intros H.
  apply IH in H as [Hout Hin]; [|lia..].
  split.
  - intros x Hx. rewrite Hout by lia. apply lookup_insert_ne. lia.
  - intros [|i] c; simpl.
    + intros [= <-]. rewrite Z.add_0_r, Hout by lia. apply lookup_insert_eq.
    + intros Hi. rewrite <- (Hin _ _ Hi). f_equal. lia.
Qed.

Lemma write_bytes_mapped m a bs :
  0 <= a -> a + Z.of_nat (length bs) <= 2 ^ 64 ->
  mapped m a (Z.of_nat (length bs)) -> is_Some (write_bytes m a bs).
Proof.
  revert a m. induction bs as [|b bs IH]; intros a m Ha Hb Hm; cbn [write_bytes]; [eauto|].
  cbn [length] in *. rewrite u64_small by lia.
  destruct (Hm a) as [c ->]; [lia|].
  apply IH; [lia..|].
  intros x Hx. rewrite lookup_insert_ne by lia. apply Hm. lia.
Qed.

(** Writing never unmaps or maps an address. *)
Lemma write_bytes_dom m a bs m' x :
  write_bytes m a bs = Some m' -> is_Some (m' !! x) <-> is_Some (m !! x).
Proof.
  revert a m. induction bs as [|b bs IH]; intros a m; cbn [write_bytes]; [naive_solver|].
  destruct (m !! u64 a) eqn:E; [|done]. intros H. rewrite (IH _ _ H).
  rewrite lookup_insert. case_decide as Hx; [subst; rewrite E; split; eauto|done].
Qed.

(** *** Loads, stores, memcpy and memset *)

Lemma load_range n a m v m' :
  load n a m = Done (v, m') -> 0 <= v < 2 ^ (8 * Z.of_nat n) /\ m' = m.
Proof.
  unfold load. destruct (read_bytes m a n) as [bs|] eqn:E; [|done].
  intros [= <- <-]. split; [|done]. rewrite <- (read_bytes_length _ _ _ _ E).
  apply le_value_range.
Qed.

#[global] Typeclasses Opaque load store memcpy memset.

#[export] Instance load_reader n a : Reader (load n a).
Proof. intros m v m' H. by apply load_range in H as [_ ->]. Qed.
#[export] Instance load_fuel_free n a : FuelFree (load n a).
Proof. intros m. unfold load. by destruct (read_bytes m a n). Qed.
#[export] Instance memcpy_fuel_free d s n : FuelFree (memcpy d s n).
Proof. intros m. unfold memcpy. repeat case_match; done. Qed.
#[export] Instance memset_fuel_free d c n : FuelFree (memset d c n).
Proof. intros m. unfold memset. by case_match. Qed.
#[export] Instance store_fuel_free n a v : FuelFree (store n a v).
Proof. intros m. unfold store. by case_match. Qed.

Lemma load_holds n a v m :
  0 <= a -> a + Z.of_nat n <= 2 ^ 64 -> 0 <= v < 2 ^ (8 * Z.of_nat n) ->
  holds m a (le_bytes n v) -> load n a m = Done (v, m).
Proof.
  intros Ha Hb Hv Hh. unfold load.
  assert (read_bytes m a n = Some (le_bytes n v)) as ->.
  { apply read_bytes_lookup; [done..|]. split; [apply length_le_bytes|done]. }
  by rewrite le_value_bytes_small.
Qed.

Lemma load_agree n a m m' :
  0 <= a -> a + Z.of_nat n <= 2 ^ 64 ->
  (forall x, a <= x < a + Z.of_nat n -> m' !! x = m !! x) ->
  load n a m' = match load n a m with
                | Done (v, _) => Done (v, m')
                | Fault f => Fault f
                end.
Proof.
  intros Ha Hb Hm. unfold load. rewrite (read_bytes_agree m m') by done.
  by destruct (read_bytes m a n).
Qed.

Lemma store_spec n a v m :
  0 <= a -> a + Z.of_nat n <= 2 ^ 64 -> mapped m a (Z.of_nat n) ->
  exists m', store n a v m = Done (tt, m') /\
    (forall x, ~ (a <= x < a + Z.of_nat n) -> m' !! x = m !! x) /\
    holds m' a (le_bytes n v) /\
    (forall x, is_Some (m' !! x) <-> is_Some (m !! x)).
Proof.
  intros Ha Hb Hm. unfold store.
  destruct (write_bytes_mapped m a (le_bytes n v)) as [m' E];
    rewrite ?length_le_bytes; [done..|].
  rewrite E. exists m'. split; [done|].
  pose proof E as E'. apply write_bytes_lookup in E' as [Hout Hin];
    rewrite ?length_le_bytes in *; [|done..].
  split; [done|]. split; [done|]. intros x. by apply (write_bytes_dom _ _ _ _ x E).
Qed.

Lemma memcpy_done dst src n m m' :
  0 <= dst -> 0 <= src -> 0 <= n -> dst + n <= 2 ^ 64 -> src + n <= 2 ^ 64 ->
  memcpy dst src n m = Done (tt, m') ->
  (forall x, ~ (dst <= x < dst + n) -> m' !! x = m !! x) /\
  (forall i, 0 <= i < n -> m' !! (dst + i) = m !! (src + i)) /\
  (forall x, is_Some (m' !! x) <-> is_Some (m !! x)).
Proof.
  intros Hd Hs Hn Hdn Hsn. unfold memcpy.
  destruct (Z.eqb_spec n 0) as [->|Hn0].
  { intros [= <-]. split_and!; [done|intros; lia|done]. }
  destruct (ranges_overlap dst src n); [done|].
  destruct (read_bytes m src (Z.to_nat n)) as [bs|] eqn:Er; [|done].
  destruct (write_bytes m dst bs) as [m1|] eqn:Ew; [|done].
  intros [= <-].
  apply read_bytes_lookup in Er as [Hl Hh]; [|lia..].
  pose proof Ew as Ew'. apply write_bytes_lookup in Ew' as [Hout Hin]; [|lia..].
  split_and!; [intros; apply Hout; lia| |intros x; by apply (write_bytes_dom _ _ _ _ x Ew)].
  intros i Hi. destruct (lookup_lt_is_Some_2 bs (Z.to_nat i)) as [b Eb]; [lia|].
  pose proof (Hin _ _ Eb) as H1. pose proof (Hh _ _ Eb) as H2.
  rewrite Z2Nat.id in H1, H2 by lia. by rewrite H1, H2.
Qed.

(** Where the destination does not wrap, a copy changes nothing but the
    destination, whatever the source. *)
Lemma memcpy_frame dst src n m m' :
  0 <= dst -> 0 <= n -> dst + n <= 2 ^ 64 ->
  memcpy dst src n m = Done (tt, m') ->
  (forall x, ~ (dst <= x < dst + n) -> m' !! x = m !! x) /\
  (forall x, is_Some (m' !! x) <-> is_Some (m !! x)).
Proof.
  intros Hd Hn Hdn. unfold memcpy.
  destruct (Z.eqb_spec n 0) as [->|Hn0]; [by intros [= <-]|].
  destruct (ranges_overlap dst src n); [done|].
  destruct (read_bytes m src (Z.to_nat n)) as [bs|] eqn:Er; [|done].
  destruct (write_bytes m dst bs) as [m1|] eqn:Ew; [|done].
  intros [= <-]. apply read_bytes_length in Er.
  pose proof Ew as Ew'. apply write_bytes_lookup in Ew' as [Hout _]; [|lia..].
  split; [intros; apply Hout; lia|intros x; by apply (write_bytes_dom _ _ _ _ x Ew)].
Qed.

Lemma memset_done dst c n m m' :
  0 <= dst -> 0 <= n -> dst + n <= 2 ^ 64 ->
  memset dst c n m = Done (tt, m') ->
  (forall x, ~ (dst <= x < dst + n) -> m' !! x = m !! x) /\
  (forall x, dst <= x < dst + n -> m' !! x = Some (u8 c)) /\
  (forall x, is_Some (m' !! x) <-> is_Some (m !! x)).
Proof.
  intros Hd Hn Hdn. unfold memset.
  destruct (write_bytes m dst _) as [m1|] eqn:Ew; [|done]. intros [= <-].
  pose proof Ew as Ew'. apply write_bytes_lookup in Ew' as [Hout Hin];
    rewrite ?length_replicate in *; [|lia..].
  split_and!; [intros; apply Hout; lia| |intros x; by apply (write_bytes_dom _ _ _ _ x Ew)].
  intros x Hx. replace x with (dst + Z.of_nat (Z.to_nat (x - dst))) by lia.
  apply Hin. apply lookup_replicate. split; [done|lia].
Qed.

(** A copy or fill whose range reaches the top of the address space faults
    when the last byte of the address space is not mapped. *)
Lemma memcpy_top dst src n m :
  0 <= dst < 2 ^ 64 -> 0 < n -> 2 ^ 64 <= dst + n -> m !! (2 ^ 64 - 1) = None ->
  exists f, memcpy dst src n m = Fault f /\ f <> OutOfFuel.
Proof.
  intros Hd Hn Hdn Hm. unfold memcpy.
  destruct (Z.eqb_spec n 0); [lia|].
  destruct (ranges_overlap dst src n); [by eexists|].
  destruct (read_bytes m src (Z.to_nat n)) as [bs|] eqn:Er; [|by eexists].
  apply read_bytes_length in Er.
  rewrite write_bytes_top by (done || lia). by eexists.
Qed.

Lemma memset_top dst c n m :
  0 <= dst < 2 ^ 64 -> 2 ^ 64 <= dst + n -> m !! (2 ^ 64 - 1) = None ->
  memset dst c n m = Fault SegFault.
Proof.
  intros Hd Hdn Hm. unfold memset.
  rewrite write_bytes_top; [done..| |done].
  rewrite length_replicate. lia.
Qed.

Lemma memcpy_mapped dst src n m :
  0 <= dst -> 0 <= src -> 0 <= n -> dst + n <= 2 ^ 64 -> src + n <= 2 ^ 64 ->
  ranges_overlap dst src n = false ->
  mapped m dst n -> mapped m src n ->
  exists m', memcpy dst src n m = Done (tt, m').
Proof.
  intros Hd Hs Hn Hdn Hsn Ho Hmd Hms. unfold memcpy.
  destruct (Z.eqb_spec n 0) as [->|Hn0]; [eauto|]. rewrite Ho.
  destruct (read_bytes_mapped m src (Z.to_nat n)) as [bs E];
    [lia|lia|rewrite Z2Nat.id; done|].
  rewrite E. apply read_bytes_length in E.
  destruct (write_bytes_mapped m dst bs) as [m' ->];
    [lia|lia|rewrite E, Z2Nat.id; done|eauto].
Qed.

Lemma memset_mapped dst c n m :
  0 <= dst -> 0 <= n -> dst + n <= 2 ^ 64 -> mapped m dst n ->
  exists m', memset dst c n m = Done (tt, m').
Proof.
  intros Hd Hn Hdn Hm. unfold memset.
  destruct (write_bytes_mapped m dst (replicate (Z.to_nat n) (u8 c))) as [m' ->];
    rewrite ?length_replicate, ?Z2Nat.id; [done..|eauto].
Qed.

(** ** Total writes, for specifications

    [blit m a bs] is the memory with [bs] at [a]; on mapped memory it is what
    the faulting operations do. *)
Fixpoint blit (m : mem) (a : Z) (bs : list Z) : mem :=
  match bs with
  | [] => m
  | b :: bs' => blit (<[a := b]> m) (a + 1) bs'
  end.

(** The [n] bytes of a file from offset [off]. *)
Definition slice (file : list Z) (off n : Z) : list Z :=
  take (Z.to_nat n) (drop (Z.to_nat off) file).

Lemma blit_lookup m a bs x :
  blit m a bs !! x =
    if decide (a <= x < a + Z.of_nat (length bs)) then bs !! Z.to_nat (x - a) else m !! x.
Proof.
  revert m a. induction bs as [|b bs IH]; intros m a; cbn [blit length].
  { rewrite decide_False by lia. done. }
  rewrite IH. destruct (decide (x = a)) as [->|Hx].
  - rewrite decide_False, decide_True by lia. rewrite lookup_insert_eq.
    by rewrite Z.sub_diag.
  - destruct (decide (a + 1 <= x < a + 1 + Z.of_nat (length bs))).
    + rewrite decide_True by lia.
      replace (Z.to_nat (x - a)) with (S (Z.to_nat (x - (a + 1)))) by lia. done.
    + rewrite decide_False by lia. by rewrite lookup_insert_ne by done.
Qed.

Lemma write_bytes_blit m a bs :
  0 <= a -> a + Z.of_nat (length bs) <= 2 ^ 64 -> mapped m a (Z.of_nat (length bs)) ->
  write_bytes m a bs = Some (blit m a bs).
Proof.
  intros Ha Hb Hm. destruct (write_bytes_mapped m a bs) as [m' E]; [done..|].
  rewrite E. f_equal. apply write_bytes_lookup in E as [Hout Hin]; [|done..].
  apply map_eq. intros x. rewrite blit_lookup. case_decide as Hx; [|by apply Hout].
  destruct (lookup_lt_is_Some_2 bs (Z.to_nat (x - a))) as [b Eb]; [lia|].
  rewrite Eb, <- (Hin _ _ Eb). f_equal. lia.
Qed.

Lemma mapped_agree m m' a n :
  (forall x, is_Some (m' !! x) <-> is_Some (m !! x)) -> mapped m a n -> mapped m' a n.
Proof. intros H Hm x Hx. by apply H, Hm. Qed.

Lemma mapped_sub m a n b k : a <= b -> b + k <= a + n -> mapped m a n -> mapped m b k.
Proof. intros H1 H2 H x Hx. apply H. lia. Qed.

Lemma length_slice file off n :
  0 <= off -> 0 <= n -> off + n <= Z.of_nat (length file) ->
  Z.of_nat (length (slice file off n)) = n.
Proof. intros. unfold slice. rewrite length_take, length_drop. lia. Qed.

Lemma slice_lookup file off n i :
  0 <= off -> 0 <= i < n -> slice file off n !! Z.to_nat i = file !! Z.to_nat (off + i).
Proof.
  intros Ho Hi. unfold slice. rewrite lookup_take_lt by lia. rewrite lookup_drop.
  f_equal. lia.
Qed.

Lemma holds_slice m a file off n :
  0 <= off -> 0 <= n -> off + n <= Z.of_nat (length file) ->
  holds m a file -> holds m (a + off) (slice file off n).
Proof.
  intros Ho Hn Hb H i b Hi. unfold slice in Hi.
  apply lookup_take_Some in Hi as [Hi Hlt]. rewrite lookup_drop in Hi.
  rewrite <- (H _ _ Hi). f_equal. lia.
Qed.

Lemma holds_mapped m a bs : holds m a bs -> mapped m a (Z.of_nat (length bs)).
Proof.
  intros H x Hx. destruct (lookup_lt_is_Some_2 bs (Z.to_nat (x - a))) as [b Eb]; [lia|].
  exists b. rewrite <- (H _ _ Eb). f_equal. lia.
Qed.

Lemma holds_agree m m' a bs :
  (forall x, a <= x < a + Z.of_nat (length bs) -> m' !! x = m !! x) ->
  holds m a bs -> holds m' a bs.
Proof.
  intros Hm H i b Hi. rewrite Hm; [by apply H|].
  apply lookup_lt_Some in Hi. lia.
Qed.

(** A copy out of a file in memory that is not overlapped by its destination. *)
Lemma memcpy_file m a file dst off n :
  0 <= a -> a + Z.of_nat (length file) <= 2 ^ 64 -> holds m a file ->
  0 <= off -> 0 <= n -> off + n <= Z.of_nat (length file) ->
  0 <= dst -> dst + n <= 2 ^ 64 -> mapped m dst n ->
  (dst + n <= a \/ a + Z.of_nat (length file) <= dst) ->
  memcpy dst (a + off) n m = Done (tt, blit m dst (slice file off n)).
Proof.
  intros Ha Hb Hh Ho Hn Hof Hd Hdn Hm Hdisj. unfold memcpy.
  destruct (Z.eqb_spec n 0) as [->|Hn0]; [done|].
  assert (ranges_overlap dst (a + off) n = false) as ->.
  { unfold ranges_overlap. apply andb_false_iff. rewrite !Z.ltb_ge. lia. }
  assert (read_bytes m (a + off) (Z.to_nat n) = Some (slice file off n)) as ->.
  { apply read_bytes_lookup; [lia..|]. split.
    - pose proof (length_slice file off n). lia.
    - by apply holds_slice. }
  rewrite write_bytes_blit; rewrite ?length_slice; done.
Qed.

Lemma memset_blit m dst c n :
  0 <= dst -> 0 <= n -> dst + n <= 2 ^ 64 -> mapped m dst n ->
  memset dst c n m = Done (tt, blit m dst (replicate (Z.to_nat n) (u8 c))).
Proof.
  intros Hd Hn Hdn Hm. unfold memset.
  rewrite write_bytes_blit; rewrite ?length_replicate, ?Z2Nat.id; done.
Qed.

Lemma blit_dom m a bs x :
  mapped m a (Z.of_nat (length bs)) -> is_Some (blit m a bs !! x) <-> is_Some (m !! x).
Proof.
  intros Hm. rewrite blit_lookup. case_decide as Hx; [|done].
  split; intros _; [by apply Hm|]. apply lookup_lt_is_Some_2. lia.
Qed.
