(* ===== verification/CStruct.v ===== *)
(** * CStruct: layout of C structures on x86-64

    The System V x86-64 layout of a structure of integer members and arrays of
    them: every member is placed at the next multiple of the size of its type,
    and the size is padded to the largest alignment.  [encode]/[decode] give the
    object representation, [get_field] is the access [raw->name[j]] through a
    pointer into memory. *)

From S2P Require Import Prelude Memory.

(** An integer type: its size in bytes (also its alignment) and its sign. *)
Record ctype := CType { ct_size : nat; ct_signed : bool }.

Definition uint8_t := CType 1 false.
Definition uint16_t := CType 2 false.
Definition uint32_t := CType 4 false.
Definition uint64_t := CType 8 false.
Definition int32_t := CType 4 true.
Definition int64_t := CType 8 true.
Definition unsigned_char := uint8_t.

(** A member: its name, the other names of it when it is a union of members of
    the same type, its element type and its number of elements. *)
Record field := Field {
  f_name : string;
  f_alt : list string;
  f_type : ctype;
  f_count : nat
}.

Definition scalar (n : string) (t : ctype) : field := Field n [] t 1.
Definition array (n : string) (t : ctype) (k : nat) : field := Field n [] t k.
Definition union (n : string) (alt : list string) (t : ctype) : field := Field n alt t 1.

Definition f_width (f : field) : nat := ct_size (f_type f).
Definition f_size (f : field) : nat := f_width f * f_count f.

(** Bytes of padding that bring [off] to a multiple of [a]. *)
Definition pad (a off : nat) : nat := (a - off mod a) mod a.

Fixpoint place (off : nat) (s : list field) : list (field * nat) :=
  match s with
  | [] => []
  | f :: s' =>
      let o := (off + pad (f_width f) off)%nat in
      (f, o) :: place (o + f_size f) s'
  end.

Fixpoint end_of (off : nat) (s : list field) : nat :=
  match s with
  | [] => off
  | f :: s' => end_of (off + pad (f_width f) off + f_size f) s'
  end.

Definition alignof (s : list field) : nat := foldr Nat.max 1%nat (f_width <$> s).
Definition sizeof (s : list field) : nat :=
  let e := end_of 0 s in e + pad (alignof s) e.

(** Object representation. *)
Definition encode_elems (w : nat) (v : list Z) : list Z := flat_map (le_bytes w) v.

Fixpoint encode_fields (off : nat) (s : list field) (vs : list (list Z)) : list Z :=
  match s, vs with
  | f :: s', v :: vs' =>
      let p := pad (f_width f) off in
      zeros p ++ encode_elems (f_width f) v ++
      encode_fields (off + p + f_size f) s' vs'
  | _, _ => []
  end.

Definition encode (s : list field) (vs : list (list Z)) : list Z :=
  encode_fields 0 s vs ++ zeros (sizeof s - end_of 0 s).

Definition to_cval (t : ctype) (x : Z) : Z :=
  if ct_signed t then sext (8 * Z.of_nat (ct_size t)) x else x.

Definition decode_elem (t : ctype) (bs : list Z) (o : nat) : Z :=
  to_cval t (le_value (take (ct_size t) (drop o bs))).

Definition decode_field (bs : list Z) (fo : field * nat) : list Z :=
  let '(f, o) := fo in
  (fun j => decode_elem (f_type f) bs (o + j * f_width f)) <$> seq 0 (f_count f).

Definition decode (s : list field) (bs : list Z) : list (list Z) :=
  decode_field bs <$> place 0 s.

(** Access through a pointer. *)
Definition named (n : string) (f : field) : bool :=
  String.eqb (f_name f) n || existsb (String.eqb n) (f_alt f).

Fixpoint find_field (n : string) (l : list (field * nat)) : option (field * nat) :=
  match l with
  | [] => None
  | (f, o) :: l' => if named n f then Some (f, o) else find_field n l'
  end.

Definition offsetof (s : list field) (n : string) : option nat :=
  snd <$> find_field n (place 0 s).

Definition get_field (s : list field) (n : string) (j : Z) (raw : Z) : M mem Z :=
  match find_field n (place 0 s) with
  | None => fail Undefined
  | Some (f, o) =>
      v ← load (f_width f) (u64 (raw + Z.of_nat o + j * Z.of_nat (f_width f)));
      mret (to_cval (f_type f) v)
  end.

(** Values that the members can hold. *)
Definition elem_ok (t : ctype) (z : Z) : Prop :=
  if ct_signed t then sint (8 * Z.of_nat (ct_size t)) z
  else uint (8 * Z.of_nat (ct_size t)) z.

Definition field_ok (f : field) (v : list Z) : Prop :=
  length v = f_count f /\ Forall (elem_ok (f_type f)) v.

Definition vals_ok (s : list field) (vs : list (list Z)) : Prop := Forall2 field_ok s vs.

#[export] Instance elem_ok_dec t z : Decision (elem_ok t z).
Proof. unfold elem_ok. destruct (ct_signed t); apply _. Defined.
#[export] Instance field_ok_dec f v : Decision (field_ok f v).
Proof. unfold field_ok. apply _. Defined.
#[export] Instance vals_ok_dec s vs : Decision (vals_ok s vs).
Proof. unfold vals_ok. apply _. Defined.

(** Every member type has a positive size. *)
Definition struct_wf (s : list field) : Prop := Forall (fun f => (0 < f_width f)%nat) s.

#[export] Instance struct_wf_dec s : Decision (struct_wf s).
Proof. unfold struct_wf. apply _. Defined.

(** ** Offsets *)

Lemma end_of_ge off s : (off <= end_of off s)%nat.
Proof.
  revert off. induction s as [|f s IH]; intros off; simpl; [lia|].
  specialize (IH (off + pad (f_width f) off + f_size f)%nat). lia.
Qed.

Lemma place_bounds off s k f o :
  place off s !! k = Some (f, o) -> (off <= o /\ o + f_size f <= end_of off s)%nat.
Proof.
  revert off k. induction s as [|g s IH]; intros off k; simpl; [done|].
  destruct k as [|k]; simpl.
  - intros [= <- <-]. pose proof (end_of_ge (off + pad (f_width g) off + f_size g) s). lia.
  - intros H. apply IH in H. lia.
Qed.

(** Members do not overlap: they are laid out in declaration order. *)
Lemma place_ordered off s i j f g o p :
  (i < j)%nat -> place off s !! i = Some (f, o) -> place off s !! j = Some (g, p) ->
  (o + f_size f <= p)%nat.
Proof.
  revert off i j. induction s as [|h s IH]; intros off i j Hij; simpl; [done|].
  destruct j as [|j]; [lia|]. destruct i as [|i]; simpl.
  - intros [= <- <-] Hj. apply place_bounds in Hj. lia.
  - intros Hi Hj. eapply (IH _ i j); eauto. lia.
Qed.

Lemma sizeof_ge s : (end_of 0 s <= sizeof s)%nat.
Proof. unfold sizeof. lia. Qed.

Lemma find_field_lookup n l f o :
  find_field n l = Some (f, o) -> exists k, l !! k = Some (f, o).
Proof.
  induction l as [|[g p] l IH]; simpl; [done|].
  destruct (named n g).
  - intros [= -> ->]. by exists 0%nat.
  - intros H. destruct (IH H) as [k Hk]. by exists (S k).
Qed.

Lemma place_fst off s : fst <$> place off s = s.
Proof. revert off. induction s as [|f s IH]; intros; simpl; [done|]. by rewrite IH. Qed.

Lemma place_width s off k f o :
  struct_wf s -> place off s !! k = Some (f, o) -> (0 < f_width f)%nat.
Proof.
  intros Hwf H. unfold struct_wf in Hwf. rewrite Forall_lookup in Hwf.
  apply (Hwf k). rewrite <- (place_fst off s), list_lookup_fmap, H. done.
Qed.

(** ** The object representation read back *)

Lemma length_encode_elems w v : length (encode_elems w v) = (w * length v)%nat.
Proof.
  unfold encode_elems. induction v as [|z v IH]; cbn [flat_map length]; [lia|].
  rewrite length_app, length_le_bytes, IH. lia.
Qed.

Lemma encode_elems_lookup w v j z rest :
  v !! j = Some z ->
  take w (drop (j * w) (encode_elems w v ++ rest)) = le_bytes w z.
Proof.
  revert j. induction v as [|y v IH]; intros j; [done|].
  change (encode_elems w (y :: v)) with (le_bytes w y ++ encode_elems w v).
  rewrite <- app_assoc. destruct j as [|j]; cbn [lookup list_lookup].
  - intros [= ->]. rewrite Nat.mul_0_l, drop_0.
    rewrite <- (length_le_bytes w z) at 1. apply take_app_length.
  - intros H. rewrite drop_app_ge by (rewrite length_le_bytes; lia).
    rewrite length_le_bytes.
    replace (S j * w - w)%nat with (j * w)%nat by lia. by apply IH.
Qed.

Lemma length_encode_fields off s vs :
  Forall2 (fun f v => length v = f_count f) s vs ->
  (off + length (encode_fields off s vs) = end_of off s)%nat.
Proof.
  intros H. revert off. induction H as [|f v s vs Hv _ IH]; intros off; simpl; [lia|].
  rewrite !length_app, length_encode_elems. unfold zeros. rewrite length_replicate.
  rewrite <- IH, Hv. unfold f_size. lia.
Qed.

Lemma encode_fields_drop off s vs k f o v :
  Forall2 (fun f v => length v = f_count f) s vs ->
  place off s !! k = Some (f, o) -> vs !! k = Some v ->
  exists rest, drop (o - off) (encode_fields off s vs) = encode_elems (f_width f) v ++ rest.
Proof.
  intros H. revert off k. induction H as [|g w s vs Hw _ IH]; intros off k; simpl; [done|].
  destruct k as [|k]; simpl.
  - intros [= <- <-] [= ->].
    replace (off + pad (f_width g) off - off)%nat with (length (zeros (pad (f_width g) off)))
      by (unfold zeros; rewrite length_replicate; lia).
    rewrite drop_app_length. eauto.
  - intros Hk Hv. pose proof (place_bounds _ _ _ _ _ Hk) as [Ho _].
    destruct (IH _ _ Hk Hv) as [rest Hr].
    exists rest. rewrite <- Hr. rewrite app_assoc.
    rewrite drop_app_ge; rewrite length_app, length_encode_elems; unfold zeros;
      rewrite length_replicate; unfold f_size in *; rewrite Hw; [f_equal; lia|lia].
Qed.

Lemma vals_ok_lengths s vs :
  vals_ok s vs -> Forall2 (fun f v => length v = f_count f) s vs.
Proof. intros H. eapply Forall2_impl; [exact H|]. by intros f v [? ?]. Qed.

Lemma length_encode s vs : vals_ok s vs -> length (encode s vs) = sizeof s.
Proof.
  intros H. unfold encode, zeros. rewrite length_app, length_replicate.
  pose proof (length_encode_fields 0 s vs (vals_ok_lengths _ _ H)).
  pose proof (sizeof_ge s). lia.
Qed.

Lemma encode_elem_at s vs k f o v j z :
  vals_ok s vs -> place 0 s !! k = Some (f, o) -> vs !! k = Some v -> v !! j = Some z ->
  take (f_width f) (drop (o + j * f_width f) (encode s vs)) = le_bytes (f_width f) z.
Proof.
  intros Hok Hk Hv Hj.
  pose proof (vals_ok_lengths _ _ Hok) as Hlen.
  destruct (encode_fields_drop 0 s vs k f o v Hlen Hk Hv) as [rest Hr].
  rewrite Nat.sub_0_r in Hr.
  pose proof (place_bounds _ _ _ _ _ Hk) as [_ Ho].
  pose proof (length_encode_fields 0 s vs Hlen).
  rewrite <- drop_drop. unfold encode.
  rewrite drop_app_le by (rewrite Nat.add_0_l in *; unfold f_size in *; lia).
  rewrite Hr, <- app_assoc. by apply encode_elems_lookup.
Qed.

Lemma to_cval_bytes t z :
  (0 < ct_size t)%nat -> elem_ok t z -> to_cval t (le_value (le_bytes (ct_size t) z)) = z.
Proof.
  unfold elem_ok, to_cval. intros Hs Hok. rewrite le_value_bytes. destruct (ct_signed t).
  - unfold sext. fold (wrap (8 * Z.of_nat (ct_size t)) z).
    rewrite wrap_idemp by lia. fold (sext (8 * Z.of_nat (ct_size t)) z).
    apply sext_of_sint; [lia|done].
  - apply Z.mod_small, Hok.
Qed.

(** Reading a structure back from its object representation gives its values. *)
Lemma decode_encode s vs : struct_wf s -> vals_ok s vs -> decode s (encode s vs) = vs.
Proof.
  intros Hwf Hok. apply list_eq. intros k. unfold decode. rewrite list_lookup_fmap.
  pose proof (Forall2_length _ _ _ Hok) as Hlen.
  assert (length (place 0 s) = length s) as Hp by (by rewrite <- (place_fst 0 s) at 2; rewrite length_fmap).
  destruct (place 0 s !! k) as [[f o]|] eqn:Hk; simpl.
  2: { apply lookup_ge_None in Hk. symmetry. apply lookup_ge_None. lia. }
  destruct (lookup_lt_is_Some_2 vs k) as [v Hv]; [apply lookup_lt_Some in Hk; lia|].
  rewrite Hv. f_equal. unfold decode_field.
  assert (s !! k = Some f) as Hs by (by rewrite <- (place_fst 0 s), list_lookup_fmap, Hk).
  destruct (Forall2_lookup_lr _ _ _ _ _ _ Hok Hs Hv) as [Hl Hall].
  pose proof (place_width _ _ _ _ _ Hwf Hk) as Hw.
  apply list_eq. intros j. rewrite list_lookup_fmap.
  destruct (decide (j < f_count f)%nat) as [Hj|Hj].
  - rewrite lookup_seq_lt by done. simpl.
    destruct (lookup_lt_is_Some_2 v j) as [z Hz]; [lia|]. rewrite Hz. f_equal.
    unfold decode_elem. fold (f_width f).
    rewrite (encode_elem_at s vs k f o v j z) by done.
    apply to_cval_bytes; [done|]. by apply (Forall_lookup_1 _ _ _ _ Hall Hz).
  - rewrite lookup_seq_ge, (lookup_ge_None_2 v) by lia. done.
Qed.

(** ** Access through a pointer to an object in memory *)

Lemma holds_sub m a bs off n :
  holds m a bs -> (off + n <= length bs)%nat ->
  holds m (a + Z.of_nat off) (take n (drop off bs)).
Proof.
  intros H Hb i b Hi. rewrite lookup_take_Some, lookup_drop in Hi. destruct Hi as [Hi Hn].
  rewrite <- (H _ _ Hi). f_equal. lia.
Qed.

Lemma get_field_holds s vs n f o k v j z raw m :
  struct_wf s -> vals_ok s vs ->
  0 <= raw -> raw + Z.of_nat (sizeof s) <= 2 ^ 64 ->
  holds m raw (encode s vs) ->
  find_field n (place 0 s) = Some (f, o) ->
  place 0 s !! k = Some (f, o) -> vs !! k = Some v -> v !! j = Some z ->
  get_field s n (Z.of_nat j) raw m = Done (z, m).
Proof.
  intros Hwf Hok Hr Hb Hh Hn Hk Hv Hj. unfold get_field. rewrite Hn.
  pose proof (place_width _ _ _ _ _ Hwf Hk) as Hw.
  pose proof (place_bounds _ _ _ _ _ Hk) as [_ Ho].
  pose proof (sizeof_ge s).
  assert (s !! k = Some f) as Hs by (by rewrite <- (place_fst 0 s), list_lookup_fmap, Hk).
  destruct (Forall2_lookup_lr _ _ _ _ _ _ Hok Hs Hv) as [Hl Hall].
  pose proof (Forall_lookup_1 _ _ _ _ Hall Hj) as Hz.
  assert (j < f_count f)%nat as Hjc by (apply lookup_lt_Some in Hj; lia).
  assert (o + j * f_width f + f_width f <= sizeof s)%nat as Hin by (unfold f_size in *; nia).
  assert (0 <= raw + Z.of_nat (o + j * f_width f)) by lia.
  rewrite u64_small by lia.
  replace (raw + Z.of_nat o + Z.of_nat j * Z.of_nat (f_width f))
    with (raw + Z.of_nat (o + j * f_width f)) by lia.
  pose proof (holds_sub m raw (encode s vs) (o + j * f_width f) (f_width f) Hh) as Hsub.
  rewrite length_encode in Hsub by done. specialize (Hsub Hin).
  rewrite (encode_elem_at s vs k f o v j z) in Hsub by done.
  unfold mbind, M_bind, load.
  assert (read_bytes m (raw + Z.of_nat (o + j * f_width f)) (f_width f)
          = Some (le_bytes (f_width f) z)) as ->.
  { apply read_bytes_lookup; [lia..|]. split; [apply length_le_bytes|done]. }
  unfold mret, M_ret. do 2 f_equal. by apply to_cval_bytes.
Qed.

(** The value of a member in a list of member values, by name. *)
Fixpoint value_of_field (n : string) (s : list field) (vs : list (list Z)) : option (list Z) :=
  match s, vs with
  | f :: s', v :: vs' => if named n f then Some v else value_of_field n s' vs'
  | _, _ => None
  end.

Lemma value_of_field_lookup n off s vs v :
  value_of_field n s vs = Some v ->
  exists k f o, find_field n (place off s) = Some (f, o) /\
    place off s !! k = Some (f, o) /\ vs !! k = Some v.
Proof.
  revert off vs. induction s as [|g s IH]; intros off [|w vs]; simpl; [done..|].
  destruct (named n g).
  - intros [= ->]. by exists 0%nat, g, (off + pad (f_width g) off)%nat.
  - intros H. destruct (IH (off + pad (f_width g) off + f_size g)%nat _ H)
      as (k & f & o & H1 & H2 & H3).
    by exists (S k), f, o.
Qed.

(** Access to a member of an object in memory gives the value it was encoded
    with: the form in which the loaders use it, by computation on the name. *)
Lemma get_field_value s vs n j z raw m :
  struct_wf s -> vals_ok s vs ->
  0 <= raw -> raw + Z.of_nat (sizeof s) <= 2 ^ 64 ->
  holds m raw (encode s vs) ->
  value_of_field n s vs ≫= (fun v => v !! j) = Some z ->
  get_field s n (Z.of_nat j) raw m = Done (z, m).
Proof.
  intros Hwf Hok Hr Hb Hh Hz.
  destruct (value_of_field n s vs) as [v|] eqn:Hv; [|done].
  destruct (value_of_field_lookup n 0 s vs v Hv) as (k & f & o & H1 & H2 & H3).
  by eapply get_field_holds.
Qed.

(** A member access depends only on the bytes of the object. *)
Lemma get_field_agree s n j raw m m' f o :
  find_field n (place 0 s) = Some (f, o) ->
  0 <= j < Z.of_nat (f_count f) ->
  0 <= raw -> raw + Z.of_nat (sizeof s) <= 2 ^ 64 ->
  (forall x, raw <= x < raw + Z.of_nat (sizeof s) -> m' !! x = m !! x) ->
  get_field s n j raw m' = match get_field s n j raw m with
                           | Done (v, _) => Done (v, m')
                           | Fault e => Fault e
                           end.
Proof.
  intros Hn Hj Hr Hb Hm. unfold get_field. rewrite Hn.
  destruct (find_field_lookup _ _ _ _ Hn) as [k Hk].
  pose proof (place_bounds _ _ _ _ _ Hk) as [_ Ho]. pose proof (sizeof_ge s).
  unfold f_size in Ho.
  assert (j * Z.of_nat (f_width f) + Z.of_nat (f_width f)
          <= Z.of_nat (f_width f * f_count f)) by nia.
  assert (0 <= j * Z.of_nat (f_width f)) by nia.
  destruct (decide (f_width f = 0%nat)) as [Hz|Hz].
  { unfold mbind, M_bind, load. rewrite Hz. done. }
  rewrite u64_small by lia.
  unfold mbind, M_bind. rewrite (load_agree _ _ m m'); [|lia..|intros; apply Hm; lia].
  by destruct (load _ _ m) as [[v m1]|e].
Qed.

(** A member access does not change memory. *)
#[global] Typeclasses Opaque get_field.
#[export] Instance get_field_reader s n j raw : Reader (get_field s n j raw).
Proof. unfold get_field. destruct (find_field n (place 0 s)) as [[f o]|]; solve_computation. Qed.
#[export] Instance get_field_fuel_free s n j raw : FuelFree (get_field s n j raw).
Proof. unfold get_field. destruct (find_field n (place 0 s)) as [[f o]|]; solve_computation. Qed.

(** The value of an unsigned member fits its type. *)
Definition field_bits (s : list field) (n : string) : option Z :=
  match find_field n (place 0 s) with
  | Some (f, _) => if ct_signed (f_type f) then None else Some (8 * Z.of_nat (f_width f))
  | None => None
  end.

Lemma get_field_range s n j raw m v m' w :
  get_field s n j raw m = Done (v, m') -> field_bits s n = Some w -> uint w v.
Proof.
  unfold get_field, field_bits. destruct (find_field n (place 0 s)) as [[f o]|]; [|done].
  intros H. minv H. apply load_range in E as [Hr ->].
  unfold mret, M_ret, to_cval in H. destruct (ct_signed (f_type f)); [done|].
  injection H as <-. by intros [= <-].
Qed.
