(* ===== verification/ElfTypes.v ===== *)
(** * ElfTypes: the types, structures and field macros of common/elfhead.h

    Every structure is its list of members in declaration order, laid out by
    [CStruct]; the macros that pack and unpack [st_info], [r_info], [m_info] and
    the dynamic-tag indices are functions on the integers of the width of their
    operand. *)

From S2P Require Import Prelude Memory CStruct.

(** ** Types of common/elfhead.h *)

Definition Elf32_Half : ctype := uint16_t.
Definition Elf64_Half : ctype := uint16_t.
Definition Elf32_Word : ctype := uint32_t.
Definition Elf32_Sword : ctype := int32_t.
Definition Elf64_Word : ctype := uint32_t.
Definition Elf64_Sword : ctype := int32_t.
Definition Elf32_Xword : ctype := uint64_t.
Definition Elf32_Sxword : ctype := int64_t.
Definition Elf64_Xword : ctype := uint64_t.
Definition Elf64_Sxword : ctype := int64_t.
Definition Elf32_Addr : ctype := uint32_t.
Definition Elf64_Addr : ctype := uint64_t.
Definition Elf32_Off : ctype := uint32_t.
Definition Elf64_Off : ctype := uint64_t.
Definition Elf32_Section : ctype := uint16_t.
Definition Elf64_Section : ctype := uint16_t.
Definition Elf32_Versym : ctype := Elf32_Half.
Definition Elf64_Versym : ctype := Elf64_Half.

Definition EI_NIDENT : nat := 16.

(** ** Structures of common/elfhead.h *)

Definition Elf32_Ehdr : list field :=
  [ array "e_ident" unsigned_char EI_NIDENT;
    scalar "e_type" Elf32_Half;
    scalar "e_machine" Elf32_Half;
    scalar "e_version" Elf32_Word;
    scalar "e_entry" Elf32_Addr;
    scalar "e_phoff" Elf32_Off;
    scalar "e_shoff" Elf32_Off;
    scalar "e_flags" Elf32_Word;
    scalar "e_ehsize" Elf32_Half;
    scalar "e_phentsize" Elf32_Half;
    scalar "e_phnum" Elf32_Half;
    scalar "e_shentsize" Elf32_Half;
    scalar "e_shnum" Elf32_Half;
    scalar "e_shstrndx" Elf32_Half ].

Definition Elf64_Ehdr : list field :=
  [ array "e_ident" unsigned_char EI_NIDENT;
    scalar "e_type" Elf64_Half;
    scalar "e_machine" Elf64_Half;
    scalar "e_version" Elf64_Word;
    scalar "e_entry" Elf64_Addr;
    scalar "e_phoff" Elf64_Off;
    scalar "e_shoff" Elf64_Off;
    scalar "e_flags" Elf64_Word;
    scalar "e_ehsize" Elf64_Half;
    scalar "e_phentsize" Elf64_Half;
    scalar "e_phnum" Elf64_Half;
    scalar "e_shentsize" Elf64_Half;
    scalar "e_shnum" Elf64_Half;
    scalar "e_shstrndx" Elf64_Half ].

Definition Elf32_Shdr : list field :=
  [ scalar "sh_name" Elf32_Word;
    scalar "sh_type" Elf32_Word;
    scalar "sh_flags" Elf32_Word;
    scalar "sh_addr" Elf32_Addr;
    scalar "sh_offset" Elf32_Off;
    scalar "sh_size" Elf32_Word;
    scalar "sh_link" Elf32_Word;
    scalar "sh_info" Elf32_Word;
    scalar "sh_addralign" Elf32_Word;
    scalar "sh_entsize" Elf32_Word ].

Definition Elf64_Shdr : list field :=
  [ scalar "sh_name" Elf64_Word;
    scalar "sh_type" Elf64_Word;
    scalar "sh_flags" Elf64_Xword;
    scalar "sh_addr" Elf64_Addr;
    scalar "sh_offset" Elf64_Off;
    scalar "sh_size" Elf64_Xword;
    scalar "sh_link" Elf64_Word;
    scalar "sh_info" Elf64_Word;
    scalar "sh_addralign" Elf64_Xword;
    scalar "sh_entsize" Elf64_Xword ].

Definition Elf32_Sym : list field :=
  [ scalar "st_name" Elf32_Word;
    scalar "st_value" Elf32_Addr;
    scalar "st_size" Elf32_Word;
    scalar "st_info" unsigned_char;
    scalar "st_other" unsigned_char;
    scalar "st_shndx" Elf32_Section ].

Definition Elf64_Sym : list field :=
  [ scalar "st_name" Elf64_Word;
    scalar "st_info" unsigned_char;
    scalar "st_other" unsigned_char;
    scalar "st_shndx" Elf64_Section;
    scalar "st_value" Elf64_Addr;
    scalar "st_size" Elf64_Xword ].

Definition Elf32_Syminfo : list field :=
  [ scalar "si_boundto" Elf32_Half;
    scalar "si_flags" Elf32_Half ].

Definition Elf64_Syminfo : list field :=
  [ scalar "si_boundto" Elf64_Half;
    scalar "si_flags" Elf64_Half ].

Definition Elf32_Rel : list field :=
  [ scalar "r_offset" Elf32_Addr;
    scalar "r_info" Elf32_Word ].

Definition Elf64_Rel : list field :=
  [ scalar "r_offset" Elf64_Addr;
    scalar "r_info" Elf64_Xword ].

Definition Elf32_Rela : list field :=
  [ scalar "r_offset" Elf32_Addr;
    scalar "r_info" Elf32_Word;
    scalar "r_addend" Elf32_Sword ].

Definition Elf64_Rela : list field :=
  [ scalar "r_offset" Elf64_Addr;
    scalar "r_info" Elf64_Xword;
    scalar "r_addend" Elf64_Sxword ].

Definition Elf32_Phdr : list field :=
  [ scalar "p_type" Elf32_Word;
    scalar "p_offset" Elf32_Off;
    scalar "p_vaddr" Elf32_Addr;
    scalar "p_paddr" Elf32_Addr;
    scalar "p_filesz" Elf32_Word;
    scalar "p_memsz" Elf32_Word;
    scalar "p_flags" Elf32_Word;
    scalar "p_align" Elf32_Word ].

Definition Elf64_Phdr : list field :=
  [ scalar "p_type" Elf64_Word;
    scalar "p_flags" Elf64_Word;
    scalar "p_offset" Elf64_Off;
    scalar "p_vaddr" Elf64_Addr;
    scalar "p_paddr" Elf64_Addr;
    scalar "p_filesz" Elf64_Xword;
    scalar "p_memsz" Elf64_Xword;
    scalar "p_align" Elf64_Xword ].

Definition Elf32_Dyn : list field :=
  [ scalar "d_tag" Elf32_Sword;
    union "d_un.d_val" ["d_un.d_ptr"] Elf32_Word ].

Definition Elf64_Dyn : list field :=
  [ scalar "d_tag" Elf64_Sxword;
    union "d_un.d_val" ["d_un.d_ptr"] Elf64_Xword ].

Definition Elf32_Verdef : list field :=
  [ scalar "vd_version" Elf32_Half;
    scalar "vd_flags" Elf32_Half;
    scalar "vd_ndx" Elf32_Half;
    scalar "vd_cnt" Elf32_Half;
    scalar "vd_hash" Elf32_Word;
    scalar "vd_aux" Elf32_Word;
    scalar "vd_next" Elf32_Word ].

Definition Elf64_Verdef : list field :=
  [ scalar "vd_version" Elf64_Half;
    scalar "vd_flags" Elf64_Half;
    scalar "vd_ndx" Elf64_Half;
    scalar "vd_cnt" Elf64_Half;
    scalar "vd_hash" Elf64_Word;
    scalar "vd_aux" Elf64_Word;
    scalar "vd_next" Elf64_Word ].

Definition Elf32_Verdaux : list field :=
  [ scalar "vda_name" Elf32_Word;
    scalar "vda_next" Elf32_Word ].

Definition Elf64_Verdaux : list field :=
  [ scalar "vda_name" Elf64_Word;
    scalar "vda_next" Elf64_Word ].

Definition Elf32_Verneed : list field :=
  [ scalar "vn_version" Elf32_Half;
    scalar "vn_cnt" Elf32_Half;
    scalar "vn_file" Elf32_Word;
    scalar "vn_aux" Elf32_Word;
    scalar "vn_next" Elf32_Word ].

Definition Elf64_Verneed : list field :=
  [ scalar "vn_version" Elf64_Half;
    scalar "vn_cnt" Elf64_Half;
    scalar "vn_file" Elf64_Word;
    scalar "vn_aux" Elf64_Word;
    scalar "vn_next" Elf64_Word ].

Definition Elf32_Vernaux : list field :=
  [ scalar "vna_hash" Elf32_Word;
    scalar "vna_flags" Elf32_Half;
    scalar "vna_other" Elf32_Half;
    scalar "vna_name" Elf32_Word;
    scalar "vna_next" Elf32_Word ].

Definition Elf64_Vernaux : list field :=
  [ scalar "vna_hash" Elf64_Word;
    scalar "vna_flags" Elf64_Half;
    scalar "vna_other" Elf64_Half;
    scalar "vna_name" Elf64_Word;
    scalar "vna_next" Elf64_Word ].

Definition Elf32_auxv_t : list field :=
  [ scalar "a_type" uint32_t;
    scalar "a_un.a_val" uint32_t ].

Definition Elf64_auxv_t : list field :=
  [ scalar "a_type" uint64_t;
    scalar "a_un.a_val" uint64_t ].

Definition Elf32_Nhdr : list field :=
  [ scalar "n_namesz" Elf32_Word;
    scalar "n_descsz" Elf32_Word;
    scalar "n_type" Elf32_Word ].

Definition Elf64_Nhdr : list field :=
  [ scalar "n_namesz" Elf64_Word;
    scalar "n_descsz" Elf64_Word;
    scalar "n_type" Elf64_Word ].

Definition Elf32_Move : list field :=
  [ scalar "m_value" Elf32_Xword;
    scalar "m_info" Elf32_Word;
    scalar "m_poffset" Elf32_Word;
    scalar "m_repeat" Elf32_Half;
    scalar "m_stride" Elf32_Half ].

Definition Elf64_Move : list field :=
  [ scalar "m_value" Elf64_Xword;
    scalar "m_info" Elf64_Xword;
    scalar "m_poffset" Elf64_Xword;
    scalar "m_repeat" Elf64_Half;
    scalar "m_stride" Elf64_Half ].

Definition Elf32_gptab : list field :=
  [ union "gt_header.gt_current_g_value" ["gt_entry.gt_g_value"] Elf32_Word;
    union "gt_header.gt_unused" ["gt_entry.gt_bytes"] Elf32_Word ].

Definition Elf32_RegInfo : list field :=
  [ scalar "ri_gprmask" Elf32_Word;
    array "ri_cprmask" Elf32_Word 4;
    scalar "ri_gp_value" Elf32_Sword ].

Definition Elf_Options : list field :=
  [ scalar "kind" unsigned_char;
    scalar "size" unsigned_char;
    scalar "section" Elf32_Section;
    scalar "info" Elf32_Word ].

Definition Elf_Options_Hw : list field :=
  [ scalar "hwp_flags1" Elf32_Word;
    scalar "hwp_flags2" Elf32_Word ].

Definition Elf32_Lib : list field :=
  [ scalar "l_name" Elf32_Word;
    scalar "l_time_stamp" Elf32_Word;
    scalar "l_checksum" Elf32_Word;
    scalar "l_version" Elf32_Word;
    scalar "l_flags" Elf32_Word ].

Definition Elf64_Lib : list field :=
  [ scalar "l_name" Elf64_Word;
    scalar "l_time_stamp" Elf64_Word;
    scalar "l_checksum" Elf64_Word;
    scalar "l_version" Elf64_Word;
    scalar "l_flags" Elf64_Word ].

(** The Elf32_Conflict entries are plain addresses. *)
Definition Elf32_Conflict : ctype := Elf32_Addr.

(** All of them, by name. *)
Definition elf_structs : list (string * list field) :=
  [ ("Elf32_Ehdr", Elf32_Ehdr);
    ("Elf64_Ehdr", Elf64_Ehdr);
    ("Elf32_Shdr", Elf32_Shdr);
    ("Elf64_Shdr", Elf64_Shdr);
    ("Elf32_Sym", Elf32_Sym);
    ("Elf64_Sym", Elf64_Sym);
    ("Elf32_Syminfo", Elf32_Syminfo);
    ("Elf64_Syminfo", Elf64_Syminfo);
    ("Elf32_Rel", Elf32_Rel);
    ("Elf64_Rel", Elf64_Rel);
    ("Elf32_Rela", Elf32_Rela);
    ("Elf64_Rela", Elf64_Rela);
    ("Elf32_Phdr", Elf32_Phdr);
    ("Elf64_Phdr", Elf64_Phdr);
    ("Elf32_Dyn", Elf32_Dyn);
    ("Elf64_Dyn", Elf64_Dyn);
    ("Elf32_Verdef", Elf32_Verdef);
    ("Elf64_Verdef", Elf64_Verdef);
    ("Elf32_Verdaux", Elf32_Verdaux);
    ("Elf64_Verdaux", Elf64_Verdaux);
    ("Elf32_Verneed", Elf32_Verneed);
    ("Elf64_Verneed", Elf64_Verneed);
    ("Elf32_Vernaux", Elf32_Vernaux);
    ("Elf64_Vernaux", Elf64_Vernaux);
    ("Elf32_auxv_t", Elf32_auxv_t);
    ("Elf64_auxv_t", Elf64_auxv_t);
    ("Elf32_Nhdr", Elf32_Nhdr);
    ("Elf64_Nhdr", Elf64_Nhdr);
    ("Elf32_Move", Elf32_Move);
    ("Elf64_Move", Elf64_Move);
    ("Elf32_gptab", Elf32_gptab);
    ("Elf32_RegInfo", Elf32_RegInfo);
    ("Elf_Options", Elf_Options);
    ("Elf_Options_Hw", Elf_Options_Hw);
    ("Elf32_Lib", Elf32_Lib);
    ("Elf64_Lib", Elf64_Lib) ].
(** ** Field macros of common/elfhead.h

    [ELF32_*] macros are applied to [Elf32_Word] operands and [ELF64_*] ones to
    [Elf64_Xword]; the [ST_*] macros to the one-byte [st_info] and [st_other]. *)

Definition ELF32_ST_BIND (val : Z) : Z := Z.shiftr (u8 val) 4.
Definition ELF32_ST_TYPE (val : Z) : Z := Z.land val 0xf.
Definition ELF32_ST_INFO (bind type : Z) : Z := Z.shiftl bind 4 + Z.land type 0xf.
Definition ELF64_ST_BIND (val : Z) : Z := ELF32_ST_BIND val.
Definition ELF64_ST_TYPE (val : Z) : Z := ELF32_ST_TYPE val.
Definition ELF64_ST_INFO (bind type : Z) : Z := ELF32_ST_INFO bind type.
Definition ELF32_ST_VISIBILITY (o : Z) : Z := Z.land o 0x03.
Definition ELF64_ST_VISIBILITY (o : Z) : Z := ELF32_ST_VISIBILITY o.

Definition ELF32_R_SYM (val : Z) : Z := Z.shiftr val 8.
Definition ELF32_R_TYPE (val : Z) : Z := Z.land val 0xff.
Definition ELF32_R_INFO (sym type : Z) : Z := u32 (u32 (Z.shiftl sym 8) + Z.land type 0xff).
Definition ELF64_R_SYM (i : Z) : Z := Z.shiftr i 32.
Definition ELF64_R_TYPE (i : Z) : Z := Z.land i 0xffffffff.
Definition ELF64_R_INFO (sym type : Z) : Z := u64 (u64 (Z.shiftl (u64 sym) 32) + type).

Definition ELF32_M_SYM (info : Z) : Z := Z.shiftr info 8.
Definition ELF32_M_SIZE (info : Z) : Z := u8 info.
Definition ELF32_M_INFO (w sym size : Z) : Z := wrap w (wrap w (Z.shiftl sym 8) + u8 size).
Definition ELF64_M_SYM (info : Z) : Z := ELF32_M_SYM info.
Definition ELF64_M_SIZE (info : Z) : Z := ELF32_M_SIZE info.
Definition ELF64_M_INFO (sym size : Z) : Z := ELF32_M_INFO 64 sym size.

(** ** Lemmas *)

Lemma elf_structs_wf : Forall (fun '(_, s) => struct_wf s) elf_structs.
Proof. unfold elf_structs. repeat constructor; vm_compute; lia. Qed.

(** Packing two fields into one integer and unpacking them again. *)
Lemma pack_fields k hi lo :
  0 <= k -> 0 <= lo < 2 ^ k ->
  Z.shiftr (Z.shiftl hi k + lo) k = hi /\ (Z.shiftl hi k + lo) mod 2 ^ k = lo.
Proof.
  intros Hk Hlo. rewrite Z.shiftr_div_pow2, Z.shiftl_mul_pow2 by done.
  assert (0 < 2 ^ k) by (apply Z.pow_pos_nonneg; lia).
  rewrite Z.add_comm. split.
  - rewrite Z.div_add by lia. rewrite Z.div_small; lia.
  - rewrite Z.mod_add by lia. by apply Z.mod_small.
Qed.

Lemma land_ones_mod x k : 0 <= k -> Z.land x (2 ^ k - 1) = x mod 2 ^ k.
Proof. intros. rewrite <- Z.land_ones by done. f_equal. rewrite Z.ones_equiv. lia. Qed.

Lemma st_info_pack bind type :
  uint 4 bind -> uint 4 type ->
  let i := ELF32_ST_INFO bind type in
  uint 8 i /\ ELF32_ST_BIND i = bind /\ ELF32_ST_TYPE i = type.
Proof.
  intros [Hb1 Hb2] [Ht1 Ht2]. unfold ELF32_ST_INFO, ELF32_ST_BIND, ELF32_ST_TYPE.
  change 0xf with (2 ^ 4 - 1). rewrite !land_ones_mod by lia.
  rewrite (Z.mod_small type) by lia.
  destruct (pack_fields 4 bind type) as [Hs Hm]; [lia..|].
  assert (uint 8 (Z.shiftl bind 4 + type)) as Hu.
  { unfold uint. rewrite Z.shiftl_mul_pow2 by lia. lia. }
  unfold u8. rewrite wrap_small by done. done.
Qed.

Lemma r_info32_pack sym type :
  uint 24 sym -> uint 8 type ->
  let i := ELF32_R_INFO sym type in
  uint 32 i /\ ELF32_R_SYM i = sym /\ ELF32_R_TYPE i = type.
Proof.
  intros [Hs1 Hs2] [Ht1 Ht2]. unfold ELF32_R_INFO, ELF32_R_SYM, ELF32_R_TYPE.
  change 0xff with (2 ^ 8 - 1). rewrite !land_ones_mod, (Z.mod_small type) by lia.
  destruct (pack_fields 8 sym type) as [Hs Hm]; [lia..|].
  assert (Z.shiftl sym 8 = sym * 2 ^ 8) as E by (by rewrite Z.shiftl_mul_pow2).
  unfold u32. rewrite !wrap_small by (unfold uint; rewrite ?wrap_small; unfold uint; lia).
  unfold uint. split; [lia|done].
Qed.

Lemma r_info64_pack sym type :
  uint 32 sym -> uint 32 type ->
  let i := ELF64_R_INFO sym type in
  uint 64 i /\ ELF64_R_SYM i = sym /\ ELF64_R_TYPE i = type.
Proof.
  intros [Hs1 Hs2] [Ht1 Ht2]. unfold ELF64_R_INFO, ELF64_R_SYM, ELF64_R_TYPE.
  change 0xffffffff with (2 ^ 32 - 1). rewrite !land_ones_mod by lia.
  destruct (pack_fields 32 sym type) as [Hs Hm]; [lia..|].
  rewrite (u64_small sym) by lia.
  assert (Z.shiftl sym 32 = sym * 2 ^ 32) as E by (by rewrite Z.shiftl_mul_pow2).
  rewrite (u64_small (Z.shiftl sym 32)), u64_small by lia.
  unfold uint. split; [lia|done].
Qed.

Lemma m_info_pack w sym size :
  8 <= w -> uint (w - 8) sym -> uint 8 size ->
  let i := ELF32_M_INFO w sym size in
  uint w i /\ ELF32_M_SYM i = sym /\ ELF32_M_SIZE i = size.
Proof.
  intros Hw [Hs1 Hs2] [Ht1 Ht2]. unfold ELF32_M_INFO, ELF32_M_SYM, ELF32_M_SIZE, u8.
  destruct (pack_fields 8 sym size) as [Hs Hm]; [lia..|].
  assert (Z.shiftl sym 8 = sym * 2 ^ 8) as E by (by rewrite Z.shiftl_mul_pow2).
  assert (2 ^ w = 2 ^ (w - 8) * 2 ^ 8) as Ew by (rewrite <- Z.pow_add_r by lia; f_equal; lia).
  rewrite (wrap_small 8 size) by done.
  rewrite (wrap_small w (Z.shiftl sym 8)) by (unfold uint; nia).
  rewrite wrap_small by (unfold uint; nia).
  unfold uint. split; [nia|done].
Qed.

(** ** Properties *)

(** Every structure of common/elfhead.h survives a round trip through its
    x86-64 object representation: for every structure and all values its
    members can hold, the representation has exactly [sizeof] bytes and reading
    the members back at their offsets gives the values that were stored (so the
    members never overlap and no padding is lost). *)
Theorem elf_struct_roundtrip name s vs :
  In (name, s) elf_structs -> vals_ok s vs ->
  length (encode s vs) = sizeof s /\ decode s (encode s vs) = vs.
Proof.
  intros Hin Hok. split; [by apply length_encode|]. apply decode_encode; [|done].
  pose proof elf_structs_wf as Hwf. rewrite List.Forall_forall in Hwf. apply (Hwf _ Hin).
Qed.

Lemma elf_struct_roundtrip_witness :
  length (encode Elf64_Rela [[16]; [42]; [-8]]) = 24%nat /\
  decode Elf64_Rela (encode Elf64_Rela [[16]; [42]; [-8]]) = [[16]; [42]; [-8]].
Proof.
  apply (elf_struct_roundtrip "Elf64_Rela" Elf64_Rela [[16]; [42]; [-8]]).
  - vm_compute. tauto.
  - apply (bool_decide_unpack _). vm_compute. exact I.
Defined.

(** C38: the packing macros of common/elfhead.h are inverse to the unpacking
    ones on the values their fields can hold, and the packed value fits the
    field it is stored in: [st_info] (one byte), [r_info] of ELF32 (24-bit
    symbol, 8-bit type) and ELF64 (32-bit symbol, 32-bit type), [m_info] of
    both classes. *)
Theorem elf_macros_roundtrip :
  (forall bind type, uint 4 bind -> uint 4 type ->
     let i := ELF64_ST_INFO bind type in
     uint 8 i /\ ELF64_ST_BIND i = bind /\ ELF64_ST_TYPE i = type) /\
  (forall sym type, uint 24 sym -> uint 8 type ->
     let i := ELF32_R_INFO sym type in
     uint 32 i /\ ELF32_R_SYM i = sym /\ ELF32_R_TYPE i = type) /\
  (forall sym type, uint 32 sym -> uint 32 type ->
     let i := ELF64_R_INFO sym type in
     uint 64 i /\ ELF64_R_SYM i = sym /\ ELF64_R_TYPE i = type) /\
  (forall sym size, uint 24 sym -> uint 8 size ->
     let i := ELF32_M_INFO 32 sym size in
     uint 32 i /\ ELF32_M_SYM i = sym /\ ELF32_M_SIZE i = size) /\
  (forall sym size, uint 56 sym -> uint 8 size ->
     let i := ELF64_M_INFO sym size in
     uint 64 i /\ ELF64_M_SYM i = sym /\ ELF64_M_SIZE i = size).
Proof.
  split_and!.
  - apply st_info_pack.
  - apply r_info32_pack.
  - apply r_info64_pack.
  - intros. by apply m_info_pack.
  - intros. by apply m_info_pack.
Qed.

Lemma elf_macros_roundtrip_witness :
  ELF64_R_SYM (ELF64_R_INFO 7 42) = 7 /\ ELF64_R_TYPE (ELF64_R_INFO 7 42) = 42 /\
  ELF64_ST_BIND (ELF64_ST_INFO 1 2) = 1 /\ ELF64_ST_TYPE (ELF64_ST_INFO 1 2) = 2.
Proof.
  destruct elf_macros_roundtrip as (Hst & _ & Hr & _).
  destruct (Hr 7 42) as (_ & H1 & H2); [by vm_compute|by vm_compute|].
  destruct (Hst 1 2) as (_ & H3 & H4); [by vm_compute|by vm_compute|]. done.
Defined.
