(* ===== verification/ElfConsts.v ===== *)
(** * ElfConsts: the constants of common/elfhead.h

    The constants the loader tests have their own definitions; each group of
    values of the header is a table of names and values in source order, and
    the relocation types of each machine are one table per machine.  A C
    [1 << 31] is the negative [int] of that bit pattern.  The flag and tag
    constants of particular machines are in [ElfMachine]. *)

From S2P Require Import Prelude.

(** ** Constants the loader tests, by their own name *)

Definition ELFMAG0 : Z := 0x7f.
Definition ELFMAG1 : Z := 69.
Definition ELFMAG2 : Z := 76.
Definition ELFMAG3 : Z := 70.
Definition EI_CLASS : Z := 4.
Definition ELFCLASS64 : Z := 2.
Definition EI_OSABI : Z := 7.
Definition ELFOSABI_SYSV : Z := 0.
Definition ELFOSABI_GNU : Z := 3.
Definition ET_EXEC : Z := 2.
Definition PT_LOAD : Z := 1.
Definition SHT_NOBITS : Z := 8.
Definition SHF_ALLOC : Z := Z.shiftl 1 1.
Definition SHF_EXECINSTR : Z := Z.shiftl 1 2.
Definition DT_VALRNGHI : Z := 0x6ffffdff.
Definition DT_VALNUM : Z := 12.
Definition DT_ADDRRNGHI : Z := 0x6ffffeff.
Definition DT_ADDRNUM : Z := 11.
Definition DT_VERNEEDNUM : Z := 0x6fffffff.
Definition DT_VERSIONTAGNUM : Z := 16.
Definition DT_EXTRANUM : Z := 3.

(** ** Machine-independent value tables *)

Definition e_ident_magic : list (string * Z) :=
  [ ("EI_MAG0", 0); ("ELFMAG0", ELFMAG0); ("EI_MAG1", 1); ("ELFMAG1", ELFMAG1); ("EI_MAG2", 2);
    ("ELFMAG2", ELFMAG2); ("EI_MAG3", 3); ("ELFMAG3", ELFMAG3) ].

Definition e_ident_class_data : list (string * Z) :=
  [ ("SELFMAG", 4); ("EI_CLASS", EI_CLASS); ("ELFCLASSNONE", 0); ("ELFCLASS32", 1);
    ("ELFCLASS64", ELFCLASS64); ("ELFCLASSNUM", 3); ("EI_DATA", 5); ("ELFDATANONE", 0);
    ("ELFDATA2LSB", 1); ("ELFDATA2MSB", 2); ("ELFDATANUM", 3); ("EI_VERSION", 6) ].

Definition e_ident_osabi : list (string * Z) :=
  [ ("EI_OSABI", EI_OSABI); ("ELFOSABI_NONE", 0); ("ELFOSABI_SYSV", ELFOSABI_SYSV);
    ("ELFOSABI_HPUX", 1); ("ELFOSABI_NETBSD", 2); ("ELFOSABI_GNU", ELFOSABI_GNU);
    ("ELFOSABI_LINUX", 3); ("ELFOSABI_SOLARIS", 6); ("ELFOSABI_AIX", 7); ("ELFOSABI_IRIX", 8);
    ("ELFOSABI_FREEBSD", 9); ("ELFOSABI_TRU64", 10); ("ELFOSABI_MODESTO", 11);
    ("ELFOSABI_OPENBSD", 12); ("ELFOSABI_ARM_AEABI", 64); ("ELFOSABI_ARM", 97);
    ("ELFOSABI_STANDALONE", 255); ("EI_ABIVERSION", 8); ("EI_PAD", 9) ].

Definition e_type_values : list (string * Z) :=
  [ ("ET_NONE", 0); ("ET_REL", 1); ("ET_EXEC", ET_EXEC); ("ET_DYN", 3); ("ET_CORE", 4);
    ("ET_NUM", 5); ("ET_LOOS", 0xfe00); ("ET_HIOS", 0xfeff); ("ET_LOPROC", 0xff00);
    ("ET_HIPROC", 0xffff) ].

Definition e_machine_values : list (string * Z) :=
  [ ("EM_NONE", 0); ("EM_M32", 1); ("EM_SPARC", 2); ("EM_386", 3); ("EM_68K", 4); ("EM_88K", 5);
    ("EM_860", 7); ("EM_MIPS", 8); ("EM_S370", 9); ("EM_MIPS_RS3_LE", 10); ("EM_PARISC", 15);
    ("EM_VPP500", 17); ("EM_SPARC32PLUS", 18); ("EM_960", 19); ("EM_PPC", 20); ("EM_PPC64", 21);
    ("EM_S390", 22); ("EM_V800", 36); ("EM_FR20", 37); ("EM_RH32", 38); ("EM_RCE", 39);
    ("EM_ARM", 40); ("EM_FAKE_ALPHA", 41); ("EM_SH", 42); ("EM_SPARCV9", 43);
    ("EM_TRICORE", 44); ("EM_ARC", 45); ("EM_H8_300", 46); ("EM_H8_300H", 47); ("EM_H8S", 48);
    ("EM_H8_500", 49); ("EM_IA_64", 50); ("EM_MIPS_X", 51); ("EM_COLDFIRE", 52);
    ("EM_68HC12", 53); ("EM_MMA", 54); ("EM_PCP", 55); ("EM_NCPU", 56); ("EM_NDR1", 57);
    ("EM_STARCORE", 58); ("EM_ME16", 59); ("EM_ST100", 60); ("EM_TINYJ", 61); ("EM_X86_64", 62);
    ("EM_PDSP", 63); ("EM_FX66", 66); ("EM_ST9PLUS", 67); ("EM_ST7", 68); ("EM_68HC16", 69);
    ("EM_68HC11", 70); ("EM_68HC08", 71); ("EM_68HC05", 72); ("EM_SVX", 73); ("EM_ST19", 74);
    ("EM_VAX", 75); ("EM_CRIS", 76); ("EM_JAVELIN", 77); ("EM_FIREPATH", 78); ("EM_ZSP", 79);
    ("EM_MMIX", 80); ("EM_HUANY", 81); ("EM_PRISM", 82); ("EM_AVR", 83); ("EM_FR30", 84);
    ("EM_D10V", 85); ("EM_D30V", 86); ("EM_V850", 87); ("EM_M32R", 88); ("EM_MN10300", 89);
    ("EM_MN10200", 90); ("EM_PJ", 91); ("EM_OPENRISC", 92); ("EM_ARC_A5", 93);
    ("EM_XTENSA", 94); ("EM_AARCH64", 183); ("EM_TILEPRO", 188); ("EM_MICROBLAZE", 189);
    ("EM_TILEGX", 191); ("EM_NUM", 192); ("EM_ALPHA", 0x9026) ].

Definition e_version_values : list (string * Z) :=
  [ ("EV_NONE", 0); ("EV_CURRENT", 1); ("EV_NUM", 2) ].

Definition shn_values : list (string * Z) :=
  [ ("SHN_UNDEF", 0); ("SHN_LORESERVE", 0xff00); ("SHN_LOPROC", 0xff00); ("SHN_BEFORE", 0xff00);
    ("SHN_AFTER", 0xff01); ("SHN_HIPROC", 0xff1f); ("SHN_LOOS", 0xff20); ("SHN_HIOS", 0xff3f);
    ("SHN_ABS", 0xfff1); ("SHN_COMMON", 0xfff2); ("SHN_XINDEX", 0xffff);
    ("SHN_HIRESERVE", 0xffff) ].

Definition sh_type_values : list (string * Z) :=
  [ ("SHT_NULL", 0); ("SHT_PROGBITS", 1); ("SHT_SYMTAB", 2); ("SHT_STRTAB", 3); ("SHT_RELA", 4);
    ("SHT_HASH", 5); ("SHT_DYNAMIC", 6); ("SHT_NOTE", 7); ("SHT_NOBITS", SHT_NOBITS);
    ("SHT_REL", 9); ("SHT_SHLIB", 10); ("SHT_DYNSYM", 11); ("SHT_INIT_ARRAY", 14);
    ("SHT_FINI_ARRAY", 15); ("SHT_PREINIT_ARRAY", 16); ("SHT_GROUP", 17);
    ("SHT_SYMTAB_SHNDX", 18); ("SHT_NUM", 19); ("SHT_LOOS", 0x60000000);
    ("SHT_GNU_ATTRIBUTES", 0x6ffffff5); ("SHT_GNU_HASH", 0x6ffffff6);
    ("SHT_GNU_LIBLIST", 0x6ffffff7); ("SHT_CHECKSUM", 0x6ffffff8); ("SHT_LOSUNW", 0x6ffffffa);
    ("SHT_SUNW_move", 0x6ffffffa); ("SHT_SUNW_COMDAT", 0x6ffffffb);
    ("SHT_SUNW_syminfo", 0x6ffffffc); ("SHT_GNU_verdef", 0x6ffffffd);
    ("SHT_GNU_verneed", 0x6ffffffe); ("SHT_GNU_versym", 0x6fffffff); ("SHT_HISUNW", 0x6fffffff);
    ("SHT_HIOS", 0x6fffffff); ("SHT_LOPROC", 0x70000000); ("SHT_HIPROC", 0x7fffffff);
    ("SHT_LOUSER", 0x80000000); ("SHT_HIUSER", 0x8fffffff) ].

Definition sh_flags_values : list (string * Z) :=
  [ ("SHF_WRITE", Z.shiftl 1 0); ("SHF_ALLOC", SHF_ALLOC); ("SHF_EXECINSTR", SHF_EXECINSTR);
    ("SHF_MERGE", Z.shiftl 1 4); ("SHF_STRINGS", Z.shiftl 1 5); ("SHF_INFO_LINK", Z.shiftl 1 6);
    ("SHF_LINK_ORDER", Z.shiftl 1 7); ("SHF_OS_NONCONFORMING", Z.shiftl 1 8);
    ("SHF_GROUP", Z.shiftl 1 9); ("SHF_TLS", Z.shiftl 1 10); ("SHF_MASKOS", 0x0ff00000);
    ("SHF_MASKPROC", 0xf0000000); ("SHF_ORDERED", Z.shiftl 1 30);
    ("SHF_EXCLUDE", sext 32 (Z.shiftl 1 31)) ].

Definition si_boundto_values : list (string * Z) :=
  [ ("SYMINFO_BT_SELF", 0xffff); ("SYMINFO_BT_PARENT", 0xfffe);
    ("SYMINFO_BT_LOWRESERVE", 0xff00) ].

Definition si_flags_values : list (string * Z) :=
  [ ("SYMINFO_FLG_DIRECT", 0x0001); ("SYMINFO_FLG_PASSTHRU", 0x0002);
    ("SYMINFO_FLG_COPY", 0x0004); ("SYMINFO_FLG_LAZYLOAD", 0x0008) ].

Definition syminfo_versions : list (string * Z) :=
  [ ("SYMINFO_NONE", 0); ("SYMINFO_CURRENT", 1); ("SYMINFO_NUM", 2) ].

Definition st_bind_values : list (string * Z) :=
  [ ("STB_LOCAL", 0); ("STB_GLOBAL", 1); ("STB_WEAK", 2); ("STB_NUM", 3); ("STB_LOOS", 10);
    ("STB_GNU_UNIQUE", 10); ("STB_HIOS", 12); ("STB_LOPROC", 13); ("STB_HIPROC", 15) ].

Definition st_type_values : list (string * Z) :=
  [ ("STT_NOTYPE", 0); ("STT_OBJECT", 1); ("STT_FUNC", 2); ("STT_SECTION", 3); ("STT_FILE", 4);
    ("STT_COMMON", 5); ("STT_TLS", 6); ("STT_NUM", 7); ("STT_LOOS", 10); ("STT_GNU_IFUNC", 10);
    ("STT_HIOS", 12); ("STT_LOPROC", 13); ("STT_HIPROC", 15) ].

Definition st_visibility_values : list (string * Z) :=
  [ ("STV_DEFAULT", 0); ("STV_INTERNAL", 1); ("STV_HIDDEN", 2); ("STV_PROTECTED", 3) ].

Definition p_type_values : list (string * Z) :=
  [ ("PT_NULL", 0); ("PT_LOAD", PT_LOAD); ("PT_DYNAMIC", 2); ("PT_INTERP", 3); ("PT_NOTE", 4);
    ("PT_SHLIB", 5); ("PT_PHDR", 6); ("PT_TLS", 7); ("PT_NUM", 8); ("PT_LOOS", 0x60000000);
    ("PT_GNU_EH_FRAME", 0x6474e550); ("PT_GNU_STACK", 0x6474e551); ("PT_GNU_RELRO", 0x6474e552);
    ("PT_LOSUNW", 0x6ffffffa); ("PT_SUNWBSS", 0x6ffffffa); ("PT_SUNWSTACK", 0x6ffffffb);
    ("PT_HISUNW", 0x6fffffff); ("PT_HIOS", 0x6fffffff); ("PT_LOPROC", 0x70000000);
    ("PT_HIPROC", 0x7fffffff) ].

Definition p_flags_values : list (string * Z) :=
  [ ("PF_X", Z.shiftl 1 0); ("PF_W", Z.shiftl 1 1); ("PF_R", Z.shiftl 1 2);
    ("PF_MASKOS", 0x0ff00000); ("PF_MASKPROC", 0xf0000000) ].

Definition nt_core_values : list (string * Z) :=
  [ ("NT_PRSTATUS", 1); ("NT_FPREGSET", 2); ("NT_PRPSINFO", 3); ("NT_PRXREG", 4);
    ("NT_TASKSTRUCT", 4); ("NT_PLATFORM", 5); ("NT_AUXV", 6); ("NT_GWINDOWS", 7);
    ("NT_ASRS", 8); ("NT_PSTATUS", 10); ("NT_PSINFO", 13); ("NT_PRCRED", 14);
    ("NT_UTSNAME", 15); ("NT_LWPSTATUS", 16); ("NT_LWPSINFO", 17); ("NT_PRFPXREG", 20);
    ("NT_SIGINFO", 0x53494749); ("NT_FILE", 0x46494c45); ("NT_PRXFPREG", 0x46e62b7f);
    ("NT_PPC_VMX", 0x100); ("NT_PPC_SPE", 0x101); ("NT_PPC_VSX", 0x102); ("NT_386_TLS", 0x200);
    ("NT_386_IOPERM", 0x201); ("NT_X86_XSTATE", 0x202); ("NT_S390_HIGH_GPRS", 0x300);
    ("NT_S390_TIMER", 0x301); ("NT_S390_TODCMP", 0x302); ("NT_S390_TODPREG", 0x303);
    ("NT_S390_CTRS", 0x304); ("NT_S390_PREFIX", 0x305); ("NT_S390_LAST_BREAK", 0x306);
    ("NT_S390_SYSTEM_CALL", 0x307); ("NT_S390_TDB", 0x308); ("NT_ARM_VFP", 0x400);
    ("NT_ARM_TLS", 0x401); ("NT_ARM_HW_BREAK", 0x402); ("NT_ARM_HW_WATCH", 0x403) ].

Definition d_tag_values : list (string * Z) :=
  [ ("DT_NULL", 0); ("DT_NEEDED", 1); ("DT_PLTRELSZ", 2); ("DT_PLTGOT", 3); ("DT_HASH", 4);
    ("DT_STRTAB", 5); ("DT_SYMTAB", 6); ("DT_RELA", 7); ("DT_RELASZ", 8); ("DT_RELAENT", 9);
    ("DT_STRSZ", 10); ("DT_SYMENT", 11); ("DT_INIT", 12); ("DT_FINI", 13); ("DT_SONAME", 14);
    ("DT_RPATH", 15); ("DT_SYMBOLIC", 16); ("DT_REL", 17); ("DT_RELSZ", 18); ("DT_RELENT", 19);
    ("DT_PLTREL", 20); ("DT_DEBUG", 21); ("DT_TEXTREL", 22); ("DT_JMPREL", 23);
    ("DT_BIND_NOW", 24); ("DT_INIT_ARRAY", 25); ("DT_FINI_ARRAY", 26); ("DT_INIT_ARRAYSZ", 27);
    ("DT_FINI_ARRAYSZ", 28); ("DT_RUNPATH", 29); ("DT_FLAGS", 30); ("DT_ENCODING", 32);
    ("DT_PREINIT_ARRAY", 32); ("DT_PREINIT_ARRAYSZ", 33); ("DT_NUM", 34);
    ("DT_LOOS", 0x6000000d); ("DT_HIOS", 0x6ffff000); ("DT_LOPROC", 0x70000000);
    ("DT_HIPROC", 0x7fffffff); ("DT_PROCNUM", 53) ].

Definition d_tag_val_range : list (string * Z) :=
  [ ("DT_VALRNGLO", 0x6ffffd00); ("DT_GNU_PRELINKED", 0x6ffffdf5);
    ("DT_GNU_CONFLICTSZ", 0x6ffffdf6); ("DT_GNU_LIBLISTSZ", 0x6ffffdf7);
    ("DT_CHECKSUM", 0x6ffffdf8); ("DT_PLTPADSZ", 0x6ffffdf9); ("DT_MOVEENT", 0x6ffffdfa);
    ("DT_MOVESZ", 0x6ffffdfb); ("DT_FEATURE_1", 0x6ffffdfc); ("DT_POSFLAG_1", 0x6ffffdfd);
    ("DT_SYMINSZ", 0x6ffffdfe); ("DT_SYMINENT", 0x6ffffdff); ("DT_VALRNGHI", DT_VALRNGHI);
    ("DT_VALNUM", DT_VALNUM) ].

Definition d_tag_addr_range : list (string * Z) :=
  [ ("DT_ADDRRNGLO", 0x6ffffe00); ("DT_GNU_HASH", 0x6ffffef5); ("DT_TLSDESC_PLT", 0x6ffffef6);
    ("DT_TLSDESC_GOT", 0x6ffffef7); ("DT_GNU_CONFLICT", 0x6ffffef8);
    ("DT_GNU_LIBLIST", 0x6ffffef9); ("DT_CONFIG", 0x6ffffefa); ("DT_DEPAUDIT", 0x6ffffefb);
    ("DT_AUDIT", 0x6ffffefc); ("DT_PLTPAD", 0x6ffffefd); ("DT_MOVETAB", 0x6ffffefe);
    ("DT_SYMINFO", 0x6ffffeff); ("DT_ADDRRNGHI", DT_ADDRRNGHI); ("DT_ADDRNUM", DT_ADDRNUM) ].

Definition d_tag_version_gnu : list (string * Z) :=
  [ ("DT_VERSYM", 0x6ffffff0); ("DT_RELACOUNT", 0x6ffffff9); ("DT_RELCOUNT", 0x6ffffffa) ].

Definition d_tag_version_sun : list (string * Z) :=
  [ ("DT_FLAGS_1", 0x6ffffffb); ("DT_VERDEF", 0x6ffffffc); ("DT_VERDEFNUM", 0x6ffffffd);
    ("DT_VERNEED", 0x6ffffffe); ("DT_VERNEEDNUM", DT_VERNEEDNUM);
    ("DT_VERSIONTAGNUM", DT_VERSIONTAGNUM) ].

Definition d_tag_extra : list (string * Z) :=
  [ ("DT_AUXILIARY", 0x7ffffffd); ("DT_FILTER", 0x7fffffff); ("DT_EXTRANUM", DT_EXTRANUM) ].

Definition df_flags : list (string * Z) :=
  [ ("DF_ORIGIN", 0x00000001); ("DF_SYMBOLIC", 0x00000002); ("DF_TEXTREL", 0x00000004);
    ("DF_BIND_NOW", 0x00000008); ("DF_STATIC_TLS", 0x00000010) ].

Definition df_1_flags : list (string * Z) :=
  [ ("DF_1_NOW", 0x00000001); ("DF_1_GLOBAL", 0x00000002); ("DF_1_GROUP", 0x00000004);
    ("DF_1_NODELETE", 0x00000008); ("DF_1_LOADFLTR", 0x00000010);
    ("DF_1_INITFIRST", 0x00000020); ("DF_1_NOOPEN", 0x00000040); ("DF_1_ORIGIN", 0x00000080);
    ("DF_1_DIRECT", 0x00000100); ("DF_1_TRANS", 0x00000200); ("DF_1_INTERPOSE", 0x00000400);
    ("DF_1_NODEFLIB", 0x00000800); ("DF_1_NODUMP", 0x00001000); ("DF_1_CONFALT", 0x00002000);
    ("DF_1_ENDFILTEE", 0x00004000); ("DF_1_DISPRELDNE", 0x00008000);
    ("DF_1_DISPRELPND", 0x00010000); ("DF_1_NODIRECT", 0x00020000);
    ("DF_1_IGNMULDEF", 0x00040000); ("DF_1_NOKSYMS", 0x00080000); ("DF_1_NOHDR", 0x00100000);
    ("DF_1_EDITED", 0x00200000); ("DF_1_NORELOC", 0x00400000); ("DF_1_SYMINTPOSE", 0x00800000);
    ("DF_1_GLOBAUDIT", 0x01000000); ("DF_1_SINGLETON", 0x02000000) ].

Definition dtf_1_flags : list (string * Z) :=
  [ ("DTF_1_PARINIT", 0x00000001); ("DTF_1_CONFEXP", 0x00000002) ].

Definition df_p1_flags : list (string * Z) :=
  [ ("DF_P1_LAZYLOAD", 0x00000001); ("DF_P1_GROUPPERM", 0x00000002) ].

Definition vd_version_values : list (string * Z) :=
  [ ("VER_DEF_NONE", 0); ("VER_DEF_CURRENT", 1); ("VER_DEF_NUM", 2) ].

Definition vd_flags_values : list (string * Z) :=
  [ ("VER_FLG_BASE", 0x1); ("VER_FLG_WEAK", 0x2) ].

Definition ver_ndx_values : list (string * Z) :=
  [ ("VER_NDX_LOCAL", 0); ("VER_NDX_GLOBAL", 1); ("VER_NDX_LORESERVE", 0xff00);
    ("VER_NDX_ELIMINATE", 0xff01) ].

Definition vn_version_values : list (string * Z) :=
  [ ("VER_NEED_NONE", 0); ("VER_NEED_CURRENT", 1); ("VER_NEED_NUM", 2) ].

Definition elf_note_os_values : list (string * Z) :=
  [ ("ELF_NOTE_OS_LINUX", 0); ("ELF_NOTE_OS_GNU", 1); ("ELF_NOTE_OS_SOLARIS2", 2);
    ("ELF_NOTE_OS_FREEBSD", 3) ].

(** ** Relocation types of each machine *)

Definition R_68K_relocs : list (string * Z) :=
  [ ("R_68K_NONE", 0); ("R_68K_32", 1); ("R_68K_16", 2); ("R_68K_8", 3); ("R_68K_PC32", 4);
    ("R_68K_PC16", 5); ("R_68K_PC8", 6); ("R_68K_GOT32", 7); ("R_68K_GOT16", 8);
    ("R_68K_GOT8", 9); ("R_68K_GOT32O", 10); ("R_68K_GOT16O", 11); ("R_68K_GOT8O", 12);
    ("R_68K_PLT32", 13); ("R_68K_PLT16", 14); ("R_68K_PLT8", 15); ("R_68K_PLT32O", 16);
    ("R_68K_PLT16O", 17); ("R_68K_PLT8O", 18); ("R_68K_COPY", 19); ("R_68K_GLOB_DAT", 20);
    ("R_68K_JMP_SLOT", 21); ("R_68K_RELATIVE", 22); ("R_68K_TLS_GD32", 25);
    ("R_68K_TLS_GD16", 26); ("R_68K_TLS_GD8", 27); ("R_68K_TLS_LDM32", 28);
    ("R_68K_TLS_LDM16", 29); ("R_68K_TLS_LDM8", 30); ("R_68K_TLS_LDO32", 31);
    ("R_68K_TLS_LDO16", 32); ("R_68K_TLS_LDO8", 33); ("R_68K_TLS_IE32", 34);
    ("R_68K_TLS_IE16", 35); ("R_68K_TLS_IE8", 36); ("R_68K_TLS_LE32", 37);
    ("R_68K_TLS_LE16", 38); ("R_68K_TLS_LE8", 39); ("R_68K_TLS_DTPMOD32", 40);
    ("R_68K_TLS_DTPREL32", 41); ("R_68K_TLS_TPREL32", 42) ].

Definition R_68K_NUM : Z := 43.

Definition R_386_relocs : list (string * Z) :=
  [ ("R_386_NONE", 0); ("R_386_32", 1); ("R_386_PC32", 2); ("R_386_GOT32", 3);
    ("R_386_PLT32", 4); ("R_386_COPY", 5); ("R_386_GLOB_DAT", 6); ("R_386_JMP_SLOT", 7);
    ("R_386_RELATIVE", 8); ("R_386_GOTOFF", 9); ("R_386_GOTPC", 10); ("R_386_32PLT", 11);
    ("R_386_TLS_TPOFF", 14); ("R_386_TLS_IE", 15); ("R_386_TLS_GOTIE", 16);
    ("R_386_TLS_LE", 17); ("R_386_TLS_GD", 18); ("R_386_TLS_LDM", 19); ("R_386_16", 20);
    ("R_386_PC16", 21); ("R_386_8", 22); ("R_386_PC8", 23); ("R_386_TLS_GD_32", 24);
    ("R_386_TLS_GD_PUSH", 25); ("R_386_TLS_GD_CALL", 26); ("R_386_TLS_GD_POP", 27);
    ("R_386_TLS_LDM_32", 28); ("R_386_TLS_LDM_PUSH", 29); ("R_386_TLS_LDM_CALL", 30);
    ("R_386_TLS_LDM_POP", 31); ("R_386_TLS_LDO_32", 32); ("R_386_TLS_IE_32", 33);
    ("R_386_TLS_LE_32", 34); ("R_386_TLS_DTPMOD32", 35); ("R_386_TLS_DTPOFF32", 36);
    ("R_386_TLS_TPOFF32", 37); ("R_386_SIZE32", 38); ("R_386_TLS_GOTDESC", 39);
    ("R_386_TLS_DESC_CALL", 40); ("R_386_TLS_DESC", 41); ("R_386_IRELATIVE", 42) ].

Definition R_386_NUM : Z := 43.

Definition R_SPARC_relocs : list (string * Z) :=
  [ ("R_SPARC_NONE", 0); ("R_SPARC_8", 1); ("R_SPARC_16", 2); ("R_SPARC_32", 3);
    ("R_SPARC_DISP8", 4); ("R_SPARC_DISP16", 5); ("R_SPARC_DISP32", 6); ("R_SPARC_WDISP30", 7);
    ("R_SPARC_WDISP22", 8); ("R_SPARC_HI22", 9); ("R_SPARC_22", 10); ("R_SPARC_13", 11);
    ("R_SPARC_LO10", 12); ("R_SPARC_GOT10", 13); ("R_SPARC_GOT13", 14); ("R_SPARC_GOT22", 15);
    ("R_SPARC_PC10", 16); ("R_SPARC_PC22", 17); ("R_SPARC_WPLT30", 18); ("R_SPARC_COPY", 19);
    ("R_SPARC_GLOB_DAT", 20); ("R_SPARC_JMP_SLOT", 21); ("R_SPARC_RELATIVE", 22);
    ("R_SPARC_UA32", 23); ("R_SPARC_PLT32", 24); ("R_SPARC_HIPLT22", 25);
    ("R_SPARC_LOPLT10", 26); ("R_SPARC_PCPLT32", 27); ("R_SPARC_PCPLT22", 28);
    ("R_SPARC_PCPLT10", 29); ("R_SPARC_10", 30); ("R_SPARC_11", 31); ("R_SPARC_64", 32);
    ("R_SPARC_OLO10", 33); ("R_SPARC_HH22", 34); ("R_SPARC_HM10", 35); ("R_SPARC_LM22", 36);
    ("R_SPARC_PC_HH22", 37); ("R_SPARC_PC_HM10", 38); ("R_SPARC_PC_LM22", 39);
    ("R_SPARC_WDISP16", 40); ("R_SPARC_WDISP19", 41); ("R_SPARC_GLOB_JMP", 42);
    ("R_SPARC_7", 43); ("R_SPARC_5", 44); ("R_SPARC_6", 45); ("R_SPARC_DISP64", 46);
    ("R_SPARC_PLT64", 47); ("R_SPARC_HIX22", 48); ("R_SPARC_LOX10", 49); ("R_SPARC_H44", 50);
    ("R_SPARC_M44", 51); ("R_SPARC_L44", 52); ("R_SPARC_REGISTER", 53); ("R_SPARC_UA64", 54);
    ("R_SPARC_UA16", 55); ("R_SPARC_TLS_GD_HI22", 56); ("R_SPARC_TLS_GD_LO10", 57);
    ("R_SPARC_TLS_GD_ADD", 58); ("R_SPARC_TLS_GD_CALL", 59); ("R_SPARC_TLS_LDM_HI22", 60);
    ("R_SPARC_TLS_LDM_LO10", 61); ("R_SPARC_TLS_LDM_ADD", 62); ("R_SPARC_TLS_LDM_CALL", 63);
    ("R_SPARC_TLS_LDO_HIX22", 64); ("R_SPARC_TLS_LDO_LOX10", 65); ("R_SPARC_TLS_LDO_ADD", 66);
    ("R_SPARC_TLS_IE_HI22", 67); ("R_SPARC_TLS_IE_LO10", 68); ("R_SPARC_TLS_IE_LD", 69);
    ("R_SPARC_TLS_IE_LDX", 70); ("R_SPARC_TLS_IE_ADD", 71); ("R_SPARC_TLS_LE_HIX22", 72);
    ("R_SPARC_TLS_LE_LOX10", 73); ("R_SPARC_TLS_DTPMOD32", 74); ("R_SPARC_TLS_DTPMOD64", 75);
    ("R_SPARC_TLS_DTPOFF32", 76); ("R_SPARC_TLS_DTPOFF64", 77); ("R_SPARC_TLS_TPOFF32", 78);
    ("R_SPARC_TLS_TPOFF64", 79); ("R_SPARC_GOTDATA_HIX22", 80); ("R_SPARC_GOTDATA_LOX10", 81);
    ("R_SPARC_GOTDATA_OP_HIX22", 82); ("R_SPARC_GOTDATA_OP_LOX10", 83);
    ("R_SPARC_GOTDATA_OP", 84); ("R_SPARC_H34", 85); ("R_SPARC_SIZE32", 86);
    ("R_SPARC_SIZE64", 87); ("R_SPARC_WDISP10", 88); ("R_SPARC_JMP_IREL", 248);
    ("R_SPARC_IRELATIVE", 249); ("R_SPARC_GNU_VTINHERIT", 250); ("R_SPARC_GNU_VTENTRY", 251);
    ("R_SPARC_REV32", 252) ].

Definition R_SPARC_NUM : Z := 253.

Definition R_MIPS_relocs : list (string * Z) :=
  [ ("R_MIPS_NONE", 0); ("R_MIPS_16", 1); ("R_MIPS_32", 2); ("R_MIPS_REL32", 3);
    ("R_MIPS_26", 4); ("R_MIPS_HI16", 5); ("R_MIPS_LO16", 6); ("R_MIPS_GPREL16", 7);
    ("R_MIPS_LITERAL", 8); ("R_MIPS_GOT16", 9); ("R_MIPS_PC16", 10); ("R_MIPS_CALL16", 11);
    ("R_MIPS_GPREL32", 12); ("R_MIPS_SHIFT5", 16); ("R_MIPS_SHIFT6", 17); ("R_MIPS_64", 18);
    ("R_MIPS_GOT_DISP", 19); ("R_MIPS_GOT_PAGE", 20); ("R_MIPS_GOT_OFST", 21);
    ("R_MIPS_GOT_HI16", 22); ("R_MIPS_GOT_LO16", 23); ("R_MIPS_SUB", 24);
    ("R_MIPS_INSERT_A", 25); ("R_MIPS_INSERT_B", 26); ("R_MIPS_DELETE", 27);
    ("R_MIPS_HIGHER", 28); ("R_MIPS_HIGHEST", 29); ("R_MIPS_CALL_HI16", 30);
    ("R_MIPS_CALL_LO16", 31); ("R_MIPS_SCN_DISP", 32); ("R_MIPS_REL16", 33);
    ("R_MIPS_ADD_IMMEDIATE", 34); ("R_MIPS_PJUMP", 35); ("R_MIPS_RELGOT", 36);
    ("R_MIPS_JALR", 37); ("R_MIPS_TLS_DTPMOD32", 38); ("R_MIPS_TLS_DTPREL32", 39);
    ("R_MIPS_TLS_DTPMOD64", 40); ("R_MIPS_TLS_DTPREL64", 41); ("R_MIPS_TLS_GD", 42);
    ("R_MIPS_TLS_LDM", 43); ("R_MIPS_TLS_DTPREL_HI16", 44); ("R_MIPS_TLS_DTPREL_LO16", 45);
    ("R_MIPS_TLS_GOTTPREL", 46); ("R_MIPS_TLS_TPREL32", 47); ("R_MIPS_TLS_TPREL64", 48);
    ("R_MIPS_TLS_TPREL_HI16", 49); ("R_MIPS_TLS_TPREL_LO16", 50); ("R_MIPS_GLOB_DAT", 51);
    ("R_MIPS_COPY", 126); ("R_MIPS_JUMP_SLOT", 127) ].

Definition R_MIPS_NUM : Z := 128.

Definition R_PARISC_relocs : list (string * Z) :=
  [ ("R_PARISC_NONE", 0); ("R_PARISC_DIR32", 1); ("R_PARISC_DIR21L", 2); ("R_PARISC_DIR17R", 3);
    ("R_PARISC_DIR17F", 4); ("R_PARISC_DIR14R", 6); ("R_PARISC_PCREL32", 9);
    ("R_PARISC_PCREL21L", 10); ("R_PARISC_PCREL17R", 11); ("R_PARISC_PCREL17F", 12);
    ("R_PARISC_PCREL14R", 14); ("R_PARISC_DPREL21L", 18); ("R_PARISC_DPREL14R", 22);
    ("R_PARISC_GPREL21L", 26); ("R_PARISC_GPREL14R", 30); ("R_PARISC_LTOFF21L", 34);
    ("R_PARISC_LTOFF14R", 38); ("R_PARISC_SECREL32", 41); ("R_PARISC_SEGBASE", 48);
    ("R_PARISC_SEGREL32", 49); ("R_PARISC_PLTOFF21L", 50); ("R_PARISC_PLTOFF14R", 54);
    ("R_PARISC_LTOFF_FPTR32", 57); ("R_PARISC_LTOFF_FPTR21L", 58);
    ("R_PARISC_LTOFF_FPTR14R", 62); ("R_PARISC_FPTR64", 64); ("R_PARISC_PLABEL32", 65);
    ("R_PARISC_PLABEL21L", 66); ("R_PARISC_PLABEL14R", 70); ("R_PARISC_PCREL64", 72);
    ("R_PARISC_PCREL22F", 74); ("R_PARISC_PCREL14WR", 75); ("R_PARISC_PCREL14DR", 76);
    ("R_PARISC_PCREL16F", 77); ("R_PARISC_PCREL16WF", 78); ("R_PARISC_PCREL16DF", 79);
    ("R_PARISC_DIR64", 80); ("R_PARISC_DIR14WR", 83); ("R_PARISC_DIR14DR", 84);
    ("R_PARISC_DIR16F", 85); ("R_PARISC_DIR16WF", 86); ("R_PARISC_DIR16DF", 87);
    ("R_PARISC_GPREL64", 88); ("R_PARISC_GPREL14WR", 91); ("R_PARISC_GPREL14DR", 92);
    ("R_PARISC_GPREL16F", 93); ("R_PARISC_GPREL16WF", 94); ("R_PARISC_GPREL16DF", 95);
    ("R_PARISC_LTOFF64", 96); ("R_PARISC_LTOFF14WR", 99); ("R_PARISC_LTOFF14DR", 100);
    ("R_PARISC_LTOFF16F", 101); ("R_PARISC_LTOFF16WF", 102); ("R_PARISC_LTOFF16DF", 103);
    ("R_PARISC_SECREL64", 104); ("R_PARISC_SEGREL64", 112); ("R_PARISC_PLTOFF14WR", 115);
    ("R_PARISC_PLTOFF14DR", 116); ("R_PARISC_PLTOFF16F", 117); ("R_PARISC_PLTOFF16WF", 118);
    ("R_PARISC_PLTOFF16DF", 119); ("R_PARISC_LTOFF_FPTR64", 120);
    ("R_PARISC_LTOFF_FPTR14WR", 123); ("R_PARISC_LTOFF_FPTR14DR", 124);
    ("R_PARISC_LTOFF_FPTR16F", 125); ("R_PARISC_LTOFF_FPTR16WF", 126);
    ("R_PARISC_LTOFF_FPTR16DF", 127); ("R_PARISC_LORESERVE", 128); ("R_PARISC_COPY", 128);
    ("R_PARISC_IPLT", 129); ("R_PARISC_EPLT", 130); ("R_PARISC_TPREL32", 153);
    ("R_PARISC_TPREL21L", 154); ("R_PARISC_TPREL14R", 158); ("R_PARISC_LTOFF_TP21L", 162);
    ("R_PARISC_LTOFF_TP14R", 166); ("R_PARISC_LTOFF_TP14F", 167); ("R_PARISC_TPREL64", 216);
    ("R_PARISC_TPREL14WR", 219); ("R_PARISC_TPREL14DR", 220); ("R_PARISC_TPREL16F", 221);
    ("R_PARISC_TPREL16WF", 222); ("R_PARISC_TPREL16DF", 223); ("R_PARISC_LTOFF_TP64", 224);
    ("R_PARISC_LTOFF_TP14WR", 227); ("R_PARISC_LTOFF_TP14DR", 228);
    ("R_PARISC_LTOFF_TP16F", 229); ("R_PARISC_LTOFF_TP16WF", 230);
    ("R_PARISC_LTOFF_TP16DF", 231); ("R_PARISC_GNU_VTENTRY", 232);
    ("R_PARISC_GNU_VTINHERIT", 233); ("R_PARISC_TLS_GD21L", 234); ("R_PARISC_TLS_GD14R", 235);
    ("R_PARISC_TLS_GDCALL", 236); ("R_PARISC_TLS_LDM21L", 237); ("R_PARISC_TLS_LDM14R", 238);
    ("R_PARISC_TLS_LDMCALL", 239); ("R_PARISC_TLS_LDO21L", 240); ("R_PARISC_TLS_LDO14R", 241);
    ("R_PARISC_TLS_DTPMOD32", 242); ("R_PARISC_TLS_DTPMOD64", 243);
    ("R_PARISC_TLS_DTPOFF32", 244); ("R_PARISC_TLS_DTPOFF64", 245); ("R_PARISC_TLS_LE21L", 154);
    ("R_PARISC_TLS_LE14R", 158); ("R_PARISC_TLS_IE21L", 162); ("R_PARISC_TLS_IE14R", 166);
    ("R_PARISC_TLS_TPREL32", 153); ("R_PARISC_TLS_TPREL64", 216); ("R_PARISC_HIRESERVE", 255) ].

Definition R_ALPHA_relocs : list (string * Z) :=
  [ ("R_ALPHA_NONE", 0); ("R_ALPHA_REFLONG", 1); ("R_ALPHA_REFQUAD", 2); ("R_ALPHA_GPREL32", 3);
    ("R_ALPHA_LITERAL", 4); ("R_ALPHA_LITUSE", 5); ("R_ALPHA_GPDISP", 6); ("R_ALPHA_BRADDR", 7);
    ("R_ALPHA_HINT", 8); ("R_ALPHA_SREL16", 9); ("R_ALPHA_SREL32", 10); ("R_ALPHA_SREL64", 11);
    ("R_ALPHA_GPRELHIGH", 17); ("R_ALPHA_GPRELLOW", 18); ("R_ALPHA_GPREL16", 19);
    ("R_ALPHA_COPY", 24); ("R_ALPHA_GLOB_DAT", 25); ("R_ALPHA_JMP_SLOT", 26);
    ("R_ALPHA_RELATIVE", 27); ("R_ALPHA_TLS_GD_HI", 28); ("R_ALPHA_TLSGD", 29);
    ("R_ALPHA_TLS_LDM", 30); ("R_ALPHA_DTPMOD64", 31); ("R_ALPHA_GOTDTPREL", 32);
    ("R_ALPHA_DTPREL64", 33); ("R_ALPHA_DTPRELHI", 34); ("R_ALPHA_DTPRELLO", 35);
    ("R_ALPHA_DTPREL16", 36); ("R_ALPHA_GOTTPREL", 37); ("R_ALPHA_TPREL64", 38);
    ("R_ALPHA_TPRELHI", 39); ("R_ALPHA_TPRELLO", 40); ("R_ALPHA_TPREL16", 41) ].

Definition R_ALPHA_NUM : Z := 46.

Definition R_PPC_relocs : list (string * Z) :=
  [ ("R_PPC_NONE", 0); ("R_PPC_ADDR32", 1); ("R_PPC_ADDR24", 2); ("R_PPC_ADDR16", 3);
    ("R_PPC_ADDR16_LO", 4); ("R_PPC_ADDR16_HI", 5); ("R_PPC_ADDR16_HA", 6); ("R_PPC_ADDR14", 7);
    ("R_PPC_ADDR14_BRTAKEN", 8); ("R_PPC_ADDR14_BRNTAKEN", 9); ("R_PPC_REL24", 10);
    ("R_PPC_REL14", 11); ("R_PPC_REL14_BRTAKEN", 12); ("R_PPC_REL14_BRNTAKEN", 13);
    ("R_PPC_GOT16", 14); ("R_PPC_GOT16_LO", 15); ("R_PPC_GOT16_HI", 16); ("R_PPC_GOT16_HA", 17);
    ("R_PPC_PLTREL24", 18); ("R_PPC_COPY", 19); ("R_PPC_GLOB_DAT", 20); ("R_PPC_JMP_SLOT", 21);
    ("R_PPC_RELATIVE", 22); ("R_PPC_LOCAL24PC", 23); ("R_PPC_UADDR32", 24);
    ("R_PPC_UADDR16", 25); ("R_PPC_REL32", 26); ("R_PPC_PLT32", 27); ("R_PPC_PLTREL32", 28);
    ("R_PPC_PLT16_LO", 29); ("R_PPC_PLT16_HI", 30); ("R_PPC_PLT16_HA", 31);
    ("R_PPC_SDAREL16", 32); ("R_PPC_SECTOFF", 33); ("R_PPC_SECTOFF_LO", 34);
    ("R_PPC_SECTOFF_HI", 35); ("R_PPC_SECTOFF_HA", 36); ("R_PPC_TLS", 67);
    ("R_PPC_DTPMOD32", 68); ("R_PPC_TPREL16", 69); ("R_PPC_TPREL16_LO", 70);
    ("R_PPC_TPREL16_HI", 71); ("R_PPC_TPREL16_HA", 72); ("R_PPC_TPREL32", 73);
    ("R_PPC_DTPREL16", 74); ("R_PPC_DTPREL16_LO", 75); ("R_PPC_DTPREL16_HI", 76);
    ("R_PPC_DTPREL16_HA", 77); ("R_PPC_DTPREL32", 78); ("R_PPC_GOT_TLSGD16", 79);
    ("R_PPC_GOT_TLSGD16_LO", 80); ("R_PPC_GOT_TLSGD16_HI", 81); ("R_PPC_GOT_TLSGD16_HA", 82);
    ("R_PPC_GOT_TLSLD16", 83); ("R_PPC_GOT_TLSLD16_LO", 84); ("R_PPC_GOT_TLSLD16_HI", 85);
    ("R_PPC_GOT_TLSLD16_HA", 86); ("R_PPC_GOT_TPREL16", 87); ("R_PPC_GOT_TPREL16_LO", 88);
    ("R_PPC_GOT_TPREL16_HI", 89); ("R_PPC_GOT_TPREL16_HA", 90); ("R_PPC_GOT_DTPREL16", 91);
    ("R_PPC_GOT_DTPREL16_LO", 92); ("R_PPC_GOT_DTPREL16_HI", 93); ("R_PPC_GOT_DTPREL16_HA", 94);
    ("R_PPC_EMB_NADDR32", 101); ("R_PPC_EMB_NADDR16", 102); ("R_PPC_EMB_NADDR16_LO", 103);
    ("R_PPC_EMB_NADDR16_HI", 104); ("R_PPC_EMB_NADDR16_HA", 105); ("R_PPC_EMB_SDAI16", 106);
    ("R_PPC_EMB_SDA2I16", 107); ("R_PPC_EMB_SDA2REL", 108); ("R_PPC_EMB_SDA21", 109);
    ("R_PPC_EMB_MRKREF", 110); ("R_PPC_EMB_RELSEC16", 111); ("R_PPC_EMB_RELST_LO", 112);
    ("R_PPC_EMB_RELST_HI", 113); ("R_PPC_EMB_RELST_HA", 114); ("R_PPC_EMB_BIT_FLD", 115);
    ("R_PPC_EMB_RELSDA", 116); ("R_PPC_DIAB_SDA21_LO", 180); ("R_PPC_DIAB_SDA21_HI", 181);
    ("R_PPC_DIAB_SDA21_HA", 182); ("R_PPC_DIAB_RELSDA_LO", 183); ("R_PPC_DIAB_RELSDA_HI", 184);
    ("R_PPC_DIAB_RELSDA_HA", 185); ("R_PPC_IRELATIVE", 248); ("R_PPC_REL16", 249);
    ("R_PPC_REL16_LO", 250); ("R_PPC_REL16_HI", 251); ("R_PPC_REL16_HA", 252);
    ("R_PPC_TOC16", 255) ].

Definition R_PPC64_relocs : list (string * Z) :=
  [ ("R_PPC64_NONE", 0); ("R_PPC64_ADDR32", 1); ("R_PPC64_ADDR24", 2); ("R_PPC64_ADDR16", 3);
    ("R_PPC64_ADDR16_LO", 4); ("R_PPC64_ADDR16_HI", 5); ("R_PPC64_ADDR16_HA", 6);
    ("R_PPC64_ADDR14", 7); ("R_PPC64_ADDR14_BRTAKEN", 8); ("R_PPC64_ADDR14_BRNTAKEN", 9);
    ("R_PPC64_REL24", 10); ("R_PPC64_REL14", 11); ("R_PPC64_REL14_BRTAKEN", 12);
    ("R_PPC64_REL14_BRNTAKEN", 13); ("R_PPC64_GOT16", 14); ("R_PPC64_GOT16_LO", 15);
    ("R_PPC64_GOT16_HI", 16); ("R_PPC64_GOT16_HA", 17); ("R_PPC64_COPY", 19);
    ("R_PPC64_GLOB_DAT", 20); ("R_PPC64_JMP_SLOT", 21); ("R_PPC64_RELATIVE", 22);
    ("R_PPC64_UADDR32", 24); ("R_PPC64_UADDR16", 25); ("R_PPC64_REL32", 26);
    ("R_PPC64_PLT32", 27); ("R_PPC64_PLTREL32", 28); ("R_PPC64_PLT16_LO", 29);
    ("R_PPC64_PLT16_HI", 30); ("R_PPC64_PLT16_HA", 31); ("R_PPC64_SECTOFF", 33);
    ("R_PPC64_SECTOFF_LO", 34); ("R_PPC64_SECTOFF_HI", 35); ("R_PPC64_SECTOFF_HA", 36);
    ("R_PPC64_ADDR30", 37); ("R_PPC64_ADDR64", 38); ("R_PPC64_ADDR16_HIGHER", 39);
    ("R_PPC64_ADDR16_HIGHERA", 40); ("R_PPC64_ADDR16_HIGHEST", 41);
    ("R_PPC64_ADDR16_HIGHESTA", 42); ("R_PPC64_UADDR64", 43); ("R_PPC64_REL64", 44);
    ("R_PPC64_PLT64", 45); ("R_PPC64_PLTREL64", 46); ("R_PPC64_TOC16", 47);
    ("R_PPC64_TOC16_LO", 48); ("R_PPC64_TOC16_HI", 49); ("R_PPC64_TOC16_HA", 50);
    ("R_PPC64_TOC", 51); ("R_PPC64_PLTGOT16", 52); ("R_PPC64_PLTGOT16_LO", 53);
    ("R_PPC64_PLTGOT16_HI", 54); ("R_PPC64_PLTGOT16_HA", 55); ("R_PPC64_ADDR16_DS", 56);
    ("R_PPC64_ADDR16_LO_DS", 57); ("R_PPC64_GOT16_DS", 58); ("R_PPC64_GOT16_LO_DS", 59);
    ("R_PPC64_PLT16_LO_DS", 60); ("R_PPC64_SECTOFF_DS", 61); ("R_PPC64_SECTOFF_LO_DS", 62);
    ("R_PPC64_TOC16_DS", 63); ("R_PPC64_TOC16_LO_DS", 64); ("R_PPC64_PLTGOT16_DS", 65);
    ("R_PPC64_PLTGOT16_LO_DS", 66); ("R_PPC64_TLS", 67); ("R_PPC64_DTPMOD64", 68);
    ("R_PPC64_TPREL16", 69); ("R_PPC64_TPREL16_LO", 70); ("R_PPC64_TPREL16_HI", 71);
    ("R_PPC64_TPREL16_HA", 72); ("R_PPC64_TPREL64", 73); ("R_PPC64_DTPREL16", 74);
    ("R_PPC64_DTPREL16_LO", 75); ("R_PPC64_DTPREL16_HI", 76); ("R_PPC64_DTPREL16_HA", 77);
    ("R_PPC64_DTPREL64", 78); ("R_PPC64_GOT_TLSGD16", 79); ("R_PPC64_GOT_TLSGD16_LO", 80);
    ("R_PPC64_GOT_TLSGD16_HI", 81); ("R_PPC64_GOT_TLSGD16_HA", 82); ("R_PPC64_GOT_TLSLD16", 83);
    ("R_PPC64_GOT_TLSLD16_LO", 84); ("R_PPC64_GOT_TLSLD16_HI", 85);
    ("R_PPC64_GOT_TLSLD16_HA", 86); ("R_PPC64_GOT_TPREL16_DS", 87);
    ("R_PPC64_GOT_TPREL16_LO_DS", 88); ("R_PPC64_GOT_TPREL16_HI", 89);
    ("R_PPC64_GOT_TPREL16_HA", 90); ("R_PPC64_GOT_DTPREL16_DS", 91);
    ("R_PPC64_GOT_DTPREL16_LO_DS", 92); ("R_PPC64_GOT_DTPREL16_HI", 93);
    ("R_PPC64_GOT_DTPREL16_HA", 94); ("R_PPC64_TPREL16_DS", 95); ("R_PPC64_TPREL16_LO_DS", 96);
    ("R_PPC64_TPREL16_HIGHER", 97); ("R_PPC64_TPREL16_HIGHERA", 98);
    ("R_PPC64_TPREL16_HIGHEST", 99); ("R_PPC64_TPREL16_HIGHESTA", 100);
    ("R_PPC64_DTPREL16_DS", 101); ("R_PPC64_DTPREL16_LO_DS", 102);
    ("R_PPC64_DTPREL16_HIGHER", 103); ("R_PPC64_DTPREL16_HIGHERA", 104);
    ("R_PPC64_DTPREL16_HIGHEST", 105); ("R_PPC64_DTPREL16_HIGHESTA", 106);
    ("R_PPC64_TLSGD", 107); ("R_PPC64_TLSLD", 108); ("R_PPC64_TOCSAVE", 109);
    ("R_PPC64_ADDR16_HIGH", 110); ("R_PPC64_ADDR16_HIGHA", 111); ("R_PPC64_TPREL16_HIGH", 112);
    ("R_PPC64_TPREL16_HIGHA", 113); ("R_PPC64_DTPREL16_HIGH", 114);
    ("R_PPC64_DTPREL16_HIGHA", 115); ("R_PPC64_JMP_IREL", 247); ("R_PPC64_IRELATIVE", 248);
    ("R_PPC64_REL16", 249); ("R_PPC64_REL16_LO", 250); ("R_PPC64_REL16_HI", 251);
    ("R_PPC64_REL16_HA", 252) ].

Definition R_AARCH64_relocs : list (string * Z) :=
  [ ("R_AARCH64_NONE", 0); ("R_AARCH64_ABS64", 257); ("R_AARCH64_ABS32", 258);
    ("R_AARCH64_ABS16", 259); ("R_AARCH64_PREL64", 260); ("R_AARCH64_PREL32", 261);
    ("R_AARCH64_PREL16", 262); ("R_AARCH64_MOVW_UABS_G0", 263);
    ("R_AARCH64_MOVW_UABS_G0_NC", 264); ("R_AARCH64_MOVW_UABS_G1", 265);
    ("R_AARCH64_MOVW_UABS_G1_NC", 266); ("R_AARCH64_MOVW_UABS_G2", 267);
    ("R_AARCH64_MOVW_UABS_G2_NC", 268); ("R_AARCH64_MOVW_UABS_G3", 269);
    ("R_AARCH64_MOVW_SABS_G0", 270); ("R_AARCH64_MOVW_SABS_G1", 271);
    ("R_AARCH64_MOVW_SABS_G2", 272); ("R_AARCH64_LD_PREL_LO19", 273);
    ("R_AARCH64_ADR_PREL_LO21", 274); ("R_AARCH64_ADR_PREL_PG_HI21", 275);
    ("R_AARCH64_ADR_PREL_PG_HI21_NC", 276); ("R_AARCH64_ADD_ABS_LO12_NC", 277);
    ("R_AARCH64_LDST8_ABS_LO12_NC", 278); ("R_AARCH64_TSTBR14", 279);
    ("R_AARCH64_CONDBR19", 280); ("R_AARCH64_JUMP26", 282); ("R_AARCH64_CALL26", 283);
    ("R_AARCH64_LDST16_ABS_LO12_NC", 284); ("R_AARCH64_LDST32_ABS_LO12_NC", 285);
    ("R_AARCH64_LDST64_ABS_LO12_NC", 286); ("R_AARCH64_MOVW_PREL_G0", 287);
    ("R_AARCH64_MOVW_PREL_G0_NC", 288); ("R_AARCH64_MOVW_PREL_G1", 289);
    ("R_AARCH64_MOVW_PREL_G1_NC", 290); ("R_AARCH64_MOVW_PREL_G2", 291);
    ("R_AARCH64_MOVW_PREL_G2_NC", 292); ("R_AARCH64_MOVW_PREL_G3", 293);
    ("R_AARCH64_LDST128_ABS_LO12_NC", 299); ("R_AARCH64_MOVW_GOTOFF_G0", 300);
    ("R_AARCH64_MOVW_GOTOFF_G0_NC", 301); ("R_AARCH64_MOVW_GOTOFF_G1", 302);
    ("R_AARCH64_MOVW_GOTOFF_G1_NC", 303); ("R_AARCH64_MOVW_GOTOFF_G2", 304);
    ("R_AARCH64_MOVW_GOTOFF_G2_NC", 305); ("R_AARCH64_MOVW_GOTOFF_G3", 306);
    ("R_AARCH64_GOTREL64", 307); ("R_AARCH64_GOTREL32", 308); ("R_AARCH64_GOT_LD_PREL19", 309);
    ("R_AARCH64_LD64_GOTOFF_LO15", 310); ("R_AARCH64_ADR_GOT_PAGE", 311);
    ("R_AARCH64_LD64_GOT_LO12_NC", 312); ("R_AARCH64_LD64_GOTPAGE_LO15", 313);
    ("R_AARCH64_TLSGD_ADR_PREL21", 512); ("R_AARCH64_TLSGD_ADR_PAGE21", 513);
    ("R_AARCH64_TLSGD_ADD_LO12_NC", 514); ("R_AARCH64_TLSGD_MOVW_G1", 515);
    ("R_AARCH64_TLSGD_MOVW_G0_NC", 516); ("R_AARCH64_TLSLD_ADR_PREL21", 517);
    ("R_AARCH64_TLSLD_ADR_PAGE21", 518); ("R_AARCH64_TLSLD_ADD_LO12_NC", 519);
    ("R_AARCH64_TLSLD_MOVW_G1", 520); ("R_AARCH64_TLSLD_MOVW_G0_NC", 521);
    ("R_AARCH64_TLSLD_LD_PREL19", 522); ("R_AARCH64_TLSLD_MOVW_DTPREL_G2", 523);
    ("R_AARCH64_TLSLD_MOVW_DTPREL_G1", 524); ("R_AARCH64_TLSLD_MOVW_DTPREL_G1_NC", 525);
    ("R_AARCH64_TLSLD_MOVW_DTPREL_G0", 526); ("R_AARCH64_TLSLD_MOVW_DTPREL_G0_NC", 527);
    ("R_AARCH64_TLSLD_ADD_DTPREL_HI12", 528); ("R_AARCH64_TLSLD_ADD_DTPREL_LO12", 529);
    ("R_AARCH64_TLSLD_ADD_DTPREL_LO12_NC", 530); ("R_AARCH64_TLSLD_LDST8_DTPREL_LO12", 531);
    ("R_AARCH64_TLSLD_LDST8_DTPREL_LO12_NC", 532); ("R_AARCH64_TLSLD_LDST16_DTPREL_LO12", 533);
    ("R_AARCH64_TLSLD_LDST16_DTPREL_LO12_NC", 534); ("R_AARCH64_TLSLD_LDST32_DTPREL_LO12", 535);
    ("R_AARCH64_TLSLD_LDST32_DTPREL_LO12_NC", 536); ("R_AARCH64_TLSLD_LDST64_DTPREL_LO12", 537);
    ("R_AARCH64_TLSLD_LDST64_DTPREL_LO12_NC", 538); ("R_AARCH64_TLSIE_MOVW_GOTTPREL_G1", 539);
    ("R_AARCH64_TLSIE_MOVW_GOTTPREL_G0_NC", 540); ("R_AARCH64_TLSIE_ADR_GOTTPREL_PAGE21", 541);
    ("R_AARCH64_TLSIE_LD64_GOTTPREL_LO12_NC", 542); ("R_AARCH64_TLSIE_LD_GOTTPREL_PREL19", 543);
    ("R_AARCH64_TLSLE_MOVW_TPREL_G2", 544); ("R_AARCH64_TLSLE_MOVW_TPREL_G1", 545);
    ("R_AARCH64_TLSLE_MOVW_TPREL_G1_NC", 546); ("R_AARCH64_TLSLE_MOVW_TPREL_G0", 547);
    ("R_AARCH64_TLSLE_MOVW_TPREL_G0_NC", 548); ("R_AARCH64_TLSLE_ADD_TPREL_HI12", 549);
    ("R_AARCH64_TLSLE_ADD_TPREL_LO12", 550); ("R_AARCH64_TLSLE_ADD_TPREL_LO12_NC", 551);
    ("R_AARCH64_TLSLE_LDST8_TPREL_LO12", 552); ("R_AARCH64_TLSLE_LDST8_TPREL_LO12_NC", 553);
    ("R_AARCH64_TLSLE_LDST16_TPREL_LO12", 554); ("R_AARCH64_TLSLE_LDST16_TPREL_LO12_NC", 555);
    ("R_AARCH64_TLSLE_LDST32_TPREL_LO12", 556); ("R_AARCH64_TLSLE_LDST32_TPREL_LO12_NC", 557);
    ("R_AARCH64_TLSLE_LDST64_TPREL_LO12", 558); ("R_AARCH64_TLSLE_LDST64_TPREL_LO12_NC", 559);
    ("R_AARCH64_TLSDESC_LD_PREL19", 560); ("R_AARCH64_TLSDESC_ADR_PREL21", 561);
    ("R_AARCH64_TLSDESC_ADR_PAGE21", 562); ("R_AARCH64_TLSDESC_LD64_LO12", 563);
    ("R_AARCH64_TLSDESC_ADD_LO12", 564); ("R_AARCH64_TLSDESC_OFF_G1", 565);
    ("R_AARCH64_TLSDESC_OFF_G0_NC", 566); ("R_AARCH64_TLSDESC_LDR", 567);
    ("R_AARCH64_TLSDESC_ADD", 568); ("R_AARCH64_TLSDESC_CALL", 569);
    ("R_AARCH64_TLSLE_LDST128_TPREL_LO12", 570); ("R_AARCH64_TLSLE_LDST128_TPREL_LO12_NC", 571);
    ("R_AARCH64_TLSLD_LDST128_DTPREL_LO12", 572);
    ("R_AARCH64_TLSLD_LDST128_DTPREL_LO12_NC", 573); ("R_AARCH64_COPY", 1024);
    ("R_AARCH64_GLOB_DAT", 1025); ("R_AARCH64_JUMP_SLOT", 1026); ("R_AARCH64_RELATIVE", 1027);
    ("R_AARCH64_TLS_DTPMOD64", 1028); ("R_AARCH64_TLS_DTPREL64", 1029);
    ("R_AARCH64_TLS_TPREL64", 1030); ("R_AARCH64_TLSDESC", 1031);
    ("R_AARCH64_IRELATIVE", 1032) ].

Definition R_ARM_relocs : list (string * Z) :=
  [ ("R_ARM_NONE", 0); ("R_ARM_PC24", 1); ("R_ARM_ABS32", 2); ("R_ARM_REL32", 3);
    ("R_ARM_PC13", 4); ("R_ARM_ABS16", 5); ("R_ARM_ABS12", 6); ("R_ARM_THM_ABS5", 7);
    ("R_ARM_ABS8", 8); ("R_ARM_SBREL32", 9); ("R_ARM_THM_PC22", 10); ("R_ARM_THM_PC8", 11);
    ("R_ARM_AMP_VCALL9", 12); ("R_ARM_SWI24", 13); ("R_ARM_TLS_DESC", 13);
    ("R_ARM_THM_SWI8", 14); ("R_ARM_XPC25", 15); ("R_ARM_THM_XPC22", 16);
    ("R_ARM_TLS_DTPMOD32", 17); ("R_ARM_TLS_DTPOFF32", 18); ("R_ARM_TLS_TPOFF32", 19);
    ("R_ARM_COPY", 20); ("R_ARM_GLOB_DAT", 21); ("R_ARM_JUMP_SLOT", 22); ("R_ARM_RELATIVE", 23);
    ("R_ARM_GOTOFF", 24); ("R_ARM_GOTPC", 25); ("R_ARM_GOT32", 26); ("R_ARM_PLT32", 27);
    ("R_ARM_CALL", 28); ("R_ARM_JUMP24", 29); ("R_ARM_THM_JUMP24", 30); ("R_ARM_BASE_ABS", 31);
    ("R_ARM_ALU_PCREL_7_0", 32); ("R_ARM_ALU_PCREL_15_8", 33); ("R_ARM_ALU_PCREL_23_15", 34);
    ("R_ARM_LDR_SBREL_11_0", 35); ("R_ARM_ALU_SBREL_19_12", 36); ("R_ARM_ALU_SBREL_27_20", 37);
    ("R_ARM_TARGET1", 38); ("R_ARM_SBREL31", 39); ("R_ARM_V4BX", 40); ("R_ARM_TARGET2", 41);
    ("R_ARM_PREL31", 42); ("R_ARM_MOVW_ABS_NC", 43); ("R_ARM_MOVT_ABS", 44);
    ("R_ARM_MOVW_PREL_NC", 45); ("R_ARM_MOVT_PREL", 46); ("R_ARM_THM_MOVW_ABS_NC", 47);
    ("R_ARM_THM_MOVT_ABS", 48); ("R_ARM_THM_MOVW_PREL_NC", 49); ("R_ARM_THM_MOVT_PREL", 50);
    ("R_ARM_THM_JUMP19", 51); ("R_ARM_THM_JUMP6", 52); ("R_ARM_THM_ALU_PREL_11_0", 53);
    ("R_ARM_THM_PC12", 54); ("R_ARM_ABS32_NOI", 55); ("R_ARM_REL32_NOI", 56);
    ("R_ARM_ALU_PC_G0_NC", 57); ("R_ARM_ALU_PC_G0", 58); ("R_ARM_ALU_PC_G1_NC", 59);
    ("R_ARM_ALU_PC_G1", 60); ("R_ARM_ALU_PC_G2", 61); ("R_ARM_LDR_PC_G1", 62);
    ("R_ARM_LDR_PC_G2", 63); ("R_ARM_LDRS_PC_G0", 64); ("R_ARM_LDRS_PC_G1", 65);
    ("R_ARM_LDRS_PC_G2", 66); ("R_ARM_LDC_PC_G0", 67); ("R_ARM_LDC_PC_G1", 68);
    ("R_ARM_LDC_PC_G2", 69); ("R_ARM_ALU_SB_G0_NC", 70); ("R_ARM_ALU_SB_G0", 71);
    ("R_ARM_ALU_SB_G1_NC", 72); ("R_ARM_ALU_SB_G1", 73); ("R_ARM_ALU_SB_G2", 74);
    ("R_ARM_LDR_SB_G0", 75); ("R_ARM_LDR_SB_G1", 76); ("R_ARM_LDR_SB_G2", 77);
    ("R_ARM_LDRS_SB_G0", 78); ("R_ARM_LDRS_SB_G1", 79); ("R_ARM_LDRS_SB_G2", 80);
    ("R_ARM_LDC_SB_G0", 81); ("R_ARM_LDC_SB_G1", 82); ("R_ARM_LDC_SB_G2", 83);
    ("R_ARM_MOVW_BREL_NC", 84); ("R_ARM_MOVT_BREL", 85); ("R_ARM_MOVW_BREL", 86);
    ("R_ARM_THM_MOVW_BREL_NC", 87); ("R_ARM_THM_MOVT_BREL", 88); ("R_ARM_THM_MOVW_BREL", 89);
    ("R_ARM_TLS_GOTDESC", 90); ("R_ARM_TLS_CALL", 91); ("R_ARM_TLS_DESCSEQ", 92);
    ("R_ARM_THM_TLS_CALL", 93); ("R_ARM_PLT32_ABS", 94); ("R_ARM_GOT_ABS", 95);
    ("R_ARM_GOT_PREL", 96); ("R_ARM_GOT_BREL12", 97); ("R_ARM_GOTOFF12", 98);
    ("R_ARM_GOTRELAX", 99); ("R_ARM_GNU_VTENTRY", 100); ("R_ARM_GNU_VTINHERIT", 101);
    ("R_ARM_THM_PC11", 102); ("R_ARM_THM_PC9", 103); ("R_ARM_TLS_GD32", 104);
    ("R_ARM_TLS_LDM32", 105); ("R_ARM_TLS_LDO32", 106); ("R_ARM_TLS_IE32", 107);
    ("R_ARM_TLS_LE32", 108); ("R_ARM_TLS_LDO12", 109); ("R_ARM_TLS_LE12", 110);
    ("R_ARM_TLS_IE12GP", 111); ("R_ARM_ME_TOO", 128); ("R_ARM_THM_TLS_DESCSEQ", 129);
    ("R_ARM_THM_TLS_DESCSEQ16", 129); ("R_ARM_THM_TLS_DESCSEQ32", 130);
    ("R_ARM_THM_GOT_BREL12", 131); ("R_ARM_IRELATIVE", 160); ("R_ARM_RXPC25", 249);
    ("R_ARM_RSBREL32", 250); ("R_ARM_THM_RPC22", 251); ("R_ARM_RREL32", 252);
    ("R_ARM_RABS22", 253); ("R_ARM_RPC24", 254); ("R_ARM_RBASE", 255) ].

Definition R_ARM_NUM : Z := 256.

Definition R_IA64_relocs : list (string * Z) :=
  [ ("R_IA64_NONE", 0x00); ("R_IA64_IMM14", 0x21); ("R_IA64_IMM22", 0x22);
    ("R_IA64_IMM64", 0x23); ("R_IA64_DIR32MSB", 0x24); ("R_IA64_DIR32LSB", 0x25);
    ("R_IA64_DIR64MSB", 0x26); ("R_IA64_DIR64LSB", 0x27); ("R_IA64_GPREL22", 0x2a);
    ("R_IA64_GPREL64I", 0x2b); ("R_IA64_GPREL32MSB", 0x2c); ("R_IA64_GPREL32LSB", 0x2d);
    ("R_IA64_GPREL64MSB", 0x2e); ("R_IA64_GPREL64LSB", 0x2f); ("R_IA64_LTOFF22", 0x32);
    ("R_IA64_LTOFF64I", 0x33); ("R_IA64_PLTOFF22", 0x3a); ("R_IA64_PLTOFF64I", 0x3b);
    ("R_IA64_PLTOFF64MSB", 0x3e); ("R_IA64_PLTOFF64LSB", 0x3f); ("R_IA64_FPTR64I", 0x43);
    ("R_IA64_FPTR32MSB", 0x44); ("R_IA64_FPTR32LSB", 0x45); ("R_IA64_FPTR64MSB", 0x46);
    ("R_IA64_FPTR64LSB", 0x47); ("R_IA64_PCREL60B", 0x48); ("R_IA64_PCREL21B", 0x49);
    ("R_IA64_PCREL21M", 0x4a); ("R_IA64_PCREL21F", 0x4b); ("R_IA64_PCREL32MSB", 0x4c);
    ("R_IA64_PCREL32LSB", 0x4d); ("R_IA64_PCREL64MSB", 0x4e); ("R_IA64_PCREL64LSB", 0x4f);
    ("R_IA64_LTOFF_FPTR22", 0x52); ("R_IA64_LTOFF_FPTR64I", 0x53);
    ("R_IA64_LTOFF_FPTR32MSB", 0x54); ("R_IA64_LTOFF_FPTR32LSB", 0x55);
    ("R_IA64_LTOFF_FPTR64MSB", 0x56); ("R_IA64_LTOFF_FPTR64LSB", 0x57);
    ("R_IA64_SEGREL32MSB", 0x5c); ("R_IA64_SEGREL32LSB", 0x5d); ("R_IA64_SEGREL64MSB", 0x5e);
    ("R_IA64_SEGREL64LSB", 0x5f); ("R_IA64_SECREL32MSB", 0x64); ("R_IA64_SECREL32LSB", 0x65);
    ("R_IA64_SECREL64MSB", 0x66); ("R_IA64_SECREL64LSB", 0x67); ("R_IA64_REL32MSB", 0x6c);
    ("R_IA64_REL32LSB", 0x6d); ("R_IA64_REL64MSB", 0x6e); ("R_IA64_REL64LSB", 0x6f);
    ("R_IA64_LTV32MSB", 0x74); ("R_IA64_LTV32LSB", 0x75); ("R_IA64_LTV64MSB", 0x76);
    ("R_IA64_LTV64LSB", 0x77); ("R_IA64_PCREL21BI", 0x79); ("R_IA64_PCREL22", 0x7a);
    ("R_IA64_PCREL64I", 0x7b); ("R_IA64_IPLTMSB", 0x80); ("R_IA64_IPLTLSB", 0x81);
    ("R_IA64_COPY", 0x84); ("R_IA64_SUB", 0x85); ("R_IA64_LTOFF22X", 0x86);
    ("R_IA64_LDXMOV", 0x87); ("R_IA64_TPREL14", 0x91); ("R_IA64_TPREL22", 0x92);
    ("R_IA64_TPREL64I", 0x93); ("R_IA64_TPREL64MSB", 0x96); ("R_IA64_TPREL64LSB", 0x97);
    ("R_IA64_LTOFF_TPREL22", 0x9a); ("R_IA64_DTPMOD64MSB", 0xa6); ("R_IA64_DTPMOD64LSB", 0xa7);
    ("R_IA64_LTOFF_DTPMOD22", 0xaa); ("R_IA64_DTPREL14", 0xb1); ("R_IA64_DTPREL22", 0xb2);
    ("R_IA64_DTPREL64I", 0xb3); ("R_IA64_DTPREL32MSB", 0xb4); ("R_IA64_DTPREL32LSB", 0xb5);
    ("R_IA64_DTPREL64MSB", 0xb6); ("R_IA64_DTPREL64LSB", 0xb7);
    ("R_IA64_LTOFF_DTPREL22", 0xba) ].

Definition R_SH_relocs : list (string * Z) :=
  [ ("R_SH_NONE", 0); ("R_SH_DIR32", 1); ("R_SH_REL32", 2); ("R_SH_DIR8WPN", 3);
    ("R_SH_IND12W", 4); ("R_SH_DIR8WPL", 5); ("R_SH_DIR8WPZ", 6); ("R_SH_DIR8BP", 7);
    ("R_SH_DIR8W", 8); ("R_SH_DIR8L", 9); ("R_SH_SWITCH16", 25); ("R_SH_SWITCH32", 26);
    ("R_SH_USES", 27); ("R_SH_COUNT", 28); ("R_SH_ALIGN", 29); ("R_SH_CODE", 30);
    ("R_SH_DATA", 31); ("R_SH_LABEL", 32); ("R_SH_SWITCH8", 33); ("R_SH_GNU_VTINHERIT", 34);
    ("R_SH_GNU_VTENTRY", 35); ("R_SH_TLS_GD_32", 144); ("R_SH_TLS_LD_32", 145);
    ("R_SH_TLS_LDO_32", 146); ("R_SH_TLS_IE_32", 147); ("R_SH_TLS_LE_32", 148);
    ("R_SH_TLS_DTPMOD32", 149); ("R_SH_TLS_DTPOFF32", 150); ("R_SH_TLS_TPOFF32", 151);
    ("R_SH_GOT32", 160); ("R_SH_PLT32", 161); ("R_SH_COPY", 162); ("R_SH_GLOB_DAT", 163);
    ("R_SH_JMP_SLOT", 164); ("R_SH_RELATIVE", 165); ("R_SH_GOTOFF", 166); ("R_SH_GOTPC", 167) ].

Definition R_SH_NUM : Z := 256.

Definition R_390_relocs : list (string * Z) :=
  [ ("R_390_NONE", 0); ("R_390_8", 1); ("R_390_12", 2); ("R_390_16", 3); ("R_390_32", 4);
    ("R_390_PC32", 5); ("R_390_GOT12", 6); ("R_390_GOT32", 7); ("R_390_PLT32", 8);
    ("R_390_COPY", 9); ("R_390_GLOB_DAT", 10); ("R_390_JMP_SLOT", 11); ("R_390_RELATIVE", 12);
    ("R_390_GOTOFF32", 13); ("R_390_GOTPC", 14); ("R_390_GOT16", 15); ("R_390_PC16", 16);
    ("R_390_PC16DBL", 17); ("R_390_PLT16DBL", 18); ("R_390_PC32DBL", 19);
    ("R_390_PLT32DBL", 20); ("R_390_GOTPCDBL", 21); ("R_390_64", 22); ("R_390_PC64", 23);
    ("R_390_GOT64", 24); ("R_390_PLT64", 25); ("R_390_GOTENT", 26); ("R_390_GOTOFF16", 27);
    ("R_390_GOTOFF64", 28); ("R_390_GOTPLT12", 29); ("R_390_GOTPLT16", 30);
    ("R_390_GOTPLT32", 31); ("R_390_GOTPLT64", 32); ("R_390_GOTPLTENT", 33);
    ("R_390_PLTOFF16", 34); ("R_390_PLTOFF32", 35); ("R_390_PLTOFF64", 36);
    ("R_390_TLS_LOAD", 37); ("R_390_TLS_GDCALL", 38); ("R_390_TLS_LDCALL", 39);
    ("R_390_TLS_GD32", 40); ("R_390_TLS_GD64", 41); ("R_390_TLS_GOTIE12", 42);
    ("R_390_TLS_GOTIE32", 43); ("R_390_TLS_GOTIE64", 44); ("R_390_TLS_LDM32", 45);
    ("R_390_TLS_LDM64", 46); ("R_390_TLS_IE32", 47); ("R_390_TLS_IE64", 48);
    ("R_390_TLS_IEENT", 49); ("R_390_TLS_LE32", 50); ("R_390_TLS_LE64", 51);
    ("R_390_TLS_LDO32", 52); ("R_390_TLS_LDO64", 53); ("R_390_TLS_DTPMOD", 54);
    ("R_390_TLS_DTPOFF", 55); ("R_390_TLS_TPOFF", 56); ("R_390_20", 57); ("R_390_GOT20", 58);
    ("R_390_GOTPLT20", 59); ("R_390_TLS_GOTIE20", 60); ("R_390_IRELATIVE", 61) ].

Definition R_390_NUM : Z := 62.

Definition R_CRIS_relocs : list (string * Z) :=
  [ ("R_CRIS_NONE", 0); ("R_CRIS_8", 1); ("R_CRIS_16", 2); ("R_CRIS_32", 3);
    ("R_CRIS_8_PCREL", 4); ("R_CRIS_16_PCREL", 5); ("R_CRIS_32_PCREL", 6);
    ("R_CRIS_GNU_VTINHERIT", 7); ("R_CRIS_GNU_VTENTRY", 8); ("R_CRIS_COPY", 9);
    ("R_CRIS_GLOB_DAT", 10); ("R_CRIS_JUMP_SLOT", 11); ("R_CRIS_RELATIVE", 12);
    ("R_CRIS_16_GOT", 13); ("R_CRIS_32_GOT", 14); ("R_CRIS_16_GOTPLT", 15);
    ("R_CRIS_32_GOTPLT", 16); ("R_CRIS_32_GOTREL", 17); ("R_CRIS_32_PLT_GOTREL", 18);
    ("R_CRIS_32_PLT_PCREL", 19) ].

Definition R_CRIS_NUM : Z := 20.

Definition R_X86_64_relocs : list (string * Z) :=
  [ ("R_X86_64_NONE", 0); ("R_X86_64_64", 1); ("R_X86_64_PC32", 2); ("R_X86_64_GOT32", 3);
    ("R_X86_64_PLT32", 4); ("R_X86_64_COPY", 5); ("R_X86_64_GLOB_DAT", 6);
    ("R_X86_64_JUMP_SLOT", 7); ("R_X86_64_RELATIVE", 8); ("R_X86_64_GOTPCREL", 9);
    ("R_X86_64_32", 10); ("R_X86_64_32S", 11); ("R_X86_64_16", 12); ("R_X86_64_PC16", 13);
    ("R_X86_64_8", 14); ("R_X86_64_PC8", 15); ("R_X86_64_DTPMOD64", 16);
    ("R_X86_64_DTPOFF64", 17); ("R_X86_64_TPOFF64", 18); ("R_X86_64_TLSGD", 19);
    ("R_X86_64_TLSLD", 20); ("R_X86_64_DTPOFF32", 21); ("R_X86_64_GOTTPOFF", 22);
    ("R_X86_64_TPOFF32", 23); ("R_X86_64_PC64", 24); ("R_X86_64_GOTOFF64", 25);
    ("R_X86_64_GOTPC32", 26); ("R_X86_64_GOT64", 27); ("R_X86_64_GOTPCREL64", 28);
    ("R_X86_64_GOTPC64", 29); ("R_X86_64_GOTPLT64", 30); ("R_X86_64_PLTOFF64", 31);
    ("R_X86_64_SIZE32", 32); ("R_X86_64_SIZE64", 33); ("R_X86_64_GOTPC32_TLSDESC", 34);
    ("R_X86_64_TLSDESC_CALL", 35); ("R_X86_64_TLSDESC", 36); ("R_X86_64_IRELATIVE", 37);
    ("R_X86_64_RELATIVE64", 38) ].

Definition R_X86_64_NUM : Z := 39.

Definition R_MN10300_relocs : list (string * Z) :=
  [ ("R_MN10300_NONE", 0); ("R_MN10300_32", 1); ("R_MN10300_16", 2); ("R_MN10300_8", 3);
    ("R_MN10300_PCREL32", 4); ("R_MN10300_PCREL16", 5); ("R_MN10300_PCREL8", 6);
    ("R_MN10300_GNU_VTINHERIT", 7); ("R_MN10300_GNU_VTENTRY", 8); ("R_MN10300_24", 9);
    ("R_MN10300_GOTPC32", 10); ("R_MN10300_GOTPC16", 11); ("R_MN10300_GOTOFF32", 12);
    ("R_MN10300_GOTOFF24", 13); ("R_MN10300_GOTOFF16", 14); ("R_MN10300_PLT32", 15);
    ("R_MN10300_PLT16", 16); ("R_MN10300_GOT32", 17); ("R_MN10300_GOT24", 18);
    ("R_MN10300_GOT16", 19); ("R_MN10300_COPY", 20); ("R_MN10300_GLOB_DAT", 21);
    ("R_MN10300_JMP_SLOT", 22); ("R_MN10300_RELATIVE", 23); ("R_MN10300_TLS_GD", 24);
    ("R_MN10300_TLS_LD", 25); ("R_MN10300_TLS_LDO", 26); ("R_MN10300_TLS_GOTIE", 27);
    ("R_MN10300_TLS_IE", 28); ("R_MN10300_TLS_LE", 29); ("R_MN10300_TLS_DTPMOD", 30);
    ("R_MN10300_TLS_DTPOFF", 31); ("R_MN10300_TLS_TPOFF", 32); ("R_MN10300_SYM_DIFF", 33);
    ("R_MN10300_ALIGN", 34) ].

Definition R_MN10300_NUM : Z := 35.

Definition R_M32R_relocs : list (string * Z) :=
  [ ("R_M32R_NONE", 0); ("R_M32R_16", 1); ("R_M32R_32", 2); ("R_M32R_24", 3);
    ("R_M32R_10_PCREL", 4); ("R_M32R_18_PCREL", 5); ("R_M32R_26_PCREL", 6);
    ("R_M32R_HI16_ULO", 7); ("R_M32R_HI16_SLO", 8); ("R_M32R_LO16", 9); ("R_M32R_SDA16", 10);
    ("R_M32R_GNU_VTINHERIT", 11); ("R_M32R_GNU_VTENTRY", 12); ("R_M32R_16_RELA", 33);
    ("R_M32R_32_RELA", 34); ("R_M32R_24_RELA", 35); ("R_M32R_10_PCREL_RELA", 36);
    ("R_M32R_18_PCREL_RELA", 37); ("R_M32R_26_PCREL_RELA", 38); ("R_M32R_HI16_ULO_RELA", 39);
    ("R_M32R_HI16_SLO_RELA", 40); ("R_M32R_LO16_RELA", 41); ("R_M32R_SDA16_RELA", 42);
    ("R_M32R_RELA_GNU_VTINHERIT", 43); ("R_M32R_RELA_GNU_VTENTRY", 44); ("R_M32R_REL32", 45);
    ("R_M32R_GOT24", 48); ("R_M32R_26_PLTREL", 49); ("R_M32R_COPY", 50);
    ("R_M32R_GLOB_DAT", 51); ("R_M32R_JMP_SLOT", 52); ("R_M32R_RELATIVE", 53);
    ("R_M32R_GOTOFF", 54); ("R_M32R_GOTPC24", 55); ("R_M32R_GOT16_HI_ULO", 56);
    ("R_M32R_GOT16_HI_SLO", 57); ("R_M32R_GOT16_LO", 58); ("R_M32R_GOTPC_HI_ULO", 59);
    ("R_M32R_GOTPC_HI_SLO", 60); ("R_M32R_GOTPC_LO", 61); ("R_M32R_GOTOFF_HI_ULO", 62);
    ("R_M32R_GOTOFF_HI_SLO", 63); ("R_M32R_GOTOFF_LO", 64) ].

Definition R_M32R_NUM : Z := 256.

Definition R_MICROBLAZE_relocs : list (string * Z) :=
  [ ("R_MICROBLAZE_NONE", 0); ("R_MICROBLAZE_32", 1); ("R_MICROBLAZE_32_PCREL", 2);
    ("R_MICROBLAZE_64_PCREL", 3); ("R_MICROBLAZE_32_PCREL_LO", 4); ("R_MICROBLAZE_64", 5);
    ("R_MICROBLAZE_32_LO", 6); ("R_MICROBLAZE_SRO32", 7); ("R_MICROBLAZE_SRW32", 8);
    ("R_MICROBLAZE_64_NONE", 9); ("R_MICROBLAZE_32_SYM_OP_SYM", 10);
    ("R_MICROBLAZE_GNU_VTINHERIT", 11); ("R_MICROBLAZE_GNU_VTENTRY", 12);
    ("R_MICROBLAZE_GOTPC_64", 13); ("R_MICROBLAZE_GOT_64", 14); ("R_MICROBLAZE_PLT_64", 15);
    ("R_MICROBLAZE_REL", 16); ("R_MICROBLAZE_JUMP_SLOT", 17); ("R_MICROBLAZE_GLOB_DAT", 18);
    ("R_MICROBLAZE_GOTOFF_64", 19); ("R_MICROBLAZE_GOTOFF_32", 20); ("R_MICROBLAZE_COPY", 21);
    ("R_MICROBLAZE_TLS", 22); ("R_MICROBLAZE_TLSGD", 23); ("R_MICROBLAZE_TLSLD", 24);
    ("R_MICROBLAZE_TLSDTPMOD32", 25); ("R_MICROBLAZE_TLSDTPREL32", 26);
    ("R_MICROBLAZE_TLSDTPREL64", 27); ("R_MICROBLAZE_TLSGOTTPREL32", 28);
    ("R_MICROBLAZE_TLSTPREL32", 29) ].

Definition R_TILEPRO_relocs : list (string * Z) :=
  [ ("R_TILEPRO_NONE", 0); ("R_TILEPRO_32", 1); ("R_TILEPRO_16", 2); ("R_TILEPRO_8", 3);
    ("R_TILEPRO_32_PCREL", 4); ("R_TILEPRO_16_PCREL", 5); ("R_TILEPRO_8_PCREL", 6);
    ("R_TILEPRO_LO16", 7); ("R_TILEPRO_HI16", 8); ("R_TILEPRO_HA16", 9); ("R_TILEPRO_COPY", 10);
    ("R_TILEPRO_GLOB_DAT", 11); ("R_TILEPRO_JMP_SLOT", 12); ("R_TILEPRO_RELATIVE", 13);
    ("R_TILEPRO_BROFF_X1", 14); ("R_TILEPRO_JOFFLONG_X1", 15);
    ("R_TILEPRO_JOFFLONG_X1_PLT", 16); ("R_TILEPRO_IMM8_X0", 17); ("R_TILEPRO_IMM8_Y0", 18);
    ("R_TILEPRO_IMM8_X1", 19); ("R_TILEPRO_IMM8_Y1", 20); ("R_TILEPRO_MT_IMM15_X1", 21);
    ("R_TILEPRO_MF_IMM15_X1", 22); ("R_TILEPRO_IMM16_X0", 23); ("R_TILEPRO_IMM16_X1", 24);
    ("R_TILEPRO_IMM16_X0_LO", 25); ("R_TILEPRO_IMM16_X1_LO", 26); ("R_TILEPRO_IMM16_X0_HI", 27);
    ("R_TILEPRO_IMM16_X1_HI", 28); ("R_TILEPRO_IMM16_X0_HA", 29); ("R_TILEPRO_IMM16_X1_HA", 30);
    ("R_TILEPRO_IMM16_X0_PCREL", 31); ("R_TILEPRO_IMM16_X1_PCREL", 32);
    ("R_TILEPRO_IMM16_X0_LO_PCREL", 33); ("R_TILEPRO_IMM16_X1_LO_PCREL", 34);
    ("R_TILEPRO_IMM16_X0_HI_PCREL", 35); ("R_TILEPRO_IMM16_X1_HI_PCREL", 36);
    ("R_TILEPRO_IMM16_X0_HA_PCREL", 37); ("R_TILEPRO_IMM16_X1_HA_PCREL", 38);
    ("R_TILEPRO_IMM16_X0_GOT", 39); ("R_TILEPRO_IMM16_X1_GOT", 40);
    ("R_TILEPRO_IMM16_X0_GOT_LO", 41); ("R_TILEPRO_IMM16_X1_GOT_LO", 42);
    ("R_TILEPRO_IMM16_X0_GOT_HI", 43); ("R_TILEPRO_IMM16_X1_GOT_HI", 44);
    ("R_TILEPRO_IMM16_X0_GOT_HA", 45); ("R_TILEPRO_IMM16_X1_GOT_HA", 46);
    ("R_TILEPRO_MMSTART_X0", 47); ("R_TILEPRO_MMEND_X0", 48); ("R_TILEPRO_MMSTART_X1", 49);
    ("R_TILEPRO_MMEND_X1", 50); ("R_TILEPRO_SHAMT_X0", 51); ("R_TILEPRO_SHAMT_X1", 52);
    ("R_TILEPRO_SHAMT_Y0", 53); ("R_TILEPRO_SHAMT_Y1", 54); ("R_TILEPRO_DEST_IMM8_X1", 55);
    ("R_TILEPRO_TLS_GD_CALL", 60); ("R_TILEPRO_IMM8_X0_TLS_GD_ADD", 61);
    ("R_TILEPRO_IMM8_X1_TLS_GD_ADD", 62); ("R_TILEPRO_IMM8_Y0_TLS_GD_ADD", 63);
    ("R_TILEPRO_IMM8_Y1_TLS_GD_ADD", 64); ("R_TILEPRO_TLS_IE_LOAD", 65);
    ("R_TILEPRO_IMM16_X0_TLS_GD", 66); ("R_TILEPRO_IMM16_X1_TLS_GD", 67);
    ("R_TILEPRO_IMM16_X0_TLS_GD_LO", 68); ("R_TILEPRO_IMM16_X1_TLS_GD_LO", 69);
    ("R_TILEPRO_IMM16_X0_TLS_GD_HI", 70); ("R_TILEPRO_IMM16_X1_TLS_GD_HI", 71);
    ("R_TILEPRO_IMM16_X0_TLS_GD_HA", 72); ("R_TILEPRO_IMM16_X1_TLS_GD_HA", 73);
    ("R_TILEPRO_IMM16_X0_TLS_IE", 74); ("R_TILEPRO_IMM16_X1_TLS_IE", 75);
    ("R_TILEPRO_IMM16_X0_TLS_IE_LO", 76); ("R_TILEPRO_IMM16_X1_TLS_IE_LO", 77);
    ("R_TILEPRO_IMM16_X0_TLS_IE_HI", 78); ("R_TILEPRO_IMM16_X1_TLS_IE_HI", 79);
    ("R_TILEPRO_IMM16_X0_TLS_IE_HA", 80); ("R_TILEPRO_IMM16_X1_TLS_IE_HA", 81);
    ("R_TILEPRO_TLS_DTPMOD32", 82); ("R_TILEPRO_TLS_DTPOFF32", 83);
    ("R_TILEPRO_TLS_TPOFF32", 84); ("R_TILEPRO_IMM16_X0_TLS_LE", 85);
    ("R_TILEPRO_IMM16_X1_TLS_LE", 86); ("R_TILEPRO_IMM16_X0_TLS_LE_LO", 87);
    ("R_TILEPRO_IMM16_X1_TLS_LE_LO", 88); ("R_TILEPRO_IMM16_X0_TLS_LE_HI", 89);
    ("R_TILEPRO_IMM16_X1_TLS_LE_HI", 90); ("R_TILEPRO_IMM16_X0_TLS_LE_HA", 91);
    ("R_TILEPRO_IMM16_X1_TLS_LE_HA", 92); ("R_TILEPRO_GNU_VTINHERIT", 128);
    ("R_TILEPRO_GNU_VTENTRY", 129) ].

Definition R_TILEPRO_NUM : Z := 130.

Definition R_TILEGX_relocs : list (string * Z) :=
  [ ("R_TILEGX_NONE", 0); ("R_TILEGX_64", 1); ("R_TILEGX_32", 2); ("R_TILEGX_16", 3);
    ("R_TILEGX_8", 4); ("R_TILEGX_64_PCREL", 5); ("R_TILEGX_32_PCREL", 6);
    ("R_TILEGX_16_PCREL", 7); ("R_TILEGX_8_PCREL", 8); ("R_TILEGX_HW0", 9);
    ("R_TILEGX_HW1", 10); ("R_TILEGX_HW2", 11); ("R_TILEGX_HW3", 12); ("R_TILEGX_HW0_LAST", 13);
    ("R_TILEGX_HW1_LAST", 14); ("R_TILEGX_HW2_LAST", 15); ("R_TILEGX_COPY", 16);
    ("R_TILEGX_GLOB_DAT", 17); ("R_TILEGX_JMP_SLOT", 18); ("R_TILEGX_RELATIVE", 19);
    ("R_TILEGX_BROFF_X1", 20); ("R_TILEGX_JUMPOFF_X1", 21); ("R_TILEGX_JUMPOFF_X1_PLT", 22);
    ("R_TILEGX_IMM8_X0", 23); ("R_TILEGX_IMM8_Y0", 24); ("R_TILEGX_IMM8_X1", 25);
    ("R_TILEGX_IMM8_Y1", 26); ("R_TILEGX_DEST_IMM8_X1", 27); ("R_TILEGX_MT_IMM14_X1", 28);
    ("R_TILEGX_MF_IMM14_X1", 29); ("R_TILEGX_MMSTART_X0", 30); ("R_TILEGX_MMEND_X0", 31);
    ("R_TILEGX_SHAMT_X0", 32); ("R_TILEGX_SHAMT_X1", 33); ("R_TILEGX_SHAMT_Y0", 34);
    ("R_TILEGX_SHAMT_Y1", 35); ("R_TILEGX_IMM16_X0_HW0", 36); ("R_TILEGX_IMM16_X1_HW0", 37);
    ("R_TILEGX_IMM16_X0_HW1", 38); ("R_TILEGX_IMM16_X1_HW1", 39); ("R_TILEGX_IMM16_X0_HW2", 40);
    ("R_TILEGX_IMM16_X1_HW2", 41); ("R_TILEGX_IMM16_X0_HW3", 42); ("R_TILEGX_IMM16_X1_HW3", 43);
    ("R_TILEGX_IMM16_X0_HW0_LAST", 44); ("R_TILEGX_IMM16_X1_HW0_LAST", 45);
    ("R_TILEGX_IMM16_X0_HW1_LAST", 46); ("R_TILEGX_IMM16_X1_HW1_LAST", 47);
    ("R_TILEGX_IMM16_X0_HW2_LAST", 48); ("R_TILEGX_IMM16_X1_HW2_LAST", 49);
    ("R_TILEGX_IMM16_X0_HW0_PCREL", 50); ("R_TILEGX_IMM16_X1_HW0_PCREL", 51);
    ("R_TILEGX_IMM16_X0_HW1_PCREL", 52); ("R_TILEGX_IMM16_X1_HW1_PCREL", 53);
    ("R_TILEGX_IMM16_X0_HW2_PCREL", 54); ("R_TILEGX_IMM16_X1_HW2_PCREL", 55);
    ("R_TILEGX_IMM16_X0_HW3_PCREL", 56); ("R_TILEGX_IMM16_X1_HW3_PCREL", 57);
    ("R_TILEGX_IMM16_X0_HW0_LAST_PCREL", 58); ("R_TILEGX_IMM16_X1_HW0_LAST_PCREL", 59);
    ("R_TILEGX_IMM16_X0_HW1_LAST_PCREL", 60); ("R_TILEGX_IMM16_X1_HW1_LAST_PCREL", 61);
    ("R_TILEGX_IMM16_X0_HW2_LAST_PCREL", 62); ("R_TILEGX_IMM16_X1_HW2_LAST_PCREL", 63);
    ("R_TILEGX_IMM16_X0_HW0_GOT", 64); ("R_TILEGX_IMM16_X1_HW0_GOT", 65);
    ("R_TILEGX_IMM16_X0_HW0_PLT_PCREL", 66); ("R_TILEGX_IMM16_X1_HW0_PLT_PCREL", 67);
    ("R_TILEGX_IMM16_X0_HW1_PLT_PCREL", 68); ("R_TILEGX_IMM16_X1_HW1_PLT_PCREL", 69);
    ("R_TILEGX_IMM16_X0_HW2_PLT_PCREL", 70); ("R_TILEGX_IMM16_X1_HW2_PLT_PCREL", 71);
    ("R_TILEGX_IMM16_X0_HW0_LAST_GOT", 72); ("R_TILEGX_IMM16_X1_HW0_LAST_GOT", 73);
    ("R_TILEGX_IMM16_X0_HW1_LAST_GOT", 74); ("R_TILEGX_IMM16_X1_HW1_LAST_GOT", 75);
    ("R_TILEGX_IMM16_X0_HW3_PLT_PCREL", 76); ("R_TILEGX_IMM16_X1_HW3_PLT_PCREL", 77);
    ("R_TILEGX_IMM16_X0_HW0_TLS_GD", 78); ("R_TILEGX_IMM16_X1_HW0_TLS_GD", 79);
    ("R_TILEGX_IMM16_X0_HW0_TLS_LE", 80); ("R_TILEGX_IMM16_X1_HW0_TLS_LE", 81);
    ("R_TILEGX_IMM16_X0_HW0_LAST_TLS_LE", 82); ("R_TILEGX_IMM16_X1_HW0_LAST_TLS_LE", 83);
    ("R_TILEGX_IMM16_X0_HW1_LAST_TLS_LE", 84); ("R_TILEGX_IMM16_X1_HW1_LAST_TLS_LE", 85);
    ("R_TILEGX_IMM16_X0_HW0_LAST_TLS_GD", 86); ("R_TILEGX_IMM16_X1_HW0_LAST_TLS_GD", 87);
    ("R_TILEGX_IMM16_X0_HW1_LAST_TLS_GD", 88); ("R_TILEGX_IMM16_X1_HW1_LAST_TLS_GD", 89);
    ("R_TILEGX_IMM16_X0_HW0_TLS_IE", 92); ("R_TILEGX_IMM16_X1_HW0_TLS_IE", 93);
    ("R_TILEGX_IMM16_X0_HW0_LAST_PLT_PCREL", 94); ("R_TILEGX_IMM16_X1_HW0_LAST_PLT_PCREL", 95);
    ("R_TILEGX_IMM16_X0_HW1_LAST_PLT_PCREL", 96); ("R_TILEGX_IMM16_X1_HW1_LAST_PLT_PCREL", 97);
    ("R_TILEGX_IMM16_X0_HW2_LAST_PLT_PCREL", 98); ("R_TILEGX_IMM16_X1_HW2_LAST_PLT_PCREL", 99);
    ("R_TILEGX_IMM16_X0_HW0_LAST_TLS_IE", 100); ("R_TILEGX_IMM16_X1_HW0_LAST_TLS_IE", 101);
    ("R_TILEGX_IMM16_X0_HW1_LAST_TLS_IE", 102); ("R_TILEGX_IMM16_X1_HW1_LAST_TLS_IE", 103);
    ("R_TILEGX_TLS_DTPMOD64", 106); ("R_TILEGX_TLS_DTPOFF64", 107);
    ("R_TILEGX_TLS_TPOFF64", 108); ("R_TILEGX_TLS_DTPMOD32", 109);
    ("R_TILEGX_TLS_DTPOFF32", 110); ("R_TILEGX_TLS_TPOFF32", 111);
    ("R_TILEGX_TLS_GD_CALL", 112); ("R_TILEGX_IMM8_X0_TLS_GD_ADD", 113);
    ("R_TILEGX_IMM8_X1_TLS_GD_ADD", 114); ("R_TILEGX_IMM8_Y0_TLS_GD_ADD", 115);
    ("R_TILEGX_IMM8_Y1_TLS_GD_ADD", 116); ("R_TILEGX_TLS_IE_LOAD", 117);
    ("R_TILEGX_IMM8_X0_TLS_ADD", 118); ("R_TILEGX_IMM8_X1_TLS_ADD", 119);
    ("R_TILEGX_IMM8_Y0_TLS_ADD", 120); ("R_TILEGX_IMM8_Y1_TLS_ADD", 121);
    ("R_TILEGX_GNU_VTINHERIT", 128); ("R_TILEGX_GNU_VTENTRY", 129) ].

Definition R_TILEGX_NUM : Z := 130.

(** The machines whose table ends in a [_NUM] entry, with that bound. *)
Definition reloc_tables_num : list (string * list (string * Z) * Z) :=
  [ ("68K", R_68K_relocs, R_68K_NUM);
    ("386", R_386_relocs, R_386_NUM);
    ("SPARC", R_SPARC_relocs, R_SPARC_NUM);
    ("MIPS", R_MIPS_relocs, R_MIPS_NUM);
    ("ALPHA", R_ALPHA_relocs, R_ALPHA_NUM);
    ("ARM", R_ARM_relocs, R_ARM_NUM);
    ("SH", R_SH_relocs, R_SH_NUM);
    ("390", R_390_relocs, R_390_NUM);
    ("CRIS", R_CRIS_relocs, R_CRIS_NUM);
    ("X86_64", R_X86_64_relocs, R_X86_64_NUM);
    ("MN10300", R_MN10300_relocs, R_MN10300_NUM);
    ("M32R", R_M32R_relocs, R_M32R_NUM);
    ("TILEPRO", R_TILEPRO_relocs, R_TILEPRO_NUM);
    ("TILEGX", R_TILEGX_relocs, R_TILEGX_NUM) ].

(** All relocation tables. *)
Definition reloc_tables : list (string * list (string * Z)) :=
  [ ("68K", R_68K_relocs);
    ("386", R_386_relocs);
    ("SPARC", R_SPARC_relocs);
    ("MIPS", R_MIPS_relocs);
    ("PARISC", R_PARISC_relocs);
    ("ALPHA", R_ALPHA_relocs);
    ("PPC", R_PPC_relocs);
    ("PPC64", R_PPC64_relocs);
    ("AARCH64", R_AARCH64_relocs);
    ("ARM", R_ARM_relocs);
    ("IA64", R_IA64_relocs);
    ("SH", R_SH_relocs);
    ("390", R_390_relocs);
    ("CRIS", R_CRIS_relocs);
    ("X86_64", R_X86_64_relocs);
    ("MN10300", R_MN10300_relocs);
    ("M32R", R_M32R_relocs);
    ("MICROBLAZE", R_MICROBLAZE_relocs);
    ("TILEPRO", R_TILEPRO_relocs);
    ("TILEGX", R_TILEGX_relocs) ].
(** The four magic bytes as one string. *)
Definition ELFMAG : list Z := [ELFMAG0; ELFMAG1; ELFMAG2; ELFMAG3].

(** ** Index macros of the dynamic tags (applied to an [Elf32_Word] tag) *)

Definition DT_VALTAGIDX (tag : Z) : Z := DT_VALRNGHI - tag.
Definition DT_ADDRTAGIDX (tag : Z) : Z := DT_ADDRRNGHI - tag.
Definition DT_VERSIONTAGIDX (tag : Z) : Z := DT_VERNEEDNUM - tag.
Definition DT_EXTRATAGIDX (tag : Z) : Z :=
  u32 (u32 (- Z.shiftr (sext 32 (Z.shiftl (sext 32 tag) 1)) 1) - 1).

(** ** Reading the tables *)

Definition value_of_name (t : list (string * Z)) (n : string) : option Z :=
  snd <$> find (fun e => String.eqb (fst e) n) t.
Definition name_of_value (t : list (string * Z)) (v : Z) : option string :=
  fst <$> find (fun e => snd e =? v) t.

Fixpoint distinctb {A} (eqb : A -> A -> bool) (l : list A) : bool :=
  match l with
  | [] => true
  | x :: l' => negb (existsb (eqb x) l') && distinctb eqb l'
  end.

Lemma find_distinct {A B} (f : A -> B) (eqb : B -> B -> bool) (l : list A) x :
  (forall a b, eqb a b = true <-> a = b) ->
  distinctb eqb (f <$> l) = true -> In x l ->
  find (fun e => eqb (f e) (f x)) l = Some x.
Proof.
  intros Heq. induction l as [|y l IH]; [done|]. cbn [distinctb fmap list_fmap find].
  intros Hd%andb_true_iff. destruct Hd as [Hn Hd]. intros [->|Hin].
  - by rewrite (proj2 (Heq _ _) eq_refl).
  - destruct (eqb (f y) (f x)) eqn:E; [|by apply IH].
    apply negb_true_iff in Hn. exfalso. apply Heq in E.
    assert (existsb (eqb (f y)) (f <$> l) = true) as Hex; [|by rewrite Hex in Hn].
    apply existsb_exists. exists (f x). split; [by apply in_map|by apply Heq].
Qed.

Lemma name_of_value_distinct t n v :
  distinctb Z.eqb (snd <$> t) = true -> In (n, v) t -> name_of_value t v = Some n.
Proof.
  intros Hd Hin. unfold name_of_value.
  pose proof (find_distinct snd Z.eqb t (n, v) Z.eqb_eq Hd Hin) as E. cbn [snd] in E. by rewrite E.
Qed.

Lemma value_of_name_distinct t n v :
  distinctb String.eqb (fst <$> t) = true -> In (n, v) t -> value_of_name t n = Some v.
Proof.
  intros Hd Hin. unfold value_of_name.
  pose proof (find_distinct fst String.eqb t (n, v) String.eqb_eq Hd Hin) as E. cbn [fst] in E.
  by rewrite E.
Qed.

(** Machines whose header reuses a number: the HPPA aliases, and two ARM types. *)
Definition ambiguous_machines : list string := ["PARISC"; "ARM"].

Definition reloc_table_ok (e : string * list (string * Z)) : bool :=
  distinctb String.eqb (fst <$> e.2) &&
  (existsb (String.eqb e.1) ambiguous_machines || distinctb Z.eqb (snd <$> e.2)).

Lemma reloc_tables_ok : forallb reloc_table_ok reloc_tables = true.
Proof. vm_compute. reflexivity. Qed.

Lemma reloc_tables_below :
  forallb (fun '(_, t, num) => forallb (fun '(_, v) => (0 <=? v) && (v <? num)) t)
    reloc_tables_num = true.
Proof. vm_compute. reflexivity. Qed.

(** The tags of a group, without its range markers and counts. *)
Definition range_markers : list string :=
  ["DT_VALRNGLO"; "DT_VALNUM"; "DT_ADDRRNGLO"; "DT_ADDRNUM"; "DT_VERSIONTAGNUM"; "DT_EXTRANUM"].
Definition tags_of (t : list (string * Z)) : list (string * Z) :=
  List.filter (fun '(n, _) => negb (existsb (String.eqb n) range_markers)) t.
Definition index_below (idx : Z -> Z) (num : Z) (t : list (string * Z)) : bool :=
  forallb (fun '(_, tag) => (0 <=? idx tag) && (idx tag <? num)) t.

Lemma index_below_spec idx num t n tag :
  index_below idx num t = true -> In (n, tag) t -> 0 <= idx tag < num.
Proof.
  unfold index_below. rewrite forallb_forall. intros H Hin.
  specialize (H _ Hin). simpl in H. zbool. lia.
Qed.

(** ** Properties *)

(** The relocation tables of common/elfhead.h are readable in both
    directions: in every machine's table a name determines its number, and
    (HPPA and ARM excepted, whose headers reuse numbers) a number determines its
    name. *)
Theorem reloc_names_roundtrip machine t n v :
  In (machine, t) reloc_tables -> In (n, v) t ->
  value_of_name t n = Some v /\
  (~ In machine ambiguous_machines -> name_of_value t v = Some n).
Proof.
  intros Ht Hin. pose proof reloc_tables_ok as Hok.
  rewrite forallb_forall in Hok. specialize (Hok _ Ht). unfold reloc_table_ok in Hok.
  apply andb_true_iff in Hok as [Hn Hv]. cbn [fst snd] in *. split.
  - by apply value_of_name_distinct.
  - intros Ha. apply orb_true_iff in Hv as [Hv|Hv]; [|by apply name_of_value_distinct].
    destruct Ha. apply existsb_exists in Hv as (x & Hx & ->%String.eqb_eq). done.
Qed.

Lemma reloc_names_roundtrip_witness :
  value_of_name R_X86_64_relocs "R_X86_64_PC32" = Some 2 /\
  (~ In "X86_64"%string ambiguous_machines ->
   name_of_value R_X86_64_relocs 2 = Some "R_X86_64_PC32"%string).
Proof.
  apply (reloc_names_roundtrip "X86_64" R_X86_64_relocs "R_X86_64_PC32" 2).
  - vm_compute. tauto.
  - vm_compute. tauto.
Defined.

(** where a machine's relocation table ends in a [_NUM] constant ("Keep this
    the last entry"), every relocation number of the machine is in [0, _NUM); and
    each tag-index macro sends every dynamic tag named in its group (the markers
    of the ends of the range and the count excepted) into [0, NUM) of that group,
    so the index is always valid for an array of that size. *)
Theorem elf_numbering_bounds :
  (forall machine t num n v,
     In (machine, t, num) reloc_tables_num -> In (n, v) t -> 0 <= v < num) /\
  (forall n tag, In (n, tag) (tags_of d_tag_val_range) -> 0 <= DT_VALTAGIDX tag < DT_VALNUM) /\
  (forall n tag, In (n, tag) (tags_of d_tag_addr_range) -> 0 <= DT_ADDRTAGIDX tag < DT_ADDRNUM) /\
  (forall n tag, In (n, tag) (tags_of d_tag_version_gnu ++ tags_of d_tag_version_sun) ->
     0 <= DT_VERSIONTAGIDX tag < DT_VERSIONTAGNUM) /\
  (forall n tag, In (n, tag) (tags_of d_tag_extra) -> 0 <= DT_EXTRATAGIDX tag < DT_EXTRANUM).
Proof.
  split_and!.
  - intros machine t num n v Ht Hv. pose proof reloc_tables_below as Hb.
    rewrite forallb_forall in Hb. specialize (Hb _ Ht). simpl in Hb.
    rewrite forallb_forall in Hb. specialize (Hb _ Hv). simpl in Hb. zbool. lia.
  - intros n tag. by apply index_below_spec.
  - intros n tag. by apply index_below_spec.
  - intros n tag. by apply index_below_spec.
  - intros n tag. by apply index_below_spec.
Qed.
