(* ===== verification/ElfMachine.v ===== *)
(** * ElfMachine: the machine-specific constants of common/elfhead.h

    [ElfConsts] has the constants every machine shares and the relocation types; this
    file has the rest of the header: the flags, section and segment types, dynamic tags
    and symbol types of particular machines, a table per group in source order, and the
    two macros that take them apart.  The generic part of the header reserves ranges
    and masks for processors and operating systems; the theorems show that the
    machine-specific values stay inside them. *)

From S2P Require Import Prelude ElfConsts.

(** A constant of a table, by its name. *)
Definition constant (t : list (string * Z)) (n : string) : Z := default (-1) (value_of_name t n).

Definition SHT_LOPROC : Z := constant sh_type_values "SHT_LOPROC".
Definition SHT_HIPROC : Z := constant sh_type_values "SHT_HIPROC".
Definition PT_LOOS : Z := constant p_type_values "PT_LOOS".
Definition PT_HIOS : Z := constant p_type_values "PT_HIOS".
Definition PT_LOPROC : Z := constant p_type_values "PT_LOPROC".
Definition PT_HIPROC : Z := constant p_type_values "PT_HIPROC".
Definition DT_LOPROC : Z := constant d_tag_values "DT_LOPROC".
Definition DT_HIPROC : Z := constant d_tag_values "DT_HIPROC".
Definition STT_LOOS : Z := constant st_type_values "STT_LOOS".
Definition STT_LOPROC : Z := constant st_type_values "STT_LOPROC".
Definition STT_HIPROC : Z := constant st_type_values "STT_HIPROC".
Definition SHN_LOPROC : Z := constant shn_values "SHN_LOPROC".
Definition SHN_HIPROC : Z := constant shn_values "SHN_HIPROC".
Definition SHF_MASKOS : Z := constant sh_flags_values "SHF_MASKOS".
Definition SHF_MASKPROC : Z := constant sh_flags_values "SHF_MASKPROC".
Definition PF_MASKOS : Z := constant p_flags_values "PF_MASKOS".
Definition PF_MASKPROC : Z := constant p_flags_values "PF_MASKPROC".

Definition EF_ARM_EABIMASK : Z := 0xff000000.

(** ** The tables *)

(** *** Motorola 68k *)

Definition m68k_e_flags : list (string * Z) :=
  [ ("EF_CPU32", 0x00810000) ].


(** *** SPARC *)

Definition sparc_st_type : list (string * Z) :=
  [ ("STT_SPARC_REGISTER", 13) ].

Definition sparc_e_flags : list (string * Z) :=
  [ ("EF_SPARCV9_MM", 3); ("EF_SPARCV9_TSO", 0); ("EF_SPARCV9_PSO", 1); ("EF_SPARCV9_RMO", 2);
    ("EF_SPARC_LEDATA", 0x800000); ("EF_SPARC_EXT_MASK", 0xFFFF00);
    ("EF_SPARC_32PLUS", 0x000100); ("EF_SPARC_SUN_US1", 0x000200);
    ("EF_SPARC_HAL_R1", 0x000400); ("EF_SPARC_SUN_US3", 0x000800) ].

Definition sparc_d_tag : list (string * Z) :=
  [ ("DT_SPARC_REGISTER", 0x70000001) ].

Definition DT_SPARC_NUM : Z := 2.

(** *** MIPS *)

Definition mips_e_flags : list (string * Z) :=
  [ ("EF_MIPS_NOREORDER", 1); ("EF_MIPS_PIC", 2); ("EF_MIPS_CPIC", 4); ("EF_MIPS_XGOT", 8);
    ("EF_MIPS_64BIT_WHIRL", 16); ("EF_MIPS_ABI2", 32); ("EF_MIPS_ABI_ON32", 64);
    ("EF_MIPS_NAN2008", 1024); ("EF_MIPS_ARCH", 0xf0000000) ].

Definition mips_arch_levels : list (string * Z) :=
  [ ("EF_MIPS_ARCH_1", 0x00000000); ("EF_MIPS_ARCH_2", 0x10000000);
    ("EF_MIPS_ARCH_3", 0x20000000); ("EF_MIPS_ARCH_4", 0x30000000);
    ("EF_MIPS_ARCH_5", 0x40000000); ("EF_MIPS_ARCH_32", 0x50000000);
    ("EF_MIPS_ARCH_64", 0x60000000); ("EF_MIPS_ARCH_32R2", 0x70000000);
    ("EF_MIPS_ARCH_64R2", 0x80000000) ].

Definition mips_arch_unofficial : list (string * Z) :=
  [ ("E_MIPS_ARCH_1", 0x00000000); ("E_MIPS_ARCH_2", 0x10000000); ("E_MIPS_ARCH_3", 0x20000000);
    ("E_MIPS_ARCH_4", 0x30000000); ("E_MIPS_ARCH_5", 0x40000000);
    ("E_MIPS_ARCH_32", 0x50000000); ("E_MIPS_ARCH_64", 0x60000000) ].

Definition mips_shn : list (string * Z) :=
  [ ("SHN_MIPS_ACOMMON", 0xff00); ("SHN_MIPS_TEXT", 0xff01); ("SHN_MIPS_DATA", 0xff02);
    ("SHN_MIPS_SCOMMON", 0xff03); ("SHN_MIPS_SUNDEFINED", 0xff04) ].

Definition mips_sh_type : list (string * Z) :=
  [ ("SHT_MIPS_LIBLIST", 0x70000000); ("SHT_MIPS_MSYM", 0x70000001);
    ("SHT_MIPS_CONFLICT", 0x70000002); ("SHT_MIPS_GPTAB", 0x70000003);
    ("SHT_MIPS_UCODE", 0x70000004); ("SHT_MIPS_DEBUG", 0x70000005);
    ("SHT_MIPS_REGINFO", 0x70000006); ("SHT_MIPS_PACKAGE", 0x70000007);
    ("SHT_MIPS_PACKSYM", 0x70000008); ("SHT_MIPS_RELD", 0x70000009);
    ("SHT_MIPS_IFACE", 0x7000000b); ("SHT_MIPS_CONTENT", 0x7000000c);
    ("SHT_MIPS_OPTIONS", 0x7000000d); ("SHT_MIPS_SHDR", 0x70000010);
    ("SHT_MIPS_FDESC", 0x70000011); ("SHT_MIPS_EXTSYM", 0x70000012);
    ("SHT_MIPS_DENSE", 0x70000013); ("SHT_MIPS_PDESC", 0x70000014);
    ("SHT_MIPS_LOCSYM", 0x70000015); ("SHT_MIPS_AUXSYM", 0x70000016);
    ("SHT_MIPS_OPTSYM", 0x70000017); ("SHT_MIPS_LOCSTR", 0x70000018);
    ("SHT_MIPS_LINE", 0x70000019); ("SHT_MIPS_RFDESC", 0x7000001a);
    ("SHT_MIPS_DELTASYM", 0x7000001b); ("SHT_MIPS_DELTAINST", 0x7000001c);
    ("SHT_MIPS_DELTACLASS", 0x7000001d); ("SHT_MIPS_DWARF", 0x7000001e);
    ("SHT_MIPS_DELTADECL", 0x7000001f); ("SHT_MIPS_SYMBOL_LIB", 0x70000020);
    ("SHT_MIPS_EVENTS", 0x70000021); ("SHT_MIPS_TRANSLATE", 0x70000022);
    ("SHT_MIPS_PIXIE", 0x70000023); ("SHT_MIPS_XLATE", 0x70000024);
    ("SHT_MIPS_XLATE_DEBUG", 0x70000025); ("SHT_MIPS_WHIRL", 0x70000026);
    ("SHT_MIPS_EH_REGION", 0x70000027); ("SHT_MIPS_XLATE_OLD", 0x70000028);
    ("SHT_MIPS_PDR_EXCEPTION", 0x70000029) ].

Definition mips_sh_flags : list (string * Z) :=
  [ ("SHF_MIPS_GPREL", 0x10000000); ("SHF_MIPS_MERGE", 0x20000000);
    ("SHF_MIPS_ADDR", 0x40000000); ("SHF_MIPS_STRINGS", 0x80000000);
    ("SHF_MIPS_NOSTRIP", 0x08000000); ("SHF_MIPS_LOCAL", 0x04000000);
    ("SHF_MIPS_NAMES", 0x02000000); ("SHF_MIPS_NODUPE", 0x01000000) ].

Definition mips_st_other : list (string * Z) :=
  [ ("STO_MIPS_DEFAULT", 0x0); ("STO_MIPS_INTERNAL", 0x1); ("STO_MIPS_HIDDEN", 0x2);
    ("STO_MIPS_PROTECTED", 0x3); ("STO_MIPS_PLT", 0x8); ("STO_MIPS_SC_ALIGN_UNUSED", 0xff) ].

Definition mips_st_bind : list (string * Z) :=
  [ ("STB_MIPS_SPLIT_COMMON", 13) ].

Definition odk_values : list (string * Z) :=
  [ ("ODK_NULL", 0); ("ODK_REGINFO", 1); ("ODK_EXCEPTIONS", 2); ("ODK_PAD", 3);
    ("ODK_HWPATCH", 4); ("ODK_FILL", 5); ("ODK_TAGS", 6); ("ODK_HWAND", 7); ("ODK_HWOR", 8) ].

Definition oex_values : list (string * Z) :=
  [ ("OEX_FPU_MIN", 0x1f); ("OEX_FPU_MAX", 0x1f00); ("OEX_PAGE0", 0x10000);
    ("OEX_SMM", 0x20000); ("OEX_FPDBUG", 0x40000); ("OEX_PRECISEFP", 0x40000);
    ("OEX_DISMISS", 0x80000); ("OEX_FPU_INVAL", 0x10); ("OEX_FPU_DIV0", 0x08);
    ("OEX_FPU_OFLO", 0x04); ("OEX_FPU_UFLO", 0x02); ("OEX_FPU_INEX", 0x01) ].

Definition ohw_masks : list (string * Z) :=
  [ ("OHW_R4KEOP", 0x1); ("OHW_R8KPFETCH", 0x2); ("OHW_R5KEOP", 0x4); ("OHW_R5KCVTL", 0x8) ].

Definition opad_masks : list (string * Z) :=
  [ ("OPAD_PREFIX", 0x1); ("OPAD_POSTFIX", 0x2); ("OPAD_SYMBOL", 0x4) ].

Definition ohwa_masks : list (string * Z) :=
  [ ("OHWA0_R4KEOP_CHECKED", 0x00000001); ("OHWA1_R4KEOP_CLEAN", 0x00000002) ].

Definition mips_p_type : list (string * Z) :=
  [ ("PT_MIPS_REGINFO", 0x70000000); ("PT_MIPS_RTPROC", 0x70000001);
    ("PT_MIPS_OPTIONS", 0x70000002) ].

Definition mips_p_flags : list (string * Z) :=
  [ ("PF_MIPS_LOCAL", 0x10000000) ].

Definition mips_d_tag : list (string * Z) :=
  [ ("DT_MIPS_RLD_VERSION", 0x70000001); ("DT_MIPS_TIME_STAMP", 0x70000002);
    ("DT_MIPS_ICHECKSUM", 0x70000003); ("DT_MIPS_IVERSION", 0x70000004);
    ("DT_MIPS_FLAGS", 0x70000005); ("DT_MIPS_BASE_ADDRESS", 0x70000006);
    ("DT_MIPS_MSYM", 0x70000007); ("DT_MIPS_CONFLICT", 0x70000008);
    ("DT_MIPS_LIBLIST", 0x70000009); ("DT_MIPS_LOCAL_GOTNO", 0x7000000a);
    ("DT_MIPS_CONFLICTNO", 0x7000000b); ("DT_MIPS_LIBLISTNO", 0x70000010);
    ("DT_MIPS_SYMTABNO", 0x70000011); ("DT_MIPS_UNREFEXTNO", 0x70000012);
    ("DT_MIPS_GOTSYM", 0x70000013); ("DT_MIPS_HIPAGENO", 0x70000014);
    ("DT_MIPS_RLD_MAP", 0x70000016); ("DT_MIPS_DELTA_CLASS", 0x70000017);
    ("DT_MIPS_DELTA_CLASS_NO", 0x70000018); ("DT_MIPS_DELTA_INSTANCE", 0x70000019);
    ("DT_MIPS_DELTA_INSTANCE_NO", 0x7000001a); ("DT_MIPS_DELTA_RELOC", 0x7000001b);
    ("DT_MIPS_DELTA_RELOC_NO", 0x7000001c); ("DT_MIPS_DELTA_SYM", 0x7000001d);
    ("DT_MIPS_DELTA_SYM_NO", 0x7000001e); ("DT_MIPS_DELTA_CLASSSYM", 0x70000020);
    ("DT_MIPS_DELTA_CLASSSYM_NO", 0x70000021); ("DT_MIPS_CXX_FLAGS", 0x70000022);
    ("DT_MIPS_PIXIE_INIT", 0x70000023); ("DT_MIPS_SYMBOL_LIB", 0x70000024);
    ("DT_MIPS_LOCALPAGE_GOTIDX", 0x70000025); ("DT_MIPS_LOCAL_GOTIDX", 0x70000026);
    ("DT_MIPS_HIDDEN_GOTIDX", 0x70000027); ("DT_MIPS_PROTECTED_GOTIDX", 0x70000028);
    ("DT_MIPS_OPTIONS", 0x70000029); ("DT_MIPS_INTERFACE", 0x7000002a);
    ("DT_MIPS_DYNSTR_ALIGN", 0x7000002b); ("DT_MIPS_INTERFACE_SIZE", 0x7000002c);
    ("DT_MIPS_RLD_TEXT_RESOLVE_ADDR", 0x7000002d); ("DT_MIPS_PERF_SUFFIX", 0x7000002e);
    ("DT_MIPS_COMPACT_SIZE", 0x7000002f); ("DT_MIPS_GP_VALUE", 0x70000030);
    ("DT_MIPS_AUX_DYNAMIC", 0x70000031); ("DT_MIPS_PLTGOT", 0x70000032);
    ("DT_MIPS_RWPLT", 0x70000034) ].

Definition rhf_flags : list (string * Z) :=
  [ ("RHF_NONE", 0); ("RHF_QUICKSTART", Z.shiftl 1 0); ("RHF_NOTPOT", Z.shiftl 1 1);
    ("RHF_NO_LIBRARY_REPLACEMENT", Z.shiftl 1 2); ("RHF_NO_MOVE", Z.shiftl 1 3);
    ("RHF_SGI_ONLY", Z.shiftl 1 4); ("RHF_GUARANTEE_INIT", Z.shiftl 1 5);
    ("RHF_DELTA_C_PLUS_PLUS", Z.shiftl 1 6); ("RHF_GUARANTEE_START_INIT", Z.shiftl 1 7);
    ("RHF_PIXIE", Z.shiftl 1 8); ("RHF_DEFAULT_DELAY_LOAD", Z.shiftl 1 9);
    ("RHF_REQUICKSTART", Z.shiftl 1 10); ("RHF_REQUICKSTARTED", Z.shiftl 1 11);
    ("RHF_CORD", Z.shiftl 1 12); ("RHF_NO_UNRES_UNDEF", Z.shiftl 1 13);
    ("RHF_RLD_ORDER_SAFE", Z.shiftl 1 14) ].

Definition ll_flags : list (string * Z) :=
  [ ("LL_NONE", 0); ("LL_EXACT_MATCH", Z.shiftl 1 0); ("LL_IGNORE_INT_VER", Z.shiftl 1 1);
    ("LL_REQUIRE_MINOR", Z.shiftl 1 2); ("LL_EXPORTS", Z.shiftl 1 3);
    ("LL_DELAY_LOAD", Z.shiftl 1 4); ("LL_DELTA", Z.shiftl 1 5) ].

Definition DT_MIPS_NUM : Z := 0x35.

(** *** HPPA *)

Definition parisc_e_flags : list (string * Z) :=
  [ ("EF_PARISC_TRAPNIL", 0x00010000); ("EF_PARISC_EXT", 0x00020000);
    ("EF_PARISC_LSB", 0x00040000); ("EF_PARISC_WIDE", 0x00080000);
    ("EF_PARISC_NO_KABP", 0x00100000); ("EF_PARISC_LAZYSWAP", 0x00400000);
    ("EF_PARISC_ARCH", 0x0000ffff) ].

Definition parisc_arch : list (string * Z) :=
  [ ("EFA_PARISC_1_0", 0x020b); ("EFA_PARISC_1_1", 0x0210); ("EFA_PARISC_2_0", 0x0214) ].

Definition parisc_shn : list (string * Z) :=
  [ ("SHN_PARISC_ANSI_COMMON", 0xff00); ("SHN_PARISC_HUGE_COMMON", 0xff01) ].

Definition parisc_sh_type : list (string * Z) :=
  [ ("SHT_PARISC_EXT", 0x70000000); ("SHT_PARISC_UNWIND", 0x70000001);
    ("SHT_PARISC_DOC", 0x70000002) ].

Definition parisc_sh_flags : list (string * Z) :=
  [ ("SHF_PARISC_SHORT", 0x20000000); ("SHF_PARISC_HUGE", 0x40000000);
    ("SHF_PARISC_SBP", 0x80000000) ].

Definition parisc_st_type : list (string * Z) :=
  [ ("STT_PARISC_MILLICODE", 13); ("STT_HP_OPAQUE", STT_LOOS + 0x1);
    ("STT_HP_STUB", STT_LOOS + 0x2) ].

Definition hp_p_type : list (string * Z) :=
  [ ("PT_HP_TLS", PT_LOOS + 0x0); ("PT_HP_CORE_NONE", PT_LOOS + 0x1);
    ("PT_HP_CORE_VERSION", PT_LOOS + 0x2); ("PT_HP_CORE_KERNEL", PT_LOOS + 0x3);
    ("PT_HP_CORE_COMM", PT_LOOS + 0x4); ("PT_HP_CORE_PROC", PT_LOOS + 0x5);
    ("PT_HP_CORE_LOADABLE", PT_LOOS + 0x6); ("PT_HP_CORE_STACK", PT_LOOS + 0x7);
    ("PT_HP_CORE_SHM", PT_LOOS + 0x8); ("PT_HP_CORE_MMF", PT_LOOS + 0x9);
    ("PT_HP_PARALLEL", PT_LOOS + 0x10); ("PT_HP_FASTBIND", PT_LOOS + 0x11);
    ("PT_HP_OPT_ANNOT", PT_LOOS + 0x12); ("PT_HP_HSL_ANNOT", PT_LOOS + 0x13);
    ("PT_HP_STACK", PT_LOOS + 0x14) ].

Definition parisc_p_type : list (string * Z) :=
  [ ("PT_PARISC_ARCHEXT", 0x70000000); ("PT_PARISC_UNWIND", 0x70000001) ].

Definition parisc_p_flags : list (string * Z) :=
  [ ("PF_PARISC_SBP", 0x08000000); ("PF_HP_PAGE_SIZE", 0x00100000);
    ("PF_HP_FAR_SHARED", 0x00200000); ("PF_HP_NEAR_SHARED", 0x00400000);
    ("PF_HP_CODE", 0x01000000); ("PF_HP_MODIFY", 0x02000000); ("PF_HP_LAZYSWAP", 0x04000000);
    ("PF_HP_SBP", 0x08000000) ].


(** *** Alpha *)

Definition alpha_e_flags : list (string * Z) :=
  [ ("EF_ALPHA_32BIT", 1); ("EF_ALPHA_CANRELAX", 2) ].

Definition alpha_sh_type : list (string * Z) :=
  [ ("SHT_ALPHA_DEBUG", 0x70000001); ("SHT_ALPHA_REGINFO", 0x70000002) ].

Definition alpha_sh_flags : list (string * Z) :=
  [ ("SHF_ALPHA_GPREL", 0x10000000) ].

Definition alpha_st_other : list (string * Z) :=
  [ ("STO_ALPHA_NOPV", 0x80); ("STO_ALPHA_STD_GPLOAD", 0x88) ].

Definition alpha_lituse : list (string * Z) :=
  [ ("LITUSE_ALPHA_ADDR", 0); ("LITUSE_ALPHA_BASE", 1); ("LITUSE_ALPHA_BYTOFF", 2);
    ("LITUSE_ALPHA_JSR", 3); ("LITUSE_ALPHA_TLS_GD", 4); ("LITUSE_ALPHA_TLS_LDM", 5) ].

Definition alpha_d_tag : list (string * Z) :=
  [ ("DT_ALPHA_PLTRO", DT_LOPROC + 0) ].

Definition DT_ALPHA_NUM : Z := 1.

(** *** PowerPC *)

Definition ppc_e_flags : list (string * Z) :=
  [ ("EF_PPC_EMB", 0x80000000); ("EF_PPC_RELOCATABLE", 0x00010000);
    ("EF_PPC_RELOCATABLE_LIB", 0x00008000) ].

Definition ppc_d_tag : list (string * Z) :=
  [ ("DT_PPC_GOT", DT_LOPROC + 0) ].

Definition ppc64_e_flags : list (string * Z) :=
  [ ("EF_PPC64_ABI", 3) ].

Definition ppc64_d_tag : list (string * Z) :=
  [ ("DT_PPC64_GLINK", DT_LOPROC + 0); ("DT_PPC64_OPD", DT_LOPROC + 1);
    ("DT_PPC64_OPDSZ", DT_LOPROC + 2); ("DT_PPC64_OPT", DT_LOPROC + 3) ].

Definition ppc64_opt : list (string * Z) :=
  [ ("PPC64_OPT_TLS", 1); ("PPC64_OPT_MULTI_TOC", 2) ].

Definition DT_PPC_NUM : Z := 1.
Definition DT_PPC64_NUM : Z := 3.
Definition STO_PPC64_LOCAL_BIT : Z := 5.

(** *** ARM *)

Definition arm_e_flags : list (string * Z) :=
  [ ("EF_ARM_RELEXEC", 0x01); ("EF_ARM_HASENTRY", 0x02); ("EF_ARM_INTERWORK", 0x04);
    ("EF_ARM_APCS_26", 0x08); ("EF_ARM_APCS_FLOAT", 0x10); ("EF_ARM_PIC", 0x20);
    ("EF_ARM_ALIGN8", 0x40); ("EF_ARM_NEW_ABI", 0x80); ("EF_ARM_OLD_ABI", 0x100);
    ("EF_ARM_SOFT_FLOAT", 0x200); ("EF_ARM_VFP_FLOAT", 0x400); ("EF_ARM_MAVERICK_FLOAT", 0x800);
    ("EF_ARM_ABI_FLOAT_SOFT", 0x200); ("EF_ARM_ABI_FLOAT_HARD", 0x400);
    ("EF_ARM_SYMSARESORTED", 0x04); ("EF_ARM_DYNSYMSUSESEGIDX", 0x08);
    ("EF_ARM_MAPSYMSFIRST", 0x10); ("EF_ARM_EABIMASK", EF_ARM_EABIMASK);
    ("EF_ARM_BE8", 0x00800000); ("EF_ARM_LE8", 0x00400000) ].

Definition arm_eabi_versions : list (string * Z) :=
  [ ("EF_ARM_EABI_UNKNOWN", 0x00000000); ("EF_ARM_EABI_VER1", 0x01000000);
    ("EF_ARM_EABI_VER2", 0x02000000); ("EF_ARM_EABI_VER3", 0x03000000);
    ("EF_ARM_EABI_VER4", 0x04000000); ("EF_ARM_EABI_VER5", 0x05000000) ].

Definition arm_st_type : list (string * Z) :=
  [ ("STT_ARM_TFUNC", STT_LOPROC); ("STT_ARM_16BIT", STT_HIPROC) ].

Definition arm_sh_flags : list (string * Z) :=
  [ ("SHF_ARM_ENTRYSECT", 0x10000000); ("SHF_ARM_COMDEF", 0x80000000) ].

Definition arm_p_flags : list (string * Z) :=
  [ ("PF_ARM_SB", 0x10000000); ("PF_ARM_PI", 0x20000000); ("PF_ARM_ABS", 0x40000000) ].

Definition arm_p_type : list (string * Z) :=
  [ ("PT_ARM_EXIDX", PT_LOPROC + 1) ].

Definition arm_sh_type : list (string * Z) :=
  [ ("SHT_ARM_EXIDX", SHT_LOPROC + 1); ("SHT_ARM_PREEMPTMAP", SHT_LOPROC + 2);
    ("SHT_ARM_ATTRIBUTES", SHT_LOPROC + 3) ].


(** *** IA-64 *)

Definition ia64_e_flags : list (string * Z) :=
  [ ("EF_IA_64_MASKOS", 0x0000000f); ("EF_IA_64_ABI64", 0x00000010);
    ("EF_IA_64_ARCH", 0xff000000) ].

Definition ia64_p_type : list (string * Z) :=
  [ ("PT_IA_64_ARCHEXT", PT_LOPROC + 0); ("PT_IA_64_UNWIND", PT_LOPROC + 1);
    ("PT_IA_64_HP_OPT_ANOT", PT_LOOS + 0x12); ("PT_IA_64_HP_HSL_ANOT", PT_LOOS + 0x13);
    ("PT_IA_64_HP_STACK", PT_LOOS + 0x14) ].

Definition ia64_p_flags : list (string * Z) :=
  [ ("PF_IA_64_NORECOV", 0x80000000) ].

Definition ia64_sh_type : list (string * Z) :=
  [ ("SHT_IA_64_EXT", SHT_LOPROC + 0); ("SHT_IA_64_UNWIND", SHT_LOPROC + 1) ].

Definition ia64_sh_flags : list (string * Z) :=
  [ ("SHF_IA_64_SHORT", 0x10000000); ("SHF_IA_64_NORECOV", 0x20000000) ].

Definition ia64_d_tag : list (string * Z) :=
  [ ("DT_IA_64_PLT_RESERVE", DT_LOPROC + 0) ].

Definition DT_IA_64_NUM : Z := 1.

(** *** SH and S/390 *)

Definition sh_e_flags : list (string * Z) :=
  [ ("EF_SH_UNKNOWN", 0x0); ("EF_SH1", 0x1); ("EF_SH2", 0x2); ("EF_SH3", 0x3);
    ("EF_SH_DSP", 0x4); ("EF_SH3_DSP", 0x5); ("EF_SH4AL_DSP", 0x6); ("EF_SH3E", 0x8);
    ("EF_SH4", 0x9); ("EF_SH2E", 0xb); ("EF_SH4A", 0xc); ("EF_SH2A", 0xd);
    ("EF_SH4_NOFPU", 0x10); ("EF_SH4A_NOFPU", 0x11); ("EF_SH4_NOMMU_NOFPU", 0x12);
    ("EF_SH2A_NOFPU", 0x13); ("EF_SH3_NOMMU", 0x14); ("EF_SH2A_SH4_NOFPU", 0x15);
    ("EF_SH2A_SH3_NOFPU", 0x16); ("EF_SH2A_SH4", 0x17); ("EF_SH2A_SH3E", 0x18) ].

Definition s390_e_flags : list (string * Z) :=
  [ ("EF_S390_HIGH_GPRS", 0x00000001) ].

Definition EF_SH_MACH_MASK : Z := 0x1f.

(** *** notes, groups and version flags *)

Definition gnu_notes : list (string * Z) :=
  [ ("NT_GNU_ABI_TAG", 1); ("ELF_NOTE_ABI", 1); ("NT_GNU_HWCAP", 2); ("NT_GNU_BUILD_ID", 3);
    ("NT_GNU_GOLD_VERSION", 4) ].

Definition GRP_COMDAT : Z := 0x1.
Definition STN_UNDEF : Z := 0.
Definition PN_XNUM : Z := 0xffff.
Definition NT_VERSION : Z := 1.
Definition VER_FLG_WEAK : Z := 0x2.
Definition ELF_NOTE_PAGESIZE_HINT : Z := 1.
Definition ELF_NOTE_SOLARIS : string := "SUNW Solaris".
Definition ELF_NOTE_GNU : string := "GNU".

(** ** Macros on machine-specific fields *)

Definition STO_PPC64_LOCAL_MASK : Z := Z.shiftl 7 STO_PPC64_LOCAL_BIT.

(** The shifts of [int]s: the count is at most 7. *)
Definition PPC64_LOCAL_ENTRY_OFFSET (other : Z) : Z :=
  Z.shiftl (Z.shiftr (Z.shiftl 1 (Z.shiftr (Z.land other STO_PPC64_LOCAL_MASK) STO_PPC64_LOCAL_BIT)) 2) 2.

Definition EF_ARM_EABI_VERSION (flags : Z) : Z := Z.land flags EF_ARM_EABIMASK.

(** ** By the field they are for *)

Definition machine_sh_type : list (string * Z) :=
  mips_sh_type ++ parisc_sh_type ++ alpha_sh_type ++ arm_sh_type ++ ia64_sh_type.
Definition machine_p_type : list (string * Z) :=
  mips_p_type ++ hp_p_type ++ parisc_p_type ++ arm_p_type ++ ia64_p_type.
Definition machine_st_type : list (string * Z) := sparc_st_type ++ parisc_st_type ++ arm_st_type.
Definition machine_shn : list (string * Z) := mips_shn ++ parisc_shn.
Definition machine_sh_flags : list (string * Z) :=
  mips_sh_flags ++ parisc_sh_flags ++ alpha_sh_flags ++ arm_sh_flags ++ ia64_sh_flags.
Definition machine_p_flags : list (string * Z) := mips_p_flags ++ parisc_p_flags ++ arm_p_flags ++ ia64_p_flags.
Definition machine_e_flags : list (string * Z) :=
  m68k_e_flags ++ sparc_e_flags ++ mips_e_flags ++ mips_arch_levels ++ parisc_e_flags ++ alpha_e_flags ++ ppc_e_flags ++
  ppc64_e_flags ++ arm_e_flags ++ arm_eabi_versions ++ ia64_e_flags ++ sh_e_flags ++ s390_e_flags.

(** The dynamic tags of each machine with the number its header gives. *)
Definition machine_d_tags : list (list (string * Z) * Z) :=
  [ (sparc_d_tag, DT_SPARC_NUM); (mips_d_tag, DT_MIPS_NUM); (alpha_d_tag, DT_ALPHA_NUM); (ppc_d_tag, DT_PPC_NUM);
    (ppc64_d_tag, DT_PPC64_NUM); (ia64_d_tag, DT_IA_64_NUM) ].

(** Values that select within a mask of the flags. *)
Definition masked_values : list (Z * list (string * Z)) :=
  [ (constant mips_e_flags "EF_MIPS_ARCH", mips_arch_levels ++ mips_arch_unofficial);
    (constant parisc_e_flags "EF_PARISC_ARCH", parisc_arch); (EF_ARM_EABIMASK, arm_eabi_versions);
    (EF_SH_MACH_MASK, sh_e_flags) ].

Definition within (mask v : Z) : bool := Z.land v mask =? v.
Definition between (lo hi v : Z) : bool := (lo <=? v) && (v <=? hi).
Definition holds_all (p : Z -> bool) (t : list (string * Z)) : bool := forallb (fun '(_, v) => p v) t.

Lemma holds_all_spec p t n v : holds_all p t = true -> In (n, v) t -> p v = true.
Proof. unfold holds_all. rewrite forallb_forall. intros H Hin. exact (H _ Hin). Qed.

(** Section and segment types, dynamic tags, symbol types, section indices and flags of
    particular machines lie in the ranges and masks the generic part of the header
    reserves for processors (or, where it has such a range, operating systems), so no
    generic value can be taken for one of them; and all header flags fit [e_flags]. *)
Theorem machine_constants_reserved n v :
  (In (n, v) machine_sh_type -> SHT_LOPROC <= v <= SHT_HIPROC) /\
  (In (n, v) machine_p_type -> PT_LOOS <= v <= PT_HIOS \/ PT_LOPROC <= v <= PT_HIPROC) /\
  (In (n, v) machine_st_type -> STT_LOOS <= v <= STT_HIPROC) /\
  (In (n, v) machine_shn -> SHN_LOPROC <= v <= SHN_HIPROC) /\
  (In (n, v) machine_sh_flags -> Z.land v (Z.lor SHF_MASKOS SHF_MASKPROC) = v) /\
  (In (n, v) machine_p_flags -> Z.land v (Z.lor PF_MASKOS PF_MASKPROC) = v) /\
  (In (n, v) machine_e_flags -> 0 <= v < 2 ^ 32) /\
  (forall t num, In (t, num) machine_d_tags -> In (n, v) t -> DT_LOPROC <= v <= DT_HIPROC) /\
  (forall mask t, In (mask, t) masked_values -> In (n, v) t -> Z.land v mask = v).
Proof.
  assert (forall lo hi t, holds_all (between lo hi) t = true -> In (n, v) t -> lo <= v <= hi) as Hb.
  { intros lo hi t Ht Hin. pose proof (holds_all_spec _ _ _ _ Ht Hin) as E. unfold between in E. zbool. lia. }
  assert (forall mask t, holds_all (within mask) t = true -> In (n, v) t -> Z.land v mask = v) as Hm.
  { intros mask t Ht Hin. apply Z.eqb_eq. exact (holds_all_spec _ _ _ _ Ht Hin). }
  split_and!.
  - apply Hb. by vm_compute.
  - intros Hin. assert (holds_all (fun x => between PT_LOOS PT_HIOS x || between PT_LOPROC PT_HIPROC x) machine_p_type = true)
      as Ht by (by vm_compute).
    pose proof (holds_all_spec _ _ _ _ Ht Hin) as E. cbv beta in E. unfold between in E. zbool. lia.
  - apply Hb. by vm_compute.
  - apply Hb. by vm_compute.
  - apply Hm. by vm_compute.
  - apply Hm. by vm_compute.
  - intros Hin. assert (0 <= v <= 2 ^ 32 - 1); [|lia]. revert Hin. apply Hb. by vm_compute.
  - intros t num Ht Hin. assert (forallb (fun '(t, _) => holds_all (between DT_LOPROC DT_HIPROC) t) machine_d_tags = true)
      as Hall by (by vm_compute).
    rewrite forallb_forall in Hall. exact (Hb _ _ t (Hall _ Ht) Hin).
  - intros mask t Ht Hin. assert (forallb (fun '(mask, t) => holds_all (within mask) t) masked_values = true)
      as Hall by (by vm_compute).
    rewrite forallb_forall in Hall. exact (Hm _ t (Hall _ Ht) Hin).
Qed.

(** Every dynamic tag of a machine has an index below the number the header gives for
    the machine, except DT_PPC64_OPT, whose index is that number. *)
Theorem machine_tag_index t num n v :
  In (t, num) machine_d_tags -> In (n, v) t -> (v - DT_LOPROC < num <-> n <> "DT_PPC64_OPT"%string).
Proof.
  intros Ht Hin.
  assert (forallb (fun '(t, num) => forallb (fun '(n, v) => eqb (v - DT_LOPROC <? num) (negb (String.eqb n "DT_PPC64_OPT"))) t)
    machine_d_tags = true) as Hall by (by vm_compute).
  rewrite forallb_forall in Hall. specialize (Hall _ Ht). cbn beta iota in Hall. rewrite forallb_forall in Hall.
  specialize (Hall _ Hin). cbn beta iota in Hall. apply eqb_prop in Hall.
  rewrite <- Z.ltb_lt, Hall, negb_true_iff. apply String.eqb_neq.
Qed.

(** The offset of the local entry point of a 64-bit PowerPC function: whatever the
    symbol's [st_other], it is 0 or a power of two from 4 to 128. *)
Theorem ppc64_local_entry_offset other :
  PPC64_LOCAL_ENTRY_OFFSET other = nth (Z.to_nat (Z.shiftr other 5 mod 8)) [0; 0; 4; 8; 16; 32; 64; 128] 0.
Proof.
  unfold PPC64_LOCAL_ENTRY_OFFSET. change STO_PPC64_LOCAL_MASK with (Z.shiftl 7 5). change STO_PPC64_LOCAL_BIT with 5.
  rewrite Z.shiftr_land. change (Z.shiftr (Z.shiftl 7 5) 5) with 7.
  change 7 with (Z.ones 3). rewrite Z.land_ones by done. change (2 ^ 3) with 8.
  pose proof (Z.mod_pos_bound (Z.shiftr other 5) 8 ltac:(done)) as Hb. set (k := Z.shiftr other 5 mod 8) in *. clearbody k.
  assert (k = 0 \/ k = 1 \/ k = 2 \/ k = 3 \/ k = 4 \/ k = 5 \/ k = 6 \/ k = 7) as Hk by lia.
  destruct Hk as [->|[->|[->|[->|[->|[->|[->| ->]]]]]]]; reflexivity.
Qed.

(** [EF_ARM_EABI_VERSION] gives back the version that was combined with other flags. *)
Theorem arm_eabi_version_of n v flags :
  In (n, v) arm_eabi_versions -> Z.land flags EF_ARM_EABIMASK = 0 -> EF_ARM_EABI_VERSION (Z.lor flags v) = v.
Proof.
  intros Hin Hf. unfold EF_ARM_EABI_VERSION. rewrite Z.land_lor_distr_l, Hf, Z.lor_0_l.
  apply (machine_constants_reserved n v) with (t := arm_eabi_versions); [|done]. vm_compute. tauto.
Qed.
