(* ===== verification/ElfLoader.v ===== *)
(** * ElfLoader: hakase/elf_loader.h and hakase/elf_loader.cc

    The loader reads the headers of the friend binary through raw pointers into
    the process memory, so the model reads every field from the current memory
    at the time the code does: a segment that overwrote the binary would be
    seen by the next iteration.  [spec_deploy] is the abstract specification:
    loading as a pure function of the file's bytes and of its decoded headers;
    [Deploy] refines it on well-formed files. *)

From S2P Require Import Prelude Memory CStruct ElfTypes ElfConsts.
Import Layout.

(** ** The class ElfLoader *)

Record ElfLoader := mkElfLoader { _addr : Z; _len : Z }.

Record SectionInfo := mkSectionInfo { si_vaddr : Z; si_size : Z }.
Record PhdrInfo := mkPhdrInfo { pi_vaddr : Z; pi_file_offset : Z; pi_size : Z }.

Definition CheckMemoryRegion (vaddr size : Z) : bool :=
  if (vaddr <? DEPLOY_PHYS_ADDR_START) || (u64 (vaddr + size) >? DEPLOY_PHYS_ADDR_END)
  then false else true.

(** *** Shdr *)

Definition GetInfoIfBss (raw : Z) : M mem (option SectionInfo) :=
  sh_type ← get_field Elf64_Shdr "sh_type" 0 raw;
  if negb (sh_type =? SHT_NOBITS) then mret None else
  sh_flags ← get_field Elf64_Shdr "sh_flags" 0 raw;
  if Z.land sh_flags SHF_ALLOC =? 0 then mret None else
  sh_addr ← get_field Elf64_Shdr "sh_addr" 0 raw;
  sh_size ← get_field Elf64_Shdr "sh_size" 0 raw;
  mret (Some (mkSectionInfo sh_addr sh_size)).

Definition GetInfoIfExec (raw : Z) : M mem (option SectionInfo) :=
  sh_flags ← get_field Elf64_Shdr "sh_flags" 0 raw;
  if Z.land sh_flags SHF_EXECINSTR =? 0 then mret None else
  sh_addr ← get_field Elf64_Shdr "sh_addr" 0 raw;
  sh_size ← get_field Elf64_Shdr "sh_size" 0 raw;
  mret (Some (mkSectionInfo sh_addr sh_size)).

(** *** Phdr *)

Definition GetInfoIfLoad (raw : Z) : M mem (option PhdrInfo) :=
  p_type ← get_field Elf64_Phdr "p_type" 0 raw;
  if negb (p_type =? PT_LOAD) then mret None else
  p_vaddr ← get_field Elf64_Phdr "p_vaddr" 0 raw;
  p_offset ← get_field Elf64_Phdr "p_offset" 0 raw;
  p_filesz ← get_field Elf64_Phdr "p_filesz" 0 raw;
  mret (Some (mkPhdrInfo p_vaddr p_offset p_filesz)).

(** *** Ehdr *)

(** [e_ident[i] == c], with the short-circuit [&&] of the caller. *)
Definition ident_is (raw i c : Z) : M mem bool :=
  b ← get_field Elf64_Ehdr "e_ident" i raw; mret (b =? c).

Definition and_then (c k : M mem bool) : M mem bool :=
  b ← c; if (b : bool) then k else mret false.
Definition or_else (c k : M mem bool) : M mem bool :=
  b ← c; if (b : bool) then mret true else k.

Definition IsElf (raw : Z) : M mem bool :=
  and_then (ident_is raw 0 ELFMAG0)
    (and_then (ident_is raw 1 ELFMAG1)
      (and_then (ident_is raw 2 ELFMAG2) (ident_is raw 3 ELFMAG3))).
Definition IsElf64 (raw : Z) : M mem bool := ident_is raw EI_CLASS ELFCLASS64.
Definition IsOsabiSysv (raw : Z) : M mem bool := ident_is raw EI_OSABI ELFOSABI_SYSV.
Definition IsOsabiGnu (raw : Z) : M mem bool := ident_is raw EI_OSABI ELFOSABI_GNU.
Definition IsExecutable (raw : Z) : M mem bool :=
  t ← get_field Elf64_Ehdr "e_type" 0 raw; mret (t =? ET_EXEC).
Definition Ehdr_GetEntry (raw : Z) : M mem Z := get_field Elf64_Ehdr "e_entry" 0 raw.

(** [entsize * index] is an [int] product (both operands are promoted): a
    product past [INT_MAX] is undefined behaviour. *)
Definition table_offset (off entsize index : Z) : M mem Z :=
  if entsize * index >? INT_MAX then fail Undefined
  else mret (u64 (off + entsize * index)).

Definition GetShdrOffset (raw index : Z) : M mem Z :=
  e_shnum ← get_field Elf64_Ehdr "e_shnum" 0 raw;
  if e_shnum >? index then
    e_shoff ← get_field Elf64_Ehdr "e_shoff" 0 raw;
    e_shentsize ← get_field Elf64_Ehdr "e_shentsize" 0 raw;
    table_offset e_shoff e_shentsize index
  else mret 0.

Definition GetPhdrOffset (raw index : Z) : M mem Z :=
  e_phnum ← get_field Elf64_Ehdr "e_phnum" 0 raw;
  if e_phnum >? index then
    e_phoff ← get_field Elf64_Ehdr "e_phoff" 0 raw;
    e_phentsize ← get_field Elf64_Ehdr "e_phentsize" 0 raw;
    table_offset e_phoff e_phentsize index
  else mret 0.

(** *** ElfLoader *)

Definition CreateShdr (e : ElfLoader) (offset : Z) : option Z :=
  if offset =? 0 then None else Some (u64 (_addr e + offset)).
Definition CreatePhdr (e : ElfLoader) (offset : Z) : option Z :=
  if offset =? 0 then None else Some (u64 (_addr e + offset)).

(** The two loops of [Deploy]: [false] is the early [return false]. *)
Fixpoint load_segments (fuel : nat) (e : ElfLoader) (i : Z) : M mem bool :=
  match fuel with
  | O => fail OutOfFuel
  | S fuel' =>
      off ← GetPhdrOffset (_addr e) i;
      match CreatePhdr e off with
      | None => mret true
      | Some phdr =>
          info ← GetInfoIfLoad phdr;
          match info with
          | None => load_segments fuel' e (i + 1)
          | Some info =>
              if negb (CheckMemoryRegion (pi_vaddr info) (pi_size info)) then mret false
              else
                _ ← memcpy (pi_vaddr info) (u64 (_addr e + pi_file_offset info)) (pi_size info);
                load_segments fuel' e (i + 1)
          end
      end
  end.

Fixpoint clear_sections (fuel : nat) (e : ElfLoader) (i : Z) : M mem bool :=
  match fuel with
  | O => fail OutOfFuel
  | S fuel' =>
      off ← GetShdrOffset (_addr e) i;
      match CreateShdr e off with
      | None => mret true
      | Some shdr =>
          info ← GetInfoIfBss shdr;
          match info with
          | None => clear_sections fuel' e (i + 1)
          | Some info =>
              if negb (CheckMemoryRegion (si_vaddr info) (si_size info)) then mret false
              else
                _ ← memset (si_vaddr info) 0 (si_size info);
                clear_sections fuel' e (i + 1)
          end
      end
  end.

(** The header tests of [Deploy], with their short circuits. *)
Definition header_tests (raw : Z) : M mem bool :=
  and_then (IsElf raw)
    (and_then (IsElf64 raw)
      (and_then (or_else (IsOsabiSysv raw) (IsOsabiGnu raw)) (IsExecutable raw))).

(** [e_phnum] and [e_shnum] are 16-bit, so neither loop makes more than 2^16
    header reads. *)
Definition deploy_fuel : nat := Z.to_nat 65536.

Definition Deploy (e : ElfLoader) : M mem bool :=
  ok ← header_tests (_addr e);
  if negb ok then mret false else
  ok ← load_segments deploy_fuel e 0;
  if negb ok then mret false else
  clear_sections deploy_fuel e 0.

Definition GetEntry (e : ElfLoader) : M mem Z := Ehdr_GetEntry (_addr e).

(** ** Header accesses neither write nor loop *)

#[local] Ltac unfold_headers :=
  unfold header_tests, IsElf, IsElf64, IsOsabiSysv, IsOsabiGnu, IsExecutable, ident_is,
    GetPhdrOffset, GetShdrOffset, table_offset, GetInfoIfLoad, GetInfoIfBss, GetInfoIfExec,
    and_then, or_else.

#[global] Typeclasses Opaque header_tests GetPhdrOffset GetShdrOffset GetInfoIfLoad GetInfoIfBss.

#[export] Instance header_tests_reader raw : Reader (header_tests raw).
Proof. unfold_headers. solve_computation. Qed.
#[export] Instance header_tests_fuel_free raw : FuelFree (header_tests raw).
Proof. unfold_headers. solve_computation. Qed.
#[export] Instance GetPhdrOffset_reader raw i : Reader (GetPhdrOffset raw i).
Proof. unfold_headers. solve_computation. Qed.
#[export] Instance GetPhdrOffset_fuel_free raw i : FuelFree (GetPhdrOffset raw i).
Proof. unfold_headers. solve_computation. Qed.
#[export] Instance GetShdrOffset_reader raw i : Reader (GetShdrOffset raw i).
Proof. unfold_headers. solve_computation. Qed.
#[export] Instance GetShdrOffset_fuel_free raw i : FuelFree (GetShdrOffset raw i).
Proof. unfold_headers. solve_computation. Qed.
#[export] Instance GetInfoIfLoad_reader raw : Reader (GetInfoIfLoad raw).
Proof. unfold_headers. solve_computation. Qed.
#[export] Instance GetInfoIfLoad_fuel_free raw : FuelFree (GetInfoIfLoad raw).
Proof. unfold_headers. solve_computation. Qed.
#[export] Instance GetInfoIfBss_reader raw : Reader (GetInfoIfBss raw).
Proof. unfold_headers. solve_computation. Qed.
#[export] Instance GetInfoIfBss_fuel_free raw : FuelFree (GetInfoIfBss raw).
Proof. unfold_headers. solve_computation. Qed.

(** ** Termination of the loops *)

(** Past the largest 16-bit count there is no further header. *)
Lemma GetPhdrOffset_end raw i m off m' :
  65535 <= i -> GetPhdrOffset raw i m = Done (off, m') -> off = 0.
Proof.
  intros Hi H. unfold GetPhdrOffset in H. minv H.
  apply (get_field_range _ _ _ _ _ _ _ 16) in E as [_ Hn]; [|reflexivity].
  destruct (a >? i) eqn:Eg; zbool; [lia|by injection H].
Qed.

Lemma GetShdrOffset_end raw i m off m' :
  65535 <= i -> GetShdrOffset raw i m = Done (off, m') -> off = 0.
Proof.
  intros Hi H. unfold GetShdrOffset in H. minv H.
  apply (get_field_range _ _ _ _ _ _ _ 16) in E as [_ Hn]; [|reflexivity].
  destruct (a >? i) eqn:Eg; zbool; [lia|by injection H].
Qed.

Lemma load_segments_fuel fuel e i m :
  65536 - i <= Z.of_nat fuel -> 0 <= i <= 65535 ->
  load_segments fuel e i m <> Fault OutOfFuel.
Proof.
  revert i m. induction fuel as [|fuel IH]; intros i m Hf Hi; [lia|].
  cbn [load_segments]. intros H.
  apply bind_out_of_fuel in H as (off & m1 & E & H); [|apply _].
  unfold CreatePhdr in H. destruct (Z.eqb_spec off 0) as [->|Hoff]; [done|].
  assert (i < 65535).
  { destruct (decide (65535 <= i)); [|lia]. apply GetPhdrOffset_end in E; lia. }
  apply bind_out_of_fuel in H as (info & m2 & _ & H); [|apply _].
  destruct info as [info|]; [|apply (IH (i + 1) m2); [lia..|done]].
  destruct (negb _); [done|].
  apply bind_out_of_fuel in H as ([] & m3 & _ & H); [|apply _].
  apply (IH (i + 1) m3); [lia..|done].
Qed.

Lemma clear_sections_fuel fuel e i m :
  65536 - i <= Z.of_nat fuel -> 0 <= i <= 65535 ->
  clear_sections fuel e i m <> Fault OutOfFuel.
Proof.
  revert i m. induction fuel as [|fuel IH]; intros i m Hf Hi; [lia|].
  cbn [clear_sections]. intros H.
  apply bind_out_of_fuel in H as (off & m1 & E & H); [|apply _].
  unfold CreateShdr in H. destruct (Z.eqb_spec off 0) as [->|Hoff]; [done|].
  assert (i < 65535).
  { destruct (decide (65535 <= i)); [|lia]. apply GetShdrOffset_end in E; lia. }
  apply bind_out_of_fuel in H as (info & m2 & _ & H); [|apply _].
  destruct info as [info|]; [|apply (IH (i + 1) m2); [lia..|done]].
  destruct (negb _); [done|].
  apply bind_out_of_fuel in H as ([] & m3 & _ & H); [|apply _].
  apply (IH (i + 1) m3); [lia..|done].
Qed.

#[export] Instance load_segments_fuel_free e : FuelFree (load_segments deploy_fuel e 0).
Proof. intros m. apply load_segments_fuel; [unfold deploy_fuel|]; lia. Qed.
#[export] Instance clear_sections_fuel_free e : FuelFree (clear_sections deploy_fuel e 0).
Proof. intros m. apply clear_sections_fuel; [unfold deploy_fuel|]; lia. Qed.

(** ** Confinement to the friend region *)

(** The last byte of the address space is never mapped in a user process. *)
Definition top_unmapped (m : mem) : Prop := m !! (2 ^ 64 - 1) = None.

Definition confined (m m' : mem) : Prop :=
  same_outside in_friend_region m m' /\ (top_unmapped m -> top_unmapped m').

#[export] Instance confined_preorder : PreOrder confined.
Proof.
  split; [split; done|].
  intros m1 m2 m3 [H1 T1] [H2 T2]. split; [by etrans|auto].
Qed.

Lemma CheckMemoryRegion_spec v n :
  uint 64 v -> uint 64 n -> CheckMemoryRegion v n = true ->
  DEPLOY_PHYS_ADDR_START <= v /\ (v + n <= DEPLOY_PHYS_ADDR_END \/ 2 ^ 64 <= v + n).
Proof.
  intros [Hv1 Hv2] [Hn1 Hn2]. unfold CheckMemoryRegion.
  destruct (_ || _) eqn:E; [done|]. intros _. zbool. split; [done|].
  destruct (decide (2 ^ 64 <= v + n)); [by right|left].
  rewrite u64_small in * by lia. done.
Qed.

Lemma confined_write m m' v n :
  DEPLOY_PHYS_ADDR_START <= v -> v + n <= DEPLOY_PHYS_ADDR_END ->
  (forall x, ~ (v <= x < v + n) -> m' !! x = m !! x) ->
  (forall x, is_Some (m' !! x) <-> is_Some (m !! x)) -> confined m m'.
Proof.
  intros Hv Hn Hout Hdom. split.
  - intros x Hx. apply Hout. unfold in_friend_region in Hx. lia.
  - unfold top_unmapped. rewrite !eq_None_not_Some, Hdom. done.
Qed.

Lemma region_memcpy_confined v src n m m' :
  uint 64 v -> uint 64 n -> CheckMemoryRegion v n = true -> top_unmapped m ->
  memcpy v src n m = Done (tt, m') -> confined m m'.
Proof.
  intros Hv Hn Hc Ht H. destruct (CheckMemoryRegion_spec v n Hv Hn Hc) as [Hlo [Hhi|Hhi]].
  - apply memcpy_frame in H as [Hout Hdom];
      [by eapply confined_write|unfold uint, DEPLOY_PHYS_ADDR_END in *; lia..].
  - destruct (memcpy_top v src n m) as (f & E & _); unfold uint in *; [lia..|done|congruence].
Qed.

Lemma region_memset_confined v c n m m' :
  uint 64 v -> uint 64 n -> CheckMemoryRegion v n = true -> top_unmapped m ->
  memset v c n m = Done (tt, m') -> confined m m'.
Proof.
  intros Hv Hn Hc Ht H. destruct (CheckMemoryRegion_spec v n Hv Hn Hc) as [Hlo [Hhi|Hhi]].
  - apply memset_done in H as (Hout & _ & Hdom);
      [by eapply confined_write|unfold uint, DEPLOY_PHYS_ADDR_END in *; lia..].
  - rewrite memset_top in H; unfold uint in *; [done|lia..|done].
Qed.

Lemma GetInfoIfLoad_range raw m info m' :
  GetInfoIfLoad raw m = Done (Some info, m') ->
  uint 64 (pi_vaddr info) /\ uint 64 (pi_size info).
Proof.
  unfold GetInfoIfLoad. intros H. apply bind_inv in H as (t & m1 & _ & H).
  destruct (negb _); [done|]. minv H. injection H as <- _.
  apply (get_field_range _ _ _ _ _ _ _ 64) in E; [|reflexivity].
  apply (get_field_range _ _ _ _ _ _ _ 64) in E1; [|reflexivity]. done.
Qed.

Lemma GetInfoIfBss_range raw m info m' :
  GetInfoIfBss raw m = Done (Some info, m') ->
  uint 64 (si_vaddr info) /\ uint 64 (si_size info).
Proof.
  unfold GetInfoIfBss. intros H. apply bind_inv in H as (t & m1 & _ & H).
  destruct (negb _); [done|]. apply bind_inv in H as (fl & m2 & _ & H).
  destruct (_ =? 0); [done|]. minv H. injection H as <- _.
  apply (get_field_range _ _ _ _ _ _ _ 64) in E; [|reflexivity].
  apply (get_field_range _ _ _ _ _ _ _ 64) in E0; [|reflexivity]. done.
Qed.

Lemma load_segments_confined fuel e i m b m' :
  top_unmapped m -> load_segments fuel e i m = Done (b, m') -> confined m m'.
Proof.
  revert i m. induction fuel as [|fuel IH]; intros i m Ht; [done|].
  cbn [load_segments]. intros H.
  apply bind_inv in H as (off & m1 & E & H). apply reader_state in E as ->.
  unfold CreatePhdr in H. destruct (off =? 0); [by injection H as _ <-|].
  apply bind_inv in H as (info & m2 & E & H).
  pose proof (reader_state _ _ _ E) as ->.
  destruct info as [info|]; [|by apply IH in H].
  apply GetInfoIfLoad_range in E as [Hv Hs].
  destruct (CheckMemoryRegion _ _) eqn:Hc; cbn [negb] in H; [|by injection H as _ <-].
  apply bind_inv in H as ([] & m3 & E & H).
  apply region_memcpy_confined in E; [|done..].
  etrans; [exact E|]. apply IH in H; [done|]. by apply E.
Qed.

Lemma clear_sections_confined fuel e i m b m' :
  top_unmapped m -> clear_sections fuel e i m = Done (b, m') -> confined m m'.
Proof.
  revert i m. induction fuel as [|fuel IH]; intros i m Ht; [done|].
  cbn [clear_sections]. intros H.
  apply bind_inv in H as (off & m1 & E & H). apply reader_state in E as ->.
  unfold CreateShdr in H. destruct (off =? 0); [by injection H as _ <-|].
  apply bind_inv in H as (info & m2 & E & H).
  pose proof (reader_state _ _ _ E) as ->.
  destruct info as [info|]; [|by apply IH in H].
  apply GetInfoIfBss_range in E as [Hv Hs].
  destruct (CheckMemoryRegion _ _) eqn:Hc; cbn [negb] in H; [|by injection H as _ <-].
  apply bind_inv in H as ([] & m3 & E & H).
  apply region_memset_confined in E; [|done..].
  etrans; [exact E|]. apply IH in H; [done|]. by apply E.
Qed.

(** ** Abstract specification: loading as a function of the file

    The decoded headers of a file, and what loading it does to memory. *)

Record ehdr := mkEhdr {
  e_ident : list Z; e_type : Z; e_machine : Z; e_version : Z; e_entry : Z;
  e_phoff : Z; e_shoff : Z; e_flags : Z; e_ehsize : Z; e_phentsize : Z;
  e_phnum : Z; e_shentsize : Z; e_shnum : Z; e_shstrndx : Z
}.
Record phdr := mkPhdr {
  p_type : Z; p_flags : Z; p_offset : Z; p_vaddr : Z;
  p_paddr : Z; p_filesz : Z; p_memsz : Z; p_align : Z
}.
Record shdr := mkShdr {
  sh_name : Z; sh_type : Z; sh_flags : Z; sh_addr : Z; sh_offset : Z;
  sh_size : Z; sh_link : Z; sh_info : Z; sh_addralign : Z; sh_entsize : Z
}.

Definition ehdr_vals (h : ehdr) : list (list Z) :=
  [e_ident h; [e_type h]; [e_machine h]; [e_version h]; [e_entry h]; [e_phoff h];
   [e_shoff h]; [e_flags h]; [e_ehsize h]; [e_phentsize h]; [e_phnum h];
   [e_shentsize h]; [e_shnum h]; [e_shstrndx h]].
Definition phdr_vals (p : phdr) : list (list Z) :=
  [[p_type p]; [p_flags p]; [p_offset p]; [p_vaddr p]; [p_paddr p]; [p_filesz p];
   [p_memsz p]; [p_align p]].
Definition shdr_vals (s : shdr) : list (list Z) :=
  [[sh_name s]; [sh_type s]; [sh_flags s]; [sh_addr s]; [sh_offset s]; [sh_size s];
   [sh_link s]; [sh_info s]; [sh_addralign s]; [sh_entsize s]].

Record image := mkImage { im_ehdr : ehdr; im_phdrs : list phdr; im_shdrs : list shdr }.

(** The header names a 64-bit System V or GNU ELF executable. *)
Definition ident (h : ehdr) (i : Z) : Z := default (-1) (e_ident h !! Z.to_nat i).

Definition ehdr_accepted (h : ehdr) : bool :=
  ((ident h 0 =? ELFMAG0) && ((ident h 1 =? ELFMAG1) &&
   ((ident h 2 =? ELFMAG2) && (ident h 3 =? ELFMAG3)))) &&
  ((ident h EI_CLASS =? ELFCLASS64) &&
   (((ident h EI_OSABI =? ELFOSABI_SYSV) || (ident h EI_OSABI =? ELFOSABI_GNU)) &&
    (e_type h =? ET_EXEC))).

Definition in_region (v n : Z) : bool :=
  (DEPLOY_PHYS_ADDR_START <=? v) && (v + n <=? DEPLOY_PHYS_ADDR_END).

Definition is_load (p : phdr) : bool := p_type p =? PT_LOAD.
Definition is_bss (s : shdr) : bool :=
  (sh_type s =? SHT_NOBITS) && negb (Z.land (sh_flags s) SHF_ALLOC =? 0).

(** Segments are copied in table order; the first one outside the friend
    region stops the load, after the segments before it have been copied. *)
Fixpoint spec_segments (file : list Z) (ps : list phdr) (m : mem) : bool * mem :=
  match ps with
  | [] => (true, m)
  | p :: ps' =>
      if is_load p then
        if in_region (p_vaddr p) (p_filesz p)
        then spec_segments file ps' (blit m (p_vaddr p) (slice file (p_offset p) (p_filesz p)))
        else (false, m)
      else spec_segments file ps' m
  end.

Fixpoint spec_sections (ss : list shdr) (m : mem) : bool * mem :=
  match ss with
  | [] => (true, m)
  | s :: ss' =>
      if is_bss s then
        if in_region (sh_addr s) (sh_size s)
        then spec_sections ss' (blit m (sh_addr s) (zeros (Z.to_nat (sh_size s))))
        else (false, m)
      else spec_sections ss' m
  end.

Definition spec_deploy (file : list Z) (im : image) (m : mem) : bool * mem :=
  if ehdr_accepted (im_ehdr im) then
    match spec_segments file (im_phdrs im) m with
    | (true, m1) => spec_sections (im_shdrs im) m1
    | (false, m1) => (false, m1)
    end
  else (false, m).

(** [file_wf file im]: the bytes [file] decode to [im]; the tables and the
    loaded bytes are inside the file, and no address range wraps. *)
Record file_wf (file : list Z) (im : image) : Prop := {
  fw_len : Z.of_nat (length file) < 2 ^ 63;
  fw_ehdr_ok : vals_ok Elf64_Ehdr (ehdr_vals (im_ehdr im));
  fw_phdr_ok : Forall (fun p => vals_ok Elf64_Phdr (phdr_vals p)) (im_phdrs im);
  fw_shdr_ok : Forall (fun s => vals_ok Elf64_Shdr (shdr_vals s)) (im_shdrs im);
  fw_ehdr_in : 64 <= Z.of_nat (length file);
  fw_ehdr : slice file 0 64 = encode Elf64_Ehdr (ehdr_vals (im_ehdr im));
  fw_phnum : e_phnum (im_ehdr im) = Z.of_nat (length (im_phdrs im));
  fw_shnum : e_shnum (im_ehdr im) = Z.of_nat (length (im_shdrs im));
  fw_phentsize : e_phentsize (im_ehdr im) = 56;
  fw_shentsize : e_shentsize (im_ehdr im) = 64;
  fw_phoff : 0 < e_phoff (im_ehdr im);
  fw_shoff : 0 < e_shoff (im_ehdr im);
  fw_phdr_in : e_phoff (im_ehdr im) + 56 * Z.of_nat (length (im_phdrs im)) <= Z.of_nat (length file);
  fw_shdr_in : e_shoff (im_ehdr im) + 64 * Z.of_nat (length (im_shdrs im)) <= Z.of_nat (length file);
  fw_phdr : forall k p, im_phdrs im !! k = Some p ->
    slice file (e_phoff (im_ehdr im) + 56 * Z.of_nat k) 56 = encode Elf64_Phdr (phdr_vals p);
  fw_shdr : forall k s, im_shdrs im !! k = Some s ->
    slice file (e_shoff (im_ehdr im) + 64 * Z.of_nat k) 64 = encode Elf64_Shdr (shdr_vals s);
  fw_load : Forall (fun p => is_load p = true ->
    p_offset p + p_filesz p <= Z.of_nat (length file) /\ p_vaddr p + p_filesz p < 2 ^ 64) (im_phdrs im);
  fw_bss : Forall (fun s => is_bss s = true -> sh_addr s + sh_size s < 2 ^ 64) (im_shdrs im)
}.

(** [loadable m e file]: the file is in memory at [_addr e], outside the friend
    region, and the whole friend region is mapped. *)
Record loadable (m : mem) (e : ElfLoader) (file : list Z) : Prop := {
  ld_addr : 0 <= _addr e;
  ld_top : _addr e + Z.of_nat (length file) <= 2 ^ 64;
  ld_file : holds m (_addr e) file;
  ld_disjoint : _addr e + Z.of_nat (length file) <= DEPLOY_PHYS_ADDR_START \/
                DEPLOY_PHYS_ADDR_END <= _addr e;
  ld_mapped : mapped m DEPLOY_PHYS_ADDR_START DEPLOY_PHYS_MEM_SIZE
}.

(** ** Deploy refines the specification *)

Section Refinement.
Context (file : list Z) (im : image) (e : ElfLoader) (Hw : file_wf file im).

#[local] Abbreviation h := (im_ehdr im).

Lemma vals_ok_uint s vs n w v :
  vals_ok s vs -> value_of_field n s vs = Some v -> field_bits s n = Some w ->
  Forall (uint w) v.
Proof.
  intros Hok Hv Hb. destruct (value_of_field_lookup n 0 s vs v Hv) as (k & f & o & H1 & H2 & H3).
  unfold field_bits in Hb. rewrite H1 in Hb.
  assert (s !! k = Some f) as Hs by (by rewrite <- (place_fst 0 s), list_lookup_fmap, H2).
  destruct (Forall2_lookup_lr _ _ _ _ _ _ Hok Hs H3) as [_ Hall].
  unfold elem_ok in Hall. destruct (ct_signed (f_type f)); [done|].
  injection Hb as <-. done.
Qed.

Lemma ehdr_field n j z m :
  loadable m e file -> value_of_field n Elf64_Ehdr (ehdr_vals h) ≫= (fun v => v !! j) = Some z ->
  get_field Elf64_Ehdr n (Z.of_nat j) (_addr e) m = Done (z, m).
Proof.
  intros [Ha Ht Hf _ _] Hz. pose proof (fw_ehdr_in _ _ Hw).
  eapply get_field_value; [| |done| | |exact Hz].
  - apply (bool_decide_unpack _). done.
  - apply Hw.
  - change (Z.of_nat (sizeof Elf64_Ehdr)) with 64. lia.
  - rewrite <- (fw_ehdr _ _ Hw). replace (_addr e) with (_addr e + 0) by lia.
    apply holds_slice; [lia..|done].
Qed.

Lemma table_entry_field s vs off n z m :
  loadable m e file -> struct_wf s -> vals_ok s vs ->
  0 < off -> (0 < sizeof s)%nat -> off + Z.of_nat (sizeof s) <= Z.of_nat (length file) ->
  slice file off (Z.of_nat (sizeof s)) = encode s vs ->
  value_of_field n s vs ≫= (fun v => v !! 0%nat) = Some z ->
  get_field s n 0 (u64 (_addr e + off)) m = Done (z, m).
Proof.
  intros [Ha Ht Hf _ _] Hwf Hok Hoff Hpos Hin Hs Hz.
  rewrite u64_small by lia.
  eapply (get_field_value s vs n 0); [done|done|lia|lia| |exact Hz].
  rewrite <- Hs. apply holds_slice; [lia..|done].
Qed.

Lemma phdr_field k p n z m :
  loadable m e file -> im_phdrs im !! k = Some p ->
  value_of_field n Elf64_Phdr (phdr_vals p) ≫= (fun v => v !! 0%nat) = Some z ->
  get_field Elf64_Phdr n 0 (u64 (_addr e + (e_phoff h + 56 * Z.of_nat k))) m = Done (z, m).
Proof.
  intros Hl Hk Hz. pose proof (lookup_lt_Some _ _ _ Hk).
  pose proof (fw_phoff _ _ Hw). pose proof (fw_phdr_in _ _ Hw).
  eapply (table_entry_field Elf64_Phdr); [done| | | | | | |exact Hz].
  - apply (bool_decide_unpack _). done.
  - by apply (Forall_lookup_1 _ _ _ _ (fw_phdr_ok _ _ Hw) Hk).
  - lia.
  - vm_compute. lia.
  - change (Z.of_nat (sizeof Elf64_Phdr)) with 56. lia.
  - by apply (fw_phdr _ _ Hw).
Qed.

Lemma shdr_field k s n z m :
  loadable m e file -> im_shdrs im !! k = Some s ->
  value_of_field n Elf64_Shdr (shdr_vals s) ≫= (fun v => v !! 0%nat) = Some z ->
  get_field Elf64_Shdr n 0 (u64 (_addr e + (e_shoff h + 64 * Z.of_nat k))) m = Done (z, m).
Proof.
  intros Hl Hk Hz. pose proof (lookup_lt_Some _ _ _ Hk).
  pose proof (fw_shoff _ _ Hw). pose proof (fw_shdr_in _ _ Hw).
  eapply (table_entry_field Elf64_Shdr); [done| | | | | | |exact Hz].
  - apply (bool_decide_unpack _). done.
  - by apply (Forall_lookup_1 _ _ _ _ (fw_shdr_ok _ _ Hw) Hk).
  - lia.
  - vm_compute. lia.
  - change (Z.of_nat (sizeof Elf64_Shdr)) with 64. lia.
  - by apply (fw_shdr _ _ Hw).
Qed.

(** Rewrite one header access of the goal. *)
#[local] Ltac step_field tac :=
  rewrite (bind_done _ _ _ _ _ ltac:(tac)); cbn beta.

Lemma GetPhdrOffset_at k m :
  loadable m e file -> (k <= length (im_phdrs im))%nat ->
  GetPhdrOffset (_addr e) (Z.of_nat k) m =
    Done (if bool_decide (k < length (im_phdrs im))%nat
          then e_phoff h + 56 * Z.of_nat k else 0, m).
Proof.
  intros Hl Hk. unfold GetPhdrOffset.
  step_field ltac:(by apply (ehdr_field "e_phnum" 0)).
  rewrite (fw_phnum _ _ Hw). case_bool_decide as Hlt.
  - destruct (_ >? _) eqn:Eg; zbool; [|lia].
    step_field ltac:(by apply (ehdr_field "e_phoff" 0)).
    step_field ltac:(by apply (ehdr_field "e_phentsize" 0)).
    rewrite (fw_phentsize _ _ Hw). unfold table_offset.
    pose proof (fw_phdr_in _ _ Hw). pose proof (fw_phoff _ _ Hw). pose proof (fw_len _ _ Hw).
    pose proof (vals_ok_uint _ _ "e_phnum" 16 _ (fw_ehdr_ok _ _ Hw) eq_refl eq_refl) as Hn.
    inversion Hn as [|? ? [_ Hn16] _]; subst. rewrite (fw_phnum _ _ Hw) in Hn16.
    unfold INT_MAX. destruct (_ >? _) eqn:Ei; zbool; [lia|].
    rewrite u64_small by lia. done.
  - destruct (_ >? _) eqn:Eg; zbool; [lia|]. done.
Qed.

Lemma GetShdrOffset_at k m :
  loadable m e file -> (k <= length (im_shdrs im))%nat ->
  GetShdrOffset (_addr e) (Z.of_nat k) m =
    Done (if bool_decide (k < length (im_shdrs im))%nat
          then e_shoff h + 64 * Z.of_nat k else 0, m).
Proof.
  intros Hl Hk. unfold GetShdrOffset.
  step_field ltac:(by apply (ehdr_field "e_shnum" 0)).
  rewrite (fw_shnum _ _ Hw). case_bool_decide as Hlt.
  - destruct (_ >? _) eqn:Eg; zbool; [|lia].
    step_field ltac:(by apply (ehdr_field "e_shoff" 0)).
    step_field ltac:(by apply (ehdr_field "e_shentsize" 0)).
    rewrite (fw_shentsize _ _ Hw). unfold table_offset.
    pose proof (fw_shdr_in _ _ Hw). pose proof (fw_shoff _ _ Hw). pose proof (fw_len _ _ Hw).
    pose proof (vals_ok_uint _ _ "e_shnum" 16 _ (fw_ehdr_ok _ _ Hw) eq_refl eq_refl) as Hn.
    inversion Hn as [|? ? [_ Hn16] _]; subst. rewrite (fw_shnum _ _ Hw) in Hn16.
    unfold INT_MAX. destruct (_ >? _) eqn:Ei; zbool; [lia|].
    rewrite u64_small by lia. done.
  - destruct (_ >? _) eqn:Eg; zbool; [lia|]. done.
Qed.

Lemma GetInfoIfLoad_at k p m :
  loadable m e file -> im_phdrs im !! k = Some p ->
  GetInfoIfLoad (u64 (_addr e + (e_phoff h + 56 * Z.of_nat k))) m =
    Done (if is_load p then Some (mkPhdrInfo (p_vaddr p) (p_offset p) (p_filesz p)) else None, m).
Proof.
  intros Hl Hk. unfold GetInfoIfLoad, is_load.
  step_field ltac:(by apply (phdr_field k p "p_type")).
  destruct (_ =? PT_LOAD); cbn [negb]; [|done].
  step_field ltac:(by apply (phdr_field k p "p_vaddr")).
  step_field ltac:(by apply (phdr_field k p "p_offset")).
  step_field ltac:(by apply (phdr_field k p "p_filesz")). done.
Qed.

Lemma GetInfoIfBss_at k s m :
  loadable m e file -> im_shdrs im !! k = Some s ->
  GetInfoIfBss (u64 (_addr e + (e_shoff h + 64 * Z.of_nat k))) m =
    Done (if is_bss s then Some (mkSectionInfo (sh_addr s) (sh_size s)) else None, m).
Proof.
  intros Hl Hk. unfold GetInfoIfBss, is_bss.
  step_field ltac:(by apply (shdr_field k s "sh_type")).
  destruct (_ =? SHT_NOBITS); cbn [negb andb]; [|done].
  step_field ltac:(by apply (shdr_field k s "sh_flags")).
  destruct (Z.land _ _ =? 0); cbn [negb]; [done|].
  step_field ltac:(by apply (shdr_field k s "sh_addr")).
  step_field ltac:(by apply (shdr_field k s "sh_size")). done.
Qed.

(** The region test of the code is the mathematical one when nothing wraps. *)
Lemma CheckMemoryRegion_in_region v n :
  uint 64 v -> uint 64 n -> v + n < 2 ^ 64 -> CheckMemoryRegion v n = in_region v n.
Proof.
  intros [Hv1 Hv2] [Hn1 Hn2] Hs. unfold CheckMemoryRegion, in_region.
  rewrite u64_small by lia.
  destruct (Z.ltb_spec v DEPLOY_PHYS_ADDR_START), (Z.leb_spec DEPLOY_PHYS_ADDR_START v); try lia;
    [done|].
  rewrite Z.gtb_ltb. cbn [orb andb].
  destruct (Z.ltb_spec DEPLOY_PHYS_ADDR_END (v + n)), (Z.leb_spec (v + n) DEPLOY_PHYS_ADDR_END);
    done || lia.
Qed.

Lemma loadable_blit m v bs :
  loadable m e file -> DEPLOY_PHYS_ADDR_START <= v ->
  v + Z.of_nat (length bs) <= DEPLOY_PHYS_ADDR_END -> loadable (blit m v bs) e file.
Proof.
  intros [Ha Ht Hf Hd Hm] Hv Hb.
  assert (mapped m v (Z.of_nat (length bs))) as Hmv.
  { eapply mapped_sub; [| |exact Hm]; unfold DEPLOY_PHYS_MEM_SIZE; lia. }
  split; [done|done| |done|].
  - eapply holds_agree; [|exact Hf]. intros x Hx. rewrite blit_lookup.
    rewrite decide_False by lia. done.
  - eapply mapped_agree; [|exact Hm]. intros x. by apply blit_dom.
Qed.

Lemma spec_segments_loadable ps m :
  Forall (fun p => vals_ok Elf64_Phdr (phdr_vals p)) ps ->
  Forall (fun p => is_load p = true ->
    p_offset p + p_filesz p <= Z.of_nat (length file) /\ p_vaddr p + p_filesz p < 2 ^ 64) ps ->
  loadable m e file -> loadable (snd (spec_segments file ps m)) e file.
Proof.
  intros Hok. revert m. induction ps as [|p ps IH]; intros m Hb Hl; [done|].
  inversion Hok as [|? ? Hp Hps]; inversion Hb as [|? ? Hbp Hbps]; subst.
  cbn [spec_segments]. destruct (is_load p) eqn:El; [|by apply IH].
  destruct (in_region _ _) eqn:Er; [|done]. unfold in_region in Er. zbool.
  pose proof (vals_ok_uint _ _ "p_filesz" 64 _ Hp eq_refl eq_refl) as Hsz.
  pose proof (vals_ok_uint _ _ "p_offset" 64 _ Hp eq_refl eq_refl) as Hof.
  inversion Hsz as [|? ? [Hsz1 _] _]; inversion Hof as [|? ? [Hof1 _] _]; subst.
  destruct (Hbp eq_refl). apply IH; [done..|].
  apply loadable_blit; [done..|]. rewrite length_slice; lia.
Qed.

Lemma load_segments_refines fuel i m :
  loadable m e file -> (i <= length (im_phdrs im))%nat ->
  (length (im_phdrs im) - i < fuel)%nat ->
  load_segments fuel e (Z.of_nat i) m = Done (spec_segments file (drop i (im_phdrs im)) m).
Proof.
  revert i m. induction fuel as [|fuel IH]; intros i m Hl Hi Hf; [lia|].
  cbn [load_segments]. rewrite (bind_done _ _ _ _ _ (GetPhdrOffset_at i m Hl Hi)).
  pose proof (fw_phoff _ _ Hw). unfold CreatePhdr. case_bool_decide as Hlt.
  2: { by rewrite drop_ge by lia. }
  destruct (Z.eqb_spec (e_phoff h + 56 * Z.of_nat i) 0) as [E0|_]; [lia|].
  destruct (lookup_lt_is_Some_2 _ _ Hlt) as [p Hp].
  rewrite (bind_done _ _ _ _ _ (GetInfoIfLoad_at i p m Hl Hp)).
  rewrite (drop_S _ _ _ Hp). cbn [spec_segments].
  replace (Z.of_nat i + 1) with (Z.of_nat (S i)) by lia.
  destruct (is_load p) eqn:El; [|apply IH; [done|lia..]].
  cbn [pi_vaddr pi_size pi_file_offset].
  pose proof (Forall_lookup_1 _ _ _ _ (fw_phdr_ok _ _ Hw) Hp) as Hpo. cbn beta in Hpo.
  destruct (Forall_lookup_1 _ _ _ _ (fw_load _ _ Hw) Hp El) as [Hin Hwr].
  pose proof (vals_ok_uint _ _ "p_filesz" 64 _ Hpo eq_refl eq_refl) as Hsz.
  pose proof (vals_ok_uint _ _ "p_offset" 64 _ Hpo eq_refl eq_refl) as Hof.
  pose proof (vals_ok_uint _ _ "p_vaddr" 64 _ Hpo eq_refl eq_refl) as Hva.
  rewrite Forall_singleton in Hsz, Hof, Hva.
  rewrite CheckMemoryRegion_in_region by assumption.
  destruct (in_region _ _) eqn:Er; cbn [negb]; [|done].
  unfold in_region in Er. zbool. destruct Hl as [Ha Ht Hfile Hd Hm].
  unfold uint in *.
  destruct (decide (p_filesz p = 0)) as [Ez|Ez].
  - rewrite Ez. rewrite (bind_done _ _ m tt m) by reflexivity. unfold slice. change (Z.to_nat 0) with 0%nat. rewrite take_0. cbn [blit]. apply IH; [done|lia..].
  - rewrite u64_small by lia.
    rewrite (bind_done _ _ _ _ _ (memcpy_file m (_addr e) file (p_vaddr p) (p_offset p)
      (p_filesz p) Ha Ht Hfile ltac:(lia) ltac:(lia) ltac:(lia) ltac:(lia) ltac:(lia)
      ltac:(eapply mapped_sub; [| |exact Hm]; unfold DEPLOY_PHYS_MEM_SIZE; lia) ltac:(lia))).
    apply IH; [|lia..]. apply loadable_blit; [done..|]. rewrite length_slice; lia.
Qed.

Lemma clear_sections_refines fuel i m :
  loadable m e file -> (i <= length (im_shdrs im))%nat ->
  (length (im_shdrs im) - i < fuel)%nat ->
  clear_sections fuel e (Z.of_nat i) m = Done (spec_sections (drop i (im_shdrs im)) m).
Proof.
  revert i m. induction fuel as [|fuel IH]; intros i m Hl Hi Hf; [lia|].
  cbn [clear_sections]. rewrite (bind_done _ _ _ _ _ (GetShdrOffset_at i m Hl Hi)).
  pose proof (fw_shoff _ _ Hw). unfold CreateShdr. case_bool_decide as Hlt.
  2: { by rewrite drop_ge by lia. }
  destruct (Z.eqb_spec (e_shoff h + 64 * Z.of_nat i) 0) as [E0|_]; [lia|].
  destruct (lookup_lt_is_Some_2 _ _ Hlt) as [s Hs].
  rewrite (bind_done _ _ _ _ _ (GetInfoIfBss_at i s m Hl Hs)).
  rewrite (drop_S _ _ _ Hs). cbn [spec_sections].
  replace (Z.of_nat i + 1) with (Z.of_nat (S i)) by lia.
  destruct (is_bss s) eqn:El; [|apply IH; [done|lia..]].
  cbn [si_vaddr si_size].
  pose proof (Forall_lookup_1 _ _ _ _ (fw_shdr_ok _ _ Hw) Hs) as Hso. cbn beta in Hso.
  pose proof (Forall_lookup_1 _ _ _ _ (fw_bss _ _ Hw) Hs El) as Hwr.
  pose proof (vals_ok_uint _ _ "sh_size" 64 _ Hso eq_refl eq_refl) as Hsz.
  pose proof (vals_ok_uint _ _ "sh_addr" 64 _ Hso eq_refl eq_refl) as Hva.
  rewrite Forall_singleton in Hsz, Hva.
  rewrite CheckMemoryRegion_in_region by assumption.
  destruct (in_region _ _) eqn:Er; cbn [negb]; [|done].
  unfold in_region in Er. zbool. unfold uint in *.
  rewrite (bind_done _ _ _ _ _ (memset_blit m (sh_addr s) 0 (sh_size s)
    ltac:(lia) ltac:(lia) ltac:(lia)
    ltac:(eapply mapped_sub; [| |exact (ld_mapped _ _ _ Hl)]; unfold DEPLOY_PHYS_MEM_SIZE; lia))).
  apply IH; [|lia..]. apply loadable_blit; [done..|].
  unfold zeros. rewrite length_replicate. lia.
Qed.

Lemma and_then_done c k m b1 b2 :
  c m = Done (b1, m) -> k m = Done (b2, m) -> and_then c k m = Done (b1 && b2, m).
Proof. intros H1 H2. unfold and_then. rewrite (bind_done _ _ _ _ _ H1). by destruct b1. Qed.

Lemma or_else_done c k m b1 b2 :
  c m = Done (b1, m) -> k m = Done (b2, m) -> or_else c k m = Done (b1 || b2, m).
Proof. intros H1 H2. unfold or_else. rewrite (bind_done _ _ _ _ _ H1). by destruct b1. Qed.

Lemma ident_is_at i c m :
  loadable m e file -> 0 <= i < 16 -> ident_is (_addr e) i c m = Done (ident h i =? c, m).
Proof.
  intros Hl Hi. unfold ident_is, ident.
  pose proof (fw_ehdr_ok _ _ Hw) as Hok. inversion Hok as [|? ? ? ? [Hlen _] _]; subst.
  destruct (lookup_lt_is_Some_2 (e_ident h) (Z.to_nat i)) as [z Hz]; [change (f_count _) with 16%nat in Hlen; lia|].
  rewrite Hz. replace i with (Z.of_nat (Z.to_nat i)) at 1 by lia.
  by rewrite (bind_done _ _ _ _ _ (ehdr_field "e_ident" (Z.to_nat i) z m Hl Hz)).
Qed.

Lemma header_tests_refines m :
  loadable m e file -> header_tests (_addr e) m = Done (ehdr_accepted h, m).
Proof.
  intros Hl.
  assert (IsExecutable (_addr e) m = Done (e_type h =? ET_EXEC, m)) as Hex.
  { unfold IsExecutable. by step_field ltac:(by apply (ehdr_field "e_type" 0)). }
  unfold header_tests, IsElf, IsElf64, IsOsabiSysv, IsOsabiGnu, ehdr_accepted.
  assert (forall i c, 0 <= i < 16 -> ident_is (_addr e) i c m = Done (ident h i =? c, m)) as Hid
    by (intros; by apply ident_is_at).
  apply and_then_done.
  { apply and_then_done; [by apply Hid|]. apply and_then_done; [by apply Hid|].
    apply and_then_done; by apply Hid. }
  apply and_then_done; [by apply Hid|].
  apply and_then_done; [apply or_else_done; by apply Hid|exact Hex].
Qed.

Lemma Deploy_refines_spec m :
  loadable m e file -> Deploy e m = Done (spec_deploy file im m).
Proof.
  intros Hl. unfold Deploy, spec_deploy.
  rewrite (bind_done _ _ _ _ _ (header_tests_refines m Hl)).
  destruct (ehdr_accepted h); cbn [negb]; [|done].
  pose proof (vals_ok_uint _ _ "e_phnum" 16 _ (fw_ehdr_ok _ _ Hw) eq_refl eq_refl) as Hp.
  pose proof (vals_ok_uint _ _ "e_shnum" 16 _ (fw_ehdr_ok _ _ Hw) eq_refl eq_refl) as Hs.
  rewrite Forall_singleton in Hp, Hs. unfold uint in *.
  rewrite (fw_phnum _ _ Hw) in Hp. rewrite (fw_shnum _ _ Hw) in Hs.
  change 0 with (Z.of_nat 0).
  pose proof (load_segments_refines deploy_fuel 0 m Hl ltac:(lia)
    ltac:(unfold deploy_fuel; lia)) as H1.
  rewrite drop_0 in H1.
  pose proof (spec_segments_loadable (im_phdrs im) m (fw_phdr_ok _ _ Hw) (fw_load _ _ Hw) Hl) as Hl1.
  destruct (spec_segments file (im_phdrs im) m) as [[] m1]; cbn [snd] in Hl1;
    rewrite (bind_done _ _ _ _ _ H1); [|done]. cbn [negb].
  pose proof (clear_sections_refines deploy_fuel 0 m1 Hl1 ltac:(lia)
    ltac:(unfold deploy_fuel; lia)) as H2.
  by rewrite drop_0 in H2.
Qed.

Lemma spec_sections_loadable ss m :
  Forall (fun s => vals_ok Elf64_Shdr (shdr_vals s)) ss ->
  loadable m e file -> loadable (snd (spec_sections ss m)) e file.
Proof.
  intros Hok. revert m. induction ss as [|s ss IH]; intros m Hl; [done|].
  inversion Hok as [|? ? Hs Hss]; subst.
  cbn [spec_sections]. destruct (is_bss s) eqn:El; [|by apply IH].
  destruct (in_region _ _) eqn:Er; [|done]. unfold in_region in Er. zbool.
  pose proof (vals_ok_uint _ _ "sh_size" 64 _ Hs eq_refl eq_refl) as Hsz.
  rewrite Forall_singleton in Hsz. unfold uint in Hsz. apply IH; [done..|].
  apply loadable_blit; [done..|]. unfold zeros. rewrite length_replicate. lia.
Qed.

Lemma spec_deploy_loadable m :
  loadable m e file -> loadable (snd (spec_deploy file im m)) e file.
Proof.
  intros Hl. unfold spec_deploy. destruct (ehdr_accepted h); [|done].
  pose proof (spec_segments_loadable (im_phdrs im) m (fw_phdr_ok _ _ Hw) (fw_load _ _ Hw) Hl) as Hl1.
  destruct (spec_segments file (im_phdrs im) m) as [[] m1]; [|done].
  by apply spec_sections_loadable; [apply Hw|].
Qed.

Lemma GetEntry_at m : loadable m e file -> GetEntry e m = Done (e_entry h, m).
Proof. intros Hl. unfold GetEntry, Ehdr_GetEntry. by apply (ehdr_field "e_entry" 0). Qed.

End Refinement.

(** ** The memory a successful load leaves *)

Definition segment_covers (x : Z) (p : phdr) : bool :=
  is_load p && (p_vaddr p <=? x) && (x <? p_vaddr p + p_filesz p).
Definition bss_covers (x : Z) (s : shdr) : bool :=
  is_bss s && (sh_addr s <=? x) && (x <? sh_addr s + sh_size s).

(** The byte at [x] after a load: zero where a bss section covers [x], else the
    file byte of the last segment that covers it, else what was there. *)
Definition loaded_byte (file : list Z) (im : image) (m : mem) (x : Z) : option Z :=
  if existsb (bss_covers x) (im_shdrs im) then Some 0
  else match find (segment_covers x) (rev (im_phdrs im)) with
       | Some p => file !! Z.to_nat (p_offset p + (x - p_vaddr p))
       | None => m !! x
       end.

Definition all_in_region (im : image) : bool :=
  forallb (fun p => implb (is_load p) (in_region (p_vaddr p) (p_filesz p))) (im_phdrs im) &&
  forallb (fun s => implb (is_bss s) (in_region (sh_addr s) (sh_size s))) (im_shdrs im).

Lemma find_app {A} (f : A -> bool) l1 l2 :
  find f (l1 ++ l2) = match find f l1 with Some x => Some x | None => find f l2 end.
Proof. induction l1 as [|a l1 IH]; cbn; [done|]. by destruct (f a). Qed.

Lemma spec_sections_lookup ss m m' x :
  Forall (fun s => vals_ok Elf64_Shdr (shdr_vals s)) ss ->
  spec_sections ss m = (true, m') ->
  m' !! x = if existsb (bss_covers x) ss then Some 0 else m !! x.
Proof.
  intros Hok. revert m. induction ss as [|s ss IH]; intros m; cbn [spec_sections existsb].
  { by intros [= <-]. }
  inversion Hok as [|? ? Hs Hss]; subst.
  pose proof (vals_ok_uint _ _ "sh_size" 64 _ Hs eq_refl eq_refl) as Hsz.
  rewrite Forall_singleton in Hsz. unfold uint in Hsz.
  unfold bss_covers at 1. destruct (is_bss s); cbn [andb orb]; [|by apply IH].
  destruct (in_region _ _); [|done]. intros H. rewrite (IH Hss _ H), blit_lookup.
  unfold zeros. rewrite length_replicate.
  case_decide as Hx.
  - rewrite lookup_replicate_2 by lia.
    destruct (Z.leb_spec (sh_addr s) x), (Z.ltb_spec x (sh_addr s + sh_size s)); try lia.
    cbn [andb orb]. by destruct (existsb _ ss).
  - destruct (Z.leb_spec (sh_addr s) x), (Z.ltb_spec x (sh_addr s + sh_size s)); done || lia.
Qed.

Lemma spec_segments_lookup file ps m m' x :
  Forall (fun p => vals_ok Elf64_Phdr (phdr_vals p)) ps ->
  Forall (fun p => is_load p = true ->
    p_offset p + p_filesz p <= Z.of_nat (length file) /\ p_vaddr p + p_filesz p < 2 ^ 64) ps ->
  spec_segments file ps m = (true, m') ->
  m' !! x = match find (segment_covers x) (rev ps) with
            | Some p => file !! Z.to_nat (p_offset p + (x - p_vaddr p))
            | None => m !! x
            end.
Proof.
  intros Hok Hb. revert m. induction ps as [|p ps IH]; intros m; cbn [spec_segments rev].
  { by intros [= <-]. }
  inversion Hok as [|? ? Hp Hps]; inversion Hb as [|? ? Hbp Hbps]; subst.
  rewrite find_app.
  destruct (is_load p) eqn:El.
  2: { intros H. rewrite (IH Hps Hbps _ H). destruct (find _ (rev ps)); [done|].
       cbn [find]. unfold segment_covers. by rewrite El. }
  destruct (Hbp eq_refl) as [Hin _]. clear Hbp.
  pose proof (vals_ok_uint _ _ "p_filesz" 64 _ Hp eq_refl eq_refl) as Hsz.
  pose proof (vals_ok_uint _ _ "p_offset" 64 _ Hp eq_refl eq_refl) as Hof.
  rewrite Forall_singleton in Hsz, Hof. unfold uint in *.
  destruct (in_region _ _); [|done]. intros H. rewrite (IH Hps Hbps _ H).
  destruct (find _ (rev ps)); [done|]. cbn [find]. unfold segment_covers. rewrite El.
  rewrite blit_lookup, length_slice by lia. cbn [andb].
  case_decide as Hx.
  - destruct (Z.leb_spec (p_vaddr p) x), (Z.ltb_spec x (p_vaddr p + p_filesz p)); try lia.
    cbn [andb]. apply slice_lookup; lia.
  - destruct (Z.leb_spec (p_vaddr p) x), (Z.ltb_spec x (p_vaddr p + p_filesz p)); done || lia.
Qed.

Lemma spec_deploy_lookup file im m m' x :
  file_wf file im -> spec_deploy file im m = (true, m') -> m' !! x = loaded_byte file im m x.
Proof.
  intros Hw. unfold spec_deploy, loaded_byte. destruct (ehdr_accepted _); [|done].
  destruct (spec_segments file (im_phdrs im) m) as [[] m1] eqn:E; [|done].
  intros H. rewrite (spec_sections_lookup _ _ _ _ (fw_shdr_ok _ _ Hw) H).
  by rewrite (spec_segments_lookup _ _ _ _ _ (fw_phdr_ok _ _ Hw) (fw_load _ _ Hw) E).
Qed.

Lemma spec_segments_fst file ps m :
  fst (spec_segments file ps m) =
  forallb (fun p => implb (is_load p) (in_region (p_vaddr p) (p_filesz p))) ps.
Proof.
  revert m. induction ps as [|p ps IH]; intros m; cbn [spec_segments forallb]; [done|].
  destruct (is_load p); cbn [implb]; [|by rewrite IH].
  destruct (in_region _ _); [by rewrite IH|done].
Qed.

Lemma spec_sections_fst ss m :
  fst (spec_sections ss m) =
  forallb (fun s => implb (is_bss s) (in_region (sh_addr s) (sh_size s))) ss.
Proof.
  revert m. induction ss as [|s ss IH]; intros m; cbn [spec_sections forallb]; [done|].
  destruct (is_bss s); cbn [implb]; [|by rewrite IH].
  destruct (in_region _ _); [by rewrite IH|done].
Qed.

Lemma spec_deploy_fst file im m :
  fst (spec_deploy file im m) = ehdr_accepted (im_ehdr im) && all_in_region im.
Proof.
  unfold spec_deploy, all_in_region. destruct (ehdr_accepted _); [|done].
  rewrite <- (spec_segments_fst file _ m).
  destruct (spec_segments file (im_phdrs im) m) as [[] m1]; [|done].
  cbn [fst andb]. by rewrite <- (spec_sections_fst _ m1).
Qed.

#[global] Opaque deploy_fuel.

Lemma Deploy_same_outside e m b m' :
  m !! (2 ^ 64 - 1) = None -> Deploy e m = Done (b, m') ->
  same_outside in_friend_region m m'.
Proof.
  intros Ht H. unfold Deploy in H.
  apply bind_inv in H as (ok & m1 & E & H). apply reader_state in E as ->.
  destruct ok; cbn [negb] in H; [|by injection H as _ <-].
  apply bind_inv in H as (ok & m2 & E & H). apply load_segments_confined in E; [|done].
  destruct ok; cbn [negb] in H; [|injection H as _ <-; apply E].
  apply clear_sections_confined in H; [|by apply E].
  etrans; [apply E|apply H].
Qed.

(** ** A concrete friend binary

    One loadable segment of four bytes at the start of the friend region, one
    bss section of four bytes behind it. *)

Definition ex_ehdr : ehdr := {|
  e_ident := [0x7f; 69; 76; 70; 2; 1; 1; 3; 0; 0; 0; 0; 0; 0; 0; 0];
  e_type := 2; e_machine := 62; e_version := 1; e_entry := 0x100000000;
  e_phoff := 64; e_shoff := 120; e_flags := 0; e_ehsize := 64; e_phentsize := 56;
  e_phnum := 1; e_shentsize := 64; e_shnum := 1; e_shstrndx := 0 |}.
Definition ex_phdr : phdr := {|
  p_type := 1; p_flags := 7; p_offset := 184; p_vaddr := 0x100000000;
  p_paddr := 0x100000000; p_filesz := 4; p_memsz := 8; p_align := 0x1000 |}.
Definition ex_shdr : shdr := {|
  sh_name := 0; sh_type := 8; sh_flags := 3; sh_addr := 0x100000004; sh_offset := 188;
  sh_size := 4; sh_link := 0; sh_info := 0; sh_addralign := 4; sh_entsize := 0 |}.
Definition ex_image : image := mkImage ex_ehdr [ex_phdr] [ex_shdr].
Definition ex_file : list Z :=
  encode Elf64_Ehdr (ehdr_vals ex_ehdr) ++ encode Elf64_Phdr (phdr_vals ex_phdr) ++
  encode Elf64_Shdr (shdr_vals ex_shdr) ++ [0xf4; 0xeb; 0xfd; 0x90].
Definition ex_loader : ElfLoader := mkElfLoader 0x400000 188.

(** The friend region filled with 0xff, and the file at 0x400000. *)
Definition ex_mem : mem :=
  blit (blit ∅ DEPLOY_PHYS_ADDR_START (replicate (Z.to_nat DEPLOY_PHYS_MEM_SIZE) 0xff))
    (_addr ex_loader) ex_file.

(** Only the bytes the load touches, for evaluation. *)
Definition ex_small_mem : mem :=
  blit (blit ∅ DEPLOY_PHYS_ADDR_START (replicate 16 0xff)) (_addr ex_loader) ex_file.

Lemma ex_file_wf : file_wf ex_file ex_image.
Proof.
  assert (Z.of_nat (length ex_file) = 188) as Hlen by (vm_compute; reflexivity).
  split; rewrite ?Hlen.
  - done.
  - apply (bool_decide_unpack _). vm_compute. exact I.
  - apply (bool_decide_unpack _). vm_compute. exact I.
  - apply (bool_decide_unpack _). vm_compute. exact I.
  - done.
  - vm_compute. reflexivity.
  - reflexivity.
  - reflexivity.
  - reflexivity.
  - reflexivity.
  - reflexivity.
  - reflexivity.
  - vm_compute. congruence.
  - vm_compute. congruence.
  - intros [|k] p; [intros [= <-]; vm_compute; reflexivity|done].
  - intros [|k] s; [intros [= <-]; vm_compute; reflexivity|done].
  - apply Forall_singleton. intros _. split; vm_compute; congruence.
  - apply Forall_singleton. intros _. vm_compute. congruence.
Qed.

Lemma ex_loadable : loadable ex_mem ex_loader ex_file.
Proof.
  split; [vm_compute; congruence..| |left; vm_compute; congruence|].
  - intros i b Hi. unfold ex_mem. rewrite blit_lookup.
    pose proof (lookup_lt_Some _ _ _ Hi).
    rewrite decide_True by lia. rewrite <- Hi. f_equal. lia.
  - intros x Hx. unfold ex_mem. rewrite blit_lookup.
    assert (Z.of_nat (length ex_file) = 188) as Hlen by (vm_compute; reflexivity).
    rewrite decide_False.
    2: { rewrite Hlen. unfold ex_loader, DEPLOY_PHYS_ADDR_START in *. cbn [_addr]. lia. }
    rewrite blit_lookup, length_replicate, decide_True.
    + exists 0xff. apply lookup_replicate_2.
      unfold DEPLOY_PHYS_MEM_SIZE, DEPLOY_PHYS_ADDR_START, DEPLOY_PHYS_ADDR_END in *. lia.
    + unfold DEPLOY_PHYS_MEM_SIZE, DEPLOY_PHYS_ADDR_START, DEPLOY_PHYS_ADDR_END in *. lia.
Qed.

(** ** Properties *)

(** C2: [Deploy] implements its specification.  For every file in memory whose
    bytes decode to the headers [im] (tables and segment data inside the file,
    no wrapping range), with the friend region mapped and not overlapping the
    file, [Deploy] returns, its result and the memory it leaves are exactly
    those of [spec_deploy] (a pure fold over the decoded program and section
    headers), and [GetEntry] afterwards returns the header's entry point. *)
Theorem Deploy_refines file im e m :
  file_wf file im -> loadable m e file ->
  Deploy e m = Done (spec_deploy file im m) /\
  GetEntry e (snd (spec_deploy file im m)) =
    Done (e_entry (im_ehdr im), snd (spec_deploy file im m)).
Proof.
  intros Hw Hl. split; [by apply Deploy_refines_spec|].
  apply (GetEntry_at file im e Hw). by apply spec_deploy_loadable.
Qed.

Lemma Deploy_refines_witness :
  Deploy ex_loader ex_mem = Done (spec_deploy ex_file ex_image ex_mem) /\
  GetEntry ex_loader (snd (spec_deploy ex_file ex_image ex_mem)) =
    Done (0x100000000, snd (spec_deploy ex_file ex_image ex_mem)).
Proof. apply (Deploy_refines ex_file ex_image ex_loader ex_mem ex_file_wf ex_loadable). Defined.

(** C13: whatever the file and its headers say, a [Deploy] that returns (true or
    false) has changed no byte outside the friend region
    [0x100000000, 0x140000000), in a process whose last address is unmapped. *)
Theorem Deploy_confined e m b m' :
  m !! (2 ^ 64 - 1) = None -> Deploy e m = Done (b, m') ->
  same_outside in_friend_region m m'.
Proof.
  apply Deploy_same_outside.
Qed.

Lemma Deploy_confined_witness :
  exists m', Deploy ex_loader ex_small_mem = Done (true, m') /\
    same_outside in_friend_region ex_small_mem m'.
Proof.
  destruct (value_of_done (Deploy ex_loader ex_small_mem) true) as [m' E];
    [vm_compute; reflexivity|].
  exists m'. split; [exact E|].
  apply (Deploy_confined ex_loader ex_small_mem true m'); [vm_compute; reflexivity|exact E].
Defined.

(** C26: [Deploy] always comes to an end: for every loader and memory it returns
    or faults, and neither of its two unbounded [for] loops exhausts the 2^16
    iterations the 16-bit header counts allow. *)
Theorem Deploy_terminates e m : Deploy e m <> Fault OutOfFuel.
Proof.
  unfold Deploy. intros H.
  apply bind_out_of_fuel in H as (ok & m1 & _ & H); [|apply _].
  destruct ok; cbn [negb] in H; [|done].
  apply bind_out_of_fuel in H as (ok & m2 & _ & H); [|apply _].
  destruct ok; cbn [negb] in H; [|done]. by apply fuel_free in H.
Qed.

(** C21: when [Deploy] returns true, every byte of memory is as the file
    prescribes: zero where an allocated NOBITS section covers it, otherwise the
    file byte of the last PT_LOAD segment that covers it, otherwise unchanged. *)
Theorem Deploy_loaded_bytes file im e m m' x :
  file_wf file im -> loadable m e file -> Deploy e m = Done (true, m') ->
  m' !! x = loaded_byte file im m x.
Proof.
  intros Hw Hl H. rewrite (Deploy_refines_spec file im e Hw m Hl) in H.
  injection H as H. by apply spec_deploy_lookup.
Qed.

Lemma Deploy_loaded_bytes_witness :
  exists m', Deploy ex_loader ex_mem = Done (true, m') /\
    m' !! 0x100000001 = Some 0xeb /\ m' !! 0x100000005 = Some 0.
Proof.
  pose proof (Deploy_refines_spec ex_file ex_image ex_loader ex_file_wf ex_mem ex_loadable) as E.
  pose proof (spec_deploy_fst ex_file ex_image ex_mem) as Ef.
  destruct (spec_deploy ex_file ex_image ex_mem) as [b m'].
  assert (b = true) as -> by (vm_compute in Ef; exact Ef).
  exists m'. split; [exact E|]. split.
  - rewrite (Deploy_loaded_bytes ex_file ex_image ex_loader ex_mem m' 0x100000001
      ex_file_wf ex_loadable E). reflexivity.
  - rewrite (Deploy_loaded_bytes ex_file ex_image ex_loader ex_mem m' 0x100000005
      ex_file_wf ex_loadable E). reflexivity.
Defined.

(** [Deploy] succeeds exactly when it should: on a well-formed file it
    returns true if and only if the header is that of a 64-bit System V or GNU
    executable and every PT_LOAD segment and every bss section lies inside the
    friend region; a header that is not accepted leaves memory as it was. *)
Theorem Deploy_succeeds_iff file im e m :
  file_wf file im -> loadable m e file ->
  exists b m', Deploy e m = Done (b, m') /\
    (b = true <-> ehdr_accepted (im_ehdr im) = true /\ all_in_region im = true) /\
    (ehdr_accepted (im_ehdr im) = false -> b = false /\ m' = m).
Proof.
  intros Hw Hl. exists (fst (spec_deploy file im m)), (snd (spec_deploy file im m)).
  rewrite (Deploy_refines_spec file im e Hw m Hl), <- surjective_pairing.
  rewrite spec_deploy_fst. split_and!; [done|by rewrite andb_true_iff|].
  intros Ha. unfold spec_deploy. by rewrite Ha.
Qed.

Lemma Deploy_succeeds_iff_witness :
  exists b m', Deploy ex_loader ex_mem = Done (b, m') /\
    (b = true <-> ehdr_accepted ex_ehdr = true /\ all_in_region ex_image = true) /\
    (ehdr_accepted ex_ehdr = false -> b = false /\ m' = ex_mem).
Proof. apply (Deploy_succeeds_iff ex_file ex_image ex_loader ex_mem ex_file_wf ex_loadable). Defined.

(** C40: the exact meaning of the region test.  Because [vaddr + size] is a
    64-bit sum, [CheckMemoryRegion] accepts the ranges inside the friend region
    and also the ranges that run past the end of the address space and wrap to
    an address not above the region's end: [0x100000000, 2^64) is accepted. *)
Theorem CheckMemoryRegion_exact :
  (forall v n, uint 64 v -> uint 64 n ->
     (CheckMemoryRegion v n = true <->
      DEPLOY_PHYS_ADDR_START <= v /\
      (v + n <= DEPLOY_PHYS_ADDR_END \/ (2 ^ 64 <= v + n <= 2 ^ 64 + DEPLOY_PHYS_ADDR_END)))) /\
  CheckMemoryRegion DEPLOY_PHYS_ADDR_START (2 ^ 64 - DEPLOY_PHYS_ADDR_START) = true.
Proof.
  split; [|reflexivity]. intros v n [Hv1 Hv2] [Hn1 Hn2]. unfold CheckMemoryRegion.
  assert (u64 (v + n) = v + n \/ 2 ^ 64 <= v + n /\ u64 (v + n) = v + n - 2 ^ 64) as Hu.
  { destruct (decide (v + n < 2 ^ 64)); [left; apply u64_small; lia|right; split; [lia|]].
    unfold u64, wrap. rewrite <- (Z.mod_add (v + n) (-1)) by lia. apply Z.mod_small. lia. }
  pose proof (u64_range (v + n)) as Hr.
  unfold DEPLOY_PHYS_ADDR_START, DEPLOY_PHYS_ADDR_END in *.
  destruct (_ || _) eqn:E; split; intros H; try done.
  - exfalso. apply orb_true_iff in E as [E|E]; zbool; lia.
  - zbool. lia.
Qed.
