(* ===== verification/Paging.v ===== *)
(** * Paging: x86-64 address translation, the specification of page tables

    The four-level page walk of the processor: [walk] reads 8-byte entries of
    physical memory and gives the physical address, the page size and the
    accumulated permissions of a virtual address.  The page-table code of the
    repository is specified against it.  The lemmas on table entries (pages of
    512 entries, stores to entries, flag bits) are shared by that code. *)

From S2P Require Import Prelude Memory.

Definition k256TB : Z := 256 * 1024 * 1024 * 1024 * 1024.
Definition k512GB : Z := 512 * 1024 * 1024 * 1024.
Definition k1GB : Z := 1024 * 1024 * 1024.
Definition k2MB : Z := 2 * 1024 * 1024.
Definition k4KB : Z := 4 * 1024.

(** ** The processor's page walk *)

Record translation := mkTranslation {
  t_phys : Z;      (* physical address *)
  t_size : Z;      (* size of the page it is in *)
  t_write : bool;  (* writable at every level *)
  t_user : bool    (* user accessible at every level *)
}.

#[export] Instance translation_eq_dec : EqDecision translation.
Proof. solve_decision. Defined.

Definition pte_present (e : Z) : bool := Z.testbit e 0.
Definition pte_write (e : Z) : bool := Z.testbit e 1.
Definition pte_user (e : Z) : bool := Z.testbit e 2.
Definition pte_huge (e : Z) : bool := Z.testbit e 7.
(** Bits [k]..51 of an entry: the physical base of a 2^k-byte page or table. *)
Definition pte_base (k e : Z) : Z := (e mod 2 ^ 52) / 2 ^ k * 2 ^ k.

Definition pml4_index (va : Z) : Z := (va mod k256TB) / k512GB.
Definition pdpt_index (va : Z) : Z := (va mod k512GB) / k1GB.
Definition pd_index (va : Z) : Z := (va mod k1GB) / k2MB.
Definition pt_index (va : Z) : Z := (va mod k2MB) / k4KB.

Section Walk.
(** 8-byte read of physical memory; [None] is an address without memory. *)
Context (read : Z -> option Z).

Definition entry (table i : Z) : option Z :=
  e ← read (table + 8 * i);
  if pte_present e then Some e else None.

Definition walk (cr3 va : Z) : option translation :=
  e4 ← entry (pte_base 12 cr3) (pml4_index va);
  e3 ← entry (pte_base 12 e4) (pdpt_index va);
  let w3 := pte_write e4 && pte_write e3 in
  let u3 := pte_user e4 && pte_user e3 in
  if pte_huge e3 then
    Some (mkTranslation (pte_base 30 e3 + va mod k1GB) k1GB w3 u3)
  else
    e2 ← entry (pte_base 12 e3) (pd_index va);
    let w2 := w3 && pte_write e2 in
    let u2 := u3 && pte_user e2 in
    if pte_huge e2 then
      Some (mkTranslation (pte_base 21 e2 + va mod k2MB) k2MB w2 u2)
    else
      e1 ← entry (pte_base 12 e2) (pt_index va);
      Some (mkTranslation (pte_base 12 e1 + va mod k4KB) k4KB
              (w2 && pte_write e1) (u2 && pte_user e1)).
End Walk.

(** ** Entries: a base and its flag bits *)

Lemma flag_bit k base f i :
  0 <= i < k -> base mod 2 ^ k = 0 -> 0 <= f < 2 ^ k ->
  Z.testbit (base + f) i = Z.testbit f i.
Proof.
  intros Hi Hb Hf. rewrite <- (lor_flags k) by lia || done. rewrite Z.lor_spec.
  replace base with (base / 2 ^ k * 2 ^ k) by (pose proof (Z.div_mod base (2 ^ k)); lia).
  rewrite Z.mul_pow2_bits_low by lia. done.
Qed.

Lemma pte_base_flags k base f :
  0 <= k -> base mod 2 ^ k = 0 -> 0 <= f < 2 ^ k -> 0 <= base -> base + 2 ^ k <= 2 ^ 52 ->
  pte_base k (base + f) = base.
Proof.
  intros Hk Hb Hf H0 Hhi. unfold pte_base. rewrite Z.mod_small by lia.
  assert (0 < 2 ^ k) by (apply Z.pow_pos_nonneg; lia).
  pose proof (Z.div_mod base (2 ^ k) ltac:(lia)) as E.
  replace ((base + f) / 2 ^ k) with (base / 2 ^ k); [lia|].
  apply (Z.div_unique _ _ _ f); lia.
Qed.

(** ** Aligned 8-byte slots of memory *)

Definition read64 (m : mem) (a : Z) : option Z := le_value <$> read_bytes m a 8.

Definition slot (a : Z) : Prop := 0 <= a /\ a mod 8 = 0 /\ a + 8 <= 2 ^ 64.

Lemma read64_holds m a v :
  slot a -> 0 <= v < 2 ^ 64 -> holds m a (le_bytes 8 v) -> read64 m a = Some v.
Proof.
  intros (Ha & _ & Hb) Hv Hh. unfold read64.
  assert (read_bytes m a 8 = Some (le_bytes 8 v)) as ->.
  { apply read_bytes_lookup; [lia..|]. split; [apply length_le_bytes|done]. }
  cbn [fmap option_fmap option_map]. f_equal. by apply le_value_bytes_small.
Qed.

Lemma read64_zero m a :
  slot a -> (forall x, a <= x < a + 8 -> m !! x = Some 0) -> read64 m a = Some 0.
Proof.
  intros Ha Hz. apply read64_holds; [done|done|]. intros j c Hj.
  change (le_bytes 8 0) with (replicate 8 0) in Hj. apply lookup_replicate in Hj as [-> Hj].
  apply Hz. lia.
Qed.

Lemma read64_agree m m' a :
  slot a -> (forall x, a <= x < a + 8 -> m' !! x = m !! x) -> read64 m' a = read64 m a.
Proof.
  intros (Ha & _ & Hb) Hm. unfold read64. by rewrite (read_bytes_agree m m') by (done || lia).
Qed.

Lemma read64_shift m m' a a' :
  slot a -> slot a' -> (forall i, 0 <= i < 8 -> m' !! (a' + i) = m !! (a + i)) ->
  read64 m' a' = read64 m a.
Proof.
  intros (Ha & _ & Hb) (Ha' & _ & Hb') Hm. unfold read64.
  by rewrite (read_bytes_shift m m' a a') by (done || lia).
Qed.

(** [m'] is [m] with changes only to the slots [P]: every other slot reads as
    before, every byte outside them is as before, and nothing is mapped or
    unmapped. *)
Record slot_update (m m' : mem) (P : Z -> Prop) : Prop := {
  su_read : forall a, slot a -> ~ P a -> read64 m' a = read64 m a;
  su_dom : forall x, is_Some (m' !! x) <-> is_Some (m !! x);
  su_byte : forall x, (forall a, P a -> ~ (a <= x < a + 8)) -> m' !! x = m !! x
}.

Lemma slot_update_refl m P : slot_update m m P.
Proof. by split. Qed.

Lemma slot_update_trans m1 m2 m3 P Q :
  slot_update m1 m2 P -> slot_update m2 m3 Q -> slot_update m1 m3 (fun a => P a \/ Q a).
Proof.
  intros [R1 D1 B1] [R2 D2 B2]. split.
  - intros a Ha Hn. by rewrite R2, R1 by tauto.
  - intros x. by rewrite D2, D1.
  - intros x Hx. by rewrite B2, B1 by auto.
Qed.

Lemma slot_update_weaken m m' (P Q : Z -> Prop) :
  (forall a, P a -> Q a) -> slot_update m m' P -> slot_update m m' Q.
Proof. intros HPQ [R D B]. split; [intros a Ha Hn; apply R; auto|done|intros x Hx; apply B; auto]. Qed.

Lemma store64_slot m a v :
  slot a -> mapped m a 8 -> 0 <= v < 2 ^ 64 ->
  exists m', store 8 a v m = Done (tt, m') /\ read64 m' a = Some v /\
    slot_update m m' (fun b => b = a).
Proof.
  intros Ha Hm Hv. destruct (store_spec 8 a v m) as (m' & E & Hout & Hh & Hd);
    [apply Ha|destruct Ha; lia|done|].
  exists m'. split_and!; [done|by apply read64_holds|].
  split; [|done|intros x Hx; apply Hout; by apply Hx].
  intros b Hb Hne. apply read64_agree; [done|].
  intros x Hx. apply Hout. destruct Ha as (? & ? & ?), Hb as (? & ? & ?).
  pose proof (Z.div_mod a 8). pose proof (Z.div_mod b 8). lia.
Qed.

(** ** Pages of 512 entries *)

Definition page (p : Z) : Prop := 0 <= p /\ p mod 4096 = 0 /\ p + 4096 <= 2 ^ 52.

#[export] Instance page_dec p : Decision (page p).
Proof. unfold page. apply _. Defined.

Lemma page_slot p i : page p -> 0 <= i < 512 -> slot (p + 8 * i).
Proof.
  intros (H0 & Ha & Hb) Hi. split_and!; [lia| |lia].
  rewrite (Z.div_mod p 4096), Ha by lia.
  replace (4096 * (p / 4096) + 0 + 8 * i) with ((512 * (p / 4096) + i) * 8) by lia.
  apply Z.mod_mul. lia.
Qed.

Lemma page_slot_inj p q i j :
  page p -> page q -> 0 <= i < 512 -> 0 <= j < 512 ->
  p + 8 * i = q + 8 * j -> p = q /\ i = j.
Proof.
  intros (? & Hp & _) (? & Hq & _) Hi Hj E.
  pose proof (Z.div_mod p 4096 ltac:(lia)). pose proof (Z.div_mod q 4096 ltac:(lia)). lia.
Qed.

(** [page->entry[i] = v] *)
Definition set_entry (p i v : Z) : M mem unit := store 8 (p + 8 * i) v.

Lemma set_entry_spec m p i v :
  page p -> 0 <= i < 512 -> mapped m p 4096 -> 0 <= v < 2 ^ 64 ->
  exists m', set_entry p i v m = Done (tt, m') /\ read64 m' (p + 8 * i) = Some v /\
    slot_update m m' (fun b => b = p + 8 * i).
Proof.
  intros Hp Hi Hm Hv. apply store64_slot; [by apply page_slot| |done].
  eapply mapped_sub; [| |exact Hm]; lia.
Qed.

(** ** Sequences of entry stores *)

Record entry_store := mkEntry { e_page : Z; e_index : Z; e_value : Z }.

Definition e_addr (e : entry_store) : Z := e_page e + 8 * e_index e.

Fixpoint set_entries (l : list entry_store) : M mem unit :=
  match l with
  | [] => mret tt
  | e :: l' => set_entry (e_page e) (e_index e) (e_value e);; set_entries l'
  end.

Definition entry_ok (m : mem) (e : entry_store) : Prop :=
  page (e_page e) /\ 0 <= e_index e < 512 /\ mapped m (e_page e) 4096 /\
  0 <= e_value e < 2 ^ 64.

Lemma entry_ok_agree m m' P e : slot_update m m' P -> entry_ok m e -> entry_ok m' e.
Proof.
  intros [_ HD _] (Hp & Hi & Hm & Hv). split_and!; [apply Hp..|lia|lia| |lia|lia].
  by apply (mapped_agree m).
Qed.

Lemma set_entries_spec l m :
  Forall (entry_ok m) l -> NoDup (e_addr <$> l) ->
  exists m', set_entries l m = Done (tt, m') /\
    (forall e, e ∈ l -> read64 m' (e_addr e) = Some (e_value e)) /\
    slot_update m m' (fun a => a ∈ e_addr <$> l).
Proof.
  revert m. induction l as [|e l IH]; intros m Hok Hnd; cbn [set_entries].
  { exists m. split_and!; [done|by intros e ?%elem_of_nil|apply slot_update_refl]. }
  apply Forall_cons in Hok as [(Hp & Hi & Hm & Hv) Hok].
  rewrite fmap_cons in Hnd. apply NoDup_cons in Hnd as [Hni Hnd].
  destruct (set_entry_spec m (e_page e) (e_index e) (e_value e)) as (m1 & E1 & R1 & U1);
    [done..|].
  rewrite (bind_done _ _ _ _ _ E1).
  destruct (IH m1) as (m' & E2 & R2 & U2); [|done|].
  { eapply Forall_impl; [exact Hok|]. intros e'. by apply entry_ok_agree with (1 := U1). }
  exists m'. split_and!; [done| |].
  - intros e' [->|He]%elem_of_cons; [|by apply R2].
    rewrite <- R1. apply U2; [by apply page_slot|done].
  - eapply slot_update_weaken, slot_update_trans; [|exact U1|exact U2].
    intros a Ha. by rewrite fmap_cons, elem_of_cons.
Qed.

(** Entries of distinct pages, or distinct entries of a page. *)
Lemma entry_addr_ne p q i j :
  page p -> page q -> 0 <= i < 512 -> 0 <= j < 512 -> p <> q \/ i <> j ->
  p + 8 * i <> q + 8 * j.
Proof. intros Hp Hq Hi Hj Hne E. apply page_slot_inj in E; tauto. Qed.

(** ** Entries that point to a table or map a 2 MB page *)

Lemma table_entry_flags p f :
  page p -> f = 7 ->
  pte_base 12 (p + f) = p /\ pte_present (p + f) = true /\ pte_write (p + f) = true /\
  pte_user (p + f) = true /\ pte_huge (p + f) = false.
Proof.
  intros (H0 & Hm & Hb) ->. unfold pte_present, pte_write, pte_user, pte_huge.
  rewrite !(flag_bit 12) by (done || lia).
  rewrite pte_base_flags by (done || lia). done.
Qed.

Lemma huge_entry_flags b :
  0 <= b -> b mod k2MB = 0 -> b + k2MB <= 2 ^ 52 ->
  pte_base 21 (b + 0x87) = b /\ pte_present (b + 0x87) = true /\
  pte_write (b + 0x87) = true /\ pte_user (b + 0x87) = true /\ pte_huge (b + 0x87) = true.
Proof.
  intros H0 Hm Hb. unfold pte_present, pte_write, pte_user, pte_huge.
  rewrite !(flag_bit 21) by (done || lia).
  rewrite pte_base_flags by (done || lia). done.
Qed.

Lemma entry_set {read : Z -> option Z} p i v :
  read (p + 8 * i) = Some v -> pte_present v = true -> entry read p i = Some v.
Proof. intros E Hp. unfold entry. rewrite E. simpl. by rewrite Hp. Qed.

Lemma entry_zero {read : Z -> option Z} p i : read (p + 8 * i) = Some 0 -> entry read p i = None.
Proof. intros E. unfold entry. by rewrite E. Qed.

Lemma va_split va :
  0 <= va < k512GB ->
  pml4_index va = 0 /\ 0 <= pdpt_index va < 512 /\ 0 <= pd_index va < 512 /\
  0 <= va mod k2MB < k2MB /\ va = pdpt_index va * k1GB + pd_index va * k2MB + va mod k2MB.
Proof.
  intros Hva. unfold pml4_index, pdpt_index, pd_index.
  rewrite (Z.mod_small va k512GB), (Z.mod_small va k256TB), (Z.div_small va k512GB)
    by (unfold k256TB, k512GB in *; lia).
  pose proof (Z.div_mod va k1GB ltac:(done)). pose proof (Z.mod_pos_bound va k1GB ltac:(done)).
  pose proof (Z.div_mod (va mod k1GB) k2MB ltac:(done)).
  pose proof (Z.mod_pos_bound (va mod k1GB) k2MB ltac:(done)).
  assert (va mod k2MB = (va mod k1GB) mod k2MB) as ->.
  { symmetry. apply Z.mod_mod_divide. by exists 512. }
  unfold k512GB, k1GB, k2MB in *. lia.
Qed.
