(* ===== verification/Loader16.v ===== *)
(** * Loader16: the trampoline loader, hakase/loader16.cc

    [Init] copies the real-mode start-up code to the trampoline page, patches
    the friend's entry address into it and builds the page tables the friend
    cores boot with ([InitPageTables]).  The theorems state what the processor
    sees with these tables: [Paging.walk] on the physical memory that [Init]
    leaves.

    The process keeps its own memory [vm]; [phys] holds the physical bytes of
    the trampoline.  [mmap] of /dev/friend_bootmem0x70000 brings these bytes to
    the address the kernel chooses and [munmap] takes them back: between the two
    calls nothing but this process touches them, because no friend core runs
    yet. *)

From S2P Require Import Prelude Memory Paging.
Import Layout.

(** ** The process and its system calls *)

Record proc := mkProc {
  vm : mem;              (* memory of the process *)
  phys : mem;            (* physical bytes of the trampoline *)
  fds : list Z;          (* open file descriptors *)
  stderr : list string   (* what perror printed, latest first *)
}.

Definition lift_vm {A} (c : M mem A) : M proc A := fun p =>
  match c (vm p) with
  | Done (a, m) => Done (a, mkProc m (phys p) (fds p) (stderr p))
  | Fault f => Fault f
  end.

Fixpoint unmap (m : mem) (a : Z) (n : nat) : mem :=
  match n with
  | O => m
  | S n' => unmap (delete a m) (a + 1) n'
  end.

Section Syscalls.
(** What the kernel answers: the descriptor [open] returns for a path and the
    address [mmap] places the mapping at, [None] for MAP_FAILED. *)
Context (open_ret : string -> Z) (mmap_ret : option Z).

Definition open (path : string) : M proc Z := fun p =>
  let fd := open_ret path in
  Done (fd, if fd <? 0 then p else mkProc (vm p) (phys p) (fd :: fds p) (stderr p)).

Definition close (fd : Z) : M proc unit := fun p =>
  Done (tt, mkProc (vm p) (phys p) (list_difference (fds p) [fd]) (stderr p)).

Definition perror (s : string) : M proc unit := fun p =>
  Done (tt, mkProc (vm p) (phys p) (fds p) (s :: stderr p)).

(** A shared mapping of [size] bytes of the boot memory device at offset 0,
    whose first byte is the physical byte at TRAMPOLINE_ADDR. *)
Definition mmap_bootmem (size : Z) : M proc (option Z) := fun p =>
  match mmap_ret with
  | None => Done (None, p)
  | Some b =>
      match read_bytes (phys p) TRAMPOLINE_ADDR (Z.to_nat size) with
      | None => Fault SegFault
      | Some bs => Done (Some b, mkProc (blit (vm p) b bs) (phys p) (fds p) (stderr p))
      end
  end.

Definition munmap_bootmem (b size : Z) : M proc unit := fun p =>
  match read_bytes (vm p) b (Z.to_nat size) with
  | None => Fault SegFault
  | Some bs =>
      Done (tt, mkProc (unmap (vm p) b (Z.to_nat size)) (blit (phys p) TRAMPOLINE_ADDR bs)
                  (fds p) (stderr p))
  end.

(** ** Loader16 *)

(** Addresses of [SHARED_SYMBOL(__toshokan_pdpt)] and its two siblings, fixed by
    the friend's link. *)
Context (pdpt pd1 pd2 : Z).

Definition kPageTableEntryFlags : Z :=
  Z.lor (Z.lor (Z.shiftl 1 0) (Z.shiftl 1 1)) (Z.shiftl 1 2).
Definition kHugePageTableEntryFlags : Z :=
  Z.lor (Z.lor (Z.lor (Z.shiftl 1 0) (Z.shiftl 1 1)) (Z.shiftl 1 2)) (Z.shiftl 1 7).

(** [for (addr; addr < DEPLOY_PHYS_ADDR_END; addr += k2MB)] *)
Fixpoint map_friend_region (fuel : nat) (addr : Z) : M mem unit :=
  match fuel with
  | O => fail OutOfFuel
  | S fuel' =>
      if addr <? DEPLOY_PHYS_ADDR_END then
        set_entry pd2 ((addr mod k1GB) / k2MB) (Z.lor addr kHugePageTableEntryFlags);;
        map_friend_region fuel' (u64 (addr + k2MB))
      else mret tt
  end.

(** One turn per 2 MB page and the turn that leaves the loop. *)
Definition map_fuel : nat := Z.to_nat (DEPLOY_PHYS_MEM_SIZE / k2MB + 1).

Definition InitPageTables (pml4t : Z) : M mem unit :=
  set_entry pml4t ((DEPLOY_PHYS_ADDR_START mod k256TB) / k512GB)
    (Z.lor pdpt kPageTableEntryFlags);;
  set_entry pdpt ((TRAMPOLINE_ADDR mod k512GB) / k1GB) (Z.lor pd1 kPageTableEntryFlags);;
  set_entry pdpt ((DEPLOY_PHYS_ADDR_START mod k512GB) / k1GB)
    (Z.lor pd2 kPageTableEntryFlags);;
  let trampoline_aligned_addr := TRAMPOLINE_ADDR / k2MB * k2MB in
  set_entry pd1 ((trampoline_aligned_addr mod k1GB) / k2MB)
    (Z.lor trampoline_aligned_addr kHugePageTableEntryFlags);;
  map_friend_region map_fuel DEPLOY_PHYS_ADDR_START.

(** [bin_start] and [bin_size] stand for the symbols of the linked trampoline
    binary. *)
Definition Init (bin_start bin_size entry : Z) : M proc Z :=
  if bin_size >? PAGE_SIZE then mret (-1)
  else
    bootmem_fd ← open ("/dev/friend_bootmem" ++ TRAMPOLINE_ADDR_STR)%string;
    if bootmem_fd <? 0 then perror "Open call failed";; mret (-1)
    else
      bootmem ← mmap_bootmem TRAMPOLINE_SIZE;
      match bootmem with
      | None => perror "mmap operation failed...";; mret (-1)
      | Some bootmem =>
          close bootmem_fd;;
          lift_vm (memcpy bootmem bin_start bin_size);;
          lift_vm (store 8 (bootmem + 8 * 1) entry);;
          lift_vm (InitPageTables (bootmem + PAGE_SIZE));;
          munmap_bootmem bootmem TRAMPOLINE_SIZE;;
          mret 0
      end.

(** ** What InitPageTables writes *)

(** The four tables are distinct pages of mapped memory. *)
Record tables_ok (m : mem) (pml4t : Z) : Prop := {
  tok_pages : page pml4t /\ page pdpt /\ page pd1 /\ page pd2;
  tok_distinct : NoDup [pml4t; pdpt; pd1; pd2];
  tok_mapped : forall p, p ∈ [pml4t; pdpt; pd1; pd2] -> mapped m p 4096
}.

(** The entries [InitPageTables] sets, by address, with their values. *)
Definition table_entries (pml4t a v : Z) : Prop :=
  (a = pml4t /\ v = pdpt + 7) \/ (a = pdpt /\ v = pd1 + 7) \/
  (a = pdpt + 8 * 4 /\ v = pd2 + 7) \/ (a = pd1 /\ v = 0x87) \/
  (exists j, 0 <= j < 512 /\ a = pd2 + 8 * j /\
     v = DEPLOY_PHYS_ADDR_START + j * k2MB + 0x87).

Lemma table_flags p : page p -> Z.lor p kPageTableEntryFlags = p + 7.
Proof. intros (_ & Hp & _). apply (lor_flags 12); [lia|exact Hp|done]. Qed.

Lemma friend_entry j :
  0 <= j < 512 ->
  Z.lor (DEPLOY_PHYS_ADDR_START + j * k2MB) kHugePageTableEntryFlags =
    DEPLOY_PHYS_ADDR_START + j * k2MB + 0x87 /\
  ((DEPLOY_PHYS_ADDR_START + j * k2MB) mod k1GB) / k2MB = j.
Proof.
  intros Hj. split.
  - apply (lor_flags 21); [lia| |done].
    replace (DEPLOY_PHYS_ADDR_START + j * k2MB) with ((2048 + j) * 2 ^ 21)
      by (unfold DEPLOY_PHYS_ADDR_START, k2MB; lia).
    by apply Z.mod_mul.
  - replace (DEPLOY_PHYS_ADDR_START + j * k2MB) with (j * k2MB + 4 * k1GB)
      by (unfold DEPLOY_PHYS_ADDR_START, k2MB, k1GB; lia).
    rewrite Z.mod_add, Z.mod_small by (unfold k1GB, k2MB; lia).
    apply Z.div_mul. done.
Qed.

(** The loop from page [j] on: it terminates and sets entries [j]..511. *)
Lemma map_friend_region_spec n j m :
  page pd2 -> mapped m pd2 4096 -> Z.of_nat n = 512 - j -> 0 <= j <= 512 ->
  exists m', map_friend_region (S n) (DEPLOY_PHYS_ADDR_START + j * k2MB) m = Done (tt, m') /\
    (forall i, j <= i < 512 ->
       read64 m' (pd2 + 8 * i) = Some (DEPLOY_PHYS_ADDR_START + i * k2MB + 0x87)) /\
    slot_update m m' (fun a => exists i, j <= i < 512 /\ a = pd2 + 8 * i).
Proof.
  intros Hp. revert j m. induction n as [|n IH]; intros j m Hm Hn Hj.
  - assert (j = 512) as -> by lia. exists m. cbn [map_friend_region].
    rewrite (proj2 (Z.ltb_ge _ _)) by (unfold DEPLOY_PHYS_ADDR_END, DEPLOY_PHYS_ADDR_START, k2MB; lia).
    split_and!; [done|lia|apply slot_update_refl].
  - remember (S n) as n1. cbn [map_friend_region]. subst n1.
    rewrite (proj2 (Z.ltb_lt _ _)) by (unfold DEPLOY_PHYS_ADDR_END, DEPLOY_PHYS_ADDR_START, k2MB; lia).
    destruct (friend_entry j) as [-> ->]; [lia|].
    destruct (set_entry_spec m pd2 j (DEPLOY_PHYS_ADDR_START + j * k2MB + 0x87))
      as (m1 & E1 & R1 & U1); [done|lia|done|unfold DEPLOY_PHYS_ADDR_START, k2MB; lia|].
    rewrite (bind_done _ _ _ _ _ E1).
    replace (u64 (DEPLOY_PHYS_ADDR_START + j * k2MB + k2MB))
      with (DEPLOY_PHYS_ADDR_START + (j + 1) * k2MB)
      by (rewrite u64_small; unfold DEPLOY_PHYS_ADDR_START, k2MB; lia).
    destruct (IH (j + 1) m1) as (m' & E2 & R2 & U2);
      [eapply mapped_agree; [apply U1|done]|lia|lia|].
    exists m'. split_and!; [done| |].
    + intros i Hi. destruct (decide (i = j)) as [->|]; [|apply R2; lia].
      rewrite <- R1. apply U2; [apply page_slot; [done|lia]|].
      intros (i & Hi' & E). apply page_slot_inj in E as [_ E]; (done || lia).
    + eapply slot_update_weaken, slot_update_trans; [|exact U1|exact U2].
      intros a [->|(i & Hi & ->)]; [exists j|exists i]; split; lia || done.
Qed.

Definition upper_entries (pml4t : Z) : list entry_store :=
  [ mkEntry pml4t 0 (pdpt + 7); mkEntry pdpt 0 (pd1 + 7);
    mkEntry pdpt 4 (pd2 + 7); mkEntry pd1 0 0x87 ].

Lemma tables_ne pml4t :
  NoDup [pml4t; pdpt; pd1; pd2] ->
  pml4t <> pdpt /\ pml4t <> pd1 /\ pml4t <> pd2 /\ pdpt <> pd1 /\ pdpt <> pd2 /\ pd1 <> pd2.
Proof. rewrite !NoDup_cons, !elem_of_cons, elem_of_nil. tauto. Qed.

Lemma upper_entries_ok m pml4t :
  tables_ok m pml4t ->
  Forall (entry_ok m) (upper_entries pml4t) /\ NoDup (e_addr <$> upper_entries pml4t) /\
  forall e j, e ∈ upper_entries pml4t -> 0 <= j < 512 -> e_addr e <> pd2 + 8 * j.
Proof.
  intros [(P4 & P3 & P1 & P2) Hd Hm].
  apply tables_ne in Hd as (N1 & N2 & N3 & N4 & N5 & N6).
  assert (forall p i v, page p -> p ∈ [pml4t; pdpt; pd1; pd2] -> 0 <= i < 512 ->
    0 <= v < 2 ^ 52 + 7 -> entry_ok m (mkEntry p i v)) as Hok.
  { intros p i v Hp Hin Hi Hv. split_and!; [apply Hp..|apply Hi|apply Hi|by apply Hm| |];
      cbn [e_value]; lia. }
  assert (forall p, page p -> 0 <= p + 7 < 2 ^ 52 + 7) as Hv by (intros p (? & ? & ?); lia).
  split_and!.
  - unfold upper_entries.
    repeat (apply Forall_cons; split); [apply Hok..|apply Forall_nil_2];
      rewrite ?elem_of_cons; auto; lia.
  - unfold upper_entries, e_addr. cbn [fmap list_fmap map e_page e_index].
    repeat (apply NoDup_cons; split); [..|apply NoDup_nil_2];
      rewrite ?not_elem_of_cons; split_and?; try apply not_elem_of_nil;
      apply entry_addr_ne; auto; lia.
  - intros e j He Hj. unfold upper_entries in He. rewrite !elem_of_cons, elem_of_nil in He.
    destruct He as [-> |[-> |[-> |[-> |[]]]]]; unfold e_addr; cbn [e_page e_index];
      apply entry_addr_ne; auto; lia.
Qed.

Lemma InitPageTables_eq pml4t m :
  page pdpt -> page pd1 -> page pd2 ->
  InitPageTables pml4t m =
    (set_entries (upper_entries pml4t);; map_friend_region map_fuel DEPLOY_PHYS_ADDR_START) m.
Proof.
  intros P3 P1 P2. unfold InitPageTables. rewrite !table_flags by done.
  cbn [upper_entries set_entries e_page e_index e_value].
  change (DEPLOY_PHYS_ADDR_START mod k256TB / k512GB) with 0.
  change (TRAMPOLINE_ADDR mod k512GB / k1GB) with 0.
  change (DEPLOY_PHYS_ADDR_START mod k512GB / k1GB) with 4.
  change (TRAMPOLINE_ADDR / k2MB * k2MB) with 0.
  change (0 mod k1GB / k2MB) with 0.
  change (Z.lor 0 kHugePageTableEntryFlags) with 0x87.
  unfold mbind, M_bind.
  do 4 (match goal with
        | |- context [set_entry ?p ?i ?v ?m] => destruct (set_entry p i v m) as [[[] ?]|]
        end; [|reflexivity]).
  reflexivity.
Qed.

Lemma table_entries_upper pml4t a v :
  table_entries pml4t a v <->
  (exists e, e ∈ upper_entries pml4t /\ e_addr e = a /\ e_value e = v) \/
  (exists j, 0 <= j < 512 /\ a = pd2 + 8 * j /\ v = DEPLOY_PHYS_ADDR_START + j * k2MB + 0x87).
Proof.
  unfold table_entries, upper_entries. split.
  - intros [[-> ->]|[[-> ->]|[[-> ->]|[[-> ->]|H]]]]; [left..|by right];
      [exists (mkEntry pml4t 0 (pdpt + 7))|exists (mkEntry pdpt 0 (pd1 + 7))
      |exists (mkEntry pdpt 4 (pd2 + 7))|exists (mkEntry pd1 0 0x87)];
      rewrite !elem_of_cons; unfold e_addr; cbn [e_page e_index e_value];
      (split; [by auto|lia]).
  - intros [(e & He & <- & <-)|H]; [|by auto]. rewrite !elem_of_cons, elem_of_nil in He.
    destruct He as [-> |[-> |[-> |[-> |[]]]]]; unfold e_addr; cbn [e_page e_index e_value];
      [left|right; left|do 2 right; left|do 3 right; left]; split; lia.
Qed.

Lemma InitPageTables_spec m pml4t :
  tables_ok m pml4t ->
  exists m', InitPageTables pml4t m = Done (tt, m') /\
    (forall a v, table_entries pml4t a v -> read64 m' a = Some v) /\
    slot_update m m' (fun a => exists v, table_entries pml4t a v).
Proof.
  intros Hok. pose proof Hok as [(P4 & P3 & P1 & P2) _ Hm].
  destruct (upper_entries_ok m pml4t Hok) as (He & Hnd & Hne).
  rewrite InitPageTables_eq by done.
  destruct (set_entries_spec _ _ He Hnd) as (m1 & E1 & R1 & U1).
  rewrite (bind_done _ _ _ _ _ E1).
  destruct (map_friend_region_spec 512 0 m1) as (m2 & E2 & R2 & U2);
    [done|eapply mapped_agree, Hm; [apply U1|set_solver]|done|lia|].
  exists m2. split_and!; [exact E2| |].
  - intros a v [(e & Hin & <- & <-)|(j & Hj & -> & ->)]%table_entries_upper; [|apply R2; lia].
    rewrite <- (R1 e Hin). apply U2.
    + rewrite Forall_forall in He. destruct (He e Hin) as (? & ? & _). by apply page_slot.
    + intros (j & Hj & E). by apply Hne in E.
  - eapply slot_update_weaken, slot_update_trans; [|exact U1|exact U2].
    intros a [(e & -> & Hin)%list_elem_of_fmap|(j & Hj & ->)];
      eexists; apply table_entries_upper; [left|right]; eauto.
Qed.

(** ** The translation the tables define *)

(** What the friend cores can reach, before they change the tables: the first
    2 MB and the friend region, identity mapped by 2 MB pages, writable and user
    accessible. *)
Definition boot_translation (va : Z) : option translation :=
  if decide (va < k2MB \/ in_friend_region va) then Some (mkTranslation va k2MB true true)
  else None.

(** The tables as physical reads see them: the entries set, the others zero. *)
Record boot_tables (read : Z -> option Z) : Prop := {
  bt_set : forall a v, table_entries INITIAL_PML4T a v -> read a = Some v;
  bt_zero3 : forall i, 0 <= i < 512 -> i <> 0 -> i <> 4 -> read (pdpt + 8 * i) = Some 0;
  bt_zero1 : forall i, 0 <= i < 512 -> i <> 0 -> read (pd1 + 8 * i) = Some 0
}.

(** They depend on four pages only. *)
Lemma boot_tables_agree read read' :
  read' INITIAL_PML4T = read INITIAL_PML4T ->
  (forall q i, q ∈ [pdpt; pd1; pd2] -> 0 <= i < 512 -> read' (q + 8 * i) = read (q + 8 * i)) ->
  boot_tables read -> boot_tables read'.
Proof.
  intros H4 Hq [Hs H3 H1]. split.
  - intros a v He. rewrite <- (Hs a v He).
    destruct He as [[-> _]|[[-> _]|[[-> _]|[[-> _]|(j & Hj & -> & _)]]]]; [done|..].
    + rewrite <- (Z.add_0_r pdpt). change 0 with (8 * 0) at 1. apply Hq; [set_solver|lia].
    + apply Hq; [set_solver|lia].
    + rewrite <- (Z.add_0_r pd1). change 0 with (8 * 0) at 1. apply Hq; [set_solver|lia].
    + apply Hq; [set_solver|lia].
  - intros i Hi N0 N4. rewrite Hq by (done || set_solver). by apply H3.
  - intros i Hi N0. rewrite Hq by (done || set_solver). by apply H1.
Qed.

Section Translation.
Context (read : Z -> option Z).
Hypothesis Hp3 : page pdpt.
Hypothesis Hp1 : page pd1.
Hypothesis Hp2 : page pd2.
Hypothesis Htables : boot_tables read.
Let Hset := bt_set _ Htables.
Let Hzero3 := bt_zero3 _ Htables.
Let Hzero1 := bt_zero1 _ Htables.

Lemma walk_pdpt va :
  pml4_index va = 0 ->
  entry read (pte_base 12 INITIAL_PML4T) (pml4_index va) = Some (pdpt + 7).
Proof.
  intros ->. apply entry_set; [apply Hset; by left|].
  by apply (table_entry_flags pdpt 7).
Qed.

Lemma walk_none va :
  pml4_index va = 0 -> read (pdpt + 8 * pdpt_index va) = Some 0 ->
  walk read INITIAL_PML4T va = None.
Proof.
  intros H4 H3. unfold walk. rewrite walk_pdpt by done. cbn [mbind option_bind].
  destruct (table_entry_flags pdpt 7) as (-> & _); [done..|]. by rewrite entry_zero.
Qed.

Lemma walk_pd va pd :
  pml4_index va = 0 -> page pd -> read (pdpt + 8 * pdpt_index va) = Some (pd + 7) ->
  walk read INITIAL_PML4T va =
    e2 ← entry read pd (pd_index va);
    if pte_huge e2 then
      Some (mkTranslation (pte_base 21 e2 + va mod k2MB) k2MB (pte_write e2) (pte_user e2))
    else
      e1 ← entry read (pte_base 12 e2) (pt_index va);
      Some (mkTranslation (pte_base 12 e1 + va mod k4KB) k4KB
              (pte_write e2 && pte_write e1) (pte_user e2 && pte_user e1)).
Proof.
  intros H4 Hpd H3. unfold walk. rewrite walk_pdpt by done. cbn [mbind option_bind].
  destruct (table_entry_flags pdpt 7) as (-> & _ & -> & -> & _); [done..|].
  destruct (table_entry_flags pd 7) as (B & P & W & U & G); [done..|].
  rewrite (entry_set _ _ _ H3 P). cbn [mbind option_bind]. by rewrite G, B, W, U.
Qed.

Lemma walk_huge va pd b :
  pml4_index va = 0 -> page pd -> read (pdpt + 8 * pdpt_index va) = Some (pd + 7) ->
  read (pd + 8 * pd_index va) = Some (b + 0x87) ->
  0 <= b -> b mod k2MB = 0 -> b + k2MB <= 2 ^ 52 ->
  walk read INITIAL_PML4T va = Some (mkTranslation (b + va mod k2MB) k2MB true true).
Proof.
  intros H4 Hpd H3 H2 Hb0 Hb Hb1. rewrite (walk_pd va pd) by done.
  destruct (huge_entry_flags b) as (B & P & W & U & G); [done..|].
  rewrite (entry_set _ _ _ H2 P). cbn [mbind option_bind]. by rewrite G, B, W, U.
Qed.

Lemma walk_boot_tables va :
  0 <= va < k512GB -> walk read INITIAL_PML4T va = boot_translation va.
Proof.
  intros Hva. destruct (va_split va Hva) as (H4 & Hi & Hj & Hr & E). unfold boot_translation.
  unfold in_friend_region, DEPLOY_PHYS_ADDR_START, DEPLOY_PHYS_ADDR_END.
  destruct (decide (pdpt_index va = 0)) as [Ei|Hi0];
    [|destruct (decide (pdpt_index va = 4)) as [Ei|Hi4]].
  - assert (read (pdpt + 8 * pdpt_index va) = Some (pd1 + 7)) as H3.
    { apply Hset. right; left. split; [lia|done]. }
    destruct (decide (pd_index va = 0)) as [Ej|Hj0].
    + assert (read (pd1 + 8 * pd_index va) = Some (0 + 0x87)) as H2.
      { apply Hset. do 3 right; left. split; [lia|done]. }
      rewrite (walk_huge va pd1 0) by done.
      rewrite decide_True by (unfold k1GB, k2MB in *; lia). do 2 f_equal. unfold k1GB, k2MB in *. lia.
    + rewrite (walk_pd va pd1), entry_zero by (done || by apply Hzero1).
      by rewrite decide_False by (unfold k1GB, k2MB in *; lia).
  - rewrite (walk_huge va pd2 (DEPLOY_PHYS_ADDR_START + pd_index va * k2MB)); [|done..| | | | |].
    + unfold DEPLOY_PHYS_ADDR_START. rewrite decide_True by (unfold k1GB, k2MB in *; lia).
      do 2 f_equal. unfold k1GB, k2MB in *. lia.
    + apply Hset. do 2 right; left. split; [lia|done].
    + apply Hset. do 4 right. eauto.
    + unfold DEPLOY_PHYS_ADDR_START, k2MB. lia.
    + change DEPLOY_PHYS_ADDR_START with (2048 * k2MB). rewrite <- Z.mul_add_distr_r.
      by apply Z.mod_mul.
    + unfold DEPLOY_PHYS_ADDR_START, k2MB. lia.
  - rewrite walk_none by (done || by apply Hzero3).
    by rewrite decide_False by (unfold k1GB, k2MB in *; lia).
Qed.
End Translation.

(** [InitPageTables] writes entry 0 of the PML4 only: the others, for the addresses from
    512 GB on, are what the page [m] held before, and an address whose entry was not
    present is not mapped. *)
Definition upper_kept (m : mem) (read : Z -> option Z) : Prop :=
  (forall i, 1 <= i < 512 -> read (INITIAL_PML4T + 8 * i) = read64 m (INITIAL_PML4T + 8 * i)) /\
  (forall va w, pml4_index va <> 0 -> read64 m (INITIAL_PML4T + 8 * pml4_index va) = Some w ->
     pte_present w = false -> walk read INITIAL_PML4T va = None).

Lemma upper_keeps m read :
  (forall i, 1 <= i < 512 -> read (INITIAL_PML4T + 8 * i) = read64 m (INITIAL_PML4T + 8 * i)) ->
  upper_kept m read.
Proof.
  intros Hi. split; [done|]. intros va w Hne Hw Hp.
  assert (0 <= pml4_index va < 512) as Hb.
  { unfold pml4_index. pose proof (Z.mod_pos_bound va k256TB ltac:(done)).
    split; [apply Z.div_pos; [lia|done]|apply Z.div_lt_upper_bound; [done|]]. unfold k256TB, k512GB in *. lia. }
  unfold walk, Paging.entry. change (pte_base 12 INITIAL_PML4T) with INITIAL_PML4T.
  rewrite Hi, Hw by lia. cbn [mbind option_bind]. by rewrite Hp.
Qed.

(** ** Init *)

(** Physical memory as the friend cores see it after [Init]: the trampoline, and
    the friend region, which the process maps at its physical addresses. *)
Definition boot_read (p : proc) (a : Z) : option Z :=
  if decide (in_trampoline a) then read64 (phys p) a
  else if decide (in_friend_region a) then read64 (vm p) a
  else None.

Lemma unmap_lookup m a n x :
  unmap m a n !! x = if decide (a <= x < a + Z.of_nat n) then None else m !! x.
Proof.
  revert m a. induction n as [|n IH]; intros m a; cbn [unmap].
  { by rewrite decide_False by lia. }
  rewrite IH. destruct (decide (x = a)) as [->|Hx].
  - rewrite decide_False by lia. rewrite decide_True by lia. apply lookup_delete_eq.
  - destruct (decide (a + 1 <= x < a + 1 + Z.of_nat n)); [by rewrite decide_True by lia|].
    rewrite decide_False by lia. by apply lookup_delete_ne.
Qed.

(** The situation [Init] runs in: the trampoline is present, the linked binary
    is in memory, the kernel maps the trampoline on a free page range and the
    three tables of the friend image are distinct zeroed pages of the friend
    region (its .bss, cleared when the image is deployed). *)
Record init_ok (p : proc) (b bin_start : Z) (bin : list Z) : Prop := {
  io_phys : mapped (phys p) TRAMPOLINE_ADDR TRAMPOLINE_SIZE;
  io_bin : holds (vm p) bin_start bin;
  io_bin_range : 0 <= bin_start /\ bin_start + Z.of_nat (length bin) <= 2 ^ 64;
  io_page : page b /\ page (b + PAGE_SIZE);
  io_free : forall x, b <= x < b + TRAMPOLINE_SIZE -> vm p !! x = None;
  io_tables : forall q, q ∈ [pdpt; pd1; pd2] ->
    page q /\ in_friend_region q /\ mapped (vm p) q 4096;
  io_distinct : NoDup [pdpt; pd1; pd2];
  io_zero : forall q i, q ∈ [pdpt; pd1] -> 0 <= i < 512 ->
    read64 (vm p) (q + 8 * i) = Some 0
}.

(** A mapped range of the process and the pages chosen by mmap are disjoint. *)
Lemma init_disjoint p b bin_start bin x :
  init_ok p b bin_start bin -> is_Some (vm p !! x) -> ~ (b <= x < b + TRAMPOLINE_SIZE).
Proof. intros H [v E] Hx. by rewrite (io_free _ _ _ _ H x Hx) in E. Qed.

Lemma free_file_disjoint (m : mem) b n a bs :
  0 <= n -> holds m a bs -> (forall x, b <= x < b + n -> m !! x = None) ->
  forall k, Z.of_nat (length bs) <= n -> 0 <= k <= Z.of_nat (length bs) ->
  b + k <= a \/ a + Z.of_nat (length bs) <= b.
Proof.
  intros Hn Hh Hf k Hl Hk. destruct (decide (b + k <= a)); [by left|].
  destruct (decide (a + Z.of_nat (length bs) <= b)); [by right|]. exfalso.
  pose proof (holds_mapped _ _ _ Hh) as Hm.
  destruct (decide (a <= b)) as [Hab|Hab].
  - destruct (Hm b) as [v E]; [lia|]. by rewrite Hf in E by lia.
  - destruct (Hm a) as [v E]; [lia|]. by rewrite Hf in E by lia.
Qed.

Section Run.
Context (p : proc) (b bin_start entry : Z) (bin : list Z).
Hypothesis Hok : init_ok p b bin_start bin.
Hypothesis Hbin : Z.of_nat (length bin) <= PAGE_SIZE.
Hypothesis Hentry : 0 <= entry < 2 ^ 64.

Definition image_byte (i : Z) : option Z := bin !! Z.to_nat i.

(** Memory with the trampoline mapped at [b]. *)
Record boot_mapped (m : mem) : Prop := {
  bm_in : mapped m b TRAMPOLINE_SIZE;
  bm_out : forall x, ~ (b <= x < b + TRAMPOLINE_SIZE) -> m !! x = vm p !! x
}.

Lemma mmap_boot_mapped bs :
  Z.of_nat (length bs) = TRAMPOLINE_SIZE -> boot_mapped (blit (vm p) b bs).
Proof.
  intros Hl. split; intros x Hx; rewrite blit_lookup, Hl.
  - rewrite decide_True by done. apply lookup_lt_is_Some_2. lia.
  - by rewrite decide_False by done.
Qed.

Lemma boot_mapped_dom m m' :
  (forall x, is_Some (m' !! x) <-> is_Some (m !! x)) ->
  (forall x, ~ (b <= x < b + TRAMPOLINE_SIZE) -> m' !! x = m !! x) ->
  boot_mapped m -> boot_mapped m'.
Proof.
  intros HD HB [Hi Ho]. split; [by apply (mapped_agree m)|].
  intros x Hx. by rewrite HB, Ho.
Qed.

(** The copy and the patch: the first page holds the binary with the entry
    address at offset 8, nothing else changes. *)
Lemma copy_image m :
  boot_mapped m ->
  exists m', (memcpy b bin_start (Z.of_nat (length bin));; store 8 (b + 8 * 1) entry) m
      = Done (tt, m') /\
    boot_mapped m' /\ read64 m' (b + 8) = Some entry /\
    (forall i, 0 <= i < Z.of_nat (length bin) -> ~ (8 <= i < 16) ->
       m' !! (b + i) = image_byte i) /\
    (forall x, b + PAGE_SIZE <= x -> m' !! x = m !! x).
Proof.
  intros Hm. destruct (io_page _ _ _ _ Hok) as [(Hb0 & Hba & Hb1) (_ & _ & Hb2)].
  destruct (io_bin_range _ _ _ _ Hok) as [Hs0 Hs1]. unfold PAGE_SIZE, TRAMPOLINE_SIZE in *.
  assert (holds m bin_start bin) as Hh.
  { intros i c Hi. pose proof (io_bin _ _ _ _ Hok i c Hi) as E. rewrite (bm_out _ Hm); [done|].
    eapply init_disjoint; [done|by eexists]. }
  assert (b + Z.of_nat (length bin) <= bin_start \/ bin_start + Z.of_nat (length bin) <= b) as Hd.
  { eapply (free_file_disjoint (vm p) b 0x2000); [lia|apply Hok|apply Hok|lia|lia]. }
  assert (forall k, 0 <= k <= 0x2000 -> mapped m b k) as Hmk.
  { intros k Hk. eapply mapped_sub, (bm_in _ Hm); unfold TRAMPOLINE_SIZE; lia. }
  assert (memcpy b bin_start (Z.of_nat (length bin)) m = Done (tt, blit m b bin)) as Ec.
  { rewrite <- (Z.add_0_r bin_start), (memcpy_file m bin_start bin b 0)
      by (done || lia || by apply Hmk; lia).
    do 3 f_equal. unfold slice. rewrite drop_0. apply take_ge. lia. }
  rewrite (bind_done _ _ _ _ _ Ec).
  assert (forall x, is_Some (blit m b bin !! x) <-> is_Some (m !! x)) as HD.
  { intros x. apply blit_dom, Hmk. lia. }
  assert (slot (b + 8 * 1)) as Hsl by (by apply page_slot; [split_and!|]).
  destruct (store64_slot (blit m b bin) (b + 8 * 1) entry) as (m' & E & R & U); [done| |done|].
  { eapply mapped_agree; [exact HD|].
    eapply mapped_sub, (bm_in _ Hm); unfold TRAMPOLINE_SIZE; lia. }
  exists m'. split_and!; [exact E| |exact R| |].
  - apply (boot_mapped_dom m); [|..|done].
    + intros x. rewrite (su_dom _ _ _ U). apply HD.
    + intros x Hx. rewrite (su_byte _ _ _ U), blit_lookup, decide_False;
        unfold TRAMPOLINE_SIZE in *; [done|lia|intros; lia].
  - intros i Hi H8. rewrite (su_byte _ _ _ U) by (intros; lia).
    rewrite blit_lookup, decide_True by lia. unfold image_byte. f_equal. lia.
  - intros x Hx. rewrite (su_byte _ _ _ U), blit_lookup, decide_False by (intros; lia). done.
Qed.

Lemma table_page q : q ∈ [pdpt; pd1; pd2] ->
  page q /\ in_friend_region q /\ mapped (vm p) q 4096 /\
  (q + 4096 <= b \/ b + TRAMPOLINE_SIZE <= q).
Proof.
  intros Hq. destruct (io_tables _ _ _ _ Hok q Hq) as (Hp & Hr & Hm).
  do 3 (split; [done|]).
  assert (q <> b /\ q <> b + 4096) as [N1 N2].
  { split; intros ->; eapply (init_disjoint _ _ _ _ _ Hok); [apply (Hm b)| |apply (Hm (b + 4096))|];
      unfold TRAMPOLINE_SIZE; lia. }
  destruct Hp as (_ & Hq1 & _), (io_page _ _ _ _ Hok) as [(_ & Hb1 & _) _].
  pose proof (Z.div_mod q 4096). pose proof (Z.div_mod b 4096). unfold TRAMPOLINE_SIZE. lia.
Qed.

Lemma init_tables_ok m : boot_mapped m -> tables_ok m (b + PAGE_SIZE).
Proof.
  intros Hm. destruct (table_page pdpt) as (P3 & _ & _ & D3); [set_solver|].
  destruct (table_page pd1) as (P1 & _ & _ & D1); [set_solver|].
  destruct (table_page pd2) as (P2 & _ & _ & D2); [set_solver|].
  pose proof (io_page _ _ _ _ Hok) as [_ P4]. unfold TRAMPOLINE_SIZE in *.
  split; [done| |].
  - apply NoDup_cons. split; [|apply Hok]. unfold PAGE_SIZE.
    rewrite !elem_of_cons, elem_of_nil. lia.
  - intros q [->|Hq]%elem_of_cons.
    + eapply mapped_sub, (bm_in _ Hm); unfold PAGE_SIZE, TRAMPOLINE_SIZE; lia.
    + destruct (table_page q Hq) as (_ & _ & Hmq & HD). intros x Hx.
      rewrite (bm_out _ Hm) by (unfold TRAMPOLINE_SIZE in *; lia). by apply Hmq.
Qed.

(** The entries [InitPageTables] sets lie in the trampoline's second page or in
    the three tables of the friend region. *)
Lemma table_entries_where a v :
  table_entries (b + PAGE_SIZE) a v ->
  a = b + PAGE_SIZE \/ exists q i, q ∈ [pdpt; pd1; pd2] /\ 0 <= i < 512 /\ a = q + 8 * i.
Proof.
  intros [[-> _]|[[-> _]|[[-> _]|[[-> _]|(j & Hj & -> & _)]]]]; [by left|right..];
    [exists pdpt, 0|exists pdpt, 4|exists pd1, 0|exists pd2, j];
    rewrite !elem_of_cons; split_and!; auto; lia.
Qed.

(** The state [munmap] leaves, from the memory [m] it unmaps. *)
Record unmapped_from (m : mem) (p' : proc) : Prop := {
  uf_phys : forall i, 0 <= i < TRAMPOLINE_SIZE -> phys p' !! (TRAMPOLINE_ADDR + i) = m !! (b + i);
  uf_free : forall x, b <= x < b + TRAMPOLINE_SIZE -> vm p' !! x = None;
  uf_vm : forall x, ~ (b <= x < b + TRAMPOLINE_SIZE) -> vm p' !! x = m !! x
}.

Lemma munmap_spec m ph fd er :
  mapped m b TRAMPOLINE_SIZE ->
  exists p', munmap_bootmem b TRAMPOLINE_SIZE (mkProc m ph fd er) = Done (tt, p') /\
    unmapped_from m p' /\ fds p' = fd /\ stderr p' = er.
Proof.
  intros Hm. unfold munmap_bootmem. cbn [vm phys fds stderr].
  destruct (io_page _ _ _ _ Hok) as [(Hb0 & _ & Hb1) _].
  destruct (read_bytes_mapped m b (Z.to_nat TRAMPOLINE_SIZE)) as [bs E];
    [done|unfold TRAMPOLINE_SIZE in *; lia|exact Hm|].
  rewrite E. eexists. split; [done|]. split; [|done].
  apply read_bytes_lookup in E as [Hl Hh]; [|done|unfold TRAMPOLINE_SIZE in *; lia].
  split; cbn [vm phys].
  - intros i Hi. rewrite blit_lookup, decide_True by lia.
    destruct (lookup_lt_is_Some_2 bs (Z.to_nat i)) as [c Ec]; [lia|].
    pose proof (Hh _ _ Ec) as Hc. rewrite Z2Nat.id in Hc by lia.
    rewrite Hc, <- Ec. f_equal. lia.
  - intros x Hx. by rewrite unmap_lookup, decide_True by lia.
  - intros x Hx. rewrite unmap_lookup, decide_False by (unfold TRAMPOLINE_SIZE in *; lia). done.
Qed.

(** The physical reads of the friend cores, in terms of the memory that was
    written through the mapping. *)
Lemma boot_read_trampoline m p' k :
  unmapped_from m p' -> 0 <= k < TRAMPOLINE_SIZE -> k mod 8 = 0 ->
  boot_read p' (TRAMPOLINE_ADDR + k) = read64 m (b + k).
Proof.
  intros Hu Hk H8. unfold boot_read. rewrite decide_True by (unfold in_trampoline; lia).
  destruct (io_page _ _ _ _ Hok) as [(Hb0 & Hba & Hb1) _].
  pose proof (Z.div_mod k 8). pose proof (Z.div_mod b 4096).
  unfold TRAMPOLINE_SIZE, TRAMPOLINE_ADDR in *.
  apply read64_shift; [split_and!; [lia| |lia]|split_and!; [lia| |lia]|].
  - replace (b + k) with ((512 * (b / 4096) + k / 8) * 8) by lia. by apply Z.mod_mul.
  - replace (0x70000 + k) with ((0xe000 + k / 8) * 8) by lia. by apply Z.mod_mul.
  - intros i Hi. rewrite <- !Z.add_assoc. apply (uf_phys _ _ Hu). unfold TRAMPOLINE_SIZE. lia.
Qed.

Lemma boot_read_table m p' q i :
  unmapped_from m p' -> q ∈ [pdpt; pd1; pd2] -> 0 <= i < 512 ->
  boot_read p' (q + 8 * i) = read64 m (q + 8 * i).
Proof.
  intros Hu Hq Hi. destruct (table_page q Hq) as (Hp & Hr & _ & Hd).
  unfold boot_read, in_friend_region, in_trampoline in *.
  pose proof Hp as (_ & Ha & _). pose proof (Z.div_mod q 4096).
  unfold DEPLOY_PHYS_ADDR_START, DEPLOY_PHYS_ADDR_END, TRAMPOLINE_ADDR, TRAMPOLINE_SIZE in *.
  rewrite decide_False, decide_True by lia.
  apply read64_agree; [by apply page_slot|].
  intros x Hx. apply (uf_vm _ _ Hu). unfold TRAMPOLINE_SIZE. lia.
Qed.

(** The entries of the two upper tables of the friend region that are set. *)
Lemma table_entries_pdpt m pml4t i v :
  tables_ok m pml4t -> 0 <= i < 512 -> table_entries pml4t (pdpt + 8 * i) v -> i = 0 \/ i = 4.
Proof.
  intros [(P4 & P3 & P1 & P2) Hd _] Hi He.
  apply tables_ne in Hd as (N1 & N2 & N3 & N4 & N5 & N6).
  assert (forall q j, page q -> 0 <= j < 512 -> pdpt <> q -> pdpt + 8 * i <> q + 8 * j) as Hne
    by (intros; apply entry_addr_ne; auto).
  destruct He as [[E _]|[[E _]|[[E _]|[[E _]|(j & Hj & E & _)]]]]; [|lia|lia| |].
  - exfalso. apply (Hne pml4t 0); [done|lia|congruence|lia].
  - exfalso. apply (Hne pd1 0); [done|lia|congruence|lia].
  - exfalso. apply (Hne pd2 j); [done|lia|congruence|lia].
Qed.

Lemma table_entries_pd1 m pml4t i v :
  tables_ok m pml4t -> 0 <= i < 512 -> table_entries pml4t (pd1 + 8 * i) v -> i = 0.
Proof.
  intros [(P4 & P3 & P1 & P2) Hd _] Hi He.
  apply tables_ne in Hd as (N1 & N2 & N3 & N4 & N5 & N6).
  assert (forall q j, page q -> 0 <= j < 512 -> pd1 <> q -> pd1 + 8 * i <> q + 8 * j) as Hne
    by (intros; apply entry_addr_ne; auto).
  destruct He as [[E _]|[[E _]|[[E _]|[[E _]|(j & Hj & E & _)]]]]; [| | |lia|].
  - exfalso. apply (Hne pml4t 0); [done|lia|congruence|lia].
  - exfalso. apply (Hne pdpt 0); [done|lia|congruence|lia].
  - exfalso. apply (Hne pdpt 4); [done|lia|congruence|lia].
  - exfalso. apply (Hne pd2 j); [done|lia|congruence|lia].
Qed.

(** Everything [Init] leaves behind when it succeeds. *)
Record booted (p' : proc) : Prop := {
  bo_entry : boot_read p' (TRAMPOLINE_ADDR + 8) = Some entry;
  bo_image : forall i, 0 <= i < Z.of_nat (length bin) -> ~ (8 <= i < 16) ->
    phys p' !! (TRAMPOLINE_ADDR + i) = image_byte i;
  bo_tables : boot_tables (boot_read p');
  bo_walk : forall va, 0 <= va < k512GB -> walk (boot_read p') INITIAL_PML4T va = boot_translation va;
  bo_upper : upper_kept (phys p) (boot_read p');
  bo_vm : forall x, (forall q, q ∈ [pdpt; pd1; pd2] -> ~ (q <= x < q + 4096)) ->
    vm p' !! x = vm p !! x;
  bo_dom : forall x, is_Some (vm p' !! x) <-> is_Some (vm p !! x)
}.

Lemma tables_set m m' p' :
  boot_mapped m -> slot_update m m' (fun a => exists v, table_entries (b + PAGE_SIZE) a v) ->
  (forall a v, table_entries (b + PAGE_SIZE) a v -> read64 m' a = Some v) ->
  unmapped_from m' p' -> boot_tables (boot_read p').
Proof.
  intros Hm U R Hu. pose proof (init_tables_ok m Hm) as [(P4 & P3 & P1 & P2) Hd _].
  assert (forall q i, q ∈ [pdpt; pd1] -> 0 <= i < 512 ->
    (forall v, ~ table_entries (b + PAGE_SIZE) (q + 8 * i) v) ->
    boot_read p' (q + 8 * i) = Some 0) as Hz.
  { intros q i Hq Hi Hn. assert (q ∈ [pdpt; pd1; pd2]) as Hq3 by set_solver.
    destruct (table_page q Hq3) as (Hp & _ & _ & Hb). pose proof (page_slot q i Hp Hi) as Hs.
    rewrite (boot_read_table m'), (su_read _ _ _ U) by (done || (intros [v ?]; by eapply Hn)).
    rewrite <- (io_zero _ _ _ _ Hok q i Hq Hi). apply read64_agree; [done|].
    intros x Hx. apply (bm_out _ Hm). unfold TRAMPOLINE_SIZE in *. lia. }
  split.
  - intros a v [[-> ->]|He].
    + change INITIAL_PML4T with (TRAMPOLINE_ADDR + PAGE_SIZE).
      rewrite (boot_read_trampoline m') by done. apply R. by left.
    + assert (table_entries (b + PAGE_SIZE) a v) as He' by (by right).
      rewrite <- (R _ _ He').
      destruct He as [[-> _]|[[-> _]|[[-> _]|(j & Hj & -> & _)]]];
        [rewrite <- (Z.add_0_r pdpt); change 0 with (8 * 0) at 1| |rewrite <- (Z.add_0_r pd1); change 0 with (8 * 0) at 1|];
        apply (boot_read_table m'); done || lia || (rewrite !elem_of_cons; auto).
  - intros i Hi H0 H4. apply Hz; [rewrite !elem_of_cons; auto|done|].
    intros v He. by destruct (table_entries_pdpt m _ i v (init_tables_ok m Hm) Hi He).
  - intros i Hi H0. apply Hz; [rewrite !elem_of_cons; auto|done|].
    intros v He. by apply (table_entries_pd1 m _ i v (init_tables_ok m Hm) Hi) in He.
Qed.

Lemma finish_booted m m' p' :
  boot_mapped m -> read64 m (b + 8) = Some entry ->
  (forall i, 0 <= i < Z.of_nat (length bin) -> ~ (8 <= i < 16) -> m !! (b + i) = image_byte i) ->
  (forall i, PAGE_SIZE <= i < TRAMPOLINE_SIZE -> m !! (b + i) = phys p !! (TRAMPOLINE_ADDR + i)) ->
  slot_update m m' (fun a => exists v, table_entries (b + PAGE_SIZE) a v) ->
  (forall a v, table_entries (b + PAGE_SIZE) a v -> read64 m' a = Some v) ->
  unmapped_from m' p' -> booted p'.
Proof.
  intros Hm Re Ri Rp U Rt Hu.
  assert (forall x, (forall q, q ∈ [pdpt; pd1; pd2] -> ~ (q <= x < q + 4096)) ->
    ~ (b + PAGE_SIZE <= x < b + PAGE_SIZE + 8) -> m' !! x = m !! x) as Hby.
  { intros x Hx Hb. apply (su_byte _ _ _ U). intros a [v He].
    apply table_entries_where in He as [->|(q & i & Hq & Hi & ->)]; [done|].
    specialize (Hx q Hq). lia. }
  assert (forall x, b <= x < b + TRAMPOLINE_SIZE ->
    forall q, q ∈ [pdpt; pd1; pd2] -> ~ (q <= x < q + 4096)) as Hout.
  { intros x Hx q Hq. destruct (table_page q Hq) as (_ & _ & _ & Hd). lia. }
  split.
  - rewrite (boot_read_trampoline m') by done. rewrite <- Re. apply read64_agree.
    + change 8 with (8 * 1). apply page_slot; [apply Hok|lia].
    + intros x Hx. apply Hby; [apply Hout|]; unfold TRAMPOLINE_SIZE, PAGE_SIZE; lia.
  - intros i Hi H8. rewrite (uf_phys _ _ Hu), <- Ri by (unfold TRAMPOLINE_SIZE, PAGE_SIZE in *; lia).
    apply Hby; [apply Hout|]; unfold TRAMPOLINE_SIZE, PAGE_SIZE in *; lia.
  - by apply (tables_set m m').
  - destruct (table_page pdpt) as (P3 & _); [set_solver|].
    destruct (table_page pd1) as (P1 & _); [set_solver|].
    destruct (table_page pd2) as (P2 & _); [set_solver|].
    intros va Hva. apply walk_boot_tables; [done..|by apply (tables_set m m')|done].
  - apply upper_keeps. intros i Hi. unfold boot_read.
    rewrite decide_True by (unfold in_trampoline, INITIAL_PML4T, TRAMPOLINE_ADDR, TRAMPOLINE_SIZE, PAGE_SIZE; lia).
    apply read64_agree; [apply page_slot; [by vm_compute|lia]|]. intros x Hx.
    replace x with (TRAMPOLINE_ADDR + (x - TRAMPOLINE_ADDR)) by lia.
    unfold INITIAL_PML4T, TRAMPOLINE_ADDR, PAGE_SIZE in Hx.
    rewrite (uf_phys _ _ Hu), Hby, Rp; [done|unfold TRAMPOLINE_ADDR, TRAMPOLINE_SIZE, PAGE_SIZE; lia| |
      unfold TRAMPOLINE_ADDR, PAGE_SIZE; lia|unfold TRAMPOLINE_ADDR, TRAMPOLINE_SIZE; lia].
    apply Hout. unfold TRAMPOLINE_ADDR, TRAMPOLINE_SIZE. lia.
  - intros x Hx. destruct (decide (b <= x < b + TRAMPOLINE_SIZE)) as [Hb|Hb].
    + by rewrite (uf_free _ _ Hu), (io_free _ _ _ _ Hok).
    + by rewrite (uf_vm _ _ Hu), Hby, (bm_out _ Hm)
        by (done || (unfold TRAMPOLINE_SIZE, PAGE_SIZE in *; lia)).
  - intros x. destruct (decide (b <= x < b + TRAMPOLINE_SIZE)) as [Hb|Hb].
    + by rewrite (uf_free _ _ Hu), (io_free _ _ _ _ Hok).
    + by rewrite (uf_vm _ _ Hu), (su_dom _ _ _ U), (bm_out _ Hm).
Qed.

Lemma Init_booted :
  mmap_ret = Some b -> 0 <= open_ret "/dev/friend_bootmem0x70000" ->
  exists p', Init bin_start (Z.of_nat (length bin)) entry p = Done (0, p') /\ booted p' /\
    fds p' = list_difference (open_ret "/dev/friend_bootmem0x70000" :: fds p)
               [open_ret "/dev/friend_bootmem0x70000"] /\
    stderr p' = stderr p.
Proof.
  intros Hmm Hfd. unfold Init.
  destruct (Z.gtb_spec (Z.of_nat (length bin)) PAGE_SIZE); [lia|].
  change ("/dev/friend_bootmem" ++ TRAMPOLINE_ADDR_STR)%string
    with "/dev/friend_bootmem0x70000"%string.
  set (path := "/dev/friend_bootmem0x70000"%string) in *. set (fd := open_ret path) in *.
  assert (open path p = Done (fd, mkProc (vm p) (phys p) (fd :: fds p) (stderr p))) as Eo
    by (unfold open; fold fd; by rewrite (proj2 (Z.ltb_ge _ _) Hfd)).
  rewrite (bind_done _ _ _ _ _ Eo), (proj2 (Z.ltb_ge _ _) Hfd).
  destruct (read_bytes_mapped (phys p) TRAMPOLINE_ADDR (Z.to_nat TRAMPOLINE_SIZE)) as [bs Ebs];
    [done|done|apply Hok|].
  assert (Z.of_nat (length bs) = TRAMPOLINE_SIZE) as Hl
    by (rewrite (read_bytes_length _ _ _ _ Ebs); done).
  pose proof (mmap_boot_mapped bs Hl) as Hm1.
  destruct (copy_image _ Hm1) as (m2 & Ec & Hm2 & Re & Ri & Ro).
  destruct (InitPageTables_spec m2 _ (init_tables_ok m2 Hm2)) as (m3 & Et & Rt & U).
  destruct (munmap_spec m3 (phys p) (list_difference (fd :: fds p) [fd]) (stderr p))
    as (p' & Eu & Hu & Hfds & Herr).
  { eapply mapped_agree, (bm_in _ Hm2). apply (su_dom _ _ _ U). }
  assert (forall i, PAGE_SIZE <= i < TRAMPOLINE_SIZE -> m2 !! (b + i) = phys p !! (TRAMPOLINE_ADDR + i)) as Rp.
  { intros i Hi. rewrite Ro, blit_lookup, decide_True by lia.
    apply read_bytes_lookup in Ebs as [_ Hbs]; [|done|done].
    destruct (lookup_lt_is_Some_2 bs (Z.to_nat i)) as [c Eb]; [unfold PAGE_SIZE in *; lia|].
    replace (b + i - b) with i by lia. rewrite Eb, <- (Hbs _ _ Eb). f_equal. unfold PAGE_SIZE in *. lia. }
  exists p'. split_and!; [|by apply (finish_booted m2 m3)|done|done].
  apply bind_inv in Ec as ([] & m1 & E1 & E2).
  erewrite (bind_done (mmap_bootmem _)); cycle 1.
  { unfold mmap_bootmem. rewrite Hmm. cbn [phys vm fds stderr]. by rewrite Ebs. }
  rewrite Hmm. unfold close, lift_vm, mbind, M_bind. cbn [phys vm fds stderr].
  rewrite E1. cbn [phys vm fds stderr]. rewrite E2. cbn [phys vm fds stderr].
  rewrite Et. cbn [phys vm fds stderr]. by rewrite Eu.
Qed.
End Run.
End Syscalls.

Lemma difference_absent (l : list Z) a : a ∉ l -> list_difference l [a] = l.
Proof.
  induction l as [|x l IH]; [done|]. rewrite not_elem_of_cons. intros [Hx Hl].
  cbn [list_difference]. destruct (decide_rel _ _ _) as [Hin|_]; [set_solver|].
  by rewrite IH.
Qed.

(** ** Theorems *)

(** C6: Where the trampoline device can be opened and mapped and the start-up
    binary fits a page, [Loader16::Init] returns 0 and leaves the trampoline
    ready: the friend's entry address is at offset 8 of the trampoline page, the
    rest of the binary is copied there, and a core that loads [INITIAL_PML4T]
    into cr3 translates every address below 512 GB exactly as intended: the
    first 2 MB and the friend region are identity mapped by writable 2 MB pages
    and nothing else below 512 GB is mapped.  Only entry 0 of the PML4 is written:
    the entries for the addresses from 512 GB on stay what the trampoline page held,
    and nothing is mapped where they were not present.  The memory of the process is
    unchanged outside the three tables, the device is closed and unmapped. *)
Theorem Init_boots open_ret pdpt pd1 pd2 p b bin_start entry bin :
  init_ok pdpt pd1 pd2 p b bin_start bin ->
  Z.of_nat (length bin) <= PAGE_SIZE -> uint 64 entry ->
  0 <= open_ret "/dev/friend_bootmem0x70000" ->
  open_ret "/dev/friend_bootmem0x70000" ∉ fds p ->
  exists p',
    Init open_ret (Some b) pdpt pd1 pd2 bin_start (Z.of_nat (length bin)) entry p = Done (0, p') /\
    booted pdpt pd1 pd2 p entry bin p' /\ fds p' = fds p /\ stderr p' = stderr p.
Proof.
  intros Hok Hl He Hfd Hni.
  destruct (Init_booted open_ret (Some b) pdpt pd1 pd2 p b bin_start entry bin)
    as (p' & E & Hb & Hf & Herr); [done..|].
  exists p'. split_and!; [done|done| |done]. rewrite Hf. cbn [list_difference].
  destruct (decide_rel _ _ _) as [_|Hn]; [by apply difference_absent|set_solver].
Qed.

(** C25: The failures of [Loader16::Init]: a start-up binary larger than a page, a
    device that cannot be opened and one that cannot be mapped each return -1
    with the memory of the process and the trampoline untouched; the message of
    the failing call is printed, and a failed mapping leaves the descriptor
    open. *)
Theorem Init_failures open_ret mmap_ret pdpt pd1 pd2 bin_start bin_size entry p :
  let fd := open_ret "/dev/friend_bootmem0x70000"%string in
  PAGE_SIZE < bin_size \/ fd < 0 \/ mmap_ret = None ->
  Init open_ret mmap_ret pdpt pd1 pd2 bin_start bin_size entry p =
  if bool_decide (PAGE_SIZE < bin_size) then Done (-1, p)
  else if bool_decide (fd < 0) then
    Done (-1, mkProc (vm p) (phys p) (fds p) ("Open call failed" :: stderr p)%string)
  else
    Done (-1, mkProc (vm p) (phys p) (fd :: fds p) ("mmap operation failed..." :: stderr p)%string).
Proof.
  intros fd Hcase. repeat case_bool_decide;
    [..|destruct Hcase as [?|[?| ->]]; [lia|lia|]]; unfold Init; rewrite Z.gtb_ltb.
  - by rewrite (proj2 (Z.ltb_lt _ _)).
  - rewrite (proj2 (Z.ltb_ge _ _)) by lia. unfold open, mbind, M_bind. subst fd.
    change ("/dev/friend_bootmem" ++ TRAMPOLINE_ADDR_STR)%string
      with "/dev/friend_bootmem0x70000"%string.
    by rewrite !(proj2 (Z.ltb_lt _ _)).
  - rewrite (proj2 (Z.ltb_ge _ _)) by lia. unfold open, mbind, M_bind. subst fd.
    change ("/dev/friend_bootmem" ++ TRAMPOLINE_ADDR_STR)%string
      with "/dev/friend_bootmem0x70000"%string.
    rewrite !(proj2 (Z.ltb_ge _ _)) by lia. done.
Qed.

(** ** A concrete boot *)

Definition demo_bin : list Z := [0xeb; 0x0e; 0x90; 0x90; 0x90; 0x90; 0x90; 0x90; 0; 0; 0; 0; 1; 0; 0; 0; 0xfa].
Definition demo_vm : mem :=
  blit (blit ∅ DEPLOY_PHYS_ADDR_START (zeros (Z.to_nat 12288))) 0x400000 demo_bin.
Definition demo_proc : proc :=
  mkProc demo_vm (blit ∅ TRAMPOLINE_ADDR (zeros (Z.to_nat 8192))) [0; 1; 2] [].

Lemma demo_vm_zero x :
  DEPLOY_PHYS_ADDR_START <= x < DEPLOY_PHYS_ADDR_START + 12288 -> demo_vm !! x = Some 0.
Proof.
  intros Hx. unfold demo_vm, DEPLOY_PHYS_ADDR_START, zeros in *.
  rewrite blit_lookup, decide_False by (cbn [demo_bin length]; lia).
  rewrite blit_lookup, length_replicate, decide_True by lia.
  apply lookup_replicate. split; [done|lia].
Qed.

Lemma demo_init_ok :
  init_ok 0x100000000 0x100001000 0x100002000 demo_proc 0x7f0000000000 0x400000 demo_bin.
Proof.
  split; cbn [demo_proc vm phys].
  - intros x Hx. unfold TRAMPOLINE_ADDR, TRAMPOLINE_SIZE, zeros in *.
    rewrite blit_lookup, length_replicate, decide_True by lia.
    exists 0. apply lookup_replicate. split; [done|lia].
  - intros i c Hi. unfold demo_vm. pose proof (lookup_lt_Some _ _ _ Hi).
    rewrite blit_lookup, decide_True by lia. rewrite <- Hi. f_equal. lia.
  - cbn [demo_bin length]. lia.
  - split; vm_compute; repeat split; intros [=].
  - intros x Hx. unfold demo_vm, TRAMPOLINE_SIZE, zeros in *.
    rewrite blit_lookup, decide_False by (cbn [demo_bin length]; lia).
    rewrite blit_lookup, length_replicate, decide_False; [done|].
    unfold DEPLOY_PHYS_ADDR_START. lia.
  - intros q Hq. rewrite !elem_of_cons, elem_of_nil in Hq.
    assert (mapped demo_vm DEPLOY_PHYS_ADDR_START 12288) as Hm
      by (intros x Hx; exists 0; by apply demo_vm_zero).
    unfold DEPLOY_PHYS_ADDR_START in *.
    destruct Hq as [-> |[-> |[-> |[]]]];
      (split; [|split; [|eapply mapped_sub, Hm; lia]]); by vm_compute.
  - by apply (bool_decide_unpack _).
  - intros q i Hq Hi. rewrite !elem_of_cons, elem_of_nil in Hq.
    assert (page q /\ 0x100000000 <= q <= 0x100001000) as [Hp Hr]
      by (destruct Hq as [-> |[-> |[]]]; by vm_compute).
    apply read64_zero; [by apply page_slot|]. intros x Hx.
    apply demo_vm_zero. unfold DEPLOY_PHYS_ADDR_START. lia.
Qed.

Definition demo_open (path : string) : Z := 3.

Lemma Init_boots_witness :
  exists p',
    Init demo_open (Some 0x7f0000000000) 0x100000000 0x100001000 0x100002000
      0x400000 17 0x100003000 demo_proc = Done (0, p') /\
    booted 0x100000000 0x100001000 0x100002000 demo_proc 0x100003000 demo_bin p' /\
    fds p' = [0; 1; 2] /\ stderr p' = [].
Proof.
  apply (Init_boots demo_open 0x100000000 0x100001000 0x100002000 demo_proc
           0x7f0000000000 0x400000 0x100003000 demo_bin).
  - exact demo_init_ok.
  - unfold PAGE_SIZE. cbn [demo_bin length]. lia.
  - split; [discriminate|reflexivity].
  - discriminate.
  - by apply (bool_decide_unpack _).
Defined.

Lemma Init_failures_witness :
  Init (fun _ => -1) None 0x100000000 0x100001000 0x100002000 0x400000 17 0x100003000 demo_proc =
  Done (-1, mkProc demo_vm (phys demo_proc) [0; 1; 2] ["Open call failed"%string]).
Proof.
  rewrite (Init_failures (fun _ => -1) None); [reflexivity|]. right. left. reflexivity.
Defined.
