(* ===== verification/Friend16.v ===== *)
(** * Friend16: the trampoline of the friend cores, hakase/friend_boot16.S

    A started core executes the trampoline page in real mode; the code switches it
    to protected mode and to long mode with the page tables of [Loader16], and jumps
    to the entry address [Loader16::Init] has stored at offset 8.  The instructions
    of the file are modelled one by one on the part of the processor state they use:
    control registers, the EFER register, the descriptor table and the segments,
    with segmentation, paging ([Paging.walk]) and the checks that would raise an
    exception.  The binary is produced by the assembler: the offsets of its labels
    are the parameter [layout16], and [assembled] says what the data directives of the
    file put there. *)

From S2P Require Import Prelude Memory Paging Loader16.
Import Layout.

Module Friend16.

(** ** The processor *)

(** A segment register with its cached base and descriptor. *)
Record segment := mkSeg { sel : Z; base : Z; desc : Z }.

Record cpu := mkCpu {
  cr0 : Z; cr3 : Z; cr4 : Z; efer : Z;
  gdt_limit : Z; gdt_base : Z;
  cs : segment; ds : segment; ss : segment;
  rax : Z; rcx : Z; rdx : Z; rdi : Z;
  interrupts : bool
}.

Inductive instr16 :=
| Jmp                          (* jmp to the next block of code *)
| Cli                          (* cli *)
| MovCsAx                      (* movw %cs, %ax *)
| MovImmAx (v : Z)             (* movw $v, %ax *)
| MovAxDs                      (* movw %ax, %ds *)
| MovAxSs                      (* movw %ax, %ss *)
| Lgdtl (off : Z)              (* lgdtl off *)
| MovCr0Eax                    (* movl %cr0, %eax *)
| MovEaxCr0                    (* movl %eax, %cr0 *)
| MovCr4Eax                    (* movl %cr4, %eax *)
| MovEaxCr4                    (* movl %eax, %cr4 *)
| MovImmEdi (v : Z)            (* movl $v, %edi *)
| MovEdiCr3                    (* movl %edi, %cr3 *)
| MovImmEcx (v : Z)            (* movl $v, %ecx *)
| OrEax (v : Z)                (* orl $v, %eax *)
| AndEax (v : Z)               (* andl $v, %eax *)
| Rdmsr
| Wrmsr
| Ljmpl (selector off : Z)     (* ljmpl $selector, $off *)
| MovImmRax (v : Z)            (* movq $v, %rax *)
| JmpMemRax.                   (* jmpq *(%rax) *)

(** The parts of the code by the size it is assembled for. *)
Inductive block := Code16 | Code32 | Code64.

(** What follows an instruction: the next one, another part, or code elsewhere. *)
Inductive next := Fall | Go (b : block) | Exit (rip : Z).

(** Offsets of the labels of the file in the assembled binary. *)
Record layout16 := mkLayout {
  gdtr32 : Z; gdt_desc32 : Z; entry32 : Z; gdtr64 : Z; gdt_desc64 : Z; start64 : Z
}.

Definition LMA : Z := 10.
Definition LME : Z := 8.
Definition IA32_EFER : Z := 0xC0000080.

Definition protected (c : cpu) : bool := Z.testbit (cr0 c) 0.
Definition paging (c : cpu) : bool := Z.testbit (cr0 c) 31.
Definition long_mode (c : cpu) : bool := Z.testbit (efer c) LMA && Z.testbit (desc (cs c)) 53.

Definition ax (r : Z) : Z := r mod 2 ^ 16.
Definition set_ax (v r : Z) : Z := r / 2 ^ 16 * 2 ^ 16 + v.

(** Base of a descriptor: bits 16 to 39 and 56 to 63. *)
Definition desc_base (d : Z) : Z :=
  Z.land (Z.shiftr d 16) 0xFFFFFF + Z.shiftl (Z.land (Z.shiftr d 56) 0xFF) 24.

Section Machine.
Context (lay : layout16).
(** Physical memory: its bytes and, for the page walk, its 8-byte words. *)
Context (byte word : Z -> option Z).

Definition translate (c : cpu) (lin : Z) : option Z :=
  if paging c then t_phys <$> walk word (cr3 c) lin else Some lin.

Definition read_linear (c : cpu) (n : nat) (lin : Z) : outcome Z :=
  match mapM (fun k => pa ← translate c (lin + k); byte pa) (seqZ 0 (Z.of_nat n)) with
  | Some bs => Done (le_value bs)
  | None => Fault SegFault
  end.

Definition data_linear (c : cpu) (off : Z) : Z :=
  if long_mode c then off else u32 (base (ds c) + off).

(** Loading a segment register: a shift in real mode, a descriptor that is present
    and inside the table otherwise. *)
Definition load_segment (c : cpu) (s : Z) : outcome segment :=
  if negb (protected c) then Done (mkSeg s (s * 16) 0)
  else
    let off := s / 8 * 8 in
    if gdt_limit c <? off + 7 then Fault Undefined
    else match read_linear c 8 (gdt_base c + off) with
         | Done d => if Z.testbit d 47 && Z.testbit d 44 then Done (mkSeg s (desc_base d) d)
                     else Fault Undefined
         | Fault f => Fault f
         end.

(** Where a far jump arrives: the part of the trampoline at the target, when the new
    code segment runs it with the operand size it is assembled for. *)
Definition far_target (c : cpu) (off : Z) : outcome next :=
  let d := desc (cs c) in
  if negb (Z.testbit d 43) then Fault Undefined
  else if long_mode c then
    if off =? TRAMPOLINE_ADDR + start64 lay then Done (Go Code64) else Fault Undefined
  else
    if Z.testbit d 54 && (u32 (base (cs c) + off) =? TRAMPOLINE_ADDR + entry32 lay)
    then Done (Go Code32) else Fault Undefined.

(** Setting PG enters long mode when LME is set, which needs PE and PAE.  Paging
    without LME is not modelled. *)
Definition write_cr0 (c : cpu) (v : Z) : outcome cpu :=
  let c' e := mkCpu v (cr3 c) (cr4 c) e (gdt_limit c) (gdt_base c) (cs c) (ds c) (ss c)
                (rax c) (rcx c) (rdx c) (rdi c) (interrupts c) in
  if Z.testbit v 31 then
    if Z.testbit v 0 && Z.testbit (efer c) LME && Z.testbit (cr4 c) 5
    then Done (c' (Z.setbit (efer c) LMA)) else Fault Undefined
  else Done (c' (Z.clearbit (efer c) LMA)).

Definition with_rax (c : cpu) (v : Z) : cpu :=
  mkCpu (cr0 c) (cr3 c) (cr4 c) (efer c) (gdt_limit c) (gdt_base c) (cs c) (ds c) (ss c)
    v (rcx c) (rdx c) (rdi c) (interrupts c).

Definition exec16 (i : instr16) (c : cpu) : outcome (cpu * next) :=
  match i with
  | Jmp => Done (c, Fall)
  | Cli =>
      Done (mkCpu (cr0 c) (cr3 c) (cr4 c) (efer c) (gdt_limit c) (gdt_base c) (cs c) (ds c)
              (ss c) (rax c) (rcx c) (rdx c) (rdi c) false, Fall)
  | MovCsAx => Done (with_rax c (set_ax (sel (cs c)) (rax c)), Fall)
  | MovImmAx v => Done (with_rax c (set_ax v (rax c)), Fall)
  | MovAxDs =>
      match load_segment c (ax (rax c)) with
      | Done s =>
          Done (mkCpu (cr0 c) (cr3 c) (cr4 c) (efer c) (gdt_limit c) (gdt_base c) (cs c) s
                  (ss c) (rax c) (rcx c) (rdx c) (rdi c) (interrupts c), Fall)
      | Fault f => Fault f
      end
  | MovAxSs =>
      match load_segment c (ax (rax c)) with
      | Done s =>
          Done (mkCpu (cr0 c) (cr3 c) (cr4 c) (efer c) (gdt_limit c) (gdt_base c) (cs c) (ds c)
                  s (rax c) (rcx c) (rdx c) (rdi c) (interrupts c), Fall)
      | Fault f => Fault f
      end
  | Lgdtl off =>
      match read_linear c 2 (data_linear c off), read_linear c 4 (data_linear c (off + 2)) with
      | Done limit, Done b =>
          Done (mkCpu (cr0 c) (cr3 c) (cr4 c) (efer c) limit b (cs c) (ds c)
                  (ss c) (rax c) (rcx c) (rdx c) (rdi c) (interrupts c), Fall)
      | Fault f, _ | _, Fault f => Fault f
      end
  | MovCr0Eax => Done (with_rax c (u32 (cr0 c)), Fall)
  | MovEaxCr0 =>
      match write_cr0 c (u32 (rax c)) with Done c' => Done (c', Fall) | Fault f => Fault f end
  | MovCr4Eax => Done (with_rax c (u32 (cr4 c)), Fall)
  | MovEaxCr4 =>
      Done (mkCpu (cr0 c) (cr3 c) (u32 (rax c)) (efer c) (gdt_limit c) (gdt_base c) (cs c)
              (ds c) (ss c) (rax c) (rcx c) (rdx c) (rdi c) (interrupts c), Fall)
  | MovImmEdi v =>
      Done (mkCpu (cr0 c) (cr3 c) (cr4 c) (efer c) (gdt_limit c) (gdt_base c) (cs c) (ds c)
              (ss c) (rax c) (rcx c) (rdx c) v (interrupts c), Fall)
  | MovEdiCr3 =>
      Done (mkCpu (cr0 c) (u32 (rdi c)) (cr4 c) (efer c) (gdt_limit c) (gdt_base c) (cs c)
              (ds c) (ss c) (rax c) (rcx c) (rdx c) (rdi c) (interrupts c), Fall)
  | MovImmEcx v =>
      Done (mkCpu (cr0 c) (cr3 c) (cr4 c) (efer c) (gdt_limit c) (gdt_base c) (cs c) (ds c)
              (ss c) (rax c) v (rdx c) (rdi c) (interrupts c), Fall)
  | OrEax v => Done (with_rax c (Z.lor (u32 (rax c)) v), Fall)
  | AndEax v => Done (with_rax c (Z.land (u32 (rax c)) v), Fall)
  | Rdmsr =>
      if u32 (rcx c) =? IA32_EFER then
        Done (mkCpu (cr0 c) (cr3 c) (cr4 c) (efer c) (gdt_limit c) (gdt_base c) (cs c) (ds c)
                (ss c) (u32 (efer c)) (rcx c) (Z.shiftr (efer c) 32) (rdi c) (interrupts c), Fall)
      else Fault Undefined
  | Wrmsr =>
      if (u32 (rcx c) =? IA32_EFER) && negb (paging c) then
        Done (mkCpu (cr0 c) (cr3 c) (cr4 c) (Z.shiftl (u32 (rdx c)) 32 + u32 (rax c))
                (gdt_limit c) (gdt_base c) (cs c) (ds c)
                (ss c) (rax c) (rcx c) (rdx c) (rdi c) (interrupts c), Fall)
      else Fault Undefined
  | Ljmpl selector off =>
      match load_segment c selector with
      | Done s =>
          let c' := mkCpu (cr0 c) (cr3 c) (cr4 c) (efer c) (gdt_limit c) (gdt_base c) s (ds c)
                      (ss c) (rax c) (rcx c) (rdx c) (rdi c) (interrupts c) in
          match far_target c' off with Done n => Done (c', n) | Fault f => Fault f end
      | Fault f => Fault f
      end
  | MovImmRax v => Done (with_rax c v, Fall)
  | JmpMemRax =>
      match read_linear c 8 (rax c) with
      | Done rip => Done (c, Exit rip)
      | Fault f => Fault f
      end
  end.

(** Instructions are fetched from the trampoline page, which must be where the
    processor looks for it. *)
Definition fetchable (c : cpu) : bool :=
  bool_decide (translate c TRAMPOLINE_ADDR = Some TRAMPOLINE_ADDR).

Fixpoint exec_block (code : list instr16) (c : cpu) : outcome (cpu * next) :=
  match code with
  | [] => Fault Undefined
  | i :: rest =>
      if negb (fetchable c) then Fault SegFault
      else match exec16 i c with
           | Done (c', Fall) => exec_block rest c'
           | r => r
           end
  end.

(** ** friend_boot16.S *)

Definition code16 : list instr16 :=
  [ Jmp; Cli; MovCsAx; MovAxDs; Lgdtl (gdtr32 lay);
    MovCr0Eax; OrEax (Z.shiftl 1 0); MovEaxCr0; Ljmpl 0x08 (TRAMPOLINE_ADDR + entry32 lay) ].

Definition code32 : list instr16 :=
  [ MovImmAx 0x10; MovAxDs;
    MovImmEdi INITIAL_PML4T; MovEdiCr3;
    MovCr4Eax; OrEax (Z.lor (Z.lor (Z.shiftl 1 4) (Z.shiftl 1 5)) (Z.shiftl 1 7)); MovEaxCr4;
    MovImmEcx 0xC0000080; Rdmsr; OrEax (Z.shiftl 1 8); Wrmsr;
    MovCr0Eax; OrEax (Z.shiftl 1 31);
    AndEax (u32 (Z.lnot (Z.lor (Z.shiftl 1 30) (Z.shiftl 1 29)))); MovEaxCr0;
    Lgdtl (TRAMPOLINE_ADDR + gdtr64 lay);
    Ljmpl 0x10 (TRAMPOLINE_ADDR + start64 lay) ].

Definition code64 : list instr16 :=
  [ MovImmAx 0x18; MovAxDs; MovAxSs; MovImmRax (TRAMPOLINE_ADDR + 8); JmpMemRax ].

Definition code_of (b : block) : list instr16 :=
  match b with Code16 => code16 | Code32 => code32 | Code64 => code64 end.

(** The trampoline: at most one pass through each part. *)
Fixpoint run16 (fuel : nat) (b : block) (c : cpu) : outcome (cpu * Z) :=
  match fuel with
  | O => Fault OutOfFuel
  | S fuel' =>
      match exec_block (code_of b) c with
      | Done (c', Go b') => run16 fuel' b' c'
      | Done (c', Exit rip) => Done (c', rip)
      | Done (_, Fall) => Fault Undefined
      | Fault f => Fault f
      end
  end.

Definition trampoline (c : cpu) : outcome (cpu * Z) := run16 3 Code16 c.

(** ** The binary and the state a core is started in *)

(** The bytes [bs] are at offset [off] of the trampoline. *)
Definition image_at (off : Z) (bs : list Z) : Prop :=
  0 <= off /\ off + Z.of_nat (length bs) <= PAGE_SIZE /\
  forall k b, bs !! k = Some b -> byte (TRAMPOLINE_ADDR + off + Z.of_nat k) = Some b.

(** What the data directives of friend_boot16.S put at their labels. *)
Definition gdtr32_bytes : list Z := le_bytes 2 (8 * 4 - 1) ++ le_bytes 4 (gdt_desc32 lay + TRAMPOLINE_ADDR).
Definition gdt32_bytes : list Z :=
  le_bytes 8 0 ++ le_bytes 8 0x00CF9A000000FFFF ++ le_bytes 8 0x00CF92000000FFFF.
Definition gdtr64_bytes : list Z := le_bytes 2 (8 * 6 - 1) ++ le_bytes 8 (TRAMPOLINE_ADDR + gdt_desc64 lay).
Definition gdt64_bytes : list Z :=
  le_bytes 8 0 ++ le_bytes 8 0 ++ le_bytes 8 0x00209a0000000000 ++ le_bytes 8 0x0000920000000000 ++
  le_bytes 8 0x0000f20000000000 ++ le_bytes 8 0x0020fa0000000000.

Record assembled : Prop := {
  as_gdtr32 : image_at (gdtr32 lay) gdtr32_bytes;
  as_gdt32 : image_at (gdt_desc32 lay) gdt32_bytes;
  as_gdtr64 : image_at (gdtr64 lay) gdtr64_bytes;
  as_gdt64 : image_at (gdt_desc64 lay) gdt64_bytes;
  as_entry32 : 0 <= entry32 lay < PAGE_SIZE;
  as_start64 : 0 <= start64 lay < PAGE_SIZE
}.

(** The 8 bytes at offset 8 are the entry address. *)
Definition entry_word (entry : Z) : Prop :=
  exists bs, length bs = 8%nat /\ image_at 8 bs /\ le_value bs = entry.

(** A STARTUP interrupt with vector [v] after INIT: real mode at [v * 2^12], paging,
    PAE and long mode off, the two cache bits of CR0 as they were. *)
Definition started_at (v : Z) (c : cpu) : Prop :=
  (exists cd nw : bool,
     cr0 c = 0x10 + (if nw then 2 ^ 29 else 0) + (if cd then 2 ^ 30 else 0)) /\
  cr4 c = 0 /\ efer c = 0 /\ cs c = mkSeg (v * 2 ^ 8) (v * 2 ^ 12) 0.

(** The page tables map the trampoline page to itself. *)
Definition trampoline_mapped : Prop :=
  forall lin, TRAMPOLINE_ADDR <= lin < TRAMPOLINE_ADDR + PAGE_SIZE ->
    t_phys <$> walk word INITIAL_PML4T lin = Some lin.

Section Run.
Hypothesis Hmap : trampoline_mapped.

Definition sees_trampoline (c : cpu) : Prop := paging c = false \/ cr3 c = INITIAL_PML4T.

Lemma translate_trampoline c lin :
  sees_trampoline c -> TRAMPOLINE_ADDR <= lin < TRAMPOLINE_ADDR + PAGE_SIZE ->
  translate c lin = Some lin.
Proof.
  intros Hs Hl. unfold translate. destruct (paging c) eqn:E; [|done].
  destruct Hs as [?| ->]; [congruence|by apply Hmap].
Qed.

Lemma fetchable_trampoline c : sees_trampoline c -> fetchable c = true.
Proof.
  intros Hs. apply bool_decide_eq_true. apply translate_trampoline; [done|].
  unfold PAGE_SIZE. lia.
Qed.

Lemma read_trampoline c off k n bs :
  sees_trampoline c -> image_at off bs -> (k + n <= length bs)%nat ->
  read_linear c n (TRAMPOLINE_ADDR + off + Z.of_nat k) = Done (le_value (take n (drop k bs))).
Proof.
  intros Hs (H0 & Hl & Hb) Hk. unfold read_linear.
  enough (forall m j, (j + m = n)%nat ->
    mapM (fun x => pa ← translate c (TRAMPOLINE_ADDR + off + Z.of_nat k + x); byte pa)
      (seqZ (Z.of_nat j) (Z.of_nat m)) = Some (take m (drop (k + j) bs))) as E.
  { change 0 with (Z.of_nat 0). rewrite (E n 0%nat) by lia. by rewrite Nat.add_0_r. }
  induction m as [|m IH]; intros j Hj; [done|].
  rewrite Nat2Z.inj_succ, seqZ_cons by lia. rewrite Z.pred_succ, <- Nat2Z.inj_succ.
  change (mapM ?f (?x :: ?l)) with (y ← f x; ys ← mapM f l; mret (y :: ys)).
  destruct (lookup_lt_is_Some_2 bs (k + j)) as [b Eb]; [lia|].
  rewrite translate_trampoline by (done || lia). cbn [mbind option_bind].
  replace (TRAMPOLINE_ADDR + off + Z.of_nat k + Z.of_nat j)
    with (TRAMPOLINE_ADDR + off + Z.of_nat (k + j)) by lia.
  rewrite (Hb _ _ Eb). cbn [mbind option_bind]. rewrite (IH (S j)) by lia.
  rewrite (drop_S _ _ _ Eb). rewrite Nat.add_succ_r. done.
Qed.

(** One instruction of a block. *)
Lemma exec_fall i rest c c' :
  sees_trampoline c -> exec16 i c = Done (c', Fall) -> exec_block (i :: rest) c = exec_block rest c'.
Proof. intros Hs E. cbn [exec_block]. by rewrite fetchable_trampoline, E. Qed.

Lemma exec_last i rest c c' n :
  sees_trampoline c -> exec16 i c = Done (c', n) -> n <> Fall ->
  exec_block (i :: rest) c = Done (c', n).
Proof. intros Hs E Hn. cbn [exec_block]. rewrite fetchable_trampoline, E by done. by destruct n. Qed.

Lemma ax_set_ax v r : 0 <= v < 2 ^ 16 -> ax (set_ax v r) = v.
Proof.
  intros Hv. unfold ax, set_ax. rewrite Z.add_comm, Z_mod_plus_full. by apply Z.mod_small.
Qed.

(** [lgdtl] of a table register the assembler laid out at offset [o]. *)
Lemma lgdtl_trampoline c off o limit b tl :
  sees_trampoline c -> data_linear c off = TRAMPOLINE_ADDR + o ->
  data_linear c (off + 2) = TRAMPOLINE_ADDR + o + 2 ->
  0 <= limit < 2 ^ 16 -> 0 <= b < 2 ^ 32 ->
  image_at o (le_bytes 2 limit ++ le_bytes 4 b ++ tl) ->
  exec16 (Lgdtl off) c =
    Done (mkCpu (cr0 c) (cr3 c) (cr4 c) (efer c) limit b (cs c) (ds c)
            (ss c) (rax c) (rcx c) (rdx c) (rdi c) (interrupts c), Fall).
Proof.
  intros Hs E1 E2 Hl Hb Hi. cbn [exec16]. rewrite E1, E2.
  assert (length (le_bytes 2 limit ++ le_bytes 4 b ++ tl) = 6 + length tl)%nat as Elen
    by (rewrite !length_app, !length_le_bytes; lia).
  rewrite <- (Z.add_0_r (TRAMPOLINE_ADDR + o)) at 1. change 0 with (Z.of_nat 0) at 1.
  rewrite (read_trampoline c o 0 2 _ Hs Hi) by (rewrite Elen; lia).
  change 2 with (Z.of_nat 2) at 1. rewrite (read_trampoline c o 2 4 _ Hs Hi) by (rewrite Elen; lia).
  rewrite drop_0, take_app_length' by (by rewrite length_le_bytes).
  rewrite drop_app_length' by (by rewrite length_le_bytes).
  rewrite take_app_length' by (by rewrite length_le_bytes).
  rewrite !le_value_bytes_small by done. done.
Qed.

(** A segment register loaded from a descriptor table in the trampoline. *)
Lemma load_descriptor c g bs s d :
  sees_trampoline c -> protected c = true -> gdt_base c = TRAMPOLINE_ADDR + g ->
  image_at g bs -> 0 <= s -> s / 8 * 8 + 7 <= gdt_limit c ->
  (Z.to_nat (s / 8 * 8) + 8 <= length bs)%nat ->
  le_value (take 8 (drop (Z.to_nat (s / 8 * 8)) bs)) = d ->
  Z.testbit d 47 && Z.testbit d 44 = true ->
  load_segment c s = Done (mkSeg s (desc_base d) d).
Proof.
  intros Hs Hp Hg Hi H0 Hl Hlen Hd Ht. unfold load_segment. rewrite Hp, Hg. cbn [negb].
  destruct (Z.ltb_spec (gdt_limit c) (s / 8 * 8 + 7)); [lia|].
  assert (0 <= s / 8 * 8) by (pose proof (Z.div_pos s 8); lia).
  rewrite <- (Z2Nat.id (s / 8 * 8)) at 1 by done.
  rewrite (read_trampoline c g _ 8 bs Hs Hi) by done. by rewrite Hd, Ht.
Qed.

Lemma image_at_app off xs ys : image_at off (xs ++ ys) -> image_at off xs.
Proof.
  intros (H0 & Hl & Hb). rewrite length_app in Hl. split_and!; [done|lia|].
  intros k b Hk. apply Hb. by apply lookup_app_l_Some.
Qed.

(** A far jump to [entry32] through the 32-bit code descriptor, and to [start]
    through the 64-bit one. *)
Lemma arrive32 c :
  cs c = mkSeg 0x08 (desc_base 0x00CF9A000000FFFF) 0x00CF9A000000FFFF -> 0 <= entry32 lay < 4096 ->
  far_target c (TRAMPOLINE_ADDR + entry32 lay) = Done (Go Code32).
Proof.
  intros E Hb. unfold far_target, long_mode. rewrite E. cbn [desc base].
  replace (Z.testbit 0x00CF9A000000FFFF 53) with false by done. rewrite andb_false_r.
  change (Z.testbit 0x00CF9A000000FFFF 43) with true. cbn [negb].
  change (Z.testbit 0x00CF9A000000FFFF 54) with true. cbn [andb].
  change (desc_base 0x00CF9A000000FFFF) with 0. rewrite Z.add_0_l. unfold u32, wrap.
  rewrite Z.mod_small by (unfold TRAMPOLINE_ADDR; lia). by rewrite Z.eqb_refl.
Qed.

Lemma arrive64 c :
  cs c = mkSeg 0x10 (desc_base 0x00209a0000000000) 0x00209a0000000000 -> Z.testbit (efer c) LMA = true ->
  far_target c (TRAMPOLINE_ADDR + start64 lay) = Done (Go Code64).
Proof.
  intros E Hl. unfold far_target, long_mode. rewrite E, Hl. cbn [desc].
  change (Z.testbit 0x00209a0000000000 43) with true. cbn [negb].
  change (true && Z.testbit 0x00209a0000000000 53) with true. by rewrite Z.eqb_refl.
Qed.

Hypothesis Hasm : assembled.

Lemma offsets_bound :
  0 <= gdtr32 lay <= PAGE_SIZE - 6 /\ 0 <= gdt_desc32 lay <= PAGE_SIZE - 24 /\
  0 <= gdtr64 lay <= PAGE_SIZE - 10 /\ 0 <= gdt_desc64 lay <= PAGE_SIZE - 48 /\
  0 <= entry32 lay < PAGE_SIZE /\ 0 <= start64 lay < PAGE_SIZE.
Proof.
  destruct Hasm as [(A1 & A2 & _) (B1 & B2 & _) (C1 & C2 & _) (D1 & D2 & _) E F].
  unfold gdtr32_bytes, gdtr64_bytes in *. rewrite length_app, !length_le_bytes in A2, C2.
  change (length gdt32_bytes) with 24%nat in B2. change (length gdt64_bytes) with 48%nat in D2. lia.
Qed.

(** Reads of the registers of an explicit processor state. *)
Ltac cpu_simpl :=
  cbv beta iota delta [with_rax cr0 cr3 cr4 efer gdt_limit gdt_base cs ds ss rax rcx rdx rdi
                       interrupts sel base desc].

(** The three parts, from a processor with CR0 [c0]. *)
Section Parts.
Context (c0 r3 gl gb : Z) (d s : segment) (a cx dx di : Z) (fl : bool).
Hypothesis Hc0 : exists cd nw : bool,
  c0 = 0x10 + (if nw then 2 ^ 29 else 0) + (if cd then 2 ^ 30 else 0).

Ltac by_cr0 := destruct Hc0 as ([] & [] & ->); by vm_compute.
Ltac next := erewrite exec_fall; [|left; by_cr0|].
Ltac simple := next; [|reflexivity]; cpu_simpl.

Lemma code16_spec :
  exists a' dsreg,
  exec_block code16 (mkCpu c0 r3 0 0 gl gb (mkSeg 0x7000 0x70000 0) d s a cx dx di fl) =
    Done (mkCpu (Z.lor c0 1) r3 0 0 31 (gdt_desc32 lay + TRAMPOLINE_ADDR)
            (mkSeg 0x08 0 0x00CF9A000000FFFF) dsreg s a' cx dx di false, Go Code32).
Proof.
  destruct offsets_bound as (B1 & B2 & _ & _ & B5 & _). unfold PAGE_SIZE in *.
  assert (u32 (Z.lor (u32 (u32 c0)) (Z.shiftl 1 0)) = Z.lor c0 1) as Ec
    by (destruct Hc0 as ([] & [] & ->); by vm_compute).
  eexists _, _. unfold code16. do 3 simple.
  next; [|cbn [exec16 rax]; rewrite ax_set_ax by done; unfold load_segment, protected; cbn [cr0];
    replace (Z.testbit c0 0) with false by by_cr0; reflexivity].
  cpu_simpl. next; [|apply (lgdtl_trampoline _ _ (gdtr32 lay) (8 * 4 - 1) (gdt_desc32 lay + TRAMPOLINE_ADDR) []);
    [left; by_cr0|..]].
  2-3: unfold data_linear, long_mode; cbn -[Z.add u32]; unfold u32, wrap;
    rewrite Z.mod_small by (unfold TRAMPOLINE_ADDR; lia); unfold TRAMPOLINE_ADDR; lia.
  2-3: unfold TRAMPOLINE_ADDR; lia.
  2: rewrite app_nil_r; apply Hasm.
  cpu_simpl. do 2 simple. next; [|cbn [exec16 rax]; rewrite Ec; unfold write_cr0;
    replace (Z.testbit (Z.lor c0 1) 31) with false by by_cr0; reflexivity].
  cpu_simpl. apply exec_last; [left; by_cr0| |done]. cbn [exec16].
  rewrite (load_descriptor _ (gdt_desc32 lay) gdt32_bytes 0x08 0x00CF9A000000FFFF);
    [|left; by_cr0|by_cr0|cbn [gdt_base]; lia|apply Hasm|done|done
     |apply Nat.leb_le; by vm_compute|by vm_compute|done].
  cpu_simpl. rewrite arrive32; [done|done|lia].
Qed.

Lemma code32_spec :
  exists a' cx' dx' di' dsreg,
  exec_block code32 (mkCpu (Z.lor c0 1) r3 0 0 31 (gdt_desc32 lay + TRAMPOLINE_ADDR)
                       (mkSeg 0x08 0 0x00CF9A000000FFFF) d s a cx dx di false) =
    Done (mkCpu 0x80000011 INITIAL_PML4T 0xB0 0x500 47 (TRAMPOLINE_ADDR + gdt_desc64 lay)
            (mkSeg 0x10 0 0x00209a0000000000) dsreg s a' cx' dx' di' false, Go Code64).
Proof.
  destruct offsets_bound as (_ & B2 & B3 & B4 & _ & B6). unfold PAGE_SIZE in *.
  eexists _, _, _, _, _. unfold code32. simple.
  next; [|cbn [exec16 rax]; rewrite ax_set_ax by done;
    rewrite (load_descriptor _ (gdt_desc32 lay) gdt32_bytes 0x10 0x00CF92000000FFFF);
    [reflexivity|left; by_cr0|by_cr0|cbn [gdt_base]; lia|apply Hasm|done|done
     |apply Nat.leb_le; by vm_compute|by vm_compute|done]].
  cpu_simpl. do 8 simple.
  next; [|cbn [exec16]; unfold paging; cbn [cr0];
    replace (Z.testbit (Z.lor c0 1) 31) with false by by_cr0; reflexivity].
  cpu_simpl. do 3 simple.
  next; [|cbn [exec16 rax];
    match goal with |- context [write_cr0 _ ?v] => replace v with 0x80000011 by by_cr0 end;
    reflexivity].
  cpu_simpl. erewrite exec_fall; [|by right|].
  2:{ apply (lgdtl_trampoline _ _ (gdtr64 lay) (8 * 6 - 1) (TRAMPOLINE_ADDR + gdt_desc64 lay)
        (drop 4 (le_bytes 8 (TRAMPOLINE_ADDR + gdt_desc64 lay)))); [by right|..].
      1-2: unfold data_linear, long_mode; cbn [cs desc efer ds base];
        change (Z.testbit 0x00CF9A000000FFFF 53) with false; rewrite andb_false_r;
        change (desc_base 0x00CF92000000FFFF) with 0; unfold u32, wrap;
        rewrite Z.mod_small by (unfold TRAMPOLINE_ADDR; lia); unfold TRAMPOLINE_ADDR; lia.
      1-2: unfold TRAMPOLINE_ADDR; lia.
      rewrite (le_bytes_prefix 4 8) by lia. apply Hasm. }
  cpu_simpl. apply exec_last; [by right| |done]. cbn [exec16].
  rewrite (load_descriptor _ (gdt_desc64 lay) gdt64_bytes 0x10 0x00209a0000000000);
    [|by right|done|done|apply Hasm|done|done|apply Nat.leb_le; by vm_compute|by vm_compute|done].
  cpu_simpl. rewrite arrive64 by done. done.
Qed.

Lemma code64_spec entry :
  entry_word entry ->
  exists a',
  exec_block code64 (mkCpu 0x80000011 INITIAL_PML4T 0xB0 0x500 47 (TRAMPOLINE_ADDR + gdt_desc64 lay)
            (mkSeg 0x10 0 0x00209a0000000000) d s a cx dx di false) =
    Done (mkCpu 0x80000011 INITIAL_PML4T 0xB0 0x500 47 (TRAMPOLINE_ADDR + gdt_desc64 lay)
            (mkSeg 0x10 0 0x00209a0000000000) (mkSeg 0x18 0 0x0000920000000000)
            (mkSeg 0x18 0 0x0000920000000000) a' cx dx di false, Exit entry).
Proof.
  intros (bs & Hlen & Hi & He). eexists. unfold code64.
  assert (forall c, cr0 c = 0x80000011 -> cr3 c = INITIAL_PML4T -> gdt_limit c = 47 ->
    gdt_base c = TRAMPOLINE_ADDR + gdt_desc64 lay ->
    load_segment c 0x18 = Done (mkSeg 0x18 0 0x0000920000000000)) as Hseg.
  { intros c E0 E3 El Eb. rewrite (load_descriptor c (gdt_desc64 lay) gdt64_bytes 0x18 0x0000920000000000);
      [done|by right|unfold protected; by rewrite E0|done|apply Hasm|done|by rewrite El
      |apply Nat.leb_le; by vm_compute|by vm_compute|done]. }
  erewrite exec_fall; [|by right|reflexivity]. cpu_simpl.
  erewrite exec_fall; [|by right|cbn [exec16 rax]; rewrite ax_set_ax, Hseg by done; reflexivity].
  cpu_simpl.
  erewrite exec_fall; [|by right|cbn [exec16 rax]; rewrite ax_set_ax, Hseg by done; reflexivity].
  cpu_simpl. erewrite exec_fall; [|by right|reflexivity]. cpu_simpl.
  apply exec_last; [by right| |done]. cbn [exec16 rax].
  rewrite <- (Z.add_0_r (TRAMPOLINE_ADDR + 8)). change 0 with (Z.of_nat 0) at 1.
  rewrite (read_trampoline _ 8 0 8 bs) by (done || (by right) || lia).
  rewrite drop_0, take_ge by lia. by rewrite He.
Qed.
End Parts.

(** The state the trampoline hands to the friend. *)
Record entered (c : cpu) : Prop := {
  en_modes : protected c = true /\ paging c = true /\ long_mode c = true;
  en_cr3 : cr3 c = INITIAL_PML4T;
  en_cr0 : cr0 c = 0x80000011;           (* caches on, write protection of the kernel off *)
  en_cr4 : cr4 c = 0xB0;                 (* PSE, PAE, PGE *)
  en_data : ds c = mkSeg 0x18 0 0x0000920000000000 /\ ss c = ds c;
  en_cli : interrupts c = false
}.

Lemma trampoline_spec entry c :
  entry_word entry -> started_at (TRAMPOLINE_ADDR / 2 ^ 12) c ->
  exists c', trampoline c = Done (c', entry) /\ entered c'.
Proof.
  intros Hi (Hc0 & E4 & Ee & Ec). destruct c as [c0 r3 r4 e gl gb cseg d s a cx dx di fl].
  cbn in Hc0, E4, Ee, Ec. subst r4 e cseg. unfold trampoline. cbn [run16 code_of].
  destruct (code16_spec c0 r3 gl gb d s a cx dx di fl Hc0) as (a1 & d1 & E1).
  change (mkSeg (TRAMPOLINE_ADDR / 2 ^ 12 * 2 ^ 8) (TRAMPOLINE_ADDR / 2 ^ 12 * 2 ^ 12) 0)
    with (mkSeg 0x7000 0x70000 0). rewrite E1.
  destruct (code32_spec c0 r3 d1 s a1 cx dx di Hc0) as (a2 & cx2 & dx2 & di2 & d2 & E2).
  cbn [code_of]. rewrite E2.
  destruct (code64_spec d2 s a2 cx2 dx2 di2 entry Hi) as (a3 & E3).
  cbn [code_of]. rewrite E3. eexists. split; [reflexivity|]. by split.
Qed.
End Run.
End Machine.

(** ** Properties *)

(** C7: The trampoline of friend_boot16.S.  In any physical memory that holds the
    assembled binary at TRAMPOLINE_ADDR with an entry address at offset 8, and page
    tables at INITIAL_PML4T that map the trampoline page to itself, a core started
    there in real mode runs the code without a fault, goes through protected mode
    into long mode, and leaves it at the entry address with paging on, the caches
    enabled, interrupts disabled and the data segments of the 64-bit table. *)
Theorem trampoline_enters_friend lay byte word entry c :
  assembled lay byte -> trampoline_mapped word -> entry_word byte entry ->
  started_at (TRAMPOLINE_ADDR / 2 ^ 12) c ->
  exists c', trampoline lay byte word c = Done (c', entry) /\ entered c'.
Proof. intros Ha Hm Hi Hc. by apply trampoline_spec. Qed.

(** ** The memory [Loader16::Init] leaves *)

(** Physical bytes a friend core sees. *)
Definition phys_byte (p : proc) (a : Z) : option Z :=
  if decide (in_trampoline a) then phys p !! a
  else if decide (in_friend_region a) then vm p !! a
  else None.

(** The trampoline binary as the file it is linked from. *)
Definition image_of (bin : list Z) (a : Z) : option Z :=
  if decide (TRAMPOLINE_ADDR <= a) then bin !! Z.to_nat (a - TRAMPOLINE_ADDR) else None.

(** The tables of the binary lie behind the entry word. *)
Definition tables_after_entry (lay : layout16) : Prop :=
  16 <= gdtr32 lay /\ 16 <= gdt_desc32 lay /\ 16 <= gdtr64 lay /\ 16 <= gdt_desc64 lay.

Lemma assembled_agree lay byte byte' :
  tables_after_entry lay ->
  (forall a b, TRAMPOLINE_ADDR + 16 <= a < TRAMPOLINE_ADDR + PAGE_SIZE ->
     byte a = Some b -> byte' a = Some b) ->
  assembled lay byte -> assembled lay byte'.
Proof.
  intros (T1 & T2 & T3 & T4) Hag [H1 H2 H3 H4 H5 H6].
  assert (forall off bs, 16 <= off -> image_at byte off bs -> image_at byte' off bs) as Hi.
  { intros off bs Ho (A & B & C). split_and!; [done|done|]. intros k b Hk.
    pose proof (lookup_lt_Some _ _ _ Hk). apply Hag; [lia|]. by apply C. }
  split; auto.
Qed.

(** What the trampoline needs of a process that has set everything up. *)
Lemma booted_trampoline lay p' bin entry :
  tables_after_entry lay -> assembled lay (image_of bin) ->
  Z.of_nat (length bin) <= PAGE_SIZE ->
  (forall i, 0 <= i < Z.of_nat (length bin) -> ~ (8 <= i < 16) ->
     phys p' !! (TRAMPOLINE_ADDR + i) = bin !! Z.to_nat i) ->
  boot_read p' (TRAMPOLINE_ADDR + 8) = Some entry ->
  (forall va, 0 <= va < k512GB -> walk (boot_read p') INITIAL_PML4T va = boot_translation va) ->
  assembled lay (phys_byte p') /\ trampoline_mapped (boot_read p') /\
  entry_word (phys_byte p') entry.
Proof.
  intros Ht Ha Hl Hb Hen Hw.
  assert (forall a, TRAMPOLINE_ADDR <= a < TRAMPOLINE_ADDR + TRAMPOLINE_SIZE ->
    phys_byte p' a = phys p' !! a) as Hpb.
  { intros a Hin. unfold phys_byte. rewrite decide_True; [done|]. unfold in_trampoline. lia. }
  unfold PAGE_SIZE, TRAMPOLINE_SIZE in *. split_and!.
  - apply (assembled_agree lay (image_of bin)); [done| |done]. intros a x Hin E.
    unfold PAGE_SIZE in Hin. unfold image_of in E. rewrite decide_True in E by lia. rewrite Hpb by lia.
    pose proof (lookup_lt_Some _ _ _ E) as Hlt.
    replace a with (TRAMPOLINE_ADDR + (a - TRAMPOLINE_ADDR)) by lia. by rewrite Hb by lia.
  - intros lin Hlin. rewrite Hw.
    + unfold boot_translation. rewrite decide_True; [done|]. left. unfold TRAMPOLINE_ADDR, PAGE_SIZE, k2MB in *. lia.
    + unfold TRAMPOLINE_ADDR, PAGE_SIZE, k512GB in *. lia.
  - unfold boot_read in Hen. rewrite decide_True in Hen by done. unfold read64 in Hen.
    destruct (read_bytes (phys p') (TRAMPOLINE_ADDR + 8) 8) as [bs|] eqn:Eb; [|done].
    injection Hen as Hen. apply read_bytes_lookup in Eb as [Elen Hh]; [|done|done].
    exists bs. split_and!; [done| |done]. split_and!; [done|rewrite Elen; done|].
    intros k x Hk. rewrite Hpb; [by apply Hh|].
    apply lookup_lt_Some in Hk. lia.
Qed.

(** *** Witness: the binary as GNU as lays it out, and page tables that map
    everything below 1 GB to itself. *)

Definition demo_layout : layout16 := mkLayout 0x32 0x38 0x50 0xf2 0xc0 0xa8.

Definition demo_word (a : Z) : option Z :=
  if a =? INITIAL_PML4T then Some 0x10000000F
  else if a =? 0x100000000 then Some 0x87 else Some 0.

Definition demo_trampoline_image : list Z :=
  replicate 8 0 ++ le_bytes 8 0x100001234 ++ replicate 34 0 ++ gdtr32_bytes demo_layout ++
  gdt32_bytes ++ replicate 112 0 ++ gdt64_bytes ++ replicate 2 0 ++ gdtr64_bytes demo_layout.

Definition demo_cpu : cpu :=
  mkCpu 0x60000010 0 0 0 0xFFFF 0 (mkSeg 0x7000 0x70000 0) (mkSeg 0 0 0) (mkSeg 0 0 0)
    0 0 0x663 0 true.

(** Bytes of a list at an offset, by evaluation. *)
Lemma image_of_at bin off bs :
  0 <= off -> off + Z.of_nat (length bs) <= PAGE_SIZE ->
  take (length bs) (drop (Z.to_nat off) bin) = bs -> image_at (image_of bin) off bs.
Proof.
  intros H0 Hl E. split_and!; [done|done|]. intros k b Hk. unfold image_of.
  rewrite decide_True by lia.
  replace (Z.to_nat (TRAMPOLINE_ADDR + off + Z.of_nat k - TRAMPOLINE_ADDR))
    with (Z.to_nat off + k)%nat by lia.
  rewrite <- lookup_drop. rewrite <- E in Hk. by apply lookup_take_Some in Hk as [? _].
Qed.

Lemma demo_assembled : assembled demo_layout (image_of demo_trampoline_image).
Proof.
  split; [apply image_of_at; by vm_compute..|by vm_compute|by vm_compute].
Qed.

Lemma trampoline_enters_friend_witness :
  exists c', trampoline demo_layout (image_of demo_trampoline_image) demo_word demo_cpu =
    Done (c', 0x100001234) /\ entered c'.
Proof.
  apply trampoline_enters_friend.
  - exact demo_assembled.
  - intros lin Hlin. unfold TRAMPOLINE_ADDR, PAGE_SIZE in Hlin. unfold walk, entry.
    replace (pml4_index lin) with 0 by (unfold pml4_index, k256TB, k512GB; rewrite Z.mod_small, Z.div_small; lia).
    replace (pdpt_index lin) with 0 by (unfold pdpt_index, k512GB, k1GB; rewrite Z.mod_small, Z.div_small; lia).
    change (Some (pte_base 30 0x87 + lin mod k1GB) = Some lin).
    unfold k1GB. by rewrite Z.mod_small by lia.
  - exists (le_bytes 8 0x100001234). split_and!; [reflexivity| |reflexivity].
    apply image_of_at; by vm_compute.
  - split_and!; [by exists true, true|reflexivity|reflexivity|reflexivity].
Defined.

(** The same run, evaluated. *)
Lemma demo_trampoline_run :
  (match trampoline demo_layout (image_of demo_trampoline_image) demo_word demo_cpu with
   | Done (c, rip) => Some (rip, cr0 c, cr4 c, efer c, cr3 c)
   | Fault _ => None
   end) = Some (0x100001234, 0x80000011, 0xB0, 0x500, INITIAL_PML4T).
Proof. by vm_compute. Qed.

End Friend16.
