(* ===== verification/Kernel.v ===== *)
(** * Kernel: the Linux interfaces FriendLoader calls

    FriendLoader is a Linux module.  The kernel is an interface: the class
    [Kernel] gives the answer to every call as a function of the calls made so
    far, so the theorems of the module hold for every behaviour of the kernel,
    failures included.  A run records its calls with their answers in [hist];
    [live] reads from such a record which kernel objects the module holds.  The
    static variables of the module's files are the other fields of [kstate]. *)

From S2P Require Import Prelude Memory.

(** ** Calls *)

(** The [struct cdev] and [struct file_operations] objects of the module. *)
Inductive cdev := memdevice_cdev | bootmemdevice_cdev | cpudevice_cdev.
Inductive file_operations := s_memdevice_fops | s_bootmemdevice_fops | s_cpudevice_fops.

#[export] Instance cdev_eq_dec : EqDecision cdev.
Proof. solve_decision. Defined.
#[export] Instance file_operations_eq_dec : EqDecision file_operations.
Proof. solve_decision. Defined.

(** Calls and accesses with an effect or an answer.  Pointers and device numbers
    are integers; a call without a result is answered by a number nobody looks
    at.  [alloc_chrdev_region] has two results: an answer below zero is the error
    it returns, any other answer is the device number it stores, returning 0. *)
Inductive kcall :=
| alloc_chrdev_region (baseminor count : Z) (name : string)
| unregister_chrdev_region (dev count : Z)
| class_create (name : string)
| class_destroy (cls : Z)
| device_create (cls dev : Z) (name : string)
| device_destroy (cls dev : Z)
| cdev_init (c : cdev) (fops : file_operations)
| cdev_add (c : cdev) (dev count : Z)
| cdev_del (c : cdev)
| kobject_create_and_add (name : string)
| sysfs_create_group (kobj : Z)
| kobject_put (kobj : Z)
| remap_pfn_range (addr pfn size prot : Z)
| printk (fmt : string) (args : list Z)
| kmalloc (size : Z)
| get_online_cpus
| put_online_cpus
| cpu_online (cpu : Z)
| cpu_present (cpu : Z)
| cpu_is_hotpluggable (cpu : Z)
| cpu_down (cpu : Z)
| cpu_up (cpu : Z)
| get_uv_system_type
| cpu_present_to_apicid (cpu : Z)
| spin_lock_irqsave
| spin_unlock_irqrestore
| CMOS_WRITE (val addr : Z)
| phys_write16 (addr val : Z)
| apic_read (reg : Z)
| apic_write (reg val : Z)
| apic_icr_write (low id : Z)
| safe_apic_wait_icr_idle
| udelay (usecs : Z)
| mb
| preempt_disable
| preempt_enable.

#[export] Instance kcall_eq_dec : EqDecision kcall.
Proof. solve_decision. Defined.

Definition event : Type := kcall * Z.

(** The kernel and the machine: the answers, and the numbers fixed at boot. *)
Class Kernel := {
  answer : list event -> kcall -> Z;
  num_possible_cpus : Z;
  nr_cpu_ids : Z;
  apic_integrated : bool   (* APIC_INTEGRATED(boot_cpu_apic_version) *)
}.

(** ** State *)

(** The statics a memory device keeps: its [dev_t] and its class. *)
Record memdev := mkMemdev { md_dev : Z; md_class : Z }.

Record kstate := mkK {
  hist : list event;                    (* calls so far, latest first *)
  memdevice : memdev;                   (* memdevice_dev, memdevice_class *)
  bootmemdevice : memdev;               (* bootmemdevice_dev, bootmemdevice_class *)
  unpluged_cpu_list : option (list Z);  (* None: NULL *)
  minor_num : Z;
  cpudevice_major : Z;
  cpudevice_class : Z;
  call_sysfs_kobj : Z
}.

(** The statics as the module is loaded. *)
Definition loaded : kstate := mkK [] (mkMemdev 0 0) (mkMemdev 0 0) None 0 0 0 0.

Definition set_hist (h : list event) (k : kstate) : kstate :=
  mkK h (memdevice k) (bootmemdevice k) (unpluged_cpu_list k) (minor_num k)
    (cpudevice_major k) (cpudevice_class k) (call_sysfs_kobj k).
Definition set_list (l : option (list Z)) (k : kstate) : kstate :=
  mkK (hist k) (memdevice k) (bootmemdevice k) l (minor_num k)
    (cpudevice_major k) (cpudevice_class k) (call_sysfs_kobj k).

Definition modify (f : kstate -> kstate) : M kstate unit := fun k => Done (tt, f k).
Definition read {A} (f : kstate -> A) : M kstate A := fun k => Done (f k, k).

Definition call `{Kernel} (c : kcall) : M kstate Z := fun k =>
  let r := answer (hist k) c in Done (r, set_hist ((c, r) :: hist k) k).

(** A call whose result is not used. *)
Definition exec `{Kernel} (c : kcall) : M kstate unit := call c;; mret tt.

(** ** Linux constants and macros *)

Definition EIO : Z := 5.
Definition ENXIO : Z := 6.
Definition EAGAIN : Z := 11.
Definition EINVAL : Z := 22.
Definition MAX_ERRNO : Z := 4095.
Definition PAGE_SHIFT : Z := 12.

(** [IS_ERR(ptr)]: [ptr] is one of the last 4095 addresses. *)
Definition IS_ERR (ptr : Z) : bool := u64 (- MAX_ERRNO) <=? u64 ptr.

Definition MINORBITS : Z := 20.
Definition MAJOR (dev : Z) : Z := Z.shiftr dev MINORBITS.
Definition MINOR (dev : Z) : Z := Z.land dev (Z.shiftl 1 MINORBITS - 1).
Definition MKDEV (ma mi : Z) : Z := Z.lor (Z.shiftl ma MINORBITS) mi.

(** ** Kernel objects held *)

Inductive resource :=
| RChrdev (dev count : Z)
| RClass (cls : Z)
| RDevice (cls dev : Z)
| RCdev (c : cdev)
| RKobj (kobj : Z)
| RGroup (kobj : Z)
| RMem (ptr : Z).

#[export] Instance resource_eq_dec : EqDecision resource.
Proof. solve_decision. Defined.

(** Remove the latest occurrence. *)
Fixpoint release (r : resource) (l : list resource) : list resource :=
  match l with
  | [] => []
  | x :: l' => if decide (x = r) then l' else x :: release r l'
  end.

(** The effect of a call on the objects held, by the kernel's documentation of
    the call and its answer. *)
Definition apply_event (e : event) (l : list resource) : list resource :=
  match e with
  | (alloc_chrdev_region _ count _, r) => if r <? 0 then l else RChrdev r count :: l
  | (unregister_chrdev_region dev count, _) => release (RChrdev dev count) l
  | (class_create _, r) => if IS_ERR r then l else RClass r :: l
  | (class_destroy cls, _) => release (RClass cls) l
  | (device_create cls dev _, r) => if IS_ERR r || (r =? 0) then l else RDevice cls dev :: l
  | (device_destroy cls dev, _) => release (RDevice cls dev) l
  | (cdev_add c _ _, r) => if r =? 0 then RCdev c :: l else l
  | (cdev_del c, _) => release (RCdev c) l
  | (kobject_create_and_add _, r) => if r =? 0 then l else RKobj r :: l
  | (sysfs_create_group k, r) => if r =? 0 then RGroup k :: l else l
  | (kobject_put k, _) => release (RKobj k) (release (RGroup k) l)
  | (kmalloc _, r) => if r =? 0 then l else RMem r :: l
  | _ => l
  end.

Fixpoint live (h : list event) : list resource :=
  match h with
  | [] => []
  | e :: h' => apply_event e (live h')
  end.

(** ** Lemmas *)

Lemma release_head r l : release r (r :: l) = l.
Proof. cbn [release]. by rewrite decide_True. Qed.

Lemma release_absent r l : r ∉ l -> release r l = l.
Proof.
  induction l as [|x l IH]; [done|]. rewrite not_elem_of_cons. intros [Hx Hl].
  cbn [release]. rewrite decide_False by done. by rewrite IH.
Qed.

Lemma release_app_l r l l' : r ∈ l -> release r (l ++ l') = release r l ++ l'.
Proof.
  induction l as [|x l IH]; [by intros ?%elem_of_nil|]. intros Hin. cbn [release app].
  case_decide as Hx; [done|]. cbn [app]. f_equal. apply IH.
  apply elem_of_cons in Hin as [->|Hin]; done.
Qed.

Lemma release_app_r r l l' : r ∉ l -> release r (l ++ l') = l ++ release r l'.
Proof.
  induction l as [|x l IH]; [done|]. rewrite not_elem_of_cons. intros [Hx Hl].
  cbn [release app]. rewrite decide_False by done. by rewrite IH.
Qed.

(** Releasing objects one after the other. *)
Definition release_list (rs l : list resource) : list resource :=
  foldl (fun l r => release r l) l rs.

Lemma release_list_app rs1 rs2 l :
  release_list (rs1 ++ rs2) l = release_list rs2 (release_list rs1 l).
Proof. apply foldl_app. Qed.

Lemma release_perm r l : r ∈ l -> l ≡ₚ r :: release r l.
Proof.
  induction l as [|x l IH]; intros Hin; [by apply elem_of_nil in Hin|]. cbn [release].
  case_decide as Hx; [subst; reflexivity|].
  apply elem_of_cons in Hin as [Hr|Hin]; [by subst|].
  rewrite (IH Hin) at 1. apply Permutation_swap.
Qed.

(** Whatever the order in which the objects acquired last are released, what was
    held before remains. *)
Lemma release_list_perm rs l before :
  rs ≡ₚ l -> release_list rs (l ++ before) = before.
Proof.
  revert l. induction rs as [|r rs IH]; intros l Hp.
  { symmetry in Hp. apply Permutation_nil_r in Hp. by subst. }
  assert (r ∈ l) as Hin by (rewrite <- Hp; apply elem_of_cons; by left).
  cbn [release_list foldl]. rewrite release_app_l by done. apply IH.
  apply (Permutation_cons_inv (a := r)). by rewrite Hp, <- release_perm.
Qed.

Lemma MAJOR_MKDEV ma mi : 0 <= ma -> 0 <= mi < 2 ^ 20 -> MAJOR (MKDEV ma mi) = ma.
Proof.
  intros Hma Hmi. unfold MAJOR, MKDEV, MINORBITS. rewrite Z.shiftr_lor.
  rewrite Z.shiftr_shiftl_l, Z.sub_diag, Z.shiftl_0_r by lia.
  rewrite (Z.shiftr_div_pow2 mi), Z.div_small by lia. apply Z.lor_0_r.
Qed.

Lemma MINOR_MKDEV ma mi : 0 <= ma -> 0 <= mi < 2 ^ 20 -> MINOR (MKDEV ma mi) = mi.
Proof.
  intros Hma Hmi. unfold MINOR, MKDEV, MINORBITS.
  change (Z.shiftl 1 20 - 1) with (Z.ones 20). rewrite Z.land_ones by lia.
  rewrite Z.shiftl_mul_pow2 by lia.
  rewrite (lor_flags 20) by (done || lia || by apply Z.mod_mul).
  rewrite Z.add_comm, Z.mod_add by lia. by apply Z.mod_small.
Qed.

(** Simplify [live] of a record of calls whose outcomes are known. *)
Ltac live_simpl :=
  repeat (autorewrite with kst; cbn [live apply_event]);
  repeat match goal with
  | H : ?b = _ |- context [if ?b then _ else _] => rewrite H
  | H : ?r < 0 |- context [?r <? 0] => rewrite (proj2 (Z.ltb_lt r 0) H)
  | H : 0 <= ?r |- context [?r <? 0] => rewrite (proj2 (Z.ltb_ge r 0) H)
  | H : ?r = 0 |- context [?r =? 0] => rewrite (proj2 (Z.eqb_eq r 0) H)
  | H : ?r <> 0 |- context [?r =? 0] => rewrite (proj2 (Z.eqb_neq r 0) H)
  | H : IS_ERR ?r = _ |- context [IS_ERR ?r] => rewrite H
  | |- context [(_ || _)%bool] => progress cbn [orb]
  | |- context [release ?r (?r :: ?l)] => rewrite (release_head r l)
  end.

(** ** Rules of the primitives *)

Lemma wp_call `{Kernel} c Q k :
  (forall r, r = answer (hist k) c -> Q r (set_hist ((c, r) :: hist k) k)) -> wp (call c) Q k.
Proof. intros HQ. apply HQ. done. Qed.

Lemma wp_exec `{Kernel} c (Q : unit -> kstate -> Prop) k :
  (forall r, Q tt (set_hist ((c, r) :: hist k) k)) -> wp (exec c) Q k.
Proof. intros HQ. apply HQ. Qed.

Lemma wp_modify f (Q : unit -> kstate -> Prop) k : Q tt (f k) -> wp (modify f) Q k.
Proof. done. Qed.

Lemma wp_read {A} (f : kstate -> A) Q k : Q (f k) k -> wp (read f) Q k.
Proof. done. Qed.

Ltac wp_prim ::=
  lazymatch goal with
  | |- wp (exec _) _ _ => apply wp_exec; intros ?
  | |- wp (call _) _ _ => apply wp_call; let r := fresh "r" in let E := fresh "E" r in intros r E
  | |- wp (modify _) _ _ => apply wp_modify
  | |- wp (read _) _ _ => apply wp_read
  end.
Ltac wp_steps := repeat wp_step.

Lemma hist_set_hist h k : hist (set_hist h k) = h.
Proof. done. Qed.

Create Rewrite HintDb kst.
#[export] Hint Rewrite hist_set_hist : kst.

(** ** Traces

    [extends k k' evs]: from [k], the calls [evs] (latest first) lead to [k'] and
    no static variable changes. *)
Definition extends (k k' : kstate) (evs : list event) : Prop :=
  k' = set_hist (evs ++ hist k) k.

Lemma extends_refl k : extends k k [].
Proof. by destruct k. Qed.

Lemma extends_trans k1 k2 k3 e1 e2 :
  extends k1 k2 e1 -> extends k2 k3 e2 -> extends k1 k3 (e2 ++ e1).
Proof. unfold extends. intros -> ->. unfold set_hist. simpl. by rewrite app_assoc. Qed.

Lemma extends_call k c r : extends k (set_hist ((c, r) :: hist k) k) [(c, r)].
Proof. done. Qed.

(** [emits ok out c Φ]: a computation whose calls all satisfy [ok] and leave the
    statics alone; [Φ] relates its value and the observations [out] makes of its
    calls, in order. *)
Definition observations {O} (out : kcall -> Z -> option O) (evs : list event) : list O :=
  omap (fun e => out e.1 e.2) (rev evs).

Lemma observations_app {O} (out : kcall -> Z -> option O) e1 e2 :
  observations out (e2 ++ e1) = observations out e1 ++ observations out e2.
Proof. unfold observations. by rewrite rev_app_distr, omap_app. Qed.

Section Emits.
Context `{Kernel} {O : Type} (ok : kcall -> bool) (out : kcall -> Z -> option O).

Definition emits {A} (c : M kstate A) (Φ : A -> list O -> Prop) : Prop :=
  forall k, wp c (fun a k' => exists evs, extends k k' evs /\
    Forall (fun e => ok e.1 = true) evs /\ Φ a (observations out evs)) k.

Lemma emits_ret {A} (a : A) (Φ : A -> list O -> Prop) : Φ a [] -> emits (mret a) Φ.
Proof. intros HΦ k. apply wp_ret. exists []. split_and!; [apply extends_refl|done|done]. Qed.

Lemma emits_bind {A B} (c : M kstate A) (f : A -> M kstate B) Φ Ψ :
  emits c Ψ -> (forall a X, Ψ a X -> emits (f a) (fun b Y => Φ b (X ++ Y))) ->
  emits (c ≫= f) Φ.
Proof.
  intros Hc Hf k. apply wp_bind. eapply wp_mono; [apply Hc|].
  intros a k1 (e1 & E1 & O1 & H1). eapply wp_mono; [by apply Hf|].
  intros b k2 (e2 & E2 & O2 & H2). exists (e2 ++ e1).
  split_and!; [by eapply extends_trans|by apply Forall_app|by rewrite observations_app].
Qed.

Lemma emits_call c (Φ : Z -> list O -> Prop) :
  ok c = true ->
  (forall h r, r = answer h c -> Φ r (match out c r with Some o => [o] | None => [] end)) ->
  emits (call c) Φ.
Proof.
  intros Hc HΦ k. apply wp_call. intros r Er. exists [(c, r)].
  split_and!; [apply extends_call|by apply Forall_singleton|].
  specialize (HΦ _ _ Er). unfold observations. simpl. by destruct (out c r).
Qed.

Lemma emits_mono {A} (c : M kstate A) (Φ Ψ : A -> list O -> Prop) :
  emits c Φ -> (forall a X, Φ a X -> Ψ a X) -> emits c Ψ.
Proof.
  intros Hc HΦ k. eapply wp_mono; [apply Hc|]. intros a k' (e & E & HO & H'). eauto 6.
Qed.

Lemma emits_call_bind {A} c (f : Z -> M kstate A) Φ :
  ok c = true ->
  (forall h r, r = answer h c ->
     emits (f r) (fun a Y => Φ a (match out c r with Some o => o :: Y | None => Y end))) ->
  emits (call c ≫= f) Φ.
Proof.
  intros Hc Hf. eapply emits_bind.
  - apply (emits_call _ (fun r X => (exists h, r = answer h c) /\
      X = match out c r with Some o => [o] | None => [] end)); eauto.
  - intros r X [[h Er] ->]. eapply emits_mono; [by eapply Hf|]. by destruct (out c r).
Qed.

Lemma emits_exec_bind {A} c (f : unit -> M kstate A) Φ :
  ok c = true ->
  (forall r, emits (f tt) (fun a Y => Φ a (match out c r with Some o => o :: Y | None => Y end))) ->
  emits (exec c ≫= f) Φ.
Proof. intros Hc Hf. exact (emits_call_bind c (fun _ => f tt) Φ Hc (fun _ r _ => Hf r)). Qed.

Lemma emits_exec c (Φ : unit -> list O -> Prop) :
  ok c = true -> (forall r, Φ tt (match out c r with Some o => [o] | None => [] end)) ->
  emits (exec c) Φ.
Proof.
  intros Hc HΦ. apply emits_call_bind; [done|]. intros h r _. apply emits_ret.
  specialize (HΦ r). by destruct (out c r).
Qed.

Lemma emits_if {A} (b : bool) (c d : M kstate A) Φ :
  (b = true -> emits c Φ) -> (b = false -> emits d Φ) -> emits (if b then c else d) Φ.
Proof. destruct b; auto. Qed.

(** A conditional call that [out] does not observe. *)
Lemma emits_when_bind {A} (b : bool) c (f : unit -> M kstate A) Φ :
  ok c = true -> (forall r, out c r = None) -> emits (f tt) Φ ->
  emits ((if b then exec c else mret tt) ≫= f) Φ.
Proof.
  intros Hc Hn Hf. destruct b.
  - apply emits_exec_bind; [done|]. intros r. by rewrite Hn.
  - eapply emits_bind; [by apply (emits_ret tt (fun _ X => X = []))|]. by intros [] X ->.
Qed.
End Emits.

Ltac emits_step :=
  lazymatch goal with
  | |- emits _ _ (mbind _ (if _ then exec _ else mret tt)) _ =>
      apply emits_when_bind; [reflexivity|intros ?; reflexivity|]
  | |- emits _ _ (mbind _ (exec _)) _ => apply emits_exec_bind; [reflexivity|]; let u := fresh "u" in intros u
  | |- emits _ _ (mbind _ (call _)) _ =>
      apply emits_call_bind; [reflexivity|];
      let h := fresh "h" in let r := fresh "r" in let E := fresh "E" r in intros h r E
  | |- emits _ _ (exec _) _ => apply emits_exec; [reflexivity|]; let u := fresh "u" in intros u
  | |- emits _ _ (mret _) _ => apply emits_ret
  | |- emits _ _ (if _ then _ else _) _ => apply emits_if; intros ?; zbool
  | |- emits _ _ (let _ := _ in _) _ => cbv zeta
  end; cbv beta.

(** ** A concrete kernel *)

(** A kernel whose calls all succeed, on a machine of four processors. *)
Definition good_kernel : Kernel := {|
  answer := fun h c =>
    match c with
    | alloc_chrdev_region base _ _ => MKDEV (240 + Z.of_nat (length h)) base
    | class_create _ | device_create _ _ _ | kobject_create_and_add _ | kmalloc _ =>
        0xffff888000000000
    | cpu_online c | cpu_present c | cpu_is_hotpluggable c => if (0 <=? c) && (c <? 4) then 1 else 0
    | cpu_present_to_apicid i => 2 * i
    | _ => 0
    end;
  num_possible_cpus := 4;
  nr_cpu_ids := 4;
  apic_integrated := true
|}.
