(* ===== verification/CallInterface.v ===== *)
(** * CallInterface: the memory devices, FriendLoader/call_interface.c

    /dev/friend_mem maps the friend region into a process and
    /dev/friend_bootmem0x70000 the trampoline.  The theorems state which physical
    pages an accepted mmap reaches, and what the set-up of a device holds when it
    succeeds and when it fails. *)

From S2P Require Import Prelude Memory Kernel.
Import Layout.

Record vm_area_struct := mkVma {
  vm_start : Z;
  vm_end : Z;
  vm_pgoff : Z;
  vm_page_prot : Z;
  vm_ops : bool        (* vma->vm_ops is &mmap_vm_ops *)
}.

Definition set_vm_ops (v : vm_area_struct) : vm_area_struct :=
  mkVma (vm_start v) (vm_end v) (vm_pgoff v) (vm_page_prot v) true.

Definition DRIVER_NAME : string := "FriendLoader".

Section CallInterface.
Context `{Kernel}.

Definition memdevice_open : M kstate Z := mret 0.
Definition memdevice_close : M kstate Z := mret 0.

(** The result and the vma as the handler leaves it. *)
Definition memdevice_mmap (vma : vm_area_struct) : M kstate (Z * vm_area_struct) :=
  let size := u64 (vm_end vma - vm_start vma) in
  let phys_start := u64 (Z.shiftl (vm_pgoff vma) PAGE_SHIFT) in
  let phys_end := u64 (phys_start + size) in
  if u64 (phys_end - 1) <? phys_start then mret (- EINVAL, vma)
  else if (phys_start >? DEPLOY_PHYS_MEM_SIZE) || (phys_end >? DEPLOY_PHYS_MEM_SIZE) then
    mret (- EINVAL, vma)
  else
    let vma := set_vm_ops vma in
    r ← call (remap_pfn_range (vm_start vma)
                (u64 (vm_pgoff vma + Z.shiftr DEPLOY_PHYS_ADDR_START PAGE_SHIFT))
                size (vm_page_prot vma));
    if negb (r =? 0) then mret (- EAGAIN, vma) else mret (0, vma).

Definition bootmemdevice_mmap (vma : vm_area_struct) : M kstate (Z * vm_area_struct) :=
  let size := u64 (vm_end vma - vm_start vma) in
  if vm_pgoff vma >? 0 then mret (- EINVAL, vma)
  else if negb (size =? TRAMPOLINE_SIZE) then mret (- EINVAL, vma)
  else
    let vma := set_vm_ops vma in
    r ← call (remap_pfn_range (vm_start vma) (Z.shiftr TRAMPOLINE_ADDR PAGE_SHIFT)
                size (vm_page_prot vma));
    if negb (r =? 0) then mret (- EAGAIN, vma) else mret (0, vma).

(** The handlers a device file dispatches to. *)
Definition fops_mmap (f : file_operations) :
    option (vm_area_struct -> M kstate (Z * vm_area_struct)) :=
  match f with
  | s_memdevice_fops => Some memdevice_mmap
  | s_bootmemdevice_fops => Some bootmemdevice_mmap
  | s_cpudevice_fops => None
  end.

(** [*memdevice_dev] and [*memdevice_class] are statics passed by address:
    [get] and [set] access them. *)
Definition generic_memdevice_init (get : kstate -> memdev) (set : memdev -> kstate -> kstate)
    (c : cdev) (fops : file_operations) (cname fname : string) : M kstate Z :=
  r ← call (alloc_chrdev_region 0 1 DRIVER_NAME);
  if r <? 0 then
    exec (printk "friend_loader_init: failed to alloc_chrdev_regionn" []);;
    mret (- ENXIO)
  else
    modify (fun k => set (mkMemdev r (md_class (get k))) k);;
    let dev := r in
    cls ← call (class_create cname);
    modify (fun k => set (mkMemdev dev cls) k);;
    let unregister_chrdev := exec (unregister_chrdev_region dev 1);; mret (- ENXIO) in
    let class_destroy := exec (class_destroy cls);; unregister_chrdev in
    let device_destroy := exec (device_destroy cls dev);; class_destroy in
    if IS_ERR cls then
      exec (printk "friend_loader_init: failed to class_create" []);;
      unregister_chrdev
    else
      d ← call (device_create cls dev fname);
      if d =? 0 then class_destroy
      else
        exec (cdev_init c fops);;
        a ← call (cdev_add c dev 1);
        if negb (a =? 0) then device_destroy else mret 0.

Definition set_memdevice (m : memdev) (k : kstate) : kstate :=
  mkK (hist k) m (bootmemdevice k) (unpluged_cpu_list k) (minor_num k)
    (cpudevice_major k) (cpudevice_class k) (call_sysfs_kobj k).
Definition set_bootmemdevice (m : memdev) (k : kstate) : kstate :=
  mkK (hist k) (memdevice k) m (unpluged_cpu_list k) (minor_num k)
    (cpudevice_major k) (cpudevice_class k) (call_sysfs_kobj k).

Definition memdevice_init : M kstate Z :=
  generic_memdevice_init memdevice set_memdevice memdevice_cdev s_memdevice_fops
    "friend_mem" "friend_mem";;
  generic_memdevice_init bootmemdevice set_bootmemdevice bootmemdevice_cdev
    s_bootmemdevice_fops "friend_bootmem" ("friend_bootmem" ++ TRAMPOLINE_ADDR_STR)%string;;
  mret 0.

Definition memdevice_exit : M kstate unit :=
  m ← read memdevice;
  exec (cdev_del memdevice_cdev);;
  exec (device_destroy (md_class m) (md_dev m));;
  exec (class_destroy (md_class m));;
  exec (unregister_chrdev_region (md_dev m) 1);;
  b ← read bootmemdevice;
  exec (cdev_del bootmemdevice_cdev);;
  exec (device_destroy (md_class b) (md_dev b));;
  exec (class_destroy (md_class b));;
  exec (unregister_chrdev_region (md_dev b) 1).

(** ** Mappings *)

(** A successful [remap_pfn_range] maps virtual [va] to physical [pa]. *)
Definition remapped (e : event) (va pa : Z) : Prop :=
  match e with
  | (remap_pfn_range addr pfn size _, 0) =>
      addr <= va < addr + size /\ pa = Z.shiftl pfn PAGE_SHIFT + (va - addr)
  | _ => False
  end.

(** A vma as the kernel's mmap builds it: a non-empty range of user addresses
    (below 2^56, TASK_SIZE with five-level paging) and an offset below 2^64
    bytes. *)
Definition vma_ok (v : vm_area_struct) : Prop :=
  0 <= vm_start v < vm_end v /\ vm_end v <= 2 ^ 56 /\ 0 <= vm_pgoff v < 2 ^ 52.

#[export] Instance vma_ok_dec v : Decision (vma_ok v).
Proof. unfold vma_ok. apply _. Defined.

(** The mapping of [v] over the physical memory from [base]: accepted, the page
    tables are asked for exactly the pages of [base + offset]. *)
Definition spec_mmap (accept : bool) (base : Z) (v : vm_area_struct) (k : kstate) :
    outcome (Z * vm_area_struct * kstate) :=
  if accept then
    let c := remap_pfn_range (vm_start v) (Z.shiftr base PAGE_SHIFT + vm_pgoff v)
               (vm_end v - vm_start v) (vm_page_prot v) in
    let r := answer (hist k) c in
    Done ((if r =? 0 then 0 else - EAGAIN), set_vm_ops v, set_hist ((c, r) :: hist k) k)
  else Done (- EINVAL, v, k).

Lemma memdevice_mmap_spec v k :
  vma_ok v ->
  memdevice_mmap v k =
    spec_mmap (bool_decide (vm_pgoff v * PAGE_SIZE + (vm_end v - vm_start v)
                              <= DEPLOY_PHYS_MEM_SIZE)) DEPLOY_PHYS_ADDR_START v k.
Proof.
  intros (Hs & He & Ho). unfold memdevice_mmap, spec_mmap.
  rewrite Z.shiftl_mul_pow2 by done. change (2 ^ PAGE_SHIFT) with 4096.
  change PAGE_SIZE with 4096. change (Z.shiftr DEPLOY_PHYS_ADDR_START PAGE_SHIFT) with 0x100000.
  change DEPLOY_PHYS_MEM_SIZE with 0x40000000.
  rewrite (u64_small (vm_end v - _)), (u64_small (vm_pgoff v * 4096)) by lia.
  rewrite (u64_small (vm_pgoff v + _)), (Z.add_comm 0x100000) by lia.
  case_bool_decide as Hin.
  - rewrite (u64_small (vm_pgoff v * 4096 + _)) by lia.
    destruct (Z.ltb_spec (u64 (vm_pgoff v * 4096 + (vm_end v - vm_start v) - 1))
                (vm_pgoff v * 4096)) as [Hlt|_].
    { rewrite u64_small in Hlt by lia. lia. }
    destruct (Z.gtb_spec (vm_pgoff v * 4096) 0x40000000); [lia|].
    destruct (Z.gtb_spec (vm_pgoff v * 4096 + (vm_end v - vm_start v)) 0x40000000); [lia|].
    cbn [orb]. unfold call, mbind, M_bind. by destruct (_ =? 0).
  - destruct (Z.ltb_spec (u64 (u64 (vm_pgoff v * 4096 + (vm_end v - vm_start v)) - 1))
                (vm_pgoff v * 4096)) as [_|Hge]; [done|].
    destruct (decide (vm_pgoff v * 4096 > 0x40000000)) as [Hg|Hg].
    { rewrite (proj2 (Z.gtb_lt _ _)) by lia. done. }
    rewrite (u64_small (vm_pgoff v * 4096 + _)) by lia.
    rewrite (proj2 (Z.gtb_lt (vm_pgoff v * 4096 + _) _)) by lia. rewrite orb_true_r. done.
Qed.

Lemma bootmemdevice_mmap_spec v k :
  vma_ok v ->
  bootmemdevice_mmap v k =
    spec_mmap (bool_decide (vm_pgoff v = 0 /\ vm_end v - vm_start v = TRAMPOLINE_SIZE))
      TRAMPOLINE_ADDR v k.
Proof.
  intros (Hs & He & Ho). unfold bootmemdevice_mmap, spec_mmap.
  rewrite (u64_small (vm_end v - _)) by lia.
  destruct (Z.gtb_spec (vm_pgoff v) 0).
  { rewrite bool_decide_eq_false_2 by lia. done. }
  destruct (Z.eqb_spec (vm_end v - vm_start v) TRAMPOLINE_SIZE) as [E|E]; cbn [negb].
  - rewrite bool_decide_eq_true_2 by lia. assert (vm_pgoff v = 0) as -> by lia.
    rewrite Z.add_0_r. unfold call, mbind, M_bind. by destruct (_ =? 0).
  - rewrite bool_decide_eq_false_2 by tauto. done.
Qed.

(** The physical memory behind a device and the requests it accepts. *)
Definition device_base (f : file_operations) : Z :=
  match f with s_bootmemdevice_fops => TRAMPOLINE_ADDR | _ => DEPLOY_PHYS_ADDR_START end.
Definition device_size (f : file_operations) : Z :=
  match f with s_bootmemdevice_fops => TRAMPOLINE_SIZE | _ => DEPLOY_PHYS_MEM_SIZE end.
Definition device_accepts (f : file_operations) (v : vm_area_struct) : Prop :=
  match f with
  | s_bootmemdevice_fops => vm_pgoff v = 0 /\ vm_end v - vm_start v = TRAMPOLINE_SIZE
  | _ => vm_pgoff v * PAGE_SIZE + (vm_end v - vm_start v) <= DEPLOY_PHYS_MEM_SIZE
  end.

#[export] Instance device_accepts_dec f v : Decision (device_accepts f v).
Proof. destruct f; unfold device_accepts; apply _. Defined.

Lemma fops_mmap_spec f h v k :
  fops_mmap f = Some h -> vma_ok v ->
  h v k = spec_mmap (bool_decide (device_accepts f v)) (device_base f) v k.
Proof.
  intros Hf Hv. destruct f; simplify_eq/=;
    [by apply memdevice_mmap_spec|by apply bootmemdevice_mmap_spec].
Qed.

Lemma device_accepts_range f v :
  vma_ok v -> device_accepts f v ->
  Z.shiftl (Z.shiftr (device_base f) PAGE_SHIFT + vm_pgoff v) PAGE_SHIFT =
    device_base f + vm_pgoff v * PAGE_SIZE /\
  vm_pgoff v * PAGE_SIZE + (vm_end v - vm_start v) <= device_size f.
Proof.
  intros (_ & _ & Ho) Ha. rewrite Z.shiftl_mul_pow2 by done. change (2 ^ PAGE_SHIFT) with 4096.
  change PAGE_SIZE with 4096 in *.
  destruct f; cbn [device_base device_size device_accepts] in *; change PAGE_SIZE with 4096 in *;
    [change (Z.shiftr DEPLOY_PHYS_ADDR_START PAGE_SHIFT) with 0x100000
    |change (Z.shiftr TRAMPOLINE_ADDR PAGE_SHIFT) with 0x70
    |change (Z.shiftr DEPLOY_PHYS_ADDR_START PAGE_SHIFT) with 0x100000];
    unfold DEPLOY_PHYS_ADDR_START, TRAMPOLINE_ADDR; lia.
Qed.

(** ** Setting a device up *)

(** The objects a device holds once [generic_memdevice_init] has succeeded. *)
Definition memdevice_objects (c : cdev) (m : memdev) : list resource :=
  [RCdev c; RDevice (md_class m) (md_dev m); RClass (md_class m); RChrdev (md_dev m) 1].

(** The code tests the result of [device_create] against NULL, so it relies on a
    kernel that reports its failures that way. *)
Definition device_create_null : Prop :=
  forall h cls dev name, IS_ERR (answer h (device_create cls dev name)) = false.

Ltac note_devices Hnull :=
  repeat match goal with
  | E : ?r = answer ?h (device_create ?c ?d ?n) |- _ =>
      let N := fresh "N" in
      assert (IS_ERR r = false) as N by (rewrite E; apply Hnull); clear E
  end.

(** Access to one of the two pairs of statics. *)
Class DeviceStatics (get : kstate -> memdev) (set : memdev -> kstate -> kstate) : Prop := {
  ds_get_set : forall m k, get (set m k) = m;
  ds_hist : forall m k, hist (set m k) = hist k;
  ds_get_hist : forall h k, get (set_hist h k) = get k;
  ds_set_set : forall m m' k, set m (set m' k) = set m k;
  ds_set_hist : forall m h k, set_hist h (set m k) = set m (set_hist h k);
  ds_set_get : forall k, set (get k) k = k
}.

Ltac statics_simpl :=
  repeat first [rewrite ds_set_set | rewrite ds_set_hist | rewrite ds_hist | rewrite ds_get_set | rewrite ds_get_hist
               | rewrite hist_set_hist | progress cbn [live apply_event]].
#[export] Instance memdevice_statics : DeviceStatics memdevice set_memdevice.
Proof. split; try done; by intros []. Qed.
#[export] Instance bootmemdevice_statics : DeviceStatics bootmemdevice set_bootmemdevice.
Proof. split; try done; by intros []. Qed.

(** Success holds the objects of the device, failure holds nothing more than
    before; no other static changes. *)
Lemma generic_memdevice_init_spec get set `{!DeviceStatics get set} c fops cname fname k :
  device_create_null ->
  wp (generic_memdevice_init get set c fops cname fname) (fun r k' =>
    ((r = 0 /\ live (hist k') = memdevice_objects c (get k') ++ live (hist k)) \/
     (r = - ENXIO /\ live (hist k') = live (hist k))) /\
    exists m h, k' = set m (set_hist h k)) k.
Proof.
  intros Hnull. unfold generic_memdevice_init.
  wp_steps; note_devices Hnull; (split; [statics_simpl; live_simpl; auto|]).
  { match goal with |- exists _ _, set_hist ?h _ = _ => exists (get (set_hist h k)), h end.
    by rewrite ds_set_get. }
  all: statics_simpl; by eexists _, _.
Qed.

Lemma memdevice_init_spec k :
  device_create_null ->
  wp memdevice_init (fun r k' => r = 0 /\ exists mem boot : bool,
    live (hist k') =
      (if boot then memdevice_objects bootmemdevice_cdev (bootmemdevice k') else []) ++
      (if mem then memdevice_objects memdevice_cdev (memdevice k') else []) ++ live (hist k)) k.
Proof.
  intros Hnull. unfold memdevice_init. apply wp_bind.
  eapply wp_mono; [by apply (generic_memdevice_init_spec _ _)|]. intros r1 k1 [H1 _]. cbv beta.
  apply wp_bind. eapply wp_mono; [by apply (generic_memdevice_init_spec _ _)|].
  intros r2 k2 [H2 (m & h & ->)]. apply wp_ret. split; [done|].
  exists (bool_decide (r1 = 0)), (bool_decide (r2 = 0)).
  destruct H1 as [[-> E1]|[-> E1]], H2 as [[-> E2]|[-> E2]]; by rewrite E2, E1.
Qed.

Lemma memdevice_exit_spec k :
  wp memdevice_exit (fun _ k' => live (hist k') =
    release_list (memdevice_objects memdevice_cdev (memdevice k) ++
                  memdevice_objects bootmemdevice_cdev (bootmemdevice k)) (live (hist k))) k.
Proof. unfold memdevice_exit. by wp_steps. Qed.

(** ** Theorems *)

(** C11: An mmap of /dev/friend_mem or /dev/friend_bootmem0x70000 that returns 0
    maps each address of the requested range, in order, to the physical memory of
    the device from the requested offset on, and to nothing outside the friend
    region or the trampoline respectively; a request that does not fit the device
    is refused with -EINVAL and asks the kernel for nothing. *)
Theorem mmap_confined f h v k :
  fops_mmap f = Some h -> vma_ok v ->
  exists r v' evs, h v k = Done (r, v', set_hist (evs ++ hist k) k) /\
    (r = 0 -> forall va pa,
       (exists e, e ∈ evs /\ remapped e va pa) <->
       vm_start v <= va < vm_end v /\
       pa = device_base f + vm_pgoff v * PAGE_SIZE + (va - vm_start v)) /\
    (forall va pa e, e ∈ evs -> remapped e va pa ->
       device_base f <= pa < device_base f + device_size f) /\
    (r = - EINVAL <-> ~ device_accepts f v) /\ (r = - EINVAL -> evs = [] /\ v' = v).
Proof.
  intros Hf Hv. rewrite (fops_mmap_spec f) by done. unfold spec_mmap.
  case_bool_decide as Ha.
  - destruct (device_accepts_range f v Hv Ha) as [Es Hr]. destruct Hv as (Hs & He & Ho).
    set (c := remap_pfn_range _ _ _ _). set (r := answer (hist k) c).
    assert (forall va pa, remapped (c, r) va pa <-> r = 0 /\ vm_start v <= va < vm_end v /\
      pa = device_base f + vm_pgoff v * PAGE_SIZE + (va - vm_start v)) as Hm.
    { intros va pa. unfold remapped, c. rewrite Es.
      destruct r; [|split; [done|by intros [? _]]..]. rewrite Zplus_minus. tauto. }
    eexists _, _, [(c, r)]. split; [done|]. split_and!.
    + intros Hr0 va pa. setoid_rewrite list_elem_of_singleton.
      destruct (Z.eqb_spec r 0) as [E|E]; [|done]. split.
      * intros (e & -> & Hre). by apply Hm in Hre as [_ ?].
      * intros H'. exists (c, r). split; [done|]. by apply Hm.
    + intros va pa e ->%list_elem_of_singleton (_ & Hva & ->)%Hm. unfold PAGE_SIZE in *. lia.
    + destruct (r =? 0); split; (discriminate || tauto).
    + by destruct (r =? 0).
  - eexists _, _, []. split; [by destruct k|]. split_and!; try done.
    intros va pa e He. by apply elem_of_nil in He.
Qed.

(** [generic_memdevice_init] either returns 0 holding exactly the device
    region, class, device and cdev it registered, or returns -ENXIO after giving
    everything back; it never touches the statics of the other device. *)
Theorem generic_memdevice_init_all_or_nothing get set c fops cname fname k :
  DeviceStatics get set -> device_create_null ->
  exists r k', generic_memdevice_init get set c fops cname fname k = Done (r, k') /\
    ((r = 0 /\ live (hist k') = memdevice_objects c (get k') ++ live (hist k)) \/
     (r = - ENXIO /\ live (hist k') = live (hist k))) /\
    exists m h, k' = set m (set_hist h k).
Proof. intros Hs Hnull. by apply wp_done, generic_memdevice_init_spec. Qed.

(** [memdevice_init] returns 0 whatever the kernel answers, so the error
    branch of [friend_loader_init] that tests it is never taken. *)
Theorem memdevice_init_never_fails k : exists k', memdevice_init k = Done (0, k').
Proof.
  assert (forall get set c fops cname fname k,
    wp (generic_memdevice_init get set c fops cname fname) (fun _ _ => True) k) as Hg.
  { intros. unfold generic_memdevice_init. by wp_steps. }
  assert (wp memdevice_init (fun r _ => r = 0) k) as Hw.
  { unfold memdevice_init. apply wp_bind. eapply wp_mono; [apply Hg|]. intros r1 k1 _.
    apply wp_bind. eapply wp_mono; [apply Hg|]. intros r2 k2 _. by apply wp_ret. }
  apply wp_done in Hw as (r & k' & E & ->). eauto.
Qed.

End CallInterface.

(** ** Concrete kernels *)

#[local] Existing Instance good_kernel.

Definition demo_vma : vm_area_struct := mkVma 0x100000000 0x140000000 0 0 false.

Lemma mmap_confined_witness :
  exists r v' evs,
    memdevice_mmap demo_vma loaded = Done (r, v', set_hist (evs ++ hist loaded) loaded) /\
    (r = 0 -> forall va pa,
       (exists e, e ∈ evs /\ remapped e va pa) <->
       vm_start demo_vma <= va < vm_end demo_vma /\
       pa = device_base s_memdevice_fops + vm_pgoff demo_vma * PAGE_SIZE + (va - vm_start demo_vma)) /\
    (forall va pa e, e ∈ evs -> remapped e va pa ->
       device_base s_memdevice_fops <= pa < device_base s_memdevice_fops + device_size s_memdevice_fops) /\
    (r = - EINVAL <-> ~ device_accepts s_memdevice_fops demo_vma) /\
    (r = - EINVAL -> evs = [] /\ v' = demo_vma).
Proof.
  apply (mmap_confined s_memdevice_fops memdevice_mmap demo_vma loaded).
  - reflexivity.
  - apply (bool_decide_unpack _). by vm_compute.
Defined.

Lemma good_kernel_null : device_create_null.
Proof.
  by intros h cls dev name.
Qed.

Lemma generic_memdevice_init_all_or_nothing_witness :
  exists r k',
    generic_memdevice_init memdevice set_memdevice memdevice_cdev s_memdevice_fops
      "friend_mem" "friend_mem" loaded = Done (r, k') /\
    ((r = 0 /\ live (hist k') = memdevice_objects memdevice_cdev (memdevice k') ++ []) \/
     (r = - ENXIO /\ live (hist k') = [])) /\
    exists m h, k' = set_memdevice m (set_hist h loaded).
Proof.
  apply (generic_memdevice_init_all_or_nothing memdevice set_memdevice memdevice_cdev
           s_memdevice_fops "friend_mem" "friend_mem" loaded).
  - apply memdevice_statics.
  - apply good_kernel_null.
Defined.
