(* ===== verification/CpuHotplug.v ===== *)
(** * CpuHotplug: taking processors from Linux, FriendLoader/cpu_hotplug.c

    [cpu_unplug] takes every hot-pluggable processor but the first offline,
    [cpu_start] starts one of them at the trampoline by the INIT, INIT, STARTUP
    sequence, [cpu_replug] gives one back.  The theorems state which interrupts
    reach which processor, when the functions report success, and that the
    processor list is never overrun. *)

From S2P Require Import Prelude Memory Kernel.
Import Layout.

(** ** Linux constants *)

Definition TRAMPOLINE_PHYS_LOW : Z := 0x467.
Definition TRAMPOLINE_PHYS_HIGH : Z := 0x469.
Definition APIC_LVR : Z := 0x30.
Definition APIC_ESR : Z := 0x280.
Definition APIC_INT_LEVELTRIG : Z := 0x8000.
Definition APIC_INT_ASSERT : Z := 0x4000.
Definition APIC_DM_INIT : Z := 0x500.
Definition APIC_DM_STARTUP : Z := 0x600.
Definition UV_NON_UNIQUE_APIC : Z := 3.
Definition GET_APIC_MAXLVT (x : Z) : Z := Z.land (Z.shiftr x 16) 0xFF.

Definition UDELAY_10MS_DEFAULT : Z := 10000.
Definition init_udelay : Z := UDELAY_10MS_DEFAULT.

Section CpuHotplug.
Context `{Kernel}.

Definition smpboot_setup_warm_reset_vector (start_eip : Z) : M kstate unit :=
  exec spin_lock_irqsave;;
  exec (CMOS_WRITE 0xa 0xf);;
  exec spin_unlock_irqrestore;;
  exec (phys_write16 TRAMPOLINE_PHYS_HIGH (u16 (Z.shiftr start_eip 4)));;
  exec (phys_write16 TRAMPOLINE_PHYS_LOW (u16 (Z.land start_eip 0xf))).

(** [for (j = 1; j <= num_starts; j++)], [n] turns left; the statuses when the
    loop is left. *)
Fixpoint startup_loop (n : nat) (j maxlvt phys_apicid start_eip send_status accept_status : Z) :
    M kstate (Z * Z) :=
  match n with
  | O => mret (send_status, accept_status)
  | S n' =>
      exec (printk "Sending STARTUP #%d" [j]);;
      (if maxlvt >? 3 then exec (apic_write APIC_ESR 0) else mret tt);;
      exec (apic_read APIC_ESR);;
      exec (printk "After apic_write" []);;
      exec (apic_icr_write (Z.lor APIC_DM_STARTUP (Z.shiftr start_eip 12)) phys_apicid);;
      (if init_udelay =? 0 then exec (udelay 10) else exec (udelay 300));;
      exec (printk "Startup point 1" []);;
      exec (printk "Waiting for send to finish..." []);;
      send_status ← call safe_apic_wait_icr_idle;
      (if init_udelay =? 0 then exec (udelay 10) else exec (udelay 200));;
      (if maxlvt >? 3 then exec (apic_write APIC_ESR 0) else mret tt);;
      esr ← call (apic_read APIC_ESR);
      let accept_status := Z.land esr 0xEF in
      if negb (send_status =? 0) || negb (accept_status =? 0) then
        mret (send_status, accept_status)
      else startup_loop n' (j + 1) maxlvt phys_apicid start_eip send_status accept_status
  end.

(** The statuses are unsigned longs, the result is an int. *)
Definition wakeup_secondary_cpu_via_init (phys_apicid start_eip : Z) : M kstate Z :=
  lvr ← call (apic_read APIC_LVR);
  let maxlvt := GET_APIC_MAXLVT lvr in
  (if apic_integrated then
     (if maxlvt >? 3 then exec (apic_write APIC_ESR 0) else mret tt);;
     exec (apic_read APIC_ESR)
   else mret tt);;
  exec (printk "Asserting INIT" []);;
  exec (apic_icr_write (Z.lor (Z.lor APIC_INT_LEVELTRIG APIC_INT_ASSERT) APIC_DM_INIT)
          phys_apicid);;
  exec (printk "Waiting for send to finish..." []);;
  call safe_apic_wait_icr_idle;;
  exec (udelay init_udelay);;
  exec (printk "Deasserting INIT" []);;
  exec (apic_icr_write (Z.lor APIC_INT_LEVELTRIG APIC_DM_INIT) phys_apicid);;
  exec (printk "Waiting for send to finish..." []);;
  send_status ← call safe_apic_wait_icr_idle;
  exec mb;;
  let num_starts := if apic_integrated then 2%nat else 0%nat in
  exec (printk "#startup loops: %d" [Z.of_nat num_starts]);;
  '(send_status, accept_status) ←
     startup_loop num_starts 1 maxlvt phys_apicid start_eip send_status 0;
  exec (printk "After Startup" []);;
  (if negb (send_status =? 0) then exec (printk "APIC never delivered???" []) else mret tt);;
  (if negb (accept_status =? 0) then
     exec (printk "APIC delivery error (%lx)" [accept_status])
   else mret tt);;
  mret (sext 32 (Z.lor send_status accept_status)).

(** ** The processor list *)

Definition list_read (l : list Z) (i : Z) : M kstate Z :=
  match l !! Z.to_nat i with
  | Some v => if i <? 0 then fail Undefined else mret v
  | None => fail Undefined
  end.

(** [unpluged_cpu_list[i] = v] *)
Definition list_write (i v : Z) : M kstate unit := fun k =>
  match unpluged_cpu_list k with
  | None => Fault SegFault
  | Some l =>
      if (0 <=? i) && (i <? Z.of_nat (length l)) then
        Done (tt, set_list (Some (<[Z.to_nat i := v]> l)) k)
      else Fault Undefined
  end.

(** [for (i = 0; i < num_possible_cpus(); i++)], [n] turns left. *)
Fixpoint count_loop (n : nat) (i : Z) (l : list Z) (num : Z) : M kstate Z :=
  match n with
  | O => mret num
  | S n' =>
      c ← list_read l i;
      count_loop n' (i + 1) l (if c >? 0 then num + 1 else num)
  end.

Definition get_cpu_num : M kstate Z :=
  l ← read unpluged_cpu_list;
  match l with
  | None => mret (-1)
  | Some l => count_loop (Z.to_nat num_possible_cpus) 0 l 0
  end.

(** [for_each_online_cpu(cpu)]: the processor ids below nr_cpu_ids that are
    online when they are reached; [i] is the next free place of the list. *)
Fixpoint collect_loop (cpus : list Z) (i : Z) : M kstate unit :=
  match cpus with
  | [] => mret tt
  | cpu :: cpus' =>
      on ← call (cpu_online cpu);
      if on =? 0 then collect_loop cpus' i
      else if cpu =? 0 then collect_loop cpus' i
      else
        hp ← call (cpu_is_hotpluggable cpu);
        if hp =? 0 then collect_loop cpus' i
        else list_write i cpu;; collect_loop cpus' (i + 1)
  end.

(** The second loop of [cpu_unplug]: the error and the found flag. *)
Fixpoint down_loop (n : nat) (i : Z) (l : list Z) (ret1 unpluged_flag : Z) : M kstate (Z * Z) :=
  match n with
  | O => mret (ret1, unpluged_flag)
  | S n' =>
      c ← list_read l i;
      if c >? 0 then
        ret2 ← call (cpu_down c);
        down_loop n' (i + 1) l (if ret2 <? 0 then -1 else ret1) 1
      else down_loop n' (i + 1) l ret1 unpluged_flag
  end.

Definition cpu_ids : list Z := seqZ 0 nr_cpu_ids.

Definition down_all : M kstate Z :=
  l ← read unpluged_cpu_list;
  match l with
  | None => fail SegFault
  | Some l =>
      '(ret1, unpluged_flag) ← down_loop (Z.to_nat num_possible_cpus) 0 l 0 0;
      if unpluged_flag =? 0 then
        exec (printk "friend_loader: no unplugable cpu" []);; mret (-1)
      else mret ret1
  end.

Definition cpu_unplug : M kstate Z :=
  l ← read unpluged_cpu_list;
  match l with
  | None =>
      p ← call (kmalloc (4 * num_possible_cpus));
      if p =? 0 then mret (-1)
      else
        modify (set_list (Some (replicate (Z.to_nat num_possible_cpus) (-1))));;
        exec get_online_cpus;;
        collect_loop cpu_ids 0;;
        exec put_online_cpus;;
        down_all
  | Some _ => down_all
  end.

(** ** Starting and returning a processor *)

(** The [do { } while (0)] block of [cpu_start]: the value of [rval]. *)
Definition cpu_start_block (i : Z) : M kstate Z :=
  present ← call (cpu_present i);
  if present =? 0 then mret (-1)
  else
    online ← call (cpu_online i);
    down ← (if online =? 0 then mret 0 else call (cpu_down i));
    if negb (online =? 0) && (down <? 0) then mret (-1)
    else
      apicid ← call (cpu_present_to_apicid i);
      if (i =? 0) || (apicid =? 0) then mret (-1)
      else
        w ← wakeup_secondary_cpu_via_init apicid TRAMPOLINE_ADDR;
        if w <? 0 then mret (-1) else mret 0.

Definition cpu_start (i : Z) : M kstate Z :=
  ty ← call get_uv_system_type;
  (if negb (ty =? UV_NON_UNIQUE_APIC) then smpboot_setup_warm_reset_vector TRAMPOLINE_ADDR
   else mret tt);;
  exec preempt_disable;;
  rval ← cpu_start_block i;
  exec preempt_enable;;
  mret rval.

Definition cpu_replug (i : Z) : M kstate Z :=
  r ← call (cpu_up i);
  if r <? 0 then mret (-1) else mret 0.

(** ** The interrupts sent *)

(** The calls of [cpu_start] that ask the kernel something, with the answer, and those
    with an effect on processors or on memory.  Of the messages only the two that report
    a failed delivery are noted. *)
Definition delivery_message (fmt : string) : bool :=
  String.eqb fmt "APIC never delivered???" || String.eqb fmt "APIC delivery error (%lx)".

Definition noted (c : kcall) (r : Z) : option (kcall * Z) :=
  match c with
  | get_uv_system_type | cpu_present _ | cpu_online _ | cpu_down _ | cpu_present_to_apicid _ =>
      Some (c, r)
  | CMOS_WRITE _ _ | phys_write16 _ _ | preempt_disable | preempt_enable | apic_icr_write _ _ =>
      Some (c, 0)
  | printk fmt _ => if delivery_message fmt then Some (c, 0) else None
  | _ => None
  end.

Abbreviation notes := (emits (fun _ => true) noted).

Lemma notes_ret_bind {A B} (a : A) (f : A -> M kstate B) Φ : notes (f a) Φ -> notes (mret a ≫= f) Φ.
Proof. intros Hf k. exact (Hf k). Qed.

(** [emits_step], with the note of the call worked out. *)
Ltac note_step :=
  lazymatch goal with
  | |- emits _ _ (mbind _ (mret _)) _ => apply notes_ret_bind
  | |- _ => emits_step
  end; cbn [noted delivery_message String.eqb Ascii.eqb Bool.eqb orb].

(** The delivery status [safe_apic_wait_icr_idle] returns is the busy bit of the
    interrupt command register. *)
Definition icr_busy_bit : Prop :=
  forall h, uint 31 (answer h safe_apic_wait_icr_idle).

Definition INIT_ASSERT : Z := Z.lor (Z.lor APIC_INT_LEVELTRIG APIC_INT_ASSERT) APIC_DM_INIT.
Definition INIT_DEASSERT : Z := Z.lor APIC_INT_LEVELTRIG APIC_DM_INIT.
Definition STARTUP (eip : Z) : Z := Z.lor APIC_DM_STARTUP (Z.shiftr eip 12).

Definition note (c : kcall) : kcall * Z := (c, 0).

Lemma startup_loop_spec n j maxlvt id eip s a :
  icr_busy_bit -> uint 31 s -> uint 31 a ->
  notes (startup_loop n j maxlvt id eip s a) (fun '(s', a') X =>
    uint 31 s' /\ uint 31 a' /\
    exists m, X = note <$> replicate m (apic_icr_write (STARTUP eip) id) /\ (m <= n)%nat /\
      (n <> 0%nat -> m <> 0%nat) /\ (s' = 0 -> a' = 0 -> m = n)).
Proof.
  intros Hbusy. revert j s a. induction n as [|n IH]; intros j s a Hs Ha; cbn [startup_loop].
  { note_step. split_and!; try apply Hs; try apply Ha. by exists 0%nat. }
  repeat note_step. change (init_udelay =? 0) with false. cbv iota. repeat note_step.
  - assert (uint 31 r) as Hr by (subst r; apply Hbusy).
    assert (uint 31 (Z.land r0 0xEF)) as Hr0 by (by apply land_bound).
    split_and!; try apply Hr; try apply Hr0.
    exists 1%nat. split_and!; [done|lia|done|].
    intros -> E. rewrite E in *. destruct H0; by zbool.
  - assert (uint 31 r) as Hr by (subst r; apply Hbusy).
    assert (uint 31 (Z.land r0 0xEF)) as Hr0 by (by apply land_bound).
    eapply emits_mono; [by apply IH|]. intros [s' a'] X (Hs' & Ha' & m & -> & Hm & Hn & Hz).
    split_and!; try apply Hs'; try apply Ha'.
    exists (S m). split_and!; [done|lia|done|]. intros E1 E2. by rewrite Hz.
Qed.

Definition num_starts : nat := if apic_integrated then 2%nat else 0%nat.

(** The interrupts of a start: INIT, INIT, then the STARTUPs. *)
Definition start_ipis (apicid : Z) (m : nat) : list kcall :=
  apic_icr_write INIT_ASSERT apicid :: apic_icr_write INIT_DEASSERT apicid ::
  replicate m (apic_icr_write (STARTUP TRAMPOLINE_ADDR) apicid).

(** The messages about the statuses the last STARTUP was given. *)
Definition start_messages (send_status accept_status : Z) : list kcall :=
  (if send_status =? 0 then [] else [printk "APIC never delivered???" []]) ++
  (if accept_status =? 0 then [] else [printk "APIC delivery error (%lx)" [accept_status]]).

(** How often STARTUP is sent: as often as the APIC wants it, at least once where it
    wants it, and less only if a delivery failed. *)
Definition startups (m : nat) (send_status accept_status : Z) : Prop :=
  (m <= num_starts)%nat /\ (num_starts <> 0%nat -> m <> 0%nat) /\
  (send_status = 0 -> accept_status = 0 -> m = num_starts).

Lemma wakeup_spec id :
  icr_busy_bit ->
  notes (wakeup_secondary_cpu_via_init id TRAMPOLINE_ADDR) (fun r X =>
    0 <= r /\ exists m s a,
      X = note <$> start_ipis id m ++ start_messages s a /\ startups m s a).
Proof.
  intros Hbusy. unfold wakeup_secondary_cpu_via_init. note_step. cbv zeta.
  eapply emits_bind with (Ψ := fun _ X => X = []).
  { destruct apic_integrated; [|by apply emits_ret]. apply emits_when_bind; [done..|].
    by apply (emits_call (fun _ => true) noted (apic_read APIC_ESR) (fun _ X => X = [])). }
  intros [] X ->. repeat note_step. fold num_starts.
  assert (uint 31 r1) by (subst; apply Hbusy).
  eapply emits_bind; [by apply startup_loop_spec|].
  intros [s' a'] X (Hs & Ha & m & -> & Hm & Hn & Hz). note_step.
  assert (uint 31 (Z.lor s' a')) as Hl by (by apply lor_bound).
  rewrite sext_of_sint by (unfold sint, uint in *; lia).
  destruct (s' =? 0) eqn:Es, (a' =? 0) eqn:Ea; cbn [negb];
    repeat note_step;
    (split; [apply Hl|]); exists m, s', a'; (split; [|by split_and!]);
    unfold start_messages; rewrite Es, Ea, fmap_app; unfold start_ipis; by rewrite !fmap_cons.
Qed.

(** ** Starting a processor *)

Definition warm_reset_vector : list kcall :=
  [phys_write16 TRAMPOLINE_PHYS_HIGH 0x7000; phys_write16 TRAMPOLINE_PHYS_LOW 0].

(** The answers a start gets: the UV type, whether the processor is present, whether it
    is online, what [cpu_down] says, the APIC id, the statuses of the delivery. *)
Record start_answers := mkAnswers {
  a_uv : Z; a_present : Z; a_online : Z; a_down : Z; a_apicid : Z; a_send : Z; a_accept : Z
}.

(** What [cpu_start] is to note for these answers, [m] the number of STARTUPs. *)
Definition block_trace (i : Z) (a : start_answers) (m : nat) : list (kcall * Z) :=
  (cpu_present i, a_present a) ::
  if a_present a =? 0 then [] else
  (cpu_online i, a_online a) :: (if a_online a =? 0 then [] else [(cpu_down i, a_down a)]) ++
  if negb (a_online a =? 0) && (a_down a <? 0) then [] else
  (cpu_present_to_apicid i, a_apicid a) ::
  if (i =? 0) || (a_apicid a =? 0) then [] else
  note <$> start_ipis (a_apicid a) m ++ start_messages (a_send a) (a_accept a).

Definition warm_trace (a : start_answers) : list (kcall * Z) :=
  if a_uv a =? UV_NON_UNIQUE_APIC then [] else note <$> CMOS_WRITE 0xa 0xf :: warm_reset_vector.

Definition start_trace (i : Z) (a : start_answers) (m : nat) : list (kcall * Z) :=
  (get_uv_system_type, a_uv a) :: warm_trace a ++
  note preempt_disable :: block_trace i a m ++ [note preempt_enable].

(** The processor can be started: it is present, not the first, offline or taken
    offline, and has an APIC id. *)
Definition startable (i : Z) (a : start_answers) : bool :=
  negb (a_present a =? 0) && ((a_online a =? 0) || (0 <=? a_down a)) &&
  negb (i =? 0) && negb (a_apicid a =? 0).

Definition start_result (i : Z) (a : start_answers) : Z := if startable i a then 0 else -1.

(** Where the APIC id comes from. *)
Definition apicid_answered (i : Z) (a : start_answers) : Prop :=
  startable i a = true -> exists h, a_apicid a = answer h (cpu_present_to_apicid i).

Lemma cpu_start_block_spec i uv :
  icr_busy_bit ->
  notes (cpu_start_block i) (fun rval X => exists a m, a_uv a = uv /\
    X = block_trace i a m /\ rval = start_result i a /\ startups m (a_send a) (a_accept a) /\
    apicid_answered i a).
Proof.
  intros Hbusy. assert (startups num_starts 0 0) as Hs0 by (split_and!; [lia|done|done]).
  unfold cpu_start_block. note_step. note_step.
  { note_step. exists (mkAnswers uv r 0 0 0 0 0), num_starts.
    unfold block_trace, start_result, apicid_answered, startable. cbn [a_present].
    rewrite (proj2 (Z.eqb_eq _ _)) by done. done. }
  assert (forall online down,
    (online =? 0) || (0 <=? down) = true ->
    notes
      (apicid ← call (cpu_present_to_apicid i);
       if (i =? 0) || (apicid =? 0) then mret (-1)
       else
         w ← wakeup_secondary_cpu_via_init apicid TRAMPOLINE_ADDR;
         if w <? 0 then mret (-1) else mret 0)
      (fun rval X => exists a m, a_uv a = uv /\ (cpu_present i, r) :: (cpu_online i, online) ::
         (if online =? 0 then [] else [(cpu_down i, down)]) ++ X = block_trace i a m /\
         rval = start_result i a /\ startups m (a_send a) (a_accept a) /\ apicid_answered i a))
    as Htail.
  { intros online down Hd. note_step.
    assert (negb (online =? 0) && (down <? 0) = false) as Hd'
      by (destruct (online =? 0); cbn in *; [done|]; apply Z.ltb_ge; by apply Z.leb_le).
    assert (forall id s a m, block_trace i (mkAnswers uv r online down id s a) m =
      (cpu_present i, r) :: (cpu_online i, online) :: (if online =? 0 then [] else [(cpu_down i, down)]) ++
      (cpu_present_to_apicid i, id) :: if (i =? 0) || (id =? 0) then [] else
      note <$> start_ipis id m ++ start_messages s a) as Hbt.
    { intros id s a m. unfold block_trace. cbn [a_present a_online a_down a_apicid a_send a_accept].
      rewrite (proj2 (Z.eqb_neq r 0)) by done. by rewrite Hd'. }
    assert (forall id s a, start_result i (mkAnswers uv r online down id s a) =
      if (i =? 0) || (id =? 0) then -1 else 0) as Hres.
    { intros id s a. unfold start_result, startable. cbn [a_present a_online a_down a_apicid].
      rewrite (proj2 (Z.eqb_neq r 0)), Hd by done. by destruct (i =? 0), (id =? 0). }
    specialize (Hbt r0). specialize (Hres r0).
    destruct ((i =? 0) || (r0 =? 0)); cbv iota.
    - note_step. exists (mkAnswers uv r online down r0 0 0), num_starts.
      rewrite Hbt, Hres. split_and!; try done; [apply Hs0..|]. intros _. by eexists.
    - eapply emits_bind; [by apply wakeup_spec|].
      intros w X (Hw & m & s & a & -> & Hm). note_step; note_step; [lia|].
      exists (mkAnswers uv r online down r0 s a), m. rewrite Hbt, Hres, app_nil_r.
      split_and!; try done; [apply Hm..|]. intros _. by eexists. }
  note_step. destruct (r0 =? 0) eqn:E0; cbn [negb andb].
  - eapply emits_bind; [by apply (emits_ret _ _ 0 (fun _ X => X = []))|].
    intros down X ->. specialize (Htail r0 0). rewrite E0 in Htail. by apply Htail.
  - note_step. specialize (Htail r0 r1). rewrite E0 in Htail. note_step.
    + note_step. exists (mkAnswers uv r r0 r1 0 0 0), num_starts.
      unfold block_trace, start_result, apicid_answered, startable. cbn [a_present a_online a_down].
      rewrite (proj2 (Z.eqb_neq r 0)), (proj2 (Z.eqb_neq r0 0)) by done. cbn [negb andb orb].
      rewrite (proj2 (Z.ltb_lt r1 0)), (proj2 (Z.leb_gt 0 r1)) by done. done.
    + apply Htail. apply orb_true_iff. right. by apply Z.leb_le.
Qed.

Lemma cpu_start_trace i :
  icr_busy_bit ->
  notes (cpu_start i) (fun rval X => exists a m, X = start_trace i a m /\
    rval = start_result i a /\ startups m (a_send a) (a_accept a) /\ apicid_answered i a).
Proof.
  intros Hbusy. unfold cpu_start. note_step.
  eapply emits_bind with (Ψ := fun _ X => X =
    if r =? UV_NON_UNIQUE_APIC then [] else note <$> CMOS_WRITE 0xa 0xf :: warm_reset_vector).
  { destruct (r =? _); cbn [negb]; [by apply emits_ret|].
    unfold smpboot_setup_warm_reset_vector. repeat note_step. done. }
  intros [] X ->. note_step. eapply emits_bind; [by apply (cpu_start_block_spec i r)|].
  intros rval X (a & m & <- & -> & -> & Hm). repeat note_step. by exists a, m.
Qed.

(** C12: [cpu_start], call by call and for every behaviour of the kernel.  The warm reset
    vector is written exactly when the UV type is not UV_NON_UNIQUE_APIC; between
    preempt_disable and preempt_enable the processor is asked for, taken offline exactly
    when it is online, and, exactly when it is present, offline by then, not the first and
    has a non-zero APIC id, that APIC id is sent INIT, INIT and then the STARTUPs of the
    trampoline: two where the APIC is integrated, fewer (but not none) only if a delivery
    failed, which is reported.  The result is 0 exactly in that case and -1 otherwise. *)
Theorem cpu_start_sequence i k :
  icr_busy_bit ->
  exists evs a m, cpu_start i k = Done (start_result i a, set_hist (evs ++ hist k) k) /\
    observations noted evs = start_trace i a m /\ startups m (a_send a) (a_accept a).
Proof.
  intros Hbusy. destruct (wp_done _ _ _ (cpu_start_trace i Hbusy k))
    as (r & k' & E & evs & -> & _ & a & m & Ht & -> & Hm & _). by exists evs, a, m.
Qed.

(** *** The effects alone *)

(** The calls of [cpu_start] with an effect on processors or on memory. *)
Definition visible (c : kcall) (_ : Z) : option kcall :=
  match c with
  | phys_write16 _ _ | preempt_disable | preempt_enable | cpu_down _ | apic_icr_write _ _ =>
      Some c
  | _ => None
  end.

Abbreviation emits_all := (emits (fun _ => true) visible).

Definition effects (X : list (kcall * Z)) : list kcall := omap (fun x => visible x.1 x.2) X.

Lemma effects_app X Y : effects (X ++ Y) = effects X ++ effects Y.
Proof. apply omap_app. Qed.

Lemma effects_notes l : Forall (fun c => visible c 0 = Some c) l -> effects (note <$> l) = l.
Proof.
  induction 1 as [|c l Hc _ IH]; [done|]. rewrite fmap_cons.
  change (note c :: (note <$> l)) with ([note c] ++ (note <$> l)). rewrite effects_app, IH.
  unfold effects. cbn. by rewrite Hc.
Qed.

Lemma emits_visible {A} (c : M kstate A) Φ :
  notes c Φ -> emits_all c (fun a X => exists Y, X = effects Y /\ Φ a Y).
Proof.
  intros Hc k. eapply wp_mono; [apply Hc|]. intros a k' (evs & E & Hok & HΦ).
  exists evs. split_and!; [done|done|]. exists (observations noted evs). split; [|done]. clear.
  induction evs as [|[c r] evs IH]; [done|]. change ((c, r) :: evs) with ([(c, r)] ++ evs).
  rewrite !observations_app, effects_app, IH. f_equal.
  destruct c; try done. unfold observations. cbn. by destruct (delivery_message _).
Qed.

(** What [rval] says of the interrupts [ipis] and the unplugging [downs]. *)
Definition start_outcome (i rval : Z) (downs ipis : list kcall) : Prop :=
  (downs = [] \/ downs = [cpu_down i]) /\
  ((rval = -1 /\ ipis = []) \/
   (rval = 0 /\ i <> 0 /\ exists apicid m, apicid <> 0 /\ ipis = start_ipis apicid m /\
      (m <= num_starts)%nat /\ (num_starts <> 0%nat -> m <> 0%nat) /\
      exists h, apicid = answer h (cpu_present_to_apicid i))).

Lemma effects_ipis id m s a : effects (note <$> start_ipis id m ++ start_messages s a) = start_ipis id m.
Proof.
  rewrite fmap_app, effects_app, effects_notes.
  - unfold start_messages. destruct (s =? 0), (a =? 0); by rewrite app_nil_r.
  - repeat (apply Forall_cons; split; [done|]). by apply Forall_replicate.
Qed.

Lemma block_effects i a m :
  startups m (a_send a) (a_accept a) -> apicid_answered i a ->
  exists downs ipis, effects (block_trace i a m) = downs ++ ipis /\
    start_outcome i (start_result i a) downs ipis.
Proof.
  intros (Hm & Hm0 & _) Hid. unfold block_trace, start_result, apicid_answered, startable in *.
  destruct (a_present a =? 0); cbn [negb andb] in *.
  { exists [], []. split; [done|]. split; [by left|by left]. }
  exists (if a_online a =? 0 then [] else [cpu_down i]).
  exists (if ((a_online a =? 0) || (0 <=? a_down a)) && negb (i =? 0) && negb (a_apicid a =? 0)
          then start_ipis (a_apicid a) m else []).
  assert ((a_down a <? 0) = negb (0 <=? a_down a)) as -> by apply Z.ltb_antisym.
  assert (forall l, effects ((cpu_present i, a_present a) :: (cpu_online i, a_online a) :: l) = effects l) as -> by done.
  split.
  - rewrite effects_app. f_equal; [by destruct (a_online a =? 0)|].
    destruct (a_online a =? 0), (0 <=? a_down a), (i =? 0), (a_apicid a =? 0); cbn [negb andb orb];
      try reflexivity; exact (effects_ipis (a_apicid a) m (a_send a) (a_accept a)).
  - split; [destruct (a_online a =? 0); auto|].
    destruct (_ && negb (a_apicid a =? 0)) eqn:Hs; [right|by left]. zbool. split_and!; try done.
    exists (a_apicid a), m. split_and!; try done. by apply Hid.
Qed.

Lemma cpu_start_spec i :
  icr_busy_bit ->
  emits_all (cpu_start i) (fun rval X => exists warm downs ipis,
    X = warm ++ preempt_disable :: downs ++ ipis ++ [preempt_enable] /\
    (warm = [] \/ warm = warm_reset_vector) /\ start_outcome i rval downs ipis).
Proof.
  intros Hbusy. eapply emits_mono; [by apply emits_visible, cpu_start_trace|].
  intros rval X (Y & -> & a & m & -> & -> & Hm & Hid).
  destruct (block_effects i a m Hm Hid) as (downs & ipis & E & Ho).
  exists (effects (warm_trace a)), downs, ipis. split_and!; [| |apply Ho..].
  - unfold start_trace. change (?x :: ?l) with ([x] ++ l) at 1. rewrite !effects_app.
    change (note preempt_disable :: ?l) with ([note preempt_disable] ++ l).
    rewrite !effects_app, E. by rewrite <- app_assoc.
  - unfold warm_trace. destruct (_ =? _); auto.
Qed.

(** The vector of the STARTUP interrupt and the real-mode far pointer of the warm
    reset vector both denote the trampoline page. *)
Lemma start_vectors :
  Z.shiftl (Z.land (STARTUP TRAMPOLINE_ADDR) 0xff) 12 = TRAMPOLINE_ADDR /\
  u16 (Z.shiftr TRAMPOLINE_ADDR 4) * 16 + u16 (Z.land TRAMPOLINE_ADDR 0xf) = TRAMPOLINE_ADDR /\
  warm_reset_vector =
    [phys_write16 TRAMPOLINE_PHYS_HIGH (u16 (Z.shiftr TRAMPOLINE_ADDR 4));
     phys_write16 TRAMPOLINE_PHYS_LOW (u16 (Z.land TRAMPOLINE_ADDR 0xf))].
Proof. by vm_compute. Qed.

(** ** The processor list *)

Abbreviation N := num_possible_cpus.

(** Online processors are possible processors. *)
Definition online_possible : Prop :=
  0 <= N /\ exists possible : list Z, Z.of_nat (length possible) = N /\
    forall h c, answer h (cpu_online c) <> 0 -> c ∈ possible.

(** The list: the processors taken, then -1. *)
Definition cpu_list (cpus : list Z) : list Z :=
  cpus ++ replicate (Z.to_nat N - length cpus) (-1).

Definition list_ok (cpus : list Z) : Prop :=
  Z.of_nat (length cpus) <= N /\ Forall (fun c => 0 < c) cpus.

Lemma length_cpu_list cpus : list_ok cpus -> length (cpu_list cpus) = Z.to_nat N.
Proof. intros [Hl _]. unfold cpu_list. rewrite length_app, length_replicate. lia. Qed.

(** The processors of a list, as its readers find them. *)
Definition listed (l : list Z) : list Z := filter (fun c => 0 < c) l.

Lemma listed_cpu_list cpus : list_ok cpus -> listed (cpu_list cpus) = cpus.
Proof.
  intros [_ Hp]. unfold listed, cpu_list. rewrite filter_app.
  generalize (Z.to_nat N - length cpus)%nat as n. intros n.
  assert (filter (fun c => 0 < c) (replicate n (-1)) = []) as ->.
  { induction n as [|n IH]; [done|]. cbn [replicate]. by rewrite filter_cons_False by lia. }
  rewrite app_nil_r. induction Hp as [|c cpus Hc _ IH]; [done|].
  rewrite filter_cons_True by done. by rewrite IH.
Qed.

Lemma list_read_spec (l : list Z) i c (Q : Z -> kstate -> Prop) k :
  0 <= i -> l !! Z.to_nat i = Some c -> Q c k -> wp (list_read l i) Q k.
Proof.
  intros Hi Hc HQ. unfold list_read. rewrite Hc. destruct (Z.ltb_spec i 0); [lia|]. done.
Qed.

Lemma count_loop_spec l pre num k n :
  n = length l ->
  wp (count_loop n (Z.of_nat (length pre)) (pre ++ l) num)
    (fun r k' => k' = k /\ r = num + Z.of_nat (length (listed l))) k.
Proof.
  intros ->. revert pre num. induction l as [|c l IH]; intros pre num; cbn [count_loop length].
  { apply wp_ret. split; [done|]. cbn. lia. }
  apply wp_bind. eapply list_read_spec; [lia| |].
  { rewrite Nat2Z.id. by rewrite lookup_app_r, Nat.sub_diag by lia. }
  specialize (IH (pre ++ [c]) (if c >? 0 then num + 1 else num)).
  rewrite length_app, <- app_assoc in IH. cbn [length app] in IH.
  rewrite Nat2Z.inj_add in IH. eapply wp_mono; [exact IH|].
  intros r k' [-> ->]. split; [done|]. unfold listed. rewrite filter_cons.
  destruct (Z.gtb_spec c 0); case_decide; try lia; cbn [length]; lia.
Qed.

Definition downed (c : kcall) (r : Z) : option (Z * Z) :=
  match c with cpu_down i => Some (i, r) | _ => None end.

Definition is_cpu_down (c : kcall) : bool :=
  match c with cpu_down _ => true | _ => false end.

Lemma emits_list_read {A} l i c (f : Z -> M kstate A) Φ :
  0 <= i -> l !! Z.to_nat i = Some c ->
  emits is_cpu_down downed (f c) Φ -> emits is_cpu_down downed (list_read l i ≫= f) Φ.
Proof. intros Hi Hc Hf k. apply wp_bind. by eapply list_read_spec; [..|apply Hf]. Qed.

(** The loop of [cpu_unplug] over the list. *)
Lemma down_loop_spec l pre ret1 flag n :
  n = length l ->
  emits is_cpu_down downed
    (down_loop n (Z.of_nat (length pre)) (pre ++ l) ret1 flag)
    (fun '(ret, fl) X => X.*1 = listed l /\
       ret = (if bool_decide (Exists (fun x => x.2 < 0) X) then -1 else ret1) /\
       fl = (if bool_decide (X = []) then flag else 1)).
Proof.
  intros ->. revert pre ret1 flag.
  induction l as [|c l IH]; intros pre ret1 flag; cbn [down_loop length].
  { apply emits_ret. done. }
  specialize (IH (pre ++ [c])). rewrite length_app, <- app_assoc in IH. cbn [length app] in IH.
  rewrite Nat2Z.inj_add in IH.
  eapply emits_list_read; [lia|rewrite Nat2Z.id; by rewrite lookup_app_r, Nat.sub_diag by lia|].
  unfold listed. rewrite filter_cons. emits_step.
  - emits_step. rewrite decide_True by lia. eapply emits_mono; [apply IH|].
    intros [ret fl] X (E & -> & ->). cbn [downed]. split_and!.
    + rewrite fmap_cons, E. done.
    + rewrite (bool_decide_ext (Exists _ ((c, r) :: X)) (r < 0 \/ Exists (fun x => x.2 < 0) X))
        by apply Exists_cons.
      destruct (Z.ltb_spec r 0); repeat case_bool_decide; done || (exfalso; intuition lia).
    + by case_bool_decide.
  - rewrite decide_False by lia. apply IH.
Qed.

(** [c] was found online and hot-pluggable. *)
Definition plugged (evs : list event) (c : Z) : Prop :=
  (exists r, r <> 0 /\ (cpu_online c, r) ∈ evs) /\
  (exists r, r <> 0 /\ (cpu_is_hotpluggable c, r) ∈ evs).

(** The calls of the search concern the processors of [cpus] only. *)
Definition search_events (cpus : list Z) (evs : list event) : Prop :=
  Forall (fun e => exists c, c ∈ cpus /\ (e.1 = cpu_online c \/ e.1 = cpu_is_hotpluggable c)) evs.

Lemma search_not_plugged cpus evs c : search_events cpus evs -> c ∉ cpus -> ~ plugged evs c.
Proof.
  intros Hs Hc [(r & _ & Hin) _]. unfold search_events in Hs. rewrite Forall_forall in Hs.
  destruct (Hs _ Hin) as (d & Hd & [E|E]); simplify_eq/=. done.
Qed.

Lemma search_events_cons cpus cpu evs : search_events cpus evs -> search_events (cpu :: cpus) evs.
Proof.
  intros Hs. eapply Forall_impl; [exact Hs|]. intros e (c & Hc & He). exists c.
  split; [by right|done].
Qed.

(** What the answers [es] about [cpu] add to a search that did not concern it. *)
Lemma plugged_app cpus evs cpu es c :
  search_events cpus evs -> cpu ∉ cpus ->
  (forall e, e ∈ es -> e.1 = cpu_online cpu \/ e.1 = cpu_is_hotpluggable cpu) ->
  plugged (evs ++ es) c <-> (c <> cpu /\ plugged evs c) \/ (c = cpu /\ plugged es c).
Proof.
  intros Hs Hn He. unfold plugged. setoid_rewrite elem_of_app.
  assert (forall r, ((cpu_online c, r) ∈ es) \/ ((cpu_is_hotpluggable c, r) ∈ es) -> c = cpu) as He'.
  { intros r [Hin|Hin]; destruct (He _ Hin) as [E|E]; by simplify_eq/=. }
  assert (forall r, ((cpu_online cpu, r) ∉ evs) /\ ((cpu_is_hotpluggable cpu, r) ∉ evs)) as Hs'.
  { unfold search_events in Hs. rewrite Forall_forall in Hs.
    intros r. split; intros Hin; destruct (Hs _ Hin) as (d & Hd & [E|E]); by simplify_eq/=. }
  destruct (decide (c = cpu)) as [->|Hc]; naive_solver.
Qed.

Lemma list_write_spec pre v (Q : unit -> kstate -> Prop) k :
  unpluged_cpu_list k = Some (cpu_list pre) -> Z.of_nat (length (pre ++ [v])) <= N ->
  Q tt (set_list (Some (cpu_list (pre ++ [v]))) k) ->
  wp (list_write (Z.of_nat (length pre)) v) Q k.
Proof.
  intros Hk Hl HQ. unfold wp, list_write. rewrite Hk.
  rewrite length_app in Hl. cbn [length] in Hl. unfold cpu_list in *.
  rewrite length_app, length_replicate.
  rewrite (proj2 (Z.leb_le _ _)), (proj2 (Z.ltb_lt _ _)) by lia. cbn [andb].
  rewrite Nat2Z.id, insert_app_r_alt, Nat.sub_diag by lia.
  replace (Z.to_nat N - length pre)%nat with (S (Z.to_nat N - length (pre ++ [v])))%nat
    by (rewrite length_app; cbn [length]; lia).
  cbn [replicate]. by rewrite <- app_assoc in HQ.
Qed.

Section Search.
Context (possible : list Z).
Hypothesis Hlen : Z.of_nat (length possible) = N.
Hypothesis Honline : forall h c, answer h (cpu_online c) <> 0 -> c ∈ possible.

(** The state of the search: processors [pre] found so far, [cpus] to come. *)
Record searching (pre cpus : list Z) (k : kstate) : Prop := {
  se_nodup : NoDup (pre ++ cpus);
  se_possible : pre ⊆ possible;
  se_pos : Forall (fun c => 0 < c) pre;
  se_nonneg : Forall (fun c => 0 <= c) cpus;
  se_list : unpluged_cpu_list k = Some (cpu_list pre)
}.

Lemma searching_ok pre cpus k : searching pre cpus k -> list_ok pre.
Proof.
  intros [Hnd Hp Hpos _ _]. split; [|done]. rewrite <- Hlen. apply inj_le.
  apply submseteq_length, NoDup_submseteq; [by apply NoDup_app in Hnd as [? _]|done].
Qed.

Lemma searching_skip pre cpu cpus k h :
  searching pre (cpu :: cpus) k -> searching pre cpus (set_hist h k).
Proof.
  intros [Hnd Hp Hpos Hnn Hl]. split; try done; [|by apply Forall_cons in Hnn as [_ ?]].
  eapply sublist_NoDup; [exact Hnd|]. apply sublist_app; [done|by apply sublist_cons].
Qed.

Lemma searching_take pre cpu cpus k h :
  searching pre (cpu :: cpus) k -> cpu ∈ possible -> cpu <> 0 ->
  searching (pre ++ [cpu]) cpus (set_list (Some (cpu_list (pre ++ [cpu]))) (set_hist h k)).
Proof.
  intros [Hnd Hp Hpos Hnn Hl] Hin H0. apply Forall_cons in Hnn as [Hc Hnn].
  split; [by rewrite <- app_assoc|set_solver| |done|done].
  apply Forall_app. split; [done|]. apply Forall_singleton. lia.
Qed.

Definition collected (pre cpus : list Z) (k k' : kstate) : Prop :=
  exists new evs,
    k' = set_list (Some (cpu_list (pre ++ new))) (set_hist (evs ++ hist k) k) /\
    list_ok (pre ++ new) /\ search_events cpus evs /\
    forall c, c ∈ new <-> c ∈ cpus /\ c <> 0 /\ plugged evs c.

Definition answers_about (cpu : Z) (es : list event) : Prop :=
  forall e, e ∈ es -> e.1 = cpu_online cpu \/ e.1 = cpu_is_hotpluggable cpu.

Lemma search_events_app cpus cpu evs es :
  search_events cpus evs -> answers_about cpu es -> search_events (cpu :: cpus) (evs ++ es).
Proof.
  intros Hs He. apply Forall_app. split; [by apply search_events_cons|].
  apply Forall_forall. intros e Hin. exists cpu. split; [by left|by apply He].
Qed.

Lemma collected_skip pre cpus cpu es k k' :
  cpu ∉ cpus -> answers_about cpu es -> ~ (cpu <> 0 /\ plugged es cpu) ->
  collected pre cpus (set_hist (es ++ hist k) k) k' -> collected pre (cpu :: cpus) k k'.
Proof.
  intros Hni He Hp (new & evs & -> & Hok & Hs & Hnew). exists new, (evs ++ es).
  split_and!; [by rewrite <- app_assoc|apply Hok..|by apply search_events_app|].
  intros c. rewrite Hnew, (plugged_app cpus evs cpu es), elem_of_cons by done.
  split; [intros (Hc & H0 & Hpl)|]; [|naive_solver].
  split_and!; [by right|done|]. left. split; [by intros ->|done].
Qed.

Lemma collected_take pre cpus cpu es k k' :
  cpu ∉ cpus -> answers_about cpu es -> cpu <> 0 -> plugged es cpu ->
  collected (pre ++ [cpu]) cpus
    (set_list (Some (cpu_list (pre ++ [cpu]))) (set_hist (es ++ hist k) k)) k' ->
  collected pre (cpu :: cpus) k k'.
Proof.
  intros Hni He H0 Hp (new & evs & -> & Hok & Hs & Hnew). exists (cpu :: new), (evs ++ es).
  rewrite <- app_assoc in *. cbn [app] in *.
  split_and!; [by rewrite <- app_assoc|apply Hok..|by apply search_events_app|].
  intros c. rewrite elem_of_cons, Hnew, (plugged_app cpus evs cpu es), elem_of_cons by done.
  split; [|naive_solver]. intros [->|(Hc & Hc0 & Hpl)]; [by auto|].
  split_and!; [by right|done|]. left. split; [by intros ->|done].
Qed.

Lemma collect_loop_spec cpus pre k :
  searching pre cpus k ->
  wp (collect_loop cpus (Z.of_nat (length pre))) (fun _ k' => collected pre cpus k k') k.
Proof.
  revert pre k. induction cpus as [|cpu cpus IH]; intros pre k Hs; cbn [collect_loop].
  { apply wp_ret. exists [], []. rewrite app_nil_r. split_and!.
    - destruct Hs as [_ _ _ _ Hl]. destruct k; simpl in *. by rewrite Hl.
    - by eapply searching_ok.
    - apply Forall_nil_2.
    - set_solver. }
  assert (cpu ∉ cpus) as Hni.
  { destruct Hs as [Hnd _ _ _ _]. apply NoDup_app in Hnd as (_ & _ & Hnd).
    by apply NoDup_cons in Hnd as [? _]. }
  wp_step. wp_step. wp_step.
  { eapply wp_mono; [apply IH; by eapply searching_skip|]. intros [] k' Hc.
    apply (collected_skip _ _ _ [(cpu_online cpu, r)]); [done| | |exact Hc].
    - intros e ->%list_elem_of_singleton. by left.
    - intros (_ & (r' & Hr' & E%list_elem_of_singleton) & _). by simplify_eq. }
  wp_step.
  { eapply wp_mono; [apply IH; by eapply searching_skip|]. intros [] k' Hc.
    apply (collected_skip _ _ _ [(cpu_online cpu, r)]); [done| | |exact Hc].
    - intros e ->%list_elem_of_singleton. by left.
    - by intros [? _]. }
  wp_step. wp_step.
  assert (answers_about cpu [(cpu_is_hotpluggable cpu, r0); (cpu_online cpu, r)]) as Hab.
  { intros e He. apply elem_of_cons in He as [->| ->%list_elem_of_singleton]; auto. }
  wp_step.
  { eapply wp_mono; [apply IH; exact (searching_skip _ _ _ k _ Hs)|]. intros [] k' Hc.
    apply (collected_skip _ _ _ [(cpu_is_hotpluggable cpu, r0); (cpu_online cpu, r)]);
      [done..| |exact Hc].
    intros (_ & _ & (r' & Hr' & E)). apply elem_of_cons in E as [E|E%list_elem_of_singleton];
      by simplify_eq. }
  assert (cpu ∈ possible) as Hin by (eapply Honline; rewrite <- Er; done).
  pose proof (searching_take _ _ _ k ((cpu_is_hotpluggable cpu, r0) :: (cpu_online cpu, r) :: hist k)
                Hs Hin ltac:(done)) as Ht.
  wp_step. eapply list_write_spec; [apply Hs|apply (searching_ok _ _ _ Ht)|].
  replace (Z.of_nat (length pre) + 1) with (Z.of_nat (length (pre ++ [cpu])))
    by (rewrite length_app; cbn [length]; lia).
  eapply wp_mono; [apply IH; exact Ht|]. intros [] k' Hc.
  apply (collected_take _ _ _ [(cpu_is_hotpluggable cpu, r0); (cpu_online cpu, r)]); try done.
  split; [exists r|exists r0]; (split; [done|]); [by right; left|by left].
Qed.
End Search.

Definition not_search (e : event) : Prop :=
  match e.1 with cpu_online _ | cpu_is_hotpluggable _ => False | _ => True end.

Lemma plugged_frame e1 s e2 c :
  Forall not_search e1 -> Forall not_search e2 -> plugged (e1 ++ s ++ e2) c <-> plugged s c.
Proof.
  rewrite !Forall_forall. intros H1 H2. unfold plugged. setoid_rewrite elem_of_app.
  setoid_rewrite elem_of_app.
  assert (forall r, ~ ((cpu_online c, r) ∈ e1) /\ ~ ((cpu_online c, r) ∈ e2) /\
    ~ ((cpu_is_hotpluggable c, r) ∈ e1) /\ ~ ((cpu_is_hotpluggable c, r) ∈ e2)) as Hn.
  { intros r. split_and!; intros Hin; by (apply H1 in Hin || apply H2 in Hin). }
  naive_solver.
Qed.

(** What [cpu_unplug] reports of the processors [downs] it tried to take offline,
    with the answers of [cpu_down]. *)
Definition unplug_result (downs : list (Z * Z)) : Z :=
  if bool_decide (downs = []) || bool_decide (Exists (fun x => x.2 < 0) downs) then -1 else 0.

Lemma down_all_spec cpus k :
  unpluged_cpu_list k = Some (cpu_list cpus) -> list_ok cpus ->
  wp down_all (fun r k' => exists evs, extends k k' evs /\ Forall not_search evs /\
    (observations downed evs).*1 = cpus /\ r = unplug_result (observations downed evs)) k.
Proof.
  intros Hk Hok. unfold down_all. apply wp_bind, wp_read. rewrite Hk. apply wp_bind.
  eapply wp_mono.
  { apply (down_loop_spec (cpu_list cpus) [] 0 0). by rewrite length_cpu_list. }
  intros [ret fl] k1 (evs & E1 & Hd & HX & -> & ->). rewrite listed_cpu_list in HX by done.
  set (X := observations downed evs) in *.
  assert (Forall not_search evs) as Hns.
  { eapply Forall_impl; [exact Hd|]. intros [[] r]; done. }
  cbv beta iota. apply wp_if; intros Hfl.
  - case_bool_decide as HX0; [|done]. apply wp_bind, wp_exec. intros u. apply wp_ret.
    exists ((printk "friend_loader: no unplugable cpu" [], u) :: evs). split_and!.
    + eapply (extends_trans _ _ _ _ [_]); [done|apply extends_call].
    + by apply Forall_cons.
    + change (?e :: evs) with ([e] ++ evs). rewrite observations_app. fold X. by rewrite app_nil_r.
    + change (?e :: evs) with ([e] ++ evs). rewrite observations_app. fold X. rewrite app_nil_r.
      unfold unplug_result. by rewrite bool_decide_eq_true_2.
  - case_bool_decide as HX0; [done|]. apply wp_ret. exists evs. split_and!; [done..|].
    fold X. unfold unplug_result. rewrite (bool_decide_eq_false_2 (X = [])) by done.
    cbn [orb]. by case_bool_decide.
Qed.

(** The list between calls: not allocated, or the processors taken. *)
Definition list_inv (k : kstate) : Prop :=
  forall l, unpluged_cpu_list k = Some l -> exists cpus, l = cpu_list cpus /\ list_ok cpus.

Definition unplugged (k k' : kstate) (r : Z) (evs : list event) (cpus : list Z) : Prop :=
  unpluged_cpu_list k' = Some (cpu_list cpus) /\ list_ok cpus /\
  (unpluged_cpu_list k = None -> forall c, c ∈ cpus <-> 0 < c < nr_cpu_ids /\ plugged evs c) /\
  (forall l, unpluged_cpu_list k = Some l -> l = cpu_list cpus) /\
  (observations downed evs).*1 = cpus /\ r = unplug_result (observations downed evs).

Lemma searching_start possible k :
  unpluged_cpu_list k = Some (replicate (Z.to_nat N) (-1)) -> searching possible [] cpu_ids k.
Proof.
  intros Hk. split; [apply NoDup_seqZ|set_solver|done| |].
  - apply Forall_forall. intros c Hc%elem_of_seqZ. lia.
  - rewrite Hk. unfold cpu_list. cbn [length app]. by rewrite Nat.sub_0_r.
Qed.

Lemma cpu_unplug_fresh k :
  online_possible -> unpluged_cpu_list k = None ->
  wp cpu_unplug (fun r k' => exists evs, hist k' = evs ++ hist k /\
    ((r = -1 /\ unpluged_cpu_list k' = None /\ evs = [(kmalloc (4 * num_possible_cpus), 0)]) \/
     exists cpus, unplugged k k' r evs cpus)) k.
Proof.
  intros (H0 & possible & Hlen & Hon) Hk. unfold cpu_unplug. apply wp_bind, wp_read. rewrite Hk.
  wp_step. wp_step. wp_step.
  { wp_step. exists [(kmalloc (4 * N), r)]. split; [done|]. left. split_and!; [done|done|congruence]. }
  do 4 wp_step. set (k1 := set_hist _ (set_list _ _)) in *.
  apply wp_bind. eapply wp_mono.
  { apply (collect_loop_spec possible Hlen Hon cpu_ids [] k1). by apply searching_start. }
  intros [] k2 (cpus & evs & -> & Hok & Hs & Hin). cbn [app] in *. cbv beta. do 2 wp_step.
  set (k2 := set_hist _ (set_list _ _)) in *.
  eapply wp_mono; [by apply (down_all_spec cpus)|].
  intros rv k3 (ds & -> & Hns & Hd & ->).
  exists ((ds ++ [(put_online_cpus, r1)]) ++ evs ++ [(get_online_cpus, r0); (kmalloc (4 * N), r)]).
  assert (observations downed
    ((ds ++ [(put_online_cpus, r1)]) ++ evs ++ [(get_online_cpus, r0); (kmalloc (4 * N), r)])
    = observations downed ds) as Eo.
  { rewrite !observations_app.
    assert (observations downed evs = []) as ->; [|done]. clear -Hs.
    induction Hs as [|[c r] evs (d & _ & [E|E]) _ IH]; [done|..];
      change (?e :: evs) with ([e] ++ evs); rewrite observations_app, IH; simpl in E; by subst. }
  split; [by rewrite <- !app_assoc|]. right. exists cpus. unfold unplugged.
  rewrite Eo. split_and!; [done|apply Hok..| |by rewrite Hk|done|done].
  intros _ c. rewrite plugged_frame.
  - rewrite Hin. unfold cpu_ids. rewrite elem_of_seqZ. split; intros; split_and?; try lia; tauto.
  - apply Forall_app. split; [done|by apply Forall_singleton].
  - by apply Forall_cons, conj, Forall_singleton.
Qed.

Lemma cpu_unplug_spec k :
  online_possible -> list_inv k ->
  wp cpu_unplug (fun r k' => exists evs, hist k' = evs ++ hist k /\ list_inv k' /\
    ((r = -1 /\ unpluged_cpu_list k' = None /\ evs = [(kmalloc (4 * num_possible_cpus), 0)]) \/
     exists cpus, unplugged k k' r evs cpus)) k.
Proof.
  intros Hp Hinv. destruct (unpluged_cpu_list k) as [l|] eqn:Hk.
  - destruct (Hinv l) as (cpus & -> & Hok); [done|].
    unfold cpu_unplug. apply wp_bind, wp_read. rewrite Hk.
    eapply wp_mono; [by apply (down_all_spec cpus)|].
    intros r k' (evs & -> & Hns & Hd & Hr). exists evs. split; [done|]. split; [exact Hinv|].
    right. exists cpus. split_and!; [done|apply Hok..| | |done|done]; rewrite Hk; [done|].
    by intros l [= <-].
  - eapply wp_mono; [by apply cpu_unplug_fresh|].
    intros r k' (evs & Eh & Hr). exists evs. split; [done|]. split; [|done].
    intros l Hl. destruct Hr as [(_ & Hn & _)|(cpus & Hc & Hok & _)]; [congruence|].
    exists cpus. split; [congruence|done].
Qed.

(** C19: The first call of [cpu_unplug] lists every processor other than the
    first that is online and hot-pluggable, in a list that is never overrun, and
    takes each of them offline; later calls take the same processors offline
    again.  It returns 0 exactly when there is such a processor and all of them
    went offline, -1 otherwise, and processor 0 is never taken.  If the list cannot be
    allocated nothing else happens and the result is -1. *)
Theorem cpu_unplug_takes_listed k :
  online_possible -> list_inv k ->
  exists r k' evs, cpu_unplug k = Done (r, k') /\ hist k' = evs ++ hist k /\ list_inv k' /\
    (0 ∉ (observations downed evs).*1) /\
    ((r = -1 /\ unpluged_cpu_list k' = None /\ evs = [(kmalloc (4 * num_possible_cpus), 0)]) \/
     exists cpus, unplugged k k' r evs cpus).
Proof.
  intros Hp Hinv. destruct (wp_done _ _ _ (cpu_unplug_spec k Hp Hinv))
    as (r & k' & E & evs & Eh & Hi & Hr). exists r, k', evs. split_and!; try done.
  destruct Hr as [(_ & _ & ->)|(cpus & _ & [_ Hpos] & _ & _ & -> & _)]; [apply not_elem_of_nil|].
  rewrite Forall_forall in Hpos. intros H0%Hpos. lia.
Qed.

(** [get_cpu_num] returns the number of processors [cpu_unplug] has listed, -1
    before it is called, and changes nothing. *)
Theorem get_cpu_num_counts k :
  0 <= N -> list_inv k ->
  (unpluged_cpu_list k = None /\ get_cpu_num k = Done (-1, k)) \/
  exists cpus, unpluged_cpu_list k = Some (cpu_list cpus) /\
    get_cpu_num k = Done (Z.of_nat (length cpus), k).
Proof.
  intros HN Hinv. unfold get_cpu_num.
  destruct (unpluged_cpu_list k) as [l|] eqn:Hk; [right|left].
  - destruct (Hinv l Hk) as (cpus & -> & Hok). exists cpus. split; [done|].
    pose proof (count_loop_spec (cpu_list cpus) [] 0 k (Z.to_nat N)) as Hc.
    rewrite length_cpu_list in Hc by done. specialize (Hc eq_refl).
    apply wp_done in Hc as (r & k' & E & -> & ->). rewrite listed_cpu_list in E by done.
    rewrite (bind_done (read unpluged_cpu_list) _ _ (Some (cpu_list cpus)) k) by (unfold read; by rewrite Hk).
    exact E.
  - split; [done|]. by rewrite (bind_done (read unpluged_cpu_list) _ _ None k) by (unfold read; by rewrite Hk).
Qed.

End CpuHotplug.

(** ** Concrete runs *)

#[local] Existing Instance good_kernel.

Lemma cpu_start_sequence_witness :
  exists evs a m, cpu_start 1 loaded = Done (start_result 1 a, set_hist (evs ++ hist loaded) loaded) /\
    observations noted evs = start_trace 1 a m /\ startups m (a_send a) (a_accept a).
Proof. apply (cpu_start_sequence 1 loaded). intros h. by vm_compute. Defined.

Lemma good_online_possible : online_possible.
Proof.
  split; [done|]. exists [0; 1; 2; 3]. split; [done|]. intros h c. cbn [answer good_kernel].
  destruct ((0 <=? c) && (c <? 4)) eqn:E; [|done]. zbool. intros _.
  assert (c = 0 \/ c = 1 \/ c = 2 \/ c = 3) by lia. set_solver.
Qed.

Lemma cpu_unplug_takes_listed_witness :
  exists r k' evs, cpu_unplug loaded = Done (r, k') /\ hist k' = evs ++ hist loaded /\
    list_inv k' /\ (0 ∉ (observations downed evs).*1) /\
    ((r = -1 /\ unpluged_cpu_list k' = None /\ evs = [(kmalloc (4 * num_possible_cpus), 0)]) \/
     exists cpus, unplugged loaded k' r evs cpus).
Proof.
  apply (cpu_unplug_takes_listed loaded).
  - exact good_online_possible.
  - intros l. discriminate.
Defined.

Definition demo_unplugged : kstate := set_list (Some [1; 2; 3; -1]) loaded.

Lemma get_cpu_num_counts_witness :
  (unpluged_cpu_list demo_unplugged = None /\ get_cpu_num demo_unplugged = Done (-1, demo_unplugged)) \/
  exists cpus, unpluged_cpu_list demo_unplugged = Some (cpu_list cpus) /\
    get_cpu_num demo_unplugged = Done (Z.of_nat (length cpus), demo_unplugged).
Proof.
  apply (get_cpu_num_counts demo_unplugged); [discriminate|].
  intros l [= <-]. exists [1; 2; 3]. split; [reflexivity|].
  split; [discriminate|]. repeat constructor.
Defined.

(** On this machine [cpu_unplug] takes processors 1, 2 and 3 offline and
    [get_cpu_num] counts them. *)
Example unplug_four_cpus :
  value_of ((r ← cpu_unplug; n ← get_cpu_num; mret (r, n)) loaded) = Some (0, 3).
Proof. by vm_compute. Qed.

Example start_cpu_ipis :
  match cpu_start 1 loaded with
  | Done (r, k) => (r, observations visible (hist k))
  | Fault _ => (1, [])
  end =
  (0, [ phys_write16 0x469 0x7000; phys_write16 0x467 0; preempt_disable; cpu_down 1;
        apic_icr_write 0xC500 2; apic_icr_write 0x8500 2; apic_icr_write 0x670 2;
        apic_icr_write 0x670 2; preempt_enable ]).
Proof. by vm_compute. Qed.
