(* ===== verification/CpuDevice.v ===== *)
(** * CpuDevice: /dev/friend_cpu1 and its siblings, FriendLoader/cpudevice.c

    One device file per processor but the first.  Opening it starts the
    processor, closing it gives the processor back to Linux. *)

From S2P Require Import Prelude Memory Kernel CallInterface CpuHotplug.
From stdpp Require Import pretty.
#[local] Open Scope Z_scope.
Import Layout.

Definition MINOR_BASE : Z := 0.

(** [iminor(inode) - MINOR_BASE + 1] in unsigned arithmetic, stored in an int. *)
Definition cpuid_of_minor (minor : Z) : Z := sext 32 (u32 (minor - MINOR_BASE + 1)).

(** "friend_cpu%d" *)
Definition cpu_file (cpu : Z) : string := ("friend_cpu" ++ pretty cpu)%string.

Section CpuDevice.
Context `{Kernel}.

Definition cpudevice_open (minor : Z) : M kstate Z :=
  let cpuid := cpuid_of_minor minor in
  r ← cpu_start cpuid;
  (if r =? 0 then
     exec (printk "friend_loader: starting processor core %d from 0x%lx"
             [cpuid; DEPLOY_PHYS_ADDR_START])
   else exec (printk "friend_loader: failed starting processor core %d" [cpuid]));;
  mret 0.

Definition cpudevice_close (minor : Z) : M kstate Z :=
  let cpuid := cpuid_of_minor minor in
  r ← cpu_replug cpuid;
  (if r =? 0 then exec (printk "friend_loader: stopped processor core %d" [cpuid])
   else exec (printk "friend_loader: failed to stop processor core %d" [cpuid]));;
  mret 0.

Definition set_minor_num (n : Z) (k : kstate) : kstate :=
  mkK (hist k) (memdevice k) (bootmemdevice k) (unpluged_cpu_list k) n
    (cpudevice_major k) (cpudevice_class k) (call_sysfs_kobj k).
Definition set_major (n : Z) (k : kstate) : kstate :=
  mkK (hist k) (memdevice k) (bootmemdevice k) (unpluged_cpu_list k) (minor_num k)
    n (cpudevice_class k) (call_sysfs_kobj k).
Definition set_class (n : Z) (k : kstate) : kstate :=
  mkK (hist k) (memdevice k) (bootmemdevice k) (unpluged_cpu_list k) (minor_num k)
    (cpudevice_major k) n (call_sysfs_kobj k).

Lemma hist_set_statics n k :
  hist (set_minor_num n k) = hist k /\ hist (set_major n k) = hist k /\ hist (set_class n k) = hist k.
Proof. done. Qed.
#[local] Hint Rewrite (fun n k => proj1 (hist_set_statics n k))
  (fun n k => proj1 (proj2 (hist_set_statics n k)))
  (fun n k => proj2 (proj2 (hist_set_statics n k))) : kst.

(** The two loops over the minors, [n] turns left. *)
Fixpoint create_devices (n : nat) (minor cls major : Z) : M kstate unit :=
  match n with
  | O => mret tt
  | S n' =>
      exec (device_create cls (MKDEV major minor) (cpu_file (minor - MINOR_BASE + 1)));;
      create_devices n' (minor + 1) cls major
  end.

Fixpoint destroy_devices (n : nat) (minor cls major : Z) : M kstate unit :=
  match n with
  | O => mret tt
  | S n' =>
      exec (device_destroy cls (MKDEV major minor));;
      destroy_devices n' (minor + 1) cls major
  end.

Definition cpudevice_init : M kstate Z :=
  let minor_num := u32 (num_possible_cpus - 1) in
  modify (set_minor_num minor_num);;
  if minor_num =? 0 then mret (- EIO)
  else
    r ← call (alloc_chrdev_region MINOR_BASE minor_num DRIVER_NAME);
    if r <? 0 then
      exec (printk "friend_loader_init: failed to alloc_chrdev_regionn" []);;
      mret (- ENXIO)
    else
      let major := MAJOR r in
      modify (set_major major);;
      let dev := MKDEV major MINOR_BASE in
      exec (cdev_init cpudevice_cdev s_cpudevice_fops);;
      a ← call (cdev_add cpudevice_cdev dev minor_num);
      if negb (a =? 0) then
        exec (printk "friend_loader_init: failed to cdev_add" []);;
        exec (unregister_chrdev_region dev minor_num);;
        mret (- ENXIO)
      else
        cls ← call (class_create "friend_cpu");
        modify (set_class cls);;
        if IS_ERR cls then
          exec (printk "friend_loader_init: failed to class_create" []);;
          exec (cdev_del cpudevice_cdev);;
          exec (unregister_chrdev_region dev minor_num);;
          mret (- ENXIO)
        else
          create_devices (Z.to_nat minor_num) MINOR_BASE cls major;;
          mret 0.

Definition cpudevice_exit : M kstate unit :=
  k ← read id;
  let dev := MKDEV (cpudevice_major k) MINOR_BASE in
  destroy_devices (Z.to_nat (minor_num k)) MINOR_BASE (cpudevice_class k) (cpudevice_major k);;
  exec (class_destroy (cpudevice_class k));;
  exec (cdev_del cpudevice_cdev);;
  exec (unregister_chrdev_region dev (minor_num k)).

(** ** Objects held *)

(** [alloc_chrdev_region] gives minors from the base it is asked for. *)
Definition alloc_minor_base : Prop :=
  forall h count name, 0 <= answer h (alloc_chrdev_region MINOR_BASE count name) ->
    MKDEV (MAJOR (answer h (alloc_chrdev_region MINOR_BASE count name))) MINOR_BASE =
      answer h (alloc_chrdev_region MINOR_BASE count name).

(** [device_create] succeeds. *)
Definition devices_created : Prop :=
  forall h cls dev name, IS_ERR (answer h (device_create cls dev name)) = false /\
    answer h (device_create cls dev name) <> 0.

Definition cpu_devices (n : nat) (minor cls major : Z) : list resource :=
  (fun i => RDevice cls (MKDEV major (minor + i))) <$> seqZ 0 (Z.of_nat n).

Definition cpudevice_objects (k : kstate) : list resource :=
  reverse (cpu_devices (Z.to_nat (minor_num k)) MINOR_BASE (cpudevice_class k) (cpudevice_major k)) ++
  [RClass (cpudevice_class k); RCdev cpudevice_cdev;
   RChrdev (MKDEV (cpudevice_major k) MINOR_BASE) (minor_num k)].

Lemma cpu_devices_S n minor cls major :
  cpu_devices (S n) minor cls major =
    RDevice cls (MKDEV major minor) :: cpu_devices n (minor + 1) cls major.
Proof.
  unfold cpu_devices. rewrite seqZ_cons by lia. rewrite fmap_cons, Z.add_0_r. f_equal.
  replace (Z.pred (Z.of_nat (S n))) with (Z.of_nat n) by lia.
  change (Z.succ 0) with (1 + 0).
  rewrite <- (fmap_add_seqZ 1 0), <- list_fmap_compose. apply list_fmap_ext.
  intros i x _. unfold compose. do 2 f_equal. lia.
Qed.

(** The device files created, with their device numbers. *)
Definition created_file (c : kcall) (_ : Z) : option (string * Z) :=
  match c with device_create _ dev name => Some (name, dev) | _ => None end.

(** The files of the minors from [minor] on. *)
Definition cpu_files (n : nat) (minor major : Z) : list (string * Z) :=
  (fun i => (cpu_file (minor + i + 1), MKDEV major (minor + i))) <$> seqZ 0 (Z.of_nat n).

Lemma cpu_files_S n minor major :
  cpu_files (S n) minor major =
    (cpu_file (minor + 1), MKDEV major minor) :: cpu_files n (minor + 1) major.
Proof.
  unfold cpu_files. rewrite seqZ_cons by lia. rewrite fmap_cons, Z.add_0_r. f_equal.
  replace (Z.pred (Z.of_nat (S n))) with (Z.of_nat n) by lia.
  change (Z.succ 0) with (1 + 0).
  rewrite <- (fmap_add_seqZ 1 0), <- list_fmap_compose. apply list_fmap_ext.
  intros i x _. unfold compose. do 2 f_equal; lia.
Qed.

Lemma create_devices_spec n minor cls major k :
  devices_created ->
  wp (create_devices n minor cls major) (fun _ k' => exists evs, extends k k' evs /\
    observations created_file evs = cpu_files n minor major /\
    live (hist k') = reverse (cpu_devices n minor cls major) ++ live (hist k)) k.
Proof.
  intros Hc. revert minor k. induction n as [|n IH]; intros minor k; cbn [create_devices].
  { apply wp_ret. exists []. split_and!; [apply extends_refl|done|done]. }
  apply wp_bind, wp_bind, wp_call. intros r Er. apply wp_ret.
  eapply wp_mono; [apply IH|]. intros [] k' (evs & Ee & Eo & El). eexists. split_and!.
  { eapply extends_trans; [apply extends_call|exact Ee]. }
  { rewrite observations_app, Eo, cpu_files_S. unfold MINOR_BASE. cbn.
    by rewrite Z.sub_0_r. }
  rewrite El, cpu_devices_S, reverse_cons, <- app_assoc. f_equal. autorewrite with kst.
  cbn [live apply_event app]. destruct (Hc (hist k) cls (MKDEV major minor)
    (cpu_file (minor - MINOR_BASE + 1))) as [E1 E2]. rewrite <- Er in E1, E2.
  by rewrite E1, (proj2 (Z.eqb_neq _ _) E2).
Qed.

Lemma destroy_devices_spec n minor cls major k :
  wp (destroy_devices n minor cls major) (fun _ k' => exists evs, extends k k' evs /\
    live (hist k') = release_list (cpu_devices n minor cls major) (live (hist k))) k.
Proof.
  revert minor k. induction n as [|n IH]; intros minor k; cbn [destroy_devices].
  { apply wp_ret. exists []. split; [apply extends_refl|done]. }
  apply wp_bind, wp_exec. intros r. eapply wp_mono; [apply IH|].
  intros [] k' (evs & Ee & El). eexists. split.
  { eapply extends_trans; [apply extends_call|exact Ee]. }
  by rewrite El, cpu_devices_S.
Qed.

(** The statics of the other files of the module. *)
Definition other_statics (k : kstate) : memdev * memdev * option (list Z) * Z :=
  (memdevice k, bootmemdevice k, unpluged_cpu_list k, call_sysfs_kobj k).

Lemma cpudevice_init_spec k :
  alloc_minor_base -> devices_created -> 1 <= num_possible_cpus <= 2 ^ 32 ->
  wp cpudevice_init (fun r k' => other_statics k' = other_statics k /\
    exists evs, hist k' = evs ++ hist k /\
    ((r = 0 /\ minor_num k' = num_possible_cpus - 1 /\ 0 < minor_num k' /\
      observations created_file evs =
        cpu_files (Z.to_nat (minor_num k')) MINOR_BASE (cpudevice_major k') /\
      live (hist k') = cpudevice_objects k' ++ live (hist k)) \/
     ((r = - ENXIO \/ (r = - EIO /\ num_possible_cpus = 1)) /\
      observations created_file evs = [] /\ live (hist k') = live (hist k)))) k.
Proof.
  intros Hm Hd HN. unfold cpudevice_init.
  set (n := u32 (num_possible_cpus - 1)).
  assert (n = num_possible_cpus - 1) as En by (apply wrap_small; unfold uint; lia).
  assert (forall h r, r = answer h (alloc_chrdev_region MINOR_BASE n DRIVER_NAME) -> 0 <= r ->
    MKDEV (MAJOR r) MINOR_BASE = r) as Hdev by (intros h r -> Hr; by apply Hm).
  wp_steps; try (assert (MKDEV (MAJOR r) MINOR_BASE = r) as Edev by (by eapply Hdev);
    rewrite Edev; clear Er Hdev).
  - split; [done|]. exists []. split; [done|]. right. split_and!; [right; lia|done|done].
  - split; [done|]. eexists [_; _]. split; [done|]. right.
    split_and!; [by left|done|]. by live_simpl.
  - split; [done|]. eexists [_; _; _; _; _]. split; [done|]. right.
    split_and!; [by left|done|]. by live_simpl.
  - split; [done|]. eexists [_; _; _; _; _; _; _]. split; [done|]. right.
    split_and!; [by left|done|]. by live_simpl.
  - eapply wp_mono; [by apply create_devices_spec|].
    intros [] k1 (evs & -> & Eo & El). apply wp_ret. split; [done|].
    eexists (evs ++ [_; _; _; _]). split; [cbn; by rewrite <- app_assoc|]. left.
    split_and!; [done|done|cbn; lia|rewrite observations_app, Eo; done|].
    rewrite El. unfold cpudevice_objects. cbn [minor_num cpudevice_class cpudevice_major set_class
      set_major set_minor_num set_hist].
    rewrite Edev, <- app_assoc. f_equal. by live_simpl.
Qed.

Lemma cpudevice_exit_spec k :
  wp cpudevice_exit (fun _ k' => other_statics k' = other_statics k /\
    forall before, live (hist k) = cpudevice_objects k ++ before -> live (hist k') = before) k.
Proof.
  unfold cpudevice_exit. do 2 wp_step. apply wp_bind. eapply wp_mono; [apply destroy_devices_spec|].
  intros [] k1 (evs & -> & El). wp_steps. split; [done|]. intros before Hl.
  autorewrite with kst in El. repeat (autorewrite with kst; cbn [live apply_event]).
  rewrite El. unfold id. rewrite Hl.
  change (release ?a (release ?b (release ?c (release_list ?rs ?l)))) with
    (release_list [c; b; a] (release_list rs l)).
  rewrite <- release_list_app. apply release_list_perm. unfold cpudevice_objects.
  by rewrite reverse_Permutation.
Qed.

(** ** Theorems *)

Lemma cpuid_of_minor_small m : 0 <= m < 2 ^ 31 - 1 -> cpuid_of_minor m = m + 1.
Proof.
  intros Hm. unfold cpuid_of_minor, MINOR_BASE. rewrite Z.sub_0_r.
  unfold u32. rewrite wrap_small by (unfold uint; lia).
  apply sext_of_sint; [lia|]. unfold sint. lia.
Qed.

(** When [cpudevice_init] succeeds there is exactly one device file for each
    processor but the first, /dev/friend_cpu1 to /dev/friend_cpu<n-1>, and the
    minor number of /dev/friend_cpu<i> leads its handlers to processor [i]; when
    it fails it holds nothing more than before. *)
Theorem cpudevice_init_files k :
  alloc_minor_base -> devices_created -> 1 <= num_possible_cpus <= 2 ^ 20 ->
  exists r k' evs, cpudevice_init k = Done (r, k') /\ hist k' = evs ++ hist k /\
    ((r = 0 /\
      (forall name dev, (name, dev) ∈ observations created_file evs <->
         exists i, 1 <= i < num_possible_cpus /\ name = cpu_file i /\
           dev = MKDEV (cpudevice_major k') (i - 1)) /\
      (0 <= cpudevice_major k' -> forall i, 1 <= i < num_possible_cpus ->
         cpuid_of_minor (MINOR (MKDEV (cpudevice_major k') (i - 1))) = i)) \/
     (r < 0 /\ observations created_file evs = [] /\ live (hist k') = live (hist k))).
Proof.
  intros Hm Hd HN. destruct (wp_done _ _ _ (cpudevice_init_spec k Hm Hd ltac:(lia)))
    as (r & k' & E & _ & evs & Eh & Hr). exists r, k', evs. split_and!; [done|done|].
  destruct Hr as [(-> & En & Hpos & -> & El)|(Hr & Ho & El)]; [left|right].
  - split_and!; [done| |].
    + intros name dev. unfold cpu_files, MINOR_BASE. rewrite list_elem_of_fmap.
      rewrite En. split.
      * intros (i & [= -> ->] & Hi%elem_of_seqZ). exists (i + 1). split_and!; [lia|lia|done|].
        f_equal. lia.
      * intros (i & Hi & -> & ->). exists (i - 1). split; [f_equal; f_equal; lia|].
        apply elem_of_seqZ. lia.
    + intros Hma i Hi. rewrite MINOR_MKDEV, cpuid_of_minor_small by lia. lia.
  - split_and!; [|done..]. unfold ENXIO, EIO in *. lia.
Qed.

(** The open handler starts the processor of its minor number. *)
Lemma cpudevice_open_spec minor :
  0 <= minor < 2 ^ 31 - 1 -> icr_busy_bit ->
  emits (fun _ => true) visible (cpudevice_open minor) (fun v X => v = 0 /\ exists r warm downs ipis,
    X = warm ++ preempt_disable :: downs ++ ipis ++ [preempt_enable] /\
    (warm = [] \/ warm = warm_reset_vector) /\ start_outcome (minor + 1) r downs ipis).
Proof.
  intros Hmin Hbusy. unfold cpudevice_open. cbv zeta. rewrite cpuid_of_minor_small by done.
  eapply emits_bind; [by apply cpu_start_spec|].
  intros r X (warm & downs & ipis & -> & Hw & Ho).
  eapply emits_bind with (Ψ := fun _ X => X = []); [emits_step; by emits_step|].
  intros [] Y ->. emits_step. split; [done|]. rewrite app_nil_r. eauto 10.
Qed.

(** Opening /dev/friend_cpu<i> starts processor [i], and only it, as
    [cpu_start] does; the handler returns 0 whether or not the start
    succeeded. *)
Theorem cpudevice_open_starts minor k :
  0 <= minor < 2 ^ 31 - 1 -> icr_busy_bit ->
  exists evs, cpudevice_open minor k = Done (0, set_hist (evs ++ hist k) k) /\
    exists r warm downs ipis,
      observations visible evs =
        warm ++ preempt_disable :: downs ++ ipis ++ [preempt_enable] /\
      (warm = [] \/ warm = warm_reset_vector) /\ start_outcome (minor + 1) r downs ipis.
Proof.
  intros Hmin Hbusy.
  destruct (wp_done _ _ _ (cpudevice_open_spec minor Hmin Hbusy k))
    as (v & k' & E & evs & -> & _ & -> & HΦ). eauto.
Qed.

End CpuDevice.

(** ** Concrete runs *)

#[local] Existing Instance good_kernel.

Lemma good_alloc_minor_base : alloc_minor_base.
Proof.
  intros h count name _. cbn [answer good_kernel]. unfold MINOR_BASE.
  by rewrite MAJOR_MKDEV by lia.
Qed.

Lemma good_devices_created : devices_created.
Proof. by intros h cls dev name. Qed.

Lemma cpudevice_init_files_witness :
  exists r k' evs, cpudevice_init loaded = Done (r, k') /\ hist k' = evs ++ hist loaded /\
    ((r = 0 /\
      (forall name dev, (name, dev) ∈ observations created_file evs <->
         exists i, 1 <= i < num_possible_cpus /\ name = cpu_file i /\
           dev = MKDEV (cpudevice_major k') (i - 1)) /\
      (0 <= cpudevice_major k' -> forall i, 1 <= i < num_possible_cpus ->
         cpuid_of_minor (MINOR (MKDEV (cpudevice_major k') (i - 1))) = i)) \/
     (r < 0 /\ observations created_file evs = [] /\ live (hist k') = live (hist loaded))).
Proof.
  apply (cpudevice_init_files loaded).
  - exact good_alloc_minor_base.
  - exact good_devices_created.
  - split; discriminate.
Defined.

Lemma cpudevice_open_starts_witness :
  exists evs, cpudevice_open 0 loaded = Done (0, set_hist (evs ++ hist loaded) loaded) /\
    exists r warm downs ipis,
      observations visible evs =
        warm ++ preempt_disable :: downs ++ ipis ++ [preempt_enable] /\
      (warm = [] \/ warm = warm_reset_vector) /\ start_outcome (0 + 1) r downs ipis.
Proof.
  apply (cpudevice_open_starts 0 loaded).
  - split; [discriminate|reflexivity].
  - intros h. by vm_compute.
Defined.

Example four_cpu_files :
  match cpudevice_init loaded with
  | Done (r, k) => (r, observations created_file (hist k))
  | Fault _ => (1, [])
  end = (0, [ ("friend_cpu1"%string, MKDEV 240 0); ("friend_cpu2"%string, MKDEV 240 1);
              ("friend_cpu3"%string, MKDEV 240 2) ]).
Proof. by vm_compute. Qed.
