(* ===== verification/FriendLoader.v ===== *)
(** * FriendLoader: version interface and module entry points

    [version.c] publishes the module's version under
    /sys/module/friend_loader/info/version; [main.c] sets the parts of the module
    up when it is loaded and takes them down when it is removed. *)

From S2P Require Import Prelude Memory Kernel CallInterface CpuHotplug CpuDevice.

(** [kmod_version_string] of common/version.h, with its terminating zero. *)
Definition kmod_version : string := "v0.05".
Definition kmod_version_string : list Z :=
  (fun c => Z.of_N (N_of_ascii c)) <$> list_ascii_of_string kmod_version ++ ["000"%char].

(** [call_read]: the bytes copied to [buf] and the result.  Reading outside the
    array is undefined. *)
Definition call_read (off count : Z) : outcome (list Z * Z) :=
  if (0 <=? off) && (0 <=? count) && (off + count <=? Z.of_nat (length kmod_version_string)) then
    Done (slice kmod_version_string off count, count)
  else Fault Undefined.

(** [.size] of the attribute *)
Definition call_version_attr_size : Z := Z.of_nat (length kmod_version_string).

Section FriendLoader.
Context `{Kernel}.

Definition set_kobj (n : Z) (k : kstate) : kstate :=
  mkK (hist k) (memdevice k) (bootmemdevice k) (unpluged_cpu_list k) (minor_num k)
    (cpudevice_major k) (cpudevice_class k) n.

Lemma hist_set_kobj n k : hist (set_kobj n k) = hist k.
Proof. done. Qed.
#[local] Hint Rewrite hist_set_kobj : kst.

Definition version_interface_init : M kstate Z :=
  kobj ← call (kobject_create_and_add "info");
  modify (set_kobj kobj);;
  if kobj =? 0 then
    exec (printk "friend_loader_init: kobject_create_and_add failed" []);;
    mret (-1)
  else
    ret ← call (sysfs_create_group kobj);
    if negb (ret =? 0) then
      exec (kobject_put kobj);;
      exec (printk "friend_loader_init: sysfs_create_group failed: %d" [ret]);;
      mret (-1)
    else mret 0.

Definition version_interface_exit : M kstate unit :=
  kobj ← read call_sysfs_kobj;
  exec (kobject_put kobj).

Definition friend_loader_init : M kstate Z :=
  exec (printk "friend_loader_init: init" []);;
  m ← memdevice_init;
  if m <? 0 then
    exec (printk "friend_loader_init: failed to init call interface" []);;
    mret (- EIO)
  else
    n ← cpudevice_init;
    if n <? 0 then mret n
    else
      v ← version_interface_init;
      if v <? 0 then
        exec (printk "friend_loader_init: failed to init version interface" []);;
        mret (- EIO)
      else mret 0.

Definition friend_loader_exit : M kstate unit :=
  version_interface_exit;;
  cpudevice_exit;;
  memdevice_exit;;
  exec (printk "friend_loader_exit: exit" []).

(** ** Lemmas *)

Definition version_objects (k : kstate) : list resource :=
  [RGroup (call_sysfs_kobj k); RKobj (call_sysfs_kobj k)].

(** The statics of the other files. *)
Definition device_statics (k : kstate) : memdev * memdev * Z * Z * Z :=
  (memdevice k, bootmemdevice k, minor_num k, cpudevice_major k, cpudevice_class k).

Lemma version_interface_init_spec k :
  RGroup (answer (hist k) (kobject_create_and_add "info")) ∉ live (hist k) ->
  wp version_interface_init (fun r k' => device_statics k' = device_statics k /\
    ((r = 0 /\ live (hist k') = version_objects k' ++ live (hist k)) \/
     (r = -1 /\ live (hist k') = live (hist k)))) k.
Proof.
  intros Hfresh. unfold version_interface_init.
  wp_steps; (split; [done|]); live_simpl.
  - by right.
  - right. split; [done|]. rewrite <- Er in Hfresh.
    change (RKobj r :: live (hist k)) with ([RKobj r] ++ live (hist k)).
    rewrite release_app_r by (intros E%list_elem_of_singleton; done).
    rewrite (release_absent _ _ Hfresh). apply release_head.
  - by left.
Qed.

Lemma version_interface_exit_spec k :
  wp version_interface_exit (fun _ k' => device_statics k' = device_statics k /\
    forall before, live (hist k) = version_objects k ++ before -> live (hist k') = before) k.
Proof.
  unfold version_interface_exit. wp_steps. split; [done|]. intros before Hl. live_simpl.
  rewrite Hl. unfold version_objects. cbn [app]. by rewrite !release_head.
Qed.

(** The kernel grants every request of the set-up. *)
Record creation_ok : Prop := {
  co_alloc : forall h b c n, 0 <= b -> 0 <= answer h (alloc_chrdev_region b c n);
  co_minor : alloc_minor_base;
  co_class : forall h n, IS_ERR (answer h (class_create n)) = false;
  co_device : devices_created;
  co_cdev : forall h c d n, answer h (cdev_add c d n) = 0;
  co_kobj : forall h n, answer h (kobject_create_and_add n) <> 0;
  co_group : forall h g, answer h (sysfs_create_group g) = 0
}.

Lemma created_null : devices_created -> device_create_null.
Proof. intros Hd h cls dev name. by apply Hd. Qed.

Lemma generic_memdevice_init_ok get set c fops cname fname k :
  creation_ok -> wp (generic_memdevice_init get set c fops cname fname) (fun r _ => r = 0) k.
Proof.
  intros Hok. unfold generic_memdevice_init. wp_steps; try done; exfalso.
  - pose proof (co_alloc Hok (hist k) 0 1 DRIVER_NAME ltac:(lia)). lia.
  - pose proof (co_class Hok) as Hc. rewrite Er0, Hc in *. done.
  - pose proof (co_device Hok) as Hc. by eapply Hc; rewrite <- Er1.
  - match goal with
    | E : ?r = answer _ (cdev_add _ _ _), N : ?r <> 0 |- _ =>
        apply N; rewrite E; apply (co_cdev Hok)
    end.
Qed.

Definition memory_objects (k : kstate) : list resource :=
  memdevice_objects bootmemdevice_cdev (bootmemdevice k) ++
  memdevice_objects memdevice_cdev (memdevice k).

Lemma memdevice_init_ok k :
  creation_ok ->
  wp memdevice_init (fun r k' => r = 0 /\
    live (hist k') = memory_objects k' ++ live (hist k)) k.
Proof.
  intros Hok. pose proof (created_null (co_device Hok)) as Hnull.
  assert (forall get set c fops cname fname k, DeviceStatics get set ->
    wp (generic_memdevice_init get set c fops cname fname) (fun r k' =>
      live (hist k') = memdevice_objects c (get k') ++ live (hist k) /\
      exists m h, k' = set m (set_hist h k)) k) as Hg.
  { intros get set c fops cname fname k1 Hds.
    eapply wp_mono; [apply wp_and; [by apply generic_memdevice_init_ok|
      by apply (generic_memdevice_init_spec get set)]|].
    intros r k' [-> [[[_ ?]|[? _]] ?]]; done. }
  unfold memdevice_init. apply wp_bind. eapply wp_mono; [by apply (Hg _ _ _ _ _ _ _ _)|].
  intros r1 k1 [E1 _]. apply wp_bind. eapply wp_mono; [by apply (Hg _ _ _ _ _ _ _ _)|].
  intros r2 k2 [E2 (m & h & ->)]. apply wp_ret. split; [done|].
  unfold memory_objects. by rewrite E2, E1, <- app_assoc.
Qed.

Lemma version_interface_init_ok k :
  creation_ok -> wp version_interface_init (fun r k' => r = 0 /\
    device_statics k' = device_statics k /\
    live (hist k') = version_objects k' ++ live (hist k)) k.
Proof.
  intros Hok. unfold version_interface_init. wp_steps.
  - exfalso. by eapply (co_kobj Hok); rewrite <- Er.
  - exfalso. match goal with N : ?r <> 0 |- _ => apply N; subst r; apply (co_group Hok) end.
  - split_and!; [done..|]. live_simpl. done.
Qed.

Lemma cpudevice_init_ok k :
  creation_ok -> wp cpudevice_init (fun r _ => r <> - ENXIO) k.
Proof.
  intros Hok. unfold cpudevice_init. wp_steps; [done|exfalso..|].
  - match goal with
    | E : ?r = answer _ (alloc_chrdev_region ?b ?c ?n) |- _ =>
        pose proof (co_alloc Hok (hist (set_minor_num c k)) b c n ltac:(done)); lia
    end.
  - match goal with
    | E : ?r = answer _ (cdev_add _ _ _), N : ?r <> 0 |- _ =>
        apply N; rewrite E; apply (co_cdev Hok)
    end.
  - pose proof (co_class Hok) as Hc. congruence.
  - eapply wp_mono; [apply create_devices_spec, Hok|]. intros [] k' _. by apply wp_ret.
Qed.

(** What the module holds once it is loaded. *)
Definition module_objects (k : kstate) : list resource :=
  version_objects k ++ cpudevice_objects k ++ memory_objects k.

(** The objects are named by the statics. *)
Lemma objects_device_statics k k' :
  device_statics k = device_statics k' ->
  cpudevice_objects k = cpudevice_objects k' /\ memory_objects k = memory_objects k'.
Proof.
  unfold device_statics, cpudevice_objects, memory_objects. intros E. injection E.
  by intros -> -> -> -> ->.
Qed.

Lemma objects_other_statics k k' :
  other_statics k = other_statics k' -> memory_objects k = memory_objects k'.
Proof. unfold other_statics, memory_objects. intros E. injection E. by intros _ _ -> ->. Qed.

Lemma friend_loader_init_ok k :
  creation_ok -> 1 <= num_possible_cpus <= 2 ^ 32 ->
  wp friend_loader_init (fun r k' =>
    (2 <= num_possible_cpus /\ r = 0 /\ live (hist k') = module_objects k' ++ live (hist k)) \/
    (num_possible_cpus = 1 /\ r = - EIO /\ live (hist k') = memory_objects k' ++ live (hist k))) k.
Proof.
  intros Hok HN. unfold friend_loader_init. wp_step. wp_step. wp_step.
  eapply wp_mono; [by apply memdevice_init_ok|]. intros m k1 [-> E1].
  cbn [Z.ltb Z.compare]. apply wp_bind.
  eapply wp_mono; [apply wp_and; [by apply cpudevice_init_ok|
    apply cpudevice_init_spec; [apply Hok..|done]]|].
  intros n k2 (Hn & Hs & evs & _ & [(-> & En & Hp & _ & E2)|([->|[-> HN1]] & _ & E2)]); [|done|].
  - cbn [Z.ltb Z.compare]. apply wp_bind.
    eapply wp_mono; [by apply version_interface_init_ok|].
    intros v k3 (-> & Hd & E3). cbn [Z.ltb Z.compare]. apply wp_ret. left.
    split_and!; [lia|done|]. rewrite E3, E2, E1. unfold module_objects.
    apply objects_device_statics in Hd as [-> ->]. apply objects_other_statics in Hs as ->.
    by rewrite <- !app_assoc.
  - change (- EIO <? 0) with true. apply wp_ret. right. split_and!; [done..|].
    rewrite E2, E1. by apply objects_other_statics in Hs as ->.
Qed.

Lemma friend_loader_exit_spec k before :
  live (hist k) = module_objects k ++ before ->
  wp friend_loader_exit (fun _ k' => live (hist k') = before) k.
Proof.
  intros Hl. unfold friend_loader_exit. apply wp_bind.
  eapply wp_mono; [apply version_interface_exit_spec|]. intros [] k1 [Hd1 E1].
  unfold module_objects in Hl. rewrite <- !app_assoc in Hl. specialize (E1 _ Hl).
  apply wp_bind. eapply wp_mono; [apply cpudevice_exit_spec|]. intros [] k2 [Hd2 E2].
  apply objects_device_statics in Hd1 as [Hc1 Hm1]. apply objects_other_statics in Hd2 as Hm2.
  rewrite <- Hc1 in E1. specialize (E2 _ E1).
  apply wp_bind. eapply wp_mono; [apply memdevice_exit_spec|]. intros [] k3 E3.
  apply wp_exec. intros r. autorewrite with kst. cbn [live apply_event]. rewrite E3, E2.
  rewrite <- Hm1, <- Hm2. apply release_list_perm. unfold memory_objects.
  apply Permutation_app_comm.
Qed.

(** ** Theorems *)

(** C14: On a machine whose kernel grants every request of the module ([creation_ok]):
    with at least two processors, loading FriendLoader returns 0 with the two memory
    devices, one device per processor but the first, and the version attribute in
    place, and unloading it then gives all of them back and nothing else.  With a single
    processor the load is refused with -EIO, but the two memory devices registered by
    then stay: the error path does not give them back. *)
Theorem friend_loader_load_unload k :
  creation_ok -> 1 <= num_possible_cpus <= 2 ^ 32 ->
  exists r k1, friend_loader_init k = Done (r, k1) /\
    (2 <= num_possible_cpus -> r = 0 /\ live (hist k1) = module_objects k1 ++ live (hist k) /\
       exists k2, friend_loader_exit k1 = Done (tt, k2) /\ live (hist k2) = live (hist k)) /\
    (num_possible_cpus = 1 -> r = - EIO /\ live (hist k1) = memory_objects k1 ++ live (hist k)).
Proof.
  intros Hok HN. destruct (wp_done _ _ _ (friend_loader_init_ok k Hok HN)) as (r & k1 & E1 & Hr).
  exists r, k1. split; [done|]. destruct Hr as [(H2 & -> & L1)|(H1 & -> & L1)].
  - split; [|lia]. intros _. destruct (wp_done _ _ _ (friend_loader_exit_spec k1 _ L1)) as ([] & k2 & E2 & L2).
    by eauto.
  - split; [lia|done].
Qed.

End FriendLoader.

(** A read of the version attribute within the attribute's size, which is
    what sysfs passes on, returns exactly the requested bytes of the version
    string; reading the whole attribute returns "v0.05" and its terminating
    zero. *)
Theorem call_read_version off count :
  0 <= off -> 0 <= count -> off + count <= call_version_attr_size ->
  call_read off count = Done (slice kmod_version_string off count, count) /\
  Z.of_nat (length (slice kmod_version_string off count)) = count /\
  call_read 0 call_version_attr_size = Done ([118; 48; 46; 48; 53; 0], 6).
Proof.
  intros Ho Hc Hs. unfold call_version_attr_size in *. split_and!; [|by apply length_slice|done].
  unfold call_read. by rewrite !(proj2 (Z.leb_le _ _)) by done.
Qed.

Lemma call_read_version_witness :
  call_read 1 3 = Done (slice kmod_version_string 1 3, 3) /\
  Z.of_nat (length (slice kmod_version_string 1 3)) = 3 /\
  call_read 0 call_version_attr_size = Done ([118; 48; 46; 48; 53; 0], 6).
Proof. apply (call_read_version 1 3); discriminate. Defined.

(** ** Concrete kernels *)

Definition single_cpu_kernel : Kernel := {|
  answer := @answer good_kernel;
  num_possible_cpus := 1;
  nr_cpu_ids := 1;
  apic_integrated := true
|}.

Lemma creation_ok_good : @creation_ok good_kernel.
Proof.
  split; try done.
  - intros h b c n Hb. cbn [answer good_kernel]. unfold MKDEV. apply Z.lor_nonneg.
    split; [|done]. apply Z.shiftl_nonneg. lia.
  - exact good_alloc_minor_base.
Qed.

Lemma creation_ok_single : @creation_ok single_cpu_kernel.
Proof. destruct creation_ok_good. by split. Qed.

Lemma friend_loader_load_unload_witness :
  (exists k1 k2, @friend_loader_init good_kernel loaded = Done (0, k1) /\
     live (hist k1) = module_objects k1 ++ live (hist loaded) /\
     @friend_loader_exit good_kernel k1 = Done (tt, k2) /\ live (hist k2) = live (hist loaded)) /\
  (exists k1, @friend_loader_init single_cpu_kernel loaded = Done (- EIO, k1) /\
     live (hist k1) = memory_objects k1 ++ live (hist loaded)).
Proof.
  split.
  - destruct (@friend_loader_load_unload good_kernel loaded creation_ok_good) as (r & k1 & E1 & H2 & _);
      [split; discriminate|]. destruct H2 as (-> & L1 & k2 & E2 & L2); [discriminate|].
    exists k1, k2. split; [exact E1|]. split; [exact L1|]. split; [exact E2|exact L2].
  - destruct (@friend_loader_load_unload single_cpu_kernel loaded creation_ok_single) as (r & k1 & E1 & _ & H1);
      [split; discriminate|]. destruct H1 as [-> L1]; [reflexivity|].
    exists k1. split; [exact E1|exact L1].
Defined.
