(* ===== verification/Hakase.v ===== *)
(** * Hakase: the start-up of the host process, hakase/hakase.cc

    [setup] checks the module version and the kernel command line, maps the
    friend region, deploys the friend's ELF image, prepares the trampoline and
    fills in the imported symbols; [boot] opens the processor devices one after
    the other.  The devices are those of FriendLoader: the theorems connect the
    two sides. *)

From S2P Require Import Prelude Memory Paging Kernel CallInterface CpuHotplug CpuDevice FriendLoader CStruct ElfTypes ElfConsts ElfLoader Loader16 Friend16.
From stdpp Require Import pretty.
#[local] Open Scope Z_scope.
Import Layout.

(** ** C strings *)

(** The characters before the first zero. *)
Fixpoint c_str (l : list ascii) : list ascii :=
  match l with
  | [] => []
  | c :: l' => if Ascii.eqb c "000"%char then [] else c :: c_str l'
  end.

Fixpoint is_prefix (p l : list ascii) : bool :=
  match p, l with
  | [], _ => true
  | c :: p', d :: l' => Ascii.eqb c d && is_prefix p' l'
  | _ :: _, [] => false
  end.

(** [strstr(haystack, needle) != NULL] on zero-terminated strings *)
Fixpoint strstr (haystack needle : list ascii) : bool :=
  is_prefix needle haystack ||
  match haystack with
  | [] => false
  | _ :: h => strstr h needle
  end.

(** [buf[fread(buf, 1, 255, fp)] = '\0'], as the string in [buf] *)
Definition fread_buf (content : list ascii) : list ascii := c_str (take 255 content).

(** ** The process *)

Record hstate := mkH {
  hproc : proc;           (* memory, descriptors, error output *)
  streams : list string   (* FILE streams opened and not closed *)
}.

Definition lift_proc {A} (c : M proc A) : M hstate A := fun h =>
  match c (hproc h) with
  | Done (a, p) => Done (a, mkH p (streams h))
  | Fault f => Fault f
  end.
Definition lift_mem {A} (c : M mem A) : M hstate A := lift_proc (lift_vm c).

(** What surrounds the process: the files it reads, the kernel's answers, and the
    addresses the link has fixed. *)
Record env := mkEnv {
  content : string -> option (list ascii);  (* of a file; None: cannot be opened *)
  open_ret : string -> Z;
  bootmem_at : option Z;      (* where the trampoline is mapped; None: MAP_FAILED *)
  friend_mmap : bool;         (* the mapping of /dev/friend_mem is granted *)
  friend_phys : mem;          (* physical bytes of the friend region *)
  pdpt : Z; pd1 : Z; pd2 : Z;
  bin16_start : Z; bin16_size : Z;          (* the trampoline binary *)
  friend_bin : ElfLoader;                   (* __start_friend_bin and its size *)
  export_start : Z; export_end : Z          (* __export_symbol_start, _end *)
}.

Section Hakase.
Context (E : env).

(** A stream is opened over a descriptor, which stays open as long as the stream. *)
Definition with_fds (l : list Z) (p : proc) : proc := mkProc (vm p) (phys p) l (stderr p).

Definition fopen (path : string) : M hstate (option (list ascii)) := fun h =>
  match content E path with
  | None => Done (None, h)
  | Some c =>
      Done (Some c, mkH (with_fds (open_ret E path :: fds (hproc h)) (hproc h)) (path :: streams h))
  end.

Fixpoint remove_stream (path : string) (l : list string) : list string :=
  match l with
  | [] => []
  | p :: l' => if decide (p = path) then l' else p :: remove_stream path l'
  end.
Definition drop_stream (path : string) : M hstate unit := fun h =>
  Done (tt, mkH (hproc h) (remove_stream path (streams h))).
Definition fclose (path : string) : M hstate unit :=
  lift_proc (close (open_ret E path));; drop_stream path.

Definition cerr (s : string) : M hstate unit := lift_proc (perror s).

Definition boot_params : list ascii := list_ascii_of_string "memmap=8K$0x70000 memmap=1G$4G".

Definition check_bootparam : M hstate Z :=
  fp ← fopen "/proc/cmdline";
  match fp with
  | None => cerr "failed to open `cmdline`";; mret (-1)
  | Some c =>
      if negb (strstr (fread_buf c) boot_params) then
        cerr "error: physical memory is not isolated for toshokan.";; mret (-1)
      else fclose "/proc/cmdline";; mret 0
  end.

Definition version_path : string := "/sys/module/friend_loader/info/version".

Definition check_version : M hstate Z :=
  fp ← fopen version_path;
  match fp with
  | None => cerr "failed to open `version`";; mret (-1)
  | Some c =>
      if negb (strstr (fread_buf c) (list_ascii_of_string kmod_version)) then
        cerr "error: version mismatched";; mret (-1)
      else fclose version_path;; mret 0
  end.

(** The first [size] bytes of the friend memory device, as they appear at [addr]. *)
Definition mmapped (addr size : Z) : mem :=
  kmap (fun x => addr + (x - DEPLOY_PHYS_ADDR_START))
    (filter (fun e => DEPLOY_PHYS_ADDR_START <= e.1 < DEPLOY_PHYS_ADDR_START + size) (friend_phys E)).

(** A shared mapping of the device at a fixed address: MAP_FIXED replaces what the
    process had there. *)
Definition mmap_friend (addr size : Z) : M proc (option Z) := fun p =>
  if friend_mmap E then
    Done (Some addr, mkProc (mmapped addr size ∪ vm p) (phys p) (fds p) (stderr p))
  else Done (None, p).

Definition mmap_friend_mem : M hstate Z :=
  mem_fd ← lift_proc (open (open_ret E) "/dev/friend_mem");
  if mem_fd <? 0 then cerr "Open call failed";; mret (-1)
  else
    mmapped_addr ← lift_proc (mmap_friend DEPLOY_PHYS_ADDR_START DEPLOY_PHYS_MEM_SIZE);
    match mmapped_addr with
    | None => cerr "mmap operation failed...";; mret (-1)
    | Some a =>
        if negb (a =? DEPLOY_PHYS_ADDR_START) then fail Undefined
        else
          lift_proc (close mem_fd);;
          lift_mem (memset DEPLOY_PHYS_ADDR_START 0 (1024 * 4096));;
          mret 0
    end.

(** [for (c = __export_symbol_start; c != __export_symbol_end; c++)]: 16 bytes per
    container, [shared_var_ptr] first. *)
Fixpoint export_loop (fuel : nat) (c : Z) : M mem unit :=
  match fuel with
  | O => fail OutOfFuel
  | S fuel' =>
      if c =? export_end E then mret tt
      else
        shared_var_ptr ← load 8 c;
        hakase_var_ptr ← load 8 (c + 8);
        store 8 shared_var_ptr hakase_var_ptr;;
        export_loop fuel' (u64 (c + 16))
  end.

Definition export_fuel : nat := Z.to_nat ((export_end E - export_start E) / 16 + 1).

Definition export_init : M mem unit := export_loop export_fuel (export_start E).

Definition setup : M hstate Z :=
  v ← check_version;
  if v <? 0 then mret (-1)
  else
    b ← check_bootparam;
    if b <? 0 then mret (-1)
    else
      m ← mmap_friend_mem;
      if m <? 0 then mret (-1)
      else
        d ← lift_mem (Deploy (friend_bin E));
        if negb d then cerr "error: failed to deploy elf binary";; mret (-1)
        else
          entry ← lift_mem (GetEntry (friend_bin E));
          i ← lift_proc (Init (open_ret E) (bootmem_at E) (pdpt E) (pd1 E) (pd2 E)
                           (bin16_start E) (bin16_size E) entry);
          if i <? 0 then cerr "error: failed to init friend16 region";; mret (-1)
          else
            lift_mem export_init;;
            mret 0.

(** [sprintf(buf, "/dev/friend_cpu%d", i)] into [char buf[20]]: writing past the
    buffer is undefined. *)
Definition cpu_path (i : Z) : string := ("/dev/" ++ cpu_file i)%string.
Definition sprintf_cpu (i : Z) : M hstate string :=
  if (Z.of_nat (String.length (cpu_path i)) + 1 <=? 20) then mret (cpu_path i)
  else fail Undefined.

Fixpoint boot_loop (fuel : nat) (i max : Z) : M hstate Z :=
  match fuel with
  | O => fail OutOfFuel
  | S fuel' =>
      buf ← sprintf_cpu i;
      fd ← lift_proc (open (open_ret E) buf);
      if fd <? 0 then mret (i - 1)
      else if i =? max then mret i
      else boot_loop fuel' (i + 1) max
  end.

(** Processor 10000 would not fit the buffer. *)
Definition boot_fuel : nat := Z.to_nat 10000.
Definition boot (max : Z) : M hstate Z := boot_loop boot_fuel 1 max.

(** ** Imported symbols *)

(** The containers of the export section, as bytes. *)
Fixpoint export_bytes (xs : list (Z * Z)) : list Z :=
  match xs with
  | [] => []
  | (p, v) :: xs' => le_bytes 8 p ++ le_bytes 8 v ++ export_bytes xs'
  end.

Lemma length_export_bytes xs : length (export_bytes xs) = (16 * length xs)%nat.
Proof.
  induction xs as [|[p v] xs IH]; [done|]. cbn [export_bytes].
  rewrite !length_app, !length_le_bytes, IH. cbn [length]. lia.
Qed.

(** The section holds [xs] at [c]; the pointers are distinct mapped 8-byte slots
    that do not overlap it. *)
Record exports_ok (m : mem) (c : Z) (xs : list (Z * Z)) : Prop := {
  ex_range : 0 <= c /\ c + 16 * Z.of_nat (length xs) < 2 ^ 64;
  ex_table : holds m c (export_bytes xs);
  ex_slots : Forall (fun x => slot x.1 /\ mapped m x.1 8 /\ uint 64 x.2 /\
    (x.1 + 8 <= c \/ c + 16 * Z.of_nat (length xs) <= x.1)) xs;
  ex_nodup : NoDup xs.*1
}.

Lemma holds_app m a l1 l2 :
  holds m a (l1 ++ l2) <-> holds m a l1 /\ holds m (a + Z.of_nat (length l1)) l2.
Proof.
  split.
  - intros H. split; intros i b Hi.
    + apply H. by apply lookup_app_l_Some.
    + rewrite <- (H (length l1 + i)%nat b); [f_equal; lia|].
      by rewrite lookup_app_r, Nat.add_sub' by lia.
  - intros [H1 H2] i b Hi. apply lookup_app_Some in Hi as [Hi|[Hl Hi]]; [by apply H1|].
    rewrite <- (H2 _ _ Hi). f_equal. lia.
Qed.

Lemma exports_ok_tail m m' c p v xs :
  exports_ok m c ((p, v) :: xs) -> slot_update m m' (fun a => a = p) -> exports_ok m' (c + 16) xs.
Proof.
  intros [Hr Ht Hs Hn] U. cbn [length] in *. cbn [export_bytes] in Ht.
  rewrite !holds_app, !length_le_bytes in Ht. destruct Ht as (_ & _ & Ht).
  apply Forall_cons in Hs as [(Hsl & _ & _ & Hd) Hs]. cbn [fst] in *.
  rewrite fmap_cons in Hn. apply NoDup_cons in Hn as [_ Hn].
  split; [lia| | |done].
  - replace (c + 16) with (c + Z.of_nat 8 + Z.of_nat 8) by lia.
    eapply holds_agree; [|exact Ht]. intros x Hx. rewrite length_export_bytes in Hx.
    apply (su_byte _ _ _ U). intros a ->. cbn [length] in Hd. lia.
  - eapply Forall_impl; [exact Hs|]. intros [q w] (H1 & H2 & H3 & H4). cbn [fst snd] in *.
    split; [done|]. split; [|split; [done|lia]].
    eapply mapped_agree; [apply (su_dom _ _ _ U)|done].
Qed.

Lemma export_loop_spec xs fuel c m :
  exports_ok m c xs -> export_end E = c + 16 * Z.of_nat (length xs) ->
  (length xs < fuel)%nat ->
  wp (export_loop fuel c) (fun _ m' =>
    slot_update m m' (fun a => a ∈ xs.*1) /\
    Forall (fun x => read64 m' x.1 = Some x.2) xs) m.
Proof.
  revert fuel c m. induction xs as [|[p v] xs IH]; intros [|fuel] c m Hok Hend Hf;
    cbn [length] in *; [lia|..|lia|]; cbn [export_loop].
  { rewrite (proj2 (Z.eqb_eq _ _)) by lia. apply wp_ret. split; [apply slot_update_refl|done]. }
  pose proof Hok as [Hr Ht Hs Hn]. cbn [length] in *. cbn [export_bytes] in Ht.
  rewrite !holds_app, !length_le_bytes in Ht. destruct Ht as (Hp & Hv & _).
  apply Forall_cons in Hs as [(Hsl & Hm & Hv64 & Hd) _]. cbn [fst snd] in *.
  rewrite (proj2 (Z.eqb_neq _ _)) by lia.
  assert (uint 64 p) as Hp64 by (destruct Hsl as (? & _ & ?); unfold uint; lia).
  unfold wp. rewrite (bind_done _ _ _ p m) by (apply load_holds; [lia|lia|exact Hp64|exact Hp]).
  rewrite (bind_done _ _ _ v m) by (apply load_holds; [lia|lia|exact Hv64|exact Hv]).
  destruct (store64_slot m p v Hsl Hm Hv64) as (m1 & E1 & R1 & U1).
  rewrite (bind_done _ _ _ _ _ E1), u64_small by lia.
  assert (p ∉ xs.*1) as Hni by (rewrite fmap_cons in Hn; by apply NoDup_cons in Hn as [? _]).
  eapply wp_mono; [apply IH; [by eapply exports_ok_tail|lia|lia]|].
  intros [] m2 [U2 R2]. split.
  - eapply slot_update_weaken, slot_update_trans; [|exact U1|exact U2].
    intros a [->|Ha]; rewrite fmap_cons; [by left|by right].
  - apply Forall_cons. split; [|exact R2]. cbn [fst snd]. rewrite <- R1.
    by apply (su_read _ _ _ U2).
Qed.

Lemma export_init_spec xs m :
  exports_ok m (export_start E) xs ->
  export_end E = export_start E + 16 * Z.of_nat (length xs) ->
  wp export_init (fun _ m' =>
    slot_update m m' (fun a => a ∈ xs.*1) /\
    Forall (fun x => read64 m' x.1 = Some x.2) xs) m.
Proof.
  intros Hok Hend. apply export_loop_spec; [done..|]. unfold export_fuel. rewrite Hend.
  replace (export_start E + 16 * Z.of_nat (length xs) - export_start E)
    with (Z.of_nat (length xs) * 16) by lia.
  rewrite Z.div_mul by done. lia.
Qed.

(** ** boot *)

Lemma cpu_path_fits i : 1 <= i <= 9999 -> Z.of_nat (String.length (cpu_path i)) + 1 <= 20.
Proof.
  intros Hi.
  assert (Forall (fun i => Z.of_nat (String.length (cpu_path i)) + 1 <= 20) (seqZ 1 9999)) as HF
    by (apply (bool_decide_unpack _); vm_compute; exact I).
  rewrite Forall_forall in HF. apply HF. apply elem_of_seqZ. lia.
Qed.

(** The state after the devices of processors [i], ..., [i + n - 1] are opened. *)
Definition opened (i : Z) (n : nat) (h : hstate) : hstate :=
  mkH (mkProc (vm (hproc h)) (phys (hproc h))
         (reverse ((fun j => open_ret E (cpu_path j)) <$> seqZ i (Z.of_nat n)) ++ fds (hproc h))
         (stderr (hproc h))) (streams h).

Lemma opened_S i n h :
  opened i (S n) h = opened (i + 1) n
    (mkH (mkProc (vm (hproc h)) (phys (hproc h)) (open_ret E (cpu_path i) :: fds (hproc h))
            (stderr (hproc h))) (streams h)).
Proof.
  unfold opened. rewrite seqZ_cons by lia. rewrite fmap_cons, reverse_cons, <- app_assoc.
  replace (Z.pred (Z.of_nat (S n))) with (Z.of_nat n) by lia. done.
Qed.

(** [n] devices exist from processor [i] on. *)
Lemma boot_loop_spec n fuel i max h :
  (n < fuel)%nat -> 1 <= i -> i + Z.of_nat n <= 9999 ->
  (forall j, i <= j < i + Z.of_nat n -> 0 <= open_ret E (cpu_path j)) ->
  open_ret E (cpu_path (i + Z.of_nat n)) < 0 ->
  boot_loop fuel i max h =
    let r := if bool_decide (i <= max < i + Z.of_nat n) then max else i + Z.of_nat n - 1 in
    Done (r, opened i (Z.to_nat (r + 1 - i)) h).
Proof.
  revert fuel i h. induction n as [|n IH]; intros [|fuel] i h Hf Hi Hb Hop Hno; try lia;
    cbn [boot_loop].
  - rewrite Z.add_0_r in *. rewrite bool_decide_eq_false_2 by lia. cbv zeta.
    unfold sprintf_cpu. rewrite (proj2 (Z.leb_le _ _)) by (apply cpu_path_fits; lia).
    unfold mbind, M_bind, lift_proc, open, mret, M_ret.
    rewrite (proj2 (Z.ltb_lt _ _) Hno). replace (Z.to_nat (i - 1 + 1 - i)) with 0%nat by lia.
    unfold opened. cbn. by destruct h as [[] ?].
  - assert (0 <= open_ret E (cpu_path i)) as H0 by (apply Hop; lia).
    unfold sprintf_cpu. rewrite (proj2 (Z.leb_le _ _)) by (apply cpu_path_fits; lia).
    rewrite (bind_done _ _ _ (cpu_path i) h) by done.
    erewrite bind_done; [|unfold lift_proc, open; cbv zeta;
      rewrite (proj2 (Z.ltb_ge _ _) H0); reflexivity].
    rewrite (proj2 (Z.ltb_ge _ _) H0).
    destruct (Z.eqb_spec i max) as [<-|Hne].
    + rewrite bool_decide_eq_true_2 by lia. cbv zeta.
      replace (Z.to_nat (i + 1 - i)) with 1%nat by lia. by rewrite opened_S.
    + rewrite IH; [|lia|lia|lia| |].
      * replace (i + 1 + Z.of_nat n) with (i + Z.of_nat (S n)) by lia. cbv zeta.
        rewrite (bool_decide_ext (i + 1 <= max < i + Z.of_nat (S n)) (i <= max < i + Z.of_nat (S n)))
          by lia.
        case_bool_decide.
        -- replace (Z.to_nat (max + 1 - i)) with (S (Z.to_nat (max + 1 - (i + 1)))) by lia.
           by rewrite opened_S.
        -- replace (Z.to_nat (i + Z.of_nat (S n) - 1 + 1 - i))
             with (S (Z.to_nat (i + Z.of_nat (S n) - 1 + 1 - (i + 1)))) by lia.
           by rewrite opened_S.
      * intros j Hj. apply Hop. lia.
      * by replace (i + 1 + Z.of_nat n) with (i + Z.of_nat (S n)) by lia.
Qed.

(** With [n] processor devices, [boot max] starts processors 1, 2, ... in
    order and returns how many it started: [max] if that is between 1 and [n],
    all [n] otherwise (a [max] of zero or below is no limit).  It terminates, its
    path buffer is never overrun below ten thousand processors, and the
    descriptors stay open. *)
Theorem boot_starts n max h :
  0 <= n <= 9998 ->
  (forall j, 1 <= j <= n -> 0 <= open_ret E (cpu_path j)) ->
  open_ret E (cpu_path (n + 1)) < 0 ->
  boot max h =
    let r := if bool_decide (1 <= max <= n) then max else n in
    Done (r, opened 1 (Z.to_nat r) h).
Proof.
  intros Hn Hop Hno. unfold boot. rewrite (boot_loop_spec (Z.to_nat n)); try lia.
  - cbv zeta. rewrite (bool_decide_ext (1 <= max < 1 + Z.of_nat (Z.to_nat n)) (1 <= max <= n))
      by lia.
    case_bool_decide.
    + do 3 f_equal. lia.
    + replace (1 + Z.of_nat (Z.to_nat n) - 1) with n by lia. do 3 f_equal. lia.
  - unfold boot_fuel. lia.
  - intros j Hj. apply Hop. lia.
  - by replace (1 + Z.of_nat (Z.to_nat n)) with (n + 1) by lia.
Qed.

(** ** setup *)

Definition set_vm (m : mem) (h : hstate) : hstate :=
  mkH (mkProc m (phys (hproc h)) (fds (hproc h)) (stderr (hproc h))) (streams h).

Lemma wp_lift_mem {A} (c : M mem A) (Q : A -> hstate -> Prop) h :
  wp c (fun a m => Q a (set_vm m h)) (vm (hproc h)) -> wp (lift_mem c) Q h.
Proof. unfold wp, lift_mem, lift_proc, lift_vm. by destruct (c (vm (hproc h))) as [[a m]|]. Qed.

Lemma lift_mem_done {A} (c : M mem A) h a m :
  c (vm (hproc h)) = Done (a, m) -> lift_mem c h = Done (a, set_vm m h).
Proof. intros H1. unfold lift_mem, lift_proc, lift_vm. by rewrite H1. Qed.

(** What [setup] asks of its two text files. *)
Definition version_ok : Prop :=
  exists c, content E version_path = Some c /\
    strstr (fread_buf c) (list_ascii_of_string kmod_version) = true.
Definition bootparam_ok : Prop :=
  exists c, content E "/proc/cmdline" = Some c /\ strstr (fread_buf c) boot_params = true.

(** What a check leaves behind when it refuses: if its file could be opened, it stays
    open, the stream and the descriptor under it. *)
Definition left_open (path : string) (h h' : hstate) : Prop :=
  let opened := is_Some (content E path) in
  vm (hproc h') = vm (hproc h) /\ phys (hproc h') = phys (hproc h) /\
  (opened -> fds (hproc h') = open_ret E path :: fds (hproc h) /\ streams h' = path :: streams h) /\
  (~ opened -> fds (hproc h') = fds (hproc h) /\ streams h' = streams h).

Definition checks (path : string) (needle : list ascii) : Prop :=
  exists c, content E path = Some c /\ strstr (fread_buf c) needle = true.

(** Both checks, over their file, the string they look for and their messages. *)
Lemma check_spec path needle no_file no_match h :
  (open_ret E path ∉ fds (hproc h)) ->
  wp (fp ← fopen path;
      match fp with
      | None => cerr no_file;; mret (-1)
      | Some c =>
          if negb (strstr (fread_buf c) needle) then cerr no_match;; mret (-1)
          else fclose path;; mret 0
      end)
    (fun r h' => (checks path needle /\ r = 0 /\ h' = h) \/
       (~ checks path needle /\ r = -1 /\ left_open path h h')) h.
Proof.
  intros Hf. unfold wp, fopen, mbind, M_bind, checks, left_open.
  destruct (content E path) as [c|] eqn:Ec.
  - destruct (strstr (fread_buf c) _) eqn:Es; cbn [negb].
    + left. split_and!; [by exists c|done|]. unfold fclose, drop_stream, mbind, M_bind, lift_proc, close, with_fds.
      cbn [remove_stream streams hproc vm phys fds stderr list_difference].
      rewrite decide_True by done. destruct (decide_rel _ _ _) as [_|Hn]; [|set_solver].
      rewrite difference_absent by done. by destruct h as [[] ?].
    + right. split; [by intros (c' & [= <-] & Es'); congruence|]. split; [done|].
      cbv zeta. split; [done|]. split; [done|]. split; [done|]. intros Hn. destruct Hn. by eexists.
  - right. split; [by intros (c & ? & _)|]. split; [done|].
    cbv zeta. split; [done|]. split; [done|]. split; [by intros [? ?]|done].
Qed.

Lemma check_version_spec h :
  (open_ret E version_path ∉ fds (hproc h)) ->
  wp check_version (fun r h' => (version_ok /\ r = 0 /\ h' = h) \/
    (~ version_ok /\ r = -1 /\ left_open version_path h h')) h.
Proof. apply check_spec. Qed.

Lemma check_bootparam_spec h :
  (open_ret E "/proc/cmdline" ∉ fds (hproc h)) ->
  wp check_bootparam (fun r h' => (bootparam_ok /\ r = 0 /\ h' = h) \/
    (~ bootparam_ok /\ r = -1 /\ left_open "/proc/cmdline" h h')) h.
Proof. apply check_spec. Qed.

(** C24: [setup] starts nothing on a machine it was not made for: without the
    matching module version, or without the memory reservations in the first 255
    bytes of the kernel command line, it returns -1 with the memory of the process and
    the trampoline untouched.  The file whose content did not match is left open, stream
    and descriptor; no other descriptor changes, and none does if the file could not be
    opened.  (A new descriptor is one that is not open, for the two files.) *)
Theorem setup_refuses h :
  (open_ret E version_path ∉ fds (hproc h)) -> (open_ret E "/proc/cmdline" ∉ fds (hproc h)) ->
  ~ version_ok \/ ~ bootparam_ok ->
  exists h' path, setup h = Done (-1, h') /\ left_open path h h' /\
    ((path = version_path /\ ~ version_ok) \/
     (path = "/proc/cmdline"%string /\ version_ok /\ ~ bootparam_ok)).
Proof.
  intros Hf1 Hf2 Hno.
  assert (wp setup (fun r h' => r = -1 /\ exists path, left_open path h h' /\
    ((path = version_path /\ ~ version_ok) \/
     (path = "/proc/cmdline"%string /\ version_ok /\ ~ bootparam_ok))) h) as Hw.
  { unfold setup. apply wp_bind. eapply wp_mono; [by apply check_version_spec|].
    intros r h1 [(Hv & -> & ->)|(Hv & -> & Hs)]; cbn [Z.ltb Z.compare]; [|apply wp_ret; eauto 10].
    apply wp_bind. eapply wp_mono; [by apply check_bootparam_spec|].
    intros r h1 [(Hb & -> & ->)|(Hb & -> & Hs)]; cbn [Z.ltb Z.compare]; [tauto|apply wp_ret; eauto 10]. }
  apply wp_done in Hw as (r & h' & E1 & -> & path & H1). by exists h', path.
Qed.

(** Memory once the friend region is mapped and its first 4 MB are cleared. *)
Definition cleared (m : mem) : mem :=
  blit (friend_phys E ∪ m) DEPLOY_PHYS_ADDR_START (replicate (Z.to_nat (1024 * 4096)) (u8 0)).

Definition region_mapped : Prop :=
  forall x, is_Some (friend_phys E !! x) <-> in_friend_region x.

(** Mapped at its own addresses, the whole device is the friend region. *)
Lemma mmapped_region : region_mapped -> mmapped DEPLOY_PHYS_ADDR_START DEPLOY_PHYS_MEM_SIZE = friend_phys E.
Proof.
  intros Hr. apply map_eq. intros x. apply option_eq. intros v. unfold mmapped.
  rewrite lookup_kmap_Some by (intros y z; lia). split.
  - intros (y & -> & Hy). apply map_lookup_filter_Some in Hy as [Hy _]. by rewrite Zplus_minus.
  - intros Hx. exists x. split; [lia|]. apply map_lookup_filter_Some. split; [done|].
    apply (Hr x). by eexists.
Qed.

Lemma cleared_outside m x :
  region_mapped -> ~ in_friend_region x -> cleared m !! x = m !! x.
Proof.
  intros Hr Hx. unfold cleared. rewrite blit_lookup, decide_False.
  - apply lookup_union_r. destruct (friend_phys E !! x) eqn:Ex; [|done].
    exfalso. apply Hx, Hr. by eexists.
  - rewrite length_replicate. unfold in_friend_region, DEPLOY_PHYS_ADDR_START,
      DEPLOY_PHYS_ADDR_END in *. lia.
Qed.

Lemma cleared_mapped m : region_mapped -> mapped (cleared m) DEPLOY_PHYS_ADDR_START DEPLOY_PHYS_MEM_SIZE.
Proof.
  intros Hr x Hx. unfold cleared.
  assert (in_friend_region x) as Hin
    by (unfold in_friend_region, DEPLOY_PHYS_MEM_SIZE in *; lia).
  apply blit_dom.
  - intros y Hy. rewrite length_replicate in Hy. apply lookup_union_is_Some. left.
    apply Hr. unfold in_friend_region, DEPLOY_PHYS_ADDR_START, DEPLOY_PHYS_ADDR_END in *. lia.
  - apply lookup_union_is_Some. left. by apply Hr.
Qed.

Lemma mmap_friend_mem_spec h :
  region_mapped -> friend_mmap E = true -> 0 <= open_ret E "/dev/friend_mem" ->
  (open_ret E "/dev/friend_mem" ∉ fds (hproc h)) ->
  wp mmap_friend_mem (fun r h' => r = 0 /\ h' = set_vm (cleared (vm (hproc h))) h) h.
Proof.
  intros Hr Hm Ho Hf. unfold mmap_friend_mem, wp.
  erewrite bind_done; [|unfold lift_proc, open; cbv zeta;
    rewrite (proj2 (Z.ltb_ge _ _) Ho); reflexivity].
  rewrite (proj2 (Z.ltb_ge _ _) Ho).
  match goal with |- match (_ ≫= _) ?h1 with _ => _ end => set (h2 := h1) end.
  assert (lift_proc (mmap_friend DEPLOY_PHYS_ADDR_START DEPLOY_PHYS_MEM_SIZE) h2 = Done (Some DEPLOY_PHYS_ADDR_START,
    mkH (mkProc (friend_phys E ∪ vm (hproc h)) (phys (hproc h)) (fds (hproc h2)) (stderr (hproc h)))
      (streams h))) as E2 by (unfold lift_proc, mmap_friend; by rewrite Hm, mmapped_region).
  rewrite (bind_done _ _ _ _ _ E2), Z.eqb_refl. cbn [negb]. erewrite bind_done; [|reflexivity].
  clear E2.
  match goal with |- match (_ ≫= _) ?h1 with _ => _ end => set (h3 := h1) end.
  assert (memset DEPLOY_PHYS_ADDR_START 0 (1024 * 4096) (vm (hproc h3)) =
    Done (tt, cleared (vm (hproc h)))) as Em.
  { apply memset_blit; [done..|]. intros x Hx. apply lookup_union_is_Some. left. apply Hr.
    unfold in_friend_region, DEPLOY_PHYS_ADDR_START, DEPLOY_PHYS_ADDR_END in *. lia. }
  pose proof (lift_mem_done _ h3 _ _ Em) as El.
  generalize dependent (cleared (vm (hproc h))). intros m1 _ El.
  rewrite (bind_done _ _ _ _ _ El). split; [done|].
  unfold set_vm, h3, h2. cbn [fds stderr streams hproc phys list_difference].
  destruct (decide_rel _ _ _) as [_|Hn]; [by rewrite difference_absent|].
  destruct Hn. apply elem_of_cons. by left.
Qed.

(** The situation in which [setup] succeeds: [file] is the friend image linked into
    the process, with headers [im]; [bin] the trampoline binary; [b] the place the
    kernel maps the trampoline at; [xs] the exported symbols. *)
Record ready (h : hstate) (file : list Z) (im : image) (bin : list Z) (b : Z)
    (xs : list (Z * Z)) : Prop := {
  rd_version : version_ok;
  rd_param : bootparam_ok;
  rd_region : region_mapped;
  rd_mmap : friend_mmap E = true;
  rd_fds : Forall (fun p => 0 <= open_ret E p /\ (open_ret E p ∉ fds (hproc h)))
    ["/dev/friend_mem"; "/dev/friend_bootmem0x70000"; version_path; "/proc/cmdline"]%string;
  rd_top : vm (hproc h) !! (2 ^ 64 - 1) = None;
  (* the friend image *)
  rd_wf : file_wf file im;
  rd_accepted : ehdr_accepted (im_ehdr im) = true /\ all_in_region im = true;
  rd_file : 0 <= _addr (friend_bin E) /\ _addr (friend_bin E) + Z.of_nat (length file) <= 2 ^ 64;
  rd_file_holds : holds (vm (hproc h)) (_addr (friend_bin E)) file;
  rd_file_out : _addr (friend_bin E) + Z.of_nat (length file) <= DEPLOY_PHYS_ADDR_START \/
    DEPLOY_PHYS_ADDR_END <= _addr (friend_bin E);
  (* the trampoline *)
  rd_phys : mapped (phys (hproc h)) TRAMPOLINE_ADDR TRAMPOLINE_SIZE;
  rd_bootmem : bootmem_at E = Some b;
  rd_boot_page : page b /\ page (b + PAGE_SIZE);
  rd_boot_free : forall x, b <= x < b + TRAMPOLINE_SIZE ->
    vm (hproc h) !! x = None /\ ~ in_friend_region x;
  rd_bin : bin16_size E = Z.of_nat (length bin) /\ Z.of_nat (length bin) <= PAGE_SIZE;
  rd_bin_range : 0 <= bin16_start E /\ bin16_start E + Z.of_nat (length bin) <= 2 ^ 64;
  rd_bin_holds : holds (vm (hproc h)) (bin16_start E) bin;
  rd_bin_out : forall x, bin16_start E <= x < bin16_start E + Z.of_nat (length bin) ->
    ~ in_friend_region x;
  (* the page tables, in the friend's bss *)
  rd_tables : forall q, q ∈ [pdpt E; pd1 E; pd2 E] -> page q /\ in_friend_region q;
  rd_distinct : NoDup [pdpt E; pd1 E; pd2 E];
  rd_bss : forall q x, q ∈ [pdpt E; pd1 E] -> q <= x < q + 4096 ->
    existsb (bss_covers x) (im_shdrs im) = true;
  (* the export section *)
  rd_export_end : export_end E = export_start E + 16 * Z.of_nat (length xs);
  rd_export_range : 0 <= export_start E /\ export_end E < 2 ^ 64;
  rd_export_holds : holds (vm (hproc h)) (export_start E) (export_bytes xs);
  rd_export_out : forall x, export_start E <= x < export_end E -> ~ in_friend_region x;
  rd_export_slots : Forall (fun x => slot x.1 /\ uint 64 x.2 /\
    (forall i, 0 <= i < 8 -> in_friend_region (x.1 + i)) /\
    forall q, q ∈ [pdpt E; pd1 E; pd2 E] -> x.1 + 8 <= q \/ q + 4096 <= x.1) xs;
  rd_export_nodup : NoDup xs.*1
}.

Section Setup.
Context (h : hstate) (file : list Z) (im : image) (bin : list Z) (b : Z) (xs : list (Z * Z)).
Hypothesis Hr : ready h file im bin b xs.

Let m1 := cleared (vm (hproc h)).

Lemma table_region q x : q ∈ [pdpt E; pd1 E; pd2 E] -> q <= x < q + 4096 -> in_friend_region x.
Proof.
  intros Hq Hx. destruct (rd_tables _ _ _ _ _ _ Hr q Hq) as [(_ & Ha & _) Hin].
  pose proof (Z.div_mod q 4096). unfold in_friend_region, DEPLOY_PHYS_ADDR_START,
    DEPLOY_PHYS_ADDR_END in *. lia.
Qed.

Lemma setup_loadable : loadable m1 (friend_bin E) file.
Proof.
  destruct (rd_file _ _ _ _ _ _ Hr) as [H0 H1]. split; [done|done| |apply Hr|].
  - eapply holds_agree; [|apply Hr]. intros x Hx. apply cleared_outside; [apply Hr|].
    pose proof (rd_file_out _ _ _ _ _ _ Hr). unfold in_friend_region. lia.
  - apply cleared_mapped, Hr.
Qed.

(** Deploying the image: memory is [loaded_byte], and nothing outside the friend
    region changes. *)
Lemma setup_deploy :
  exists m2, Deploy (friend_bin E) m1 = Done (true, m2) /\
    (forall x, m2 !! x = loaded_byte file im m1 x) /\
    (forall x, ~ in_friend_region x -> m2 !! x = vm (hproc h) !! x) /\
    loadable m2 (friend_bin E) file.
Proof.
  pose proof setup_loadable as Hl. pose proof (rd_wf _ _ _ _ _ _ Hr) as Hw.
  destruct (rd_accepted _ _ _ _ _ _ Hr) as [Ha Hall].
  destruct (spec_deploy file im m1) as [ok m2] eqn:Es.
  pose proof (spec_deploy_fst file im m1) as Hf. rewrite Es, Ha, Hall in Hf. cbn in Hf. subst ok.
  assert (Deploy (friend_bin E) m1 = Done (true, m2)) as Ed
    by (rewrite (Deploy_refines_spec file im (friend_bin E) Hw m1 Hl); by rewrite Es).
  exists m2. split_and!; [done| | |].
  - intros x. by apply spec_deploy_lookup.
  - assert (m1 !! (2 ^ 64 - 1) = None) as Ht.
    { unfold m1. rewrite cleared_outside; [apply Hr|apply Hr|].
      unfold in_friend_region, DEPLOY_PHYS_ADDR_END. lia. }
    intros x Hx. rewrite (Deploy_same_outside _ _ _ _ Ht Ed x Hx).
    apply cleared_outside; [apply Hr|done].
  - pose proof (spec_deploy_loadable file im (friend_bin E) Hw m1 Hl) as Hl2. by rewrite Es in Hl2.
Qed.

Lemma setup_init_ok m2 ph fd er :
  ph = phys (hproc h) ->
  (forall x, m2 !! x = loaded_byte file im m1 x) ->
  (forall x, ~ in_friend_region x -> m2 !! x = vm (hproc h) !! x) ->
  loadable m2 (friend_bin E) file ->
  init_ok (pdpt E) (pd1 E) (pd2 E) (mkProc m2 ph fd er) b (bin16_start E) bin.
Proof.
  intros -> Hb Ho Hl. split; cbn [vm phys].
  - apply Hr.
  - eapply holds_agree; [|apply Hr]. intros x Hx. apply Ho. by apply (rd_bin_out _ _ _ _ _ _ Hr).
  - apply Hr.
  - apply Hr.
  - intros x Hx. destruct (rd_boot_free _ _ _ _ _ _ Hr x Hx) as [Hn Hi]. by rewrite Ho.
  - intros q Hq. destruct (rd_tables _ _ _ _ _ _ Hr q Hq) as [Hp Hin].
    split; [done|]. split; [done|]. intros x Hx. apply (ld_mapped _ _ _ Hl).
    pose proof (table_region q x Hq Hx). unfold in_friend_region, DEPLOY_PHYS_MEM_SIZE in *. lia.
  - apply Hr.
  - intros q i Hq Hi. assert (q ∈ [pdpt E; pd1 E; pd2 E]) as Hq3 by set_solver.
    destruct (rd_tables _ _ _ _ _ _ Hr q Hq3) as [Hp _].
    apply read64_zero; [by apply page_slot|]. intros x Hx. rewrite Hb. unfold loaded_byte.
    rewrite (rd_bss _ _ _ _ _ _ Hr q x Hq) by lia. done.
Qed.

Lemma setup_exports_ok p2 p3 entry bin' :
  booted (pdpt E) (pd1 E) (pd2 E) p2 entry bin' p3 ->
  (forall x, ~ in_friend_region x -> vm p2 !! x = vm (hproc h) !! x) ->
  mapped (vm p2) DEPLOY_PHYS_ADDR_START DEPLOY_PHYS_MEM_SIZE ->
  exports_ok (vm p3) (export_start E) xs.
Proof.
  intros Hb Ho Hm. pose proof (rd_export_range _ _ _ _ _ _ Hr) as [H0 H1].
  pose proof (rd_export_end _ _ _ _ _ _ Hr) as He.
  split; [lia| | |apply Hr].
  - eapply holds_agree; [|apply Hr]. intros x Hx. rewrite length_export_bytes in Hx.
    assert (~ in_friend_region x) as Hn by (apply (rd_export_out _ _ _ _ _ _ Hr); lia).
    rewrite (bo_vm _ _ _ _ _ _ _ Hb), Ho; [done|done|].
    intros q Hq Hqx. apply Hn. by eapply table_region.
  - pose proof (rd_export_slots _ _ _ _ _ _ Hr) as Hall. rewrite Forall_forall in Hall |- *.
    intros [q v] Hx. destruct (Hall _ Hx) as (Hs & Hv & Hin & _). cbn [fst snd] in *.
    assert (0 < length xs)%nat by (destruct xs; [by apply elem_of_nil in Hx|cbn; lia]).
    clear Hall Hx. split; [done|]. split; [|split; [done|]].
    + intros x Hx. apply (bo_dom _ _ _ _ _ _ _ Hb), Hm.
      specialize (Hin (x - q) ltac:(lia)). replace (q + (x - q)) with x in Hin by lia.
      unfold in_friend_region, DEPLOY_PHYS_MEM_SIZE in *. lia.
    + rewrite <- He. pose proof (rd_export_out _ _ _ _ _ _ Hr) as Hout.
      destruct (decide (q + 8 <= export_start E)); [by left|].
      destruct (decide (export_end E <= q)); [by right|]. exfalso.
      destruct (decide (export_start E <= q)) as [Hq|Hq].
      * apply (Hout q); [lia|]. specialize (Hin 0 ltac:(lia)). by rewrite Z.add_0_r in Hin.
      * apply (Hout (export_start E)); [lia|]. specialize (Hin (export_start E - q) ltac:(lia)).
        by replace (q + (export_start E - q)) with (export_start E) in Hin by lia.
Qed.

(** The state [setup] leaves. *)
Record set_up (h' : hstate) : Prop := {
  su_entry : boot_read (hproc h') (TRAMPOLINE_ADDR + 8) = Some (e_entry (im_ehdr im));
  su_trampoline : forall i, 0 <= i < Z.of_nat (length bin) -> ~ (8 <= i < 16) ->
    phys (hproc h') !! (TRAMPOLINE_ADDR + i) = bin !! Z.to_nat i;
  su_walk : forall va, 0 <= va < k512GB ->
    walk (boot_read (hproc h')) INITIAL_PML4T va = boot_translation va;
  su_upper : upper_kept (phys (hproc h)) (boot_read (hproc h'));
  su_image : forall x,
    (forall q, q ∈ [pdpt E; pd1 E; pd2 E] -> ~ (q <= x < q + 4096)) ->
    (forall y, y ∈ xs.*1 -> ~ (y <= x < y + 8)) ->
    vm (hproc h') !! x = loaded_byte file im m1 x;
  su_exports : Forall (fun x => read64 (vm (hproc h')) x.1 = Some x.2) xs;
  su_streams : streams h' = streams h /\ fds (hproc h') = fds (hproc h)
}.

Lemma boot_read_export p3 m4 :
  boot_tables (pdpt E) (pd1 E) (pd2 E) (boot_read p3) ->
  slot_update (vm p3) m4 (fun a => a ∈ xs.*1) ->
  boot_tables (pdpt E) (pd1 E) (pd2 E)
    (boot_read (mkProc m4 (phys p3) (fds p3) (stderr p3))).
Proof.
  intros Ht U. apply (boot_tables_agree _ _ _ (boot_read p3)); [done| |exact Ht].
  intros q i Hq Hi. unfold boot_read. cbn [vm phys].
  destruct (rd_tables _ _ _ _ _ _ Hr q Hq) as [Hp _].
  case_decide; [done|]. case_decide; [|done].
  apply (su_read _ _ _ U); [by apply page_slot|].
  intros Hin. apply list_elem_of_fmap in Hin as ([y v] & Ey & Hin). cbn [fst] in Ey.
  pose proof (rd_export_slots _ _ _ _ _ _ Hr) as Hs. rewrite Forall_forall in Hs.
  destruct (Hs _ Hin) as (_ & _ & _ & Hd). cbn [fst] in Hd. specialize (Hd q Hq). lia.
Qed.

Lemma setup_finish m2 p2 p3 m4 :
  p2 = mkProc m2 (phys (hproc h)) (fds (hproc h)) (stderr (hproc h)) ->
  (forall x, m2 !! x = loaded_byte file im m1 x) ->
  booted (pdpt E) (pd1 E) (pd2 E) p2 (e_entry (im_ehdr im)) bin p3 ->
  fds p3 = list_difference (open_ret E "/dev/friend_bootmem0x70000" :: fds p2)
             [open_ret E "/dev/friend_bootmem0x70000"] ->
  slot_update (vm p3) m4 (fun a => a ∈ xs.*1) ->
  Forall (fun x => read64 m4 x.1 = Some x.2) xs ->
  set_up (set_vm m4 (mkH p3 (streams h))).
Proof.
  intros -> Hb Hbo Hfd U HR. unfold set_vm. cbn [hproc streams vm fds].
  pose proof (boot_read_export p3 m4 (bo_tables _ _ _ _ _ _ _ Hbo) U) as Ht.
  split; cbn [hproc streams vm fds].
  - rewrite <- (bo_entry _ _ _ _ _ _ _ Hbo). done.
  - apply (bo_image _ _ _ _ _ _ _ Hbo).
  - destruct (rd_tables _ _ _ _ _ _ Hr (pdpt E)) as [P3 _]; [set_solver|].
    destruct (rd_tables _ _ _ _ _ _ Hr (pd1 E)) as [P1 _]; [set_solver|].
    destruct (rd_tables _ _ _ _ _ _ Hr (pd2 E)) as [P2 _]; [set_solver|].
    intros va Hva. by apply (walk_boot_tables (pdpt E) (pd1 E) (pd2 E)).
  - apply upper_keeps. intros i Hi. rewrite <- (proj1 (bo_upper _ _ _ _ _ _ _ Hbo)) by done.
    unfold boot_read. by rewrite !decide_True
      by (unfold in_trampoline, INITIAL_PML4T, TRAMPOLINE_ADDR, TRAMPOLINE_SIZE, PAGE_SIZE; lia).
  - intros x Hq Hy. rewrite (su_byte _ _ _ U), (bo_vm _ _ _ _ _ _ _ Hbo) by done. apply Hb.
  - exact HR.
  - split; [done|]. rewrite Hfd. cbn [list_difference fds].
    pose proof (rd_fds _ _ _ _ _ _ Hr) as Hf. rewrite !Forall_cons in Hf.
    destruct Hf as (_ & [_ Hn] & _).
    destruct (decide_rel _ _ _) as [_|Hd]; [by apply difference_absent|set_solver].
Qed.

Lemma setup_spec : wp setup (fun r h' => r = 0 /\ set_up h') h.
Proof.
  destruct setup_deploy as (m2 & Ed & Hb & Ho & Hl).
  pose proof (rd_fds _ _ _ _ _ _ Hr) as Hfds. rewrite !Forall_cons in Hfds.
  destruct Hfds as ([Hf1 Hn1] & [Hf2 Hn2] & [_ Hn3] & [_ Hn4] & _).
  unfold setup. apply wp_bind. eapply wp_mono; [by apply check_version_spec|].
  intros r h1 [(_ & -> & ->)|(Hno & _)]; [|by destruct Hno; apply Hr].
  cbn [Z.ltb Z.compare]. apply wp_bind. eapply wp_mono; [by apply check_bootparam_spec|].
  intros r h1 [(_ & -> & ->)|(Hno & _)]; [|by destruct Hno; apply Hr].
  cbn [Z.ltb Z.compare]. apply wp_bind.
  eapply wp_mono; [apply mmap_friend_mem_spec; [apply Hr|apply Hr|done|done]|].
  intros r h1 [-> ->]. cbn [Z.ltb Z.compare]. fold m1.
  apply wp_bind, wp_lift_mem. cbn [vm hproc set_vm]. unfold wp at 1. rewrite Ed. cbn [negb].
  apply wp_bind, wp_lift_mem. cbn [vm hproc set_vm]. unfold wp at 1.
  rewrite (GetEntry_at file im (friend_bin E) (rd_wf _ _ _ _ _ _ Hr) _ Hl).
  destruct (rd_bin _ _ _ _ _ _ Hr) as [-> Hbl]. rewrite (rd_bootmem _ _ _ _ _ _ Hr).
  set (p2 := mkProc m2 (phys (hproc h)) (fds (hproc h)) (stderr (hproc h))).
  assert (uint 64 (e_entry (im_ehdr im))) as Hent.
  { pose proof (vals_ok_uint _ _ "e_entry" 64 _ (fw_ehdr_ok _ _ (rd_wf _ _ _ _ _ _ Hr))
      eq_refl eq_refl) as He. by rewrite Forall_singleton in He. }
  destruct (Init_booted (open_ret E) (Some b) (pdpt E) (pd1 E) (pd2 E) p2 b (bin16_start E)
    (e_entry (im_ehdr im)) bin) as (p3 & Ei & Hbo & Hfd & Herr); [|done..|].
  { by apply setup_init_ok. }
  unfold wp. rewrite (bind_done _ _ _ 0 (mkH p3 (streams h))).
  2:{ unfold lift_proc. change (hproc (set_vm m2 (set_vm m2 (set_vm m1 h)))) with p2. by rewrite Ei. }
  cbn [Z.ltb Z.compare].
  assert (exports_ok (vm p3) (export_start E) xs) as Hex
    by (eapply setup_exports_ok; [exact Hbo|exact Ho|apply Hl]).
  pose proof (export_init_spec xs (vm p3) Hex (rd_export_end _ _ _ _ _ _ Hr)) as Hw.
  apply wp_done in Hw as ([] & m4 & Ex & U & HR).
  rewrite (bind_done _ _ _ _ _ (lift_mem_done _ (mkH p3 (streams h)) _ _ Ex)).
  split; [done|]. by apply (setup_finish m2 p2 p3 m4).
Qed.
End Setup.

(** C1: On a machine that is ready (module and boot parameters present, devices
    granted, a well-formed friend image inside the friend region with its page
    tables in its bss) [setup] returns 0 and leaves everything a friend core needs:
    the trampoline holds the image's entry point, the boot page tables map the
    first 2 MB and the friend region to themselves and nothing else below 512 GB
    (the PML4 entries for the addresses from there on keep what the trampoline page
    held, and map nothing where that was not present), the friend region holds the image as its headers prescribe, every exported
    symbol is stored in its friend variable, and no stream or descriptor is left
    open. *)
Theorem setup_boots h file im bin b xs :
  ready h file im bin b xs ->
  exists h', setup h = Done (0, h') /\ set_up h file im bin xs h'.
Proof.
  intros Hr. destruct (wp_done _ _ _ (setup_spec h file im bin b xs Hr)) as (r & h' & E1 & -> & Hs).
  eauto.
Qed.

(** The version check accepts the version the module publishes: reading the
    whole attribute through [call_read] gives a file [check_version] is satisfied
    with, and the check leaves the process as it was. *)
Theorem check_version_accepts_module h bs n :
  call_read 0 call_version_attr_size = Done (bs, n) ->
  content E version_path = Some ((fun z => ascii_of_N (Z.to_N z)) <$> bs) ->
  (open_ret E version_path ∉ fds (hproc h)) ->
  check_version h = Done (0, h).
Proof.
  intros Hread Hc Hf. vm_compute in Hread. injection Hread as <- <-.
  assert (version_ok) as Hok by (eexists; split; [exact Hc|by vm_compute]).
  destruct (wp_done _ _ _ (check_version_spec h Hf)) as (r & h' & E1 & [(_ & -> & ->)|(Hno & _)]);
    [done|by destruct Hno].
Qed.

End Hakase.

(** ** The mappings hakase asks FriendLoader for *)

(** [mmap(mem, DEPLOY_PHYS_MEM_SIZE, ..., MAP_FIXED, mem_fd, 0)] *)
Definition friend_mem_vma (prot : Z) : vm_area_struct :=
  mkVma DEPLOY_PHYS_ADDR_START (DEPLOY_PHYS_ADDR_START + DEPLOY_PHYS_MEM_SIZE) 0 prot false.
(** [mmap(NULL, TRAMPOLINE_SIZE, ..., bootmem_fd, 0)], placed at [b] *)
Definition bootmem_vma (b prot : Z) : vm_area_struct :=
  mkVma b (b + TRAMPOLINE_SIZE) 0 prot false.

Lemma mapped_by `{Kernel} f hd v k :
  fops_mmap f = Some hd -> vma_ok v -> device_accepts f v -> vm_pgoff v = 0 ->
  exists r evs, hd v k = Done (r, set_vm_ops v, set_hist (evs ++ hist k) k) /\
    (r = 0 \/ r = - EAGAIN) /\
    forall va pa, (exists e, e ∈ evs /\ remapped e va pa) <->
      r = 0 /\ vm_start v <= va < vm_end v /\ pa = device_base f + (va - vm_start v).
Proof.
  intros Hf Hv Ha Ho. rewrite (fops_mmap_spec f) by done. unfold spec_mmap.
  rewrite bool_decide_eq_true_2 by done.
  destruct (device_accepts_range f v Hv Ha) as [Es _].
  rewrite Ho in *. rewrite Z.mul_0_l, Z.add_0_r in Es. rewrite Z.add_0_r in *.
  set (c := remap_pfn_range _ _ _ _). set (r := answer (hist k) c).
  eexists _, [(c, r)]. split; [done|]. split; [by destruct (r =? 0); auto|].
  intros va pa. setoid_rewrite list_elem_of_singleton.
  assert (remapped (c, r) va pa <-> r = 0 /\ vm_start v <= va < vm_end v /\
    pa = device_base f + (va - vm_start v)) as Hm.
  { unfold remapped, c. rewrite Es.
    destruct r; [|split; [done|by intros [? _]]..]. rewrite Zplus_minus. tauto. }
  destruct (Z.eqb_spec r 0) as [E|E]; split.
  - intros (e & -> & He). by apply Hm in He as [_ ?].
  - intros [_ H']. exists (c, r). split; [done|]. by apply Hm.
  - intros (e & -> & He). by apply Hm in He as [? _].
  - by intros [? _].
Qed.

Section Mappings.
Context `{Kernel} (E : env) (P : mem) (k1 k2 : kstate) (b prot1 prot2 : Z).

(** [hd] grants the mapping. *)
Definition grants (hd : vm_area_struct -> M kstate (Z * vm_area_struct)) (v : vm_area_struct)
    (k : kstate) : bool :=
  match hd v k with Done (r, _, _) => r =? 0 | Fault _ => false end.

(** The host runs on a machine with the physical memory [P] and with FriendLoader: what
    it is answered is what the handlers of the module answer, and the bytes behind the
    friend device are those of the friend region. *)
Record served_by : Prop := {
  sb_friend : friend_mmap E = grants memdevice_mmap (friend_mem_vma prot1) k1;
  sb_bootmem : bootmem_at E = if grants bootmemdevice_mmap (bootmem_vma b prot2) k2 then Some b else None;
  sb_phys : forall x, friend_phys E !! x = if decide (in_friend_region x) then P !! x else None;
  sb_region : mapped P DEPLOY_PHYS_ADDR_START DEPLOY_PHYS_MEM_SIZE;
  sb_trampoline : mapped P TRAMPOLINE_ADDR TRAMPOLINE_SIZE;
  sb_place : 0 <= b /\ b + TRAMPOLINE_SIZE <= 2 ^ 47
}.

(** The page tables [evs] have entered show [pa] at [va]. *)
Definition mapped_at (evs : list event) (va pa : Z) : Prop := exists e, e ∈ evs /\ remapped e va pa.

(** The memory [m'] is [m] with the physical memory [Q] wherever [evs] maps it. *)
Definition shows (evs : list event) (Q m m' : mem) : Prop := forall va,
  (forall pa, mapped_at evs va pa -> m' !! va = Q !! pa) /\
  ((forall pa, ~ mapped_at evs va pa) -> m' !! va = m !! va).

(** Physical memory once the first 4 MB of the friend region are cleared. *)
Definition zeroed : mem := blit P DEPLOY_PHYS_ADDR_START (replicate (Z.to_nat (1024 * 4096)) (u8 0)).

Hypothesis Hs : served_by.

Lemma served_region : region_mapped E.
Proof.
  intros x. rewrite (sb_phys Hs). case_decide as Hx; [|split; [by intros []|done]].
  split; [done|]. intros _. apply (sb_region Hs). unfold in_friend_region, DEPLOY_PHYS_MEM_SIZE in *. lia.
Qed.

(** The friend region: [mmap_friend_mem] against [memdevice_mmap]. *)
Lemma friend_mapping h :
  0 <= open_ret E "/dev/friend_mem" -> (open_ret E "/dev/friend_mem" ∉ fds (hproc h)) ->
  exists r evs h', memdevice_mmap (friend_mem_vma prot1) k1 =
      Done (r, set_vm_ops (friend_mem_vma prot1), set_hist (evs ++ hist k1) k1) /\
    mmap_friend_mem E h = Done (if r =? 0 then 0 else -1, h') /\
    (forall va pa, mapped_at evs va pa <-> r = 0 /\ in_friend_region va /\ pa = va) /\
    shows evs zeroed (vm (hproc h)) (vm (hproc h')).
Proof.
  intros Ho Hf. destruct (mapped_by s_memdevice_fops memdevice_mmap (friend_mem_vma prot1) k1)
    as (r & evs & E1 & _ & Hm); [done|by vm_compute|by vm_compute|done|].
  assert (forall va pa, mapped_at evs va pa <-> r = 0 /\ in_friend_region va /\ pa = va) as Hat.
  { intros va pa. unfold mapped_at. rewrite Hm. unfold in_friend_region. cbn [friend_mem_vma vm_start vm_end device_base].
    unfold DEPLOY_PHYS_MEM_SIZE, DEPLOY_PHYS_ADDR_START, DEPLOY_PHYS_ADDR_END. lia. }
  pose proof (sb_friend Hs) as Hg. unfold grants in Hg. rewrite E1 in Hg.
  destruct (Z.eqb_spec r 0) as [->|Hr].
  - assert (shows evs zeroed (vm (hproc h)) (cleared E (vm (hproc h)))) as Hsh.
    { intros va. split.
      - intros pa (_ & Hin & ->)%Hat. unfold cleared, zeroed. rewrite !blit_lookup.
        destruct (decide (_ <= va < _)); [reflexivity|]. rewrite (lookup_union_l' _ _ _ (proj2 (served_region va) Hin)).
        rewrite (sb_phys Hs). by rewrite decide_True.
      - intros Hno. apply cleared_outside; [exact served_region|]. intros Hin. by apply (Hno va), Hat. }
    pose proof (mmap_friend_mem_spec E h served_region Hg Ho Hf) as Hw.
    generalize dependent (cleared E (vm (hproc h))). intros m1 Hsh Hw.
    destruct (wp_done _ _ _ Hw) as (v & h' & E2 & -> & ->).
    exists 0, evs, (set_vm m1 h). split; [exact E1|]. split; [exact E2|]. split; [exact Hat|exact Hsh].
  - exists r, evs. eexists. split; [done|]. split.
    { rewrite (proj2 (Z.eqb_neq _ _)) by done. unfold mmap_friend_mem.
      erewrite bind_done; [|unfold lift_proc, open; cbv zeta; rewrite (proj2 (Z.ltb_ge _ _) Ho); reflexivity].
      rewrite (proj2 (Z.ltb_ge _ _) Ho). unfold mmap_friend, mbind, M_bind, lift_proc. rewrite Hg. reflexivity. }
    split; [exact Hat|]. intros va. split; [intros pa [? _]%Hat; contradiction|intros _; reflexivity].
Qed.

(** The trampoline: [mmap_bootmem] and [munmap_bootmem] against [bootmemdevice_mmap]. *)
Lemma bootmem_mapping p :
  (forall x, in_trampoline x -> phys p !! x = P !! x) ->
  exists r evs p', bootmemdevice_mmap (bootmem_vma b prot2) k2 =
      Done (r, set_vm_ops (bootmem_vma b prot2), set_hist (evs ++ hist k2) k2) /\
    mmap_bootmem (bootmem_at E) TRAMPOLINE_SIZE p = Done (if r =? 0 then Some b else None, p') /\
    (forall va pa, mapped_at evs va pa <->
       r = 0 /\ b <= va < b + TRAMPOLINE_SIZE /\ pa = TRAMPOLINE_ADDR + (va - b)) /\
    shows evs P (vm p) (vm p') /\
    forall p2, mapped (vm p2) b TRAMPOLINE_SIZE ->
      exists p3, munmap_bootmem b TRAMPOLINE_SIZE p2 = Done (tt, p3) /\
        forall va pa, mapped_at evs va pa -> phys p3 !! pa = vm p2 !! va /\ vm p3 !! va = None.
Proof.
  intros Hp. destruct (sb_place Hs) as [Hb0 Hb1]. unfold TRAMPOLINE_SIZE in Hb1.
  destruct (mapped_by s_bootmemdevice_fops bootmemdevice_mmap (bootmem_vma b prot2) k2)
    as (r & evs & E1 & _ & Hm); [done|..|done|].
  { unfold vma_ok, bootmem_vma, TRAMPOLINE_SIZE. cbn. lia. }
  { unfold device_accepts, bootmem_vma. cbn [vm_pgoff vm_start vm_end]. lia. }
  assert (forall va pa, mapped_at evs va pa <->
    r = 0 /\ b <= va < b + TRAMPOLINE_SIZE /\ pa = TRAMPOLINE_ADDR + (va - b)) as Hat by exact Hm.
  pose proof (sb_bootmem Hs) as Hg. unfold grants in Hg. rewrite E1 in Hg.
  destruct (read_bytes_mapped (phys p) TRAMPOLINE_ADDR (Z.to_nat TRAMPOLINE_SIZE)) as [bs Ebs]; [done|done| |].
  { intros x Hx. rewrite Hp; [by apply (sb_trampoline Hs)|]. unfold in_trampoline, TRAMPOLINE_SIZE in *. lia. }
  exists r, evs, (if r =? 0 then mkProc (blit (vm p) b bs) (phys p) (fds p) (stderr p) else p).
  split; [done|]. split; [|split; [done|split]].
  - unfold mmap_bootmem. rewrite Hg. destruct (r =? 0); [|done]. by rewrite Ebs.
  - apply read_bytes_lookup in Ebs as [Hl Hbs]; [|done|done]. unfold TRAMPOLINE_SIZE in Hl. intros va. split.
    + intros pa (-> & Hin & ->)%Hat. unfold TRAMPOLINE_SIZE in Hin. cbn [Z.eqb vm]. rewrite blit_lookup, decide_True by lia.
      destruct (lookup_lt_is_Some_2 bs (Z.to_nat (va - b))) as [c Ec]; [lia|].
      rewrite Ec, <- (Hbs _ _ Ec), Z2Nat.id, Hp by (unfold in_trampoline, TRAMPOLINE_SIZE; lia). done.
    + intros Hno. destruct (Z.eqb_spec r 0) as [->|]; [|done]. cbn [vm]. rewrite blit_lookup, decide_False; [done|].
      intros Hin. apply (Hno (TRAMPOLINE_ADDR + (va - b))), Hat. unfold TRAMPOLINE_SIZE. lia.
  - intros p2 Hm2. unfold munmap_bootmem.
    destruct (read_bytes_mapped (vm p2) b (Z.to_nat TRAMPOLINE_SIZE)) as [cs Ecs];
      [done|unfold TRAMPOLINE_SIZE; lia|exact Hm2|]. rewrite Ecs. eexists. split; [done|].
    apply read_bytes_lookup in Ecs as [Hl Hcs]; [|done|unfold TRAMPOLINE_SIZE; lia]. unfold TRAMPOLINE_SIZE in Hl.
    intros va pa (_ & Hin & ->)%Hat. unfold TRAMPOLINE_SIZE in Hin. cbn [vm phys]. split.
    + rewrite blit_lookup, decide_True by lia.
      destruct (lookup_lt_is_Some_2 cs (Z.to_nat (va - b))) as [c Ec]; [lia|].
      replace (TRAMPOLINE_ADDR + (va - b) - TRAMPOLINE_ADDR) with (va - b) by lia.
      rewrite Ec, <- (Hcs _ _ Ec). f_equal. lia.
    + rewrite unmap_lookup, decide_True; [done|]. unfold TRAMPOLINE_SIZE. lia.
Qed.
End Mappings.

(** C22: The two sides of a mapping agree: when the host is answered by FriendLoader,
    [mmap_friend_mem] gives the process exactly the memory that the page table entries made by
    [memdevice_mmap] show (each address of the friend region is the equal physical
    address; its first 4 MB are then cleared), and returns -1 with its memory unchanged
    when the handler reports an error; the mapping of the trampoline shows exactly what
    [bootmemdevice_mmap] entered (byte [i] of it is the physical byte TRAMPOLINE_ADDR +
    i), and what was stored through it is in the physical memory, and the mapping gone,
    after the unmapping. *)
Theorem hakase_mappings `{Kernel} E P k1 k2 b prot1 prot2 h :
  served_by E P k1 k2 b prot1 prot2 ->
  0 <= open_ret E "/dev/friend_mem" -> (open_ret E "/dev/friend_mem" ∉ fds (hproc h)) ->
  (forall x, in_trampoline x -> phys (hproc h) !! x = P !! x) ->
  (exists r evs h', memdevice_mmap (friend_mem_vma prot1) k1 =
      Done (r, set_vm_ops (friend_mem_vma prot1), set_hist (evs ++ hist k1) k1) /\
    mmap_friend_mem E h = Done (if r =? 0 then 0 else -1, h') /\
    (forall va pa, mapped_at evs va pa <-> r = 0 /\ in_friend_region va /\ pa = va) /\
    shows evs (zeroed P) (vm (hproc h)) (vm (hproc h'))) /\
  (exists r evs p', bootmemdevice_mmap (bootmem_vma b prot2) k2 =
      Done (r, set_vm_ops (bootmem_vma b prot2), set_hist (evs ++ hist k2) k2) /\
    mmap_bootmem (bootmem_at E) TRAMPOLINE_SIZE (hproc h) = Done (if r =? 0 then Some b else None, p') /\
    (forall va pa, mapped_at evs va pa <->
       r = 0 /\ b <= va < b + TRAMPOLINE_SIZE /\ pa = TRAMPOLINE_ADDR + (va - b)) /\
    shows evs P (vm (hproc h)) (vm p') /\
    forall p2, mapped (vm p2) b TRAMPOLINE_SIZE ->
      exists p3, munmap_bootmem b TRAMPOLINE_SIZE p2 = Done (tt, p3) /\
        forall va pa, mapped_at evs va pa -> phys p3 !! pa = vm p2 !! va /\ vm p3 !! va = None).
Proof.
  intros Hs Ho Hf Hp. split; [by eapply friend_mapping|by eapply bootmem_mapping].
Qed.

(** ** A concrete machine *)

#[local] Existing Instance good_kernel.

(** A friend image of one segment, and a bss section that holds the three page
    tables and one imported symbol. *)
Definition demo_phdr : phdr := {|
  p_type := 1; p_flags := 7; p_offset := 184; p_vaddr := 0x100000000;
  p_paddr := 0x100000000; p_filesz := 4; p_memsz := 0x5000; p_align := 0x1000 |}.
Definition demo_shdr : shdr := {|
  sh_name := 0; sh_type := 8; sh_flags := 3; sh_addr := 0x100001000; sh_offset := 188;
  sh_size := 0x4000; sh_link := 0; sh_info := 0; sh_addralign := 4096; sh_entsize := 0 |}.
Definition demo_image : image := mkImage ex_ehdr [demo_phdr] [demo_shdr].
Definition demo_file : list Z :=
  encode Elf64_Ehdr (ehdr_vals ex_ehdr) ++ encode Elf64_Phdr (phdr_vals demo_phdr) ++
  encode Elf64_Shdr (shdr_vals demo_shdr) ++ [0xf4; 0xeb; 0xfd; 0x90].
Definition demo_exports : list (Z * Z) := [(0x100004000, 0x401234)].

Definition demo_content (path : string) : option (list ascii) :=
  if decide (path = version_path) then Some (list_ascii_of_string "v0.05" ++ ["000"%char])
  else if decide (path = "/proc/cmdline"%string) then
    Some (list_ascii_of_string "BOOT_IMAGE=/vmlinuz root=/dev/sda1 memmap=8K$0x70000 memmap=1G$4G quiet")
  else None.

(** Descriptor 3, and two processor devices. *)
Definition demo_open_ret (path : string) : Z :=
  if decide (path = cpu_path 3) then -1 else 3.

Definition demo_env : env := {|
  content := demo_content; open_ret := demo_open_ret; bootmem_at := Some 0x7f0000000000;
  friend_mmap := true;
  friend_phys := blit ∅ DEPLOY_PHYS_ADDR_START (replicate (Z.to_nat DEPLOY_PHYS_MEM_SIZE) 0xff);
  pdpt := 0x100001000; pd1 := 0x100002000; pd2 := 0x100003000;
  bin16_start := 0x500000; bin16_size := 252;
  friend_bin := mkElfLoader 0x400000 188;
  export_start := 0x600000; export_end := 0x600010 |}.

Definition demo_vm0 : mem :=
  blit (blit (blit ∅ 0x400000 demo_file) 0x500000 Friend16.demo_trampoline_image) 0x600000 (export_bytes demo_exports).
Definition demo_h : hstate :=
  mkH (mkProc demo_vm0 (blit ∅ TRAMPOLINE_ADDR (zeros (Z.to_nat 8192))) [0; 1; 2] []) [].

Lemma demo_file_wf : file_wf demo_file demo_image.
Proof.
  assert (Z.of_nat (length demo_file) = 188) as Hlen by (vm_compute; reflexivity).
  split; rewrite ?Hlen.
  - done.
  - apply (bool_decide_unpack _). vm_compute. exact I.
  - apply (bool_decide_unpack _). vm_compute. exact I.
  - apply (bool_decide_unpack _). vm_compute. exact I.
  - done.
  - vm_compute. reflexivity.
  - reflexivity.
  - reflexivity.
  - reflexivity.
  - reflexivity.
  - reflexivity.
  - reflexivity.
  - vm_compute. congruence.
  - vm_compute. congruence.
  - intros [|k] p; [intros [= <-]; vm_compute; reflexivity|done].
  - intros [|k] s; [intros [= <-]; vm_compute; reflexivity|done].
  - apply Forall_singleton. intros _. split; vm_compute; congruence.
  - apply Forall_singleton. intros _. vm_compute. congruence.
Qed.

Lemma demo_lengths :
  Z.of_nat (length demo_file) = 188 /\ Z.of_nat (length Friend16.demo_trampoline_image) = 252 /\
  Z.of_nat (length (export_bytes demo_exports)) = 16.
Proof. by vm_compute. Qed.

(** Everything of the process lies below 0x600010. *)
Lemma demo_vm0_high x : 0x600010 <= x -> demo_vm0 !! x = None.
Proof.
  intros Hx. destruct demo_lengths as (L1 & L2 & L3). unfold demo_vm0.
  by rewrite !blit_lookup, !decide_False by lia.
Qed.

Lemma demo_holds :
  holds demo_vm0 0x400000 demo_file /\ holds demo_vm0 0x500000 Friend16.demo_trampoline_image /\
  holds demo_vm0 0x600000 (export_bytes demo_exports).
Proof.
  destruct demo_lengths as (L1 & L2 & L3). unfold demo_vm0.
  split_and!; intros i c Hi; pose proof (lookup_lt_Some _ _ _ Hi); rewrite !blit_lookup;
    repeat (case_decide; [rewrite <- Hi; (f_equal; lia) || lia|]); lia.
Qed.

Lemma demo_ready :
  ready demo_env demo_h demo_file demo_image Friend16.demo_trampoline_image 0x7f0000000000 demo_exports.
Proof.
  destruct demo_lengths as (L1 & L2 & L3). destruct demo_holds as (H1 & H2 & H3).
  split; cbn [demo_env demo_h open_ret content friend_mmap friend_phys bootmem_at bin16_start
    bin16_size friend_bin export_start export_end hproc vm phys fds pdpt pd1 pd2 _addr];
    rewrite ?L1, ?L2.
  - eexists. split; [reflexivity|by vm_compute].
  - eexists. split; [reflexivity|by vm_compute].
  - intros x. cbn [friend_phys demo_env]. rewrite blit_lookup, length_replicate.
    unfold in_friend_region, DEPLOY_PHYS_MEM_SIZE, DEPLOY_PHYS_ADDR_START, DEPLOY_PHYS_ADDR_END.
    case_decide as Hx.
    + split; [lia|]. intros _. exists 0xff. apply lookup_replicate. lia.
    + split; [by rewrite lookup_empty; intros []|lia].
  - done.
  - repeat (apply Forall_cons; split); [..|apply Forall_nil_2];
      (split; [vm_compute; discriminate|by apply (bool_decide_unpack _); vm_compute]).
  - by apply demo_vm0_high.
  - exact demo_file_wf.
  - split; reflexivity.
  - lia.
  - exact H1.
  - left. unfold DEPLOY_PHYS_ADDR_START. lia.
  - intros x Hx. rewrite blit_lookup. unfold zeros. rewrite length_replicate.
    rewrite decide_True by (unfold TRAMPOLINE_ADDR, TRAMPOLINE_SIZE in *; lia).
    exists 0. apply lookup_replicate. unfold TRAMPOLINE_ADDR, TRAMPOLINE_SIZE in *. lia.
  - done.
  - split; apply (bool_decide_unpack _); by vm_compute.
  - intros x Hx. split; [apply demo_vm0_high; lia|].
    unfold in_friend_region, DEPLOY_PHYS_ADDR_END. lia.
  - split; [done|]. unfold PAGE_SIZE. lia.
  - lia.
  - exact H2.
  - intros x Hx. unfold in_friend_region, DEPLOY_PHYS_ADDR_START. lia.
  - intros q Hq. rewrite !elem_of_cons, elem_of_nil in Hq.
    destruct Hq as [-> |[-> |[-> |[]]]]; split; apply (bool_decide_unpack _); by vm_compute.
  - by apply (bool_decide_unpack _); vm_compute.
  - intros q x Hq Hx. rewrite !elem_of_cons, elem_of_nil in Hq.
    cbn [existsb demo_image im_shdrs]. unfold bss_covers.
    change (is_bss demo_shdr) with true. cbn [sh_addr sh_size demo_shdr andb].
    rewrite (proj2 (Z.leb_le _ _)), (proj2 (Z.ltb_lt _ _)); [done|..];
      destruct Hq as [-> |[-> |[]]]; lia.
  - done.
  - lia.
  - exact H3.
  - intros x Hx. unfold in_friend_region, DEPLOY_PHYS_ADDR_START. lia.
  - apply Forall_singleton. cbn [fst snd]. split; [|split; [|split]].
    + split; [discriminate|]. split; [reflexivity|discriminate].
    + split; [discriminate|reflexivity].
    + intros i Hi. unfold in_friend_region, DEPLOY_PHYS_ADDR_START, DEPLOY_PHYS_ADDR_END. lia.
    + intros q Hq. rewrite !elem_of_cons, elem_of_nil in Hq.
      destruct Hq as [-> |[-> |[-> |[]]]]; lia.
  - by apply (bool_decide_unpack _); vm_compute.
Qed.

(** The physical memory of the example: the friend region and the trampoline. *)
Definition demo_phys : mem :=
  blit (friend_phys demo_env) TRAMPOLINE_ADDR (zeros (Z.to_nat 8192)).

Lemma demo_phys_trampoline x : in_trampoline x -> demo_phys !! x = phys (hproc demo_h) !! x.
Proof.
  intros Hx. unfold demo_phys, demo_h. cbn [hproc phys]. rewrite !blit_lookup. unfold zeros.
  rewrite length_replicate. unfold in_trampoline, TRAMPOLINE_ADDR, TRAMPOLINE_SIZE in *.
  by rewrite !decide_True by lia.
Qed.

Lemma demo_phys_friend x : ~ in_trampoline x -> demo_phys !! x = friend_phys demo_env !! x.
Proof.
  intros Hx. unfold demo_phys. rewrite blit_lookup, decide_False; [done|].
  unfold zeros. rewrite length_replicate. unfold in_trampoline, TRAMPOLINE_ADDR, TRAMPOLINE_SIZE in *. lia.
Qed.

Lemma demo_served : served_by demo_env demo_phys loaded loaded 0x7f0000000000 7 3.
Proof.
  pose proof (rd_region _ _ _ _ _ _ _ demo_ready) as Hr.
  assert (forall x, in_friend_region x -> ~ in_trampoline x) as Hd.
  { intros x. unfold in_friend_region, in_trampoline, DEPLOY_PHYS_ADDR_START, TRAMPOLINE_ADDR, TRAMPOLINE_SIZE. lia. }
  split.
  - reflexivity.
  - reflexivity.
  - intros x. case_decide as Hx; [exact (eq_sym (demo_phys_friend x (Hd x Hx)))|].
    apply eq_None_not_Some. intros Hx'. exact (Hx (proj1 (Hr x) Hx')).
  - intros x Hx. assert (in_friend_region x) as H by (unfold in_friend_region, DEPLOY_PHYS_MEM_SIZE in *; lia).
    rewrite (demo_phys_friend x (Hd x H)). exact (proj2 (Hr x) H).
  - intros x Hx. assert (in_trampoline x) as Hi by (unfold in_trampoline, TRAMPOLINE_SIZE in *; lia).
    rewrite (demo_phys_trampoline x Hi). exact (rd_phys _ _ _ _ _ _ _ demo_ready x Hx).
  - unfold TRAMPOLINE_SIZE. lia.
Qed.

Lemma hakase_mappings_witness :
  exists r evs h', memdevice_mmap (friend_mem_vma 7) loaded =
      Done (r, set_vm_ops (friend_mem_vma 7), set_hist (evs ++ hist loaded) loaded) /\
    mmap_friend_mem demo_env demo_h = Done (if r =? 0 then 0 else -1, h') /\
    (forall va pa, mapped_at evs va pa <-> r = 0 /\ in_friend_region va /\ pa = va) /\
    shows evs (zeroed demo_phys) (vm (hproc demo_h)) (vm (hproc h')).
Proof.
  refine (proj1 (hakase_mappings demo_env demo_phys loaded loaded 0x7f0000000000 7 3 demo_h demo_served _ _ _)).
  - change (0 <= demo_open_ret "/dev/friend_mem"). by vm_compute.
  - change (demo_open_ret "/dev/friend_mem" ∉ [0; 1; 2]). by apply (bool_decide_unpack _); vm_compute.
  - intros x Hx. exact (eq_sym (demo_phys_trampoline x Hx)).
Defined.

Lemma setup_boots_witness :
  exists h', setup demo_env demo_h = Done (0, h') /\
    set_up demo_env demo_h demo_file demo_image Friend16.demo_trampoline_image demo_exports h'.
Proof.
  apply (setup_boots demo_env demo_h demo_file demo_image Friend16.demo_trampoline_image 0x7f0000000000 demo_exports).
  exact demo_ready.
Defined.

(** A module of another version. *)
Definition old_module_env : env := {|
  content := fun path => if decide (path = version_path) then Some (list_ascii_of_string "v0.04") else None;
  open_ret := demo_open_ret; bootmem_at := None;
  friend_mmap := false; friend_phys := ∅; pdpt := 0; pd1 := 0; pd2 := 0;
  bin16_start := 0; bin16_size := 0; friend_bin := mkElfLoader 0 0;
  export_start := 0; export_end := 0 |}.

Lemma setup_refuses_witness :
  exists h' path, setup old_module_env demo_h = Done (-1, h') /\ left_open old_module_env path demo_h h' /\
    ((path = version_path /\ ~ version_ok old_module_env) \/
     (path = "/proc/cmdline"%string /\ version_ok old_module_env /\ ~ bootparam_ok old_module_env)).
Proof.
  apply (setup_refuses old_module_env demo_h).
  - by apply (bool_decide_unpack _); vm_compute.
  - by apply (bool_decide_unpack _); vm_compute.
  - left. intros (c & [= <-] & H). vm_compute in H. discriminate H.
Defined.

Lemma check_version_accepts_module_witness :
  check_version demo_env demo_h = Done (0, demo_h).
Proof.
  apply (check_version_accepts_module demo_env demo_h [118; 48; 46; 48; 53; 0] 6);
    [reflexivity|reflexivity|]. change (demo_open_ret version_path ∉ [0; 1; 2]). by apply (bool_decide_unpack _); vm_compute.
Defined.

Lemma boot_starts_witness :
  boot demo_env 1 demo_h = Done (1, opened demo_env 1 1 demo_h) /\
  boot demo_env 0 demo_h = Done (2, opened demo_env 1 2 demo_h).
Proof.
  assert (forall j, 1 <= j <= 2 -> 0 <= open_ret demo_env (cpu_path j)) as Hop.
  { intros j Hj. assert (j = 1 \/ j = 2) as [-> | ->] by lia;
      change (open_ret demo_env) with demo_open_ret; vm_compute; discriminate. }
  split.
  - apply (boot_starts demo_env 2 1 demo_h); [lia|exact Hop|reflexivity].
  - apply (boot_starts demo_env 2 0 demo_h); [lia|exact Hop|reflexivity].
Defined.
