(* ===== verification/BootChain.v ===== *)
(** * BootChain: from opening a processor device to the friend's entry point

    The parts that bring a friend core up, put together: [setup] of the host has
    prepared the trampoline and the friend region; the open handler of
    /dev/friend_cpu<i> sends the STARTUP interrupt; and the core it reaches runs the
    trampoline. *)

From S2P Require Import Prelude Memory Paging Kernel CallInterface CpuHotplug CpuDevice FriendLoader CStruct ElfTypes ElfConsts ElfLoader Loader16 Friend16 Hakase.
Import Layout Friend16.

(** An interrupt command with delivery mode STARTUP, and its vector. *)
Definition is_startup (low : Z) : bool := Z.land low 0x700 =? APIC_DM_STARTUP.
Definition vector (low : Z) : Z := Z.land low 0xff.

Section BootChain.
Context `{Kernel}.

Lemma observed_call evs c r :
  (c, r) ∈ evs -> visible c r = Some c -> c ∈ observations visible evs.
Proof.
  intros Hin Hv. unfold observations. apply list_elem_of_omap. exists (c, r). split; [|done].
  apply list_elem_of_In, in_rev. rewrite rev_involutive. by apply list_elem_of_In.
Qed.

(** The STARTUP interrupts among what the open handler does go to the processor of
    the device, with the vector of the trampoline. *)
Lemma open_startup minor r warm downs ipis low id :
  start_outcome (minor + 1) r downs ipis -> (warm = [] \/ warm = warm_reset_vector) ->
  apic_icr_write low id ∈ warm ++ preempt_disable :: downs ++ ipis ++ [preempt_enable] ->
  is_startup low = true ->
  vector low = TRAMPOLINE_ADDR / 2 ^ 12 /\ exists h, id = answer h (cpu_present_to_apicid (minor + 1)).
Proof.
  intros (Hd & Ho) Hw Hin Hs.
  assert (apic_icr_write low id ∈ ipis) as Hi.
  { rewrite !elem_of_app, elem_of_cons, !elem_of_app, list_elem_of_singleton in Hin.
    destruct Hin as [Hin|[Hin|[Hin|[Hin|Hin]]]]; [|done| |done|done].
    - destruct Hw as [->| ->]; [by apply not_elem_of_nil in Hin|]. unfold warm_reset_vector in Hin.
      by rewrite !elem_of_cons, elem_of_nil in Hin; destruct Hin as [?|[?|[]]].
    - destruct Hd as [->| ->]; [by apply not_elem_of_nil in Hin|].
      by apply list_elem_of_singleton in Hin. }
  destruct Ho as [[_ ->]|(_ & _ & apicid & m & _ & -> & _ & _ & hh & ->)];
    [by apply not_elem_of_nil in Hi|].
  unfold start_ipis in Hi. rewrite !elem_of_cons in Hi.
  destruct Hi as [E|[E|Hi]]; [injection E as -> ->; done|injection E as -> ->; done|].
  apply elem_of_replicate in Hi as [E _]. injection E as -> ->. eauto.
Qed.

(** C5: the whole way up.  When the machine is ready for [setup] and the trampoline
    binary is the assembled friend_boot16.S, [setup] returns 0; opening the device of
    processor [minor + 1] then returns 0, and every STARTUP interrupt it sends goes to
    that processor and starts it at the trampoline, from where it reaches the entry
    point of the friend's ELF image in long mode, with the friend region mapped to
    itself. *)
Theorem started_core_runs_friend E lay h file im bin b xs minor k :
  ready E h file im bin b xs -> tables_after_entry lay -> assembled lay (image_of bin) ->
  0 <= minor < 2 ^ 31 - 1 -> icr_busy_bit ->
  exists h' k' evs,
    setup E h = Done (0, h') /\ cpudevice_open minor k = Done (0, k') /\ hist k' = evs ++ hist k /\
    forall low id r, (apic_icr_write low id, r) ∈ evs -> is_startup low = true ->
      (exists hh, id = answer hh (cpu_present_to_apicid (minor + 1))) /\
      forall c, started_at (vector low) c ->
        exists c', trampoline lay (phys_byte (hproc h')) (boot_read (hproc h')) c =
            Done (c', e_entry (im_ehdr im)) /\
          entered c' /\
          forall va, in_friend_region va ->
            walk (boot_read (hproc h')) (cr3 c') va = Some (mkTranslation va k2MB true true).
Proof.
  intros Hr Ht Ha Hm Hbusy.
  destruct (wp_done _ _ _ (setup_spec E h file im bin b xs Hr)) as (v & h' & Es & -> & Hu).
  destruct (wp_done _ _ _ (cpudevice_open_spec minor Hm Hbusy k))
    as (v' & k' & Eo & evs & Hk' & _ & -> & r0 & warm & downs & ipis & Hobs & Hw & Ho).
  exists h', k', evs. split_and!; [done|done|by rewrite Hk'|].
  intros low id r Hin Hs. apply (observed_call _ _ _) in Hin; [|done]. rewrite Hobs in Hin.
  destruct (open_startup _ _ _ _ _ _ _ Ho Hw Hin Hs) as [Hv Hid]. split; [exact Hid|].
  intros c Hc. rewrite Hv in Hc. destruct Hu as [Hen Htr Hwalk _ _ _ _].
  destruct (booted_trampoline lay (hproc h') bin (e_entry (im_ehdr im))) as (A1 & A2 & A3);
    [done|done|apply Hr|done|done|done|].
  destruct (trampoline_spec lay _ _ A2 A1 (e_entry (im_ehdr im)) c A3 Hc) as (c' & Et & Hent).
  exists c'. split_and!; [done|done|]. intros va Hva. rewrite (en_cr3 _ Hent), Hwalk.
  - unfold boot_translation. by rewrite decide_True by (by right).
  - unfold in_friend_region, DEPLOY_PHYS_ADDR_START, DEPLOY_PHYS_ADDR_END, k512GB in *. lia.
Qed.
End BootChain.

(** *** Witness: the host of [Hakase]'s example, and a kernel that grants everything. *)

#[local] Existing Instance good_kernel.

Lemma started_core_runs_friend_witness :
  exists h' k' evs,
    setup demo_env demo_h = Done (0, h') /\ cpudevice_open 0 loaded = Done (0, k') /\
    hist k' = evs ++ hist loaded /\
    forall low id r, (apic_icr_write low id, r) ∈ evs -> is_startup low = true ->
      (exists hh, id = answer hh (cpu_present_to_apicid (0 + 1))) /\
      forall c, started_at (vector low) c ->
        exists c', trampoline demo_layout (phys_byte (hproc h')) (boot_read (hproc h')) c =
            Done (c', e_entry (im_ehdr demo_image)) /\
          entered c' /\
          forall va, in_friend_region va ->
            walk (boot_read (hproc h')) (cr3 c') va = Some (mkTranslation va k2MB true true).
Proof.
  apply (started_core_runs_friend demo_env demo_layout demo_h demo_file demo_image
           demo_trampoline_image 0x7f0000000000 demo_exports 0 loaded).
  - exact demo_ready.
  - split_and!; by vm_compute.
  - exact demo_assembled.
  - lia.
  - intros hh. split; [discriminate|reflexivity].
Defined.
