(* ===== verification/Offload.v ===== *)
(** * Offload: running friend code on the host, common/offload.{h,S}

    - [Asm]: the three context-switch routines of offload.S, as the instruction
      sequences of the file under an interpreter of the instructions they use;
    - [Protocol]: the hand-over of [_OFFLOAD] and [Offloader::TryReceive] between
      any number of friend cores and the host thread, as a step relation on the
      shared words they use. *)

From S2P Require Import Prelude Memory Paging.

Module Asm.

(** ** Machine *)

Inductive reg := RAX | RBX | RBP | RSP | RDI | RSI | R12 | R13 | R14 | R15.

#[export] Instance reg_eq_dec : EqDecision reg.
Proof. solve_decision. Defined.

Record machine := mkMachine {
  regs : reg -> Z;
  zf : bool;
  pc : nat;      (* index of the next instruction of the routine *)
  memory : mem
}.

Definition set_reg (r : reg) (v : Z) (f : reg -> Z) : reg -> Z :=
  fun r' => if decide (r' = r) then v else f r'.

(** Operands: [off (base)] is the 8-byte memory operand at [base + off]. *)
Inductive instr :=
| MovRM (src : reg) (off : Z) (base : reg)   (* movq %src, off(%base) *)
| MovMR (off : Z) (base : reg) (dst : reg)   (* movq off(%base), %dst *)
| MovIM (imm off : Z) (base : reg)           (* movq $imm, off(%base) *)
| MovIR (imm : Z) (dst : reg)                (* movq $imm, %dst *)
| MovRR (src dst : reg)                      (* movq %src, %dst *)
| Lea (off : Z) (base : reg) (dst : reg)     (* leaq off(%base), %dst *)
| PushM (off : Z) (base : reg)               (* pushq off(%base) *)
| CmpIM (imm off : Z) (base : reg)           (* cmpq $imm, off(%base) *)
| Je (target : nat)                          (* je to an instruction of the routine *)
| Pause
| Ret.

Definition ea (s : machine) (off : Z) (base : reg) : Z := u64 (regs s base + off).

(** The next state; [inl] inside the routine, [inr a] returned to address [a]. *)
Definition exec_instr (i : instr) (s : machine) : outcome (machine * option Z) :=
  let next f m z := Done (mkMachine f z (S (pc s)) m, None) in
  match i with
  | MovRM r off b =>
      match store 8 (ea s off b) (regs s r) (memory s) with
      | Done (_, m) => next (regs s) m (zf s)
      | Fault e => Fault e
      end
  | MovMR off b r =>
      match load 8 (ea s off b) (memory s) with
      | Done (v, m) => next (set_reg r v (regs s)) m (zf s)
      | Fault e => Fault e
      end
  | MovIM imm off b =>
      match store 8 (ea s off b) (u64 imm) (memory s) with
      | Done (_, m) => next (regs s) m (zf s)
      | Fault e => Fault e
      end
  | MovIR imm r => next (set_reg r (u64 imm) (regs s)) (memory s) (zf s)
  | MovRR r r' => next (set_reg r' (regs s r) (regs s)) (memory s) (zf s)
  | Lea off b r => next (set_reg r (ea s off b) (regs s)) (memory s) (zf s)
  | PushM off b =>
      match load 8 (ea s off b) (memory s) with
      | Done (v, m) =>
          let sp := u64 (regs s RSP - 8) in
          match store 8 sp v m with
          | Done (_, m') => next (set_reg RSP sp (regs s)) m' (zf s)
          | Fault e => Fault e
          end
      | Fault e => Fault e
      end
  | CmpIM imm off b =>
      match load 8 (ea s off b) (memory s) with
      | Done (v, m) => next (regs s) m (v =? u64 imm)
      | Fault e => Fault e
      end
  | Je t =>
      Done (mkMachine (regs s) (zf s) (if zf s then t else S (pc s)) (memory s), None)
  | Pause => next (regs s) (memory s) (zf s)
  | Ret =>
      match load 8 (regs s RSP) (memory s) with
      | Done (a, m) =>
          Done (mkMachine (set_reg RSP (u64 (regs s RSP + 8)) (regs s)) (zf s) (S (pc s)) m, Some a)
      | Fault e => Fault e
      end
  end.

(** Run a routine from [pc s]: the state and the address it returns to. *)
Fixpoint run (fuel : nat) (code : list instr) (s : machine) : outcome (machine * Z) :=
  match fuel with
  | O => Fault OutOfFuel
  | S fuel' =>
      match code !! pc s with
      | None => Fault Undefined
      | Some i =>
          match exec_instr i s with
          | Fault e => Fault e
          | Done (s', None) => run fuel' code s'
          | Done (s', Some a) => Done (s', a)
          end
      end
  end.

(** A call of a routine: the registers at its first instruction. *)
Definition enter (s : machine) : machine := mkMachine (regs s) (zf s) 0 (memory s).

(** ** The routines *)

Definition save_context : list instr :=
  [ MovRM RBX 0 RDI; MovRM RBP 8 RDI; MovRM R12 16 RDI; MovRM R13 24 RDI;
    MovRM R14 32 RDI; MovRM R15 40 RDI; Lea 8 RSP RAX; MovRM RAX 48 RDI;
    MovMR 0 RSP RAX; MovRM RAX 56 RDI ].

Definition load_context : list instr :=
  [ MovMR 8 RDI RBP; MovMR 48 RDI RSP; PushM 56 RDI; MovMR 0 RDI RBX;
    MovMR 16 RDI R12; MovMR 24 RDI R13; MovMR 32 RDI R14; MovMR 40 RDI R15 ].

Definition toshokan_setjmp : list instr := save_context ++ [MovIR 0 RAX; Ret].

(** Label [1:] is instruction 11. *)
Definition toshokan_setjmp_with_wait : list instr :=
  save_context ++
  [ MovIM 1 64 RDI; Pause; CmpIM 0 72 RDI; Je 11 ] ++
  load_context ++
  [ MovIM 0 72 RDI; MovIR 1 RAX; Ret ].

Definition toshokan_longjmp : list instr := MovRR RSI RAX :: load_context ++ [Ret].

(** ** Execution lemmas *)

Lemma set_reg_eq r v f : set_reg r v f r = v.
Proof. unfold set_reg. by rewrite decide_True. Qed.
Lemma set_reg_ne r r' v f : r' <> r -> set_reg r v f r' = f r'.
Proof. intros H. unfold set_reg. by rewrite decide_False. Qed.
Ltac regs_simpl :=
  repeat first [rewrite set_reg_eq | rewrite set_reg_ne by discriminate].

(** [reach code s s']: the routine gets from [s] to [s'] without returning. *)
Definition reach (code : list instr) (s s' : machine) : Prop :=
  exists n, forall fuel, run (n + fuel) code s = run fuel code s'.

Lemma reach_refl code s : reach code s s.
Proof. by exists 0%nat. Qed.

Lemma reach_trans code s1 s2 s3 : reach code s1 s2 -> reach code s2 s3 -> reach code s1 s3.
Proof.
  intros [n1 H1] [n2 H2]. exists (n1 + n2)%nat. intros fuel. by rewrite <- Nat.add_assoc, H1.
Qed.

Lemma reach_step code s i s' :
  code !! pc s = Some i -> exec_instr i s = Done (s', None) -> reach code s s'.
Proof. intros Hc Hs. exists 1%nat. intros fuel. cbn [run Nat.add]. by rewrite Hc, Hs. Qed.

Lemma reach_return code s s' s'' a :
  reach code s s' -> code !! pc s' = Some Ret -> exec_instr Ret s' = Done (s'', Some a) ->
  exists n, forall fuel, run (n + fuel) code s = Done (s'', a).
Proof.
  intros [n Hn] Hc Hs. exists (n + 1)%nat. intros fuel. rewrite <- Nat.add_assoc, Hn.
  cbn [run Nat.add]. by rewrite Hc, Hs.
Qed.

Lemma load_slot m a v : read64 m a = Some v -> load 8 a m = Done (v, m).
Proof. unfold read64, load. destruct (read_bytes m a 8); [|done]. by intros [= <-]. Qed.

(** An aligned context block of ten words. *)
Definition block (env : Z) : Prop := 0 <= env /\ env mod 8 = 0 /\ env + 80 <= 2 ^ 64.

Lemma block_slot env k : block env -> 0 <= k < 10 -> slot (env + 8 * k).
Proof.
  intros (H0 & Ha & Hb) Hk. split_and!; [lia| |lia].
  rewrite Z.add_mod, Ha, Z.mul_comm, Z.mod_mul by done. done.
Qed.

Lemma ea_eq f z p m off b : 0 <= f b + off < 2 ^ 64 -> ea (mkMachine f z p m) off b = f b + off.
Proof. intros H. unfold ea. cbn [regs]. by apply u64_small. Qed.

Section Steps.
Context (code : list instr).

Lemma step_store p f z m r off b k v :
  code !! p = Some (MovRM r off b) -> block (f b) -> off = 8 * k -> 0 <= k < 10 ->
  f r = v -> uint 64 v -> mapped m (f b) 80 ->
  exists m', reach code (mkMachine f z p m) (mkMachine f z (S p) m') /\
    read64 m' (f b + 8 * k) = Some v /\ slot_update m m' (fun a => a = f b + 8 * k).
Proof.
  intros Hc Hb -> Hk <- Hv Hm. pose proof (block_slot _ _ Hb Hk) as Hs.
  destruct (store64_slot m (f b + 8 * k) (f r)) as (m' & E & R & U); [done| |done|].
  { eapply mapped_sub; [..|exact Hm]; lia. }
  exists m'. split_and!; [|done|done]. eapply reach_step; [exact Hc|].
  unfold exec_instr. destruct Hb as (? & _ & ?). rewrite ea_eq by lia. cbn [regs memory zf pc].
  by rewrite E.
Qed.

Lemma step_load p f z m r off b v :
  code !! p = Some (MovMR off b r) -> 0 <= f b + off < 2 ^ 64 -> read64 m (f b + off) = Some v ->
  reach code (mkMachine f z p m) (mkMachine (set_reg r v f) z (S p) m).
Proof.
  intros Hc Ha HR. eapply reach_step; [exact Hc|]. unfold exec_instr. rewrite ea_eq by done.
  cbn [regs memory zf pc]. by rewrite (load_slot _ _ _ HR).
Qed.

Lemma step_lea p f z m r off b :
  code !! p = Some (Lea off b r) -> 0 <= f b + off < 2 ^ 64 ->
  reach code (mkMachine f z p m) (mkMachine (set_reg r (f b + off) f) z (S p) m).
Proof. intros Hc Ha. eapply reach_step; [exact Hc|]. unfold exec_instr. by rewrite ea_eq. Qed.
End Steps.

(** ** Saving a context *)

(** The caller's view of a routine about to save its context at [env]: the return
    address [ra] is on top of the stack. *)
Record call_ok (f : reg -> Z) (m : mem) (env sp ra : Z) : Prop := {
  ck_rdi : f RDI = env;
  ck_rsp : f RSP = sp;
  ck_block : block env;
  ck_mapped : mapped m env 80;
  ck_sp : slot sp /\ sp + 8 < 2 ^ 64;
  ck_ra : read64 m sp = Some ra /\ uint 64 ra;
  ck_sep : sp + 8 <= env \/ env + 80 <= sp;
  ck_regs : forall r, uint 64 (f r)
}.

(** The words of the context block a call saves. *)
Definition context (f : reg -> Z) (sp ra : Z) : list Z :=
  [f RBX; f RBP; f R12; f R13; f R14; f R15; sp + 8; ra].

Definition holds_context (m : mem) (env : Z) (ws : list Z) : Prop :=
  forall k w, ws !! k = Some w -> read64 m (env + 8 * Z.of_nat k) = Some w.

Lemma holds_context_nil m env : holds_context m env [].
Proof. intros k w. by rewrite lookup_nil. Qed.

(** Storing the next word keeps those before it. *)
Lemma holds_context_snoc m m' env ws w :
  block env -> (length ws < 10)%nat -> holds_context m env ws ->
  slot_update m m' (fun a => a = env + 8 * Z.of_nat (length ws)) ->
  read64 m' (env + 8 * Z.of_nat (length ws)) = Some w ->
  holds_context m' env (ws ++ [w]).
Proof.
  intros Hb Hl Hh U R k v Hk. apply lookup_app_Some in Hk as [Hk|[Hge Hk]].
  - pose proof (lookup_lt_Some _ _ _ Hk). rewrite (su_read _ _ _ U); [by apply Hh| |lia].
    apply block_slot; [done|lia].
  - apply list_lookup_singleton_Some in Hk as [Hk <-].
    assert (k = length ws) as -> by lia. done.
Qed.

Section Save.
Context (code : list instr) (f : reg -> Z) (z : bool) (m : mem) (env sp ra : Z).
Hypothesis Hok : call_ok f m env sp ra.

(** Progress of a save: the words [ws] are in the block. *)
Record saving (f' : reg -> Z) (p : nat) (m' : mem) (ws : list Z) : Prop := {
  sv_reach : reach code (mkMachine f z 0 m) (mkMachine f' z p m');
  sv_regs : forall r, r <> RAX -> f' r = f r;
  sv_uint : forall r, uint 64 (f' r);
  sv_mem : slot_update m m' (fun a => exists k, 0 <= k < 8 /\ a = env + 8 * k);
  sv_words : holds_context m' env ws
}.

Lemma saving_start : saving f 0 m [].
Proof.
  split; [apply reach_refl|done|apply Hok|apply slot_update_refl|apply holds_context_nil].
Qed.

Lemma saving_store f' p m' ws r off :
  saving f' p m' ws -> code !! p = Some (MovRM r off RDI) -> (length ws < 8)%nat ->
  off = 8 * Z.of_nat (length ws) ->
  exists m'', saving f' (S p) m'' (ws ++ [f' r]).
Proof.
  intros [Hr Hf Hu Um Hw] Hc Hl Ho. pose proof (ck_block _ _ _ _ _ Hok) as Hb.
  assert (f' RDI = env) as Erdi by (rewrite Hf by done; apply Hok).
  destruct (step_store code p f' z m' r off RDI (Z.of_nat (length ws)) (f' r))
    as (m'' & E1 & R1 & U1); rewrite ?Erdi; try done.
  - lia.
  - eapply mapped_agree; [apply (su_dom _ _ _ Um)|apply Hok].
  - exists m''. rewrite Erdi in *. split; [by eapply reach_trans|done|done| |].
    + eapply slot_update_weaken, slot_update_trans; [|exact Um|exact U1].
      intros a [?| ->]; [done|]. exists (Z.of_nat (length ws)). lia.
    + eapply holds_context_snoc; [done|lia|exact Hw|done|done].
Qed.

Lemma saving_rax f' f'' p q m' ws :
  saving f' p m' ws -> reach code (mkMachine f' z p m') (mkMachine f'' z q m') ->
  (forall r, r <> RAX -> f'' r = f' r) -> uint 64 (f'' RAX) -> saving f'' q m' ws.
Proof.
  intros [Hr Hf Hu Um Hw] H1 H2 H3. split; try done.
  - by eapply reach_trans.
  - intros r Hn. by rewrite H2, Hf.
  - intros r. destruct (decide (r = RAX)) as [->|Hn]; [done|]. by rewrite H2.
Qed.

(** The stack slot of the return address is outside the block. *)
Lemma saving_stack f' p m' ws : saving f' p m' ws -> read64 m' sp = Some ra.
Proof.
  intros [_ _ _ Um _]. destruct (ck_sp _ _ _ _ _ Hok) as [Hs _].
  rewrite (su_read _ _ _ Um); [apply Hok|done|].
  intros (k & Hk & ->). pose proof (ck_sep _ _ _ _ _ Hok). lia.
Qed.

Lemma save_context_spec rest :
  code = save_context ++ rest ->
  exists f' m', saving f' 10 m' (context f sp ra).
Proof.
  intros Hcode. destruct (ck_sp _ _ _ _ _ Hok) as [Hs Hs8].
  assert (forall k i, save_context !! k = Some i -> code !! k = Some i) as Hc
    by (intros k i Hk; rewrite Hcode; by apply lookup_app_l_Some).
  pose proof saving_start as S0.
  apply (saving_store _ _ _ _ RBX 0) in S0 as [m1 S1]; [|by apply Hc|cbn; lia|done].
  apply (saving_store _ _ _ _ RBP 8) in S1 as [m2 S2]; [|by apply Hc|cbn; lia|done].
  apply (saving_store _ _ _ _ R12 16) in S2 as [m3 S3]; [|by apply Hc|cbn; lia|done].
  apply (saving_store _ _ _ _ R13 24) in S3 as [m4 S4]; [|by apply Hc|cbn; lia|done].
  apply (saving_store _ _ _ _ R14 32) in S4 as [m5 S5]; [|by apply Hc|cbn; lia|done].
  apply (saving_store _ _ _ _ R15 40) in S5 as [m6 S6]; [|by apply Hc|cbn; lia|done].
  assert (f RSP = sp) as Esp by apply Hok. destruct Hs as (Hs0 & Hsa & Hs1).
  eapply saving_rax in S6; [|apply (step_lea code 6 f z m6 RAX 8 RSP); [by apply Hc|lia]
    |intros r Hr; by apply set_reg_ne|rewrite set_reg_eq; unfold uint; lia].
  apply (saving_store _ _ _ _ RAX 48) in S6 as [m7 S7]; [|by apply Hc|cbn; lia|done].
  rewrite set_reg_eq in S7. pose proof (saving_stack _ _ _ _ S7) as Hra.
  eapply saving_rax in S7; [|apply (step_load code 8 _ z m7 RAX 0 RSP ra); [by apply Hc|..]
    |intros r Hr; by apply set_reg_ne|rewrite set_reg_eq; apply Hok].
  2:{ rewrite set_reg_ne by done. lia. }
  2:{ rewrite set_reg_ne, Z.add_0_r by done. by rewrite Esp. }
  apply (saving_store _ _ _ _ RAX 56) in S7 as [m8 S8]; [|by apply Hc|cbn; lia|done].
  rewrite set_reg_eq, Esp in S8. eauto.
Qed.
End Save.

(** ** Loading a context *)

Section Load.
Context (code : list instr) (z : bool) (env : Z) (ws : list Z).
Context (bx bp x12 x13 x14 x15 sp ra : Z).
Hypothesis Hws : ws = [bx; bp; x12; x13; x14; x15; sp; ra].
Hypothesis Hb : block env.
Hypothesis Hsp : 8 <= sp < 2 ^ 64 /\ sp mod 8 = 0.
Hypothesis Hra : uint 64 ra.
Hypothesis Hsep : sp <= env \/ env + 80 <= sp - 8.

(** The registers after the loads. *)
Record loaded_regs (f g : reg -> Z) : Prop := {
  lr_callee : g RBX = bx /\ g RBP = bp /\ g R12 = x12 /\ g R13 = x13 /\ g R14 = x14 /\ g R15 = x15;
  lr_rsp : g RSP = sp - 8;
  lr_rax : g RAX = f RAX;
  lr_rdi : g RDI = env
}.

(** Registers loaded from words of the block, in order. *)
Definition loads (l : list (reg * nat)) (g : reg -> Z) : reg -> Z :=
  foldl (fun g '(r, k) => set_reg r (default 0 (ws !! k)) g) g l.

Lemma loads_reach l q g m :
  holds_context m env ws -> g RDI = env -> length ws = 8%nat ->
  (forall j r k, l !! j = Some (r, k) ->
     code !! (q + j)%nat = Some (MovMR (8 * Z.of_nat k) RDI r) /\ r <> RDI /\ (k < 8)%nat) ->
  reach code (mkMachine g z q m) (mkMachine (loads l g) z (q + length l) m).
Proof.
  intros Hctx Hg Hl. revert q g Hg. induction l as [|[r k] l IH]; intros q g Hg Hc.
  { rewrite Nat.add_0_r. apply reach_refl. }
  destruct (Hc 0%nat r k eq_refl) as (Hq & Hr & Hk). rewrite Nat.add_0_r in Hq.
  destruct (lookup_lt_is_Some_2 ws k) as [w Hw]; [lia|].
  eapply reach_trans; [apply (step_load code q g z m r _ RDI w Hq)|].
  - destruct Hb as (? & _ & ?). lia.
  - rewrite Hg. by apply Hctx.
  - cbn [loads foldl length]. rewrite Hw. replace (q + S (length l))%nat with (S q + length l)%nat by lia.
    apply IH; [by rewrite set_reg_ne|]. intros j r' k' Hj.
    replace (S q + j)%nat with (q + S j)%nat by lia. by apply Hc.
Qed.

Lemma load_context_spec p f m :
  (forall k i, load_context !! k = Some i -> code !! (p + k)%nat = Some i) ->
  f RDI = env -> holds_context m env ws -> mapped m (sp - 8) 8 ->
  exists g m', reach code (mkMachine f z p m) (mkMachine g z (p + 8) m') /\
    loaded_regs f g /\ read64 m' (sp - 8) = Some ra /\ slot_update m m' (fun a => a = sp - 8).
Proof.
  intros Hc Hrdi Hctx Hm. pose proof Hb as (Hb0 & _ & Hb1).
  assert (slot (sp - 8)) as Hs.
  { split_and!; [lia| |lia]. rewrite Zminus_mod, (proj2 Hsp). done. }
  destruct (store64_slot m (sp - 8) ra Hs Hm Hra) as (m' & E & R & U).
  assert (holds_context m' env ws) as Hctx'.
  { intros k w Hk. pose proof (lookup_lt_Some _ _ _ Hk) as Hlt. rewrite Hws in Hlt. cbn in Hlt.
    rewrite (su_read _ _ _ U); [by apply Hctx|apply block_slot; [done|lia]|lia]. }
  assert (length ws = 8%nat) as Hl by (by rewrite Hws).
  set (f2 := loads [(RBP, 1%nat); (RSP, 6%nat)] f).
  assert (f2 RDI = env /\ f2 RSP = sp) as [E2 E3]
    by (unfold f2, loads; cbn [foldl]; rewrite Hws; regs_simpl; done).
  set (f8 := loads [(RBX, 0%nat); (R12, 2%nat); (R13, 3%nat); (R14, 4%nat); (R15, 5%nat)]
               (set_reg RSP (sp - 8) f2)).
  exists f8, m'. split_and!; [|split|done|done].
  - eapply reach_trans; [apply (loads_reach [(RBP, 1%nat); (RSP, 6%nat)] p f m); try done|].
    { intros [|[|j]] r k; intros [= <- <-]; (split; [by apply Hc|split; [done|lia]]). }
    eapply reach_trans; [eapply reach_step; [cbn [pc length]; by apply (Hc 2%nat)|]|].
    { unfold exec_instr. fold f2. rewrite ea_eq, E2 by (rewrite E2; lia). cbn [regs memory zf pc].
      rewrite (load_slot m _ ra) by (apply (Hctx 7%nat); by rewrite Hws).
      rewrite E3, (u64_small (sp - 8)), E by lia. reflexivity. }
    replace (p + 8)%nat with (S (p + 2) + 5)%nat by lia.
    apply (loads_reach [(RBX, 0%nat); (R12, 2%nat); (R13, 3%nat); (R14, 4%nat); (R15, 5%nat)]);
      [done|by rewrite set_reg_ne|done|].
    intros j r k Hj. replace (S (p + 2) + j)%nat with (p + (3 + j))%nat by lia.
    destruct j as [|[|[|[|[|j]]]]]; cbn in Hj; injection Hj as <- <- || done;
      (split; [by apply Hc|split; [done|lia]]).
  - unfold f8, f2, loads. cbn [foldl]. rewrite Hws. by regs_simpl.
  - unfold f8, f2, loads. cbn [foldl]. rewrite Hws. by regs_simpl.
  - unfold f8, f2, loads. cbn [foldl]. rewrite Hws. by regs_simpl.
  - unfold f8, f2, loads. cbn [foldl]. rewrite Hws. by regs_simpl.
Qed.
End Load.

(** ** The routines *)

(** From [s], the routine returns to [a] in state [s']. *)
Definition returns (code : list instr) (s s' : machine) (a : Z) : Prop :=
  exists n, forall fuel, run (n + fuel) code s = Done (s', a).

(** The registers a called function preserves. *)
Definition callee_saved : list reg := [RBX; RBP; R12; R13; R14; R15].

Lemma ret_spec code s f z p m sp ra :
  reach code s (mkMachine f z p m) -> code !! p = Some Ret ->
  f RSP = sp -> 0 <= sp -> sp + 8 < 2 ^ 64 -> read64 m sp = Some ra ->
  returns code s (mkMachine (set_reg RSP (sp + 8) f) z (S p) m) ra.
Proof.
  intros Hr Hc Hsp H0 H1 Hra. eapply reach_return; [exact Hr|exact Hc|].
  unfold exec_instr. cbn [regs memory zf pc]. rewrite Hsp, (load_slot _ _ _ Hra).
  by rewrite u64_small by lia.
Qed.

Lemma setjmp_spec f z m env sp ra :
  call_ok f m env sp ra ->
  exists g m', returns toshokan_setjmp (mkMachine f z 0 m) (mkMachine g z 12 m') ra /\
    g RAX = 0 /\ g RSP = sp + 8 /\ (forall r, r ∈ callee_saved -> g r = f r) /\
    holds_context m' env (context f sp ra) /\
    slot_update m m' (fun a => exists k, 0 <= k < 8 /\ a = env + 8 * k).
Proof.
  intros Hok. destruct (ck_sp _ _ _ _ _ Hok) as [(Hs0 & _) Hs8].
  destruct (save_context_spec toshokan_setjmp f z m env sp ra Hok [MovIR 0 RAX; Ret])
    as (f' & m' & Hs); [done|].
  pose proof (saving_stack _ _ _ _ _ _ _ Hok _ _ _ _ Hs) as Hra. destruct Hs as [Hr Hf _ Um Hw].
  assert (reach toshokan_setjmp (mkMachine f z 0 m)
    (mkMachine (set_reg RAX 0 f') z 11 m')) as Hr'.
  { eapply reach_trans; [exact Hr|]. by eapply reach_step. }
  assert (set_reg RAX 0 f' RSP = sp) as Esp by (regs_simpl; rewrite Hf by done; apply Hok).
  pose proof (ret_spec _ _ _ _ _ _ sp ra Hr' eq_refl Esp Hs0 Hs8 Hra) as Hret.
  eexists _, m'. split_and!; [exact Hret|by regs_simpl|by regs_simpl| |done|done].
  intros r Hcs. unfold callee_saved in Hcs. rewrite !elem_of_cons, elem_of_nil in Hcs.
  destruct Hcs as [->|[->|[->|[->|[->|[->|[]]]]]]]; regs_simpl; by apply Hf.
Qed.

(** The registers of [ws] are in [g], as a return with [ra] left them. *)
Definition resumed (ws : list Z) (g : reg -> Z) : Prop :=
  ws = [g RBX; g RBP; g R12; g R13; g R14; g R15; g RSP; default 0 (ws !! 7%nat)].

Lemma longjmp_spec f z m env bx bp x12 x13 x14 x15 sp ra :
  let ws := [bx; bp; x12; x13; x14; x15; sp; ra] in
  block env -> 8 <= sp < 2 ^ 64 -> sp mod 8 = 0 -> uint 64 ra ->
  sp <= env \/ env + 80 <= sp - 8 ->
  f RDI = env -> holds_context m env ws -> mapped m (sp - 8) 8 ->
  exists g m', returns toshokan_longjmp (mkMachine f z 0 m) (mkMachine g z 10 m') ra /\
    g RAX = f RSI /\ resumed ws g /\ slot_update m m' (fun a => a = sp - 8).
Proof.
  intros ws Hb Hsp Hal Hra Hsep Hrdi Hctx Hm.
  destruct (load_context_spec toshokan_longjmp z env ws bx bp x12 x13 x14 x15 sp ra eq_refl Hb
    (conj Hsp Hal) Hra Hsep 1 (set_reg RAX (f RSI) f) m) as (g & m' & Hr & Hl & Hst & U).
  - intros k i Hk. by apply (lookup_app_l_Some load_context [Ret] k i) in Hk.
  - by regs_simpl.
  - done.
  - done.
  - assert (reach toshokan_longjmp (mkMachine f z 0 m) (mkMachine g z 9 m')) as Hr'
      by (eapply reach_trans; [by eapply reach_step|exact Hr]).
    destruct Hl as [(Hbx & Hbp & H12 & H13 & H14 & H15) Hrsp Hrax _].
    pose proof (ret_spec _ _ _ _ _ _ (sp - 8) ra Hr' eq_refl Hrsp ltac:(lia) ltac:(lia) Hst) as Hret.
    eexists _, m'. split_and!; [exact Hret| | |done].
    + regs_simpl. rewrite Hrax. by regs_simpl.
    + unfold resumed. cbn [lookup list_lookup default ws]. regs_simpl.
      rewrite Hbx, Hbp, H12, H13, H14, H15. by replace (sp - 8 + 8) with sp by lia.
Qed.

(** Storing an immediate in a word of the block. *)
Lemma step_store_imm code p f z m imm off k env :
  code !! p = Some (MovIM imm off RDI) -> f RDI = env -> block env -> off = 8 * k ->
  0 <= k < 10 -> uint 64 imm -> mapped m env 80 ->
  exists m', reach code (mkMachine f z p m) (mkMachine f z (S p) m') /\
    read64 m' (env + 8 * k) = Some imm /\ slot_update m m' (fun a => a = env + 8 * k).
Proof.
  intros Hc Hf Hb -> Hk Hv Hm. pose proof (block_slot _ _ Hb Hk) as Hs.
  destruct (store64_slot m (env + 8 * k) imm) as (m' & E & R & U); [done| |done|].
  { eapply mapped_sub; [..|exact Hm]; lia. }
  exists m'. split_and!; [|done|done]. eapply reach_step; [exact Hc|].
  unfold exec_instr. destruct Hb as (? & _ & ?). rewrite ea_eq by lia. cbn [regs memory zf pc].
  rewrite (u64_small imm) by done. by rewrite Hf, E.
Qed.

(** Up to the wait: the context is saved and word 8 set. *)
Lemma wait_post f z m env sp ra :
  call_ok f m env sp ra ->
  exists g m', reach toshokan_setjmp_with_wait (mkMachine f z 0 m) (mkMachine g z 11 m') /\
    g RDI = env /\ holds_context m' env (context f sp ra) /\ read64 m' (env + 64) = Some 1 /\
    slot_update m m' (fun a => exists k, 0 <= k < 9 /\ a = env + 8 * k).
Proof.
  intros Hok. pose proof (ck_block _ _ _ _ _ Hok) as Hb.
  destruct (save_context_spec toshokan_setjmp_with_wait f z m env sp ra Hok
    ([MovIM 1 64 RDI; Pause; CmpIM 0 72 RDI; Je 11] ++ load_context ++
     [MovIM 0 72 RDI; MovIR 1 RAX; Ret])) as (f' & m' & [Hr Hf _ Um Hw]); [done|].
  assert (f' RDI = env) as Erdi by (rewrite Hf by done; apply Hok).
  destruct (step_store_imm toshokan_setjmp_with_wait 10 f' z m' 1 64 8 env)
    as (m'' & Hr2 & R2 & U2); try done.
  { eapply mapped_agree; [apply (su_dom _ _ _ Um)|apply Hok]. }
  exists f', m''. split_and!; [by eapply reach_trans|done| |done|].
  - intros k w Hk. pose proof (lookup_lt_Some _ _ _ Hk) as Hlt. cbn in Hlt.
    rewrite (su_read _ _ _ U2); [by apply Hw|apply block_slot; [done|lia]|lia].
  - eapply slot_update_weaken, slot_update_trans; [|exact Um|exact U2].
    intros a [(k & Hk & ->)| ->]; [exists k; lia|exists 8; lia].
Qed.

(** One turn of the wait while word 9 is clear. *)
Lemma wait_spin g z m env :
  g RDI = env -> block env -> read64 m (env + 72) = Some 0 ->
  reach toshokan_setjmp_with_wait (mkMachine g z 11 m) (mkMachine g true 11 m).
Proof.
  intros Hg (Hb0 & _ & Hb1) H9.
  eapply reach_trans; [by eapply reach_step|].
  eapply reach_trans; [eapply (reach_step _ _ (CmpIM 0 72 RDI)); [done|]|].
  { unfold exec_instr. cbn [regs memory zf pc]. rewrite ea_eq by lia. cbn [regs memory zf pc].
    rewrite Hg, (load_slot _ _ _ H9). reflexivity. }
  by eapply reach_step.
Qed.

(** Once word 9 is set: the context in the block is resumed with result 1 and
    word 9 cleared. *)
Lemma wait_resume g z m env bx bp x12 x13 x14 x15 sp ra v :
  let ws := [bx; bp; x12; x13; x14; x15; sp; ra] in
  block env -> 8 <= sp < 2 ^ 64 -> sp mod 8 = 0 -> uint 64 ra ->
  sp <= env \/ env + 80 <= sp - 8 ->
  g RDI = env -> holds_context m env ws -> mapped m (sp - 8) 8 -> mapped m env 80 ->
  read64 m (env + 72) = Some v -> v <> 0 ->
  exists g' m', returns toshokan_setjmp_with_wait (mkMachine g z 11 m) (mkMachine g' false 25 m') ra /\
    g' RAX = 1 /\ resumed ws g' /\ read64 m' (env + 72) = Some 0 /\
    slot_update m m' (fun a => a = sp - 8 \/ a = env + 72).
Proof.
  intros ws Hb Hsp Hal Hra Hsep Hg Hctx Hm Hmb H9 Hv. pose proof Hb as (Hb0 & _ & Hb1).
  assert (reach toshokan_setjmp_with_wait (mkMachine g z 11 m) (mkMachine g false 14 m)) as Hr1.
  { eapply reach_trans; [by eapply reach_step|].
    eapply reach_trans; [eapply (reach_step _ _ (CmpIM 0 72 RDI)); [done|]|].
    { unfold exec_instr. cbn [regs memory zf pc]. rewrite ea_eq by lia. cbn [regs memory zf pc].
      rewrite Hg, (load_slot _ _ _ H9). change (u64 0) with 0.
      rewrite (proj2 (Z.eqb_neq v 0) Hv). reflexivity. }
    by eapply reach_step. }
  destruct (load_context_spec toshokan_setjmp_with_wait false env ws bx bp x12 x13 x14 x15 sp ra
    eq_refl Hb (conj Hsp Hal) Hra Hsep 14 g m) as (g1 & m1 & Hr2 & Hl & Hst & U1); [|done..|].
  { intros k i Hk. pose proof (lookup_lt_Some _ _ _ Hk) as Hlt. cbn in Hlt.
    do 8 (destruct k as [|k]; [done|]). lia. }
  destruct Hl as [(Hbx & Hbp & H12 & H13 & H14 & H15) Hrsp _ Hrdi].
  destruct (step_store_imm toshokan_setjmp_with_wait 22 g1 false m1 0 72 9 env)
    as (m2 & Hr3 & R3 & U3); try done.
  { by eapply mapped_agree; [apply (su_dom _ _ _ U1)|]. }
  assert (reach toshokan_setjmp_with_wait (mkMachine g z 11 m)
    (mkMachine (set_reg RAX 1 g1) false 24 m2)) as Hr.
  { eapply reach_trans; [exact Hr1|]. eapply reach_trans; [exact Hr2|].
    eapply reach_trans; [exact Hr3|]. by eapply reach_step. }
  assert (slot (sp - 8)) as Hs.
  { split_and!; [lia| |lia]. rewrite Zminus_mod, Hal. done. }
  assert (set_reg RAX 1 g1 RSP = sp - 8) as Esp by (by regs_simpl).
  assert (read64 m2 (sp - 8) = Some ra) as Hst2 by (rewrite (su_read _ _ _ U3); [done|done|lia]).
  pose proof (ret_spec _ _ _ _ _ _ (sp - 8) ra Hr eq_refl Esp ltac:(lia) ltac:(lia) Hst2) as Hret.
  eexists _, m2. split_and!; [exact Hret|by regs_simpl| |done|].
  - unfold resumed. cbn [lookup list_lookup default ws]. regs_simpl.
    rewrite Hbx, Hbp, H12, H13, H14, H15. by replace (sp - 8 + 8) with sp by lia.
  - eapply slot_update_weaken, slot_update_trans; [|exact U1|exact U3].
    intros a [->| ->]; [by left|by right].
Qed.

(** C20: [toshokan_longjmp] undoes [toshokan_setjmp]: after a [setjmp] returned 0
    to its caller, a [longjmp] with value [val] on the untouched context block, from
    any later state, returns to the same place with result [val], with the same
    stack pointer and the same callee-saved registers, and writes nothing but the
    caller's return slot. *)
Theorem setjmp_longjmp f z m env sp ra :
  call_ok f m env sp ra ->
  exists g m1, returns toshokan_setjmp (mkMachine f z 0 m) (mkMachine g z 12 m1) ra /\
    g RAX = 0 /\ g RSP = sp + 8 /\ (forall r, r ∈ callee_saved -> g r = f r) /\
    forall f2 z2 m2,
      f2 RDI = env -> mapped m2 sp 8 ->
      (forall k, 0 <= k < 8 -> read64 m2 (env + 8 * k) = read64 m1 (env + 8 * k)) ->
      exists g3 m3, returns toshokan_longjmp (mkMachine f2 z2 0 m2) (mkMachine g3 z2 10 m3) ra /\
        g3 RAX = f2 RSI /\ g3 RSP = sp + 8 /\ (forall r, r ∈ callee_saved -> g3 r = f r) /\
        slot_update m2 m3 (fun a => a = sp).
Proof.
  intros Hok. destruct (setjmp_spec f z m env sp ra Hok)
    as (g & m1 & Hret & Hax & Hsp & Hcs & Hctx & _).
  exists g, m1. split_and!; [done..|]. intros f2 z2 m2 Hdi Hm2 Hsame.
  destruct (ck_sp _ _ _ _ _ Hok) as [(Hs0 & Hsa & Hs1) Hs8].
  destruct (longjmp_spec f2 z2 m2 env (f RBX) (f RBP) (f R12) (f R13) (f R14) (f R15) (sp + 8) ra)
    as (g3 & m3 & Hret3 & Hax3 & Hres & U3).
  - apply Hok.
  - lia.
  - rewrite <- Z.add_mod_idemp_r, Z_mod_same_full, Z.add_0_r; done.
  - apply Hok.
  - pose proof (ck_sep _ _ _ _ _ Hok). lia.
  - done.
  - intros k w Hk. pose proof (lookup_lt_Some _ _ _ Hk) as Hlt. cbn in Hlt.
    rewrite Hsame by lia. by apply Hctx.
  - by replace (sp + 8 - 8) with sp by lia.
  - replace (sp + 8 - 8) with sp in U3 by lia. unfold resumed in Hres.
    injection Hres as E1 E2 E3 E4 E5 E6 E7.
    exists g3, m3. split_and!; [done|done|done| |done].
    intros r Hr. unfold callee_saved in Hr. rewrite !elem_of_cons, elem_of_nil in Hr.
    destruct Hr as [->|[->|[->|[->|[->|[->|[]]]]]]]; done.
Qed.

(** [toshokan_setjmp_with_wait] saves the caller's context, announces it in
    word 8 and waits: as long as the host leaves word 9 clear it keeps waiting and
    touches nothing; once the host has set word 9 it resumes whatever context the
    host has left in the block, with result 1, clears word 9 and writes nothing
    else but the return slot. *)
Theorem setjmp_with_wait_phases f z m env sp ra :
  call_ok f m env sp ra ->
  exists g m1,
    reach toshokan_setjmp_with_wait (mkMachine f z 0 m) (mkMachine g z 11 m1) /\
    holds_context m1 env (context f sp ra) /\ read64 m1 (env + 64) = Some 1 /\
    (forall z2 m2, read64 m2 (env + 72) = Some 0 ->
       reach toshokan_setjmp_with_wait (mkMachine g z2 11 m2) (mkMachine g true 11 m2)) /\
    (forall z2 m2 bx bp x12 x13 x14 x15 sp' ra' v,
       let ws := [bx; bp; x12; x13; x14; x15; sp'; ra'] in
       8 <= sp' < 2 ^ 64 -> sp' mod 8 = 0 -> uint 64 ra' ->
       sp' <= env \/ env + 80 <= sp' - 8 ->
       holds_context m2 env ws -> mapped m2 (sp' - 8) 8 -> mapped m2 env 80 ->
       read64 m2 (env + 72) = Some v -> v <> 0 ->
       exists g' m3,
         returns toshokan_setjmp_with_wait (mkMachine g z2 11 m2) (mkMachine g' false 25 m3) ra' /\
         g' RAX = 1 /\ resumed ws g' /\ read64 m3 (env + 72) = Some 0 /\
         slot_update m2 m3 (fun a => a = sp' - 8 \/ a = env + 72)).
Proof.
  intros Hok. pose proof (ck_block _ _ _ _ _ Hok) as Hb.
  destruct (wait_post f z m env sp ra Hok) as (g & m1 & Hr & Hg & Hctx & H8 & _).
  exists g, m1. split_and!; [done..| |].
  - intros z2 m2 H9. by eapply wait_spin.
  - intros z2 m2 bx bp x12 x13 x14 x15 sp' ra' v ws H1 H2 H3 H4 H5 H6 H7 H9 Hv.
    by eapply wait_resume.
Qed.

(** A call with the block at 0x1000 and the stack at 0x2000. *)
Definition demo_regs (r : reg) : Z :=
  match r with
  | RDI => 0x1000 | RSP => 0x2000 | RBX => 1 | RBP => 2 | R12 => 3 | R13 => 4
  | R14 => 5 | R15 => 6 | RAX => 7 | RSI => 8
  end.
Definition demo_memory : mem :=
  blit (blit ∅ 0x1000 (zeros 80)) 0x2000 (le_bytes 8 0x401000).

Lemma demo_call_ok : call_ok demo_regs demo_memory 0x1000 0x2000 0x401000.
Proof.
  split; try reflexivity.
  - split_and!; [discriminate|reflexivity|discriminate].
  - intros x Hx. unfold demo_memory. rewrite blit_lookup, length_le_bytes.
    rewrite decide_False by lia. rewrite blit_lookup. unfold zeros. rewrite length_replicate.
    rewrite decide_True by lia. exists 0. apply lookup_replicate. lia.
  - split; [|reflexivity]. split_and!; [discriminate|reflexivity|discriminate].
  - split; [by vm_compute|split; [discriminate|reflexivity]].
  - right. discriminate.
  - intros []; split; (discriminate || reflexivity).
Qed.

Lemma setjmp_longjmp_witness :
  exists g m1, returns toshokan_setjmp (mkMachine demo_regs false 0 demo_memory)
      (mkMachine g false 12 m1) 0x401000 /\
    g RAX = 0 /\ g RSP = 0x2000 + 8 /\ (forall r, r ∈ callee_saved -> g r = demo_regs r) /\
    forall f2 z2 m2,
      f2 RDI = 0x1000 -> mapped m2 0x2000 8 ->
      (forall k, 0 <= k < 8 -> read64 m2 (0x1000 + 8 * k) = read64 m1 (0x1000 + 8 * k)) ->
      exists g3 m3, returns toshokan_longjmp (mkMachine f2 z2 0 m2) (mkMachine g3 z2 10 m3) 0x401000 /\
        g3 RAX = f2 RSI /\ g3 RSP = 0x2000 + 8 /\ (forall r, r ∈ callee_saved -> g3 r = demo_regs r) /\
        slot_update m2 m3 (fun a => a = 0x2000).
Proof. apply (setjmp_longjmp demo_regs false demo_memory 0x1000 0x2000 0x401000 demo_call_ok). Defined.

Lemma setjmp_with_wait_phases_witness :
  exists g m1,
    reach toshokan_setjmp_with_wait (mkMachine demo_regs false 0 demo_memory) (mkMachine g false 11 m1) /\
    holds_context m1 0x1000 (context demo_regs 0x2000 0x401000) /\ read64 m1 (0x1000 + 64) = Some 1.
Proof.
  destruct (setjmp_with_wait_phases demo_regs false demo_memory 0x1000 0x2000 0x401000 demo_call_ok)
    as (g & m1 & H1 & H2 & H3 & _).
  exists g, m1. exact (conj H1 (conj H2 H3)).
Defined.

(** A [setjmp] followed at once by a [longjmp] with value 8, evaluated. *)
Example setjmp_then_longjmp :
  match run 12 toshokan_setjmp (mkMachine demo_regs false 0 demo_memory) with
  | Done (s, ra) =>
      match run 10 toshokan_longjmp
              (mkMachine (set_reg RBX 99 (set_reg RDI 0x1000 (set_reg RSI 8 (regs s)))) false 0 (memory s)) with
      | Done (s', ra') => Some (ra, regs s RAX, ra', regs s' RAX, regs s' RBX, regs s' RSP)
      | Fault _ => None
      end
  | Fault _ => None
  end = Some (0x401000, 0, 0x401000, 8, 1, 0x2008).
Proof. by vm_compute. Qed.

End Asm.

(** ** The hand-over between friend cores and the host *)

Module Protocol.

(** Where a saved friend context continues: after [setjmp_with_wait], where the
    offloaded code runs, or after the second [setjmp], where the code is done. *)
Inductive site := AfterWait | AfterCode.

(** A friend core in [_OFFLOAD]. *)
Inductive fpc :=
| FIdle                            (* outside the macro *)
| FTest                            (* (c)._lock != 0 *)
| FCas                             (* __sync_bool_compare_and_swap(&(c)._lock, 0, 1) *)
| FSave                            (* setjmp_with_wait: saves words 0..7 *)
| FPost                            (* word 8 := 1 *)
| FWait                            (* tests word 9 *)
| FLoad                            (* loads words 0..7 *)
| FClear (core : nat) (s : site)   (* word 9 := 0, resumes what it loaded *)
| FCode                            (* runs the code on the friend core *)
| FSaveAgain                       (* setjmp(_friend_ctx), then longjmp(_hakase_ctx) *)
| FStray                           (* has left into the host's context *)
| FUnlock.                         (* (c)._lock = 0 *)

(** The host thread in [TryReceive]. *)
Inductive hpc :=
| HPoll                            (* _friend_ctx[8] == 0 *)
| HClear8                          (* _friend_ctx[8] = 0 *)
| HSave                            (* setjmp(_hakase_ctx) *)
| HJump                            (* longjmp(_friend_ctx, 1) *)
| HCode (core : nat)               (* runs the code in that core's context *)
| HSaveFriend (core : nat)         (* setjmp(_friend_ctx) in that context *)
| HReturn                          (* longjmp(_hakase_ctx, 1) *)
| HSet9                            (* _friend_ctx[9] = 1 *)
| HStray.                          (* past the second setjmp of a friend core *)

#[export] Instance site_eq_dec : EqDecision site.
Proof. solve_decision. Defined.
#[export] Instance fpc_eq_dec : EqDecision fpc.
Proof. solve_decision. Defined.
#[export] Instance hpc_eq_dec : EqDecision hpc.
Proof. solve_decision. Defined.

Record state := mkState {
  lock : Z;
  word8 : Z;
  word9 : Z;
  friend_ctx : option (nat * site);  (* words 0..7: whose context, and where it continues *)
  hakase_ctx : bool;                 (* holds the host's context *)
  friends : list fpc;
  hakase : hpc;
  ran_on_host : list nat;            (* whose code ran on the host, latest first *)
  ran_on_friend : list nat;          (* whose code ran on its own core *)
  completed : list nat               (* whose offload was completed, latest first *)
}.

Definition init (n : nat) : state :=
  mkState 0 0 0 None false (replicate n FIdle) HPoll [] [] [].

Definition set_friend (i : nat) (p : fpc) (s : state) : list fpc := <[i := p]> (friends s).

(** One access to the shared words at a time, by any friend core or by the host. *)
Inductive step : state -> state -> Prop :=
| StepBegin i s :
    friends s !! i = Some FIdle ->
    step s (mkState (lock s) (word8 s) (word9 s) (friend_ctx s) (hakase_ctx s)
              (set_friend i FTest s) (hakase s) (ran_on_host s) (ran_on_friend s) (completed s))
| StepTest i s :
    friends s !! i = Some FTest ->
    step s (mkState (lock s) (word8 s) (word9 s) (friend_ctx s) (hakase_ctx s)
              (set_friend i (if lock s =? 0 then FCas else FTest) s) (hakase s)
              (ran_on_host s) (ran_on_friend s) (completed s))
| StepCas i s :
    friends s !! i = Some FCas ->
    step s (mkState (if lock s =? 0 then 1 else lock s) (word8 s) (word9 s) (friend_ctx s)
              (hakase_ctx s) (set_friend i (if lock s =? 0 then FSave else FTest) s) (hakase s)
              (ran_on_host s) (ran_on_friend s) (completed s))
| StepSave i s :
    friends s !! i = Some FSave ->
    step s (mkState (lock s) (word8 s) (word9 s) (Some (i, AfterWait)) (hakase_ctx s)
              (set_friend i FPost s) (hakase s) (ran_on_host s) (ran_on_friend s) (completed s))
| StepPost i s :
    friends s !! i = Some FPost ->
    step s (mkState (lock s) 1 (word9 s) (friend_ctx s) (hakase_ctx s)
              (set_friend i FWait s) (hakase s) (ran_on_host s) (ran_on_friend s) (completed s))
| StepWait i s :
    friends s !! i = Some FWait ->
    step s (mkState (lock s) (word8 s) (word9 s) (friend_ctx s) (hakase_ctx s)
              (set_friend i (if word9 s =? 0 then FWait else FLoad) s) (hakase s)
              (ran_on_host s) (ran_on_friend s) (completed s))
| StepLoad i c t s :
    friends s !! i = Some FLoad -> friend_ctx s = Some (c, t) ->
    step s (mkState (lock s) (word8 s) (word9 s) (friend_ctx s) (hakase_ctx s)
              (set_friend i (FClear c t) s) (hakase s)
              (ran_on_host s) (ran_on_friend s) (completed s))
| StepClear i c t s :
    friends s !! i = Some (FClear c t) ->
    step s (mkState (lock s) (word8 s) 0 (friend_ctx s) (hakase_ctx s)
              (set_friend i (match t with AfterWait => FCode | AfterCode => FUnlock end) s)
              (hakase s) (ran_on_host s) (ran_on_friend s) (completed s))
| StepCode i s :
    friends s !! i = Some FCode ->
    step s (mkState (lock s) (word8 s) (word9 s) (friend_ctx s) (hakase_ctx s)
              (set_friend i FSaveAgain s) (hakase s)
              (ran_on_host s) (i :: ran_on_friend s) (completed s))
| StepSaveAgain i s :
    friends s !! i = Some FSaveAgain ->
    step s (mkState (lock s) (word8 s) (word9 s) (Some (i, AfterCode)) (hakase_ctx s)
              (set_friend i FStray s) (hakase s)
              (ran_on_host s) (ran_on_friend s) (completed s))
| StepUnlock i s :
    friends s !! i = Some FUnlock ->
    step s (mkState 0 (word8 s) (word9 s) (friend_ctx s) (hakase_ctx s)
              (set_friend i FIdle s) (hakase s)
              (ran_on_host s) (ran_on_friend s) (i :: completed s))
| StepPoll s :
    hakase s = HPoll ->
    step s (mkState (lock s) (word8 s) (word9 s) (friend_ctx s) (hakase_ctx s) (friends s)
              (if word8 s =? 0 then HPoll else HClear8)
              (ran_on_host s) (ran_on_friend s) (completed s))
| StepClear8 s :
    hakase s = HClear8 ->
    step s (mkState (lock s) 0 (word9 s) (friend_ctx s) (hakase_ctx s) (friends s) HSave
              (ran_on_host s) (ran_on_friend s) (completed s))
| StepHSave s :
    hakase s = HSave ->
    step s (mkState (lock s) (word8 s) (word9 s) (friend_ctx s) true (friends s) HJump
              (ran_on_host s) (ran_on_friend s) (completed s))
| StepJump c t s :
    hakase s = HJump -> friend_ctx s = Some (c, t) ->
    step s (mkState (lock s) (word8 s) (word9 s) (friend_ctx s) (hakase_ctx s) (friends s)
              (match t with AfterWait => HCode c | AfterCode => HStray end) (ran_on_host s) (ran_on_friend s) (completed s))
| StepHCode c s :
    hakase s = HCode c ->
    step s (mkState (lock s) (word8 s) (word9 s) (friend_ctx s) (hakase_ctx s) (friends s)
              (HSaveFriend c) (c :: ran_on_host s) (ran_on_friend s) (completed s))
| StepSaveFriend c s :
    hakase s = HSaveFriend c ->
    step s (mkState (lock s) (word8 s) (word9 s) (Some (c, AfterCode)) (hakase_ctx s) (friends s)
              HReturn (ran_on_host s) (ran_on_friend s) (completed s))
| StepReturn s :
    hakase s = HReturn -> hakase_ctx s = true ->
    step s (mkState (lock s) (word8 s) (word9 s) (friend_ctx s) (hakase_ctx s) (friends s)
              HSet9 (ran_on_host s) (ran_on_friend s) (completed s))
| StepSet9 s :
    hakase s = HSet9 ->
    step s (mkState (lock s) (word8 s) 1 (friend_ctx s) (hakase_ctx s) (friends s)
              HPoll (ran_on_host s) (ran_on_friend s) (completed s)).

Abbreviation steps := (rtc step).

(** ** The invariant *)

(** A core that holds the lock. *)
Definition critical (p : fpc) : Prop :=
  match p with FIdle | FTest | FCas => False | _ => True end.

(** The phases of an offload by core [i]: what the holder is at, and what the
    shared words, the host and the logs are then. *)
Inductive phase (i : nat) (s : state) : fpc -> Prop :=
| PhSave : word8 s = 0 -> word9 s = 0 -> hakase s = HPoll ->
    ran_on_host s = completed s -> phase i s FSave
| PhPost : word8 s = 0 -> word9 s = 0 -> hakase s = HPoll ->
    friend_ctx s = Some (i, AfterWait) -> ran_on_host s = completed s -> phase i s FPost
| PhAnnounced : word8 s = 1 -> word9 s = 0 -> (hakase s = HPoll \/ hakase s = HClear8) ->
    friend_ctx s = Some (i, AfterWait) -> ran_on_host s = completed s -> phase i s FWait
| PhReceived : word8 s = 0 -> word9 s = 0 ->
    (hakase s = HSave \/ (hakase s = HJump /\ hakase_ctx s = true)) ->
    friend_ctx s = Some (i, AfterWait) -> ran_on_host s = completed s -> phase i s FWait
| PhCode : word8 s = 0 -> word9 s = 0 -> hakase s = HCode i -> hakase_ctx s = true ->
    ran_on_host s = completed s -> phase i s FWait
| PhRan : word8 s = 0 -> word9 s = 0 -> hakase s = HSaveFriend i -> hakase_ctx s = true ->
    ran_on_host s = i :: completed s -> phase i s FWait
| PhBack : word8 s = 0 -> word9 s = 0 ->
    ((hakase s = HReturn /\ hakase_ctx s = true) \/ hakase s = HSet9) ->
    friend_ctx s = Some (i, AfterCode) -> ran_on_host s = i :: completed s -> phase i s FWait
| PhReleased p : word8 s = 0 -> word9 s = 1 -> hakase s = HPoll ->
    friend_ctx s = Some (i, AfterCode) -> ran_on_host s = i :: completed s ->
    p = FWait \/ p = FLoad \/ p = FClear i AfterCode -> phase i s p
| PhUnlock : word8 s = 0 -> word9 s = 0 -> hakase s = HPoll ->
    ran_on_host s = i :: completed s -> phase i s FUnlock.

Inductive inv (s : state) : Prop :=
| InvFree : lock s = 0 -> word8 s = 0 -> word9 s = 0 -> hakase s = HPoll ->
    Forall (fun p => ~ critical p) (friends s) ->
    ran_on_host s = completed s -> ran_on_friend s = [] -> inv s
| InvHeld i p : lock s = 1 -> friends s !! i = Some p -> phase i s p ->
    (forall j q, j <> i -> friends s !! j = Some q -> ~ critical q) ->
    ran_on_friend s = [] -> inv s.

Lemma init_inv n : inv (init n).
Proof.
  apply InvFree; try done. cbn [init friends]. apply Forall_replicate. by intros [].
Qed.

Lemma phase_critical i s p : phase i s p -> critical p.
Proof. intros []; try done. by destruct H4 as [->|[->| ->]]. Qed.

(** The core that is in the critical section is the holder of the invariant. *)
Lemma inv_holder s j q :
  inv s -> friends s !! j = Some q -> critical q ->
  lock s = 1 /\ phase j s q /\ (forall k p, k <> j -> friends s !! k = Some p -> ~ critical p) /\
  ran_on_friend s = [].
Proof.
  intros [_ _ _ _ Hn _ _|i p Hl Hi Hp Ho Hf] Hj Hc.
  - rewrite Forall_lookup in Hn. by destruct (Hn _ _ Hj).
  - destruct (decide (j = i)) as [->|Hne]; [|by destruct (Ho _ _ Hne Hj)].
    rewrite Hi in Hj. injection Hj as <-. done.
Qed.

(** The phase only looks at the shared words, the host and the logs. *)
Lemma phase_ext i s s' p :
  word8 s' = word8 s -> word9 s' = word9 s -> friend_ctx s' = friend_ctx s ->
  hakase_ctx s' = hakase_ctx s -> hakase s' = hakase s -> ran_on_host s' = ran_on_host s ->
  completed s' = completed s -> phase i s p -> phase i s' p.
Proof.
  intros E1 E2 E3 E4 E5 E6 E7 []; [eapply PhSave|eapply PhPost|eapply PhAnnounced
    |eapply PhReceived|eapply PhCode|eapply PhRan|eapply PhBack|eapply PhReleased|eapply PhUnlock];
    rewrite ?E1, ?E2, ?E3, ?E4, ?E5, ?E6, ?E7; done.
Qed.

(** A step of a core that neither holds nor takes the lock. *)
Lemma inv_outside s j p q :
  inv s -> friends s !! j = Some p -> ~ critical p -> ~ critical q ->
  inv (mkState (lock s) (word8 s) (word9 s) (friend_ctx s) (hakase_ctx s) (set_friend j q s)
         (hakase s) (ran_on_host s) (ran_on_friend s) (completed s)).
Proof.
  intros Hinv Hj Hp Hq. destruct Hinv as [Hl H8 H9 Hh Hn Hr Hf|i pi Hl Hi Hph Ho Hf].
  - apply InvFree; try done. cbn [friends]; unfold set_friend. by apply Forall_insert.
  - assert (i <> j) as Hne.
    { intros ->. rewrite Hi in Hj. injection Hj as ->. by apply phase_critical in Hph. }
    apply (InvHeld _ i pi); try done; cbn [friends]; unfold set_friend.
    + by rewrite list_lookup_insert_ne by done.
    + by eapply phase_ext; [..|exact Hph].
    + intros k r Hk Hr. destruct (decide (k = j)) as [->|Hkj].
      * apply lookup_lt_Some in Hj. rewrite list_lookup_insert_eq in Hr by done.
        by injection Hr as <-.
      * rewrite list_lookup_insert_ne in Hr by done. by eapply Ho.
Qed.

(** A step of the holder [j] to [q]: the new phase is what remains to show. *)
Lemma inv_holder_step s s' j p q :
  inv s -> friends s !! j = Some p -> critical p ->
  lock s' = lock s -> friends s' = set_friend j q s -> ran_on_friend s' = ran_on_friend s ->
  (lock s = 1 -> phase j s p -> phase j s' q) -> inv s'.
Proof.
  intros Hinv Hj Hc El Ef Er Hph. destruct (inv_holder s j p Hinv Hj Hc) as (Hl & Hp & Ho & Hf).
  assert (j < length (friends s))%nat by (by apply lookup_lt_Some in Hj).
  apply (InvHeld _ j q); rewrite ?Ef, ?El, ?Er; try done; unfold set_friend.
  - by rewrite list_lookup_insert_eq.
  - by apply Hph.
  - intros k r Hk Hr. rewrite list_lookup_insert_ne in Hr by done. by eapply Ho.
Qed.

(** A step of the host while an offload is in progress. *)
Lemma inv_host_step s s' :
  inv s -> lock s' = lock s -> friends s' = friends s -> ran_on_friend s' = ran_on_friend s ->
  (hakase s <> HPoll \/ word8 s <> 0) ->
  (forall i p, phase i s p -> phase i s' p) -> inv s'.
Proof.
  intros Hinv El Ef Er Hact Hph. destruct Hinv as [Hl H8 H9 Hh Hn Hr Hf|i p Hl Hi Hp Ho Hf].
  - by destruct Hact.
  - apply (InvHeld _ i p); rewrite ?Ef, ?El, ?Er; try done. by apply Hph.
Qed.

Lemma inv_cas s i :
  inv s -> friends s !! i = Some FCas -> lock s = 0 ->
  inv (mkState 1 (word8 s) (word9 s) (friend_ctx s) (hakase_ctx s) (set_friend i FSave s)
         (hakase s) (ran_on_host s) (ran_on_friend s) (completed s)).
Proof.
  intros Hinv Hi Hl0. destruct Hinv as [Hl H8 H9 Hh Hn Hr Hf|k pk Hl _ _ _ _]; [|lia].
  assert (i < length (friends s))%nat by (by apply lookup_lt_Some in Hi).
  apply (InvHeld _ i FSave); cbn [friends lock ran_on_friend]; unfold set_friend; try done.
  - by rewrite list_lookup_insert_eq.
  - by apply PhSave.
  - intros k q Hk Hq. rewrite list_lookup_insert_ne in Hq by done.
    rewrite Forall_lookup in Hn. by eapply Hn.
Qed.

Lemma inv_unlock s i :
  inv s -> friends s !! i = Some FUnlock ->
  inv (mkState 0 (word8 s) (word9 s) (friend_ctx s) (hakase_ctx s) (set_friend i FIdle s)
         (hakase s) (ran_on_host s) (ran_on_friend s) (i :: completed s)).
Proof.
  intros Hinv Hi. destruct (inv_holder s i FUnlock Hinv Hi I) as (Hl & Hp & Ho & Hf).
  inversion Hp as [| | | | | | |p H1 H2 H3 H4 H5 H6|H1 H2 H3 H4]; subst;
    [by destruct_or!|].
  apply InvFree; cbn; try done. unfold set_friend. apply Forall_lookup. intros k q Hk.
  destruct (decide (k = i)) as [->|Hne].
  - rewrite list_lookup_insert_eq in Hk by (by eapply lookup_lt_Some).
    injection Hk as <-. by intros [].
  - rewrite list_lookup_insert_ne in Hk by done. by eapply Ho.
Qed.

(** Keep the phases that agree with what the host is at. *)
Ltac host_phase Hp :=
  inversion Hp; subst;
  try (exfalso; repeat match goal with H : _ \/ _ |- _ => destruct H end; destruct_and?; congruence).

Lemma step_inv s s' : inv s -> step s s' -> inv s'.
Proof.
  intros Hinv Hst.
  destruct Hst as [i s Hi|i s Hi|i s Hi|i s Hi|i s Hi|i s Hi|i c t s Hi Hc|i c t s Hi|i s Hi|i s Hi|i s Hi
    |s Hh|s Hh|s Hh|c t s Hh Hc|c s Hh|c s Hh|s Hh Hc|s Hh].
  - eapply inv_outside; [done|done|by intros []|by intros []].
  - eapply inv_outside; [done|done|by intros []|]. destruct (lock s =? 0); by intros [].
  - destruct (Z.eqb_spec (lock s) 0) as [E|E].
    + by apply inv_cas.
    + eapply inv_outside; [done|done|by intros []|by intros []].
  - eapply inv_holder_step; [done|done|done|done|done|done|].
    intros _ Hp. inversion Hp; subst; [by apply PhPost|by destruct_or!].
  - eapply inv_holder_step; [done|done|done|done|done|done|].
    intros _ Hp. inversion Hp; subst; [|by destruct_or!]. apply PhAnnounced; cbn; auto.
  - eapply inv_holder_step; [done|done|done|done|done|done|].
    intros _ Hp. destruct (Z.eqb_spec (word9 s) 0) as [E|E].
    + by eapply phase_ext; [..|exact Hp].
    + inversion Hp; subst; try done. eapply PhReleased; cbn; auto.
  - eapply inv_holder_step; [done|done|done|done|done|done|].
    intros _ Hp. inversion Hp; subst. rewrite Hc in *. simplify_eq.
    eapply PhReleased; cbn; auto.
  - eapply inv_holder_step; [done|done|done|done|done|done|].
    intros _ Hp. inversion Hp; subst.
    match goal with H : _ \/ _ \/ _ |- _ => destruct H as [?|[?|?]] end; simplify_eq.
    apply PhUnlock; cbn; auto.
  - destruct (inv_holder s i FCode Hinv Hi I) as (_ & Hp & _). inversion Hp; by destruct_or!.
  - destruct (inv_holder s i FSaveAgain Hinv Hi I) as (_ & Hp & _). inversion Hp; by destruct_or!.
  - by apply inv_unlock.
  - destruct (Z.eqb_spec (word8 s) 0) as [E|E].
    + replace (mkState _ _ _ _ _ _ _ _ _ _) with s; [done|]. rewrite <- Hh. by destruct s.
    + eapply inv_host_step; [done|done|done|done|by right|].
      intros i p Hp. inversion Hp; subst; try done. apply PhAnnounced; cbn; auto.
  - eapply inv_host_step; [done|done|done|done|left; by rewrite Hh|].
    intros i p Hp. host_phase Hp.
    apply PhReceived; cbn; auto.
  - eapply inv_host_step; [done|done|done|done|left; by rewrite Hh|].
    intros i p Hp. host_phase Hp.
    apply PhReceived; cbn; auto.
  - eapply inv_host_step; [done|done|done|done|left; by rewrite Hh|].
    intros i p Hp. host_phase Hp.
    assert (c = i /\ t = AfterWait) as [-> ->] by (split; congruence). apply PhCode; cbn; auto.
    by destruct_or!; destruct_and?; congruence.
  - eapply inv_host_step; [done|done|done|done|left; by rewrite Hh|].
    intros i p Hp. host_phase Hp.
    assert (c = i) as -> by congruence. apply PhRan; cbn; auto. congruence.
  - eapply inv_host_step; [done|done|done|done|left; by rewrite Hh|].
    intros i p Hp. host_phase Hp.
    assert (c = i) as -> by congruence. apply PhBack; cbn; auto.
  - eapply inv_host_step; [done|done|done|done|left; by rewrite Hh|].
    intros i p Hp. host_phase Hp.
    apply PhBack; cbn; auto.
  - eapply inv_host_step; [done|done|done|done|left; by rewrite Hh|].
    intros i p Hp. host_phase Hp.
    eapply PhReleased; cbn; auto.
Qed.

Lemma steps_inv s s' : inv s -> steps s s' -> inv s'.
Proof. intros Hi Hs. induction Hs as [|s1 s2 s3 H12 _ IH]; [done|]. apply IH. by eapply step_inv. Qed.

Lemma reachable_inv n s : steps (init n) s -> inv s.
Proof. apply steps_inv, init_inv. Qed.

(** ** Progress *)

(** How far the offload of the holder [p] is from its end. *)
Definition fpc_rank (s : state) (p : fpc) : nat :=
  match p with
  | FSave => 20
  | FPost => 19
  | FWait =>
      match hakase s with
      | HPoll => if word9 s =? 0 then 18 else 10
      | HClear8 => 17
      | HSave => 16
      | HJump => 15
      | HCode _ => 14
      | HSaveFriend _ => 13
      | HReturn => 12
      | HSet9 => 11
      | HStray => 0
      end
  | FLoad => 9
  | FClear _ _ => 8
  | _ => 7
  end.

(** [s'] is [s] with core [i] moved to [p]; nothing is completed. *)
Definition moved (i : nat) (s s' : state) (p : fpc) : Prop :=
  friends s' !! i = Some p /\ (forall k, k <> i -> friends s' !! k = friends s !! k) /\
  completed s' = completed s.

Lemma moved_friend i s p q f8 f9 fc hc h rh rf :
  friends s !! i = Some q ->
  moved i s (mkState (lock s) f8 f9 fc hc (set_friend i p s) h rh rf (completed s)) p.
Proof.
  intros Hi. unfold set_friend. split_and!; [|intros k Hk|done]; cbn [friends].
  - apply list_lookup_insert_eq. by eapply lookup_lt_Some.
  - by apply list_lookup_insert_ne.
Qed.

Lemma holder_step i s p :
  friends s !! i = Some p -> phase i s p -> p <> FUnlock ->
  exists s' p', step s s' /\ moved i s s' p' /\ critical p' /\ (fpc_rank s' p' < fpc_rank s p)%nat.
Proof.
  intros Hi Hp Hn. assert (forall s', friends s' = friends s -> completed s' = completed s ->
    moved i s s' p) as Hhost by (intros s' E1 E2; split_and!; [by rewrite E1|by rewrite E1|done]).
  destruct Hp as [H8 H9 Hh Hr|H8 H9 Hh Hc Hr|H8 H9 Hh Hc Hr|H8 H9 Hh Hc Hr|H8 H9 Hh Hc Hr
    |H8 H9 Hh Hc Hr|H8 H9 Hh Hc Hr|p H8 H9 Hh Hc Hr Hpp|H8 H9 Hh Hr]; [| | | | | | | |done].
  - eexists _, FPost. split_and!; [by apply StepSave|by eapply moved_friend|done|cbn; lia].
  - eexists _, FWait. split_and!; [by apply StepPost|by eapply moved_friend|done|].
    cbn. rewrite Hh, H9. cbn. lia.
  - destruct Hh as [Hh|Hh].
    + eexists _, FWait. split_and!; [by apply StepPoll|by apply Hhost|done|].
      cbn. rewrite Hh, H8, H9. cbn. lia.
    + eexists _, FWait. split_and!; [by apply StepClear8|by apply Hhost|done|]. cbn. rewrite Hh. lia.
  - destruct Hh as [Hh|[Hh _]].
    + eexists _, FWait. split_and!; [by apply StepHSave|by apply Hhost|done|]. cbn. rewrite Hh. lia.
    + eexists _, FWait. split_and!; [by eapply StepJump|by apply Hhost|done|]. cbn. rewrite Hh. lia.
  - eexists _, FWait. split_and!; [by eapply StepHCode|by apply Hhost|done|]. cbn. rewrite Hh. lia.
  - eexists _, FWait. split_and!; [by eapply StepSaveFriend|by apply Hhost|done|]. cbn. rewrite Hh. lia.
  - destruct Hh as [[Hh Hx]|Hh].
    + eexists _, FWait. split_and!; [by eapply StepReturn|by apply Hhost|done|]. cbn. rewrite Hh. lia.
    + eexists _, FWait. split_and!; [by eapply StepSet9|by apply Hhost|done|]. cbn. rewrite Hh. lia.
  - destruct Hpp as [->|[->| ->]].
    + eexists _, FLoad. split_and!; [by apply StepWait|rewrite H9; by eapply moved_friend|done|].
      cbn. rewrite Hh, H9. cbn. lia.
    + eexists _, (FClear i AfterCode). split_and!; [by eapply StepLoad|by eapply moved_friend|done|cbn; lia].
    + eexists _, FUnlock. split_and!; [by eapply StepClear|by eapply moved_friend|done|cbn; lia].
Qed.

(** The holder can always complete, with the help of the host alone. *)
Lemma holder_completes i s p :
  inv s -> friends s !! i = Some p -> critical p ->
  exists s', steps s s' /\ friends s' !! i = Some FIdle /\ completed s' = i :: completed s /\
    lock s' = 0 /\ forall k, k <> i -> friends s' !! k = friends s !! k.
Proof.
  remember (fpc_rank s p) as r eqn:Er. revert s p Er. induction (lt_wf r) as [r _ IH].
  intros s p -> Hinv Hi Hc. destruct (inv_holder s i p Hinv Hi Hc) as (Hl & Hp & _ & _).
  destruct (decide (p = FUnlock)) as [->|Hn].
  - eexists. split_and!; [by apply rtc_once, StepUnlock|..]; cbn; unfold set_friend; try done.
    + apply list_lookup_insert_eq. by eapply lookup_lt_Some.
    + intros k Hk. by apply list_lookup_insert_ne.
  - destruct (holder_step i s p Hi Hp Hn) as (s1 & p1 & Hst & (M1 & M2 & M3) & Hc1 & Hrk).
    destruct (IH _ Hrk s1 p1 eq_refl) as (s2 & Hs2 & F2 & C2 & L2 & O2);
      [by eapply step_inv|done|done|].
    exists s2. split_and!; [by eapply rtc_l|done|by rewrite C2, M3|done|].
    intros k Hk. by rewrite O2, M2.
Qed.

(** Whoever holds the lock, the others keep their places while it is freed. *)
Lemma lock_freed s i p :
  inv s -> friends s !! i = Some p -> ~ critical p ->
  exists s' l, steps s s' /\ lock s' = 0 /\ friends s' !! i = Some p /\
    completed s' = l ++ completed s /\ (length l <= 1)%nat.
Proof.
  intros Hinv Hi Hc. destruct (Hinv) as [Hl _ _ _ _ _ _|j q Hl Hj Hp _ _].
  - exists s, []. split_and!; [apply rtc_refl|done|done|done|cbn; lia].
  - destruct (holder_completes j s q Hinv Hj (phase_critical _ _ _ Hp)) as (s' & Hs & _ & Hcm & Hl' & Ho).
    exists s', [j]. split_and!; [done|done| |done|cbn; lia].
    rewrite Ho; [done|]. intros ->. rewrite Hi in Hj. injection Hj as ->.
    by apply phase_critical in Hp.
Qed.

(** A core that sees the lock free takes it. *)
Lemma lock_taken s i p :
  lock s = 0 -> friends s !! i = Some p -> p = FTest \/ p = FCas ->
  exists s', steps s s' /\ friends s' !! i = Some FSave /\ completed s' = completed s.
Proof.
  intros Hl Hi Hp. assert (i < length (friends s))%nat as Hlt by (by eapply lookup_lt_Some).
  assert (forall t, lock t = 0 -> friends t !! i = Some FCas -> exists s', step t s' /\
    friends s' !! i = Some FSave /\ completed s' = completed t) as Hcas.
  { intros t Ht Hit. eexists. split; [by apply StepCas|]. cbn. rewrite Ht. cbn. unfold set_friend.
    split; [|done]. apply list_lookup_insert_eq. by eapply lookup_lt_Some. }
  destruct Hp as [->| ->].
  - pose proof (StepTest i s Hi) as H1. set (t := mkState _ _ _ _ _ _ _ _ _ _) in H1.
    destruct (Hcas t) as (s' & Hst & Hf & Hcm).
    + done.
    + subst t. cbn. rewrite Hl. cbn. unfold set_friend. by apply list_lookup_insert_eq.
    + exists s'. split_and!; [|done|by rewrite Hcm]. eapply rtc_l; [exact H1|by apply rtc_once].
  - destruct (Hcas s Hl Hi) as (s' & Hst & Hf & Hcm). exists s'. split_and!; [by apply rtc_once|done|done].
Qed.

(** ** Properties *)

(** C3: in every interleaving of any number of friend cores and the host, no
    offloaded code runs on a friend core, and the host runs the code of each
    [_OFFLOAD] exactly once: the log of what the host ran is the log of the
    completed offloads, with at most the one of the core that holds the lock
    added. *)
Theorem offload_exactly_once n s :
  steps (init n) s ->
  ran_on_friend s = [] /\
  (ran_on_host s = completed s \/
   exists i p, lock s = 1 /\ friends s !! i = Some p /\ critical p /\
     ran_on_host s = i :: completed s).
Proof.
  intros Hs. destruct (reachable_inv n s Hs) as [_ _ _ _ _ Hr Hf|i p Hl Hi Hp _ Hf];
    (split; [exact Hf|]); [by left|].
  pose proof (phase_critical _ _ _ Hp) as Hc.
  destruct Hp; first [by left|right; eexists i, _; done].
Qed.

(** C15: in every interleaving at most one core is between its acquisition of
    [_lock] and its release; the context a friend core loads after its wait is its
    own, saved where its code is done; and while the host runs a core's code, that
    very core waits in [setjmp_with_wait] with the lock held. *)
Theorem offload_isolated n s :
  steps (init n) s ->
  (forall i j p q, friends s !! i = Some p -> friends s !! j = Some q ->
     critical p -> critical q -> i = j) /\
  (forall i c t, friends s !! i = Some (FClear c t) -> c = i /\ t = AfterCode) /\
  (forall c, hakase s = HCode c -> lock s = 1 /\ friends s !! c = Some FWait).
Proof.
  intros Hs. pose proof (reachable_inv n s Hs) as Hinv. split_and!.
  - intros i j p q Hi Hj Hp Hq. destruct (inv_holder s i p Hinv Hi Hp) as (_ & _ & Ho & _).
    destruct (decide (j = i)) as [->|Hne]; [done|]. by destruct (Ho j q Hne Hj).
  - intros i c t Hi. destruct (inv_holder s i _ Hinv Hi I) as (_ & Hp & _).
    inversion Hp; subst. by destruct_or!; simplify_eq.
  - intros c Hh. destruct Hinv as [_ _ _ Hh' _ _ _|i p Hl Hi Hp _ _]; [congruence|].
    split; [done|]. host_phase Hp. congruence.
Qed.

(** C16: from every reachable state, every core that has entered [_OFFLOAD] can
    leave it: at most one other offload completes first, and then its own. So no
    interleaving leads to a deadlock of the hand-over. *)
Theorem offload_progress n s i p :
  steps (init n) s -> friends s !! i = Some p -> p <> FIdle ->
  exists s' l, steps s s' /\ friends s' !! i = Some FIdle /\
    completed s' = i :: l ++ completed s /\ (length l <= 1)%nat.
Proof.
  intros Hs Hi Hn. pose proof (reachable_inv n s Hs) as Hinv.
  assert (critical p \/ (p = FTest \/ p = FCas)) as [Hc|Hp] by (destruct p; cbn; tauto).
  - destruct (holder_completes i s p Hinv Hi Hc) as (s' & H1 & H2 & H3 & _).
    exists s', []. split_and!; [done|done|done|cbn; lia].
  - destruct (lock_freed s i p Hinv Hi) as (s1 & l & S1 & L1 & F1 & C1 & N1);
      [by destruct Hp as [->| ->]; intros []|].
    destruct (lock_taken s1 i p L1 F1 Hp) as (s2 & S2 & F2 & C2).
    assert (inv s2) as Hinv2 by (eapply steps_inv; [|exact S2]; by eapply steps_inv).
    destruct (holder_completes i s2 FSave Hinv2 F2 I) as (s3 & S3 & F3 & C3 & _).
    exists s3, l. split_and!; [|done|by rewrite C3, C2, C1|done].
    etrans; [exact S1|]. by etrans.
Qed.

(** *** Witnesses: two cores, the second waits while the first is served. *)

Ltac drive tac := eapply rtc_l; [tac; reflexivity|cbn].

Definition serving : state :=
  mkState 1 0 0 (Some (0%nat, AfterWait)) true [FWait; FTest] (HCode 0) [] [] [].

Lemma serving_reachable : steps (init 2) serving.
Proof.
  drive ltac:(apply (StepBegin 0)). drive ltac:(apply (StepBegin 1)).
  drive ltac:(apply (StepTest 0)). drive ltac:(apply (StepTest 1)).
  drive ltac:(apply (StepCas 0)). drive ltac:(apply (StepCas 1)).
  drive ltac:(apply (StepSave 0)). drive ltac:(apply (StepPost 0)).
  drive ltac:(apply StepPoll). drive ltac:(apply StepClear8). drive ltac:(apply StepHSave).
  drive ltac:(apply StepJump). apply rtc_refl.
Qed.

Definition served : state :=
  mkState 1 0 0 (Some (0%nat, AfterCode)) true [FWait; FTest] HSet9 [0%nat] [] [].

Lemma served_reachable : steps (init 2) served.
Proof.
  etrans; [exact serving_reachable|]. unfold serving.
  drive ltac:(apply StepHCode). drive ltac:(apply StepSaveFriend). drive ltac:(apply StepReturn).
  apply rtc_refl.
Qed.

Lemma offload_exactly_once_witness :
  steps (init 2) served /\ ran_on_host served = [0%nat] /\ completed served = [] /\
  ran_on_friend served = [].
Proof.
  split; [exact served_reachable|]. split; [reflexivity|]. split; [reflexivity|].
  exact (proj1 (offload_exactly_once 2 served served_reachable)).
Defined.

Lemma offload_isolated_witness :
  steps (init 2) serving /\ hakase serving = HCode 0 /\
  lock serving = 1 /\ friends serving !! 0%nat = Some FWait.
Proof.
  split; [exact serving_reachable|]. split; [reflexivity|].
  apply (proj2 (proj2 (offload_isolated 2 serving serving_reachable))). reflexivity.
Defined.

Lemma offload_progress_witness :
  friends serving !! 1%nat = Some FTest /\
  exists s' l, steps serving s' /\ friends s' !! 1%nat = Some FIdle /\
    completed s' = 1%nat :: l /\ (length l <= 1)%nat.
Proof.
  split; [reflexivity|].
  destruct (offload_progress 2 serving 1 FTest serving_reachable eq_refl ltac:(discriminate))
    as (s' & l & H1 & H2 & H3 & H4).
  exists s', l. rewrite app_nil_r in H3. auto.
Defined.

End Protocol.
