(* ===== verification/OffloadRefine.v ===== *)
(** * OffloadRefine: the hand-over at the level of instructions

    [Offload] has the routines of offload.S as instructions and the hand-over as a step
    relation in which a context is saved or loaded at once.  Here the cores and the host
    execute the routines one instruction at a time on one memory, in any interleaving,
    and the C code of offload.h between them; every run of this machine is a run of
    [Protocol], and the contexts that change hands are the right ones: the offloaded code
    runs with the registers and the stack of the core that called, and the core resumes
    with those the code left. *)

From S2P Require Import Prelude Memory Paging Offload.
Import Asm.

Module OffloadRefine.

(** ** Single instructions *)

Abbreviation M_ f z p m := (mkMachine f z p m).

Lemma exec_store f z p m r off b env k :
  f b = env -> block env -> mapped m env 80 -> off = 8 * k -> 0 <= k < 10 -> uint 64 (f r) ->
  exists m', exec_instr (MovRM r off b) (M_ f z p m) = Done (M_ f z (S p) m', None) /\
    read64 m' (env + 8 * k) = Some (f r) /\ slot_update m m' (fun a => a = env + 8 * k).
Proof.
  intros Hb Hbl Hm -> Hk Hv. pose proof (block_slot _ _ Hbl Hk) as Hs. destruct Hbl as (H0 & _ & H1).
  destruct (store64_slot m (env + 8 * k) (f r) Hs) as (m' & E & R & U); [|done|].
  { eapply mapped_sub; [..|exact Hm]; lia. }
  exists m'. split_and!; [|done|done]. unfold exec_instr. rewrite ea_eq by (rewrite Hb; lia).
  cbn [regs memory zf pc]. by rewrite Hb, E.
Qed.

Lemma exec_store_imm f z p m imm off b env k :
  f b = env -> block env -> mapped m env 80 -> off = 8 * k -> 0 <= k < 10 -> uint 64 imm ->
  exists m', exec_instr (MovIM imm off b) (M_ f z p m) = Done (M_ f z (S p) m', None) /\
    read64 m' (env + 8 * k) = Some imm /\ slot_update m m' (fun a => a = env + 8 * k).
Proof.
  intros Hb Hbl Hm -> Hk Hv. pose proof (block_slot _ _ Hbl Hk) as Hs. destruct Hbl as (H0 & _ & H1).
  destruct (store64_slot m (env + 8 * k) imm Hs) as (m' & E & R & U); [|done|].
  { eapply mapped_sub; [..|exact Hm]; lia. }
  exists m'. split_and!; [|done|done]. unfold exec_instr. rewrite ea_eq by (rewrite Hb; lia).
  cbn [regs memory zf pc]. by rewrite Hb, (u64_small imm), E by done.
Qed.

Lemma exec_load f z p m r off b v :
  0 <= f b + off < 2 ^ 64 -> read64 m (f b + off) = Some v ->
  exec_instr (MovMR off b r) (M_ f z p m) = Done (M_ (set_reg r v f) z (S p) m, None).
Proof.
  intros Ha HR. unfold exec_instr. rewrite ea_eq by done. cbn [regs memory zf pc]. by rewrite (load_slot _ _ _ HR).
Qed.

Lemma exec_lea f z p m r off b :
  0 <= f b + off < 2 ^ 64 -> exec_instr (Lea off b r) (M_ f z p m) = Done (M_ (set_reg r (f b + off) f) z (S p) m, None).
Proof. intros Ha. unfold exec_instr. by rewrite ea_eq. Qed.

(** ** A context that is being saved *)

Section Saving.
(** The block, and the registers, the stack slot and the return address of the call. *)
Context (env : Z) (f0 : reg -> Z) (sp ra : Z).

Record called : Prop := {
  ca_rdi : f0 RDI = env;
  ca_rsp : f0 RSP = sp;
  ca_block : block env;
  ca_sp : slot sp /\ sp + 8 < 2 ^ 64;
  ca_ra : uint 64 ra;
  ca_sep : sp + 8 <= env \/ env + 80 <= sp;
  ca_regs : forall r, uint 64 (f0 r)
}.

(** How many words are saved when instruction [q] is next. *)
Definition saved_words (q : nat) : nat :=
  match q with 7 => 6 | 8 | 9 => 7 | 10 | 11 => 8 | _ => q end%nat.

Record saving_at (f : reg -> Z) (q : nat) (m : mem) : Prop := {
  sa_regs : forall r, r <> RAX -> f r = f0 r;
  sa_uint : uint 64 (f RAX);
  sa_words : holds_context m env (take (saved_words q) (context f0 sp ra));
  sa_rsp_word : q = 7%nat -> f RAX = sp + 8;
  sa_ra_word : q = 9%nat -> f RAX = ra
}.

Hypothesis Hcall : called.

Lemma saving_begin m : saving_at f0 0 m.
Proof. split; [done|apply Hcall|intros k w Hk; cbn in Hk; by rewrite lookup_nil in Hk|done|done]. Qed.

Lemma saving_reg f q m r : saving_at f q m -> uint 64 (f r).
Proof.
  intros Hs. destruct (decide (r = RAX)) as [->|Hn]; [apply Hs|]. rewrite (sa_regs _ _ _ Hs) by done. apply Hcall.
Qed.

Lemma saving_word f q m r off z :
  saving_at f q m -> mapped m env 80 -> (saved_words q < 8)%nat -> off = 8 * Z.of_nat (saved_words q) ->
  saved_words (S q) = S (saved_words q) -> S q <> 7%nat -> S q <> 9%nat ->
  context f0 sp ra !! saved_words q = Some (f r) ->
  exists m', exec_instr (MovRM r off RDI) (M_ f z q m) = Done (M_ f z (S q) m', None) /\
    saving_at f (S q) m' /\ slot_update m m' (fun a => exists k, 0 <= k < 8 /\ a = env + 8 * k).
Proof.
  intros Hs Hm Hlt Ho Hn H7 H9 Hw.
  destruct (exec_store f z q m r off RDI env (Z.of_nat (saved_words q))) as (m' & E & R & U);
    [rewrite (sa_regs _ _ _ Hs) by done; apply Hcall|apply Hcall|done|done|lia|by eapply saving_reg|].
  exists m'. split_and!; [done| |].
  - split; [apply Hs|apply Hs| |done|done]. rewrite Hn, (take_S_r _ _ _ Hw).
    assert (length (take (saved_words q) (context f0 sp ra)) = saved_words q) as Hl by (rewrite length_take; cbn; lia).
    eapply holds_context_snoc; [apply Hcall|lia|apply Hs|by rewrite Hl|by rewrite Hl].
  - eapply slot_update_weaken; [|exact U]. intros a ->. exists (Z.of_nat (saved_words q)). lia.
Qed.

(** Each of the ten instructions that save. *)
Lemma saving_step f q m z i :
  saving_at f q m -> mapped m env 80 -> read64 m sp = Some ra -> save_context !! q = Some i ->
  exists f' m', exec_instr i (M_ f z q m) = Done (M_ f' z (S q) m', None) /\
    saving_at f' (S q) m' /\ slot_update m m' (fun a => exists k, 0 <= k < 8 /\ a = env + 8 * k).
Proof.
  intros Hs Hm Hra Hi. destruct (ca_sp Hcall) as [(Hs0 & Hsa & Hs1) Hs8].
  assert (forall r, r <> RAX -> f r = f0 r) as Hr by apply Hs.
  assert (f RSP = sp) as Esp by (rewrite Hr by done; apply Hcall).
  destruct q as [|[|[|[|[|[|[|[|[|[|q]]]]]]]]]]; cbn in Hi; try done; injection Hi as <-.
  1-6: exists f; apply saving_word; [exact Hs|exact Hm|cbn; lia|reflexivity|reflexivity|done|done|cbn; by rewrite Hr].
  - exists (set_reg RAX (sp + 8) f), m. split_and!; [|split|apply slot_update_refl].
    + rewrite exec_lea by (rewrite Esp; lia). by rewrite Esp.
    + intros r Hn. by rewrite set_reg_ne, Hr.
    + rewrite set_reg_eq. unfold uint. lia.
    + apply Hs.
    + intros _. apply set_reg_eq.
    + done.
  - exists f. apply saving_word; [exact Hs|exact Hm|cbn; lia|reflexivity|reflexivity|done|done|].
    cbn. by rewrite (sa_rsp_word _ _ _ Hs).
  - exists (set_reg RAX ra f), m. split_and!; [|split|apply slot_update_refl].
    + by rewrite (exec_load _ _ _ _ _ _ _ ra) by (rewrite ?Esp, ?Z.add_0_r; done || lia).
    + intros r Hn. by rewrite set_reg_ne, Hr.
    + rewrite set_reg_eq. apply Hcall.
    + apply Hs.
    + done.
    + intros _. apply set_reg_eq.
  - exists f. apply saving_word; [exact Hs|exact Hm|cbn; lia|reflexivity|reflexivity|done|done|].
    cbn. by rewrite (sa_ra_word _ _ _ Hs).
Qed.
End Saving.

(** ** A context that is being loaded *)

Section Loading.
(** The block, which holds the context of a call with registers [g]; the value of RAX. *)
Context (env : Z) (g : reg -> Z) (sp ra rax : Z).

(** The number of instructions after which a register has its value. *)
Definition load_order : list (reg * nat) :=
  [(RBP, 1); (RBX, 4); (R12, 5); (R13, 6); (R14, 7); (R15, 8)]%nat.

Record loading_at (f : reg -> Z) (j : nat) (m : mem) : Prop := {
  la_rdi : f RDI = env;
  la_rax : f RAX = rax;
  la_words : holds_context m env (context g sp ra);
  la_regs : forall r k, (r, k) ∈ load_order -> (k <= j)%nat -> f r = g r;
  la_rsp : j = 2%nat -> f RSP = sp + 8;
  la_pushed : (3 <= j)%nat -> f RSP = sp /\ read64 m sp = Some ra
}.

Hypothesis Hblock : block env.
Hypothesis Hsp : slot sp /\ sp + 8 < 2 ^ 64.
Hypothesis Hra : uint 64 ra.
Hypothesis Hsep : sp + 8 <= env \/ env + 80 <= sp.

Lemma loading_begin f m :
  f RDI = env -> f RAX = rax -> holds_context m env (context g sp ra) -> loading_at f 0 m.
Proof.
  intros H1 H2 H3. split; [done|done|done| |done|lia]. intros r k Hin Hk. unfold load_order in Hin.
  rewrite !elem_of_cons, elem_of_nil in Hin. destruct Hin as [E|[E|[E|[E|[E|[E|[]]]]]]]; injection E as -> ->; lia.
Qed.

(** A register is loaded from its word. *)
Lemma loading_word f j m z q r k w off :
  loading_at f j m -> context g sp ra !! k = Some w -> off = 8 * Z.of_nat k ->
  r <> RDI -> r <> RAX -> (r = RSP -> S j = 2%nat /\ w = sp + 8) -> (r <> RSP -> w = g r /\ S j <> 2%nat) ->
  (forall r' k', (r', k') ∈ load_order -> k' = S j -> r' = r) -> S j <> 3%nat ->
  exec_instr (MovMR off RDI r) (M_ f z q m) = Done (M_ (set_reg r w f) z (S q) m, None) /\
  loading_at (set_reg r w f) (S j) m.
Proof.
  intros [L1 L2 L3 L4 L5 L6] Hw Ho N1 N2 Hr1 Hr2 Hord N3. split.
  - destruct Hblock as (B0 & _ & B1). pose proof (lookup_lt_Some _ _ _ Hw) as Hlt. cbn in Hlt.
    apply exec_load; rewrite L1; [lia|]. rewrite Ho. by apply L3.
  - split.
    + by rewrite set_reg_ne.
    + by rewrite set_reg_ne.
    + done.
    + intros r' k' Hin Hk. destruct (decide (r' = r)) as [->|Hne].
      * rewrite set_reg_eq. apply Hr2. intros ->. unfold load_order in Hin.
        rewrite !elem_of_cons, elem_of_nil in Hin. destruct Hin as [E|[E|[E|[E|[E|[E|[]]]]]]]; by injection E.
      * rewrite set_reg_ne by done. destruct (decide (k' = S j)) as [->|]; [by destruct Hne; eapply Hord|].
        eapply L4; [exact Hin|lia].
    + intros E. destruct (decide (r = RSP)) as [->|Hne]; [rewrite set_reg_eq; by apply Hr1|].
      by destruct (Hr2 Hne).
    + intros E. destruct (decide (r = RSP)) as [->|Hne]; [destruct Hr1; [done|lia]|].
      rewrite set_reg_ne by done. apply L6. lia.
Qed.

(** The push of the return address. *)
Lemma loading_push f m z q :
  loading_at f 2 m -> mapped m sp 8 ->
  exists f' m', exec_instr (PushM 56 RDI) (M_ f z q m) = Done (M_ f' z (S q) m', None) /\
    loading_at f' 3 m' /\ slot_update m m' (fun a => a = sp).
Proof.
  intros [L1 L2 L3 L4 L5 _] Hm. destruct Hblock as (B0 & B8 & B1), Hsp as [(S0 & Sa & S1) S8].
  assert (slot sp) as Hs by done. destruct (store64_slot m sp ra Hs Hm Hra) as (m' & E & R & U).
  exists (set_reg RSP sp f), m'. split_and!; [| |done].
  - unfold exec_instr. rewrite ea_eq by (rewrite L1; lia). cbn [regs memory zf pc].
    rewrite L1, (load_slot m _ ra) by (by apply (L3 7%nat)).
    rewrite L5, (u64_small (sp + 8 - 8)) by (done || lia). replace (sp + 8 - 8) with sp by lia. by rewrite E.
  - split.
    + by rewrite set_reg_ne.
    + by rewrite set_reg_ne.
    + intros k w Hk. pose proof (lookup_lt_Some _ _ _ Hk) as Hlt. cbn in Hlt.
      rewrite (su_read _ _ _ U); [by apply L3|apply block_slot; [done|lia]|lia].
    + intros r k Hin Hk. assert (k <> 3%nat) as Hk3.
      { unfold load_order in Hin. rewrite !elem_of_cons, elem_of_nil in Hin.
        destruct Hin as [E'|[E'|[E'|[E'|[E'|[E'|[]]]]]]]; injection E' as -> ->; lia. }
      rewrite set_reg_ne; [eapply L4; [exact Hin|lia]|]. intros ->. unfold load_order in Hin.
      rewrite !elem_of_cons, elem_of_nil in Hin. destruct Hin as [E'|[E'|[E'|[E'|[E'|[E'|[]]]]]]]; by injection E'.
    + done.
    + intros _. by rewrite set_reg_eq.
Qed.

Ltac order := unfold load_order; intros r' k'; rewrite !elem_of_cons, elem_of_nil;
  intros [E|[E|[E|[E|[E|[E|[]]]]]]]; injection E as -> ->; first [done|lia].

(** Each of the eight instructions that load. *)
Lemma loading_step f j m z q i :
  loading_at f j m -> mapped m sp 8 -> load_context !! j = Some i ->
  exists f' m', exec_instr i (M_ f z q m) = Done (M_ f' z (S q) m', None) /\
    loading_at f' (S j) m' /\ slot_update m m' (fun a => a = sp).
Proof.
  intros Hl Hm Hi.
  destruct j as [|[|[|[|[|[|[|[|j]]]]]]]]; cbn in Hi; try done; injection Hi as <-; [| |by apply loading_push| | | | |];
    eexists _, m.
  - destruct (loading_word f 0 m z q RBP 1 _ 8 Hl eq_refl) as [E Hl'];
      [done..|order|done|split_and!; [exact E|exact Hl'|apply slot_update_refl]].
  - destruct (loading_word f 1 m z q RSP 6 _ 48 Hl eq_refl) as [E Hl'];
      [done..|order|done|split_and!; [exact E|exact Hl'|apply slot_update_refl]].
  - destruct (loading_word f 3 m z q RBX 0 _ 0 Hl eq_refl) as [E Hl'];
      [done..|order|done|split_and!; [exact E|exact Hl'|apply slot_update_refl]].
  - destruct (loading_word f 4 m z q R12 2 _ 16 Hl eq_refl) as [E Hl'];
      [done..|order|done|split_and!; [exact E|exact Hl'|apply slot_update_refl]].
  - destruct (loading_word f 5 m z q R13 3 _ 24 Hl eq_refl) as [E Hl'];
      [done..|order|done|split_and!; [exact E|exact Hl'|apply slot_update_refl]].
  - destruct (loading_word f 6 m z q R14 4 _ 32 Hl eq_refl) as [E Hl'];
      [done..|order|done|split_and!; [exact E|exact Hl'|apply slot_update_refl]].
  - destruct (loading_word f 7 m z q R15 5 _ 40 Hl eq_refl) as [E Hl'];
      [done..|order|done|split_and!; [exact E|exact Hl'|apply slot_update_refl]].
Qed.

(** The registers after the eight instructions. *)
Definition loaded_all (f : reg -> Z) : Prop :=
  f RSP = sp /\ forall r, r ∈ callee_saved -> f r = g r.

Lemma loading_end f m : loading_at f 8 m -> loaded_all f /\ read64 m sp = Some ra.
Proof.
  intros Hl. destruct (la_pushed _ _ _ Hl ltac:(lia)) as [E1 E2]. split; [|done]. split; [done|].
  intros r Hr. unfold callee_saved in Hr. rewrite !elem_of_cons, elem_of_nil in Hr.
  assert (exists k, (r, k) ∈ load_order /\ (k <= 8)%nat) as (k & Hin & Hk).
  { unfold load_order. setoid_rewrite elem_of_cons. setoid_rewrite elem_of_cons. setoid_rewrite elem_of_cons.
    setoid_rewrite elem_of_cons. setoid_rewrite elem_of_cons. setoid_rewrite elem_of_cons.
    destruct Hr as [->|[->|[->|[->|[->|[->|[]]]]]]]; eexists; split; [tauto|lia|tauto|lia|tauto|lia|tauto|lia|tauto|lia|tauto|lia]. }
  by eapply (la_regs _ _ _ Hl).
Qed.
End Loading.

(** ** The machine *)

Inductive routine := RWait | RSet | RLong.

Definition code_of (rt : routine) : list instr :=
  match rt with RWait => toshokan_setjmp_with_wait | RSet => toshokan_setjmp | RLong => toshokan_longjmp end.

(** A processor: in [_OFFLOAD] or [TryReceive], in a routine, or back from one at the
    address [a] with the registers [f]. *)
Inductive thread :=
| TIdle
| TTest                                            (* (c)._lock != 0 *)
| TCas                                             (* __sync_bool_compare_and_swap *)
| TCallWait                                        (* calls setjmp_with_wait(_friend_ctx) *)
| TIn (rt : routine) (f : reg -> Z) (z : bool) (q : nat)
| TRet (f : reg -> Z) (a : Z)
| TCode (f : reg -> Z)                             (* runs code, then calls setjmp(_friend_ctx) *)
| TUnlock                                          (* (c)._lock = 0 *)
| TPoll                                            (* _friend_ctx[8] == 0 *)
| TClear8                                          (* _friend_ctx[8] = 0 *)
| TCallSet                                         (* calls setjmp(_hakase_ctx) *)
| TSet9.                                           (* _friend_ctx[9] = 1 *)

Inductive who := Friend (i : nat) | Host.

(** The last three record the registers at the calls that save a context. *)
Record cstate := mkC {
  cmem : mem;
  clock : Z;
  cfriends : list thread;
  chost : thread;
  cran_host : list nat;
  cran_friend : list nat;
  cdone : list nat;
  call_regs : nat -> reg -> Z;
  code_regs : nat -> reg -> Z;
  host_regs : reg -> Z
}.

Definition thread_of (w : who) (s : cstate) : option thread :=
  match w with Friend i => cfriends s !! i | Host => Some (chost s) end.

(** The processor [w] goes on with [t], and the memory is [m]. *)
Definition goes (w : who) (t : thread) (m : mem) (s : cstate) : cstate :=
  mkC m (clock s) (match w with Friend i => <[i := t]> (cfriends s) | Host => cfriends s end)
    (match w with Friend _ => chost s | Host => t end) (cran_host s) (cran_friend s) (cdone s)
    (call_regs s) (code_regs s) (host_regs s).

Definition set_at {A} (i : nat) (x : A) (f : nat -> A) : nat -> A := fun j => if decide (j = i) then x else f j.

(** The result of a routine as the [int] the C code tests. *)
Definition result (f : reg -> Z) : Z := wrap 32 (f RAX).

Section Machine.
(** The contexts of the offloader; per friend core the stack slot a call of a routine
    puts its return address in; the slot of the host; the return addresses (that of
    [toshokan_longjmp] is not used). *)
Context (n : nat) (fc hc : Z) (sp : nat -> Z) (hsp : Z) (ra_wait ra_set ra_hset ra_long : Z).

(** A call: the registers at the first instruction of a routine, with the block as the
    argument and the return address in the slot. *)
Definition calls (f : reg -> Z) (env sl ra : Z) (m m' : mem) : Prop :=
  f RDI = env /\ f RSP = sl /\ (forall r, uint 64 (f r)) /\ store 8 sl ra m = Done (tt, m').

(** What the code of core [c] does not write: the contexts, and the slots of the others. *)
Definition protected (c : nat) (a : Z) : Prop :=
  (exists k, 0 <= k < 10 /\ (a = fc + 8 * k \/ a = hc + 8 * k)) \/ a = hsp \/
  exists j, (j < n)%nat /\ j <> c /\ a = sp j.

Inductive cstep : cstate -> cstate -> Prop :=
| CBegin i s : thread_of (Friend i) s = Some TIdle -> cstep s (goes (Friend i) TTest (cmem s) s)
| CTest i s : thread_of (Friend i) s = Some TTest ->
    cstep s (goes (Friend i) (if clock s =? 0 then TCas else TTest) (cmem s) s)
| CCas i s : thread_of (Friend i) s = Some TCas ->
    cstep s (mkC (cmem s) (if clock s =? 0 then 1 else clock s)
      (<[i := if clock s =? 0 then TCallWait else TTest]> (cfriends s)) (chost s) (cran_host s) (cran_friend s)
      (cdone s) (call_regs s) (code_regs s) (host_regs s))
| CCallWait i f z m' s : thread_of (Friend i) s = Some TCallWait -> calls f fc (sp i) ra_wait (cmem s) m' ->
    cstep s (mkC m' (clock s) (<[i := TIn RWait f z 0]> (cfriends s)) (chost s) (cran_host s) (cran_friend s)
      (cdone s) (set_at i f (call_regs s)) (code_regs s) (host_regs s))
| CInstr w rt f z q i f' z' q' m' s : thread_of w s = Some (TIn rt f z q) -> code_of rt !! q = Some i ->
    exec_instr i (M_ f z q (cmem s)) = Done (M_ f' z' q' m', None) ->
    cstep s (goes w (TIn rt f' z' q') m' s)
| CReturn w rt f z q i f' z' q' m' a s : thread_of w s = Some (TIn rt f z q) -> code_of rt !! q = Some i ->
    exec_instr i (M_ f z q (cmem s)) = Done (M_ f' z' q' m', Some a) ->
    cstep s (goes w (TRet f' a) m' s)
| CAfterWait w f s : thread_of w s = Some (TRet f ra_wait) ->
    cstep s (goes w (if result f =? 0 then TUnlock else TCode f) (cmem s) s)
| CAfterSet w f s : thread_of w s = Some (TRet f ra_set) -> result f <> 0 ->
    cstep s (goes w TUnlock (cmem s) s)
| CJumpBack w f f' z m' s : thread_of w s = Some (TRet f ra_set) -> result f = 0 ->
    calls f' hc (f RSP - 8) ra_long (cmem s) m' -> f' RSI = 1 ->
    cstep s (goes w (TIn RLong f' z 0) m' s)
| CAfterHost w f s : thread_of w s = Some (TRet f ra_hset) -> result f <> 0 ->
    cstep s (goes w TSet9 (cmem s) s)
| CJump w f f' z m' s : thread_of w s = Some (TRet f ra_hset) -> result f = 0 ->
    calls f' fc (f RSP - 8) ra_long (cmem s) m' -> f' RSI = 1 ->
    cstep s (goes w (TIn RLong f' z 0) m' s)
| CCode w f c f' z m1 m' s : thread_of w s = Some (TCode f) -> (c < n)%nat -> f RSP = sp c + 8 ->
    slot_update (cmem s) m1 (fun a => ~ protected c a) -> calls f' fc (sp c) ra_set m1 m' ->
    cstep s (mkC m' (clock s)
      (match w with Friend i => <[i := TIn RSet f' z 0]> (cfriends s) | Host => cfriends s end)
      (match w with Friend _ => chost s | Host => TIn RSet f' z 0 end)
      (match w with Friend _ => cran_host s | Host => c :: cran_host s end)
      (match w with Friend _ => c :: cran_friend s | Host => cran_friend s end)
      (cdone s) (call_regs s) (set_at c f' (code_regs s)) (host_regs s))
| CUnlock i s : thread_of (Friend i) s = Some TUnlock ->
    cstep s (mkC (cmem s) 0 (<[i := TIdle]> (cfriends s)) (chost s) (cran_host s) (cran_friend s)
      (i :: cdone s) (call_regs s) (code_regs s) (host_regs s))
| CPoll v s : thread_of Host s = Some TPoll -> read64 (cmem s) (fc + 64) = Some v ->
    cstep s (goes Host (if v =? 0 then TPoll else TClear8) (cmem s) s)
| CClear8 m' s : thread_of Host s = Some TClear8 -> store 8 (fc + 64) 0 (cmem s) = Done (tt, m') ->
    cstep s (goes Host TCallSet m' s)
| CCallSet f z m' s : thread_of Host s = Some TCallSet -> calls f hc hsp ra_hset (cmem s) m' ->
    cstep s (mkC m' (clock s) (cfriends s) (TIn RSet f z 0) (cran_host s) (cran_friend s) (cdone s)
      (call_regs s) (code_regs s) f)
| CSet9 m' s : thread_of Host s = Some TSet9 -> store 8 (fc + 72) 1 (cmem s) = Done (tt, m') ->
    cstep s (goes Host TPoll m' s).

(** Where the contexts and the slots are. *)
Definition free_slot (a : Z) : Prop :=
  slot a /\ a + 8 < 2 ^ 64 /\ (a + 8 <= fc \/ fc + 80 <= a) /\ (a + 8 <= hc \/ hc + 80 <= a).

Record layout : Prop := {
  ly_fc : block fc;
  ly_hc : block hc;
  ly_apart : fc + 80 <= hc \/ hc + 80 <= fc;
  ly_sp : forall i, (i < n)%nat -> free_slot (sp i) /\ sp i <> hsp;
  ly_hsp : free_slot hsp;
  ly_others : forall i j, (i < n)%nat -> (j < n)%nat -> i <> j -> sp i <> sp j;
  ly_ra : uint 64 ra_wait /\ uint 64 ra_set /\ uint 64 ra_hset /\ uint 64 ra_long;
  ly_sites : ra_wait <> ra_set /\ ra_wait <> ra_hset /\ ra_set <> ra_hset
}.

(** The memory the machine uses is mapped. *)
Record mem_ok (m : mem) : Prop := {
  mo_fc : mapped m fc 80;
  mo_hc : mapped m hc 80;
  mo_sp : forall i, (i < n)%nat -> mapped m (sp i) 8;
  mo_hsp : mapped m hsp 8
}.

Lemma mem_ok_update m m' P : slot_update m m' P -> mem_ok m -> mem_ok m'.
Proof.
  intros U [H1 H2 H3 H4]. pose proof (fun a k => mapped_agree m m' a k (su_dom _ _ _ U)) as Hm.
  split; [by apply Hm|by apply Hm|intros i Hi; by apply Hm, H3|by apply Hm].
Qed.

(** ** Where a processor is in a routine *)

(** In [toshokan_setjmp], saving the registers [g] of a call. *)
Definition setting (env : Z) (g : reg -> Z) (sl ra : Z) (t : thread) (m : mem) : Prop :=
  exists f z q, t = TIn RSet f z q /\ (q < 10)%nat /\ saving_at env g sl ra f q m /\ read64 m sl = Some ra.

(** Behind the stores of [toshokan_setjmp], or back from it with 0. *)
Definition was_set (sl ra : Z) (t : thread) (m : mem) : Prop :=
  (exists f z q, t = TIn RSet f z q /\ f RSP = sl /\ read64 m sl = Some ra /\ (q = 10%nat \/ q = 11%nat /\ f RAX = 0)) \/
  (exists f, t = TRet f ra /\ f RAX = 0 /\ f RSP = sl + 8).

(** In [toshokan_longjmp] to the context of the call with the registers [g]. *)
Definition jumping (env : Z) (g : reg -> Z) (sl ra : Z) (t : thread) (m : mem) : Prop :=
  (exists f z, t = TIn RLong f z 0 /\ f RDI = env /\ f RSI = 1) \/
  (exists f z j, t = TIn RLong f z (S j) /\ (j <= 8)%nat /\ loading_at env g sl ra 1 f j m).

(** Back from a routine with 1, in the context of the call. *)
Definition resumes (g : reg -> Z) (sl : Z) (f : reg -> Z) : Prop :=
  f RAX = 1 /\ f RSP = sl + 8 /\ forall r, r ∈ callee_saved -> f r = g r.

(** A return from the slot [sl]. *)
Lemma exec_ret f z q m sl ra f' z' q' m' a :
  f RSP = sl -> slot sl -> sl + 8 < 2 ^ 64 -> read64 m sl = Some ra ->
  exec_instr Ret (M_ f z q m) = Done (M_ f' z' q' m', Some a) ->
  a = ra /\ m' = m /\ f' = set_reg RSP (sl + 8) f.
Proof.
  intros E (H0 & _) H8 Hr. unfold exec_instr. cbn [regs memory zf pc]. rewrite E, (load_slot _ _ _ Hr), u64_small by lia.
  intros [= <- _ _ <- <-]. done.
Qed.

Lemma ret_only i s s' a : exec_instr i s = Done (s', Some a) -> i = Ret.
Proof.
  destruct i; cbn; intros E; try done.
  all: repeat (match type of E with context [match ?x with _ => _ end] => destruct x as [[]|] end; try done).
Qed.

Lemma ret_never s s' : exec_instr Ret s <> Done (s', None).
Proof. cbn. destruct (load _ _ _) as [[]|]; done. Qed.

Section Routine.
Context (env : Z) (g : reg -> Z) (sl ra : Z).
Hypothesis Hcall : called env g sl ra.

Lemma setting_begin m z : read64 m sl = Some ra -> setting env g sl ra (TIn RSet g z 0) m.
Proof. intros Hr. exists g, z, 0%nat. split_and!; [done|lia|by apply saving_begin|done]. Qed.

Lemma block_words_slot m m' :
  slot_update m m' (fun a => exists k, 0 <= k < 8 /\ a = env + 8 * k) -> read64 m sl = Some ra -> read64 m' sl = Some ra.
Proof.
  intros U Hr. rewrite (su_read _ _ _ U); [done|apply Hcall|]. intros (k & Hk & ->). pose proof (ca_sep _ _ _ _ Hcall). lia.
Qed.

(** An instruction of the saving part; the last one completes the context. *)
Lemma setting_instr t m f z q i f' z' q' m' :
  setting env g sl ra t m -> t = TIn RSet f z q -> mapped m env 80 ->
  toshokan_setjmp !! q = Some i -> exec_instr i (M_ f z q m) = Done (M_ f' z' q' m', None) ->
  slot_update m m' (fun a => exists k, 0 <= k < 8 /\ a = env + 8 * k) /\
  (setting env g sl ra (TIn RSet f' z' q') m' \/
   (was_set sl ra (TIn RSet f' z' q') m' /\ holds_context m' env (context g sl ra))).
Proof.
  intros (f0 & z0 & q0 & -> & Hq & Hs & Hr) [= <- <- <-] Hm Hi E.
  assert (save_context !! q0 = Some i) as Hi' by (unfold toshokan_setjmp in Hi; by rewrite lookup_app_l in Hi).
  destruct (saving_step env g sl ra Hcall f0 q0 m z0 i Hs Hm Hr Hi') as (f1 & m1 & E1 & Hs1 & U1).
  rewrite E1 in E. injection E as <- <- <- <-. split; [done|]. pose proof (block_words_slot _ _ U1 Hr) as Hr1.
  destruct (decide (q0 = 9%nat)) as [->|Hne].
  - right. split; [|apply (sa_words _ _ _ _ _ _ _ Hs1)]. left. exists f1, z0, 10%nat. split_and!; [done| |done|by left].
    rewrite (sa_regs _ _ _ _ _ _ _ Hs1) by done. apply Hcall.
  - left. exists f1, z0, (S q0). split_and!; [done|lia|done|done].
Qed.

Lemma was_set_instr t m f z q i f' z' q' m' :
  was_set sl ra t m -> t = TIn RSet f z q ->
  toshokan_setjmp !! q = Some i -> exec_instr i (M_ f z q m) = Done (M_ f' z' q' m', None) ->
  m' = m /\ was_set sl ra (TIn RSet f' z' q') m.
Proof.
  intros [(f0 & z0 & q0 & -> & Esp & Hr & Hq)|(f0 & -> & _)] Ht Hi E; [|done]. injection Ht as <- <- <-.
  destruct Hq as [->|[-> _]]; cbn in Hi; injection Hi as <-; [|by apply ret_never in E].
  cbn in E. injection E as <- <- <- <-. split; [done|]. left. eexists _, _, 11%nat.
  split_and!; [done| |done|]; [by rewrite set_reg_ne|right; split; [done|apply set_reg_eq]].
Qed.

Lemma was_set_return t m f z q i f' z' q' m' a :
  was_set sl ra t m -> t = TIn RSet f z q ->
  toshokan_setjmp !! q = Some i -> exec_instr i (M_ f z q m) = Done (M_ f' z' q' m', Some a) ->
  a = ra /\ m' = m /\ was_set sl ra (TRet f' ra) m.
Proof.
  intros [(f0 & z0 & q0 & -> & Esp & Hr & Hq)|(f0 & -> & _)] Ht Hi E; [|done]. injection Ht as <- <- <-.
  pose proof (ret_only _ _ _ _ E) as ->. destruct Hq as [->|[-> Hax]]; cbn in Hi; [done|].
  destruct (ca_sp _ _ _ _ Hcall) as [Hs Hs8].
  destruct (exec_ret _ _ _ _ sl ra _ _ _ _ _ Esp Hs Hs8 Hr E) as (-> & -> & ->). split_and!; [done|done|].
  right. eexists. split_and!; [done|by rewrite set_reg_ne|apply set_reg_eq].
Qed.

Lemma setting_no_return t m f z q i s' a :
  setting env g sl ra t m -> t = TIn RSet f z q -> toshokan_setjmp !! q = Some i ->
  exec_instr i (M_ f z q m) <> Done (s', Some a).
Proof.
  intros (f0 & z0 & q0 & -> & Hq & _) [= <- <- <-] Hi E. pose proof (ret_only _ _ _ _ E) as ->.
  unfold toshokan_setjmp in Hi. rewrite lookup_app_l in Hi by (cbn; lia). do 10 (destruct q0 as [|q0]; [done|]). lia.
Qed.

(** An instruction of [toshokan_longjmp]. *)
Lemma jumping_instr t m f z q i f' z' q' m' :
  jumping env g sl ra t m -> t = TIn RLong f z q -> holds_context m env (context g sl ra) -> mapped m sl 8 ->
  toshokan_longjmp !! q = Some i -> exec_instr i (M_ f z q m) = Done (M_ f' z' q' m', None) ->
  slot_update m m' (fun a => a = sl) /\ jumping env g sl ra (TIn RLong f' z' q') m'.
Proof.
  intros Hj Ht Hw Hm Hi E. destruct Hcall as [_ _ Hb Hsp Hra Hsep _].
  destruct Hj as [(f0 & z0 & -> & H1 & H2)|(f0 & z0 & j & -> & Hle & Hl)]; injection Ht as <- <- <-.
  - cbn in Hi. injection Hi as <-. cbn in E. injection E as <- <- <- <-. split; [apply slot_update_refl|].
    right. eexists _, _, 0%nat. split_and!; [done|lia|]. apply loading_begin; [by rewrite set_reg_ne|by rewrite set_reg_eq|done].
  - change (toshokan_longjmp !! S j) with ((load_context ++ [Ret]) !! j) in Hi. destruct (decide (j = 8%nat)) as [->|Hne].
    { cbn in Hi. injection Hi as <-. by apply ret_never in E. }
    assert (load_context !! j = Some i) as Hi' by (by rewrite lookup_app_l in Hi by (cbn; lia)).
    destruct (loading_step env g sl ra 1 Hb Hsp Hra Hsep f0 j m z0 (S j) i Hl Hm Hi') as (f1 & m1 & E1 & Hl1 & U1).
    rewrite E1 in E. injection E as <- <- <- <-. split; [done|]. right. exists f1, z0, (S j). split_and!; [done|lia|done].
Qed.

Lemma jumping_return t m f z q i f' z' q' m' a :
  jumping env g sl ra t m -> t = TIn RLong f z q ->
  toshokan_longjmp !! q = Some i -> exec_instr i (M_ f z q m) = Done (M_ f' z' q' m', Some a) ->
  a = ra /\ m' = m /\ resumes g sl f'.
Proof.
  intros Hj Ht Hi E. pose proof (ret_only _ _ _ _ E) as ->. destruct (ca_sp _ _ _ _ Hcall) as [Hs Hs8].
  destruct Hj as [(f0 & z0 & -> & H1 & H2)|(f0 & z0 & j & -> & Hle & Hl)]; injection Ht as <- <- <-; [done|].
  change (toshokan_longjmp !! S j) with ((load_context ++ [Ret]) !! j) in Hi.
  assert (j = 8%nat) as ->.
  { destruct (decide (j = 8%nat)) as [|Hne]; [done|]. rewrite lookup_app_l in Hi by (cbn; lia).
    do 8 (destruct j as [|j]; [done|]). lia. }
  destruct (loading_end env g sl ra 1 (conj Hs Hs8) (ca_sep _ _ _ _ Hcall) f0 m Hl) as [[Esp Hcs] Hr].
  destruct (exec_ret _ _ _ _ sl ra _ _ _ _ _ Esp Hs Hs8 Hr E) as (-> & -> & ->). split_and!; [done|done|].
  split_and!; [rewrite set_reg_ne by done; apply Hl|apply set_reg_eq|].
  intros r Hr'. rewrite set_reg_ne; [by apply Hcs|]. intros ->. unfold callee_saved in Hr'.
  rewrite !elem_of_cons, elem_of_nil in Hr'. naive_solver.
Qed.
End Routine.

(** ** The relation with [Protocol] *)

Import Protocol.

(** Friend core [i]; [cr] and [kr] are the registers at its call and after its code. *)
Definition frel (i : nat) (p : fpc) (cr kr : reg -> Z) (t : thread) (m : mem) : Prop :=
  match p with
  | FIdle => t = TIdle
  | FTest => t = TTest
  | FCas => t = TCas
  | FSave => t = TCallWait \/
      exists f z q, t = TIn RWait f z q /\ (q < 10)%nat /\ called fc cr (sp i) ra_wait /\
        saving_at fc cr (sp i) ra_wait f q m /\ read64 m (sp i) = Some ra_wait
  | FPost => exists f z, t = TIn RWait f z 10 /\ f RDI = fc
  | FWait => exists f z q, t = TIn RWait f z q /\ f RDI = fc /\ (q = 11 \/ q = 12 \/ q = 13 /\ z = true)%nat
  | FLoad => exists f z q, t = TIn RWait f z q /\
      ((q = 13%nat /\ z = false /\ f RDI = fc) \/
       exists j rax, q = (14 + j)%nat /\ (j < 8)%nat /\ loading_at fc kr (sp i) ra_set rax f j m)
  | FClear _ _ => exists f z, t = TIn RWait f z 22 /\ f RDI = fc /\ loaded_all kr (sp i) f /\ read64 m (sp i) = Some ra_set
  | FUnlock =>
      (exists f z q, t = TIn RWait f z q /\ loaded_all kr (sp i) f /\ read64 m (sp i) = Some ra_set /\
         (q = 23%nat \/ q = 24%nat /\ f RAX = 1)) \/
      (exists f, t = TRet f ra_set /\ resumes kr (sp i) f) \/ t = TUnlock
  | FCode | FSaveAgain | FStray => False
  end.

Definition hrel (s : state) (C : cstate) : Prop :=
  let t := chost C in
  let m := cmem C in
  match hakase s with
  | HPoll => t = TPoll
  | HClear8 => t = TClear8
  | HSave => t = TCallSet \/ (called hc (host_regs C) hsp ra_hset /\ setting hc (host_regs C) hsp ra_hset t m)
  | HJump => was_set hsp ra_hset t m \/
      exists c, friend_ctx s = Some (c, AfterWait) /\ jumping fc (call_regs C c) (sp c) ra_wait t m
  | HCode c => (c < n)%nat /\ exists f, (t = TRet f ra_wait \/ t = TCode f) /\ resumes (call_regs C c) (sp c) f
  | HSaveFriend c => (c < n)%nat /\ called fc (code_regs C c) (sp c) ra_set /\ setting fc (code_regs C c) (sp c) ra_set t m
  | HReturn => (exists c, friend_ctx s = Some (c, AfterCode) /\ was_set (sp c) ra_set t m) \/
      jumping hc (host_regs C) hsp ra_hset t m
  | HSet9 => (exists f, t = TRet f ra_hset /\ resumes (host_regs C) hsp f) \/ t = TSet9
  | HStray => False
  end.

(** The registers and the return address of a saved context of core [c]. *)
Definition site_regs (C : cstate) (c : nat) (t : site) : reg -> Z :=
  match t with AfterWait => call_regs C c | AfterCode => code_regs C c end.
Definition site_ra (t : site) : Z := match t with AfterWait => ra_wait | AfterCode => ra_set end.

(** Nobody is overwriting the friend's context. *)
Definition settled (s : state) : Prop :=
  (forall i, friends s !! i <> Some FSave) /\ forall c, hakase s <> HSaveFriend c.

Definition fctx_ok (C : cstate) (s : state) : Prop :=
  forall c t, friend_ctx s = Some (c, t) -> (c < n)%nat /\
    (settled s -> called fc (site_regs C c t) (sp c) (site_ra t) /\
       holds_context (cmem C) fc (context (site_regs C c t) (sp c) (site_ra t))).

Definition hctx_ok (C : cstate) (s : state) : Prop :=
  hakase_ctx s = true -> hakase s <> HSave ->
  called hc (host_regs C) hsp ra_hset /\ holds_context (cmem C) hc (context (host_regs C) hsp ra_hset).

Record crel (C : cstate) (s : state) : Prop := {
  cr_inv : inv s;
  cr_lock : clock C = lock s;
  cr_logs : cran_host C = ran_on_host s /\ cran_friend C = ran_on_friend s /\ cdone C = completed s;
  cr_len : length (cfriends C) = n /\ length (friends s) = n;
  cr_mem : mem_ok (cmem C);
  cr_words : read64 (cmem C) (fc + 64) = Some (word8 s) /\ read64 (cmem C) (fc + 72) = Some (word9 s);
  cr_fctx : fctx_ok C s;
  cr_hctx : hctx_ok C s;
  cr_friends : forall i p t, friends s !! i = Some p -> cfriends C !! i = Some t ->
    frel i p (call_regs C i) (code_regs C i) t (cmem C);
  cr_host : hrel s C
}.

(** Where memory and registers of a friend core play no role. *)
Definition calm (p : fpc) : Prop := ~ critical p \/ p = FWait.

Lemma frel_calm i p cr kr cr' kr' t m m' : calm p -> frel i p cr kr t m -> frel i p cr' kr' t m'.
Proof. intros [Hc| ->]; [|done]. destruct p; try done; by destruct Hc. Qed.

Lemma crel_friend C s i t :
  crel C s -> cfriends C !! i = Some t -> exists p, friends s !! i = Some p /\ (i < n)%nat /\
    frel i p (call_regs C i) (code_regs C i) t (cmem C).
Proof.
  intros Hr Ht. destruct (cr_len _ _ Hr) as [L1 L2]. pose proof (lookup_lt_Some _ _ _ Ht).
  destruct (lookup_lt_is_Some_2 (friends s) i) as [p Hp]; [lia|]. exists p. split_and!; [done|lia|].
  by apply (cr_friends _ _ Hr).
Qed.

(** A step of the friend core [i], which holds the lock or not. *)
Lemma friend_moves C s s' i p p' t' m' P :
  crel C s -> friends s !! i = Some p -> critical p \/ m' = cmem C -> inv s' ->
  lock s' = lock s -> friends s' = set_friend i p' s -> hakase s' = hakase s -> hakase_ctx s' = hakase_ctx s ->
  ran_on_host s' = ran_on_host s -> ran_on_friend s' = ran_on_friend s -> completed s' = completed s ->
  slot_update (cmem C) m' P -> (forall k, 0 <= k < 10 -> ~ P (hc + 8 * k)) ->
  read64 m' (fc + 64) = Some (word8 s') -> read64 m' (fc + 72) = Some (word9 s') ->
  hakase s = HPoll \/ (m' = cmem C /\ friend_ctx s' = friend_ctx s) ->
  fctx_ok (goes (Friend i) t' m' C) s' ->
  frel i p' (call_regs C i) (code_regs C i) t' m' ->
  layout ->
  crel (goes (Friend i) t' m' C) s'.
Proof.
  intros Hr Hi Hm Hinv El Ef Eh Ehc E1 E2 E3 U HP W8 W9 Hhost Hfc Hfr Hly.
  destruct (cr_len _ _ Hr) as [L1 L2]. pose proof (lookup_lt_Some _ _ _ Hi) as Hlt.
  split; cbn [goes cmem clock cfriends chost cran_host cran_friend cdone call_regs code_regs host_regs].
  - done.
  - rewrite El. apply Hr.
  - rewrite E1, E2, E3. apply Hr.
  - rewrite Ef. unfold set_friend. by rewrite !length_insert.
  - eapply mem_ok_update; [exact U|apply Hr].
  - done.
  - done.
  - intros Hx Hy. rewrite Ehc in Hx. rewrite Eh in Hy. destruct (cr_hctx _ _ Hr Hx Hy) as [H1 H2]. split; [done|].
    intros k w Hk. pose proof (lookup_lt_Some _ _ _ Hk) as Hkl. cbn in Hkl. cbn [goes cmem].
    rewrite (su_read _ _ _ U); [by apply H2|apply block_slot; [apply Hly|lia]|]. apply HP. lia.
  - intros j q t Hq Ht. rewrite Ef in Hq. unfold set_friend in Hq. destruct (decide (j = i)) as [->|Hne].
    + rewrite list_lookup_insert_eq in Hq by lia. rewrite list_lookup_insert_eq in Ht by lia. injection Hq as <-. by injection Ht as <-.
    + rewrite list_lookup_insert_ne in Hq by done. rewrite list_lookup_insert_ne in Ht by done. pose proof (cr_friends _ _ Hr j q t Hq Ht) as Hj.
      destruct Hm as [Hc| ->]; [|done]. eapply frel_calm; [|exact Hj]. left.
      destruct (inv_holder s i p (cr_inv _ _ Hr) Hi Hc) as (_ & _ & Ho & _). by eapply Ho.
  - unfold hrel. rewrite Eh. cbn [goes chost cmem call_regs code_regs host_regs]. pose proof (cr_host _ _ Hr) as Hh. unfold hrel in Hh.
    destruct Hhost as [E|[-> ->]]; [by rewrite E in *|done].
Qed.

(** A step of the host. *)
Lemma host_moves C s s' t' m' P :
  crel C s -> inv s' -> lock s' = lock s -> friends s' = friends s ->
  ran_on_host s' = ran_on_host s -> ran_on_friend s' = ran_on_friend s -> completed s' = completed s ->
  slot_update (cmem C) m' P ->
  read64 m' (fc + 64) = Some (word8 s') -> read64 m' (fc + 72) = Some (word9 s') ->
  m' = cmem C \/ (forall i p, friends s !! i = Some p -> calm p) ->
  fctx_ok (goes Host t' m' C) s' -> hctx_ok (goes Host t' m' C) s' -> hrel s' (goes Host t' m' C) ->
  crel (goes Host t' m' C) s'.
Proof.
  intros Hr Hinv El Ef E1 E2 E3 U W8 W9 Hcalm Hfc Hhc Hh.
  split; cbn [goes cmem clock cfriends chost cran_host cran_friend cdone call_regs code_regs host_regs]; try done.
  - rewrite El. apply Hr.
  - rewrite E1, E2, E3. apply Hr.
  - rewrite Ef. apply Hr.
  - eapply mem_ok_update; [exact U|apply Hr].
  - intros i p t Hi Ht. rewrite Ef in Hi. pose proof (cr_friends _ _ Hr i p t Hi Ht) as Hj.
    destruct Hcalm as [->|Hc]; [done|]. eapply frel_calm; [by eapply Hc|exact Hj].
Qed.

Section Simulation.
Hypothesis Hly : layout.

Definition sim (C' : cstate) (s : state) : Prop := exists s', rtc step s s' /\ crel C' s'.

Lemma sim_stays C' s : crel C' s -> sim C' s.
Proof. intros Hr. exists s. split; [apply rtc_refl|done]. Qed.

Lemma sim_step C' s s' : step s s' -> crel C' s' -> sim C' s.
Proof. intros Hs Hr. exists s'. split; [by apply rtc_once|done]. Qed.

Lemma set_friend_same s i p : friends s !! i = Some p -> friends s = set_friend i p s.
Proof. intros Hi. unfold set_friend. by rewrite list_insert_id. Qed.

(** The friend's context when its words are not written. *)
Lemma fctx_same C s s' w t m' P :
  fctx_ok C s -> friend_ctx s' = friend_ctx s -> (settled s' -> settled s) -> slot_update (cmem C) m' P ->
  (settled s' -> forall k, 0 <= k < 8 -> ~ P (fc + 8 * k)) -> fctx_ok (goes w t m' C) s'.
Proof.
  intros Hf E Hset U HP c t' Ec. rewrite E in Ec. destruct (Hf c t' Ec) as [Hc Hw]. split; [done|]. intros Hs'.
  destruct (Hw (Hset Hs')) as [H1 H2]. split; [by destruct t'|]. intros k x Hk.
  pose proof (lookup_lt_Some _ _ _ Hk) as Hkl. cbn in Hkl. cbn [goes cmem].
  rewrite (su_read _ _ _ U); [by apply H2; destruct t'|apply block_slot; [apply Hly|lia]|apply HP; [done|lia]].
Qed.

Lemma settled_set s s' i p q :
  friends s !! i = Some p -> p <> FSave -> friends s' = set_friend i q s -> hakase s' = hakase s -> settled s' -> settled s.
Proof.
  intros Hi Hp Ef Eh [H1 H2]. split; [|by rewrite <- Eh]. intros j Hj. destruct (decide (j = i)) as [->|Hne]; [congruence|].
  apply (H1 j). rewrite Ef. unfold set_friend. by rewrite list_lookup_insert_ne.
Qed.

Lemma unsettled s i : friends s !! i = Some FSave -> ~ settled s.
Proof. intros Hi [H1 _]. by apply (H1 i). Qed.

(** Words of the friend's context and slots are apart. *)
Lemma words_apart :
  slot (fc + 64) /\ slot (fc + 72) /\ (forall i, (i < n)%nat -> fc + 64 <> sp i /\ fc + 72 <> sp i) /\
  fc + 64 <> hsp /\ fc + 72 <> hsp.
Proof.
  destruct Hly as [Hf _ _ Hs Hh _ _ _]. pose proof (block_slot fc 8 Hf ltac:(lia)) as S8. pose proof (block_slot fc 9 Hf ltac:(lia)) as S9.
  destruct Hh as (_ & _ & Hh & _). split_and!; [done|done| |lia|lia].
  intros i Hi. destruct (Hs i Hi) as [(_ & _ & Hx & _) _]. lia.
Qed.

Lemma keep_words m m' P s :
  read64 m (fc + 64) = Some (word8 s) /\ read64 m (fc + 72) = Some (word9 s) ->
  slot_update m m' P -> ~ P (fc + 64) -> ~ P (fc + 72) ->
  read64 m' (fc + 64) = Some (word8 s) /\ read64 m' (fc + 72) = Some (word9 s).
Proof.
  intros [H8 H9] U N8 N9. destruct words_apart as (S8 & S9 & _). split; by rewrite (su_read _ _ _ U).
Qed.

(** The steps that leave memory alone. *)
Lemma friend_quiet C s s' i p p' t' :
  crel C s -> friends s !! i = Some p -> p <> FSave -> p' <> FSave -> step s s' \/ s' = s ->
  lock s' = lock s -> friends s' = set_friend i p' s -> hakase s' = hakase s -> hakase_ctx s' = hakase_ctx s ->
  ran_on_host s' = ran_on_host s -> ran_on_friend s' = ran_on_friend s -> completed s' = completed s ->
  word8 s' = word8 s -> word9 s' = word9 s -> friend_ctx s' = friend_ctx s ->
  frel i p' (call_regs C i) (code_regs C i) t' (cmem C) -> sim (goes (Friend i) t' (cmem C) C) s.
Proof.
  intros Hr Hi N N' Hst El Ef Eh Ehc E1 E2 E3 E8 E9 Ec Hfr.
  assert (inv s') as Hinv by (destruct Hst as [Hst| ->]; [eapply step_inv; [apply Hr|exact Hst]|apply Hr]).
  assert (crel (goes (Friend i) t' (cmem C) C) s') as Hr'.
  { eapply (friend_moves C s s' i p p' t' (cmem C) (fun _ => False));
      [exact Hr|exact Hi|by right|exact Hinv|exact El|exact Ef|exact Eh|exact Ehc|exact E1|exact E2|exact E3
      |apply slot_update_refl|by intros k _ []|rewrite E8; apply Hr|rewrite E9; apply Hr|by right| |exact Hfr|exact Hly].
    eapply (fctx_same C s s' (Friend i) t' (cmem C) (fun _ => False));
      [apply Hr|done|by eapply settled_set|apply slot_update_refl|by intros _ k _ []]. }
  destruct Hst as [Hst| ->]; [by eapply sim_step|by apply sim_stays].
Qed.

Lemma sim_begin C s i : crel C s -> cfriends C !! i = Some TIdle -> sim (goes (Friend i) TTest (cmem C) C) s.
Proof.
  intros Hr Ht. destruct (crel_friend C s i _ Hr Ht) as (p & Hp & Hi & Hf).
  destruct p; cbn [frel] in Hf; try done; try (by naive_solver).
  eapply (friend_quiet C s _ i FIdle FTest TTest Hr Hp); [done|done|left; by apply StepBegin|done..].
Qed.

Lemma sim_test C s i :
  crel C s -> cfriends C !! i = Some TTest ->
  sim (goes (Friend i) (if clock C =? 0 then TCas else TTest) (cmem C) C) s.
Proof.
  intros Hr Ht. destruct (crel_friend C s i _ Hr Ht) as (p & Hp & Hi & Hf).
  destruct p; cbn [frel] in Hf; try done; try (by naive_solver). rewrite (cr_lock _ _ Hr).
  eapply (friend_quiet C s _ i FTest (if lock s =? 0 then FCas else FTest) _ Hr Hp);
    [done|by destruct (lock s =? 0)|left; by apply StepTest|done..|]. by destruct (lock s =? 0).
Qed.

Lemma stored_slot m m' a v :
  store 8 a v m = Done (tt, m') -> slot a -> mapped m a 8 -> uint 64 v ->
  read64 m' a = Some v /\ slot_update m m' (fun b => b = a).
Proof.
  intros E Hs Hm Hv. destruct (store64_slot m a v Hs Hm Hv) as (m1 & E1 & R & U). rewrite E1 in E. by injection E as <-.
Qed.

Lemma sp_slot i : (i < n)%nat -> slot (sp i) /\ sp i + 8 < 2 ^ 64 /\ (sp i + 8 <= fc \/ fc + 80 <= sp i) /\
  (sp i + 8 <= hc \/ hc + 80 <= sp i).
Proof. intros Hi. apply (ly_sp Hly i Hi). Qed.

Lemma called_friend f i ra m m' :
  calls f fc (sp i) ra m m' -> (i < n)%nat -> uint 64 ra -> called fc f (sp i) ra.
Proof.
  intros (H1 & H2 & H3 & _) Hi Hra. destruct (sp_slot i Hi) as (S1 & S2 & S3 & _). split; try done. apply Hly.
Qed.

(** The holder of the lock is not overwritten by others: the host waits in [HPoll]
    while the friend core stores. *)
Lemma holder_poll C s i p :
  crel C s -> friends s !! i = Some p -> critical p -> p <> FWait -> hakase s = HPoll.
Proof.
  intros Hr Hi Hc Hn. destruct (inv_holder s i p (cr_inv _ _ Hr) Hi Hc) as (_ & Hp & _). by destruct Hp.
Qed.

Lemma host_poll C s : crel C s -> hakase s = HPoll -> chost C = TPoll.
Proof. intros Hr E. pose proof (cr_host _ _ Hr) as Hh. unfold hrel in Hh. by rewrite E in Hh. Qed.

Lemma sim_cas C s i :
  crel C s -> cfriends C !! i = Some TCas ->
  sim (mkC (cmem C) (if clock C =? 0 then 1 else clock C)
    (<[i := if clock C =? 0 then TCallWait else TTest]> (cfriends C)) (chost C) (cran_host C) (cran_friend C)
    (cdone C) (call_regs C) (code_regs C) (host_regs C)) s.
Proof.
  intros Hr Ht. destruct (crel_friend C s i _ Hr Ht) as (p & Hp & Hi & Hf).
  destruct p; cbn [frel] in Hf; try done; try (by naive_solver).
  pose proof (StepCas i s Hp) as Hst. pose proof (step_inv _ _ (cr_inv _ _ Hr) Hst) as Hinv.
  rewrite (cr_lock _ _ Hr). destruct (lock s =? 0) eqn:El.
  - eapply sim_step; [exact Hst|]. destruct Hr as [R1 R2 R3 [L1 L2] R5 R6 R7 R8 R9 R10].
    split; cbn [cmem clock cfriends chost cran_host cran_friend cdone call_regs code_regs host_regs lock friends
      ran_on_host ran_on_friend completed word8 word9]; try done.
    + unfold set_friend. by rewrite !length_insert.
    + intros c t Ec. split; [by apply (R7 c t)|]. intros Hset. exfalso. eapply (unsettled _ i); [|exact Hset].
      cbn. unfold set_friend. apply list_lookup_insert_eq. lia.
    + intros j q t Hq Ht'. unfold set_friend in Hq. destruct (decide (j = i)) as [->|Hne].
      * rewrite list_lookup_insert_eq in Hq by lia. rewrite list_lookup_insert_eq in Ht' by lia.
        injection Hq as <-. injection Ht' as <-. by left.
      * rewrite list_lookup_insert_ne in Hq by done. rewrite list_lookup_insert_ne in Ht' by done. by apply R9.
  - rewrite <- (cr_lock _ _ Hr). eapply (friend_quiet C s _ i FCas FTest TTest Hr Hp); [done|done|left; exact Hst|done..].
Qed.

Lemma sim_call_wait C s i f z m' :
  crel C s -> cfriends C !! i = Some TCallWait -> calls f fc (sp i) ra_wait (cmem C) m' ->
  sim (mkC m' (clock C) (<[i := TIn RWait f z 0]> (cfriends C)) (chost C) (cran_host C) (cran_friend C)
    (cdone C) (set_at i f (call_regs C)) (code_regs C) (host_regs C)) s.
Proof.
  intros Hr Ht Hc. destruct (crel_friend C s i _ Hr Ht) as (p & Hp & Hi & Hf).
  destruct p; cbn [frel] in Hf; try done; try (by naive_solver). destruct (ly_ra Hly) as (Rw & _).
  destruct (sp_slot i Hi) as (Ss & S8 & Sf & Sh).
  destruct (stored_slot _ _ _ _ (proj2 (proj2 (proj2 Hc))) Ss (mo_sp _ (cr_mem _ _ Hr) i Hi) Rw) as [R U].
  pose proof (holder_poll C s i FSave Hr Hp I ltac:(done)) as Hpoll. pose proof (host_poll C s Hr Hpoll) as Hth.
  destruct (inv_holder s i FSave (cr_inv _ _ Hr) Hp I) as (_ & _ & Ho & _).
  destruct words_apart as (W1 & W2 & W3 & _). destruct (W3 i Hi) as [N8 N9].
  destruct Hr as [R1 R2 R3 [L1 L2] R5 R6 R7 R8 R9 R10]. apply sim_stays.
  split; cbn [cmem clock cfriends chost cran_host cran_friend cdone call_regs code_regs host_regs]; try done.
  - by rewrite length_insert.
  - by eapply mem_ok_update.
  - by eapply keep_words.
  - intros c t Ec. split; [by apply (R7 c t)|]. intros Hset. by eapply unsettled in Hset.
  - intros Hx Hy. destruct (R8 Hx Hy) as [H1 H2]. split; [done|]. intros k w Hk.
    pose proof (lookup_lt_Some _ _ _ Hk) as Hkl. cbn in Hkl. cbn [cmem].
    rewrite (su_read _ _ _ U); [by apply H2|apply block_slot; [apply Hly|lia]|lia].
  - intros j q t Hq Ht'. destruct (decide (j = i)) as [->|Hne].
    + rewrite list_lookup_insert_eq in Ht' by lia. injection Ht' as <-. rewrite Hp in Hq. injection Hq as <-.
      right. exists f, z, 0%nat. unfold set_at. rewrite decide_True by done.
      pose proof (called_friend _ _ _ _ _ Hc Hi Rw) as Hcd. split_and!; [done|lia|done|by apply saving_begin|done].
    + rewrite list_lookup_insert_ne in Ht' by done. eapply frel_calm; [left; by eapply Ho|by apply R9].
  - unfold hrel. rewrite Hpoll. done.
Qed.

(** *** The instructions of a friend core *)

(** A store of the holder, while the host polls. *)
Lemma friend_stores C s s' i p p' t' m' P :
  crel C s -> friends s !! i = Some p -> critical p -> p <> FWait -> step s s' \/ s' = s ->
  lock s' = lock s -> friends s' = set_friend i p' s -> hakase s' = hakase s -> hakase_ctx s' = hakase_ctx s ->
  ran_on_host s' = ran_on_host s -> ran_on_friend s' = ran_on_friend s -> completed s' = completed s ->
  slot_update (cmem C) m' P -> (forall a, P a -> (exists k, 0 <= k < 10 /\ a = fc + 8 * k) \/ a = sp i) ->
  read64 m' (fc + 64) = Some (word8 s') /\ read64 m' (fc + 72) = Some (word9 s') ->
  fctx_ok (goes (Friend i) t' m' C) s' ->
  frel i p' (call_regs C i) (code_regs C i) t' m' ->
  sim (goes (Friend i) t' m' C) s.
Proof.
  intros Hr Hi Hc Hn Hst El Ef Eh Ehc E1 E2 E3 U HP [W8 W9] Hfc Hfr.
  assert (inv s') as Hinv by (destruct Hst as [Hst| ->]; [eapply step_inv; [apply Hr|exact Hst]|apply Hr]).
  destruct (cr_len _ _ Hr) as [_ L2]. pose proof (lookup_lt_Some _ _ _ Hi) as Hlt.
  assert (crel (goes (Friend i) t' m' C) s') as Hr'.
  { eapply (friend_moves C s s' i p p' t' m' P);
      [exact Hr|exact Hi|by left|exact Hinv|exact El|exact Ef|exact Eh|exact Ehc|exact E1|exact E2|exact E3
      |exact U| |exact W8|exact W9|left; by eapply holder_poll|exact Hfc|exact Hfr|exact Hly].
    intros k Hk HPk. destruct (sp_slot i ltac:(lia)) as (_ & _ & _ & Sh). pose proof (ly_apart Hly).
    destruct (HP _ HPk) as [(k' & Hk' & E)|E]; lia. }
  destruct Hst as [Hst| ->]; [by eapply sim_step|by apply sim_stays].
Qed.

Lemma wait_code_save q : (q < 10)%nat -> toshokan_setjmp_with_wait !! q = save_context !! q.
Proof. intros Hq. unfold toshokan_setjmp_with_wait. by rewrite lookup_app_l by (cbn; lia). Qed.

Lemma wait_code_load j : (j < 8)%nat -> toshokan_setjmp_with_wait !! (14 + j)%nat = load_context !! j.
Proof. intros Hj. by do 8 (destruct j as [|j]; [done|]); lia. Qed.

Lemma sim_saves C s i f z q ins f' z' q' m' :
  crel C s -> friends s !! i = Some FSave -> (i < n)%nat ->
  (q < 10)%nat -> called fc (call_regs C i) (sp i) ra_wait ->
  saving_at fc (call_regs C i) (sp i) ra_wait f q (cmem C) -> read64 (cmem C) (sp i) = Some ra_wait ->
  toshokan_setjmp_with_wait !! q = Some ins -> exec_instr ins (M_ f z q (cmem C)) = Done (M_ f' z' q' m', None) ->
  sim (goes (Friend i) (TIn RWait f' z' q') m' C) s.
Proof.
  intros Hr Hp Hi Hq Hcd Hs Hra Hins E. rewrite wait_code_save in Hins by done.
  destruct (saving_step fc _ (sp i) ra_wait Hcd f q _ z ins Hs (mo_fc _ (cr_mem _ _ Hr)) Hra Hins) as (f1 & m1 & E1 & Hs1 & U1).
  rewrite E1 in E. injection E as <- <- <- <-. pose proof (block_words_slot _ _ _ _ Hcd _ _ U1 Hra) as Hra1.
  pose proof (keep_words _ _ _ s (cr_words _ _ Hr) U1 ltac:(intros (k & Hk & Ek); lia) ltac:(intros (k & Hk & Ek); lia)) as Hw.
  assert (forall a, (exists k, 0 <= k < 8 /\ a = fc + 8 * k) -> (exists k, 0 <= k < 10 /\ a = fc + 8 * k) \/ a = sp i) as HP.
  { intros a (k & Hk & ->). left. exists k. lia. }
  destruct (decide (q = 9%nat)) as [->|Hne].
  - pose proof (StepSave i s Hp) as Hst.
    eapply (friend_stores C s _ i FSave FPost _ m1 _ Hr Hp I ltac:(done) (or_introl Hst)); try done.
    + intros c t [= <- <-]. split; [done|]. intros _. cbn [site_regs site_ra goes call_regs cmem]. split; [done|].
      apply (sa_words _ _ _ _ _ _ _ Hs1).
    + exists f1, z. split; [done|]. rewrite (sa_regs _ _ _ _ _ _ _ Hs1) by done. apply Hcd.
  - eapply (friend_stores C s s i FSave FSave _ m1 _ Hr Hp I ltac:(done) (or_intror eq_refl)); try done.
    + by apply set_friend_same.
    + intros c t Ec. split; [by apply (cr_fctx _ _ Hr c t)|]. intros Hset. by eapply unsettled in Hset.
    + right. exists f1, z, (S q). split_and!; [done|lia|done|done|done].
Qed.

Lemma sim_post C s i f z ins f' z' q' m' :
  crel C s -> friends s !! i = Some FPost -> (i < n)%nat -> f RDI = fc ->
  toshokan_setjmp_with_wait !! 10%nat = Some ins -> exec_instr ins (M_ f z 10 (cmem C)) = Done (M_ f' z' q' m', None) ->
  sim (goes (Friend i) (TIn RWait f' z' q') m' C) s.
Proof.
  intros Hr Hp Hi Hdi [= <-] E. destruct words_apart as (W8 & W9 & _).
  destruct (exec_store_imm f z 10 (cmem C) 1 64 RDI fc 8 Hdi (ly_fc Hly) (mo_fc _ (cr_mem _ _ Hr))) as (m1 & E1 & R1 & U1);
    [done|lia|done|].
  rewrite E1 in E. injection E as <- <- <- <-. pose proof (StepPost i s Hp) as Hst.
  eapply (friend_stores C s _ i FPost FWait _ m1 _ Hr Hp I ltac:(done) (or_introl Hst)); try done.
  - intros a ->. left. by exists 8.
  - split; [done|]. cbn [word9]. rewrite (su_read _ _ _ U1); [apply Hr|done|lia].
  - eapply (fctx_same C s); [apply Hr|done|by eapply settled_set|exact U1|]. intros _ k Hk Ek. cbn in Ek. lia.
  - exists f, z, 11%nat. split_and!; [done|done|by left].
Qed.

Lemma sim_waits C s i f z q ins f' z' q' m' :
  crel C s -> friends s !! i = Some FWait -> f RDI = fc -> (q = 11 \/ q = 12 \/ q = 13 /\ z = true)%nat ->
  toshokan_setjmp_with_wait !! q = Some ins -> exec_instr ins (M_ f z q (cmem C)) = Done (M_ f' z' q' m', None) ->
  sim (goes (Friend i) (TIn RWait f' z' q') m' C) s.
Proof.
  intros Hr Hp Hdi Hq Hins E.
  assert (forall t', frel i FWait (call_regs C i) (code_regs C i) t' (cmem C) -> sim (goes (Friend i) t' (cmem C) C) s) as Hstay.
  { intros t' Ht'. eapply (friend_quiet C s s i FWait FWait t' Hr Hp); try done; [by right|by apply set_friend_same]. }
  destruct Hq as [->|[->|[-> ->]]]; cbn in Hins; injection Hins as <-.
  - cbn in E. injection E as <- <- <- <-. apply Hstay. exists f, z, 12%nat. split_and!; [done|done|by right; left].
  - assert (ea (M_ f z 12 (cmem C)) 72 RDI = fc + 72) as Ea.
    { destruct (ly_fc Hly) as (? & _ & ?). rewrite ea_eq; rewrite Hdi; [done|lia]. }
    unfold exec_instr in E. rewrite Ea in E. cbn [memory] in E. rewrite (load_slot _ _ _ (proj2 (cr_words _ _ Hr))) in E.
    cbn [regs zf pc] in E. injection E as <- <- <- <-. change (u64 0) with 0. destruct (Z.eqb_spec (word9 s) 0) as [E9|E9].
    + apply Hstay. exists f, true, 13%nat. split_and!; [done|done|by right; right].
    + eapply (friend_quiet C s _ i FWait FLoad _ Hr Hp); [done|done|left; by apply StepWait|done|..]; try done.
      * cbn. by rewrite (proj2 (Z.eqb_neq _ _) E9).
      * exists f, false, 13%nat. split; [done|by left].
  - cbn in E. injection E as <- <- <- <-. apply Hstay. exists f, true, 11%nat. split_and!; [done|done|by left].
Qed.

(** The holder that is released finds its context as its code left it. *)
Lemma holder_settled C s i p :
  crel C s -> friends s !! i = Some p -> critical p -> p <> FSave -> p <> FWait -> settled s.
Proof.
  intros Hr Hp Hc Hn Hw. pose proof (holder_poll C s i p Hr Hp Hc Hw) as Hh.
  destruct (inv_holder s i p (cr_inv _ _ Hr) Hp Hc) as (_ & _ & Ho & _).
  split; [|by rewrite Hh]. intros j Hj. destruct (decide (j = i)) as [->|Hne]; [congruence|]. by apply (Ho j FSave Hne Hj).
Qed.

Lemma released_ctx C s i :
  crel C s -> friends s !! i = Some FLoad ->
  friend_ctx s = Some (i, AfterCode) /\ called fc (code_regs C i) (sp i) ra_set /\
  holds_context (cmem C) fc (context (code_regs C i) (sp i) ra_set).
Proof.
  intros Hr Hp. destruct (inv_holder s i FLoad (cr_inv _ _ Hr) Hp I) as (_ & Hph & _).
  assert (friend_ctx s = Some (i, AfterCode)) as Ec by (inversion Hph; subst; [done..|]; done). split; [done|].
  destruct (cr_fctx _ _ Hr i AfterCode Ec) as [_ Hc]. apply Hc.
  by eapply holder_settled.
Qed.

Lemma sim_loads C s i f z q ins f' z' q' m' :
  crel C s -> friends s !! i = Some FLoad -> (i < n)%nat ->
  (q = 13%nat /\ z = false /\ f RDI = fc) \/
  (exists j rax, q = (14 + j)%nat /\ (j < 8)%nat /\ loading_at fc (code_regs C i) (sp i) ra_set rax f j (cmem C)) ->
  toshokan_setjmp_with_wait !! q = Some ins -> exec_instr ins (M_ f z q (cmem C)) = Done (M_ f' z' q' m', None) ->
  sim (goes (Friend i) (TIn RWait f' z' q') m' C) s.
Proof.
  intros Hr Hp Hi Hq Hins E. destruct (released_ctx C s i Hr Hp) as (Ec & Hcd & Hw).
  destruct (sp_slot i Hi) as (Ss & S8 & Sf & Sh). destruct Hq as [(-> & -> & Hdi)|(j & rax & -> & Hj & Hl)].
  - cbn in Hins. injection Hins as <-. cbn in E. injection E as <- <- <- <-.
    eapply (friend_quiet C s s i FLoad FLoad _ Hr Hp); try done; [by right|by apply set_friend_same|].
    exists f, false, 14%nat. split; [done|]. right. exists 0%nat, (f RAX). split_and!; [done|lia|by apply loading_begin].
  - rewrite wait_code_load in Hins by done.
    destruct (loading_step fc _ (sp i) ra_set rax (ly_fc Hly) (conj Ss S8) (ca_ra _ _ _ _ Hcd) Sf f j _ z (14 + j) ins Hl
      (mo_sp _ (cr_mem _ _ Hr) i Hi) Hins) as (f1 & m1 & E1 & Hl1 & U1).
    rewrite E1 in E. injection E as <- <- <- <-.
    assert (forall a, a = sp i -> (exists k, 0 <= k < 10 /\ a = fc + 8 * k) \/ a = sp i) as HP by (intros a ->; by right).
    destruct (words_apart) as (_ & _ & W & _). destruct (W i Hi) as [N8 N9].
    pose proof (keep_words _ _ _ s (cr_words _ _ Hr) U1 N8 N9) as Hws.
    assert (forall s', friend_ctx s' = friend_ctx s -> (settled s' -> settled s) ->
      fctx_ok (goes (Friend i) (TIn RWait f1 z (S (14 + j))) m1 C) s') as Hfc.
    { intros s' E' Hset. eapply (fctx_same C s); [apply Hr|done|done|exact U1|]. intros _ k Hk Ek. cbn in Ek. lia. }
    destruct (decide (j = 7%nat)) as [->|Hne].
    + pose proof (StepLoad i i AfterCode s Hp Ec) as Hst.
      eapply (friend_stores C s _ i FLoad (FClear i AfterCode) _ m1 _ Hr Hp I ltac:(done) (or_introl Hst)); try done.
      * apply Hfc; [done|]. by eapply settled_set.
      * exists f1, z. split; [done|]. split; [apply Hl1|].
        apply (loading_end fc (code_regs C i) (sp i) ra_set rax (conj Ss S8) Sf f1 m1 Hl1).
    + eapply (friend_stores C s s i FLoad FLoad _ m1 _ Hr Hp I ltac:(done) (or_intror eq_refl)); try done.
      * by apply set_friend_same.
      * by apply Hfc.
      * exists f1, z, (S (14 + j)). split; [done|]. right. exists (S j), rax. split_and!; [lia|lia|done].
Qed.

Lemma sim_clears C s i c t f z ins f' z' q' m' :
  crel C s -> friends s !! i = Some (FClear c t) -> (i < n)%nat ->
  f RDI = fc -> loaded_all (code_regs C i) (sp i) f -> read64 (cmem C) (sp i) = Some ra_set ->
  toshokan_setjmp_with_wait !! 22%nat = Some ins -> exec_instr ins (M_ f z 22 (cmem C)) = Done (M_ f' z' q' m', None) ->
  sim (goes (Friend i) (TIn RWait f' z' q') m' C) s.
Proof.
  intros Hr Hp Hi Hdi Hla Hra [= <-] E. destruct words_apart as (W8 & W9 & _).
  destruct (inv_holder s i _ (cr_inv _ _ Hr) Hp I) as (_ & Hph & _).
  assert (t = AfterCode) as -> by (inversion Hph; subst; destruct_or!; congruence).
  destruct (exec_store_imm f z 22 (cmem C) 0 72 RDI fc 9 Hdi (ly_fc Hly) (mo_fc _ (cr_mem _ _ Hr))) as (m1 & E1 & R1 & U1);
    [done|lia|done|].
  rewrite E1 in E. injection E as <- <- <- <-. pose proof (StepClear i c AfterCode s Hp) as Hst.
  destruct (sp_slot i Hi) as (Ss & S8 & Sf & Sh).
  eapply (friend_stores C s _ i _ FUnlock _ m1 _ Hr Hp I ltac:(done) (or_introl Hst)); try done.
  - intros a ->. left. by exists 9.
  - split; [|done]. cbn [word8]. rewrite (su_read _ _ _ U1); [apply Hr|done|lia].
  - eapply (fctx_same C s); [apply Hr|done|by eapply settled_set|exact U1|]. intros _ k Hk Ek. cbn in Ek. lia.
  - left. exists f, z, 23%nat. split_and!; [done|done| |by left]. rewrite (su_read _ _ _ U1); [done|done|lia].
Qed.

Lemma sim_friend_stays C s i p t' :
  crel C s -> friends s !! i = Some p -> p <> FSave ->
  frel i p (call_regs C i) (code_regs C i) t' (cmem C) -> sim (goes (Friend i) t' (cmem C) C) s.
Proof.
  intros Hr Hp Hn Hf. eapply (friend_quiet C s s i p p t' Hr Hp); try done; [by right|by apply set_friend_same].
Qed.

(** A friend core in a routine is in [toshokan_setjmp_with_wait]. *)
Lemma friend_routine i p cr kr rt f z q m : frel i p cr kr (TIn rt f z q) m -> rt = RWait.
Proof.
  destruct p; cbn; try done.
  - intros [H|(f0 & z0 & q0 & H & _)]; [done|by injection H].
  - intros (f0 & z0 & H & _); by injection H.
  - intros (f0 & z0 & q0 & H & _); by injection H.
  - intros (f0 & z0 & q0 & H & _); by injection H.
  - intros (f0 & z0 & H & _); by injection H.
  - intros [(f0 & z0 & q0 & H & _)|[(f0 & H & _)|H]]; [by injection H|done|done].
Qed.

Lemma sim_friend_instr C s i rt f z q ins f' z' q' m' :
  crel C s -> cfriends C !! i = Some (TIn rt f z q) -> code_of rt !! q = Some ins ->
  exec_instr ins (M_ f z q (cmem C)) = Done (M_ f' z' q' m', None) ->
  sim (goes (Friend i) (TIn rt f' z' q') m' C) s.
Proof.
  intros Hr Ht Hins E. destruct (crel_friend C s i _ Hr Ht) as (p & Hp & Hi & Hf).
  pose proof (friend_routine _ _ _ _ _ _ _ _ _ Hf) as ->. cbn [code_of] in Hins.
  destruct p; cbn [frel] in Hf; try done.
  - destruct Hf as [Hf|(f0 & z0 & q0 & Hf & Hq & Hcd & Hs & Hra)]; [done|]. injection Hf as <- <- <-. by eapply sim_saves.
  - destruct Hf as (f0 & z0 & Hf & Hdi). injection Hf as <- <- ->. by eapply sim_post.
  - destruct Hf as (f0 & z0 & q0 & Hf & Hdi & Hq). injection Hf as <- <- <-. by eapply sim_waits.
  - destruct Hf as (f0 & z0 & q0 & Hf & Hq). injection Hf as <- <- <-. by eapply sim_loads.
  - destruct Hf as (f0 & z0 & Hf & Hdi & Hla & Hra). injection Hf as <- <- ->. by eapply sim_clears.
  - destruct Hf as [(f0 & z0 & q0 & Hf & [L1 L2] & Hra & Hq)|[(f0 & Hf & _)|Hf]]; [|done|done]. injection Hf as <- <- <-.
    destruct Hq as [->|[-> _]]; cbn in Hins; injection Hins as <-; [|by apply ret_never in E].
    cbn in E. injection E as <- <- <- <-. eapply (sim_friend_stays C s i FUnlock); [done|done|done|].
    left. eexists _, _, 24%nat. split_and!; [done| |done|right; split; [done|by rewrite set_reg_eq]].
    split; [by rewrite set_reg_ne|]. intros r Hin. rewrite set_reg_ne; [by apply L2|]. intros ->. unfold callee_saved in Hin.
    rewrite !elem_of_cons, elem_of_nil in Hin. naive_solver.
Qed.

Lemma wait_code_ret q : toshokan_setjmp_with_wait !! q = Some Ret -> q = 24%nat.
Proof. do 24 (destruct q as [|q]; [done|]). by destruct q as [|q]. Qed.

Lemma sim_friend_return C s i rt f z q ins f' z' q' m' a :
  crel C s -> cfriends C !! i = Some (TIn rt f z q) -> code_of rt !! q = Some ins ->
  exec_instr ins (M_ f z q (cmem C)) = Done (M_ f' z' q' m', Some a) ->
  sim (goes (Friend i) (TRet f' a) m' C) s.
Proof.
  intros Hr Ht Hins E. destruct (crel_friend C s i _ Hr Ht) as (p & Hp & Hi & Hf).
  pose proof (friend_routine _ _ _ _ _ _ _ _ _ Hf) as ->. cbn [code_of] in Hins.
  pose proof (ret_only _ _ _ _ E) as ->. pose proof (wait_code_ret q Hins) as ->.
  destruct p; cbn [frel] in Hf; try done.
  - destruct Hf as [Hf|(f0 & z0 & q0 & Hf & Hq & _)]; [done|]. injection Hf as <- <- <-. lia.
  - by destruct Hf as (f0 & z0 & Hf & Hdi).
  - destruct Hf as (f0 & z0 & q0 & Hf & Hdi & Hq). injection Hf as <- <- <-. lia.
  - destruct Hf as (f0 & z0 & q0 & Hf & [[Hq _]|(j & rax & Hq & Hj & _)]); injection Hf as <- <- <-; lia.
  - by destruct Hf as (f0 & z0 & Hf & Hdi).
  - destruct Hf as [(f0 & z0 & q0 & Hf & [L1 L2] & Hra & Hq)|[(f0 & Hf & _)|Hf]]; [|done|done]. injection Hf as <- <- <-.
    destruct Hq as [Hq|[_ Hax]]; [done|]. destruct (sp_slot i Hi) as (Ss & S8 & _).
    destruct (exec_ret _ _ _ _ (sp i) ra_set _ _ _ _ _ L1 Ss S8 Hra E) as (-> & -> & ->).
    eapply (sim_friend_stays C s i FUnlock); [done|done|done|]. right. left. eexists. split; [done|].
    split_and!; [by rewrite set_reg_ne|apply set_reg_eq|]. intros r Hin. rewrite set_reg_ne; [by apply L2|].
    intros ->. unfold callee_saved in Hin. rewrite !elem_of_cons, elem_of_nil in Hin. naive_solver.
Qed.

(** A friend core comes back behind its code only, with 1. *)
Lemma friend_back C s i f a :
  crel C s -> cfriends C !! i = Some (TRet f a) ->
  a = ra_set /\ result f = 1 /\ friends s !! i = Some FUnlock /\ resumes (code_regs C i) (sp i) f.
Proof.
  intros Hr Ht. destruct (crel_friend C s i _ Hr Ht) as (p & Hp & Hi & Hf).
  destruct p; cbn [frel] in Hf; try done; try (by naive_solver).
  destruct Hf as [(f0 & z0 & q0 & Hf & _)|[(f0 & Hf & Hres)|Hf]]; [done| |done]. injection Hf as <- <-.
  split_and!; [done| |done|done]. unfold result. by rewrite (proj1 Hres).
Qed.

Lemma sim_unlock C s i :
  crel C s -> cfriends C !! i = Some TUnlock ->
  sim (mkC (cmem C) 0 (<[i := TIdle]> (cfriends C)) (chost C) (cran_host C) (cran_friend C)
      (i :: cdone C) (call_regs C) (code_regs C) (host_regs C)) s.
Proof.
  intros Hr Ht. destruct (crel_friend C s i _ Hr Ht) as (p & Hp & Hi & Hf).
  destruct p; cbn [frel] in Hf; try done; try (by naive_solver). clear Hf.
  pose proof (StepUnlock i s Hp) as Hst. pose proof (step_inv _ _ (cr_inv _ _ Hr) Hst) as Hinv.
  eapply sim_step; [exact Hst|]. destruct Hr as [R1 R2 (G1 & G2 & G3) [L1 L2] R5 R6 R7 R8 R9 R10].
  split; cbn [cmem clock cfriends chost cran_host cran_friend cdone call_regs code_regs host_regs lock friends
    ran_on_host ran_on_friend completed word8 word9]; try done.
  - by rewrite G3.
  - unfold set_friend. by rewrite !length_insert.
  - intros c t Ec. destruct (R7 c t Ec) as [Hc Hw]. split; [done|]. intros Hset.
    assert (settled s) as Hs0 by (eapply settled_set; [exact Hp|done|..|exact Hset]; done).
    by destruct t; apply Hw.
  - intros j q t Hq Ht'. unfold set_friend in Hq. destruct (decide (j = i)) as [->|Hne].
    + rewrite list_lookup_insert_eq in Hq by lia. rewrite list_lookup_insert_eq in Ht' by lia.
      injection Hq as <-. by injection Ht' as <-.
    + rewrite list_lookup_insert_ne in Hq by done. rewrite list_lookup_insert_ne in Ht' by done. by apply R9.
Qed.

(** *** The steps of the host *)

(** While the host works on an offload, the holder waits for it. *)
Lemma host_calm s : inv s -> hakase s <> HPoll -> forall i p, friends s !! i = Some p -> calm p.
Proof.
  intros Hinv Hn i p Hi. destruct Hinv as [_ _ _ Hh _ _ _|j q _ Hj Hp Ho _]; [done|].
  destruct (decide (i = j)) as [->|Hne]; [|left; by eapply Ho]. rewrite Hi in Hj. injection Hj as ->.
  right. inversion Hp; subst; done.
Qed.

Lemma host_settled s : inv s -> hakase s <> HPoll -> (forall c, hakase s <> HSaveFriend c) -> settled s.
Proof.
  intros Hinv Hn Hs. split; [|done]. intros i Hi. by destruct (host_calm s Hinv Hn i _ Hi) as [[]|].
Qed.

Lemma host_stores C s s' t' m' P :
  crel C s -> step s s' \/ s' = s -> lock s' = lock s -> friends s' = friends s ->
  ran_on_host s' = ran_on_host s -> ran_on_friend s' = ran_on_friend s -> completed s' = completed s ->
  slot_update (cmem C) m' P ->
  read64 m' (fc + 64) = Some (word8 s') /\ read64 m' (fc + 72) = Some (word9 s') ->
  m' = cmem C \/ hakase s <> HPoll ->
  fctx_ok (goes Host t' m' C) s' -> hctx_ok (goes Host t' m' C) s' -> hrel s' (goes Host t' m' C) ->
  sim (goes Host t' m' C) s.
Proof.
  intros Hr Hst El Ef E1 E2 E3 U [W8 W9] Hm Hfc Hhc Hh.
  assert (inv s') as Hinv by (destruct Hst as [Hst| ->]; [eapply step_inv; [apply Hr|exact Hst]|apply Hr]).
  assert (crel (goes Host t' m' C) s') as Hr'.
  { eapply (host_moves C s s' t' m' P); try done. destruct Hm as [Hm|Hn]; [by left|right]. eapply host_calm; [apply Hr|done]. }
  destruct Hst as [Hst| ->]; [by eapply sim_step|by apply sim_stays].
Qed.

(** The host's context when its words are not written. *)
Lemma hctx_same C s s' w t m' P :
  hctx_ok C s -> hakase_ctx s' = hakase_ctx s -> hakase s <> HSave -> slot_update (cmem C) m' P ->
  (forall k, 0 <= k < 8 -> ~ P (hc + 8 * k)) -> hctx_ok (goes w t m' C) s'.
Proof.
  intros Hh E Hn U HP Hx _. rewrite E in Hx. destruct (Hh Hx Hn) as [H1 H2]. split; [done|]. intros k x Hk.
  pose proof (lookup_lt_Some _ _ _ Hk) as Hkl. cbn in Hkl. cbn [goes cmem].
  rewrite (su_read _ _ _ U); [by apply H2|apply block_slot; [apply Hly|lia]|apply HP; lia].
Qed.

(** A step of the host that leaves memory alone. *)
Lemma host_quiet C s s' t' :
  crel C s -> step s s' \/ s' = s -> lock s' = lock s -> friends s' = friends s ->
  ran_on_host s' = ran_on_host s -> ran_on_friend s' = ran_on_friend s -> completed s' = completed s ->
  word8 s' = word8 s -> word9 s' = word9 s -> friend_ctx s' = friend_ctx s -> hakase_ctx s' = hakase_ctx s ->
  (forall c, hakase s <> HSaveFriend c) -> hakase s <> HSave ->
  hrel s' (goes Host t' (cmem C) C) -> sim (goes Host t' (cmem C) C) s.
Proof.
  intros Hr Hst El Ef E1 E2 E3 E8 E9 Ec Ehc Hn1 Hn2 Hh.
  eapply (host_stores C s s' t' (cmem C) (fun _ => False)); try done.
  - rewrite E8, E9. apply Hr.
  - by left.
  - eapply (fctx_same C s s' Host t' (cmem C) (fun _ => False)); [apply Hr|done| |apply slot_update_refl|by intros _ k _ []].
    intros [H1 _]. split; [by rewrite <- Ef|done].
  - eapply (hctx_same C s s' Host t' (cmem C) (fun _ => False)); [apply Hr|done|done|apply slot_update_refl|by intros k _ []].
Qed.


Ltac at_host Hr :=
  let Hh := fresh "Hh" in pose proof (cr_host _ _ Hr) as Hh; unfold hrel in Hh.

Lemma was_set_thread sl ra t m : was_set sl ra t m -> (exists f z q, t = TIn RSet f z q) \/ exists f, t = TRet f ra.
Proof. intros [(f & z & q & -> & _)|(f & -> & _)]; eauto. Qed.

Lemma jumping_thread env g sl ra t m : jumping env g sl ra t m -> exists f z q, t = TIn RLong f z q.
Proof. intros [(f & z & -> & _)|(f & z & j & -> & _)]; eauto. Qed.

Lemma setting_thread env g sl ra t m : setting env g sl ra t m -> exists f z q, t = TIn RSet f z q.
Proof. intros (f & z & q & -> & _). eauto. Qed.

(** The threads of the host that are not in a routine or back from one. *)
Lemma host_plain C s :
  crel C s ->
  match chost C with
  | TPoll => hakase s = HPoll
  | TClear8 => hakase s = HClear8
  | TCallSet => hakase s = HSave
  | TSet9 => hakase s = HSet9
  | TCode f => exists c, hakase s = HCode c /\ (c < n)%nat /\ resumes (call_regs C c) (sp c) f
  | TIn _ _ _ _ | TRet _ _ => True
  | _ => False
  end.
Proof.
  intros Hr. at_host Hr. destruct (hakase s) as [| | | |c|c| | |] eqn:Eh.
  - by rewrite Hh.
  - by rewrite Hh.
  - destruct Hh as [->|[_ (f & z & q & -> & _)]]; done.
  - destruct Hh as [Hw|(c & _ & Hj)].
    + by destruct (was_set_thread _ _ _ _ Hw) as [(f & z & q & ->)|(f & ->)].
    + by destruct (jumping_thread _ _ _ _ _ _ Hj) as (f & z & q & ->).
  - destruct Hh as (Hc & f & [->| ->] & Hres); [done|]. by exists c.
  - destruct Hh as (_ & _ & Hs). by destruct (setting_thread _ _ _ _ _ _ Hs) as (f & z & q & ->).
  - destruct Hh as [(c & _ & Hw)|Hj].
    + by destruct (was_set_thread _ _ _ _ Hw) as [(f & z & q & ->)|(f & ->)].
    + by destruct (jumping_thread _ _ _ _ _ _ Hj) as (f & z & q & ->).
  - by destruct Hh as [(f & -> & _)| ->].
  - done.
Qed.

Lemma sim_poll C s v :
  crel C s -> chost C = TPoll -> read64 (cmem C) (fc + 64) = Some v ->
  sim (goes Host (if v =? 0 then TPoll else TClear8) (cmem C) C) s.
Proof.
  intros Hr Ht Hv. pose proof (host_plain C s Hr) as Hh. rewrite Ht in Hh.
  pose proof (proj1 (cr_words _ _ Hr)) as W8. rewrite Hv in W8. injection W8 as ->.
  eapply (host_quiet C s _ _ Hr (or_introl (StepPoll s Hh))); try done; [by rewrite Hh|by rewrite Hh|].
  unfold hrel. cbn [hakase goes chost]. by destruct (word8 s =? 0).
Qed.

Lemma fc_word k : 0 <= k < 10 -> slot (fc + 8 * k).
Proof. apply block_slot, Hly. Qed.

Lemma fc_mapped m k : mem_ok m -> 0 <= k < 10 -> mapped m (fc + 8 * k) 8.
Proof. intros Hm Hk. eapply mapped_sub; [..|exact (mo_fc _ Hm)]; lia. Qed.

(** A store of the host to word 8 or 9 of the friend's context. *)
Lemma host_word C s s' t' m' k v :
  crel C s -> step s s' -> lock s' = lock s -> friends s' = friends s ->
  ran_on_host s' = ran_on_host s -> ran_on_friend s' = ran_on_friend s -> completed s' = completed s ->
  friend_ctx s' = friend_ctx s -> hakase_ctx s' = hakase_ctx s ->
  (forall c, hakase s <> HSaveFriend c) -> hakase s <> HSave -> hakase s <> HPoll ->
  store 8 (fc + 8 * k) v (cmem C) = Done (tt, m') -> uint 64 v -> 8 <= k < 10 ->
  word8 s' = (if k =? 8 then v else word8 s) -> word9 s' = (if k =? 9 then v else word9 s) ->
  hrel s' (goes Host t' m' C) -> sim (goes Host t' m' C) s.
Proof.
  intros Hr Hst El Ef E1 E2 E3 Ec Ehc Hn1 Hn2 Hn3 Hm Hv Hk E8 E9 Hh.
  destruct (stored_slot _ _ _ _ Hm (fc_word k ltac:(lia)) (fc_mapped _ k (cr_mem _ _ Hr) ltac:(lia)) Hv) as [R U].
  destruct (cr_words _ _ Hr) as [W8 W9]. pose proof (ly_apart Hly).
  eapply (host_stores C s s' t' m' _ Hr (or_introl Hst)); try done.
  - rewrite E8, E9. assert (k = 8 \/ k = 9) as [->| ->] by lia; cbn [Z.eqb Pos.eqb].
    + split; [done|]. rewrite (su_read _ _ _ U); [done|apply (fc_word 9); lia|lia].
    + split; [|done]. rewrite (su_read _ _ _ U); [done|apply (fc_word 8); lia|lia].
  - by right.
  - eapply (fctx_same C s); [apply Hr|done| |exact U|].
    + intros [H1 _]. split; [by rewrite <- Ef|done].
    + intros _ k' Hk' Ek. cbn in Ek. lia.
  - eapply (hctx_same C s); [apply Hr|done|done|exact U|]. intros k' Hk' Ek. cbn in Ek. lia.
Qed.

Lemma sim_clear8 C s m' :
  crel C s -> chost C = TClear8 -> store 8 (fc + 64) 0 (cmem C) = Done (tt, m') -> sim (goes Host TCallSet m' C) s.
Proof.
  intros Hr Ht Hm. pose proof (host_plain C s Hr) as Hh. rewrite Ht in Hh.
  eapply (host_word C s _ _ m' 8 0 Hr (StepClear8 s Hh)); try done; try (by rewrite Hh).
  unfold hrel. cbn. by left.
Qed.

Lemma sim_set9 C s m' :
  crel C s -> chost C = TSet9 -> store 8 (fc + 72) 1 (cmem C) = Done (tt, m') -> sim (goes Host TPoll m' C) s.
Proof.
  intros Hr Ht Hm. pose proof (host_plain C s Hr) as Hh. rewrite Ht in Hh.
  eapply (host_word C s _ _ m' 9 1 Hr (StepSet9 s Hh)); try done; by rewrite Hh.
Qed.

Lemma called_host f m m' : calls f hc hsp ra_hset m m' -> called hc f hsp ra_hset.
Proof.
  intros (H1 & H2 & H3 & _). destruct (ly_hsp Hly) as (S1 & S2 & S3 & S4), (ly_ra Hly) as (_ & _ & Ra & _).
  split; try done. apply Hly.
Qed.

Lemma sim_call_set C s f z m' :
  crel C s -> chost C = TCallSet -> calls f hc hsp ra_hset (cmem C) m' ->
  sim (mkC m' (clock C) (cfriends C) (TIn RSet f z 0) (cran_host C) (cran_friend C) (cdone C)
      (call_regs C) (code_regs C) f) s.
Proof.
  intros Hr Ht Hc. pose proof (host_plain C s Hr) as Hh. rewrite Ht in Hh.
  pose proof (called_host _ _ _ Hc) as Hcd. destruct (ly_hsp Hly) as (S1 & S2 & S3 & S4).
  destruct (stored_slot _ _ _ _ (proj2 (proj2 (proj2 Hc))) S1 (mo_hsp _ (cr_mem _ _ Hr)) (ca_ra _ _ _ _ Hcd)) as [R U].
  pose proof (host_calm s (cr_inv _ _ Hr) ltac:(by rewrite Hh)) as Hcalm. destruct words_apart as (_ & _ & _ & N8 & N9).
  destruct Hr as [R1 R2 R3 R4 R5 R6 R7 R8 R9 R10]. apply sim_stays.
  split; cbn [cmem clock cfriends chost cran_host cran_friend cdone call_regs code_regs host_regs]; try done.
  - by eapply mem_ok_update.
  - by eapply keep_words.
  - apply (fctx_same C s s Host (TIn RSet f z 0) m' _ R7 eq_refl (fun x => x) U). intros _ k Hk Ek. cbn in Ek. lia.
  - intros i p t Hi Ht'. eapply frel_calm; [by eapply Hcalm|by apply R9].
  - unfold hrel. rewrite Hh. right. split; [done|]. by apply setting_begin.
Qed.

(** A store of the host to a slot of a stack. *)
Definition stack_slot (a : Z) : Prop := a = hsp \/ exists c, (c < n)%nat /\ a = sp c.

Lemma stack_slot_free a : stack_slot a -> free_slot a.
Proof. intros [->|(c & Hc & ->)]; [apply Hly|by apply (ly_sp Hly)]. Qed.

Lemma stack_slot_mapped m a : mem_ok m -> stack_slot a -> mapped m a 8.
Proof. intros Hm [->|(c & Hc & ->)]; [apply Hm|by apply (mo_sp _ Hm)]. Qed.

Lemma host_slot C s s' t' m' a :
  crel C s -> step s s' \/ s' = s -> lock s' = lock s -> friends s' = friends s ->
  ran_on_host s' = ran_on_host s -> ran_on_friend s' = ran_on_friend s -> completed s' = completed s ->
  word8 s' = word8 s -> word9 s' = word9 s -> friend_ctx s' = friend_ctx s -> hakase_ctx s' = hakase_ctx s ->
  (forall c, hakase s <> HSaveFriend c) -> hakase s <> HSave -> hakase s <> HPoll ->
  stack_slot a -> slot_update (cmem C) m' (fun b => b = a) ->
  hrel s' (goes Host t' m' C) -> sim (goes Host t' m' C) s.
Proof.
  intros Hr Hst El Ef E1 E2 E3 E8 E9 Ec Ehc Hn1 Hn2 Hn3 Ha U Hh.
  destruct (stack_slot_free a Ha) as (_ & _ & Sf & Sh).
  eapply (host_stores C s s' t' m' (fun b => b = a)); try done.
  - rewrite E8, E9. eapply keep_words; [apply Hr|exact U|intros Ek; cbn in Ek; lia|intros Ek; cbn in Ek; lia].
  - by right.
  - eapply (fctx_same C s); [apply Hr|done| |exact U|].
    + intros [H1 _]. split; [by rewrite <- Ef|done].
    + intros _ k Hk Ek. cbn in Ek. lia.
  - eapply (hctx_same C s); [apply Hr|done|done|exact U|]. intros k Hk Ek. cbn in Ek. lia.
Qed.

Lemma host_call C s t' m' a ra :
  crel C s -> (forall c, hakase s <> HSaveFriend c) -> hakase s <> HSave -> hakase s <> HPoll ->
  stack_slot a -> store 8 a ra (cmem C) = Done (tt, m') -> uint 64 ra ->
  hrel s (goes Host t' m' C) -> sim (goes Host t' m' C) s.
Proof.
  intros Hr Hn1 Hn2 Hn3 Ha Hm Hra Hh.
  destruct (stored_slot _ _ _ _ Hm (proj1 (stack_slot_free a Ha)) (stack_slot_mapped _ a (cr_mem _ _ Hr) Ha) Hra) as [_ U].
  eapply (host_slot C s s t' m' a Hr (or_intror eq_refl)); done.
Qed.

(** Back on the host. *)
Lemma host_back C s f a :
  crel C s -> chost C = TRet f a ->
  (exists c, hakase s = HCode c /\ (c < n)%nat /\ a = ra_wait /\ result f = 1 /\ resumes (call_regs C c) (sp c) f) \/
  (exists c, hakase s = HReturn /\ friend_ctx s = Some (c, AfterCode) /\ a = ra_set /\ result f = 0 /\ f RSP = sp c + 8) \/
  (hakase s = HJump /\ a = ra_hset /\ result f = 0 /\ f RSP = hsp + 8) \/
  (hakase s = HSet9 /\ a = ra_hset /\ result f = 1).
Proof.
  intros Hr Ht. at_host Hr. rewrite Ht in Hh. unfold result.
  destruct (hakase s) as [| | | |c|c| | |] eqn:Eh; try done.
  - destruct Hh as [Hh|[_ (f0 & z0 & q0 & Hh & _)]]; done.
  - right; right; left. destruct Hh as [[(f0 & z0 & q0 & Hh & _)|(f0 & Hh & Hax & Hsp)]|(c & _ & Hj)]; [done| |].
    + injection Hh as <- <-. by rewrite Hax.
    + by destruct (jumping_thread _ _ _ _ _ _ Hj) as (f1 & z1 & q1 & ?).
  - left. destruct Hh as (Hc & f0 & [Hh|Hh] & Hres); [|done]. injection Hh as <- <-. exists c. rewrite (proj1 Hres). by split_and!.
  - destruct Hh as (_ & _ & Hs). by destruct (setting_thread _ _ _ _ _ _ Hs) as (f1 & z1 & q1 & ?).
  - right; left. destruct Hh as [(c & Hc & [(f0 & z0 & q0 & Hh & _)|(f0 & Hh & Hax & Hsp)])|Hj]; [done| |].
    + injection Hh as <- <-. exists c. by rewrite Hax.
    + by destruct (jumping_thread _ _ _ _ _ _ Hj) as (f1 & z1 & q1 & ?).
  - right; right; right. destruct Hh as [(f0 & Hh & Hres)|Hh]; [|done]. injection Hh as <- <-. by rewrite (proj1 Hres).
Qed.

Lemma sim_after_wait C s f :
  crel C s -> chost C = TRet f ra_wait -> sim (goes Host (if result f =? 0 then TUnlock else TCode f) (cmem C) C) s.
Proof.
  intros Hr Ht. destruct (ly_sites Hly) as (N1 & N2 & N3).
  destruct (host_back C s f _ Hr Ht) as [(c & Hh & Hc & _ & Hf & Hres)|[(c & _ & _ & ? & _)|[(_ & ? & _)|(_ & ? & _)]]]; [|done..].
  rewrite Hf. eapply (host_quiet C s s _ Hr (or_intror eq_refl)); try done; try (by rewrite Hh).
  unfold hrel. rewrite Hh. split; [done|]. exists f. split; [by right|done].
Qed.

Lemma sim_after_host C s f :
  crel C s -> chost C = TRet f ra_hset -> result f <> 0 -> sim (goes Host TSet9 (cmem C) C) s.
Proof.
  intros Hr Ht Hn. destruct (ly_sites Hly) as (N1 & N2 & N3).
  destruct (host_back C s f _ Hr Ht) as [(c & _ & _ & ? & _)|[(c & _ & _ & ? & _)|[(_ & _ & ? & _)|(Hh & _ & _)]]]; [done..|].
  eapply (host_quiet C s s _ Hr (or_intror eq_refl)); try done; try (by rewrite Hh).
  unfold hrel. rewrite Hh. by right.
Qed.

(** The contexts when the host jumps. *)
Lemma jump_ctx C s :
  crel C s -> hakase s = HJump -> exists c, (c < n)%nat /\ friend_ctx s = Some (c, AfterWait) /\
    called fc (call_regs C c) (sp c) ra_wait /\ holds_context (cmem C) fc (context (call_regs C c) (sp c) ra_wait).
Proof.
  intros Hr Hh. pose proof (cr_inv _ _ Hr) as Hinv.
  assert (settled s) as Hset by (apply host_settled; [done|by rewrite Hh|by rewrite Hh]).
  destruct Hinv as [_ _ _ Hh' _ _ _|i p _ Hi Hp _ _]; [congruence|].
  assert (friend_ctx s = Some (i, AfterWait)) as Ec by (host_phase Hp; done).
  destruct (cr_fctx _ _ Hr i AfterWait Ec) as [Hc Hw]. exists i. split; [done|]. split; [done|]. by apply Hw.
Qed.

Lemma return_ctx C s :
  crel C s -> hakase s = HReturn -> hakase_ctx s = true /\ called hc (host_regs C) hsp ra_hset /\
    holds_context (cmem C) hc (context (host_regs C) hsp ra_hset).
Proof.
  intros Hr Hh. assert (hakase_ctx s = true) as Ht.
  { destruct (cr_inv _ _ Hr) as [_ _ _ Hh' _ _ _|i p _ Hi Hp _ _]; [congruence|]. host_phase Hp.
    destruct_or!; destruct_and?; congruence. }
  split; [done|]. apply (cr_hctx _ _ Hr Ht). by rewrite Hh.
Qed.

Lemma sim_jump C s f f' z m' :
  crel C s -> chost C = TRet f ra_hset -> result f = 0 ->
  calls f' fc (f RSP - 8) ra_long (cmem C) m' -> f' RSI = 1 -> sim (goes Host (TIn RLong f' z 0) m' C) s.
Proof.
  intros Hr Ht Hz (Hdi & _ & _ & Hst) Hsi. destruct (ly_sites Hly) as (N1 & N2 & N3).
  destruct (host_back C s f _ Hr Ht) as [(c & _ & _ & ? & _)|[(c & _ & _ & ? & _)|[(Hh & _ & _ & Esp)|(_ & _ & ?)]]]; [done..| |lia].
  rewrite Esp in Hst. replace (hsp + 8 - 8) with hsp in Hst by lia.
  eapply (host_call C s _ m' hsp ra_long Hr); try done; try (by rewrite Hh); [by left|apply Hly|].
  unfold hrel. rewrite Hh. right. destruct (jump_ctx C s Hr Hh) as (c & _ & Ec & _). exists c. split; [done|].
  left. by exists f', z.
Qed.

Lemma sim_jump_back C s f f' z m' :
  crel C s -> chost C = TRet f ra_set -> result f = 0 ->
  calls f' hc (f RSP - 8) ra_long (cmem C) m' -> f' RSI = 1 -> sim (goes Host (TIn RLong f' z 0) m' C) s.
Proof.
  intros Hr Ht Hz (Hdi & _ & _ & Hst) Hsi. destruct (ly_sites Hly) as (N1 & N2 & N3).
  destruct (host_back C s f _ Hr Ht) as [(c & _ & _ & ? & _)|[(c & Hh & Ec & _ & _ & Esp)|[(_ & ? & _)|(_ & ? & _)]]]; [done| |done..].
  rewrite Esp in Hst. replace (sp c + 8 - 8) with (sp c) in Hst by lia.
  eapply (host_call C s _ m' (sp c) ra_long Hr); try done; try (by rewrite Hh); [right|apply Hly|].
  - exists c. split; [|done]. by apply (cr_fctx _ _ Hr c AfterCode).
  - unfold hrel. rewrite Hh. right. left. by exists f', z.
Qed.

(** The code runs on the host, on the stack of the core [c], and calls
    [toshokan_setjmp]. *)
Lemma code_update C s c f' m1 m' :
  crel C s -> (c < n)%nat -> slot_update (cmem C) m1 (fun a => ~ protected c a) -> calls f' fc (sp c) ra_set m1 m' ->
  called fc f' (sp c) ra_set /\ read64 m' (sp c) = Some ra_set /\
  slot_update (cmem C) m' (fun a => ~ protected c a).
Proof.
  intros Hr Hc U1 Hcl. destruct (ly_ra Hly) as (_ & Rs & _ & _).
  pose proof (called_friend _ _ _ _ _ Hcl Hc Rs) as Hcd. destruct (sp_slot c Hc) as (Ss & S8 & Sf & Sh).
  destruct (stored_slot _ _ _ _ (proj2 (proj2 (proj2 Hcl))) Ss (mo_sp _ (mem_ok_update _ _ _ U1 (cr_mem _ _ Hr)) c Hc) Rs) as [R U].
  split_and!; [done|done|]. eapply slot_update_weaken, slot_update_trans; [|exact U1|exact U].
  intros a [Ha| ->]; [done|]. intros [(k & Hk & [E|E])|[E|(j & Hj & Hne & E)]].
  - lia.
  - lia.
  - by apply (proj2 (ly_sp Hly c Hc)).
  - by apply (ly_others Hly c j Hc Hj (not_eq_sym Hne)).
Qed.

Lemma protected_fc c k : 0 <= k < 10 -> protected c (fc + 8 * k).
Proof. intros Hk. left. exists k. auto. Qed.

Lemma protected_hc c k : 0 <= k < 10 -> protected c (hc + 8 * k).
Proof. intros Hk. left. exists k. auto. Qed.

Lemma sim_code C s f c f' z m1 m' :
  crel C s -> chost C = TCode f -> (c < n)%nat -> f RSP = sp c + 8 ->
  slot_update (cmem C) m1 (fun a => ~ protected c a) -> calls f' fc (sp c) ra_set m1 m' ->
  sim (mkC m' (clock C) (cfriends C) (TIn RSet f' z 0) (c :: cran_host C) (cran_friend C) (cdone C)
      (call_regs C) (set_at c f' (code_regs C)) (host_regs C)) s.
Proof.
  intros Hr Ht Hc Esp U1 Hcl. pose proof (host_plain C s Hr) as Hp. rewrite Ht in Hp.
  destruct Hp as (c' & Hh & Hc' & (_ & Esp' & _)).
  assert (c' = c) as ->. { destruct (decide (c' = c)) as [|Hne]; [done|]. pose proof (ly_others Hly c' c Hc' Hc Hne). lia. }
  destruct (code_update C s c f' m1 m' Hr Hc U1 Hcl) as (Hcd & R & U).
  pose proof (StepHCode c s Hh) as Hst. pose proof (step_inv _ _ (cr_inv _ _ Hr) Hst) as Hinv.
  pose proof (host_calm s (cr_inv _ _ Hr) ltac:(by rewrite Hh)) as Hcalm.
  eapply sim_step; [exact Hst|]. destruct Hr as [R1 R2 (G1 & G2 & G3) R4 R5 R6 R7 R8 R9 R10].
  split; cbn [cmem clock cfriends chost cran_host cran_friend cdone call_regs code_regs host_regs lock friends
    ran_on_host ran_on_friend completed word8 word9]; try done.
  - by rewrite G1.
  - by eapply mem_ok_update.
  - eapply keep_words; [exact R6|exact U|..]; intros Hn; apply Hn; [apply (protected_fc c 8)|apply (protected_fc c 9)]; lia.
  - intros c0 t Ec. split; [by apply (R7 c0 t)|]. intros [_ Hs]. by destruct (Hs c).
  - intros Hx _. apply (hctx_same C s s Host TPoll m' _ R8 eq_refl ltac:(by rewrite Hh) U); [|done|by rewrite Hh].
    intros k Hk Hn. apply Hn, protected_hc. lia.
  - intros i p t Hi Ht'. eapply frel_calm; [by eapply Hcalm|by apply R9].
  - unfold hrel. cbn [hakase]. unfold set_at. cbn [code_regs chost cmem]. rewrite decide_True by done.
    split; [done|]. split; [done|]. by apply setting_begin.
Qed.

(** An instruction of the host in [toshokan_setjmp], on its own context. *)
Lemma sim_host_saves C s f z q ins f' z' q' m' :
  crel C s -> hakase s = HSave -> chost C = TIn RSet f z q -> toshokan_setjmp !! q = Some ins ->
  exec_instr ins (M_ f z q (cmem C)) = Done (M_ f' z' q' m', None) ->
  called hc (host_regs C) hsp ra_hset -> setting hc (host_regs C) hsp ra_hset (chost C) (cmem C) ->
  sim (goes Host (TIn RSet f' z' q') m' C) s.
Proof.
  intros Hr Hh Ht Hins E Hcd Hs. pose proof (ly_apart Hly).
  destruct (setting_instr _ _ _ _ Hcd _ _ _ _ _ _ _ _ _ _ Hs Ht (mo_hc _ (cr_mem _ _ Hr)) Hins E) as [U Hcase].
  assert (read64 m' (fc + 64) = Some (word8 s) /\ read64 m' (fc + 72) = Some (word9 s)) as Hw.
  { eapply keep_words; [apply Hr|exact U|..]; intros (k & Hk & Ek); lia. }
  assert (forall s', friends s' = friends s -> friend_ctx s' = friend_ctx s ->
    fctx_ok (goes Host (TIn RSet f' z' q') m' C) s') as Hfc.
  { intros s' Ef Ec. eapply (fctx_same C s); [apply Hr|done| |exact U|].
    - intros [H1 _]. split; [by rewrite <- Ef|by rewrite Hh].
    - intros _ k Hk (k' & Hk' & Ek). lia. }
  destruct Hcase as [Hs'|[Hws Hctx]].
  - eapply (host_stores C s s _ m' _ Hr (or_intror eq_refl)); try done.
    + right. by rewrite Hh.
    + by apply Hfc.
    + unfold hrel. rewrite Hh. by right.
  - eapply (host_stores C s _ _ m' _ Hr (or_introl (StepHSave s Hh))); try done.
    + right. by rewrite Hh.
    + by apply Hfc.
    + unfold hrel. cbn [hakase]. by left.
Qed.

(** The same on the context of the core whose code it ran. *)
Lemma sim_host_saves_friend C s c f z q ins f' z' q' m' :
  crel C s -> hakase s = HSaveFriend c -> chost C = TIn RSet f z q -> toshokan_setjmp !! q = Some ins ->
  exec_instr ins (M_ f z q (cmem C)) = Done (M_ f' z' q' m', None) -> (c < n)%nat ->
  called fc (code_regs C c) (sp c) ra_set -> setting fc (code_regs C c) (sp c) ra_set (chost C) (cmem C) ->
  sim (goes Host (TIn RSet f' z' q') m' C) s.
Proof.
  intros Hr Hh Ht Hins E Hc Hcd Hs. pose proof (ly_apart Hly).
  destruct (setting_instr _ _ _ _ Hcd _ _ _ _ _ _ _ _ _ _ Hs Ht (mo_fc _ (cr_mem _ _ Hr)) Hins E) as [U Hcase].
  assert (read64 m' (fc + 64) = Some (word8 s) /\ read64 m' (fc + 72) = Some (word9 s)) as Hw.
  { eapply keep_words; [apply Hr|exact U|..]; intros (k & Hk & Ek); lia. }
  assert (forall s', hakase_ctx s' = hakase_ctx s -> hctx_ok (goes Host (TIn RSet f' z' q') m' C) s') as Hhc.
  { intros s' Ec. eapply (hctx_same C s); [apply Hr|done|by rewrite Hh|exact U|]. intros k Hk (k' & Hk' & Ek). lia. }
  destruct Hcase as [Hs'|[Hws Hctx]].
  - eapply (host_stores C s s _ m' _ Hr (or_intror eq_refl)); try done.
    + right. by rewrite Hh.
    + intros c0 t Ec. split; [by apply (cr_fctx _ _ Hr c0 t)|]. intros [_ Hset]. by destruct (Hset c).
    + by apply Hhc.
    + unfold hrel. by rewrite Hh.
  - eapply (host_stores C s _ _ m' _ Hr (or_introl (StepSaveFriend c s Hh))); try done.
    + right. by rewrite Hh.
    + intros c0 t [= <- <-]. by split.
    + by apply Hhc.
    + unfold hrel. cbn [hakase]. left. by exists c.
Qed.

Lemma was_set_routine sl ra rt f z q m : was_set sl ra (TIn rt f z q) m -> rt = RSet.
Proof. intros [(f0 & z0 & q0 & E & _)|(f0 & E & _)]; [by injection E|done]. Qed.

Lemma jumping_routine env g sl ra rt f z q m : jumping env g sl ra (TIn rt f z q) m -> rt = RLong.
Proof. intros [(f0 & z0 & E & _)|(f0 & z0 & j & E & _)]; by injection E. Qed.

Lemma setting_routine env g sl ra rt f z q m : setting env g sl ra (TIn rt f z q) m -> rt = RSet.
Proof. intros (f0 & z0 & q0 & E & _). by injection E. Qed.

(** [toshokan_longjmp] on the host to the context of the core that waits. *)
Lemma sim_host_jumps C s c f z q ins f' z' q' m' :
  crel C s -> hakase s = HJump -> friend_ctx s = Some (c, AfterWait) ->
  chost C = TIn RLong f z q -> toshokan_longjmp !! q = Some ins ->
  exec_instr ins (M_ f z q (cmem C)) = Done (M_ f' z' q' m', None) ->
  jumping fc (call_regs C c) (sp c) ra_wait (chost C) (cmem C) ->
  sim (goes Host (TIn RLong f' z' q') m' C) s.
Proof.
  intros Hr Hh Ec Ht Hins E Hj. destruct (jump_ctx C s Hr Hh) as (c' & Hc & Ec' & Hcd & Hw).
  assert (c' = c) as -> by congruence.
  destruct (jumping_instr _ _ _ _ Hcd _ _ _ _ _ _ _ _ _ _ Hj Ht Hw (mo_sp _ (cr_mem _ _ Hr) c Hc) Hins E) as [U Hj'].
  eapply (host_slot C s s _ m' (sp c) Hr (or_intror eq_refl)); try done; try (by rewrite Hh).
  - right. by exists c.
  - unfold hrel. rewrite Hh. right. by exists c.
Qed.

(** [toshokan_longjmp] on the host back to its own context. *)
Lemma sim_host_jumps_back C s f z q ins f' z' q' m' :
  crel C s -> hakase s = HReturn -> chost C = TIn RLong f z q -> toshokan_longjmp !! q = Some ins ->
  exec_instr ins (M_ f z q (cmem C)) = Done (M_ f' z' q' m', None) ->
  jumping hc (host_regs C) hsp ra_hset (chost C) (cmem C) ->
  sim (goes Host (TIn RLong f' z' q') m' C) s.
Proof.
  intros Hr Hh Ht Hins E Hj. destruct (return_ctx C s Hr Hh) as (Hx & Hcd & Hw).
  destruct (jumping_instr _ _ _ _ Hcd _ _ _ _ _ _ _ _ _ _ Hj Ht Hw (mo_hsp _ (cr_mem _ _ Hr)) Hins E) as [U Hj'].
  eapply (host_slot C s s _ m' hsp Hr (or_intror eq_refl)); try done; try (by rewrite Hh).
  - by left.
  - unfold hrel. rewrite Hh. by right.
Qed.

Lemma sim_host_stays C s t' :
  crel C s -> hakase s = HJump \/ hakase s = HReturn -> hrel s (goes Host t' (cmem C) C) -> sim (goes Host t' (cmem C) C) s.
Proof.
  intros Hr Hh Hh'. eapply (host_quiet C s s _ Hr (or_intror eq_refl)); try done; by destruct Hh as [-> | ->].
Qed.

Lemma sim_host_instr C s rt f z q ins f' z' q' m' :
  crel C s -> chost C = TIn rt f z q -> code_of rt !! q = Some ins ->
  exec_instr ins (M_ f z q (cmem C)) = Done (M_ f' z' q' m', None) ->
  sim (goes Host (TIn rt f' z' q') m' C) s.
Proof.
  intros Hr Ht Hins E. at_host Hr. destruct (hakase s) as [| | | |c|c| | |] eqn:Eh; [congruence|congruence|..].
  - destruct Hh as [Hh|[Hcd Hs]]; [congruence|]. pose proof Hs as Hrt. rewrite Ht in Hrt. apply setting_routine in Hrt as ->.
    by eapply sim_host_saves.
  - destruct Hh as [Hw|(c & Ec & Hj)].
    + pose proof Hw as Hrt. rewrite Ht in Hrt. apply was_set_routine in Hrt as ->.
      destruct (was_set_instr _ _ _ _ _ _ _ _ _ _ _ _ Hw Ht Hins E) as [-> Hw'].
      apply sim_host_stays; [done|by left|]. unfold hrel. rewrite Eh. by left.
    + pose proof Hj as Hrt. rewrite Ht in Hrt. apply jumping_routine in Hrt as ->. by eapply sim_host_jumps.
  - destruct Hh as (_ & f0 & [Hh|Hh] & _); congruence.
  - destruct Hh as (Hc & Hcd & Hs). pose proof Hs as Hrt. rewrite Ht in Hrt. apply setting_routine in Hrt as ->.
    by eapply sim_host_saves_friend.
  - destruct Hh as [(c & Ec & Hw)|Hj].
    + pose proof Hw as Hrt. rewrite Ht in Hrt. apply was_set_routine in Hrt as ->.
      destruct (was_set_instr _ _ _ _ _ _ _ _ _ _ _ _ Hw Ht Hins E) as [-> Hw'].
      apply sim_host_stays; [done|by right|]. unfold hrel. rewrite Eh. left. by exists c.
    + pose proof Hj as Hrt. rewrite Ht in Hrt. apply jumping_routine in Hrt as ->. by eapply sim_host_jumps_back.
  - destruct Hh as [(f0 & Hh & _)|Hh]; congruence.
  - done.
Qed.

Lemma sim_host_return C s rt f z q ins f' z' q' m' a :
  crel C s -> chost C = TIn rt f z q -> code_of rt !! q = Some ins ->
  exec_instr ins (M_ f z q (cmem C)) = Done (M_ f' z' q' m', Some a) ->
  sim (goes Host (TRet f' a) m' C) s.
Proof.
  intros Hr Ht Hins E. at_host Hr. destruct (hakase s) as [| | | |c|c| | |] eqn:Eh; [congruence|congruence|..].
  - destruct Hh as [Hh|[Hcd Hs]]; [congruence|]. pose proof Hs as Hrt. rewrite Ht in Hrt. apply setting_routine in Hrt as ->.
    by destruct (setting_no_return _ _ _ _ _ _ _ _ _ _ _ _ Hs Ht Hins E).
  - destruct (jump_ctx C s Hr Eh) as (c & Hc & Ec & Hcd & Hctx). destruct Hh as [Hw|(c' & Ec' & Hj)].
    + pose proof Hw as Hrt. rewrite Ht in Hrt. apply was_set_routine in Hrt as ->.
      assert (called hc (host_regs C) hsp ra_hset) as Hhc.
      { assert (hakase_ctx s = true) as Hx; [|apply (cr_hctx _ _ Hr Hx); by rewrite Eh].
        destruct (cr_inv _ _ Hr) as [_ _ _ Hh' _ _ _|i p _ Hi Hp _ _]; [congruence|]. host_phase Hp.
        destruct_or!; destruct_and?; congruence. }
      destruct (was_set_return _ _ _ _ Hhc _ _ _ _ _ _ _ _ _ _ _ Hw Ht Hins E) as (-> & -> & Hw').
      apply sim_host_stays; [done|by left|]. unfold hrel. rewrite Eh. by left.
    + pose proof Hj as Hrt. rewrite Ht in Hrt. apply jumping_routine in Hrt as ->. assert (c' = c) as -> by congruence.
      destruct (jumping_return _ _ _ _ Hcd _ _ _ _ _ _ _ _ _ _ _ Hj Ht Hins E) as (-> & -> & Hres).
      eapply (host_quiet C s _ _ Hr (or_introl (StepJump c AfterWait s Eh Ec))); try done; try (by rewrite Eh).
      unfold hrel. cbn [hakase goes chost]. split; [done|]. exists f'. split; [by left|done].
  - destruct Hh as (_ & f0 & [Hh|Hh] & _); congruence.
  - destruct Hh as (Hc & Hcd & Hs). pose proof Hs as Hrt. rewrite Ht in Hrt. apply setting_routine in Hrt as ->.
    by destruct (setting_no_return _ _ _ _ _ _ _ _ _ _ _ _ Hs Ht Hins E).
  - destruct (return_ctx C s Hr Eh) as (Hx & Hcd & Hctx). destruct Hh as [(c & Ec & Hw)|Hj].
    + pose proof Hw as Hrt. rewrite Ht in Hrt. apply was_set_routine in Hrt as ->.
      destruct (cr_fctx _ _ Hr c AfterCode Ec) as [Hc Hw2].
      destruct (Hw2 ltac:(apply host_settled; [apply Hr|by rewrite Eh|by rewrite Eh])) as [Hcd2 _].
      destruct (was_set_return _ _ _ _ Hcd2 _ _ _ _ _ _ _ _ _ _ _ Hw Ht Hins E) as (-> & -> & Hw').
      apply sim_host_stays; [done|by right|]. unfold hrel. rewrite Eh. left. by exists c.
    + pose proof Hj as Hrt. rewrite Ht in Hrt. apply jumping_routine in Hrt as ->.
      destruct (jumping_return _ _ _ _ Hcd _ _ _ _ _ _ _ _ _ _ _ Hj Ht Hins E) as (-> & -> & Hres).
      eapply (host_quiet C s _ _ Hr (or_introl (StepReturn s Eh Hx))); try done; try (by rewrite Eh).
      unfold hrel. cbn [hakase goes chost]. left. by exists f'.
  - destruct Hh as [(f0 & Hh & _)|Hh]; congruence.
  - done.
Qed.

(** *** Every step of the machine is a run of [Protocol] *)

Lemma cstep_sim C C' s : crel C s -> cstep C C' -> sim C' s.
Proof.
  intros Hr Hst. destruct (ly_sites Hly) as (N1 & N2 & N3).
  destruct Hst as [i C Ht|i C Ht|i C Ht|i f z m' C Ht Hc|w rt f z q ins f' z' q' m' C Ht Hi E|w rt f z q ins f' z' q' m' a C Ht Hi E
    |w f C Ht|w f C Ht Hn|w f f' z m' C Ht Hz Hc Hsi|w f C Ht Hn|w f f' z m' C Ht Hz Hc Hsi|w f c f' z m1 m' C Ht Hc Esp U Hcl
    |i C Ht|v C Ht Hv|m' C Ht Hm|f z m' C Ht Hc|m' C Ht Hm].
  - by apply sim_begin.
  - by apply sim_test.
  - by apply sim_cas.
  - by apply sim_call_wait.
  - destruct w as [i|]; [by eapply sim_friend_instr|]. injection Ht as Ht. by eapply sim_host_instr.
  - destruct w as [i|]; [by eapply sim_friend_return|]. injection Ht as Ht. by eapply sim_host_return.
  - destruct w as [i|]; [by destruct (friend_back C s i f _ Hr Ht)|]. injection Ht as Ht. by apply sim_after_wait.
  - destruct w as [i|].
    + destruct (friend_back C s i f _ Hr Ht) as (_ & _ & Hp & _). eapply sim_friend_stays; [done|exact Hp|done|]. by right; right.
    + injection Ht as Ht. by destruct (host_back C s f _ Hr Ht) as
        [(c & _ & _ & ? & _)|[(c & _ & _ & _ & ? & _)|[(_ & ? & _)|(_ & ? & _)]]].
  - destruct w as [i|]; [destruct (friend_back C s i f _ Hr Ht) as (_ & ? & _); lia|]. injection Ht as Ht. by eapply sim_jump_back.
  - destruct w as [i|]; [by destruct (friend_back C s i f _ Hr Ht)|]. injection Ht as Ht. by eapply sim_after_host.
  - destruct w as [i|]; [by destruct (friend_back C s i f _ Hr Ht)|]. injection Ht as Ht. by eapply sim_jump.
  - destruct w as [i|].
    + destruct (crel_friend C s i _ Hr Ht) as (p & _ & _ & Hf). destruct p; cbn [frel] in Hf; try done; naive_solver.
    + injection Ht as Ht. by eapply sim_code.
  - by apply sim_unlock.
  - injection Ht as Ht. by apply sim_poll.
  - injection Ht as Ht. by apply sim_clear8.
  - injection Ht as Ht. by apply sim_call_set.
  - injection Ht as Ht. by apply sim_set9.
Qed.

Lemma csteps_sim C C' s : rtc cstep C C' -> crel C s -> exists s', rtc step s s' /\ crel C' s'.
Proof.
  intros Hs. revert s. induction Hs as [C|C1 C2 C3 H12 _ IH]; intros s Hr; [exists s; split; [apply rtc_refl|done]|].
  destruct (cstep_sim C1 C2 s Hr H12) as (s1 & S1 & R1). destruct (IH s1 R1) as (s2 & S2 & R2).
  exists s2. split; [by etrans|done].
Qed.

(** The machine at the start: nobody in a macro, words 8 and 9 clear. *)
Definition cinit (m : mem) (cr kr : nat -> reg -> Z) (hr : reg -> Z) : cstate :=
  mkC m 0 (replicate n TIdle) TPoll [] [] [] cr kr hr.

Record starts (m : mem) : Prop := {
  st_mem : mem_ok m;
  st_8 : read64 m (fc + 64) = Some 0;
  st_9 : read64 m (fc + 72) = Some 0
}.

Lemma init_crel m cr kr hr : starts m -> crel (cinit m cr kr hr) (init n).
Proof.
  intros [H1 H2 H3]. split; cbn [cinit init cmem clock cfriends chost cran_host cran_friend cdone lock friends
    ran_on_host ran_on_friend completed word8 word9]; try done.
  - apply init_inv.
  - by rewrite !length_replicate.
  - intros i p t Hp Ht. apply lookup_replicate in Hp as [-> _]. by apply lookup_replicate in Ht as [-> _].
Qed.

(** *** No instruction faults *)

(** The next instruction of a processor in a routine executes. *)
Definition runs (rt : routine) (f : reg -> Z) (z : bool) (q : nat) (m : mem) : Prop :=
  exists ins r, code_of rt !! q = Some ins /\ exec_instr ins (M_ f z q m) = Done r.

Lemma ret_runs f z q m sl ra : f RSP = sl -> read64 m sl = Some ra -> exists r, exec_instr Ret (M_ f z q m) = Done r.
Proof. intros E Hr. cbn. rewrite E, (load_slot _ _ _ Hr). eauto. Qed.

Lemma friend_runs C s i rt f z q : crel C s -> cfriends C !! i = Some (TIn rt f z q) -> runs rt f z q (cmem C).
Proof.
  intros Hr Ht. destruct (crel_friend C s i _ Hr Ht) as (p & Hp & Hi & Hf). unfold runs.
  pose proof (friend_routine _ _ _ _ _ _ _ _ _ Hf) as ->. cbn [code_of]. pose proof (mo_fc _ (cr_mem _ _ Hr)) as Hm.
  destruct p; cbn [frel] in Hf; try done.
  - destruct Hf as [Hf|(f0 & z0 & q0 & Hf & Hq & Hcd & Hs & Hra)]; [done|]. injection Hf as <- <- <-.
    destruct (lookup_lt_is_Some_2 save_context q ltac:(cbn; lia)) as [ins Hins]. exists ins.
    destruct (saving_step fc _ (sp i) ra_wait Hcd f q _ z ins Hs Hm Hra Hins) as (f1 & m1 & E1 & _).
    rewrite wait_code_save by done. eauto.
  - destruct Hf as (f0 & z0 & Hf & Hdi). injection Hf as <- <- ->.
    destruct (exec_store_imm f z 10 (cmem C) 1 64 RDI fc 8 Hdi (ly_fc Hly) Hm) as (m1 & E1 & _); [done|lia|done|]. eauto.
  - destruct Hf as (f0 & z0 & q0 & Hf & Hdi & Hq). injection Hf as <- <- <-.
    destruct Hq as [->|[->|[-> ->]]]; eexists; [by eexists; split| |by eexists; split].
    assert (ea (M_ f z 12 (cmem C)) 72 RDI = fc + 72) as Ea.
    { destruct (ly_fc Hly) as (? & _ & ?). rewrite ea_eq; rewrite Hdi; [done|lia]. }
    eexists. split; [reflexivity|]. unfold exec_instr. rewrite Ea. cbn [memory].
    by rewrite (load_slot _ _ _ (proj2 (cr_words _ _ Hr))).
  - destruct Hf as (f0 & z0 & q0 & Hf & [(Hq & Hz & Hdi)|(j & rax & Hq & Hj & Hl)]); injection Hf as <- <- <-; subst q;
      [by eexists _, _; split|].
    destruct (released_ctx C s i Hr Hp) as (Ec & Hcd & Hw). destruct (sp_slot i Hi) as (Ss & S8 & Sf & Sh).
    destruct (lookup_lt_is_Some_2 load_context j ltac:(cbn; lia)) as [ins Hins]. exists ins.
    destruct (loading_step fc _ (sp i) ra_set rax (ly_fc Hly) (conj Ss S8) (ca_ra _ _ _ _ Hcd) Sf f j _ z (14 + j) ins Hl
      (mo_sp _ (cr_mem _ _ Hr) i Hi) Hins) as (f1 & m1 & E1 & _).
    rewrite wait_code_load by done. eauto.
  - destruct Hf as (f0 & z0 & Hf & Hdi & Hla & Hra). injection Hf as <- <- ->.
    destruct (exec_store_imm f z 22 (cmem C) 0 72 RDI fc 9 Hdi (ly_fc Hly) Hm) as (m1 & E1 & _); [done|lia|done|]. eauto.
  - destruct Hf as [(f0 & z0 & q0 & Hf & [L1 L2] & Hra & Hq)|[(f0 & Hf & _)|Hf]]; [|done|done]. injection Hf as <- <- <-.
    destruct Hq as [->|[-> _]]; [by eexists _, _; split|]. destruct (ret_runs f z 24 (cmem C) _ _ L1 Hra) as [r Er]. eauto.
Qed.

Lemma setting_runs env g sl ra rt f z q m :
  called env g sl ra -> mapped m env 80 -> setting env g sl ra (TIn rt f z q) m -> runs rt f z q m.
Proof.
  intros Hcd Hm (f0 & z0 & q0 & E & Hq & Hs & Hr). injection E as -> <- <- <-.
  destruct (lookup_lt_is_Some_2 save_context q ltac:(cbn; lia)) as [ins Hins].
  destruct (saving_step env g sl ra Hcd f q m z ins Hs Hm Hr Hins) as (f1 & m1 & E1 & _).
  exists ins. eexists. split; [|exact E1]. cbn [code_of]. unfold toshokan_setjmp. by rewrite lookup_app_l by (cbn; lia).
Qed.

Lemma was_set_runs sl ra rt f z q m : was_set sl ra (TIn rt f z q) m -> runs rt f z q m.
Proof.
  intros [(f0 & z0 & q0 & E & Esp & Hr & Hq)|(f0 & E & _)]; [|done]. injection E as -> <- <- <-.
  destruct Hq as [->|[-> _]]; [by eexists _, _; split|]. destruct (ret_runs f z 11 m _ _ Esp Hr) as [r Er].
  exists Ret, r. by split.
Qed.

Lemma jumping_runs env g sl ra rt f z q m :
  called env g sl ra -> mapped m sl 8 -> jumping env g sl ra (TIn rt f z q) m -> runs rt f z q m.
Proof.
  intros [_ _ Hb Hsp Hra Hsep _] Hm [(f0 & z0 & E & _)|(f0 & z0 & j & E & Hj & Hl)]; injection E as -> <- <- ->;
    [by eexists _, _; split|].
  unfold runs. change (code_of RLong !! S j) with ((load_context ++ [Ret]) !! j). destruct (decide (j = 8%nat)) as [->|Hne].
  - destruct (la_pushed _ _ _ _ _ _ _ _ Hl ltac:(lia)) as [E1 E2].
    destruct (ret_runs f z 9 m _ _ E1 E2) as [r Er]. exists Ret, r. by split.
  - destruct (lookup_lt_is_Some_2 load_context j ltac:(cbn; lia)) as [ins Hins]. exists ins.
    destruct (loading_step env g sl ra 1 Hb Hsp Hra Hsep f j m z (S j) ins Hl Hm Hins) as (f1 & m1 & E1 & _).
    eexists. split; [|exact E1]. by rewrite lookup_app_l by (cbn; lia).
Qed.

Lemma host_runs C s rt f z q : crel C s -> chost C = TIn rt f z q -> runs rt f z q (cmem C).
Proof.
  intros Hr Ht. at_host Hr. rewrite Ht in Hh. destruct (cr_mem _ _ Hr) as [M1 M2 M3 M4].
  destruct (hakase s) as [| | | |c|c| | |] eqn:Eh; try done.
  - destruct Hh as [Hh|[Hcd Hs]]; [done|]. by eapply setting_runs.
  - destruct (jump_ctx C s Hr Eh) as (c & Hc & Ec & Hcd & _). destruct Hh as [Hw|(c' & Ec' & Hj)]; [by eapply was_set_runs|].
    assert (c' = c) as -> by congruence. eapply jumping_runs; [exact Hcd|by apply M3|exact Hj].
  - by destruct Hh as (_ & f0 & [Hh|Hh] & _).
  - destruct Hh as (_ & Hcd & Hs). by eapply setting_runs.
  - destruct (return_ctx C s Hr Eh) as (_ & Hcd & _). destruct Hh as [(c & _ & Hw)|Hj]; [by eapply was_set_runs|].
    by eapply jumping_runs.
  - by destruct Hh as [(f0 & Hh & _)|Hh].
Qed.

(** What the words and the logs of the two levels agree on. *)
Definition shows (C : cstate) (s : state) : Prop :=
  clock C = lock s /\ read64 (cmem C) (fc + 64) = Some (word8 s) /\ read64 (cmem C) (fc + 72) = Some (word9 s) /\
  cran_host C = ran_on_host s /\ cran_friend C = ran_on_friend s /\ cdone C = completed s.

Lemma crel_shows C s : crel C s -> shows C s.
Proof. intros Hr. destruct (cr_logs _ _ Hr) as (H1 & H2 & H3), (cr_words _ _ Hr) as [H4 H5]. split_and!; try done. apply Hr. Qed.

(** C4: every run of the processors, one instruction of offload.S at a time and in any
    interleaving, with the C code of [_OFFLOAD] and [TryReceive] between the calls, is a
    run of the hand-over protocol: the lock, words 8 and 9 and the logs are those of a
    reachable state of it.  And the contexts that change hands are the right ones: where
    the offloaded code runs, it runs on the host with the callee-saved registers and the
    stack of a core's call of [toshokan_setjmp_with_wait]; a core that comes back has
    those its code had at [toshokan_setjmp], with result 1; and the host that comes back
    into [TryReceive] for the second time has those of its own call.  In no run does an
    instruction fault or a routine run past its end: the next instruction of a processor
    in a routine always exists and executes. *)
Theorem instructions_refine_protocol m cr kr hr C :
  starts m -> rtc cstep (cinit m cr kr hr) C ->
  exists s, steps (init n) s /\ shows C s /\
    (forall w f, thread_of w C = Some (TCode f) -> w = Host /\
       exists c, (c < n)%nat /\ hakase s = HCode c /\ resumes (call_regs C c) (sp c) f) /\
    (forall i f a, cfriends C !! i = Some (TRet f a) ->
       friends s !! i = Some FUnlock /\ a = ra_set /\ resumes (code_regs C i) (sp i) f) /\
    (forall f, chost C = TRet f ra_hset -> result f <> 0 -> hakase s = HSet9 /\ resumes (host_regs C) hsp f) /\
    (forall w rt f z q, thread_of w C = Some (TIn rt f z q) -> runs rt f z q (cmem C)).
Proof.
  intros Hm Hs. destruct (csteps_sim _ _ _ Hs (init_crel m cr kr hr Hm)) as (s & Hst & Hr).
  exists s. split; [done|]. split; [by apply crel_shows|]. split_and!.
  - intros [i|] f Ht.
    + destruct (crel_friend C s i _ Hr Ht) as (p & _ & _ & Hf). destruct p; cbn [frel] in Hf; try done; naive_solver.
    + injection Ht as Ht. split; [done|]. pose proof (host_plain C s Hr) as Hp. rewrite Ht in Hp.
      destruct Hp as (c & Hh & Hc & Hres). by exists c.
  - intros i f a Ht. destruct (friend_back C s i f a Hr Ht) as (-> & _ & Hp & Hres). done.
  - intros f Ht Hn. destruct (ly_sites Hly) as (N1 & N2 & N3). pose proof (cr_host _ _ Hr) as Hh. unfold hrel in Hh.
    destruct (host_back C s f _ Hr Ht) as [(c & _ & _ & ? & _)|[(c & _ & _ & ? & _)|[(_ & _ & ? & _)|(E & _ & _)]]]; [done..|].
    split; [done|]. rewrite E, Ht in Hh. destruct Hh as [(f0 & Hh & Hres)|Hh]; [|done]. by injection Hh as <-.
  - intros [i|] rt f z q Ht; [by apply (friend_runs C s i)|]. injection Ht as Ht. by apply (host_runs C s).
Qed.
End Simulation.

(** ** The machine, executable *)

(** A call at which the registers that are not for the call are those of [g]. *)
Definition call (g : reg -> Z) (env sl ra : Z) (m : mem) : option ((reg -> Z) * mem) :=
  match store 8 sl ra m with
  | Done (_, m') =>
      if ((0 <=? sl) && (sl <? 2 ^ 64))%bool then Some (set_reg RDI env (set_reg RSI 1 (set_reg RSP sl g)), m') else None
  | Fault _ => None
  end.

(** The core whose stack a processor is on. *)
Definition core_of (f : reg -> Z) : option nat := fst <$> list_find (fun c => sp c + 8 = f RSP) (seq 0 n).

(** One step of the processor [w]; [g] is used at calls, and the offloaded code leaves
    the memory alone. *)
Definition cexec (w : who) (g : reg -> Z) (s : cstate) : option cstate :=
  match thread_of w s, w with
  | Some TIdle, Friend i => Some (goes w TTest (cmem s) s)
  | Some TTest, Friend i => Some (goes w (if clock s =? 0 then TCas else TTest) (cmem s) s)
  | Some TCas, Friend i => Some (mkC (cmem s) (if clock s =? 0 then 1 else clock s)
      (<[i := if clock s =? 0 then TCallWait else TTest]> (cfriends s)) (chost s) (cran_host s) (cran_friend s)
      (cdone s) (call_regs s) (code_regs s) (host_regs s))
  | Some TCallWait, Friend i =>
      '(f, m') ← call g fc (sp i) ra_wait (cmem s);
      Some (mkC m' (clock s) (<[i := TIn RWait f false 0]> (cfriends s)) (chost s)
        (cran_host s) (cran_friend s) (cdone s) (set_at i f (call_regs s)) (code_regs s) (host_regs s))
  | Some (TIn rt f z q), _ =>
      ins ← code_of rt !! q;
      match exec_instr ins (M_ f z q (cmem s)) with
      | Done (mkMachine f' z' q' m', None) => Some (goes w (TIn rt f' z' q') m' s)
      | Done (mkMachine f' _ _ m', Some a) => Some (goes w (TRet f' a) m' s)
      | Fault _ => None
      end
  | Some (TRet f a), _ =>
      if a =? ra_wait then Some (goes w (if result f =? 0 then TUnlock else TCode f) (cmem s) s)
      else if a =? ra_set then
        if result f =? 0 then '(f', m') ← call g hc (f RSP - 8) ra_long (cmem s); Some (goes w (TIn RLong f' false 0) m' s)
        else Some (goes w TUnlock (cmem s) s)
      else if a =? ra_hset then
        if result f =? 0 then '(f', m') ← call g fc (f RSP - 8) ra_long (cmem s); Some (goes w (TIn RLong f' false 0) m' s)
        else Some (goes w TSet9 (cmem s) s)
      else None
  | Some (TCode f), Host =>
      c ← core_of f; '(f', m') ← call g fc (sp c) ra_set (cmem s);
      Some (mkC m' (clock s) (cfriends s) (TIn RSet f' false 0) (c :: cran_host s)
        (cran_friend s) (cdone s) (call_regs s) (set_at c f' (code_regs s)) (host_regs s))
  | Some TUnlock, Friend i => Some (mkC (cmem s) 0 (<[i := TIdle]> (cfriends s)) (chost s) (cran_host s) (cran_friend s)
      (i :: cdone s) (call_regs s) (code_regs s) (host_regs s))
  | Some TPoll, Host => v ← read64 (cmem s) (fc + 64); Some (goes Host (if v =? 0 then TPoll else TClear8) (cmem s) s)
  | Some TClear8, Host =>
      match store 8 (fc + 64) 0 (cmem s) with Done (_, m') => Some (goes Host TCallSet m' s) | Fault _ => None end
  | Some TCallSet, Host =>
      '(f, m') ← call g hc hsp ra_hset (cmem s);
      Some (mkC m' (clock s) (cfriends s) (TIn RSet f false 0) (cran_host s) (cran_friend s)
        (cdone s) (call_regs s) (code_regs s) f)
  | Some TSet9, Host =>
      match store 8 (fc + 72) 1 (cmem s) with Done (_, m') => Some (goes Host TPoll m' s) | Fault _ => None end
  | _, _ => None
  end.

(** A run under a schedule. *)
Fixpoint cexecs (l : list who) (g : reg -> Z) (s : cstate) : option cstate :=
  match l with
  | [] => Some s
  | w :: l' => s' ← cexec w g s; cexecs l' g s'
  end.

Section Executable.
Context (Hly : layout) (g : reg -> Z) (Hg : forall r, uint 64 (g r)).

Lemma call_sound env sl ra m f m' :
  block env -> call g env sl ra m = Some (f, m') -> calls f env sl ra m m' /\ f RSI = 1.
Proof.
  intros (H1 & _ & H2) E. unfold call in E. destruct (store 8 sl ra m) as [[[] m1]|] eqn:Es; [|done].
  destruct ((0 <=? sl) && (sl <? 2 ^ 64))%bool eqn:Eb; [|done]. injection E as <- <-.
  apply andb_true_iff in Eb as [B1 B2]. apply Z.leb_le in B1. apply Z.ltb_lt in B2.
  split; [|done]. split_and!; [done|done| |done]. intros r. unfold set_reg. repeat case_decide; try apply Hg; unfold uint; lia.
Qed.

Lemma core_of_sound f c : core_of f = Some c -> (c < n)%nat /\ f RSP = sp c + 8.
Proof.
  unfold core_of. destruct (list_find _ _) as [[k x]|] eqn:E; [|done]. cbn. intros [= ->].
  apply list_find_Some in E as (H1 & H2 & _). apply lookup_seq in H1 as [-> H1]. cbn in H2. split; [done|]. lia.
Qed.

Lemma cexec_routine w rt f z q s s' :
  thread_of w s = Some (TIn rt f z q) -> cexec w g s = Some s' -> cstep s s'.
Proof.
  intros Ht E. unfold cexec in E. rewrite Ht in E. destruct (code_of rt !! q) as [ins|] eqn:Ei; [|by destruct w].
  assert (match exec_instr ins (M_ f z q (cmem s)) with
      | Done (mkMachine f' z' q' m', None) => Some (goes w (TIn rt f' z' q') m' s)
      | Done (mkMachine f' _ _ m', Some a) => Some (goes w (TRet f' a) m' s)
      | Fault _ => None
      end = Some s') as E' by (destruct w; exact E).
  destruct (exec_instr ins (M_ f z q (cmem s))) as [[[f' z' q' m'] [a|]]|] eqn:Ee; [..|done]; injection E' as <-.
  - by eapply CReturn.
  - by eapply CInstr.
Qed.

Lemma cexec_back w f a s s' : thread_of w s = Some (TRet f a) -> cexec w g s = Some s' -> cstep s s'.
Proof.
  intros Ht E. unfold cexec in E. rewrite Ht in E.
  destruct (Z.eqb_spec a ra_wait) as [->|N1]; [destruct w; injection E as <-; by eapply CAfterWait|].
  destruct (Z.eqb_spec a ra_set) as [->|N2].
  { destruct (Z.eqb_spec (result f) 0) as [Ez|Ez]; [|destruct w; injection E as <-; by eapply CAfterSet].
    destruct (call g hc (f RSP - 8) ra_long (cmem s)) as [[f' m']|] eqn:Ec; [|by destruct w].
    apply call_sound in Ec as [Hc Hsi]; [|apply Hly]. destruct w; injection E as <-; by eapply CJumpBack. }
  destruct (Z.eqb_spec a ra_hset) as [->|N3]; [|by destruct w].
  destruct (Z.eqb_spec (result f) 0) as [Ez|Ez]; [|destruct w; injection E as <-; by eapply CAfterHost].
  destruct (call g fc (f RSP - 8) ra_long (cmem s)) as [[f' m']|] eqn:Ec; [|by destruct w].
  apply call_sound in Ec as [Hc Hsi]; [|apply Hly]. destruct w; injection E as <-; by eapply CJump.
Qed.

Lemma cexec_code f s s' : thread_of Host s = Some (TCode f) -> cexec Host g s = Some s' -> cstep s s'.
Proof.
  intros Ht E. unfold cexec in E. rewrite Ht in E. destruct (core_of f) as [c|] eqn:Ec; [|done]. cbn in E.
  destruct (call g fc (sp c) ra_set (cmem s)) as [[f' m']|] eqn:El; [|done]. injection E as <-.
  apply call_sound in El as [Hc _]; [|apply Hly]. apply core_of_sound in Ec as [Hn Esp].
  apply (CCode Host f c f' false (cmem s) m' s Ht Hn Esp (slot_update_refl _ _) Hc).
Qed.

Lemma cexec_step w s s' : cexec w g s = Some s' -> cstep s s'.
Proof.
  intros E. destruct (thread_of w s) as [t|] eqn:Ht; [|unfold cexec in E; by rewrite Ht in E].
  destruct t as [| | | |rt f z q|f a|f| | | | |].
  5: by eapply cexec_routine.
  5: by eapply cexec_back.
  5: { destruct w as [i|]; [unfold cexec in E; by rewrite Ht in E|]. by eapply cexec_code. }
  all: unfold cexec in E; rewrite Ht in E; destruct w as [i|]; try done.
  - injection E as <-. by apply CBegin.
  - injection E as <-. by apply CTest.
  - injection E as <-. by apply CCas.
  - destruct (call g fc (sp i) ra_wait (cmem s)) as [[f m']|] eqn:El; [|done]. injection E as <-.
    apply call_sound in El as [Hc _]; [|apply Hly]. by apply CCallWait.
  - injection E as <-. by apply CUnlock.
  - destruct (read64 (cmem s) (fc + 64)) as [v|] eqn:Ev; [|done]. injection E as <-. by apply CPoll.
  - destruct (store 8 (fc + 64) 0 (cmem s)) as [[[] m']|] eqn:Es; [|done]. injection E as <-. by apply CClear8.
  - destruct (call g hc hsp ra_hset (cmem s)) as [[f m']|] eqn:El; [|done]. injection E as <-.
    apply call_sound in El as [Hc _]; [|apply Hly]. by apply CCallSet.
  - destruct (store 8 (fc + 72) 1 (cmem s)) as [[[] m']|] eqn:Es; [|done]. injection E as <-. by apply CSet9.
Qed.

Lemma cexecs_run l s s' : cexecs l g s = Some s' -> rtc cstep s s'.
Proof.
  revert s. induction l as [|w l IH]; intros s E; [injection E as <-; apply rtc_refl|]. cbn in E.
  destruct (cexec w g s) as [s1|] eqn:E1; [|done]. eapply rtc_l; [by eapply cexec_step|by apply IH].
Qed.
End Executable.
End Machine.

(** ** A run with two friend cores *)

Module DemoRun.
Definition fc : Z := 0x1000.
Definition hc : Z := 0x1100.
Definition sp (i : nat) : Z := 0x3000 + 0x100 * Z.of_nat i.
Definition hsp : Z := 0x4000.
Definition ra_wait : Z := 0x401000.
Definition ra_set : Z := 0x401100.
Definition ra_hset : Z := 0x402000.
Definition ra_long : Z := 0x403000.
Definition memory : mem := blit (blit (blit ∅ 0x1000 (zeros 0x200)) 0x3000 (zeros 0x200)) 0x4000 (zeros 8).

Abbreviation run_step := (cstep 2 fc hc sp hsp ra_wait ra_set ra_hset ra_long).
Abbreviation start := (cinit 2 memory (fun _ => demo_regs) (fun _ => demo_regs) demo_regs).

Lemma lays : layout 2 fc hc sp hsp ra_wait ra_set ra_hset ra_long.
Proof.
  assert (forall i, (i < 2)%nat -> i = 0%nat \/ i = 1%nat) as Hi by lia.
  split.
  - split_and!; [done|done|done].
  - split_and!; [done|done|done].
  - by left.
  - intros i Hlt. split; [|unfold sp, hsp; lia]. destruct (Hi i Hlt) as [->| ->];
      (split_and!; [split_and!; done|done|right; done|right; done]).
  - split_and!; [split_and!; done|done|right; done|right; done].
  - intros i j _ _ Hne. unfold sp. lia.
  - split_and!; done.
  - split_and!; done.
Qed.

Lemma maps a k : (0x1000 <= a /\ a + k <= 0x1200) \/ (0x3000 <= a /\ a + k <= 0x3200) \/
  (0x4000 <= a /\ a + k <= 0x4008) -> mapped memory a k.
Proof.
  intros Hr x Hx. unfold memory. rewrite !blit_lookup. unfold zeros. rewrite !length_replicate.
  repeat case_decide; try lia; (exists 0; apply lookup_replicate; lia).
Qed.

Lemma begins : starts 2 fc hc sp hsp memory.
Proof.
  split; [split|by vm_compute|by vm_compute].
  - apply maps. unfold fc. lia.
  - apply maps. unfold hc. lia.
  - intros i Hi. apply maps. unfold sp. lia.
  - apply maps. unfold hsp. lia.
Qed.

(** The first core calls, the second one finds the lock taken, the host serves the first. *)
Definition until_code : list who :=
  replicate 15 (Friend 0) ++ replicate 2 (Friend 1) ++ replicate 27 Host ++ replicate 3 (Friend 0).

(** To the end of the first offload. *)
Definition until_done : list who := until_code ++ replicate 26 Host ++ replicate 16 (Friend 0).

Abbreviation go l := (cexecs 2 fc hc sp hsp ra_wait ra_set ra_hset ra_long l demo_regs start).
End DemoRun.

Import Protocol.
Import DemoRun.

Lemma demo_uint r : uint 64 (demo_regs r).
Proof. destruct r; split; done. Qed.

Lemma demo_runs l C : go l = Some C -> rtc run_step start C.
Proof. apply cexecs_run; [exact lays|exact demo_uint]. Qed.

(** The host at the code, evaluated: on the stack of core 0, with its registers. *)
Example code_on_host :
  match go until_code with
  | Some C => match chost C with TCode f => Some (f RSP, f RBX, f R15, cran_host C, cdone C) | _ => None end
  | None => None
  end = Some (0x3008, 1, 6, [], []).
Proof. by vm_compute. Qed.

(** The first offload, to its end: the host polls again, the core has left the macro. *)
Example offload_to_end :
  match go until_done with
  | Some C => match chost C, cfriends C with
      | TPoll, [TIdle; TTest] => Some (clock C, cran_host C, cran_friend C, cdone C) | _, _ => None end
  | None => None
  end = Some (0, [0%nat], [], [0%nat]).
Proof. by vm_compute. Qed.

Lemma demo_code : exists C f, go until_code = Some C /\ chost C = TCode f.
Proof.
  pose proof code_on_host as E. destruct (go until_code) as [C|]; [|done]. exists C.
  destruct (chost C) as [| | | |rt f z q|f a|f| | | | |]; try done. by exists f.
Qed.

Lemma instructions_refine_protocol_witness :
  exists C f s c, rtc run_step start C /\ chost C = TCode f /\ steps (init 2) s /\ hakase s = HCode c /\
    resumes (call_regs C c) (sp c) f.
Proof.
  destruct demo_code as (C & f & E & Ht). pose proof (demo_runs until_code C E) as Hrun.
  destruct (instructions_refine_protocol 2 fc hc sp hsp ra_wait ra_set ra_hset ra_long lays memory
    (fun _ => demo_regs) (fun _ => demo_regs) demo_regs C begins Hrun) as (s & Hs & _ & Hcode & _).
  destruct (Hcode Host f (f_equal Some Ht)) as (_ & c & _ & Hh & Hres). exists C, f, s, c. auto 10.
Defined.

End OffloadRefine.
