(* ===== verification/FriendInit.v ===== *)
(** * FriendInit: how the friend cores come up and go down, friend/{boot.S,init.cc}

    Every friend core enters the friend binary at [entry64] (boot.S), takes a stack
    by an atomic addition and calls [friend_init] (init.cc).  The cores share
    [stack_offset], [init_count], [returned_count] and the flag the host polls with
    [is_friend_stopped] (hakase.cc).  One step is one access to a shared word, one
    constructor or destructor call, or the return of [friend_main], whose timing is
    left open; any interleaving of the cores is a run. *)

From S2P Require Import Prelude Memory.

Module FriendInit.

Definition STACK_SIZE : Z := 0x4000.
Definition INITIAL_STACK_OFFSET : Z := 0x2000.

(** Where a core is. *)
Inductive pc :=
| Entry              (* lock xaddl %eax, (%rbx) *)
| Begin              (* __sync_fetch_and_add(&init_count, 1) == 0 *)
| Ctor (k : nat)     (* ctor < __init_array_end, with ctor at element k *)
| Main               (* in friend_main() *)
| Return             (* __sync_add_and_fetch(&returned_count, 1) *)
| Test (r : Z)       (* r == init_count *)
| Dtor (k : nat)     (* dtor < __fini_array_end, with dtor at element k *)
| Sync               (* __toshokan_sync_hakase_and_friend = 1 *)
| Stop.              (* stop: pause; jmp stop *)

#[export] Instance pc_eq_dec : EqDecision pc.
Proof. solve_decision. Defined.

Record shared := mkShared {
  stack_offset : Z;                   (* .long, as a 32-bit pattern *)
  init_count : Z;                     (* int *)
  returned_count : Z;                 (* int *)
  sync_hakase_and_friend : Z;         (* int *)
  stacks : list (nat * Z);            (* core and the %rsp it calls friend_init with *)
  ctor_log : list (nat * nat);        (* core and constructor it called *)
  dtor_log : list (nat * nat)         (* core and destructor it called *)
}.

Definition int32 (x : Z) : Z := sext 32 x.

Section FriendInit.
Context (friend_binary_end : Z).   (* set by the linker script *)
Context (ctors dtors : nat).       (* the lengths of the two function arrays *)

(** [lock xaddl; cltq; addq %rcx, %rax; movq %rax, %rsp]: the %rsp a core gets,
    and the word it leaves. *)
Definition entry64 (offset : Z) : Z * Z :=
  (u64 (int32 offset + friend_binary_end), u32 (offset + STACK_SIZE)).

(** One access of core [i], which is at [p]. *)
Definition core_step (i : nat) (p : pc) (s : shared) : shared * pc :=
  match p with
  | Entry =>
      let '(rsp, offset) := entry64 (stack_offset s) in
      (mkShared offset (init_count s) (returned_count s) (sync_hakase_and_friend s)
         (stacks s ++ [(i, rsp)]) (ctor_log s) (dtor_log s), Begin)
  | Begin =>
      (mkShared (stack_offset s) (int32 (init_count s + 1)) (returned_count s)
         (sync_hakase_and_friend s) (stacks s) (ctor_log s) (dtor_log s),
       if init_count s =? 0 then Ctor 0 else Main)
  | Ctor k =>
      if (k <? ctors)%nat then
        (mkShared (stack_offset s) (init_count s) (returned_count s)
           (sync_hakase_and_friend s) (stacks s) (ctor_log s ++ [(i, k)]) (dtor_log s), Ctor (S k))
      else (s, Main)
  | Main => (s, Return)
  | Return =>
      let r := int32 (returned_count s + 1) in
      (mkShared (stack_offset s) (init_count s) r (sync_hakase_and_friend s)
         (stacks s) (ctor_log s) (dtor_log s), Test r)
  | Test r => (s, if r =? init_count s then Dtor 0 else Stop)
  | Dtor k =>
      if (k <? dtors)%nat then
        (mkShared (stack_offset s) (init_count s) (returned_count s)
           (sync_hakase_and_friend s) (stacks s) (ctor_log s) (dtor_log s ++ [(i, k)]), Dtor (S k))
      else (s, Sync)
  | Sync =>
      (mkShared (stack_offset s) (init_count s) (returned_count s) 1
         (stacks s) (ctor_log s) (dtor_log s), Stop)
  | Stop => (s, Stop)
  end.

(** hakase.cc: what the host concludes from the flag. *)
Definition is_friend_stopped (s : shared) : bool := sync_hakase_and_friend s =? 1.

Record friend_state := mkState { sh : shared; cores : list pc }.

Definition start (n : nat) : friend_state :=
  mkState (mkShared INITIAL_STACK_OFFSET 0 0 0 [] [] []) (replicate n Entry).

(** A stopped core only spins. *)
Inductive friend_step : friend_state -> friend_state -> Prop :=
| CoreStep i p s :
    cores s !! i = Some p -> p <> Stop ->
    friend_step s (mkState (core_step i p (sh s)).1 (<[i := (core_step i p (sh s)).2]> (cores s))).

Abbreviation friend_steps := (rtc friend_step).

(** A schedule, executed: the cores named take their steps in turn. *)
Definition turn (s : friend_state) (i : nat) : option friend_state :=
  match cores s !! i with
  | Some p => if decide (p = Stop) then None
              else Some (mkState (core_step i p (sh s)).1 (<[i := (core_step i p (sh s)).2]> (cores s)))
  | None => None
  end.

Fixpoint run_schedule (sched : list nat) (s : friend_state) : option friend_state :=
  match sched with
  | [] => Some s
  | i :: rest => s' ← turn s i; run_schedule rest s'
  end.

Lemma run_schedule_steps sched s s' : run_schedule sched s = Some s' -> friend_steps s s'.
Proof.
  revert s. induction sched as [|i rest IH]; cbn [run_schedule]; intros s H.
  - injection H as ->. apply rtc_refl.
  - apply bind_Some in H as (s1 & H1 & H2). unfold turn in H1.
    destruct (cores s !! i) as [p|] eqn:Hi; [|done]. destruct (decide (p = Stop)); [done|].
    injection H1 as <-. eapply rtc_l; [|by apply IH]. by constructor.
Qed.

(** ** How many cores are past a point *)

Definition entered (p : pc) : bool := match p with Entry | Begin => false | _ => true end.
Definition returned (p : pc) : bool :=
  match p with Test _ | Dtor _ | Sync | Stop => true | _ => false end.
Definition has_stack (p : pc) : bool := match p with Entry => false | _ => true end.

Definition count (P : pc -> bool) (l : list pc) : Z :=
  foldr (fun p acc => (if P p then 1 else 0) + acc) 0 l.

Lemma count_cons P p l : count P (p :: l) = (if P p then 1 else 0) + count P l.
Proof. done. Qed.

Lemma count_bounds P l : 0 <= count P l <= Z.of_nat (length l).
Proof. induction l as [|p l IH]; [done|]. rewrite count_cons. cbn [length]. destruct (P p); lia. Qed.

Lemma count_insert P l i p q :
  l !! i = Some p ->
  count P (<[i := q]> l) = count P l - (if P p then 1 else 0) + (if P q then 1 else 0).
Proof.
  revert i. induction l as [|x l IH]; intros [|i] H; try done; cbn [insert list_insert] in *.
  - injection H as ->. rewrite !count_cons. lia.
  - rewrite !count_cons, IH by done. lia.
Qed.

Lemma count_pos P l i p : l !! i = Some p -> P p = true -> 1 <= count P l.
Proof.
  revert i. induction l as [|x l IH]; intros [|i] Hi Hp; try done;
    rewrite count_cons; pose proof (count_bounds P l); cbn in Hi.
  - injection Hi as ->. rewrite Hp. lia.
  - pose proof (IH i Hi Hp). destruct (P x); lia.
Qed.

Lemma count_all P l : count P l = Z.of_nat (length l) <-> Forall (fun p => P p = true) l.
Proof.
  induction l as [|p l IH]; [by split|]. rewrite count_cons, Forall_cons. cbn [length].
  pose proof (count_bounds P l). destruct (P p); split.
  - intros. split; [done|]. apply IH. lia.
  - intros [_ H1]. apply IH in H1. lia.
  - lia.
  - by intros [? _].
Qed.

Lemma count_none P l : count P l = 0 <-> Forall (fun p => P p = false) l.
Proof.
  induction l as [|p l IH]; [by split|]. rewrite count_cons, Forall_cons.
  pose proof (count_bounds P l). destruct (P p); split.
  - lia.
  - by intros [? _].
  - intros. split; [done|]. apply IH. lia.
  - intros [_ H1]. apply IH in H1. lia.
Qed.

Lemma count_mono P Q l :
  (forall p, P p = true -> Q p = true) -> count P l <= count Q l.
Proof.
  intros H. induction l as [|p l IH]; [done|]. rewrite !count_cons. specialize (H p).
  destruct (P p), (Q p); lia.
Qed.

(** ** Termination *)

Definition pc_rank (p : pc) : nat :=
  match p with
  | Entry => ctors + dtors + 8
  | Begin => ctors + dtors + 7
  | Ctor k => (ctors - k) + dtors + 6
  | Main => dtors + 5
  | Return => dtors + 4
  | Test _ => dtors + 3
  | Dtor k => (dtors - k) + 2
  | Sync => 1
  | Stop => 0
  end.

Definition total (l : list pc) : nat := foldr (fun p acc => pc_rank p + acc)%nat 0%nat l.

Lemma total_insert l i p q :
  l !! i = Some p -> (total (<[i := q]> l) + pc_rank p = total l + pc_rank q)%nat.
Proof.
  assert (forall x l, total (x :: l) = pc_rank x + total l)%nat as Hcons by done.
  revert i. induction l as [|x l IH]; intros [|i] H; try done.
  - injection H as ->. change (<[0%nat := q]> (p :: l)) with (q :: l). rewrite !Hcons. lia.
  - change (<[S i := q]> (x :: l)) with (x :: <[i := q]> l). rewrite !Hcons.
    specialize (IH i H). lia.
Qed.

Lemma core_step_rank i p s : p <> Stop -> (pc_rank (core_step i p s).2 < pc_rank p)%nat.
Proof.
  intros Hp. destruct p; cbn [core_step entry64 fst snd pc_rank]; try lia; try done;
    repeat match goal with
    | |- context [(?a <? ?b)%nat] => destruct (Nat.ltb_spec a b)
    | |- context [?a =? ?b] => destruct (Z.eqb_spec a b)
    end; cbn [fst snd pc_rank]; lia.
Qed.

Lemma step_total s s' : friend_step s s' -> (total (cores s') < total (cores s))%nat.
Proof.
  intros [i p s0 Hi Hp]. cbn [cores].
  pose proof (total_insert _ _ _ (core_step i p (sh s0)).2 Hi) as E.
  pose proof (core_step_rank i p (sh s0) Hp). lia.
Qed.

Lemma nsteps_total k s s' : nsteps friend_step k s s' -> (total (cores s') + k <= total (cores s))%nat.
Proof. intros H. induction H as [|k x y z H1 _ IH]; [lia|]. apply step_total in H1. lia. Qed.

Lemma total_start m : total (replicate m Entry) = (m * (ctors + dtors + 8))%nat.
Proof.
  induction m as [|m IH]; [done|].
  change (total (replicate (S m) Entry)) with (pc_rank Entry + total (replicate m Entry))%nat.
  rewrite IH. cbn [pc_rank]. lia.
Qed.

(** A state no core can step from is one where every core spins in [stop]. *)
Lemma terminal_stopped s i p : (forall s', ~ friend_step s s') -> cores s !! i = Some p -> p = Stop.
Proof.
  intros H Hi. destruct (decide (p = Stop)) as [|Hne]; [done|].
  destruct (H _ (CoreStep i p s Hi Hne)).
Qed.

(** A value of an [int] is itself. *)
Lemma int32_id x : - 2 ^ 31 <= x < 2 ^ 31 -> int32 x = x.
Proof.
  intros H. unfold int32, sext, wrap. replace (2 ^ (32 - 1)) with (2 ^ 31) by done.
  destruct (Z_lt_dec x 0).
  - replace (x mod 2 ^ 32) with (x + 2 ^ 32).
    + destruct (Z.ltb_spec (x + 2 ^ 32) (2 ^ 31)); lia.
    + apply Z.mod_unique with (-1); lia.
  - rewrite Z.mod_small by lia. destruct (Z.ltb_spec x (2 ^ 31)); lia.
Qed.

(** ** Invariants of every run

    [n] cores, few enough for an [int] to count them. *)

Section Runs.
Context (n : nat) (Hn : Z.of_nat n < 2 ^ 31).

(** The two counters count the cores past their increments. *)
Record counted (s : friend_state) : Prop := {
  c_len : length (cores s) = n;
  c_init : init_count (sh s) = count entered (cores s);
  c_returned : returned_count (sh s) = count returned (cores s)
}.

Lemma start_counted : counted (start n).
Proof.
  assert (forall P : pc -> bool, P Entry = false -> count P (replicate n Entry) = 0) as H.
  { intros P HP. apply count_none, Forall_replicate. done. }
  split; cbn [start cores sh init_count returned_count]; [apply length_replicate|..]; by rewrite H.
Qed.

(** A core that is not past an increment yet leaves room for it. *)
Lemma count_room P s i p :
  counted s -> cores s !! i = Some p -> P p = false -> 0 <= count P (cores s) < Z.of_nat n.
Proof.
  intros Hc Hi Hp. pose proof (count_bounds P (cores s)) as Hb. rewrite (c_len s Hc) in Hb.
  split; [lia|]. destruct (Z.eq_dec (count P (cores s)) (Z.of_nat n)) as [E|]; [|lia].
  rewrite <- (c_len s Hc), count_all, Forall_lookup in E. specialize (E i p Hi). congruence.
Qed.

Lemma step_counted s s' : counted s -> friend_step s s' -> counted s'.
Proof.
  intros Hc Hst. destruct Hst as [i p s Hi Hp].
  assert (entered p = false -> int32 (init_count (sh s) + 1) = init_count (sh s) + 1) as E1.
  { intros E. rewrite (c_init s Hc). pose proof (count_room entered s i p Hc Hi E).
    apply int32_id. lia. }
  assert (returned p = false -> int32 (returned_count (sh s) + 1) = returned_count (sh s) + 1) as E2.
  { intros E. rewrite (c_returned s Hc). pose proof (count_room returned s i p Hc Hi E).
    apply int32_id. lia. }
  destruct Hc as [Hl H1 H2].
  split; cbn [cores sh]; [by rewrite length_insert| |]; rewrite (count_insert _ _ _ p _ Hi).
  - destruct p; cbn in *; repeat case_match; cbn; try rewrite E1; try done; lia.
  - destruct p; cbn in *; repeat case_match; cbn; try rewrite E2; try done; lia.
Qed.

Lemma steps_counted s s' : counted s -> friend_steps s s' -> counted s'.
Proof. intros Hc Hs. induction Hs; [done|]. eauto using step_counted. Qed.

(** A property of the state of a core, and what becomes of it when one core moves. *)
Lemma lookup_moved {A} (l : list A) i q j (r : A) :
  <[i := q]> l !! j = Some r -> (j = i /\ r = q) \/ (j <> i /\ l !! j = Some r).
Proof.
  intros H. destruct (decide (j = i)) as [->|Hne].
  - left. split; [done|]. assert (i < length l)%nat.
    { rewrite <- (length_insert l i q). by eapply lookup_lt_Some. }
    rewrite list_lookup_insert_eq in H by done. by injection H.
  - right. by rewrite list_lookup_insert_ne in H by done.
Qed.

(** ** Constructors *)

Definition constructing (p : pc) : bool := match p with Ctor _ => true | _ => false end.

(** No core has entered; or one core has called the first [k] constructors and is
    at the next; or it has called them all. *)
Inductive ctor_inv (s : friend_state) : Prop :=
| CtorNone :
    init_count (sh s) = 0 -> ctor_log (sh s) = [] ->
    (forall j q, cores s !! j = Some q -> constructing q = false) -> ctor_inv s
| CtorRunning i k :
    init_count (sh s) <> 0 -> cores s !! i = Some (Ctor k) -> (k <= ctors)%nat ->
    ctor_log (sh s) = pair i <$> seq 0 k ->
    (forall j q, j <> i -> cores s !! j = Some q -> constructing q = false) -> ctor_inv s
| CtorDone i :
    init_count (sh s) <> 0 -> ctor_log (sh s) = pair i <$> seq 0 ctors ->
    (forall j q, cores s !! j = Some q -> constructing q = false) -> ctor_inv s.

Lemma start_ctor_inv : ctor_inv (start n).
Proof.
  apply CtorNone; [done|done|]. intros j q Hj. cbn in Hj.
  apply lookup_replicate in Hj as [-> _]. done.
Qed.

(** A step by a core that neither runs nor starts the constructors. *)
Lemma ctor_inv_other s s' i p q :
  ctor_inv s -> cores s !! i = Some p -> constructing p = false -> constructing q = false ->
  cores s' = <[i := q]> (cores s) -> init_count (sh s') = init_count (sh s) ->
  ctor_log (sh s') = ctor_log (sh s) -> ctor_inv s'.
Proof.
  intros Hinv Hi Hp Hq Ec Ei El.
  assert (forall j r, cores s' !! j = Some r -> r = q \/ (j <> i /\ cores s !! j = Some r)) as Hm.
  { intros j r. rewrite Ec. intros [[_ ->]|?]%lookup_moved; auto. }
  destruct Hinv as [H1 H2 H3|j k H1 H2 H3 H4 H5|j H1 H2 H3].
  - apply CtorNone; [congruence|congruence|]. intros j r [->|[_ ?]]%Hm; eauto.
  - assert (j <> i) by (intros ->; rewrite Hi in H2; injection H2 as ->; done).
    apply (CtorRunning _ j k); [congruence| |done|congruence|].
    + by rewrite Ec, list_lookup_insert_ne.
    + intros l r Hl [->|[_ ?]]%Hm; eauto.
  - apply (CtorDone _ j); [congruence|congruence|]. intros l r [->|[_ ?]]%Hm; eauto.
Qed.

Lemma step_ctor_inv s s' : counted s -> ctor_inv s -> friend_step s s' -> ctor_inv s'.
Proof.
  intros Hc Hinv Hst. pose proof (step_counted s s' Hc Hst) as Hc'.
  destruct Hst as [i p s Hi Hp].
  assert (i < length (cores s))%nat as Hlt by (by eapply lookup_lt_Some).
  destruct p as [| |k| | |r|k| |]; try done;
    try (eapply ctor_inv_other; [exact Hinv|exact Hi|done| |reflexivity|..];
         cbn; by repeat case_match); cbn [core_step].
  - (* Begin *)
    pose proof (c_init _ Hc') as E'. cbn [core_step sh cores fst snd init_count] in E'.
    rewrite (count_insert _ _ _ _ _ Hi) in E'. pose proof (count_bounds entered (cores s)) as Hb.
    pose proof (c_init _ Hc) as E. destruct (Z.eqb_spec (init_count (sh s)) 0) as [E0|E0].
    + destruct Hinv as [H1 H2 H3|j k H1 _ _ _ _|j H1 _ _]; [|done|done].
      apply (CtorRunning _ i 0); cbn [fst snd sh cores init_count ctor_log].
      * rewrite E0 in *. cbn in E'. lia.
      * by apply list_lookup_insert_eq.
      * lia.
      * by rewrite H2.
      * intros j q Hj [[? _]|[_ ?]]%lookup_moved; [done|by eapply H3].
    + cbn [fst snd]. cbn in E'. destruct Hinv as [H1 _ _|j k H1 H2 H3 H4 H5|j H1 H2 H3]; [done|..].
      * assert (j <> i) by (intros ->; congruence).
        apply (CtorRunning _ j k); cbn [sh cores init_count ctor_log]; try done; [lia| |].
        -- by rewrite list_lookup_insert_ne.
        -- intros l q Hl [[_ ->]|[_ ?]]%lookup_moved; [done|by eapply H5].
      * apply (CtorDone _ j); cbn [sh cores init_count ctor_log]; [lia|done|].
        intros l q [[_ ->]|[_ ?]]%lookup_moved; [done|by eapply H3].
  - (* Ctor *)
    destruct Hinv as [_ _ H3|j k' H1 H2 H3 H4 H5|j _ _ H3];
      [by discriminate (H3 _ _ Hi)| |by discriminate (H3 _ _ Hi)].
    destruct (decide (i = j)) as [<-|Hne]; [|by discriminate (H5 _ _ Hne Hi)].
    rewrite Hi in H2. injection H2 as <-.
    destruct (Nat.ltb_spec k ctors) as [Hk|Hk]; cbn [fst snd].
    + apply (CtorRunning _ i (S k)); cbn [sh cores init_count ctor_log]; [done| |lia| |].
      * by apply list_lookup_insert_eq.
      * by rewrite seq_S, fmap_app, H4.
      * intros j q Hj [[? _]|[_ ?]]%lookup_moved; [done|by eapply H5].
    + assert (k = ctors) as -> by lia. apply (CtorDone _ i); cbn [sh cores]; [done|done|].
      intros j q [[_ ->]|[? ?]]%lookup_moved; [done|by eapply H5].
Qed.

Lemma steps_ctor_inv s s' : counted s -> ctor_inv s -> friend_steps s s' -> ctor_inv s'.
Proof. intros Hc Hi Hs. induction Hs; [done|]. eauto using step_counted, step_ctor_inv. Qed.

(** ** The last core *)

(** Once every [friend_main] has returned, the flag is set or the last core to
    return is on its way to set it. *)
Definition finishing (p : pc) : Prop :=
  match p with Test r => r = Z.of_nat n | Dtor _ | Sync => True | _ => False end.

Definition last_inv (s : friend_state) : Prop :=
  (0 < n)%nat -> returned_count (sh s) = Z.of_nat n ->
  sync_hakase_and_friend (sh s) = 1 \/ exists i p, cores s !! i = Some p /\ finishing p.

Lemma start_last_inv : last_inv (start n).
Proof. intros H E. cbn in E. lia. Qed.

Lemma all_entered s :
  counted s -> returned_count (sh s) = Z.of_nat n -> init_count (sh s) = Z.of_nat n.
Proof.
  intros Hc E. rewrite (c_returned s Hc) in E. rewrite (c_init s Hc).
  pose proof (count_bounds entered (cores s)) as Hb. rewrite (c_len s Hc) in Hb.
  assert (count returned (cores s) <= count entered (cores s)) by (apply count_mono; by intros []).
  lia.
Qed.

Lemma step_last_inv s s' : counted s -> last_inv s -> friend_step s s' -> last_inv s'.
Proof.
  intros Hc Hinv Hst Hpos E'. pose proof (step_counted s s' Hc Hst) as Hc'.
  pose proof (all_entered s' Hc' E') as Eall.
  destruct Hst as [i p s Hi Hp].
  assert (i < length (cores s))%nat as Hlt by (by eapply lookup_lt_Some).
  assert (forall q, finishing q -> exists j r, <[i := q]> (cores s) !! j = Some r /\ finishing r) as Hme.
  { intros q Hq. exists i, q. by rewrite list_lookup_insert_eq. }
  (* a core that is not at its increment: what held before still holds *)
  assert (p <> Return -> (finishing p -> finishing (core_step i p (sh s)).2 \/
            sync_hakase_and_friend (core_step i p (sh s)).1 = 1) ->
          sync_hakase_and_friend (core_step i p (sh s)).1 = 1 \/
          exists j r, <[i := (core_step i p (sh s)).2]> (cores s) !! j = Some r /\ finishing r) as Hold.
  { intros Hr Hf.
    assert (returned_count (sh s) = Z.of_nat n) as E.
    { rewrite <- E'. destruct p; cbn; repeat case_match; done. }
    destruct (Hinv Hpos E) as [Hs|(j & q & Hj & Hq)].
    - left. destruct p; cbn; repeat case_match; done.
    - destruct (decide (j = i)) as [->|Hne].
      + rewrite Hi in Hj. injection Hj as ->. destruct (Hf Hq); auto.
      + right. exists j, q. by rewrite list_lookup_insert_ne. }
  cbn [sh cores] in *. destruct p as [| |k| | |r|k| |]; try done; try (apply Hold; done).
  - right. apply Hme. cbn in *. congruence.
  - apply Hold; [done|]. cbn in *. intros ->. rewrite Eall, Z.eqb_refl. by left.
  - apply Hold; [done|]. intros _. left. cbn. by case_match.
  - apply Hold; [done|]. intros _. by right.
Qed.

Lemma steps_last_inv s s' : counted s -> last_inv s -> friend_steps s s' -> last_inv s'.
Proof. intros Hc Hi Hs. induction Hs; [done|]. eauto using step_counted, step_last_inv. Qed.

(** ** Destructors, when every core has arrived before the first returns *)

(** A core that has not won the last increment. *)
Definition quiet (p : pc) : Prop :=
  match p with Test r => r < Z.of_nat n | Dtor _ | Sync => False | _ => True end.

(** The last core [i] at [p]: which destructors it has called. *)
Inductive closing (i : nat) (s : friend_state) : pc -> Prop :=
| ClTest : dtor_log (sh s) = [] -> closing i s (Test (Z.of_nat n))
| ClDtor k : (k <= dtors)%nat -> dtor_log (sh s) = pair i <$> seq 0 k -> closing i s (Dtor k)
| ClSync : dtor_log (sh s) = pair i <$> seq 0 dtors -> closing i s Sync.

Inductive dtor_inv (s : friend_state) : Prop :=
| DtorPending :
    returned_count (sh s) < Z.of_nat n -> dtor_log (sh s) = [] ->
    sync_hakase_and_friend (sh s) = 0 ->
    (forall j q, cores s !! j = Some q -> quiet q) -> dtor_inv s
| DtorActive i p :
    returned_count (sh s) = Z.of_nat n -> cores s !! i = Some p -> closing i s p ->
    sync_hakase_and_friend (sh s) = 0 ->
    (forall j q, j <> i -> cores s !! j = Some q -> quiet q) -> dtor_inv s
| DtorDone i :
    returned_count (sh s) = Z.of_nat n -> dtor_log (sh s) = pair i <$> seq 0 dtors ->
    sync_hakase_and_friend (sh s) = 1 ->
    (forall j q, cores s !! j = Some q -> quiet q) -> dtor_inv s.

Lemma closing_ext i s s' p : dtor_log (sh s') = dtor_log (sh s) -> closing i s p -> closing i s' p.
Proof. intros E []; [apply ClTest|apply ClDtor|apply ClSync]; congruence. Qed.

Lemma closing_not_quiet i s p : closing i s p -> ~ quiet p.
Proof. intros []; cbn; lia. Qed.

(** A step by a core that is quiet before and after. *)
Lemma dtor_inv_quiet s s' i p q :
  dtor_inv s -> cores s !! i = Some p -> quiet p -> quiet q ->
  cores s' = <[i := q]> (cores s) -> returned_count (sh s') = returned_count (sh s) ->
  dtor_log (sh s') = dtor_log (sh s) ->
  sync_hakase_and_friend (sh s') = sync_hakase_and_friend (sh s) -> dtor_inv s'.
Proof.
  intros Hinv Hi Hp Hq Ec Er El Es.
  assert (forall j r, cores s' !! j = Some r -> r = q \/ (j <> i /\ cores s !! j = Some r)) as Hm.
  { intros j r. rewrite Ec. intros [[_ ->]|?]%lookup_moved; auto. }
  destruct Hinv as [H1 H2 H3 H4|j p' H1 H2 H3 H4 H5|j H1 H2 H3 H4].
  - apply DtorPending; try congruence. intros j r [->|[_ ?]]%Hm; eauto.
  - assert (j <> i).
    { intros ->. rewrite Hi in H2. injection H2 as ->. by apply closing_not_quiet in H3. }
    apply (DtorActive _ j p'); [congruence| |by eapply closing_ext|congruence|].
    + by rewrite Ec, list_lookup_insert_ne.
    + intros l r Hl [->|[_ ?]]%Hm; eauto.
  - apply (DtorDone _ j); try congruence. intros l r [->|[_ ?]]%Hm; eauto.
Qed.

(** A step by the last core. *)
Lemma dtor_inv_last s s' i p q :
  dtor_inv s -> cores s !! i = Some p -> ~ quiet p ->
  cores s' = <[i := q]> (cores s) -> returned_count (sh s') = returned_count (sh s) ->
  (closing i s p ->
   (closing i s' q /\ sync_hakase_and_friend (sh s') = sync_hakase_and_friend (sh s)) \/
   (quiet q /\ sync_hakase_and_friend (sh s') = 1 /\ dtor_log (sh s') = pair i <$> seq 0 dtors)) ->
  dtor_inv s'.
Proof.
  intros Hinv Hi Hp Ec Er Hq. assert (i < length (cores s))%nat by (by eapply lookup_lt_Some).
  destruct Hinv as [_ _ _ H4|j p' H1 H2 H3 H4 H5|j _ _ _ H4]; [by destruct (Hp (H4 _ _ Hi))| |by destruct (Hp (H4 _ _ Hi))].
  destruct (decide (i = j)) as [<-|Hne]; [|by destruct (Hp (H5 _ _ Hne Hi))].
  rewrite Hi in H2. injection H2 as <-. destruct (Hq H3) as [[Hcl Hs]|(Hqq & Hs & Hl)].
  - apply (DtorActive _ i q); [congruence| |done|congruence|].
    + by rewrite Ec, list_lookup_insert_eq.
    + intros j r Hj. rewrite Ec. intros [[? _]|[_ ?]]%lookup_moved; eauto. done.
  - apply (DtorDone _ i); [congruence|done|done|].
    intros j r. rewrite Ec. intros [[_ ->]|[? ?]]%lookup_moved; eauto.
Qed.

Lemma step_dtor_inv s s' :
  counted s -> init_count (sh s) = Z.of_nat n -> dtor_inv s -> friend_step s s' -> dtor_inv s'.
Proof.
  intros Hc Hall Hinv Hst. destruct Hst as [i p s Hi Hp].
  assert (i < length (cores s))%nat as Hlt by (by eapply lookup_lt_Some).
  destruct p as [| |k| | |r|k| |]; try done;
    try (eapply dtor_inv_quiet; [exact Hinv|exact Hi|done| |reflexivity|..];
         cbn; by repeat case_match); cbn [core_step].
  - (* Return *)
    pose proof (count_room returned s i _ Hc Hi eq_refl) as Hr. rewrite <- (c_returned s Hc) in Hr.
    rewrite int32_id by lia. cbn [fst snd].
    destruct Hinv as [H1 H2 H3 H4|j p' H1 _ _ _ _|j H1 _ _ _]; [|lia|lia].
    destruct (Z_lt_dec (returned_count (sh s) + 1) (Z.of_nat n)).
    + apply DtorPending; cbn [sh cores returned_count]; [lia|done|done|].
      intros j q [[_ ->]|[_ ?]]%lookup_moved; [cbn; lia|by eapply H4].
    + assert (returned_count (sh s) + 1 = Z.of_nat n) as E by lia.
      apply (DtorActive _ i (Test (returned_count (sh s) + 1)));
        cbn [sh cores returned_count]; [lia| | |done|].
      * by apply list_lookup_insert_eq.
      * rewrite E. by apply ClTest.
      * intros j q Hj [[? _]|[_ ?]]%lookup_moved; [done|by eapply H4].
  - (* Test *)
    rewrite Hall. destruct (Z.eqb_spec r (Z.of_nat n)) as [->|Hne].
    + eapply dtor_inv_last; [exact Hinv|exact Hi|cbn; lia|reflexivity|done|]. intros Hcl.
      left. split; [|done]. inversion Hcl; subst. apply ClDtor; [lia|]. done.
    + assert (quiet (Test r)) as Hq.
      { destruct Hinv as [_ _ _ H4|j p' H1 H2 H3 _ H5|j _ _ _ H4]; [by eapply H4| |by eapply H4].
        destruct (decide (i = j)) as [<-|Hij]; [|by eapply H5].
        rewrite Hi in H2. injection H2 as <-. inversion H3; subst; done. }
      by eapply dtor_inv_quiet; [exact Hinv|exact Hi|exact Hq| |reflexivity|..].
  - (* Dtor *)
    destruct (Nat.ltb_spec k dtors) as [Hk|Hk]; cbn [fst snd];
      (eapply dtor_inv_last; [exact Hinv|exact Hi|cbn; tauto|reflexivity|done|]); intros Hcl;
      inversion Hcl as [|k' Hk' El|]; subst; left; (split; [|done]).
    + apply ClDtor; cbn [sh dtor_log]; [lia|]. by rewrite seq_S, fmap_app, El.
    + apply ClSync. by replace dtors with k by lia.
  - (* Sync *)
    eapply dtor_inv_last; [exact Hinv|exact Hi|cbn; tauto|reflexivity|done|]. intros Hcl.
    inversion Hcl as [| |El]; subst. right. done.
Qed.

(** Once every core has entered, [init_count] stays. *)
Lemma step_all_entered s s' :
  counted s -> init_count (sh s) = Z.of_nat n -> friend_step s s' -> init_count (sh s') = Z.of_nat n.
Proof.
  intros Hc Hall Hst. pose proof (step_counted s s' Hc Hst) as Hc'.
  destruct Hst as [i p s Hi Hp]. destruct p; try (cbn; repeat case_match; done).
  exfalso. pose proof (count_room entered s i _ Hc Hi eq_refl). rewrite <- (c_init s Hc) in *. lia.
Qed.

Lemma steps_dtor_inv s s' :
  counted s -> init_count (sh s) = Z.of_nat n -> dtor_inv s -> friend_steps s s' -> dtor_inv s'.
Proof.
  intros Hc Hall Hi Hs. induction Hs; [done|].
  eauto using step_counted, step_all_entered, step_dtor_inv.
Qed.

(** Nothing of the shutdown has happened before the first return. *)
Definition no_return_inv (s : friend_state) : Prop :=
  returned_count (sh s) = 0 -> dtor_log (sh s) = [] /\ sync_hakase_and_friend (sh s) = 0.

Lemma step_no_return_inv s s' : counted s -> no_return_inv s -> friend_step s s' -> no_return_inv s'.
Proof.
  intros Hc Hinv Hst E. pose proof (step_counted s s' Hc Hst) as Hc'. pose proof (c_returned _ Hc') as R'.
  rewrite E in R'. symmetry in R'. apply count_none in R'. rewrite Forall_lookup in R'.
  destruct Hst as [i p s Hi Hp]. cbn [cores sh] in *.
  assert (i < length (cores s))%nat as Hlt by (by eapply lookup_lt_Some).
  specialize (R' i _ (list_lookup_insert_eq _ _ _ Hlt)).
  destruct p; cbn in *; repeat case_match; try done; by apply Hinv.
Qed.

Lemma steps_no_return_inv s s' : counted s -> no_return_inv s -> friend_steps s s' -> no_return_inv s'.
Proof. intros Hc Hi Hs. induction Hs; [done|]. eauto using step_counted, step_no_return_inv. Qed.

Lemma terminal_count s : counted s -> (forall s', ~ friend_step s s') ->
  returned_count (sh s) = Z.of_nat n /\ init_count (sh s) = Z.of_nat n.
Proof.
  intros Hc Ht. assert (returned_count (sh s) = Z.of_nat n) as E.
  { rewrite (c_returned s Hc), <- (c_len s Hc). apply count_all, Forall_lookup.
    intros i p Hi. by rewrite (terminal_stopped s i p Ht Hi). }
  auto using all_entered.
Qed.

(** ** Stacks *)

Definition stack_at (k : nat) : Z :=
  friend_binary_end + INITIAL_STACK_OFFSET + STACK_SIZE * Z.of_nat k.

Record stack_inv (s : friend_state) : Prop := {
  st_len : Z.of_nat (length (stacks (sh s))) = count has_stack (cores s);
  st_offset : stack_offset (sh s) = INITIAL_STACK_OFFSET + STACK_SIZE * Z.of_nat (length (stacks (sh s)));
  st_at : forall k i sp, stacks (sh s) !! k = Some (i, sp) -> sp = stack_at k;
  st_nodup : NoDup (fst <$> stacks (sh s));
  st_core : forall i p, cores s !! i = Some p -> (i ∈ (fst <$> stacks (sh s))) <-> has_stack p = true
}.

(** The stacks of all cores fit between the binary and the end of the region. *)
Definition stacks_fit : Prop :=
  0 <= friend_binary_end /\
  friend_binary_end + INITIAL_STACK_OFFSET + STACK_SIZE * Z.of_nat n
    <= Layout.DEPLOY_PHYS_ADDR_END + STACK_SIZE /\
  INITIAL_STACK_OFFSET + STACK_SIZE * Z.of_nat n < 2 ^ 31.

Lemma start_stack_inv : stack_inv (start n).
Proof.
  split; cbn [start sh cores stacks stack_offset]; try done.
  - symmetry. apply count_none, Forall_replicate. done.
  - apply NoDup_nil_2.
  - intros i p [-> _]%lookup_replicate. cbn. split; [by intros ?%not_elem_of_nil|done].
Qed.

Lemma step_stack_inv s s' : stacks_fit -> counted s -> stack_inv s -> friend_step s s' -> stack_inv s'.
Proof.
  intros (F1 & F2 & F3) Hc Hinv Hst. destruct Hst as [i p s Hi Hp].
  assert (i < length (cores s))%nat as Hlt by (by eapply lookup_lt_Some).
  destruct (decide (p = Entry)) as [->|Hne].
  - pose proof (count_room has_stack s i _ Hc Hi eq_refl) as Hr.
    destruct Hinv as [H1 H2 H3 H4 H5]. unfold INITIAL_STACK_OFFSET, STACK_SIZE, Layout.DEPLOY_PHYS_ADDR_END in *.
    assert ((core_step i Entry (sh s)).1 = mkShared (stack_offset (sh s) + STACK_SIZE) (init_count (sh s))
      (returned_count (sh s)) (sync_hakase_and_friend (sh s))
      (stacks (sh s) ++ [(i, stack_at (length (stacks (sh s))))]) (ctor_log (sh s)) (dtor_log (sh s))) as E.
    { cbn [core_step entry64 fst]. unfold stack_at, INITIAL_STACK_OFFSET, STACK_SIZE, u32, u64, wrap.
      rewrite int32_id by lia. rewrite !Z.mod_small by lia.
      by replace (stack_offset (sh s) + friend_binary_end)
        with (friend_binary_end + 0x2000 + 0x4000 * Z.of_nat (length (stacks (sh s)))) by lia. }
    assert (forall sp : Z, fst <$> (stacks (sh s) ++ [(i, sp)]) = (fst <$> stacks (sh s)) ++ [i]) as Ef
      by (intros sp; by rewrite fmap_app).
    change (core_step i Entry (sh s)).2 with Begin.
    rewrite E. split; cbn [sh cores stacks stack_offset].
    + rewrite length_app, (count_insert _ _ _ _ _ Hi). cbn [length has_stack]. lia.
    + rewrite length_app, H2. unfold STACK_SIZE, INITIAL_STACK_OFFSET. cbn [length]. lia.
    + intros k j sp Hk. apply lookup_app_Some in Hk as [Hk|[Hk1 Hk2]]; [by eapply H3|].
      apply list_lookup_singleton_Some in Hk2 as [Hk2 E2]. injection E2 as <- <-.
      f_equal. lia.
    + rewrite Ef. apply NoDup_app. split_and!; [done| |apply NoDup_singleton].
      intros j Hj ->%list_elem_of_singleton.
      apply (H5 i Entry Hi) in Hj. done.
    + intros j q Hq. rewrite Ef, elem_of_app, list_elem_of_singleton.
      destruct (lookup_moved _ _ _ _ _ Hq) as [[-> ->]|[Hji Hq']]; [by split; auto|].
      rewrite (H5 j q Hq'). naive_solver.
  - assert (stacks (core_step i p (sh s)).1 = stacks (sh s) /\
            stack_offset (core_step i p (sh s)).1 = stack_offset (sh s) /\
            has_stack p = true /\ has_stack (core_step i p (sh s)).2 = true) as (E1 & E2 & E3 & E4).
    { destruct p; cbn; repeat case_match; done. }
    destruct Hinv as [H1 H2 H3 H4 H5]. split; cbn [sh cores]; rewrite ?E1, ?E2; try done.
    + rewrite (count_insert _ _ _ _ _ Hi), E3, E4. lia.
    + intros j q [[-> ->]|[_ Hq]]%lookup_moved; [|by apply H5]. rewrite (H5 i p Hi), E3, E4. done.
Qed.

Lemma steps_stack_inv s s' : stacks_fit -> counted s -> stack_inv s -> friend_steps s s' -> stack_inv s'.
Proof. intros Hf Hc Hi Hs. induction Hs; [done|]. eauto using step_counted, step_stack_inv. Qed.

(** What every run keeps. *)
Lemma friend_run_inv s :
  friend_steps (start n) s -> counted s /\ ctor_inv s /\ last_inv s /\ no_return_inv s.
Proof.
  intros Hs. pose proof start_counted as Hc. split_and!.
  - by eapply steps_counted.
  - eapply steps_ctor_inv; [done|apply start_ctor_inv|done].
  - eapply steps_last_inv; [done|apply start_last_inv|done].
  - eapply steps_no_return_inv; [done|by intros _|done].
Qed.

(** The destructors of a run in which every core arrives before the first returns. *)
Lemma arrived_dtor_inv s0 s :
  (0 < n)%nat -> friend_steps (start n) s0 ->
  (forall i p, cores s0 !! i = Some p -> entered p = true /\ returned p = false) ->
  friend_steps s0 s -> counted s /\ dtor_inv s.
Proof.
  intros Hpos H0 Harr Hs. destruct (friend_run_inv s0 H0) as (Hc & _ & _ & Hnr).
  assert (returned_count (sh s0) = 0) as Er.
  { rewrite (c_returned s0 Hc). apply count_none, Forall_lookup. intros i p Hi. by apply (Harr i p). }
  assert (init_count (sh s0) = Z.of_nat n) as Ei.
  { rewrite (c_init s0 Hc), <- (c_len s0 Hc). apply count_all, Forall_lookup.
    intros i p Hi. by apply (Harr i p). }
  split; [by eapply steps_counted|]. destruct (Hnr Er) as [Hl Hsy].
  eapply steps_dtor_inv; [exact Hc|exact Ei| |exact Hs].
  apply DtorPending; [lia|done|done|]. intros i p Hi. destruct (Harr i p Hi) as [_ Hr].
  by destruct p.
Qed.

Lemma all_returned s i p :
  counted s -> returned_count (sh s) = Z.of_nat n -> cores s !! i = Some p -> returned p = true.
Proof.
  intros Hc E. rewrite (c_returned s Hc), <- (c_len s Hc), count_all, Forall_lookup in E. apply E.
Qed.

End Runs.

(** ** Properties *)

(** C17: whatever the interleaving, the [n] friend cores take at most
    [n * (ctors + dtors + 8)] steps (friend_main returns whenever it is left to);
    and when no core can take another, the constructors have been called once each
    and in order, by one core, and [is_friend_stopped] answers true. *)
Theorem friend_init_terminates n k s :
  (0 < n)%nat -> Z.of_nat n < 2 ^ 31 -> nsteps friend_step k (start n) s ->
  (k <= n * (ctors + dtors + 8))%nat /\
  ((forall s', ~ friend_step s s') ->
   is_friend_stopped (sh s) = true /\ exists i, ctor_log (sh s) = pair i <$> seq 0 ctors).
Proof.
  intros Hpos Hn Hk. split.
  - apply nsteps_total in Hk. cbn [start cores] in Hk. rewrite total_start in Hk. lia.
  - intros Ht. apply rtc_nsteps_2 in Hk. destruct (friend_run_inv n Hn s Hk) as (Hc & Hct & Hl & _).
    destruct (terminal_count n s Hc Ht) as [Er Ei]. split.
    + destruct (Hl Hpos Er) as [Hs|(i & p & Hi & Hp)]; [by apply Z.eqb_eq|].
      by rewrite (terminal_stopped s i p Ht Hi) in Hp.
    + destruct Hct as [H1 _ _|i j _ H2 _ _ _|i _ H2 _]; [lia| |by exists i].
      discriminate (terminal_stopped s i _ Ht H2).
Qed.

(** C18: when every friend core has entered [friend_init] before the first
    [friend_main] returns, no destructor is called before the last one has returned,
    and [is_friend_stopped] answers true only after that, with the destructors
    called once each and in order, by one core: what hakase.h promises. *)
Theorem friend_stop_sound n s0 s :
  (0 < n)%nat -> Z.of_nat n < 2 ^ 31 -> friend_steps (start n) s0 ->
  (forall i p, cores s0 !! i = Some p -> entered p = true /\ returned p = false) ->
  friend_steps s0 s ->
  (dtor_log (sh s) <> [] \/ is_friend_stopped (sh s) = true ->
   forall i p, cores s !! i = Some p -> returned p = true) /\
  (is_friend_stopped (sh s) = true -> exists i, dtor_log (sh s) = pair i <$> seq 0 dtors).
Proof.
  intros Hpos Hn H0 Harr Hs.
  destruct (arrived_dtor_inv n Hn s0 s Hpos H0 Harr Hs) as [Hc Hd]. unfold is_friend_stopped.
  destruct Hd as [_ Hl Hz _|i p Er _ _ Hz _|i Er Hl _ _].
  - rewrite Hl, Hz. split; [|done]. by intros [H|H].
  - rewrite Hz. split; [|done]. intros _ j q Hj. by eapply all_returned.
  - split; [|eauto]. intros _ j q Hj. by eapply all_returned.
Qed.

(** The bytes a stack may use without touching the binary or the stack below it: the
    first stack starts only [INITIAL_STACK_OFFSET] bytes above the binary. *)
Definition room (sp : Z) : Z := Z.min STACK_SIZE (sp - friend_binary_end).

(** C23: when [n] stacks fit between the end of the friend binary and the end of
    the friend region, a core that has left [entry64] has exactly one stack.  The first
    core to enter gets the stack pointer [friend_binary_end + 0x2000], so only [0x2000] of
    the [STACK_SIZE] bytes below it lie above the binary; every other core has
    [STACK_SIZE] bytes.  Within this [room] every stack lies above the binary and inside
    the region, and the [STACK_SIZE] bytes below the stack pointers of two cores are
    disjoint. *)
Theorem friend_stacks_disjoint n s :
  Layout.DEPLOY_PHYS_ADDR_START <= friend_binary_end ->
  friend_binary_end + INITIAL_STACK_OFFSET + STACK_SIZE * (Z.of_nat n - 1) <= Layout.DEPLOY_PHYS_ADDR_END ->
  friend_steps (start n) s ->
  (forall i p, cores s !! i = Some p -> has_stack p = true -> exists sp, (i, sp) ∈ stacks (sh s)) /\
  (forall k i sp, stacks (sh s) !! k = Some (i, sp) ->
     friend_binary_end <= sp - room sp /\ sp <= Layout.DEPLOY_PHYS_ADDR_END /\
     (k = 0%nat -> sp = friend_binary_end + INITIAL_STACK_OFFSET /\ room sp = 0x2000) /\
     (k <> 0%nat -> room sp = STACK_SIZE)) /\
  (forall i j sp1 sp2, (i, sp1) ∈ stacks (sh s) -> (j, sp2) ∈ stacks (sh s) ->
     (i = j /\ sp1 = sp2) \/ (i <> j /\ (sp1 <= sp2 - STACK_SIZE \/ sp2 <= sp1 - STACK_SIZE))).
Proof.
  intros H1 H2 Hs. unfold Layout.DEPLOY_PHYS_ADDR_START, Layout.DEPLOY_PHYS_ADDR_END in *.
  unfold INITIAL_STACK_OFFSET, STACK_SIZE in H2.
  assert (Z.of_nat n < 2 ^ 31) as Hn by lia.
  assert (stacks_fit n) as Hf.
  { unfold stacks_fit, INITIAL_STACK_OFFSET, STACK_SIZE, Layout.DEPLOY_PHYS_ADDR_END. lia. }
  destruct (friend_run_inv n Hn s Hs) as (Hc & _).
  destruct (steps_stack_inv n Hn _ _ Hf (start_counted n) (start_stack_inv n) Hs) as [S1 _ S3 S4 S5].
  pose proof (count_bounds has_stack (cores s)) as Hb. rewrite (c_len n s Hc) in Hb.
  assert (forall i sp, (i, sp) ∈ stacks (sh s) -> exists k, stacks (sh s) !! k = Some (i, sp) /\
    sp = stack_at k /\ Z.of_nat k < Z.of_nat n) as Hk.
  { intros i sp [k Hk]%list_elem_of_lookup_1. exists k. split_and!; [done|by eapply S3|].
    apply lookup_lt_Some in Hk. lia. }
  split_and!.
  - intros i p Hi Hp. apply (S5 i p Hi), list_elem_of_fmap in Hp as ((j & sp) & -> & Hin). by exists sp.
  - intros k i sp Hki. pose proof (lookup_lt_Some _ _ _ Hki) as Hl. rewrite (S3 _ _ _ Hki).
    unfold room, stack_at, INITIAL_STACK_OFFSET, STACK_SIZE. lia.
  - intros i j sp1 sp2 (k & Hk1 & -> & _)%Hk (l & Hl1 & -> & _)%Hk.
    destruct (decide (k = l)) as [->|Hne].
    + left. rewrite Hk1 in Hl1. by injection Hl1 as ->.
    + right. split; [|unfold stack_at, STACK_SIZE; lia]. intros ->. apply Hne.
      eapply NoDup_lookup; [exact S4|..]; rewrite list_lookup_fmap; [by rewrite Hk1|by rewrite Hl1].
Qed.

End FriendInit.

(** *** Concrete runs: two cores, one constructor, one destructor. *)

Definition demo_end : Z := 0x100008000.
Abbreviation demo_exec := (run_schedule demo_end 1 1).
Abbreviation demo_steps := (rtc (friend_step demo_end 1 1)).

(** The second core is started when the first has already seen itself as the last. *)
Definition late_start : list nat := [0; 0; 0; 0; 0; 0; 0; 1; 1; 0; 0; 0]%nat.
Definition late_state : friend_state := Eval vm_compute in default (start 2) (demo_exec late_start (start 2)).

Definition both_done : list nat := (late_start ++ [1; 1; 1; 1; 1; 1])%nat.
Definition both_state : friend_state := Eval vm_compute in default (start 2) (demo_exec both_done (start 2)).

(** The second core runs friend_main while the first has the constructors to do. *)
Definition early_main : list nat := [0; 0; 1; 1]%nat.
Definition early_state : friend_state := Eval vm_compute in default (start 2) (demo_exec early_main (start 2)).

(** Without that order of arrival the promise fails, because a core counts only
    those that have entered so far: there are runs of two cores in which
    [is_friend_stopped] answers true while the other core is in friend_main, in which
    each destructor is called twice, and in which friend_main runs on a core before
    any constructor has been called. *)
Theorem friend_init_races :
  (exists s, demo_steps (start 2) s /\ is_friend_stopped (sh s) = true /\
     cores s !! 1%nat = Some Main) /\
  (exists s, demo_steps (start 2) s /\ dtor_log (sh s) = [(0, 0); (1, 0)]%nat) /\
  (exists s, demo_steps (start 2) s /\ ctor_log (sh s) = [] /\ cores s !! 1%nat = Some Main).
Proof.
  split_and!; [exists late_state|exists both_state|exists early_state]; (split; [|by vm_compute]).
  - apply (run_schedule_steps _ _ _ late_start). vm_compute. reflexivity.
  - apply (run_schedule_steps _ _ _ both_done). vm_compute. reflexivity.
  - apply (run_schedule_steps _ _ _ early_main). vm_compute. reflexivity.
Qed.

(** Both cores in friend_main, then both to the end. *)
Definition arrive : list nat := [0; 0; 0; 0; 1; 1]%nat.
Definition arrived_state : friend_state := Eval vm_compute in default (start 2) (demo_exec arrive (start 2)).
Definition leave : list nat := [1; 0; 0; 1; 0; 1; 1; 1; 1]%nat.
Definition left_state : friend_state := Eval vm_compute in default (start 2) (demo_exec leave arrived_state).

Lemma arrived_reachable : demo_steps (start 2) arrived_state.
Proof. apply (run_schedule_steps _ _ _ arrive). vm_compute. reflexivity. Qed.

Lemma left_reachable : demo_steps arrived_state left_state.
Proof. apply (run_schedule_steps _ _ _ leave). vm_compute. reflexivity. Qed.

Lemma left_terminal : forall s', ~ friend_step demo_end 1 1 left_state s'.
Proof.
  intros s' H. inversion H as [i p s Hi Hp E]; subst.
  destruct i as [|[|[|i]]]; cbn in Hi; try done; injection Hi as <-; done.
Qed.

Lemma friend_init_terminates_witness :
  exists k, nsteps (friend_step demo_end 1 1) k (start 2) left_state /\ (k <= 20)%nat /\
    is_friend_stopped (sh left_state) = true.
Proof.
  assert (demo_steps (start 2) left_state) as Hs
    by (etrans; [exact arrived_reachable|exact left_reachable]).
  destruct (rtc_nsteps_1 _ _ Hs) as [k Hk].
  exists k. split; [exact Hk|].
  destruct (friend_init_terminates demo_end 1 1 2 k left_state ltac:(lia) ltac:(lia) Hk) as [H1 H2].
  split; [exact H1|]. exact (proj1 (H2 left_terminal)).
Defined.

Lemma friend_stop_sound_witness :
  is_friend_stopped (sh left_state) = true /\
  (forall i p, cores left_state !! i = Some p -> returned p = true) /\
  exists i, dtor_log (sh left_state) = pair i <$> seq 0 1.
Proof.
  assert (forall i p, cores arrived_state !! i = Some p -> entered p = true /\ returned p = false) as Harr.
  { intros [|[|i]] p Hi; cbn in Hi; [injection Hi as <-; done|injection Hi as <-; done|done]. }
  destruct (friend_stop_sound demo_end 1 1 2 arrived_state left_state ltac:(lia) ltac:(lia)
    arrived_reachable Harr left_reachable) as [H1 H2].
  split; [reflexivity|]. split; [apply H1; right; reflexivity|apply H2; reflexivity].
Defined.

Lemma friend_stacks_disjoint_witness :
  stacks (sh arrived_state) = [(0%nat, 0x10000a000); (1%nat, 0x10000e000)] /\
  (0x10000a000 <= 0x10000e000 - STACK_SIZE \/ 0x10000e000 <= 0x10000a000 - STACK_SIZE).
Proof.
  split; [reflexivity|].
  destruct (friend_stacks_disjoint demo_end 1 1 2 arrived_state ltac:(done) ltac:(done) arrived_reachable)
    as (_ & _ & H).
  destruct (H 0%nat 1%nat 0x10000a000 0x10000e000) as [[? _]|[_ ?]]; [left|right; left|done|done].
Defined.

End FriendInit.
