(* ===== verification/Programs.v ===== *)
(** * Programs: whole programs on friend cores and host

    A program of the repository (under sample, tests and tutorial/toshokan) is a host side,
    [test_main] of its hakase.cc, and a friend side, [friend_main] of its friend.cc.
    The host starts cores with [boot] and then loops on a condition, in most programs
    [is_friend_stopped], serving offloaded code; every started core goes through
    [friend_init] and runs [friend_main].  This file composes the two models those
    parts already have: the life of the cores ([FriendInit]) and the hand-over of
    offloaded code ([Offload.Protocol]), with the statements of [friend_main] and the
    loop of the host between them. *)

From S2P Require Import Prelude Memory Offload FriendInit.

Module Programs.

#[local] Existing Instance Protocol.fpc_eq_dec.
#[local] Existing Instance Protocol.hpc_eq_dec.
#[local] Existing Instance FriendInit.pc_eq_dec.

(** ** The hand-over, by who moves

    [friend_act] and [host_act] are the steps of [Protocol] as functions: the next
    access of core [i] in [_OFFLOAD], and of the host in [TryReceive]. *)

Definition put_friend (i : nat) (p : Protocol.fpc) (s : Protocol.state) : Protocol.state :=
  Protocol.mkState (Protocol.lock s) (Protocol.word8 s) (Protocol.word9 s) (Protocol.friend_ctx s)
    (Protocol.hakase_ctx s) (Protocol.set_friend i p s) (Protocol.hakase s)
    (Protocol.ran_on_host s) (Protocol.ran_on_friend s) (Protocol.completed s).

Definition friend_act (i : nat) (s : Protocol.state) : option Protocol.state :=
  match Protocol.friends s !! i with
  | None => None
  | Some p =>
      match p with
      | Protocol.FIdle => Some (put_friend i Protocol.FTest s)
      | Protocol.FTest =>
          Some (put_friend i (if Protocol.lock s =? 0 then Protocol.FCas else Protocol.FTest) s)
      | Protocol.FCas =>
          Some (Protocol.mkState (if Protocol.lock s =? 0 then 1 else Protocol.lock s)
            (Protocol.word8 s) (Protocol.word9 s) (Protocol.friend_ctx s) (Protocol.hakase_ctx s)
            (Protocol.set_friend i (if Protocol.lock s =? 0 then Protocol.FSave else Protocol.FTest) s)
            (Protocol.hakase s) (Protocol.ran_on_host s) (Protocol.ran_on_friend s)
            (Protocol.completed s))
      | Protocol.FSave =>
          Some (Protocol.mkState (Protocol.lock s) (Protocol.word8 s) (Protocol.word9 s)
            (Some (i, Protocol.AfterWait)) (Protocol.hakase_ctx s)
            (Protocol.set_friend i Protocol.FPost s) (Protocol.hakase s)
            (Protocol.ran_on_host s) (Protocol.ran_on_friend s) (Protocol.completed s))
      | Protocol.FPost =>
          Some (Protocol.mkState (Protocol.lock s) 1 (Protocol.word9 s)
            (Protocol.friend_ctx s) (Protocol.hakase_ctx s)
            (Protocol.set_friend i Protocol.FWait s) (Protocol.hakase s)
            (Protocol.ran_on_host s) (Protocol.ran_on_friend s) (Protocol.completed s))
      | Protocol.FWait =>
          Some (put_friend i (if Protocol.word9 s =? 0 then Protocol.FWait else Protocol.FLoad) s)
      | Protocol.FLoad =>
          match Protocol.friend_ctx s with
          | Some (c, t) => Some (put_friend i (Protocol.FClear c t) s)
          | None => None
          end
      | Protocol.FClear c t =>
          Some (Protocol.mkState (Protocol.lock s) (Protocol.word8 s) 0
            (Protocol.friend_ctx s) (Protocol.hakase_ctx s)
            (Protocol.set_friend i
               (match t with Protocol.AfterWait => Protocol.FCode | Protocol.AfterCode => Protocol.FUnlock end) s)
            (Protocol.hakase s) (Protocol.ran_on_host s) (Protocol.ran_on_friend s)
            (Protocol.completed s))
      | Protocol.FCode =>
          Some (Protocol.mkState (Protocol.lock s) (Protocol.word8 s) (Protocol.word9 s)
            (Protocol.friend_ctx s) (Protocol.hakase_ctx s)
            (Protocol.set_friend i Protocol.FSaveAgain s) (Protocol.hakase s)
            (Protocol.ran_on_host s) (i :: Protocol.ran_on_friend s) (Protocol.completed s))
      | Protocol.FSaveAgain =>
          Some (Protocol.mkState (Protocol.lock s) (Protocol.word8 s) (Protocol.word9 s)
            (Some (i, Protocol.AfterCode)) (Protocol.hakase_ctx s)
            (Protocol.set_friend i Protocol.FStray s) (Protocol.hakase s)
            (Protocol.ran_on_host s) (Protocol.ran_on_friend s) (Protocol.completed s))
      | Protocol.FStray => None
      | Protocol.FUnlock =>
          Some (Protocol.mkState 0 (Protocol.word8 s) (Protocol.word9 s)
            (Protocol.friend_ctx s) (Protocol.hakase_ctx s)
            (Protocol.set_friend i Protocol.FIdle s) (Protocol.hakase s)
            (Protocol.ran_on_host s) (Protocol.ran_on_friend s) (i :: Protocol.completed s))
      end
  end.

Definition put_host (h : Protocol.hpc) (s : Protocol.state) : Protocol.state :=
  Protocol.mkState (Protocol.lock s) (Protocol.word8 s) (Protocol.word9 s) (Protocol.friend_ctx s)
    (Protocol.hakase_ctx s) (Protocol.friends s) h
    (Protocol.ran_on_host s) (Protocol.ran_on_friend s) (Protocol.completed s).

Definition host_act (s : Protocol.state) : option Protocol.state :=
  match Protocol.hakase s with
  | Protocol.HPoll =>
      Some (put_host (if Protocol.word8 s =? 0 then Protocol.HPoll else Protocol.HClear8) s)
  | Protocol.HClear8 =>
      Some (Protocol.mkState (Protocol.lock s) 0 (Protocol.word9 s) (Protocol.friend_ctx s)
        (Protocol.hakase_ctx s) (Protocol.friends s) Protocol.HSave
        (Protocol.ran_on_host s) (Protocol.ran_on_friend s) (Protocol.completed s))
  | Protocol.HSave =>
      Some (Protocol.mkState (Protocol.lock s) (Protocol.word8 s) (Protocol.word9 s)
        (Protocol.friend_ctx s) true (Protocol.friends s) Protocol.HJump
        (Protocol.ran_on_host s) (Protocol.ran_on_friend s) (Protocol.completed s))
  | Protocol.HJump =>
      match Protocol.friend_ctx s with
      | Some (c, Protocol.AfterWait) => Some (put_host (Protocol.HCode c) s)
      | Some (_, Protocol.AfterCode) => Some (put_host Protocol.HStray s)
      | None => None
      end
  | Protocol.HCode c =>
      Some (Protocol.mkState (Protocol.lock s) (Protocol.word8 s) (Protocol.word9 s)
        (Protocol.friend_ctx s) (Protocol.hakase_ctx s) (Protocol.friends s)
        (Protocol.HSaveFriend c) (c :: Protocol.ran_on_host s)
        (Protocol.ran_on_friend s) (Protocol.completed s))
  | Protocol.HSaveFriend c =>
      Some (Protocol.mkState (Protocol.lock s) (Protocol.word8 s) (Protocol.word9 s)
        (Some (c, Protocol.AfterCode)) (Protocol.hakase_ctx s) (Protocol.friends s)
        Protocol.HReturn (Protocol.ran_on_host s) (Protocol.ran_on_friend s) (Protocol.completed s))
  | Protocol.HReturn =>
      if Protocol.hakase_ctx s then Some (put_host Protocol.HSet9 s) else None
  | Protocol.HSet9 =>
      Some (Protocol.mkState (Protocol.lock s) (Protocol.word8 s) 1
        (Protocol.friend_ctx s) (Protocol.hakase_ctx s) (Protocol.friends s)
        Protocol.HPoll (Protocol.ran_on_host s) (Protocol.ran_on_friend s) (Protocol.completed s))
  | Protocol.HStray => None
  end.

Lemma friend_act_step i s s' : friend_act i s = Some s' -> Protocol.step s s'.
Proof.
  unfold friend_act. destruct (Protocol.friends s !! i) as [p|] eqn:Hi; [|done].
  destruct p; try (intros [= <-]);
    [by apply Protocol.StepBegin|by apply Protocol.StepTest|by apply Protocol.StepCas
    |by apply Protocol.StepSave|by apply Protocol.StepPost|by apply Protocol.StepWait|
    |by eapply Protocol.StepClear|by apply Protocol.StepCode|by apply Protocol.StepSaveAgain
    |by apply Protocol.StepUnlock].
  destruct (Protocol.friend_ctx s) as [[c t]|] eqn:Hc; [|done].
  intros [= <-]. by apply Protocol.StepLoad.
Qed.

Lemma host_act_step s s' : host_act s = Some s' -> Protocol.step s s'.
Proof.
  unfold host_act. destruct (Protocol.hakase s) eqn:Hh; try (intros [= <-]);
    [by apply Protocol.StepPoll|by apply Protocol.StepClear8|by apply Protocol.StepHSave|
    |by apply Protocol.StepHCode|by apply Protocol.StepSaveFriend| |by apply Protocol.StepSet9].
  - destruct (Protocol.friend_ctx s) as [[c t]|] eqn:Hc; [|done].
    pose proof (Protocol.StepJump c t s Hh Hc). destruct t; by intros [= <-].
  - destruct (Protocol.hakase_ctx s) eqn:Hc; [|done]. intros [= <-].
    unfold put_host. rewrite Hc. replace true with (Protocol.hakase_ctx s). by apply Protocol.StepReturn.
Qed.

(** ** Programs

    [V] is the type of the variables of both sides of a program, [L] that of the locals
    of [friend_main].  A statement of [friend_main] is one access to a variable, which
    is also given the stack pointer the core had at the call of [friend_init], or a
    piece of offloaded code. *)

Section Program.
Context {V L : Type}.

Inductive stmt :=
| Access (f : Z -> V * L -> V * L)
| Offload (f : V * L -> V * L).

Record program := mkProgram {
  friend_main : list stmt;
  local0 : L;
  receives : bool;           (* the loop of the host calls offloader_tryreceive() *)
  until : FriendInit.shared -> V -> bool;
  result : nat -> V -> Z     (* what test_main returns, from what boot() returned *)
}.

(** Where [test_main] is after [boot]. *)
Inductive hostpc :=
| Check                      (* the condition of the loop *)
| Receive                    (* in offloader_tryreceive() *)
| Result                     (* behind the loop *)
| Left (r : Z).              (* has returned *)

Record world := mkWorld {
  life : FriendInit.friend_state;
  offl : Protocol.state;
  vars : V;
  todo : list (list stmt);   (* what each core has not run of friend_main yet *)
  locals : list L;
  host : hostpc
}.

(** The stack pointer [entry64] gave to core [i]. *)
Definition rsp_of (i : nat) (s : FriendInit.shared) : Z :=
  default 0 (snd <$> List.find (fun e => Nat.eqb e.1 i) (FriendInit.stacks s)).
Context (friend_binary_end : Z) (ctors dtors : nat) (P : program) (n : nat).

Abbreviation core_step := (FriendInit.core_step friend_binary_end ctors dtors).
Abbreviation friend_step := (FriendInit.friend_step friend_binary_end ctors dtors).

Definition start (v : V) : world :=
  mkWorld (FriendInit.start n) (Protocol.init n) v (replicate n (friend_main P))
    (replicate n (local0 P)) Check.

(** Core [i], which is at [p], takes its next step of boot.S and init.cc. *)
Definition lives (i : nat) (p : FriendInit.pc) (s : FriendInit.friend_state) :
    FriendInit.friend_state :=
  FriendInit.mkState (core_step i p (FriendInit.sh s)).1
    (<[i := (core_step i p (FriendInit.sh s)).2]> (FriendInit.cores s)).

Inductive world_step : world -> world -> Prop :=
| WLife i p w :
    FriendInit.cores (life w) !! i = Some p -> p <> FriendInit.Main -> p <> FriendInit.Stop ->
    world_step w (mkWorld (lives i p (life w)) (offl w) (vars w) (todo w) (locals w) (host w))
| WAccess i f rest l w :
    FriendInit.cores (life w) !! i = Some FriendInit.Main ->
    Protocol.friends (offl w) !! i = Some Protocol.FIdle ->
    todo w !! i = Some (Access f :: rest) -> locals w !! i = Some l ->
    let r := f (rsp_of i (FriendInit.sh (life w))) (vars w, l) in
    world_step w (mkWorld (life w) (offl w) r.1 (<[i := rest]> (todo w)) (<[i := r.2]> (locals w)) (host w))
| WOffload i f rest o w :
    FriendInit.cores (life w) !! i = Some FriendInit.Main ->
    Protocol.friends (offl w) !! i = Some Protocol.FIdle ->
    todo w !! i = Some (Offload f :: rest) -> friend_act i (offl w) = Some o ->
    world_step w (mkWorld (life w) o (vars w) (todo w) (locals w) (host w))
| WMacro i p o w :
    FriendInit.cores (life w) !! i = Some FriendInit.Main ->
    Protocol.friends (offl w) !! i = Some p -> p <> Protocol.FIdle -> p <> Protocol.FCode ->
    friend_act i (offl w) = Some o ->
    world_step w (mkWorld (life w) o (vars w) (todo w) (locals w) (host w))
| WCodeHere i f rest l o w :
    FriendInit.cores (life w) !! i = Some FriendInit.Main ->
    Protocol.friends (offl w) !! i = Some Protocol.FCode ->
    todo w !! i = Some (Offload f :: rest) -> locals w !! i = Some l ->
    friend_act i (offl w) = Some o ->
    world_step w (mkWorld (life w) o (f (vars w, l)).1 (<[i := rest]> (todo w))
                    (<[i := (f (vars w, l)).2]> (locals w)) (host w))
| WReturn i w :
    FriendInit.cores (life w) !! i = Some FriendInit.Main ->
    Protocol.friends (offl w) !! i = Some Protocol.FIdle -> todo w !! i = Some [] ->
    world_step w (mkWorld (lives i FriendInit.Main (life w)) (offl w) (vars w) (todo w) (locals w) (host w))
| WCheck w :
    host w = Check ->
    world_step w (mkWorld (life w) (offl w) (vars w) (todo w) (locals w)
      (if until P (FriendInit.sh (life w)) (vars w) then Result else
       if receives P then Receive else Check))
| WResult w :
    host w = Result ->
    world_step w (mkWorld (life w) (offl w) (vars w) (todo w) (locals w) (Left (result P n (vars w))))
| WPoll w :
    host w = Receive -> Protocol.hakase (offl w) = Protocol.HPoll -> Protocol.word8 (offl w) = 0 ->
    world_step w (mkWorld (life w) (offl w) (vars w) (todo w) (locals w) Check)
| WReceive o w :
    host w = Receive -> (Protocol.hakase (offl w) = Protocol.HPoll -> Protocol.word8 (offl w) <> 0) ->
    (forall c, Protocol.hakase (offl w) <> Protocol.HCode c) -> host_act (offl w) = Some o ->
    world_step w (mkWorld (life w) o (vars w) (todo w) (locals w) (host w))
| WCode c f rest l o w :
    host w = Receive -> Protocol.hakase (offl w) = Protocol.HCode c ->
    todo w !! c = Some (Offload f :: rest) -> locals w !! c = Some l ->
    host_act (offl w) = Some o ->
    world_step w (mkWorld (life w) o (f (vars w, l)).1 (<[c := rest]> (todo w))
                    (<[c := (f (vars w, l)).2]> (locals w)) (host w)).

Abbreviation world_steps := (rtc world_step).

(** ** The two models inside

    A step of a program is a step of each of them or none. *)

Lemma step_life w w' : world_step w w' -> life w' = life w \/ friend_step (life w) (life w').
Proof. intros []; cbn; auto; right; by constructor. Qed.

Lemma step_offl w w' : world_step w w' -> offl w' = offl w \/ Protocol.step (offl w) (offl w').
Proof. intros []; cbn; eauto using friend_act_step, host_act_step. Qed.

Lemma steps_life w w' : world_steps w w' -> rtc friend_step (life w) (life w').
Proof.
  intros H. induction H as [|x y z H1 _ IH]; [done|].
  destruct (step_life _ _ H1) as [<-|H2]; [done|by eapply rtc_l].
Qed.

Lemma steps_offl w w' : world_steps w w' -> Protocol.steps (offl w) (offl w').
Proof.
  intros H. induction H as [|x y z H1 _ IH]; [done|].
  destruct (step_offl _ _ H1) as [<-|H2]; [done|by eapply rtc_l].
Qed.

(** ** Schedules, executed *)

Inductive actor := Core (i : nat) | Host.

Definition turn_core (i : nat) (w : world) : option world :=
  match FriendInit.cores (life w) !! i with
  | None | Some FriendInit.Stop => None
  | Some FriendInit.Main =>
      match Protocol.friends (offl w) !! i, todo w !! i, locals w !! i with
      | Some Protocol.FIdle, Some [], _ =>
          Some (mkWorld (lives i FriendInit.Main (life w)) (offl w) (vars w) (todo w) (locals w) (host w))
      | Some Protocol.FIdle, Some (Access f :: rest), Some l =>
          let r := f (rsp_of i (FriendInit.sh (life w))) (vars w, l) in
          Some (mkWorld (life w) (offl w) r.1 (<[i := rest]> (todo w)) (<[i := r.2]> (locals w)) (host w))
      | Some Protocol.FIdle, Some (Offload _ :: _), _ =>
          o ← friend_act i (offl w);
          Some (mkWorld (life w) o (vars w) (todo w) (locals w) (host w))
      | Some Protocol.FIdle, _, _ | Some Protocol.FCode, _, _ => None
      | Some _, _, _ =>
          o ← friend_act i (offl w);
          Some (mkWorld (life w) o (vars w) (todo w) (locals w) (host w))
      | None, _, _ => None
      end
  | Some p =>
      Some (mkWorld (lives i p (life w)) (offl w) (vars w) (todo w) (locals w) (host w))
  end.

Definition turn_host (w : world) : option world :=
  match host w with
  | Check =>
      Some (mkWorld (life w) (offl w) (vars w) (todo w) (locals w)
        (if until P (FriendInit.sh (life w)) (vars w) then Result else
         if receives P then Receive else Check))
  | Result => Some (mkWorld (life w) (offl w) (vars w) (todo w) (locals w) (Left (result P n (vars w))))
  | Left _ => None
  | Receive =>
      match Protocol.hakase (offl w) with
      | Protocol.HCode c =>
          match todo w !! c, locals w !! c with
          | Some (Offload f :: rest), Some l =>
              o ← host_act (offl w);
              Some (mkWorld (life w) o (f (vars w, l)).1 (<[c := rest]> (todo w))
                      (<[c := (f (vars w, l)).2]> (locals w)) (host w))
          | _, _ => None
          end
      | h =>
          if decide (h = Protocol.HPoll /\ Protocol.word8 (offl w) = 0) then
            Some (mkWorld (life w) (offl w) (vars w) (todo w) (locals w) Check)
          else
            o ← host_act (offl w);
            Some (mkWorld (life w) o (vars w) (todo w) (locals w) (host w))
      end
  end.

Definition turn (a : actor) (w : world) : option world :=
  match a with Core i => turn_core i w | Host => turn_host w end.

Fixpoint run (sched : list actor) (w : world) : option world :=
  match sched with
  | [] => Some w
  | a :: rest => w' ← turn a w; run rest w'
  end.

Lemma turn_core_step i w w' : turn_core i w = Some w' -> world_step w w'.
Proof.
  unfold turn_core. destruct (FriendInit.cores (life w) !! i) as [p|] eqn:Hi; [|done].
  destruct (decide (p = FriendInit.Main)) as [->|Hm].
  2:{ destruct p; intros; simplify_eq; by apply WLife. }
  destruct (Protocol.friends (offl w) !! i) as [q|] eqn:Hq; [|done].
  destruct (decide (q = Protocol.FIdle)) as [->|Hne].
  - destruct (todo w !! i) as [[|[f|f] rest]|] eqn:Ht; [| | |done].
    + intros [= <-]. by apply WReturn.
    + destruct (locals w !! i) eqn:Hl; [|done]. intros [= <-]. by eapply WAccess.
    + intros (o & Ho & [= <-])%bind_Some. by eapply WOffload.
  - assert (q <> Protocol.FCode -> (o ← friend_act i (offl w);
      Some (mkWorld (life w) o (vars w) (todo w) (locals w) (host w))) = Some w' -> world_step w w') as Hgo.
    { intros Hc (o & Ho & [= <-])%bind_Some. by eapply WMacro. }
    destruct q; try done; by apply Hgo.
Qed.

Lemma turn_host_step w w' : turn_host w = Some w' -> world_step w w'.
Proof.
  unfold turn_host. destruct (host w) eqn:Hw.
  - intros [= <-]. by apply WCheck.
  - assert (forall h, h = Protocol.hakase (offl w) -> (forall c, h <> Protocol.HCode c) ->
      (if decide (h = Protocol.HPoll /\ Protocol.word8 (offl w) = 0) then
         Some (mkWorld (life w) (offl w) (vars w) (todo w) (locals w) Check)
       else o ← host_act (offl w);
         Some (mkWorld (life w) o (vars w) (todo w) (locals w) Receive)) = Some w' ->
      world_step w w') as Hgo.
    { intros h -> Hc. case_decide as Hd; [destruct Hd; intros [= <-]; by apply WPoll|].
      intros (o & Ho & [= <-])%bind_Some. rewrite <- Hw. apply WReceive; try done. tauto. }
    destruct (Protocol.hakase (offl w)) eqn:Hh; try (by apply Hgo).
    destruct (todo w !! core) as [[|[f|f] rest]|] eqn:Ht; try done.
    destruct (locals w !! core) eqn:Hl; [|done].
    intros (o & Ho & [= <-])%bind_Some. rewrite <- Hw. by eapply WCode.
  - intros [= <-]. by apply WResult.
  - done.
Qed.

Lemma run_steps sched w w' : run sched w = Some w' -> world_steps w w'.
Proof.
  revert w. induction sched as [|a rest IH]; cbn [run]; intros w H; [by injection H as ->|].
  apply bind_Some in H as (w1 & H1 & H2). eapply rtc_l; [|by apply IH].
  destruct a; [by eapply turn_core_step|by apply turn_host_step].
Qed.

(** ** Well-formed worlds

    Core [i] still has its offloaded code to run. *)
Definition pending (o : Protocol.state) (p : Protocol.fpc) : Prop :=
  match p with
  | Protocol.FIdle => False
  | Protocol.FTest | Protocol.FCas => True
  | _ => Protocol.ran_on_host o = Protocol.completed o
  end.

(** [friend_main] has returned on a core. *)
Definition past_main (p : FriendInit.pc) : bool :=
  match p with
  | FriendInit.Entry | FriendInit.Begin | FriendInit.Ctor _ | FriendInit.Main => false
  | _ => true
  end.

Record wf (w : world) : Prop := {
  w_inv : Protocol.inv (offl w);
  w_friends : length (Protocol.friends (offl w)) = n;
  w_todo : length (todo w) = n;
  w_locals : length (locals w) = n;
  w_cores : length (FriendInit.cores (life w)) = n;
  w_main : forall i p, Protocol.friends (offl w) !! i = Some p -> p <> Protocol.FIdle ->
    FriendInit.cores (life w) !! i = Some FriendInit.Main;
  w_pending : forall i p, Protocol.friends (offl w) !! i = Some p -> pending (offl w) p ->
    exists f rest, todo w !! i = Some (Offload f :: rest);
  w_done : forall i p, FriendInit.cores (life w) !! i = Some p -> past_main p = true ->
    todo w !! i = Some [];
  w_part : forall i l, todo w !! i = Some l -> l `suffix_of` friend_main P;
  w_host : host w <> Receive -> Protocol.hakase (offl w) = Protocol.HPoll
}.

Lemma start_wf v : wf (start v).
Proof.
  assert (forall A (x y : A) i, replicate n x !! i = Some y -> y = x) as Hr.
  { intros A x y i H. by apply lookup_replicate in H as [? _]. }
  split; cbn; try apply length_replicate; try done.
  - apply Protocol.init_inv.
  - by intros i p ->%Hr.
  - by intros i p ->%Hr.
  - by intros i p ->%Hr.
  - by intros i l ->%Hr.
Qed.

(** What a move of core [i] in the macro does to itself and to the others. *)
Lemma friend_act_effect i p o o' :
  Protocol.inv o -> Protocol.friends o !! i = Some p -> p <> Protocol.FCode ->
  friend_act i o = Some o' ->
  exists p', Protocol.friends o' = <[i := p']> (Protocol.friends o) /\
    Protocol.hakase o' = Protocol.hakase o /\
    (p <> Protocol.FIdle -> pending o' p' -> pending o p) /\
    (forall j q, j <> i -> Protocol.friends o !! j = Some q -> pending o' q -> pending o q).
Proof.
  intros Hinv Hi Hp. unfold friend_act. rewrite Hi.
  assert (forall j q (X : Prop), j <> i -> Protocol.friends o !! j = Some q ->
    p = Protocol.FUnlock -> Protocol.critical q -> X) as Hother.
  { intros j q X Hj Hq -> Hc. destruct (Protocol.inv_holder o i _ Hinv Hi I) as (_ & _ & Ho & _).
    by destruct (Ho j q Hj Hq). }
  destruct p; try done; try (destruct (Protocol.friend_ctx o) as [[c t]|]; [|done]);
    intros [= <-]; eexists; (split_and!; [reflexivity|reflexivity| |]); cbn.
  all: try (intros j q _ _; by destruct q).
  all: try done.
  all: try (repeat case_match; done).
  intros j q Hj Hq. destruct q; cbn; try done; intros _; by eapply Hother.
Qed.

Lemma host_act_effect o o' :
  (forall c, Protocol.hakase o <> Protocol.HCode c) -> host_act o = Some o' ->
  Protocol.friends o' = Protocol.friends o /\
  Protocol.ran_on_host o' = Protocol.ran_on_host o /\
  Protocol.completed o' = Protocol.completed o.
Proof.
  intros Hc. unfold host_act. destruct (Protocol.hakase o) eqn:E; try (by destruct (Hc core));
    repeat case_match; intros; by simplify_eq.
Qed.

(** The core whose code the host is about to run waits for it. *)
Lemma served o c :
  Protocol.inv o -> Protocol.hakase o = Protocol.HCode c ->
  Protocol.friends o !! c = Some Protocol.FWait /\ Protocol.lock o = 1 /\
  Protocol.ran_on_host o = Protocol.completed o.
Proof.
  intros [? ? ? ? ? ? ?|i p Hl Hi Hp _ _] Hh; [congruence|].
  inversion Hp; subst; destruct_and?; destruct_or?; destruct_and?; try congruence.
  assert (i = c) as -> by congruence. done.
Qed.

Lemma lives_past i p s q j :
  FriendInit.cores s !! i = Some p -> FriendInit.cores (lives i p s) !! j = Some q ->
  past_main q = true -> (j = i /\ (past_main p = true \/ p = FriendInit.Main)) \/
  (j <> i /\ FriendInit.cores s !! j = Some q).
Proof.
  intros Hi Hj Hq. apply FriendInit.lookup_moved in Hj as [[-> ->]|[Hne Hj]]; [left|by right].
  split; [done|]. destruct p; cbn in Hq |- *; auto; repeat case_match; cbn in Hq; done.
Qed.

Lemma wf_lives i p w :
  wf w -> FriendInit.cores (life w) !! i = Some p ->
  Protocol.friends (offl w) !! i = Some Protocol.FIdle ->
  (p = FriendInit.Main -> todo w !! i = Some []) ->
  wf (mkWorld (lives i p (life w)) (offl w) (vars w) (todo w) (locals w) (host w)).
Proof.
  intros [] Hi Hf Ht. split; cbn; try done.
  - by rewrite length_insert.
  - intros j q Hj Hq. destruct (decide (j = i)) as [->|Hne]; [congruence|].
    rewrite list_lookup_insert_ne by done. eauto.
  - intros j q Hj Hq. destruct (lives_past _ _ _ _ _ Hi Hj Hq) as [[-> [H| ->]]|[_ H]]; eauto.
Qed.

Lemma wf_macro i p w o :
  wf w -> FriendInit.cores (life w) !! i = Some FriendInit.Main ->
  Protocol.friends (offl w) !! i = Some p -> p <> Protocol.FCode ->
  (p = Protocol.FIdle -> exists f rest, todo w !! i = Some (Offload f :: rest)) ->
  friend_act i (offl w) = Some o ->
  wf (mkWorld (life w) o (vars w) (todo w) (locals w) (host w)).
Proof.
  intros [] Hi Hf Hp Ht Ha.
  destruct (friend_act_effect i p _ o w_inv0 Hf Hp Ha) as (p' & E1 & E2 & E3 & E4).
  split; cbn; try done.
  - by eapply Protocol.step_inv, friend_act_step.
  - by rewrite E1, length_insert.
  - intros j q Hj Hq. rewrite E1 in Hj. apply FriendInit.lookup_moved in Hj as [[-> _]|[_ Hj]]; eauto.
  - intros j q Hj Hq. rewrite E1 in Hj. apply FriendInit.lookup_moved in Hj as [[-> ->]|[Hne Hj]].
    + destruct (decide (p = Protocol.FIdle)) as [->|Hne]; eauto.
    + eauto.
  - rewrite E2. done.
Qed.

(** A core runs the statement at the head of what it has left. *)
Lemma wf_ran i st rest w o v ls :
  wf w -> FriendInit.cores (life w) !! i = Some FriendInit.Main ->
  todo w !! i = Some (st :: rest) -> length ls = n -> Protocol.inv o ->
  Protocol.friends o = Protocol.friends (offl w) ->
  (host w <> Receive -> Protocol.hakase o = Protocol.HPoll) ->
  (forall j p, Protocol.friends (offl w) !! j = Some p -> pending o p ->
     j <> i /\ pending (offl w) p) ->
  wf (mkWorld (life w) o v (<[i := rest]> (todo w)) ls (host w)).
Proof.
  intros [] Hi Ht Hl Hinv Ef Hh Hp. split; cbn; try done.
  - by rewrite Ef.
  - by rewrite length_insert.
  - by rewrite Ef.
  - intros j q Hj Hq. rewrite Ef in Hj. destruct (Hp j q Hj Hq) as [Hne Hq'].
    rewrite list_lookup_insert_ne by done. eauto.
  - intros j q Hj Hq. destruct (decide (j = i)) as [->|Hne].
    + rewrite Hi in Hj. by injection Hj as <-.
    + rewrite list_lookup_insert_ne by done. eauto.
  - intros j l Hj. apply FriendInit.lookup_moved in Hj as [[-> ->]|[_ Hj]]; [|eauto].
    apply w_part0 in Ht as [k ->]. exists (k ++ [st]). by rewrite <- app_assoc.
Qed.

Lemma wf_host w o h :
  wf w -> Protocol.inv o -> Protocol.friends o = Protocol.friends (offl w) ->
  (forall p, pending o p -> pending (offl w) p) ->
  (h <> Receive -> Protocol.hakase o = Protocol.HPoll) ->
  wf (mkWorld (life w) o (vars w) (todo w) (locals w) h).
Proof.
  intros [] Hinv Ef Hp Hh. split; cbn; try done; rewrite ?Ef; eauto.
Qed.

Lemma step_wf w w' : wf w -> world_step w w' -> wf w'.
Proof.
  intros Hwf Hst. pose proof (w_inv w Hwf) as Hinv. pose proof (w_host w Hwf) as Hh.
  destruct Hst as [i p w Hi Hm Hs|i f rest l w Hi Hf Ht Hl r|i f rest o w Hi Hf Ht Ha
    |i p o w Hi Hf Hp Hc Ha|i f rest l o w Hi Hf Ht Hl Ha|i w Hi Hf Ht|w Hw|w Hw|w Hw Hk H8
    |o w Hw Hk Hc Ha|c f rest l o w Hw Hk Ht Hl Ha].
  - destruct (lookup_lt_is_Some_2 (Protocol.friends (offl w)) i) as [q Hq].
    { rewrite (w_friends w Hwf), <- (w_cores w Hwf). by eapply lookup_lt_Some. }
    apply wf_lives; try done. destruct (decide (q = Protocol.FIdle)) as [->|Hne]; [done|].
    rewrite (w_main w Hwf i q Hq Hne) in Hi. congruence.
  - eapply wf_ran; try done; [by rewrite length_insert, (w_locals w Hwf)|].
    intros j p Hj Hp. split; [|done]. intros ->. rewrite Hf in Hj. by injection Hj as <-.
  - eapply wf_macro; try done. eauto.
  - by eapply wf_macro.
  - destruct (Protocol.inv_holder _ i _ Hinv Hf I) as (_ & Hph & _).
    inversion Hph; subst. by destruct_or!.
  - by apply wf_lives.
  - apply wf_host; auto. intros _. apply Hh. congruence.
  - apply wf_host; auto. intros _. apply Hh. congruence.
  - by apply wf_host.
  - destruct (host_act_effect _ _ Hc Ha) as (E1 & E2 & E3).
    apply wf_host; [done|by eapply Protocol.step_inv, host_act_step|done| |congruence].
    intros p. unfold pending. by rewrite E2, E3.
  - destruct (served _ _ Hinv Hk) as (Hf & _ & Er).
    assert (FriendInit.cores (life w) !! c = Some FriendInit.Main) as Hm by by eapply w_main.
    assert (Protocol.inv o) by by eapply Protocol.step_inv, host_act_step.
    unfold host_act in Ha. rewrite Hk in Ha. injection Ha as <-.
    eapply wf_ran; try done; [by rewrite length_insert, (w_locals w Hwf)|].
    assert (forall (x : nat) l, x :: l <> l) as Hcons.
    { intros x l' E. apply (f_equal length) in E. cbn in E. lia. }
    intros j p Hj Hp. cbn in Hp. rewrite Er in Hp. split.
    + intros ->. rewrite Hf in Hj. injection Hj as <-. cbn in Hp. by apply Hcons in Hp.
    + destruct p; cbn in Hp |- *; try done; by apply Hcons in Hp.
Qed.

Lemma steps_wf w w' : wf w -> world_steps w w' -> wf w'.
Proof. intros Hw Hs. induction Hs; eauto using step_wf. Qed.

(** ** Progress

    How much a core has left to do. *)
Definition macro_rank (o : Protocol.state) (p : Protocol.fpc) : nat :=
  match p with
  | Protocol.FIdle => 8
  | Protocol.FTest => 7
  | Protocol.FCas => 6
  | Protocol.FSave => 5
  | Protocol.FPost => 4
  | Protocol.FWait => if decide (Protocol.ran_on_host o = Protocol.completed o) then 3 else 12
  | Protocol.FLoad => 11
  | Protocol.FClear _ _ => 10
  | Protocol.FUnlock => 9
  | _ => 0
  end.

Definition work (w : world) (i : nat) : nat :=
  from_option (FriendInit.pc_rank ctors dtors) 0%nat (FriendInit.cores (life w) !! i) +
  from_option (fun l => 16 * length l)%nat 0%nat (todo w !! i) +
  from_option (macro_rank (offl w)) 0%nat (Protocol.friends (offl w) !! i).

(** How far the host is from having served what has been announced to it. *)
Definition host_rank (w : world) : nat :=
  match host w with
  | Check => if Protocol.word8 (offl w) =? 0 then 0 else 9
  | Receive =>
      match Protocol.hakase (offl w) with
      | Protocol.HPoll => if Protocol.word8 (offl w) =? 0 then 0 else 8
      | Protocol.HClear8 => 7
      | Protocol.HSave => 6
      | Protocol.HJump => 5
      | Protocol.HCode _ => 4
      | Protocol.HSaveFriend _ => 3
      | Protocol.HReturn => 2
      | Protocol.HSet9 => 1
      | Protocol.HStray => 0
      end
  | _ => 0
  end.

Definition rank (w : world) : nat := (16 * sum_list_with (work w) (seq 0 n) + host_rank w)%nat.

Lemma host_rank_bound w : (host_rank w <= 9)%nat.
Proof. unfold host_rank. repeat case_match; lia. Qed.

Lemma sum_lt (f g : nat -> nat) l i :
  (forall j, (f j <= g j)%nat) -> i ∈ l -> (f i < g i)%nat ->
  (sum_list_with f l < sum_list_with g l)%nat.
Proof.
  intros Hle Hi Hlt. assert (forall l', sum_list_with f l' <= sum_list_with g l')%nat as Hsum.
  { intros l'. induction l' as [|x l' IH]; [done|]. cbn. specialize (Hle x). lia. }
  induction l as [|x l IH]; [by apply not_elem_of_nil in Hi|]. cbn.
  apply elem_of_cons in Hi as [->|Hi].
  - specialize (Hsum l). lia.
  - specialize (IH Hi). specialize (Hle x). lia.
Qed.

(** A move of one core lowers the rank, whatever it does to the host's. *)
Lemma rank_core w w' i :
  (i < n)%nat -> (forall j, j <> i -> work w' j = work w j) -> (work w' i < work w i)%nat ->
  (rank w' < rank w)%nat.
Proof.
  intros Hi Ho Hlt. unfold rank. pose proof (host_rank_bound w').
  assert (sum_list_with (work w') (seq 0 n) < sum_list_with (work w) (seq 0 n))%nat; [|lia].
  apply (sum_lt _ _ _ i); [|by apply elem_of_seq; lia|done].
  intros j. destruct (decide (j = i)) as [->|Hne]; [lia|]. rewrite Ho by done. lia.
Qed.

Lemma rank_host w w' :
  (forall j, work w' j = work w j) -> (host_rank w' < host_rank w)%nat -> (rank w' < rank w)%nat.
Proof.
  intros Ho Hlt. unfold rank.
  replace (sum_list_with (work w') (seq 0 n)) with (sum_list_with (work w) (seq 0 n)); [lia|].
  induction (seq 0 n) as [|x l IH]; [done|]. cbn. by rewrite IH, Ho.
Qed.

(** The move in the macro of a core that is not held up lowers its own rank only. *)
Lemma macro_progress o i p :
  Protocol.inv o -> Protocol.friends o !! i = Some p ->
  (p = Protocol.FTest \/ p = Protocol.FCas -> Protocol.lock o = 0) ->
  (p = Protocol.FWait -> Protocol.word9 o = 1) ->
  exists o' p', friend_act i o = Some o' /\ Protocol.friends o' = <[i := p']> (Protocol.friends o) /\
    (macro_rank o' p' < macro_rank o p)%nat /\
    (forall j q, j <> i -> Protocol.friends o !! j = Some q -> macro_rank o' q = macro_rank o q).
Proof.
  intros Hinv Hi Hlock H9. unfold friend_act. rewrite Hi.
  assert (forall q, Protocol.critical p -> q <> i ->
    Protocol.friends o !! q <> Some Protocol.FWait) as Hother.
  { intros q Hc Hq E. destruct (Protocol.inv_holder o i _ Hinv Hi Hc) as (_ & _ & Ho & _).
    by destruct (Ho q _ Hq E). }
  assert (Protocol.critical p -> Protocol.phase i o p) as Hph.
  { intros Hc. by destruct (Protocol.inv_holder o i _ Hinv Hi Hc) as (_ & ? & _). }
  destruct p; try specialize (Hph I); try (rewrite Hlock by auto); try (rewrite H9 by auto).
  all: try (inversion Hph; subst; destruct_or?; congruence).
  - eexists _, _. split_and!; [reflexivity..|cbn; lia|by intros j []].
  - eexists _, _. split_and!; [reflexivity..|cbn; lia|by intros j []].
  - eexists _, _. split_and!; [reflexivity..|cbn; lia|by intros j []].
  - eexists _, _. split_and!; [reflexivity..|cbn; lia|by intros j []].
  - assert (Protocol.ran_on_host o = Protocol.completed o) as Er
      by (inversion Hph; subst; [done|by destruct_or!]).
    eexists _, _. split_and!; [reflexivity..| |by intros j []]. cbn. rewrite decide_True by done. lia.
  - assert (Protocol.ran_on_host o <> Protocol.completed o) as Er.
    { specialize (H9 eq_refl). inversion Hph; subst; try congruence. intros E.
      match goal with H : Protocol.ran_on_host o = _ :: _ |- _ => rewrite H in E end.
      apply (f_equal length) in E. cbn in E. lia. }
    eexists _, _. split_and!; [reflexivity..| |by intros j []].
    cbn. rewrite decide_False by done. lia.
  - assert (Protocol.friend_ctx o = Some (i, Protocol.AfterCode)) as -> by by inversion Hph.
    eexists _, _. split_and!; [reflexivity..|cbn; lia|by intros j []].
  - assert (s = Protocol.AfterCode) as -> by (inversion Hph; subst; destruct_or!; congruence).
    eexists _, _. split_and!; [reflexivity..|cbn; lia|by intros j []].
  - eexists _, _. split_and!; [reflexivity..|cbn; lia|].
    intros j q Hj Hq. destruct q; try done. by destruct (Hother j I Hj).
Qed.

(** With nothing for the host to do, the lock is free or its holder can go on. *)
Lemma quiet_host o :
  Protocol.inv o -> Protocol.hakase o = Protocol.HPoll -> Protocol.word8 o = 0 ->
  (Protocol.lock o = 0 /\ forall i p, Protocol.friends o !! i = Some p -> ~ Protocol.critical p) \/
  (exists i p, Protocol.friends o !! i = Some p /\ Protocol.critical p /\
     (p = Protocol.FWait -> Protocol.word9 o = 1)).
Proof.
  intros [Hl _ _ _ Hn _ _|i p Hl Hi Hp _ _] Hh H8; [left|right].
  - split; [done|]. intros i p Hi. rewrite Forall_lookup in Hn. by eapply Hn.
  - exists i, p. split_and!; [done|by eapply Protocol.phase_critical|].
    intros ->. inversion Hp; subst; destruct_or?; destruct_and?; congruence.
Qed.

(** While the host serves an offload, a core waits for it. *)
Lemma busy_phase o :
  Protocol.inv o -> Protocol.hakase o <> Protocol.HPoll ->
  exists i, Protocol.phase i o Protocol.FWait.
Proof.
  intros [|i p ? ? Hp] Hne; [congruence|]. exists i.
  inversion Hp; subst; destruct_or?; destruct_and?; congruence.
Qed.

Ltac at_phase Hp := inversion Hp; subst; destruct_or?; destruct_and?; congruence.

Lemma receive_moves w o' :
  host w = Receive -> host_act (offl w) = Some o' ->
  (Protocol.hakase (offl w) = Protocol.HPoll -> Protocol.word8 (offl w) <> 0) ->
  (forall c, Protocol.hakase (offl w) <> Protocol.HCode c) ->
  (host_rank (mkWorld (life w) o' (vars w) (todo w) (locals w) Receive) < host_rank w)%nat ->
  exists w', world_step w w' /\ (rank w' < rank w)%nat.
Proof.
  intros Hw Ha H8 Hc Hlt. eexists. split; [by apply (WReceive o')|]. rewrite Hw.
  apply rank_host; [|done]. intros j. unfold work, macro_rank. cbn.
  by destruct (host_act_effect _ _ Hc Ha) as (-> & -> & ->).
Qed.

Lemma code_progress w c :
  wf w -> host w = Receive -> Protocol.hakase (offl w) = Protocol.HCode c ->
  exists w', world_step w w' /\ (rank w' < rank w)%nat.
Proof.
  intros Hwf Hw Eh. pose proof (w_inv w Hwf) as Hinv.
  destruct (served _ _ Hinv Eh) as (Hf & Hl & Er).
  destruct (w_pending w Hwf c _ Hf Er) as (f & rest & Ht).
  assert (c < n)%nat as Hlt by (rewrite <- (w_todo w Hwf); by eapply lookup_lt_Some).
  destruct (lookup_lt_is_Some_2 (locals w) c) as [l Hlc]; [by rewrite (w_locals w Hwf)|].
  eexists. split; [eapply (WCode c f rest l); [done..|]; unfold host_act; by rewrite Eh|].
  assert (forall x : nat, (x :: Protocol.ran_on_host (offl w)) <> Protocol.completed (offl w)) as Hcons.
  { intros x E. rewrite Er in E. apply (f_equal length) in E. cbn in E. lia. }
  apply (rank_core _ _ c Hlt).
  - intros j Hj. unfold work. cbn. rewrite list_lookup_insert_ne by done. f_equal.
    destruct (Protocol.friends (offl w) !! j) as [q|] eqn:Eq; [|done].
    destruct q; try done. destruct (Protocol.inv_holder _ c _ Hinv Hf I) as (_ & _ & Ho & _).
    by destruct (Ho j _ Hj Eq).
  - unfold work. cbn. rewrite list_lookup_insert_eq by (by rewrite (w_todo w Hwf)).
    rewrite Ht, Hf. cbn. rewrite decide_False by done. rewrite decide_True by done. lia.
Qed.

(** The host, in [offloader_tryreceive] with something to serve, goes on. *)
Lemma host_progress w :
  wf w -> host w = Receive -> (0 < host_rank w)%nat ->
  exists w', world_step w w' /\ (rank w' < rank w)%nat.
Proof.
  intros Hwf Hw Hr. pose proof (w_inv w Hwf) as Hinv.
  pose proof (receive_moves w) as Hgo. pose proof (busy_phase _ Hinv) as Hph.
  unfold host_rank in Hr. rewrite Hw in Hr. unfold host_act in Hgo.
  destruct (Protocol.hakase (offl w)) eqn:Eh.
  all: try (eapply Hgo; [done|reflexivity|done|done|]; unfold host_rank; cbn; rewrite Hw, Eh; cbn; lia).
  - destruct (Z.eqb_spec (Protocol.word8 (offl w)) 0) as [|H8]; [lia|].
    eapply Hgo; [done|reflexivity|done|done|]. unfold host_rank. cbn. rewrite Hw, Eh.
    destruct (Z.eqb_spec (Protocol.word8 (offl w)) 0); [done|lia].
  - destruct Hph as [i Hp]; [done|].
    assert (Protocol.friend_ctx (offl w) = Some (i, Protocol.AfterWait)) as Ec by at_phase Hp.
    rewrite Ec in Hgo. eapply Hgo; [done|reflexivity|done|done|].
    unfold host_rank. cbn. rewrite Hw, Eh. lia.
  - by eapply code_progress.
  - destruct Hph as [i Hp]; [done|].
    assert (Protocol.hakase_ctx (offl w) = true) as Ec by at_phase Hp.
    rewrite Ec in Hgo. eapply Hgo; [done|reflexivity|done|done|].
    unfold host_rank. cbn. rewrite Hw, Eh. lia.
  - destruct Hph as [i Hp]; [done|].
    assert (Protocol.word8 (offl w) = 0) as Ec by at_phase Hp.
    eapply Hgo; [done|reflexivity|done|done|]. unfold host_rank. cbn. rewrite Hw, Eh, Ec. cbn. lia.
  - lia.
Qed.

(** A step of boot.S or init.cc lowers the rank. *)
Lemma lives_rank w i p :
  wf w -> FriendInit.cores (life w) !! i = Some p -> p <> FriendInit.Stop ->
  (rank (mkWorld (lives i p (life w)) (offl w) (vars w) (todo w) (locals w) (host w)) < rank w)%nat.
Proof.
  intros Hwf Hi Hp. assert (i < length (FriendInit.cores (life w)))%nat as Hlt by by eapply lookup_lt_Some.
  apply (rank_core _ _ i); [by rewrite <- (w_cores w Hwf)| |]; unfold work; cbn.
  - intros j Hj. by rewrite list_lookup_insert_ne by done.
  - rewrite list_lookup_insert_eq, Hi by done. cbn.
    pose proof (FriendInit.core_step_rank friend_binary_end ctors dtors i p (FriendInit.sh (life w)) Hp).
    lia.
Qed.

(** A core that is not held up goes on. *)
Lemma core_progress w i p q :
  wf w -> FriendInit.cores (life w) !! i = Some p -> p <> FriendInit.Stop ->
  Protocol.friends (offl w) !! i = Some q ->
  (q = Protocol.FTest \/ q = Protocol.FCas -> Protocol.lock (offl w) = 0) ->
  (q = Protocol.FWait -> Protocol.word9 (offl w) = 1) ->
  exists w', world_step w w' /\ (rank w' < rank w)%nat.
Proof.
  intros Hwf Hi Hp Hq Hlock H9. pose proof (w_inv w Hwf) as Hinv.
  assert (i < n)%nat as Hlt by (rewrite <- (w_cores w Hwf); by eapply lookup_lt_Some).
  destruct (decide (p = FriendInit.Main)) as [->|Hm].
  2:{ eexists. split; [by apply (WLife i p)|]. by apply lives_rank. }
  destruct (macro_progress _ i q Hinv Hq Hlock H9) as (o' & q' & Ha & Ef & Hlow & Hoth).
  assert (forall w', FriendInit.cores (life w') = FriendInit.cores (life w) -> todo w' = todo w -> offl w' = o' ->
    (rank w' < rank w)%nat) as Hmacro.
  { intros w' E1 E2 E3. apply (rank_core _ _ i Hlt).
    - intros j Hj. unfold work. rewrite E1, E2, E3, Ef, list_lookup_insert_ne by done. f_equal.
      destruct (Protocol.friends (offl w) !! j) as [r|] eqn:Er; [|done]. by apply (Hoth j).
    - unfold work. rewrite E1, E2, E3, Ef, Hq.
      rewrite list_lookup_insert_eq by (rewrite (w_friends w Hwf); done). cbn. lia. }
  destruct (decide (q = Protocol.FIdle)) as [->|Hne].
  - destruct (lookup_lt_is_Some_2 (todo w) i) as [l Ht]; [by rewrite (w_todo w Hwf)|].
    destruct (lookup_lt_is_Some_2 (locals w) i) as [x Hx]; [by rewrite (w_locals w Hwf)|].
    destruct l as [|[f|f] rest].
    + eexists. split; [by apply (WReturn i)|]. by apply lives_rank.
    + eexists. split; [by eapply (WAccess i)|]. apply (rank_core _ _ i Hlt).
      * intros j Hj. unfold work. cbn. by rewrite list_lookup_insert_ne by done.
      * unfold work. cbn. rewrite list_lookup_insert_eq by (by rewrite (w_todo w Hwf)). rewrite Ht. cbn. lia.
    + eexists. split; [by eapply (WOffload i)|]. by apply Hmacro.
  - eexists. split; [eapply (WMacro i q); try done|by apply Hmacro].
    intros ->. destruct (Protocol.inv_holder _ i _ Hinv Hq I) as (_ & Hph & _). at_phase Hph.
Qed.

Section Finish.
Context (v : V) (Hpos : (0 < n)%nat) (Hn : Z.of_nat n < 2 ^ 31).
Context (Hrec : receives P = true \/ forall f, Offload f ∉ friend_main P).

Definition reachable (w : world) : Prop := world_steps (start v) w.

Lemma reachable_wf w : reachable w -> wf w.
Proof. apply steps_wf, start_wf. Qed.

Lemma reachable_step w w' : reachable w -> world_step w w' -> reachable w'.
Proof. intros H1 H2. eapply rtc_r; [exact H1|exact H2]. Qed.

Lemma reachable_life w : reachable w -> rtc friend_step (FriendInit.start n) (life w).
Proof. apply steps_life. Qed.

Definition all_stopped (w : world) : Prop :=
  Forall (fun p => p = FriendInit.Stop) (FriendInit.cores (life w)).

(** When every core spins, the flag is raised. *)
Lemma all_stopped_flag w :
  reachable w -> all_stopped w -> FriendInit.is_friend_stopped (FriendInit.sh (life w)) = true.
Proof.
  intros Hr Ha. destruct (FriendInit.friend_run_inv _ _ _ n Hn _ (reachable_life w Hr)) as (Hc & _ & Hl & _).
  assert (forall s', ~ friend_step (life w) s') as Ht.
  { intros s' Hs. inversion Hs as [i p s Hi Hp]; subst. unfold all_stopped in Ha.
    rewrite Forall_lookup in Ha. by eapply Hp, Ha. }
  destruct (FriendInit.terminal_count _ _ _ n _ Hc Ht) as [Er _].
  destruct (Hl Hpos Er) as [Hs|(i & p & Hi & Hp)]; [by apply Z.eqb_eq|].
  by rewrite (FriendInit.terminal_stopped _ _ _ _ i p Ht Hi) in Hp.
Qed.

(** A host that does not receive has nothing to receive. *)
Lemma announced_received w : wf w -> Protocol.word8 (offl w) <> 0 -> receives P = true.
Proof.
  intros Hwf H8. destruct Hrec as [|Hno]; [done|].
  destruct (w_inv w Hwf) as [|i p _ Hi Hp _ _]; [done|].
  assert (pending (offl w) p) as Hpe by (inversion Hp; subst; done).
  destruct (w_pending w Hwf i p Hi Hpe) as (f & rest & Ht). apply (w_part w Hwf) in Ht as [k Hk].
  destruct (Hno f). rewrite Hk. set_solver.
Qed.

Lemma idle_progress w :
  wf w -> Protocol.hakase (offl w) = Protocol.HPoll -> Protocol.word8 (offl w) = 0 ->
  ~ all_stopped w -> exists w', world_step w w' /\ (rank w' < rank w)%nat.
Proof.
  intros Hwf Hh H8 Hns.
  destruct (quiet_host _ (w_inv w Hwf) Hh H8) as [[Hl Hq]|(i & q & Hi & Hc & H9)].
  - apply not_Forall_Exists in Hns; [|intros p; apply _].
    apply Exists_exists in Hns as (p & [i Hi]%list_elem_of_lookup_1 & Hp).
    destruct (lookup_lt_is_Some_2 (Protocol.friends (offl w)) i) as [q Hf].
    { rewrite (w_friends w Hwf), <- (w_cores w Hwf). by eapply lookup_lt_Some. }
    eapply core_progress; try done. intros ->. destruct (Hq i _ Hf). done.
  - assert (q <> Protocol.FIdle) as Hne by by intros ->.
    eapply core_progress; [done|by apply (w_main w Hwf i q)|done|done| |done].
    by intros [->| ->].
Qed.

Lemma leaves w :
  host w = Check -> until P (FriendInit.sh (life w)) (vars w) = true ->
  exists w' r, world_steps w w' /\ host w' = Left r.
Proof.
  intros Hw Hu. exists (mkWorld (life w) (offl w) (vars w) (todo w) (locals w) (Left (result P n (vars w)))).
  eexists. split; [|reflexivity]. eapply rtc_l; [by apply WCheck|]. rewrite Hu.
  apply rtc_once. by apply (WResult (mkWorld _ _ _ _ _ Result)).
Qed.

(** The host leaves its loop from every state it can be in, when its condition holds
    once all cores have stopped. *)
Lemma can_finish w :
  (forall w', reachable w' -> all_stopped w' ->
     until P (FriendInit.sh (life w')) (vars w') = true) ->
  reachable w -> exists w' r, world_steps w w' /\ host w' = Left r.
Proof.
  intros Hu. remember (rank w) as k eqn:Ek. revert w Ek.
  induction (lt_wf k) as [k _ IH]. intros w -> Hr. pose proof (reachable_wf w Hr) as Hwf.
  assert (forall w', world_step w w' /\ (rank w' < rank w)%nat ->
    exists w2 r, world_steps w w2 /\ host w2 = Left r) as Hgo.
  { intros w' [H1 H2]. destruct (IH _ H2 w' eq_refl) as (w2 & r & Hs & Hw2); [by eapply reachable_step|].
    exists w2, r. split; [by eapply rtc_l|done]. }
  destruct (host w) eqn:Hw.
  - destruct (until P (FriendInit.sh (life w)) (vars w)) eqn:Eu; [by apply leaves|].
    pose proof (w_host w Hwf) as Hh. rewrite Hw in Hh. specialize (Hh ltac:(done)).
    destruct (Z.eq_dec (Protocol.word8 (offl w)) 0) as [H8|H8].
    + destruct (decide (all_stopped w)) as [Ha|Ha].
      * by rewrite (Hu w Hr Ha) in Eu.
      * by destruct (idle_progress w Hwf Hh H8 Ha) as [w' ?]; apply (Hgo w').
    + eapply Hgo. split; [by apply WCheck|]. rewrite Eu, (announced_received w Hwf H8).
      apply rank_host; [done|]. unfold host_rank. cbn. rewrite Hw, Hh.
      destruct (Z.eqb_spec (Protocol.word8 (offl w)) 0); [done|lia].
  - destruct (decide (0 < host_rank w)%nat) as [Hk|Hk].
    { destruct (host_progress w Hwf Hw Hk) as [w' ?]. by apply (Hgo w'). }
    assert (Protocol.hakase (offl w) = Protocol.HPoll /\ Protocol.word8 (offl w) = 0) as [Hh H8].
    { unfold host_rank in Hk. rewrite Hw in Hk.
      destruct (Protocol.hakase (offl w)) eqn:Eh; try lia.
      - destruct (Z.eqb_spec (Protocol.word8 (offl w)) 0); [done|lia].
      - destruct (busy_phase _ (w_inv w Hwf)) as [i Hp]; [congruence|]. at_phase Hp. }
    destruct (decide (all_stopped w)) as [Ha|Ha].
    + destruct (leaves (mkWorld (life w) (offl w) (vars w) (todo w) (locals w) Check)) as (w2 & r & Hs & Hl).
      * done.
      * cbn. by apply Hu.
      * exists w2, r. split; [|done]. eapply rtc_l; [by apply WPoll|done].
    + by destruct (idle_progress w Hwf Hh H8 Ha) as [w' ?]; apply (Hgo w').
  - eexists _, _. split; [apply rtc_once; by apply WResult|done].
  - exists w, r. by split.
Qed.
End Finish.

(** ** What friend_main computes, one statement after the other *)

Definition stmt_exec (rsp : Z) (st : stmt) (s : V * L) : V * L :=
  match st with Access f => f rsp s | Offload f => f s end.

Fixpoint exec (rsp : Z) (l : list stmt) (s : V * L) : V * L :=
  match l with
  | [] => s
  | st :: rest => exec rsp rest (stmt_exec rsp st s)
  end.

(** The host waits for the flag. *)
Definition waits_for_flag : Prop := forall s v, until P s v = FriendInit.is_friend_stopped s.

Definition left_loop (h : hostpc) : bool := match h with Result | Left _ => true | _ => false end.

Lemma flag_kept s s' :
  friend_step s s' -> FriendInit.is_friend_stopped (FriendInit.sh s) = true ->
  FriendInit.is_friend_stopped (FriendInit.sh s') = true.
Proof. intros [i p s0 Hi Hp]. destruct p; cbn; intros; repeat case_match; done. Qed.

Lemma left_flag v w :
  waits_for_flag -> world_steps (start v) w -> left_loop (host w) = true ->
  FriendInit.is_friend_stopped (FriendInit.sh (life w)) = true.
Proof.
  intros Hu Hs. remember (start v) as w0 eqn:E0.
  assert (left_loop (host w0) = true -> FriendInit.is_friend_stopped (FriendInit.sh (life w0)) = true)
    as H0 by by rewrite E0.
  clear E0. induction Hs as [|x y z Hxy _ IH]; [done|]. apply IH. clear IH. intros Hy.
  assert (left_loop (host x) = true -> FriendInit.is_friend_stopped (FriendInit.sh (life y)) = true) as Hx.
  { intros Hl. specialize (H0 Hl). destruct (step_life _ _ Hxy) as [->|Hst]; [done|by eapply flag_kept]. }
  destruct Hxy; cbn in *; auto; try (by apply Hx; rewrite H).
  destruct (until P _ _) eqn:Eu; [by rewrite Hu in Eu|]. by destruct (receives P).
Qed.

(** The result is the value of the last line for the variables of some state behind
    the loop. *)
Lemma left_result v w r :
  world_steps (start v) w -> host w = Left r ->
  exists w1, world_steps (start v) w1 /\ left_loop (host w1) = true /\ r = result P n (vars w1).
Proof.
  intros Hs. revert r. pattern w. apply (rtc_ind_r (R:=world_step) _ (start v)); [done| |exact Hs].
  clear w Hs. intros w w' Hs Hst IH r Hr. destruct Hst; cbn in Hr; eauto; try done.
  - destruct (until P _ _); [done|]. by destruct (receives P).
  - injection Hr as <-. exists w. by rewrite H.
Qed.

Section OneCore.
Context (v : V) (one : n = 1%nat).

Definition first_rsp : Z := (FriendInit.entry64 friend_binary_end FriendInit.INITIAL_STACK_OFFSET).1.

Definition one_life (s : FriendInit.friend_state) : Prop :=
  exists p, FriendInit.cores s = [p] /\
    (FriendInit.is_friend_stopped (FriendInit.sh s) = true -> p = FriendInit.Stop) /\
    (if decide (p = FriendInit.Entry)
     then FriendInit.stack_offset (FriendInit.sh s) = FriendInit.INITIAL_STACK_OFFSET /\
          FriendInit.stacks (FriendInit.sh s) = []
     else FriendInit.stacks (FriendInit.sh s) = [(0%nat, first_rsp)]).

Lemma one_life_step s s' : one_life s -> friend_step s s' -> one_life s'.
Proof.
  intros (p & Ec & Hf & Hd) Hst. destruct Hst as [i q s Hi Hq]. rewrite Ec in Hi.
  destruct i as [|i]; [|done]. injection Hi as ->.
  exists (core_step 0 q (FriendInit.sh s)).2. cbn [FriendInit.cores FriendInit.sh]. rewrite Ec.
  split; [done|]. assert (FriendInit.is_friend_stopped (FriendInit.sh s) = true -> False) as Hf' by tauto.
  unfold FriendInit.is_friend_stopped in *. destruct q; try done.
  { destruct Hd as [Eo Es]. unfold first_rsp. cbn. rewrite Eo, Es. split; [|done]. by intros ?%Hf'. }
  all: rewrite decide_False in Hd by done; cbn; repeat case_match; cbn; split; try done;
    by intros ?%Hf'.
Qed.

Lemma one_life_reachable w : world_steps (start v) w -> one_life (life w).
Proof.
  intros Hs%steps_life. cbn in Hs. remember (FriendInit.start n) as s0 eqn:E0.
  assert (one_life s0) as H0.
  { rewrite E0, one. by exists FriendInit.Entry. }
  clear E0. induction Hs; eauto using one_life_step.
Qed.

(** What is left computes, from where the core is, what [friend_main] computes. *)
Definition one_inv (w : world) : Prop :=
  exists l x, todo w = [l] /\ locals w = [x] /\
    exec first_rsp l (vars w, x) = exec first_rsp (friend_main P) (v, local0 P).

Lemma one_inv_step w w' : one_life (life w) -> one_inv w -> world_step w w' -> one_inv w'.
Proof.
  intros (p & Ec & _ & Hd) (l & x & Et & Ex & He) Hst.
  assert (forall i st rest y f (s : V * L), todo w !! i = Some (st :: rest) -> locals w !! i = Some y ->
    s = f (vars w, y) -> exec first_rsp (st :: rest) (vars w, y) = exec first_rsp rest (f (vars w, y)) ->
    exists l' x', <[i := rest]> (todo w) = [l'] /\ <[i := s.2]> (locals w) = [x'] /\
      exec first_rsp l' (s.1, x') = exec first_rsp (friend_main P) (v, local0 P)) as Hrun.
  { intros i st rest y f s Ht Hl -> Hx. rewrite Et in *. rewrite Ex in *. destruct i as [|i]; [|done].
    injection Ht as ->. injection Hl as ->. exists rest, (f (vars w, y)).2. split_and!; [done..|].
    by rewrite <- surjective_pairing, <- Hx. }
  destruct Hst as [| i f rest y w Hi Hf Ht Hl r | | |i f rest y o w Hi Hf Ht Hl Ha| | | | | |
    c f rest y o w Hw Hh Ht Hl Ha]; try (by exists l, x).
  - apply (Hrun _ _ _ _ (f first_rsp) _ Ht Hl); [|done]. subst r. f_equal.
    assert (i = 0%nat) as -> by (rewrite Et in Ht; by destruct i). rewrite Ec in Hi. injection Hi as ->.
    rewrite decide_False in Hd by done. unfold rsp_of. by rewrite Hd.
  - by apply (Hrun _ _ _ _ f _ Ht Hl).
  - by apply (Hrun _ _ _ _ f _ Ht Hl).
Qed.

Lemma one_inv_reachable w : world_steps (start v) w -> one_inv w.
Proof.
  intros Hs. remember (start v) as w0 eqn:E0.
  assert (one_inv w0) as H0 by (rewrite E0; unfold one_inv, start; cbn; rewrite one; by eexists _, _).
  assert (world_steps (start v) w0) as Hr by by rewrite E0.
  clear E0. induction Hs as [|a b c Hab _ IH]; [done|]. apply IH.
  - eapply one_inv_step; [by apply one_life_reachable|done|done].
  - eapply rtc_r; [exact Hr|exact Hab].
Qed.

(** Once the flag is raised, the variables are what [friend_main] computes. *)
Lemma one_done w :
  world_steps (start v) w -> FriendInit.is_friend_stopped (FriendInit.sh (life w)) = true ->
  vars w = (exec first_rsp (friend_main P) (v, local0 P)).1.
Proof.
  intros Hr Hf. destruct (one_life_reachable w Hr) as (p & Ec & Hp & _). specialize (Hp Hf). subst p.
  destruct (one_inv_reachable w Hr) as (l & x & Et & _ & He).
  assert (todo w !! 0%nat = Some []) as Ht.
  { apply (w_done w (reachable_wf v w Hr) 0 FriendInit.Stop); by rewrite ?Ec. }
  rewrite Et in Ht. injection Ht as ->. by rewrite <- He.
Qed.

Lemma one_left w r :
  waits_for_flag -> world_steps (start v) w -> host w = Left r ->
  r = result P n (exec first_rsp (friend_main P) (v, local0 P)).1.
Proof.
  intros Hu Hs. remember (start v) as w0 eqn:E0.
  assert (host w0 = Left r -> r = result P n (exec first_rsp (friend_main P) (v, local0 P)).1)
    as H0 by by rewrite E0.
  assert (world_steps (start v) w0) as Hr by by rewrite E0.
  clear E0. induction Hs as [|a b c Hab _ IH]; [done|]. apply IH; [|by eapply rtc_r].
  clear IH. pose proof (left_flag v a Hu Hr) as Hf. pose proof (one_done a Hr) as Hd.
  destruct Hab; cbn in *; auto; try done.
  - destruct (until P _ _); [done|]. by destruct (receives P).
  - intros [= <-]. rewrite Hd; [done|]. apply Hf. by rewrite H.
Qed.
End OneCore.

(** ** Many cores *)

(** What every statement keeps is kept. *)
Lemma vars_kept (S : V -> Prop) v w :
  (forall rsp st s, st ∈ friend_main P -> S s.1 -> S (stmt_exec rsp st s).1) ->
  S v -> world_steps (start v) w -> S (vars w).
Proof.
  intros HS Hv Hs. pattern w. apply (rtc_ind_r (R:=world_step) _ (start v)); [done| |exact Hs].
  clear w Hs. intros w w' Hs Hst IH. pose proof (w_part w (reachable_wf v w Hs)) as Hp.
  assert (forall i st rest rsp y, todo w !! i = Some (st :: rest) ->
    S (stmt_exec rsp st (vars w, y)).1) as Hrun.
  { intros i st rest rsp y Ht. apply HS; [|done]. destruct (Hp i _ Ht) as [k ->]. set_solver. }
  destruct Hst; cbn; eauto.
  - by apply (Hrun _ _ _ _ _ H1).
  - by apply (Hrun _ _ _ 0 _ H1).
  - by apply (Hrun _ _ _ 0 _ H1).
Qed.

(** Whoever has run all of [friend_main] has established what its last statement
    establishes, when the others keep it. *)
Lemma vars_established (S : V -> Prop) pre last v w i :
  friend_main P = pre ++ [last] ->
  (forall rsp st s, st ∈ friend_main P -> S s.1 -> S (stmt_exec rsp st s).1) ->
  (forall rsp s, S (stmt_exec rsp last s).1) ->
  world_steps (start v) w -> todo w !! i = Some [] -> S (vars w).
Proof.
  intros EP HS HL Hs. revert i. pattern w.
  apply (rtc_ind_r (R:=world_step) _ (start v)); [| |exact Hs]; clear w Hs.
  - intros i Hi. cbn in Hi. apply lookup_replicate in Hi as [Hi _]. rewrite EP in Hi. by destruct pre.
  - intros w w' Hs Hst IH. pose proof (w_part w (reachable_wf v w Hs)) as Hp.
    assert (forall k st rest rsp y i, todo w !! k = Some (st :: rest) ->
      <[k := rest]> (todo w) !! i = Some [] -> S (stmt_exec rsp st (vars w, y)).1) as Hrun.
    { intros k st rest rsp y i Ht Hi. destruct (Hp k _ Ht) as [q Hq].
      apply FriendInit.lookup_moved in Hi as [[-> <-]|[_ Hi]].
      - rewrite EP in Hq. apply app_inj_tail in Hq as [_ <-]. apply HL.
      - apply HS; [|by eapply IH]. rewrite Hq. set_solver. }
    destruct Hst; cbn; eauto; intros j Hj.
    + by apply (Hrun _ _ _ _ _ _ H1 Hj).
    + by apply (Hrun _ _ _ 0 _ _ H1 Hj).
    + by apply (Hrun _ _ _ 0 _ _ H1 Hj).
Qed.

(** The flag is raised by a core that has come to its end. *)
Lemma flag_stopped v w :
  world_steps (start v) w -> FriendInit.is_friend_stopped (FriendInit.sh (life w)) = true ->
  exists i, FriendInit.cores (life w) !! i = Some FriendInit.Stop.
Proof.
  intros Hs%steps_life. cbn in Hs. revert Hs. generalize (life w). intros s Hs. pattern s.
  apply (rtc_ind_r (R:=friend_step) _ (FriendInit.start n)); [done| |exact Hs].
  clear s Hs. intros s s' _ Hst IH Hf. destruct Hst as [i p s Hi Hp]. cbn [FriendInit.cores FriendInit.sh] in *.
  assert (i < length (FriendInit.cores s))%nat by by eapply lookup_lt_Some.
  destruct (decide (p = FriendInit.Sync)) as [->|Hne].
  { exists i. by rewrite list_lookup_insert_eq. }
  destruct IH as [j Hj].
  { unfold FriendInit.is_friend_stopped in *. destruct p; cbn in *; repeat case_match; done. }
  exists j. rewrite list_lookup_insert_ne; [done|]. intros ->. congruence.
Qed.

(** All cores are between their entry into [friend_init] and the return of
    [friend_main]. *)
Definition arrived (w : world) : Prop :=
  forall i p, FriendInit.cores (life w) !! i = Some p ->
    FriendInit.entered p = true /\ FriendInit.returned p = false.

Definition all_returned (w : world) : Prop :=
  forall i p, FriendInit.cores (life w) !! i = Some p -> FriendInit.returned p = true.

Section ManyCores.
Context (v : V) (Hpos : (0 < n)%nat) (Hn : Z.of_nat n < 2 ^ 31) (Hu : waits_for_flag).

(** After all have arrived the flag means that all have returned. *)
Lemma arrived_flag w0 w :
  world_steps (start v) w0 -> arrived w0 -> world_steps w0 w ->
  FriendInit.is_friend_stopped (FriendInit.sh (life w)) = true -> all_returned w.
Proof.
  intros H0 Ha Hs Hf i p Hi. apply Z.eqb_eq in Hf.
  destruct (FriendInit.arrived_dtor_inv friend_binary_end ctors dtors n Hn _ _ Hpos
    (steps_life _ _ H0) Ha (steps_life _ _ Hs)) as [Hc [| |]]; try congruence.
  by eapply FriendInit.all_returned.
Qed.

(** What the host returns is computed from variables that no core changes any more. *)
Lemma arrived_result w0 w r :
  world_steps (start v) w0 -> arrived w0 -> world_steps w0 w -> host w = Left r ->
  exists w1, world_steps w0 w1 /\ r = result P n (vars w1) /\ all_returned w1.
Proof.
  intros H0 Ha Hs. revert r. pattern w. apply (rtc_ind_r (R:=world_step) _ w0); [| |exact Hs]; clear w Hs.
  - intros r Hr. assert (FriendInit.is_friend_stopped (FriendInit.sh (life w0)) = true) as Hf
      by (eapply left_flag; [done..|by rewrite Hr]).
    pose proof (arrived_flag w0 w0 H0 Ha (rtc_refl _ _) Hf) as Hall.
    exists w0. split_and!; [done| |done].
    destruct (FriendInit.cores (life w0)) as [|p l] eqn:E.
    + pose proof (w_cores w0 (reachable_wf v w0 H0)) as Hl. rewrite E in Hl. cbn in Hl. lia.
    + destruct (Ha 0%nat p) as [_ H1]; [by rewrite E|]. rewrite (Hall 0%nat p) in H1; [done|by rewrite E].
  - intros w w' Hs Hst IH r Hr.
    assert (left_loop (host w) = true -> FriendInit.is_friend_stopped (FriendInit.sh (life w)) = true) as Hf
      by (apply (left_flag v); [done|by etrans]).
    pose proof (arrived_flag w0 w H0 Ha Hs) as Hall.
    destruct Hst; cbn in Hr; eauto; try done.
    + destruct (until P _ _); [done|]. by destruct (receives P).
    + injection Hr as <-. exists w. split_and!; [done|done|]. apply Hall, Hf. by rewrite H.
Qed.

Lemma returned_done w : world_steps (start v) w -> all_returned w -> todo w = replicate n [].
Proof.
  intros Hr Hall. pose proof (reachable_wf v w Hr) as Hwf. apply list_eq. intros i.
  destruct (decide (i < n)%nat) as [Hi|Hi].
  - destruct (lookup_lt_is_Some_2 (FriendInit.cores (life w)) i) as [p Hp]; [by rewrite (w_cores w Hwf)|].
    rewrite lookup_replicate_2 by done. apply (w_done w Hwf i p Hp).
    specialize (Hall i p Hp). by destruct p.
  - rewrite !lookup_ge_None_2; [done|rewrite length_replicate; lia|rewrite (w_todo w Hwf); lia].
Qed.

(** Programs that count: every statement adds its weight to a quantity, modulo [M]. *)
Section Counting.
Context (M : Z) (g : V -> Z) (weight : stmt -> Z).
Context (Hw : forall rsp st s, st ∈ friend_main P ->
  g (stmt_exec rsp st s).1 mod M = (g s.1 + weight st) mod M).

Definition weights (l : list stmt) : Z := foldr (fun st acc => weight st + acc) 0 l.
Definition left_weight (ts : list (list stmt)) : Z := foldr (fun l acc => weights l + acc) 0 ts.

Lemma left_weight_insert ts i st rest :
  ts !! i = Some (st :: rest) -> left_weight (<[i := rest]> ts) = left_weight ts - weight st.
Proof.
  assert (forall t us, left_weight (t :: us) = weights t + left_weight us) as Hcons by done.
  revert i. induction ts as [|t ts IH]; intros [|i] H; try done.
  - injection H as ->. change (left_weight (rest :: ts) = left_weight ((st :: rest) :: ts) - weight st).
    rewrite !Hcons. change (weights (st :: rest)) with (weight st + weights rest). lia.
  - change (left_weight (t :: <[i := rest]> ts) = left_weight (t :: ts) - weight st).
    rewrite !Hcons, (IH i H). lia.
Qed.

Lemma left_weight_replicate k l : left_weight (replicate k l) = Z.of_nat k * weights l.
Proof.
  induction k as [|k IH]; [done|].
  change (left_weight (replicate (S k) l)) with (weights l + left_weight (replicate k l)). rewrite IH. lia.
Qed.

Lemma counting_invariant w :
  world_steps (start v) w ->
  (g (vars w) + left_weight (todo w)) mod M = (g v + Z.of_nat n * weights (friend_main P)) mod M.
Proof.
  intros Hs. pattern w. apply (rtc_ind_r (R:=world_step) _ (start v)); [| |exact Hs]; clear w Hs.
  - unfold start. cbn. by rewrite left_weight_replicate.
  - intros w w' Hs Hst IH. pose proof (w_part w (reachable_wf v w Hs)) as Hp.
    assert (forall i st rest rsp y, todo w !! i = Some (st :: rest) ->
      (g (stmt_exec rsp st (vars w, y)).1 + left_weight (<[i := rest]> (todo w))) mod M =
      (g v + Z.of_nat n * weights (friend_main P)) mod M) as Hrun.
    { intros i st rest rsp y Ht. rewrite (left_weight_insert _ _ _ _ Ht), <- IH.
      rewrite Zplus_mod, Hw, <- Zplus_mod; [cbn; f_equal; lia|].
      destruct (Hp i _ Ht) as [k ->]. set_solver. }
    destruct Hst; cbn; eauto.
    + by apply (Hrun _ _ _ _ _ H1).
    + by apply (Hrun _ _ _ 0 _ H1).
    + by apply (Hrun _ _ _ 0 _ H1).
Qed.

Lemma counting_result w0 w r :
  world_steps (start v) w0 -> arrived w0 -> world_steps w0 w -> host w = Left r ->
  exists w1, world_steps (start v) w1 /\ r = result P n (vars w1) /\
    g (vars w1) mod M = (g v + Z.of_nat n * weights (friend_main P)) mod M.
Proof.
  intros H0 Ha Hs Hr. destruct (arrived_result w0 w r H0 Ha Hs Hr) as (w1 & Hs1 & -> & Hall).
  assert (world_steps (start v) w1) as H1 by by etrans.
  exists w1. split_and!; [done|done|]. pose proof (counting_invariant w1 H1) as E.
  rewrite (returned_done w1 H1 Hall), left_weight_replicate in E. cbn in E.
  by rewrite Z.mul_0_r, Z.add_0_r in E.
Qed.
End Counting.
End ManyCores.
End Program.

Arguments stmt : clear implicits.
Arguments program : clear implicits.
Arguments world : clear implicits.

End Programs.
