(* ===== verification/TestPrograms.v ===== *)
(** * TestPrograms: the programs of sample, tests and tutorial/toshokan

    Each module is one program: the variables of its two sides, [friend_main] of its
    friend.cc, and what [test_main] of its hakase.cc does behind [boot], both as a
    [program] of [Programs]; [test_main] is the whole function, with the [setup] and
    [boot] before its loop, as the relation between a state and the values it can
    return. *)

From stdpp Require Import pretty.
From S2P Require Import Prelude Memory Paging Loader16 Friend16 Hakase Offload FriendInit Programs.
Import Programs.

(** tests/main.cc, and the same [main] in the other programs: the exit status. *)
Definition main (r : Z) : string * Z :=
  if 0 <? r then ("PASSED"%string, 0) else ("FAILED"%string, 255).

(** ** test_main

    [setup], [boot] with the limit [max], and the loop, with the cores that [boot] has
    opened; the program may depend on their number. *)
Section TestMain.
Context {V L : Type} (E : env) (friend_binary_end : Z) (ctors dtors : nat).
Context (P : nat -> program V L) (v : V) (max : Z).

Inductive returns (h : hstate) : Z -> Prop :=
| SetupFails r h' : setup E h = Done (r, h') -> r <> 0 -> returns h r
| LoopLeft h1 h2 c w r :
    setup E h = Done (0, h1) -> boot E max h1 = Done (c, h2) ->
    let n := Z.to_nat c in
    rtc (world_step friend_binary_end ctors dtors (P n) n) (start (P n) n v) w ->
    host w = Left r -> returns h r.
End TestMain.

(** The programs whose loop waits for [is_friend_stopped]. *)
Definition flag_program {V L} (fm : list (stmt V L)) (l : L) (receives : bool)
    (result : nat -> V -> Z) : program V L :=
  mkProgram fm l receives (fun s _ => FriendInit.is_friend_stopped s) result.

(** A line of output. *)
Definition line (s : string) : string := String.append s (String (Ascii.ascii_of_nat 10) EmptyString).

Definition truth (b : bool) : Z := if b then 1 else 0.

(** sample/: each core prints its number, taken from a shared counter, and counts
    itself. *)
Module Sample.
Record vars := mkVars { cnt : Z; sync_flag : Z; console : list string }.

Definition vars0 : vars := mkVars 0 0 ["starting up friend cores..."; line "done"]%string.

Definition friend_main : list (stmt vars Z) :=
  [ Access (fun _ '(v, _) => (mkVars (FriendInit.int32 (cnt v + 1)) (sync_flag v) (console v), cnt v));
    Offload (fun '(v, i) => (mkVars (cnt v) (sync_flag v)
      (console v ++ [line (String.append "<" (String.append (pretty i) ">"))]), i));
    Access (fun _ '(v, i) => (mkVars (cnt v) (sext 64 (sync_flag v + 1)) (console v), i)) ].

Definition loop : program vars Z :=
  flag_program friend_main 0 true (fun cpunum v => truth (sync_flag v =? Z.of_nat cpunum)).

Definition test_main (E : env) (friend_binary_end : Z) (ctors dtors : nat) : hstate -> Z -> Prop :=
  returns E friend_binary_end ctors dtors (fun _ => loop) vars0 0.
End Sample.

(** tests/clang: each core counts itself. *)
Module Clang.
Definition friend_main : list (stmt Z unit) :=
  [ Access (fun _ '(sync_flag, u) => (sext 64 (sync_flag + 1), u)) ].

Definition loop : program Z unit :=
  flag_program friend_main tt false (fun cpunum sync_flag => truth (sync_flag =? Z.of_nat cpunum)).

Definition test_main (E : env) (friend_binary_end : Z) (ctors dtors : nat) : hstate -> Z -> Prop :=
  returns E friend_binary_end ctors dtors (fun _ => loop) 0 0.
End Clang.

(** tests/offload: a function of the host is called with arguments of the friend, and
    its result is used by the friend. *)
Module OffloadTest.
Record vars := mkVars { state : Z; sync_flag : Z }.

Definition func (i j : Z) (v : vars) : Z * vars := (100, mkVars (i - j) (sync_flag v)).

Definition friend_main : list (stmt vars Z) :=
  [ Offload (fun '(v, _) => let '(x, v') := func 11 10 v in (v', x));
    Access (fun _ '(v, x) => (mkVars (state v) (Z.quot x 100), x)) ].

Definition loop : program vars Z :=
  flag_program friend_main 0 true (fun _ v => truth ((state v =? 1) && (sync_flag v =? 1))).

Definition test_main (E : env) (friend_binary_end : Z) (ctors dtors : nat) : hstate -> Z -> Prop :=
  returns E friend_binary_end ctors dtors (fun _ => loop) (mkVars 0 0) 1.
End OffloadTest.

(** tests/symbol: the friend reads a symbol the host has exported. *)
Module SymbolTest.
Definition friend_main (imported : Z) : list (stmt Z unit) :=
  [ Access (fun _ '(_, u) => (imported, u)) ].

Definition loop (func imported : Z) : program Z unit :=
  flag_program (friend_main imported) tt false (fun _ notify => truth (notify =? func)).

Definition test_main (func imported : Z) (E : env) (friend_binary_end : Z) (ctors dtors : nat) : hstate -> Z -> Prop :=
  returns E friend_binary_end ctors dtors (fun _ => (loop func imported)) 0 0.
End SymbolTest.

(** tests/vmx: a feature bit of the core, read with cpuid. *)
Module VmxTest.
Definition friend_main (ecx : Z) : list (stmt bool unit) :=
  [ Access (fun _ '(is_vmx_available, u) =>
      (if negb (Z.land ecx (Z.shiftl 1 5) =? 0) then true else is_vmx_available, u)) ].

Definition loop (ecx : Z) : program bool unit :=
  flag_program (friend_main ecx) tt false (fun _ is_vmx_available => truth is_vmx_available).

Definition test_main (ecx : Z) (E : env) (friend_binary_end : Z) (ctors dtors : nat) : hstate -> Z -> Prop :=
  returns E friend_binary_end ctors dtors (fun _ => (loop ecx)) false 1.
End VmxTest.

(** tutorial/toshokan/friend: a greeting, then a shared variable. *)
Module FriendTutorial.
Record vars := mkVars { variable : Z; console : list string }.

Definition friend_main : list (stmt vars unit) :=
  [ Offload (fun '(v, u) => (mkVars (variable v) (console v ++ [line "Hello World!"]), u));
    Access (fun _ '(v, u) => (mkVars 1 (console v), u)) ].

Definition loop : program vars unit := flag_program friend_main tt true (fun _ v => variable v).

Definition test_main (E : env) (friend_binary_end : Z) (ctors dtors : nat) : hstate -> Z -> Prop :=
  returns E friend_binary_end ctors dtors (fun _ => loop) (mkVars 0 []) 1.
End FriendTutorial.

(** tutorial/toshokan/offloading: a value and a greeting from the host. *)
Module OffloadingTutorial.
Record vars := mkVars { value : Z; console : list string }.

Definition func : Z := 1.

Definition friend_main : list (stmt vars Z) :=
  [ Offload (fun '(v, _) => (mkVars (value v) (console v ++ [line "Hello World!"]), func));
    Access (fun _ '(v, x) => (mkVars x (console v), x)) ].

Definition loop : program vars Z :=
  flag_program friend_main 0 true (fun _ v => truth (negb (value v =? 0))).

Definition test_main (E : env) (friend_binary_end : Z) (ctors dtors : nat) : hstate -> Z -> Prop :=
  returns E friend_binary_end ctors dtors (fun _ => loop) (mkVars 0 []) 1.
End OffloadingTutorial.

(** tutorial/toshokan/symbol_resolution: the host waits for the variable itself, which
    it has set to 1; [variable++] is a read and a write. *)
Module SymbolResolution.
Definition friend_main : list (stmt Z Z) :=
  [ Access (fun _ '(variable, _) => (variable, variable));
    Access (fun _ '(_, x) => (FriendInit.int32 (x + 1), x)) ].

Definition loop : program Z Z :=
  mkProgram friend_main 0 false (fun _ variable => variable =? 2) (fun _ _ => 1).

Definition test_main (E : env) (friend_binary_end : Z) (ctors dtors : nat) : hstate -> Z -> Prop :=
  returns E friend_binary_end ctors dtors (fun _ => loop) 1 1.
End SymbolResolution.

(** ** Programs on one core *)

Lemma setup_value E h r h' : setup E h = Done (r, h') -> r = 0 \/ r = -1.
Proof.
  intros H. unfold setup in H.
  repeat (apply bind_inv in H as (? & ? & _ & H); try (case_match; [|]));
    try (injection H as <- _; auto);
    repeat (apply bind_inv in H as (? & ? & _ & H)); injection H as <- _; auto.
Qed.

Lemma boot_one E h :
  exists h', boot E 1 h = Done ((if open_ret E (cpu_path 1) <? 0 then 0 else 1), h').
Proof.
  unfold boot. replace boot_fuel with (S (pred boot_fuel)) by (unfold boot_fuel; lia).
  cbn [boot_loop]. unfold sprintf_cpu.
  rewrite (proj2 (Z.leb_le _ _)) by (apply cpu_path_fits; lia).
  rewrite (bind_done _ _ _ (cpu_path 1) h) by done.
  erewrite bind_done by (unfold lift_proc, open; cbv zeta; reflexivity).
  destruct (open_ret E (cpu_path 1) <? 0); eexists; reflexivity.
Qed.

Section OneCore.
Context {V L : Type} (E : env) (friend_binary_end : Z) (ctors dtors : nat).
Context (P : program V L) (v : V).

(** The variables after one run of [friend_main]. *)
Definition computed : V :=
  (exec (first_rsp friend_binary_end) (friend_main P) (v, local0 P)).1.

(** Without a core the flag is not raised. *)
Lemma no_core_flag w :
  rtc (world_step friend_binary_end ctors dtors P 0) (start P 0 v) w ->
  life w = FriendInit.start 0.
Proof.
  intros Hs%steps_life. cbn in Hs. remember (FriendInit.start 0) as s0 eqn:E0.
  destruct Hs as [|s0 s1 s2 Hst _]; [done|]. subst. by inversion Hst.
Qed.

Lemma returns_exactly h r :
  waits_for_flag P -> returns E friend_binary_end ctors dtors (fun _ => P) v 1 h r ->
  (r = -1 /\ exists h', setup E h = Done (-1, h')) \/
  (r = result P 1 computed /\ exists h', setup E h = Done (0, h')).
Proof.
  intros Hu [r' h' Hs Hne|h1 h2 c w r' Hs Hb n Hw Hl].
  - left. destruct (setup_value _ _ _ _ Hs) as [-> | ->]; eauto; done.
  - destruct (boot_one E h1) as [h3 Hb']. rewrite Hb in Hb'. injection Hb' as -> _.
    destruct (open_ret E (cpu_path 1) <? 0); cbn in Hw.
    + pose proof (left_flag _ _ _ P 0 v w Hu Hw) as Hf. rewrite Hl in Hf. specialize (Hf eq_refl).
      by rewrite (no_core_flag w Hw) in Hf.
    + right. split; [by eapply (one_left friend_binary_end ctors dtors P 1 v eq_refl w)|by eexists].
Qed.

Lemma returns_one h r :
  waits_for_flag P -> returns E friend_binary_end ctors dtors (fun _ => P) v 1 h r ->
  r = -1 \/ r = result P 1 computed.
Proof. intros Hu Hr. destruct (returns_exactly h r Hu Hr) as [[-> _]|[-> _]]; auto. Qed.

Lemma one_core_finishes w :
  waits_for_flag P -> (receives P = true \/ forall f, Offload f ∉ friend_main P) ->
  rtc (world_step friend_binary_end ctors dtors P 1) (start P 1 v) w ->
  exists w', rtc (world_step friend_binary_end ctors dtors P 1) w w' /\
    host w' = Left (result P 1 computed).
Proof.
  intros Hu Hrec Hw. destruct (can_finish friend_binary_end ctors dtors P 1 v) with w as (w' & r & Hs & Hr); try done.
  - lia.
  - intros w' H1 H2. rewrite Hu. eapply all_stopped_flag; [..|exact H1|exact H2]; [lia|done].
  - exists w'. split; [done|]. rewrite Hr. f_equal. eapply (one_left friend_binary_end ctors dtors P 1 v eq_refl w'); [done| |done].
    by etrans.
Qed.
End OneCore.

Lemma land_bit x k : 0 <= k -> negb (Z.land x (Z.shiftl 1 k) =? 0) = Z.testbit x k.
Proof.
  intros Hk. destruct (Z.testbit x k) eqn:Eb.
  - apply negb_true_iff, Z.eqb_neq. intros E. apply (f_equal (fun y => Z.testbit y k)) in E.
    rewrite Z.land_spec, Eb, Z.shiftl_spec, Z.sub_diag, Z.bits_0 in E by done. done.
  - apply negb_false_iff, Z.eqb_eq, Z.bits_inj'. intros j Hj.
    rewrite Z.land_spec, Z.bits_0, Z.shiftl_1_l, Z.pow2_bits_eqb by done.
    destruct (Z.eqb_spec k j) as [<-|]; [by rewrite Eb|apply andb_false_r].
Qed.

Lemma symbol_resolution_finishes friend_binary_end ctors dtors w :
  rtc (world_step friend_binary_end ctors dtors SymbolResolution.loop 1)
    (start SymbolResolution.loop 1 1) w ->
  exists w', rtc (world_step friend_binary_end ctors dtors SymbolResolution.loop 1) w w' /\
    host w' = Left 1.
Proof.
  intros Hw.
  destruct (can_finish friend_binary_end ctors dtors SymbolResolution.loop 1 1) with w
    as (w' & r & Hs & Hr); [lia|done| | |done|].
  - right. intros f Hf. set_solver.
  - intros w' H1 H2. cbn.
    rewrite (one_done friend_binary_end ctors dtors SymbolResolution.loop 1 1 eq_refl w' H1); [done|].
    eapply all_stopped_flag; [..|exact H1|exact H2]; [lia|done].
  - exists w'. split; [done|]. destruct (left_result friend_binary_end ctors dtors SymbolResolution.loop 1 1 w' r)
      as (w1 & _ & _ & E); [by etrans|done|]. by rewrite Hr, E.
Qed.

(** C8: a program whose loop waits for [is_friend_stopped] and that boots one core, run
    as a whole: [test_main] returns -1 exactly when [setup] does and otherwise only the value
    its last line computes from the variables as one sequential run of [friend_main]
    leaves them, offloaded pieces included, however core and host interleave; and once
    [setup] has succeeded and the device of processor 1 opens, [boot] reports one core
    and [test_main] can reach that value from every state it can get into. *)
Theorem one_core_programs {V L} E friend_binary_end ctors dtors (P : program V L) v h :
  waits_for_flag P -> (receives P = true \/ forall f, Offload f ∉ friend_main P) ->
  let value := result P 1 (computed friend_binary_end P v) in
  (forall r, returns E friend_binary_end ctors dtors (fun _ => P) v 1 h r ->
     (r = -1 /\ exists h', setup E h = Done (-1, h')) \/ (r = value /\ exists h', setup E h = Done (0, h'))) /\
  (forall h1, setup E h = Done (0, h1) -> 0 <= open_ret E (cpu_path 1) ->
     exists h2, boot E 1 h1 = Done (1, h2) /\
     forall w, rtc (world_step friend_binary_end ctors dtors P 1) (start P 1 v) w ->
       exists w', rtc (world_step friend_binary_end ctors dtors P 1) w w' /\ host w' = Left value).
Proof.
  intros Hu Hrec. split.
  - intros r. by apply returns_exactly.
  - intros h1 _ Ho. destruct (boot_one E h1) as [h2 Hb].
    destruct (Z.ltb_spec (open_ret E (cpu_path 1)) 0); [lia|]. exists h2. split; [done|].
    intros w Hw. by apply one_core_finishes.
Qed.

(** What the one-core programs of the repository return, whatever the interleaving:
    tests/offload and the tutorials friend and offloading return 1 (or -1 when [setup]
    fails), tests/vmx the bit of the core, and symbol_resolution, whose host waits for
    the variable itself, can always go on to return 1. *)
Theorem one_core_results E friend_binary_end ctors dtors h r :
  (OffloadTest.test_main E friend_binary_end ctors dtors h r -> r = -1 \/ r = 1) /\
  (FriendTutorial.test_main E friend_binary_end ctors dtors h r -> r = -1 \/ r = 1) /\
  (OffloadingTutorial.test_main E friend_binary_end ctors dtors h r -> r = -1 \/ r = 1) /\
  (forall ecx, VmxTest.test_main ecx E friend_binary_end ctors dtors h r ->
     r = -1 \/ r = truth (Z.testbit ecx 5)) /\
  (SymbolResolution.test_main E friend_binary_end ctors dtors h r -> r = -1 \/ r = 1) /\
  (forall w, rtc (world_step friend_binary_end ctors dtors SymbolResolution.loop 1)
       (start SymbolResolution.loop 1 1) w ->
     exists w', rtc (world_step friend_binary_end ctors dtors SymbolResolution.loop 1) w w' /\
       host w' = Left 1).
Proof.
  split_and!.
  - by apply returns_one.
  - by apply returns_one.
  - by apply returns_one.
  - intros ecx Hr. apply returns_one in Hr as [?| ->]; [by left|right|done].
    change (result _ _ _) with (truth (if negb (Z.land ecx (Z.shiftl 1 5) =? 0) then true else false)).
    rewrite land_bit by done. by destruct (Z.testbit ecx 5).
  - intros [r' h' Hs Hne|h1 h2 c w r' Hs Hb n Hw Hl]; [left; by destruct (setup_value _ _ _ _ Hs)|right].
    by destruct (left_result _ _ _ _ _ _ w _ Hw Hl) as (w1 & _ & _ & ->).
  - apply symbol_resolution_finishes.
Qed.

(** ** Programs on all cores *)

Lemma sext_mod x : sext 64 x mod 2 ^ 64 = x mod 2 ^ 64.
Proof.
  unfold sext, wrap. cbv zeta. destruct (Z.ltb_spec (x mod 2 ^ 64) (2 ^ (64 - 1))).
  - by rewrite Z.mod_mod.
  - rewrite Zminus_mod, Z_mod_same_full, Z.sub_0_r, !Z.mod_mod; done.
Qed.

Lemma sext_bounds x : - 2 ^ 63 <= sext 64 x < 2 ^ 63.
Proof.
  unfold sext, wrap. cbv zeta. pose proof (Z.mod_pos_bound x (2 ^ 64)).
  destruct (Z.ltb_spec (x mod 2 ^ 64) (2 ^ (64 - 1))); lia.
Qed.

(** A counter of 64 bits that is congruent to a number of cores is that number. *)
Lemma counter_exact x n :
  - 2 ^ 63 <= x < 2 ^ 63 -> Z.of_nat n < 2 ^ 31 -> x mod 2 ^ 64 = (0 + Z.of_nat n * 1) mod 2 ^ 64 ->
  (x =? Z.of_nat n) = true.
Proof.
  intros Hx Hn E. apply Z.eqb_eq. rewrite (Z.mod_small (0 + _)) in E by lia.
  pose proof (Z.div_mod x (2 ^ 64)). pose proof (Z.mod_pos_bound x (2 ^ 64)). lia.
Qed.

(** One goal per statement of a program. *)
Ltac each_stmt H :=
  cbn [friend_main flag_program Sample.loop Clang.loop SymbolTest.loop] in H;
  repeat apply elem_of_cons in H as [->|H]; [..|by apply not_elem_of_nil in H].

Lemma sample_passes friend_binary_end ctors dtors n w0 w r :
  (0 < n)%nat -> Z.of_nat n < 2 ^ 31 ->
  rtc (world_step friend_binary_end ctors dtors Sample.loop n) (start Sample.loop n Sample.vars0) w0 ->
  arrived w0 -> rtc (world_step friend_binary_end ctors dtors Sample.loop n) w0 w ->
  host w = Left r -> r = 1.
Proof.
  intros Hpos Hn H0 Ha Hs Hr.
  pose (weight := fun st => Sample.sync_flag (stmt_exec 0 st (Sample.vars0, 0)).1).
  destruct (counting_result friend_binary_end ctors dtors Sample.loop n Sample.vars0 Hpos Hn
    (fun _ _ => eq_refl) (2 ^ 64) Sample.sync_flag weight) with w0 w r as (w1 & H1 & -> & E); try done.
  - intros rsp st [v i] Hst. each_stmt Hst; unfold weight;
      cbn [stmt_exec fst Sample.sync_flag Sample.vars0]; rewrite ?Z.add_0_r; try done. apply sext_mod.
  - cbn. rewrite counter_exact; [done| |done|done].
    apply (vars_kept friend_binary_end ctors dtors Sample.loop n
      (fun v => - 2 ^ 63 <= Sample.sync_flag v < 2 ^ 63) Sample.vars0); [|done|done].
    intros rsp st [v i] Hst Hv. each_stmt Hst; cbn [stmt_exec fst Sample.sync_flag]; try done.
    apply sext_bounds.
Qed.

Lemma clang_passes friend_binary_end ctors dtors n w0 w r :
  (0 < n)%nat -> Z.of_nat n < 2 ^ 31 ->
  rtc (world_step friend_binary_end ctors dtors Clang.loop n) (start Clang.loop n 0) w0 ->
  arrived w0 -> rtc (world_step friend_binary_end ctors dtors Clang.loop n) w0 w ->
  host w = Left r -> r = 1.
Proof.
  intros Hpos Hn H0 Ha Hs Hr.
  destruct (counting_result friend_binary_end ctors dtors Clang.loop n 0 Hpos Hn
    (fun _ _ => eq_refl) (2 ^ 64) id (fun _ => 1)) with w0 w r as (w1 & H1 & -> & E); try done.
  - intros rsp st [v i] Hst. each_stmt Hst. apply sext_mod.
  - cbn. rewrite counter_exact; [done| |done|done].
    apply (vars_kept friend_binary_end ctors dtors Clang.loop n (fun v => - 2 ^ 63 <= v < 2 ^ 63) 0);
      [|done|done].
    intros rsp st [v i] Hst Hv. each_stmt Hst. apply sext_bounds.
Qed.

Lemma symbol_result friend_binary_end ctors dtors n func imported v w r :
  rtc (world_step friend_binary_end ctors dtors (SymbolTest.loop func imported) n)
    (start (SymbolTest.loop func imported) n v) w ->
  host w = Left r -> r = truth (imported =? func).
Proof.
  intros Hs Hr.
  destruct (left_result friend_binary_end ctors dtors _ n v w r Hs Hr) as (w1 & H1 & Hl & ->).
  apply (left_flag friend_binary_end ctors dtors (SymbolTest.loop func imported) n v w1) in Hl; [|done|done].
  destruct (flag_stopped _ _ _ _ _ _ _ H1 Hl) as [i Hi].
  assert (vars w1 = imported) as E.
  { eapply (vars_established friend_binary_end ctors dtors (SymbolTest.loop func imported) n (fun x => x = imported) [] _ v w1 i eq_refl);
      [|by intros rsp [x u]|exact H1|by eapply w_done; [eapply reachable_wf|..]].
    intros rsp st [x u] Hst _. by each_stmt Hst. }
  cbn. by rewrite E.
Qed.

(** [EXPORTED_SYMBOL(func)], the word at [slot], after [setup]. *)
Lemma symbol_imported E h file im bin b xs slot func :
  ready E h file im bin b xs -> (slot, func) ∈ xs ->
  exists h', setup E h = Done (0, h') /\ read64 (vm (hproc h')) slot = Some func.
Proof.
  intros Hr Hx. destruct (wp_done _ _ _ (setup_spec E h file im bin b xs Hr)) as (v & h' & Es & -> & Hu).
  exists h'. split; [done|]. pose proof (su_exports _ _ _ _ _ _ _ Hu) as He. rewrite Forall_forall in He.
  by apply (He _ Hx).
Qed.

(** The second core is started but has not entered when the first one is through. *)
Definition overtaken : list actor :=
  replicate 9 (Core 0) ++ replicate 9 Host ++ replicate 10 (Core 0) ++ replicate 3 Host.


(** Both cores come to [friend_main], one after the other they do all of it, and the
    host serves and leaves. *)
Definition arriving : list actor := [Core 0; Core 0; Core 0; Core 1; Core 1]%nat.
Definition finishing : list actor :=
  replicate 6 (Core 0) ++ replicate 9 Host ++ replicate 8 (Core 0) ++
  replicate 6 (Core 1) ++ replicate 8 Host ++ replicate 10 (Core 1) ++ replicate 3 Host.

Definition demo_sample (sched : list actor) (w : world Sample.vars Z) : world Sample.vars Z :=
  default w (run FriendInit.demo_end 0 0 Sample.loop 2 sched w).

Lemma demo_sample_steps sched w :
  bool_decide (is_Some (run FriendInit.demo_end 0 0 Sample.loop 2 sched w)) = true ->
  rtc (world_step FriendInit.demo_end 0 0 Sample.loop 2) w (demo_sample sched w).
Proof.
  unfold demo_sample. intros H. apply bool_decide_eq_true in H as [w' E].
  rewrite E. cbn.
  by eapply run_steps.
Qed.

Definition arrived_world : world Sample.vars Z :=
  demo_sample arriving (start Sample.loop 2 Sample.vars0).
Definition overtaken_world : world Sample.vars Z :=
  demo_sample overtaken (start Sample.loop 2 Sample.vars0).
Definition finished_world : world Sample.vars Z := demo_sample finishing arrived_world.

(** C9: the programs that count their cores, on any number of them: when all cores have
    entered [friend_init] before the first [friend_main] returns, [test_main] of sample
    and of tests/clang returns 1, which is a pass; tests/symbol tells, in every order,
    whether the imported pointer is the host's function, and returns 1 with the pointer
    [setup] has stored for an exported symbol; and sample, which offloads from every core, never gets stuck: from every
    state the host can go on to return. *)
Theorem all_core_programs friend_binary_end ctors dtors n :
  (0 < n)%nat -> Z.of_nat n < 2 ^ 31 ->
  (forall w0 w r,
     rtc (world_step friend_binary_end ctors dtors Sample.loop n)
       (start Sample.loop n Sample.vars0) w0 -> arrived w0 ->
     rtc (world_step friend_binary_end ctors dtors Sample.loop n) w0 w -> host w = Left r -> r = 1) /\
  (forall w0 w r,
     rtc (world_step friend_binary_end ctors dtors Clang.loop n) (start Clang.loop n 0) w0 ->
     arrived w0 -> rtc (world_step friend_binary_end ctors dtors Clang.loop n) w0 w ->
     host w = Left r -> r = 1) /\
  (forall func imported v w r,
     rtc (world_step friend_binary_end ctors dtors (SymbolTest.loop func imported) n)
       (start (SymbolTest.loop func imported) n v) w -> host w = Left r -> r = truth (imported =? func)) /\
  (forall E h file im bin b xs slot func,
     ready E h file im bin b xs -> (slot, func) ∈ xs ->
     exists h' imported, setup E h = Done (0, h') /\ read64 (vm (hproc h')) slot = Some imported /\
       forall v w r, rtc (world_step friend_binary_end ctors dtors (SymbolTest.loop func imported) n)
         (start (SymbolTest.loop func imported) n v) w -> host w = Left r -> r = 1) /\
  (forall w, rtc (world_step friend_binary_end ctors dtors Sample.loop n)
       (start Sample.loop n Sample.vars0) w ->
     exists w' r, rtc (world_step friend_binary_end ctors dtors Sample.loop n) w w' /\
       host w' = Left r).
Proof.
  intros Hpos Hn. split_and!.
  - intros w0 w r. by apply sample_passes.
  - intros w0 w r. by apply clang_passes.
  - intros func imported v w r. by apply symbol_result.
  - intros E h file im bin b xs slot func Hr Hx.
    destruct (symbol_imported E h file im bin b xs slot func Hr Hx) as (h' & Es & Hi).
    exists h', func. split_and!; [done|done|]. intros v w r Hw Hl.
    by rewrite (symbol_result _ _ _ _ _ _ _ _ _ Hw Hl), Z.eqb_refl.
  - intros w Hw. apply (can_finish _ _ _ _ _ Sample.vars0); try done; [by left|].
    intros w' H1 H2. cbn. by eapply all_stopped_flag.
Qed.

(** C39: without that condition sample can fail: with two cores there is a run in which
    the first core goes through [friend_main] before the second has entered
    [friend_init]; the flag is raised, the host finds one core counted of two, returns 0
    and prints FAILED. *)
Theorem sample_can_fail :
  exists w, rtc (world_step FriendInit.demo_end 0 0 Sample.loop 2)
      (start Sample.loop 2 Sample.vars0) w /\
    FriendInit.cores (life w) = [FriendInit.Stop; FriendInit.Entry] /\
    Sample.sync_flag (vars w) = 1 /\ host w = Left 0 /\ main 0 = ("FAILED"%string, 255).
Proof.
  exists overtaken_world. split.
  - apply demo_sample_steps. vm_compute. reflexivity.
  - split_and!; vm_compute; reflexivity.
Qed.

(** ** Witnesses *)

Lemma arrived_world_reachable :
  rtc (world_step FriendInit.demo_end 0 0 Sample.loop 2)
    (start Sample.loop 2 Sample.vars0) arrived_world.
Proof. apply demo_sample_steps. vm_compute. reflexivity. Qed.

Lemma finished_reachable :
  rtc (world_step FriendInit.demo_end 0 0 Sample.loop 2) arrived_world finished_world.
Proof. apply demo_sample_steps. vm_compute. reflexivity. Qed.

Lemma arrived_world_arrived : arrived arrived_world.
Proof. intros [|[|i]] p H; vm_compute in H; by simplify_eq. Qed.

Lemma all_core_programs_witness :
  exists r, host finished_world = Left r /\ r = 1 /\ Sample.sync_flag (vars finished_world) = 2.
Proof.
  exists 1. split; [vm_compute; reflexivity|]. split; [|vm_compute; reflexivity].
  apply (proj1 (all_core_programs FriendInit.demo_end 0 0 2 ltac:(lia) ltac:(lia))
    arrived_world finished_world 1 arrived_world_reachable arrived_world_arrived finished_reachable).
  vm_compute. reflexivity.
Defined.

Lemma demo_opens : 0 <= open_ret demo_env (cpu_path 1).
Proof. cbn [open_ret demo_env]. unfold demo_open_ret. by case_decide. Qed.

Lemma one_core_programs_witness :
  exists h1 h2 w, setup demo_env demo_h = Done (0, h1) /\ boot demo_env 1 h1 = Done (1, h2) /\
    rtc (world_step FriendInit.demo_end 1 1 OffloadTest.loop 1)
      (start OffloadTest.loop 1 (OffloadTest.mkVars 0 0)) w /\ host w = Left 1.
Proof.
  destruct (wp_done _ _ _ (setup_spec demo_env demo_h demo_file demo_image Friend16.demo_trampoline_image
    0x7f0000000000 demo_exports demo_ready)) as (r & h1 & Hs & -> & _).
  pose proof (one_core_programs demo_env FriendInit.demo_end 1 1 OffloadTest.loop
    (OffloadTest.mkVars 0 0) demo_h (fun _ _ => eq_refl) (or_introl eq_refl)) as [_ H].
  destruct (H h1 Hs demo_opens) as (h2 & Hb & Hw).
  destruct (Hw _ (rtc_refl _ _)) as (w & Hw1 & Hw2).
  exists h1, h2, w. split; [exact Hs|]. split; [exact Hb|]. split; [exact Hw1|exact Hw2].
Defined.
