(* ===== verification/StackTest.v ===== *)
(** * StackTest: tests/stack

    Every core stores the page its stack ends with into a shared array, at an index it
    takes from a shared counter; the host sorts the array and checks that the stacks
    differ and lie behind the friend's binary. *)

From stdpp Require Import sorting.
From S2P Require Import Prelude Memory Hakase FriendInit Offload Programs TestPrograms.
Import Programs.

Module StackTest.

Definition kCoreCountMax : Z := 0x10.

Record vars := mkVars {
  cnt : Z;                 (* uint64_t *)
  stack_addr : list Z;     (* uint64_t[kCoreCountMax] *)
  overrun : bool           (* a store went past the array *)
}.

Definition all_ones : Z := u64 (Z.lnot 0).

(** The array as [test_main] fills it before [boot]. *)
Definition vars0 : vars := mkVars 0 (replicate (Z.to_nat kCoreCountMax) all_ones) false.

(** [depth] is how far %rsp is below the top of the stack where [friend_main] reads it:
    what the calls and the frame take. *)
Definition stack_page (rsp : Z) : Z := u64 (Z.land rsp (u64 (Z.lnot (0x1000 - 1))) + 0x1000).

Definition take_index : Z -> vars * Z -> vars * Z := fun _ '(v, _) =>
  (mkVars (u64 (cnt v + 1)) (stack_addr v) (overrun v), FriendInit.int32 (cnt v)).

Definition store_page (depth : Z) : Z -> vars * Z -> vars * Z := fun top '(v, x) =>
  (if (0 <=? x) && (x <? kCoreCountMax)
   then mkVars (cnt v) (<[Z.to_nat x := stack_page (u64 (top - depth))]> (stack_addr v)) (overrun v)
   else mkVars (cnt v) (stack_addr v) true, x).

Definition friend_main (depth : Z) : list (stmt vars Z) :=
  [Access take_index; Access (store_page depth)].

(** ** The check of the host *)

Definition sort_ascendant (a b : Z) : Z := if a >? b then 1 else if a <? b then -1 else 0.

Definition before (a b : Z) : Prop := sort_ascendant a b <= 0.

#[export] Instance before_dec : RelDecision before.
Proof. intros a b. unfold before. apply _. Defined.

(** [qsort] of the first [n] elements. *)
Definition qsort (n : nat) (l : list Z) : list Z := merge_sort before (take n l) ++ drop n l.

Definition entry (l : list Z) (i : Z) : Z := default 0 (l !! Z.to_nat i).

Definition valid_entries (cpunum : nat) (l : list Z) : bool :=
  forallb (fun i => ((i <? Z.of_nat cpunum) && negb (entry l i =? 0)) ||
                    ((Z.of_nat cpunum <=? i) && (entry l i =? all_ones))) (seqZ 0 kCoreCountMax).

Fixpoint distinct_from (pre : Z) (l : list Z) : bool :=
  match l with
  | [] => true
  | x :: rest => if pre =? x then false else distinct_from x rest
  end.

(** [test_main] behind its loop. *)
Definition check (friend_binary_end : Z) (cpunum : nat) (v : vars) : Z :=
  if negb (valid_entries cpunum (stack_addr v)) then -1
  else
    let l := qsort cpunum (stack_addr v) in
    if negb (distinct_from (entry l 0) (take (cpunum - 1) (drop 1 l))) then -1
    else if existsb (fun i => entry l i <=? friend_binary_end) (seqZ 0 (Z.of_nat cpunum)) then -1
    else 1.

(** With more cores than the array holds [test_main] does not wait. *)
Definition loop (friend_binary_end depth : Z) (cpunum : nat) : program vars Z :=
  mkProgram (friend_main depth) 0 false
    (fun s _ => (kCoreCountMax <? Z.of_nat cpunum) || FriendInit.is_friend_stopped s)
    (fun n v => if kCoreCountMax <? Z.of_nat n then -1 else check friend_binary_end n v).

Definition test_main (depth : Z) (E : env) (friend_binary_end : Z) (ctors dtors : nat) : hstate -> Z -> Prop :=
  returns E friend_binary_end ctors dtors (loop friend_binary_end depth) vars0 0.

(** ** The check accepts separate stacks *)

Lemma distinct_nodup x l : NoDup (x :: l) -> distinct_from x l = true.
Proof.
  revert x. induction l as [|y l IH]; intros x Hn; [done|]. cbn.
  apply NoDup_cons in Hn as [Hx Hn]. destruct (Z.eqb_spec x y) as [->|]; [set_solver|by apply IH].
Qed.

Lemma check_passes friend_binary_end n v :
  (0 < n)%nat -> Z.of_nat n <= kCoreCountMax ->
  length (stack_addr v) = Z.to_nat kCoreCountMax -> 0 <= friend_binary_end ->
  NoDup (take n (stack_addr v)) -> Forall (fun x => friend_binary_end < x) (take n (stack_addr v)) ->
  (forall k, (n <= k < Z.to_nat kCoreCountMax)%nat -> stack_addr v !! k = Some all_ones) ->
  check friend_binary_end n v = 1.
Proof.
  intros Hpos Hn Hl Hend Hnd Hall Hones. unfold check, kCoreCountMax in *.
  assert (valid_entries n (stack_addr v) = true) as ->.
  { apply forallb_forall. intros i Hi%list_elem_of_In%elem_of_seqZ. unfold entry, kCoreCountMax in *.
    destruct (lookup_lt_is_Some_2 (stack_addr v) (Z.to_nat i)) as [x Hx]; [lia|]. rewrite Hx. cbn.
    destruct (Z.ltb_spec i (Z.of_nat n)).
    - rewrite Forall_lookup in Hall. specialize (Hall (Z.to_nat i) x).
      rewrite lookup_take_lt in Hall by lia. specialize (Hall Hx).
      destruct (Z.eqb_spec x 0); [lia|done].
    - rewrite Hones in Hx by lia. injection Hx as <-. rewrite (proj2 (Z.leb_le _ _)) by lia. by rewrite Z.eqb_refl. }
  cbn [negb]. cbv zeta. unfold qsort.
  pose proof (merge_sort_Permutation before (take n (stack_addr v))) as Hp.
  remember (merge_sort before (take n (stack_addr v))) as s eqn:Es. clear Es.
  assert (length s = n) as Hs by (rewrite Hp, length_take; lia).
  rewrite <- Hp in Hnd. rewrite <- Hp in Hall.
  assert (entry (s ++ drop n (stack_addr v)) 0 :: take (n - 1) (drop 1 (s ++ drop n (stack_addr v))) = s) as Ec.
  { destruct s as [|x s]; [cbn in Hs; lia|]. unfold entry. cbn. rewrite drop_0. f_equal.
    rewrite take_app_length'; [done|]. cbn in Hs. lia. }
  rewrite distinct_nodup by (by rewrite Ec). cbn [negb].
  destruct (existsb _ _) eqn:Ee; [|done]. exfalso.
  apply existsb_exists in Ee as (i & Hi%list_elem_of_In%elem_of_seqZ & Hle%Z.leb_le).
  unfold entry in Hle. rewrite lookup_app_l in Hle by lia.
  destruct (lookup_lt_is_Some_2 s (Z.to_nat i)) as [x Hx]; [lia|]. rewrite Hx in Hle. cbn in Hle.
  rewrite Forall_lookup in Hall. specialize (Hall _ _ Hx). lia.
Qed.

(** ** Runs *)

Section Runs.
Context (friend_binary_end : Z) (ctors dtors : nat) (depth : Z) (n : nat).
Context (Hn : Z.of_nat n <= kCoreCountMax).

Abbreviation P := (loop friend_binary_end depth n).
Abbreviation run_step := (world_step friend_binary_end ctors dtors P n).

(** A core that has its index. *)
Definition indexed (l : list (stmt vars Z)) : bool := (length l <? 2)%nat.
Definition taken (ts : list (list (stmt vars Z))) : nat := length (filter (fun l => indexed l = true) ts).

(** The top of the stack of a core that has one, as [store_page] rounds it. *)
Definition page_of (w : world vars Z) (i : nat) : Z :=
  stack_page (u64 (rsp_of i (FriendInit.sh (life w)) - depth)).

Record stored_pages (w : world vars Z) : Prop := {
  s_len : length (stack_addr (Programs.vars w)) = Z.to_nat kCoreCountMax;
  s_overrun : overrun (Programs.vars w) = false;
  s_cnt : cnt (Programs.vars w) = Z.of_nat (taken (todo w));
  s_index : forall i l x, todo w !! i = Some l -> locals w !! i = Some x -> indexed l = true ->
    0 <= x < cnt (Programs.vars w);
  s_distinct : forall i j li lj x, i <> j -> todo w !! i = Some li -> todo w !! j = Some lj ->
    indexed li = true -> indexed lj = true -> locals w !! i = Some x -> locals w !! j <> Some x;
  s_done : forall i x, todo w !! i = Some [] -> locals w !! i = Some x ->
    stack_addr (Programs.vars w) !! Z.to_nat x = Some (page_of w i);
  s_free : forall k, (k < Z.to_nat kCoreCountMax)%nat ->
    (forall i x, todo w !! i = Some [] -> locals w !! i = Some x -> Z.to_nat x <> k) ->
    stack_addr (Programs.vars w) !! k = Some all_ones;
  s_entered : forall i l, todo w !! i = Some l -> indexed l = true ->
    FriendInit.cores (life w) !! i <> Some FriendInit.Entry
}.

Lemma taken_bound ts : (taken ts <= length ts)%nat.
Proof. apply length_filter. Qed.

Lemma taken_insert ts i l l' :
  ts !! i = Some l -> indexed l' = true ->
  taken (<[i := l']> ts) = (taken ts + if indexed l then 0 else 1)%nat.
Proof.
  unfold taken. revert i. induction ts as [|t ts IH]; intros [|i] H Hl'; try done.
  - injection H as ->. change (<[0%nat := l']> (l :: ts)) with (l' :: ts). rewrite !filter_cons.
    rewrite decide_True by done. destruct (indexed l); [rewrite decide_True by done|rewrite decide_False by done];
      cbn; lia.
  - change (<[S i := l']> (t :: ts)) with (t :: <[i := l']> ts). rewrite !filter_cons.
    specialize (IH i H Hl'). destruct (decide _); cbn [length]; rewrite IH; lia.
Qed.

Lemma start_stored : stored_pages (start P n vars0).
Proof.
  assert (forall i l, replicate n (friend_main depth) !! i = Some l -> l = friend_main depth) as Hr.
  { intros i l H. by apply lookup_replicate in H as [-> _]. }
  split; cbn; try done.
  - clear Hr. induction n as [|m IH]; [done|]. cbn. apply IH. lia.
  - by intros i l x ->%Hr.
  - by intros i j li lj x _ ->%Hr.
  - by intros i x ?%Hr.
  - intros k Hk _. by apply lookup_replicate_2.
  - by intros i l ->%Hr.
Qed.

(** A step of a core through boot.S or init.cc keeps the stacks the others have. *)
Lemma rsp_of_lives i p s j :
  FriendInit.cores s !! j <> Some FriendInit.Entry \/ j <> i ->
  FriendInit.cores s !! i = Some p ->
  rsp_of j (FriendInit.core_step friend_binary_end ctors dtors i p (FriendInit.sh s)).1 =
  rsp_of j (FriendInit.sh s).
Proof.
  intros Hj Hi. unfold rsp_of. destruct p; cbn; repeat case_match; try done. cbn.
  assert (i <> j) as Hne by (intros ->; destruct Hj; congruence).
  f_equal. induction (FriendInit.stacks (FriendInit.sh s)) as [|e l IH]; cbn.
  - destruct (Nat.eqb_spec i j); done.
  - case_match; [done|exact IH].
Qed.

Lemma stored_lives i p w :
  stored_pages w -> FriendInit.cores (life w) !! i = Some p ->
  stored_pages (mkWorld (lives friend_binary_end ctors dtors i p (life w)) (offl w) (Programs.vars w)
                  (todo w) (locals w) (host w)).
Proof.
  intros [] Hi. split; cbn; try done.
  - intros j x Ht Hx. rewrite (s_done0 j x Ht Hx). unfold page_of. cbn. do 4 f_equal.
    symmetry. apply rsp_of_lives; [|done]. left. by eapply s_entered0.
  - intros j l Ht Hl. destruct (decide (j = i)) as [->|Hne].
    + rewrite list_lookup_insert_eq by (by eapply lookup_lt_Some).
      destruct p; cbn; repeat case_match; done.
    + rewrite list_lookup_insert_ne by done. eauto.
Qed.

Lemma stored_take i l w :
  stored_pages w -> length (todo w) = n -> length (locals w) = n ->
  FriendInit.cores (life w) !! i = Some FriendInit.Main ->
  todo w !! i = Some (friend_main depth) -> locals w !! i = Some l ->
  stored_pages (mkWorld (life w) (offl w) (take_index 0 (Programs.vars w, l)).1
    (<[i := [Access (store_page depth)]]> (todo w))
    (<[i := (take_index 0 (Programs.vars w, l)).2]> (locals w)) (host w)).
Proof.
  intros [] Lt Ll Hm Ht Hl.
  pose proof (taken_insert _ i (friend_main depth) [Access (store_page depth)] Ht eq_refl) as Ec. cbn [indexed length Nat.ltb Nat.leb friend_main] in Ec.
  pose proof (taken_bound (<[i := [Access (store_page depth)]]> (todo w))) as Hb.
  rewrite length_insert, Lt, Ec in Hb. unfold kCoreCountMax in *.
  assert (0 <= cnt (Programs.vars w) < 16) as Hc by (rewrite s_cnt0; lia).
  assert (FriendInit.int32 (cnt (Programs.vars w)) = cnt (Programs.vars w)) as E1
    by (apply FriendInit.int32_id; lia).
  assert (u64 (cnt (Programs.vars w) + 1) = cnt (Programs.vars w) + 1) as E2 by (apply u64_small; lia).
  assert (i < length (locals w))%nat as Hil by by eapply lookup_lt_Some.
  split; cbn [Programs.vars todo locals life take_index fst snd stack_addr overrun cnt]; rewrite ?E1, ?E2; try done.
  - rewrite Ec, s_cnt0. lia.
  - intros j lj x Hj Hx Hi. apply FriendInit.lookup_moved in Hx as [[-> ->]|[Hne Hx]]; [lia|].
    rewrite list_lookup_insert_ne in Hj by done. specialize (s_index0 j lj x Hj Hx Hi). lia.
  - intros j k lj lk x Hjk Hj Hk Ij Ik Hx Hy.
    apply FriendInit.lookup_moved in Hj as [[-> ->]|[Hji Hj]];
      apply FriendInit.lookup_moved in Hk as [[-> ->]|[Hki Hk]]; [done| | |].
    + rewrite list_lookup_insert_eq in Hx by done. rewrite list_lookup_insert_ne in Hy by done.
      injection Hx as <-. specialize (s_index0 k lk _ Hk Hy Ik). lia.
    + rewrite list_lookup_insert_eq in Hy by done. rewrite list_lookup_insert_ne in Hx by done.
      injection Hy as <-. specialize (s_index0 j lj _ Hj Hx Ij). lia.
    + rewrite !list_lookup_insert_ne in Hx, Hy by done. by eapply (s_distinct0 j k lj lk).
  - intros j x Hj Hx. apply FriendInit.lookup_moved in Hj as [[-> ?]|[Hne Hj]]; [done|].
    rewrite list_lookup_insert_ne in Hx by done. by apply s_done0.
  - intros k Hk Hf. apply s_free0; [done|]. intros j x Hj Hx.
    assert (j <> i) by (intros ->; by rewrite Ht in Hj).
    apply (Hf j x); by rewrite list_lookup_insert_ne.
  - intros j lj Hj Hi. destruct (decide (j = i)) as [->|Hne]; [congruence|].
    rewrite list_lookup_insert_ne in Hj by done. by eapply s_entered0.
Qed.

Lemma stored_store i x w :
  stored_pages w -> length (todo w) = n -> length (locals w) = n ->
  FriendInit.cores (life w) !! i = Some FriendInit.Main ->
  todo w !! i = Some [Access (store_page depth)] -> locals w !! i = Some x ->
  let r := store_page depth (rsp_of i (FriendInit.sh (life w))) (Programs.vars w, x) in
  stored_pages (mkWorld (life w) (offl w) r.1 (<[i := []]> (todo w)) (<[i := r.2]> (locals w)) (host w)).
Proof.
  intros Hw Lt Ll Hm Ht Hl. pose proof Hw as [].
  pose proof (taken_insert _ i _ [] Ht eq_refl) as Ec. cbn [indexed length Nat.ltb Nat.leb] in Ec.
  pose proof (taken_bound (todo w)) as Hb. rewrite Lt in Hb. unfold kCoreCountMax in *.
  pose proof (s_index0 i _ x Ht Hl eq_refl) as Hx. rewrite s_cnt0 in Hx.
  assert ((0 <=? x) && (x <? kCoreCountMax) = true) as Eb.
  { apply andb_true_iff. unfold kCoreCountMax. split; [apply Z.leb_le|apply Z.ltb_lt]; lia. }
  unfold store_page. rewrite Eb. cbn [fst snd].
  assert (forall j y, todo w !! j = Some [] -> locals w !! j = Some y -> Z.to_nat y <> Z.to_nat x) as Hother.
  { intros j y Hj Hy E. assert (j <> i) as Hji by (intros ->; congruence).
    pose proof (s_index0 j [] y Hj Hy eq_refl). assert (y = x) as -> by lia.
    by apply (s_distinct0 j i [] [Access (store_page depth)] x). }
  rewrite (list_insert_id (locals w) i x Hl).
  split; cbn [Programs.vars todo locals life stack_addr overrun cnt]; try done.
  - by rewrite length_insert.
  - rewrite Ec, s_cnt0. lia.
  - intros j lj y Hj Hy Hi. apply FriendInit.lookup_moved in Hj as [[-> ->]|[Hne Hj]].
    + rewrite s_cnt0. rewrite Hl in Hy. injection Hy as <-. lia.
    + by eapply s_index0.
  - intros j k lj lk y Hjk Hj Hk Ij Ik Hy.
    apply FriendInit.lookup_moved in Hj as [[-> ->]|[Hji Hj]];
      apply FriendInit.lookup_moved in Hk as [[-> ->]|[Hki Hk]]; [done|by eapply s_distinct0..].
  - intros j y Hj Hy. apply FriendInit.lookup_moved in Hj as [[-> _]|[Hne Hj]].
    + rewrite Hl in Hy. injection Hy as <-. rewrite list_lookup_insert_eq by (rewrite s_len0; lia). done.
    + rewrite list_lookup_insert_ne by (by apply not_eq_sym, (Hother j y)). by apply s_done0.
  - intros k Hk Hf. rewrite list_lookup_insert_ne.
    + apply s_free0; [done|]. intros j y Hj Hy. assert (j <> i) by (intros ->; congruence).
      apply (Hf j y); [|done]. by rewrite list_lookup_insert_ne.
    + apply (Hf i x); [|done]. rewrite list_lookup_insert_eq; [done|]. by eapply lookup_lt_Some.
  - intros j lj Hj Hi. destruct (decide (j = i)) as [->|Hne]; [congruence|].
    rewrite list_lookup_insert_ne in Hj by done. by eapply s_entered0.
Qed.

Lemma suffix_cases (f : Z -> vars * Z -> vars * Z) rest :
  (Access f :: rest) `suffix_of` friend_main depth ->
  (f = take_index /\ rest = [Access (store_page depth)]) \/ (f = store_page depth /\ rest = []).
Proof.
  intros [k Hk]. destruct k as [|a [|b [|c k]]]; cbn in Hk; unfold friend_main in Hk; simplify_eq; auto.
Qed.

Lemma stored_reachable w : rtc run_step (start P n vars0) w -> stored_pages w.
Proof.
  intros Hs. pattern w. apply (rtc_ind_r (R:=run_step) _ (start P n vars0)); [apply start_stored| |exact Hs].
  clear w Hs. intros w w' Hs Hst IH. pose proof (reachable_wf _ _ _ _ _ vars0 w Hs) as Hwf.
  pose proof (w_todo _ _ _ Hwf) as Lt. pose proof (w_locals _ _ _ Hwf) as Ll.
  pose proof (w_part _ _ _ Hwf) as Hp.
  assert (forall (i : nat) f rest, todo w !! i <> Some (Offload f :: rest)) as Hno.
  { intros i f rest Ht. apply Hp in Ht as [k Hk]. destruct k as [|a [|b [|c k]]]; cbn in Hk; unfold friend_main in Hk; simplify_eq. }
  destruct Hst as [i p w Hi _ _|i f rest l w Hi _ Ht Hl r| | |? ? ? ? ? ? _ _ Ht|i w Hi _ _| | | |
    |? ? ? ? ? ? _ _ Ht];
    try (by destruct (Hno _ _ _ Ht)); try (destruct IH; by split).
  - by apply stored_lives.
  - destruct (suffix_cases f rest (Hp i _ Ht)) as [[-> ->]|[-> ->]].
    + by apply (stored_take i l).
    + by apply (stored_store i l).
  - by apply stored_lives.
Qed.

(** ** The stacks of the cores *)

Lemma stack_page_eq x : 0 <= x < 2 ^ 64 -> stack_page x = u64 (x / 0x1000 * 0x1000 + 0x1000).
Proof.
  intros Hx. unfold stack_page. do 2 f_equal.
  replace (u64 (Z.lnot (0x1000 - 1))) with (Z.land (Z.lnot (Z.ones 12)) (Z.ones 64)) by done.
  rewrite Z.land_assoc, <- Z.ldiff_land, Z.ldiff_ones_r by lia.
  rewrite Z.land_ones, Z.shiftr_div_pow2, Z.shiftl_mul_pow2 by lia.
  change (2 ^ 12) with 0x1000. apply Z.mod_small.
  pose proof (Z.div_mod x 0x1000). pose proof (Z.mod_pos_bound x 0x1000). lia.
Qed.

Lemma stack_page_top sp :
  0 < depth <= 0x1000 -> sp mod 0x1000 = 0 -> 0x1000 <= sp < 2 ^ 63 -> stack_page (u64 (sp - depth)) = sp.
Proof.
  intros Hd Hm Hs. rewrite u64_small by lia. rewrite stack_page_eq by lia.
  assert ((sp - depth) / 0x1000 * 0x1000 + 0x1000 = sp) as ->.
  { pose proof (Z.div_mod sp 0x1000). replace ((sp - depth) / 0x1000) with (sp / 0x1000 - 1); [lia|].
    apply (Z.div_unique _ _ _ (0x1000 - depth)); lia. }
  apply u64_small. lia.
Qed.

Lemma rsp_found i s :
  i ∈ (FriendInit.stacks s).*1 -> exists k, FriendInit.stacks s !! k = Some (i, rsp_of i s).
Proof.
  intros Hi. unfold rsp_of. destruct (List.find _ _) as [[j sp]|] eqn:E.
  - apply find_some in E as [E1 E2]. apply Nat.eqb_eq in E2. cbn in E2. subst j.
    by apply list_elem_of_In, list_elem_of_lookup_1 in E1.
  - apply list_elem_of_fmap in Hi as ([j sp] & -> & Hi). apply list_elem_of_In, (find_none _ _ E) in Hi.
    cbn in Hi. by rewrite Nat.eqb_refl in Hi.
Qed.

Section Final.
Context (Hpos : (0 < n)%nat) (Hd : 0 < depth <= 0x1000).
Context (Hlo : Layout.DEPLOY_PHYS_ADDR_START <= friend_binary_end) (Hal : friend_binary_end mod 0x1000 = 0).
Context (Hhi : friend_binary_end + FriendInit.INITIAL_STACK_OFFSET +
  FriendInit.STACK_SIZE * (Z.of_nat n - 1) <= Layout.DEPLOY_PHYS_ADDR_END).

(** What each core has stored is a stack of its own, behind the binary. *)
Lemma pages_apart w :
  rtc run_step (start P n vars0) w -> all_returned w ->
  (forall i, (i < n)%nat -> friend_binary_end < page_of w i) /\
  (forall i j, (i < n)%nat -> (j < n)%nat -> page_of w i = page_of w j -> i = j).
Proof.
  intros Hs Hall. unfold Layout.DEPLOY_PHYS_ADDR_START, Layout.DEPLOY_PHYS_ADDR_END,
    FriendInit.INITIAL_STACK_OFFSET, FriendInit.STACK_SIZE, kCoreCountMax in *.
  assert (Z.of_nat n < 2 ^ 31) as Hn31 by lia.
  assert (FriendInit.stacks_fit friend_binary_end n) as Hf.
  { unfold FriendInit.stacks_fit, FriendInit.INITIAL_STACK_OFFSET, FriendInit.STACK_SIZE,
      Layout.DEPLOY_PHYS_ADDR_END. lia. }
  apply steps_life in Hs as Hl. cbn in Hl.
  destruct (FriendInit.steps_stack_inv _ _ _ n Hn31 _ _ Hf (FriendInit.start_counted n)
    (FriendInit.start_stack_inv _ n) Hl) as [S1 _ S3 S4 S5].
  pose proof (FriendInit.count_bounds FriendInit.has_stack (FriendInit.cores (life w))) as Hb.
  pose proof (w_cores _ _ _ (reachable_wf _ _ _ _ _ vars0 w Hs)) as Hc. rewrite Hc in Hb.
  assert (forall i, (i < n)%nat -> exists k, (k < n)%nat /\ page_of w i = FriendInit.stack_at friend_binary_end k /\
    FriendInit.stacks (FriendInit.sh (life w)) !! k = Some (i, rsp_of i (FriendInit.sh (life w)))) as Hk.
  { intros i Hi. destruct (lookup_lt_is_Some_2 (FriendInit.cores (life w)) i) as [p Hp]; [lia|].
    destruct (rsp_found i (FriendInit.sh (life w))) as [k Hk].
    { apply (S5 i p Hp). specialize (Hall i p Hp). by destruct p. }
    assert (k < n)%nat as Hkn by (apply lookup_lt_Some in Hk; lia).
    exists k. split_and!; [done| |done]. unfold page_of.
    rewrite (S3 k _ _ Hk) at 1. unfold FriendInit.stack_at, FriendInit.INITIAL_STACK_OFFSET, FriendInit.STACK_SIZE.
    apply stack_page_top; [lia| |lia].
    rewrite <- Z.add_assoc, Zplus_mod, Hal.
    replace (0x2000 + 0x4000 * Z.of_nat k) with ((2 + 4 * Z.of_nat k) * 0x1000) by lia.
    by rewrite Z.mod_mul. }
  split.
  - intros i (k & _ & -> & _)%Hk. unfold FriendInit.stack_at, FriendInit.INITIAL_STACK_OFFSET, FriendInit.STACK_SIZE. lia.
  - intros i j (k & _ & -> & E1)%Hk (k' & _ & -> & E2)%Hk E.
    assert (k = k') as <- by (unfold FriendInit.stack_at, FriendInit.STACK_SIZE in E; lia).
    rewrite E1 in E2. by injection E2.
Qed.

(** [n] different indices below [n] are all of them. *)
Lemma indices_onto (l : list nat) k :
  NoDup l -> length l = n -> (forall x, x ∈ l -> (x < n)%nat) -> (k < n)%nat -> k ∈ l.
Proof.
  intros Hnd Hl Hx Hk. apply list_elem_of_In.
  apply (NoDup_length_incl (l:=l) (l':=seq 0 n)); [by apply NoDup_ListNoDup|by rewrite length_seq, Hl| |].
  - intros x Hin%list_elem_of_In%Hx. apply in_seq. lia.
  - apply in_seq. lia.
Qed.

(** When all cores are through, each has an index below [n], and each such index
    belongs to one core, whose page is stored there. *)
Lemma final_locals w i x :
  rtc run_step (start P n vars0) w -> all_returned w -> locals w !! i = Some x ->
  (i < n)%nat /\ todo w !! i = Some [] /\ 0 <= x < Z.of_nat n.
Proof.
  intros Hs Hall Hx. pose proof (stored_reachable w Hs) as [].
  pose proof (returned_done _ _ _ _ _ vars0 Hpos w Hs Hall) as Et.
  assert (i < n)%nat as Hi.
  { rewrite <- (w_locals _ _ _ (reachable_wf _ _ _ _ _ vars0 w Hs)). by eapply lookup_lt_Some. }
  assert (todo w !! i = Some []) as Ht by (rewrite Et; by apply lookup_replicate_2).
  assert (cnt (Programs.vars w) = Z.of_nat n) as Ec.
  { rewrite s_cnt0, Et. f_equal. unfold taken. clear. induction n as [|m IH]; [done|].
    cbn [replicate]. rewrite filter_cons_True by done. cbn [length]. by rewrite IH. }
  split_and!; [done|done|..]; destruct (s_index0 i [] x Ht Hx eq_refl); lia.
Qed.

Lemma final_pages w k :
  rtc run_step (start P n vars0) w -> all_returned w -> (k < n)%nat ->
  exists i, (i < n)%nat /\ locals w !! i = Some (Z.of_nat k) /\
    stack_addr (Programs.vars w) !! k = Some (page_of w i).
Proof.
  intros Hs Hall Hk. pose proof (stored_reachable w Hs) as [].
  pose proof (w_locals _ _ _ (reachable_wf _ _ _ _ _ vars0 w Hs)) as Ll.
  assert (k ∈ Z.to_nat <$> locals w) as Hin.
  { apply indices_onto; [|by rewrite length_fmap| |done].
    - apply NoDup_alt. intros i j y Hi Hj. rewrite list_lookup_fmap in Hi, Hj.
      destruct (locals w !! i) as [xi|] eqn:Ei; [|done]. destruct (locals w !! j) as [xj|] eqn:Ej; [|done].
      destruct (final_locals w i xi Hs Hall Ei) as (_ & Ti & Bi).
      destruct (final_locals w j xj Hs Hall Ej) as (_ & Tj & Bj).
      destruct (decide (i = j)) as [|Hij]; [done|].
      cbn in Hi, Hj. assert (xi = xj) as -> by (simplify_eq; lia).
      by destruct (s_distinct0 i j [] [] xj Hij Ti Tj eq_refl eq_refl Ei).
    - intros y (x & -> & [i Hi]%list_elem_of_lookup_1)%list_elem_of_fmap.
      destruct (final_locals w i x Hs Hall Hi) as (_ & _ & ?). lia. }
  apply list_elem_of_fmap in Hin as (x & -> & [i Hi]%list_elem_of_lookup_1).
  destruct (final_locals w i x Hs Hall Hi) as (? & Ti & ?). exists i.
  rewrite Z2Nat.id by lia. split_and!; [done|done|by apply s_done0].
Qed.

Lemma final_check w :
  rtc run_step (start P n vars0) w -> all_returned w ->
  check friend_binary_end n (Programs.vars w) = 1.
Proof.
  intros Hs Hall. destruct (pages_apart w Hs Hall) as [Hbehind Happart].
  pose proof (stored_reachable w Hs) as []. pose proof (fun k => final_pages w k Hs Hall) as Hpage.
  apply check_passes; try done.
  - unfold Layout.DEPLOY_PHYS_ADDR_START in Hlo. lia.
  - apply NoDup_alt. intros k k' y Hk Hk'. apply lookup_take_Some in Hk as [Hk Hkn], Hk' as [Hk' Hkn'].
    destruct (Hpage k Hkn) as (i & Hi & Li & Ei), (Hpage k' Hkn') as (j & Hj & Lj & Ej).
    assert (i = j) as <- by (apply Happart; [done..|congruence]). rewrite Li in Lj. injection Lj. lia.
  - apply Forall_lookup. intros k y [Hk Hkn]%lookup_take_Some.
    destruct (Hpage k Hkn) as (i & Hi & _ & Ei). rewrite Ei in Hk. injection Hk as <-. auto.
  - intros k Hk. apply s_free0; [lia|]. intros i x _ Hl.
    destruct (final_locals w i x Hs Hall Hl) as (_ & _ & ?). lia.
Qed.
End Final.
End Runs.

(** C10: tests/stack passes on any number of cores up to [kCoreCountMax] whose stacks fit
    the region, when all of them have entered [friend_init] before the first
    [friend_main] returns: the indices taken from the shared counter are different, no
    store leaves the array, the pages stored are the different stacks behind the binary,
    and [test_main] returns 1. *)
Theorem stack_test_passes friend_binary_end ctors dtors depth n w0 w r :
  (0 < n)%nat -> Z.of_nat n <= kCoreCountMax -> 0 < depth <= 0x1000 ->
  Layout.DEPLOY_PHYS_ADDR_START <= friend_binary_end -> friend_binary_end mod 0x1000 = 0 ->
  friend_binary_end + FriendInit.INITIAL_STACK_OFFSET +
    FriendInit.STACK_SIZE * (Z.of_nat n - 1) <= Layout.DEPLOY_PHYS_ADDR_END ->
  rtc (world_step friend_binary_end ctors dtors (loop friend_binary_end depth n) n)
    (start (loop friend_binary_end depth n) n vars0) w0 ->
  arrived w0 ->
  rtc (world_step friend_binary_end ctors dtors (loop friend_binary_end depth n) n) w0 w ->
  overrun (Programs.vars w) = false /\ (host w = Left r -> r = 1).
Proof.
  intros Hpos Hn Hd Hlo Hal Hhi H0 Ha Hs. split.
  - eapply s_overrun, stored_reachable; [done|]. by etrans.
  - assert (waits_for_flag (loop friend_binary_end depth n)) as Hu.
    { intros s v. cbn. destruct (Z.ltb_spec kCoreCountMax (Z.of_nat n)); [lia|done]. }
    assert (Z.of_nat n < 2 ^ 31) as Hn31 by (unfold kCoreCountMax in Hn; lia).
    intros Hr. destruct (arrived_result _ _ _ _ n vars0 Hpos Hn31 Hu w0 w r H0 Ha Hs Hr) as (w1 & H1 & -> & Hall).
    cbn. destruct (Z.ltb_spec kCoreCountMax (Z.of_nat n)); [lia|].
    eapply final_check; try done. by etrans.
Qed.

(** Two cores. *)
Definition demo_stack (sched : list actor) (w : world vars Z) : world vars Z :=
  default w (run FriendInit.demo_end 1 1 (loop FriendInit.demo_end 0x40 2) 2 sched w).

Definition demo_arrived : world vars Z :=
  demo_stack [Core 0; Core 0; Core 0; Core 0; Core 1; Core 1]
    (start (loop FriendInit.demo_end 0x40 2) 2 vars0).

Definition demo_finished : world vars Z :=
  demo_stack ([Core 1; Core 0; Core 0; Core 1] ++ replicate 3 (Core 0) ++ replicate 6 (Core 1) ++ replicate 2 Host)
    demo_arrived.

Lemma demo_stack_steps sched w :
  bool_decide (is_Some (run FriendInit.demo_end 1 1 (loop FriendInit.demo_end 0x40 2) 2 sched w)) = true ->
  rtc (world_step FriendInit.demo_end 1 1 (loop FriendInit.demo_end 0x40 2) 2) w (demo_stack sched w).
Proof.
  unfold demo_stack. intros [w' E]%bool_decide_eq_true. rewrite E. by eapply run_steps.
Qed.

Lemma stack_test_passes_witness :
  exists r, host demo_finished = Left r /\ r = 1 /\ overrun (Programs.vars demo_finished) = false.
Proof.
  exists 1. split; [vm_compute; reflexivity|].
  assert (rtc (world_step FriendInit.demo_end 1 1 (loop FriendInit.demo_end 0x40 2) 2)
    (start (loop FriendInit.demo_end 0x40 2) 2 vars0) demo_arrived) as H0.
  { apply demo_stack_steps. vm_compute. reflexivity. }
  assert (rtc (world_step FriendInit.demo_end 1 1 (loop FriendInit.demo_end 0x40 2) 2)
    demo_arrived demo_finished) as H1.
  { apply demo_stack_steps. vm_compute. reflexivity. }
  assert (arrived demo_arrived) as Ha.
  { intros [|[|i]] p H; vm_compute in H; by simplify_eq. }
  destruct (stack_test_passes FriendInit.demo_end 1 1 0x40 2 demo_arrived demo_finished 1) as [Ho Hr];
    [lia|vm_compute; discriminate|lia|vm_compute; discriminate|reflexivity|vm_compute; discriminate
    |exact H0|exact Ha|exact H1|].
  split; [|exact Ho]. apply Hr. vm_compute. reflexivity.
Defined.

End StackTest.
