(* ===== verification/SmallPrograms.v ===== *)
(** * SmallPrograms: tests/elf, the tutorial hosts and the test of align()

    tests/elf links a friend without [friend_init]: its own [entry64] counts the core in
    a shared variable and halts; the host sleeps for a second and compares.  How far the
    cores are after that second is not up to the program, so the sleep is any number of
    their steps.  The hosts of the tutorials on paging and interrupts are one text; they
    are a [program] of [Programs] over the statements of the friend. *)

From S2P Require Import Prelude Memory Loader16 Friend16 Hakase Offload FriendInit Programs TestPrograms.
Import Programs.

Module ElfTest.

(** The instructions of [entry64] of friend_boot.S. *)
Inductive epc :=
| Entry    (* movabsq $sync_flag, %rax *)
| Count    (* lock addq $1, (%rax) *)
| Hlt      (* stop: hlt *)
| Jmp.     (* jmp stop *)

Inductive ehost :=
| Sleep           (* sleep(1) *)
| Compare         (* sync_flag == cpunum *)
| Left (r : Z).

Record eworld := mkEworld { sync_flag : Z; cores : list epc; host : ehost }.

Definition ebegin (n : nat) : eworld := mkEworld 0 (replicate n Entry) Sleep.

(** [hlt] may end at any time. *)
Definition count_core (p : epc) (flag : Z) : epc * Z :=
  match p with
  | Entry => (Count, flag)
  | Count => (Hlt, sext 64 (flag + 1))
  | Hlt => (Jmp, flag)
  | Jmp => (Hlt, flag)
  end.

Inductive estep (cpunum : Z) : eworld -> eworld -> Prop :=
| StepCore i p w : cores w !! i = Some p ->
    estep cpunum w (mkEworld (count_core p (sync_flag w)).2 (<[i := (count_core p (sync_flag w)).1]> (cores w)) (host w))
| StepWake w : host w = Sleep -> estep cpunum w (mkEworld (sync_flag w) (cores w) Compare)
| StepCompare w : host w = Compare ->
    estep cpunum w (mkEworld (sync_flag w) (cores w) (Left (truth (sync_flag w =? cpunum)))).

(** [test_main]: what it can return. *)
Inductive test_main (E : env) (h : hstate) : Z -> Prop :=
| SetupFails r h' : setup E h = Done (r, h') -> r <> 0 -> test_main E h r
| Compared h1 h2 cpunum w r :
    setup E h = Done (0, h1) -> boot E 0 h1 = Done (cpunum, h2) ->
    rtc (estep cpunum) (ebegin (Z.to_nat cpunum)) w -> host w = Left r -> test_main E h r.

(** The cores that have counted themselves. *)
Definition has_counted (p : epc) : bool := match p with Hlt | Jmp => true | _ => false end.
Fixpoint arrived (l : list epc) : nat :=
  match l with [] => 0%nat | p :: l' => ((if has_counted p then 1 else 0) + arrived l')%nat end.

Lemma arrived_insert l i p q :
  l !! i = Some p ->
  Z.of_nat (arrived (<[i := q]> l)) = Z.of_nat (arrived l) + (if has_counted q then 1 else 0) - (if has_counted p then 1 else 0).
Proof.
  revert i. induction l as [|x l IH]; intros [|i] Hi; cbn in Hi; try done.
  - injection Hi as ->. change (<[0%nat := q]> (p :: l)) with (q :: l). cbn [arrived]. destruct (has_counted q), (has_counted p); lia.
  - specialize (IH i Hi). change (<[S i := q]> (x :: l)) with (x :: <[i := q]> l). cbn [arrived]. destruct (has_counted x); lia.
Qed.

Lemma arrived_le l : (arrived l <= length l)%nat.
Proof. induction l as [|x l IH]; cbn; [lia|]. destruct (has_counted x); lia. Qed.

(** A core that has not counted itself, or all have. *)
Lemma arrived_all l : arrived l = length l \/ exists i p, l !! i = Some p /\ has_counted p = false.
Proof.
  induction l as [|x l [IH|(i & p & Hp & Hc)]]; [by left| |right; by exists (S i), p].
  destruct (has_counted x) eqn:Ex; [left; cbn; by rewrite Ex, IH|right; by exists 0%nat, x].
Qed.

Section Runs.
Context (n : nat) (Hn : Z.of_nat n < 2 ^ 63).

(** The variable counts the cores that are past [lock addq]; what the host has returned
    it has compared when so many had counted. *)
Record inv (w : eworld) : Prop := {
  i_len : length (cores w) = n;
  i_flag : sync_flag w = Z.of_nat (arrived (cores w));
  i_left : forall r, host w = Left r -> r = 0 \/ (r = 1 /\ arrived (cores w) = n)
}.

Lemma ebegin_inv : inv (ebegin n).
Proof.
  split; cbn; [apply length_replicate| |done]. clear Hn. by induction n as [|k IH].
Qed.

Lemma core_arrives l i p flag :
  length l = n -> l !! i = Some p -> flag = Z.of_nat (arrived l) ->
  (count_core p flag).2 = Z.of_nat (arrived (<[i := (count_core p flag).1]> l)).
Proof.
  intros Hl Hi ->. rewrite (arrived_insert l i p _ Hi).
  assert (Z.of_nat (arrived (<[i := Hlt]> l)) <= Z.of_nat n) as Hb.
  { rewrite <- Hl, <- (length_insert l i Hlt). pose proof (arrived_le (<[i := Hlt]> l)). lia. }
  rewrite (arrived_insert l i p _ Hi) in Hb.
  destruct p; cbn [count_core fst snd has_counted] in *; try lia. rewrite Z.sub_0_r. apply sext_of_sint; [done|]. unfold sint. lia.
Qed.

Lemma estep_inv w w' : inv w -> estep (Z.of_nat n) w w' -> inv w'.
Proof.
  intros [Hl Hf Hr] Hst. destruct Hst as [i p w Hi|w Hh|w Hh]; split; cbn [cores sync_flag host] in *.
  - by rewrite length_insert.
  - by apply core_arrives.
  - intros r Er. destruct (Hr r Er) as [|[? Hc]]; [by left|right]. split; [done|].
    pose proof (arrived_insert _ _ _ (count_core p (sync_flag w)).1 Hi) as Ec.
    pose proof (arrived_le (<[i := (count_core p (sync_flag w)).1]> (cores w))) as Hle. rewrite length_insert in Hle.
    destruct p; cbn [count_core fst snd has_counted] in *; lia.
  - done.
  - done.
  - done.
  - done.
  - done.
  - intros r [= <-]. unfold truth. destruct (Z.eqb_spec (sync_flag w) (Z.of_nat n)) as [E|E]; [right|by left]. split; [done|lia].
Qed.

Lemma esteps_inv w : rtc (estep (Z.of_nat n)) (ebegin n) w -> inv w.
Proof.
  intros Hs. assert (forall a b, rtc (estep (Z.of_nat n)) a b -> inv a -> inv b) as Hgo.
  { intros a b Hab. induction Hab as [|x y z Hxy _ IH]; [done|]. intros Hx. by apply IH, (estep_inv x). }
  eapply Hgo; [exact Hs|apply ebegin_inv].
Qed.

(** All cores can count themselves while the host is asleep. *)
Lemma cores_count w :
  inv w -> exists w', rtc (estep (Z.of_nat n)) w w' /\ host w' = host w /\ arrived (cores w') = n /\ inv w'.
Proof.
  remember (n - arrived (cores w))%nat as k eqn:Ek. revert w Ek. induction k as [|k IH]; intros w Ek Hi.
  - exists w. split_and!; [apply rtc_refl|done| |done]. pose proof (arrived_le (cores w)). rewrite (i_len w Hi) in *. lia.
  - assert (exists i p, cores w !! i = Some p /\ has_counted p = false) as (i & p & Hp & Hc).
    { destruct (arrived_all (cores w)) as [Ha|Hp]; [|done]. rewrite (i_len w Hi) in Ha. lia. }
    assert (exists w1, rtc (estep (Z.of_nat n)) w w1 /\ host w1 = host w /\ inv w1 /\ (n - arrived (cores w1))%nat = k)
      as (w1 & S1 & H1 & I1 & E1).
    { assert (forall v, inv v -> cores v !! i = Some Count -> arrived (cores v) = arrived (cores w) -> host v = host w ->
        exists w1, rtc (estep (Z.of_nat n)) v w1 /\ host w1 = host w /\ inv w1 /\ (n - arrived (cores w1))%nat = k) as Hcnt.
      { intros v Iv Hv Ec Eh. pose proof (StepCore (Z.of_nat n) i Count v Hv) as Hst.
        eexists. split_and!; [by apply rtc_once|done|by eapply estep_inv|]. cbn [cores count_core fst].
        pose proof (arrived_insert _ _ _ Hlt Hv) as Ec'. cbn [has_counted] in Ec'. lia. }
      destruct p; try done; [|by apply Hcnt].
      pose proof (StepCore (Z.of_nat n) i Entry w Hp) as Hst. cbn [count_core fst snd] in Hst.
      destruct (Hcnt _ (estep_inv _ _ Hi Hst)) as (w1 & S1 & Hrest).
      - cbn. apply list_lookup_insert_eq. by eapply lookup_lt_Some.
      - cbn [cores]. pose proof (arrived_insert _ _ _ Count Hp) as Ec'. cbn [has_counted] in Ec'. lia.
      - done.
      - exists w1. split; [by eapply rtc_l|done]. }
    destruct (IH w1 (eq_sym E1) I1) as (w2 & S2 & H2 & C2 & I2). exists w2. split_and!; [by etrans|by rewrite H2|done|done].
Qed.

(** tests/elf with [n] cores: at every moment the variable is the number of cores that
    have counted themselves; the host returns 1 only when all have, and can still come
    to return 1 as long as it sleeps; but with at least one core it can also wake up
    before the cores have counted, and return 0: the second of sleep is all that orders
    the two sides. *)
Theorem elf_test_counts w :
  rtc (estep (Z.of_nat n)) (ebegin n) w ->
  sync_flag w = Z.of_nat (arrived (cores w)) /\
  (host w = Left 1 -> arrived (cores w) = n) /\
  (host w = Sleep -> exists w', rtc (estep (Z.of_nat n)) w w' /\ host w' = Left 1) /\
  ((0 < n)%nat -> exists w', rtc (estep (Z.of_nat n)) (ebegin n) w' /\ host w' = Left 0).
Proof.
  intros Hs. pose proof (esteps_inv w Hs) as Hi. split_and!.
  - apply Hi.
  - intros E. by destruct (i_left w Hi 1 E) as [|[_ ?]].
  - intros E. destruct (cores_count w Hi) as (w1 & S1 & H1 & C1 & I1).
    eexists. split.
    + etrans; [exact S1|]. eapply rtc_l; [apply StepWake; by rewrite H1|]. apply rtc_once. by apply StepCompare.
    + cbn. rewrite (i_flag w1 I1), C1, Z.eqb_refl. done.
  - intros Hpos. eexists. split.
    + eapply rtc_l; [by apply StepWake|]. apply rtc_once. by apply StepCompare.
    + cbn. f_equal. destruct n; [lia|]. done.
Qed.
End Runs.

(** [test_main] returns -1 when [setup] fails, and otherwise whether the cores had all
    counted. *)
Theorem elf_test_results E h r :
  test_main E h r -> r = -1 \/ r = 0 \/ r = 1.
Proof.
  intros [r' h' Hs Hne|h1 h2 cpunum w r' Hs Hb Hw Hl]; [left; by destruct (setup_value _ _ _ _ Hs)|right].
  assert (forall a b, rtc (estep cpunum) a b -> (forall x, host a = Left x -> x = 0 \/ x = 1) ->
    forall x, host b = Left x -> x = 0 \/ x = 1) as Hgo.
  { intros a b Hab. induction Hab as [|a b c Hst _ IH]; [done|]. intros Ha. apply IH. intros x.
    destruct Hst as [i p v Hi|v Hh|v Hh]; cbn [host]; [apply Ha|done|]. intros [= <-]. unfold truth. destruct (_ =? _); auto. }
  by eapply Hgo.
Qed.

(** Two cores: both count themselves before the host wakes up, or only the first does. *)
Example elf_test_one : exists w, rtc (estep 2) (ebegin 2) w /\ host w = Left 1.
Proof. apply (elf_test_counts 2 ltac:(done) (ebegin 2) (rtc_refl _ _)). done. Qed.

Example elf_test_zero :
  rtc (estep 2) (ebegin 2) (mkEworld 1 [Hlt; Entry] (Left 0)).
Proof.
  eapply rtc_l; [by apply (StepCore 2 0 Entry)|]. eapply rtc_l; [by apply (StepCore 2 0 Count)|].
  eapply rtc_l; [by apply StepWake|]. apply rtc_once. by apply (StepCompare 2 (mkEworld 1 [Hlt; Entry] Compare)).
Qed.
End ElfTest.

(** ** common/tests/align.cc *)
Module AlignTest.

(** The align_checks: the width of the type, the arguments and the value expected. *)
Definition align_checks : list (Z * Z * Z * Z) :=
  [ (8, 20, 5, 20); (8, 103, 100, 100); (8, 3, 6, 0); (64, 0x2FFFFFFFF, 0x100000000, 0x200000000) ].

Definition align_passes : bool :=
  forallb (fun '(w, val, align_val, expected) =>
    match Layout.align w val align_val with Done r => r =? expected | Fault _ => false end) align_checks.

Example align_checks_pass : align_passes = true.
Proof. reflexivity. Qed.
End AlignTest.

(** ** The hosts of tutorial/paging and tutorial/interrupt *)
Module TutorialHost.
Section Host.
Context {V L : Type} (friend_main : list (stmt V L)) (v : V) (l : L).

(** [while (!is_friend_stopped()) { offloader_tryreceive(); ... } return 1;] *)
Definition loop : program V L := flag_program friend_main l true (fun _ _ => 1).

Definition test_main (E : env) (friend_binary_end : Z) (ctors dtors : nat) : hstate -> Z -> Prop :=
  returns E friend_binary_end ctors dtors (fun _ => loop) v 1.

(** Whatever statements and offloads the friend runs, the host returns -1 when [setup]
    fails and 1 otherwise, and while the core goes on it can always still return 1. *)
Theorem tutorial_host_returns E friend_binary_end ctors dtors h :
  (forall r, test_main E friend_binary_end ctors dtors h r -> r = -1 \/ r = 1) /\
  (forall w, rtc (world_step friend_binary_end ctors dtors loop 1) (start loop 1 v) w ->
     exists w', rtc (world_step friend_binary_end ctors dtors loop 1) w w' /\ host w' = Left 1).
Proof.
  split.
  - intros r Hr. by apply returns_one in Hr.
  - intros w Hw. by apply (one_core_finishes friend_binary_end ctors dtors loop v w); [|left|].
Qed.
End Host.
End TutorialHost.

(** ** tutorial/toshokan/monitor: both sides loop for ever *)
Module Monitor.
Inductive mhost := Loop | Left (r : Z).

(** [while (true) { usleep(1000 * 1000); }] *)
Inductive mstep : mhost -> mhost -> Prop :=
| StepSleep : mstep Loop Loop.

Inductive test_main (E : env) (h : hstate) : Z -> Prop :=
| SetupFails r h' : setup E h = Done (r, h') -> r <> 0 -> test_main E h r
| Looped h1 h2 c r : setup E h = Done (0, h1) -> boot E 0 h1 = Done (c, h2) -> rtc mstep Loop (Left r) -> test_main E h r.

(** Only a failed [setup] ends the program. *)
Theorem monitor_never_returns E h r : test_main E h r -> r = -1 /\ exists h', setup E h = Done (-1, h').
Proof.
  intros [r' h' Hs Hne|h1 h2 c r' Hs Hb Hw].
  - destruct (setup_value _ _ _ _ Hs) as [?| ->]; [done|]. eauto.
  - exfalso. remember Loop as a eqn:Ea. remember (Left r') as b eqn:Eb. induction Hw as [|x y z Hxy _ IH]; [by subst|].
    destruct Hxy. by apply IH.
Qed.
End Monitor.
