(* ===== verification/VirtMem.v ===== *)
(** * VirtMem: a core that reaches memory through page tables and a TLB

    The programs of tutorial/ and sample_old/ change page tables while they run on
    them.  This file models the core they run on: physical memory, CR3, the write
    protection bit of CR0, the global-page bit of CR4, and a translation cache that
    may hold any translation that was valid since it was last flushed.  What the cache
    drops or prefetches is the parameter [TlbPolicy]; a theorem about a program holds
    for every policy.  The cache is kept by 4 KB page; [invlpg] drops no more than the
    page it names.  Caches of upper table levels are not modelled. *)

From S2P Require Import Prelude Memory Paging.

Module VirtMem.

(** ** The walk, and the slots it reads *)

Section WalkSlots.
Context (read : Z -> option Z).

Definition walk_slots (cr3 va : Z) : list Z :=
  pte_base 12 cr3 + 8 * pml4_index va ::
  match entry read (pte_base 12 cr3) (pml4_index va) with
  | None => []
  | Some e4 =>
      pte_base 12 e4 + 8 * pdpt_index va ::
      match entry read (pte_base 12 e4) (pdpt_index va) with
      | None => []
      | Some e3 =>
          if pte_huge e3 then []
          else
            pte_base 12 e3 + 8 * pd_index va ::
            match entry read (pte_base 12 e3) (pd_index va) with
            | None => []
            | Some e2 =>
                if pte_huge e2 then [] else [pte_base 12 e2 + 8 * pt_index va]
            end
      end
  end.

(** The global bit of the entry that ends the walk. *)
Definition leaf_global (cr3 va : Z) : bool :=
  match last (walk_slots cr3 va) ≫= read with
  | Some e => Z.testbit e 8
  | None => false
  end.
End WalkSlots.

(** ** The core *)

Record tlb_entry := mkTlb { te_frame : Z; te_write : bool; te_global : bool }.

Record core := mkCore {
  pmem : mem;                         (* physical memory *)
  cr3 : Z;
  wp_bit : bool;                      (* CR0.WP *)
  pge : bool;                         (* CR4.PGE *)
  cr2 : Z;                            (* address of the last page fault *)
  idtr : Z * Z;                       (* limit and base of the interrupt table *)
  tlb : gmap Z tlb_entry;             (* by page number *)
  tick : nat;                         (* translations so far *)
  console : list (string * list Z);   (* calls of printf, latest first *)
  stdin : list Z                      (* characters getchar has not returned yet *)
}.

Definition set_pmem (m : mem) (s : core) : core :=
  mkCore m (cr3 s) (wp_bit s) (pge s) (cr2 s) (idtr s) (tlb s) (tick s) (console s) (stdin s).
Definition set_tlb (t : gmap Z tlb_entry) (s : core) : core :=
  mkCore (pmem s) (cr3 s) (wp_bit s) (pge s) (cr2 s) (idtr s) t (tick s) (console s) (stdin s).
Definition set_io (c : list (string * list Z)) (i : list Z) (s : core) : core :=
  mkCore (pmem s) (cr3 s) (wp_bit s) (pge s) (cr2 s) (idtr s) (tlb s) (tick s) c i.

(** The translation of page number [p] in the page tables. *)
Definition current (s : core) (p : Z) : option tlb_entry :=
  t ← walk (read64 (pmem s)) (cr3 s) (p * 4096);
  Some (mkTlb (t_phys t) (t_write t) (pge s && leaf_global (read64 (pmem s)) (cr3 s) (p * 4096))).

(** What the cache holds after an arbitrary time: some of what it held, and
    translations of the current tables. *)
Class TlbPolicy := {
  tlb_next : core -> gmap Z tlb_entry;
  tlb_next_ok : forall s p e,
    tlb_next s !! p = Some e -> tlb s !! p = Some e \/ current s p = Some e
}.

(** ** Accesses *)

Section Access.
Context `{TlbPolicy}.

Definition lookup_page (p : Z) : M core (option tlb_entry) := fun s =>
  let s1 := mkCore (pmem s) (cr3 s) (wp_bit s) (pge s) (cr2 s) (idtr s) (tlb_next s) (S (tick s))
              (console s) (stdin s) in
  Done (match tlb s1 !! p with Some e => Some e | None => current s1 p end, s1).

(** A write needs a writable page only when CR0.WP is set: the code runs in ring 0. *)
Definition allowed (s : core) (wr : bool) (e : tlb_entry) : bool :=
  negb wr || te_write e || negb (wp_bit s).

(** The state in which the handler of a page fault at [va] starts: the page is not in
    the cache. *)
Definition faulted (va : Z) (s : core) : core :=
  mkCore (pmem s) (cr3 s) (wp_bit s) (pge s) va (idtr s) (delete (va / 4096) (tlb s)) (tick s)
    (console s) (stdin s).

(** The physical address of [va], or [None] for a page fault. *)
Definition translate (wr : bool) (va : Z) : M core (option Z) :=
  e ← lookup_page (va / 4096);
  s ← get;
  match e with
  | Some e =>
      if allowed s wr e then
        put (set_tlb (<[va / 4096 := e]> (tlb s)) s);; mret (Some (te_frame e + va mod 4096))
      else put (faulted va s);; mret None
  | None => put (faulted va s);; mret None
  end.

Definition lift_pmem {A} (c : M mem A) : M core A := fun s =>
  match c (pmem s) with
  | Done (a, m) => Done (a, set_pmem m s)
  | Fault f => Fault f
  end.

(** Accesses of [n] bytes inside a page; [None] is a page fault, an address without
    memory behind it is a fault of the model. *)
Definition vload (n : nat) (va : Z) : M core (option Z) :=
  if 4096 <? va mod 4096 + Z.of_nat n then fail Undefined
  else
    pa ← translate false va;
    match pa with
    | Some pa => v ← lift_pmem (load n pa); mret (Some v)
    | None => mret None
    end.

Definition vstore (n : nat) (va v : Z) : M core (option unit) :=
  if 4096 <? va mod 4096 + Z.of_nat n then fail Undefined
  else
    pa ← translate true va;
    match pa with
    | Some pa => lift_pmem (store n pa v);; mret (Some tt)
    | None => mret None
    end.

(** A page fault with nothing to handle it stops the core. *)
Definition no_fault {A} (c : M core (option A)) : M core A :=
  r ← c; match r with Some a => mret a | None => fail SegFault end.

Definition load64 (va : Z) : M core Z := no_fault (vload 8 va).
Definition store64 (va v : Z) : M core unit := no_fault (vstore 8 va v).

(** [page->entry[i] = v] and [page->entry[i]] *)
Definition put_entry (page i v : Z) : M core unit := store64 (page + 8 * i) v.
Definition get_entry (page i : Z) : M core Z := load64 (page + 8 * i).

Definition invlpg (va : Z) : M core unit := fun s =>
  Done (tt, set_tlb (delete (va / 4096) (tlb s)) s).

(** A write to CR3 flushes everything but global pages. *)
Definition write_cr3 (v : Z) : M core unit := fun s =>
  Done (tt, mkCore (pmem s) v (wp_bit s) (pge s) (cr2 s) (idtr s)
              (filter (fun x => te_global x.2 = true) (tlb s)) (tick s) (console s) (stdin s)).

Definition read_cr2 : M core Z := fun s => Done (cr2 s, s).

Definition lidt (limit base : Z) : M core unit := fun s =>
  Done (tt, mkCore (pmem s) (cr3 s) (wp_bit s) (pge s) (cr2 s) (limit, base) (tlb s) (tick s)
              (console s) (stdin s)).

(** Functions of the host the programs call through OFFLOAD; at the end of the input
    getchar returns EOF. *)
Definition printf (format : string) (args : list Z) : M core unit := fun s =>
  Done (tt, set_io ((format, args) :: console s) (stdin s) s).
Definition getchar : M core Z := fun s =>
  match stdin s with
  | c :: rest => Done (c, set_io (console s) rest s)
  | [] => Done (-1, s)
  end.
End Access.

(** ** Walks that agree *)

Lemma walk_slots_agree read read' cr va :
  (forall a, a ∈ walk_slots read cr va -> read' a = read a) ->
  walk_slots read' cr va = walk_slots read cr va /\ walk read' cr va = walk read cr va /\
  leaf_global read' cr va = leaf_global read cr va.
Proof.
  intros Hag.
  assert (walk_slots read' cr va = walk_slots read cr va /\ walk read' cr va = walk read cr va)
    as [E1 E2].
  { assert (forall t i, t + 8 * i ∈ walk_slots read cr va -> entry read' t i = entry read t i)
      as He by (intros t i Hi; unfold entry; by rewrite Hag).
    unfold walk_slots, walk in *. rewrite He by (left; done).
    destruct (entry read (pte_base 12 cr) (pml4_index va)) as [e4|]; [|done].
    cbn [mbind option_bind]. rewrite He by (right; left; done).
    destruct (entry read (pte_base 12 e4) (pdpt_index va)) as [e3|]; [|done].
    cbn [mbind option_bind]. destruct (pte_huge e3); [done|].
    rewrite He by (right; right; left; done).
    destruct (entry read (pte_base 12 e3) (pd_index va)) as [e2|]; [|done].
    cbn [mbind option_bind]. destruct (pte_huge e2); [done|].
    rewrite He by (right; right; right; left; done). done. }
  split_and!; [done|done|]. unfold leaf_global. rewrite E1.
  destruct (last (walk_slots read cr va)) as [a|] eqn:El; [|done]. cbn [mbind option_bind].
  rewrite Hag; [done|]. by apply last_Some_elem_of.
Qed.

(** A successful walk only reads entries that are present. *)
Lemma walk_present read cr va t :
  walk read cr va = Some t ->
  forall a, a ∈ walk_slots read cr va -> exists e, read a = Some e /\ pte_present e = true.
Proof.
  assert (forall p i e, entry read p i = Some e ->
    exists e', read (p + 8 * i) = Some e' /\ pte_present e' = true) as He.
  { intros p i e. unfold entry. destruct (read (p + 8 * i)) as [x|]; [|done].
    cbn [mbind option_bind]. destruct (pte_present x) eqn:E; [by eauto|done]. }
  unfold walk, walk_slots. intros Hw a Ha.
  destruct (entry read (pte_base 12 cr) (pml4_index va)) as [e4|] eqn:E4; [|done].
  apply elem_of_cons in Ha as [->|Ha]; [by eapply He|]. cbn [mbind option_bind] in Hw.
  destruct (entry read (pte_base 12 e4) (pdpt_index va)) as [e3|] eqn:E3; [|done].
  apply elem_of_cons in Ha as [->|Ha]; [by eapply He|]. cbn [mbind option_bind] in Hw.
  destruct (pte_huge e3); [by apply elem_of_nil in Ha|].
  destruct (entry read (pte_base 12 e3) (pd_index va)) as [e2|] eqn:E2; [|done].
  apply elem_of_cons in Ha as [->|Ha]; [by eapply He|]. cbn [mbind option_bind] in Hw.
  destruct (pte_huge e2); [by apply elem_of_nil in Ha|].
  destruct (entry read (pte_base 12 e2) (pt_index va)) as [e1|] eqn:E1; [|done].
  apply elem_of_cons in Ha as [->|Ha]; [by eapply He|]. by apply elem_of_nil in Ha.
Qed.

(** ** Coherence

    A page is coherent when the cache holds nothing or the current translation for
    it, up to the global bit; then the policy does not matter. *)

Definition coherent (s : core) (p : Z) : Prop :=
  forall e, tlb s !! p = Some e -> exists g, current s p = Some (mkTlb (te_frame e) (te_write e) g).

(** Everything [s'] has cached was cached or valid in [s]. *)
Definition tlb_from (s s' : core) : Prop :=
  forall p e, tlb s' !! p = Some e -> tlb s !! p = Some e \/ current s p = Some e.

(** Page [p] reaches the frame at [f], read only if [w] is false. *)
Definition maps_to (s : core) (p f : Z) (w : bool) : Prop :=
  exists g, current s p = Some (mkTlb f w g).

(** The slots of physical memory that the translation of [p] depends on. *)
Definition page_slots (s : core) (p : Z) : list Z :=
  walk_slots (read64 (pmem s)) (cr3 s) (p * 4096).

Lemma current_agree s s' p :
  cr3 s' = cr3 s -> pge s' = pge s ->
  (forall a, a ∈ page_slots s p -> read64 (pmem s') a = read64 (pmem s) a) ->
  current s' p = current s p /\ page_slots s' p = page_slots s p.
Proof.
  intros E3 Eg Ha. unfold current, page_slots. rewrite E3, Eg.
  destruct (walk_slots_agree (read64 (pmem s)) (read64 (pmem s')) (cr3 s) (p * 4096) Ha)
    as (-> & -> & ->). done.
Qed.

Lemma current_present s p e a :
  current s p = Some e -> a ∈ page_slots s p ->
  exists x, read64 (pmem s) a = Some x /\ pte_present x = true.
Proof.
  unfold current. intros E Ha.
  destruct (walk (read64 (pmem s)) (cr3 s) (p * 4096)) as [t|] eqn:Ew; [|done].
  by eapply walk_present.
Qed.

(** Registers, console and input as before. *)
Record same_regs (s s' : core) : Prop := {
  sr_cr3 : cr3 s' = cr3 s;
  sr_wp : wp_bit s' = wp_bit s;
  sr_pge : pge s' = pge s;
  sr_idtr : idtr s' = idtr s
}.

#[export] Instance same_regs_preorder : PreOrder same_regs.
Proof.
  split; [by intros s|]. intros a b c [] []. split; congruence.
Qed.

(** Changing an entry that is not present leaves every page coherent: what is not
    present is not cached. *)
Lemma coherent_absent s s' a v p :
  same_regs s s' -> tlb_from s s' -> slot_update (pmem s) (pmem s') (fun b => b = a) ->
  read64 (pmem s) a = Some v -> pte_present v = false ->
  (forall b, b ∈ page_slots s p -> slot b) ->
  coherent s p -> coherent s' p.
Proof.
  intros [E3 _ Eg _] Ht Hu Ha Hv Hs Hc e He.
  assert (exists g, current s p = Some (mkTlb (te_frame e) (te_write e) g)) as [g Hcur].
  { destruct (Ht _ _ He) as [E|E]; [by apply Hc|]. exists (te_global e). by destruct e. }
  exists g. rewrite <- Hcur. apply current_agree; [done|done|]. intros b Hb. apply Hu; [auto|].
  intros ->. destruct (current_present _ _ _ _ Hcur Hb) as (x & Hx & Hp). congruence.
Qed.

Lemma coherent_unchanged s s' p :
  tlb_from s s' -> current s' p = current s p -> coherent s p -> coherent s' p.
Proof.
  intros Ht Hc Hco e He. rewrite Hc. destruct (Ht _ _ He) as [E|E]; [by apply Hco|].
  exists (te_global e). by destruct e.
Qed.

(** *** One access of a coherent page *)

Section Rules.
Context `{TlbPolicy}.

(** What an access leaves behind: registers and console are as before, memory has
    changed only as [upd] says, and the cache has gained only valid translations. *)
Record after_access (s s' : core) (upd : mem -> Prop) : Prop := {
  aa_regs : same_regs s s';
  aa_tlb : tlb_from s s';
  aa_mem : upd (pmem s');
  aa_io : console s' = console s /\ stdin s' = stdin s
}.

Lemma current_tlb s t k :
  current (mkCore (pmem s) (cr3 s) (wp_bit s) (pge s) (cr2 s) (idtr s) t k (console s) (stdin s)) = current s.
Proof. done. Qed.

Lemma wp_translate wr va f w s :
  coherent s (va / 4096) -> maps_to s (va / 4096) f w ->
  (wr = true -> w = true \/ wp_bit s = false) ->
  wp (translate wr va)
    (fun r s' => r = Some (f + va mod 4096) /\ after_access s s' (fun m => m = pmem s)) s.
Proof.
  intros Hco [g Hm] Hw. unfold wp, translate, lookup_page, mbind, M_bind, get, put, mret, M_ret.
  cbn [tlb]. rewrite current_tlb.
  assert (exists g', match tlb_next s !! (va / 4096) with Some e => Some e | None => current s (va / 4096) end
          = Some (mkTlb f w g') /\ (tlb s !! (va / 4096) = Some (mkTlb f w g') \/
            current s (va / 4096) = Some (mkTlb f w g'))) as (g' & -> & Hfrom).
  { destruct (tlb_next s !! (va / 4096)) as [[f' w' g']|] eqn:E; [|by exists g; split; [|right]].
    exists g'. destruct (tlb_next_ok s _ _ E) as [E'|E'].
    - destruct (Hco _ E') as [g2 Hg]. rewrite Hm in Hg. injection Hg as -> -> _. by split; [|left].
    - rewrite Hm in E'. injection E' as -> -> ->. by split; [|right]. }
  assert (forall s1, wp_bit s1 = wp_bit s -> allowed s1 wr (mkTlb f w g') = true) as Hal.
  { intros s1 E1. unfold allowed. rewrite E1. cbn [te_write]. destruct wr; [|done].
    destruct (Hw eq_refl) as [-> | ->]; [done|]. by rewrite orb_true_r. }
  rewrite Hal by done. cbn [te_frame]. split; [done|]. split; cbn; [done| |done|done].
  intros p e. cbn. destruct (decide (p = va / 4096)) as [->|Hne].
  - rewrite lookup_insert_eq. intros [= <-]. done.
  - rewrite lookup_insert_ne by done. apply tlb_next_ok.
Qed.

Lemma wp_vload n va f w s v :
  va mod 4096 + Z.of_nat n <= 4096 -> coherent s (va / 4096) -> maps_to s (va / 4096) f w ->
  load n (f + va mod 4096) (pmem s) = Done (v, pmem s) ->
  wp (vload n va) (fun r s' => r = Some v /\ after_access s s' (fun m => m = pmem s)) s.
Proof.
  intros Hn Hco Hm Hl. unfold vload.
  replace (4096 <? va mod 4096 + Z.of_nat n) with false by (symmetry; apply Z.ltb_ge; lia).
  apply wp_bind. eapply wp_mono; [eapply wp_translate; [done|exact Hm|discriminate]|].
  intros r s' [-> [HR HT HM HI]]. unfold wp, mbind, M_bind, lift_pmem. rewrite HM, Hl.
  split; [done|]. split; [by destruct HR|exact HT|done|done].
Qed.

Lemma wp_vstore n va v f w s (upd : mem -> Prop) :
  va mod 4096 + Z.of_nat n <= 4096 -> coherent s (va / 4096) -> maps_to s (va / 4096) f w ->
  w = true \/ wp_bit s = false ->
  (exists m', store n (f + va mod 4096) v (pmem s) = Done (tt, m') /\ upd m') ->
  wp (vstore n va v) (fun r s' => r = Some tt /\ after_access s s' upd) s.
Proof.
  intros Hn Hco Hm Hw (m' & Hs & Hu). unfold vstore.
  replace (4096 <? va mod 4096 + Z.of_nat n) with false by (symmetry; apply Z.ltb_ge; lia).
  apply wp_bind. eapply wp_mono; [by eapply wp_translate|].
  intros r s' [-> [HR HT HM HI]]. unfold wp, mbind, M_bind, lift_pmem. rewrite HM, Hs.
  split; [done|]. split; [by destruct HR|exact HT|done|done].
Qed.
End Rules.

(** ** Stores to page tables *)

Lemma walk_slots_slot read cr va a : a ∈ walk_slots read cr va -> slot a.
Proof.
  assert (forall e i, 0 <= i < 512 -> slot (pte_base 12 e + 8 * i)) as Hs.
  { intros e i Hi. apply page_slot; [|done]. unfold page, pte_base.
    pose proof (Z.mod_pos_bound e (2 ^ 52) ltac:(done)).
    pose proof (Z.div_mod (e mod 2 ^ 52) (2 ^ 12) ltac:(done)).
    pose proof (Z.mod_pos_bound (e mod 2 ^ 52) (2 ^ 12) ltac:(done)).
    change 4096 with (2 ^ 12). split_and!; [lia|by rewrite Z.mod_mul|].
    change (2 ^ 52) with (2 ^ 40 * 2 ^ 12) in *. nia. }
  assert (forall x m n, 0 < n -> m = 512 * n -> 0 <= (x mod m) / n < 512) as Hi.
  { intros x m n Hn ->. pose proof (Z.mod_pos_bound x (512 * n) ltac:(lia)).
    split; [apply Z.div_pos; lia|apply Z.div_lt_upper_bound; lia]. }
  unfold walk_slots. intros Ha.
  apply elem_of_cons in Ha as [->|Ha]; [by apply Hs, Hi|].
  destruct (entry _ _ _) as [e4|]; [|by apply elem_of_nil in Ha].
  apply elem_of_cons in Ha as [->|Ha]; [by apply Hs, Hi|].
  destruct (entry _ _ _) as [e3|]; [|by apply elem_of_nil in Ha].
  destruct (pte_huge e3); [by apply elem_of_nil in Ha|].
  apply elem_of_cons in Ha as [->|Ha]; [by apply Hs, Hi|].
  destruct (entry _ _ _) as [e2|]; [|by apply elem_of_nil in Ha].
  destruct (pte_huge e2); [by apply elem_of_nil in Ha|].
  apply list_elem_of_singleton in Ha as ->. by apply Hs, Hi.
Qed.

(** The state after a store inside the physical slot [a], and after an 8-byte store
    of [v] to it. *)
Record touched (s s' : core) (a : Z) : Prop := {
  st_regs : same_regs s s';
  st_tlb : tlb_from s s';
  st_mem : slot_update (pmem s) (pmem s') (fun b => b = a);
  st_io : console s' = console s /\ stdin s' = stdin s
}.

Record stored (s s' : core) (a v : Z) : Prop := {
  st_touched : touched s s' a;
  st_value : read64 (pmem s') a = Some v
}.
#[global] Coercion st_touched : stored >-> touched.

Lemma stored_read s s' a b : touched s s' a -> slot b -> b <> a -> read64 (pmem s') b = read64 (pmem s) b.
Proof. intros H Hb Hn. by apply (su_read _ _ _ (st_mem _ _ _ H)). Qed.

Lemma stored_current s s' a p :
  touched s s' a -> a ∉ page_slots s p ->
  current s' p = current s p /\ page_slots s' p = page_slots s p.
Proof.
  intros Hst Ha. apply current_agree; [apply Hst..|]. intros b Hb.
  apply (stored_read _ _ _ _ Hst); [by eapply walk_slots_slot|congruence].
Qed.

Lemma stored_coherent s s' a p :
  touched s s' a -> a ∉ page_slots s p -> coherent s p -> coherent s' p.
Proof.
  intros Hst Ha. apply coherent_unchanged; [apply Hst|by apply (stored_current _ _ _ _ Hst)].
Qed.

Lemma stored_coherent_absent s s' a x p :
  touched s s' a -> read64 (pmem s) a = Some x -> pte_present x = false ->
  coherent s p -> coherent s' p.
Proof.
  intros Hst Hx Hp. apply (coherent_absent s s' a x); [apply Hst..|done|done|].
  intros b. apply walk_slots_slot.
Qed.

(** A step that changed neither memory nor registers. *)
Record quiet (s s' : core) : Prop := {
  qu_regs : same_regs s s';
  qu_tlb : tlb_from s s';
  qu_mem : pmem s' = pmem s
}.

Lemma quiet_current s s' p :
  quiet s s' ->
  current s' p = current s p /\ page_slots s' p = page_slots s p /\ (coherent s p -> coherent s' p).
Proof.
  intros [HR HT HM].
  assert (current s' p = current s p /\ page_slots s' p = page_slots s p) as [E1 E2].
  { apply current_agree; [apply HR..|]. intros a _. by rewrite HM. }
  split_and!; [done|done|by apply coherent_unchanged].
Qed.

Lemma quiet_trans s1 s2 s3 : quiet s1 s2 -> quiet s2 s3 -> quiet s1 s3.
Proof.
  intros Q1 Q2. split; [etrans; [apply Q1|apply Q2]| |by rewrite (qu_mem _ _ Q2), (qu_mem _ _ Q1)].
  intros p e He. destruct (qu_tlb _ _ Q2 _ _ He) as [E|E]; [by apply (qu_tlb _ _ Q1)|].
  right. by destruct (quiet_current _ _ p Q1) as (<- & _).
Qed.

Lemma loaded_quiet s s' : after_access s s' (fun m => m = pmem s) -> quiet s s'.
Proof. by intros [HR HT HM _]. Qed.

(** ** A linearly mapped window

    The pages [lo, hi) are mapped to physical memory at a fixed distance, and the
    table entries this depends on are among the slots [T].  A program that stores
    outside [T] keeps its window. *)
Record window (s : core) (lo hi off : Z) (T : Z -> Prop) : Prop := {
  wi_maps : forall p, lo <= p < hi -> maps_to s p (p * 4096 + off) true;
  wi_coherent : forall p, lo <= p < hi -> coherent s p;
  wi_slots : forall p a, lo <= p < hi -> a ∈ page_slots s p -> T a;
  wi_mem : forall p, lo <= p < hi -> mapped (pmem s) (p * 4096 + off) 4096
}.

Lemma window_stored s s' lo hi off T a :
  touched s s' a -> ~ T a -> window s lo hi off T -> window s' lo hi off T.
Proof.
  intros Hst Ha [Hm Hc Hs Hw].
  assert (forall p, lo <= p < hi -> a ∉ page_slots s p) as Hn by (intros p Hp Hin; eauto).
  split.
  - intros p Hp. destruct (Hm p Hp) as [g Hg]. exists g.
    destruct (stored_current _ _ _ p Hst (Hn p Hp)) as [-> _]. done.
  - intros p Hp. apply (stored_coherent _ _ _ _ Hst); [by apply Hn|by apply Hc].
  - intros p b Hp. destruct (stored_current _ _ _ p Hst (Hn p Hp)) as [_ ->]. by apply Hs.
  - intros p Hp. eapply mapped_agree; [|by apply Hw]. apply Hst.
Qed.

Lemma window_quiet s s' lo hi off T :
  quiet s s' -> window s lo hi off T -> window s' lo hi off T.
Proof.
  intros Ha [Hm Hc Hs Hw]. split; intros p.
  - intros Hp. destruct (Hm p Hp) as [g Hg]. exists g.
    destruct (quiet_current _ _ p Ha) as (-> & _). done.
  - intros Hp. destruct (quiet_current _ _ p Ha) as (_ & _ & Hx). auto.
  - intros a Hp. destruct (quiet_current _ _ p Ha) as (_ & -> & _). by apply Hs.
  - intros Hp. rewrite (qu_mem _ _ Ha). auto.
Qed.

(** An empty cache. *)
Lemma fresh_coherent s p : tlb s = ∅ -> coherent s p.
Proof. intros E e He. by rewrite E, lookup_empty in He. Qed.

(** Console, input and invalidation. *)
Lemma quiet_io s c i : quiet s (set_io c i s).
Proof. split; [done| |done]. intros p e He. by left. Qed.

Lemma quiet_invlpg s va :
  quiet s (set_tlb (delete (va / 4096) (tlb s)) s) /\
  coherent (set_tlb (delete (va / 4096) (tlb s)) s) (va / 4096).
Proof.
  split; [split; [done| |done]|].
  - intros p e He. left. cbn in He. by apply lookup_delete_Some in He as [_ He].
  - intros e He. cbn in He. by rewrite lookup_delete_eq in He.
Qed.

(** ** Rules for the program's accesses *)

Section Programs.
Context `{TlbPolicy}.

Lemma word_in_page va : va mod 8 = 0 -> va mod 4096 + 8 <= 4096.
Proof.
  intros Hm. assert ((va mod 4096) mod 8 = 0) as E.
  { rewrite <- Hm. apply Z.mod_mod_divide. by exists 512. }
  pose proof (Z.mod_pos_bound va 4096 ltac:(done)).
  pose proof (Z.div_mod (va mod 4096) 8 ltac:(done)). lia.
Qed.

Lemma wp_no_fault {A} (c : M core (option A)) Q s :
  wp (no_fault c) Q s -> wp c (fun r s' => exists a, r = Some a /\ Q a s') s.
Proof.
  unfold wp, no_fault, mbind, M_bind. destruct (c s) as [[[a|] s1]|f]; [|done..]. intros HQ. by exists a.
Qed.

Lemma wp_load64 va f w v s :
  va mod 8 = 0 -> coherent s (va / 4096) -> maps_to s (va / 4096) f w ->
  read64 (pmem s) (f + va mod 4096) = Some v ->
  wp (load64 va) (fun r s' => r = v /\ after_access s s' (fun m => m = pmem s)) s.
Proof.
  intros H8 Hco Hm Hr. unfold load64, no_fault. apply wp_bind.
  eapply wp_mono; [eapply (wp_vload 8); [by apply word_in_page|done|exact Hm|]|].
  - unfold read64 in Hr. unfold load. destruct (read_bytes _ _ _); [|done]. by injection Hr as ->.
  - intros r s' [-> Ha]. by split.
Qed.

Lemma wp_store64 va f w v s :
  va mod 8 = 0 -> coherent s (va / 4096) -> maps_to s (va / 4096) f w ->
  w = true \/ wp_bit s = false -> slot (f + va mod 4096) -> mapped (pmem s) (f + va mod 4096) 8 ->
  0 <= v < 2 ^ 64 ->
  wp (store64 va v) (fun _ s' => stored s s' (f + va mod 4096) v) s.
Proof.
  intros H8 Hco Hm Hw Hs Hmem Hv. unfold store64, no_fault. apply wp_bind.
  eapply wp_mono.
  - eapply (wp_vstore 8 va v f w s (fun m' => read64 m' (f + va mod 4096) = Some v /\
      slot_update (pmem s) m' (fun b => b = f + va mod 4096))); [by apply word_in_page|done..|].
    destruct (store64_slot (pmem s) (f + va mod 4096) v) as (m' & E & Hr & Hu); [done..|].
    eauto.
  - intros r s' [-> [HR HT [HM1 HM2] HI]]. apply wp_ret. by split.
Qed.

Section Window.
Context (lo hi off : Z) (T : Z -> Prop).

Lemma window_page s va :
  window s lo hi off T -> lo * 4096 <= va < hi * 4096 ->
  lo <= va / 4096 < hi /\ va / 4096 * 4096 + off + va mod 4096 = va + off.
Proof.
  intros Hw Hva. pose proof (Z.div_mod va 4096 ltac:(done)). split; [|lia].
  split; [apply Z.div_le_lower_bound|apply Z.div_lt_upper_bound]; lia.
Qed.

Lemma wp_store64_window s va v :
  window s lo hi off T -> lo * 4096 <= va < hi * 4096 -> va mod 8 = 0 -> slot (va + off) ->
  0 <= v < 2 ^ 64 ->
  wp (store64 va v) (fun _ s' => stored s s' (va + off) v) s.
Proof.
  intros Hw Hva H8 Hs Hv. destruct (window_page s va Hw Hva) as [Hp E].
  rewrite <- E. apply (wp_store64 va _ true); [done|by apply Hw|by apply Hw|by left| | |done].
  - by rewrite E.
  - eapply mapped_sub; [| |by apply Hw].
    + pose proof (Z.mod_pos_bound va 4096 ltac:(done)). lia.
    + pose proof (word_in_page va H8). lia.
Qed.

Lemma wp_load64_window s va v :
  window s lo hi off T -> lo * 4096 <= va < hi * 4096 -> va mod 8 = 0 ->
  read64 (pmem s) (va + off) = Some v ->
  wp (load64 va) (fun r s' => r = v /\ after_access s s' (fun m => m = pmem s)) s.
Proof.
  intros Hw Hva H8 Hr. destruct (window_page s va Hw Hva) as [Hp E].
  eapply wp_load64; [done|by apply Hw|by apply Hw|]. by rewrite E.
Qed.
End Window.
End Programs.

(** ** A 2 MB area mapped by one page table

    [v] is its first page number; the tables [p3], [p2] and [pt] are linked with
    present, writable entries. *)
Definition area_slots (s : core) (v p3 p2 : Z) : list Z :=
  [ pte_base 12 (cr3 s) + 8 * pml4_index (v * 4096); p3 + 8 * pdpt_index (v * 4096);
    p2 + 8 * pd_index (v * 4096) ].

Record area (s : core) (v p3 p2 pt : Z) : Prop := {
  ar_align : 0 <= v /\ v mod 512 = 0;
  ar_pages : page p3 /\ page p2 /\ page pt;
  ar_pml4 : read64 (pmem s) (pte_base 12 (cr3 s) + 8 * pml4_index (v * 4096)) = Some (p3 + 7);
  ar_pdpt : read64 (pmem s) (p3 + 8 * pdpt_index (v * 4096)) = Some (p2 + 7);
  ar_pd : read64 (pmem s) (p2 + 8 * pd_index (v * 4096)) = Some (pt + 7)
}.

(** What the entry [r] of the page table makes of its page. *)
Definition pte_entry (g : bool) (r : option Z) : option tlb_entry :=
  match r with
  | Some e => if pte_present e then Some (mkTlb (pte_base 12 e) (pte_write e) (g && Z.testbit e 8))
              else None
  | None => None
  end.

Lemma index_same v i :
  0 <= v -> v mod 512 = 0 -> 0 <= i < 512 ->
  pml4_index ((v + i) * 4096) = pml4_index (v * 4096) /\
  pdpt_index ((v + i) * 4096) = pdpt_index (v * 4096) /\
  pd_index ((v + i) * 4096) = pd_index (v * 4096) /\
  pt_index ((v + i) * 4096) = i /\ ((v + i) * 4096) mod k4KB = 0.
Proof.
  intros H0 Hm Hi. pose proof (Z.div_mod v 512 ltac:(done)) as Ev. rewrite Hm in Ev.
  set (u := v / 512) in *. assert ((v + i) * 4096 = u * k2MB + i * 4096) as -> by (unfold k2MB; lia).
  assert (v * 4096 = u * k2MB) as -> by (unfold k2MB; lia).
  assert (forall n m, 0 < n -> m = n * k2MB -> forall x, 0 <= x < k2MB ->
    (u * k2MB + x) mod m = (u mod n) * k2MB + x) as Hmod.
  { intros n m Hn -> x Hx. symmetry. apply (Z.mod_unique_pos _ _ (u / n)).
    - pose proof (Z.mod_pos_bound u n Hn). unfold k2MB in *. nia.
    - pose proof (Z.div_mod u n ltac:(lia)). unfold k2MB in *. nia. }
  assert (forall d, 0 < d -> forall y x, 0 <= x < k2MB -> (y * k2MB + x) / (d * k2MB) = y / d) as Hdiv.
  { intros d Hd y x Hx. rewrite (Z.mul_comm d), <- Z.div_div by (unfold k2MB; lia).
    f_equal. rewrite Z.div_add_l, Z.div_small by (unfold k2MB in *; lia). lia. }
  assert (forall n m d D x, 0 < n -> 0 < d -> m = n * k2MB -> D = d * k2MB -> 0 <= x < k2MB ->
    ((u * k2MB + x) mod m) / D = (u mod n) / d) as Hix.
  { intros n m d D x Hn Hd -> -> Hx. rewrite (Hmod n) by done. by apply Hdiv. }
  assert (0 <= i * 4096 < k2MB) as Hx by (unfold k2MB; lia).
  assert (forall n m d D, 0 < n -> 0 < d -> m = n * k2MB -> D = d * k2MB ->
    ((u * k2MB + i * 4096) mod m) / D = ((u * k2MB) mod m) / D) as Hsame.
  { intros n m d D Hn Hd Em ED. rewrite (Hix n m d D (i * 4096)) by done.
    rewrite <- (Z.add_0_r (u * k2MB)) at 1. by rewrite (Hix n m d D 0) by done. }
  unfold pml4_index, pdpt_index, pd_index, pt_index. split_and!.
  - by apply (Hsame (2 ^ 27) _ (2 ^ 18)).
  - by apply (Hsame (2 ^ 18) _ (2 ^ 9)).
  - by apply (Hsame (2 ^ 9) _ 1).
  - rewrite (Hmod 1) by done. rewrite Z.mod_1_r, Z.mul_0_l, Z.add_0_l. unfold k4KB. by rewrite Z.div_mul.
  - unfold k4KB. replace (u * k2MB + i * 4096) with ((u * 512 + i) * 4096) by (unfold k2MB; lia).
    by rewrite Z.mod_mul.
Qed.

Lemma area_walk s v p3 p2 pt i :
  area s v p3 p2 pt -> 0 <= i < 512 ->
  current s (v + i) = pte_entry (pge s) (read64 (pmem s) (pt + 8 * i)) /\
  page_slots s (v + i) = area_slots s v p3 p2 ++ [pt + 8 * i].
Proof.
  intros [[H0 Hm] (P3 & P2 & Pt) E4 E3 E2] Hi.
  destruct (index_same v i H0 Hm Hi) as (I4 & I3 & I2 & I1 & Iz).
  destruct (table_entry_flags p3 7) as (B4 & Q4 & W4 & U4 & G4); [done..|].
  destruct (table_entry_flags p2 7) as (B3 & Q3 & W3 & U3 & G3); [done..|].
  destruct (table_entry_flags pt 7) as (B2 & Q2 & W2 & U2 & G2); [done..|].
  assert (page_slots s (v + i) = area_slots s v p3 p2 ++ [pt + 8 * i]) as Hsl.
  { unfold page_slots, walk_slots. rewrite I4, I3, I2, I1.
    rewrite (entry_set _ _ _ E4 Q4), B4. rewrite (entry_set _ _ _ E3 Q3), B3, G3.
    by rewrite (entry_set _ _ _ E2 Q2), B2, G2. }
  split; [|done]. unfold current, leaf_global.
  change (walk_slots (read64 (pmem s)) (cr3 s) ((v + i) * 4096)) with (page_slots s (v + i)).
  rewrite Hsl, last_snoc. cbn [mbind option_bind]. unfold walk. rewrite I4, I3, I2, I1, Iz.
  rewrite (entry_set _ _ _ E4 Q4). cbn [mbind option_bind].
  rewrite B4, (entry_set _ _ _ E3 Q3). cbn [mbind option_bind].
  rewrite G3, B3, (entry_set _ _ _ E2 Q2). cbn [mbind option_bind].
  rewrite G2, B2, W4, W3, W2. unfold entry, pte_entry.
  destruct (read64 (pmem s) (pt + 8 * i)) as [e|]; [|done]. cbn [mbind option_bind].
  destruct (pte_present e); [|done]. cbn [mbind option_bind t_phys t_write].
  by rewrite Z.add_0_r.
Qed.

Lemma area_stored s s' v p3 p2 pt a :
  touched s s' a -> a ∉ area_slots s v p3 p2 -> area s v p3 p2 pt -> area s' v p3 p2 pt.
Proof.
  intros Hst Ha Har. pose proof (area_walk _ _ _ _ _ 0 Har ltac:(lia)) as [_ Hsl].
  assert (forall b, b ∈ area_slots s v p3 p2 -> read64 (pmem s') b = read64 (pmem s) b) as Hr.
  { intros b Hb. apply (stored_read _ _ _ _ Hst); [|congruence].
    apply (walk_slots_slot (read64 (pmem s)) (cr3 s) ((v + 0) * 4096)).
    change (b ∈ page_slots s (v + 0)). rewrite Hsl. by apply elem_of_app; left. }
  destruct Har as [Hal Hp E4 E3 E2]. unfold area_slots in Hr.
  pose proof (sr_cr3 _ _ (st_regs _ _ _ Hst)) as Ec.
  split; [done|done|rewrite Ec|..]; rewrite Hr; set_solver.
Qed.

Lemma area_quiet s s' v p3 p2 pt : quiet s s' -> area s v p3 p2 pt -> area s' v p3 p2 pt.
Proof.
  intros [HR _ HM] [Hal Hp E4 E3 E2]. split; [done|done|rewrite (sr_cr3 _ _ HR)|..]; by rewrite HM.
Qed.

(** ** A program and one of its page tables

    The program runs in a window and has a page table at [pt] in it that maps the
    area [v]; [f] is the contents of the page table. *)
Section PageTable.
Context (lo hi off : Z) (T : Z -> Prop) (v p3 p2 pt : Z).

Record linked (s : core) (f : Z -> Z) : Prop := {
  lk_window : window s lo hi off T;
  lk_area : area s v p3 p2 (pt + off);
  lk_pt : forall i, 0 <= i < 512 -> read64 (pmem s) (pt + off + 8 * i) = Some (f i);
  lk_inside : off mod 4096 = 0 /\ page pt /\ lo * 4096 <= pt /\ pt + 4096 <= hi * 4096;
  lk_own : forall i, 0 <= i < 512 -> ~ T (pt + off + 8 * i) /\
             pt + off + 8 * i ∉ area_slots s v p3 p2
}.

(** The function [f] with the value at [i] changed. *)
Definition upd (f : Z -> Z) (i x : Z) : Z -> Z := fun j => if decide (j = i) then x else f j.

Lemma upd_eq f i x : upd f i x i = x.
Proof. unfold upd. by rewrite decide_True. Qed.
Lemma upd_ne f i j x : j <> i -> upd f i x j = f j.
Proof. intros. unfold upd. by rewrite decide_False. Qed.

Lemma linked_current s f i :
  linked s f -> 0 <= i < 512 -> current s (v + i) = pte_entry (pge s) (Some (f i)).
Proof.
  intros Hl Hi. destruct (area_walk _ _ _ _ _ i (lk_area _ _ Hl) Hi) as [-> _].
  by rewrite (lk_pt _ _ Hl).
Qed.

Lemma linked_quiet s s' f : quiet s s' -> linked s f -> linked s' f.
Proof.
  intros Hq [Hw Ha Hp Hi Ho]. split; [by eapply window_quiet|by eapply area_quiet| |done|].
  - intros i Hx. rewrite (qu_mem _ _ Hq). auto.
  - intros i Hx. unfold area_slots. rewrite (sr_cr3 _ _ (qu_regs _ _ Hq)). by apply Ho.
Qed.

(** A store to another slot. *)
Lemma linked_stored s s' f a :
  touched s s' a -> ~ T a -> a ∉ area_slots s v p3 p2 ->
  (forall i, 0 <= i < 512 -> a <> pt + off + 8 * i) -> linked s f -> linked s' f.
Proof.
  intros Hst HT Ha Hn [Hw Har Hp Hi Ho].
  split; [by eapply window_stored|by eapply area_stored| |done|].
  - intros i Hx. rewrite (stored_read _ _ _ _ Hst); [by apply Hp| |by apply not_eq_sym, Hn].
    apply page_slot; [|done]. apply Har.
  - intros i Hx. unfold area_slots. rewrite (sr_cr3 _ _ (st_regs _ _ _ Hst)). by apply Ho.
Qed.

Lemma linked_update s s' f i x :
  stored s s' (pt + off + 8 * i) x -> 0 <= i < 512 -> linked s f ->
  linked s' (upd f i x) /\
  forall j, 0 <= j < 512 -> j <> i \/ pte_present (f i) = false ->
    coherent s (v + j) -> coherent s' (v + j).
Proof.
  intros Hst Hi Hl. pose proof Hl as [Hw Har Hp Hin Ho]. destruct (Ho i Hi) as [HT Ha].
  assert (page (pt + off)) as Hpp by apply Har. split.
  - split; [eapply window_stored; [exact Hst|done|done]|eapply area_stored; [exact Hst|done|done]| |done|].
    + intros j Hj. destruct (decide (j = i)) as [->|Hne].
      * rewrite upd_eq. apply Hst.
      * rewrite upd_ne by done. rewrite <- (Hp j Hj).
        apply (stored_read _ _ _ _ Hst); [by apply page_slot|]. lia.
    + intros j Hj. unfold area_slots. rewrite (sr_cr3 _ _ (st_regs _ _ _ Hst)). by apply Ho.
  - intros j Hj [Hne|Habs].
    + apply (stored_coherent _ _ _ _ Hst).
      destruct (area_walk _ _ _ _ _ j Har Hj) as [_ ->].
      rewrite elem_of_app, list_elem_of_singleton. intros [Hx|Hx]; [done|]. lia.
    + by apply (stored_coherent_absent _ _ _ _ _ Hst (Hp i Hi)).
Qed.

Section Rules.
Context `{TlbPolicy}.

Lemma wp_put_entry s f i x :
  linked s f -> 0 <= i < 512 -> 0 <= x < 2 ^ 64 ->
  wp (put_entry pt i x) (fun _ s' => stored s s' (pt + off + 8 * i) x) s.
Proof.
  intros [Hw Har Hp (Hoff & Ppt & Hlo & Hhi) Ho] Hi Hx. unfold put_entry.
  replace (pt + off + 8 * i) with (pt + 8 * i + off) by lia.
  destruct (page_slot pt i Ppt Hi) as (_ & H8 & _).
  eapply wp_store64_window; [done|lia|done| |done].
  replace (pt + 8 * i + off) with (pt + off + 8 * i) by lia. apply page_slot; [apply Har|done].
Qed.

(** A load from a page of the area. *)
Lemma wp_load64_area s f i k b x :
  linked s f -> 0 <= i < 512 -> coherent s (v + i) -> 0 <= k < 4096 -> k mod 8 = 0 ->
  pte_present (f i) = true -> pte_base 12 (f i) = b ->
  read64 (pmem s) (b + k) = Some x ->
  wp (load64 ((v + i) * 4096 + k)) (fun r s' => r = x /\ after_access s s' (fun m => m = pmem s)) s.
Proof.
  intros Hl Hi Hco Hk H8 Hp Hb Hr. pose proof (linked_current _ _ _ Hl Hi) as Hc.
  unfold pte_entry in Hc. rewrite Hp, Hb in Hc.
  assert (((v + i) * 4096 + k) / 4096 = v + i) as Ed.
  { rewrite Z.div_add_l, Z.div_small by lia. lia. }
  assert (((v + i) * 4096 + k) mod 4096 = k) as Em.
  { rewrite Z.add_comm, Z.mod_add, Z.mod_small by lia. done. }
  eapply wp_load64; rewrite ?Ed, ?Em; [|done|by eexists|done].
  replace ((v + i) * 4096 + k) with (k + (v + i) * 512 * 8) by lia. by rewrite Z.mod_add.
Qed.
End Rules.
End PageTable.

(** ** A 2 MB page *)

Record huge_page (s : core) (v p3 p2 e b : Z) : Prop := {
  hp_align : 0 <= v /\ v mod 512 = 0;
  hp_pages : page p3 /\ page p2;
  hp_pml4 : read64 (pmem s) (pte_base 12 (cr3 s) + 8 * pml4_index (v * 4096)) = Some (p3 + 7);
  hp_pdpt : read64 (pmem s) (p3 + 8 * pdpt_index (v * 4096)) = Some (p2 + 7);
  hp_pd : read64 (pmem s) (p2 + 8 * pd_index (v * 4096)) = Some e;
  hp_entry : pte_present e = true /\ pte_write e = true /\ pte_huge e = true /\ pte_base 21 e = b
}.

Lemma huge_walk s v p3 p2 e b i :
  huge_page s v p3 p2 e b -> 0 <= i < 512 ->
  maps_to s (v + i) (b + i * 4096) true /\ page_slots s (v + i) = area_slots s v p3 p2.
Proof.
  intros [[H0 Hm] (P3 & P2) E4 E3 E2 (Ep & Ew & Eh & Eb)] Hi.
  destruct (index_same v i H0 Hm Hi) as (I4 & I3 & I2 & I1 & _).
  destruct (table_entry_flags p3 7) as (B4 & Q4 & W4 & U4 & G4); [done..|].
  destruct (table_entry_flags p2 7) as (B3 & Q3 & W3 & U3 & G3); [done..|].
  assert (((v + i) * 4096) mod k2MB = i * 4096) as Em.
  { pose proof (Z.div_mod v 512 ltac:(done)) as Ev. symmetry.
    apply (Z.mod_unique_pos _ _ (v / 512)); unfold k2MB; lia. }
  split.
  - unfold maps_to, current, walk. rewrite I4, I3, I2, Em.
    rewrite (entry_set _ _ _ E4 Q4). cbn [mbind option_bind].
    rewrite B4, (entry_set _ _ _ E3 Q3). cbn [mbind option_bind].
    rewrite G3, B3, (entry_set _ _ _ E2 Ep). cbn [mbind option_bind].
    rewrite Eh, W4, W3, Ew, Eb. cbn [andb t_phys t_write]. by eexists.
  - unfold page_slots, walk_slots. rewrite I4, I3, I2.
    rewrite (entry_set _ _ _ E4 Q4), B4. rewrite (entry_set _ _ _ E3 Q3), B3, G3.
    by rewrite (entry_set _ _ _ E2 Ep), Eh.
Qed.

(** ** Stores and loads of smaller integers *)

Definition word (n : nat) (m : mem) (a : Z) : option Z := le_value <$> read_bytes m a n.

(** The state after a store of [n] bytes at the physical address [a]. *)
Record written (s s' : core) (n : nat) (a v : Z) : Prop := {
  wr_touched : touched s s' (a / 8 * 8);
  wr_word : word n (pmem s') a = Some (v mod 2 ^ (8 * Z.of_nat n));
  wr_other : forall x, ~ (a <= x < a + Z.of_nat n) -> pmem s' !! x = pmem s !! x
}.

(** A word of another place. *)
Lemma written_word s s' n a v k b :
  written s s' n a v -> 0 <= b -> b + Z.of_nat k <= 2 ^ 64 ->
  b + Z.of_nat k <= a \/ a + Z.of_nat n <= b ->
  word k (pmem s') b = word k (pmem s) b.
Proof.
  intros [_ _ Ho] Hb Hk Hd. unfold word. rewrite (read_bytes_agree (pmem s) (pmem s')); [done|lia..|].
  intros x Hx. apply Ho. lia.
Qed.

Lemma aligned_in_slot n a : 0 < n -> (n | 8) -> a mod n = 0 -> a / 8 * 8 <= a /\ a + n <= a / 8 * 8 + 8.
Proof.
  intros Hn [q Hq] Ha. pose proof (Z.div_mod a 8 ltac:(done)). pose proof (Z.mod_pos_bound a 8 ltac:(done)).
  split; [lia|]. assert ((a mod 8) mod n = 0) as E.
  { rewrite <- Ha. apply Z.mod_mod_divide. by exists q. }
  pose proof (Z.div_mod (a mod 8) n ltac:(lia)) as Ek. set (k := a mod 8 / n) in *.
  assert (k < q) by nia. assert (n * (k + 1) <= n * q) by nia. lia.
Qed.

Lemma wp_write_window `{TlbPolicy} lo hi off T n va v s :
  window s lo hi off T -> lo * 4096 <= va < hi * 4096 ->
  (0 < n)%nat -> (Z.of_nat n | 8) -> va mod Z.of_nat n = 0 -> off mod 4096 = 0 ->
  0 <= va + off -> va + off + 8 <= 2 ^ 64 ->
  wp (no_fault (vstore n va v)) (fun _ s' => written s s' n (va + off) v) s.
Proof.
  intros Hw Hva Hn Hd Ha Ho H0 H64.
  destruct (window_page lo hi off T s va Hw Hva) as [Hp E]. unfold no_fault. apply wp_bind.
  assert ((4096 | off)) as Hoff by (by apply Z.mod_divide).
  assert ((va + off) mod Z.of_nat n = 0) as Ha'.
  { destruct Hd as [q Hq], Hoff as [r Hr]. rewrite Hr.
    replace (r * 4096) with (r * 512 * (q * Z.of_nat n)) by (rewrite <- Hq; lia).
    rewrite Z.mul_assoc. by rewrite Z.mod_add by lia. }
  destruct (aligned_in_slot (Z.of_nat n) (va + off)) as [L1 L2]; [lia|done|done|].
  pose proof (Z.mod_pos_bound va 4096 ltac:(done)).
  assert (va mod 4096 + Z.of_nat n <= 4096) as Hpg.
  { assert ((4096 | va - va mod 4096)) as [z Hz]
      by (exists (va / 4096); pose proof (Z.div_mod va 4096 ltac:(done)); lia).
    destruct Hoff as [r Hr].
    pose proof (Z.div_mod (va + off) 8 ltac:(done)). pose proof (Z.mod_pos_bound (va + off) 8 ltac:(done)). lia. }
  eapply wp_mono.
  - eapply (wp_vstore n va v _ true s (fun m' =>
      word n m' (va + off) = Some (v mod 2 ^ (8 * Z.of_nat n)) /\
      slot_update (pmem s) m' (fun b => b = (va + off) / 8 * 8) /\
      forall x, ~ (va + off <= x < va + off + Z.of_nat n) -> m' !! x = pmem s !! x));
      [done|by apply Hw|by apply Hw|by left|]. rewrite E.
    destruct (store_spec n (va + off) v (pmem s)) as (m' & Es & Hout & Hh & Hdom); [done|lia| |].
    { eapply mapped_sub; [| |by apply (wi_mem _ _ _ _ _ Hw)]; lia. }
    exists m'. split_and!; [done| | |done].
    + unfold word. assert (read_bytes m' (va + off) n = Some (le_bytes n v)) as ->.
      { apply read_bytes_lookup; [lia..|]. split; [apply length_le_bytes|done]. }
      cbn. by rewrite le_value_bytes.
    + split; [|done|].
      * intros b Hb Hne. apply read64_agree; [done|]. intros x Hx. apply Hout.
        destruct Hb as (? & Hb8 & ?). pose proof (Z.div_mod b 8 ltac:(done)). lia.
      * intros x Hx. apply Hout. specialize (Hx _ eq_refl). lia.
  - intros r s' [-> [HR HT (HM1 & HM2 & HM3) HI]]. apply wp_ret. by split.
Qed.

Lemma wp_read_window `{TlbPolicy} lo hi off T n va v s :
  window s lo hi off T -> lo * 4096 <= va < hi * 4096 -> va mod 4096 + Z.of_nat n <= 4096 ->
  word n (pmem s) (va + off) = Some v ->
  wp (no_fault (vload n va)) (fun r s' => r = v /\ after_access s s' (fun m => m = pmem s)) s.
Proof.
  intros Hw Hva Hn Hv. destruct (window_page lo hi off T s va Hw Hva) as [Hp E].
  unfold no_fault. apply wp_bind. eapply wp_mono.
  - eapply (wp_vload n); [done|by apply Hw|by apply Hw|]. rewrite E.
    unfold word in Hv. unfold load. destruct (read_bytes _ _ _); [|done]. by injection Hv as ->.
  - intros r s' [-> Ha]. by apply wp_ret.
Qed.

(** ** Loops *)

(** [for (i = lo; i < lo + n; i++) body(i)] *)
Fixpoint for_ (n : nat) (i : Z) (body : Z -> M core unit) : M core unit :=
  match n with
  | O => mret tt
  | S n' => body i;; for_ n' (i + 1) body
  end.

Lemma wp_for (I : Z -> core -> Prop) body n i s :
  (forall j s, i <= j < i + Z.of_nat n -> I j s -> wp (body j) (fun _ => I (j + 1)) s) ->
  I i s -> wp (for_ n i body) (fun _ => I (i + Z.of_nat n)) s.
Proof.
  revert i s. induction n as [|n IH]; intros i s Hb Hi; cbn [for_].
  - apply wp_ret. by rewrite Z.add_0_r.
  - apply wp_bind. eapply wp_mono; [apply Hb; [lia|done]|]. intros [] s1 H1. cbv beta.
    replace (i + Z.of_nat (S n)) with (i + 1 + Z.of_nat n) by lia. apply IH; [|done].
    intros j s2 Hj. apply Hb. lia.
Qed.

(** ** Policies *)

(** A cache that keeps everything it has used, and none at all. *)
Definition keep_all : TlbPolicy.
Proof. refine {| tlb_next := tlb |}. intros s p e He. by left. Defined.

Definition forget_all : TlbPolicy.
Proof. refine {| tlb_next := fun _ => ∅ |}. intros s p e He. by rewrite lookup_empty in He. Defined.

End VirtMem.
