(* ===== verification/FriendVm.v ===== *)
(** * FriendVm: the memory a friend program sees

    The core of [VirtMem] as the trampoline leaves it: CR3 points to the tables of
    [Loader16], the friend region is mapped to itself.  The second part is an example
    machine for the witnesses of the programs. *)

From S2P Require Import Prelude Memory Paging Loader16 VirtMem.
Import Layout VirtMem.

(** ** The friend's view of memory at friend_main *)

(** The table slots the friend region depends on. *)
Definition friend_slots (pdpt pd2 a : Z) : Prop :=
  a = INITIAL_PML4T \/ a = pdpt + 8 * 4 \/ exists j, 0 <= j < 512 /\ a = pd2 + 8 * j.

Record friend_vm (s : core) (pdpt pd2 : Z) : Prop := {
  fv_cr3 : cr3 s = INITIAL_PML4T;
  fv_pml4 : read64 (pmem s) INITIAL_PML4T = Some (pdpt + 7);
  fv_pages : page pdpt /\ page pd2 /\ pdpt <> pd2 /\
             DEPLOY_PHYS_ADDR_START <= pdpt /\ pdpt + 4096 <= DEPLOY_PHYS_ADDR_END;
  fv_window : window s 0x100000 0x140000 0 (friend_slots pdpt pd2)
}.

(** The tables of [Loader16] give it, on a core with nothing stale in its cache. *)
Lemma booted_friend_vm s pdpt pd1 pd2 :
  page pdpt -> page pd1 -> page pd2 -> pdpt <> pd2 ->
  DEPLOY_PHYS_ADDR_START <= pdpt -> pdpt + 4096 <= DEPLOY_PHYS_ADDR_END ->
  boot_tables pdpt pd1 pd2 (read64 (pmem s)) -> cr3 s = INITIAL_PML4T ->
  (forall p, coherent s p) -> mapped (pmem s) DEPLOY_PHYS_ADDR_START DEPLOY_PHYS_MEM_SIZE ->
  friend_vm s pdpt pd2.
Proof.
  intros P3 P1 P2 Hne L3 L2 Hbt E3 Hco Hm.
  assert (read64 (pmem s) INITIAL_PML4T = Some (pdpt + 7)) as E4 by (apply Hbt; by left).
  split; [done|done|done|]. split.
  - intros p Hp. unfold maps_to, current. rewrite E3.
    rewrite (walk_boot_tables pdpt pd1 pd2) by (try done; unfold k512GB; lia).
    unfold boot_translation, in_friend_region, DEPLOY_PHYS_ADDR_START, DEPLOY_PHYS_ADDR_END.
    rewrite decide_True by lia. eexists. cbn. rewrite Z.add_0_r. done.
  - auto.
  - intros p a Hp Ha. unfold page_slots, walk_slots in Ha. rewrite E3 in Ha.
    change (pte_base 12 INITIAL_PML4T) with INITIAL_PML4T in Ha.
    destruct (va_split (p * 4096)) as (I4 & I3 & I2 & Hr & Ev); [unfold k512GB; lia|].
    assert (pdpt_index (p * 4096) = 4) as J3 by (unfold k1GB, k2MB in *; lia).
    rewrite I4, J3 in Ha.
    destruct (table_entry_flags pdpt 7) as (B4 & Q4 & _ & _ & G4); [done..|].
    destruct (table_entry_flags pd2 7) as (B3 & Q3 & _ & _ & G3); [done..|].
    rewrite Z.add_0_r in Ha.
    assert (entry (read64 (pmem s)) INITIAL_PML4T 0 = Some (pdpt + 7)) as F4.
    { by apply entry_set; [rewrite Z.add_0_r|]. }
    assert (entry (read64 (pmem s)) pdpt 4 = Some (pd2 + 7)) as F3.
    { apply entry_set; [|done]. apply Hbt. right. right. by left. }
    rewrite F4, B4, F3, B3, G3 in Ha.
    set (j := pd_index (p * 4096)) in *.
    destruct (huge_entry_flags (DEPLOY_PHYS_ADDR_START + j * k2MB)) as (B2 & Q2 & _ & _ & G2);
      [unfold DEPLOY_PHYS_ADDR_START, k2MB; lia| |unfold DEPLOY_PHYS_ADDR_START, k2MB; lia|].
    { change DEPLOY_PHYS_ADDR_START with (2048 * k2MB). rewrite <- Z.mul_add_distr_r. by rewrite Z.mod_mul. }
    assert (entry (read64 (pmem s)) pd2 j = Some (DEPLOY_PHYS_ADDR_START + j * k2MB + 0x87)) as F2.
    { apply entry_set; [|done]. apply Hbt. do 4 right. by exists j. }
    rewrite F2, G2 in Ha. rewrite !elem_of_cons in Ha.
    destruct Ha as [->|[->|[->|Ha]]]; [by left|by right; left| |by apply elem_of_nil in Ha].
    right. right. by exists j.
  - intros p Hp. eapply mapped_sub; [| |exact Hm];
      unfold DEPLOY_PHYS_ADDR_START, DEPLOY_PHYS_MEM_SIZE, DEPLOY_PHYS_ADDR_START, DEPLOY_PHYS_ADDR_END; lia.
Qed.

(** ** An example machine: a friend region of zeros with the boot tables *)

Definition demo_region : mem :=
  blit (blit ∅ TRAMPOLINE_ADDR (zeros (Z.to_nat TRAMPOLINE_SIZE))) DEPLOY_PHYS_ADDR_START
    (zeros (Z.to_nat DEPLOY_PHYS_MEM_SIZE)).

Definition demo_pdpt : Z := 0x100010000.
Definition demo_pd1 : Z := 0x100011000.
Definition demo_pd2 : Z := 0x100012000.

Definition demo_memory : mem :=
  default ∅ (state_of (InitPageTables demo_pdpt demo_pd1 demo_pd2 INITIAL_PML4T demo_region)).

Definition demo_core (input : list Z) : core :=
  mkCore demo_memory INITIAL_PML4T false true 0 (0, 0) ∅ 0 [] input.

Ltac demo_arith :=
  unfold DEPLOY_PHYS_MEM_SIZE, in_friend_region, in_trampoline, INITIAL_PML4T, TRAMPOLINE_ADDR, TRAMPOLINE_SIZE, PAGE_SIZE,
    demo_pdpt, demo_pd1, demo_pd2, DEPLOY_PHYS_ADDR_START, DEPLOY_PHYS_ADDR_END in *; lia.

Lemma demo_region_zero x :
  in_friend_region x \/ in_trampoline x -> demo_region !! x = Some 0.
Proof.
  intros Hx. unfold demo_region, zeros. rewrite blit_lookup.
  rewrite length_replicate, Z2Nat.id by done. destruct (decide _) as [Hin|Hout].
  - apply lookup_replicate. split; [done|]. apply Z2Nat.inj_lt; demo_arith.
  - rewrite blit_lookup, length_replicate, Z2Nat.id by done. rewrite decide_True by demo_arith.
    apply lookup_replicate. split; [done|]. apply Z2Nat.inj_lt; demo_arith.
Qed.

#[global] Opaque demo_region.

Lemma demo_tables_ok : tables_ok demo_pdpt demo_pd1 demo_pd2 demo_region INITIAL_PML4T.
Proof.
  split.
  - split_and!; by vm_compute.
  - apply (bool_decide_unpack (NoDup [INITIAL_PML4T; demo_pdpt; demo_pd1; demo_pd2])). by vm_compute.
  - intros p Hp x Hx. rewrite demo_region_zero; [done|].
    rewrite !elem_of_cons, elem_of_nil in Hp.
    unfold DEPLOY_PHYS_MEM_SIZE, in_friend_region, in_trampoline, INITIAL_PML4T, TRAMPOLINE_ADDR, TRAMPOLINE_SIZE, PAGE_SIZE,
      demo_pdpt, demo_pd1, demo_pd2, DEPLOY_PHYS_ADDR_START, DEPLOY_PHYS_ADDR_END in *.
    destruct Hp as [->|[->|[->|[->|[]]]]]; lia.
Qed.

Lemma demo_memory_spec :
  (forall a v, table_entries demo_pdpt demo_pd1 demo_pd2 INITIAL_PML4T a v -> read64 demo_memory a = Some v) /\
  slot_update demo_region demo_memory
    (fun a => exists v, table_entries demo_pdpt demo_pd1 demo_pd2 INITIAL_PML4T a v).
Proof.
  destruct (InitPageTables_spec _ _ _ _ _ demo_tables_ok) as (m' & E & H1 & H2).
  unfold demo_memory. rewrite E. exact (conj H1 H2).
Qed.

#[global] Opaque demo_memory.

(** A slot of the region that is no table entry. *)
Lemma demo_zero a :
  slot a -> in_friend_region a -> in_friend_region (a + 7) ->
  ~ (exists v, table_entries demo_pdpt demo_pd1 demo_pd2 INITIAL_PML4T a v) ->
  read64 demo_memory a = Some 0.
Proof.
  intros Ha H1 H2 Hn. destruct demo_memory_spec as [_ Hu]. rewrite (su_read _ _ _ Hu a Ha Hn).
  apply read64_zero; [done|]. intros x Hx. apply demo_region_zero. left. unfold in_friend_region in *. lia.
Qed.

Lemma demo_entry_page a v :
  table_entries demo_pdpt demo_pd1 demo_pd2 INITIAL_PML4T a v ->
  a = INITIAL_PML4T \/ a = demo_pdpt \/ a = demo_pdpt + 32 \/ a = demo_pd1 \/
  demo_pd2 <= a < demo_pd2 + 4096.
Proof.
  intros [[-> _]|[[-> _]|[[-> _]|[[-> _]|(j & Hj & -> & _)]]]]; [tauto..|].
  do 4 right. unfold demo_pd2. lia.
Qed.

Lemma demo_zero_at p i :
  page p -> 0 <= i < 512 -> in_friend_region p -> in_friend_region (p + 4095) ->
  p <> demo_pd2 -> (p = demo_pdpt -> i <> 0 /\ i <> 4) -> (p = demo_pd1 -> i <> 0) ->
  read64 demo_memory (p + 8 * i) = Some 0.
Proof.
  intros Pp Hi H1 H2 N2 N3 N1. apply demo_zero; [by apply page_slot|demo_arith|demo_arith|].
  intros (v & Hv). apply demo_entry_page in Hv.
  assert (p mod 4096 = 0) as Hm by apply Pp. pose proof (Z.div_mod p 4096 ltac:(done)).
  assert (page demo_pd2) as P2 by (by vm_compute). demo_arith.
Qed.

Lemma demo_boot_tables : boot_tables demo_pdpt demo_pd1 demo_pd2 (read64 demo_memory).
Proof.
  split; [apply demo_memory_spec|..].
  - intros i Hi H0 H4. apply demo_zero_at; [by vm_compute|done|by vm_compute|by vm_compute|done|done|done].
  - intros i Hi H0. apply demo_zero_at; [by vm_compute|done|by vm_compute|by vm_compute|done|done|done].
Qed.

Lemma demo_friend_vm input : friend_vm (demo_core input) demo_pdpt demo_pd2.
Proof.
  apply (booted_friend_vm _ _ demo_pd1);
    [by vm_compute|by vm_compute|by vm_compute|done|done|done|exact demo_boot_tables|reflexivity| |].
  - intros p. by apply fresh_coherent.
  - eapply mapped_agree; [apply demo_memory_spec|]. intros x Hx. rewrite demo_region_zero; [done|].
    left. demo_arith.
Qed.
