(* ===== verification/Idt.v ===== *)
(** * Idt: interrupt handlers of the tutorial programs

    setup_inthandler of tutorial/interrupt/{jump,exception_recovery} and of
    tutorial/paging/{pagefault,copy_on_write} fills one gate of the interrupt
    descriptor table and the operand of lidt.  The model stores the words as the code
    does; [deliver] is what the processor does with the table when it raises an
    exception.  The frame it pushes on the stack is not modelled. *)

From S2P Require Import Prelude Memory Paging VirtMem.
Import VirtMem.

(** ** Lists of stores in a window mapped to itself *)

Record store_op := mkStore { so_size : nat; so_addr : Z; so_value : Z }.

Section Stores.
Context `{TlbPolicy}.

Fixpoint stores (l : list store_op) : M core unit :=
  match l with
  | [] => mret tt
  | o :: l' => no_fault (vstore (so_size o) (so_addr o) (so_value o));; stores l'
  end.
End Stores.

Definition so_slot (o : store_op) : Z := so_addr o / 8 * 8.
Definition so_end (o : store_op) : Z := so_addr o + Z.of_nat (so_size o).
Definition apart (o o' : store_op) : Prop := so_end o <= so_addr o' \/ so_end o' <= so_addr o.

(** The store [o] is aligned, inside the window, and to none of the slots [T]. *)
Record store_ok (lo hi : Z) (T : Z -> Prop) (o : store_op) : Prop := {
  ok_size : (0 < so_size o)%nat /\ (Z.of_nat (so_size o) | 8);
  ok_align : so_addr o mod Z.of_nat (so_size o) = 0;
  ok_range : lo * 4096 <= so_addr o < hi * 4096;
  ok_free : ~ T (so_slot o)
}.

(** What a list of stores leaves. *)
Record stores_done (s s' : core) (l : list store_op) : Prop := {
  sd_word : forall o, o ∈ l ->
    word (so_size o) (pmem s') (so_addr o) = Some (so_value o mod 2 ^ (8 * Z.of_nat (so_size o)));
  sd_other : forall x, (forall o, o ∈ l -> ~ (so_addr o <= x < so_end o)) -> pmem s' !! x = pmem s !! x;
  sd_mem : slot_update (pmem s) (pmem s') (fun a => a ∈ so_slot <$> l);
  sd_regs : same_regs s s';
  sd_io : console s' = console s /\ stdin s' = stdin s;
  sd_page : forall p, (forall o, o ∈ l -> so_slot o ∉ page_slots s p) ->
    current s' p = current s p /\ page_slots s' p = page_slots s p /\
    (coherent s p -> coherent s' p)
}.

Lemma stores_done_nil s : stores_done s s [].
Proof.
  split; [by intros o ?%elem_of_nil|done|apply slot_update_refl|done|done|done].
Qed.

Lemma stores_done_cons s s1 s' o l :
  0 <= so_addr o -> so_end o <= 2 ^ 64 -> (forall o', o' ∈ l -> apart o o') ->
  written s s1 (so_size o) (so_addr o) (so_value o) -> stores_done s1 s' l ->
  stores_done s s' (o :: l).
Proof.
  intros H0 H64 Hap Hw [W O M R I P]. pose proof (wr_touched _ _ _ _ _ Hw) as Ht. split.
  - intros o' [->|Ho']%elem_of_cons; [|by apply W].
    rewrite <- (wr_word _ _ _ _ _ Hw). unfold word.
    rewrite (read_bytes_agree (pmem s1) (pmem s')); [done|done|done|].
    intros x Hx. apply O. intros o' Ho'. specialize (Hap o' Ho'). unfold apart, so_end in *. lia.
  - intros x Hx. rewrite O; [|intros o' Ho'; apply Hx; by right].
    apply (wr_other _ _ _ _ _ Hw). apply Hx. by left.
  - eapply slot_update_weaken, slot_update_trans; [|apply Ht|exact M]. cbv beta.
    intros a [->|Ha]; rewrite fmap_cons, elem_of_cons; auto.
  - etrans; [apply Ht|done].
  - destruct (st_io _ _ _ Ht), I. split; congruence.
  - intros p Hp. assert (so_slot o ∉ page_slots s p) as Hn by (apply Hp; by left).
    destruct (stored_current _ _ _ _ Ht Hn) as [E1 E2].
    destruct (P p) as (E3 & E4 & E5).
    { intros o' Ho'. rewrite E2. apply Hp. by right. }
    split_and!; [congruence|congruence|].
    intros Hc. apply E5. by eapply stored_coherent.
Qed.

Lemma window_stores_done s s' lo hi T l :
  (forall o, o ∈ l -> ~ T (so_slot o)) -> stores_done s s' l ->
  window s lo hi 0 T -> window s' lo hi 0 T.
Proof.
  intros Hf Hd [Hm Hc Hs Hw].
  assert (forall p, lo <= p < hi -> forall o, o ∈ l -> so_slot o ∉ page_slots s p) as Hn.
  { intros p Hp o Ho Hin. apply (Hf o Ho). by apply (Hs p). }
  split.
  - intros p Hp. destruct (Hm p Hp) as [g Hg]. exists g.
    destruct (sd_page _ _ _ Hd p (Hn p Hp)) as (-> & _). done.
  - intros p Hp. destruct (sd_page _ _ _ Hd p (Hn p Hp)) as (_ & _ & E). auto.
  - intros p a Hp. destruct (sd_page _ _ _ Hd p (Hn p Hp)) as (_ & -> & _). by apply Hs.
  - intros p Hp. eapply mapped_agree; [|by apply Hw]. apply Hd.
Qed.

Lemma wp_stores `{TlbPolicy} lo hi T l s :
  window s lo hi 0 T -> 0 <= lo -> hi <= 2 ^ 51 -> Forall (store_ok lo hi T) l ->
  ForallOrdPairs apart l ->
  wp (stores l) (fun _ s' => stores_done s s' l) s.
Proof.
  intros Hw Hlo Hhi. revert s Hw. induction l as [|o l IH]; intros s Hw Hok Hap; cbn [stores].
  { apply wp_ret, stores_done_nil. }
  apply Forall_cons in Hok as [Ho Hok]. inversion Hap as [|? ? Ha Hap']; subst.
  pose proof Ho as [[Hn Hd] Hal Hr Hf].
  assert (so_addr o + 8 <= 2 ^ 64) as H64 by lia.
  apply wp_bind. eapply wp_mono.
  { pose proof (wp_write_window lo hi 0 T (so_size o) (so_addr o) (so_value o) s Hw Hr Hn Hd Hal) as Hwr.
    rewrite Z.add_0_r in Hwr. apply Hwr; [done|lia|lia]. }
  intros [] s1 W1. cbv beta in W1 |- *.
  assert (window s1 lo hi 0 T) as Hw1 by (eapply window_stored; [apply W1|done|done]).
  eapply wp_mono; [by apply IH|]. intros [] s' Hdone. cbv beta.
  eapply stores_done_cons; [lia| |by apply Forall_forall|done|done].
  unfold so_end. apply Z.divide_pos_le in Hd; lia.
Qed.

(** ** Gates *)

Module Idt.

(** Words of the gate setup_inthandler stores for the handler at [vaddr]. *)
Definition gate_word0 (vaddr : Z) : Z := u32 (Z.lor (Z.land vaddr 0xFFFF) (Z.shiftl 0x10 16)).
Definition gate_word1 (vaddr : Z) : Z :=
  u32 (Z.lor (Z.lor (Z.land vaddr 0xFFFF0000) (Z.shiftl 0xE 8)) (Z.shiftl 1 15)).
Definition gate_word2 (vaddr : Z) : Z := u32 (Z.shiftr vaddr 32).

(** A 64-bit gate as the processor reads it. *)
Definition gate_offset (d0 d1 d2 : Z) : Z :=
  Z.land d0 0xFFFF + Z.shiftl (Z.land (Z.shiftr d1 16) 0xFFFF) 16 + Z.shiftl d2 32.
Definition gate_selector (d0 : Z) : Z := Z.shiftr d0 16.
Definition gate_present (d1 : Z) : bool := Z.testbit d1 15.
Definition gate_type (d1 : Z) : Z := Z.land (Z.shiftr d1 8) 0xF.
Definition gate_stack (d1 : Z) : Z := Z.land d1 0x7.

Section Table.
Context `{TlbPolicy}.
(** Addresses of the variables idt_def and _idtr. *)
Context (idt_def idtr_var : Z).

(** [idt_def[n].entry[k] = v] and [_idtr[k] = v] *)
Definition put_gate (n k v : Z) : M core unit := no_fault (vstore 4 (idt_def + 16 * n + 4 * k) v).
Definition put_idtr (k v : Z) : M core unit := no_fault (vstore 2 (idtr_var + 2 * k) v).

(** setup_inthandler(handler) for the gate [n]. *)
Definition setup_inthandler (n handler : Z) : M core unit :=
  let vaddr := handler in
  put_gate n 0 (gate_word0 vaddr);;
  put_gate n 1 (gate_word1 vaddr);;
  put_gate n 2 (gate_word2 vaddr);;
  put_gate n 3 0;;
  let idt_addr := idt_def in
  put_idtr 0 (u16 (0x10 * 64 - 1));;
  put_idtr 1 (Z.land idt_addr 0xffff);;
  put_idtr 2 (Z.land (Z.shiftr idt_addr 16) 0xffff);;
  put_idtr 3 (Z.land (Z.shiftr idt_addr 32) 0xffff);;
  put_idtr 4 (Z.land (Z.shiftr idt_addr 48) 0xffff);;
  mret tt.

(** [lidt (_idtr)]: a 16-bit limit and a 64-bit base, read here two bytes at a time. *)
Definition lidt_idtr : M core unit :=
  limit ← no_fault (vload 2 idtr_var);
  b0 ← no_fault (vload 2 (idtr_var + 2));
  b1 ← no_fault (vload 2 (idtr_var + 4));
  b2 ← no_fault (vload 2 (idtr_var + 6));
  b3 ← no_fault (vload 2 (idtr_var + 8));
  lidt limit (b0 + Z.shiftl b1 16 + Z.shiftl b2 32 + Z.shiftl b3 48).

(** The handler the processor calls for exception [n].  A gate outside the table, one
    that is not a present interrupt gate, or one with another code segment than the
    64-bit one of the trampoline is an exception in turn, which stops the core. *)
Definition deliver (n : Z) : M core Z :=
  s ← get;
  let '(limit, base) := idtr s in
  if limit <? 16 * n + 15 then fail SegFault
  else
    d0 ← no_fault (vload 4 (base + 16 * n));
    d1 ← no_fault (vload 4 (base + 16 * n + 4));
    d2 ← no_fault (vload 4 (base + 16 * n + 8));
    if gate_present d1 && (gate_type d1 =? 0xE) && (gate_selector d0 =? 0x10)
    then mret (gate_offset d0 d1 d2) else fail SegFault.
End Table.

(** ** The encoding *)

Lemma split16 x : 0 <= x < 2 ^ 64 ->
  exists a b c, 0 <= a < 2 ^ 16 /\ 0 <= b < 2 ^ 16 /\ 0 <= c < 2 ^ 32 /\ x = a + b * 2 ^ 16 + c * 2 ^ 32.
Proof.
  intros Hx. exists (x mod 2 ^ 16), ((x / 2 ^ 16) mod 2 ^ 16), (x / 2 ^ 16 / 2 ^ 16).
  pose proof (Z.div_mod x (2 ^ 16) ltac:(done)). pose proof (Z.div_mod (x / 2 ^ 16) (2 ^ 16) ltac:(done)).
  pose proof (Z.mod_pos_bound x (2 ^ 16) ltac:(done)). pose proof (Z.mod_pos_bound (x / 2 ^ 16) (2 ^ 16) ltac:(done)).
  split_and!; try lia.
Qed.

Lemma land_ones16 a q : 0 <= a < 2 ^ 16 -> Z.land (a + q * 2 ^ 16) 0xFFFF = a.
Proof.
  intros Ha. change 0xFFFF with (Z.ones 16). rewrite Z.land_ones by lia.
  by rewrite Z.mod_add, Z.mod_small by lia.
Qed.

Lemma shiftr_add k a q : 0 <= k -> 0 <= a < 2 ^ k -> Z.shiftr (a + q * 2 ^ k) k = q.
Proof.
  intros Hk Ha. rewrite Z.shiftr_div_pow2 by done. rewrite Z.div_add, Z.div_small by lia. lia.
Qed.

(** The words of the gate for an address given by its 16-bit parts. *)
Lemma gate_words a b c :
  0 <= a < 2 ^ 16 -> 0 <= b < 2 ^ 16 -> 0 <= c < 2 ^ 32 ->
  let x := a + b * 2 ^ 16 + c * 2 ^ 32 in
  gate_word0 x = a + 0x100000 /\ gate_word1 x = b * 2 ^ 16 + 0x8E00 /\ gate_word2 x = c.
Proof.
  intros Ha Hb Hc x. unfold gate_word0, gate_word1, gate_word2.
  assert (x = a + (b + c * 2 ^ 16) * 2 ^ 16) as E1 by (subst x; lia).
  assert (x = (a + b * 2 ^ 16) + c * 2 ^ 32) as E2 by (subst x; lia).
  split_and!.
  - rewrite E1, land_ones16 by done. rewrite Z.lor_comm.
    rewrite (lor_flags 16) by done. change (Z.shiftl 16 16) with 0x100000.
    rewrite Z.add_comm. apply wrap_small. unfold uint. lia.
  - assert (Z.land x 0xFFFF0000 = b * 2 ^ 16) as ->.
    { change 0xFFFF0000 with (Z.shiftl (Z.ones 16) 16). rewrite E1.
      apply Z.bits_inj'. intros i Hi. rewrite Z.land_spec, <- (Z.shiftl_mul_pow2 b 16) by done.
      rewrite !Z.shiftl_spec by done. destruct (decide (i < 16)) as [Hl|Hl].
      - rewrite !(Z.testbit_neg_r _ (i - 16)) by lia. apply andb_false_r.
      - replace (Z.testbit (a + (b + c * 2 ^ 16) * 2 ^ 16) i) with (Z.testbit (b + c * 2 ^ 16) (i - 16)).
        + rewrite <- Z.land_spec. rewrite Z.land_ones by done. rewrite Z.mod_add, Z.mod_small by lia. done.
        + rewrite <- (shiftr_add 16 a (b + c * 2 ^ 16)) at 1 by done.
          rewrite Z.shiftr_spec by lia. f_equal. lia. }
    rewrite <- Z.lor_assoc. rewrite (lor_flags 16); [|done|by rewrite Z.mod_mul|done].
    apply wrap_small. unfold uint. change (Z.lor (Z.shiftl 14 8) (Z.shiftl 1 15)) with 0x8E00. lia.
  - rewrite E2, shiftr_add by lia. by apply wrap_small.
Qed.

Lemma gate_roundtrip x :
  0 <= x < 2 ^ 64 ->
  let d0 := gate_word0 x in let d1 := gate_word1 x in let d2 := gate_word2 x in
  gate_offset d0 d1 d2 = x /\ gate_selector d0 = 0x10 /\ gate_present d1 = true /\
  gate_type d1 = 0xE /\ gate_stack d1 = 0 /\ uint 32 d0 /\ uint 32 d1 /\ uint 32 d2.
Proof.
  intros Hx. destruct (split16 x Hx) as (a & b & c & Ha & Hb & Hc & ->).
  destruct (gate_words a b c Ha Hb Hc) as (-> & -> & ->). cbv zeta.
  unfold gate_offset, gate_selector, gate_present, gate_type, gate_stack, uint.
  assert (forall i, 0 <= i < 16 -> Z.testbit (b * 2 ^ 16 + 0x8E00) i = Z.testbit 0x8E00 i) as Hlow.
  { intros i Hi. apply (flag_bit 16); [done|by rewrite Z.mod_mul|done]. }
  assert (Z.shiftr (b * 2 ^ 16 + 0x8E00) 8 = 0x8E + b * 2 ^ 4 * 2 ^ 4) as E8.
  { rewrite Z.shiftr_div_pow2 by done. symmetry. apply (Z.div_unique _ _ _ 0); lia. }
  split_and!; try lia.
  - change 0x100000 with (16 * 2 ^ 16). rewrite (land_ones16 a 16) by done.
    rewrite (Z.add_comm (b * 2 ^ 16)), shiftr_add by done.
    rewrite <- (Z.add_0_r b) at 1. change 0 with (0 * 2 ^ 16) at 1. rewrite land_ones16 by done.
    rewrite !Z.shiftl_mul_pow2 by done. lia.
  - change 0x100000 with (0x10 * 2 ^ 16). by rewrite shiftr_add.
  - by rewrite Hlow.
  - rewrite E8. change 0xF with (Z.ones 4). rewrite Z.land_ones by done. by rewrite Z.mod_add.
  - change 0x7 with (Z.ones 3). rewrite Z.land_ones by done.
    replace (b * 2 ^ 16 + 0x8E00) with ((b * 2 ^ 13 + 0x11C0) * 2 ^ 3) by lia. by rewrite Z.mod_mul.
Qed.

Lemma idtr_roundtrip x :
  0 <= x < 2 ^ 64 ->
  Z.land x 0xffff + Z.shiftl (Z.land (Z.shiftr x 16) 0xffff) 16 +
  Z.shiftl (Z.land (Z.shiftr x 32) 0xffff) 32 + Z.shiftl (Z.land (Z.shiftr x 48) 0xffff) 48 = x.
Proof.
  intros Hx. change 0xffff with (Z.ones 16). rewrite !Z.land_ones by done.
  rewrite !Z.shiftr_div_pow2, !Z.shiftl_mul_pow2 by done.
  assert (forall y, 0 <= y -> y = y mod 2 ^ 16 + 2 ^ 16 * (y / 2 ^ 16)) as Hd
    by (intros y Hy; pose proof (Z.div_mod y (2 ^ 16) ltac:(done)); lia).
  change (2 ^ 32) with (2 ^ 16 * 2 ^ 16). change (2 ^ 48) with (2 ^ 16 * 2 ^ 16 * 2 ^ 16).
  rewrite <- !Z.div_div by done.
  set (y1 := x / 2 ^ 16). set (y2 := y1 / 2 ^ 16). set (y3 := y2 / 2 ^ 16).
  assert (0 <= y3 < 2 ^ 16) as H3.
  { subst y3 y2 y1. rewrite !Z.div_div by done.
    split; [apply Z.div_pos; lia|apply Z.div_lt_upper_bound; [done|exact (proj2 Hx)]]. }
  rewrite (Z.mod_small y3) by done.
  pose proof (Z.div_mod x (2 ^ 16) ltac:(done)) as D0. fold y1 in D0.
  pose proof (Z.div_mod y1 (2 ^ 16) ltac:(done)) as D1. fold y2 in D1.
  pose proof (Z.div_mod y2 (2 ^ 16) ltac:(done)) as D2. fold y3 in D2. lia.
Qed.

(** ** Installing a handler *)

Section Install.
Context (lo hi : Z) (T : Z -> Prop) (idt_def idtr_var : Z).

Definition table_range (x : Z) : Prop :=
  idt_def <= x < idt_def + 1024 \/ idtr_var <= x < idtr_var + 10.

(** Where the linker has put the two variables. *)
Record placed : Prop := {
  pl_window : 0 <= lo /\ hi <= 2 ^ 51;
  pl_align : idt_def mod 8 = 0 /\ idtr_var mod 2 = 0;
  pl_inside : lo * 4096 <= idt_def /\ idt_def + 1024 <= hi * 4096 /\
              lo * 4096 <= idtr_var /\ idtr_var + 10 <= hi * 4096;
  pl_apart : idtr_var + 10 <= idt_def \/ idt_def + 1024 <= idtr_var;
  pl_free : forall x, table_range x -> ~ T (x / 8 * 8)
}.

(** Gate [n] leads to [handler], and the processor uses the table. *)
Record installed (s : core) (n handler : Z) : Prop := {
  in_idtr : idtr s = (0x3ff, idt_def);
  in_word0 : word 4 (pmem s) (idt_def + 16 * n) = Some (gate_word0 handler);
  in_word1 : word 4 (pmem s) (idt_def + 16 * n + 4) = Some (gate_word1 handler);
  in_word2 : word 4 (pmem s) (idt_def + 16 * n + 8) = Some (gate_word2 handler)
}.

Definition gate_stores (n handler : Z) : list store_op :=
  (fun '(k, v) => mkStore 4 (idt_def + 16 * n + 4 * k) v) <$>
    [(0, gate_word0 handler); (1, gate_word1 handler); (2, gate_word2 handler); (3, 0)].

Definition idtr_stores : list store_op :=
  (fun '(k, v) => mkStore 2 (idtr_var + 2 * k) v) <$>
    [(0, u16 (0x10 * 64 - 1)); (1, Z.land idt_def 0xffff); (2, Z.land (Z.shiftr idt_def 16) 0xffff);
     (3, Z.land (Z.shiftr idt_def 32) 0xffff); (4, Z.land (Z.shiftr idt_def 48) 0xffff)].

Definition table_stores (n handler : Z) : list store_op := gate_stores n handler ++ idtr_stores.

Lemma table_store n handler o :
  0 <= n < 64 -> o ∈ table_stores n handler ->
  (so_size o = 4%nat /\ exists k, so_addr o = idt_def + 4 * k /\ 4 * n <= k < 4 * n + 4) \/
  (so_size o = 2%nat /\ exists k, so_addr o = idtr_var + 2 * k /\ 0 <= k < 5).
Proof.
  intros Hn [Ho|Ho]%elem_of_app; apply list_elem_of_fmap in Ho as ([k v] & -> & Hk);
    rewrite !elem_of_cons, elem_of_nil in Hk; [left|right]; split; [done| |done|].
  - exists (4 * n + k). cbn [so_addr]. repeat destruct Hk as [[= -> ->]|Hk]; try lia; done.
  - exists k. cbn [so_addr]. repeat destruct Hk as [[= -> ->]|Hk]; try lia; done.
Qed.

Lemma table_store_ok n handler :
  placed -> 0 <= n < 64 -> Forall (store_ok lo hi T) (table_stores n handler).
Proof.
  intros [Hw [A1 A2] Hin Hap Hf] Hn. apply Forall_forall. intros o Ho.
  destruct (table_store n handler o Hn Ho) as [[Es (k & Ea & Hk)]|[Es (k & Ea & Hk)]];
    split; rewrite ?Es, ?Ea; try lia.
  - split; [lia|by exists 2].
  - apply Z.mod_divide; [done|]. apply Z.divide_add_r; [|apply Z.divide_factor_l].
    apply Z.mod_divide in A1; [|done]. etrans; [|exact A1]. by exists 2.
  - unfold so_slot. rewrite Ea. apply Hf. left. lia.
  - split; [lia|by exists 4].
  - apply Z.mod_divide; [done|]. apply Z.divide_add_r; [|apply Z.divide_factor_l].
    by apply Z.mod_divide in A2.
  - unfold so_slot. rewrite Ea. apply Hf. right. lia.
Qed.

Lemma table_stores_apart n handler :
  placed -> 0 <= n < 64 -> ForallOrdPairs apart (table_stores n handler).
Proof.
  intros [_ _ _ Hap _] Hn. unfold table_stores, gate_stores, idtr_stores. cbn.
  repeat (apply FOP_cons; [repeat (apply Forall_cons; split); try apply Forall_nil; try exact I;
    unfold apart, so_end; cbn [so_addr so_size]; lia|]). apply FOP_nil.
Qed.

(** What setup_inthandler and lidt change. *)
Record table_set (s s' : core) (n handler : Z) : Prop := {
  ts_installed : installed s' n handler;
  ts_window : window s' lo hi 0 T;
  ts_mem : slot_update (pmem s) (pmem s') (fun a => exists x, table_range x /\ a = x / 8 * 8);
  ts_gates : forall x, ~ (idt_def + 16 * n <= x < idt_def + 16 * n + 16) ->
    ~ (idtr_var <= x < idtr_var + 10) -> pmem s' !! x = pmem s !! x;
  ts_regs : cr3 s' = cr3 s /\ wp_bit s' = wp_bit s /\ pge s' = pge s;
  ts_io : console s' = console s /\ stdin s' = stdin s;
  ts_page : forall p, (forall x, table_range x -> x / 8 * 8 ∉ page_slots s p) ->
    current s' p = current s p /\ page_slots s' p = page_slots s p /\
    (coherent s p -> coherent s' p)
}.

Section Run.
Context `{TlbPolicy}.

Lemma setup_stores n handler :
  setup_inthandler idt_def idtr_var n handler = stores (table_stores n handler).
Proof. reflexivity. Qed.

Lemma wp_setup n handler s :
  placed -> window s lo hi 0 T -> 0 <= n < 64 ->
  wp (setup_inthandler idt_def idtr_var n handler)
    (fun _ s' => stores_done s s' (table_stores n handler) /\ window s' lo hi 0 T) s.
Proof.
  intros Hpl Hw Hn. rewrite setup_stores. pose proof (table_store_ok n handler Hpl Hn) as Hok.
  eapply wp_mono; [eapply wp_stores; [exact Hw|apply Hpl|apply Hpl|done|by apply table_stores_apart]|].
  intros [] s' Hd. split; [done|]. eapply window_stores_done; [|exact Hd|done].
  intros o Ho. apply (Forall_forall (store_ok lo hi T) (table_stores n handler)); done.
Qed.

(** One load of the lidt instruction or of a gate. *)
Lemma wp_table_load k va v s (Q : Z -> core -> Prop) :
  window s lo hi 0 T -> lo * 4096 <= va < hi * 4096 -> (0 < k)%nat -> (Z.of_nat k | 8) ->
  va mod Z.of_nat k = 0 -> word k (pmem s) va = Some v ->
  (forall s', quiet s s' -> window s' lo hi 0 T -> console s' = console s -> stdin s' = stdin s -> Q v s') ->
  wp (no_fault (vload k va)) Q s.
Proof.
  intros Hw Hva Hk Hd Ha Hv HQ. eapply wp_mono.
  - eapply (wp_read_window lo hi 0 T k va v); [done|done| |by rewrite Z.add_0_r].
    destruct (aligned_in_slot (Z.of_nat k) va) as [L1 L2]; [lia|done|done|].
    pose proof (Z.div_mod va 8 ltac:(done)). pose proof (Z.mod_pos_bound va 8 ltac:(done)).
    pose proof (Z.div_mod va 4096 ltac:(done)). pose proof (Z.mod_pos_bound va 4096 ltac:(done)). lia.
  - intros r s' [-> Hacc]. cbv beta. pose proof (loaded_quiet _ _ Hacc) as Hq. destruct (aa_io _ _ _ Hacc).
    apply HQ; [done|by eapply window_quiet|done|done].
Qed.

Lemma idtr_words s s1 n handler :
  0 <= idt_def < 2 ^ 64 -> stores_done s s1 (table_stores n handler) ->
  word 2 (pmem s1) idtr_var = Some 0x3ff /\
  forall k, 0 <= k < 4 ->
    word 2 (pmem s1) (idtr_var + 2 * (k + 1)) = Some (Z.land (Z.shiftr idt_def (16 * k)) 0xffff).
Proof.
  intros Hidt Hd.
  assert (forall x, Z.land x 0xffff mod 2 ^ (8 * Z.of_nat 2) = Z.land x 0xffff) as Hm.
  { intros x. change 0xffff with (Z.ones 16). rewrite Z.land_ones by done. apply Z.mod_mod. done. }
  assert (forall k v, (k, v) ∈ [(0, u16 (0x10 * 64 - 1)); (1, Z.land idt_def 0xffff);
    (2, Z.land (Z.shiftr idt_def 16) 0xffff); (3, Z.land (Z.shiftr idt_def 32) 0xffff);
    (4, Z.land (Z.shiftr idt_def 48) 0xffff)] -> word 2 (pmem s1) (idtr_var + 2 * k) = Some (v mod 2 ^ 16)) as Hw.
  { intros k v Hk. apply (sd_word _ _ _ Hd (mkStore 2 (idtr_var + 2 * k) v)).
    apply elem_of_app. right. apply list_elem_of_fmap. by exists (k, v). }
  split.
  - replace idtr_var with (idtr_var + 2 * 0) by lia. rewrite (Hw 0 (u16 (0x10 * 64 - 1))) by set_solver. done.
  - intros k Hk. rewrite <- Hm. apply Hw.
    assert (k = 0 \/ k = 1 \/ k = 2 \/ k = 3) as [->|[->|[->| ->]]] by lia;
      [rewrite Z.shiftr_0_r|..]; set_solver.
Qed.

Lemma table_set_intro s s1 s2 n handler :
  0 <= handler < 2 ^ 64 -> 0 <= n < 64 ->
  stores_done s s1 (table_stores n handler) -> quiet s1 s2 -> window s2 lo hi 0 T ->
  console s2 = console s1 -> stdin s2 = stdin s1 ->
  table_set s (mkCore (pmem s2) (cr3 s2) (wp_bit s2) (pge s2) (cr2 s2) (0x3ff, idt_def) (tlb s2)
                 (tick s2) (console s2) (stdin s2)) n handler.
Proof.
  intros Hh Hn Hd Hq Hw Hc Hi. pose proof (gate_roundtrip handler Hh) as (_ & _ & _ & _ & _ & U0 & U1 & U2).
  assert (forall k v, uint 32 v -> (k, v) ∈ [(0, gate_word0 handler); (1, gate_word1 handler);
    (2, gate_word2 handler); (3, 0)] -> word 4 (pmem s2) (idt_def + 16 * n + 4 * k) = Some v) as Hg.
  { intros k v Hv Hk. rewrite (qu_mem _ _ Hq).
    etrans; [apply (sd_word _ _ _ Hd (mkStore 4 (idt_def + 16 * n + 4 * k) v))|cbn [so_value so_size]].
    2: { f_equal. by apply Z.mod_small. }
    apply elem_of_app. left. apply list_elem_of_fmap. by exists (k, v). }
  split; cbn [pmem cr3 wp_bit pge console stdin idtr].
  - split; cbn [pmem idtr]; [done|rewrite <- (Z.add_0_r (idt_def + 16 * n)); apply (Hg 0)
      |apply (Hg 1)|apply (Hg 2)]; (done || set_solver).
  - destruct Hw as [W1 W2 W3 W4]. by split.
  - rewrite (qu_mem _ _ Hq). eapply slot_update_weaken; [|apply Hd]. intros a Ha.
    apply list_elem_of_fmap in Ha as (o & -> & Ho). exists (so_addr o). split; [|done].
    destruct (table_store n handler o Hn Ho) as [[_ (k & -> & Hk)]|[_ (k & -> & Hk)]]; [left|right]; lia.
  - intros x Hx1 Hx2. rewrite (qu_mem _ _ Hq). apply Hd. intros o Ho. unfold so_end.
    destruct (table_store n handler o Hn Ho) as [[-> (k & -> & Hk)]|[-> (k & -> & Hk)]]; lia.
  - destruct (qu_regs _ _ Hq), (sd_regs _ _ _ Hd). split_and!; congruence.
  - destruct (sd_io _ _ _ Hd). split; congruence.
  - intros p Hp. destruct (sd_page _ _ _ Hd p) as (E1 & E2 & E3).
    { intros o Ho. apply Hp.
      destruct (table_store n handler o Hn Ho) as [[_ (k & -> & Hk)]|[_ (k & -> & Hk)]]; [left|right]; lia. }
    destruct (quiet_current _ _ p Hq) as (F1 & F2 & F3). rewrite <- E1, <- E2, <- F1, <- F2.
    split_and!; [done|done|]. intros Hco. exact (F3 (E3 Hco)).
Qed.

Lemma wp_install n handler s :
  placed -> window s lo hi 0 T -> 0 <= n < 64 -> 0 <= handler < 2 ^ 64 ->
  wp (setup_inthandler idt_def idtr_var n handler;; lidt_idtr idtr_var)
    (fun _ s' => table_set s s' n handler) s.
Proof.
  intros Hpl Hw Hn Hh. pose proof Hpl as [[W1 W2] [_ A2] Hin _ _].
  assert (0 <= idt_def < 2 ^ 64) as Hidt by lia.
  apply wp_bind. eapply wp_mono; [by apply wp_setup|]. intros [] s1 [Hd Hw1]. cbv beta.
  destruct (idtr_words s s1 n handler Hidt Hd) as [I0 Ik].
  assert (forall k, (idtr_var + 2 * k) mod 2 = 0) as Hal.
  { intros k. rewrite (Z.mul_comm 2). by rewrite Z.mod_add. }
  unfold lidt_idtr.
  change (idtr_var + 2) with (idtr_var + 2 * (0 + 1)). change (idtr_var + 4) with (idtr_var + 2 * (1 + 1)).
  change (idtr_var + 6) with (idtr_var + 2 * (2 + 1)). change (idtr_var + 8) with (idtr_var + 2 * (3 + 1)).
  apply wp_bind. eapply (wp_table_load 2 idtr_var 0x3ff); [exact Hw1|lia|lia|by exists 4|done|done|].
  intros s2 Q2 Hw2 C2 J2.
  apply wp_bind. eapply (wp_table_load 2); [exact Hw2|lia|lia|by exists 4|apply Hal|rewrite (qu_mem _ _ Q2); apply Ik; lia|].
  intros s3 Q3 Hw3 C3 J3. apply (quiet_trans _ _ _ Q2) in Q3.
  apply wp_bind. eapply (wp_table_load 2); [exact Hw3|lia|lia|by exists 4|apply Hal|rewrite (qu_mem _ _ Q3); apply Ik; lia|].
  intros s4 Q4 Hw4 C4 J4. apply (quiet_trans _ _ _ Q3) in Q4.
  apply wp_bind. eapply (wp_table_load 2); [exact Hw4|lia|lia|by exists 4|apply Hal|rewrite (qu_mem _ _ Q4); apply Ik; lia|].
  intros s5 Q5 Hw5 C5 J5. apply (quiet_trans _ _ _ Q4) in Q5.
  apply wp_bind. eapply (wp_table_load 2); [exact Hw5|lia|lia|by exists 4|apply Hal|rewrite (qu_mem _ _ Q5); apply Ik; lia|].
  intros s6 Q6 Hw6 C6 J6. apply (quiet_trans _ _ _ Q5) in Q6.
  unfold wp, lidt. rewrite Z.shiftr_0_r. rewrite idtr_roundtrip by done.
  apply table_set_intro with (s1 := s1); [done|done|done|done|done|congruence|congruence].
Qed.

(** The exception reaches the handler. *)
Lemma wp_deliver n handler s :
  placed -> window s lo hi 0 T -> 0 <= n < 64 -> 0 <= handler < 2 ^ 64 -> installed s n handler ->
  wp (deliver n) (fun r s' => r = handler /\ quiet s s' /\ window s' lo hi 0 T /\
                    console s' = console s /\ stdin s' = stdin s) s.
Proof.
  intros Hpl Hw Hn Hh [Ei E0 E1 E2]. pose proof Hpl as [[W1 W2] [A1 _] Hin _ _].
  destruct (gate_roundtrip handler Hh) as (R1 & R2 & R3 & R4 & _).
  assert (forall k, (idt_def + 16 * n + 4 * k) mod 4 = 0) as Hal.
  { intros k. replace (idt_def + 16 * n + 4 * k) with (idt_def + (4 * n + k) * 4) by lia.
    rewrite Z.mod_add by done. apply Z.mod_divide in A1; [|done]. apply Z.mod_divide; [done|].
    etrans; [|exact A1]. by exists 2. }
  unfold deliver. apply wp_bind. unfold wp at 1, get. rewrite Ei.
  replace (0x3ff <? 16 * n + 15) with false by (symmetry; apply Z.ltb_ge; lia).
  apply wp_bind. eapply (wp_table_load 4); [exact Hw|lia|lia|by exists 2| |exact E0|].
  { rewrite <- (Z.add_0_r (idt_def + 16 * n)). apply (Hal 0). }
  intros s2 Q2 Hw2 C2 J2.
  apply wp_bind. eapply (wp_table_load 4); [exact Hw2|lia|lia|by exists 2|apply (Hal 1)|by rewrite (qu_mem _ _ Q2)|].
  intros s3 Q3 Hw3 C3 J3. apply (quiet_trans _ _ _ Q2) in Q3.
  apply wp_bind. eapply (wp_table_load 4); [exact Hw3|lia|lia|by exists 2|apply (Hal 2)|by rewrite (qu_mem _ _ Q3)|].
  intros s4 Q4 Hw4 C4 J4. apply (quiet_trans _ _ _ Q3) in Q4.
  rewrite R3, R4, R2. cbn [andb Z.eqb Pos.eqb]. apply wp_ret. split_and!; [done|done|done|congruence|congruence].
Qed.
End Run.
End Install.
End Idt.
