(* ===== verification/Interrupt.v ===== *)
(** * Interrupt: the programs of tutorial/interrupt

    friend_main of jump and of exception_recovery with their assembly handlers.  The
    divide instruction raises exception 0 when the divisor is zero; the handler the
    interrupt table leads to runs, and if it returns the instruction is executed again.
    [int_handler], ... are the addresses of the handlers. *)

From S2P Require Import Prelude Memory Paging VirtMem FriendVm Idt.
Import Layout VirtMem Idt.

(** ** Asking for a choice *)

(** [atoi] of a string of one character. *)
Definition atoi1 (c : Z) : Z := if (48 <=? c) && (c <=? 57) then c - 48 else 0.

(** [do { printf(...); buf[0] = getchar(); i = atoi(buf); } while (i < 1 || i > 2);] *)
Fixpoint choose (fuel : nat) : M core Z :=
  match fuel with
  | O => fail OutOfFuel
  | S fuel' =>
      printf "choose one sample [1-2]:" [];;
      c ← getchar;
      let i := atoi1 c in
      if (i <? 1) || (i >? 2) then choose fuel' else mret i
  end.

Definition prompt : string * list Z := ("choose one sample [1-2]:"%string, []).

(** The first 1 or 2 of the input is the choice. *)
Definition chooses (l : list Z) (i : Z) : Prop :=
  exists l', l = l' ++ [48 + i] /\ (i = 1 \/ i = 2) /\ (49 ∉ l') /\ (50 ∉ l').

Lemma atoi1_range c : c <> 49 -> c <> 50 -> (atoi1 c <? 1) || (atoi1 c >? 2) = true.
Proof.
  intros H1 H2. unfold atoi1. case_match eqn:E; [|done]. zbool.
  apply orb_true_iff. rewrite Z.ltb_lt, Z.gtb_ltb, Z.ltb_lt. lia.
Qed.

Lemma choose_spec fuel l i rest s :
  chooses l i -> (length l <= fuel)%nat -> stdin s = l ++ rest ->
  choose fuel s = Done (i, set_io (replicate (length l) prompt ++ console s) rest s).
Proof.
  intros (l' & -> & Hi & N1 & N2). revert fuel s.
  induction l' as [|c l' IH]; intros [|fuel] s Hf Hs; cbn [length app] in Hf; try lia;
    cbn [app] in Hs; cbn [choose]; unfold mbind, M_bind, printf, getchar, set_io; cbn [stdin]; rewrite Hs.
  - destruct Hi as [->| ->]; done.
  - apply not_elem_of_cons in N1 as [Nc1 N1]. apply not_elem_of_cons in N2 as [Nc2 N2].
    rewrite atoi1_range by congruence. unfold mbind, M_bind in IH.
    rewrite IH by (done || cbn in *; lia). cbn [length app replicate console].
    unfold set_io. cbn. f_equal. f_equal. f_equal. fold prompt.
    change (prompt :: replicate (length (l' ++ [48 + i])) prompt ++ console s)
      with (replicate (S (length (l' ++ [48 + i]))) prompt ++ console s).
    rewrite <- Nat.add_1_r, replicate_add, <- app_assoc. done.
Qed.

(** Without a 1 or 2 in the input the question is asked for ever. *)
Lemma choose_eof fuel s : 49 ∉ stdin s -> 50 ∉ stdin s -> choose fuel s = Fault OutOfFuel.
Proof.
  revert s. induction fuel as [|fuel IH]; intros s N1 N2; [done|]. cbn [choose].
  unfold mbind, M_bind, printf, getchar, set_io. cbn [stdin]. destruct (stdin s) as [|c rest] eqn:E.
  - apply IH; cbn [stdin]; rewrite ?E; apply not_elem_of_nil.
  - apply not_elem_of_cons in N1 as [Nc1 N1]. apply not_elem_of_cons in N2 as [Nc2 N2].
    rewrite atoi1_range by congruence. by apply IH.
Qed.

(** ** The divide instruction *)

Record regs := mkRegs { eax : Z; edx : Z; ebx : Z }.

(** [divl %ebx]: quotient and remainder of edx:eax, or exception 0. *)
Definition divl (r : regs) : option regs :=
  let n := edx r * 2 ^ 32 + eax r in
  if (ebx r =? 0) || (n / ebx r >? 2 ^ 32 - 1) then None
  else Some (mkRegs (n / ebx r) (n mod ebx r) (ebx r)).

(** How an instruction that may raise an exception ends: with its result, or in a
    handler that never returns. *)
Inductive ending := Returned (r : regs) | Halted.

(** ** jump *)
Module Jump.
Section Jump.
Context `{TlbPolicy}.
Context (idt_def idtr_var int_handler : Z).

Definition wait_input (fuel : nat) : M core Z :=
  printf "1) divide without exception\n" [];;
  printf "2) divide by 0 and raise exception\n" [];;
  choose fuel.

Definition setup_inthandler (handler : Z) : M core unit :=
  Idt.setup_inthandler idt_def idtr_var 0 handler.

(** [int_handler: hlt; jmp int_handler], with interrupts disabled. *)
Definition run_handler (h : Z) : M core ending :=
  if h =? int_handler then mret Halted else fail Undefined.

Definition exec_divl (r : regs) : M core ending :=
  match divl r with
  | Some r' => mret (Returned r')
  | None => h ← deliver 0; run_handler h
  end.

Definition friend_main (fuel : nat) : M core ending :=
  setup_inthandler int_handler;;
  lidt_idtr idtr_var;;
  i ← wait_input fuel;
  if i =? 1 then exec_divl (mkRegs 1 0 1)
  else if i =? 2 then exec_divl (mkRegs 1 0 0)
  else mret (Returned (mkRegs 0 0 0)).
End Jump.
End Jump.

(** ** exception_recovery *)
Module Recovery.
Section Recovery.
Context `{TlbPolicy}.
Context (idt_def idtr_var int_handler1 int_handler2 : Z).

Definition wait_input (fuel : nat) : M core Z :=
  printf "1) retry without doing anything\n" [];;
  printf "2) recover from 0div exception\n" [];;
  choose fuel.

Definition setup_inthandler (handler : Z) : M core unit :=
  Idt.setup_inthandler idt_def idtr_var 0 handler.

(** int_handler1 returns; int_handler2 sets ebx to 1 and returns. *)
Definition run_handler (h : Z) (r : regs) : M core regs :=
  if h =? int_handler1 then mret r
  else if h =? int_handler2 then mret (mkRegs (eax r) (edx r) 1)
  else fail Undefined.

(** The instruction is executed again after each return of the handler. *)
Fixpoint exec_divl (fuel : nat) (r : regs) : M core regs :=
  match fuel with
  | O => fail OutOfFuel
  | S fuel' =>
      match divl r with
      | Some r' => mret r'
      | None => h ← deliver 0; r' ← run_handler h r; exec_divl fuel' r'
      end
  end.

Definition friend_main (fuel : nat) : M core regs :=
  input ← wait_input fuel;
  match [int_handler1; int_handler2] !! Z.to_nat (input - 1) with
  | Some handler =>
      setup_inthandler handler;;
      lidt_idtr idtr_var;;
      exec_divl fuel (mkRegs 1 0 0)
  | None => fail Undefined
  end.
End Recovery.
End Recovery.

(** ** Specifications *)

Lemma installed_quiet idt_def s s' n h :
  quiet s s' -> installed idt_def s n h -> installed idt_def s' n h.
Proof.
  intros Hq [E0 E1 E2 E3]. split; [|by rewrite (qu_mem _ _ Hq)..].
  by rewrite (sr_idtr _ _ (qu_regs _ _ Hq)).
Qed.

Lemma chooses_in l i : chooses l i -> i = 1 \/ i = 2.
Proof. by intros (l' & _ & Hi & _). Qed.

(** The first fuel-bounded loop of both programs. *)
Lemma choose_short fuel l i rest s :
  chooses l i -> stdin s = l ++ rest ->
  choose fuel s = Fault OutOfFuel \/
  choose fuel s = Done (i, set_io (replicate (length l) prompt ++ console s) rest s).
Proof.
  intros Hc Hs. destruct (decide (length l <= fuel)%nat) as [Hf|Hf]; [right; by apply choose_spec|left].
  destruct Hc as (l' & -> & Hi & N1 & N2). revert l' s N1 N2 Hs Hf.
  induction fuel as [|fuel IH]; intros l' s N1 N2 Hs Hf; [done|].
  destruct l' as [|c l']; [rewrite length_app in Hf; cbn in Hf; lia|]. cbn [choose app] in *.
  unfold mbind, M_bind, printf, getchar, set_io. cbn [stdin]. rewrite Hs.
  apply not_elem_of_cons in N1 as [Nc1 N1]. apply not_elem_of_cons in N2 as [Nc2 N2].
  rewrite atoi1_range by congruence. apply (IH l'); cbn in *; done || lia.
Qed.

Section Specs.
Context `{TlbPolicy}.
Context (lo hi : Z) (T : Z -> Prop) (idt_def idtr_var : Z).
Hypothesis Hplaced : placed lo hi T idt_def idtr_var.

Lemma window_io s c i : window s lo hi 0 T -> window (set_io c i s) lo hi 0 T.
Proof. apply window_quiet, quiet_io. Qed.

Lemma installed_set s s' n h : table_set lo hi T idt_def idtr_var s s' n h -> installed idt_def s' n h.
Proof. by intros []. Qed.

Lemma jump_spec int_handler fuel l i rest s :
  window s lo hi 0 T -> 0 <= int_handler < 2 ^ 64 ->
  chooses l i -> (length l <= fuel)%nat -> stdin s = l ++ rest ->
  wp (Jump.friend_main idt_def idtr_var int_handler fuel)
    (fun r s' => r = (if i =? 1 then Returned (mkRegs 1 0 1) else Halted) /\ stdin s' = rest) s.
Proof.
  intros Hw Hh Hc Hf Hs. unfold Jump.friend_main, Jump.setup_inthandler.
  apply wp_assoc. eapply wp_mono; [by apply (wp_install lo hi T)|]. intros [] s1 [Hin Hw1 _ _ _ [Ec Es] _].
  cbv beta. apply wp_bind. unfold Jump.wait_input. apply wp_bind. unfold wp at 1, printf.
  apply wp_bind. unfold wp at 1, printf. unfold wp at 1.
  rewrite (choose_spec fuel l i rest) by (done || cbn; congruence).
  destruct (chooses_in _ _ Hc) as [->| ->]; cbn [Z.eqb Pos.eqb].
  - by apply wp_ret.
  - unfold Jump.exec_divl. cbn [divl]. apply wp_bind. eapply wp_mono.
    + apply (wp_deliver lo hi T idt_def idtr_var 0 int_handler);
        [done|by repeat apply window_io|lia|done|]. do 3 (eapply installed_quiet; [apply quiet_io|]). done.
    + intros r s2 (-> & _ & _ & _ & Es2). unfold Jump.run_handler. rewrite Z.eqb_refl. by apply wp_ret.
Qed.

(** Delivering exception 0 to the handler of exception_recovery. *)
Lemma recovery_deliver h s :
  window s lo hi 0 T -> 0 <= h < 2 ^ 64 -> installed idt_def s 0 h ->
  wp (deliver 0) (fun r s' => r = h /\ window s' lo hi 0 T /\ installed idt_def s' 0 h /\ stdin s' = stdin s) s.
Proof.
  intros Hw Hh Hi. eapply wp_mono; [apply (wp_deliver lo hi T idt_def idtr_var 0 h); done|].
  intros r s' (-> & Hq & Hw' & _ & Es). split_and!; [done|done|by eapply installed_quiet|done].
Qed.

(** The two lines of the question, latest first. *)
Definition menu : list (string * list Z) :=
  [("2) recover from 0div exception\n"%string, []); ("1) retry without doing anything\n"%string, [])].

Section Recovery.
Context (int_handler1 int_handler2 : Z).
Hypothesis Hh1 : 0 <= int_handler1 < 2 ^ 64.
Hypothesis Hh2 : 0 <= int_handler2 < 2 ^ 64.
Hypothesis Hne : int_handler1 <> int_handler2.

Lemma retry_forever fuel r s :
  divl r = None -> window s lo hi 0 T -> installed idt_def s 0 int_handler1 ->
  Recovery.exec_divl int_handler1 int_handler2 fuel r s = Fault OutOfFuel.
Proof.
  intros Hr. revert s. induction fuel as [|fuel IH]; intros s Hw Hi; [done|].
  cbn [Recovery.exec_divl]. rewrite Hr. apply wp_then_fault.
  eapply wp_mono; [by apply (recovery_deliver int_handler1)|]. intros h s1 (-> & Hw1 & Hi1 & _). cbv beta.
  unfold Recovery.run_handler. rewrite Z.eqb_refl. apply wp_then_fault, wp_ret. by apply IH.
Qed.

Lemma retry_recovers fuel s :
  window s lo hi 0 T -> installed idt_def s 0 int_handler2 ->
  wp (Recovery.exec_divl int_handler1 int_handler2 (S (S fuel)) (mkRegs 1 0 0))
    (fun r s' => r = mkRegs 1 0 1 /\ stdin s' = stdin s) s.
Proof.
  intros Hw Hi. cbn [Recovery.exec_divl divl]. apply wp_bind.
  eapply wp_mono; [by apply (recovery_deliver int_handler2)|]. intros h s1 (-> & Hw1 & Hi1 & Es). cbv beta.
  unfold Recovery.run_handler. rewrite (proj2 (Z.eqb_neq int_handler2 int_handler1)) by congruence.
  rewrite Z.eqb_refl. apply wp_bind, wp_ret. by apply wp_ret.
Qed.

Lemma recovery_spec fuel l i rest s :
  window s lo hi 0 T -> chooses l i -> stdin s = l ++ rest ->
  if i =? 1 then Recovery.friend_main idt_def idtr_var int_handler1 int_handler2 fuel s = Fault OutOfFuel
  else (length l <= fuel)%nat -> (2 <= fuel)%nat ->
       wp (Recovery.friend_main idt_def idtr_var int_handler1 int_handler2 fuel)
         (fun r s' => r = mkRegs 1 0 1 /\ stdin s' = rest) s.
Proof.
  intros Hw Hc Hs. destruct (chooses_in _ _ Hc) as [->| ->]; cbn [Z.eqb Pos.eqb].
  - unfold Recovery.friend_main, mbind at 1, M_bind at 1.
    change (Recovery.wait_input fuel s) with (choose fuel (set_io (menu ++ console s) (stdin s) s)).
    destruct (choose_short fuel l 1 rest (set_io (menu ++ console s) (stdin s) s) Hc Hs) as [-> | ->]; [done|].
    change ([int_handler1; int_handler2] !! Z.to_nat (1 - 1)) with (Some int_handler1). cbv iota.
    unfold Recovery.setup_inthandler. rewrite <- bind_assoc. apply wp_then_fault.
    eapply wp_mono; [apply (wp_install lo hi T); [done|by repeat apply window_io|lia|done]|].
    intros [] s1 [Hin Hw1 _ _ _ _ _]. cbv beta. by apply retry_forever.
  - intros Hf H2. unfold Recovery.friend_main. apply wp_bind. unfold wp at 1.
    change (Recovery.wait_input fuel s) with (choose fuel (set_io (menu ++ console s) (stdin s) s)).
    rewrite (choose_spec fuel l 2 rest) by done.
    change ([int_handler1; int_handler2] !! Z.to_nat (2 - 1)) with (Some int_handler2). cbv iota.
    unfold Recovery.setup_inthandler. apply wp_assoc.
    eapply wp_mono; [apply (wp_install lo hi T); [done|by repeat apply window_io|lia|done]|].
    intros [] s1 [Hin Hw1 _ _ _ [Ec Es] _]. cbv beta.
    destruct fuel as [|[|fuel]]; [lia|lia|]. eapply wp_mono; [by apply retry_recovers|].
    intros r s2 [-> Es2]. split; [done|]. by rewrite Es2, Es.
Qed.
End Recovery.
End Specs.

(** ** Properties *)

(** Where the example programs have their interrupt table. *)
Lemma demo_placed :
  placed 0x100000 0x140000 (friend_slots demo_pdpt demo_pd2) 0x100020000 0x100020400.
Proof.
  split; [done|done|lia|lia|]. intros x Hx. unfold table_range in Hx.
  pose proof (Z.div_mod x 8 ltac:(done)). pose proof (Z.mod_pos_bound x 8 ltac:(done)).
  intros [E|[E|(j & Hj & E)]]; unfold INITIAL_PML4T, TRAMPOLINE_ADDR, PAGE_SIZE, demo_pdpt, demo_pd2 in *; lia.
Qed.

(** C29: Exceptions of the tutorial programs reach the handler that was installed, for
    every 64-bit handler address, every place of the interrupt table in the friend's
    memory and every behaviour of the translation cache: in jump, dividing by 1 returns
    and dividing by 0 ends in the handler that halts; in exception_recovery the handler
    that changes nothing makes the program repeat the division for ever, and the one
    that sets ebx makes it return with the quotient 1. *)
Theorem divide_errors_reach_handler (pol : TlbPolicy) lo hi T idt_def idtr_var h1 h2 fuel l i rest s :
  placed lo hi T idt_def idtr_var -> window s lo hi 0 T ->
  0 <= h1 < 2 ^ 64 -> 0 <= h2 < 2 ^ 64 -> h1 <> h2 ->
  chooses l i -> stdin s = l ++ rest -> (length l + 2 <= fuel)%nat ->
  (exists s', Jump.friend_main idt_def idtr_var h1 fuel s =
     Done (if i =? 1 then Returned (mkRegs 1 0 1) else Halted, s') /\ stdin s' = rest) /\
  (if i =? 1 then forall n, Recovery.friend_main idt_def idtr_var h1 h2 n s = Fault OutOfFuel
   else exists s', Recovery.friend_main idt_def idtr_var h1 h2 fuel s = Done (mkRegs 1 0 1, s') /\
          stdin s' = rest).
Proof.
  intros Hp Hw B1 B2 Hne Hc Hs Hf. split.
  - destruct (wp_done _ _ _ (jump_spec lo hi T idt_def idtr_var Hp h1 fuel l i rest s Hw B1 Hc ltac:(lia) Hs))
      as (r & s' & E & -> & Es). eauto.
  - pose proof (fun n => recovery_spec lo hi T idt_def idtr_var Hp h1 h2 B1 B2 Hne n l i rest s Hw Hc Hs) as Hr.
    destruct (i =? 1); [exact Hr|].
    destruct (wp_done _ _ _ (Hr fuel ltac:(lia) ltac:(lia))) as (r & s' & E & -> & Es). eauto.
Qed.

Lemma divide_errors_reach_handler_witness :
  (exists s', Jump.friend_main (H := keep_all) 0x100020000 0x100020400 0x100003000 3 (demo_core [50]) =
     Done (if 2 =? 1 then Returned (mkRegs 1 0 1) else Halted, s') /\ stdin s' = []) /\
  (if 2 =? 1 then forall n, Recovery.friend_main (H := keep_all) 0x100020000 0x100020400 0x100003000 0x100004000 n
                     (demo_core [50]) = Fault OutOfFuel
   else exists s', Recovery.friend_main (H := keep_all) 0x100020000 0x100020400 0x100003000 0x100004000 3
                     (demo_core [50]) = Done (mkRegs 1 0 1, s') /\ stdin s' = []).
Proof.
  apply (divide_errors_reach_handler keep_all 0x100000 0x140000 (friend_slots demo_pdpt demo_pd2)
           0x100020000 0x100020400 0x100003000 0x100004000 3 [50] 2 [] (demo_core [50])).
  - exact demo_placed.
  - apply (demo_friend_vm [50]).
  - lia.
  - lia.
  - lia.
  - exists []. split_and!; [reflexivity|by right|apply not_elem_of_nil|apply not_elem_of_nil].
  - reflexivity.
  - cbn. lia.
Defined.
