(* ===== verification/TutorialPaging.v ===== *)
(** * TutorialPaging: the paging programs of tutorial/paging

    The friend_main functions of mapping, pagefault, hierarchy, address_space and
    copy_on_write run on the page tables that [Loader16] has built and extend them by
    tables of their own.  They are modelled on [VirtMem]; [pdpt], [pd], [pt], ... are the
    addresses of the symbols of the same names.  What runs in OFFLOAD is a call of
    [printf] or [getchar] (the hand-over is the subject of [Offload]); format strings
    are written as in the source. *)

From S2P Require Import Prelude Memory Paging Loader16 VirtMem FriendVm Idt Interrupt.
Import Layout VirtMem Idt.

(** [static inline phys_addr_t v2p(virt_addr_t vaddr)] *)
Definition v2p (vaddr : Z) : Z := vaddr.

(** [x | (1 << 0) | (1 << 1) | (1 << 2)] *)
Definition rwu (x : Z) : Z := Z.lor (Z.lor (Z.lor x (Z.shiftl 1 0)) (Z.shiftl 1 1)) (Z.shiftl 1 2).

Lemma rwu_page p : page p -> rwu p = p + 7.
Proof.
  intros (_ & Hp & _). unfold rwu. rewrite <- !Z.lor_assoc. apply (lor_flags 12); [lia|exact Hp|done].
Qed.

(** ** Linking tables of the program into the boot tables

    pdpt[i3] = pd, pd[i2] = pt, for an area the boot tables leave unmapped. *)
Section Link.
Context `{TlbPolicy}.
Context (pdpt pd2 pd : Z).

(** The page [p] belongs to the program: inside the friend region, not one of the
    tables in use. *)
Definition own_page (p : Z) : Prop :=
  page p /\ DEPLOY_PHYS_ADDR_START <= p /\ p + 4096 <= DEPLOY_PHYS_ADDR_END /\
  p <> pdpt /\ p <> pd2.

Definition all_zero (s : core) (p : Z) : Prop :=
  forall i, 0 <= i < 512 -> read64 (pmem s) (p + 8 * i) = Some 0.

Lemma own_not_friend p i : own_page p -> page pdpt -> page pd2 -> 0 <= i < 512 ->
  ~ friend_slots pdpt pd2 (p + 8 * i).
Proof.
  intros (Pp & Hlo & Hhi & N3 & N2) P3 P2 Hi [E|[E|(j & Hj & E)]].
  - unfold INITIAL_PML4T, TRAMPOLINE_ADDR, PAGE_SIZE, DEPLOY_PHYS_ADDR_START in *. lia.
  - apply (page_slot_inj p pdpt) in E; [tauto|done|done|done|lia].
  - apply (page_slot_inj p pd2) in E; tauto.
Qed.

Lemma pdpt_not_friend i :
  page pdpt -> page pd2 -> pdpt <> pd2 -> DEPLOY_PHYS_ADDR_START <= pdpt ->
  0 <= i < 512 -> i <> 4 -> ~ friend_slots pdpt pd2 (pdpt + 8 * i).
Proof.
  intros P3 P2 Hne Hlo Hi H4 [E|[E|(j & Hj & E)]].
  - unfold INITIAL_PML4T, TRAMPOLINE_ADDR, PAGE_SIZE, DEPLOY_PHYS_ADDR_START in *. lia.
  - lia.
  - apply (page_slot_inj pdpt pd2) in E; tauto.
Qed.

Lemma friend_vm_stored s s' a :
  touched s s' a -> ~ friend_slots pdpt pd2 a -> friend_vm s pdpt pd2 -> friend_vm s' pdpt pd2.
Proof.
  intros Hst Ha [E3 E4 Hp Hw].
  split; [by rewrite (sr_cr3 _ _ (st_regs _ _ _ Hst))| |done|by eapply window_stored].
  rewrite (stored_read _ _ _ _ Hst); [done|by vm_compute|]. intros E. apply Ha. by left.
Qed.

Lemma friend_vm_quiet s s' : quiet s s' -> friend_vm s pdpt pd2 -> friend_vm s' pdpt pd2.
Proof.
  intros Hq [E3 E4 Hp Hw].
  split; [by rewrite (sr_cr3 _ _ (qu_regs _ _ Hq))|by rewrite (qu_mem _ _ Hq)|done|].
  by eapply window_quiet.
Qed.

(** A store to a table of the friend region. *)
Lemma wp_put_friend s p i x :
  friend_vm s pdpt pd2 -> page p -> DEPLOY_PHYS_ADDR_START <= p -> p + 4096 <= DEPLOY_PHYS_ADDR_END ->
  0 <= i < 512 -> 0 <= x < 2 ^ 64 ->
  wp (put_entry p i x) (fun _ s' => stored s s' (p + 8 * i) x) s.
Proof.
  intros [_ _ _ Hw] Hp Hlo Hhi Hi Hx. unfold put_entry.
  pose proof (page_slot p i Hp Hi) as Hs. pose proof Hs as (_ & H8 & _).
  pose proof (wp_store64_window _ _ _ _ s (p + 8 * i) x Hw) as Hst.
  rewrite Z.add_0_r in Hst. apply Hst; [|done|done|done].
  unfold DEPLOY_PHYS_ADDR_START, DEPLOY_PHYS_ADDR_END in *. lia.
Qed.
End Link.

(** ** A program with a page table for the 2 MB at 0x80000000 *)
Section Program.
Context (pdpt pd2 pd pt : Z).
(** Slots of other variables the program stores to. *)
Context (X : Z -> Prop).

(** What the loader guarantees when friend_main is called: the program's own pages
    are zero (they are in .bss), and so is the entry they are linked at. *)
Record started (s : core) : Prop := {
  sd_vm : friend_vm s pdpt pd2;
  sd_pages : own_page pdpt pd2 pd /\ own_page pdpt pd2 pt /\ pd <> pt;
  sd_free : read64 (pmem s) (pdpt + 8 * 2) = Some 0;
  sd_zero : all_zero s pd /\ all_zero s pt;
  sd_coherent : forall i, 0 <= i < 512 -> coherent s (0x80000 + i)
}.

(** Before they are linked, the pages depend on two entries only. *)
Lemma started_slots s i :
  started s -> 0 <= i < 512 -> page_slots s (0x80000 + i) = [INITIAL_PML4T; pdpt + 8 * 2].
Proof.
  intros [Hvm _ Hf _ _] Hi. pose proof (fv_pages _ _ _ Hvm) as (P3 & _).
  destruct (index_same 0x80000 i) as (I4 & I3 & _); [lia|done|done|].
  destruct (table_entry_flags pdpt 7) as (B4 & Q4 & _); [done..|].
  unfold page_slots, walk_slots. rewrite I4, I3, (fv_cr3 _ _ _ Hvm).
  change (pte_base 12 INITIAL_PML4T) with INITIAL_PML4T. change (pml4_index (0x80000 * 4096)) with 0.
  change (pdpt_index (0x80000 * 4096)) with 2.
  rewrite (entry_set INITIAL_PML4T 0 (pdpt + 7)); [|rewrite Z.add_0_r; apply Hvm|done].
  rewrite B4, (entry_zero pdpt 2) by done. by rewrite Z.add_0_r.
Qed.

(** The slots such a program changes. *)
Definition program_slots (a : Z) : Prop :=
  a = pdpt + 8 * 2 \/ a = pd \/ (exists i, 0 <= i < 512 /\ a = pt + 8 * i) \/ X a.

(** The program in state [s], which began in [s0]: [f] is its page table, and the pages
    in [stale] may still be cached with an earlier translation. *)
Record running (s0 s : core) (f : Z -> Z) (stale : Z -> Prop) : Prop := {
  ru_linked : linked 0x100000 0x140000 0 (friend_slots pdpt pd2) 0x80000 pdpt pd pt s f;
  ru_coherent : forall i, 0 <= i < 512 -> ~ stale i -> coherent s (0x80000 + i);
  ru_mem : slot_update (pmem s0) (pmem s) program_slots;
  ru_regs : same_regs s0 s
}.

Lemma running_quiet s0 s s' f stale :
  quiet s s' -> running s0 s f stale -> running s0 s' f stale.
Proof.
  intros Hq [Hl Hc Hm Hr]. split; [by eapply linked_quiet| | |].
  - intros i Hi Hs. apply (quiet_current _ _ _ Hq). auto.
  - by rewrite (qu_mem _ _ Hq).
  - etrans; [done|apply Hq].
Qed.

Lemma running_weaken s0 s f f' stale (stale' : Z -> Prop) :
  (forall i, f' i = f i) -> (forall i, 0 <= i < 512 -> stale i -> stale' i) ->
  running s0 s f stale -> running s0 s f' stale'.
Proof.
  intros Hf Hst [[Hw Ha Hp Hi Ho] Hc Hm Hr]. split; [|intros i Hx Hn; auto|done|done].
  split; [done..| |done|done]. intros i Hx. rewrite Hf. auto.
Qed.

(** A word outside the program's tables. *)
Lemma running_word s0 s f stale a :
  running s0 s f stale -> slot a -> ~ program_slots a -> read64 (pmem s) a = read64 (pmem s0) a.
Proof. intros [_ _ Hm _] Ha Hn. by apply Hm. Qed.

(** The two stores that link the tables. *)
Lemma link_area s0 s1 s2 :
  started s0 -> stored s0 s1 (pdpt + 8 * 2) (pd + 7) -> stored s1 s2 (pd + 8 * 0) (pt + 7) ->
  friend_vm s2 pdpt pd2 ->
  area s2 0x80000 pdpt pd (pt + 0) /\ all_zero s2 pt /\
  forall i, 0 <= i < 512 -> pt + 8 * i ∉ area_slots s2 0x80000 pdpt pd.
Proof.
  intros [Hvm (Opd & Opt & Hne) Hf [Zd Zt] Hco] S1 S2 V2.
  pose proof (fv_pages _ _ _ Hvm) as (P3 & P2 & N32 & L3 & H3).
  destruct Opd as (Pd & Ld & Hd & Nd3 & Nd2), Opt as (Pt & Lt & Ht & Nt3 & Nt2).
  assert (pte_base 12 (cr3 s2) + 8 * pml4_index (0x80000 * 4096) = INITIAL_PML4T) as E4
    by (by rewrite (fv_cr3 _ _ _ V2)).
  unfold area_slots. rewrite E4.
  change (pdpt_index (0x80000 * 4096)) with 2. change (pd_index (0x80000 * 4096)) with 0.
  assert (pdpt + 8 * 2 <> pd + 8 * 0) as D by (apply entry_addr_ne; auto; lia).
  assert (forall i, 0 <= i < 512 -> pt + 8 * i <> pdpt + 8 * 2 /\ pt + 8 * i <> pd + 8 * 0) as Dt
    by (intros i Hi; split; apply entry_addr_ne; auto; lia).
  split_and!.
  - split; [done|by rewrite (Z.add_0_r pt)|rewrite E4; apply V2| |].
    + rewrite (stored_read _ _ _ _ S2); [apply S1|by apply page_slot|done].
    + rewrite (Z.add_0_r pt). apply S2.
  - intros i Hi. destruct (Dt i Hi).
    rewrite (stored_read _ _ _ _ S2), (stored_read _ _ _ _ S1); auto using page_slot.
  - intros i Hi. destruct (Dt i Hi). rewrite !elem_of_cons, elem_of_nil. intros [E|[E|[E|[]]]]; [|done..].
    unfold INITIAL_PML4T, TRAMPOLINE_ADDR, PAGE_SIZE, DEPLOY_PHYS_ADDR_START in *. lia.
Qed.

Lemma link_running s0 s1 s2 :
  started s0 -> stored s0 s1 (pdpt + 8 * 2) (pd + 7) -> stored s1 s2 (pd + 8 * 0) (pt + 7) ->
  friend_vm s2 pdpt pd2 -> running s0 s2 (fun _ => 0) (fun _ => False).
Proof.
  intros Hsd S1 S2 V2. destruct (link_area _ _ _ Hsd S1 S2 V2) as (Har & Hz & Hno).
  destruct Hsd as [Hvm (Opd & Opt & Hne) Hf [Zd Zt] Hco].
  pose proof (fv_pages _ _ _ Hvm) as (P3 & P2 & N32 & L3 & H3).
  assert (read64 (pmem s1) (pd + 8 * 0) = Some 0) as E0.
  { rewrite (stored_read _ _ _ _ S1); [by apply Zd|by apply page_slot; [apply Opd|]|].
    apply entry_addr_ne; [apply Opd|done|lia|lia|]. left. apply Opd. }
  split.
  - split; [apply V2|done|intros i Hi; rewrite (Z.add_0_r pt); auto| |].
    + destruct Opt as (Pt & Lt & Ht & _).
      unfold DEPLOY_PHYS_ADDR_START, DEPLOY_PHYS_ADDR_END in *. split_and!; [done|done|lia|lia].
    + intros i Hi. rewrite (Z.add_0_r pt). split; [by apply own_not_friend|auto].
  - intros i Hi _. eapply stored_coherent_absent; [exact S2|exact E0|done|].
    eapply stored_coherent_absent; [exact S1|exact Hf|done|by apply Hco].
  - eapply slot_update_weaken, slot_update_trans; [|apply S1|apply S2]. cbv beta.
    intros a [->| ->]; [by left|right; left; lia].
  - etrans; [apply S1|apply S2].
Qed.

Lemma program_slot s0 s f stale a :
  running s0 s f stale -> (forall b, X b -> slot b) -> program_slots a -> slot a.
Proof.
  intros [Hl _ _ _] HX. pose proof (ar_pages _ _ _ _ _ (lk_area _ _ _ _ _ _ _ _ _ _ Hl)) as (P3 & P2 & P1).
  rewrite Z.add_0_r in P1. intros [->|[->|[(i & Hi & ->)|Ha]]]; [by apply page_slot| |by apply page_slot|by apply HX].
  rewrite <- (Z.add_0_r pd). by apply (page_slot pd 0).
Qed.

(** Bytes and registers a running program leaves alone. *)
Lemma running_installed s0 s f stale idt_def n h :
  running s0 s f stale -> installed idt_def s0 n h ->
  0 <= idt_def + 16 * n -> idt_def + 16 * n + 16 <= 2 ^ 64 ->
  (forall a x, program_slots a -> idt_def + 16 * n <= x < idt_def + 16 * n + 12 -> ~ (a <= x < a + 8)) ->
  installed idt_def s n h.
Proof.
  intros [_ _ Hm Hr] [E0 E1 E2 E3] Hlo Hhi Hd.
  assert (forall k, 0 <= k <= 8 -> word 4 (pmem s) (idt_def + 16 * n + k) = word 4 (pmem s0) (idt_def + 16 * n + k)) as Hw.
  { intros k Hk. unfold word. rewrite (read_bytes_agree (pmem s0) (pmem s)); [done|lia|lia|].
    intros x Hx. apply Hm. intros a Ha. apply (Hd a x Ha). lia. }
  split; [by rewrite (sr_idtr _ _ Hr)|rewrite <- (Z.add_0_r (idt_def + 16 * n))|..]; rewrite Hw by lia; [|done|done].
  by rewrite Z.add_0_r.
Qed.

(** *** Installing an interrupt handler first *)

Lemma started_io s c i : started s -> started (set_io c i s).
Proof.
  intros [Hvm Hp Hf Hz Hc]. split; [by eapply friend_vm_quiet; [apply quiet_io|]|done|done|done|].
  intros j Hj. apply (quiet_current _ _ _ (quiet_io s c i)). auto.
Qed.

Section Table.
Context (idt_def idtr_var : Z).

(** The interrupt table and its descriptor are not in the program's page tables. *)
Definition table_apart : Prop :=
  forall x, table_range idt_def idtr_var x ->
    x / 8 * 8 <> pdpt + 8 * 2 /\
    forall i, 0 <= i < 512 -> x / 8 * 8 <> pd + 8 * i /\ x / 8 * 8 <> pt + 8 * i.

Lemma started_table s s' n h :
  placed 0x100000 0x140000 (friend_slots pdpt pd2) idt_def idtr_var -> table_apart -> started s ->
  table_set 0x100000 0x140000 (friend_slots pdpt pd2) idt_def idtr_var s s' n h ->
  started s'.
Proof.
  intros Ht Hap Hsd Hts.
  pose proof Hsd as [Hvm (Opd & Opt & Hne) Hf [Zd Zt] Hc].
  pose proof (ts_mem _ _ _ _ _ _ _ _ _ Hts) as Hm.
  destruct (ts_regs _ _ _ _ _ _ _ _ _ Hts) as (E3 & _).
  pose proof (fv_pages _ _ _ Hvm) as (P3 & P2 & _).
  split; [split| | | |].
  - rewrite E3. apply Hvm.
  - rewrite (su_read _ _ _ Hm); [apply Hvm|by vm_compute|]. intros (x & Hx & E).
    apply (pl_free _ _ _ _ _ Ht x Hx). left. by rewrite E.
  - apply Hvm.
  - apply Hts.
  - done.
  - rewrite (su_read _ _ _ Hm); [done|by apply page_slot|]. intros (x & Hx & E).
    by apply (proj1 (Hap x Hx)).
  - split; intros i Hi; (rewrite (su_read _ _ _ Hm); [auto|apply page_slot; [apply Opd || apply Opt|done]|]);
      intros (x & Hx & E); destruct (Hap x Hx) as [_ A]; by destruct (A i Hi).
  - intros i Hi. destruct (ts_page _ _ _ _ _ _ _ _ _ Hts (0x80000 + i)) as (_ & _ & Hco); [|by apply Hco, Hc].
    intros x Hx. rewrite (started_slots s i Hsd Hi), !elem_of_cons, elem_of_nil. intros [E|[E|[]]].
    + apply (pl_free _ _ _ _ _ Ht x Hx). left. by rewrite E.
    + by apply (proj1 (Hap x Hx)).
Qed.
End Table.

Section Steps.
Context `{TlbPolicy}.

Lemma wp_link s0 (k : M core unit) Q :
  started s0 ->
  (forall s, running s0 s (fun _ => 0) (fun _ => False) ->
     console s = console s0 -> stdin s = stdin s0 -> wp k Q s) ->
  wp (put_entry pdpt ((0x80000000 mod k512GB) / k1GB) (rwu (v2p pd));;
      put_entry pd ((0x80000000 mod k1GB) / k2MB) (rwu (v2p pt));; k) Q s0.
Proof.
  intros Hsd Hk. pose proof Hsd as [Hvm (Opd & Opt & Hne) Hf [Zd Zt] Hco].
  pose proof (fv_pages _ _ _ Hvm) as (P3 & P2 & N32 & L3 & H3).
  pose proof Opd as (Pd & Ld & Hd & _). pose proof Opt as (Pt & Lt & Ht & _).
  change ((0x80000000 mod k512GB) / k1GB) with 2. change ((0x80000000 mod k1GB) / k2MB) with 0.
  unfold v2p. rewrite !rwu_page by done.
  assert (forall p, page p -> 0 <= p + 7 < 2 ^ 64) as Hr by (intros p (? & _ & ?); lia).
  apply wp_bind. eapply wp_mono; [eapply wp_put_friend; [exact Hvm|done|done|done|lia|auto]|].
  intros [] s1 S1. cbv beta in S1 |- *.
  assert (friend_vm s1 pdpt pd2) as V1.
  { eapply friend_vm_stored; [exact S1|by apply pdpt_not_friend|done]. }
  apply wp_bind. eapply wp_mono; [eapply (wp_put_friend _ _ _ _ 0); [exact V1|done|done|done|lia|auto]|].
  intros [] s2 S2. cbv beta in S2 |- *.
  assert (friend_vm s2 pdpt pd2) as V2.
  { eapply friend_vm_stored; [exact S2|by apply own_not_friend|done]. }
  destruct (st_io _ _ _ S1), (st_io _ _ _ S2).
  apply Hk; [by eapply link_running|congruence..].
Qed.

(** [pt.entry[i] = x]: the page of the entry may be stale if it was mapped. *)
Lemma wp_put_pt s0 s f stale i x (k : M core unit) Q :
  running s0 s f stale -> 0 <= i < 512 -> 0 <= x < 2 ^ 64 ->
  (forall s', running s0 s' (upd f i x) (fun j => stale j \/ j = i /\ pte_present (f i) = true) ->
     console s' = console s -> stdin s' = stdin s -> wp k Q s') ->
  wp (put_entry pt i x;; k) Q s.
Proof.
  intros [Hl Hc Hm Hr] Hi Hx Hk. apply wp_bind.
  eapply wp_mono; [by eapply wp_put_entry|]. intros [] s' Hst. cbv beta in Hst |- *.
  destruct (linked_update _ _ _ _ _ _ _ _ _ _ _ _ _ Hst Hi Hl) as [Hl' Hc'].
  destruct (st_io _ _ _ Hst). apply Hk; [|done|done]. split; [done| | |].
  - intros j Hj Hs. apply Hc'; [done| |apply Hc; tauto].
    destruct (pte_present (f i)) eqn:E; [|by right]. left. intros ->. tauto.
  - eapply slot_update_weaken, slot_update_trans; [|exact Hm|apply Hst]. cbv beta.
    intros a [Ha| ->]; [done|]. right. right. left. exists i. split; [done|lia].
  - etrans; [done|apply Hst].
Qed.

Lemma wp_invlpg s0 s f stale i (Q : unit -> core -> Prop) :
  running s0 s f stale -> 0 <= i < 512 ->
  (forall s', running s0 s' f (fun j => stale j /\ j <> i) ->
     console s' = console s -> stdin s' = stdin s -> Q tt s') ->
  wp (invlpg (0x80000000 + i * 4096)) Q s.
Proof.
  intros Hru Hi Hk. unfold wp, invlpg.
  destruct (quiet_invlpg s (0x80000000 + i * 4096)) as [Hq Hco].
  assert ((0x80000000 + i * 4096) / 4096 = 0x80000 + i) as E.
  { replace (0x80000000 + i * 4096) with ((0x80000 + i) * 4096) by lia. by rewrite Z.div_mul. }
  rewrite E in *. apply Hk; [|done|done].
  destruct (running_quiet _ _ _ _ _ Hq Hru) as [Hl Hc Hm Hr]. split; [done| |done|done].
  intros j Hj Hs. destruct (decide (j = i)) as [->|]; [done|]. apply Hc; tauto.
Qed.

Lemma wp_read_mapped s0 s f stale i b x (Q : Z -> core -> Prop) :
  running s0 s f stale -> 0 <= i < 512 -> ~ stale i -> f i = b + 7 -> page b ->
  ~ program_slots b -> read64 (pmem s0) b = Some x ->
  (forall s', running s0 s' f stale -> console s' = console s -> stdin s' = stdin s -> Q x s') ->
  wp (load64 (0x80000000 + i * 4096)) Q s.
Proof.
  intros Hru Hi Hs Hf Hb Hn Hx Hk. pose proof Hru as [Hl Hc Hm Hr].
  destruct (table_entry_flags b 7) as (B & P & _); [done..|].
  replace (0x80000000 + i * 4096) with ((0x80000 + i) * 4096 + 0) by lia.
  eapply wp_mono.
  - eapply (wp_load64_area _ _ _ _ _ _ _ _ _ _ i 0 b x Hl); [done|by apply Hc|done|done|by rewrite Hf..|].
    rewrite Z.add_0_r. rewrite (running_word _ _ _ _ _ Hru); [done| |done].
    rewrite <- (Z.add_0_r b). by apply (page_slot b 0).
  - intros r s' [-> Ha]. destruct (aa_io _ _ _ Ha). apply Hk; [|done|done].
    eapply running_quiet; [by apply loaded_quiet|done].
Qed.

(** A store to another variable. *)
Definition own_var (a : Z) : Prop :=
  X a /\ slot a /\ DEPLOY_PHYS_ADDR_START <= a < DEPLOY_PHYS_ADDR_END /\
  ~ friend_slots pdpt pd2 a /\ a <> pdpt + 8 * 2 /\ a <> pd /\
  forall i, 0 <= i < 512 -> a <> pt + 8 * i.

Lemma wp_put_var s0 s f stale a x (Q : unit -> core -> Prop) :
  running s0 s f stale -> cr3 s0 = INITIAL_PML4T -> own_var a -> 0 <= x < 2 ^ 64 ->
  (forall s', running s0 s' f stale -> stored s s' a x ->
     console s' = console s -> stdin s' = stdin s -> Q tt s') ->
  wp (store64 a x) Q s.
Proof.
  intros [Hl Hc Hm Hr] E3 (HX & Hs & Hin & HT & N3 & Nd & Nt) Hx Hk.
  pose proof (lk_window _ _ _ _ _ _ _ _ _ _ Hl) as Hw.
  assert (a ∉ area_slots s 0x80000 pdpt pd) as Har.
  { unfold area_slots. rewrite (sr_cr3 _ _ Hr), E3. change (pdpt_index (0x80000 * 4096)) with 2.
    change (pd_index (0x80000 * 4096)) with 0. rewrite !elem_of_cons, elem_of_nil.
    intros [E|[E|[E|[]]]]; [|done|lia]. apply HT. left. by rewrite E. }
  eapply wp_mono.
  { pose proof (wp_store64_window _ _ _ _ s a x Hw) as Hst. rewrite Z.add_0_r in Hst.
    apply Hst; [|apply Hs|done|done].
    unfold DEPLOY_PHYS_ADDR_START, DEPLOY_PHYS_ADDR_END in Hin. lia. }
  intros [] s' Hst. cbv beta in Hst |- *. destruct (st_io _ _ _ Hst).
  apply Hk; [|exact Hst|done|done]. split.
  - eapply linked_stored; [exact Hst|done|done| |done].
    intros i Hi. rewrite (Z.add_0_r pt). auto.
  - intros i Hi Hns. apply (stored_coherent _ _ _ _ Hst); [|by apply Hc].
    destruct (area_walk _ _ _ _ _ i (lk_area _ _ _ _ _ _ _ _ _ _ Hl) Hi) as [_ ->].
    rewrite elem_of_app, list_elem_of_singleton, (Z.add_0_r pt). intros [E|E]; [done|]. by apply (Nt i).
  - eapply slot_update_weaken, slot_update_trans; [|exact Hm|apply Hst]. cbv beta.
    intros b [Hb| ->]; [done|]. right. right. by right.
  - etrans; [done|apply Hst].
Qed.

Lemma wp_printf s0 s f stale fmt args (Q : unit -> core -> Prop) :
  running s0 s f stale ->
  (forall s', running s0 s' f stale -> pmem s' = pmem s -> console s' = (fmt, args) :: console s ->
     stdin s' = stdin s -> Q tt s') ->
  wp (printf fmt args) Q s.
Proof.
  intros Hru Hk. unfold wp, printf. apply Hk; [|done|done|done].
  eapply running_quiet; [apply quiet_io|done].
Qed.
End Steps.
End Program.

(** ** mapping *)
Module Mapping.
Section Mapping.
Context `{TlbPolicy}.
Context (pdpt pd pt : Z).

Definition show_memdata (vaddr : Z) : M core unit :=
  x ← load64 vaddr;
  printf "0x%lx: %lx\n" [vaddr; x].

(** [do { c = getchar(); } while (c != '\n')] *)
Fixpoint read_line (fuel : nat) : M core unit :=
  match fuel with
  | O => fail OutOfFuel
  | S fuel' => c ← getchar; if negb (c =? 10) then read_line fuel' else mret tt
  end.

Definition wait_input (fuel : nat) (i : Z) : M core unit :=
  printf "[%d/3] press Enter key to go to the next step:" [i];;
  read_line fuel.

Definition vaddr1 : Z := 0x80000000.
Definition vaddr2 : Z := 0x80001000.
Definition vaddr3 : Z := 0x80002000.

Definition friend_main (fuel : nat) : M core unit :=
  put_entry pdpt ((vaddr1 mod k512GB) / k1GB) (rwu (v2p pd));;
  put_entry pd ((vaddr1 mod k1GB) / k2MB) (rwu (v2p pt));;
  put_entry pt ((vaddr1 mod k2MB) / k4KB) (rwu 0x100000000);;
  show_memdata vaddr1;;
  wait_input fuel 1;;
  put_entry pt ((vaddr1 mod k2MB) / k4KB) (rwu 0x100001000);;
  invlpg vaddr1;;
  show_memdata vaddr1;;
  wait_input fuel 2;;
  put_entry pt ((vaddr2 mod k2MB) / k4KB) (rwu 0x100000000);;
  put_entry pt ((vaddr3 mod k2MB) / k4KB) (rwu 0x100001000);;
  show_memdata vaddr2;;
  show_memdata vaddr3;;
  wait_input fuel 3.
End Mapping.

(** A line of input: characters up to a newline. *)
Definition line (l : list Z) : Prop := exists l', l = l' ++ [10] /\ 10 ∉ l'.

Lemma read_line_spec fuel l rest s :
  line l -> (length l <= fuel)%nat -> stdin s = l ++ rest ->
  read_line fuel s = Done (tt, set_io (console s) rest s).
Proof.
  intros (l' & -> & Hn). revert fuel s. induction l' as [|c l' IH]; intros [|fuel] s Hf Hs;
    cbn [length app] in Hf; try lia; cbn [app] in Hs; cbn [read_line]; unfold mbind, M_bind, getchar;
    rewrite Hs.
  - done.
  - apply not_elem_of_cons in Hn as [Hc Hn].
    replace (c =? 10) with false by (symmetry; apply Z.eqb_neq; congruence). cbn [negb].
    by rewrite IH by (done || cbn in *; lia).
Qed.

(** Without a newline in the input the loop does not end. *)
Lemma read_line_eof fuel s : 10 ∉ stdin s -> read_line fuel s = Fault OutOfFuel.
Proof.
  revert s. induction fuel as [|fuel IH]; intros s Hn; [done|]. cbn [read_line].
  unfold mbind, M_bind, getchar. destruct (stdin s) as [|c rest] eqn:E.
  - cbn. apply IH. rewrite E. apply not_elem_of_nil.
  - apply not_elem_of_cons in Hn as [Hc Hn].
    replace (c =? 10) with false by (symmetry; apply Z.eqb_neq; congruence). by apply IH.
Qed.

(** What the program prints when the two pages hold [m0] and [m1], latest first. *)
Definition shown (m0 m1 : Z) : list (string * list Z) :=
  let show a x := ("0x%lx: %lx\n"%string, [a; x]) in
  let prompt i := ("[%d/3] press Enter key to go to the next step:"%string, [i]) in
  [ prompt 3; show 0x80002000 m1; show 0x80001000 m0; prompt 2; show 0x80000000 m1; prompt 1;
    show 0x80000000 m0 ].

(** No other variables are stored to. *)
Definition none (a : Z) : Prop := False.

Section Run.
Context `{TlbPolicy}.
Context (pdpt pd2 pd pt : Z).

Lemma wp_show s0 s f stale i b x (Q : unit -> core -> Prop) :
  running pdpt pd2 pd pt none s0 s f stale -> 0 <= i < 512 -> ~ stale i -> f i = b + 7 -> page b ->
  ~ program_slots pdpt pd pt none b -> read64 (pmem s0) b = Some x ->
  (forall s', running pdpt pd2 pd pt none s0 s' f stale ->
     console s' = ("0x%lx: %lx\n"%string, [0x80000000 + i * 4096; x]) :: console s ->
     stdin s' = stdin s -> Q tt s') ->
  wp (show_memdata (0x80000000 + i * 4096)) Q s.
Proof.
  intros Hru Hi Hs Hf Hb Hn Hx Hk. unfold show_memdata. apply wp_bind.
  eapply wp_read_mapped; [exact Hru|done..|]. intros s1 R1 C1 I1.
  eapply wp_printf; [exact R1|]. intros s2 R2 _ C2 I2. apply Hk; [done|congruence..].
Qed.

Lemma wp_wait s0 s f stale fuel i l rest (Q : unit -> core -> Prop) :
  running pdpt pd2 pd pt none s0 s f stale -> line l -> (length l <= fuel)%nat -> stdin s = l ++ rest ->
  (forall s', running pdpt pd2 pd pt none s0 s' f stale ->
     console s' = ("[%d/3] press Enter key to go to the next step:"%string, [i]) :: console s ->
     stdin s' = rest -> Q tt s') ->
  wp (wait_input fuel i) Q s.
Proof.
  intros Hru Hl Hf Hs Hk. unfold wait_input. apply wp_bind.
  eapply wp_printf; [exact Hru|]. intros s1 R1 _ C1 I1.
  unfold wp. rewrite (read_line_spec _ l rest) by congruence. apply Hk; [|done|done].
  eapply running_quiet; [apply quiet_io|done].
Qed.

Lemma mapping_spec s0 fuel l1 l2 l3 rest m0 m1 :
  started pdpt pd2 pd pt s0 ->
  read64 (pmem s0) 0x100000000 = Some m0 -> ~ program_slots pdpt pd pt none 0x100000000 ->
  read64 (pmem s0) 0x100001000 = Some m1 -> ~ program_slots pdpt pd pt none 0x100001000 ->
  line l1 -> line l2 -> line l3 -> stdin s0 = l1 ++ l2 ++ l3 ++ rest ->
  (length (l1 ++ l2 ++ l3) <= fuel)%nat ->
  wp (friend_main pdpt pd pt fuel)
    (fun _ s => console s = shown m0 m1 ++ console s0 /\ stdin s = rest /\
       exists f, running pdpt pd2 pd pt none s0 s f (fun _ => False) /\
         f 0 = 0x100001007 /\ f 1 = 0x100000007 /\ f 2 = 0x100001007 /\
         forall i, 3 <= i < 512 -> f i = 0) s0.
Proof.
  intros Hsd E0 N0 E1 N1 L1 L2 L3 Hin Hfuel. rewrite !length_app in Hfuel.
  unfold friend_main, vaddr1, vaddr2, vaddr3.
  change ((0x80000000 mod k2MB) / k4KB) with 0. change ((0x80001000 mod k2MB) / k4KB) with 1.
  change ((0x80002000 mod k2MB) / k4KB) with 2.
  change (rwu 0x100000000) with (0x100000000 + 7). change (rwu 0x100001000) with (0x100001000 + 7).
  change 0x80001000 with (0x80000000 + 1 * 4096). change 0x80002000 with (0x80000000 + 2 * 4096).
  apply (wp_link pdpt pd2 pd pt none); [done|]. intros s1 R1 C1 I1.
  eapply wp_put_pt; [exact R1|lia|lia|]. intros s2 R2 C2 I2.
  change (show_memdata 0x80000000) with (show_memdata (0x80000000 + 0 * 4096)).
  change (invlpg 0x80000000) with (invlpg (0x80000000 + 0 * 4096)).
  apply wp_bind. eapply wp_show; [exact R2|lia|by intros [[]|[_ [=]]]|apply upd_eq|by vm_compute|done|exact E0|]. intros s3 R3 C3 I3.
  apply wp_bind. eapply (wp_wait _ _ _ _ _ _ l1 (l2 ++ l3 ++ rest)); [exact R3|done|lia|congruence|]. intros s4 R4 C4 I4.
  eapply wp_put_pt; [exact R4|lia|lia|]. intros s5 R5 C5 I5.
  apply wp_bind. eapply wp_invlpg; [exact R5|lia|]. intros s6 R6 C6 I6.
  apply wp_bind. eapply wp_show; [exact R6|lia|tauto|apply upd_eq|by vm_compute|done|exact E1|]. intros s7 R7 C7 I7.
  apply wp_bind. eapply (wp_wait _ _ _ _ _ _ l2 (l3 ++ rest)); [exact R7|done|lia|congruence|]. intros s8 R8 C8 I8.
  eapply wp_put_pt; [exact R8|lia|lia|]. intros s9 R9 C9 I9.
  eapply wp_put_pt; [exact R9|lia|lia|]. intros s10 R10 C10 I10.
  apply (running_weaken _ _ _ _ _ _ _ _ _ _ (fun _ => False) (fun _ => eq_refl)) in R10;
    [|intros i Hi Hst; vm_compute in Hst; intuition congruence].
  apply wp_bind. eapply wp_show; [exact R10|lia|tauto|done|by vm_compute|done|exact E0|]. intros s11 R11 C11 I11.
  apply wp_bind. eapply wp_show; [exact R11|lia|tauto|done|by vm_compute|done|exact E1|]. intros s12 R12 C12 I12.
  eapply (wp_wait _ _ _ _ _ _ l3 rest); [exact R12|done|lia|congruence|]. intros s13 R13 C13 I13.
  split_and!; [rewrite C13, C12, C11, C10, C9, C8, C7, C6, C5, C4, C3, C2, C1; done|done|].
  eexists. split; [exact R13|]. split_and!; [done..|].
  intros i Hi. unfold upd. by rewrite !decide_False by lia.
Qed.
End Run.
End Mapping.

(** ** pagefault *)
Module PageFault.
Section PageFault.
Context `{TlbPolicy}.
(** [pt_entry_var] is the address of the variable pt_entry. *)
Context (pdpt pd pt pt_entry_var idt_def idtr_var int_handler1 int_handler2 : Z).

Definition wait_input (fuel : nat) : M core Z :=
  printf "1) retry without doing anything\n" [];;
  printf "2) recover from 0div exception\n" [];;
  choose fuel.

Definition setup_inthandler (handler : Z) : M core unit :=
  Idt.setup_inthandler idt_def idtr_var 14 handler.

(** int.S: int_handler1 returns; int_handler2 stores an entry for 0x100000000 where
    pt_entry points to and invalidates the page. *)
Definition run_handler (h : Z) : M core unit :=
  if h =? int_handler1 then mret tt
  else if h =? int_handler2 then
    rax ← load64 pt_entry_var;
    store64 rax (rwu 0x100000000);;
    invlpg 0x80000000
  else fail Undefined.

(** [x = *((uint64_t * )vaddr)]: the load is repeated after each return of the handler. *)
Fixpoint load_retry (fuel : nat) (va : Z) : M core Z :=
  match fuel with
  | O => fail OutOfFuel
  | S fuel' =>
      r ← vload 8 va;
      match r with
      | Some x => mret x
      | None => h ← deliver 14; run_handler h;; load_retry fuel' va
      end
  end.

Definition vaddr : Z := 0x80000000.

(** friend_main up to the load, with the handler chosen. *)
Definition prepare (handler : Z) : M core unit :=
  setup_inthandler handler;;
  lidt_idtr idtr_var;;
  put_entry pdpt ((vaddr mod k512GB) / k1GB) (rwu (v2p pd));;
  put_entry pd ((vaddr mod k1GB) / k2MB) (rwu (v2p pt));;
  put_entry pt ((vaddr mod k2MB) / k4KB) 0;;
  store64 pt_entry_var (pt + 8 * ((vaddr mod k2MB) / k4KB)).

Definition friend_main (fuel : nat) : M core unit :=
  input ← wait_input fuel;
  match [int_handler1; int_handler2] !! Z.to_nat (input - 1) with
  | Some handler =>
      prepare handler;;
      x ← load_retry fuel vaddr;
      printf "0x%lx: %lx\n" [vaddr; x]
  | None => fail Undefined
  end.
End PageFault.

Section Run.
Context `{TlbPolicy}.
Context (pdpt pd2 pd pt pt_entry_var idt_def idtr_var h1 h2 : Z).

Definition variables (a : Z) : Prop := a = pt_entry_var.

(** A load from an unmapped page of the program. *)
Lemma wp_fault s0 s f stale i :
  running pdpt pd2 pd pt variables s0 s f stale -> 0 <= i < 512 -> ~ stale i -> f i = 0 ->
  wp (vload 8 (0x80000000 + i * 4096))
    (fun r s' => r = None /\ running pdpt pd2 pd pt variables s0 s' f stale /\ idtr s' = idtr s /\
       pmem s' = pmem s /\ console s' = console s /\ stdin s' = stdin s) s.
Proof.
  intros Hru Hi Hs Hf.
  assert ((0x80000000 + i * 4096) / 4096 = 0x80000 + i) as Ed.
  { replace (0x80000000 + i * 4096) with ((0x80000 + i) * 4096) by lia. by rewrite Z.div_mul. }
  assert ((0x80000000 + i * 4096) mod 4096 = 0) as Em.
  { replace (0x80000000 + i * 4096) with ((0x80000 + i) * 4096) by lia. by rewrite Z.mod_mul. }
  pose proof (linked_current _ _ _ _ _ _ _ _ _ _ i (ru_linked _ _ _ _ _ _ _ _ _ Hru) Hi) as Hcur.
  rewrite Hf in Hcur. change (pte_entry (pge s) (Some 0)) with (@None tlb_entry) in Hcur.
  unfold vload. rewrite Em. change (4096 <? 0 + Z.of_nat 8) with false. cbv iota.
  unfold wp, translate, lookup_page, mbind, M_bind, get, put, mret, M_ret. cbn [tlb].
  rewrite Ed, current_tlb.
  assert (tlb_next s !! (0x80000 + i) = None) as ->.
  { destruct (tlb_next s !! (0x80000 + i)) as [e|] eqn:E; [|done].
    destruct (tlb_next_ok s _ _ E) as [E'|E']; [|congruence].
    apply (ru_coherent _ _ _ _ _ _ _ _ _ Hru i Hi Hs) in E' as [g E']. congruence. }
  rewrite Hcur. split; [done|]. split; [|done]. eapply running_quiet; [|exact Hru].
  split; [done| |done]. intros p e. cbn. rewrite Ed, lookup_delete_Some. intros [_ He].
  by apply tlb_next_ok.
Qed.

(** Where the variables are. *)
Record placed_vars : Prop := {
  pv_table : placed 0x100000 0x140000 (friend_slots pdpt pd2) idt_def idtr_var;
  pv_apart : table_apart pdpt pd pt idt_def idtr_var;
  pv_var : forall x, table_range idt_def idtr_var x -> x / 8 * 8 <> pt_entry_var;
  pv_entry : own_var pdpt pd2 pd pt variables pt_entry_var
}.

Hypothesis Hvars : placed_vars.

(** The handler table stays installed while the program runs. *)
Lemma running_gate s0 s f stale h :
  running pdpt pd2 pd pt variables s0 s f stale -> installed idt_def s0 14 h -> installed idt_def s 14 h.
Proof.
  intros Hru Hi. pose proof (pv_table Hvars) as [[W1 W2] [A1 _] Hin _ _].
  eapply running_installed; [exact Hru|done|lia|lia|]. intros a x Ha Hx Hax.
  assert (table_range idt_def idtr_var x) as Htr by (left; lia).
  destruct (pv_apart Hvars x Htr) as [N3 Nn]. pose proof (pv_var Hvars x Htr) as Nv.
  assert (slot a) as (_ & Ha8 & _).
  { eapply program_slot; [exact Hru| |done]. intros b ->. apply (pv_entry Hvars). }
  assert (x / 8 * 8 = a) as E.
  { pose proof (Z.div_mod x 8 ltac:(done)). pose proof (Z.mod_pos_bound x 8 ltac:(done)).
    pose proof (Z.div_mod a 8 ltac:(done)). lia. }
  rewrite E in *. destruct Ha as [->|[->|[(i & Hi' & ->)| ->]]]; [done| | |done].
  - apply (proj1 (Nn 0 ltac:(lia))). lia.
  - by apply (proj2 (Nn i Hi')).
Qed.

(** The state of the program when it loads from the unmapped page. *)
Record loading (s0 s : core) (h : Z) : Prop := {
  ld_running : running pdpt pd2 pd pt variables s0 s (fun _ => 0) (fun _ => False);
  ld_installed : installed idt_def s0 14 h;
  ld_entry : read64 (pmem s) pt_entry_var = Some pt;
  ld_cr3 : cr3 s0 = INITIAL_PML4T
}.

Lemma loading_window s0 s f stale :
  running pdpt pd2 pd pt variables s0 s f stale -> window s 0x100000 0x140000 0 (friend_slots pdpt pd2).
Proof. intros Hru. apply (lk_window _ _ _ _ _ _ _ _ _ _ (ru_linked _ _ _ _ _ _ _ _ _ Hru)). Qed.

(** The fault, and the call of the handler. *)
Lemma loading_fault s0 s h :
  loading s0 s h ->
  wp (vload 8 vaddr) (fun r s' => r = None /\ loading s0 s' h /\ console s' = console s /\ stdin s' = stdin s) s.
Proof.
  intros [Hru Hin He E3]. change vaddr with (0x80000000 + 0 * 4096).
  eapply wp_mono; [eapply wp_fault; [exact Hru|lia|tauto|done]|].
  intros r s1 (-> & R1 & _ & M1 & C1 & I1). split_and!; [done| |done|done]. split; [done|done| |done].
  by rewrite M1.
Qed.

Lemma loading_deliver s0 s h :
  loading s0 s h -> 0 <= h < 2 ^ 64 ->
  wp (deliver 14) (fun r s' => r = h /\ loading s0 s' h /\ console s' = console s /\ stdin s' = stdin s) s.
Proof.
  intros [Hru Hin He E3] Hh. eapply wp_mono.
  { eapply (wp_deliver 0x100000 0x140000 (friend_slots pdpt pd2) idt_def idtr_var 14 h);
      [apply Hvars|by eapply loading_window|lia|done|by eapply running_gate]. }
  intros r s2 (-> & Q2 & _ & C2 & I2). split_and!; [done| |done|done].
  split; [by eapply running_quiet|done| |done]. by rewrite (qu_mem _ _ Q2).
Qed.

(** The first handler: the same load again, for ever. *)
Lemma load_forever fuel s0 s :
  loading s0 s h1 -> 0 <= h1 < 2 ^ 64 ->
  load_retry pt_entry_var h1 h2 fuel vaddr s = Fault OutOfFuel.
Proof.
  revert s. induction fuel as [|fuel IH]; intros s Hl Hh; [done|]. cbn [load_retry].
  apply wp_then_fault. eapply wp_mono; [by apply (loading_fault s0 s h1)|].
  intros r s1 (-> & L1 & _). cbv beta iota.
  apply wp_then_fault. eapply wp_mono; [by apply (loading_deliver s0 s1 h1)|].
  intros r s2 (-> & L2 & _). cbv beta. unfold run_handler. rewrite Z.eqb_refl.
  apply wp_then_fault, wp_ret. by apply IH.
Qed.

(** The second handler: the load succeeds when it is repeated. *)
Lemma load_recovers fuel s0 s m (Q : Z -> core -> Prop) :
  loading s0 s h2 -> h1 <> h2 -> 0 <= h2 < 2 ^ 64 ->
  read64 (pmem s0) 0x100000000 = Some m -> ~ program_slots pdpt pd pt variables 0x100000000 ->
  (forall s', running pdpt pd2 pd pt variables s0 s' (upd (fun _ => 0) 0 0x100000007) (fun _ => False) ->
     console s' = console s -> stdin s' = stdin s -> Q m s') ->
  wp (load_retry pt_entry_var h1 h2 (S (S fuel)) vaddr) Q s.
Proof.
  intros Hl Hne Hh Hm Hn HQ. cbn [load_retry].
  apply wp_bind. eapply wp_mono; [by apply (loading_fault s0 s h2)|].
  intros r s1 (-> & L1 & C1 & I1). cbv beta iota.
  apply wp_bind. eapply wp_mono; [by apply (loading_deliver s0 s1 h2)|].
  intros r s2 (-> & [R2 Hin E2 E3] & C2 & I2). cbv beta. unfold run_handler.
  rewrite (proj2 (Z.eqb_neq h2 h1)), Z.eqb_refl by congruence.
  apply wp_bind. apply wp_bind.
  pose proof (pv_entry Hvars) as (_ & (_ & V8 & _) & Vr & _).
  eapply wp_mono.
  { eapply (wp_load64_window 0x100000 0x140000 0 (friend_slots pdpt pd2));
      [by eapply loading_window| |done|by rewrite Z.add_0_r].
    unfold DEPLOY_PHYS_ADDR_START, DEPLOY_PHYS_ADDR_END in Vr. lia. }
  intros r s3 [-> A3]. cbv beta. destruct (aa_io _ _ _ A3) as [C3 I3].
  apply loaded_quiet in A3. pose proof (running_quiet _ _ _ _ _ _ _ _ _ _ A3 R2) as R3.
  change (rwu 0x100000000) with 0x100000007.
  replace (store64 pt 0x100000007) with (put_entry pt 0 0x100000007) by (unfold put_entry; f_equal; lia).
  eapply wp_put_pt; [exact R3|lia|lia|]. intros s4 R4 C4 I4.
  change 0x80000000 with (0x80000000 + 0 * 4096).
  eapply wp_invlpg; [exact R4|lia|]. intros s5 R5 C5 I5. cbv beta.
  eapply (running_weaken _ _ _ _ _ _ _ _ _ _ (fun _ => False) (fun _ => eq_refl)) in R5; [|tauto].
  apply wp_bind. eapply wp_mono.
  { apply wp_no_fault. change vaddr with (0x80000000 + 0 * 4096).
    eapply (wp_read_mapped pdpt pd2 pd pt variables s0 s5 _ _ 0 0x100000000 m (fun x s' => x = m /\ _));
      [exact R5|lia|tauto|apply upd_eq|by vm_compute|done|done|].
    intros s6 R6 C6 I6. exact (conj eq_refl (conj R6 (conj C6 I6))). }
  intros r s6 (x & -> & -> & R6 & C6 & I6). apply wp_ret. apply HQ; [done|congruence|congruence].
Qed.

(** What the table stores leave of a word. *)
Definition outside_tables (a : Z) : Prop :=
  slot a /\ ~ program_slots pdpt pd pt variables a /\
  forall x, table_range idt_def idtr_var x -> a <> x / 8 * 8.

Lemma wp_prepare h s :
  started pdpt pd2 pd pt s -> 0 <= h < 2 ^ 64 ->
  wp (prepare pdpt pd pt pt_entry_var idt_def idtr_var h)
    (fun _ s' => console s' = console s /\ stdin s' = stdin s /\
       exists s0, loading s0 s' h /\
         forall a, outside_tables a -> read64 (pmem s0) a = read64 (pmem s) a) s.
Proof.
  intros Hsd Hh. unfold prepare, setup_inthandler. apply wp_assoc.
  eapply wp_mono; [apply (wp_install 0x100000 0x140000 (friend_slots pdpt pd2));
    [apply Hvars|apply Hsd|lia|done]|].
  intros [] s0 Hts. cbv beta. pose proof (started_table _ _ _ _ _ _ _ _ _ _ (pv_table Hvars) (pv_apart Hvars) Hsd Hts) as Hsd0.
  destruct (ts_io _ _ _ _ _ _ _ _ _ Hts) as [C0 I0].
  assert (page pt) as Ppt by apply (sd_pages _ _ _ _ _ Hsd).
  apply (wp_link pdpt pd2 pd pt variables); [done|]. intros s1 R1 C1 I1.
  change ((vaddr mod k2MB) / k4KB) with 0.
  eapply wp_put_pt; [exact R1|lia|lia|]. intros s2 R2 C2 I2.
  eapply wp_put_var; [exact R2|apply Hsd0|apply Hvars|destruct Ppt; lia|]. intros s3 R3 [_ E3] C3 I3.
  split_and!; [congruence|congruence|]. exists s0. split.
  - split; [|apply Hts|by rewrite Z.add_0_r in E3|apply Hsd0].
    eapply running_weaken; [| |exact R3].
    + intros i. unfold upd. by destruct (decide _).
    + intros i Hi [[]|[_ [=]]].
  - intros a (Ha & _ & Hn). apply (su_read _ _ _ (ts_mem _ _ _ _ _ _ _ _ _ Hts)); [done|].
    intros (x & Hx & E). by apply (Hn x).
Qed.

Lemma pagefault_recovers fuel l rest s m :
  started pdpt pd2 pd pt s -> 0 <= h2 < 2 ^ 64 -> h1 <> h2 ->
  chooses l 2 -> (length l <= fuel)%nat -> (2 <= fuel)%nat -> stdin s = l ++ rest ->
  read64 (pmem s) 0x100000000 = Some m -> outside_tables 0x100000000 ->
  wp (friend_main pdpt pd pt pt_entry_var idt_def idtr_var h1 h2 fuel)
    (fun _ s' => console s' = ("0x%lx: %lx\n"%string, [vaddr; m]) :: replicate (length l) prompt ++
                   menu ++ console s /\ stdin s' = rest) s.
Proof.
  intros Hsd Hh Hne Hc Hf H2 Hs Hm Hout. unfold friend_main. apply wp_bind. unfold wp at 1.
  change (wait_input fuel s) with (choose fuel (set_io (menu ++ console s) (stdin s) s)).
  rewrite (choose_spec fuel l 2 rest) by done.
  change ([h1; h2] !! Z.to_nat (2 - 1)) with (Some h2). cbv iota.
  apply wp_bind. eapply wp_mono; [by apply wp_prepare; [do 2 apply started_io|]|].
  intros [] s1 (C1 & I1 & s0 & L1 & Hw). cbv beta.
  destruct fuel as [|[|fuel]]; [lia|lia|]. apply wp_bind.
  eapply load_recovers; [exact L1|done|done|by rewrite Hw|apply Hout|].
  intros s2 R2 C2 I2. eapply wp_printf; [exact R2|]. intros s3 R3 _ C3 I3.
  split; [rewrite C3, C2, C1; done|]. by rewrite I3, I2, I1.
Qed.

Lemma pagefault_loops fuel l rest s :
  started pdpt pd2 pd pt s -> 0 <= h1 < 2 ^ 64 -> chooses l 1 -> stdin s = l ++ rest ->
  friend_main pdpt pd pt pt_entry_var idt_def idtr_var h1 h2 fuel s = Fault OutOfFuel.
Proof.
  intros Hsd Hh Hc Hs. unfold friend_main, mbind at 1, M_bind at 1.
  change (wait_input fuel s) with (choose fuel (set_io (menu ++ console s) (stdin s) s)).
  destruct (choose_short fuel l 1 rest (set_io (menu ++ console s) (stdin s) s) Hc Hs) as [-> | ->]; [done|].
  change ([h1; h2] !! Z.to_nat (1 - 1)) with (Some h1). cbv iota.
  apply wp_then_fault. eapply wp_mono; [by apply wp_prepare; [do 2 apply started_io|]|].
  intros [] s1 (_ & _ & s0 & L1 & _). cbv beta. unfold mbind, M_bind.
  by rewrite (load_forever fuel s0 s1 L1).
Qed.
End Run.
End PageFault.

(** ** hierarchy *)
Module Hierarchy.
Section Hierarchy.
Context `{TlbPolicy}.
Context (pdpt pd pt1 pt2 : Z).

Definition wait_input (fuel : nat) (i : Z) : M core unit :=
  printf "[%d/2] press Enter key to go to the next step:" [i];;
  Mapping.read_line fuel.

Definition vaddr1 : Z := 0x80000000.
Definition vaddr2 : Z := 0x80200000.

Definition friend_main (fuel : nat) : M core unit :=
  put_entry pdpt ((vaddr1 mod k512GB) / k1GB) (rwu (v2p pd));;
  put_entry pd ((vaddr1 mod k1GB) / k2MB) (rwu (v2p pt1));;
  put_entry pt1 ((vaddr1 mod k2MB) / k4KB) (rwu 0x100000000);;
  wait_input fuel 1;;
  put_entry pd ((vaddr2 mod k1GB) / k2MB) (rwu (v2p pt2));;
  put_entry pt2 ((vaddr2 mod k2MB) / k4KB) (rwu 0x100000000);;
  wait_input fuel 2.
End Hierarchy.

Section Run.
Context `{TlbPolicy}.
Context (pdpt pd2 pd pt1 pt2 : Z).

(** The slots of the second page table and of its link. *)
Definition second (a : Z) : Prop := a = pd + 8 * 1 \/ a = pt2 + 8 * 0.

Lemma wp_wait_line s0 s f stale fuel i l rest (Q : unit -> core -> Prop) :
  running pdpt pd2 pd pt1 second s0 s f stale -> Mapping.line l -> (length l <= fuel)%nat ->
  stdin s = l ++ rest ->
  (forall s', running pdpt pd2 pd pt1 second s0 s' f stale -> pmem s' = pmem s -> stdin s' = rest -> Q tt s') ->
  wp (wait_input fuel i) Q s.
Proof.
  intros Hru Hl Hf Hs Hk. unfold wait_input. apply wp_bind.
  eapply wp_printf; [exact Hru|]. intros s1 R1 M1 C1 I1.
  unfold wp. rewrite (Mapping.read_line_spec _ l rest) by congruence. apply Hk; [|done|done].
  eapply running_quiet; [apply quiet_io|done].
Qed.

Lemma second_own :
  own_page pdpt pd2 pd -> own_page pdpt pd2 pt1 -> own_page pdpt pd2 pt2 -> NoDup [pd; pt1; pt2] ->
  page pdpt -> page pd2 ->
  own_var pdpt pd2 pd pt1 second (pd + 8 * 1) /\ own_var pdpt pd2 pd pt1 second (pt2 + 8 * 0).
Proof.
  intros Od O1 O2 Hnd P3 P2. rewrite !NoDup_cons, !elem_of_cons, elem_of_nil in Hnd.
  pose proof Od as (Pd & Ld & Hd & Nd3 & Nd2). pose proof O1 as (P1 & _). pose proof O2 as (Pt & Lt & Ht & Nt3 & Nt2).
  split.
  - split_and!; [by left|by apply page_slot|lia|lia|by apply own_not_friend| |lia|];
      intros; apply entry_addr_ne; done || lia || naive_solver lia.
  - split_and!; [by right|by apply page_slot|lia|lia|by apply own_not_friend| | |];
      [intros; apply entry_addr_ne; done || lia || naive_solver lia| |intros; apply entry_addr_ne; done || lia || naive_solver lia].
    intros E. destruct (page_slot_inj pt2 pd 0 0); [done|done|lia|lia|lia|naive_solver].
Qed.

Lemma hierarchy_spec s0 fuel l1 l2 rest :
  started pdpt pd2 pd pt1 s0 -> own_page pdpt pd2 pt2 -> pt2 <> pd -> pt2 <> pt1 ->
  Mapping.line l1 -> Mapping.line l2 -> stdin s0 = l1 ++ l2 ++ rest -> (length (l1 ++ l2) <= fuel)%nat ->
  wp (friend_main pdpt pd pt1 pt2 fuel)
    (fun _ s => maps_to s 0x80000 0x100000000 true /\ maps_to s 0x80200 0x100000000 true /\
                stdin s = rest) s0.
Proof.
  intros Hsd O2 N1 N2 L1 L2 Hin Hf. rewrite length_app in Hf.
  pose proof Hsd as [Hvm (Od & O1 & N3) _ _ _]. pose proof (fv_pages _ _ _ Hvm) as (P3 & P2 & _).
  pose proof O2 as (Pt2 & _). pose proof Od as (Pd & _).
  destruct second_own as [V1 V2]; [done|done|done| |done|done|].
  { rewrite !NoDup_cons. split_and!; [set_solver|set_solver|set_solver|apply NoDup_nil_2]. }
  unfold friend_main, vaddr1, vaddr2, wait_input.
  change ((0x80000000 mod k2MB) / k4KB) with 0. change ((0x80200000 mod k2MB) / k4KB) with 0.
  change ((0x80200000 mod k1GB) / k2MB) with 1. change (rwu 0x100000000) with 0x100000007.
  apply (wp_link pdpt pd2 pd pt1 second); [done|]. intros s1 R1 C1 I1.
  eapply wp_put_pt; [exact R1|lia|lia|]. intros s2 R2 C2 I2.
  apply wp_bind. eapply (wp_wait_line _ _ _ _ _ _ l1 (l2 ++ rest)); [exact R2|done|lia|congruence|]. intros s3 R3 M3 I3.
  apply wp_bind. unfold v2p. rewrite (rwu_page pt2) by done. change (put_entry pd 1 ?x) with (store64 (pd + 8 * 1) x).
  eapply wp_put_var; [exact R3|apply Hvm|exact V1|destruct Pt2; lia|]. intros s4 R4 S4 C4 I4.
  apply wp_bind. change (put_entry pt2 0 ?x) with (store64 (pt2 + 8 * 0) x).
  eapply wp_put_var; [exact R4|apply Hvm|exact V2|lia|]. intros s5 R5 S5 C5 I5.
  eapply (wp_wait_line _ _ _ _ _ _ l2 rest); [exact R5|done|lia|congruence|]. intros s6 R6 M6 I6.
  assert (read64 (pmem s6) (pd + 8 * 1) = Some (pt2 + 7)) as E1.
  { rewrite M6, (stored_read _ _ _ _ S5); [apply S4|by apply page_slot|]. apply entry_addr_ne; done || lia || naive_solver lia. }
  assert (read64 (pmem s6) (pt2 + 8 * 0) = Some 0x100000007) as E2 by (rewrite M6; apply S5).
  pose proof (ru_linked _ _ _ _ _ _ _ _ _ R6) as Hl. split_and!; [| |done].
  - pose proof (linked_current _ _ _ _ _ _ _ _ _ _ 0 Hl ltac:(lia)) as Ec.
    rewrite upd_eq in Ec. eexists. exact Ec.
  - pose proof (lk_area _ _ _ _ _ _ _ _ _ _ Hl) as [_ _ A4 A3 _].
    assert (area s6 0x80200 pdpt pd pt2) as Har by (by split).
    destruct (area_walk _ _ _ _ _ 0 Har) as [Ec _]; [lia|]. rewrite E2 in Ec. eexists. exact Ec.
Qed.
End Run.
End Hierarchy.

(** ** address_space *)
Module AddressSpace.
Section AddressSpace.
Context `{TlbPolicy}.
Context (pdpt pd : Z).

Definition vaddr : Z := 0x80000000.

(** The program ends in a loop of hlt. *)
Definition friend_main : M core ending :=
  put_entry pdpt ((vaddr mod k512GB) / k1GB) (rwu (v2p pd));;
  put_entry pd ((vaddr mod k1GB) / k2MB) (Z.lor (rwu 0x100000000) (Z.shiftl 1 7));;
  x ← load64 vaddr;
  printf "0x%lx: %lx\n" [vaddr; x];;
  printf "ready\n" [];;
  mret Halted.
End AddressSpace.

Lemma address_space_spec `{TlbPolicy} pdpt pd2 pd s m :
  friend_vm s pdpt pd2 -> own_page pdpt pd2 pd ->
  read64 (pmem s) (pdpt + 8 * 2) = Some 0 -> read64 (pmem s) (pd + 8 * 0) = Some 0 ->
  coherent s 0x80000 -> read64 (pmem s) 0x100000000 = Some m ->
  0x100000000 <> pdpt + 8 * 2 -> 0x100000000 <> pd + 8 * 0 ->
  wp (friend_main pdpt pd)
    (fun r s' => r = Halted /\
       console s' = [("ready\n"%string, []); ("0x%lx: %lx\n"%string, [0x80000000; m])] ++ console s /\
       forall i, 0 <= i < 512 -> maps_to s' (0x80000 + i) (0x100000000 + i * 4096) true) s.
Proof.
  intros Hvm Od Z3 Zd Hco Hm Nm1 Nm2. pose proof (fv_pages _ _ _ Hvm) as (P3 & P2 & N32 & L3 & H3).
  pose proof Od as (Pd & Ld & Hd & Nd3 & Nd2). unfold friend_main, vaddr.
  change ((0x80000000 mod k512GB) / k1GB) with 2. change ((0x80000000 mod k1GB) / k2MB) with 0.
  change (Z.lor (rwu 0x100000000) (Z.shiftl 1 7)) with 0x100000087. unfold v2p. rewrite rwu_page by done.
  apply wp_bind. eapply wp_mono; [eapply wp_put_friend; [exact Hvm|done|done|done|lia|destruct Pd; lia]|].
  intros [] s1 S1. cbv beta in S1 |- *.
  assert (friend_vm s1 pdpt pd2) as V1 by (eapply friend_vm_stored; [exact S1|by apply pdpt_not_friend|done]).
  apply wp_bind. eapply wp_mono; [eapply (wp_put_friend _ _ _ _ 0); [exact V1|done|done|done|lia|lia]|].
  intros [] s2 S2. cbv beta in S2 |- *.
  assert (friend_vm s2 pdpt pd2) as V2 by (eapply friend_vm_stored; [exact S2|by apply own_not_friend|done]).
  assert (pdpt + 8 * 2 <> pd + 8 * 0) as D by (apply entry_addr_ne; auto; lia).
  assert (huge_page s2 0x80000 pdpt pd 0x100000087 0x100000000) as Hh.
  { split; [done|done|rewrite (fv_cr3 _ _ _ V2); apply V2| |apply S2|by vm_compute].
    change (pdpt_index (0x80000 * 4096)) with 2. rewrite (stored_read _ _ _ _ S2); [apply S1|by apply page_slot|done]. }
  assert (coherent s2 0x80000) as Hc2.
  { eapply (stored_coherent_absent _ _ _ 0); [exact S2| |done|by eapply stored_coherent_absent; [exact S1|exact Z3|..]].
    rewrite (stored_read _ _ _ _ S1); [exact Zd|by apply page_slot|congruence]. }
  apply wp_bind. eapply wp_mono.
  { eapply (wp_load64 0x80000000 0x100000000 true m); [done|done|apply (huge_walk _ _ _ _ _ _ 0 Hh); lia|].
    change (0x100000000 + 0x80000000 mod 4096) with 0x100000000.
    rewrite (stored_read _ _ _ _ S2), (stored_read _ _ _ _ S1); [done|by vm_compute|done|by vm_compute|exact Nm2]. }
  intros r s3 [-> A3]. cbv beta. destruct (aa_io _ _ _ A3) as [C3 _]. apply loaded_quiet in A3.
  apply wp_bind. unfold wp at 1, printf. apply wp_bind. unfold wp at 1, printf. apply wp_ret.
  split_and!; [done| |].
  - cbn. rewrite C3. destruct (st_io _ _ _ S2) as [-> _], (st_io _ _ _ S1) as [-> _]. done.
  - intros i Hi. destruct (huge_walk _ _ _ _ _ _ i Hh Hi) as [[g Hg] _]. exists g.
    etrans; [|exact Hg]. apply (quiet_current _ _ _ A3).
Qed.
End AddressSpace.

Definition demo_pd : Z := 0x100013000.
Definition demo_pt : Z := 0x100014000.

Lemma demo_started input : started demo_pdpt demo_pd2 demo_pd demo_pt (demo_core input).
Proof.
  split.
  - apply demo_friend_vm.
  - by vm_compute.
  - apply (demo_zero_at demo_pdpt 2); by vm_compute.
  - split; intros i Hi; apply demo_zero_at; by vm_compute || done.
  - intros i _. by apply fresh_coherent.
Qed.

(** ** Properties *)

(** Tutorial/paging/mapping.  Whatever the translation cache keeps or prefetches,
    the program ends once it has read three lines; it shows the word at physical address
    0x100000000, then, after the page has been mapped elsewhere and invalidated, the one
    at 0x100001000 at the same virtual address, and then both at two further pages,
    which need no invalidation. *)
Theorem mapping_follows_tables (pol : TlbPolicy) pdpt pd2 pd pt s fuel l1 l2 l3 rest m0 m1 :
  started pdpt pd2 pd pt s ->
  read64 (pmem s) 0x100000000 = Some m0 -> ~ program_slots pdpt pd pt Mapping.none 0x100000000 ->
  read64 (pmem s) 0x100001000 = Some m1 -> ~ program_slots pdpt pd pt Mapping.none 0x100001000 ->
  Mapping.line l1 -> Mapping.line l2 -> Mapping.line l3 -> stdin s = l1 ++ l2 ++ l3 ++ rest ->
  (length (l1 ++ l2 ++ l3) <= fuel)%nat ->
  exists s', Mapping.friend_main pdpt pd pt fuel s = Done (tt, s') /\
    console s' = Mapping.shown m0 m1 ++ console s /\ stdin s' = rest /\
    maps_to s' 0x80000 0x100001000 true /\ maps_to s' 0x80001 0x100000000 true /\
    maps_to s' 0x80002 0x100001000 true /\
    (forall i, 3 <= i < 512 -> current s' (0x80000 + i) = None) /\
    (forall i, 0 <= i < 512 -> coherent s' (0x80000 + i)).
Proof.
  intros Hsd E0 N0 E1 N1 L1 L2 L3 Hin Hf.
  destruct (wp_done _ _ _ (Mapping.mapping_spec pdpt pd2 pd pt s fuel l1 l2 l3 rest m0 m1
    Hsd E0 N0 E1 N1 L1 L2 L3 Hin Hf)) as ([] & s' & E & C & I & f & Hru & F0 & F1 & F2 & F3).
  assert (forall i, 0 <= i < 512 -> current s' (0x80000 + i) = pte_entry (pge s') (Some (f i))) as Hcur.
  { intros i Hi. by apply (linked_current _ _ _ _ _ _ _ _ _ _ i (ru_linked _ _ _ _ _ _ _ _ _ Hru)). }
  exists s'. split_and!; [done|done|done|..].
  - pose proof (Hcur 0 ltac:(lia)) as Hc. rewrite F0 in Hc. eexists. exact Hc.
  - pose proof (Hcur 1 ltac:(lia)) as Hc. rewrite F1 in Hc. eexists. exact Hc.
  - pose proof (Hcur 2 ltac:(lia)) as Hc. rewrite F2 in Hc. eexists. exact Hc.
  - intros i Hi. rewrite Hcur, F3 by lia. done.
  - intros i Hi. apply (ru_coherent _ _ _ _ _ _ _ _ _ Hru i Hi). tauto.
Qed.

(** C27: tutorial/paging/pagefault.  The load from the unmapped page raises a page
    fault that is delivered to the handler the user chose.  With the first one the
    program repeats the load for ever; the second one maps the page to 0x100000000
    through pt_entry, and the program shows the word there.  Without a
    1 or 2 in the input the program never gets past its question. *)
Theorem pagefault_handlers (pol : TlbPolicy) pdpt pd2 pd pt pt_entry_var idt_def idtr_var h1 h2 s l i rest m :
  PageFault.placed_vars pdpt pd2 pd pt pt_entry_var idt_def idtr_var ->
  started pdpt pd2 pd pt s -> uint 64 h1 -> uint 64 h2 -> h1 <> h2 ->
  chooses l i -> stdin s = l ++ rest ->
  read64 (pmem s) 0x100000000 = Some m ->
  PageFault.outside_tables pdpt pd pt pt_entry_var idt_def idtr_var 0x100000000 ->
  if i =? 1 then
    forall fuel, PageFault.friend_main pdpt pd pt pt_entry_var idt_def idtr_var h1 h2 fuel s = Fault OutOfFuel
  else
    forall fuel, (length l + 2 <= fuel)%nat ->
    exists s', PageFault.friend_main pdpt pd pt pt_entry_var idt_def idtr_var h1 h2 fuel s = Done (tt, s') /\
      console s' = ("0x%lx: %lx\n"%string, [0x80000000; m]) :: replicate (length l) prompt ++ menu ++ console s /\
      stdin s' = rest.
Proof.
  intros Hv Hsd B1 B2 Hne Hc Hs Hm Hout. destruct (chooses_in _ _ Hc) as [->| ->]; cbn [Z.eqb Pos.eqb].
  - intros fuel. by apply (PageFault.pagefault_loops pdpt pd2 pd pt pt_entry_var idt_def idtr_var h1 h2 Hv fuel l rest).
  - intros fuel Hf.
    destruct (wp_done _ _ _ (PageFault.pagefault_recovers pdpt pd2 pd pt pt_entry_var idt_def idtr_var h1 h2 Hv
      fuel l rest s m Hsd B2 Hne Hc ltac:(lia) ltac:(lia) Hs Hm Hout)) as ([] & s' & E & C & I). eauto.
Qed.

(** Tutorial/paging/address_space and hierarchy.  A 2 MB entry makes the whole
    2 MB at 0x80000000 reach the memory at 0x100000000, and the program shows its first
    word before it halts; and a second page table linked into the same directory makes
    0x80200000 reach the page that 0x80000000 reaches. *)
Theorem tables_share_pages (pol : TlbPolicy) pdpt pd2 pd pt1 pt2 s fuel l1 l2 rest m :
  started pdpt pd2 pd pt1 s -> own_page pdpt pd2 pt2 -> pt2 <> pd -> pt2 <> pt1 ->
  read64 (pmem s) 0x100000000 = Some m -> 0x100000000 <> pdpt + 8 * 2 -> 0x100000000 <> pd + 8 * 0 ->
  Mapping.line l1 -> Mapping.line l2 -> stdin s = l1 ++ l2 ++ rest -> (length (l1 ++ l2) <= fuel)%nat ->
  (exists s', AddressSpace.friend_main pdpt pd s = Done (Halted, s') /\
     console s' = [("ready\n"%string, []); ("0x%lx: %lx\n"%string, [0x80000000; m])] ++ console s /\
     forall i, 0 <= i < 512 -> maps_to s' (0x80000 + i) (0x100000000 + i * 4096) true) /\
  (exists s', Hierarchy.friend_main pdpt pd pt1 pt2 fuel s = Done (tt, s') /\
     maps_to s' 0x80000 0x100000000 true /\ maps_to s' 0x80200 0x100000000 true /\ stdin s' = rest).
Proof.
  intros Hsd O2 N1 N2 Hm M1 M2 L1 L2 Hs Hf.
  pose proof Hsd as [Hvm (Od & _) Z3 [Zd _] Hco]. split.
  - destruct (wp_done _ _ _ (AddressSpace.address_space_spec pdpt pd2 pd s m Hvm Od Z3 (Zd 0 ltac:(lia))
      (Hco 0 ltac:(lia)) Hm M1 M2)) as (r & s' & E & -> & C & Hmap). eauto.
  - destruct (wp_done _ _ _ (Hierarchy.hierarchy_spec pdpt pd2 pd pt1 pt2 s fuel l1 l2 rest Hsd O2 N1 N2 L1 L2 Hs Hf))
      as ([] & s' & E & Hr). eauto.
Qed.

(** *** Witnesses *)

Lemma newline_line : Mapping.line [10].
Proof. exists []. split; [done|apply not_elem_of_nil]. Qed.

Lemma demo_word p : page p -> in_friend_region p -> in_friend_region (p + 4095) ->
  p <> demo_pdpt -> p <> demo_pd1 -> p <> demo_pd2 -> read64 demo_memory p = Some 0.
Proof.
  intros Hp H1 H2 N3 N1 N2. rewrite <- (Z.add_0_r p). change 0 with (8 * 0) at 1.
  by apply demo_zero_at.
Qed.

Lemma mapping_follows_tables_witness :
  exists s', Mapping.friend_main (H := keep_all) demo_pdpt demo_pd demo_pt 3 (demo_core [10; 10; 10]) = Done (tt, s') /\
    console s' = Mapping.shown 0 0 ++ [] /\ stdin s' = [] /\
    maps_to s' 0x80000 0x100001000 true /\ maps_to s' 0x80001 0x100000000 true /\
    maps_to s' 0x80002 0x100001000 true /\
    (forall i, 3 <= i < 512 -> current s' (0x80000 + i) = None) /\
    (forall i, 0 <= i < 512 -> coherent s' (0x80000 + i)).
Proof.
  apply (mapping_follows_tables keep_all demo_pdpt demo_pd2 demo_pd demo_pt (demo_core [10; 10; 10]) 3
           [10] [10] [10] []).
  - apply demo_started.
  - apply demo_word; by vm_compute.
  - unfold program_slots, demo_pdpt, demo_pd, demo_pt, Mapping.none. intros [E|[E|[(i & Hi & E)|[]]]]; lia.
  - apply demo_word; by vm_compute.
  - unfold program_slots, demo_pdpt, demo_pd, demo_pt, Mapping.none. intros [E|[E|[(i & Hi & E)|[]]]]; lia.
  - exact newline_line.
  - exact newline_line.
  - exact newline_line.
  - reflexivity.
  - cbn. lia.
Defined.

Lemma pagefault_handlers_witness :
  if 2 =? 1 then
    forall fuel, PageFault.friend_main (H := keep_all) demo_pdpt demo_pd demo_pt 0x100020800 0x100020000 0x100020400
      0x100003000 0x100004000 fuel (demo_core [50]) = Fault OutOfFuel
  else
    forall fuel, (length [50] + 2 <= fuel)%nat ->
    exists s', PageFault.friend_main (H := keep_all) demo_pdpt demo_pd demo_pt 0x100020800 0x100020000 0x100020400
      0x100003000 0x100004000 fuel (demo_core [50]) = Done (tt, s') /\
      console s' = ("0x%lx: %lx\n"%string, [0x80000000; 0]) :: replicate (length [50]) prompt ++ menu ++ [] /\
      stdin s' = [].
Proof.
  apply (pagefault_handlers keep_all demo_pdpt demo_pd2 demo_pd demo_pt 0x100020800 0x100020000 0x100020400
           0x100003000 0x100004000 (demo_core [50]) [50] 2 [] 0).
  - split.
    + exact demo_placed.
    + intros x Hx. unfold table_range in Hx.
      pose proof (Z.div_mod x 8 ltac:(done)). pose proof (Z.mod_pos_bound x 8 ltac:(done)).
      unfold demo_pdpt, demo_pd, demo_pt. split; [lia|]. intros i Hi. lia.
    + intros x Hx. unfold table_range in Hx.
      pose proof (Z.div_mod x 8 ltac:(done)). pose proof (Z.mod_pos_bound x 8 ltac:(done)). lia.
    + split_and!; [reflexivity|by vm_compute|by vm_compute|by vm_compute| |done|done|].
      * intros [E|[E|(j & Hj & E)]]; unfold INITIAL_PML4T, TRAMPOLINE_ADDR, PAGE_SIZE, demo_pdpt, demo_pd2 in *; lia.
      * intros i Hi. unfold demo_pt. lia.
  - apply demo_started.
  - by vm_compute.
  - by vm_compute.
  - lia.
  - exists []. split_and!; [reflexivity|by right|apply not_elem_of_nil|apply not_elem_of_nil].
  - reflexivity.
  - apply demo_word; by vm_compute.
  - split_and!; [by vm_compute| |].
    + unfold program_slots, PageFault.variables, demo_pdpt, demo_pd, demo_pt.
      intros [E|[E|[(i & Hi & E)|E]]]; lia.
    + intros x Hx. unfold table_range in Hx.
      pose proof (Z.div_mod x 8 ltac:(done)). pose proof (Z.mod_pos_bound x 8 ltac:(done)). lia.
Defined.

Lemma tables_share_pages_witness :
  (exists s', AddressSpace.friend_main (H := keep_all) demo_pdpt demo_pd (demo_core [10; 10]) = Done (Halted, s') /\
     console s' = [("ready\n"%string, []); ("0x%lx: %lx\n"%string, [0x80000000; 0])] ++ [] /\
     forall i, 0 <= i < 512 -> maps_to s' (0x80000 + i) (0x100000000 + i * 4096) true) /\
  (exists s', Hierarchy.friend_main (H := keep_all) demo_pdpt demo_pd demo_pt 0x100015000 2 (demo_core [10; 10]) =
       Done (tt, s') /\
     maps_to s' 0x80000 0x100000000 true /\ maps_to s' 0x80200 0x100000000 true /\ stdin s' = []).
Proof.
  apply (tables_share_pages keep_all demo_pdpt demo_pd2 demo_pd demo_pt 0x100015000 (demo_core [10; 10]) 2 [10] [10] [] 0).
  - apply demo_started.
  - by vm_compute.
  - by vm_compute.
  - by vm_compute.
  - apply demo_word; by vm_compute.
  - by vm_compute.
  - by vm_compute.
  - exact newline_line.
  - exact newline_line.
  - reflexivity.
  - cbn. lia.
Defined.
