(* ===== verification/CopyOnWrite.v ===== *)
(** * CopyOnWrite: tutorial/paging/copy_on_write

    The program maps 2 MB at 0x80000000 to the physical memory at 0x50000000, times a
    copy of the first half to the second, then maps both halves read only to the same
    pages and times writes to the second half, which a page fault handler is meant to
    serve by copying the page.  The trampoline leaves CR0.WP clear ([Friend16.entered]),
    so that the processor ignores the missing write permission: the theorems show that
    no fault is raised, and where the writes go. *)

From S2P Require Import Prelude Memory Paging Loader16 VirtMem FriendVm Idt Interrupt TutorialPaging.
Import Layout VirtMem Idt.
(** ** copy_on_write *)

Module CopyOnWrite.
Section CopyOnWrite.
Context `{TlbPolicy}.
Context (pdpt pd pt idt_def idtr_var int_handler : Z).
(** The time stamp counter, by the number of translations so far. *)
Context (tsc : nat -> Z).

Definition setup_inthandler (handler : Z) : M core unit :=
  Idt.setup_inthandler idt_def idtr_var 14 handler.

Definition rdtscp : M core Z := fun s => Done (tsc (tick s), s).

(** One word of my_memcpy inside the handler. *)
Definition copy_word (dst src i : Z) : M core unit :=
  x ← load64 (src + 8 * i);
  store64 (dst + 8 * i) x.

(** The index of my_memcpy counts words but advances by sizeof(uint64_t). *)
Fixpoint my_memcpy_with (copy : Z -> Z -> Z -> M core unit) (fuel : nat) (dst src n i : Z) : M core unit :=
  match fuel with
  | O => fail OutOfFuel
  | S fuel' =>
      if i <? n / 8 then copy dst src i;; my_memcpy_with copy fuel' dst src n (i + 8) else mret tt
  end.

Definition memcpy_fuel (n : Z) : nat := S (Z.to_nat (n / 8)).

Definition fault_handler : M core unit :=
  fault_address ← read_cr2;
  let fault_entry := (fault_address mod k2MB) / k4KB in
  put_entry pt fault_entry (rwu (0x50000000 + fault_entry * 0x1000));;
  let src_entry := fault_entry - 256 in
  e ← get_entry pt src_entry;
  put_entry pt src_entry (Z.lor e (Z.shiftl 1 1));;
  my_memcpy_with copy_word (memcpy_fuel 0x1000) (0x50000000 + fault_entry * 0x1000)
    (0x50000000 + src_entry * 0x1000) 0x1000 0;;
  invlpg fault_address.

Definition run_handler (h : Z) : M core unit :=
  if h =? int_handler then fault_handler else fail Undefined.

(** An access of friend_main, repeated after each page fault. *)
Fixpoint retry {A} (fuel : nat) (c : M core (option A)) : M core A :=
  match fuel with
  | O => fail OutOfFuel
  | S fuel' =>
      r ← c;
      match r with
      | Some a => mret a
      | None => h ← deliver 14; run_handler h;; retry fuel' c
      end
  end.

Definition copy_word_retry (fuel : nat) (dst src i : Z) : M core unit :=
  x ← retry fuel (vload 8 (src + 8 * i));
  retry fuel (vstore 8 (dst + 8 * i) x).

Definition vaddr1 : Z := 0x80000000.
Definition vaddr2 : Z := 0x80100000.

(** The first block: map the second half for itself, copy, write. *)
Definition plain_block (fuel : nat) : M core unit :=
  t1 ← rdtscp;
  for_ 256 256 (fun i => put_entry pt i (rwu (0x50000000 + i * 0x1000)));;
  my_memcpy_with (copy_word_retry fuel) (memcpy_fuel 0x100000) vaddr2 vaddr1 0x100000 0;;
  for_ 256 0 (fun i => retry fuel (vstore 8 (0x80100000 + i * 0x1000) 0));;
  t2 ← rdtscp;
  printf "%d\n" [t2 - t1].

(** The second block: share the first half read only, write. *)
Definition shared_block (fuel : nat) : M core unit :=
  t1 ← rdtscp;
  for_ 256 0 (fun i => put_entry pt i (Z.lor (Z.lor (0x50000000 + i * 0x1000) (Z.shiftl 1 0)) (Z.shiftl 1 2)));;
  for_ 256 256 (fun i => e ← get_entry pt (i - 256); put_entry pt i e);;
  for_ 256 0 (fun i => retry fuel (vstore 8 (0x80100000 + i * 0x1000) 0));;
  t2 ← rdtscp;
  printf "%d\n" [t2 - t1].

Definition friend_main (fuel : nat) : M core unit :=
  setup_inthandler int_handler;;
  lidt_idtr idtr_var;;
  put_entry pdpt ((vaddr1 mod k512GB) / k1GB) (rwu (v2p pd));;
  put_entry pd ((vaddr1 mod k1GB) / k2MB) (rwu (v2p pt));;
  for_ 256 0 (fun i => put_entry pt i (rwu (0x50000000 + i * 0x1000)));;
  plain_block fuel;;
  shared_block fuel.
End CopyOnWrite.
End CopyOnWrite.

(** ** The pages of the program *)

(** The physical page behind page [i] of the area while it is mapped for itself. *)
Definition frame (i : Z) : Z := 0x50000000 + i * 4096.

(** The memory the program uses; none of it is in the friend region. *)
Definition buffer (a : Z) : Prop := 0x50000000 <= a < 0x50200000.

(** The frames page [i] may be cached with: its own; later also that of the first half. *)
Definition own (i b : Z) : Prop := b = frame i.
Definition good (i b : Z) : Prop := b = frame i \/ 256 <= i /\ b = frame (i - 256).

Section Cow.
Context (pdpt pd2 pd pt : Z).
(** The frames a page may be cached with at this stage. *)
Context (G : Z -> Z -> Prop).

Record cow (s0 s : core) (f : Z -> Z) : Prop := {
  co_running : running pdpt pd2 pd pt buffer s0 s f (fun _ => True);
  co_tlb : forall i e, 0 <= i < 512 -> tlb s !! (0x80000 + i) = Some e -> G i (te_frame e);
  co_table : forall i, 0 <= i < 512 -> f i = 0 \/ pte_present (f i) = true /\ G i (pte_base 12 (f i));
  co_mem : mapped (pmem s) 0x50000000 0x200000;
  co_wp : wp_bit s = false;
  co_cr3 : cr3 s0 = INITIAL_PML4T
}.

Lemma cow_current s0 s f i e :
  cow s0 s f -> 0 <= i < 512 -> current s (0x80000 + i) = Some e ->
  G i (te_frame e) /\ te_frame e = pte_base 12 (f i).
Proof.
  intros Hc Hi He. pose proof (ru_linked _ _ _ _ _ _ _ _ _ (co_running _ _ _ Hc)) as Hl.
  rewrite (linked_current _ _ _ _ _ _ _ _ _ _ i Hl Hi) in He. unfold pte_entry in He.
  destruct (pte_present (f i)) eqn:E; [|done]. injection He as <-. cbn [te_frame].
  destruct (co_table _ _ _ Hc i Hi) as [E0|[_ Hg]]; [rewrite E0 in E; done|done].
Qed.

(** The cache stays good as long as the table is. *)
Lemma cow_tlb_from s0 s s' f i e :
  cow s0 s f -> tlb_from s s' -> 0 <= i < 512 -> tlb s' !! (0x80000 + i) = Some e -> G i (te_frame e).
Proof.
  intros Hc Ht Hi He. destruct (Ht _ _ He) as [E|E]; [by apply (co_tlb _ _ _ Hc)|].
  by apply (cow_current s0 s f).
Qed.

Lemma cow_quiet s0 s s' f : quiet s s' -> cow s0 s f -> cow s0 s' f.
Proof.
  intros Hq Hc. pose proof Hc as [Hr Ht Hb Hm Hw H3]. split; [by eapply running_quiet| |done| | |done].
  - intros i e Hi. apply (cow_tlb_from s0 s s' f); [done|apply Hq|done].
  - by rewrite (qu_mem _ _ Hq).
  - by rewrite (sr_wp _ _ (qu_regs _ _ Hq)).
Qed.

(** A store to the page table. *)
Lemma cow_put_pt `{TlbPolicy} s0 s f i x (Q : unit -> core -> Prop) :
  cow s0 s f -> 0 <= i < 512 -> 0 <= x < 2 ^ 64 -> pte_present x = true -> G i (pte_base 12 x) ->
  (forall s', cow s0 s' (upd f i x) -> stored s s' (pt + 8 * i) x -> Q tt s') ->
  wp (put_entry pt i x) Q s.
Proof.
  intros Hc Hi Hx Hp Hg Hk. pose proof Hc as [[Hl Hco Hmu Hreg] Ht Hb Hm Hw H3].
  eapply wp_mono; [by eapply wp_put_entry|]. intros [] s' Hst. cbv beta in Hst. rewrite (Z.add_0_r pt) in Hst.
  apply Hk; [|done]. split; [split| | | | |done].
  - rewrite <- (Z.add_0_r pt) in Hst. by apply (linked_update _ _ _ _ _ _ _ _ _ _ _ _ _ Hst Hi Hl).
  - tauto.
  - eapply slot_update_weaken, slot_update_trans; [|exact Hmu|apply Hst]. cbv beta.
    intros a [Ha| ->]; [done|]. right. right. left. by exists i.
  - etrans; [exact Hreg|apply Hst].
  - intros j e Hj. apply (cow_tlb_from s0 s s' f); [done|apply Hst|done].
  - intros j Hj. unfold upd. destruct (decide (j = i)) as [->|]; [by right|by apply Hb].
  - eapply mapped_agree; [apply Hst|done].
  - by rewrite (sr_wp _ _ (st_regs _ _ _ Hst)).
Qed.

(** A store to the buffer. *)
Lemma cow_touched s0 s s' f a :
  buffer a -> slot a -> page pdpt -> page pd2 -> DEPLOY_PHYS_ADDR_START <= pd2 ->
  DEPLOY_PHYS_ADDR_START <= pdpt -> DEPLOY_PHYS_ADDR_START <= pd -> DEPLOY_PHYS_ADDR_START <= pt ->
  touched s s' a -> cow s0 s f -> cow s0 s' f.
Proof.
  intros Ha Hs P3 P2 L2 L3 Ld Lt Hst Hc. pose proof Hc as [[Hl Hco Hmu Hreg] Ht Hb Hm Hw H3].
  unfold buffer, DEPLOY_PHYS_ADDR_START in *. split; [split| |done| | |done].
  - eapply linked_stored; [exact Hst| | | |done].
    + intros [E|[E|(j & Hj & E)]]; unfold INITIAL_PML4T, TRAMPOLINE_ADDR, PAGE_SIZE in *; lia.
    + unfold area_slots. rewrite (sr_cr3 _ _ Hreg), H3. change (pdpt_index (0x80000 * 4096)) with 2.
      change (pd_index (0x80000 * 4096)) with 0.
      change (pte_base 12 INITIAL_PML4T + 8 * pml4_index (0x80000 * 4096)) with 0x71000.
      rewrite !elem_of_cons, elem_of_nil. lia.
    + intros i Hi. lia.
  - tauto.
  - eapply slot_update_weaken, slot_update_trans; [|exact Hmu|apply Hst]. cbv beta.
    intros b [Hb'| ->]; [done|]. right. right. by right.
  - etrans; [exact Hreg|apply Hst].
  - intros j e Hj. apply (cow_tlb_from s0 s s' f); [done|apply Hst|done].
  - eapply mapped_agree; [apply Hst|done].
  - by rewrite (sr_wp _ _ (st_regs _ _ _ Hst)).
Qed.
End Cow.

(** ** Accesses of the area *)

Section Access.
Context `{TlbPolicy}.
Context (pdpt pd2 pd pt : Z) (G : Z -> Z -> Prop).
Hypothesis HG : forall i b, G i b -> good i b.

(** A core that looks every page up in the tables. *)
Definition uncached : Prop := forall s, tlb_next s = ∅.

Lemma area_address i k :
  0 <= k < 4096 ->
  (0x80000000 + i * 4096 + k) / 4096 = 0x80000 + i /\ (0x80000000 + i * 4096 + k) mod 4096 = k.
Proof.
  intros Hk. replace (0x80000000 + i * 4096 + k) with ((0x80000 + i) * 4096 + k) by lia. split.
  - rewrite Z.div_add_l, Z.div_small by lia. lia.
  - by rewrite Z.add_comm, Z.mod_add, Z.mod_small by lia.
Qed.

Lemma cow_translate wr s0 s f i k :
  cow pdpt pd2 pd pt G s0 s f -> 0 <= i < 512 -> f i <> 0 -> 0 <= k < 4096 ->
  wp (translate wr (0x80000000 + i * 4096 + k))
    (fun r s' => (exists b, G i b /\ (uncached -> b = pte_base 12 (f i)) /\ r = Some (b + k)) /\
       quiet s s' /\ console s' = console s /\ stdin s' = stdin s) s.
Proof.
  intros Hc Hi Hf Hk. destruct (area_address i k Hk) as [Ed Em].
  unfold wp, translate, lookup_page, mbind, M_bind, get, put, mret, M_ret. rewrite Ed, Em. cbn [tlb].
  rewrite current_tlb.
  assert (exists e, match tlb_next s !! (0x80000 + i) with Some e => Some e | None => current s (0x80000 + i) end
    = Some e /\ G i (te_frame e) /\ (uncached -> te_frame e = pte_base 12 (f i)) /\
    (tlb_next s !! (0x80000 + i) = Some e \/ current s (0x80000 + i) = Some e)) as (e & E & Hg & Hu & Hw).
  { destruct (tlb_next s !! (0x80000 + i)) as [e|] eqn:E.
    - exists e. split_and!; [done| |intros Hx; by rewrite Hx, lookup_empty in E|by left].
      destruct (tlb_next_ok s _ _ E) as [E'|E']; [by apply (co_tlb _ _ _ _ _ _ _ _ Hc)|].
      by apply (cow_current pdpt pd2 pd pt G s0 s f).
    - destruct (co_table _ _ _ _ _ _ _ _ Hc i Hi) as [?|[Hp _]]; [done|].
      pose proof (linked_current _ _ _ _ _ _ _ _ _ _ i (ru_linked _ _ _ _ _ _ _ _ _ (co_running _ _ _ _ _ _ _ _ Hc)) Hi) as Ecur.
      unfold pte_entry in Ecur. rewrite Hp in Ecur.
      eexists. split_and!; [exact Ecur| |done|by right].
      by apply (cow_current pdpt pd2 pd pt G s0 s f i _ Hc Hi Ecur). }
  rewrite E.
  assert (forall s1, wp_bit s1 = wp_bit s -> allowed s1 wr e = true) as Hal.
  { intros s1 E1. unfold allowed. rewrite E1, (co_wp _ _ _ _ _ _ _ _ Hc). by rewrite orb_true_r. }
  rewrite Hal by done. split; [by exists (te_frame e)|]. split; [|done].
  split; [done| |done]. intros p x. cbn. destruct (decide (p = 0x80000 + i)) as [->|Hne].
  - rewrite lookup_insert_eq. intros [= <-]. destruct Hw as [Hw|Hw]; [by apply tlb_next_ok|by right].
  - rewrite lookup_insert_ne by done. apply tlb_next_ok.
Qed.

Lemma good_slot i b k : 0 <= i < 512 -> good i b -> 0 <= k < 4096 -> k mod 8 = 0 ->
  buffer (b + k) /\ slot (b + k) /\ b + k + 8 <= 0x50200000.
Proof.
  intros Hi Hg Hk H8. pose proof (Z.div_mod k 8 ltac:(done)).
  assert (exists q, b = q * 4096 /\ 0x50000 <= q < 0x50200) as (q & -> & Hq).
  { unfold good, frame in Hg. destruct Hg as [->|[? ->]].
    - exists (0x50000 + i). lia.
    - exists (0x50000 + (i - 256)). lia. }
  unfold buffer, slot. split_and!; try lia.
  replace (q * 4096 + k) with (k + q * 512 * 8) by lia. by rewrite Z.mod_add.
Qed.

Lemma cow_vload s0 s f i k :
  cow pdpt pd2 pd pt G s0 s f -> 0 <= i < 512 -> f i <> 0 -> 0 <= k < 4096 -> k mod 8 = 0 ->
  wp (vload 8 (0x80000000 + i * 4096 + k))
    (fun r s' => (exists x, r = Some x /\ 0 <= x < 2 ^ 64) /\
       quiet s s' /\ console s' = console s /\ stdin s' = stdin s) s.
Proof.
  intros Hc Hi Hf Hk H8. destruct (area_address i k Hk) as [_ Em]. unfold vload. rewrite Em.
  replace (4096 <? k + Z.of_nat 8) with false
    by (symmetry; apply Z.ltb_ge; pose proof (Z.div_mod k 8 ltac:(done)); lia).
  apply wp_bind. eapply wp_mono; [by eapply cow_translate|].
  intros r s' ((b & Hg & _ & ->) & Hq & C & I). cbv beta iota.
  destruct (good_slot i b k Hi (HG _ _ Hg) Hk H8) as (Hb & (S0 & _ & S64) & Hend).
  unfold wp, mbind, M_bind, lift_pmem. rewrite (qu_mem _ _ Hq).
  destruct (read_bytes_mapped (pmem s) (b + k) 8) as (bs & Ebs).
  { lia. }
  { lia. }
  { eapply mapped_sub; [| |exact (co_mem _ _ _ _ _ _ _ _ Hc)]; unfold buffer in Hb; lia. }
  unfold load. rewrite Ebs. split_and!; [|destruct Hq as [HR HT HM]; split; [by destruct HR|exact HT|done]|done|done].
  eexists. split; [done|]. pose proof (le_value_range bs) as Hr.
  by rewrite (read_bytes_length _ _ _ _ Ebs) in Hr.
Qed.

Lemma cow_vstore s0 s f i k x :
  cow pdpt pd2 pd pt G s0 s f -> 0 <= i < 512 -> f i <> 0 -> 0 <= k < 4096 -> k mod 8 = 0 -> 0 <= x < 2 ^ 64 ->
  wp (vstore 8 (0x80000000 + i * 4096 + k) x)
    (fun r s' => r = Some tt /\ exists b, G i b /\ (uncached -> b = pte_base 12 (f i)) /\
       stored s s' (b + k) x) s.
Proof.
  intros Hc Hi Hf Hk H8 Hx. destruct (area_address i k Hk) as [_ Em]. unfold vstore. rewrite Em.
  replace (4096 <? k + Z.of_nat 8) with false
    by (symmetry; apply Z.ltb_ge; pose proof (Z.div_mod k 8 ltac:(done)); lia).
  apply wp_bind. eapply wp_mono; [by eapply cow_translate|].
  intros r s' ((b & Hg & Hu & ->) & Hq & C & I). cbv beta iota.
  destruct (good_slot i b k Hi (HG _ _ Hg) Hk H8) as (Hb & Hs & Hend).
  destruct (store64_slot (pmem s) (b + k) x) as (m' & E & Hr & Hup); [done| |done|].
  { eapply mapped_sub; [| |exact (co_mem _ _ _ _ _ _ _ _ Hc)]; unfold buffer in Hb; lia. }
  unfold wp, mbind, M_bind, lift_pmem. rewrite (qu_mem _ _ Hq), E.
  split; [done|]. exists b. split_and!; [done|done|]. destruct Hq as [HR HT HM].
  split; [split; [by destruct HR|exact HT|done|done]|done].
Qed.
End Access.

(** ** The run *)

Section Run.
Context `{TlbPolicy}.
Context (pdpt pd2 pd pt idt_def idtr_var int_handler : Z) (tsc : nat -> Z).
Hypothesis Hpd2 : DEPLOY_PHYS_ADDR_START <= pd2.

Abbreviation cow G := (cow pdpt pd2 pd pt G).
Abbreviation retry := (CopyOnWrite.retry pt int_handler).

Record pages_ok : Prop := {
  po_pages : page pdpt /\ page pd2;
  po_low : DEPLOY_PHYS_ADDR_START <= pdpt /\ DEPLOY_PHYS_ADDR_START <= pd /\ DEPLOY_PHYS_ADDR_START <= pt
}.
Hypothesis Hpages : pages_ok.

Lemma own_good i b : own i b -> good i b.
Proof. by left. Qed.

Lemma cow_weaken (G1 G2 : Z -> Z -> Prop) s0 s f :
  (forall i b, G1 i b -> G2 i b) -> cow G1 s0 s f -> cow G2 s0 s f.
Proof.
  intros Hg [Hr Ht Hb Hm Hw H3]. split; [done| | |done|done|done].
  - intros i e Hi He. by eapply Hg, Ht.
  - intros i Hi. destruct (Hb i Hi) as [?|[? ?]]; [by left|right; auto].
Qed.

(** A store of friend_main to the buffer. *)
Lemma wp_retry_store G fuel s0 s f i k x (Q : unit -> core -> Prop) :
  (forall i b, G i b -> good i b) ->
  cow G s0 s f -> 0 <= i < 512 -> f i <> 0 -> 0 <= k < 4096 -> k mod 8 = 0 -> 0 <= x < 2 ^ 64 ->
  (forall s' b, G i b -> (uncached -> b = pte_base 12 (f i)) -> cow G s0 s' f ->
     stored s s' (b + k) x -> Q tt s') ->
  wp (retry (S fuel) (vstore 8 (0x80000000 + i * 4096 + k) x)) Q s.
Proof.
  intros HG Hc Hi Hf Hk H8 Hx HQ. cbn [CopyOnWrite.retry]. apply wp_bind.
  eapply wp_mono; [by eapply cow_vstore|]. intros r s' (-> & b & Hg & Hu & Hst). cbv beta iota.
  apply wp_ret. apply (HQ s' b); [done|done| |done].
  destruct (good_slot i b k Hi (HG _ _ Hg) Hk H8) as (Hb & Hs & _).
  destruct Hpages as [[P3 P2] (L3 & Ld & Lt)].
  eapply (cow_touched pdpt pd2 pd pt G s0 s s' f (b + k)); [done..|exact Hst|done].
Qed.

Lemma wp_retry_load G fuel s0 s f i k (Q : Z -> core -> Prop) :
  (forall i b, G i b -> good i b) ->
  cow G s0 s f -> 0 <= i < 512 -> f i <> 0 -> 0 <= k < 4096 -> k mod 8 = 0 ->
  (forall s' x, 0 <= x < 2 ^ 64 -> cow G s0 s' f -> console s' = console s -> stdin s' = stdin s -> Q x s') ->
  wp (retry (S fuel) (vload 8 (0x80000000 + i * 4096 + k))) Q s.
Proof.
  intros HG Hc Hi Hf Hk H8 HQ. cbn [CopyOnWrite.retry]. apply wp_bind.
  eapply wp_mono; [by eapply cow_vload|]. intros r s' ((x & -> & Hx) & Hq & C & I). cbv beta iota.
  apply wp_ret. apply HQ; [done|by eapply cow_quiet|done|done].
Qed.

(** Address [8 * i] of one of the halves, as a page and an offset. *)
Lemma half_address i h :
  0 <= h <= 256 -> 0 <= i < 131072 ->
  exists j k, 0x80000000 + h * 4096 + 8 * i = 0x80000000 + j * 4096 + k /\
    h <= j < h + 256 /\ 0 <= k < 4096 /\ k mod 8 = 0.
Proof.
  intros Hh Hi. exists (h + (8 * i) / 4096), ((8 * i) mod 4096).
  pose proof (Z.div_mod (8 * i) 4096 ltac:(done)). pose proof (Z.mod_pos_bound (8 * i) 4096 ltac:(done)).
  split_and!; try lia. rewrite (Z.mul_comm 8 i), Z.mod_mod_divide by (by exists 512). by apply Z.mod_mul.
Qed.

(** The copy of the first phase. *)
Lemma wp_memcpy fuel s0 s f n i (Q : unit -> core -> Prop) :
  cow own s0 s f -> (forall j, 0 <= j < 512 -> f j <> 0) ->
  0 <= i <= 131072 -> i mod 8 = 0 -> 131072 < 8 * Z.of_nat n + i ->
  (forall s', cow own s0 s' f -> console s' = console s -> stdin s' = stdin s -> Q tt s') ->
  wp (CopyOnWrite.my_memcpy_with (CopyOnWrite.copy_word_retry pt int_handler (S fuel)) n
        CopyOnWrite.vaddr2 CopyOnWrite.vaddr1 0x100000 i) Q s.
Proof.
  intros Hc Hf. revert i s Hc. induction n as [|n IH]; intros i s Hc Hi H8 Hn HQ; [lia|].
  cbn [CopyOnWrite.my_memcpy_with]. change (0x100000 / 8) with 131072.
  apply wp_if; intros Hlt; zbool; [|apply wp_ret; by apply HQ].
  apply wp_bind. unfold CopyOnWrite.copy_word_retry, CopyOnWrite.vaddr1, CopyOnWrite.vaddr2.
  destruct (half_address i 0) as (j & k & Ej & Hj & Hk & Hk8); [lia|lia|].
  destruct (half_address i 256) as (j' & k' & Ej' & Hj' & Hk' & Hk8'); [lia|lia|].
  replace (0x80000000 + 8 * i) with (0x80000000 + 0 * 4096 + 8 * i) by lia.
  replace (0x80100000 + 8 * i) with (0x80000000 + 256 * 4096 + 8 * i) by lia. rewrite Ej, Ej'.
  apply wp_bind. eapply wp_retry_load; [apply own_good|exact Hc|lia|apply Hf; lia|done|done|].
  intros s1 x Hx Hc1 C1 I1.
  eapply wp_retry_store; [apply own_good|exact Hc1|lia|apply Hf; lia|done|done|done|].
  intros s2 b _ _ Hc2 S2. destruct (st_io _ _ _ S2). pose proof (Z.div_mod i 8 ltac:(done)).
  apply IH; [done|lia| |lia|].
  - replace (i + 8) with (i + 1 * 8) by lia. by rewrite Z.mod_add.
  - intros s' Hc' C' I'. apply HQ; [done|congruence|congruence].
Qed.

Lemma frame_page i : 0 <= i < 512 -> page (frame i).
Proof.
  intros Hi. unfold page, frame. split_and!; [lia| |lia].
  replace (0x50000000 + i * 4096) with ((0x50000 + i) * 4096) by lia. by rewrite Z.mod_mul.
Qed.

Lemma rw_entry i : 0 <= i < 512 ->
  rwu (0x50000000 + i * 0x1000) = frame i + 7 /\ pte_present (frame i + 7) = true /\
  pte_base 12 (frame i + 7) = frame i.
Proof.
  intros Hi. pose proof (frame_page i Hi) as Hp. destruct (table_entry_flags (frame i) 7) as (B & P & _); [done..|].
  split_and!; [by apply rwu_page|done|done].
Qed.

Lemma ro_entry i : 0 <= i < 512 ->
  Z.lor (Z.lor (0x50000000 + i * 0x1000) (Z.shiftl 1 0)) (Z.shiftl 1 2) = frame i + 5 /\
  pte_present (frame i + 5) = true /\ pte_write (frame i + 5) = false /\ pte_base 12 (frame i + 5) = frame i.
Proof.
  intros Hi. destruct (frame_page i Hi) as (H0 & Hm & Hb). unfold pte_present, pte_write.
  rewrite !(flag_bit 12) by (done || lia). rewrite pte_base_flags by (done || lia).
  split_and!; [|done|done|done]. rewrite <- Z.lor_assoc. by apply (lor_flags 12).
Qed.

(** Words of the buffer do not change when the page table does. *)
Definition zeros_at (P : Z -> Prop) (s : core) : Prop :=
  forall i, 0 <= i < 512 -> P i -> read64 (pmem s) (frame i) = Some 0.

Lemma zeros_stored P s s' a x :
  stored s s' a x -> (x = 0 \/ ~ buffer a) -> zeros_at P s -> zeros_at P s'.
Proof.
  intros Hst Hx Hz i Hi HP. destruct (decide (frame i = a)) as [<-|Hne].
  - destruct Hx as [->|Hx]; [apply Hst|]. exfalso. apply Hx. unfold buffer, frame. lia.
  - rewrite (stored_read _ _ _ _ Hst); [by apply Hz| |done].
    rewrite <- (Z.add_0_r (frame i)). by apply (page_slot (frame i) 0); [apply frame_page|].
Qed.

Lemma pt_not_buffer i : 0 <= i < 512 -> ~ buffer (pt + 8 * i).
Proof. intros Hi. destruct Hpages as [_ (_ & _ & L)]. unfold buffer, DEPLOY_PHYS_ADDR_START in *. lia. Qed.

Definition same_io (s s' : core) : Prop := console s' = console s /\ stdin s' = stdin s.

(** A loop that fills half of the page table. *)
Lemma wp_fill G lo (entry : Z -> Z) (body : Z -> M core unit) P s0 s f (Q : unit -> core -> Prop) :
  0 <= lo -> lo + 256 <= 512 -> (forall i b, G i b -> good i b) ->
  (forall i s1 f1 (R : unit -> core -> Prop), lo <= i < lo + 256 -> cow G s0 s1 f1 ->
     (forall j, ~ (lo <= j < lo + 256) -> f1 j = f j) ->
     (forall s2, cow G s0 s2 f1 -> quiet s1 s2 -> same_io s1 s2 -> wp (put_entry pt i (entry i)) R s2) ->
     wp (body i) R s1) ->
  (forall i, lo <= i < lo + 256 -> 0 <= entry i < 2 ^ 64 /\ pte_present (entry i) = true /\ G i (pte_base 12 (entry i))) ->
  cow G s0 s f -> zeros_at P s ->
  (forall s' f', cow G s0 s' f' -> zeros_at P s' -> same_io s s' ->
     (forall i, lo <= i < lo + 256 -> f' i = entry i) ->
     (forall i, ~ (lo <= i < lo + 256) -> f' i = f i) -> Q tt s') ->
  wp (for_ 256 lo body) Q s.
Proof.
  intros H0 H1 HG Hbody Hent Hc Hz HQ.
  eapply wp_mono; [eapply (wp_for (fun j s1 => exists f1, cow G s0 s1 f1 /\ zeros_at P s1 /\ same_io s s1 /\
    (forall i, lo <= i < j -> f1 i = entry i) /\ (forall i, ~ (lo <= i < j) -> f1 i = f i)))|].
  - intros j s1 Hj (f1 & Hc1 & Hz1 & [C1 I1] & F1 & F2). eapply Hbody; [lia|exact Hc1|intros i Hi; apply F2; lia|].
    intros s2 Hc2 Hq2 [C2 I2]. destruct (Hent j) as (E1 & E2 & E3); [lia|].
    eapply cow_put_pt; [exact Hc2|lia|done|done|done|]. intros s3 Hc3 S3. destruct (st_io _ _ _ S3) as [C3 I3].
    exists (upd f1 j (entry j)). split_and!; [done| |split; congruence|..].
    + eapply zeros_stored; [exact S3|right; apply pt_not_buffer; lia|].
      intros i Hi HP. rewrite (qu_mem _ _ Hq2). by apply Hz1.
    + intros i Hi. unfold upd. destruct (decide (i = j)) as [->|]; [done|]. apply F1. lia.
    + intros i Hi. unfold upd. destruct (decide (i = j)) as [->|]; [lia|]. apply F2. lia.
  - exists f. split_and!; [done|done|done|lia|done].
  - intros [] s' (f' & Hc' & Hz' & Hio & F1 & F2). by apply (HQ s' f').
Qed.

Lemma zero_stored s s' a b : stored s s' a 0 -> slot b -> read64 (pmem s) b = Some 0 -> read64 (pmem s') b = Some 0.
Proof.
  intros Hst Hb Hr. destruct (decide (b = a)) as [->|Hne]; [apply Hst|].
  by rewrite (stored_read _ _ _ _ Hst).
Qed.

(** Page [i] was written: the word of one of its frames is zero. *)
Definition zeroed (G : Z -> Z -> Prop) (f : Z -> Z) (s : core) (i : Z) : Prop :=
  exists b, G i b /\ (uncached -> b = pte_base 12 (f i)) /\ read64 (pmem s) b = Some 0.

(** The loop that writes a word of each page of the second half. *)
Lemma wp_zero G fuel s0 s f P (Q : unit -> core -> Prop) :
  (forall i b, G i b -> good i b) -> cow G s0 s f -> (forall j, 0 <= j < 512 -> f j <> 0) -> zeros_at P s ->
  (forall s', cow G s0 s' f -> same_io s s' -> zeros_at P s' ->
     (forall i, 256 <= i < 512 -> zeroed G f s' i) -> Q tt s') ->
  wp (for_ 256 0 (fun i => retry (S fuel) (vstore 8 (0x80100000 + i * 0x1000) 0))) Q s.
Proof.
  intros HG Hc Hf Hz HQ.
  eapply wp_mono; [eapply (wp_for (fun j s1 => cow G s0 s1 f /\ same_io s s1 /\ zeros_at P s1 /\
    forall i, 256 <= i < 256 + j -> zeroed G f s1 i))|].
  - intros j s1 Hj (Hc1 & [C1 I1] & Hz1 & Hd).
    replace (0x80100000 + j * 0x1000) with (0x80000000 + (256 + j) * 4096 + 0) by lia.
    eapply wp_retry_store; [exact HG|exact Hc1|lia|apply Hf; lia|lia|done|lia|].
    intros s2 b Hg Hu Hc2 S2. rewrite Z.add_0_r in S2. destruct (st_io _ _ _ S2) as [C2 I2].
    split_and!; [done|split; congruence| |].
    + eapply zeros_stored; [exact S2|by left|done].
    + intros i Hi. destruct (decide (i = 256 + j)) as [->|Hne].
      * exists b. split_and!; [done|done|apply S2].
      * destruct (Hd i) as (b' & Hg' & Hu' & Hr'); [lia|]. exists b'. split_and!; [done|done|].
        eapply zero_stored; [exact S2| |done].
        rewrite <- (Z.add_0_r b'). apply (good_slot i b' 0); [lia|by apply HG|lia|done].
  - split_and!; [done|done|done|lia].
  - intros [] s' (Hc' & Hio & Hz' & Hd). apply HQ; [done..|]. intros i Hi. apply Hd. lia.
Qed.

(** The three loops over the page table. *)
Lemma quiet_refl s : quiet s s.
Proof. split; [done|by left|done]. Qed.

Lemma wp_fill_rw lo P s0 s f (Q : unit -> core -> Prop) :
  0 <= lo -> lo + 256 <= 512 -> cow own s0 s f -> zeros_at P s ->
  (forall s' f', cow own s0 s' f' -> zeros_at P s' -> same_io s s' ->
     (forall i, lo <= i < lo + 256 -> f' i = frame i + 7) ->
     (forall i, ~ (lo <= i < lo + 256) -> f' i = f i) -> Q tt s') ->
  wp (for_ 256 lo (fun i => put_entry pt i (rwu (0x50000000 + i * 0x1000)))) Q s.
Proof.
  intros H0 H1 Hc Hz HQ. apply (wp_fill own lo (fun i => frame i + 7) _ P s0 s f); [done|done|apply own_good| | |done|done|done].
  - intros i s1 f1 R Hi Hc1 _ Hk. destruct (rw_entry i) as (-> & _); [lia|]. by apply Hk; [|apply quiet_refl|].
  - intros i Hi. destruct (rw_entry i) as (_ & E & B); [lia|]. rewrite B.
    split_and!; [..|done|done]; pose proof (frame_page i ltac:(lia)) as (? & _ & ?); lia.
Qed.

Lemma wp_fill_ro P s0 s f (Q : unit -> core -> Prop) :
  cow good s0 s f -> zeros_at P s ->
  (forall s' f', cow good s0 s' f' -> zeros_at P s' -> same_io s s' ->
     (forall i, 0 <= i < 0 + 256 -> f' i = frame i + 5) ->
     (forall i, ~ (0 <= i < 0 + 256) -> f' i = f i) -> Q tt s') ->
  wp (for_ 256 0 (fun i =>
        put_entry pt i (Z.lor (Z.lor (0x50000000 + i * 0x1000) (Z.shiftl 1 0)) (Z.shiftl 1 2)))) Q s.
Proof.
  intros Hc Hz HQ. apply (wp_fill good 0 (fun i => frame i + 5) _ P s0 s f); [lia|lia|done| | |done|done|done].
  - intros i s1 f1 R Hi Hc1 _ Hk. destruct (ro_entry i) as (-> & _); [lia|]. by apply Hk; [|apply quiet_refl|].
  - intros i Hi. destruct (ro_entry i) as (_ & E & _ & B); [lia|]. rewrite B.
    split_and!; [..|done|by left]; pose proof (frame_page i ltac:(lia)) as (? & _ & ?); lia.
Qed.

Lemma wp_fill_share P s0 s f (Q : unit -> core -> Prop) :
  cow good s0 s f -> zeros_at P s -> (forall i, 0 <= i < 256 -> f i = frame i + 5) ->
  (forall s' f', cow good s0 s' f' -> zeros_at P s' -> same_io s s' ->
     (forall i, 256 <= i < 256 + 256 -> f' i = frame (i - 256) + 5) ->
     (forall i, ~ (256 <= i < 256 + 256) -> f' i = f i) -> Q tt s') ->
  wp (for_ 256 256 (fun i => e ← get_entry pt (i - 256); put_entry pt i e)) Q s.
Proof.
  intros Hc Hz Hf HQ.
  apply (wp_fill good 256 (fun i => frame (i - 256) + 5) _ P s0 s f); [lia|lia|done| | |done|done|done].
  - intros i s1 f1 R Hi Hc1 Hsame Hk. apply wp_bind. unfold get_entry.
    pose proof (ru_linked _ _ _ _ _ _ _ _ _ (co_running _ _ _ _ _ _ _ _ Hc1)) as Hl.
    pose proof Hl as [Hw _ Hpt (_ & Ppt & Hlo & Hhi) _].
    eapply wp_mono.
    { eapply (wp_load64_window 0x100000 0x140000 0 _ s1 (pt + 8 * (i - 256)) (frame (i - 256) + 5) Hw); [lia| |].
      - apply page_slot; [done|lia].
      - rewrite <- Hf, <- Hsame by lia. rewrite <- (Hpt (i - 256)) by lia. f_equal. lia. }
    intros r s2 [-> A2]. cbv beta. destruct (aa_io _ _ _ A2). apply loaded_quiet in A2.
    apply Hk; [by eapply cow_quiet|done|done].
  - intros i Hi. destruct (ro_entry (i - 256)) as (_ & E & _ & B); [lia|]. rewrite B.
    split_and!; [..|done|right; split; [lia|done]]; pose proof (frame_page (i - 256) ltac:(lia)) as (? & _ & ?); lia.
Qed.

(** The blocks of the program. *)
Definition no_page (i : Z) : Prop := False.

Lemma wp_plain_block fuel s0 s f (Q : unit -> core -> Prop) :
  cow own s0 s f -> (forall i, 0 <= i < 256 -> f i = frame i + 7) ->
  (forall s' f' t, cow own s0 s' f' -> (forall i, 0 <= i < 512 -> f' i <> 0) ->
     zeros_at (fun i => 256 <= i) s' -> console s' = ("%d\n"%string, [t]) :: console s -> Q tt s') ->
  wp (CopyOnWrite.plain_block pt int_handler tsc (S fuel)) Q s.
Proof.
  intros Hc Hf HQ. unfold CopyOnWrite.plain_block. apply wp_bind. unfold wp at 1, CopyOnWrite.rdtscp.
  apply wp_bind. eapply (wp_fill_rw 256 no_page); [lia|lia|exact Hc|by intros i Hi []|].
  intros s3 f3 Hc3 Z3 [C3 I3] F3 F3'.
  assert (forall j, 0 <= j < 512 -> f3 j <> 0) as Hn3.
  { intros j Hj. destruct (decide (256 <= j)); [rewrite F3 by lia|rewrite F3', Hf by lia]; unfold frame; lia. }
  apply wp_bind. eapply (wp_memcpy fuel s0 s3 f3 _ 0); [exact Hc3|exact Hn3|lia|done
    |unfold CopyOnWrite.memcpy_fuel; rewrite Nat2Z.inj_succ, Z2Nat.id by done; by vm_compute|].
  intros s4 Hc4 C4 I4.
  apply wp_bind. eapply (wp_zero own fuel s0 s4 f3 no_page); [apply own_good|exact Hc4|exact Hn3|by intros i Hi []|].
  intros s5 Hc5 [C5 I5] _ Hd5. apply wp_bind. unfold wp at 1, CopyOnWrite.rdtscp. unfold wp, printf.
  eapply HQ; [eapply cow_quiet; [apply quiet_io|exact Hc5]|exact Hn3| |cbn; rewrite C5, C4, C3; done].
  intros i Hi Hp. destruct (Hd5 i) as (b & -> & _ & Hr); [lia|done].
Qed.

Lemma wp_shared_block fuel s0 s f (Q : unit -> core -> Prop) :
  cow good s0 s f -> zeros_at (fun i => 256 <= i) s ->
  (forall s' t, zeros_at (fun i => 256 <= i) s' ->
     (uncached -> forall i, 0 <= i < 256 -> read64 (pmem s') (frame i) = Some 0) ->
     console s' = ("%d\n"%string, [t]) :: console s -> Q tt s') ->
  wp (CopyOnWrite.shared_block pt int_handler tsc (S fuel)) Q s.
Proof.
  intros Hc Hz HQ. unfold CopyOnWrite.shared_block. apply wp_bind. unfold wp at 1, CopyOnWrite.rdtscp.
  apply wp_bind. eapply wp_fill_ro; [exact Hc|exact Hz|]. intros s7 f7 Hc7 Z7 [C7 I7] F7 F7'.
  apply wp_bind. eapply wp_fill_share; [exact Hc7|exact Z7|exact F7|]. intros s8 f8 Hc8 Z8 [C8 I8] F8 F8'.
  apply wp_bind. eapply (wp_zero good fuel s0 s8 f8); [done|exact Hc8| |exact Z8|].
  { intros j Hj. destruct (decide (256 <= j)); [rewrite F8 by lia|rewrite F8', F7 by lia]; unfold frame; lia. }
  intros s9 Hc9 [C9 I9] Z9 Hd9. apply wp_bind. unfold wp at 1, CopyOnWrite.rdtscp. unfold wp, printf.
  eapply HQ; [exact Z9| |cbn; rewrite C9, C8, C7; done].
  intros Hu i Hi. destruct (Hd9 (256 + i)) as (b & _ & Hb & Hr); [lia|].
  rewrite Hb, F8 in Hr by (done || lia). destruct (ro_entry (256 + i - 256)) as (_ & _ & _ & E); [lia|].
  rewrite E in Hr. replace (256 + i - 256) with i in Hr by lia. done.
Qed.

(** The whole program. *)
Lemma cow_spec fuel s :
  placed 0x100000 0x140000 (friend_slots pdpt pd2) idt_def idtr_var ->
  table_apart pdpt pd pt idt_def idtr_var -> 0 <= int_handler < 2 ^ 64 ->
  started pdpt pd2 pd pt s -> wp_bit s = false -> mapped (pmem s) 0x50000000 0x200000 ->
  wp (CopyOnWrite.friend_main pdpt pd pt idt_def idtr_var int_handler tsc (S fuel))
    (fun _ s' => (exists t1 t2, console s' = [("%d\n"%string, [t2]); ("%d\n"%string, [t1])] ++ console s) /\
       (forall i, 256 <= i < 512 -> read64 (pmem s') (frame i) = Some 0) /\
       (uncached -> forall i, 0 <= i < 256 -> read64 (pmem s') (frame i) = Some 0)) s.
Proof.
  intros Hpl Hap Hh Hsd Hwp Hmem. unfold CopyOnWrite.friend_main, CopyOnWrite.setup_inthandler.
  apply wp_assoc. eapply wp_mono; [apply (wp_install 0x100000 0x140000 (friend_slots pdpt pd2)); [done|apply Hsd|lia|done]|].
  intros [] s0 Hts. cbv beta. destruct (ts_io _ _ _ _ _ _ _ _ _ Hts) as [C0 I0].
  pose proof (started_table _ _ _ _ _ _ _ _ _ _ Hpl Hap Hsd Hts) as Hsd0.
  apply (wp_link pdpt pd2 pd pt buffer); [done|]. intros s1 R1 C1 I1.
  assert (cow own s0 s1 (fun _ => 0)) as Hc1.
  { split.
    - by eapply running_weaken; [| |exact R1].
    - intros i e Hi He. apply (ru_coherent _ _ _ _ _ _ _ _ _ R1 i Hi) in He as [g He]; [|tauto].
      by rewrite (linked_current _ _ _ _ _ _ _ _ _ _ i (ru_linked _ _ _ _ _ _ _ _ _ R1) Hi) in He.
    - by left.
    - eapply mapped_agree; [apply R1|]. eapply mapped_agree; [apply (ts_mem _ _ _ _ _ _ _ _ _ Hts)|done].
    - rewrite (sr_wp _ _ (ru_regs _ _ _ _ _ _ _ _ _ R1)). by destruct (ts_regs _ _ _ _ _ _ _ _ _ Hts) as (_ & -> & _).
    - apply Hsd0. }
  apply wp_bind. eapply (wp_fill_rw 0 no_page); [lia|lia|exact Hc1|by intros i Hi []|].
  intros s2 f2 Hc2 _ [C2 I2] F2 _.
  apply wp_bind. eapply wp_plain_block; [exact Hc2|exact F2|]. intros s3 f3 t1 Hc3 _ Z3 C3.
  eapply wp_shared_block; [eapply cow_weaken; [exact own_good|exact Hc3]|exact Z3|]. intros s4 t2 Z4 Hu C4.
  split_and!; [exists t1, t2; rewrite C4, C3, C2, C1, C0; done|intros i Hi; apply Z4; lia|exact Hu].
Qed.
End Run.

(** ** The handler

    Had a fault been raised, the handler would copy through the virtual addresses
    0x50000000 + i * 0x1000, which nothing maps: it faults itself. *)
Section Handler.
Context `{TlbPolicy}.
Context (pdpt pd2 pd pt : Z).

Lemma first_faults {A B} (c : M core A) (k : A -> M core B) f s : c s = Fault f -> (c ≫= k) s = Fault f.
Proof. intros E. unfold mbind, M_bind. by rewrite E. Qed.

Lemma unmapped_load s va :
  va mod 8 = 0 -> coherent s (va / 4096) -> current s (va / 4096) = None -> load64 va s = Fault SegFault.
Proof.
  intros H8 Hco Hcur. unfold load64, no_fault, vload.
  replace (4096 <? va mod 4096 + Z.of_nat 8) with false
    by (symmetry; apply Z.ltb_ge; by apply word_in_page).
  unfold translate, lookup_page, mbind, M_bind, get, put, mret, M_ret. cbn [tlb]. rewrite current_tlb.
  assert (tlb_next s !! (va / 4096) = None) as ->.
  { destruct (tlb_next s !! (va / 4096)) as [e|] eqn:E; [|done].
    destruct (tlb_next_ok s _ _ E) as [E'|E']; [apply Hco in E' as [g E']|]; congruence. }
  by rewrite Hcur.
Qed.

(** Nothing is mapped between 1 GB and 2 GB. *)
Record unmapped_gb (s : core) : Prop := {
  ug_vm : cr3 s = INITIAL_PML4T /\ read64 (pmem s) INITIAL_PML4T = Some (pdpt + 7) /\ page pdpt;
  ug_pdpt : read64 (pmem s) (pdpt + 8 * 1) = Some 0;
  ug_coherent : forall i, 0 <= i < 512 -> coherent s (0x50000 + i)
}.

Lemma unmapped_walk s i :
  unmapped_gb s -> 0 <= i < 512 ->
  current s (0x50000 + i) = None /\ page_slots s (0x50000 + i) = [INITIAL_PML4T; pdpt + 8 * 1].
Proof.
  intros [(E3 & E4 & P3) Ez _] Hi. destruct (index_same 0x50000 i) as (I4 & I3 & _); [lia|done|done|].
  destruct (table_entry_flags pdpt 7) as (B4 & Q4 & _); [done..|].
  unfold current, page_slots, walk, walk_slots. rewrite I4, I3, E3.
  change (pte_base 12 INITIAL_PML4T) with INITIAL_PML4T. change (pml4_index (0x50000 * 4096)) with 0.
  change (pdpt_index (0x50000 * 4096)) with 1.
  rewrite (entry_set INITIAL_PML4T 0 (pdpt + 7)) by (by rewrite ?Z.add_0_r). cbn [mbind option_bind].
  rewrite B4, (entry_zero pdpt 1) by done. by rewrite Z.add_0_r.
Qed.

Lemma unmapped_stored s s' i x :
  page pt -> pt <> pdpt -> DEPLOY_PHYS_ADDR_START <= pt -> 0 <= i < 512 ->
  stored s s' (pt + 8 * i) x -> unmapped_gb s -> unmapped_gb s'.
Proof.
  intros Pt Hne Lt Hi Hst Hu. pose proof Hu as [(E3 & E4 & P3) Ez Hco].
  assert (pt + 8 * i <> INITIAL_PML4T) as N4.
  { unfold INITIAL_PML4T, TRAMPOLINE_ADDR, PAGE_SIZE, DEPLOY_PHYS_ADDR_START in *. lia. }
  assert (pdpt + 8 * 1 <> pt + 8 * i) as N3 by (apply entry_addr_ne; auto; lia).
  split; [split_and!; [by rewrite (sr_cr3 _ _ (st_regs _ _ _ Hst))| |apply P3..]| |].
  - rewrite (stored_read _ _ _ _ Hst); [done|by vm_compute|congruence].
  - rewrite (stored_read _ _ _ _ Hst); [done|by apply page_slot|done].
  - intros j Hj. apply (stored_coherent _ _ _ _ Hst); [|by apply Hco].
    destruct (unmapped_walk s j Hu Hj) as [_ ->]. rewrite !elem_of_cons, elem_of_nil. naive_solver.
Qed.

Lemma unmapped_quiet s s' : quiet s s' -> unmapped_gb s -> unmapped_gb s'.
Proof.
  intros Hq [(E3 & E4 & P3) Ez Hco]. split; [|by rewrite (qu_mem _ _ Hq)|].
  - by rewrite (sr_cr3 _ _ (qu_regs _ _ Hq)), (qu_mem _ _ Hq).
  - intros i Hi. apply (quiet_current _ _ _ Hq). auto.
Qed.

Lemma handler_faults G s0 s f i k :
  cow pdpt pd2 pd pt G s0 s f -> (forall j, 0 <= j < 512 -> 0 <= f j < 2 ^ 64) ->
  page pt -> pt <> pdpt -> DEPLOY_PHYS_ADDR_START <= pt -> unmapped_gb s ->
  256 <= i < 512 -> 0 <= k < 4096 -> cr2 s = 0x80000000 + i * 4096 + k ->
  CopyOnWrite.fault_handler pt s = Fault SegFault.
Proof.
  intros Hc Hf Pt Hne Lt Hu Hi Hk E2. unfold CopyOnWrite.fault_handler.
  apply wp_then_fault. unfold wp, read_cr2. rewrite E2. cbv zeta.
  assert (((0x80000000 + i * 4096 + k) mod k2MB) / k4KB = i) as ->.
  { replace (0x80000000 + i * 4096 + k) with (i * 4096 + k + 1024 * k2MB) by (unfold k2MB; lia).
    rewrite Z.mod_add, Z.mod_small by (unfold k2MB; lia).
    unfold k4KB. rewrite Z.div_add_l, Z.div_small by lia. lia. }
  pose proof (ru_linked _ _ _ _ _ _ _ _ _ (co_running _ _ _ _ _ _ _ _ Hc)) as Hl.
  destruct (rw_entry i) as (-> & _); [lia|]. pose proof (frame_page i ltac:(lia)) as (? & _ & ?).
  apply wp_then_fault. eapply wp_mono; [eapply wp_put_entry; [exact Hl|lia|lia]|].
  intros [] s1 S1. cbv beta in S1 |- *.
  destruct (linked_update _ _ _ _ _ _ _ _ _ _ _ _ _ S1 ltac:(lia) Hl) as [Hl1 _].
  rewrite (Z.add_0_r pt) in S1. pose proof (unmapped_stored _ _ i _ Pt Hne Lt ltac:(lia) S1 Hu) as Hu1.
  pose proof Hl1 as [Hw1 _ Hpt1 (_ & _ & Hlo & Hhi) _].
  apply wp_then_fault. unfold get_entry. eapply wp_mono.
  { eapply (wp_load64_window 0x100000 0x140000 0 _ s1 (pt + 8 * (i - 256)) (f (i - 256)) Hw1); [lia| |].
    - apply page_slot; [done|lia].
    - rewrite <- (upd_ne f i (i - 256) (frame i + 7)) by lia. rewrite <- Hpt1 by lia. f_equal. lia. }
  intros r s2 [-> A2]. cbv beta. apply loaded_quiet in A2.
  apply wp_then_fault. eapply wp_mono.
  { eapply wp_put_entry; [eapply linked_quiet; [exact A2|exact Hl1]|lia|].
    apply (lor_bound 64); [lia|apply Hf; lia|by vm_compute]. }
  intros [] s3 S3. cbv beta in S3 |- *. rewrite (Z.add_0_r pt) in S3.
  pose proof (unmapped_stored _ _ (i - 256) _ Pt Hne Lt ltac:(lia) S3 (unmapped_quiet _ _ A2 Hu1)) as Hu3.
  do 3 (apply first_faults; cbn [CopyOnWrite.my_memcpy_with CopyOnWrite.memcpy_fuel]).
  apply unmapped_load.
  all: replace (0x50000000 + (i - 256) * 0x1000 + 8 * 0) with ((0x50000 + (i - 256)) * 4096) by lia.
  - replace ((0x50000 + (i - 256)) * 4096) with ((0x50000 + (i - 256)) * 512 * 8) by lia. by rewrite Z.mod_mul.
  - rewrite Z.div_mul by done. apply Hu3. lia.
  - rewrite Z.div_mul by done. apply (unmapped_walk s3 (i - 256) Hu3). lia.
Qed.
End Handler.

(** ** Properties *)

(** The example machine with memory at 0x50000000. *)
Definition demo_buffer : mem := blit demo_memory 0x50000000 (zeros (Z.to_nat 0x200000)).

Definition demo_cow_core : core :=
  mkCore demo_buffer INITIAL_PML4T false true 0 (0, 0) ∅ 0 [] [].

Lemma demo_buffer_read a : slot a -> ~ (0x4ffffff8 < a < 0x50200000) -> read64 demo_buffer a = read64 demo_memory a.
Proof.
  intros Ha Hn. apply read64_agree; [done|]. intros x Hx. unfold demo_buffer, zeros.
  rewrite blit_lookup, length_replicate, Z2Nat.id, decide_False by (done || lia). done.
Qed.

Lemma demo_buffer_mapped x : is_Some (demo_memory !! x) -> is_Some (demo_buffer !! x).
Proof.
  intros Hx. unfold demo_buffer, zeros. rewrite blit_lookup, length_replicate, Z2Nat.id by done.
  destruct (decide _) as [Hin|]; [|done]. apply lookup_lt_is_Some_2. rewrite length_replicate.
  apply Z2Nat.inj_lt; lia.
Qed.

Lemma demo_buffer_there : mapped demo_buffer 0x50000000 0x200000.
Proof.
  intros x Hx. unfold demo_buffer, zeros. rewrite blit_lookup, length_replicate, Z2Nat.id by done.
  rewrite decide_True by lia. apply lookup_lt_is_Some_2. rewrite length_replicate. apply Z2Nat.inj_lt; lia.
Qed.

#[global] Opaque demo_buffer.

Lemma demo_buffer_page p i :
  page p -> DEPLOY_PHYS_ADDR_START <= p -> 0 <= i < 512 ->
  read64 demo_buffer (p + 8 * i) = read64 demo_memory (p + 8 * i).
Proof.
  intros Hp Hlo Hi. apply demo_buffer_read; [by apply page_slot|]. unfold DEPLOY_PHYS_ADDR_START in Hlo. lia.
Qed.

Lemma demo_buffer_tables : boot_tables demo_pdpt demo_pd1 demo_pd2 (read64 demo_buffer).
Proof.
  apply (boot_tables_agree _ _ _ (read64 demo_memory)); [apply demo_buffer_read| |exact demo_boot_tables].
  - by vm_compute.
  - unfold INITIAL_PML4T, TRAMPOLINE_ADDR, PAGE_SIZE. lia.
  - intros q i Hq Hi. rewrite !elem_of_cons, elem_of_nil in Hq.
    destruct Hq as [->|[->|[->|[]]]]; (apply demo_buffer_page; [by vm_compute|by vm_compute|exact Hi]).
Qed.

Lemma demo_cow_vm : friend_vm demo_cow_core demo_pdpt demo_pd2.
Proof.
  apply (booted_friend_vm _ _ demo_pd1);
    [by vm_compute|by vm_compute|by vm_compute|done|done|done|exact demo_buffer_tables|reflexivity| |].
  - intros p. by apply fresh_coherent.
  - intros x Hx. apply demo_buffer_mapped. eapply mapped_agree; [apply demo_memory_spec| |exact Hx].
    intros y Hy. rewrite demo_region_zero; [done|]. left. demo_arith.
Qed.

Lemma demo_cow_zero p i :
  page p -> 0 <= i < 512 -> in_friend_region p -> in_friend_region (p + 4095) ->
  p <> demo_pd2 -> (p = demo_pdpt -> i <> 0 /\ i <> 4) -> (p = demo_pd1 -> i <> 0) ->
  read64 (pmem demo_cow_core) (p + 8 * i) = Some 0.
Proof.
  intros Hp Hi H1 H2 N2 N3 N1. change (pmem demo_cow_core) with demo_buffer.
  rewrite (demo_buffer_page p i Hp (proj1 H1) Hi). exact (demo_zero_at p i Hp Hi H1 H2 N2 N3 N1).
Qed.

Lemma demo_cow_started : started demo_pdpt demo_pd2 demo_pd demo_pt demo_cow_core.
Proof.
  split.
  - exact demo_cow_vm.
  - by vm_compute.
  - apply (demo_cow_zero demo_pdpt 2); by vm_compute.
  - split; intros i Hi; apply demo_cow_zero; by vm_compute || done.
  - intros i _. by apply fresh_coherent.
Qed.

(** C28: Copy on write never happens.  With CR0.WP clear, as the trampoline leaves it,
    and memory at 0x50000000, the program ends without a page fault, whatever the
    handler and the translation cache do: its accesses are done at the first attempt.
    The words it writes to the second half are zero in the physical pages from
    0x50100000 on, which are outside the friend region; and on a core that does not
    cache translations, the writes of the second block have also reached the pages of
    the first half, which were to be protected. *)
Theorem copy_on_write_never_copies (pol : TlbPolicy) pdpt pd2 pd pt idt_def idtr_var int_handler tsc fuel s :
  started pdpt pd2 pd pt s -> in_friend_region pd2 ->
  placed 0x100000 0x140000 (friend_slots pdpt pd2) idt_def idtr_var ->
  table_apart pdpt pd pt idt_def idtr_var -> uint 64 int_handler ->
  wp_bit s = false -> mapped (pmem s) 0x50000000 0x200000 ->
  exists s', CopyOnWrite.friend_main pdpt pd pt idt_def idtr_var int_handler tsc (S fuel) s = Done (tt, s') /\
    (forall i, 256 <= i < 512 -> ~ in_friend_region (frame i) /\ read64 (pmem s') (frame i) = Some 0) /\
    (uncached -> forall i, 0 <= i < 256 -> read64 (pmem s') (frame i) = Some 0).
Proof.
  intros Hsd H2 Hpl Hap Hh Hwp Hmem.
  assert (pages_ok pdpt pd2 pd pt) as Hpo.
  { pose proof (fv_pages _ _ _ (sd_vm _ _ _ _ _ Hsd)) as (P3 & P2 & _ & L3 & _).
    destruct (sd_pages _ _ _ _ _ Hsd) as ((_ & Ld & _) & (_ & Lt & _) & _). by split. }
  destruct (wp_done _ _ _ (cow_spec pdpt pd2 pd pt idt_def idtr_var int_handler tsc (proj1 H2) Hpo fuel s
    Hpl Hap Hh Hsd Hwp Hmem)) as ([] & s' & E & _ & Hz & Hu).
  exists s'. split_and!; [done| |done]. intros i Hi. split; [|by apply Hz].
  unfold in_friend_region, frame, DEPLOY_PHYS_ADDR_START. lia.
Qed.

Lemma copy_on_write_never_copies_witness :
  exists s', CopyOnWrite.friend_main (H := keep_all) demo_pdpt demo_pd demo_pt 0x100020000 0x100020400 0x100003000
      (fun n => Z.of_nat n) 1 demo_cow_core = Done (tt, s') /\
    (forall i, 256 <= i < 512 -> ~ in_friend_region (frame i) /\ read64 (pmem s') (frame i) = Some 0) /\
    (uncached (H := keep_all) -> forall i, 0 <= i < 256 -> read64 (pmem s') (frame i) = Some 0).
Proof.
  apply (copy_on_write_never_copies keep_all demo_pdpt demo_pd2 demo_pd demo_pt).
  - exact demo_cow_started.
  - by vm_compute.
  - exact demo_placed.
  - intros x Hx. unfold table_range in Hx.
    pose proof (Z.div_mod x 8 ltac:(done)). pose proof (Z.mod_pos_bound x 8 ltac:(done)).
    unfold demo_pdpt, demo_pd, demo_pt. split; [lia|]. intros i Hi. lia.
  - by vm_compute.
  - reflexivity.
  - exact demo_buffer_there.
Defined.
