(* ===== verification/OldRuntime.v ===== *)
(** * OldRuntime: what the programs of sample_old share

    The programs of sample_old run under an earlier runtime, which maps the virtual
    addresses from 0 on to the physical addresses from 0x80000000 on and talks to the
    host through a channel.  That runtime is not part of the repository: its mapping is
    a hypothesis ([old_runtime]), the channel a parameter ([Channel]).  This file has
    the functions of sample_old/common (output, [memset], [memcpy], the loop of the
    host that serves the friend), the table stores the programs have in common, and the
    rules for them. *)

From S2P Require Import Prelude Memory Paging VirtMem TutorialPaging.
Import VirtMem.

(** What the host sees of a signal of the given type and value. *)
Definition sig (type value : Z) : string * list Z := ("f2h"%string, [type; value]).

(** A signal to the host: [ChannelAccessor ch_ac(f2h, type); ch_ac.Write(0, value);
    ch_ac.Do(0)].  It reaches the host and leaves the memory of the program alone. *)
Class Channel := {
  signal : Z -> Z -> M core unit;
  signal_ok : forall type value s,
    wp (signal type value) (fun _ s' => quiet s s' /\ console s' = sig type value :: console s) s
}.

Module OldRuntime.

Definition OFFSET : Z := 0x80000000.

(** ** sample_old/common/common.cc *)

(** The bytes of a string literal without its terminating NUL, and of a C string. *)
Definition chars (str : string) : list Z := (fun c => Z.of_N (N_of_ascii c)) <$> list_ascii_of_string str.

Fixpoint until_nul (l : list Z) : list Z :=
  match l with
  | [] => []
  | c :: rest => if c =? 0 then [] else c :: until_nul rest
  end.

Section Functions.
Context `{TlbPolicy} `{Channel}.

(** [while ( *str ) { ...; str++; }] *)
Fixpoint puts_chars (str : list Z) : M core unit :=
  match str with
  | [] => mret tt
  | c :: rest => if c =? 0 then mret tt else signal 2 c;; puts_chars rest
  end.

(** [puts] of the programs with an output function of their own *)
Definition puts_plain (str : list Z) : M core unit := puts_chars str;; signal 2 10.

(** [__sync_bool_compare_and_swap] on an [int] *)
Definition compare_and_swap (a old new : Z) : M core bool :=
  v ← no_fault (vload 4 a);
  if v =? old then (no_fault (vstore 4 a new);; mret true) else mret false.

(** [while (__sync_bool_compare_and_swap(&print_flag, 0, 1)) pause;], with fuel *)
Fixpoint print_lock (fuel : nat) (print_flag : Z) : M core unit :=
  match fuel with
  | O => fail OutOfFuel
  | S n => b ← compare_and_swap print_flag 0 1; if b : bool then print_lock n print_flag else mret tt
  end.

Definition puts (print_flag : Z) (str : list Z) : M core unit :=
  print_lock 2 print_flag;;
  puts_chars str;;
  signal 2 10;;
  no_fault (vstore 4 print_flag 0).

Definition return_value (i : Z) : M core unit := signal 1 i.

Definition memset (dest ch : Z) (n : nat) : M core unit :=
  for_ n 0 (fun i => no_fault (vstore 1 (dest + i) ch)).

Definition memcpy (dest src : Z) (n : nat) : M core unit :=
  for_ n 0 (fun i => b ← no_fault (vload 1 (src + i)); no_fault (vstore 1 (dest + i) b)).

(** [char mes[] = "i=0"; mes[2] += i; puts(f2h, mes);] *)
Definition show_i (say : list Z -> M core unit) (i : Z) : M core unit :=
  say [105; 61; (48 + i) mod 256].
End Functions.

(** ** sample_old/common/exec.cc: the loop of the host

    [while (true) { f2h.WaitNewSignal(type); switch (type) ... }] over the signals the
    friend sends; [None] means that the host still waits.  [out] is what it has
    printed. *)
Fixpoint serve (signals : list (string * list Z)) (out : list Z) : option Z * list Z :=
  match signals with
  | (_, [type; value]) :: rest =>
      if type =? 1 then (Some (sext 32 (value mod 2 ^ 32)), out)
      else if type =? 2 then serve rest (out ++ [value mod 2 ^ 8])
      else (Some 1, out)
  | _ => (None, out)
  end.

(** ** What the programs run on *)

(** The runtime maps the pages below [hi] to the memory from [OFFSET] on, through
    tables whose entries [T] are not in the memory the programs use for tables and
    images (0x310000 to 0x900000), and maps nothing in the 4 MB at 0xC0000000. *)
Definition scratch (a : Z) : Prop := 0x80310000 <= a < 0x80900000.

Definition absent (s : core) (p : Z) : Prop := tlb s !! p = None /\ current s p = None.

Record old_runtime (hi : Z) (T : Z -> Prop) (s : core) : Prop := {
  or_size : 0x900 <= hi <= 0x40000;
  or_window : window s 0 hi OFFSET T;
  or_absent : forall p, 0xC0000 <= p < 0xC0400 -> absent s p /\ forall a, a ∈ page_slots s p -> T a;
  or_apart : forall a, T a -> ~ scratch a
}.

Lemma runtime_touched hi T s s' a :
  touched s s' a -> ~ T a -> old_runtime hi T s -> old_runtime hi T s'.
Proof.
  intros Ht Ha [Hs Hw Hab Hap]. split; [done|by eapply window_stored| |done].
  intros p Hp. destruct (Hab p Hp) as [[H1 H2] H3].
  assert (a ∉ page_slots s p) as Hns by (intros Hin; by apply Ha, H3).
  destruct (stored_current _ _ _ _ Ht Hns) as [E1 E2]. split.
  - split; [|congruence]. destruct (tlb s' !! p) as [e|] eqn:E; [|done].
    destruct (st_tlb _ _ _ Ht p e E); congruence.
  - rewrite E2. exact H3.
Qed.

Lemma runtime_quiet hi T s s' : quiet s s' -> old_runtime hi T s -> old_runtime hi T s'.
Proof.
  intros Hq [Hs Hw Hab Hap]. split; [done|by eapply window_quiet| |done].
  intros p Hp. destruct (Hab p Hp) as [[H1 H2] H3].
  destruct (quiet_current _ _ p Hq) as (E1 & E2 & _). split.
  - split; [|congruence]. destruct (tlb s' !! p) as [e|] eqn:E; [|done].
    destruct (qu_tlb _ _ Hq p e E); congruence.
  - rewrite E2. exact H3.
Qed.

(** A state predicate that output keeps: it does not depend on the console, on what
    the cache prefetches, or on the word the print flag is in. *)
Definition flag_slot (print_flag : Z) : Z := (print_flag + OFFSET) / 8 * 8.

Record stable (hi print_flag : Z) (R : core -> Prop) : Prop := {
  sb_quiet : forall s s', quiet s s' -> R s -> R s';
  sb_flag : forall s s', touched s s' (flag_slot print_flag) -> R s -> R s';
  sb_window : forall s, R s -> exists T, window s 0 hi OFFSET T
}.

(** The print flag is an [int] in the memory of the program. *)
Record flag_ok (hi : Z) (T : Z -> Prop) (print_flag : Z) : Prop := {
  fo_align : print_flag mod 4 = 0;
  fo_range : 0 <= print_flag < hi * 4096;
  fo_apart : ~ T (flag_slot print_flag) /\ ~ scratch (flag_slot print_flag)
}.

(** The signals of a line of text. *)
Definition text (str : list Z) : list (string * list Z) := (sig 2 <$> until_nul str) ++ [sig 2 10].

(** [say] prints a line and keeps every stable predicate. *)
Definition speaks `{TlbPolicy} (hi print_flag : Z) (say : list Z -> M core unit) : Prop :=
  forall R str s, stable hi print_flag R -> R s ->
    wp (say str) (fun _ s' => R s' /\ console s' = rev (text str) ++ console s) s.

Section Output.
Context `{TlbPolicy} `{Channel} (hi print_flag : Z).
Implicit Types R : core -> Prop.

Lemma wp_signal R type value s :
  stable hi print_flag R -> R s ->
  wp (signal type value) (fun _ s' => R s' /\ console s' = sig type value :: console s) s.
Proof.
  intros Hs HR. eapply wp_mono; [apply signal_ok|]. intros [] s' [Hq E]. split; [|done].
  by apply (sb_quiet _ _ _ Hs s).
Qed.

Lemma wp_puts_chars R str s :
  stable hi print_flag R -> R s ->
  wp (puts_chars str) (fun _ s' => R s' /\ console s' = rev (sig 2 <$> until_nul str) ++ console s) s.
Proof.
  intros Hs. revert s. induction str as [|c str IH]; intros s HR; cbn [puts_chars until_nul]; [by apply wp_ret|].
  destruct (c =? 0); [by apply wp_ret|].
  apply wp_bind. eapply wp_mono; [by apply (wp_signal R)|]. intros [] s1 [H1 E1].
  eapply wp_mono; [by apply IH|]. intros [] s2 [H2 ->]. split; [done|].
  rewrite E1, fmap_cons. cbn [rev]. by rewrite <- app_assoc.
Qed.

Lemma wp_puts_plain : speaks hi print_flag puts_plain.
Proof.
  intros R str s Hs HR. unfold puts_plain. apply wp_bind.
  eapply wp_mono; [by apply (wp_puts_chars R)|]. intros [] s1 [H1 E1].
  eapply wp_mono; [by apply (wp_signal R)|]. intros [] s2 [H2 ->]. split; [done|].
  unfold text. by rewrite rev_app_distr, E1.
Qed.

(** Accesses to the print flag. *)
Hypothesis flag_range : 0 <= print_flag < hi * 4096 /\ print_flag mod 4 = 0 /\ hi <= 0x40000.

Lemma flag_in_page : print_flag mod 4096 + 4 <= 4096.
Proof.
  destruct flag_range as (_ & Hm & _). pose proof (Z.mod_pos_bound print_flag 4096 ltac:(done)).
  assert ((print_flag mod 4096) mod 4 = 0) as E.
  { rewrite <- Hm. apply Z.mod_mod_divide. by exists 1024. }
  pose proof (Z.div_mod (print_flag mod 4096) 4 ltac:(done)). lia.
Qed.

Lemma wp_flag_store R v s :
  stable hi print_flag R -> R s ->
  wp (no_fault (vstore 4 print_flag v))
    (fun _ s' => R s' /\ console s' = console s /\ word 4 (pmem s') (print_flag + OFFSET) = Some (v mod 2 ^ 32)) s.
Proof.
  intros Hs HR. destruct (sb_window _ _ _ Hs s HR) as [T Hw]. destruct flag_range as (Hr & Hm & Hhi).
  eapply wp_mono; [eapply (wp_write_window 0 hi OFFSET T 4);
    [exact Hw|lia|lia|by exists 2|exact Hm|done|unfold OFFSET; lia|unfold OFFSET; lia]|].
  intros [] s' [Ht Hv _]. split_and!; [by apply (sb_flag _ _ _ Hs s)|apply Ht|exact Hv].
Qed.

Lemma wp_flag_load R v s :
  stable hi print_flag R -> R s -> word 4 (pmem s) (print_flag + OFFSET) = Some v ->
  wp (no_fault (vload 4 print_flag)) (fun r s' => r = v /\ R s' /\ console s' = console s) s.
Proof.
  intros Hs HR Hv. destruct (sb_window _ _ _ Hs s HR) as [T Hw]. destruct flag_range as (Hr & Hm & Hhi).
  eapply wp_mono; [eapply wp_read_window; [exact Hw|lia|apply flag_in_page|exact Hv]|].
  intros r s' [-> Ha]. split_and!; [done| |apply Ha].
  apply (sb_quiet _ _ _ Hs s); [by apply loaded_quiet|done].
Qed.

Lemma flag_word R s : stable hi print_flag R -> R s -> exists v, word 4 (pmem s) (print_flag + OFFSET) = Some v.
Proof.
  intros Hs HR. destruct (sb_window _ _ _ Hs s HR) as [T Hw]. destruct flag_range as (Hr & Hm & Hhi).
  destruct (window_page 0 hi OFFSET T s print_flag Hw ltac:(lia)) as [Hp E]. pose proof flag_in_page.
  pose proof (Z.mod_pos_bound print_flag 4096 ltac:(done)).
  destruct (read_bytes_mapped (pmem s) (print_flag + OFFSET) 4) as [bs Ebs].
  - unfold OFFSET. lia.
  - unfold OFFSET. lia.
  - rewrite <- E. eapply mapped_sub; [| |by apply (wi_mem _ _ _ _ _ Hw)]; lia.
  - exists (le_value bs). unfold word. by rewrite Ebs.
Qed.

(** The lock loop ends whatever the flag holds. *)
Lemma wp_print_lock R s :
  stable hi print_flag R -> R s ->
  wp (print_lock 2 print_flag) (fun _ s' => R s' /\ console s' = console s) s.
Proof.
  intros Hs HR. destruct (flag_word R s Hs HR) as [v Hv]. cbn [print_lock]. unfold compare_and_swap.
  apply wp_bind, wp_bind. eapply wp_mono; [by apply (wp_flag_load R v)|]. intros r s1 (-> & H1 & E1).
  destruct (Z.eqb_spec v 0) as [->|Hne]; [|by apply wp_ret, wp_ret].
  apply wp_bind. eapply wp_mono; [by apply (wp_flag_store R)|]. intros [] s2 (H2 & E2 & Hv2). apply wp_ret.
  apply wp_bind, wp_bind. eapply wp_mono; [by apply (wp_flag_load R (1 mod 2 ^ 32))|].
  intros r s3 (-> & H3 & E3). apply wp_ret, wp_ret. split; [done|congruence].
Qed.

Lemma wp_puts : speaks hi print_flag (puts print_flag).
Proof.
  intros R str s Hs HR. unfold puts. apply wp_bind. eapply wp_mono; [by apply (wp_print_lock R)|].
  intros [] s1 [H1 E1]. apply wp_bind. eapply wp_mono; [by apply (wp_puts_chars R)|]. intros [] s2 [H2 E2].
  apply wp_bind. eapply wp_mono; [by apply (wp_signal R)|]. intros [] s3 [H3 E3].
  eapply wp_mono; [by apply (wp_flag_store R)|]. intros [] s4 (H4 & E4 & _). split; [done|].
  unfold text. rewrite rev_app_distr, E4, E3, E2, E1. done.
Qed.
End Output.

(** ** The table area *)

(** A byte that reads as zero, and a word of such bytes. *)
Definition zero_byte (m : mem) (x : Z) : Prop := word 1 m x = Some 0.

Lemma zero_byte_at m x : 0 <= x < 2 ^ 64 -> zero_byte m x <-> exists b, m !! x = Some b /\ b mod 256 = 0.
Proof.
  intros Hx. unfold zero_byte, word. cbn [read_bytes]. rewrite u64_small by lia.
  destruct (m !! x) as [b|]; cbn; [|naive_solver]. split.
  - intros [= E]. exists b. split; [done|lia].
  - intros (b' & [= <-] & ->). done.
Qed.

Lemma zero_bytes m n a :
  0 <= a -> a + Z.of_nat n <= 2 ^ 64 -> (forall x, a <= x < a + Z.of_nat n -> zero_byte m x) ->
  le_value <$> read_bytes m a n = Some 0.
Proof.
  revert a. induction n as [|n IH]; intros a Ha Hb Hz; [done|].
  assert (zero_byte m a) as Hza by (apply Hz; lia).
  apply zero_byte_at in Hza as (b & Eb & Em); [|lia].
  cbn [read_bytes]. rewrite u64_small by lia. rewrite Eb. cbn.
  specialize (IH (a + 1) ltac:(lia) ltac:(lia) ltac:(intros; apply Hz; lia)).
  destruct (read_bytes m (a + 1) n) as [bs|]; [|done]. cbn in *. injection IH as IH.
  rewrite Em, IH. done.
Qed.

Lemma read64_zero_bytes m a :
  slot a -> (forall x, a <= x < a + 8 -> zero_byte m x) -> read64 m a = Some 0.
Proof. intros (Ha & _ & Hb) Hz. apply (zero_bytes m 8); [done|done|exact Hz]. Qed.

(** The words from [base] on overwritten with [h 0], [h 1], ..., [h (n - 1)]. *)
Definition filled (g : Z -> Z) (base : Z) (h : Z -> Z) (n : Z) : Z -> Z := fun a =>
  if decide (base <= a < base + 8 * n) then h ((a - base) / 8) else g a.

Lemma filled_at g base h n i : 0 <= i < n -> filled g base h n (base + 8 * i) = h i.
Proof.
  intros Hi. unfold filled. rewrite decide_True by lia. f_equal.
  replace (base + 8 * i - base) with (i * 8) by lia. by apply Z.div_mul.
Qed.

Lemma filled_out g base h n a : ~ (base <= a < base + 8 * n) -> filled g base h n a = g a.
Proof. intros Ha. unfold filled. by rewrite decide_False. Qed.

(** What a program relies on beside its tables: output and stores to the scratch
    memory keep it. *)
Definition kept (print_flag : Z) (K : mem -> Prop) : Prop :=
  forall m m' a, slot_update m m' (fun b => b = a) -> a mod 8 = 0 -> a = flag_slot print_flag \/ scratch a -> K m -> K m'.

Lemma kept_true print_flag : kept print_flag (fun _ => True).
Proof. done. Qed.

Section Build.
(** [size] is the size of the memory the program clears for its tables, [rest] what the
    table area holds behind it. *)
Context `{TlbPolicy}.
Context (hi : Z) (T : Z -> Prop) (print_flag : Z) (K : mem -> Prop) (size : Z) (rest : Z -> option Z).
Hypothesis K_kept : kept print_flag K.
Hypothesis size_ok : 0 <= size <= 0x9000 /\ size mod 4096 = 0.

(** [g] gives the words of the first [size] bytes of the table area. *)
Definition table_words (s : core) (g : Z -> Z) : Prop :=
  forall a, slot a -> 0x80310000 <= a < 0x80310000 + size -> read64 (pmem s) a = Some (g a).

Definition rest_is (s : core) : Prop :=
  forall a, slot a -> 0x80310000 + size <= a < 0x80319000 -> read64 (pmem s) a = rest a.

Record building (c : list (string * list Z)) (s : core) (g : Z -> Z) : Prop := {
  bu_runtime : old_runtime hi T s;
  bu_tables : table_words s g;
  bu_rest : rest_is s;
  bu_kept : K (pmem s);
  bu_console : console s = c
}.

Lemma wp_memset0 c s :
  old_runtime hi T s -> rest_is s -> K (pmem s) -> console s = c ->
  wp (memset 0x310000 0 (Z.to_nat size)) (fun _ s' => building c s' (fun _ => 0)) s.
Proof.
  intros Hr Hre HK Hc. unfold memset.
  eapply wp_mono; [apply (wp_for (fun i s' => old_runtime hi T s' /\ rest_is s' /\ K (pmem s') /\ console s' = c /\
    forall x, 0x80310000 <= x < 0x80310000 + i -> zero_byte (pmem s') x))|].
  - intros i s1 Hi (H1 & H2 & H3 & H4 & Hz). pose proof (or_size _ _ _ H1).
    eapply wp_mono; [eapply (wp_write_window 0 hi OFFSET T 1 (0x310000 + i) 0);
      [apply H1|lia|lia|by exists 8|by rewrite Z.mod_1_r|done|unfold OFFSET; lia|unfold OFFSET; lia]|].
    intros [] s2 [Ht Hw Ho]. unfold OFFSET in *.
    replace (0x310000 + i + 0x80000000) with (0x80310000 + i) in * by lia.
    pose proof (Z.div_mod (0x80310000 + i) 8). pose proof (Z.mod_pos_bound (0x80310000 + i) 8).
    assert (0x80310000 / 8 <= (0x80310000 + i) / 8) by (apply Z.div_le_mono; lia).
    assert (scratch ((0x80310000 + i) / 8 * 8)) as Hsc by (unfold scratch; lia). split_and!.
    + eapply runtime_touched; [exact Ht| |exact H1]. intros HT. by apply (or_apart _ _ _ H1 _ HT).
    + intros a Ha Hge. rewrite <- (H2 a Ha Hge). apply (stored_read _ _ _ _ Ht); [done|lia].
    + apply (K_kept (pmem s1) _ _ (st_mem _ _ _ Ht)); [by apply Z.mod_mul|by right|done].
    + rewrite <- H4. apply Ht.
    + intros x Hx. unfold zero_byte in *. destruct (decide (x = 0x80310000 + i)) as [->|Hne]; [by rewrite Hw|].
      rewrite <- (Hz x) by lia. unfold word.
      rewrite (read_bytes_agree (pmem s1) (pmem s2)); [done|lia|lia|]. intros y Hy. apply Ho. lia.
  - split_and!; [done..|]. intros x Hx. lia.
  - intros [] s' (H1 & H2 & H3 & H4 & Hz). split; [done| |done|done|done].
    intros a Ha Hlt. apply read64_zero_bytes; [done|]. intros x Hx. apply Hz.
    destruct Ha as (_ & Hm & _). pose proof (Z.div_mod a 8). pose proof (Z.div_mod size 4096). lia.
Qed.

Lemma building_ext c s g g' :
  (forall a, slot a -> 0x80310000 <= a < 0x80310000 + size -> g' a = g a) ->
  building c s g -> building c s g'.
Proof. intros Hg [H1 H2 H3 H4 H5]. split; [done| |done..]. intros a Ha Hr. rewrite Hg by done. by apply H2. Qed.

(** A table of the table area. *)
Definition own_table (p : Z) : Prop := page p /\ 0x310000 <= p /\ p + 4096 <= 0x310000 + size.

Lemma own_table_slot p i :
  own_table p -> 0 <= i < 512 ->
  slot (p + OFFSET + 8 * i) /\ (p + 8 * i) mod 8 = 0 /\ scratch (p + OFFSET + 8 * i).
Proof.
  intros (Hp & Hlo & Hhi) Hi. destruct (page_slot p i Hp Hi) as (_ & H8 & _). split_and!; [|done|].
  - apply page_slot; [|done]. destruct Hp as (? & Hm & ?). unfold OFFSET. split_and!; [lia| |lia].
    rewrite Zplus_mod, Hm. done.
  - unfold scratch, OFFSET. lia.
Qed.

Lemma building_stored c s s' g p i v :
  building c s g -> own_table p -> 0 <= i < 512 -> stored s s' (p + OFFSET + 8 * i) v ->
  building c s' (upd g (p + OFFSET + 8 * i) v).
Proof.
  intros [H1 H2 H3 H4 H5] Hp Hi Hst. destruct (own_table_slot p i Hp Hi) as (Hs & _ & Hsc). split.
  - eapply runtime_touched; [exact Hst| |exact H1]. intros HT. by apply (or_apart _ _ _ H1 _ HT).
  - intros a Ha Hr. unfold upd. case_decide as Hd; [subst; apply Hst|].
    rewrite (stored_read _ _ _ _ Hst) by done. by apply H2.
  - intros a Ha Hr. rewrite (stored_read _ _ _ _ Hst); [by apply H3|done|].
    destruct Hp as (_ & _ & Hhi). unfold OFFSET. lia.
  - apply (K_kept (pmem s) _ _ (st_mem _ _ _ Hst)); [apply Hs|by right|done].
  - rewrite <- H5. apply Hst.
Qed.

Lemma wp_put c s g p i v :
  building c s g -> own_table p -> 0 <= i < 512 -> 0 <= v < 2 ^ 64 ->
  wp (put_entry p i v) (fun _ s' => building c s' (upd g (p + OFFSET + 8 * i) v)) s.
Proof.
  intros Hb Hp Hi Hv. pose proof (or_size _ _ _ (bu_runtime _ _ _ Hb)). unfold put_entry.
  destruct (own_table_slot p i Hp Hi) as (Hs & H8 & _). pose proof Hp as (Hpp & Hlo & Hhi).
  eapply wp_mono; [eapply (wp_store64_window 0 hi OFFSET T); [apply Hb|lia|done| |done]|].
  { by replace (p + 8 * i + OFFSET) with (p + OFFSET + 8 * i) by lia. }
  intros [] s' Hst. replace (p + 8 * i + OFFSET) with (p + OFFSET + 8 * i) in Hst by lia.
  by eapply building_stored.
Qed.

Lemma wp_fill_table c s g p h n :
  building c s g -> own_table p -> Z.of_nat n <= 512 ->
  (forall i, 0 <= i < Z.of_nat n -> 0 <= h i < 2 ^ 64) ->
  wp (for_ n 0 (fun i => put_entry p i (h i)))
    (fun _ s' => building c s' (filled g (p + OFFSET) h (Z.of_nat n))) s.
Proof.
  intros Hb Hp Hn Hh.
  apply (wp_for (fun i s' => building c s' (filled g (p + OFFSET) h i))).
  - intros i s1 Hi H1. eapply wp_mono; [apply wp_put; [exact H1|done|lia|apply Hh; lia]|].
    intros [] s2. apply building_ext. intros a (Ha0 & Ha8 & _) Hr. unfold filled, upd.
    destruct (decide (a = p + OFFSET + 8 * i)) as [->|Hne].
    + rewrite decide_True by lia. f_equal. replace (p + OFFSET + 8 * i - (p + OFFSET)) with (i * 8) by lia.
      by apply Z.div_mul.
    + assert ((p + OFFSET) mod 8 = 0) as H8.
      { destruct Hp as ((_ & Hm & _) & _). unfold OFFSET. rewrite Zplus_mod.
        rewrite <- (Z.mod_mod_divide p 4096 8) by (by exists 512). by rewrite Hm. }
      pose proof (Z.div_mod a 8). pose proof (Z.div_mod (p + OFFSET) 8).
      destruct (decide _), (decide _); try done; lia.
  - eapply building_ext; [|exact Hb]. intros a _ _. apply filled_out. lia.
Qed.
End Build.

(** ** The low gigabyte under tables of the program

    [root], [p3] and [pd] map the addresses from 0 to 1 GB by pages of 2 MB, with the
    flags [fl] of 0x87 (present, writable, user, huge) and possibly the global bit. *)
Definition huge (x : Z) : Z := Z.lor (rwu x) (Z.shiftl 1 7).

Lemma huge_flags b : b mod 0x1000 = 0 -> huge b = b + 0x87.
Proof.
  intros Hb. unfold huge, rwu. rewrite <- !Z.lor_assoc.
  apply (lor_flags 12); [lia|exact Hb|done].
Qed.

Lemma rwu_bound x : 0 <= x < 2 ^ 52 -> 0 <= rwu x < 2 ^ 64.
Proof.
  intros Hx. unfold rwu. rewrite <- !Z.lor_assoc.
  assert (0 <= Z.lor x (Z.lor (Z.shiftl 1 0) (Z.lor (Z.shiftl 1 1) (Z.shiftl 1 2))) < 2 ^ 52); [|lia].
  apply lor_bound; [lia|done|done].
Qed.

Lemma low_base i : (0x80000000 + 0x200000 * i) mod k2MB = 0.
Proof.
  replace (0x80000000 + 0x200000 * i) with ((1024 + i) * k2MB) by (unfold k2MB; lia). by apply Z.mod_mul.
Qed.

(** The indices of a page of the low gigabyte. *)
Lemma low_indices p :
  0 <= p < 0x40000 ->
  pml4_index (p / 512 * 512 * 4096) = 0 /\ pdpt_index (p / 512 * 512 * 4096) = 0 /\
  pd_index (p / 512 * 512 * 4096) = p / 512 /\ 0 <= p / 512 < 512.
Proof.
  intros Hp. assert (0 <= p / 512 < 512) as Hq.
  { split; [apply Z.div_pos; lia|apply Z.div_lt_upper_bound; lia]. }
  unfold pml4_index, pdpt_index, pd_index, k256TB, k512GB, k1GB, k2MB.
  rewrite !Z.mod_small by lia.
  split_and!; [apply Z.div_small; lia|apply Z.div_small; lia| |lia|lia].
  replace (p / 512 * 512 * 4096) with (p / 512 * (2 * 1024 * 1024)) by lia. by apply Z.div_mul.
Qed.

(** [base] is the physical address of the root table. *)
Lemma root_base s p : page p -> cr3 s = p -> pte_base 12 (cr3 s) = p.
Proof.
  intros (H0 & Hm & Hb) ->. rewrite <- (Z.add_0_r p) at 1.
  apply (pte_base_flags 12); [lia|exact Hm|done|done|]. change (2 ^ 12) with 4096. lia.
Qed.

Section Low.
Context (root p3 pd fl : Z).
Hypothesis tables_ok : page root /\ page p3 /\ page pd /\ (fl = 0x87 \/ fl = 0x187).

Definition low_slots (a : Z) : Prop := a = root \/ a = p3 \/ pd <= a < pd + 4096.

Record low_tables (m : mem) : Prop := {
  lt_root : read64 m root = Some (p3 + 7);
  lt_p3 : read64 m p3 = Some (pd + 7);
  lt_pd : forall i, 0 <= i < 512 -> read64 m (pd + 8 * i) = Some (0x80000000 + 0x200000 * i + fl)
}.

Lemma low_maps s p :
  cr3 s = root -> low_tables (pmem s) -> 0 <= p < 0x40000 ->
  maps_to s p (p * 4096 + OFFSET) true /\ forall a, a ∈ page_slots s p -> low_slots a.
Proof.
  intros Hc [U1 U2 U3] Hp. destruct tables_ok as (P1 & P2 & P3 & Hfl).
  destruct (low_indices p Hp) as (I4 & I3 & I2 & Hq). pose proof (root_base s root P1 Hc) as Eb.
  assert (huge_page s (p / 512 * 512) p3 pd (0x80000000 + 0x200000 * (p / 512) + fl)
    (0x80000000 + 0x200000 * (p / 512))) as Hh.
  { split; [split; [lia|by apply Z.mod_mul]|done|..]; rewrite ?Eb, ?I4, ?I3, ?I2, ?Z.mul_0_r, ?Z.add_0_r; auto.
    pose proof (low_base (p / 512)) as Hb. change k2MB with (2 ^ 21) in Hb.
    assert (0 <= fl < 2 ^ 21) by (destruct Hfl; lia).
    unfold pte_present, pte_write, pte_huge. rewrite !(flag_bit 21) by (done || lia).
    rewrite pte_base_flags by (done || lia). by destruct Hfl as [->| ->]. }
  pose proof (Z.div_mod p 512 ltac:(done)) as Ed.
  destruct (huge_walk _ _ _ _ _ _ (p mod 512) Hh (Z.mod_pos_bound p 512 ltac:(done))) as [H1 H2].
  replace (p / 512 * 512 + p mod 512) with p in * by lia.
  replace (0x80000000 + 0x200000 * (p / 512) + p mod 512 * 4096) with (p * 4096 + OFFSET) in H1
    by (unfold OFFSET; lia).
  split; [done|]. rewrite H2. unfold area_slots. rewrite I4, I3, I2, Eb, !Z.mul_0_r, !Z.add_0_r.
  intros a. rewrite !elem_of_cons, elem_of_nil. unfold low_slots. lia.
Qed.

(** The write to CR3: the window survives, under the tables of the program. *)
Record switched (hi : Z) (s s' : core) : Prop := {
  sw_window : window s' 0 hi OFFSET low_slots;
  sw_mem : pmem s' = pmem s;
  sw_cr3 : cr3 s' = root;
  sw_pge : pge s' = pge s;
  sw_tlb : forall p e, tlb s' !! p = Some e -> tlb s !! p = Some e /\ te_global e = true;
  sw_console : console s' = console s
}.

Lemma wp_switch `{TlbPolicy} hi T s :
  hi <= 0x40000 -> window s 0 hi OFFSET T -> low_tables (pmem s) ->
  wp (write_cr3 root) (fun _ s' => switched hi s s') s.
Proof.
  intros Hhi Hw Ht. unfold wp, write_cr3. set (s' := mkCore _ _ _ _ _ _ _ _ _ _).
  assert (forall p e, tlb s' !! p = Some e -> tlb s !! p = Some e /\ te_global e = true) as Hsub.
  { intros p e He. by apply map_lookup_filter_Some in He. }
  split; [|done..]. split.
  - intros p Hp. apply (low_maps s' p); [done|done|lia].
  - intros p Hp e He. destruct (wi_coherent _ _ _ _ _ Hw p Hp e (proj1 (Hsub p e He))) as [b Hc].
    destruct (wi_maps _ _ _ _ _ Hw p Hp) as [b' Hm]. rewrite Hc in Hm. injection Hm as -> -> _.
    apply (low_maps s' p); [done|done|lia].
  - intros p a Hp. apply (low_maps s' p); [done|done|lia].
  - intros p Hp. apply (wi_mem _ _ _ _ _ Hw p Hp).
Qed.
End Low.

(** ** Accesses to one page *)

Lemma page_window s p f :
  coherent s p -> maps_to s p f true -> mapped (pmem s) f 4096 ->
  window s p (p + 1) (f - p * 4096) (fun a => a ∈ page_slots s p).
Proof.
  intros Hc Hm Hmem.
  split; intros q; intros; assert (q = p) as -> by lia; try done;
    by replace (p * 4096 + (f - p * 4096)) with f by lia.
Qed.

(** The frame [f] behind the page [p] can be used. *)
Record usable (s : core) (p f : Z) : Prop := {
  us_coherent : coherent s p;
  us_maps : maps_to s p f true;
  us_mem : mapped (pmem s) f 4096;
  us_frame : f mod 4096 = 0 /\ 0 <= f /\ f + 4096 <= 2 ^ 52
}.

Lemma wp_store_page `{TlbPolicy} n s p f k v :
  usable s p f -> 0 <= p -> 0 <= k < 4096 -> (0 < n)%nat -> (Z.of_nat n | 8) -> k mod Z.of_nat n = 0 ->
  wp (no_fault (vstore n (p * 4096 + k) v)) (fun _ s' => written s s' n (f + k) v) s.
Proof.
  intros [Hc Hm Hmem (Hf & H0 & Hb)] Hp Hk Hn Hd Ha.
  assert ((p * 4096 + k) mod Z.of_nat n = 0) as Ha'.
  { destruct Hd as [q Hq]. replace (p * 4096) with (p * 512 * q * Z.of_nat n) by (rewrite <- Z.mul_assoc, <- Hq; lia).
    replace (p * 512 * q * Z.of_nat n + k) with (k + p * 512 * q * Z.of_nat n) by lia. by rewrite Z.mod_add by lia. }
  eapply wp_mono; [eapply (wp_write_window p (p + 1) (f - p * 4096));
    [by apply page_window|lia|done|done|exact Ha'| |lia|lia]|].
  - rewrite Zminus_mod, Hf, Z.mod_mul by done. done.
  - intros [] s' H1. by replace (p * 4096 + k + (f - p * 4096)) with (f + k) in H1 by lia.
Qed.

Lemma wp_load_page `{TlbPolicy} n s p f k v :
  usable s p f -> 0 <= p -> 0 <= k -> k + Z.of_nat n <= 4096 -> (0 < n)%nat ->
  word n (pmem s) (f + k) = Some v ->
  wp (no_fault (vload n (p * 4096 + k))) (fun r s' => r = v /\ after_access s s' (fun m => m = pmem s)) s.
Proof.
  intros [Hc Hm Hmem _] Hp Hk Hn H0 Hv.
  eapply (wp_read_window p (p + 1) (f - p * 4096)); [by apply page_window|lia| |].
  - rewrite (Z.add_comm (p * 4096)), Z.mod_add, Z.mod_small by lia. done.
  - by replace (p * 4096 + k + (f - p * 4096)) with (f + k) by lia.
Qed.

(** The frames below 0x80900000 are memory of the program. *)
Lemma window_frame s hi T f :
  0x900 <= hi -> window s 0 hi OFFSET T -> f mod 4096 = 0 -> 0x80000000 <= f < 0x80900000 ->
  mapped (pmem s) f 4096.
Proof.
  intros Hhi Hw Hf Hb. pose proof (Z.div_mod (f - OFFSET) 4096 ltac:(done)) as Ed.
  assert ((f - OFFSET) mod 4096 = 0) as Em by (unfold OFFSET; rewrite Zminus_mod, Hf; done).
  replace f with ((f - OFFSET) / 4096 * 4096 + OFFSET) by lia.
  apply (wi_mem _ _ _ _ _ Hw). unfold OFFSET in *. lia.
Qed.

(** ** The 2 MB at 0xC0000000 behind a page table *)

Definition high : Z := 0xC0000.

(** The program runs on the tables [root], [p3], [pd] for the low gigabyte, and [p3],
    [pd'] and [pt] (an address of the program) for 0xC0000000; [f] gives the entries of
    [pt]. *)
Section High.
Context (hi root p3 pd pd' pt : Z).

Definition high_linked (s : core) (f : Z -> Z) : Prop :=
  cr3 s = root /\ linked 0 hi OFFSET (low_slots root p3 pd) high p3 pd' pt s f.

Hypothesis root_page : page root.

Lemma high_slots s : cr3 s = root -> area_slots s high p3 pd' = [root; p3 + 24; pd'].
Proof.
  intros Hc. unfold area_slots. rewrite (root_base s root root_page Hc). unfold high.
  change (pml4_index (0xC0000 * 4096)) with 0. change (pdpt_index (0xC0000 * 4096)) with 3.
  change (pd_index (0xC0000 * 4096)) with 0. by rewrite !Z.mul_0_r, !Z.add_0_r.
Qed.

Lemma high_quiet s s' f : quiet s s' -> high_linked s f -> high_linked s' f.
Proof.
  intros Hq [Hc Hl]. split; [by rewrite (sr_cr3 _ _ (qu_regs _ _ Hq))|by eapply linked_quiet].
Qed.

(** A store outside the tables. *)
Definition apart (a : Z) : Prop :=
  ~ low_slots root p3 pd a /\ a <> p3 + 24 /\ a <> pd' /\ ~ (pt + OFFSET <= a < pt + OFFSET + 4096).

Lemma apart_area s a : cr3 s = root -> apart a -> a ∉ area_slots s high p3 pd'.
Proof.
  intros Hc (H1 & H2 & H3 & _). rewrite (high_slots s Hc), !elem_of_cons, elem_of_nil.
  unfold low_slots in H1. tauto.
Qed.

Lemma high_touched s s' f a : touched s s' a -> apart a -> high_linked s f -> high_linked s' f.
Proof.
  intros Ht Ha [Hc Hl]. split; [by rewrite (sr_cr3 _ _ (st_regs _ _ _ Ht))|].
  eapply linked_stored; [exact Ht|apply Ha|by apply apart_area| |exact Hl].
  destruct Ha as (_ & _ & _ & Ha). intros i Hi. lia.
Qed.

Lemma high_page_slots s f i :
  high_linked s f -> 0 <= i < 512 -> page_slots s (high + i) = [root; p3 + 24; pd'; pt + OFFSET + 8 * i].
Proof.
  intros [Hc Hl] Hi. destruct (area_walk _ _ _ _ _ i (lk_area _ _ _ _ _ _ _ _ _ _ Hl) Hi) as [_ ->].
  by rewrite (high_slots s Hc).
Qed.

Lemma apart_slots s f i a : high_linked s f -> 0 <= i < 512 -> apart a -> a ∉ page_slots s (high + i).
Proof.
  intros Hh Hi (H1 & H2 & H3 & H4). rewrite (high_page_slots s f i Hh Hi), !elem_of_cons, elem_of_nil.
  unfold low_slots in H1. lia.
Qed.

Lemma high_current s f i :
  high_linked s f -> 0 <= i < 512 -> current s (high + i) = pte_entry (pge s) (Some (f i)).
Proof. intros [_ Hl] Hi. exact (linked_current _ _ _ _ _ _ _ _ _ _ i Hl Hi). Qed.

Lemma high_maps s f i b :
  high_linked s f -> 0 <= i < 512 -> page b -> f i = b + 7 ->
  current s (high + i) = Some (mkTlb b true false).
Proof.
  intros Hh Hi Hb E. rewrite (high_current s f i Hh Hi), E.
  destruct (table_entry_flags b 7 Hb eq_refl) as (B1 & B2 & B3 & _).
  unfold pte_entry. rewrite B2, B1, B3. destruct Hb as (H0 & Hm & _).
  rewrite (flag_bit 12 b 7 8) by (done || lia). by rewrite andb_false_r.
Qed.

Lemma high_usable s f i b :
  0x900 <= hi -> high_linked s f -> coherent s (high + i) -> 0 <= i < 512 -> page b -> f i = b + 7 ->
  0x80000000 <= b < 0x80900000 -> usable s (high + i) b.
Proof.
  intros Hhi Hh Hc Hi Hb E Hr. destruct Hb as (H0 & Hm & Hb). split.
  - done.
  - exists false. by apply (high_maps s f).
  - apply (window_frame s hi (low_slots root p3 pd)); [done|apply Hh|done|done].
  - done.
Qed.
End High.

(** ** The print lock with several cores

    A core is at the loop of [puts], or past it (and until [print_flag = 0]).  A
    successful compare-and-swap keeps a core in the loop, a failed one lets it pass. *)
Inductive print_pc := Looping | Printing.

Record print_state := mkPrint { ps_flag : Z; ps_core : nat -> print_pc }.

Definition set_pc (i : nat) (pc : print_pc) (f : nat -> print_pc) : nat -> print_pc :=
  fun j => if decide (j = i) then pc else f j.

Inductive print_step : print_state -> print_state -> Prop :=
| step_swapped s i : ps_core s i = Looping -> ps_flag s = 0 -> print_step s (mkPrint 1 (ps_core s))
| step_pass s i : ps_core s i = Looping -> ps_flag s <> 0 ->
    print_step s (mkPrint (ps_flag s) (set_pc i Printing (ps_core s)))
| step_release s i : ps_core s i = Printing -> print_step s (mkPrint 0 (set_pc i Looping (ps_core s))).

(** C37: the lock of [puts] in sample_old/common lets any number of cores print at once:
    its loop runs while the compare-and-swap succeeds, so the first core to come sets
    the flag and every core passes as long as it is set. *)
Theorem print_lock_excludes_nobody n :
  exists s, rtc print_step (mkPrint 0 (fun _ => Looping)) s /\ forall i, (i < n)%nat -> ps_core s i = Printing.
Proof.
  assert (forall m, exists s, rtc print_step (mkPrint 1 (fun _ => Looping)) s /\ ps_flag s = 1 /\
    forall i, ps_core s i = if decide (i < m)%nat then Printing else Looping) as Hm.
  { induction m as [|m (s & Hs & Hf & Hc)].
    - exists (mkPrint 1 (fun _ => Looping)). split_and!; [done|done|]. intros i. by rewrite decide_False by lia.
    - exists (mkPrint (ps_flag s) (set_pc m Printing (ps_core s))). split_and!; [|done|].
      + eapply rtc_r; [exact Hs|]. apply step_pass; [by rewrite Hc, decide_False by lia|by rewrite Hf].
      + intros i. cbn. unfold set_pc. rewrite Hc. repeat case_decide; done || lia. }
  destruct (Hm n) as (s & Hs & _ & Hc). exists s. split.
  - eapply rtc_l; [by apply (step_swapped _ 0%nat)|exact Hs].
  - intros i Hi. by rewrite Hc, decide_True.
Qed.

(** ** A memory the programs can run on *)

Definition rt_pml4 : Z := 0x80001000.
Definition rt_pdpt : Z := 0x80002000.
Definition rt_pd : Z := 0x80003000.
Definition rt_flag : Z := 0x5000.

(** Two images of applications, as they are linked into the friend. *)
Definition rt_image1 : list Z := [1; 0xC3].
Definition rt_image2 : list Z := [9; 0xC3].

Definition rt_zeros : mem := blit ∅ 0x80000000 (replicate (Z.to_nat 0x900000) 0).

Lemma rt_zeros_at x : 0x80000000 <= x < 0x80900000 -> rt_zeros !! x = Some 0.
Proof.
  intros Hx. unfold rt_zeros. rewrite blit_lookup, length_replicate, Z2Nat.id by lia. rewrite decide_True by lia.
  apply lookup_replicate. split; [reflexivity|]. apply Z2Nat.inj_lt; lia.
Qed.

#[global] Opaque rt_zeros.

Definition rt_region : mem := blit (blit rt_zeros 0x80008000 rt_image1) 0x80009000 rt_image2.

Definition rt_low (i : Z) : entry_store := mkEntry rt_pd i (0x80000000 + 0x200000 * i + 0x87).

Definition rt_entries : list entry_store :=
  [ mkEntry rt_pml4 0 (rt_pdpt + 7); mkEntry rt_pdpt 0 (rt_pd + 7); rt_low 0; rt_low 1; rt_low 2; rt_low 3;
    rt_low 4 ].

Lemma rt_region_at x :
  0x80000000 <= x < 0x80900000 -> is_Some (rt_region !! x) /\
  (~ (0x80008000 <= x < 0x80008002) -> ~ (0x80009000 <= x < 0x80009002) -> rt_region !! x = Some 0).
Proof.
  intros Hx. unfold rt_region. split.
  - do 2 (rewrite blit_lookup; case_decide;
      [apply lookup_lt_is_Some_2; unfold rt_image1, rt_image2 in *; cbn [length] in *; lia|]).
    by rewrite rt_zeros_at.
  - intros H1 H2. rewrite blit_lookup, decide_False by (cbn; lia). rewrite blit_lookup, decide_False by (cbn; lia).
    by apply rt_zeros_at.
Qed.

Lemma rt_region_images :
  (forall i b, rt_image1 !! i = Some b -> rt_region !! (0x80008000 + Z.of_nat i) = Some b) /\
  (forall i b, rt_image2 !! i = Some b -> rt_region !! (0x80009000 + Z.of_nat i) = Some b).
Proof.
  unfold rt_region. split; intros i b Hi; pose proof (lookup_lt_Some _ _ _ Hi) as Hl; cbn in Hl.
  - rewrite blit_lookup, decide_False by (cbn; lia). rewrite blit_lookup, decide_True by (cbn; lia).
    by replace (Z.to_nat (0x80008000 + Z.of_nat i - 0x80008000)) with i by lia.
  - rewrite blit_lookup, decide_True by (cbn; lia).
    by replace (Z.to_nat (0x80009000 + Z.of_nat i - 0x80009000)) with i by lia.
Qed.

#[global] Opaque rt_region.

Definition rt_memory : mem := default ∅ (state_of (set_entries rt_entries rt_region)).

Definition rt_core : core := mkCore rt_memory rt_pml4 false false 0 (0, 0) ∅ 0 [] [].

Lemma rt_memory_spec :
  (forall e, e ∈ rt_entries -> read64 rt_memory (e_addr e) = Some (e_value e)) /\
  slot_update rt_region rt_memory (fun a => a ∈ e_addr <$> rt_entries).
Proof.
  destruct (set_entries_spec rt_entries rt_region) as (m & E & H1 & H2).
  - assert (forall p i v, page p -> 0 <= i < 512 -> 0x80000000 <= p -> p + 4096 <= 0x80900000 ->
      0 <= v < 2 ^ 64 -> entry_ok rt_region (mkEntry p i v)) as Hok.
    { intros p i v Hp Hi H1 H2 Hv. split_and!; try apply Hp; try (cbn; lia).
      intros x Hx. cbn in Hx. apply rt_region_at. lia. }
    unfold rt_entries, rt_low.
    repeat (apply Forall_cons; split; [apply Hok; by vm_compute|]). apply Forall_nil_2.
  - apply (bool_decide_unpack (NoDup (e_addr <$> rt_entries))). by vm_compute.
  - unfold rt_memory. rewrite E. exact (conj H1 H2).
Qed.

#[global] Opaque rt_memory.

Definition rt_slots (a : Z) : Prop :=
  a = rt_pml4 \/ a = rt_pdpt \/ a = rt_pdpt + 24 \/ rt_pd <= a < rt_pd + 4096.

(** Bytes that are no table entries are as in the region. *)
Lemma rt_byte x : ~ (0x80001000 <= x < 0x80004000) -> rt_memory !! x = rt_region !! x.
Proof.
  intros Hx. apply (su_byte _ _ _ (proj2 rt_memory_spec)). intros a Ha Hr.
  assert (Forall (fun a => 0x80001000 <= a /\ a + 8 <= 0x80004000) (e_addr <$> rt_entries)) as Hf.
  { repeat (apply Forall_cons; split; [vm_compute; by split|]). apply Forall_nil_2. }
  rewrite Forall_forall in Hf. specialize (Hf a Ha). cbv beta in Hf. lia.
Qed.

Lemma rt_low_in i : 0 <= i < 5 -> rt_low i ∈ rt_entries.
Proof.
  intros Hi. assert (i = 0 \/ i = 1 \/ i = 2 \/ i = 3 \/ i = 4) as Hc by lia. unfold rt_entries.
  rewrite !elem_of_cons. destruct Hc as [->|[->|[->|[->| ->]]]]; tauto.
Qed.

Section Demo.
Context (s : core).
Hypothesis s_cr3 : cr3 s = rt_pml4.
Hypothesis s_tlb : tlb s = ∅.
Hypothesis s_entries : forall e, e ∈ rt_entries -> read64 (pmem s) (e_addr e) = Some (e_value e).
Hypothesis s_free : read64 (pmem s) (rt_pdpt + 8 * 3) = Some 0.
Hypothesis s_mem : forall x, 0x80000000 <= x < 0x80900000 -> is_Some (pmem s !! x).

Lemma s_base : pte_base 12 (cr3 s) = rt_pml4.
Proof. by rewrite s_cr3. Qed.

Lemma demo_huge p :
  0 <= p < 0x900 ->
  huge_page s (p / 512 * 512) rt_pdpt rt_pd (0x80000000 + 0x200000 * (p / 512) + 0x87)
    (0x80000000 + 0x200000 * (p / 512)).
Proof.
  intros Hp. destruct (low_indices p ltac:(lia)) as (I4 & I3 & I2 & _).
  assert (0 <= p / 512 < 5) as Hq by (split; [apply Z.div_pos; lia|apply Z.div_lt_upper_bound; lia]).
  split; [split; [lia|by apply Z.mod_mul]|split; by vm_compute|..]; rewrite ?s_base, ?I4, ?I3, ?I2.
  - apply (s_entries (mkEntry rt_pml4 0 (rt_pdpt + 7))). left.
  - apply (s_entries (mkEntry rt_pdpt 0 (rt_pd + 7))). right. left.
  - apply (s_entries (rt_low (p / 512))). by apply rt_low_in.
  - destruct (huge_entry_flags (0x80000000 + 0x200000 * (p / 512))) as (B1 & B2 & B3 & _ & B5);
      [lia|apply low_base|unfold k2MB; lia|by split_and!].
Qed.

Lemma demo_window : window s 0 0x900 OFFSET rt_slots.
Proof.
  assert (forall p, 0 <= p < 0x900 ->
    maps_to s p (p * 4096 + OFFSET) true /\ page_slots s p = area_slots s (p / 512 * 512) rt_pdpt rt_pd)
    as Hm.
  { intros p Hp. pose proof (demo_huge p Hp) as Hh. pose proof (Z.div_mod p 512 ltac:(done)) as Ed.
    destruct (huge_walk _ _ _ _ _ _ (p mod 512) Hh (Z.mod_pos_bound p 512 ltac:(done))) as [H1 H2].
    replace (p / 512 * 512 + p mod 512) with p in * by lia. split; [|exact H2].
    by replace (p * 4096 + OFFSET) with (0x80000000 + 0x200000 * (p / 512) + p mod 512 * 4096)
      by (unfold OFFSET; lia). }
  split.
  - intros p Hp. by apply Hm.
  - intros p Hp. by apply fresh_coherent.
  - intros p a Hp. rewrite (proj2 (Hm p Hp)). destruct (low_indices p ltac:(lia)) as (I4 & I3 & I2 & _).
    unfold area_slots. rewrite I4, I3, I2, s_base, !Z.mul_0_r, !Z.add_0_r, !elem_of_cons, elem_of_nil.
    assert (0 <= p / 512 < 5) by (split; [apply Z.div_pos; lia|apply Z.div_lt_upper_bound; lia]).
    unfold rt_slots. lia.
  - intros p Hp x Hx. apply s_mem. unfold OFFSET in Hx. lia.
Qed.

Lemma demo_absent p :
  0xC0000 <= p < 0xC0400 -> absent s p /\ forall a, a ∈ page_slots s p -> rt_slots a.
Proof.
  intros Hp.
  assert (pml4_index (p * 4096) = 0 /\ pdpt_index (p * 4096) = 3) as [I4 I3].
  { unfold pml4_index, pdpt_index, k256TB, k512GB, k1GB. rewrite !Z.mod_small by lia. split.
    - apply Z.div_small. lia.
    - symmetry. apply (Z.div_unique_pos _ _ 3 (p * 4096 - 3 * (1024 * 1024 * 1024))); lia. }
  destruct (table_entry_flags rt_pdpt 7) as (B4 & Q4 & _); [by vm_compute|done|].
  assert (read64 (pmem s) (rt_pml4 + 8 * 0) = Some (rt_pdpt + 7)) as E4.
  { apply (s_entries (mkEntry rt_pml4 0 (rt_pdpt + 7))). left. }
  unfold absent, current, walk, page_slots, walk_slots.
  rewrite s_base, I4, I3, (entry_set _ _ _ E4 Q4). cbn [mbind option_bind].
  rewrite B4, (entry_zero _ _ s_free). split; [split; [by rewrite s_tlb|done]|]. intros a.
  rewrite !elem_of_cons, elem_of_nil. unfold rt_slots, rt_pml4, rt_pdpt, rt_pd. lia.
Qed.

Lemma demo_runtime : old_runtime 0x900 rt_slots s.
Proof.
  split; [lia|exact demo_window|exact demo_absent|].
  intros a. unfold rt_slots, scratch, rt_pml4, rt_pdpt, rt_pd. lia.
Qed.

End Demo.

Lemma rt_free_slot : slot (rt_pdpt + 8 * 3).
Proof. by vm_compute. Qed.

Lemma rt_free : read64 rt_memory (rt_pdpt + 8 * 3) = Some 0.
Proof.
  rewrite (su_read _ _ _ (proj2 rt_memory_spec)).
  - apply (read64_zero rt_region (rt_pdpt + 8 * 3) rt_free_slot).
    intros x Hx. unfold rt_pdpt in Hx. apply rt_region_at; lia.
  - exact rt_free_slot.
  - apply (bool_decide_unpack (_ ∉ _)). vm_compute. exact I.
Qed.

Lemma rt_mapped x : 0x80000000 <= x < 0x80900000 -> is_Some (rt_memory !! x).
Proof. intros Hx. apply (su_dom _ _ _ (proj2 rt_memory_spec)). by apply rt_region_at. Qed.

Lemma rt_old_runtime : old_runtime 0x900 rt_slots rt_core.
Proof. exact (demo_runtime rt_core eq_refl eq_refl (proj1 rt_memory_spec) rt_free rt_mapped). Qed.

Lemma rt_flag_ok : flag_ok 0x900 rt_slots rt_flag.
Proof.
  split; [done|done|]. change (flag_slot rt_flag) with 0x80005000.
  unfold rt_slots, scratch, rt_pml4, rt_pdpt, rt_pd. lia.
Qed.

(** A channel that puts the signal on the console. *)
Definition console_channel : Channel.
Proof.
  refine {| signal type value := fun s => Done (tt, set_io (sig type value :: console s) (stdin s) s) |}.
  intros type value s. split; [apply quiet_io|done].
Defined.
End OldRuntime.
