(* ===== verification/SampleOld.v ===== *)
(** * SampleOld: sample_old/intro and the table programs of sample_old/paging

    The programs print, build tables of their own at 0x310000 while they run on those
    of the runtime, and load CR3 with them; some halt then, some enter pages for
    0xC0000000 and store through them.  ([OldApps] has the programs that run
    applications.) *)

From S2P Require Import Prelude Memory Paging VirtMem TutorialPaging OldRuntime.
Import VirtMem OldRuntime.

Module SampleOld.

Definition pml4t : Z := 0x310000.
Definition pdpt : Z := 0x311000.
Definition pd1 : Z := 0x312000.
Definition pd2 : Z := 0x313000.
Definition pt1 : Z := 0x314000.
Definition pt2 : Z := 0x315000.

Section Programs.
Context `{TlbPolicy} `{Channel}.

(** ** The mains

    They differ in the output function ([say]), in the entries they set before
    ([extra], [fill]) and after the write to CR3, and in whether they halt; [woken]
    says whether an interrupt ends the [hlt]. *)

Definition tables (extra fill : M core unit) : M core unit :=
  memset 0x310000 0 (Z.to_nat 0x5000);;
  put_entry pml4t 0 (rwu (pdpt + OFFSET));;
  put_entry pdpt 0 (rwu (pd1 + OFFSET));;
  put_entry pdpt 3 (rwu (pd2 + OFFSET));;
  put_entry pd2 0 (rwu (pt1 + OFFSET));;
  extra;;
  for_ 512 0 (fun i => put_entry pd1 i (huge (0x80000000 + 0x200000 * i)));;
  fill;;
  write_cr3 (pml4t + OFFSET).

Definition prepare (say : list Z -> M core unit) (extra fill : M core unit) : M core unit :=
  say (chars "hello!");; tables extra fill.

Definition finish (say : list Z -> M core unit) : M core (option Z) :=
  say (chars "bye!");;
  return_value 0;;
  mret (Some 0).

Definition hlt (woken : bool) : M core (option Z) := if woken then finish puts_plain else mret None.

Definition skip : M core unit := mret tt.

Definition intro001 : M core (option Z) := puts_plain (chars "hello!");; finish puts_plain.

Definition intro011 (woken : bool) : M core (option Z) := puts_plain (chars "hello!");; hlt woken.

Definition main001 : M core (option Z) :=
  prepare puts_plain skip (for_ 512 0 (fun i => put_entry pt1 i (rwu (0x80000000 + 0x1000 * i))));;
  finish puts_plain.

Definition main002 (woken : bool) : M core (option Z) :=
  prepare puts_plain skip (for_ 512 0 (fun i => put_entry pt1 i (rwu (0x80000000 + 0x1000 * i))));;
  hlt woken.

Definition main003 (woken : bool) : M core (option Z) := prepare puts_plain skip skip;; hlt woken.

Definition main011 (woken : bool) : M core (option Z) :=
  prepare puts_plain skip (put_entry pt1 0 (rwu 0x80001000));; hlt woken.

Definition main013 (woken : bool) : M core (option Z) :=
  prepare puts_plain skip (put_entry pt1 0 (rwu 0x80000000);; put_entry pt1 1 (rwu 0x80001000));;
  hlt woken.

Definition main014 (woken : bool) : M core (option Z) :=
  prepare puts_plain skip (put_entry pt1 0 (rwu 0x80000000);; put_entry pt1 1 (rwu 0x80002000));;
  hlt woken.

(** [*((int * )va) = v] *)
Definition store32 (va v : Z) : M core unit := no_fault (vstore 4 va v).

Definition main031 (print_flag : Z) : M core (option Z) :=
  prepare (puts print_flag) skip skip;;
  for_ 1024 0 (fun i => put_entry pt1 i (rwu (0x80500000 + 0x1000 * i)));;
  store32 0xC0000000 0;;
  finish (puts print_flag).

Definition main032 (print_flag : Z) : M core (option Z) :=
  prepare (puts print_flag) (put_entry pd2 1 (rwu (pt2 + OFFSET))) skip;;
  for_ 512 0 (fun i => put_entry pt1 i (rwu (0x80500000 + 0x1000 * i)));;
  put_entry pt2 0 (rwu 0x80700000);;
  store32 0xC0200000 0;;
  finish (puts print_flag).

Definition main035 (print_flag : Z) : M core (option Z) :=
  prepare (puts print_flag) (put_entry pd2 1 (huge 0x80800000)) skip;;
  for_ 512 0 (fun i => put_entry pt1 i (rwu (0x80500000 + 0x1000 * i)));;
  store32 0xC0200000 0;;
  finish (puts print_flag).
End Programs.

(** ** The tables the programs build *)

Definition entries0 : Z -> Z :=
  upd (upd (upd (upd (fun _ => 0) (pml4t + OFFSET) (rwu (pdpt + OFFSET)))
    (pdpt + OFFSET) (rwu (pd1 + OFFSET))) (pdpt + OFFSET + 24) (rwu (pd2 + OFFSET)))
    (pd2 + OFFSET) (rwu (pt1 + OFFSET)).

Definition low_entry (i : Z) : Z := huge (0x80000000 + 0x200000 * i).

Lemma low_entry_eq i : low_entry i = 0x80000000 + 0x200000 * i + 0x87.
Proof.
  unfold low_entry. apply huge_flags.
  replace (0x80000000 + 0x200000 * i) with ((0x80000 + 0x200 * i) * 0x1000) by lia. by apply Z.mod_mul.
Qed.

Abbreviation low := (low_slots (pml4t + OFFSET) (pdpt + OFFSET) (pd1 + OFFSET)).
Abbreviation linked_high hi := (high_linked hi (pml4t + OFFSET) (pdpt + OFFSET) (pd1 + OFFSET) (pd2 + OFFSET) pt1).

Ltac addresses := unfold low_slots, scratch, pml4t, pdpt, pd1, pd2, pt1, pt2, OFFSET in *; lia.

(** [g] has the upper tables: the low gigabyte at 0, [pt1] for 0xC0000000. *)
Record upper (g : Z -> Z) : Prop := {
  up_pml4 : g (pml4t + OFFSET) = pdpt + OFFSET + 7;
  up_pdpt0 : g (pdpt + OFFSET) = pd1 + OFFSET + 7;
  up_pdpt3 : g (pdpt + OFFSET + 24) = pd2 + OFFSET + 7;
  up_pd2 : g (pd2 + OFFSET) = pt1 + OFFSET + 7;
  up_low : forall i, 0 <= i < 512 -> g (pd1 + OFFSET + 8 * i) = 0x80000000 + 0x200000 * i + 0x87
}.

Lemma tables_pages :
  page (pml4t + OFFSET) /\ page (pdpt + OFFSET) /\ page (pd1 + OFFSET) /\ page (pd2 + OFFSET) /\
  page (pt1 + OFFSET) /\ page (pt2 + OFFSET).
Proof. split_and!; by vm_compute. Qed.

Lemma low_ok :
  page (pml4t + OFFSET) /\ page (pdpt + OFFSET) /\ page (pd1 + OFFSET) /\ (0x87 = 0x87 \/ 0x87 = 0x187).
Proof. destruct tables_pages as (? & ? & ? & _). split_and!; try done. by left. Qed.

(** What a computation that sets entries makes of the words [g]. *)
Definition keeps_upper (e : (Z -> Z) -> Z -> Z) : Prop :=
  forall g a, low a \/ a = pdpt + OFFSET + 24 \/ a = pd2 + OFFSET -> e g a = g a.

Definition tables_of (e f : (Z -> Z) -> Z -> Z) : Z -> Z :=
  f (filled (e entries0) (pd1 + OFFSET) low_entry 512).

Lemma keeps_id : keeps_upper id.
Proof. by intros g a _. Qed.

Lemma keeps_upd a0 v : pd2 + OFFSET < a0 -> keeps_upper (fun g => upd g a0 v).
Proof. intros Ha g a Hk. apply upd_ne. addresses. Qed.

Lemma keeps_filled base h n : pt1 + OFFSET <= base -> keeps_upper (fun g => filled g base h n).
Proof. intros Ha g a Hk. apply filled_out. addresses. Qed.

Lemma keeps_comp e1 e2 : keeps_upper e1 -> keeps_upper e2 -> keeps_upper (fun g => e2 (e1 g)).
Proof. intros H1 H2 g a Ha. by rewrite H2, H1. Qed.

Lemma upper_tables e f : keeps_upper e -> keeps_upper f -> upper (tables_of e f).
Proof.
  intros He Hf. unfold tables_of. split.
  5:{ intros i Hi. rewrite Hf by (left; right; right; lia). rewrite filled_at by done. apply low_entry_eq. }
  all: rewrite Hf by addresses; rewrite filled_out by addresses; rewrite He by addresses; by vm_compute.
Qed.

(** The page table before [fill]. *)
Lemma tables_pt1 e i :
  (forall g, e g (pt1 + OFFSET + 8 * i) = g (pt1 + OFFSET + 8 * i)) -> 0 <= i < 512 ->
  filled (e entries0) (pd1 + OFFSET) low_entry 512 (pt1 + OFFSET + 8 * i) = 0.
Proof.
  intros He Hi. rewrite filled_out by addresses. rewrite He. unfold entries0.
  rewrite !upd_ne by addresses. done.
Qed.

Lemma size5 : 0 <= 0x5000 <= 0x9000 /\ 0x5000 mod 4096 = 0.
Proof. done. Qed.

Section Build.
Context (hi : Z) (T : Z -> Prop) (print_flag : Z) (K : mem -> Prop) (rest : Z -> option Z).
Context `{TlbPolicy}.
Hypothesis K_kept : kept print_flag K.

Abbreviation building := (building hi T K 0x5000 rest).
Abbreviation rest_is := (rest_is 0x5000 rest).

Definition builds (b : M core unit) (e : (Z -> Z) -> Z -> Z) : Prop :=
  forall c s g, building c s g -> wp b (fun _ s' => building c s' (e g)) s.

Lemma builds_skip : builds skip id.
Proof. intros c s g Hb. by apply wp_ret. Qed.

Lemma builds_put p i v :
  own_table 0x5000 p -> 0 <= i < 512 -> 0 <= v < 2 ^ 64 ->
  builds (put_entry p i v) (fun g => upd g (p + OFFSET + 8 * i) v).
Proof. intros Hp Hi Hv c s g Hb. by apply (wp_put hi T print_flag K 0x5000 rest K_kept size5). Qed.

Lemma builds_fill p h n :
  own_table 0x5000 p -> Z.of_nat n <= 512 -> (forall i, 0 <= i < Z.of_nat n -> 0 <= h i < 2 ^ 64) ->
  builds (for_ n 0 (fun i => put_entry p i (h i))) (fun g => filled g (p + OFFSET) h (Z.of_nat n)).
Proof. intros Hp Hn Hh c s g Hb. by apply (wp_fill_table hi T print_flag K 0x5000 rest K_kept size5). Qed.

Lemma builds_seq c1 e1 c2 e2 : builds c1 e1 -> builds c2 e2 -> builds (c1;; c2) (fun g => e2 (e1 g)).
Proof.
  intros H1 H2 c s g Hb. apply wp_bind. eapply wp_mono; [by apply H1|]. intros [] s1 Hb1. by apply H2.
Qed.

(** The program runs on its own tables, whose words are [g]. *)
Record own_tables (c : list (string * list Z)) (s : core) (g : Z -> Z) : Prop := {
  ow_size : 0x900 <= hi <= 0x40000;
  ow_cr3 : cr3 s = pml4t + OFFSET;
  ow_window : window s 0 hi OFFSET low;
  ow_tables : table_words 0x5000 s g;
  ow_rest : rest_is s;
  ow_tlb : forall p, 0xC0000 <= p < 0xC0400 -> tlb s !! p = None;
  ow_kept : K (pmem s);
  ow_console : console s = c
}.

Lemma wp_switch_own c s g :
  building c s g -> upper g -> wp (write_cr3 (pml4t + OFFSET)) (fun _ s' => own_tables c s' g) s.
Proof.
  intros [Hr Ht Hre HK Hc] [U1 U2 _ _ U5]. pose proof Hr as [Hs Hw Hab _].
  eapply wp_mono; [eapply (wp_switch _ (pdpt + OFFSET) (pd1 + OFFSET) 0x87 low_ok hi T s); [lia|done|]|].
  - split.
    + rewrite Ht; [by rewrite U1|by vm_compute|by vm_compute].
    + rewrite Ht; [by rewrite U2|by vm_compute|by vm_compute].
    + intros i Hi. destruct tables_pages as (_ & _ & P & _).
      rewrite Ht; [by rewrite U5|by apply page_slot|addresses].
  - intros [] s' [Hw' Hm Hcr _ Htlb Hco]. split; [done|done|done|..].
    + intros a. unfold table_words. rewrite Hm. apply Ht.
    + intros a. rewrite Hm. apply Hre.
    + intros p Hp. destruct (tlb s' !! p) as [e|] eqn:E; [|done]. apply Htlb in E as [E _].
      destruct (Hab p Hp) as [[H1 _] _]. congruence.
    + by rewrite Hm.
    + congruence.
Qed.

Lemma wp_tables extra fill e f c s :
  old_runtime hi T s -> rest_is s -> K (pmem s) -> console s = c ->
  builds extra e -> builds fill f -> upper (tables_of e f) ->
  wp (tables extra fill) (fun _ s' => own_tables c s' (tables_of e f)) s.
Proof.
  intros Hr Hre HK Hc He Hf Hu. unfold tables.
  apply wp_bind. eapply wp_mono; [by apply (wp_memset0 hi T print_flag K 0x5000 rest K_kept size5)|]. intros [] s2 Hb.
  do 4 (apply wp_bind; eapply wp_mono; [apply (wp_put hi T print_flag K 0x5000 rest K_kept size5); [exact Hb|by vm_compute|lia|by apply rwu_bound]|];
    clear Hb; intros [] ? Hb).
  apply wp_bind. eapply wp_mono; [apply (He c _ entries0); exact Hb|]. intros [] s7 H7.
  apply wp_bind. eapply wp_mono; [apply (wp_fill_table hi T print_flag K 0x5000 rest K_kept size5 c s7 (e entries0) pd1 low_entry 512);
    [exact H7|by vm_compute|done|intros i Hi; rewrite low_entry_eq; lia]|].
  intros [] s8 H8. apply wp_bind. eapply wp_mono; [apply Hf; exact H8|]. intros [] s9 H9.
  by apply wp_switch_own.
Qed.

(** *** Output before and after *)

Context `{Channel} (say : list Z -> M core unit).
Hypothesis say_ok : speaks hi print_flag say.
Hypothesis flag_good : flag_ok hi T print_flag.

Lemma start_stable : stable hi print_flag (fun s => old_runtime hi T s /\ rest_is s /\ K (pmem s)).
Proof.
  destruct (fo_apart _ _ _ flag_good) as [HT Hs]. split.
  - intros s s' Hq (H1 & H2 & H3). split_and!; [by eapply runtime_quiet| |by rewrite (qu_mem _ _ Hq)].
    intros a. rewrite (qu_mem _ _ Hq). apply H2.
  - intros s s' Ht (H1 & H2 & H3). split_and!; [by eapply runtime_touched| |].
    + intros a Ha Hr. rewrite (stored_read _ _ _ _ Ht); [by apply H2|done|]. intros ->. apply Hs. addresses.
    + apply (K_kept (pmem s) _ _ (st_mem _ _ _ Ht)); [by apply Z.mod_mul|by left|done].
  - intros s (H1 & _). exists T. apply H1.
Qed.

Lemma wp_prepare_old extra fill e f s :
  old_runtime hi T s -> rest_is s -> K (pmem s) ->
  builds extra e -> builds fill f -> upper (tables_of e f) ->
  wp (prepare say extra fill)
    (fun _ s' => own_tables (rev (text (chars "hello!")) ++ console s) s' (tables_of e f)) s.
Proof.
  intros Hr Hre HK He Hf Hu. unfold prepare. apply wp_bind.
  eapply wp_mono; [by apply (say_ok _ (chars "hello!") s start_stable)|]. intros [] s1 [(H1 & H2 & H3) E].
  by apply wp_tables.
Qed.

Lemma wp_finish R s :
  stable hi print_flag R -> R s ->
  wp (finish say)
    (fun r s' => r = Some 0 /\ R s' /\ console s' = sig 1 0 :: rev (text (chars "bye!")) ++ console s) s.
Proof.
  intros Hs HR. unfold finish. apply wp_bind. eapply wp_mono; [by apply say_ok|]. intros [] s1 [H1 E1].
  apply wp_bind. eapply wp_mono; [by apply (wp_signal hi print_flag R)|]. intros [] s2 [H2 E2]. apply wp_ret.
  split_and!; [done|done|congruence].
Qed.

(** *** What the tables show at 0xC0000000 *)

(** The program on its tables: the entries of [pt1] are [f], and the cache agrees. *)
Definition settled (f : Z -> Z) (s : core) : Prop :=
  linked_high hi s f /\ forall j, 0 <= j < 512 -> coherent s (high + j).

Lemma high_apart a : ~ scratch a -> apart (pml4t + OFFSET) (pdpt + OFFSET) (pd1 + OFFSET) (pd2 + OFFSET) pt1 a.
Proof. intros Ha. unfold apart. addresses. Qed.

Lemma settled_touched f s s' a :
  touched s s' a -> apart (pml4t + OFFSET) (pdpt + OFFSET) (pd1 + OFFSET) (pd2 + OFFSET) pt1 a ->
  settled f s -> settled f s'.
Proof.
  intros Ht Ha [Hl Hc]. destruct tables_pages as (P1 & _). split; [by eapply (high_touched)|].
  intros j Hj. apply (stored_coherent _ _ _ _ Ht); [|by apply Hc]. by eapply apart_slots.
Qed.

Lemma settled_quiet f s s' : quiet s s' -> settled f s -> settled f s'.
Proof.
  intros Hq [Hl Hc]. split; [by eapply high_quiet|]. intros j Hj.
  destruct (quiet_current _ _ (high + j) Hq) as (_ & _ & Hx). auto.
Qed.

Lemma settled_stable f : stable hi print_flag (settled f).
Proof.
  split; [by apply settled_quiet| |intros s [[_ Hl] _]; exists low; apply Hl].
  intros s s' Ht. apply (settled_touched f s s' _ Ht), high_apart. apply flag_good.
Qed.

Lemma own_settled c s g : own_tables c s g -> upper g -> settled (fun i => g (pt1 + OFFSET + 8 * i)) s.
Proof.
  intros [Hs Hc Hw Ht _ Htlb _ _] [U1 _ U3 U4 _]. destruct tables_pages as (P1 & P2 & P3 & P4 & P5 & _).
  pose proof (high_slots (pml4t + OFFSET) (pdpt + OFFSET) (pd2 + OFFSET) P1 s Hc) as Es.
  pose proof (root_base s _ P1 Hc) as Eb.
  split; [split; [done|]|intros j Hj e He; unfold high in He; rewrite Htlb in He; [done|lia]]. split; [done| | | |].
  - split; [done|done|..]; rewrite ?Eb.
    + change (read64 (pmem s) (pml4t + OFFSET) = Some (pdpt + OFFSET + 7)).
      rewrite Ht; [by rewrite U1|by vm_compute|by vm_compute].
    + change (read64 (pmem s) (pdpt + OFFSET + 24) = Some (pd2 + OFFSET + 7)).
      rewrite Ht; [by rewrite U3|by vm_compute|by vm_compute].
    + change (read64 (pmem s) (pd2 + OFFSET) = Some (pt1 + OFFSET + 7)).
      rewrite Ht; [by rewrite U4|by vm_compute|by vm_compute].
  - intros i Hi. apply Ht; [by apply page_slot|addresses].
  - split_and!; [done|by vm_compute|by vm_compute|unfold pt1; lia].
  - intros i Hi. rewrite Es, !elem_of_cons, elem_of_nil. addresses.
Qed.

Definition high_pages (s : core) (f : Z -> option Z) : Prop :=
  forall i, 0 <= i < 512 -> coherent s (high + i) /\
    match f i with
    | Some b => maps_to s (high + i) b true
    | None => current s (high + i) = None
    end.

Lemma settled_pages s f pages :
  settled f s ->
  (forall i, 0 <= i < 512 -> match pages i with Some b => f i = b + 7 /\ page b | None => f i = 0 end) ->
  high_pages s pages.
Proof.
  intros [Hl Hc] Hp i Hi. split; [by apply Hc|]. specialize (Hp i Hi). destruct (pages i) as [b|].
  - destruct Hp as [E Hb]. exists false. by eapply high_maps.
  - by rewrite (high_current _ _ _ _ _ _ _ _ _ Hl Hi), Hp.
Qed.

(** *** The programs that enter their pages before the write to CR3 *)

Definition hello_bye : list (string * list Z) :=
  sig 1 0 :: rev (text (chars "bye!")) ++ rev (text (chars "hello!")).

(** The end of a program: it returns [r], shows [pages] and has sent [sent]. *)
Record shows (pages : Z -> option Z) (r : option Z) (sent : list (string * list Z)) (s : core)
    (r' : option Z) (s' : core) : Prop := {
  sh_result : r' = r;
  sh_window : window s' 0 hi OFFSET low;
  sh_pages : high_pages s' pages;
  sh_console : console s' = sent ++ console s
}.

Lemma wp_main fill f (k : M core (option Z)) r pages sent s :
  old_runtime hi T s -> rest_is s -> K (pmem s) -> builds fill f -> keeps_upper f ->
  (forall R s1, stable hi print_flag R -> R s1 ->
     wp k (fun r' s' => r' = r /\ R s' /\ console s' = sent ++ console s1) s1) ->
  (forall i, 0 <= i < 512 -> match pages i with
     | Some b => tables_of id f (pt1 + OFFSET + 8 * i) = b + 7 /\ page b
     | None => tables_of id f (pt1 + OFFSET + 8 * i) = 0
     end) ->
  wp (prepare say skip fill;; k) (shows pages r (sent ++ rev (text (chars "hello!"))) s) s.
Proof.
  intros Hr Hre HK Hf Hk Hend Hp. pose proof (upper_tables id f keeps_id Hk) as Hu.
  apply wp_bind. eapply wp_mono; [apply (wp_prepare_old _ _ id f); [done|done|done|apply builds_skip|done|done]|].
  intros [] s1 H1. pose proof (own_settled _ _ _ H1 Hu) as Hse.
  eapply wp_mono; [exact (Hend _ s1 (settled_stable _) Hse)|].
  intros r' s' (-> & Hs' & E). split; [done|apply Hs'|by eapply settled_pages|].
  rewrite E, (ow_console _ _ _ H1). by rewrite app_assoc.
Qed.

Lemma own_frame_page b i : b mod 4096 = 0 -> 0 <= b < 2 ^ 51 -> 0 <= i < 1024 -> page (b + 0x1000 * i).
Proof.
  intros Hm Hb Hi. split_and!; [lia| |lia]. rewrite Z.add_comm, Z.mul_comm, Z.add_comm.
  by rewrite Z.mod_add.
Qed.

(** Which frames the programs show from 0xC0000000 on. *)
Definition pages001 (i : Z) : option Z := Some (0x80000000 + 0x1000 * i).
Definition pages011 (i : Z) : option Z := if decide (i = 0) then Some 0x80001000 else None.
Definition pages013 (second : Z) (i : Z) : option Z :=
  if decide (i = 0) then Some 0x80000000 else if decide (i = 1) then Some second else None.

Section Mains.
Context (k : M core (option Z)) (r : option Z) (sent : list (string * list Z)) (s : core).
Hypothesis k_ok : forall R s1, stable hi print_flag R -> R s1 ->
  wp k (fun r' s' => r' = r /\ R s' /\ console s' = sent ++ console s1) s1.
Hypothesis s_ok : old_runtime hi T s /\ rest_is s /\ K (pmem s).

Let said : list (string * list Z) := sent ++ rev (text (chars "hello!")).

Lemma own_pt1 : own_table 0x5000 pt1.
Proof. by vm_compute. Qed.

Lemma wp_main001 :
  wp (prepare say skip (for_ 512 0 (fun i => put_entry pt1 i (rwu (0x80000000 + 0x1000 * i))));; k)
    (shows pages001 r said s) s.
Proof.
  destruct s_ok as (Hr & Hre & HK).
  assert (forall i, 0 <= i < 512 -> page (0x80000000 + 0x1000 * i)) as Hp by (intros; apply own_frame_page; done || lia).
  eapply wp_main; [done|done|done|apply builds_fill; [exact own_pt1|done|]|by apply keeps_filled|exact k_ok|].
  - intros i Hi. apply rwu_bound. destruct (Hp i) as (? & _ & ?); lia.
  - intros i Hi. unfold tables_of. rewrite filled_at by done. split; [|by apply Hp]. by apply rwu_page, Hp.
Qed.

Lemma wp_main003 : wp (prepare say skip skip;; k) (shows (fun _ => None) r said s) s.
Proof.
  destruct s_ok as (Hr & Hre & HK).
  eapply wp_main; [done|done|done|apply builds_skip|apply keeps_id|exact k_ok|].
  intros i Hi. by apply (tables_pt1 id).
Qed.

Lemma wp_main011 : wp (prepare say skip (put_entry pt1 0 (rwu 0x80001000));; k) (shows pages011 r said s) s.
Proof.
  destruct s_ok as (Hr & Hre & HK).
  eapply wp_main; [done|done|done|apply builds_put; [exact own_pt1|lia|by vm_compute]|by apply keeps_upd|exact k_ok|].
  intros i Hi. unfold tables_of, pages011. destruct (decide (i = 0)) as [->|Hne].
  - rewrite upd_eq. by vm_compute.
  - rewrite upd_ne by addresses. by apply (tables_pt1 id).
Qed.

Lemma wp_main013 second :
  page second ->
  wp (prepare say skip (put_entry pt1 0 (rwu 0x80000000);; put_entry pt1 1 (rwu second));; k)
    (shows (pages013 second) r said s) s.
Proof.
  intros Hp. assert (0 <= second < 2 ^ 52) as Hb by (destruct Hp; lia). destruct s_ok as (Hr & Hre & HK).
  eapply wp_main; [done|done|done|apply builds_seq; (apply builds_put; [exact own_pt1|lia|by apply rwu_bound])
    |apply (keeps_comp (fun g => upd g (pt1 + OFFSET + 8 * 0) (rwu 0x80000000))); by apply keeps_upd|exact k_ok|].
  intros i Hi. unfold tables_of, pages013.
  destruct (decide (i = 0)) as [->|H0']; [|destruct (decide (i = 1)) as [->|H1']].
  - rewrite upd_ne by addresses. rewrite upd_eq. by vm_compute.
  - rewrite upd_eq. split; [by apply rwu_page|done].
  - rewrite !upd_ne by addresses. by apply (tables_pt1 id).
Qed.
End Mains.

(** *** Entries set after the write to CR3 *)

Lemma slot_pt1 j : 0 <= j < 1024 -> slot (pt1 + OFFSET + 8 * j) /\ (pt1 + 8 * j) mod 8 = 0.
Proof.
  intros Hj. unfold pt1, OFFSET, slot. replace (0x314000 + 8 * j) with ((0x62800 + j) * 8) by lia.
  replace (0x314000 + 0x80000000 + 8 * j) with ((0x10062800 + j) * 8) by lia. rewrite !Z.mod_mul by done. lia.
Qed.

Lemma wp_fill_own n h (R : Z -> core -> Prop) s :
  0x900 <= hi -> Z.of_nat n <= 1024 -> (forall i, 0 <= i < Z.of_nat n -> 0 <= h i < 2 ^ 64) ->
  (forall i s1, R i s1 -> window s1 0 hi OFFSET low) -> R 0 s ->
  (forall i s1 s2, 0 <= i < Z.of_nat n -> R i s1 -> stored s1 s2 (pt1 + OFFSET + 8 * i) (h i) -> R (i + 1) s2) ->
  wp (for_ n 0 (fun i => put_entry pt1 i (h i))) (fun _ s' => R (Z.of_nat n) s') s.
Proof.
  intros Hhi Hn Hh Hw HR Hst. apply (wp_for R); [|done]. intros i s1 Hi H1. unfold put_entry.
  destruct (slot_pt1 i) as [Hs H8]; [lia|].
  eapply wp_mono; [eapply (wp_store64_window 0 hi OFFSET low);
    [by eapply Hw|unfold pt1; lia|done| |apply Hh; lia]|].
  - by replace (pt1 + 8 * i + OFFSET) with (pt1 + OFFSET + 8 * i) by lia.
  - intros [] s2 H12. replace (pt1 + 8 * i + OFFSET) with (pt1 + OFFSET + 8 * i) in H12 by lia.
    by eapply (Hst i s1).
Qed.

(** The store of an [int] went to [f], and the program still has its memory. *)
Definition stored_int (f : Z) (s : core) : Prop :=
  window s 0 hi OFFSET low /\ word 4 (pmem s) f = Some 0.

Lemma written_int s s' f :
  f mod 4096 = 0 -> 0x80500000 <= f < 0x80900000 -> window s 0 hi OFFSET low ->
  written s s' 4 f 0 -> stored_int f s' /\ touched s s' f.
Proof.
  intros Hm Hf Hw [H1 H2 _].
  assert (f / 8 * 8 = f) as E.
  { assert (f mod 8 = 0) as H8 by (rewrite <- (Z.mod_mod_divide f 4096 8) by (by exists 512); by rewrite Hm).
    pose proof (Z.div_mod f 8). lia. }
  rewrite E in H1. split; [|done]. split; [|by rewrite H2].
  eapply window_stored; [exact H1| |exact Hw]. addresses.
Qed.

Lemma stored_int_stable f : f mod 8 = 0 -> 0x80500000 <= f < 0x80900000 -> stable hi print_flag (stored_int f).
Proof.
  intros H8 Hf. destruct (fo_apart _ _ _ flag_good) as [_ Hs]. split.
  - intros s s' Hq [H1 H2]. split; [by eapply window_quiet|]. by rewrite (qu_mem _ _ Hq).
  - intros s s' Ht [H1 H2]. split; [eapply window_stored; [exact Ht| |exact H1]; addresses|].
    rewrite <- H2. unfold word. rewrite (read_bytes_agree (pmem s) (pmem s')); [done|lia|lia|].
    intros x Hx. apply (su_byte _ _ _ (st_mem _ _ _ Ht)). intros a ->.
    pose proof (Z.div_mod f 8). unfold scratch, flag_slot in *. lia.
  - intros s [H1 _]. by exists low.
Qed.

Lemma stable_and R1 R2 :
  stable hi print_flag R1 -> (forall s s', quiet s s' -> R2 s -> R2 s') ->
  (forall s s', touched s s' (flag_slot print_flag) -> R2 s -> R2 s') ->
  stable hi print_flag (fun s => R1 s /\ R2 s).
Proof.
  intros [Q F W] Q2 F2. split.
  - intros s s' Hq [H1 H2]. split; eauto.
  - intros s s' Ht [H1 H2]. split; eauto.
  - intros s [H1 _]. by apply W.
Qed.

(** paging/031: 1024 entries go into a table of 512. *)
Definition entry031 (i : Z) : Z := rwu (0x80500000 + 0x1000 * i).

Lemma entry031_bound i : 0 <= i < 1024 -> 0 <= entry031 i < 2 ^ 64.
Proof. intros Hi. apply rwu_bound. lia. Qed.

(** Words behind [pt1]. *)
Definition beyond (n : Z) (s : core) : Prop :=
  forall j, 512 <= j < n -> read64 (pmem s) (pt1 + OFFSET + 8 * j) = Some (entry031 j).

Lemma beyond_touched n s s' a :
  touched s s' a -> n <= 1024 -> (forall j, 512 <= j < n -> pt1 + OFFSET + 8 * j <> a) -> beyond n s -> beyond n s'.
Proof.
  intros Ht Hn Ha Hb j Hj. rewrite (stored_read _ _ _ _ Ht); [by apply Hb|apply slot_pt1; lia|by apply Ha].
Qed.

Definition filling031 (c : list (string * list Z)) (i : Z) (s : core) : Prop :=
  settled (fun j => if decide (j < i) then entry031 j else 0) s /\ beyond i s /\ console s = c.

Lemma settled_ext f f' s : (forall i, 0 <= i < 512 -> f' i = f i) -> settled f s -> settled f' s.
Proof. intros Hf [[Hc []] Hco]. split; [split; [done|split; try done]|done]. intros i Hi. rewrite Hf by done. auto. Qed.

Lemma settled_update f s s' i x :
  stored s s' (pt1 + OFFSET + 8 * i) x -> 0 <= i < 512 -> pte_present (f i) = false ->
  settled f s -> settled (upd f i x) s'.
Proof.
  intros Hst Hi Hp [[Hc Hl] Hco].
  destruct (linked_update _ _ _ _ _ _ _ _ _ _ _ i _ Hst Hi Hl) as [H1 H2].
  split; [split; [by rewrite (sr_cr3 _ _ (st_regs _ _ _ Hst))|done]|].
  intros j Hj. apply H2; [done|by right|by apply Hco].
Qed.

Lemma filling031_step c i s s' :
  0 <= i < 1024 -> filling031 c i s -> stored s s' (pt1 + OFFSET + 8 * i) (entry031 i) ->
  filling031 c (i + 1) s'.
Proof.
  intros Hi (Hs & Hb & Hc) Hst.
  assert (beyond i s') as Hb' by (eapply beyond_touched; [exact Hst|lia|intros; lia|exact Hb]).
  assert (console s' = c) as Hc' by (rewrite <- Hc; apply Hst).
  destruct (decide (i < 512)) as [Hlt|Hge]; (split_and!; [| |done]).
  - eapply settled_ext; [|eapply settled_update; [exact Hst|lia| |exact Hs]].
    + intros j Hj. unfold upd. destruct (decide (j = i)) as [->|Hne]; [by rewrite decide_True by lia|].
      destruct (decide (j < i)), (decide (j < i + 1)); done || lia.
    + cbv beta. by rewrite decide_False by lia.
  - intros j Hj. lia.
  - eapply settled_ext; [|eapply settled_touched; [exact Hst| |exact Hs]].
    + intros j Hj. by rewrite !decide_True by lia.
    + unfold apart. addresses.
  - intros j Hj. destruct (decide (j = i)) as [->|Hne]; [apply Hst|apply Hb'; lia].
Qed.

(** The store, and the end of the program. *)
Lemma wp_store_finish s i b R :
  0x900 <= hi -> usable s i b -> 0xC0000 <= i < 0xC0400 -> 0x80500000 <= b < 0x80900000 ->
  window s 0 hi OFFSET low -> R s ->
  (forall s s', quiet s s' -> R s -> R s') ->
  (forall s s' a, touched s s' a -> a = flag_slot print_flag \/ a = b -> R s -> R s') ->
  wp (store32 (i * 4096) 0;; finish say)
    (fun r s' => r = Some 0 /\ (stored_int b s' /\ R s') /\
      console s' = (sig 1 0 :: rev (text (chars "bye!"))) ++ console s) s.
Proof.
  intros Hhi Hu Hi Hb Hw HR Q F. pose proof (us_frame _ _ _ Hu) as (Hf & _ & _). unfold store32. apply wp_bind.
  pose proof (wp_store_page 4 s i b 0 0 Hu ltac:(lia) ltac:(lia) ltac:(lia) ltac:(by exists 2) ltac:(done)) as Hst.
  rewrite !Z.add_0_r in Hst. eapply wp_mono; [exact Hst|]. intros [] s1 H1.
  destruct (written_int _ _ _ Hf Hb Hw H1) as [Hsi Ht].
  assert (b mod 8 = 0) as H8 by (rewrite <- (Z.mod_mod_divide b 4096 8) by (by exists 512); by rewrite Hf).
  eapply wp_mono; [apply (wp_finish (fun s => stored_int b s /\ R s))|].
  - apply stable_and; [by apply stored_int_stable|exact Q|]. intros s2 s3 Ht'. apply (F _ _ _ Ht'). by left.
  - split; [done|]. apply (F _ _ _ Ht); [by right|done].
  - intros r s' (-> & HR' & E). split_and!; [done|apply HR'|apply HR'|]. rewrite E.
    destruct (st_io _ _ _ Ht) as [-> _]. done.
Qed.

Definition said_all (s s' : core) : Prop := console s' = hello_bye ++ console s.

Lemma wp_main031 s :
  old_runtime hi T s -> rest_is s -> K (pmem s) ->
  wp (prepare say skip skip;; for_ 1024 0 (fun i => put_entry pt1 i (entry031 i));;
      store32 0xC0000000 0;; finish say)
    (fun r s' => r = Some 0 /\ (stored_int 0x80500000 s' /\ beyond 1024 s') /\ said_all s s') s.
Proof.
  intros Hr Hre HK. pose proof (upper_tables id id keeps_id keeps_id) as Hu. pose proof (or_size _ _ _ Hr) as Hs.
  apply wp_bind.
  eapply wp_mono; [apply (wp_prepare_old _ _ id id); [done|done|done|apply builds_skip|apply builds_skip|done]|].
  intros [] s1 H1. pose proof (own_settled _ s1 _ H1 Hu) as Hse. apply wp_bind.
  eapply wp_mono; [apply (wp_fill_own 1024 entry031 (filling031 (console s1)))|].
  - lia.
  - done.
  - intros i Hi. by apply entry031_bound.
  - intros i s2 [[[_ Hl] _] _]. apply Hl.
  - split_and!; [|intros j Hj; lia|done]. eapply settled_ext; [|exact Hse]. intros j Hj.
    rewrite decide_False by lia. symmetry. by apply (tables_pt1 id).
  - intros i s2 s3 Hi. by apply filling031_step.
  - intros [] s2 (Hse2 & Hb2 & Hc2). change 0xC0000000 with (0xC0000 * 4096).
    assert (usable s2 (high + 0) 0x80500000) as Hus.
    { destruct Hse2 as [Hl Hco]. eapply (high_usable hi); [lia|exact Hl|apply Hco; lia|lia|by vm_compute|reflexivity|lia]. }
    eapply wp_mono; [apply (wp_store_finish s2 0xC0000 0x80500000 (beyond 1024));
      [lia|exact Hus|lia|lia|apply Hse2|exact Hb2| |]|].
    + intros s3 s4 Hq Hb j Hj. rewrite (qu_mem _ _ Hq). by apply Hb.
    + intros s3 s4 a Ht Ha. eapply beyond_touched; [exact Ht|lia|]. intros j Hj E.
      destruct (fo_apart _ _ _ flag_good) as [_ Hn]. destruct Ha as [Ha|Ha]; [apply Hn; rewrite <- Ha|]; addresses.
    + intros r s3 (-> & HR & E). split_and!; [done|apply HR|apply HR|]. unfold said_all, hello_bye.
      rewrite E, Hc2, (ow_console _ _ _ H1). by rewrite app_assoc.
Qed.

(** *** The second 2 MB, at 0xC0200000 *)

Lemma second_indices s :
  cr3 s = pml4t + OFFSET ->
  area_slots s 0xC0200 (pdpt + OFFSET) (pd2 + OFFSET) =
    [pml4t + OFFSET; pdpt + OFFSET + 24; pd2 + OFFSET + 8].
Proof. intros Hc. unfold area_slots. by rewrite (root_base s (pml4t + OFFSET) (proj1 tables_pages) Hc). Qed.

Record second_upper (e : Z) (s : core) : Prop := {
  su_cr3 : cr3 s = pml4t + OFFSET;
  su_pml4 : read64 (pmem s) (pml4t + OFFSET) = Some (pdpt + OFFSET + 7);
  su_pdpt : read64 (pmem s) (pdpt + OFFSET + 24) = Some (pd2 + OFFSET + 7);
  su_pd2 : read64 (pmem s) (pd2 + OFFSET + 8) = Some e
}.

Lemma second_huge s :
  second_upper (huge 0x80800000) s ->
  huge_page s 0xC0200 (pdpt + OFFSET) (pd2 + OFFSET) (huge 0x80800000) 0x80800000.
Proof.
  intros [Hc R1 R2 R3]. destruct tables_pages as (P1 & P2 & _ & P4 & _).
  split; [by vm_compute|by split|..]; rewrite ?(root_base s _ P1 Hc); [exact R1|exact R2|exact R3|].
  by vm_compute.
Qed.

Lemma second_area s :
  second_upper (rwu (pt2 + OFFSET)) s ->
  area s 0xC0200 (pdpt + OFFSET) (pd2 + OFFSET) (pt2 + OFFSET).
Proof.
  intros [Hc R1 R2 R3]. destruct tables_pages as (P1 & P2 & _ & P4 & _ & P6).
  split; [by vm_compute|by split_and!|..]; rewrite ?(root_base s _ P1 Hc); [exact R1|exact R2|exact R3].
Qed.

(** While the entries of [pt1] are stored, the tables of the second 2 MB do not change. *)
Record second_kept (e : Z) (c : list (string * list Z)) (s : core) : Prop := {
  sk_upper : second_upper e s;
  sk_window : window s 0 hi OFFSET low;
  sk_coherent : coherent s 0xC0200;
  sk_slots : forall a, a ∈ page_slots s 0xC0200 -> ~ (pt1 + OFFSET <= a < pt1 + OFFSET + 4096);
  sk_rest : read64 (pmem s) (pt2 + OFFSET) = rest (pt2 + OFFSET);
  sk_console : console s = c
}.

Lemma second_kept_step e c i s s' v :
  0 <= i < 512 -> second_kept e c s -> stored s s' (pt1 + OFFSET + 8 * i) v -> second_kept e c s'.
Proof.
  intros Hi [[Hc R1 R2 R3] Hw Hco Hps R4 E] Hst.
  assert (pt1 + OFFSET + 8 * i ∉ page_slots s 0xC0200) as Hn by (intros Hin%Hps; lia).
  destruct (stored_current _ _ _ _ Hst Hn) as [_ Es]. split.
  - split; [by rewrite (sr_cr3 _ _ (st_regs _ _ _ Hst))|..];
      (rewrite (stored_read _ _ _ _ Hst); [done|by vm_compute|addresses]).
  - eapply window_stored; [exact Hst|addresses|exact Hw].
  - exact (stored_coherent _ _ _ _ Hst Hn Hco).
  - by rewrite Es.
  - rewrite (stored_read _ _ _ _ Hst); [done|by vm_compute|addresses].
  - rewrite <- E. apply Hst.
Qed.

Lemma upd_pd2 v : keeps_upper (fun g => upd g (pd2 + OFFSET + 8 * 1) v).
Proof. apply keeps_upd. addresses. Qed.

Lemma wp_prepare_second v s :
  old_runtime hi T s -> rest_is s -> K (pmem s) -> 0 <= v < 2 ^ 64 ->
  wp (prepare say (put_entry pd2 1 v) skip)
    (fun _ s' => own_tables (rev (text (chars "hello!")) ++ console s) s'
       (tables_of (fun g => upd g (pd2 + OFFSET + 8 * 1) v) id)) s.
Proof.
  intros Hr Hre HK Hv. apply wp_prepare_old; [done|done|done| |apply builds_skip|].
  - apply builds_put; [by vm_compute|lia|done].
  - apply upper_tables; [apply upd_pd2|apply keeps_id].
Qed.

Lemma own_second_upper v c s :
  own_tables c s (tables_of (fun g => upd g (pd2 + OFFSET + 8 * 1) v) id) -> second_upper v s.
Proof.
  intros Ho. pose proof (upper_tables _ id (upd_pd2 v) keeps_id) as Hu. pose proof (ow_tables _ _ _ Ho) as Ht.
  split; [apply Ho|rewrite Ht; [by rewrite (up_pml4 _ Hu)|by vm_compute|by vm_compute]
    |rewrite Ht; [by rewrite (up_pdpt3 _ Hu)|by vm_compute|by vm_compute]|].
  rewrite Ht; [|by vm_compute|by vm_compute]. unfold tables_of, id. rewrite filled_out by addresses.
  change (pd2 + OFFSET + 8) with (pd2 + OFFSET + 8 * 1). by rewrite upd_eq.
Qed.

(** The 512 entries of [pt1], stored after the write to CR3. *)
Lemma wp_fill_second v c s :
  own_tables c s (tables_of (fun g => upd g (pd2 + OFFSET + 8 * 1) v) id) ->
  (forall a, a ∈ page_slots s 0xC0200 -> a ∈ area_slots s 0xC0200 (pdpt + OFFSET) (pd2 + OFFSET) \/ a = pt2 + OFFSET) ->
  wp (for_ 512 0 (fun i => put_entry pt1 i (entry031 i))) (fun _ s' => second_kept v c s') s.
Proof.
  intros Ho Hps. apply (wp_fill_own 512 entry031 (fun _ => second_kept v c)).
  - destruct (ow_size _ _ _ Ho). lia.
  - done.
  - intros i Hi. apply entry031_bound. lia.
  - intros i s1 Hk. apply Hk.
  - split; [by eapply own_second_upper|apply Ho| | | |apply Ho].
    + intros e He. rewrite (ow_tlb _ _ _ Ho) in He; [done|lia].
    + intros a Ha. destruct (Hps a Ha) as [Hin| ->]; [|clear; addresses].
      rewrite (second_indices s (ow_cr3 _ _ _ Ho)), !elem_of_cons, elem_of_nil in Hin. clear -Hin. addresses.
    + apply (ow_rest _ _ _ Ho); by vm_compute.
  - intros i s1 s2 Hi Hk Hst. by apply (second_kept_step _ _ i s1 s2 (entry031 i)); [lia| |].
Qed.

(** The end of both programs, once 0xC0200000 leads to [b]. *)
Lemma wp_second_finish s s2 b c :
  0x900 <= hi -> usable s2 0xC0200 b -> 0x80500000 <= b < 0x80900000 -> window s2 0 hi OFFSET low ->
  console s2 = c -> c = rev (text (chars "hello!")) ++ console s ->
  wp (store32 0xC0200000 0;; finish say)
    (fun r s' => r = Some 0 /\ stored_int b s' /\ said_all s s') s2.
Proof.
  intros Hhi Hu Hb Hw Hc ->. change 0xC0200000 with (0xC0200 * 4096).
  eapply wp_mono; [apply (wp_store_finish s2 0xC0200 b (fun _ => True)); [done|done|lia|done|done|done|done|done]|].
  intros r s' (-> & [HR _] & E). split_and!; [done|exact HR|].
  unfold said_all, hello_bye. rewrite E, Hc. by rewrite app_assoc.
Qed.

Lemma wp_main035 s :
  old_runtime hi T s -> rest_is s -> K (pmem s) ->
  wp (prepare say (put_entry pd2 1 (huge 0x80800000)) skip;;
      for_ 512 0 (fun i => put_entry pt1 i (entry031 i));; store32 0xC0200000 0;; finish say)
    (fun r s' => r = Some 0 /\ stored_int 0x80800000 s' /\ said_all s s') s.
Proof.
  intros Hr Hre HK. pose proof (or_size _ _ _ Hr) as Hs. apply wp_bind.
  eapply wp_mono; [apply wp_prepare_second; [done|done|done|by vm_compute]|]. intros [] s1 H1.
  pose proof (second_huge s1 (own_second_upper _ _ _ H1)) as Hh1.
  apply wp_bind. eapply wp_mono; [apply (wp_fill_second _ _ s1 H1)|].
  { destruct (huge_walk _ _ _ _ _ _ 0 Hh1 ltac:(lia)) as [_ E]. rewrite Z.add_0_r in E.
    rewrite E. intros a Ha. by left. }
  intros [] s2 Hk. destruct (huge_walk _ _ _ _ _ _ 0 (second_huge s2 (sk_upper _ _ _ Hk)) ltac:(lia)) as [Hm _].
  eapply (wp_second_finish s s2); [lia| |lia|apply Hk|apply Hk|done].
  split; [exact (sk_coherent _ _ _ Hk)|exact Hm|eapply window_frame; [|apply Hk|..]; lia || done|done].
Qed.

(** paging/032 sets one entry of [pt2], which it has not cleared: what was there must
    not have been a present entry. *)
Lemma wp_second_entry s w f c :
  0x900 <= hi -> page f -> second_kept (rwu (pt2 + OFFSET)) c s ->
  rest (pt2 + OFFSET) = Some w -> pte_present w = false ->
  wp (put_entry pt2 0 (rwu f)) (fun _ s' =>
    window s' 0 hi OFFSET low /\ coherent s' 0xC0200 /\ maps_to s' 0xC0200 f true /\ console s' = c) s.
Proof.
  intros Hhi Hf Hk Hrw Hnp. pose proof (second_area s (sk_upper _ _ _ Hk)) as Ha.
  destruct Hk as [[Hc _ _ _] Hw Hco _ R4 E]. rewrite Hrw in R4.
  assert (slot (pt2 + OFFSET)) as Hs by (by vm_compute).
  unfold put_entry. rewrite Z.mul_0_r, Z.add_0_r, (rwu_page f Hf).
  eapply wp_mono; [eapply (wp_store64_window 0 hi OFFSET low s pt2);
    [exact Hw|unfold pt2; lia|done|exact Hs|destruct Hf; lia]|].
  intros [] s' Hst. split_and!.
  - eapply window_stored; [exact Hst| |exact Hw]. clear. addresses.
  - exact (stored_coherent_absent _ _ _ _ _ Hst R4 Hnp Hco).
  - assert (area s' 0xC0200 (pdpt + OFFSET) (pd2 + OFFSET) (pt2 + OFFSET)) as Ha'.
    { eapply area_stored; [exact Hst| |exact Ha].
      rewrite (second_indices s Hc), !elem_of_cons, elem_of_nil. clear. addresses. }
    destruct (area_walk _ _ _ _ _ 0 Ha' ltac:(lia)) as [Hcur _].
    rewrite Z.mul_0_r, !Z.add_0_r, (st_value _ _ _ _ Hst) in Hcur.
    destruct (table_entry_flags f 7 Hf eq_refl) as (B1 & B2 & B3 & _).
    unfold maps_to. rewrite Hcur. unfold pte_entry. rewrite B2, B1, B3. by eexists.
  - rewrite <- E. apply Hst.
Qed.

Lemma wp_main032 s w :
  old_runtime hi T s -> rest_is s -> K (pmem s) -> rest (pt2 + OFFSET) = Some w -> pte_present w = false ->
  wp (prepare say (put_entry pd2 1 (rwu (pt2 + OFFSET))) skip;;
      for_ 512 0 (fun i => put_entry pt1 i (entry031 i));; put_entry pt2 0 (rwu 0x80700000);;
      store32 0xC0200000 0;; finish say)
    (fun r s' => r = Some 0 /\ stored_int 0x80700000 s' /\ said_all s s') s.
Proof.
  intros Hr Hre HK Hrw Hnp. pose proof (or_size _ _ _ Hr) as Hs. apply wp_bind.
  eapply wp_mono; [apply wp_prepare_second; [done|done|done|by vm_compute]|]. intros [] s1 H1.
  pose proof (second_area s1 (own_second_upper _ _ _ H1)) as Ha1.
  apply wp_bind. eapply wp_mono; [apply (wp_fill_second _ _ s1 H1)|].
  { destruct (area_walk _ _ _ _ _ 0 Ha1 ltac:(lia)) as [_ E]. rewrite !Z.add_0_r in E.
    rewrite E. intros a. rewrite elem_of_app, list_elem_of_singleton. tauto. }
  intros [] s2 Hk. apply wp_bind.
  eapply wp_mono; [eapply (wp_second_entry s2 w 0x80700000); [lia|by vm_compute|exact Hk|done|done]|].
  intros [] s3 (Hw3 & Hco & Hm & E).
  eapply (wp_second_finish s s3); [lia| |lia|done|exact E|done].
  split; [done|exact Hm|eapply window_frame; [|exact Hw3|..]; lia || done|done].
Qed.
End Build.

(** ** The theorems *)

(** The host, having served the signals between the two states, has printed these
    lines, and has returned [r] ([None]: it still waits). *)
Definition served (s s' : core) (r : option Z) (lines : list string) : Prop :=
  exists sent, console s' = sent ++ console s /\
    serve (rev sent) [] = (r, concat ((fun l => chars l ++ [10]) <$> lines)).

Definition ends (woken : bool) : list string := if woken then ["hello!"; "bye!"]%string else ["hello!"%string].

Lemma served_all s s' : said_all s s' -> served s s' (Some 0) (ends true).
Proof. intros E. exists hello_bye. split; [exact E|by vm_compute]. Qed.

Section Results.
Context `{TlbPolicy} `{Channel} (hi : Z) (T : Z -> Prop).

Lemma wp_hlt print_flag (woken : bool) R s :
  stable hi print_flag R -> R s ->
  wp (hlt woken) (fun r s' => r = (if woken then Some 0 else None) /\ R s' /\
    console s' = (if woken then sig 1 0 :: rev (text (chars "bye!")) else []) ++ console s) s.
Proof.
  intros Hs HR. destruct woken; [|by apply wp_ret].
  apply (wp_finish hi print_flag puts_plain (wp_puts_plain hi print_flag)); done.
Qed.

(** The end of a program with pages of its own: the friend's memory, its pages at
    0xC0000000, its result and what the host makes of it. *)
Definition ends_showing (pages : Z -> option Z) (woken : bool) (s : core) (r' : option Z) (s' : core) : Prop :=
  window s' 0 hi OFFSET low /\ high_pages s' pages /\
  r' = (if woken then Some 0 else None) /\ served s s' r' (ends woken).

Lemma shows_ends pages (woken : bool) s r' s' :
  shows hi pages (if woken then Some 0 else None)
    ((if woken then sig 1 0 :: rev (text (chars "bye!")) else []) ++ rev (text (chars "hello!"))) s r' s' ->
  ends_showing pages woken s r' s'.
Proof.
  intros [-> Hw Hp E]. split_and!; [done|done|done|]. eexists. split; [exact E|]. by destruct woken; vm_compute.
Qed.

(** The programs of intro only print. *)
Lemma wp_intro print_flag (woken : bool) s :
  old_runtime hi T s -> flag_ok hi T print_flag ->
  wp (puts_plain (chars "hello!");; hlt woken)
    (fun r s' => r = (if woken then Some 0 else None) /\ served s s' r (ends woken)) s.
Proof.
  intros Hr Hf.
  pose proof (start_stable hi T print_flag (fun _ => True) (read64 (pmem s)) (kept_true print_flag) Hf) as Hst.
  apply wp_bind. eapply wp_mono; [apply (wp_puts_plain hi print_flag _ _ s Hst); done|]. intros [] s1 [H1 E1].
  eapply wp_mono; [by apply (wp_hlt print_flag woken _ s1 Hst)|]. intros r s' (-> & _ & E).
  split; [done|]. eexists. split; [rewrite E, E1; apply app_assoc|]. by destruct woken; vm_compute.
Qed.

(** C33: on the old runtime, paging/001, 002, 003, 011, 013 and 014 move the friend to
    tables of its own without losing its memory: after the write to CR3 the pages from 0
    on still lead to the memory from 0x80000000 on, and the 2 MB at 0xC0000000 show
    exactly the frames the program entered, the other pages being absent.  The programs
    with a [hlt] go on when an interrupt wakes the core, and stop there otherwise; the
    host prints "hello!" and "bye!" and returns 0, or waits after "hello!".  The
    programs of intro, which build no tables, end the same way. *)
Theorem old_paging_tables s print_flag woken
    (Hr : old_runtime hi T s) (Hf : flag_ok hi T print_flag) :
  wp main001 (ends_showing pages001 true s) s /\
  wp (main002 woken) (ends_showing pages001 woken s) s /\
  wp (main003 woken) (ends_showing (fun _ => None) woken s) s /\
  wp (main011 woken) (ends_showing pages011 woken s) s /\
  wp (main013 woken) (ends_showing (pages013 0x80001000) woken s) s /\
  wp (main014 woken) (ends_showing (pages013 0x80002000) woken s) s /\
  wp intro001 (fun r s' => r = Some 0 /\ served s s' r (ends true)) s /\
  wp (intro011 woken) (fun r s' => r = (if woken then Some 0 else None) /\ served s s' r (ends woken)) s.
Proof.
  assert (old_runtime hi T s /\ rest_is 0x5000 (read64 (pmem s)) s /\ True) as Hs by done.
  pose proof (fun R => wp_hlt print_flag true R) as Ht. pose proof (fun R => wp_hlt print_flag woken R) as Hh.
  pose proof (kept_true print_flag) as HK. pose proof (wp_puts_plain hi print_flag) as Hp.
  split_and!; [..|exact (wp_intro print_flag true s Hr Hf)|exact (wp_intro print_flag woken s Hr Hf)];
    (eapply wp_mono; [|intros r' s'; apply shows_ends]).
  - by eapply (wp_main001 hi T print_flag _ _ HK puts_plain Hp Hf).
  - by eapply (wp_main001 hi T print_flag _ _ HK puts_plain Hp Hf).
  - by eapply (wp_main003 hi T print_flag _ _ HK puts_plain Hp Hf).
  - by eapply (wp_main011 hi T print_flag _ _ HK puts_plain Hp Hf).
  - by eapply (wp_main013 hi T print_flag _ _ HK puts_plain Hp Hf).
  - by eapply (wp_main013 hi T print_flag _ _ HK puts_plain Hp Hf).
Qed.

(** C34: on the old runtime, paging/031, 032 and 035 store an [int] through pages at
    0xC0000000.  031 enters its pages after the write to CR3, and its store reaches the
    frame 0x80500000; but it enters 1024 of them in a table of 512, and the second half of
    the entries overwrites the page behind the table.  035 enters the 2 MB page at
    0x80800000 before the write to CR3, and its store reaches that frame.  032 enters its
    page after the write to CR3 in a table it does not clear: under the condition that the
    word there was not a present entry, its store reaches the frame 0x80700000.  In each
    case the friend's own mapping survives, the lock of [puts] ends, and the host prints
    both lines and returns 0. *)
Theorem old_paging_stores s print_flag
    (Hr : old_runtime hi T s) (Hf : flag_ok hi T print_flag) :
  let done_at (f : Z) (r : option Z) (s' : core) := r = Some 0 /\ stored_int hi f s' /\ served s s' r (ends true) in
  wp (main031 print_flag) (fun r s' => done_at 0x80500000 r s' /\
    forall j, 0 <= j < 512 ->
      read64 (pmem s') (pt1 + 4096 + OFFSET + 8 * j) = Some (rwu (0x80700000 + 0x1000 * j))) s /\
  wp (main035 print_flag) (done_at 0x80800000) s /\
  forall w, read64 (pmem s) (pt2 + OFFSET) = Some w -> pte_present w = false ->
    wp (main032 print_flag) (done_at 0x80700000) s.
Proof.
  assert (rest_is 0x5000 (read64 (pmem s)) s) as Hre by done. pose proof (kept_true print_flag) as HK.
  assert (speaks hi print_flag (puts print_flag)) as Hp.
  { apply wp_puts. destruct Hf as [H4 Hra _]. pose proof (or_size _ _ _ Hr). split_and!; [lia|lia|done|lia]. }
  cbv zeta. split_and!.
  - eapply wp_mono; [by eapply (wp_main031 hi T print_flag _ _ HK _ Hp Hf)|].
    intros r s' (-> & [H1 H2] & H3). split; [split_and!; [done|exact H1|by apply served_all]|].
    intros j Hj. replace (pt1 + 4096 + OFFSET + 8 * j) with (pt1 + OFFSET + 8 * (512 + j)) by lia.
    rewrite H2 by lia. unfold entry031. do 2 f_equal. lia.
  - eapply wp_mono; [by eapply (wp_main035 hi T print_flag _ _ HK _ Hp Hf)|].
    intros r s' (-> & H1 & H3). split_and!; [done|exact H1|by apply served_all].
  - intros w Hw Hnp. eapply wp_mono; [by eapply (wp_main032 hi T print_flag _ _ HK _ Hp Hf)|].
    intros r s' (-> & H1 & H3). split_and!; [done|exact H1|by apply served_all].
Qed.
End Results.
End SampleOld.

Lemma old_paging_tables_witness :
  old_runtime 0x900 rt_slots rt_core /\ flag_ok 0x900 rt_slots rt_flag /\
  wp (SampleOld.main001 (H := keep_all) (H0 := console_channel))
    (SampleOld.ends_showing 0x900 SampleOld.pages001 true rt_core) rt_core.
Proof.
  split; [exact rt_old_runtime|split; [exact rt_flag_ok|]].
  exact (proj1 (SampleOld.old_paging_tables (H := keep_all) (H0 := console_channel) 0x900 rt_slots rt_core rt_flag true
    rt_old_runtime rt_flag_ok)).
Defined.

Lemma old_paging_stores_witness :
  old_runtime 0x900 rt_slots rt_core /\ flag_ok 0x900 rt_slots rt_flag /\
  wp (SampleOld.main035 (H := keep_all) (H0 := console_channel) rt_flag)
    (fun r s' => r = Some 0 /\ SampleOld.stored_int 0x900 0x80800000 s' /\
       SampleOld.served rt_core s' r (SampleOld.ends true)) rt_core.
Proof.
  split; [exact rt_old_runtime|split; [exact rt_flag_ok|]].
  exact (proj1 (proj2 (SampleOld.old_paging_stores (H := keep_all) (H0 := console_channel) 0x900 rt_slots rt_core rt_flag
    rt_old_runtime rt_flag_ok))).
Defined.
