(* ===== verification/OldApps.v ===== *)
(** * OldApps: the programs of sample_old/paging that run applications

    The programs 021 to 024, 041 and 042 copy the images of one or two applications to
    memory and call their functions in turn: at the addresses they are linked at (021,
    022), at one address they are copied to and back (023), or at 0xC0000000 behind a
    page table entry that is changed (024) or tables of their own (041, 042).  An image
    is a list of bytes, a parameter; calling an address runs the function whose image
    the memory shows there.  [Context] and the functions are those of app.h, app1.cc and
    app2.cc. *)

From S2P Require Import Prelude Memory Paging VirtMem TutorialPaging OldRuntime SampleOld.
Import VirtMem OldRuntime.

Module OldApps.

(** ** Applications *)

Record Context := mkContext { next : Z; ctx_i : Z }.

(** An application: the image the friend is linked with ([_binary_app_start],
    [_binary_app_size]) and its address, the address it is linked to run at, its first
    function, which is at the start of the image, and the second one. *)
Record app := mkApp {
  image : list Z;
  source : Z;
  base : Z;
  second : Z;
  run_first : Context -> M core Context;
  run_second : Context -> M core Context
}.

Definition entry1 (entry2 : Z) (c : Context) : Context := mkContext entry2 1.
Definition entry2 (c : Context) : Context := mkContext 0 (sext 32 (ctx_i c + 1)).
Definition entry3 (entry4 : Z) (c : Context) : Context := mkContext entry4 9.
Definition entry4 (c : Context) : Context := mkContext 0 (sext 32 (ctx_i c - 1)).

Definition app1 (image : list Z) (source base second : Z) : app :=
  mkApp image source base second (fun c => mret (entry1 (base + second) c)) (fun c => mret (entry2 c)).
Definition app2 (image : list Z) (source base second : Z) : app :=
  mkApp image source base second (fun c => mret (entry3 (base + second) c)) (fun c => mret (entry4 c)).

Section Programs.
Context `{TlbPolicy} `{Channel}.

(** [for (int i = 0; i < 10; i++) buf[i] = i;] of the applications of 042 *)
Definition fill_buf : M core unit := for_ 10 0 (fun i => no_fault (vstore 1 (0xC0001000 + i) i)).

Definition app1_042 (image : list Z) (source base second : Z) : app :=
  mkApp image source base second (fun c => fill_buf;; mret (entry1 (base + second) c))
    (fun c => mret (entry2 c)).
Definition app2_042 (image : list Z) (source base second : Z) : app :=
  mkApp image source base second (fun c => mret (entry3 (base + second) c))
    (fun c => fill_buf;; mret (entry4 c)).

(** Whether the bytes [l] are at [va]. *)
Fixpoint fetch (l : list Z) (va : Z) : M core bool :=
  match l with
  | [] => mret true
  | b :: rest => v ← no_fault (vload 1 va); if v =? b then fetch rest (va + 1) else mret false
  end.

(** [c.next(c)]: the function of the application that is in memory at its address. *)
Fixpoint call (apps : list app) (c : Context) : M core Context :=
  match apps with
  | [] => fail Undefined
  | a :: rest =>
      if (next c =? base a) || (next c =? base a + second a) then
        (ok ← fetch (image a) (base a);
         if ok : bool then (if next c =? base a then run_first a c else run_second a c) else call rest c)
      else call rest c
  end.

(** [show_i(f2h, c.i); if (c.i != expected) { return_value(f2h, 1); return 1; }] *)
Definition expect (say : list Z -> M core unit) (expected : Z) (c : Context) (k : M core Z) : M core Z :=
  show_i say (ctx_i c);;
  if ctx_i c =? expected then k else return_value 1;; mret 1.

Definition bye (say : list Z -> M core unit) : M core Z :=
  say (chars "bye!");; return_value 0;; mret 0.

(** [memcpy((void * )dest, _binary_app_start, (size_t)_binary_app_size)] *)
Definition copy_app (dest : Z) (a : app) : M core unit := memcpy dest (source a) (length (image a)).

(** ** The programs *)

Section Mains.
Context (print_flag : Z) (a1 a2 : app).
Let say := puts print_flag.

Definition main021 : M core Z :=
  say (chars "hello!");;
  copy_app 0x400000 a1;;
  c1 ← call [a1] (mkContext 0x400000 0);
  expect say 1 c1 (
  c1 ← call [a1] c1;
  expect say 2 c1 (
  bye say)).

Definition main022 : M core Z :=
  say (chars "hello!");;
  copy_app 0x400000 a1;;
  copy_app 0x500000 a2;;
  c1 ← call [a1; a2] (mkContext 0x400000 0);
  expect say 1 c1 (
  c2 ← call [a1; a2] (mkContext 0x500000 0);
  expect say 9 c2 (
  c1 ← call [a1; a2] c1;
  expect say 2 c1 (
  c2 ← call [a1; a2] c2;
  expect say 8 c2 (
  bye say)))).

(** [memcpy(0x400000, from, size); c = c.next(c); memcpy(from, 0x400000, size);] *)
Definition swapped_call (from : Z) (a : app) (c : Context) : M core Context :=
  memcpy 0x400000 from (length (image a));;
  c' ← call [a1; a2] c;
  memcpy from 0x400000 (length (image a));;
  mret c'.

Definition main023 : M core Z :=
  say (chars "hello!");;
  copy_app 0x500000 a1;;
  copy_app 0x600000 a2;;
  c1 ← swapped_call 0x500000 a1 (mkContext 0x400000 0);
  expect say 1 c1 (
  c2 ← swapped_call 0x600000 a2 (mkContext 0x400000 0);
  expect say 9 c2 (
  c1 ← swapped_call 0x500000 a1 c1;
  expect say 2 c1 (
  c2 ← swapped_call 0x600000 a2 c2;
  expect say 8 c2 (
  bye say)))).

(** [pt1[0] = frame | 7; invlpg(0xC0000000); c = c.next(c);] *)
Definition mapped_call (frame : Z) (c : Context) : M core Context :=
  put_entry SampleOld.pt1 0 (rwu frame);;
  invlpg 0xC0000000;;
  call [a1; a2] c.

Definition main024 : M core Z :=
  say (chars "hello!");;
  SampleOld.tables SampleOld.skip SampleOld.skip;;
  copy_app 0x500000 a1;;
  copy_app 0x600000 a2;;
  c1 ← mapped_call 0x80500000 (mkContext 0xC0000000 0);
  expect say 1 c1 (
  c2 ← mapped_call 0x80600000 (mkContext 0xC0000000 0);
  expect say 9 c2 (
  c1 ← mapped_call 0x80500000 c1;
  expect say 2 c1 (
  c2 ← mapped_call 0x80600000 c2;
  expect say 8 c2 (
  bye say)))).

(** *** 041 and 042: tables per application *)

(** [(x | (1 << 0) | (1 << 1) | (1 << 2) | (1 << 7) | (1 << 8))] *)
Definition huge_global (x : Z) : Z := Z.lor (huge x) (Z.shiftl 1 8).

Definition create_pagetable (page_structures pd_for_baremetal page_for_app : Z) : M core unit :=
  let pml4t := page_structures in
  let pdpt := page_structures + 0x1000 in
  let pd := page_structures + 0x2000 in
  let pt := page_structures + 0x3000 in
  put_entry pml4t 0 (rwu (pdpt + OFFSET));;
  put_entry pdpt 0 (rwu (pd_for_baremetal + OFFSET));;
  put_entry pdpt 3 (rwu (pd + OFFSET));;
  put_entry pd 0 (rwu (pt + OFFSET));;
  put_entry pt 0 (rwu page_for_app).

Definition page_structures_for_app1 : Z := 0x310000.
Definition page_structures_for_app2 : Z := 0x314000.
Definition pd_for_baremetal : Z := 0x318000.

Definition app_tables : M core unit :=
  memset 0x310000 0 (Z.to_nat 0x9000);;
  for_ 512 0 (fun i => put_entry pd_for_baremetal i (huge_global (0x80000000 + 0x200000 * i)));;
  create_pagetable page_structures_for_app1 pd_for_baremetal 0x80500000;;
  create_pagetable page_structures_for_app2 pd_for_baremetal 0x80600000;;
  copy_app 0x500000 a1;;
  copy_app 0x600000 a2.

(** [movq page_structures, %cr3; c = c.next(c);] *)
Definition switched_call (page_structures : Z) (c : Context) : M core Context :=
  write_cr3 (page_structures + OFFSET);;
  call [a1; a2] c.

Definition main041 : M core Z :=
  say (chars "hello!");;
  app_tables;;
  c1 ← switched_call page_structures_for_app1 (mkContext 0xC0000000 0);
  expect say 1 c1 (
  c2 ← switched_call page_structures_for_app2 (mkContext 0xC0000000 0);
  expect say 9 c2 (
  c1 ← switched_call page_structures_for_app1 c1;
  expect say 2 c1 (
  c2 ← switched_call page_structures_for_app2 c2;
  expect say 8 c2 (
  bye say)))).

Definition map_page (page_structures : Z) : M core unit :=
  put_entry (page_structures + 0x3000) 1 (rwu 0x80700000);; invlpg 0xC0000000.

Definition unmap_page (page_structures : Z) : M core unit :=
  put_entry (page_structures + 0x3000) 1 0;; invlpg 0xC0000000.

(** [movq page_structures, %cr3; map_page(page_structures); c = c.next(c);
    unmap_page(page_structures);] *)
Definition served_call (page_structures : Z) (c : Context) : M core Context :=
  write_cr3 (page_structures + OFFSET);;
  map_page page_structures;;
  c' ← call [a1; a2] c;
  unmap_page page_structures;;
  mret c'.

Definition main042 : M core Z :=
  say (chars "hello!");;
  app_tables;;
  c1 ← served_call page_structures_for_app1 (mkContext 0xC0000000 0);
  expect say 1 c1 (
  c2 ← switched_call page_structures_for_app2 (mkContext 0xC0000000 0);
  expect say 9 c2 (
  c1 ← switched_call page_structures_for_app1 c1;
  expect say 2 c1 (
  c2 ← served_call page_structures_for_app2 c2;
  expect say 8 c2 (
  bye say)))).
End Mains.
End Programs.

(** ** Bytes in memory *)

(** The bytes [l] are read at the physical address [a]. *)
Definition image_at (m : mem) (a : Z) (l : list Z) : Prop :=
  0 <= a /\ a + Z.of_nat (length l) <= 2 ^ 64 /\
  forall k b, l !! k = Some b -> word 1 m (a + Z.of_nat k) = Some b.

Lemma word1_agree m m' x : 0 <= x < 2 ^ 64 -> m' !! x = m !! x -> word 1 m' x = word 1 m x.
Proof.
  intros Hx E. unfold word. rewrite (read_bytes_agree m m'); [done|lia|lia|]. intros y Hy.
  by replace y with x by lia.
Qed.

(** A store to a slot outside the bytes. *)
Lemma image_at_update m m' a x l :
  slot_update m m' (fun y => y = x) -> x + 8 <= a \/ a + Z.of_nat (length l) <= x -> image_at m a l -> image_at m' a l.
Proof.
  intros Hu Hx (H0 & Hn & Hl). split_and!; [done|done|]. intros k b Hk. pose proof (lookup_lt_Some _ _ _ Hk).
  rewrite <- (Hl k b Hk). apply word1_agree; [lia|]. apply (su_byte _ _ _ Hu). intros y ->. lia.
Qed.

Lemma byte_in_page va : va mod 4096 + Z.of_nat 1 <= 4096.
Proof. pose proof (Z.mod_pos_bound va 4096 ltac:(done)). lia. Qed.

(** Two images that differ before one of them ends. *)
Definition differ (l l' : list Z) : Prop := exists k x y, l !! k = Some x /\ l' !! k = Some y /\ x <> y.

(** A step that a reader of memory makes. *)
Definition silent (s s' : core) : Prop := quiet s s' /\ console s' = console s.

Lemma silent_refl s : silent s s.
Proof. split; [|done]. split; [done| |done]. intros p e He. by left. Qed.

Lemma silent_trans s1 s2 s3 : silent s1 s2 -> silent s2 s3 -> silent s1 s3.
Proof. intros [Q1 E1] [Q2 E2]. split; [by eapply quiet_trans|congruence]. Qed.

Lemma silent_load s s' : after_access s s' (fun m => m = pmem s) -> silent s s'.
Proof. intros Ha. split; [by apply loaded_quiet|apply Ha]. Qed.

Section Fetch.
Context `{TlbPolicy} (lo hi off : Z) (T : Z -> Prop).

(** A range of the window that can be read. *)
Definition readable (va n : Z) : Prop :=
  lo * 4096 <= va /\ va + n <= hi * 4096.

Lemma wp_fetch_byte s va n v :
  window s lo hi off T -> readable va n -> 0 < n -> word 1 (pmem s) (va + off) = Some v ->
  wp (no_fault (vload 1 va)) (fun r s' => r = v /\ silent s s') s.
Proof.
  intros Hw (H1 & H2) Hn Hv.
  eapply wp_mono; [eapply wp_read_window; [exact Hw|lia|apply byte_in_page|exact Hv]|].
  intros r s' [-> Ha]. split; [done|by apply silent_load].
Qed.

Lemma image_at_tail m a b l : image_at m a (b :: l) -> word 1 m a = Some b /\ image_at m (a + 1) l.
Proof.
  intros (H0 & Hn & Hl). cbn [length] in Hn. split.
  - rewrite <- (Z.add_0_r a). by apply (Hl 0%nat).
  - split_and!; [lia|lia|]. intros k x Hk. rewrite <- (Hl (S k) x Hk). f_equal. lia.
Qed.

Lemma wp_fetch l va s :
  window s lo hi off T -> readable va (Z.of_nat (length l)) -> image_at (pmem s) (va + off) l ->
  wp (fetch l va) (fun r s' => r = true /\ silent s s') s.
Proof.
  revert va s. induction l as [|b l IH]; intros va s Hw Hr Hl; cbn [fetch].
  { apply wp_ret. split; [done|apply silent_refl]. }
  cbn [length] in Hr. pose proof Hr as (R1 & R2). apply image_at_tail in Hl as [Hb Hl].
  apply wp_bind. eapply wp_mono; [eapply wp_fetch_byte; [exact Hw|exact Hr|lia|exact Hb]|].
  intros v s1 [-> H1]. rewrite Z.eqb_refl. eapply wp_mono; [apply IH|].
  - eapply window_quiet; [apply H1|exact Hw].
  - split; lia.
  - rewrite (qu_mem _ _ (proj1 H1)). by replace (va + 1 + off) with (va + off + 1) by lia.
  - intros r s2 [-> H2]. split; [done|by eapply silent_trans].
Qed.

Lemma wp_fetch_other l l' va s :
  window s lo hi off T -> readable va (Z.of_nat (length l')) -> image_at (pmem s) (va + off) l' ->
  differ l l' -> wp (fetch l va) (fun r s' => r = false /\ silent s s') s.
Proof.
  intros Hw Hr Hl (k & x & y & Hx & Hy & Hne). revert l l' va s Hw Hr Hl Hx Hy.
  induction k as [|k IH]; intros [|b l] [|b' l'] va s Hw Hr Hl Hx Hy; try done;
    cbn [length] in Hr; pose proof Hr as (R1 & R2); apply image_at_tail in Hl as [Hb Hl];
    cbn [fetch]; apply wp_bind;
    (eapply wp_mono; [eapply wp_fetch_byte; [exact Hw|exact Hr|lia|exact Hb]|]);
    intros v s1 [-> H1].
  - injection Hx as ->. injection Hy as ->. destruct (Z.eqb_spec y x); [done|]. by apply wp_ret.
  - destruct (Z.eqb_spec b' b) as [->|]; [|by apply wp_ret]. eapply wp_mono; [eapply (IH l l')|].
    + eapply window_quiet; [apply H1|exact Hw].
    + split; lia.
    + rewrite (qu_mem _ _ (proj1 H1)). by replace (va + 1 + off) with (va + off + 1) by lia.
    + done.
    + done.
    + intros r s2 [-> H2]. split; [done|by eapply silent_trans].
Qed.
End Fetch.

(** ** Calls and copies *)

Definition run (a : app) (c : Context) : M core Context :=
  if next c =? base a then run_first a c else run_second a c.

Definition enters (a : app) (c : Context) : Prop := next c = base a \/ next c = base a + second a.

(** Of the applications [apps], only [a] can be what the call of [c] enters. *)
Definition only_app (apps : list app) (a : app) (c : Context) : Prop :=
  a ∈ apps /\ enters a c /\
  forall a', a' ∈ apps -> a' = a \/ ~ enters a' c \/ (base a' = base a /\ differ (image a') (image a)).

Lemma wp_call_app `{TlbPolicy} lo hi off T apps a c Q s :
  window s lo hi off T -> readable lo hi (base a) (Z.of_nat (length (image a))) ->
  image_at (pmem s) (base a + off) (image a) -> only_app apps a c ->
  (forall s', silent s s' -> wp (run a c) Q s') -> wp (call apps c) Q s.
Proof.
  intros Hw Hr Hl (Hin & Hen & Hon) HQ.
  assert (forall s1, silent s s1 -> wp (call apps c) Q s1) as Hall; [|by apply Hall, silent_refl].
  induction apps as [|a0 apps IH]; [by apply elem_of_nil in Hin|]. intros s1 H1. cbn [call].
  assert (window s1 lo hi off T) as Hw1 by (eapply window_quiet; [apply H1|exact Hw]).
  assert (image_at (pmem s1) (base a + off) (image a)) as Hl1 by (by rewrite (qu_mem _ _ (proj1 H1))).
  assert (enters a0 c <-> (next c =? base a0) || (next c =? base a0 + second a0) = true) as Hdec.
  { unfold enters. rewrite orb_true_iff, !Z.eqb_eq. done. }
  destruct (Hon a0 ltac:(by left)) as [->|[Hne|[Eb Hd]]].
  - rewrite (proj1 Hdec Hen). apply wp_bind.
    eapply wp_mono; [by eapply (wp_fetch lo hi off T)|]. intros r s2 [-> H2]. apply HQ. by eapply silent_trans.
  - destruct (_ || _) eqn:E; [by destruct Hne; apply Hdec|]. apply IH; [|set_solver|done].
    apply elem_of_cons in Hin as [->|Hin]; [done|exact Hin].
  - assert (a ∈ apps) as Hin'.
    { apply elem_of_cons in Hin as [->|Hin]; [|exact Hin]. destruct Hd as (? & ? & ? & ? & ? & ?). congruence. }
    destruct (_ || _).
    + apply wp_bind. rewrite Eb.
      eapply wp_mono; [by eapply (wp_fetch_other lo hi off T _ (image a))|]. intros r s2 [-> H2].
      apply IH; [done|set_solver|by eapply silent_trans].
    + apply IH; [done|set_solver|done].
Qed.

Lemma word1_range m x v : word 1 m x = Some v -> 0 <= v < 256.
Proof.
  unfold word. cbn [read_bytes]. destruct (m !! u64 x) as [b|]; [|done]. cbn. intros [= <-].
  pose proof (Z.mod_pos_bound b 256 ltac:(done)). lia.
Qed.

Section Copy.
Context `{TlbPolicy} (hi : Z).
Hypothesis hi_ok : hi <= 0x40000.

(** [J] holds while the slots from [dst] on are written. *)
Record writable (dst n : Z) (J : core -> Prop) : Prop := {
  wr_quiet : forall s s', quiet s s' -> J s -> J s';
  wr_slots : forall s s' a, touched s s' a -> dst + OFFSET <= a < dst + OFFSET + n -> a mod 8 = 0 -> J s -> J s';
  wr_window : forall s, J s -> exists T, window s 0 hi OFFSET T
}.

Lemma slot_of dst n i :
  dst mod 8 = 0 -> 0 <= i < n -> dst + OFFSET <= (dst + i + OFFSET) / 8 * 8 < dst + OFFSET + n /\
  (dst + i + OFFSET) / 8 * 8 <= dst + i + OFFSET < (dst + i + OFFSET) / 8 * 8 + 8.
Proof.
  intros Hm Hi. unfold OFFSET. pose proof (Z.div_mod (dst + i + 0x80000000) 8 ltac:(done)).
  pose proof (Z.mod_pos_bound (dst + i + 0x80000000) 8 ltac:(done)). pose proof (Z.div_mod dst 8 ltac:(done)).
  assert ((dst + 0x80000000) / 8 <= (dst + i + 0x80000000) / 8) by (apply Z.div_le_mono; lia).
  assert ((dst + 0x80000000) / 8 * 8 = dst + 0x80000000); [|lia].
  pose proof (Z.div_mod (dst + 0x80000000) 8 ltac:(done)).
  assert ((dst + 0x80000000) mod 8 = 0); [|lia]. rewrite Zplus_mod, Hm. done.
Qed.

Lemma wp_memcpy_bytes J dst src l s :
  let n := Z.of_nat (length l) in
  writable dst n J -> J s -> image_at (pmem s) (src + OFFSET) l ->
  dst mod 8 = 0 -> 0 <= dst -> dst + n <= hi * 4096 -> 0 <= src -> src + n <= hi * 4096 ->
  (forall a, dst + OFFSET <= a < dst + OFFSET + n -> a mod 8 = 0 -> a + 8 <= src + OFFSET \/ src + OFFSET + n <= a) ->
  wp (memcpy dst src (length l))
    (fun _ s' => J s' /\ image_at (pmem s') (dst + OFFSET) l /\ image_at (pmem s') (src + OFFSET) l /\
       console s' = console s) s.
Proof.
  intros n HJ Hs Hl Hm Hd0 Hd Hs0 Hs1 Hap. unfold memcpy.
  eapply wp_mono; [apply (wp_for (fun i s' => J s' /\ console s' = console s /\ image_at (pmem s') (src + OFFSET) l /\
    forall k b, l !! k = Some b -> Z.of_nat k < i -> word 1 (pmem s') (dst + OFFSET + Z.of_nat k) = Some b))|].
  - intros i s1 Hi (H1 & E1 & Hl1 & Hc1). destruct (wr_window _ _ _ HJ s1 H1) as [T Hw].
    destruct (lookup_lt_is_Some_2 l (Z.to_nat i)) as [b Ek]; [lia|].
    assert (word 1 (pmem s1) (src + i + OFFSET) = Some b) as Hv.
    { destruct Hl1 as (_ & _ & Hl1). rewrite <- (Hl1 _ _ Ek). f_equal. lia. }
    assert (0 <= b < 256) as Hb by (by eapply word1_range).
    apply wp_bind. eapply wp_mono; [eapply wp_read_window; [exact Hw|lia|apply byte_in_page|exact Hv]|].
    intros v s2 [-> Ha]. apply silent_load in Ha as [Hq E2].
    eapply wp_mono; [eapply (wp_write_window 0 hi OFFSET T 1 (dst + i) b);
      [by eapply window_quiet|lia|lia|by exists 8|by rewrite Z.mod_1_r|done|unfold OFFSET; lia|unfold OFFSET; lia]|].
    intros [] s3 [Ht Hwd Ho]. destruct (slot_of dst n i Hm ltac:(lia)) as [Hsl Hin].
    assert ((dst + i + OFFSET) / 8 * 8 mod 8 = 0) as H8 by (by apply Z.mod_mul).
    split_and!.
    + eapply (wr_slots _ _ _ HJ); [exact Ht|exact Hsl|exact H8|by eapply (wr_quiet _ _ _ HJ)].
    + destruct (st_io _ _ _ Ht) as [-> _]. congruence.
    + eapply image_at_update; [apply Ht|apply Hap; [exact Hsl|exact H8]|]. by rewrite (qu_mem _ _ Hq).
    + intros k x Hk Hlt. destruct (decide (Z.of_nat k = i)) as [Ei|Hne].
      * assert (x = b) as -> by (replace (Z.to_nat i) with k in Ek by lia; congruence).
        replace (dst + OFFSET + Z.of_nat k) with (dst + i + OFFSET) by lia.
        rewrite Hwd. f_equal. apply Z.mod_small. lia.
      * rewrite <- (Hc1 k x Hk ltac:(lia)), <- (qu_mem _ _ Hq). apply word1_agree; [|apply Ho; lia].
        pose proof (lookup_lt_Some _ _ _ Hk). unfold OFFSET. lia.
  - split_and!; [done|done|done|]. intros k b _ Hk. lia.
  - intros [] s' (H1 & E1 & Hl1 & Hc1). split_and!; [done| |done|done].
    split; [unfold OFFSET; lia|]. split; [unfold OFFSET; lia|].
    intros k b Hk. apply Hc1; [done|]. pose proof (lookup_lt_Some _ _ _ Hk). lia.
Qed.
End Copy.

(** ** Lines of output *)

Definition lines_text (ls : list string) : list (string * list Z) := concat ((fun l => text (chars l)) <$> ls).

(** Since [s0] the program has printed the lines [ls], and [R] holds. *)
Definition at_line (R : core -> Prop) (s0 : core) (ls : list string) (s : core) : Prop :=
  R s /\ console s = rev (lines_text ls) ++ console s0.

Lemma lines_snoc ls l : rev (lines_text (ls ++ [l])) = rev (text (chars l)) ++ rev (lines_text ls).
Proof.
  unfold lines_text. rewrite fmap_app, concat_app. cbn [fmap list_fmap concat].
  by rewrite app_nil_r, rev_app_distr.
Qed.

Section Lines.
Context `{TlbPolicy} `{Channel} (hi print_flag : Z) (say : list Z -> M core unit).
Hypothesis say_ok : speaks hi print_flag say.

Lemma wp_line R s0 ls l s :
  stable hi print_flag R -> at_line R s0 ls s ->
  wp (say (chars l)) (fun _ s' => at_line R s0 (ls ++ [l]) s') s.
Proof.
  intros Hs [HR E]. eapply wp_mono; [by apply (say_ok R)|]. intros [] s' [HR' E']. split; [done|].
  by rewrite E', E, lines_snoc, app_assoc.
Qed.

Lemma wp_expect R s0 ls v l c k Q s :
  stable hi print_flag R -> chars l = [105; 61; (48 + v) mod 256] -> ctx_i c = v -> at_line R s0 ls s ->
  (forall s', at_line R s0 (ls ++ [l]) s' -> wp k Q s') -> wp (expect say v c k) Q s.
Proof.
  intros Hs Hl Hc Ha Hk. unfold expect, show_i. rewrite Hc, <- Hl. apply wp_bind.
  eapply wp_mono; [by apply (wp_line R s0 ls)|]. intros [] s' H'. rewrite Z.eqb_refl. by apply Hk.
Qed.

(** One round of a program: an application runs, and the program shows [i] and compares
    it. *)
Lemma wp_round R c' v l (step : M core Context) (k : Context -> M core Z) Q s0 ls s :
  wp step (fun c s' => c = c' /\ at_line R s0 ls s') s ->
  stable hi print_flag R -> chars l = [105; 61; (48 + v) mod 256] -> ctx_i c' = v ->
  (forall s', at_line R s0 (ls ++ [l]) s' -> wp (k c') Q s') ->
  wp (c ← step; expect say v c (k c)) Q s.
Proof.
  intros Hst Hs Hl Hc Hk. apply wp_bind. eapply wp_mono; [exact Hst|]. intros c s' [-> H'].
  by eapply (wp_expect R).
Qed.

(** The program has returned 0; the host has printed the lines and returned 0. *)
Definition passed (R : core -> Prop) (s0 : core) (ls : list string) (r : Z) (s : core) : Prop :=
  r = 0 /\ R s /\ SampleOld.served s0 s (Some 0) ls.

Lemma wp_bye R s0 ls s :
  stable hi print_flag R -> at_line R s0 ls s ->
  serve (lines_text (ls ++ ["bye!"%string]) ++ [sig 1 0]) [] =
    (Some 0, concat ((fun l => chars l ++ [10]) <$> (ls ++ ["bye!"%string]))) ->
  wp (bye say) (passed R s0 (ls ++ ["bye!"%string])) s.
Proof.
  intros Hs Ha Hse. unfold bye. apply wp_bind. eapply wp_mono; [by apply (wp_line R s0 ls)|].
  intros [] s1 [H1 E1]. apply wp_bind. eapply wp_mono; [by apply (wp_signal hi print_flag R)|].
  intros [] s2 [H2 E2]. apply wp_ret. split_and!; [done|done|].
  exists (sig 1 0 :: rev (lines_text (ls ++ ["bye!"%string]))). split.
  - by rewrite E2, E1.
  - cbn [rev]. by rewrite rev_involutive.
Qed.

(** The four rounds most programs consist of: what a step needs to establish. *)
Definition round_ok (P P' : core -> Prop) (step : M core Context) (c : Context) : Prop :=
  stable hi print_flag P' /\
  forall s0 ls s, at_line P s0 ls s -> wp step (fun c' s' => c' = c /\ at_line P' s0 ls s') s.

Lemma wp_four_rounds P0 P1 P2 P3 P4 st1 st2 (st3 st4 : Context -> M core Context) c1 c2 c1' c2' s0 s :
  at_line P0 s0 ["hello!"%string] s ->
  round_ok P0 P1 st1 c1 -> round_ok P1 P2 st2 c2 -> round_ok P2 P3 (st3 c1) c1' -> round_ok P3 P4 (st4 c2) c2' ->
  ctx_i c1 = 1 -> ctx_i c2 = 9 -> ctx_i c1' = 2 -> ctx_i c2' = 8 ->
  wp (c1 ← st1; expect say 1 c1 (c2 ← st2; expect say 9 c2 (
      c1 ← st3 c1; expect say 2 c1 (c2 ← st4 c2; expect say 8 c2 (bye say)))))
    (passed P4 s0 ["hello!"; "i=1"; "i=9"; "i=2"; "i=8"; "bye!"]%string) s.
Proof.
  intros Ha [S1 H1] [S2 H2] [S3 H3] [S4 H4] E1 E2 E3 E4.
  eapply (wp_round P1 c1 _ "i=1"); [by apply H1|done|done|done|]. intros s1 A1.
  eapply (wp_round P2 c2 _ "i=9"); [by apply H2|done|done|done|]. intros s2 A2.
  eapply (wp_round P3 c1' _ "i=2"); [by apply H3|done|done|done|]. intros s3 A3.
  eapply (wp_round P4 c2' _ "i=8"); [by apply H4|done|done|done|]. intros s4 A4.
  eapply wp_mono; [eapply (wp_bye P4); [done|exact A4|by vm_compute]|]. done.
Qed.

(** A call of an application that only computes. *)
Lemma wp_call_pure lo up off T R s0 ls apps a c c' Q s :
  stable hi print_flag R -> at_line R s0 ls s -> only_app apps a c ->
  window s lo up off T -> readable lo up (base a) (Z.of_nat (length (image a))) ->
  image_at (pmem s) (base a + off) (image a) -> run a c = mret c' ->
  (forall s', at_line R s0 ls s' -> Q c' s') -> wp (call apps c) Q s.
Proof.
  intros Hs [HR E] Ho Hw Hr Hi Hrun HQ. eapply wp_call_app; [exact Hw|exact Hr|exact Hi|exact Ho|].
  intros s' [Hq E']. rewrite Hrun. apply wp_ret, HQ. split; [by apply (sb_quiet _ _ _ Hs s)|congruence].
Qed.
End Lines.

(** ** Memory that holds images *)

Definition holding (hs : list (Z * list Z)) (m : mem) : Prop := Forall (fun h => image_at m h.1 h.2) hs.

(** The slot [x] is outside all images. *)
Definition clear_of (hs : list (Z * list Z)) (x : Z) : Prop :=
  Forall (fun h => x + 8 <= h.1 \/ h.1 + Z.of_nat (length h.2) <= x) hs.

Lemma holding_update hs m m' x :
  slot_update m m' (fun y => y = x) -> clear_of hs x -> holding hs m -> holding hs m'.
Proof.
  intros Hu Hc Hh. unfold holding, clear_of in *. rewrite Forall_forall in *. intros h Hin.
  eapply image_at_update; [exact Hu|by apply Hc|by apply Hh].
Qed.

Lemma holding_in hs m a l : holding hs m -> (a, l) ∈ hs -> image_at m a l.
Proof. intros Hh Hin. exact (proj1 (Forall_forall _ _) Hh (a, l) Hin). Qed.

Lemma holding_sub hs hs' m : hs' ⊆ hs -> holding hs m -> holding hs' m.
Proof. intros Hs Hh. apply Forall_forall. intros h Hin. exact (proj1 (Forall_forall _ _) Hh h (Hs h Hin)). Qed.

(** An application of the programs: its image is linked into the friend, outside the
    memory the programs use, and fits a page. *)
Record app_ok (hi print_flag : Z) (a : app) : Prop := {
  ao_source : 0 <= source a /\ source a + Z.of_nat (length (image a)) <= hi * 4096;
  ao_scratch : source a + Z.of_nat (length (image a)) <= 0x310000 \/ 0x900000 <= source a;
  ao_flag : clear_of [(source a + OFFSET, image a)] (flag_slot print_flag);
  ao_size : Z.of_nat (length (image a)) <= 0x1000;
  ao_second : 0 < second a < Z.of_nat (length (image a))
}.

Definition source_of (a : app) : Z * list Z := (source a + OFFSET, image a).

Lemma source_clear hi print_flag a x :
  app_ok hi print_flag a -> x mod 8 = 0 -> x = flag_slot print_flag \/ scratch x -> clear_of [source_of a] x.
Proof.
  intros Ha Hm [->|Hs]; [apply Ha|]. apply Forall_singleton. unfold source_of, scratch in *. cbn [fst snd]. unfold OFFSET.
  pose proof (ao_scratch _ _ _ Ha). pose proof (Z.div_mod x 8 ltac:(done)). lia.
Qed.

(** The frames the programs copy images to. *)
Definition in_scratch (h : Z * list Z) : Prop :=
  0x80310000 <= h.1 /\ h.1 + Z.of_nat (length h.2) <= 0x80900000.

Lemma clear_app hs1 hs2 x : clear_of (hs1 ++ hs2) x <-> clear_of hs1 x /\ clear_of hs2 x.
Proof. apply Forall_app. Qed.

Lemma scratch_clear hs x : Forall in_scratch hs -> x mod 8 = 0 -> ~ scratch x -> clear_of hs x.
Proof.
  intros Hf Hm Hx. eapply Forall_impl; [exact Hf|]. intros h [H1 H2]. unfold scratch in Hx.
  pose proof (Z.div_mod x 8 ltac:(done)). lia.
Qed.

(** A frame of a page, and another page of it. *)
Lemma page_clear b l x :
  b mod 0x1000 = 0 -> Z.of_nat (length l) <= 0x1000 -> x mod 8 = 0 -> x / 0x1000 <> b / 0x1000 ->
  clear_of [(b, l)] x.
Proof.
  intros Hb Hl Hm Hne. apply Forall_singleton. cbn [fst snd].
  pose proof (Z.div_mod x 0x1000 ltac:(done)). pose proof (Z.mod_pos_bound x 0x1000 ltac:(done)).
  pose proof (Z.div_mod b 0x1000 ltac:(done)). pose proof (Z.div_mod x 8 ltac:(done)). lia.
Qed.

Lemma in_page b n x : b mod 0x1000 = 0 -> n <= 0x1000 -> b <= x < b + n -> x / 0x1000 = b / 0x1000.
Proof.
  intros Hb Hn Hx. pose proof (Z.div_mod b 0x1000 ltac:(done)). symmetry.
  apply (Z.div_unique_pos x 0x1000 (b / 0x1000) (x - b)); lia.
Qed.

(** ** 021, 022 and 023: images in the memory of the runtime *)
Section Runtime.
Context `{TlbPolicy} `{Channel} (hi : Z) (T : Z -> Prop) (print_flag : Z) (apps : list app).
Hypothesis flag_good : flag_ok hi T print_flag.
Hypothesis hi_ok : 0x900 <= hi <= 0x40000.
Hypothesis apps_ok : Forall (app_ok hi print_flag) apps.

Abbreviation say := (puts print_flag).

(** The runtime's memory, with the applications linked into the friend and the images
    [hs] in the scratch memory. *)
Definition loaded (hs : list (Z * list Z)) (s : core) : Prop :=
  old_runtime hi T s /\ holding (hs ++ (source_of <$> apps)) (pmem s).

Lemma sources_clear x :
  x mod 8 = 0 -> x = flag_slot print_flag \/ scratch x -> clear_of (source_of <$> apps) x.
Proof.
  intros Hm Hx. apply Forall_fmap. eapply Forall_impl; [exact apps_ok|]. intros a Ha.
  exact (proj1 (Forall_singleton _ _) (source_clear _ _ _ _ Ha Hm Hx)).
Qed.

Lemma flag_slot_mod : flag_slot print_flag mod 8 = 0.
Proof. by apply Z.mod_mul. Qed.

Lemma flag_clear hs : Forall in_scratch hs -> clear_of (hs ++ (source_of <$> apps)) (flag_slot print_flag).
Proof.
  intros Hs. apply clear_app. split.
  - apply scratch_clear; [done|apply flag_slot_mod|apply flag_good].
  - apply sources_clear; [apply flag_slot_mod|by left].
Qed.

Lemma loaded_stable hs : Forall in_scratch hs -> stable hi print_flag (loaded hs).
Proof.
  intros Hs. split.
  - intros s s' Hq [H1 H2]. split; [by eapply runtime_quiet|]. by rewrite (qu_mem _ _ Hq).
  - intros s s' Ht [H1 H2]. split; [eapply runtime_touched; [exact Ht|apply flag_good|done]|].
    eapply holding_update; [apply Ht|by apply flag_clear|done].
  - intros s [H1 _]. exists T. apply H1.
Qed.

Lemma loaded_sub hs hs' s : hs' ⊆ hs -> loaded hs s -> loaded hs' s.
Proof.
  intros Hs [H1 H2]. split; [exact H1|]. eapply holding_sub; [|exact H2]. intros h. rewrite !elem_of_app.
  intros [Hh|Hh]; [left; exact (Hs h Hh)|right; exact Hh].
Qed.

Lemma speaks_puts : speaks hi print_flag (puts print_flag).
Proof. apply wp_puts. destruct flag_good as [H4 Hra _]. split_and!; [lia|lia|done|lia]. Qed.

(** A copy to a page of the scratch memory. *)
Lemma wp_copy hs dst src l s0 ls s :
  at_line (loaded hs) s0 ls s -> (src + OFFSET, l) ∈ hs ++ (source_of <$> apps) ->
  dst mod 0x1000 = 0 -> 0x310000 <= dst -> dst + 0x1000 <= 0x900000 ->
  0 <= src -> src + Z.of_nat (length l) <= hi * 4096 -> Z.of_nat (length l) <= 0x1000 ->
  Forall (fun h => h.1 mod 0x1000 = 0 /\ Z.of_nat (length h.2) <= 0x1000 /\ h.1 <> dst + OFFSET) hs ->
  wp (memcpy dst src (length l)) (fun _ s' => at_line (loaded ((dst + OFFSET, l) :: hs)) s0 ls s') s.
Proof.
  intros [[Hr Hh] E] Hin Hm Hd Hd2 Hs0 Hs1 Hl Hf.
  assert ((dst + OFFSET) mod 0x1000 = 0) as Hm' by (unfold OFFSET; rewrite Zplus_mod, Hm; done).
  assert (forall x, dst + OFFSET <= x < dst + OFFSET + Z.of_nat (length l) -> x mod 8 = 0 ->
    scratch x /\ clear_of (hs ++ (source_of <$> apps)) x) as Hx.
  { intros x Hx Hx8. assert (scratch x) as Hsc by (unfold scratch, OFFSET in *; lia). split; [done|].
    apply clear_app. split; [|apply sources_clear; [done|by right]].
    eapply Forall_impl; [exact Hf|]. intros [b l'] (F1 & F2 & F3). cbn [fst snd] in *.
    assert (clear_of [(b, l')] x) as Hc; [|exact (proj1 (Forall_singleton _ _) Hc)].
    apply page_clear; [done|done|done|]. rewrite (in_page (dst + OFFSET) (Z.of_nat (length l)) x) by done.
    pose proof (Z.div_mod b 0x1000 ltac:(done)). pose proof (Z.div_mod (dst + OFFSET) 0x1000 ltac:(done)). lia. }
  assert (dst mod 8 = 0) as H8 by (rewrite <- (Z.mod_mod_divide dst 0x1000 8) by (by exists 512); by rewrite Hm).
  eapply wp_mono; [apply (wp_memcpy_bytes hi ltac:(lia) (loaded hs) dst src l s);
    [|by split|by eapply holding_in|done|lia|lia|done|done|]|].
  - split.
    + intros s1 s2 Hq [H1 H2]. split; [by eapply runtime_quiet|]. by rewrite (qu_mem _ _ Hq).
    + intros s1 s2 x Ht Hxr Hx8 [H1 H2]. destruct (Hx x Hxr Hx8) as [Hsc Hcl].
      split; [eapply runtime_touched; [exact Ht| |exact H1]; intros HT; by apply (or_apart _ _ _ H1 _ HT)|].
      eapply holding_update; [apply Ht|exact Hcl|exact H2].
    + intros s1 [H1 _]. exists T. apply H1.
  - intros x Hxr Hx8. destruct (Hx x Hxr Hx8) as [_ Hcl]. exact (proj1 (Forall_forall _ _) Hcl _ Hin).
  - intros [] s' ([H1 H2] & H3 & _ & E'). split; [|congruence]. split; [done|].
    apply Forall_cons. by split.
Qed.

(** A call at an address an image was copied to. *)
Lemma wp_call_loaded hs called a c c' s0 ls s :
  Forall in_scratch hs -> at_line (loaded hs) s0 ls s -> only_app called a c ->
  (base a + OFFSET, image a) ∈ hs -> 0 <= base a -> run a c = mret c' ->
  wp (call called c) (fun r s' => r = c' /\ at_line (loaded hs) s0 ls s') s.
Proof.
  intros Hs Ha Ho Hin Hb Hrun.
  eapply (wp_call_pure hi print_flag 0 hi OFFSET T (loaded hs));
    [by apply loaded_stable|exact Ha|exact Ho|apply Ha| | |exact Hrun|done].
  - destruct (proj1 (Forall_forall _ _) Hs _ Hin) as [_ H2]. cbn [fst snd] in H2. unfold OFFSET in H2. split; lia.
  - eapply holding_in; [apply Ha|]. apply elem_of_app. by left.
Qed.
End Runtime.

Lemma differ_sym l l' : differ l l' -> differ l' l.
Proof. intros (k & x & y & H1 & H2 & H3). exists k, y, x. by split_and!. Qed.

(** Two applications linked to run at one address, or at addresses a page or more apart. *)
Definition separate (a1 a2 : app) : Prop :=
  (base a1 = base a2 /\ differ (image a1) (image a2)) \/ base a1 + 0x1000 <= base a2 \/ base a2 + 0x1000 <= base a1.

Lemma only_first hi print_flag a1 a2 c :
  app_ok hi print_flag a1 -> app_ok hi print_flag a2 -> separate a1 a2 -> enters a1 c -> only_app [a1; a2] a1 c.
Proof.
  intros O1 O2 Hs He. pose proof (ao_second _ _ _ O1). pose proof (ao_second _ _ _ O2).
  pose proof (ao_size _ _ _ O1). pose proof (ao_size _ _ _ O2).
  split_and!; [by left|done|]. intros a'. rewrite !elem_of_cons, elem_of_nil. intros [->|[->|[]]]; [by left|right].
  destruct Hs as [[E Hd]|Hs]; [right; split; [done|by apply differ_sym]|left]. unfold enters in *. lia.
Qed.

Lemma only_second hi print_flag a1 a2 c :
  app_ok hi print_flag a1 -> app_ok hi print_flag a2 -> separate a1 a2 -> enters a2 c -> only_app [a1; a2] a2 c.
Proof.
  intros O1 O2 Hs He. pose proof (ao_second _ _ _ O1). pose proof (ao_second _ _ _ O2).
  pose proof (ao_size _ _ _ O1). pose proof (ao_size _ _ _ O2).
  split_and!; [by right; left|done|]. intros a'. rewrite !elem_of_cons, elem_of_nil. intros [->|[->|[]]]; [right|by left].
  destruct Hs as [[E Hd]|Hs]; [right; by split|left]. unfold enters in *. lia.
Qed.

Definition lines021 : list string := ["hello!"; "i=1"; "i=2"; "bye!"]%string.
Definition lines022 : list string := ["hello!"; "i=1"; "i=9"; "i=2"; "i=8"; "bye!"]%string.

Section Copied.
Context `{TlbPolicy} `{Channel} (hi : Z) (T : Z -> Prop) (print_flag : Z) (s : core).
Hypothesis flag_good : flag_ok hi T print_flag.
Hypothesis runtime_ok : old_runtime hi T s.

Lemma hi_bounds : 0x900 <= hi <= 0x40000.
Proof. apply runtime_ok. Qed.

Context (im1 im2 : list Z) (src1 src2 off1 off2 : Z).
Hypothesis app1_ok : app_ok hi print_flag (app1 im1 src1 0 off1).
Hypothesis app2_ok : app_ok hi print_flag (app2 im2 src2 0 off2).
Hypothesis images_differ : differ im1 im2.
Hypothesis sources : holding [(src1 + OFFSET, im1); (src2 + OFFSET, im2)] (pmem s).

Let size1 : Z.of_nat (length im1) <= 0x1000 := ao_size _ _ _ app1_ok.
Let size2 : Z.of_nat (length im2) <= 0x1000 := ao_size _ _ _ app2_ok.

(** The applications linked at given addresses. *)
Lemma rebased1 b : app_ok hi print_flag (app1 im1 src1 b off1).
Proof. by destruct app1_ok. Qed.
Lemma rebased2 b : app_ok hi print_flag (app2 im2 src2 b off2).
Proof. by destruct app2_ok. Qed.

Lemma first_run1 b : run (app1 im1 src1 b off1) (mkContext b 0) = mret (mkContext (b + off1) 1).
Proof. unfold run. cbn [next base app1]. by rewrite Z.eqb_refl. Qed.
Lemma second_run1 b : run (app1 im1 src1 b off1) (mkContext (b + off1) 1) = mret (mkContext 0 2).
Proof.
  unfold run. cbn [next base app1]. destruct (ao_second _ _ _ app1_ok) as [H1 _]. cbn [second app1] in H1.
  destruct (Z.eqb_spec (b + off1) b); [lia|]. done.
Qed.
Lemma first_run2 b : run (app2 im2 src2 b off2) (mkContext b 0) = mret (mkContext (b + off2) 9).
Proof. unfold run. cbn [next base app2]. by rewrite Z.eqb_refl. Qed.
Lemma second_run2 b : run (app2 im2 src2 b off2) (mkContext (b + off2) 9) = mret (mkContext 0 8).
Proof.
  unfold run. cbn [next base app2]. destruct (ao_second _ _ _ app2_ok) as [H1 _]. cbn [second app2] in H1.
  destruct (Z.eqb_spec (b + off2) b); [lia|]. done.
Qed.

Lemma main021_ok : wp (main021 print_flag (app1 im1 src1 0x400000 off1)) (passed (old_runtime hi T) s lines021) s.
Proof.
  set (a := app1 im1 src1 0x400000 off1). pose proof hi_bounds as Hhi. pose proof size1 as L1.
  pose proof (ao_source _ _ _ app1_ok) as [S1 S2]. cbn [source image app1] in S1, S2.
  assert (Forall (app_ok hi print_flag) [a]) as Hok by (apply Forall_singleton, rebased1).
  pose proof (speaks_puts hi T print_flag flag_good Hhi) as Hsp.
  assert (Forall in_scratch [(0x80400000, im1)]) as Hsc by (apply Forall_singleton; split; cbn; lia).
  assert (forall c, enters a c -> only_app [a] a c) as Ho.
  { intros c Hc. split_and!; [by left|done|]. intros a'. rewrite list_elem_of_singleton. by left. }
  pose proof (loaded_stable hi T print_flag [a] flag_good Hok) as Hst.
  unfold main021. apply wp_bind.
  eapply wp_mono; [apply (wp_line hi print_flag _ Hsp (loaded hi T [a] []) s []); [by apply Hst|]|].
  { split; [|done]. split; [done|]. by apply Forall_cons in sources as [Hx _]; apply Forall_singleton. }
  intros [] s1 H1. apply wp_bind.
  eapply wp_mono; [eapply (wp_copy hi T print_flag [a] Hhi Hok [] 0x400000 src1 im1);
    [exact H1|by left|done|done|done|done|done|done|done]|].
  intros [] s2 H2.
  eapply (wp_round hi print_flag _ Hsp (loaded hi T [a] _) _ _ "i=1");
    [eapply (wp_call_loaded hi T print_flag [a] flag_good Hhi Hok);
       [exact Hsc|exact H2|by apply Ho; left|by left|done|apply first_run1]|by apply Hst|done|done|].
  intros s3 H3.
  eapply (wp_round hi print_flag _ Hsp (loaded hi T [a] _) _ _ "i=2");
    [eapply (wp_call_loaded hi T print_flag [a] flag_good Hhi Hok);
       [exact Hsc|exact H3|by apply Ho; right|by left|done|apply second_run1]|by apply Hst|done|done|].
  intros s4 H4.
  eapply wp_mono; [eapply (wp_bye hi print_flag _ Hsp (loaded hi T [a] _)); [by apply Hst|exact H4|by vm_compute]|].
  intros r s5 (-> & [HR _] & Hs). by split_and!.
Qed.

(** *** Two applications *)

Section Two.
Context (b1 b2 : Z).
Hypothesis bases : separate (app1 im1 src1 b1 off1) (app2 im2 src2 b2 off2).
Hypothesis bases_ok : 0 <= b1 /\ 0 <= b2.
Let a1 : app := app1 im1 src1 b1 off1.
Let a2 : app := app2 im2 src2 b2 off2.

Abbreviation loaded2 hs := (loaded hi T [a1; a2] hs).

Lemma both_ok : Forall (app_ok hi print_flag) [a1; a2].
Proof. apply Forall_cons. split; [apply rebased1|apply Forall_singleton, rebased2]. Qed.

Lemma loaded2_stable hs : Forall in_scratch hs -> stable hi print_flag (loaded2 hs).
Proof. apply loaded_stable; [exact flag_good|exact both_ok]. Qed.

Lemma wp_hello : wp (puts print_flag (chars "hello!")) (fun _ s' => at_line (loaded2 []) s ["hello!"%string] s') s.
Proof.
  apply (wp_line hi print_flag _ (speaks_puts hi T print_flag flag_good hi_bounds) (loaded2 []) s []).
  - by apply loaded2_stable.
  - split; [|done]. split; [exact runtime_ok|exact sources].
Qed.

(** Images at pages of the scratch memory. *)
Definition placed (hs : list (Z * list Z)) : Prop :=
  Forall (fun h => h.1 mod 0x1000 = 0 /\ 0x80310000 <= h.1 /\ h.1 + 0x1000 <= 0x80900000 /\
                   Z.of_nat (length h.2) <= 0x1000) hs.

Lemma placed_scratch hs : placed hs -> Forall in_scratch hs.
Proof. intros Hp. eapply Forall_impl; [exact Hp|]. intros h (_ & H1 & H2 & H3). split; lia. Qed.

Lemma wp_place hs dst src l s0 ls s1 :
  placed ((dst + OFFSET, l) :: hs) -> at_line (loaded2 hs) s0 ls s1 ->
  (src + OFFSET, l) ∈ hs ++ (source_of <$> [a1; a2]) -> 0 <= src -> src + Z.of_nat (length l) <= hi * 4096 ->
  Forall (fun h => h.1 <> dst + OFFSET) hs ->
  wp (memcpy dst src (length l)) (fun _ s' => at_line (loaded2 ((dst + OFFSET, l) :: hs)) s0 ls s') s1.
Proof.
  intros Hp Ha Hin Hs0 Hs1 Hne. apply Forall_cons in Hp as [(P1 & P2 & P3 & P4) Hp]. cbn [fst snd] in *.
  eapply (wp_copy hi T print_flag [a1; a2] hi_bounds both_ok hs dst src l);
    [exact Ha|exact Hin| |unfold OFFSET in *; lia|unfold OFFSET in *; lia|done|done|done|].
  - replace dst with (dst + OFFSET + - OFFSET) by lia. unfold OFFSET in *. rewrite Zplus_mod, P1. done.
  - apply Forall_forall. intros h Hh. pose proof (proj1 (Forall_forall _ _) Hp h Hh) as (Q1 & _ & _ & Q4).
    split_and!; [done|done|exact (proj1 (Forall_forall _ _) Hne h Hh)].
Qed.

Lemma source1_in hs : (src1 + OFFSET, im1) ∈ hs ++ (source_of <$> [a1; a2]).
Proof. apply elem_of_app. right. by left. Qed.
Lemma source2_in hs : (src2 + OFFSET, im2) ∈ hs ++ (source_of <$> [a1; a2]).
Proof. apply elem_of_app. right. right. by left. Qed.

(** Calls of the two applications. *)
Lemma call_round a hs c c' :
  only_app [a1; a2] a c -> placed hs -> (base a + OFFSET, image a) ∈ hs -> 0 <= base a -> run a c = mret c' ->
  round_ok hi print_flag (loaded2 hs) (loaded2 hs) (call [a1; a2] c) c'.
Proof.
  intros Ho Hp Hin Hb Hrun. split; [by apply loaded2_stable, placed_scratch|]. intros s0 ls s1 Ha.
  eapply (wp_call_loaded hi T print_flag [a1; a2] flag_good hi_bounds both_ok hs [a1; a2] a);
    [by apply placed_scratch|exact Ha|exact Ho|exact Hin|exact Hb|exact Hrun].
Qed.

Lemma only1 c : enters a1 c -> only_app [a1; a2] a1 c.
Proof. by apply (only_first hi print_flag); [apply rebased1|apply rebased2|]. Qed.
Lemma only2 c : enters a2 c -> only_app [a1; a2] a2 c.
Proof. by apply (only_second hi print_flag); [apply rebased1|apply rebased2|]. Qed.

(** The rounds of the two applications while their images are in place. *)
Lemma app1_rounds hs :
  placed hs -> (b1 + OFFSET, im1) ∈ hs ->
  round_ok hi print_flag (loaded2 hs) (loaded2 hs) (call [a1; a2] (mkContext b1 0)) (mkContext (b1 + off1) 1) /\
  round_ok hi print_flag (loaded2 hs) (loaded2 hs) (call [a1; a2] (mkContext (b1 + off1) 1)) (mkContext 0 2).
Proof.
  intros Hp Hin. split; apply (call_round a1); try done; try apply bases_ok.
  - by apply only1; left.
  - apply first_run1.
  - by apply only1; right.
  - apply second_run1.
Qed.

Lemma app2_rounds hs :
  placed hs -> (b2 + OFFSET, im2) ∈ hs ->
  round_ok hi print_flag (loaded2 hs) (loaded2 hs) (call [a1; a2] (mkContext b2 0)) (mkContext (b2 + off2) 9) /\
  round_ok hi print_flag (loaded2 hs) (loaded2 hs) (call [a1; a2] (mkContext (b2 + off2) 9)) (mkContext 0 8).
Proof.
  intros Hp Hin. split; apply (call_round a2); try done; try apply bases_ok.
  - by apply only2; left.
  - apply first_run2.
  - by apply only2; right.
  - apply second_run2.
Qed.
End Two.

Lemma sources_in_friend :
  0 <= src1 /\ src1 + Z.of_nat (length im1) <= hi * 4096 /\ 0 <= src2 /\ src2 + Z.of_nat (length im2) <= hi * 4096.
Proof.
  pose proof (ao_source _ _ _ app1_ok) as [H1 H2]. pose proof (ao_source _ _ _ app2_ok) as [H3 H4]. by split_and!.
Qed.

Lemma main022_ok :
  wp (main022 print_flag (app1 im1 src1 0x400000 off1) (app2 im2 src2 0x500000 off2))
    (passed (old_runtime hi T) s lines022) s.
Proof.
  destruct sources_in_friend as (S1 & S2 & S3 & S4). pose proof size1 as L1. pose proof size2 as L2.
  assert (separate (app1 im1 src1 0x400000 off1) (app2 im2 src2 0x500000 off2)) as Hsep by (right; left; cbn; lia).
  assert (0 <= 0x400000 /\ 0 <= 0x500000) as Hb by done.
  assert (placed [(0x80500000, im2); (0x80400000, im1)]) as Hp.
  { apply Forall_cons. split; [by split_and!|]. apply Forall_singleton. by split_and!. }
  assert (placed [(0x80400000, im1)]) as Hp1 by (apply Forall_singleton; by split_and!).
  unfold main022. apply wp_bind. eapply wp_mono; [apply (wp_hello 0x400000 0x500000)|]. intros [] s1 H1.
  apply wp_bind. eapply wp_mono; [eapply (wp_place 0x400000 0x500000 [] 0x400000 src1 im1);
    [exact Hp1|exact H1|apply source1_in|done|done|done]|]. intros [] s2 H2.
  apply wp_bind. eapply wp_mono; [eapply (wp_place 0x400000 0x500000 _ 0x500000 src2 im2);
    [exact Hp|exact H2|apply source2_in|done|done|by apply Forall_singleton]|]. intros [] s3 H3.
  destruct (app1_rounds 0x400000 0x500000 Hsep Hb _ Hp ltac:(by right; left)) as [R1 R3].
  destruct (app2_rounds 0x400000 0x500000 Hsep Hb _ Hp ltac:(by left)) as [R2 R4].
  eapply wp_mono; [eapply (wp_four_rounds hi print_flag _ (speaks_puts hi T print_flag flag_good hi_bounds));
    [exact H3|exact R1|exact R2|exact R3|exact R4|done..]|].
  intros r s4 (-> & [HR _] & Hs). by split_and!.
Qed.

(** *** 023: the images are copied to 0x400000 and back *)

(** An image at one of the three places. *)
Definition place_ok (h : Z * list Z) : Prop :=
  (h.1 = 0x80400000 \/ h.1 = 0x80500000 \/ h.1 = 0x80600000) /\ (h.2 = im1 \/ h.2 = im2).

Lemma places_placed hs : Forall place_ok hs -> placed hs.
Proof.
  intros Hp. eapply Forall_impl; [exact Hp|]. intros [b l] [Hb Hl]. cbn [fst snd] in *.
  assert (Z.of_nat (length l) <= 0x1000) by (destruct Hl as [->| ->]; [exact size1|exact size2]).
  destruct Hb as [->|[->| ->]]; by split_and!.
Qed.

(** Where the images are between two calls: [l] at [from], the other one at [other]. *)
Definition kept_images : list (Z * list Z) := [(0x80600000, im2); (0x80500000, im1)].

Definition home (from : Z) (l : list Z) (other : Z * list Z) : Prop :=
  (from = 0x500000 /\ l = im1 /\ other = (0x80600000, im2)) \/
  (from = 0x600000 /\ l = im2 /\ other = (0x80500000, im1)).

Abbreviation A1 := (app1 im1 src1 0x400000 off1).
Abbreviation A2 := (app2 im2 src2 0x400000 off2).
Abbreviation loaded3 hs := (loaded hi T [A1; A2] hs).

Lemma home_facts from l other :
  home from l other ->
  (from + OFFSET, l) ∈ kept_images /\ other ∈ kept_images /\ other.1 <> from + OFFSET /\ other.1 <> 0x80400000 /\
  0 <= from /\ from + Z.of_nat (length l) <= hi * 4096 /\ 0x400000 + Z.of_nat (length l) <= hi * 4096 /\
  Forall place_ok [(from + OFFSET, l); (0x80400000, l); other] /\
  kept_images ⊆ [(from + OFFSET, l); (0x80400000, l); other].
Proof.
  pose proof hi_bounds as Hhi. pose proof size1 as L1. pose proof size2 as L2. unfold kept_images, place_ok.
  intros [(-> & -> & ->)|(-> & -> & ->)]; (split_and!; [| |done|done|done|lia|lia| |]).
  all: try first [by left|by right; left].
  all: try (intros h; rewrite !elem_of_cons, elem_of_nil; tauto).
  all: repeat (apply Forall_cons; split; [cbn; tauto|]); by apply Forall_nil.
Qed.

Lemma swapped_round a from other c c' :
  home from (image a) other ->
  (forall hs, placed hs -> (0x80400000, image a) ∈ hs ->
     round_ok hi print_flag (loaded3 hs) (loaded3 hs) (call [A1; A2] c) c') ->
  round_ok hi print_flag (loaded3 kept_images) (loaded3 kept_images) (swapped_call A1 A2 from a c) c'.
Proof.
  intros Hh Hcall. destruct (home_facts _ _ _ Hh) as (Hin & Hin' & N1 & N2 & F0 & F1 & F2 & Hpl & Hsub).
  assert (Forall place_ok kept_images) as Hk.
  { unfold kept_images, place_ok. repeat (apply Forall_cons; split; [cbn; tauto|]). by apply Forall_nil. }
  apply Forall_cons in Hpl as [Hpf Hpl]. pose proof Hpl as [Hp4 _]%Forall_cons.
  assert (placed ((0x80400000, image a) :: kept_images)) as Hp1 by (apply places_placed, Forall_cons; by split).
  split; [by apply (loaded2_stable 0x400000 0x400000), placed_scratch, places_placed|].
  intros s0 ls s1 H1. unfold swapped_call. apply wp_bind.
  eapply wp_mono; [eapply (wp_place 0x400000 0x400000 kept_images 0x400000 from);
    [exact Hp1|exact H1|apply elem_of_app; by left|done|done|]|].
  { unfold kept_images. apply Forall_cons; split; [done|]. by apply Forall_singleton. }
  intros [] s2 H2. apply wp_bind. destruct (Hcall _ Hp1 ltac:(by left)) as [_ Hc].
  eapply wp_mono; [by apply Hc|]. intros r s3 [-> [H3 E3]]. apply wp_bind.
  eapply wp_mono; [eapply (wp_place 0x400000 0x400000 [(0x80400000, image a); other] from 0x400000);
    [by apply places_placed, Forall_cons|split; [|exact E3]|by apply elem_of_app; left; left|done|done|]|].
  { eapply loaded_sub; [|exact H3]. intros h. rewrite !elem_of_cons, elem_of_nil. intros [->|[->|[]]]; [by left|].
    right. exact Hin'. }
  { apply Forall_cons; split; [|by apply Forall_singleton]. cbn. destruct Hh as [(-> & _)|(-> & _)]; done. }
  intros [] s4 [H4 E4]. apply wp_ret. split; [done|]. split; [|exact E4]. by eapply loaded_sub.
Qed.

Lemma main023_ok : wp (main023 print_flag A1 A2) (passed (old_runtime hi T) s lines022) s.
Proof.
  destruct sources_in_friend as (S1 & S2 & S3 & S4).
  assert (separate A1 A2) as Hsep by (left; by split). assert (0 <= 0x400000 /\ 0 <= 0x400000) as Hb by done.
  assert (placed kept_images /\ placed [(0x80500000, im1)]) as [Hp Hp1].
  { split; apply places_placed; unfold kept_images, place_ok;
      repeat (apply Forall_cons; split; [cbn; tauto|]); by apply Forall_nil. }
  unfold main023. apply wp_bind. eapply wp_mono; [apply (wp_hello 0x400000 0x400000)|]. intros [] s1 H1.
  apply wp_bind. eapply wp_mono; [eapply (wp_place 0x400000 0x400000 [] 0x500000 src1 im1);
    [exact Hp1|exact H1|apply source1_in|done|done|done]|]. intros [] s2 H2.
  apply wp_bind. eapply wp_mono; [eapply (wp_place 0x400000 0x400000 _ 0x600000 src2 im2);
    [exact Hp|exact H2|apply source2_in|done|done|by apply Forall_singleton]|]. intros [] s3 H3.
  assert (home 0x500000 im1 (0x80600000, im2) /\ home 0x600000 im2 (0x80500000, im1)) as [Ho1 Ho2].
  { split; [by left|by right]. }
  eapply wp_mono; [eapply (wp_four_rounds hi print_flag _ (speaks_puts hi T print_flag flag_good hi_bounds)
    _ _ _ _ _ _ _ _ _ (mkContext (0x400000 + off1) 1) (mkContext (0x400000 + off2) 9) (mkContext 0 2) (mkContext 0 8));
    [exact H3| | | | |done..]|].
  - apply (swapped_round A1 _ _ _ (mkContext (0x400000 + off1) 1) Ho1). intros hs Hs Hi.
    by apply (app1_rounds 0x400000 0x400000 Hsep Hb).
  - apply (swapped_round A2 _ _ _ (mkContext (0x400000 + off2) 9) Ho2). intros hs Hs Hi.
    by apply (app2_rounds 0x400000 0x400000 Hsep Hb).
  - apply (swapped_round A1 _ _ _ (mkContext 0 2) Ho1). intros hs Hs Hi.
    by apply (app1_rounds 0x400000 0x400000 Hsep Hb).
  - apply (swapped_round A2 _ _ _ (mkContext 0 8) Ho2). intros hs Hs Hi.
    by apply (app2_rounds 0x400000 0x400000 Hsep Hb).
  - intros r s4 (-> & [HR _] & Hs). by split_and!.
Qed.
End Copied.

(** C35: on the old runtime, paging/021, 022 and 023 copy applications to the address they
    are linked at and call their functions through the [Context] they pass around: 021
    one application, 022 two at addresses of their own, 023 two that are linked at one
    address, copying the image there before a call and back after it.  Each call enters
    the function of the application that is meant, though two images share an address;
    every value the program compares is the expected one, so that it returns 0 and the
    host prints the values of [i] in this order.  (The images differ, fit a page and are
    linked into the friend outside the memory the programs use.) *)
Theorem old_apps_copied `{TlbPolicy} `{Channel} (hi : Z) (T : Z -> Prop) (print_flag : Z) (s : core)
    (im1 im2 : list Z) (src1 src2 off1 off2 : Z)
    (Hf : flag_ok hi T print_flag) (Hr : old_runtime hi T s)
    (O1 : app_ok hi print_flag (app1 im1 src1 0 off1)) (O2 : app_ok hi print_flag (app2 im2 src2 0 off2))
    (Hd : differ im1 im2)
    (Hs : holding [(src1 + OFFSET, im1); (src2 + OFFSET, im2)] (pmem s)) :
  wp (main021 print_flag (app1 im1 src1 0x400000 off1)) (passed (old_runtime hi T) s lines021) s /\
  wp (main022 print_flag (app1 im1 src1 0x400000 off1) (app2 im2 src2 0x500000 off2))
    (passed (old_runtime hi T) s lines022) s /\
  wp (main023 print_flag (app1 im1 src1 0x400000 off1) (app2 im2 src2 0x400000 off2))
    (passed (old_runtime hi T) s lines022) s.
Proof.
  split_and!.
  - by eapply main021_ok.
  - by eapply main022_ok.
  - by eapply main023_ok.
Qed.

(** ** A friend that is linked with two applications *)

Lemma word1_at m x b : 0 <= x < 2 ^ 64 -> m !! x = Some b -> 0 <= b < 256 -> word 1 m x = Some b.
Proof.
  intros Hx E Hb. unfold word. cbn [read_bytes]. rewrite u64_small, E by lia. cbn.
  rewrite Z.add_0_r. f_equal. by apply Z.mod_small.
Qed.

Lemma region_image m a l :
  0x80004000 <= a -> a + Z.of_nat (length l) <= 0x80900000 -> Forall (fun b => 0 <= b < 256) l ->
  (forall x, ~ (0x80001000 <= x < 0x80004000) -> m !! x = rt_region !! x) ->
  (forall i b, l !! i = Some b -> rt_region !! (a + Z.of_nat i) = Some b) -> image_at m a l.
Proof.
  intros Ha Hn Hb Hm Hi. split_and!; [lia|lia|]. intros k b Hk. pose proof (lookup_lt_Some _ _ _ Hk).
  apply word1_at; [lia|rewrite Hm by lia; by apply Hi|]. rewrite Forall_lookup in Hb. by apply (Hb k).
Qed.

Lemma rt_sources : holding [(0x8000 + OFFSET, rt_image1); (0x9000 + OFFSET, rt_image2)] rt_memory.
Proof.
  destruct rt_region_images as [R1 R2]. apply Forall_cons; split; [|apply Forall_singleton]; cbn [fst snd].
  - apply region_image; [done|done|by repeat constructor|exact rt_byte|exact R1].
  - apply region_image; [done|done|by repeat constructor|exact rt_byte|exact R2].
Qed.

Lemma rt_apps_ok b :
  app_ok 0x900 rt_flag (app1 rt_image1 0x8000 b 1) /\ app_ok 0x900 rt_flag (app2 rt_image2 0x9000 b 1).
Proof.
  split; (split; [done|by left| |done|done]); apply Forall_singleton; cbn [fst snd source image app1 app2];
    change (flag_slot rt_flag) with 0x80005000; left; unfold OFFSET; lia.
Qed.

Lemma rt_images_differ : differ rt_image1 rt_image2.
Proof. by exists 0%nat, 1, 9. Qed.
End OldApps.

Lemma old_apps_copied_witness :
  flag_ok 0x900 rt_slots rt_flag /\ old_runtime 0x900 rt_slots rt_core /\
  wp (OldApps.main023 (H := keep_all) (H0 := console_channel) rt_flag
        (OldApps.app1 rt_image1 0x8000 0x400000 1) (OldApps.app2 rt_image2 0x9000 0x400000 1))
    (OldApps.passed (old_runtime 0x900 rt_slots) rt_core OldApps.lines022) rt_core.
Proof.
  split; [exact rt_flag_ok|split; [exact rt_old_runtime|]].
  exact (proj2 (proj2 (OldApps.old_apps_copied (H := keep_all) (H0 := console_channel) 0x900 rt_slots rt_flag rt_core
    rt_image1 rt_image2 0x8000 0x9000 1 1 rt_flag_ok rt_old_runtime
    (proj1 (OldApps.rt_apps_ok 0)) (proj2 (OldApps.rt_apps_ok 0)) OldApps.rt_images_differ OldApps.rt_sources))).
Defined.
