(* ===== verification/OldAppTables.v ===== *)
(** * OldAppTables: the programs of sample_old/paging that run applications behind
    page tables

    [OldApps] has the definitions; here are the rules for the programs 024, 041 and 042:
    applications at 0xC0000000, behind an entry that is changed and invalidated (024), or
    behind tables of their own that the program switches between (041), with a page that
    is mapped for the time of a call (042). *)

From S2P Require Import Prelude Memory Paging VirtMem TutorialPaging OldRuntime SampleOld OldApps.
Import VirtMem OldRuntime OldApps.

Module OldAppTables.

(** ** Tables for an application

    The virtual addresses of the root table, the PDPT, the directory of the low
    gigabyte, and directory and page table for 0xC0000000. *)
Record tabs := mkTabs { t_root : Z; t_p3 : Z; t_low : Z; t_pd : Z; t_pt : Z }.

(** The slots of the tables above the page table. *)
Definition upper_slot (t : tabs) (a : Z) : Prop :=
  low_slots (t_root t + OFFSET) (t_p3 t + OFFSET) (t_low t + OFFSET) a \/
  a = t_p3 t + OFFSET + 24 \/ a = t_pd t + OFFSET.

Definition pte_addr (t : tabs) (i : Z) : Z := t_pt t + OFFSET + 8 * i.

Section Tables.
(** [size] bytes of table area; [fl] are the flags of the entries of the low gigabyte. *)
Context (hi size fl : Z).
Hypothesis size_ok : 0 <= size <= 0x9000 /\ size mod 4096 = 0.
Hypothesis hi_ok : 0x900 <= hi <= 0x40000.
Hypothesis fl_ok : fl = 0x87 \/ fl = 0x187.

Definition in_area (a : Z) : Prop := 0x80310000 <= a < 0x80310000 + size.

Record tabs_ok (t : tabs) : Prop := {
  to_own : own_table size (t_root t) /\ own_table size (t_p3 t) /\ own_table size (t_low t) /\
           own_table size (t_pd t) /\ own_table size (t_pt t);
  to_free : forall i, 0 <= i < 512 -> ~ upper_slot t (pte_addr t i)
}.

(** The words [g] link the tables. *)
Record wired (t : tabs) (g : Z -> Z) : Prop := {
  wd_root : g (t_root t + OFFSET) = t_p3 t + OFFSET + 7;
  wd_p3 : g (t_p3 t + OFFSET) = t_low t + OFFSET + 7;
  wd_high : g (t_p3 t + OFFSET + 24) = t_pd t + OFFSET + 7;
  wd_pd : g (t_pd t + OFFSET) = t_pt t + OFFSET + 7;
  wd_low : forall i, 0 <= i < 512 -> g (t_low t + OFFSET + 8 * i) = 0x80000000 + 0x200000 * i + fl
}.

Lemma wired_upd t g a v : wired t g -> ~ upper_slot t a -> wired t (upd g a v).
Proof.
  intros [H1 H2 H3 H4 H5] Ha. unfold upper_slot, low_slots in Ha.
  split; [..|intros i Hi]; (rewrite upd_ne by lia); auto.
Qed.

Lemma own_phys p : own_table size p -> page (p + OFFSET) /\ in_area (p + OFFSET) /\ in_area (p + OFFSET + 4088).
Proof.
  intros ((H0 & Hm & Hb) & Hlo & Hhi). unfold in_area, OFFSET. split; [|lia].
  split_and!; [lia| |lia]. rewrite Zplus_mod, Hm. done.
Qed.

Lemma own_slot p i : own_table size p -> 0 <= i < 512 -> slot (p + OFFSET + 8 * i) /\ in_area (p + OFFSET + 8 * i).
Proof.
  intros Hp Hi. destruct (own_phys p Hp) as (Hpg & H1 & H2). split; [by apply page_slot|]. unfold in_area in *. lia.
Qed.

(** The core runs on the tables [t], whose words are [g]. *)
Record on (t : tabs) (g : Z -> Z) (s : core) : Prop := {
  on_tabs : tabs_ok t;
  on_cr3 : cr3 s = t_root t + OFFSET;
  on_window : window s 0 hi OFFSET (low_slots (t_root t + OFFSET) (t_p3 t + OFFSET) (t_low t + OFFSET));
  on_words : table_words size s g;
  on_wired : wired t g
}.

Lemma upper_in_area t a : tabs_ok t -> upper_slot t a -> in_area a.
Proof.
  intros [(O1 & O2 & O3 & O4 & _) _] Ha.
  destruct (own_phys _ O1) as (_ & A1 & _), (own_phys _ O2) as (_ & A2 & B2), (own_phys _ O3) as (_ & A3 & B3),
    (own_phys _ O4) as (_ & A4 & _).
  destruct O3 as (_ & _ & O3). unfold upper_slot, low_slots, in_area, OFFSET in *. lia.
Qed.

Lemma on_area t g s : on t g s -> area s high (t_p3 t + OFFSET) (t_pd t + OFFSET) (t_pt t + OFFSET).
Proof.
  intros [[(O1 & O2 & O3 & O4 & O5) _] Hc _ Hw [H1 _ H3 H4 _]].
  destruct (own_phys _ O1) as (P1 & _), (own_phys _ O2) as (P2 & _), (own_phys _ O4) as (P4 & _), (own_phys _ O5) as (P5 & _).
  assert (forall p i, own_table size p -> 0 <= i < 512 -> read64 (pmem s) (p + OFFSET + 8 * i) = Some (g (p + OFFSET + 8 * i))) as Hr.
  { intros p i Hp Hi. destruct (own_slot p i Hp Hi) as [Hs Ha]. by apply Hw. }
  split; [done|done|..]; rewrite ?(root_base s _ P1 Hc); unfold high.
  - change (pml4_index (0xC0000 * 4096)) with 0. rewrite Hr by done. by rewrite Z.mul_0_r, Z.add_0_r, H1.
  - change (pdpt_index (0xC0000 * 4096)) with 3. rewrite Hr by done. change (8 * 3) with 24. by rewrite H3.
  - change (pd_index (0xC0000 * 4096)) with 0. rewrite Hr by done. by rewrite Z.mul_0_r, Z.add_0_r, H4.
Qed.

Lemma on_current t g s i :
  on t g s -> 0 <= i < 512 -> current s (high + i) = pte_entry (pge s) (Some (g (pte_addr t i))).
Proof.
  intros Ho Hi. destruct (area_walk _ _ _ _ _ i (on_area t g s Ho) Hi) as [-> _].
  destruct (own_slot (t_pt t) i) as [Hs Ha]; [apply Ho|done|]. by rewrite (on_words _ _ _ Ho).
Qed.

Lemma on_slots t g s i a :
  on t g s -> 0 <= i < 512 -> a ∈ page_slots s (high + i) -> upper_slot t a \/ a = pte_addr t i.
Proof.
  intros Ho Hi. destruct (area_walk _ _ _ _ _ i (on_area t g s Ho) Hi) as [_ ->].
  destruct (own_phys (t_root t)) as (P1 & _); [apply Ho|].
  rewrite (high_slots _ _ _ P1 s (on_cr3 _ _ _ Ho)). rewrite elem_of_app, !elem_of_cons, elem_of_nil.
  unfold upper_slot, low_slots, pte_addr. tauto.
Qed.

Lemma on_quiet t g s s' : quiet s s' -> on t g s -> on t g s'.
Proof.
  intros Hq [H1 H2 H3 H4 H5]. split; [done|by rewrite (sr_cr3 _ _ (qu_regs _ _ Hq))|by eapply window_quiet| |done].
  intros a. rewrite (qu_mem _ _ Hq). apply H4.
Qed.

Lemma on_touched t g s s' a : touched s s' a -> ~ in_area a -> on t g s -> on t g s'.
Proof.
  intros Ht Ha [H1 H2 H3 H4 H5]. split; [done|by rewrite (sr_cr3 _ _ (st_regs _ _ _ Ht))| | |done].
  - eapply window_stored; [exact Ht| |exact H3]. intros HT. apply Ha, (upper_in_area t); [done|by left].
  - intros b Hb Hr. rewrite (stored_read _ _ _ _ Ht); [by apply H4|done|]. intros ->. by apply Ha.
Qed.

Lemma on_stored t g s s' i v :
  stored s s' (pte_addr t i) v -> 0 <= i < 512 -> on t g s -> on t (upd g (pte_addr t i) v) s'.
Proof.
  intros Hst Hi [H1 H2 H3 H4 H5]. pose proof (to_free _ H1 i Hi) as Hf.
  split; [done|by rewrite (sr_cr3 _ _ (st_regs _ _ _ Hst))| | |by apply wired_upd].
  - eapply window_stored; [exact Hst| |exact H3]. intros HT. apply Hf. by left.
  - intros b Hb Hr. unfold upd. case_decide as Hd; [subst; apply Hst|].
    rewrite (stored_read _ _ _ _ Hst) by done. by apply H4.
Qed.

Lemma on_ext t g g' s : (forall a, in_area a -> g' a = g a) -> on t g s -> on t g' s.
Proof.
  intros Hg [H1 H2 H3 H4 [W1 W2 W3 W4 W5]]. destruct (H1) as [(O1 & O2 & O3 & O4 & _) _].
  assert (forall a, upper_slot t a -> g' a = g a) as Hu by (intros a Ha; by apply Hg, (upper_in_area t)).
  split; [done|done|done| |].
  - intros a Ha Hr. rewrite Hg by done. by apply H4.
  - split; [..|intros i Hi]; (rewrite Hu; [auto|unfold upper_slot, low_slots; lia]).
Qed.

(** ** The first two pages at 0xC0000000 and the cache *)

(** The cache holds no global translation of the page. *)
Definition nonglobal (s : core) (p : Z) : Prop := forall e, tlb s !! p = Some e -> te_global e = false.

(** An entry of a page table: not present, or a frame without the global bit. *)
Definition plain (x : Z) : Prop := x = 0 \/ exists b, page b /\ x = b + 7.

Lemma plain_entry gp b : page b -> pte_entry gp (Some (b + 7)) = Some (mkTlb b true false).
Proof.
  intros Hb. destruct (table_entry_flags b 7 Hb eq_refl) as (B1 & B2 & B3 & _). unfold pte_entry.
  rewrite B2, B1, B3. destruct Hb as (H0 & Hm & _). rewrite (flag_bit 12 b 7 8) by (done || lia).
  by rewrite andb_false_r.
Qed.

Lemma plain_global gp x e : plain x -> pte_entry gp (Some x) = Some e -> te_global e = false.
Proof. intros [->|(b & Hb & ->)]; [done|]. rewrite plain_entry by done. by intros [= <-]. Qed.

(** The program on the tables [t], with the images [hs] in memory: the cache agrees with
    the first page of 0xC0000000, and with the second one if [fresh]. *)
Record live (t : tabs) (g : Z -> Z) (hs : list (Z * list Z)) (fresh : bool) (s : core) : Prop := {
  lv_on : on t g s;
  lv_pages : forall i, i = 0 \/ i = 1 -> nonglobal s (high + i) /\ plain (g (pte_addr t i));
  lv_first : coherent s (high + 0);
  lv_second : fresh = true -> coherent s (high + 1);
  lv_hold : holding hs (pmem s)
}.

Lemma nonglobal_from t g s s' i :
  on t g s -> i = 0 \/ i = 1 -> plain (g (pte_addr t i)) -> tlb_from s s' ->
  nonglobal s (high + i) -> nonglobal s' (high + i).
Proof.
  intros Ho Hi Hp Hf Hn e He. destruct (Hf _ _ He) as [E|E]; [by apply Hn|].
  rewrite (on_current t g s i Ho) in E by lia. by eapply plain_global.
Qed.

Lemma live_quiet t g hs fr s s' : quiet s s' -> live t g hs fr s -> live t g hs fr s'.
Proof.
  intros Hq [Ho Hp H0 H1 Hh].
  assert (forall i, coherent s (high + i) -> coherent s' (high + i)) as Hc by (intros i; by apply quiet_current).
  split; [by eapply on_quiet| |by apply Hc|auto|by rewrite (qu_mem _ _ Hq)].
  intros i Hi. destruct (Hp i Hi) as [Hn Hpl]. split; [|done]. eapply nonglobal_from; [done|done|done|apply Hq|done].
Qed.

Lemma live_touched t g hs fr s s' a :
  touched s s' a -> ~ in_area a -> clear_of hs a -> live t g hs fr s -> live t g hs fr s'.
Proof.
  intros Ht Ha Hcl [Ho Hp H0 H1 Hh].
  assert (forall i, i = 0 \/ i = 1 -> coherent s (high + i) -> coherent s' (high + i)) as Hc.
  { intros i Hi. apply (stored_coherent _ _ _ _ Ht). intros Hin.
    destruct (on_slots t g s i a Ho ltac:(lia) Hin) as [Hu| ->]; apply Ha.
    - apply (upper_in_area t); [apply Ho|done].
    - apply own_slot; [apply Ho|lia]. }
  split; [by eapply on_touched| |apply Hc; [by left|done]|auto|].
  - intros i Hi. destruct (Hp i Hi) as [Hn Hpl]. split; [|done]. eapply nonglobal_from; [done|done|done|apply Ht|done].
  - eapply holding_update; [apply Ht|done|done].
Qed.

Lemma live_weaken t g hs hs' fr s : hs' ⊆ hs -> live t g hs fr s -> live t g hs' fr s.
Proof. intros Hs [Ho Hp H0 H1 Hh]. split; [done|done|done|done|]. by eapply holding_sub. Qed.

Lemma live_hold t g hs h fr s : live t g hs fr s -> image_at (pmem s) h.1 h.2 -> live t g (h :: hs) fr s.
Proof. intros [Ho Hp H0 H1 Hh] Hi. split; [done|done|done|done|]. apply Forall_cons. by split. Qed.

Lemma live_ext t g g' hs fr s : (forall a, in_area a -> g' a = g a) -> live t g hs fr s -> live t g' hs fr s.
Proof.
  intros Hg [Ho Hp H0 H1 Hh]. split; [by eapply on_ext| |done|done|done]. intros i Hi. rewrite Hg; [by apply Hp|].
  apply own_slot; [apply Ho|lia].
Qed.

Lemma live_stable print_flag t g hs fr :
  ~ scratch (flag_slot print_flag) -> clear_of hs (flag_slot print_flag) ->
  stable hi print_flag (live t g hs fr).
Proof.
  intros Hs Hc. split.
  - intros s s'. apply live_quiet.
  - intros s s' Ht. apply (live_touched t g hs fr s s' _ Ht); [|done]. unfold in_area, scratch in *. lia.
  - intros s Hl. eexists. apply Hl.
Qed.

(** *** The write to CR3 *)

Section Rules.
Context `{TlbPolicy}.

Lemma wp_enter t g hs T s :
  tabs_ok t -> wired t g -> window s 0 hi OFFSET T -> table_words size s g ->
  (forall i, i = 0 \/ i = 1 -> nonglobal s (high + i) /\ plain (g (pte_addr t i))) -> holding hs (pmem s) ->
  wp (write_cr3 (t_root t + OFFSET)) (fun _ s' => live t g hs true s' /\ console s' = console s) s.
Proof.
  intros Ht Hw Hwin Hwo Hp Hh. destruct (to_own _ Ht) as (O1 & O2 & O3 & _).
  destruct (own_phys _ O1) as (P1 & _), (own_phys _ O2) as (P2 & _), (own_phys _ O3) as (P3 & _).
  assert (forall p i, own_table size p -> 0 <= i < 512 -> read64 (pmem s) (p + OFFSET + 8 * i) = Some (g (p + OFFSET + 8 * i))) as Hr.
  { intros p i Hp' Hi. destruct (own_slot p i Hp' Hi) as [Hs Ha]. by apply Hwo. }
  eapply wp_mono; [eapply (wp_switch (t_root t + OFFSET) (t_p3 t + OFFSET) (t_low t + OFFSET) fl ltac:(done) hi T s); [lia|done|]|].
  - split.
    + pose proof (Hr _ 0 O1 ltac:(lia)) as E. by rewrite Z.mul_0_r, Z.add_0_r, (wd_root _ _ Hw) in E.
    + pose proof (Hr _ 0 O2 ltac:(lia)) as E. by rewrite Z.mul_0_r, Z.add_0_r, (wd_p3 _ _ Hw) in E.
    + intros i Hi. by rewrite (Hr _ i O3 Hi), (wd_low _ _ Hw i Hi).
  - intros [] s' [Hw' Hm Hc _ Htlb Hco]. split; [|done].
    assert (forall i, i = 0 \/ i = 1 -> tlb s' !! (high + i) = None) as Hnone.
    { intros i Hi. destruct (tlb s' !! (high + i)) as [e|] eqn:E; [|done]. apply Htlb in E as [E Eg].
      destruct (Hp i Hi) as [Hn _]. specialize (Hn e E). congruence. }
    split.
    + split; [done|done|done| |done]. intros a. rewrite Hm. apply Hwo.
    + intros i Hi. destruct (Hp i Hi) as [_ Hpl]. split; [|done]. intros e He. by rewrite Hnone in He.
    + intros e He. rewrite Hnone in He; [done|by left].
    + intros _ e He. rewrite Hnone in He; [done|by right].
    + by rewrite Hm.
Qed.

Lemma wp_live_switch t t' g hs fr s :
  live t g hs fr s -> tabs_ok t' -> wired t' g ->
  (forall i, i = 0 \/ i = 1 -> plain (g (pte_addr t' i))) ->
  wp (write_cr3 (t_root t' + OFFSET)) (fun _ s' => live t' g hs true s' /\ console s' = console s) s.
Proof.
  intros [Ho Hp _ _ Hh] Ht Hw Hpl. eapply wp_enter; [done|done|apply Ho|apply Ho| |done].
  intros i Hi. split; [apply (Hp i Hi)|auto].
Qed.

(** *** An entry is changed, and 0xC0000000 invalidated *)

Lemma wp_set_entry t g hs (fr fr' : bool) i v s :
  live t g hs fr s -> i = 0 \/ i = 1 -> plain v -> 0 <= v < 2 ^ 64 -> clear_of hs (pte_addr t i) ->
  (fr' = true -> fr = true /\ (i = 0 \/ g (pte_addr t i) = 0)) ->
  wp (put_entry (t_pt t) i v;; invlpg 0xC0000000)
    (fun _ s' => live t (upd g (pte_addr t i) v) hs fr' s' /\ console s' = console s) s.
Proof.
  intros Hl Hi Hv Hvb Hcl Hfr. pose proof Hl as [Ho Hp H0 H1 Hh].
  assert (own_table size (t_pt t)) as Hown by apply (to_own _ (on_tabs _ _ _ Ho)).
  destruct (own_slot (t_pt t) i Hown ltac:(lia)) as [Hsl Hin]. fold (pte_addr t i) in Hsl, Hin.
  destruct (own_table_slot size size_ok (t_pt t) i Hown ltac:(lia)) as (_ & H8 & _).
  pose proof Hown as (_ & Hlo & Hhi). apply wp_bind. unfold put_entry.
  eapply wp_mono; [eapply wp_store64_window; [apply Ho|lia|exact H8| |exact Hvb]|].
  { by replace (t_pt t + 8 * i + OFFSET) with (pte_addr t i) by (unfold pte_addr; lia). }
  intros [] s1 Hst. replace (t_pt t + 8 * i + OFFSET) with (pte_addr t i) in Hst by (unfold pte_addr; lia).
  pose proof (on_stored _ _ _ _ _ _ Hst ltac:(lia) Ho) as Ho1.
  assert (forall j, j = 0 \/ j = 1 -> nonglobal s1 (high + j)) as Hn1.
  { intros j Hj. destruct (Hp j Hj) as [Hn Hpl]. eapply nonglobal_from; [exact Ho|done|done|apply Hst|done]. }
  assert (forall j, j = 0 \/ j = 1 -> j <> i \/ g (pte_addr t i) = 0 -> coherent s (high + j) -> coherent s1 (high + j)) as Hc1.
  { intros j Hj [Hne|Habs].
    - apply (stored_coherent _ _ _ _ Hst). intros Hs.
      destruct (on_slots t g s j _ Ho ltac:(lia) Hs) as [Hu|E]; [|unfold pte_addr in E; lia].
      revert Hu. apply to_free; [apply Ho|lia].
    - apply (stored_coherent_absent _ _ _ 0 _ Hst); [|done]. rewrite (on_words _ _ _ Ho) by done. by rewrite Habs. }
  unfold wp, invlpg. destruct (quiet_invlpg s1 0xC0000000) as [Hq Hcz].
  change (0xC0000000 / 4096) with (high + 0) in *. set (s2 := set_tlb _ s1) in *. split; [|apply Hst]. split.
  - by eapply on_quiet.
  - intros j Hj. split.
    + intros e He. cbn in He. apply lookup_delete_Some in He as [_ He]. by apply (Hn1 j Hj).
    + unfold upd. case_decide; [done|by apply Hp].
  - exact Hcz.
  - intros E. destruct (Hfr E) as [Ef Hor]. apply (quiet_current _ _ _ Hq). apply Hc1; [by right| |auto].
    destruct Hor as [->|Ha]; [by left|by right].
  - cbn. eapply holding_update; [apply Hst|done|done].
Qed.

(** *** Calls *)

Lemma live_usable t g hs fr i b s :
  live t g hs fr s -> i = 0 \/ i = 1 /\ fr = true -> g (pte_addr t i) = b + 7 -> page b ->
  0x80000000 <= b < 0x80900000 -> usable s (high + i) b.
Proof.
  intros [Ho _ H0 H1 _] Hi E Hb Hr. destruct Hb as (B0 & Bm & Bb). split.
  - destruct Hi as [->|[-> ->]]; auto.
  - exists false. rewrite (on_current t g s i Ho) by lia. rewrite E. by apply plain_entry.
  - eapply window_frame; [|apply Ho|done|done]. lia.
  - done.
Qed.

Lemma wp_call_live t g hs fr b apps a c Q s :
  live t g hs fr s -> g (pte_addr t 0) = b + 7 -> page b -> 0x80000000 <= b < 0x80900000 ->
  base a = 0xC0000000 -> Z.of_nat (length (image a)) <= 0x1000 -> (b, image a) ∈ hs -> only_app apps a c ->
  (forall s', live t g hs fr s' -> console s' = console s -> wp (run a c) Q s') -> wp (call apps c) Q s.
Proof.
  intros Hl E Hb Hr Eb Hn Hin Ho HQ.
  destruct (live_usable t g hs fr 0 b s Hl ltac:(by left) E Hb Hr) as [Hc Hm Hme _].
  eapply (wp_call_app _ _ _ _ _ a); [exact (page_window s (high + 0) b Hc Hm Hme)| | |exact Ho|].
  - rewrite Eb. unfold readable, high. lia.
  - rewrite Eb. replace (0xC0000000 + (b - (high + 0) * 4096)) with b by (unfold high; lia).
    eapply holding_in; [apply Hl|exact Hin].
  - intros s' [Hq Ec]. apply HQ; [by eapply live_quiet|done].
Qed.

(** [fill_buf] stores its ten bytes through the second page. *)
Definition buf_bytes : list Z := [0; 1; 2; 3; 4; 5; 6; 7; 8; 9].

Lemma buf_at k b : buf_bytes !! k = Some b -> b = Z.of_nat k /\ (k < 10)%nat.
Proof.
  intros Hk. pose proof (lookup_lt_Some _ _ _ Hk) as Hl. cbn in Hl. split; [|done].
  do 10 (destruct k as [|k]; [by injection Hk as <-|]). lia.
Qed.

Lemma wp_fill_buf t g hs s :
  live t g hs true s -> g (pte_addr t 1) = 0x80700000 + 7 ->
  (forall a, 0x80700000 <= a < 0x80700010 -> a mod 8 = 0 -> clear_of hs a) ->
  wp fill_buf (fun _ s' => live t g ((0x80700000, buf_bytes) :: hs) true s' /\ console s' = console s) s.
Proof.
  intros Hl E Hcl. unfold fill_buf.
  eapply wp_mono; [apply (wp_for (fun i s' => live t g hs true s' /\ console s' = console s /\
    forall k, 0 <= k < i -> word 1 (pmem s') (0x80700000 + k) = Some k))|].
  - intros i s1 Hi (H1 & E1 & Hw1). assert (page 0x80700000) as Hp by (by vm_compute).
    pose proof (live_usable t g hs true 1 0x80700000 s1 H1 ltac:(by right) E Hp ltac:(lia)) as Hu.
    pose proof (wp_store_page 1 s1 (high + 1) 0x80700000 i i Hu ltac:(by vm_compute) ltac:(lia) ltac:(lia) ltac:(by exists 8)
      ltac:(by rewrite Z.mod_1_r)) as Hst.
    replace ((high + 1) * 4096 + i) with (0xC0001000 + i) in Hst by (unfold high; lia).
    eapply wp_mono; [exact Hst|]. intros [] s2 [Ht Hw Ho].
    pose proof (Z.div_mod (0x80700000 + i) 8 ltac:(done)). pose proof (Z.mod_pos_bound (0x80700000 + i) 8 ltac:(done)).
    assert (0x80700000 / 8 <= (0x80700000 + i) / 8) by (apply Z.div_le_mono; lia).
    change (0x80700000 / 8) with 0x100E0000 in *.
    split_and!.
    + eapply live_touched; [exact Ht| |apply Hcl; [lia|by apply Z.mod_mul]|exact H1]. unfold in_area. lia.
    + rewrite <- E1. apply Ht.
    + intros k Hk. destruct (decide (k = i)) as [->|Hne].
      * rewrite Hw. f_equal. apply Z.mod_small. lia.
      * rewrite <- (Hw1 k) by lia. apply word1_agree; [lia|]. apply Ho. lia.
  - split_and!; [done|done|]. intros k Hk. lia.
  - intros [] s' (H1 & E1 & Hw1). split; [|done]. apply live_hold; [done|]. split_and!; [done|done|].
    intros k b Hk. destruct (buf_at k b Hk) as [-> Hk']. apply Hw1. lia.
Qed.

(** *** Copies on the program's tables *)

Lemma wp_copy_live t g hs fr dst src l s0 ls s :
  at_line (live t g hs fr) s0 ls s -> (src + OFFSET, l) ∈ hs ->
  dst mod 8 = 0 -> 0x400000 <= dst -> dst + Z.of_nat (length l) <= 0x900000 ->
  0 <= src -> src + Z.of_nat (length l) <= hi * 4096 ->
  (forall x, dst + OFFSET <= x < dst + OFFSET + Z.of_nat (length l) -> x mod 8 = 0 -> clear_of hs x) ->
  wp (memcpy dst src (length l)) (fun _ s' => at_line (live t g ((dst + OFFSET, l) :: hs) fr) s0 ls s') s.
Proof.
  intros [Hl E] Hin H8 Hd Hd2 Hs0 Hs1 Hx.
  eapply wp_mono; [apply (wp_memcpy_bytes hi ltac:(lia) (live t g hs fr) dst src l s);
    [|done|by eapply holding_in; [apply Hl|]|done|lia|lia|done|done|]|].
  - split.
    + intros s1 s2. apply live_quiet.
    + intros s1 s2 x Ht Hr Hx8. apply (live_touched t g hs fr s1 s2 x Ht); [unfold in_area, OFFSET in *; lia|by apply Hx].
    + intros s1 H1. eexists. apply H1.
  - intros x Hr Hx8. exact (proj1 (Forall_forall _ _) (Hx x Hr Hx8) _ Hin).
  - intros [] s' (H1 & H2 & _ & E'). split; [|congruence]. by apply (live_hold t g hs (dst + OFFSET, l)).
Qed.
End Rules.

(** ** States from which the program can switch to the tables of an application *)
Record ready (g : Z -> Z) (hs : list (Z * list Z)) (s : core) : Prop := {
  rd_window : exists T, window s 0 hi OFFSET T;
  rd_words : table_words size s g;
  rd_cache : forall i, i = 0 \/ i = 1 -> nonglobal s (high + i);
  rd_hold : holding hs (pmem s)
}.

Lemma live_ready t g hs fr s : live t g hs fr s -> ready g hs s.
Proof.
  intros [Ho Hp _ _ Hh]. split; [eexists; apply Ho|apply Ho| |done]. intros i Hi. by apply Hp.
Qed.

Section Rounds.
Context `{TlbPolicy} (print_flag : Z) (t : tabs) (g : Z -> Z) (apps : list app) (a : app) (b : Z).
Hypothesis t_ok : tabs_ok t.
Hypothesis t_wired : wired t g.
Hypothesis t_first : g (pte_addr t 0) = b + 7 /\ page b /\ 0x80000000 <= b < 0x80900000.
Hypothesis t_second : g (pte_addr t 1) = 0.
Hypothesis a_ok : base a = 0xC0000000 /\ Z.of_nat (length (image a)) <= 0x1000.

Lemma t_plain i : i = 0 \/ i = 1 -> plain (g (pte_addr t i)).
Proof.
  intros [->| ->]; [|by left]. destruct t_first as (E & Hb & _). right. eauto.
Qed.

Lemma wp_ready_switch hs s :
  ready g hs s -> wp (write_cr3 (t_root t + OFFSET)) (fun _ s' => live t g hs true s' /\ console s' = console s) s.
Proof.
  intros [[T Hw] Hwo Hn Hh]. eapply wp_enter; [done|done|exact Hw|done| |done]. intros i Hi. split; [auto|by apply t_plain].
Qed.

(** The call of a function that only computes, after a switch. *)
Lemma switch_round P hs c c' :
  (forall s, P s -> ready g hs s) -> stable hi print_flag (live t g hs true) -> (b, image a) ∈ hs ->
  only_app apps a c -> run a c = mret c' ->
  round_ok hi print_flag P (live t g hs true) (write_cr3 (t_root t + OFFSET);; call apps c) c'.
Proof.
  intros HP Hst Hin Ho Hrun. split; [exact Hst|]. intros s0 ls s [H1 E1]. apply wp_bind.
  eapply wp_mono; [by apply wp_ready_switch, HP|]. intros [] s1 [H2 E2].
  destruct t_first as (E & Hb & Hr), a_ok as [Eb Hn].
  eapply wp_call_live; [exact H2|exact E|exact Hb|exact Hr|exact Eb|exact Hn|exact Hin|exact Ho|].
  intros s2 H3 E3. rewrite Hrun. apply wp_ret. split; [done|]. split; [done|congruence].
Qed.

(** The same for a function that uses the page mapped for it at 0xC0001000. *)
Definition mapped1 (x : Z) : Z -> Z := upd g (pte_addr t 1) x.

Lemma mapped1_first x : mapped1 x (pte_addr t 0) = b + 7.
Proof. unfold mapped1. rewrite upd_ne by (unfold pte_addr; lia). apply t_first. Qed.

Lemma remapped x y s hs fr :
  live t (upd (mapped1 x) (pte_addr t 1) y) hs fr s -> live t (mapped1 y) hs fr s.
Proof. apply live_ext. intros z _. unfold mapped1, upd. by repeat case_decide. Qed.

Lemma unmapped hs fr s : live t (mapped1 0) hs fr s -> live t g hs fr s.
Proof. apply live_ext. intros z _. unfold mapped1, upd. case_decide as Hd; [by rewrite Hd|done]. Qed.

Lemma served_round P hs c c' :
  (forall s, P s -> ready g hs s) -> stable hi print_flag (live t g ((0x80700000, buf_bytes) :: hs) false) ->
  (b, image a) ∈ hs -> only_app apps a c -> run a c = (fill_buf;; mret c') ->
  clear_of ((0x80700000, buf_bytes) :: hs) (pte_addr t 1) ->
  (forall x, 0x80700000 <= x < 0x80700010 -> x mod 8 = 0 -> clear_of hs x) ->
  round_ok hi print_flag P (live t g ((0x80700000, buf_bytes) :: hs) false)
    (write_cr3 (t_root t + OFFSET);;
     (put_entry (t_pt t) 1 (rwu 0x80700000);; invlpg 0xC0000000);;
     c' ← call apps c;
     (put_entry (t_pt t) 1 0;; invlpg 0xC0000000);;
     mret c') c'.
Proof.
  intros HP Hst Hin Ho Hrun Hcl Hbuf. split; [exact Hst|]. intros s0 ls s [H1 E1]. apply wp_bind.
  eapply wp_mono; [by apply wp_ready_switch, HP|]. intros [] s1 [H2 E2].
  assert (page 0x80700000) as Hp by (by vm_compute). rewrite (rwu_page _ Hp).
  apply wp_bind. eapply wp_mono; [apply (wp_set_entry t g hs true true 1 (0x80700000 + 7));
    [exact H2|by right|right; by eexists|lia| |]|].
  { apply Forall_cons in Hcl. apply Hcl. }
  { intros _. split; [done|by right]. }
  intros [] s2 [H3 E3]. fold (mapped1 (0x80700000 + 7)) in H3.
  destruct t_first as (E & Hb & Hr), a_ok as [Eb Hn]. apply wp_bind.
  eapply wp_call_live; [exact H3|apply mapped1_first|exact Hb|exact Hr|exact Eb|exact Hn|exact Hin|exact Ho|].
  intros s3 H4 E4. rewrite Hrun. apply wp_bind.
  eapply wp_mono; [apply (wp_fill_buf t (mapped1 (0x80700000 + 7)) hs); [exact H4|by apply upd_eq|exact Hbuf]|].
  intros [] s4 [H5 E5]. apply wp_ret. apply wp_bind.
  eapply wp_mono; [apply (wp_set_entry t _ _ true false 1 0 s4 H5); [by right|by left|done|exact Hcl|done]|].
  intros [] s5 [H6 E6]. apply wp_ret. split; [done|]. split; [by apply unmapped, (remapped (0x80700000 + 7))|congruence].
Qed.
End Rounds.
End Tables.

(** ** The tables of 041 and 042 *)

Definition low_global (i : Z) : Z := huge_global (0x80000000 + 0x200000 * i).

Lemma low_global_eq i : low_global i = 0x80000000 + 0x200000 * i + 0x187.
Proof.
  unfold low_global, huge_global, huge, rwu. rewrite <- !Z.lor_assoc.
  rewrite (lor_flags 12); [done|lia| |done].
  replace (0x80000000 + 0x200000 * i) with ((0x80000 + 0x200 * i) * 2 ^ 12) by lia. by apply Z.mod_mul.
Qed.

(** The words after [create_pagetable p pd_for_baremetal b]. *)
Definition created (p b : Z) (g : Z -> Z) : Z -> Z :=
  upd (upd (upd (upd (upd g (p + OFFSET + 8 * 0) (rwu (p + 0x1000 + OFFSET)))
    (p + 0x1000 + OFFSET + 8 * 0) (rwu (pd_for_baremetal + OFFSET)))
    (p + 0x1000 + OFFSET + 8 * 3) (rwu (p + 0x2000 + OFFSET)))
    (p + 0x2000 + OFFSET + 8 * 0) (rwu (p + 0x3000 + OFFSET)))
    (p + 0x3000 + OFFSET + 8 * 0) (rwu b).

Definition both_tables : Z -> Z :=
  created page_structures_for_app2 0x80600000 (created page_structures_for_app1 0x80500000
    (filled (fun _ => 0) (pd_for_baremetal + OFFSET) low_global 512)).

Definition tabs_at (p : Z) : tabs := mkTabs p (p + 0x1000) pd_for_baremetal (p + 0x2000) (p + 0x3000).

Abbreviation tabs1 := (tabs_at page_structures_for_app1).
Abbreviation tabs2 := (tabs_at page_structures_for_app2).

Ltac table_addresses :=
  unfold tabs_at, pte_addr, upper_slot, low_slots, in_area, page_structures_for_app1, page_structures_for_app2,
    pd_for_baremetal, OFFSET in *; cbn [t_root t_p3 t_low t_pd t_pt] in *; lia.

Lemma both_low i : 0 <= i < 512 -> both_tables (pd_for_baremetal + OFFSET + 8 * i) = 0x80000000 + 0x200000 * i + 0x187.
Proof.
  intros Hi. unfold both_tables, created. rewrite !upd_ne by table_addresses.
  rewrite filled_at by done. apply low_global_eq.
Qed.

Lemma tabs1_ok : tabs_ok 0x9000 tabs1 /\ wired 0x187 tabs1 both_tables.
Proof.
  split; split.
  - split_and!; by vm_compute.
  - intros i Hi. table_addresses.
  - by vm_compute.
  - by vm_compute.
  - by vm_compute.
  - by vm_compute.
  - exact both_low.
Qed.

Lemma tabs2_ok : tabs_ok 0x9000 tabs2 /\ wired 0x187 tabs2 both_tables.
Proof.
  split; split.
  - split_and!; by vm_compute.
  - intros i Hi. table_addresses.
  - by vm_compute.
  - by vm_compute.
  - by vm_compute.
  - by vm_compute.
  - exact both_low.
Qed.

Lemma both_entries :
  both_tables (pte_addr tabs1 0) = 0x80500000 + 7 /\ both_tables (pte_addr tabs1 1) = 0 /\
  both_tables (pte_addr tabs2 0) = 0x80600000 + 7 /\ both_tables (pte_addr tabs2 1) = 0.
Proof. by vm_compute. Qed.

Lemma size9 : 0 <= 0x9000 <= 0x9000 /\ 0x9000 mod 4096 = 0.
Proof. done. Qed.

Section Create.
Context `{TlbPolicy} (hi : Z) (T : Z -> Prop) (print_flag : Z) (K : mem -> Prop) (rest : Z -> option Z).
Hypothesis K_kept : kept print_flag K.

Lemma wp_create p b c s g :
  p = page_structures_for_app1 \/ p = page_structures_for_app2 -> 0 <= b < 2 ^ 52 ->
  building hi T K 0x9000 rest c s g ->
  wp (create_pagetable p pd_for_baremetal b) (fun _ s' => building hi T K 0x9000 rest c s' (created p b g)) s.
Proof.
  intros Hp Hb Hbu. unfold create_pagetable, created.
  assert (forall q, q = p \/ q = p + 0x1000 \/ q = p + 0x2000 \/ q = p + 0x3000 -> own_table 0x9000 q) as Hown.
  { intros q Hq. destruct Hp as [->| ->]; destruct Hq as [->|[->|[->| ->]]]; by vm_compute. }
  assert (0 <= p + OFFSET /\ p + OFFSET + 0x3000 < 2 ^ 52) as Hpb by (destruct Hp as [->| ->]; by vm_compute).
  do 4 (apply wp_bind; eapply wp_mono; [apply (wp_put hi T print_flag K 0x9000 rest K_kept size9);
    [exact Hbu|apply Hown; tauto|lia|apply rwu_bound; unfold pd_for_baremetal, OFFSET in *; lia]|];
    clear Hbu; intros [] ? Hbu).
  apply (wp_put hi T print_flag K 0x9000 rest K_kept size9);
    [exact Hbu|apply Hown; tauto|lia|by apply rwu_bound].
Qed.
End Create.

(** ** The programs *)

Section Mapped.
Context `{TlbPolicy} `{Channel} (hi : Z) (T : Z -> Prop) (print_flag : Z) (s : core) (a1 a2 : app).
Hypothesis flag_good : flag_ok hi T print_flag.
Hypothesis runtime_ok : old_runtime hi T s.
Hypothesis apps_ok : app_ok hi print_flag a1 /\ app_ok hi print_flag a2.
Hypothesis bases : base a1 = 0xC0000000 /\ base a2 = 0xC0000000.
Hypothesis images_differ : differ (image a1) (image a2).
Hypothesis sources : holding [source_of a1; source_of a2] (pmem s).

Abbreviation srcs := [source_of a1; source_of a2].

(** The images after the two copies. *)
Definition copied : list (Z * list Z) := (0x80600000, image a2) :: (0x80500000, image a1) :: srcs.

Lemma hi_range : 0x900 <= hi <= 0x40000.
Proof. apply runtime_ok. Qed.

Lemma sizes : Z.of_nat (length (image a1)) <= 0x1000 /\ Z.of_nat (length (image a2)) <= 0x1000.
Proof. split; [apply (proj1 apps_ok)|apply (proj2 apps_ok)]. Qed.

Lemma only_at c a : a = a1 \/ a = a2 -> enters a c -> only_app [a1; a2] a c.
Proof.
  destruct bases as [B1 B2], apps_ok as [O1 O2].
  assert (separate a1 a2) as Hs by (left; split; [congruence|done]).
  intros [->| ->]; [by apply (only_first hi print_flag)|by apply (only_second hi print_flag)].
Qed.

Lemma srcs_clear x : x mod 8 = 0 -> x = flag_slot print_flag \/ scratch x -> clear_of srcs x.
Proof.
  intros Hm Hx. destruct apps_ok as [O1 O2].
  apply (clear_app [source_of a1] [source_of a2]). split; by apply (source_clear hi print_flag).
Qed.

Lemma srcs_kept : kept print_flag (holding srcs).
Proof. intros m m' a Hu Hm Ha. eapply holding_update; [exact Hu|by apply srcs_clear]. Qed.

(** The slots the programs store to after the copies are outside the images. *)
Lemma copied_clear hs x :
  hs ⊆ copied -> x mod 8 = 0 -> x = flag_slot print_flag \/ scratch x ->
  x < 0x80500000 \/ 0x80601000 <= x -> clear_of hs x.
Proof.
  intros Hs Hm Hx Hr. destruct sizes as [L1 L2].
  assert (clear_of copied x) as Hc.
  { pose proof (Z.div_mod x 8 ltac:(done)).
    apply Forall_cons; split; [cbn [fst snd]; lia|]. apply Forall_cons; split; [cbn [fst snd]; lia|].
    by apply srcs_clear. }
  apply Forall_forall. intros h Hh. exact (proj1 (Forall_forall _ _) Hc h (Hs h Hh)).
Qed.

Lemma flag_outside : flag_slot print_flag mod 8 = 0 /\ ~ scratch (flag_slot print_flag).
Proof. split; [by apply Z.mod_mul|apply flag_good]. Qed.

Lemma copied_flag : clear_of copied (flag_slot print_flag).
Proof.
  destruct flag_outside as [Hm Hs]. apply copied_clear; [done|done|by left|]. unfold scratch in Hs. lia.
Qed.

Lemma wp_start :
  wp (puts print_flag (chars "hello!")) (fun _ s' => at_line (loaded hi T [a1; a2] []) s ["hello!"%string] s') s.
Proof.
  destruct apps_ok as [O1 O2].
  assert (Forall (app_ok hi print_flag) [a1; a2]) as Hok by (apply Forall_cons; split; [done|by apply Forall_singleton]).
  apply (wp_line hi print_flag _ (speaks_puts hi T print_flag flag_good hi_range) (loaded hi T [a1; a2] []) s []).
  - by apply (loaded_stable hi T print_flag [a1; a2] flag_good Hok).
  - split; [|done]. by split.
Qed.

Lemma first_clear x :
  0x80500000 <= x < 0x80500000 + Z.of_nat (length (image a1)) -> x mod 8 = 0 -> clear_of srcs x.
Proof. intros Hx Hm. destruct sizes. apply srcs_clear; [done|]. right. unfold scratch. lia. Qed.

Lemma second_clear x :
  0x80600000 <= x < 0x80600000 + Z.of_nat (length (image a2)) -> x mod 8 = 0 ->
  clear_of ((0x80500000, image a1) :: srcs) x.
Proof.
  intros Hx Hm. destruct sizes. apply Forall_cons; split; [cbn [fst snd]; lia|].
  apply srcs_clear; [done|]. right. unfold scratch. lia.
Qed.

Lemma source_ranges :
  0 <= source a1 /\ source a1 + Z.of_nat (length (image a1)) <= hi * 4096 /\
  0 <= source a2 /\ source a2 + Z.of_nat (length (image a2)) <= hi * 4096.
Proof.
  destruct apps_ok as [O1 O2]. destruct (ao_source _ _ _ O1), (ao_source _ _ _ O2). by split_and!.
Qed.

(** *** 024: one table, whose first entry is changed *)

Definition tabs24 : tabs :=
  mkTabs SampleOld.pml4t SampleOld.pdpt SampleOld.pd1 SampleOld.pd2 SampleOld.pt1.
Definition words24 : Z -> Z := SampleOld.tables_of id id.

Lemma flags24 : 0x87 = 0x87 \/ 0x87 = 0x187.
Proof. by left. Qed.

Lemma tabs24_ok : tabs_ok 0x5000 tabs24.
Proof.
  split; [split_and!; by vm_compute|]. intros i Hi. unfold upper_slot, pte_addr, tabs24.
  cbn [t_root t_p3 t_low t_pd t_pt]. SampleOld.addresses.
Qed.

Lemma words24_wired : wired 0x87 tabs24 words24.
Proof.
  destruct (SampleOld.upper_tables id id SampleOld.keeps_id SampleOld.keeps_id) as [U1 U2 U3 U4 U5]. by split.
Qed.

Lemma words24_zero i : i = 0 \/ i = 1 -> words24 (pte_addr tabs24 i) = 0.
Proof. intros Hi. apply (SampleOld.tables_pt1 id i); [done|lia]. Qed.

Lemma wp_tables24 ls s1 :
  at_line (loaded hi T [a1; a2] []) s ls s1 ->
  wp (SampleOld.tables SampleOld.skip SampleOld.skip)
    (fun _ s' => at_line (live hi 0x5000 0x87 tabs24 words24 srcs true) s ls s') s1.
Proof.
  intros [[Hr Hh] E].
  assert (SampleOld.upper (SampleOld.tables_of id id)) as Hup by (apply SampleOld.upper_tables; apply SampleOld.keeps_id).
  eapply wp_mono; [apply (SampleOld.wp_tables hi T print_flag (holding srcs) (read64 (pmem s1)) srcs_kept
    SampleOld.skip SampleOld.skip id id (console s1)); [done|done|done|done|apply SampleOld.builds_skip..|done]|].
  intros [] s2 [_ Hc Hw Ht _ Htlb Hk Hco]. split; [|congruence].
  assert (forall i, i = 0 \/ i = 1 -> tlb s2 !! (high + i) = None) as Hn by (intros i Hi; apply Htlb; unfold high; lia).
  split.
  - split; [apply tabs24_ok|done|done|done|apply words24_wired].
  - intros i Hi. split; [intros e He; by rewrite Hn in He|left; by apply words24_zero].
  - intros e He. rewrite Hn in He; [done|by left].
  - intros _ e He. rewrite Hn in He; [done|by right].
  - done.
Qed.

(** The program with [x] in the first entry. *)
Definition shown24 (x : Z) : core -> Prop :=
  live hi 0x5000 0x87 tabs24 (upd words24 (pte_addr tabs24 0) x) copied true.

Lemma shown24_stable x : stable hi print_flag (shown24 x).
Proof. apply (live_stable hi 0x5000 0x87 SampleOld.size5 hi_range flags24); [apply flag_good|exact copied_flag]. Qed.

Lemma mapped_round a b x c c' :
  (a = a1 /\ b = 0x80500000) \/ (a = a2 /\ b = 0x80600000) -> enters a c -> run a c = mret c' ->
  round_ok hi print_flag (shown24 x) (shown24 (b + 7)) (mapped_call a1 a2 b c) c'.
Proof.
  intros Hab He Hrun. split; [apply shown24_stable|]. intros s0 ls s1 [H1 E1].
  assert (page b /\ 0x80000000 <= b < 0x80900000) as [Hp Hr] by (destruct Hab as [[_ ->]|[_ ->]]; by vm_compute).
  assert (base a = 0xC0000000 /\ Z.of_nat (length (image a)) <= 0x1000) as [Eb Hn].
  { destruct bases, sizes, Hab as [[-> _]|[-> _]]; done. }
  assert ((b, image a) ∈ copied) as Hin by (unfold copied; rewrite !elem_of_cons; destruct Hab as [[-> ->]|[-> ->]]; tauto).
  unfold mapped_call. rewrite (rwu_page b Hp). apply (wp_assoc (put_entry _ _ _) (fun _ => invlpg _) (fun _ => call _ _)).
  eapply wp_mono; [apply (wp_set_entry hi 0x5000 0x87 SampleOld.size5 hi_range flags24 tabs24 _ copied true true 0 (b + 7) s1 H1)|].
  { by left. } { right. eauto. } { lia. }
  { apply copied_clear; [done|by vm_compute|right; by vm_compute|left; by vm_compute]. }
  { intros _. split; [done|by left]. }
  intros [] s2 [H2 E2].
  assert (shown24 (b + 7) s2) as H2'.
  { eapply live_ext; [exact SampleOld.size5| |exact H2]. intros z _. unfold upd. by repeat case_decide. }
  eapply (wp_call_live hi 0x5000 0x87 SampleOld.size5 hi_range tabs24); [exact H2'|by apply upd_eq|exact Hp|exact Hr|exact Eb|exact Hn|exact Hin| |].
  { apply only_at; [|done]. tauto. }
  intros s3 H3 E3. rewrite Hrun. apply wp_ret. split; [done|]. split; [done|congruence].
Qed.

Lemma wp_main024 c1 c2 :
  run a1 (mkContext 0xC0000000 0) = mret c1 -> run a2 (mkContext 0xC0000000 0) = mret c2 ->
  enters a1 c1 -> enters a2 c2 -> ctx_i c1 = 1 -> ctx_i c2 = 9 ->
  run a1 c1 = mret (mkContext 0 2) -> run a2 c2 = mret (mkContext 0 8) ->
  wp (main024 print_flag a1 a2) (passed (shown24 (0x80600000 + 7)) s lines022) s.
Proof.
  intros R1 R2 N1 N2 I1 I2 R3 R4. destruct source_ranges as (S1 & S2 & S3 & S4), sizes as [L1 L2], bases as [B1 B2].
  unfold main024. apply wp_bind. eapply wp_mono; [apply wp_start|]. intros [] s1 H1.
  apply wp_bind. eapply wp_mono; [by apply wp_tables24|]. intros [] s2 H2.
  apply wp_bind. eapply wp_mono; [eapply (wp_copy_live hi 0x5000 0x87 SampleOld.size5 hi_range flags24 tabs24 _ _ _ 0x500000 (source a1) (image a1));
    [exact H2|by left|done|done|lia|done|done|exact first_clear]|]. intros [] s3 H3.
  apply wp_bind. eapply wp_mono; [eapply (wp_copy_live hi 0x5000 0x87 SampleOld.size5 hi_range flags24 tabs24 _ _ _ 0x600000 (source a2) (image a2));
    [exact H3|by right; right; left|done|done|lia|done|done|exact second_clear]|]. intros [] s4 [H4 E4].
  eapply (wp_four_rounds hi print_flag _ (speaks_puts hi T print_flag flag_good hi_range) (shown24 0));
    [split; [|exact E4]|apply (mapped_round a1); [tauto|left; by rewrite B1|exact R1]
    |apply (mapped_round a2); [tauto|left; by rewrite B2|exact R2]
    |apply (mapped_round a1); [tauto|done|exact R3]|apply (mapped_round a2); [tauto|done|exact R4]|done..].
  eapply live_ext; [exact SampleOld.size5| |exact H4]. intros z _. unfold upd. case_decide as Hd; [|done].
  rewrite Hd. symmetry. apply words24_zero. by left.
Qed.

(** *** 041 and 042: tables per application *)

Lemma flags41 : 0x187 = 0x87 \/ 0x187 = 0x187.
Proof. by right. Qed.

(** On the runtime's tables, with those of the applications built. *)
Definition built (hs : list (Z * list Z)) (s' : core) : Prop :=
  old_runtime hi T s' /\ table_words 0x9000 s' both_tables /\ holding hs (pmem s').

Lemma built_ready hs s' : built hs s' -> ready hi 0x9000 both_tables hs s'.
Proof.
  intros ([_ Hw Hab _] & Ht & Hh). split; [by exists T|done| |done]. intros i Hi e He.
  destruct (Hab (high + i) ltac:(unfold high; lia)) as [[E _] _]. congruence.
Qed.

Lemma wp_copy_built hs dst src l s0 ls s1 :
  at_line (built hs) s0 ls s1 -> (src + OFFSET, l) ∈ hs ->
  dst mod 8 = 0 -> 0x400000 <= dst -> dst + Z.of_nat (length l) <= 0x900000 ->
  0 <= src -> src + Z.of_nat (length l) <= hi * 4096 ->
  (forall x, dst + OFFSET <= x < dst + OFFSET + Z.of_nat (length l) -> x mod 8 = 0 -> clear_of hs x) ->
  wp (memcpy dst src (length l)) (fun _ s' => at_line (built ((dst + OFFSET, l) :: hs)) s0 ls s') s1.
Proof.
  intros [Hl E] Hin H8 Hd Hd2 Hs0 Hs1 Hx. pose proof hi_range as Hhi.
  eapply wp_mono; [apply (wp_memcpy_bytes hi ltac:(lia) (built hs) dst src l s1);
    [|done|by eapply holding_in; [apply Hl|]|done|lia|lia|done|done|]|].
  - split.
    + intros s2 s3 Hq (H1 & H2 & H3). split_and!; [by eapply runtime_quiet| |by rewrite (qu_mem _ _ Hq)].
      intros x. rewrite (qu_mem _ _ Hq). apply H2.
    + intros s2 s3 x Ht Hr Hx8 (H1 & H2 & H3). split_and!.
      * eapply runtime_touched; [exact Ht| |exact H1]. intros HT. apply (or_apart _ _ _ H1 _ HT).
        unfold scratch, OFFSET in *. lia.
      * intros y Hy Hyr. rewrite (stored_read _ _ _ _ Ht); [by apply H2|done|]. unfold OFFSET in *. lia.
      * eapply holding_update; [apply Ht|by apply Hx|done].
    + intros s2 (H1 & _). exists T. apply H1.
  - intros x Hr Hx8. exact (proj1 (Forall_forall _ _) (Hx x Hr Hx8) _ Hin).
  - intros [] s' ((H1 & H2 & H3) & H4 & _ & E'). split; [|congruence]. split_and!; [done|done|].
    apply Forall_cons. by split.
Qed.

Lemma wp_app_tables ls s1 :
  at_line (loaded hi T [a1; a2] []) s ls s1 ->
  wp (app_tables a1 a2) (fun _ s' => at_line (built copied) s ls s') s1.
Proof.
  intros [[Hr Hh] E]. destruct source_ranges as (S1 & S2 & S3 & S4), sizes as [L1 L2].
  unfold app_tables. apply wp_bind.
  eapply wp_mono; [by apply (wp_memset0 hi T print_flag (holding srcs) 0x9000 (read64 (pmem s1)) srcs_kept size9 (console s1))|].
  intros [] s2 H2. apply wp_bind.
  eapply wp_mono; [apply (wp_fill_table hi T print_flag (holding srcs) 0x9000 (read64 (pmem s1)) srcs_kept size9 (console s1) s2 (fun _ => 0) pd_for_baremetal low_global 512);
    [exact H2|by vm_compute|done|intros i Hi; rewrite low_global_eq; lia]|].
  intros [] s3 H3. apply wp_bind.
  eapply wp_mono; [apply (wp_create hi T print_flag (holding srcs) (read64 (pmem s1)) srcs_kept page_structures_for_app1 0x80500000 (console s1)); [by left|done|exact H3]|].
  intros [] s4 H4. apply wp_bind.
  eapply wp_mono; [apply (wp_create hi T print_flag (holding srcs) (read64 (pmem s1)) srcs_kept page_structures_for_app2 0x80600000 (console s1)); [by right|done|exact H4]|].
  intros [] s5 [B1 B2 _ B4 B5].
  assert (at_line (built srcs) s ls s5) as H5 by (split; [by split_and!|congruence]).
  apply wp_bind. eapply wp_mono; [eapply (wp_copy_built srcs 0x500000 (source a1) (image a1));
    [exact H5|by left|done|done|lia|done|done|exact first_clear]|]. intros [] s6 H6.
  eapply (wp_copy_built _ 0x600000 (source a2) (image a2));
    [exact H6|by right; right; left|done|done|lia|done|done|exact second_clear].
Qed.

(** The program on the tables of an application; [buf] is what 042 adds to the images. *)
Abbreviation on_tabs t hs fr := (live hi 0x9000 0x187 t both_tables hs fr).

Lemma on_tabs_stable t hs fr : clear_of hs (flag_slot print_flag) -> stable hi print_flag (on_tabs t hs fr).
Proof. intros Hc. apply (live_stable hi 0x9000 0x187 size9 hi_range flags41); [apply flag_good|exact Hc]. Qed.

Lemma switched_round1 (P : core -> Prop) hs c c' :
  (forall s', P s' -> ready hi 0x9000 both_tables hs s') -> clear_of hs (flag_slot print_flag) ->
  (0x80500000, image a1) ∈ hs -> enters a1 c -> run a1 c = mret c' ->
  round_ok hi print_flag P (on_tabs tabs1 hs true) (switched_call a1 a2 page_structures_for_app1 c) c'.
Proof.
  intros HP Hc Hin He Hrun. destruct tabs1_ok as [T1 T2], both_entries as (E1 & E2 & _).
  apply (switch_round hi 0x9000 0x187 size9 hi_range flags41 print_flag tabs1 both_tables [a1; a2] a1 0x80500000 T1 T2);
    [by split_and!; vm_compute|exact E2|split; [apply bases|apply sizes]|exact HP|by apply on_tabs_stable|exact Hin
    |apply only_at; [by left|done]|exact Hrun].
Qed.

Lemma switched_round2 (P : core -> Prop) hs c c' :
  (forall s', P s' -> ready hi 0x9000 both_tables hs s') -> clear_of hs (flag_slot print_flag) ->
  (0x80600000, image a2) ∈ hs -> enters a2 c -> run a2 c = mret c' ->
  round_ok hi print_flag P (on_tabs tabs2 hs true) (switched_call a1 a2 page_structures_for_app2 c) c'.
Proof.
  intros HP Hc Hin He Hrun. destruct tabs2_ok as [T1 T2], both_entries as (_ & _ & E1 & E2).
  apply (switch_round hi 0x9000 0x187 size9 hi_range flags41 print_flag tabs2 both_tables [a1; a2] a2 0x80600000 T1 T2);
    [by split_and!; vm_compute|exact E2|split; [apply bases|apply sizes]|exact HP|by apply on_tabs_stable|exact Hin
    |apply only_at; [by right|done]|exact Hrun].
Qed.

Lemma copied_in : (0x80500000, image a1) ∈ copied /\ (0x80600000, image a2) ∈ copied.
Proof. unfold copied. rewrite !elem_of_cons. tauto. Qed.

Lemma wp_main041 c1 c2 :
  run a1 (mkContext 0xC0000000 0) = mret c1 -> run a2 (mkContext 0xC0000000 0) = mret c2 ->
  enters a1 c1 -> enters a2 c2 -> ctx_i c1 = 1 -> ctx_i c2 = 9 ->
  run a1 c1 = mret (mkContext 0 2) -> run a2 c2 = mret (mkContext 0 8) ->
  wp (main041 print_flag a1 a2) (passed (on_tabs tabs2 copied true) s lines022) s.
Proof.
  intros R1 R2 N1 N2 I1 I2 R3 R4. destruct bases as [B1 B2], copied_in as [C1 C2]. pose proof copied_flag as Hf.
  pose proof (fun t fr => live_ready hi 0x9000 0x187 t both_tables copied fr) as Hrd.
  unfold main041. apply wp_bind. eapply wp_mono; [apply wp_start|]. intros [] s1 H1.
  apply wp_bind. eapply wp_mono; [by apply wp_app_tables|]. intros [] s2 H2.
  eapply (wp_four_rounds hi print_flag _ (speaks_puts hi T print_flag flag_good hi_range));
    [exact H2|apply switched_round1; [exact (built_ready copied)|done|done|left; by rewrite B1|exact R1]
    |apply switched_round2; [apply Hrd|done|done|left; by rewrite B2|exact R2]
    |apply switched_round1; [apply Hrd|done|done|done|exact R3]
    |apply switched_round2; [apply Hrd|done|done|done|exact R4]|done..].
Qed.

(** 042 holds the bytes of [fill_buf] as well. *)
Definition served_images : list (Z * list Z) := (0x80700000, buf_bytes) :: copied.

Lemma served_clear x :
  x mod 8 = 0 -> x = flag_slot print_flag \/ scratch x -> x < 0x80500000 \/ 0x80701000 <= x ->
  clear_of served_images x.
Proof.
  intros Hm Hx Hr. pose proof (Z.div_mod x 8 ltac:(done)).
  apply Forall_cons. split; [cbn [fst snd length buf_bytes]; lia|]. apply copied_clear; [done|done|done|lia].
Qed.

Lemma served_flag : clear_of served_images (flag_slot print_flag).
Proof.
  destruct flag_outside as [Hm Hs]. apply served_clear; [done|by left|]. unfold scratch in Hs. lia.
Qed.

Lemma buf_clear x : 0x80700000 <= x < 0x80700010 -> x mod 8 = 0 -> clear_of copied x.
Proof. intros Hx Hm. apply copied_clear; [done|done|right; unfold scratch; lia|lia]. Qed.

Lemma served_round1 (P : core -> Prop) c c' :
  (forall s', P s' -> ready hi 0x9000 both_tables copied s') -> enters a1 c -> run a1 c = (fill_buf;; mret c') ->
  round_ok hi print_flag P (on_tabs tabs1 served_images false) (served_call a1 a2 page_structures_for_app1 c) c'.
Proof.
  intros HP He Hrun. destruct tabs1_ok as [T1 T2], both_entries as (E1 & E2 & _).
  apply (served_round hi 0x9000 0x187 size9 hi_range flags41 print_flag tabs1 both_tables [a1; a2] a1 0x80500000 T1 T2);
    [by split_and!; vm_compute|exact E2|split; [apply bases|apply sizes]|exact HP|by apply on_tabs_stable, served_flag
    |apply copied_in|apply only_at; [by left|done]|exact Hrun|apply served_clear; [by vm_compute|right; by vm_compute|left; by vm_compute]
    |exact buf_clear].
Qed.

Lemma served_round2 (P : core -> Prop) c c' :
  (forall s', P s' -> ready hi 0x9000 both_tables copied s') -> enters a2 c -> run a2 c = (fill_buf;; mret c') ->
  round_ok hi print_flag P (on_tabs tabs2 served_images false) (served_call a1 a2 page_structures_for_app2 c) c'.
Proof.
  intros HP He Hrun. destruct tabs2_ok as [T1 T2], both_entries as (_ & _ & E1 & E2).
  apply (served_round hi 0x9000 0x187 size9 hi_range flags41 print_flag tabs2 both_tables [a1; a2] a2 0x80600000 T1 T2);
    [by split_and!; vm_compute|exact E2|split; [apply bases|apply sizes]|exact HP|by apply on_tabs_stable, served_flag
    |apply copied_in|apply only_at; [by right|done]|exact Hrun|apply served_clear; [by vm_compute|right; by vm_compute|left; by vm_compute]
    |exact buf_clear].
Qed.

Lemma wp_main042 c1 c2 :
  run a1 (mkContext 0xC0000000 0) = (fill_buf;; mret c1) -> run a2 (mkContext 0xC0000000 0) = mret c2 ->
  enters a1 c1 -> enters a2 c2 -> ctx_i c1 = 1 -> ctx_i c2 = 9 ->
  run a1 c1 = mret (mkContext 0 2) -> run a2 c2 = (fill_buf;; mret (mkContext 0 8)) ->
  wp (main042 print_flag a1 a2) (passed (on_tabs tabs2 served_images false) s lines022) s.
Proof.
  intros R1 R2 N1 N2 I1 I2 R3 R4. destruct bases as [B1 B2], copied_in as [C1 C2]. pose proof served_flag as Hf.
  pose proof (fun t fr => live_ready hi 0x9000 0x187 t both_tables served_images fr) as Hrd.
  assert (forall s', on_tabs tabs1 served_images true s' -> ready hi 0x9000 both_tables copied s') as Hrd'.
  { intros s' Hl. eapply live_ready, live_weaken; [|exact Hl]. intros h Hh. by right. }
  unfold main042. apply wp_bind. eapply wp_mono; [apply wp_start|]. intros [] s1 H1.
  apply wp_bind. eapply wp_mono; [by apply wp_app_tables|]. intros [] s2 H2.
  eapply (wp_four_rounds hi print_flag _ (speaks_puts hi T print_flag flag_good hi_range));
    [exact H2|apply served_round1; [exact (built_ready copied)|left; by rewrite B1|exact R1]
    |apply switched_round2; [apply Hrd|done|by right|left; by rewrite B2|exact R2]
    |apply switched_round1; [apply Hrd|done|by right|done|exact R3]
    |apply served_round2; [exact Hrd'|done|exact R4]|done..].
Qed.
End Mapped.

(** ** The theorem *)

Section Results.
Context `{TlbPolicy} `{Channel} (hi : Z) (T : Z -> Prop) (print_flag : Z) (s : core).
Context (im1 im2 : list Z) (src1 src2 off1 off2 : Z).

(** The core runs on the tables at [root]: the friend's memory is where it was, the
    first page at 0xC0000000 is the frame [b], the second one absent, and the images
    [hs] are in memory. *)
Record shows_app (root b : Z) (hs : list (Z * list Z)) (s' : core) : Prop := {
  sa_cr3 : cr3 s' = root + OFFSET;
  sa_window : exists T', window s' 0 hi OFFSET T';
  sa_first : current s' high = Some (mkTlb b true false);
  sa_second : current s' (high + 1) = None;
  sa_images : holding hs (pmem s')
}.

Lemma live_shows size fl t g hs fr b s' :
  0 <= size <= 0x9000 /\ size mod 4096 = 0 ->
  live hi size fl t g hs fr s' -> g (pte_addr t 0) = b + 7 -> g (pte_addr t 1) = 0 -> page b ->
  shows_app (t_root t) b hs s'.
Proof.
  intros Hsz [Ho _ _ _ Hh] E0 E1 Hb. split; [apply Ho|eexists; apply Ho|..|done].
  - rewrite <- (Z.add_0_r high), (on_current hi size fl Hsz t g s' 0 Ho), E0 by lia. by apply plain_entry.
  - by rewrite (on_current hi size fl Hsz t g s' 1 Ho), E1 by lia.
Qed.

Lemma shows_passed (R R' : core -> Prop) ls r s' :
  (forall s1, R s1 -> R' s1) -> passed R s ls r s' -> passed R' s ls r s'.
Proof. intros HR (H1 & H2 & H3). split_and!; auto. Qed.

(** The images in the frames of the two applications, and in the friend. *)
Definition app_frames : list (Z * list Z) :=
  [(0x80600000, im2); (0x80500000, im1); (src1 + OFFSET, im1); (src2 + OFFSET, im2)].

(** C36: on the old runtime, paging/024, 041 and 042 run two applications that are linked at
    the one address 0xC0000000.  Every call of an application reaches the image of that
    application and not of the other one, whatever the cache keeps: 024 changes the
    entry and invalidates the page; 041 and 042 switch between the tables of the
    applications, whose pages of the friend are global and whose other pages are not.
    The page that 042 maps for the time of a call takes the ten bytes the application
    stores there, and the tables no longer show it afterwards.  The friend's own memory
    stays mapped, and the host prints i=1, i=9, i=2, i=8 and returns 0. *)
Theorem old_apps_mapped
    (Hf : flag_ok hi T print_flag) (Hr : old_runtime hi T s)
    (O1 : app_ok hi print_flag (app1 im1 src1 0xC0000000 off1))
    (O2 : app_ok hi print_flag (app2 im2 src2 0xC0000000 off2))
    (Hd : differ im1 im2)
    (Hs : holding [(src1 + OFFSET, im1); (src2 + OFFSET, im2)] (pmem s)) :
  wp (main024 print_flag (app1 im1 src1 0xC0000000 off1) (app2 im2 src2 0xC0000000 off2))
    (passed (shows_app 0x310000 0x80600000 app_frames) s lines022) s /\
  wp (main041 print_flag (app1 im1 src1 0xC0000000 off1) (app2 im2 src2 0xC0000000 off2))
    (passed (shows_app 0x314000 0x80600000 app_frames) s lines022) s /\
  wp (main042 print_flag (app1_042 im1 src1 0xC0000000 off1) (app2_042 im2 src2 0xC0000000 off2))
    (passed (shows_app 0x314000 0x80600000 ((0x80700000, buf_bytes) :: app_frames)) s lines022) s.
Proof.
  destruct (ao_second _ _ _ O1) as [P1 _], (ao_second _ _ _ O2) as [P2 _]. cbn [second app1 app2] in P1, P2.
  assert ((0xC0000000 + off1 =? 0xC0000000) = false /\ (0xC0000000 + off2 =? 0xC0000000) = false) as [N1 N2] by lia.
  destruct both_entries as (_ & _ & E1 & E2). assert (page 0x80600000) as Hp by (by vm_compute).
  assert (0xC0000000 = 0xC0000000 /\ 0xC0000000 = 0xC0000000) as Hb by done.
  split_and!; (eapply wp_mono; [|intros r s'; apply shows_passed]).
  - eapply (wp_main024 hi T print_flag s _ _ Hf Hr (conj O1 O2) Hb Hd Hs (mkContext (0xC0000000 + off1) 1) (mkContext (0xC0000000 + off2) 9));
      [done|done|by right|by right|done|done|unfold run; cbn [next base app1]; by rewrite N1
      |unfold run; cbn [next base app2]; by rewrite N2].
  - intros s1 Hl. apply (live_shows 0x5000 0x87 tabs24 _ _ _ _ _ SampleOld.size5 Hl); [by apply upd_eq| |done].
    rewrite upd_ne by (unfold pte_addr; lia). apply words24_zero. by right.
  - eapply (wp_main041 hi T print_flag s _ _ Hf Hr (conj O1 O2) Hb Hd Hs (mkContext (0xC0000000 + off1) 1) (mkContext (0xC0000000 + off2) 9));
      [done|done|by right|by right|done|done|unfold run; cbn [next base app1]; by rewrite N1
      |unfold run; cbn [next base app2]; by rewrite N2].
  - intros s1 Hl. by apply (live_shows 0x9000 0x187 tabs2 _ _ _ _ _ size9 Hl).
  - assert (app_ok hi print_flag (app1_042 im1 src1 0xC0000000 off1) /\ app_ok hi print_flag (app2_042 im2 src2 0xC0000000 off2)) as O'
      by (split; [by destruct O1|by destruct O2]).
    eapply (wp_main042 hi T print_flag s _ _ Hf Hr O' Hb Hd Hs (mkContext (0xC0000000 + off1) 1) (mkContext (0xC0000000 + off2) 9));
      [done|done|by right|by right|done|done|unfold run; cbn [next base app1_042]; by rewrite N1
      |unfold run; cbn [next base app2_042]; by rewrite N2].
  - intros s1 Hl. by apply (live_shows 0x9000 0x187 tabs2 _ _ _ _ _ size9 Hl).
Qed.
End Results.
End OldAppTables.

Lemma old_apps_mapped_witness :
  flag_ok 0x900 rt_slots rt_flag /\ old_runtime 0x900 rt_slots rt_core /\
  wp (main042 (H := keep_all) (H0 := console_channel) rt_flag
        (app1_042 (H := keep_all) rt_image1 0x8000 0xC0000000 1) (app2_042 (H := keep_all) rt_image2 0x9000 0xC0000000 1))
    (passed (OldAppTables.shows_app 0x900 0x314000 0x80600000
       ((0x80700000, OldAppTables.buf_bytes) :: OldAppTables.app_frames rt_image1 rt_image2 0x8000 0x9000))
       rt_core lines022) rt_core.
Proof.
  split; [exact rt_flag_ok|split; [exact rt_old_runtime|]].
  exact (proj2 (proj2 (OldAppTables.old_apps_mapped (H := keep_all) (H0 := console_channel) 0x900 rt_slots rt_flag rt_core
    rt_image1 rt_image2 0x8000 0x9000 1 1 rt_flag_ok rt_old_runtime
    (proj1 (rt_apps_ok 0xC0000000)) (proj2 (rt_apps_ok 0xC0000000)) rt_images_differ rt_sources))).
Defined.
