(* ===== verification/OldExercise.v ===== *)
(** * OldExercise: sample_old/paging/100, the exercise, as it stands

    The program clears three tables, links a page directory and loads CR3, and leaves a
    gap for the reader's code.  The entry that is to link the page directory has the
    page-size bit set.  The page walk of [Paging] takes the base of a large page from
    the upper bits of its entry; a processor also insists that the bits between the
    flags and the base are zero, which is what this program runs into, so the walk is
    refined here by that test. *)

From S2P Require Import Prelude Memory Paging VirtMem TutorialPaging OldRuntime.
Import VirtMem OldRuntime.

(** ** The page walk with reserved bits *)

(** Bits 13 up to [k] of the entry of a page of 2^[k] bytes are reserved. *)
Definition reserved_bits (k e : Z) : bool := negb (e mod 2 ^ k / 2 ^ 13 =? 0).

Definition walk_strict (read : Z -> option Z) (cr3 va : Z) : option translation :=
  e4 ← entry read (pte_base 12 cr3) (pml4_index va);
  e3 ← entry read (pte_base 12 e4) (pdpt_index va);
  if pte_huge e3 then (if reserved_bits 30 e3 then None else walk read cr3 va)
  else
    e2 ← entry read (pte_base 12 e3) (pd_index va);
    if pte_huge e2 && reserved_bits 21 e2 then None else walk read cr3 va.

(** It differs from [walk] only in that it faults more often. *)
Lemma walk_strict_sound read cr3 va t : walk_strict read cr3 va = Some t -> walk read cr3 va = Some t.
Proof.
  unfold walk_strict. destruct (entry read (pte_base 12 cr3) _) as [e4|]; [|done]. cbn [mbind option_bind].
  destruct (entry read (pte_base 12 e4) _) as [e3|]; [|done]. cbn [mbind option_bind].
  destruct (pte_huge e3); [by destruct (reserved_bits 30 e3)|].
  destruct (entry read (pte_base 12 e3) _) as [e2|]; [|done]. cbn [mbind option_bind].
  by destruct (pte_huge e2 && reserved_bits 21 e2).
Qed.

Module OldExercise.

Definition pml4t100 : Z := 0x301000.
Definition pdpt100 : Z := 0x302000.
Definition pd100 : Z := 0x303000.

Section Program.
Context `{TlbPolicy} `{Channel}.

Definition clear100 : M core unit :=
  for_ 512 0 (fun i => put_entry pml4t100 i 0;; put_entry pdpt100 i 0;; put_entry pd100 i 0).

(** [main] up to the write to CR3, and the rest of it. *)
Definition prepare100 : M core unit :=
  puts_plain (chars "booted");;
  clear100;;
  put_entry pml4t100 0 (rwu (pdpt100 + OFFSET));;
  put_entry pdpt100 0 (huge (pd100 + OFFSET));;
  put_entry pd100 0 (huge 0x80000000);;
  put_entry pd100 1 (huge 0x80200000);;
  write_cr3 (pml4t100 + OFFSET).

Definition main100 : M core Z :=
  prepare100;;
  x ← load64 0x200000;
  y ← load64 0x40000000;
  return_value (if x =? y then 0 else 1);;
  mret 0.
End Program.

(** [test_main] of exec.cc: the steps of the earlier runtime are given by whether they
    succeed, the signals by what the friend sends. *)
Definition test_main (argc : Z) (load init deploy execute : bool) (signals : list (string * list Z)) : option Z * list Z :=
  if argc <? 2 then (Some 1, [])
  else if negb load then (Some 1, [])
  else if negb init then (Some 1, [])
  else if negb deploy then (Some 1, [])
  else if negb execute then (Some 1, [])
  else serve signals [].

(** ** What the program does *)

Definition area100 (a : Z) : Prop := 0x80301000 <= a < 0x80304000.

Section Run.
Context `{TlbPolicy} `{Channel} (hi : Z) (T : Z -> Prop).
Hypothesis Hhi : 0x304 <= hi.
Hypothesis Hapart : forall a, T a -> ~ area100 a.

(** The words of the three tables are [g]; [c] is on the console. *)
Record tables100 (c : list (string * list Z)) (s : core) (g : Z -> Z) : Prop := {
  tb_window : window s 0 hi OFFSET T;
  tb_words : forall a, slot a -> area100 a -> read64 (pmem s) a = Some (g a);
  tb_console : console s = c
}.

(** The tables while the first [n] entries of each are cleared. *)
Record clearing (c : list (string * list Z)) (n : Z) (s : core) : Prop := {
  cl_window : window s 0 hi OFFSET T;
  cl_words : forall p i, p = pml4t100 \/ p = pdpt100 \/ p = pd100 -> 0 <= i < n -> read64 (pmem s) (p + OFFSET + 8 * i) = Some 0;
  cl_console : console s = c
}.

Lemma table_slot p i :
  p = pml4t100 \/ p = pdpt100 \/ p = pd100 -> 0 <= i < 512 ->
  slot (p + OFFSET + 8 * i) /\ area100 (p + OFFSET + 8 * i) /\ (p + 8 * i) mod 8 = 0 /\ 0 <= p + 8 * i < hi * 4096.
Proof.
  intros Hp Hi. assert (page (p + OFFSET) /\ page p) as [P1 P2] by (destruct Hp as [->|[->| ->]]; split; by vm_compute).
  split; [by apply page_slot|]. split; [|split; [apply (page_slot p i P2 Hi)|]];
    unfold area100, OFFSET; destruct Hp as [->|[->| ->]]; unfold pml4t100, pdpt100, pd100; lia.
Qed.

Lemma wp_entry100 s p i v :
  window s 0 hi OFFSET T -> p = pml4t100 \/ p = pdpt100 \/ p = pd100 -> 0 <= i < 512 -> 0 <= v < 2 ^ 64 ->
  wp (put_entry p i v) (fun _ s' => stored s s' (p + OFFSET + 8 * i) v /\ window s' 0 hi OFFSET T) s.
Proof.
  intros Hw Hp Hi Hv. destruct (table_slot p i Hp Hi) as (Hs & Ha & H8 & Hr).
  assert (p + 8 * i + OFFSET = p + OFFSET + 8 * i) as E by lia.
  eapply wp_mono; [apply (wp_store64_window 0 hi OFFSET T s (p + 8 * i) v); [done|lia|done|by rewrite E|done]|].
  intros [] s' Hst. rewrite E in Hst. split; [done|].
  eapply window_stored; [exact Hst| |exact Hw]. intros HT. by apply (Hapart _ HT).
Qed.

Lemma wp_clear c s : window s 0 hi OFFSET T -> console s = c -> wp clear100 (fun _ s' => tables100 c s' (fun _ => 0)) s.
Proof.
  intros Hw Hc. eapply wp_mono; [apply (wp_for (clearing c)); [|by split; [done|lia|done]]|].
  - intros i s1 Hi [W1 Z1 C1]. cbn in Hi.
    apply wp_bind. eapply wp_mono; [apply (wp_entry100 s1 pml4t100 i 0 W1); [by left|lia|done]|]. intros [] s2 [S2 W2].
    apply wp_bind. eapply wp_mono; [apply (wp_entry100 s2 pdpt100 i 0 W2); [by right; left|lia|done]|]. intros [] s3 [S3 W3].
    eapply wp_mono; [apply (wp_entry100 s3 pd100 i 0 W3); [by right; right|lia|done]|]. intros [] s4 [S4 W4].
    split; [done| |].
    + intros p j Hp Hj. destruct (table_slot p j Hp ltac:(lia)) as (Hs & _).
      assert (forall q s' s'', stored s' s'' (q + OFFSET + 8 * i) 0 ->
        (p = q /\ j = i) \/ read64 (pmem s') (p + OFFSET + 8 * j) = Some 0 -> read64 (pmem s'') (p + OFFSET + 8 * j) = Some 0) as Hgo.
      { intros q s' s'' Hst Hor. destruct (decide (p + OFFSET + 8 * j = q + OFFSET + 8 * i)) as [E|E]; [rewrite E; apply Hst|].
        rewrite (stored_read _ _ _ _ Hst) by done. destruct Hor as [[-> ->]|]; done. }
      apply (Hgo pd100 s3 s4 S4). destruct (decide (j = i)) as [->|Hne].
      * destruct Hp as [->|[->| ->]]; [right|right|by left]; apply (Hgo pdpt100 s2 s3 S3); [right|by left].
        apply (Hgo pml4t100 s1 s2 S2). by left.
      * right. apply (Hgo pdpt100 s2 s3 S3). right. apply (Hgo pml4t100 s1 s2 S2). right. apply Z1; [done|lia].
    + rewrite <- C1. transitivity (console s3); [apply S4|]. transitivity (console s2); [apply S3|apply S2].
  - intros [] s' [W Z0 C]. split; [done| |done]. intros a (Hge0 & H8 & _) Ha. unfold area100 in Ha.
    assert (exists p i, (p = pml4t100 \/ p = pdpt100 \/ p = pd100) /\ 0 <= i < 512 /\ a = p + OFFSET + 8 * i) as (p & i & Hp & Hi & ->).
    { pose proof (Z.div_mod a 8 ltac:(done)). unfold OFFSET, pml4t100, pdpt100, pd100 in *.
      destruct (decide (a < 0x80302000)); [exists 0x301000, (a / 8 - 0x10060200)|
        destruct (decide (a < 0x80303000)); [exists 0x302000, (a / 8 - 0x10060400)|exists 0x303000, (a / 8 - 0x10060600)]];
        (split; [tauto|]); lia. }
    by apply Z0.
Qed.

Lemma wp_entry_tables c s g p i v :
  tables100 c s g -> p = pml4t100 \/ p = pdpt100 \/ p = pd100 -> 0 <= i < 512 -> 0 <= v < 2 ^ 64 ->
  wp (put_entry p i v) (fun _ s' => tables100 c s' (upd g (p + OFFSET + 8 * i) v)) s.
Proof.
  intros [W G C] Hp Hi Hv. eapply wp_mono; [by apply wp_entry100|]. intros [] s' [Hst Hw]. split; [done| |].
  - intros a Ha Har. unfold upd. case_decide as Hd; [subst; apply Hst|]. rewrite (stored_read _ _ _ _ Hst) by done. by apply G.
  - rewrite <- C. apply Hst.
Qed.

(** The words of the tables at the write to CR3. *)
Definition words100 : Z -> Z :=
  upd (upd (upd (upd (fun _ => 0) (pml4t100 + OFFSET + 8 * 0) (rwu (pdpt100 + OFFSET)))
    (pdpt100 + OFFSET + 8 * 0) (huge (pd100 + OFFSET))) (pd100 + OFFSET + 8 * 0) (huge 0x80000000))
    (pd100 + OFFSET + 8 * 1) (huge 0x80200000).

Lemma words100_pml4t i : words100 (pml4t100 + OFFSET + 8 * i) = (if decide (i = 0) then 0x80302007 else 0) \/ ~ 0 <= i < 512.
Proof.
  destruct (decide (0 <= i < 512)) as [Hi|]; [left|by right]. unfold words100, pml4t100, pdpt100, pd100, OFFSET in *.
  rewrite !(upd_ne _ _ (0x301000 + 0x80000000 + 8 * i)) by lia. case_decide as Hd; [subst; by vm_compute|].
  by rewrite upd_ne by lia.
Qed.

Lemma words100_pdpt i : words100 (pdpt100 + OFFSET + 8 * i) = (if decide (i = 0) then 0x80303087 else 0) \/ ~ 0 <= i < 512.
Proof.
  destruct (decide (0 <= i < 512)) as [Hi|]; [left|by right]. unfold words100, pml4t100, pdpt100, pd100, OFFSET in *.
  rewrite !(upd_ne _ _ (0x302000 + 0x80000000 + 8 * i)) by lia. case_decide as Hd; [subst; by vm_compute|].
  by rewrite !upd_ne by lia.
Qed.

Lemma index_range va : 0 <= pml4_index va < 512 /\ 0 <= pdpt_index va < 512.
Proof.
  unfold pml4_index, pdpt_index, k256TB, k512GB, k1GB. split.
  - pose proof (Z.mod_pos_bound va (256 * 1024 * 1024 * 1024 * 1024) ltac:(done)). split; [apply Z.div_pos; lia|].
    apply Z.div_lt_upper_bound; lia.
  - pose proof (Z.mod_pos_bound va (512 * 1024 * 1024 * 1024) ltac:(done)). split; [apply Z.div_pos; lia|].
    apply Z.div_lt_upper_bound; lia.
Qed.

(** Under these tables no address has a translation. *)
Lemma no_translation c s g va :
  tables100 c s g -> (forall a, g a = words100 a) -> walk_strict (read64 (pmem s)) (pml4t100 + OFFSET) va = None.
Proof.
  intros [_ G _] Hg. destruct (index_range va) as [H4 H3]. unfold walk_strict, entry.
  change (pte_base 12 (pml4t100 + OFFSET)) with (pml4t100 + OFFSET).
  destruct (table_slot pml4t100 (pml4_index va) ltac:(by left) H4) as (S4 & A4 & _). rewrite (G _ S4 A4), Hg.
  destruct (words100_pml4t (pml4_index va)) as [->|]; [|done]. case_decide as D4; [|done]. cbn [mbind option_bind].
  change (pte_present 0x80302007) with true. cbn [mbind option_bind].
  change (pte_base 12 0x80302007) with (pdpt100 + OFFSET).
  destruct (table_slot pdpt100 (pdpt_index va) ltac:(by right; left) H3) as (S3 & A3 & _). rewrite (G _ S3 A3), Hg.
  destruct (words100_pdpt (pdpt_index va)) as [->|]; [|done]. by case_decide.
Qed.

(** Output leaves the window. *)
Lemma wp_signals s l :
  window s 0 hi OFFSET T ->
  wp (puts_chars l) (fun _ s' => window s' 0 hi OFFSET T /\ console s' = rev (sig 2 <$> until_nul l) ++ console s) s.
Proof.
  revert s. induction l as [|c l IH]; intros s Hw; cbn [puts_chars until_nul]; [by apply wp_ret|].
  destruct (c =? 0); [by apply wp_ret|]. apply wp_bind. eapply wp_mono; [apply signal_ok|]. intros [] s1 [Hq E1].
  eapply wp_mono; [apply IH; by eapply window_quiet|]. intros [] s2 [W2 ->]. split; [done|].
  rewrite E1, fmap_cons. cbn [rev]. by rewrite <- app_assoc.
Qed.

Lemma wp_booted s :
  window s 0 hi OFFSET T ->
  wp (puts_plain (chars "booted"))
    (fun _ s' => window s' 0 hi OFFSET T /\ console s' = rev (text (chars "booted")) ++ console s) s.
Proof.
  intros Hw. unfold puts_plain. apply wp_bind. eapply wp_mono; [by apply wp_signals|]. intros [] s1 [W1 E1].
  eapply wp_mono; [apply signal_ok|]. intros [] s2 [Hq E2]. split; [by eapply window_quiet|].
  unfold text. by rewrite rev_app_distr, E2, E1.
Qed.

(** sample_old/paging/100 as it stands: the tables are stored without a fault and
    "booted" is on its way to the host; after the write to CR3 no virtual address has a
    translation on a processor that checks the reserved bits of large pages, since the
    entry meant to link the page directory has the page-size bit; so not even the next
    instruction can be fetched, but for global pages that are still cached. *)
Theorem exercise_100_stuck s :
  window s 0 hi OFFSET T ->
  wp prepare100 (fun _ s' =>
    cr3 s' = pml4t100 + OFFSET /\ console s' = rev (text (chars "booted")) ++ console s /\
    (forall va, walk_strict (read64 (pmem s')) (cr3 s') va = None) /\
    forall p e, tlb s' !! p = Some e -> te_global e = true) s.
Proof.
  intros Hw. unfold prepare100. apply wp_bind.
  eapply wp_mono; [apply (wp_booted s Hw)|]. intros [] s1 [W1 C1].
  apply wp_bind. eapply wp_mono; [by apply (wp_clear (console s1) s1 W1)|]. intros [] s2 T2.
  apply wp_bind. eapply wp_mono; [apply (wp_entry_tables _ _ _ pml4t100 0 _ T2); [by left|lia|by apply rwu_bound]|]. intros [] s3 T3.
  apply wp_bind. eapply wp_mono; [apply (wp_entry_tables _ _ _ pdpt100 0 _ T3); [by right; left|lia|by vm_compute]|]. intros [] s4 T4.
  apply wp_bind. eapply wp_mono; [apply (wp_entry_tables _ _ _ pd100 0 _ T4); [by right; right|lia|by vm_compute]|]. intros [] s5 T5.
  apply wp_bind. eapply wp_mono; [apply (wp_entry_tables _ _ _ pd100 1 _ T5); [by right; right|lia|by vm_compute]|]. intros [] s6 T6.
  unfold wp, write_cr3. cbn [cr3 console pmem tlb]. split_and!; [done| | |].
  - rewrite (tb_console _ _ _ T6). exact C1.
  - intros va. by eapply no_translation.
  - intros p e He. by apply map_lookup_filter_Some in He as [_ He].
Qed.
End Run.

(** The host: 1 when a step before the loop fails, otherwise what the friend sends. *)
Theorem exercise_100_host argc load init deploy execute signals :
  test_main argc load init deploy execute signals =
    (if (2 <=? argc) && load && init && deploy && execute then serve signals [] else (Some 1, [])).
Proof.
  unfold test_main. destruct (Z.ltb_spec argc 2), (Z.leb_spec 2 argc); try lia; [done|].
  by destruct load, init, deploy, execute.
Qed.

(** After "booted" the host waits for ever for the value. *)
Example exercise_100_waits :
  serve (text (chars "booted")) [] = (None, chars "booted" ++ [10]).
Proof. by vm_compute. Qed.
End OldExercise.
