(* ===== verification/OldStale.v ===== *)
(** * OldStale: the page sample_old/paging/042 takes away

    [unmap_page] clears the entry of the page at 0xC0001000 and then invalidates
    0xC0000000, the page before it.  On a processor that keeps its translations the
    page is still there afterwards; had the function invalidated the page it changed,
    every access would fault, whatever the processor keeps. *)

From S2P Require Import Prelude Memory Paging VirtMem TutorialPaging OldRuntime OldApps.
Import VirtMem OldRuntime.

(** An access leaves the cached translations of other pages, when nothing is forgotten. *)
Lemma keep_all_store va v s s' p :
  store64 (H := keep_all) va v s = Done (tt, s') -> p <> va / 4096 -> tlb s' !! p = tlb s !! p.
Proof.
  intros E Hp. unfold store64, no_fault, vstore in E. destruct (4096 <? _); [by apply bind_inv in E as (? & ? & E & _)|].
  apply bind_inv in E as (r & s2 & E & E2). apply bind_inv in E as (pa & s1 & E & E1).
  assert (tlb s1 !! p = tlb s !! p) as Ht.
  { unfold translate in E. apply bind_inv in E as (oe & s0 & [= <- <-] & E). apply bind_inv in E as (s0' & s0'' & [= <- <-] & E).
    destruct (match _ with Some e => Some e | None => _ end) as [e|] in E; [destruct (allowed _ true e)|];
      apply bind_inv in E as (u & sx & [= <- <-] & E); injection E as <- <-; cbn [tlb set_tlb faulted];
      [by rewrite lookup_insert_ne|by rewrite lookup_delete_ne|by rewrite lookup_delete_ne]. }
  destruct pa as [pa|]; [|injection E1 as <- <-; done].
  apply bind_inv in E1 as (u & s3 & E3 & E1). injection E1 as <- <-. injection E2 as <-.
  unfold lift_pmem in E3. destruct (store _ _ _ _) as [[]|]; [|done]. by injection E3 as _ <-.
Qed.

(** A load of a cached page reads its frame, whatever the tables say. *)
Lemma keep_all_load va e s x :
  va mod 8 = 0 -> tlb s !! (va / 4096) = Some e -> read64 (pmem s) (te_frame e + va mod 4096) = Some x ->
  wp (load64 (H := keep_all) va) (fun r _ => r = x) s.
Proof.
  intros H8 He Hx. unfold wp, load64, no_fault, vload. pose proof (word_in_page va H8) as Hin.
  assert ((4096 <? va mod 4096 + Z.of_nat 8) = false) as -> by (apply Z.ltb_ge; lia).
  assert (exists s', translate (H := keep_all) false va s = Done (Some (te_frame e + va mod 4096), s') /\ pmem s' = pmem s)
    as (s' & Et & Em).
  { unfold translate, lookup_page, mbind, M_bind. change (tlb_next (TlbPolicy := keep_all) s) with (tlb s).
    cbn [tlb]. rewrite He. by eexists. }
  assert (load 8 (te_frame e + va mod 4096) (pmem s') = Done (x, pmem s')) as El.
  { rewrite Em. unfold read64 in Hx. unfold load. destruct (read_bytes _ _ _); [|done]. by injection Hx as ->. }
  unfold mbind at 1 2, M_bind at 1 2. rewrite Et. unfold mbind, M_bind, lift_pmem. by rewrite El.
Qed.

Module OldStale.
Section Stale.
Context (hi : Z) (T : Z -> Prop) (p3 p2 ps : Z) (s : core) (f : Z -> Z).
(** The tables of an application are in force: [f] is its page table for 0xC0000000. *)
Hypothesis Hl : linked 0 hi OFFSET T 0xC0000 p3 p2 (ps + 0x3000) s f.
Hypothesis Hhi : hi <= 0xC0000.

Lemma entry_page : (ps + 0x3000 + 8 * 1) / 4096 <> 0xC0001.
Proof.
  destruct (lk_inside _ _ _ _ _ _ _ _ _ _ Hl) as (_ & _ & _ & Hb). intros E.
  pose proof (Z.div_mod (ps + 0x3000 + 8 * 1) 4096 ltac:(done)).
  pose proof (Z.mod_pos_bound (ps + 0x3000 + 8 * 1) 4096 ltac:(done)). lia.
Qed.

(** paging/042: after [unmap_page] the entry of 0xC0001000 is gone, but a processor that
    had used the page and keeps its translations still reads from the frame that was
    taken away. *)
Theorem unmap_page_stale e x :
  tlb s !! 0xC0001 = Some e -> slot (te_frame e) -> te_frame e <> ps + 0x3000 + OFFSET + 8 * 1 ->
  read64 (pmem s) (te_frame e) = Some x ->
  wp (OldApps.unmap_page (H := keep_all) ps) (fun _ s' =>
    current s' 0xC0001 = None /\ wp (load64 (H := keep_all) 0xC0001000) (fun r _ => r = x) s') s.
Proof.
  intros He Hs Hne Hx. unfold OldApps.unmap_page. apply wp_bind.
  pose proof (wp_put_entry (H := keep_all) 0 hi OFFSET T 0xC0000 p3 p2 (ps + 0x3000) s f 1 0 Hl ltac:(lia) ltac:(lia)) as Hw.
  unfold wp in Hw |- *. destruct (put_entry (H := keep_all) (ps + 0x3000) 1 0 s) as [[[] s1]|] eqn:E1; [|done].
  destruct (linked_update _ _ _ _ _ _ _ _ _ _ _ _ _ Hw ltac:(lia) Hl) as [Hl1 _].
  pose proof (keep_all_store _ _ _ _ 0xC0001 E1 (not_eq_sym entry_page)) as Ht. rewrite He in Ht.
  pose proof (quiet_invlpg s1 0xC0000000) as [Hq _]. cbn [invlpg]. split.
  - destruct (quiet_current _ _ 0xC0001 Hq) as [-> _].
    change 0xC0001 with (0xC0000 + 1). by rewrite (linked_current _ _ _ _ _ _ _ _ _ _ 1 Hl1 ltac:(lia)), upd_eq.
  - apply (keep_all_load 0xC0001000 e); [done| |].
    + change (0xC0001000 / 4096) with 0xC0001. cbn [tlb set_tlb]. change (0xC0000000 / 4096) with 0xC0000.
      by rewrite lookup_delete_ne by done.
    + cbn [pmem set_tlb]. rewrite Z.add_0_r. by rewrite (stored_read _ _ _ _ Hw).
Qed.

(** The same entry cleared and the page itself invalidated: every load of the page faults,
    whatever the processor keeps. *)
Theorem unmap_with_own_page_faults (P : TlbPolicy) :
  wp (put_entry (H := P) (ps + 0x3000) 1 0;; invlpg 0xC0001000)
    (fun _ s' => wp (vload (H := P) 8 0xC0001000) (fun r _ => r = None) s') s.
Proof.
  apply wp_bind. eapply wp_mono; [apply (wp_put_entry (H := P) 0 hi OFFSET T 0xC0000 p3 p2 (ps + 0x3000) s f 1 0 Hl); lia|].
  intros [] s1 Hw. destruct (linked_update _ _ _ _ _ _ _ _ _ _ _ _ _ Hw ltac:(lia) Hl) as [Hl1 _].
  pose proof (quiet_invlpg s1 0xC0001000) as [Hq _]. unfold wp, invlpg.
  set (s2 := set_tlb (delete (0xC0001000 / 4096) (tlb s1)) s1) in *.
  assert (current s2 0xC0001 = None) as Hc.
  { destruct (quiet_current _ _ 0xC0001 Hq) as [-> _].
    change 0xC0001 with (0xC0000 + 1). by rewrite (linked_current _ _ _ _ _ _ _ _ _ _ 1 Hl1 ltac:(lia)), upd_eq. }
  assert (tlb s2 !! 0xC0001 = None) as Ht by apply lookup_delete_eq. clearbody s2.
  assert (tlb_next s2 !! 0xC0001 = None) as Hn.
  { destruct (tlb_next s2 !! 0xC0001) as [e|] eqn:E; [|done]. destruct (tlb_next_ok _ _ _ E); congruence. }
  unfold vload. change (4096 <? 0xC0001000 mod 4096 + Z.of_nat 8) with false. cbv iota.
  unfold translate, lookup_page. change (0xC0001000 / 4096) with 0xC0001.
  unfold mbind, M_bind, get, put, mret, M_ret. cbn [tlb]. rewrite Hn.
  change (current (mkCore (pmem s2) (cr3 s2) (wp_bit s2) (pge s2) (cr2 s2) (idtr s2) (tlb_next s2) (S (tick s2)) (console s2) (stdin s2)) 0xC0001)
    with (current s2 0xC0001). by rewrite Hc.
Qed.
End Stale.
End OldStale.
