(* ===== verification/InterruptController.v ===== *)
(** * InterruptController: hakase/deprecated/interrupt.cc

    The table of callbacks the host keeps for interrupts of a friend.  The constructor
    leaves the table uninitialised, and [Init] sets the callbacks only, so the entries
    are values that may be indeterminate; using such a value ([Indeterminate]) and using an
    entry outside the table ([Undefined]) are both undefined, and kept apart.  The channel ([I2H]) is not in the repository and a parameter, and
    so is the code of the callbacks. *)

From S2P Require Import Prelude.

Module InterruptController.

Definition kIntVectorNum : Z := 256.
Definition kError : Z := -1.

(** A value of the table: [None] is indeterminate; the null pointer is [Some 0]. *)
Record IntCallback := mkCallback { callback : option Z; arg : option Z }.

Record state (W : Type) := mkState { table : list IntCallback; world : W }.
#[global] Arguments mkState {W} _ _.
#[global] Arguments table {W} _.
#[global] Arguments world {W} _.

(** What the controller calls: [_i2h.OldRead<int64_t>(0)], [_i2h.Return(r)] and
    [callback(arg)]. *)
Class Outside (W : Type) := {
  OldRead : M (state W) Z;
  Return : Z -> M (state W) unit;
  invoke : Z -> Z -> M (state W) unit
}.

Section Operations.
Context {W : Type} `{Outside W}.

(** [_callback[i]] *)
Definition entry (i : Z) : M (state W) IntCallback := fun s =>
  match (if (0 <=? i) && (i <? kIntVectorNum) then table s !! Z.to_nat i else None) with
  | Some c => Done (c, s)
  | None => Fault Undefined
  end.

Definition set_entry (i : Z) (c : IntCallback) : M (state W) unit := fun s =>
  if (0 <=? i) && (i <? kIntVectorNum) then Done (tt, mkState (<[Z.to_nat i := c]> (table s)) (world s))
  else Fault Undefined.

Definition determinate (v : option Z) : M (state W) Z :=
  match v with Some x => mret x | None => fail Indeterminate end.

(** The result and the vector that is stored through the reference. *)
Definition ProcessInterrupt : M (state W) (bool * Z) :=
  vnum ← OldRead;
  Return 0;;
  c ← entry vnum;
  f ← determinate (callback c);
  if f =? 0 then mret (false, vnum) else
  (a ← determinate (arg c);
   invoke f a;;
   mret (true, vnum)).

Fixpoint init_loop (n : nat) (i : Z) : M (state W) unit :=
  match n with
  | O => mret tt
  | S n' => c ← entry i; set_entry i (mkCallback (Some 0) (arg c));; init_loop n' (i + 1)
  end.

Definition Init : M (state W) unit := init_loop (Z.to_nat kIntVectorNum) 0.

Fixpoint find_loop (n : nat) (vector cb a : Z) : M (state W) Z :=
  match n with
  | O => mret kError
  | S n' =>
      c ← entry vector;
      f ← determinate (callback c);
      if f =? 0 then
        (set_entry vector (mkCallback (Some cb) (arg c));;
         c ← entry vector;
         set_entry vector (mkCallback (callback c) (Some a));;
         mret vector)
      else find_loop n' (vector + 1) cb a
  end.

Definition SetIntCallback (cb a : Z) : M (state W) Z := find_loop (Z.to_nat (kIntVectorNum - 32)) 32 cb a.

Definition SetExceptionCallback (vector cb a : Z) : M (state W) unit :=
  c ← entry vector;
  set_entry vector (mkCallback (Some cb) (arg c));;
  c ← entry vector;
  set_entry vector (mkCallback (callback c) (Some a));;
  mret tt.

(** What a client does with a controller, one call after the other. *)
Inductive operation :=
| OpSetInt (cb a : Z)
| OpSetException (vector cb a : Z)
| OpProcess
| OpInit.

Definition perform (o : operation) : M (state W) unit :=
  match o with
  | OpSetInt cb a => SetIntCallback cb a;; mret tt
  | OpSetException v cb a => SetExceptionCallback v cb a
  | OpProcess => ProcessInterrupt;; mret tt
  | OpInit => Init
  end.

Fixpoint perform_all (os : list operation) : M (state W) unit :=
  match os with
  | [] => mret tt
  | o :: rest => perform o;; perform_all rest
  end.

(** ** The table as a map from vectors to handlers *)

Definition in_table (v : Z) : Prop := 0 <= v < kIntVectorNum.

(** The table [t] has 256 entries, and its handlers are [h]: no other vector has a
    callback. *)
Record shows (t : list IntCallback) (h : gmap Z (Z * Z)) : Prop := {
  sh_length : length t = Z.to_nat kIntVectorNum;
  sh_dom : forall v x, h !! v = Some x -> in_table v;
  sh_entry : forall v, in_table v -> exists c, t !! Z.to_nat v = Some c /\
    match h !! v with
    | Some (f, a) => f <> 0 /\ c = mkCallback (Some f) (Some a)
    | None => callback c = Some 0
    end
}.

(** A handler; the null callback is none. *)
Definition handle (v cb a : Z) (h : gmap Z (Z * Z)) : gmap Z (Z * Z) :=
  if cb =? 0 then delete v h else <[v := (cb, a)]> h.

Lemma in_table_true v : in_table v -> (0 <=? v) && (v <? kIntVectorNum) = true.
Proof. unfold in_table. lia. Qed.

Lemma wp_entry v Q s c : in_table v -> table s !! Z.to_nat v = Some c -> Q c s -> wp (entry v) Q s.
Proof. intros Hv E HQ. unfold wp, entry. by rewrite (in_table_true v Hv), E. Qed.

Lemma wp_set_callback v c (Q : unit -> state W -> Prop) s :
  in_table v -> Q tt (mkState (<[Z.to_nat v := c]> (table s)) (world s)) -> wp (set_entry v c) Q s.
Proof. intros Hv HQ. unfold wp, set_entry. by rewrite (in_table_true v Hv). Qed.

Lemma shows_handle t h v cb a :
  shows t h -> in_table v -> shows (<[Z.to_nat v := mkCallback (Some cb) (Some a)]> t) (handle v cb a h).
Proof.
  intros [Hl Hd He] Hv. split.
  - by rewrite length_insert.
  - intros w x. unfold handle. destruct (cb =? 0).
    + intros [_ Hx]%lookup_delete_Some. by eapply Hd.
    + destruct (decide (w = v)) as [->|Hne]; [done|]. rewrite lookup_insert_ne by done. apply Hd.
  - intros w Hw. unfold handle. destruct (decide (w = v)) as [->|Hne].
    + eexists. rewrite list_lookup_insert_eq by (unfold in_table in *; lia). split; [done|].
      destruct (Z.eqb_spec cb 0) as [->|Hcb]; [by rewrite lookup_delete_eq|by rewrite lookup_insert_eq].
    + destruct (He w Hw) as (c & Ec & Hc). exists c.
      rewrite list_lookup_insert_ne by (unfold in_table in *; lia). split; [done|].
      destruct (cb =? 0); [by rewrite lookup_delete_ne|by rewrite lookup_insert_ne].
Qed.

(** The two assignments of a registration. *)
Lemma wp_assign {A} v cb a h c (k : M (state W) A) Q s :
  shows (table s) h -> in_table v -> table s !! Z.to_nat v = Some c ->
  (forall t, shows t (handle v cb a h) -> wp k Q (mkState t (world s))) ->
  wp (set_entry v (mkCallback (Some cb) (arg c));;
      c ← entry v;
      set_entry v (mkCallback (callback c) (Some a));;
      k) Q s.
Proof.
  intros Hs Hv Ec HQ. apply wp_bind, wp_set_callback; [done|].
  apply wp_bind. eapply wp_entry; [done| |].
  { cbn [table]. apply list_lookup_insert_eq. rewrite (sh_length _ _ Hs). unfold in_table in Hv. lia. }
  apply wp_bind, wp_set_callback; [done|]. cbn [table world callback]. rewrite list_insert_insert_eq. apply HQ.
  by apply shows_handle.
Qed.

(** *** Init *)

Lemma wp_init_loop n i s :
  length (table s) = Z.to_nat kIntVectorNum -> 0 <= i -> i + Z.of_nat n = kIntVectorNum ->
  (forall v, 0 <= v < i -> exists c, table s !! Z.to_nat v = Some c /\ callback c = Some 0) ->
  wp (init_loop n i) (fun _ s' => shows (table s') ∅ /\ world s' = world s) s.
Proof.
  revert i s. induction n as [|n IH]; intros i s Hl H0 Hn Hd; cbn [init_loop].
  - apply wp_ret. split; [|done]. split; [done| |].
    + intros v x. by rewrite lookup_empty.
    + intros v Hv. destruct (Hd v) as (c & Ec & E0); [unfold in_table in Hv; lia|]. exists c. by rewrite lookup_empty.
  - assert (in_table i) as Hi by (unfold in_table; lia).
    destruct (lookup_lt_is_Some_2 (table s) (Z.to_nat i)) as [c Ec]; [rewrite Hl; unfold in_table in Hi; lia|].
    apply wp_bind. eapply wp_entry; [done|exact Ec|]. apply wp_bind, wp_set_callback; [done|].
    eapply wp_mono; [apply IH|by intros [] s']; cbn [table]; [by rewrite length_insert|lia|lia|].
    intros v Hv. destruct (decide (v = i)) as [->|Hne].
    + eexists. split; [apply list_lookup_insert_eq; unfold in_table in Hi; lia|done].
    + rewrite list_lookup_insert_ne by lia. apply Hd. lia.
Qed.

Lemma wp_Init s :
  length (table s) = Z.to_nat kIntVectorNum -> wp Init (fun _ s' => shows (table s') ∅ /\ world s' = world s) s.
Proof. intros Hl. apply wp_init_loop; [done|done|done|]. intros v Hv. lia. Qed.

(** *** Registration *)

(** The outcome of a search from [from] on: the first free vector, or none. *)
Definition placed (from cb a : Z) (h : gmap Z (Z * Z)) (w : W) (r : Z) (s' : state W) : Prop :=
  world s' = w /\
  ((from <= r < kIntVectorNum /\ h !! r = None /\ (forall v, from <= v < r -> is_Some (h !! v)) /\
    shows (table s') (handle r cb a h)) \/
   (r = kError /\ (forall v, from <= v < kIntVectorNum -> is_Some (h !! v)) /\ shows (table s') h)).

Lemma wp_find_loop n from cb a h s :
  shows (table s) h -> 0 <= from -> from + Z.of_nat n = kIntVectorNum ->
  wp (find_loop n from cb a) (placed from cb a h (world s)) s.
Proof.
  intros Hs. revert from. induction n as [|n IH]; intros from H0 Hn; cbn [find_loop].
  - apply wp_ret. split; [done|]. right. split_and!; [done| |done]. intros v Hv. lia.
  - assert (in_table from) as Hi by (unfold in_table; lia). destruct (sh_entry _ _ Hs from Hi) as (c & Ec & Hc).
    apply wp_bind. eapply wp_entry; [done|exact Ec|].
    assert (exists f, callback c = Some f /\ (f = 0 <-> h !! from = None)) as (f & Ef & Hf).
    { destruct (h !! from) as [[f a']|]; [destruct Hc as [Hf ->]|]; eexists; (split; [done|]); naive_solver. }
    apply wp_bind. rewrite Ef. apply wp_ret. destruct (Z.eqb_spec f 0) as [E|E].
    + eapply wp_assign; [done|done|exact Ec|].
      intros t Ht. apply wp_ret. split; [done|]. left. split_and!; [lia|unfold in_table in Hi; lia|by apply Hf| |done].
      intros v Hv. lia.
    + assert (is_Some (h !! from)) as Hfr.
      { destruct (h !! from) eqn:Eh; [by eexists|]. by destruct E; apply Hf. }
      eapply wp_mono; [apply IH; lia|]. intros r s' [Hw [(H1 & H2 & H3 & H4)|(-> & H2 & H3)]]; (split; [done|]).
      * left. split_and!; [lia|lia|done| |done]. intros v Hv. destruct (decide (v = from)) as [->|]; [done|]. apply H3. lia.
      * right. split_and!; [done| |done]. intros v Hv. destruct (decide (v = from)) as [->|]; [done|]. apply H2. lia.
Qed.

Lemma wp_SetIntCallback cb a h s :
  shows (table s) h -> wp (SetIntCallback cb a) (placed 32 cb a h (world s)) s.
Proof. intros Hs. by apply wp_find_loop. Qed.

Lemma wp_SetExceptionCallback v cb a h s :
  shows (table s) h -> in_table v ->
  wp (SetExceptionCallback v cb a) (fun _ s' => shows (table s') (handle v cb a h) /\ world s' = world s) s.
Proof.
  intros Hs Hv. destruct (sh_entry _ _ Hs v Hv) as (c & Ec & _). unfold SetExceptionCallback.
  apply wp_bind. eapply wp_entry; [done|exact Ec|]. eapply wp_assign; [done|done|exact Ec|]. intros t Ht. by apply wp_ret.
Qed.

(** *** Interrupts *)

(** Once the vector is read, the registered callback runs, and nothing else. *)
Lemma process_runs s s1 s2 v h :
  OldRead s = Done (v, s1) -> Return 0 s1 = Done (tt, s2) -> shows (table s2) h -> in_table v ->
  ProcessInterrupt s =
    match h !! v with
    | Some (f, a) => (invoke f a;; mret (true, v)) s2
    | None => Done ((false, v), s2)
    end.
Proof.
  intros E1 E2 Hs Hv. destruct (sh_entry _ _ Hs v Hv) as (c & Ec & Hc).
  unfold ProcessInterrupt. unfold mbind at 1, M_bind. rewrite E1. unfold mbind at 1, M_bind. rewrite E2.
  unfold mbind at 1, M_bind, entry at 1. rewrite (in_table_true v Hv), Ec.
  destruct (h !! v) as [[f a]|].
  { destruct Hc as [Hf ->]. unfold mbind, M_bind. cbn. by destruct (Z.eqb_spec f 0). }
  unfold mbind, M_bind. by rewrite Hc.
Qed.

Lemma process_outside s s1 s2 v :
  OldRead s = Done (v, s1) -> Return 0 s1 = Done (tt, s2) -> ~ in_table v -> ProcessInterrupt s = Fault Undefined.
Proof.
  intros E1 E2 Hv. unfold ProcessInterrupt. unfold mbind at 1, M_bind. rewrite E1. unfold mbind at 1, M_bind. rewrite E2.
  unfold mbind at 1, M_bind, entry at 1. destruct (_ && _) eqn:E; [|done]. destruct Hv. unfold in_table. lia.
Qed.

(** *** A sequence of registrations *)

Fixpoint register_all (l : list (Z * Z)) : M (state W) (list Z) :=
  match l with
  | [] => mret []
  | (cb, a) :: rest => r ← SetIntCallback cb a; rs ← register_all rest; mret (r :: rs)
  end.

(** The vector of the [k]-th registration. *)
Definition vector_of (k : nat) : Z := if Z.of_nat k <? 224 then 32 + Z.of_nat k else kError.

(** The handlers are those of the list, from vector 32 on. *)
Definition held (l : list (Z * Z)) (h : gmap Z (Z * Z)) : Prop :=
  forall v, h !! v = if decide (32 <= v < kIntVectorNum) then l !! Z.to_nat (v - 32) else None.

Lemma held_next pre cb a h w r s' :
  held pre h -> cb <> 0 -> placed 32 cb a h w r s' ->
  r = vector_of (length pre) /\ exists h', shows (table s') h' /\ held (pre ++ [(cb, a)]) h'.
Proof.
  intros Hh Hcb [_ [(Hr & Hf & Hb & Hs)|(-> & Hall & Hs)]]; unfold vector_of.
  - assert (Z.of_nat (length pre) = r - 32) as El.
    { rewrite Hh, decide_True in Hf by done. apply lookup_ge_None in Hf.
      destruct (decide (Z.of_nat (length pre) = r - 32)) as [|Hne]; [done|].
      destruct (Hb (32 + Z.of_nat (length pre)) ltac:(lia)) as [x Hx].
      rewrite Hh, decide_True in Hx by lia. apply lookup_lt_Some in Hx. lia. }
    split; [unfold kIntVectorNum in Hr; destruct (Z.ltb_spec (Z.of_nat (length pre)) 224); lia|].
    eexists. split; [exact Hs|]. intros v. unfold handle. destruct (Z.eqb_spec cb 0) as [|_]; [done|].
    destruct (decide (v = r)) as [->|Hne].
    + rewrite lookup_insert_eq, decide_True by done. replace (Z.to_nat (r - 32)) with (length pre) by lia.
      by rewrite lookup_app_r, Nat.sub_diag by lia.
    + rewrite lookup_insert_ne, Hh by done. destruct (decide (32 <= v < kIntVectorNum)) as [Hv|]; [|done].
      destruct (decide (v < r)).
      * rewrite lookup_app_l by lia. done.
      * rewrite (lookup_ge_None_2 pre), lookup_ge_None_2; [done|rewrite length_app; cbn; lia|lia].
  - assert (224 <= Z.of_nat (length pre)) as El.
    { destruct (Hall 255 ltac:(done)) as [x Hx]. rewrite Hh, decide_True in Hx by done. apply lookup_lt_Some in Hx. lia. }
    split; [destruct (Z.ltb_spec (Z.of_nat (length pre)) 224); [lia|done]|].
    exists h. split; [exact Hs|]. intros v. rewrite Hh. unfold kIntVectorNum in *.
    destruct (decide (32 <= v < 256)); [|done]. by rewrite lookup_app_l by lia.
Qed.

Lemma wp_register_all l pre h s :
  Forall (fun x => x.1 <> 0) l -> shows (table s) h -> held pre h ->
  wp (register_all l) (fun rs s' => rs = vector_of <$> seq (length pre) (length l) /\ world s' = world s /\
    exists h', shows (table s') h' /\ held (pre ++ l) h') s.
Proof.
  revert pre h s. induction l as [|[cb a] l IH]; intros pre h s Hl Hs Hh; cbn [register_all].
  - apply wp_ret. split_and!; [done|done|]. exists h. by rewrite app_nil_r.
  - apply Forall_cons in Hl as [Hcb Hl]. apply wp_bind. eapply wp_mono; [by apply wp_SetIntCallback|].
    intros r s1 Hp. destruct (held_next pre cb a h (world s) r s1 Hh Hcb Hp) as (-> & h1 & Hs1 & Hh1).
    apply wp_bind. eapply wp_mono; [by apply (IH (pre ++ [(cb, a)]) h1)|].
    intros rs s2 (-> & Hw & h2 & Hs2 & Hh2). apply wp_ret. rewrite length_app in *. cbn [length] in *.
    rewrite Nat.add_1_r. split_and!; [done|rewrite Hw; apply Hp|]. exists h2. by rewrite <- app_assoc in Hh2.
Qed.

(** C32: the vectors of an [InterruptController].  After [Init], the registrations get the
    vectors 32, 33, ... in order, 224 of them, and the ones that follow get kError
    without displacing a handler.  An interrupt then runs the callback registered for
    its vector, with its argument, after the channel is answered, and reports true;
    without one it reports false and runs nothing.  The vector the channel delivers is
    not checked: one outside the table is undefined behaviour. *)
Theorem controller_vectors (l : list (Z * Z)) (s : state W)
    (Hlen : length (table s) = Z.to_nat kIntVectorNum) (Hl : Forall (fun x => x.1 <> 0) l) :
  wp (Init;; register_all l) (fun rs s' =>
    rs = vector_of <$> seq 0 (length l) /\ world s' = world s /\
    forall v s1 s2, OldRead s' = Done (v, s1) -> Return 0 s1 = Done (tt, s2) -> table s2 = table s' ->
      ProcessInterrupt s' =
        if decide (in_table v) then
          match (if decide (32 <= v) then l !! Z.to_nat (v - 32) else None) with
          | Some (f, a) => (invoke f a;; mret (true, v)) s2
          | None => Done ((false, v), s2)
          end
        else Fault Undefined) s.
Proof.
  apply wp_bind. eapply wp_mono; [by apply wp_Init|]. intros [] s0 [Hs0 Hw0].
  eapply wp_mono; [apply (wp_register_all l [] ∅); [done|done|]|].
  { intros v. rewrite lookup_empty, lookup_nil. by destruct (decide _). }
  intros rs s' (-> & Hw & h & Hs & Hh). split_and!; [done|congruence|].
  intros v s1 s2 E1 E2 Et. destruct (decide (in_table v)) as [Hv|Hv]; [|by eapply process_outside].
  rewrite (process_runs s' s1 s2 v h E1 E2) by (try rewrite Et; done). rewrite Hh. unfold in_table in Hv.
  by destruct (decide (32 <= v)), (decide (32 <= v < kIntVectorNum)); try lia.
Qed.

(** *** Every sequence of calls *)

(** The state the operations rely on: each callback is determinate, and each that is
    not null has a determinate argument. *)
Definition typed (s : state W) : Prop := exists h, shows (table s) h.

(** The vectors that are passed in the calls are vectors. *)
Definition op_ok (o : operation) : Prop :=
  match o with OpSetException v _ _ => in_table v | _ => True end.

(** A computation that keeps the table typed if it ends, and fails, if at all, by leaving
    the table. *)
Definition guarded {A} (c : M (state W) A) (s : state W) : Prop :=
  match c s with Done (_, s') => typed s' | Fault f => f = Undefined end.

Lemma guarded_ret {A} (a : A) s : typed s -> guarded (mret a) s.
Proof. done. Qed.

Lemma guarded_bind {A B} (c : M (state W) A) (k : A -> M (state W) B) s :
  guarded c s -> (forall a s', typed s' -> guarded (k a) s') -> guarded (c ≫= k) s.
Proof.
  unfold guarded, mbind, M_bind. intros Hc Hk. destruct (c s) as [[a s']|f]; [by apply Hk|done].
Qed.

Lemma guarded_wp {A} (c : M (state W) A) s : wp c (fun _ s' => typed s') s -> guarded c s.
Proof. unfold guarded, wp. by destruct (c s) as [[a s']|f]. Qed.

Section Guarded.
Hypothesis read_keeps : forall s, typed s -> guarded OldRead s.
Hypothesis return_keeps : forall r s, typed s -> guarded (Return r) s.
Hypothesis invoke_keeps : forall f a s, typed s -> guarded (invoke f a) s.

Lemma outside_entry v s : ~ in_table v -> entry v s = Fault Undefined.
Proof. intros Hv. unfold entry. destruct (_ && _) eqn:E; [|done]. destruct Hv. unfold in_table. lia. Qed.

Lemma guarded_process s : typed s -> guarded ProcessInterrupt s.
Proof.
  intros Hs. apply guarded_bind; [by apply read_keeps|]. intros v s1 H1.
  apply guarded_bind; [by apply return_keeps|]. intros [] s2 [h H2].
  destruct (decide (in_table v)) as [Hv|Hv].
  - destruct (sh_entry _ _ H2 v Hv) as (c & Ec & Hc).
    unfold guarded, mbind, M_bind, entry. rewrite (in_table_true v Hv), Ec. destruct (h !! v) as [[f a]|].
    + destruct Hc as [Hf ->]. cbn [callback arg determinate mret M_ret]. destruct (Z.eqb_spec f 0); [done|].
      pose proof (invoke_keeps f a s2 ltac:(by exists h)) as Hk. unfold guarded in Hk.
      by destruct (invoke f a s2) as [[u s3]|].
    + rewrite Hc. by exists h.
  - unfold guarded, mbind, M_bind. by rewrite outside_entry.
Qed.

Lemma guarded_perform o s : typed s -> guarded (perform o) s.
Proof.
  intros Hs. pose proof Hs as [h Hh]. destruct o as [cb a|v cb a| |]; cbn [perform].
  - apply guarded_bind; [|intros r s1 H1; by apply guarded_ret]. apply guarded_wp.
    eapply wp_mono; [by apply wp_SetIntCallback|]. intros r s1 [_ Hp].
    destruct Hp as [(_ & _ & _ & Hp)|(_ & _ & Hp)]; by eexists.
  - destruct (decide (in_table v)) as [Hv|Hv].
    + apply guarded_wp. eapply wp_mono; [by eapply wp_SetExceptionCallback|]. intros [] s1 [Hp _]. by eexists.
    + unfold guarded, SetExceptionCallback, mbind, M_bind. by rewrite outside_entry.
  - apply guarded_bind; [by apply guarded_process|]. intros r s1 Hp. by apply guarded_ret.
  - apply guarded_wp. eapply wp_mono; [apply wp_Init, (sh_length _ _ Hh)|]. intros [] s1 [Hp _]. by eexists.
Qed.

Lemma guarded_perform_all os s : typed s -> guarded (perform_all os) s.
Proof.
  revert s. induction os as [|o os IH]; intros s Hs; cbn [perform_all]; [by apply guarded_ret|].
  apply guarded_bind; [by apply guarded_perform|]. intros [] s1 H1. by apply IH.
Qed.
End Guarded.

Section Typed.
Hypothesis read_ok : forall s, typed s -> wp OldRead (fun v s' => in_table v /\ typed s') s.
Hypothesis return_ok : forall r s, typed s -> wp (Return r) (fun _ s' => typed s') s.
Hypothesis invoke_ok : forall f a s, typed s -> wp (invoke f a) (fun _ s' => typed s') s.

Lemma typed_process s : typed s -> wp ProcessInterrupt (fun _ s' => typed s') s.
Proof.
  intros Hs. unfold ProcessInterrupt. apply wp_bind. eapply wp_mono; [by apply read_ok|]. intros v s1 [Hv H1].
  apply wp_bind. eapply wp_mono; [by apply return_ok|]. intros [] s2 [h H2].
  destruct (sh_entry _ _ H2 v Hv) as (c & Ec & Hc). apply wp_bind. eapply wp_entry; [done|exact Ec|].
  destruct (h !! v) as [[f a]|].
  - destruct Hc as [Hf ->]. apply wp_bind, wp_ret. destruct (Z.eqb_spec f 0); [done|].
    apply wp_bind, wp_ret. apply wp_bind. eapply wp_mono; [apply invoke_ok; by exists h|].
    intros [] s3 H3. by apply wp_ret.
  - apply wp_bind. rewrite Hc. apply wp_ret. apply wp_ret. by exists h.
Qed.

Lemma typed_perform o s : op_ok o -> typed s -> wp (perform o) (fun _ s' => typed s') s.
Proof.
  intros Ho [h Hs]. destruct o as [cb a|v cb a| |]; cbn [perform].
  - apply wp_bind. eapply wp_mono; [by apply wp_SetIntCallback|]. intros r s1 [_ Hp]. apply wp_ret.
    destruct Hp as [(_ & _ & _ & Hp)|(_ & _ & Hp)]; by eexists.
  - eapply wp_mono; [by eapply wp_SetExceptionCallback|]. intros [] s1 [Hp _]. by eexists.
  - apply wp_bind. eapply wp_mono; [apply typed_process; by exists h|]. intros r s1 Hp. by apply wp_ret.
  - eapply wp_mono; [apply wp_Init, (sh_length _ _ Hs)|]. intros [] s1 [Hp _]. by eexists.
Qed.

Lemma typed_perform_all os s : Forall op_ok os -> typed s -> wp (perform_all os) (fun _ s' => typed s') s.
Proof.
  revert s. induction os as [|o os IH]; intros s Ho Hs; cbn [perform_all]; [by apply wp_ret|].
  apply Forall_cons in Ho as [Ho Hos]. apply wp_bind. eapply wp_mono; [by apply typed_perform|].
  intros [] s1 H1. by apply IH.
Qed.
End Typed.

(** C31: type safety of an [InterruptController]: when [Init] is called first, no sequence
    of calls uses an indeterminate callback or argument, whatever the fresh object held
    and whatever vectors the channel delivers or the client passes: [Init] sets the
    callbacks, and each registration the callback and its argument.  A run that ends
    leaves the table typed, and the only way to fail is to leave the table with a vector,
    which nothing checks.  If the channel delivers vectors of the table only, and those
    passed to [SetExceptionCallback] are such, no run fails.  (The channel and the callbacks
    are taken to keep these rules themselves: they use the controller, if at all, through
    its operations.) *)
Theorem controller_type_safe (os : list operation) (s : state W)
    (read_keeps : forall s, typed s -> guarded OldRead s)
    (return_keeps : forall r s, typed s -> guarded (Return r) s)
    (invoke_keeps : forall f a s, typed s -> guarded (invoke f a) s)
    (Hlen : length (table s) = Z.to_nat kIntVectorNum) :
  guarded (Init;; perform_all os) s /\
  ((forall s, typed s -> wp OldRead (fun v s' => in_table v /\ typed s') s) ->
   (forall r s, typed s -> wp (Return r) (fun _ s' => typed s') s) ->
   (forall f a s, typed s -> wp (invoke f a) (fun _ s' => typed s') s) ->
   Forall op_ok os -> wp (Init;; perform_all os) (fun _ s' => typed s') s).
Proof.
  split.
  - apply guarded_bind; [|intros [] s1 H1; by apply guarded_perform_all].
    apply guarded_wp. eapply wp_mono; [by apply wp_Init|]. intros [] s1 [H1 _]. by exists ∅.
  - intros Hr Hret Hi Hos. apply wp_bind. eapply wp_mono; [by apply wp_Init|]. intros [] s1 [H1 _].
    apply typed_perform_all; [done|done|done|done|]. by exists ∅.
Qed.
End Operations.

(** ** A controller whose callbacks register another one *)

(** The channel delivers the vectors of a list, 0 at its end; the callback records its
    argument and registers itself again. *)
Definition demo_read : M (state (list Z * list Z)) Z := fun s =>
  Done (hd 0 (world s).1 mod 256, mkState (table s) (tl (world s).1, (world s).2)).

Definition demo_return (r : Z) : M (state (list Z * list Z)) unit := mret tt.

Definition demo_outside : Outside (list Z * list Z) := {|
  OldRead := demo_read;
  Return := demo_return;
  invoke f a :=
    (fun s => Done (tt, mkState (table s) ((world s).1, a :: (world s).2)));; SetIntCallback f (a + 1);; mret tt
|}.

Definition demo_state : state (list Z * list Z) :=
  mkState (replicate (Z.to_nat kIntVectorNum) (mkCallback None None)) ([33; 32; 7], []).

Lemma demo_read_ok s : typed s -> wp demo_read (fun v s' => in_table v /\ typed s') s.
Proof.
  intros [h Hs]. unfold wp, demo_read. split; [|by exists h]. unfold in_table, kIntVectorNum.
  by apply Z.mod_pos_bound.
Qed.

Lemma demo_invoke_ok f a s :
  typed s -> wp (invoke (Outside := demo_outside) f a) (fun _ s' => typed s') s.
Proof.
  intros [h Hs]. apply wp_bind. unfold wp. apply wp_bind.
  eapply wp_mono; [apply wp_SetIntCallback; exact Hs|]. intros r s1 [_ Hp]. apply wp_ret.
  destruct Hp as [(_ & _ & _ & Hp)|(_ & _ & Hp)]; by eexists.
Qed.
End InterruptController.

Lemma controller_vectors_witness :
  length (InterruptController.table InterruptController.demo_state) = Z.to_nat InterruptController.kIntVectorNum /\
  wp (InterruptController.Init;; InterruptController.register_all [(5, 50); (6, 60)]) (fun rs s' => rs = [32; 33] /\
    InterruptController.ProcessInterrupt (H := InterruptController.demo_outside) s' =
      (InterruptController.invoke (Outside := InterruptController.demo_outside) 6 60;; mret (true, 33))
        (InterruptController.mkState (InterruptController.table s') ([32; 7], []))) InterruptController.demo_state.
Proof.
  split; [by vm_compute|].
  eapply wp_mono; [apply (InterruptController.controller_vectors (H := InterruptController.demo_outside) [(5, 50); (6, 60)]);
    [by vm_compute|by repeat constructor]|].
  intros rs s' (-> & Hw & Hp). split; [done|].
  rewrite (Hp 33 (InterruptController.mkState (InterruptController.table s') ([32; 7], []))
    (InterruptController.mkState (InterruptController.table s') ([32; 7], []))); [done| |done|done].
  change (InterruptController.demo_read s' = Done (33, InterruptController.mkState (InterruptController.table s') ([32; 7], []))).
  unfold InterruptController.demo_read. by rewrite Hw.
Defined.

Lemma controller_type_safe_witness :
  let os := [InterruptController.OpSetInt 5 50; InterruptController.OpSetException 14 8 80;
             InterruptController.OpProcess; InterruptController.OpProcess; InterruptController.OpProcess] in
  let run os := InterruptController.Init;; InterruptController.perform_all (H := InterruptController.demo_outside) os in
  InterruptController.guarded (run (os ++ [InterruptController.OpSetException 256 8 80])) InterruptController.demo_state /\
  wp (run os) (fun _ s' => InterruptController.typed s') InterruptController.demo_state.
Proof.
  pose proof InterruptController.demo_read_ok as H1. pose proof InterruptController.demo_invoke_ok as H3.
  assert (forall s, InterruptController.typed s -> InterruptController.guarded InterruptController.demo_read s) as G1.
  { intros s Hs. apply InterruptController.guarded_wp. eapply wp_mono; [by apply H1|]. by intros v s' [_ ?]. }
  assert (forall f a s, InterruptController.typed s ->
    InterruptController.guarded (InterruptController.invoke (Outside := InterruptController.demo_outside) f a) s) as G3.
  { intros f a s Hs. by apply InterruptController.guarded_wp, H3. }
  assert (length (InterruptController.table InterruptController.demo_state) =
    Z.to_nat InterruptController.kIntVectorNum) as Hl by (by vm_compute).
  intros os run. pose proof (fun os' => InterruptController.controller_type_safe (H := InterruptController.demo_outside)
    os' InterruptController.demo_state G1 (fun r s Hs => Hs) G3 Hl) as Hc.
  split; [exact (proj1 (Hc (os ++ [InterruptController.OpSetException 256 8 80])))|].
  refine (proj2 (Hc os) H1 (fun r s Hs => Hs) H3 _). by repeat constructor.
Defined.
