(* ===== verification/OffloadTests.v ===== *)
(** * OffloadTests: common/tests/offload.cc

    The unit test of the offloader: threads of one process that offload increments of
    their variables, and a receiver thread that serves them.  The threads are friend
    cores of the hand-over of [Offload], the receiver its host; a step of the test is a
    step of the hand-over together with what it does to the threads' variables, and the
    receiver serves only as long as it finds [stop] 0. *)

From S2P Require Import Prelude Offload.
Import Protocol.

Module OffloadTests.

(** What the code in an [_OFFLOAD] does to the variable of its thread. *)
Definition code : Type := Z -> Z.

Definition run_codes (cs : list code) (v : Z) : Z := fold_left (fun v f => f v) cs v.

(** The hand-over, how many of its iterations each thread has begun, and its
    variable. *)
Record tstate := mkT { proto : state; begun : list nat; vars : list Z }.

Definition begin_at (i : nat) (s : state) : state :=
  mkState (lock s) (word8 s) (word9 s) (friend_ctx s) (hakase_ctx s) (set_friend i FTest s) (hakase s)
    (ran_on_host s) (ran_on_friend s) (completed s).

(** A step in which the code of thread [c] runs, on either side. *)
Definition runs (c : nat) (s s' : state) : Prop :=
  (ran_on_host s' = c :: ran_on_host s /\ ran_on_friend s' = ran_on_friend s) \/
  (ran_on_friend s' = c :: ran_on_friend s /\ ran_on_host s' = ran_on_host s).

Section Test.
(** The iterations of each thread. *)
Context (codes : list (list code)).

Inductive tstep : tstate -> tstate -> Prop :=
| TBegin i k cs t :
    friends (proto t) !! i = Some FIdle -> begun t !! i = Some k -> codes !! i = Some cs -> (k < length cs)%nat ->
    tstep t (mkT (begin_at i (proto t)) (<[i := S k]> (begun t)) (vars t))
| TRun c k cs f v p' t :
    step (proto t) p' -> runs c (proto t) p' ->
    begun t !! c = Some (S k) -> codes !! c = Some cs -> cs !! k = Some f -> vars t !! c = Some v ->
    tstep t (mkT p' (begun t) (<[c := f v]> (vars t)))
| TQuiet p' t :
    step (proto t) p' -> ran_on_host p' = ran_on_host (proto t) -> ran_on_friend p' = ran_on_friend (proto t) ->
    (forall i, friends (proto t) !! i = Some FIdle -> friends p' !! i = Some FIdle) ->
    tstep t (mkT p' (begun t) (vars t)).

Abbreviation tsteps := (rtc tstep).

Definition tinit : tstate :=
  mkT (init (length codes)) (replicate (length codes) 0%nat) (replicate (length codes) 0).

(** All threads are through with their loops. *)
Definition finished (t : tstate) : Prop :=
  forall i cs, codes !! i = Some cs -> friends (proto t) !! i = Some FIdle /\ begun t !! i = Some (length cs).

(** ** What a step of the hand-over does to the logs *)

Definition idle_same (s s' : state) : Prop :=
  length (friends s') = length (friends s) /\
  forall i, friends s' !! i = Some FIdle <-> friends s !! i = Some FIdle.

Inductive effect (s s' : state) : Prop :=
| EBegin i : friends s !! i = Some FIdle -> s' = begin_at i s -> effect s s'
| EEnd i : friends s !! i = Some FUnlock -> friends s' = set_friend i FIdle s ->
    completed s' = i :: completed s -> ran_on_host s' = ran_on_host s -> ran_on_friend s' = ran_on_friend s ->
    effect s s'
| ERun c : hakase s = HCode c -> ran_on_host s' = c :: ran_on_host s -> ran_on_friend s' = ran_on_friend s ->
    friends s' = friends s -> completed s' = completed s -> effect s s'
| EStray c : friends s !! c = Some FCode -> ran_on_friend s' = c :: ran_on_friend s ->
    ran_on_host s' = ran_on_host s -> effect s s'
| EQuiet : idle_same s s' -> completed s' = completed s -> ran_on_host s' = ran_on_host s ->
    ran_on_friend s' = ran_on_friend s -> effect s s'.

Lemma idle_set s s' i p q :
  friends s !! i = Some p -> p <> FIdle -> q <> FIdle -> friends s' = set_friend i q s -> idle_same s s'.
Proof.
  intros Hi Hp Hq E. unfold set_friend in E. split; [rewrite E; apply length_insert|]. intros j. rewrite E.
  destruct (decide (j = i)) as [->|Hne].
  - rewrite list_lookup_insert_eq by (by eapply lookup_lt_Some). rewrite Hi. naive_solver.
  - by rewrite list_lookup_insert_ne.
Qed.

Lemma idle_host s s' : friends s' = friends s -> idle_same s s'.
Proof. intros E. split; by rewrite E. Qed.

Lemma step_effect s s' : step s s' -> effect s s'.
Proof.
  intros Hst.
  destruct Hst as [i s Hi|i s Hi|i s Hi|i s Hi|i s Hi|i s Hi|i c t s Hi Hc|i c t s Hi|i s Hi|i s Hi|i s Hi
    |s Hh|s Hh|s Hh|c t s Hh Hc|c s Hh|c s Hh|s Hh Hc|s Hh].
  1: by eapply EBegin.
  8: by eapply EStray.
  9: by eapply EEnd.
  13: by eapply ERun.
  all: apply EQuiet; try done; try (by apply idle_host); eapply idle_set; try exact Hi; try done.
  all: by repeat case_match.
Qed.

(** ** The invariant *)

Definition occ (i : nat) (l : list nat) : nat := length (filter (fun j => j = i) l).

Lemma occ_cons i j l : occ i (j :: l) = ((if decide (j = i) then 1 else 0) + occ i l)%nat.
Proof. unfold occ. rewrite filter_cons. by destruct (decide (j = i)). Qed.

Definition in_flight (p : fpc) : nat := if decide (p = FIdle) then 0%nat else 1%nat.

Lemma in_flight_idle : in_flight FIdle = 0%nat.
Proof. by unfold in_flight; rewrite decide_True. Qed.

Lemma in_flight_busy p : p <> FIdle -> in_flight p = 1%nat.
Proof. intros Hp. unfold in_flight. by rewrite decide_False. Qed.

(** Thread [i] with the iterations [cs]: it has completed all it has begun but the one
    in flight, and its variable is what the code the host ran for it makes of 0. *)
Definition thread_ok (i : nat) (cs : list code) (t : tstate) : Prop :=
  exists p k, friends (proto t) !! i = Some p /\ begun t !! i = Some k /\
    k = (occ i (completed (proto t)) + in_flight p)%nat /\ (k <= length cs)%nat /\
    vars t !! i = Some (run_codes (take (occ i (ran_on_host (proto t))) cs) 0).

Record tinv (t : tstate) : Prop := {
  ti_inv : inv (proto t);
  ti_begun : length (begun t) = length codes;
  ti_vars : length (vars t) = length codes;
  ti_threads : forall i cs, codes !! i = Some cs -> thread_ok i cs t
}.

Lemma tinit_inv : tinv tinit.
Proof.
  split; [apply init_inv|apply length_replicate|apply length_replicate|].
  intros i cs Hi. apply lookup_lt_Some in Hi. exists FIdle, 0%nat. cbn [tinit proto begun vars init friends completed ran_on_host].
  rewrite !lookup_replicate_2, in_flight_idle by done. by split_and!; [..|lia|].
Qed.

(** A thread that has nothing in flight has had all its code run. *)
Lemma idle_ran s i : inv s -> friends s !! i = Some FIdle -> occ i (ran_on_host s) = occ i (completed s).
Proof.
  intros [_ _ _ _ _ Hr _|j p _ Hj Hp _ _] Hi; [by rewrite Hr|].
  assert (j <> i) as Hne by (intros ->; rewrite Hi in Hj; injection Hj as <-; by apply phase_critical in Hp).
  assert (ran_on_host s = completed s \/ ran_on_host s = j :: completed s) as [->| ->] by (destruct Hp; auto); [done|].
  rewrite occ_cons. by rewrite decide_False.
Qed.

(** When the host is about to run the code of [c], the last iteration [c] has begun is
    the one it runs. *)
Lemma running_ran s c : inv s -> hakase s = HCode c -> ran_on_host s = completed s /\ friends s !! c = Some FWait.
Proof.
  intros [_ _ _ Hh' _ _ _|i p _ Hi Hp _ _] Hh; [congruence|].
  inversion Hp; subst; try (exfalso; destruct_or?; destruct_and?; congruence). split; [done|congruence].
Qed.

Lemma no_stray s c : inv s -> friends s !! c <> Some FCode.
Proof.
  intros Hinv Hc. destruct (inv_holder s c FCode Hinv Hc I) as (_ & Hp & _). inversion Hp. by destruct_or!.
Qed.

Lemma cons_neq {A} (x : A) l : x :: l <> l.
Proof. intros E. apply (f_equal length) in E. cbn in E. lia. Qed.

Lemma begin_ok i k cs t :
  tinv t -> friends (proto t) !! i = Some FIdle -> begun t !! i = Some k -> codes !! i = Some cs -> (k < length cs)%nat ->
  tinv (mkT (begin_at i (proto t)) (<[i := S k]> (begun t)) (vars t)).
Proof.
  intros [Hinv Hb Hv Ht] Hi Hk Hcs Hlt. split.
  - eapply step_inv; [exact Hinv|by apply StepBegin].
  - cbn [begun]. by rewrite length_insert.
  - done.
  - intros j csj Hj. destruct (Ht j csj Hj) as (p & kj & Hp & Hkj & E & Hle & Hvar).
    unfold thread_ok. cbn [proto begun vars begin_at friends completed ran_on_host]. unfold set_friend. destruct (decide (j = i)) as [->|Hne].
    + simplify_eq. exists FTest, (S (occ i (completed (proto t)) + in_flight FIdle)).
      rewrite !list_lookup_insert_eq by (by eapply lookup_lt_Some). rewrite in_flight_idle, in_flight_busy in * by done.
      split_and!; [done|done|lia|lia|exact Hvar].
    + exists p, kj. by rewrite !list_lookup_insert_ne.
Qed.

Lemma run_ok c k cs f v p' t :
  tinv t -> step (proto t) p' -> runs c (proto t) p' ->
  begun t !! c = Some (S k) -> codes !! c = Some cs -> cs !! k = Some f -> vars t !! c = Some v ->
  tinv (mkT p' (begun t) (<[c := f v]> (vars t))).
Proof.
  intros [Hinv Hb Hv Ht] Hst Hr Hk Hcs Hf Hvc.
  assert (hakase (proto t) = HCode c /\ ran_on_host p' = c :: ran_on_host (proto t) /\
    friends p' = friends (proto t) /\ completed p' = completed (proto t)) as (Hh & Hrun & Hfr & Hco).
  { destruct (step_effect _ _ Hst) as [i Hi ->|i _ _ _ E1 E2|c' Hh E1 E2 E3 E4|c' Hc _ _|_ _ E1 E2].
    - exfalso. destruct Hr as [[E _]|[E _]]; symmetry in E; by apply cons_neq in E.
    - exfalso. destruct Hr as [[E _]|[E _]]; [rewrite E1 in E|rewrite E2 in E]; symmetry in E; by apply cons_neq in E.
    - destruct Hr as [[E _]|[E _]]; [|rewrite E2 in E; symmetry in E; by apply cons_neq in E].
      rewrite E1 in E. injection E as ->. by split_and!.
    - by destruct (no_stray _ _ Hinv Hc).
    - exfalso. destruct Hr as [[E _]|[E _]]; [rewrite E1 in E|rewrite E2 in E]; symmetry in E; by apply cons_neq in E. }
  destruct (running_ran _ _ Hinv Hh) as [Eran Hc]. split.
  - by eapply step_inv.
  - done.
  - cbn [vars]. by rewrite length_insert.
  - intros j csj Hj. destruct (Ht j csj Hj) as (p & kj & Hp & Hkj & E & Hle & Hvar).
    exists p, kj. cbn [proto begun vars]. rewrite Hfr, Hco, Hrun, occ_cons. split_and!; [done|done|done|done|].
    destruct (decide (c = j)) as [<-|Hne].
    + rewrite Hcs in Hj. injection Hj as <-. rewrite Hk in Hkj. injection Hkj as <-.
      rewrite Hc in Hp. injection Hp as <-. rewrite Hvc in Hvar. injection Hvar as ->.
      rewrite list_lookup_insert_eq by (by eapply lookup_lt_Some).
      assert (k = occ c (ran_on_host (proto t))) as -> by (rewrite in_flight_busy in E by done; rewrite Eran; lia).
      change (1 + occ c (ran_on_host (proto t)))%nat with (S (occ c (ran_on_host (proto t)))).
      erewrite (take_S_r (A := code)) by exact Hf. unfold run_codes. by rewrite fold_left_app.
    + by rewrite list_lookup_insert_ne by done.
Qed.

Lemma quiet_ok p' t :
  tinv t -> step (proto t) p' -> ran_on_host p' = ran_on_host (proto t) -> ran_on_friend p' = ran_on_friend (proto t) ->
  (forall i, friends (proto t) !! i = Some FIdle -> friends p' !! i = Some FIdle) ->
  tinv (mkT p' (begun t) (vars t)).
Proof.
  intros [Hinv Hb Hv Ht] Hst Er Ef Hid. split; [by eapply step_inv|done|done|].
  intros j csj Hj. destruct (Ht j csj Hj) as (p & kj & Hp & Hkj & E & Hle & Hvar).
  unfold thread_ok. cbn [proto begun vars]. rewrite Er.
  destruct (step_effect _ _ Hst) as [i Hi ->|i Hi Efr Eco _ _|c' Hh E1 _ _ _|c' Hc _ _|[Hlen Hsame] Eco _ _].
  - specialize (Hid i Hi). cbn in Hid. unfold set_friend in Hid.
    rewrite list_lookup_insert_eq in Hid by (by eapply lookup_lt_Some). done.
  - rewrite Efr, Eco, occ_cons. unfold set_friend. destruct (decide (i = j)) as [->|Hne].
    + simplify_eq. exists FIdle, (occ j (completed (proto t)) + in_flight FUnlock)%nat.
      rewrite list_lookup_insert_eq by (by eapply lookup_lt_Some). rewrite in_flight_idle, in_flight_busy in * by done.
      split_and!; [done|done|lia|done|exact Hvar].
    + exists p, kj. rewrite list_lookup_insert_ne by done. by split_and!.
  - rewrite Er in E1. symmetry in E1. by apply cons_neq in E1.
  - by destruct (no_stray _ _ Hinv Hc).
  - destruct (lookup_lt_is_Some_2 (friends p') j) as [q Hq]; [rewrite Hlen; by eapply lookup_lt_Some|].
    exists q, kj. rewrite Eco. split_and!; [done|done| |done|done].
    rewrite E. unfold in_flight. specialize (Hsame j). rewrite Hq, Hp in Hsame.
    destruct (decide (p = FIdle)) as [->|], (decide (q = FIdle)) as [->|]; try done; naive_solver.
Qed.

Lemma tstep_inv t t' : tinv t -> tstep t t' -> tinv t'.
Proof. intros Ht Hst. destruct Hst; [by eapply begin_ok|by eapply run_ok|by apply quiet_ok]. Qed.

Lemma tsteps_inv t t' : tinv t -> tsteps t t' -> tinv t'.
Proof. intros Hi Hs. induction Hs as [|t1 t2 t3 H12 _ IH]; [done|]. apply IH. by eapply tstep_inv. Qed.

(** At the end each variable is what its thread's code makes of it, one run each. *)
Lemma finished_vars t : tinv t -> finished t -> vars t = (fun cs => run_codes cs 0) <$> codes.
Proof.
  intros [Hinv Hb Hv Ht] Hf. apply list_eq. intros i. rewrite list_lookup_fmap.
  destruct (codes !! i) as [cs|] eqn:Hi; cbn [fmap option_fmap option_map].
  - destruct (Ht i cs Hi) as (p & k & Hp & Hk & E & _ & ->). destruct (Hf i cs Hi) as [Hp' Hk'].
    rewrite Hp in Hp'. injection Hp' as ->. rewrite Hk in Hk'. injection Hk' as ->.
    rewrite (idle_ran _ i Hinv Hp). rewrite in_flight_idle in E. by rewrite firstn_all2 by lia.
  - apply lookup_ge_None in Hi. apply lookup_ge_None. lia.
Qed.

(** ** The test can always go on to its end *)

(** A step of the holder of the lock is a step of the test. *)
Lemma holder_tstep i p s' p' t cs :
  tinv t -> codes !! i = Some cs -> friends (proto t) !! i = Some p -> phase i (proto t) p ->
  step (proto t) s' -> moved i (proto t) s' p' ->
  exists vs, tstep t (mkT s' (begun t) vs).
Proof.
  intros Ht Hcs Hi Hp Hst (M1 & M2 & M3). pose proof (ti_inv _ Ht) as Hinv.
  destruct (step_effect _ _ Hst) as [j Hj ->|j _ _ Eco _ _|c Hh E1 E2 _ _|c Hc _ _|[_ Hsame] _ E1 E2].
  - exfalso. destruct (decide (j = i)) as [->|Hne].
    + rewrite Hi in Hj. injection Hj as ->. by apply phase_critical in Hp.
    + specialize (M2 j Hne). cbn in M2. unfold set_friend in M2.
      rewrite list_lookup_insert_eq in M2 by (by eapply lookup_lt_Some). congruence.
  - rewrite M3 in Eco. symmetry in Eco. by apply cons_neq in Eco.
  - destruct (running_ran _ _ Hinv Hh) as [Eran Hc].
    assert (c = i) as ->.
    { destruct (decide (c = i)) as [|Hne]; [done|]. pose proof (phase_critical _ _ _ Hp) as Hcr.
      destruct (inv_holder _ i p Hinv Hi Hcr) as (_ & _ & Ho & _). by destruct (Ho c FWait Hne Hc). }
    destruct (ti_threads _ Ht i cs Hcs) as (q & k & Hq & Hk & E & Hle & Hv).
    rewrite Hc in Hq. injection Hq as <-. rewrite in_flight_busy, Nat.add_1_r in E by done. subst k.
    destruct (lookup_lt_is_Some_2 cs (occ i (completed (proto t)))) as [f Hf]; [lia|].
    eexists. eapply (TRun i); [exact Hst|by left|exact Hk|exact Hcs|exact Hf|exact Hv].
  - by destruct (no_stray _ _ Hinv Hc).
  - eexists. apply TQuiet; [exact Hst|done|done|]. intros j. apply Hsame.
Qed.

(** The thread that holds the lock completes. *)
Lemma holder_tcompletes i p t cs :
  tinv t -> codes !! i = Some cs -> friends (proto t) !! i = Some p -> critical p ->
  exists t', tsteps t t' /\ completed (proto t') = i :: completed (proto t).
Proof.
  remember (fpc_rank (proto t) p) as r eqn:Er. revert t p Er. induction (lt_wf r) as [r _ IH].
  intros t p -> Ht Hcs Hi Hc. destruct (inv_holder _ i p (ti_inv _ Ht) Hi Hc) as (_ & Hp & _).
  destruct (decide (p = FUnlock)) as [->|Hn].
  - eexists. split; [apply rtc_once; apply TQuiet; [by apply StepUnlock|done|done|]|done].
    intros j Hj. cbn. unfold set_friend. destruct (decide (j = i)) as [->|Hne]; [congruence|].
    by rewrite list_lookup_insert_ne.
  - destruct (holder_step i (proto t) p Hi Hp Hn) as (s1 & p1 & Hst & Hm & Hc1 & Hrk).
    destruct (holder_tstep i p s1 p1 t cs Ht Hcs Hi Hp Hst Hm) as [vs Hts]. destruct Hm as (M1 & _ & M3).
    destruct (IH _ Hrk (mkT s1 (begun t) vs) p1 eq_refl) as (t' & Hs' & Eco);
      [by eapply tstep_inv|done|done|done|].
    exists t'. split; [by eapply rtc_l|]. rewrite Eco. cbn [proto]. by rewrite M3.
Qed.

(** A thread that is at its loop, or at the lock while it is free, gets the lock. *)
Lemma takes_lock i p t cs :
  tinv t -> codes !! i = Some cs -> lock (proto t) = 0 -> friends (proto t) !! i = Some p -> ~ critical p ->
  (p = FIdle -> exists k, begun t !! i = Some k /\ (k < length cs)%nat) ->
  exists t', tsteps t t' /\ tinv t' /\ friends (proto t') !! i = Some FSave /\ completed (proto t') = completed (proto t).
Proof.
  intros Ht Hcs Hl Hi Hc Hb.
  assert (forall t q s', tinv t -> friends (proto t) !! i = Some q -> q <> FIdle -> step (proto t) s' ->
    friends s' = set_friend i FCas (proto t) \/ friends s' = set_friend i FSave (proto t) ->
    ran_on_host s' = ran_on_host (proto t) -> ran_on_friend s' = ran_on_friend (proto t) ->
    tstep t (mkT s' (begun t) (vars t))) as Hquiet.
  { intros t0 q s' H0 Hq Hn Hst E E1 E2. apply TQuiet; [done|done|done|]. intros j Hj.
    assert (j <> i) by (intros ->; congruence). destruct E as [-> | ->]; unfold set_friend; by rewrite list_lookup_insert_ne. }
  assert (forall t0, tinv t0 -> lock (proto t0) = 0 -> friends (proto t0) !! i = Some FCas ->
    exists t', tsteps t0 t' /\ tinv t' /\ friends (proto t') !! i = Some FSave /\ completed (proto t') = completed (proto t0)) as Hcas.
  { intros t0 H0 L0 F0. pose proof (StepCas i _ F0) as Hst. rewrite L0 in Hst. cbn [Z.eqb] in Hst.
    pose proof (Hquiet t0 FCas _ H0 F0 ltac:(done) Hst ltac:(by right) eq_refl eq_refl) as Hts.
    eexists. split_and!; [by apply rtc_once|by eapply tstep_inv|cbn; unfold set_friend|done].
    apply list_lookup_insert_eq. by eapply lookup_lt_Some. }
  assert (forall t0, tinv t0 -> lock (proto t0) = 0 -> friends (proto t0) !! i = Some FTest ->
    exists t', tsteps t0 t' /\ tinv t' /\ friends (proto t') !! i = Some FSave /\ completed (proto t') = completed (proto t0)) as Htest.
  { intros t0 H0 L0 F0. pose proof (StepTest i _ F0) as Hst. rewrite L0 in Hst. cbn [Z.eqb] in Hst.
    pose proof (Hquiet t0 FTest _ H0 F0 ltac:(done) Hst ltac:(by left) eq_refl eq_refl) as Hts.
    edestruct Hcas as (t' & S' & I' & F' & C'); [by eapply tstep_inv|done| |].
    - cbn. unfold set_friend. apply list_lookup_insert_eq. by eapply lookup_lt_Some.
    - exists t'. split_and!; [by eapply rtc_l|done|done|done]. }
  destruct p; try (by destruct Hc); [|by apply Htest|by apply Hcas].
  destruct (Hb eq_refl) as (k & Hk & Hlt). pose proof (TBegin i k cs t Hi Hk Hcs Hlt) as Hts.
  edestruct Htest as (t' & S' & I' & F' & C'); [by eapply tstep_inv|done| |].
  - cbn. unfold set_friend. apply list_lookup_insert_eq. by eapply lookup_lt_Some.
  - exists t'. split_and!; [by eapply rtc_l|done|done|done].
Qed.

(** While a thread is not through, some offload can be completed. *)
Lemma one_more t i cs :
  tinv t -> length (friends (proto t)) = length codes -> codes !! i = Some cs ->
  ~ (friends (proto t) !! i = Some FIdle /\ begun t !! i = Some (length cs)) ->
  exists t' j, tsteps t t' /\ completed (proto t') = j :: completed (proto t) /\ (j < length codes)%nat.
Proof.
  intros Ht Hlen Hcs Hn. destruct (ti_inv _ Ht) as [Hl _ _ _ Hcr _ _|j q Hl Hj Hp _ _].
  - destruct (ti_threads _ Ht i cs Hcs) as (p & k & Hi & Hk & E & Hle & _).
    rewrite Forall_lookup in Hcr. pose proof (Hcr _ _ Hi) as Hc.
    destruct (takes_lock i p t cs Ht Hcs Hl Hi Hc) as (t1 & S1 & I1 & F1 & C1).
    { intros ->. exists k. split; [done|]. destruct (decide (k = length cs)) as [->|]; [by destruct Hn|lia]. }
    destruct (holder_tcompletes i FSave t1 cs I1 Hcs F1 I) as (t2 & S2 & C2).
    exists t2, i. split_and!; [by etrans|by rewrite C2, C1|by eapply lookup_lt_Some].
  - assert (j < length codes)%nat as Hlt by (rewrite <- Hlen; by eapply lookup_lt_Some).
    destruct (lookup_lt_is_Some_2 codes j Hlt) as [csj Hcj].
    destruct (holder_tcompletes j q t csj Ht Hcj Hj (phase_critical _ _ _ Hp)) as (t' & S' & C').
    by exists t', j.
Qed.

Lemma step_length s s' : step s s' -> length (friends s') = length (friends s).
Proof. intros []; cbn; unfold set_friend; rewrite ?length_insert; done. Qed.

Lemma tstep_length t t' : tstep t t' -> length (friends (proto t')) = length (friends (proto t)).
Proof.
  intros [i k cs t0 _ _ _ _|c k cs f v p' t0 Hst _ _ _ _ _|p' t0 Hst _ _ _]; cbn [proto]; [|by apply step_length..].
  cbn. unfold set_friend. apply length_insert.
Qed.

Lemma tsteps_length t t' : tsteps t t' -> length (friends (proto t')) = length (friends (proto t)).
Proof. induction 1 as [|t1 t2 t3 H12 _ IH]; [done|]. rewrite IH. by apply tstep_length. Qed.

(** The offloads that are not completed yet. *)
Definition left_of (t : tstate) (i : nat) : nat := (length (default [] (codes !! i)) - occ i (completed (proto t)))%nat.
Definition remaining (t : tstate) : nat := sum_list (left_of t <$> seq 0 (length codes)).

Lemma sum_less (f g : nat -> nat) l j :
  (forall i, (g i <= f i)%nat) -> j ∈ l -> (g j < f j)%nat -> (sum_list (g <$> l) < sum_list (f <$> l))%nat.
Proof.
  intros Hle Hj Hlt. assert (forall l, sum_list (g <$> l) <= sum_list (f <$> l))%nat as Hall.
  { intros l0. induction l0 as [|x l0 IH]; [cbn; lia|]. rewrite !fmap_cons. simpl. specialize (Hle x). lia. }
  induction l as [|x l IH]; [by apply elem_of_nil in Hj|]. rewrite !fmap_cons. simpl. specialize (Hall l). specialize (Hle x).
  apply elem_of_cons in Hj as [->|Hj]; [lia|]. specialize (IH Hj). lia.
Qed.

Lemma remaining_less t t' j :
  tinv t' -> completed (proto t') = j :: completed (proto t) -> (j < length codes)%nat -> (remaining t' < remaining t)%nat.
Proof.
  intros Ht' E Hj. apply (sum_less _ _ _ j).
  - intros i. unfold left_of. rewrite E, occ_cons. lia.
  - apply elem_of_seq. lia.
  - destruct (lookup_lt_is_Some_2 codes j Hj) as [cs Hcs].
    destruct (ti_threads _ Ht' j cs Hcs) as (p & k & _ & _ & Ek & Hle & _).
    unfold left_of. rewrite Hcs, E, occ_cons, decide_True by done. rewrite E, occ_cons, decide_True in Ek by done.
    change (default [] (Some cs)) with cs. lia.
Qed.

Definition thread_done (t : tstate) (i : nat) : Prop :=
  match codes !! i with
  | Some cs => friends (proto t) !! i = Some FIdle /\ begun t !! i = Some (length cs)
  | None => True
  end.

#[local] Instance thread_done_dec t i : Decision (thread_done t i).
Proof. unfold thread_done. destruct (codes !! i); apply _. Defined.

Lemma test_can_finish t :
  tinv t -> length (friends (proto t)) = length codes -> exists t', tsteps t t' /\ finished t'.
Proof.
  remember (remaining t) as r eqn:Er. revert t Er. induction (lt_wf r) as [r _ IH]. intros t -> Ht Hlen.
  destruct (decide (Forall (thread_done t) (seq 0 (length codes)))) as [Hall|Hno].
  - exists t. split; [apply rtc_refl|]. intros i cs Hi. rewrite Forall_forall in Hall.
    specialize (Hall i). unfold thread_done in Hall. rewrite Hi in Hall. apply Hall, elem_of_seq. apply lookup_lt_Some in Hi. lia.
  - apply not_Forall_Exists in Hno; [|apply _].
    apply Exists_exists in Hno as (i & _ & Hi). cbn in Hi. unfold thread_done in Hi. destruct (codes !! i) as [cs|] eqn:Hcs; [|done].
    destruct (one_more t i cs Ht Hlen Hcs Hi) as (t1 & j & S1 & C1 & Hj).
    assert (tinv t1) as I1 by (by eapply tsteps_inv).
    destruct (IH (remaining t1) ltac:(by eapply remaining_less) t1 eq_refl I1) as (t2 & S2 & F2).
    { by rewrite (tsteps_length _ _ S1). }
    exists t2. split; [by etrans|done].
Qed.

(** Every run that ends leaves these variables, and every run can go on to its end. *)
Lemma test_runs :
  (forall t, tsteps tinit t -> finished t -> vars t = (fun cs => run_codes cs 0) <$> codes) /\
  (forall t, tsteps tinit t -> exists t', tsteps t t' /\ finished t').
Proof.
  split.
  - intros t Hs. apply finished_vars. by eapply tsteps_inv; [apply tinit_inv|].
  - intros t Hs. apply test_can_finish; [by eapply tsteps_inv; [apply tinit_inv|]|].
    rewrite (tsteps_length _ _ Hs). apply length_replicate.
Qed.
(** ** The receiver thread *)

(** What the memory of the test fixture holds when the test is set up: nothing
    initialises [Container::stop], nor the words 8 and 9 of the context block. *)
Record container := mkContainer { c_stop : Z; c_word8 : Z; c_word9 : Z }.

(** Where [receiver_thread] is. *)
Inductive rpc :=
| RTest    (* while (!c->stop) *)
| RServe   (* in c->offloader.TryReceive() *)
| REnd.    (* returned *)

Record rstate := mkR { threads : tstate; stop : Z; receiver : rpc }.

(** The threads of the test take their steps whatever the receiver does; the steps of
    [TryReceive] are the receiver's, which tests [stop] before each call; when all loops
    are through, TEST_TEARDOWN sets [stop]. *)
Inductive rstep : rstate -> rstate -> Prop :=
| RThread t' r :
    tstep (threads r) t' -> hakase (proto t') = hakase (proto (threads r)) ->
    rstep r (mkR t' (stop r) (receiver r))
| RLoop r :
    receiver r = RTest -> rstep r (mkR (threads r) (stop r) (if stop r =? 0 then RServe else REnd))
| RNothing r :
    receiver r = RServe -> hakase (proto (threads r)) = HPoll -> word8 (proto (threads r)) = 0 ->
    rstep r (mkR (threads r) (stop r) RTest)
| RReceive t' r :
    receiver r = RServe -> tstep (threads r) t' -> hakase (proto t') <> hakase (proto (threads r)) ->
    rstep r (mkR t' (stop r) (if decide (hakase (proto t') = HPoll) then RTest else RServe))
| RTeardown r :
    finished (threads r) -> rstep r (mkR (threads r) 1 (receiver r)).

Abbreviation rsteps := (rtc rstep).

Definition rinit (c : container) : rstate :=
  mkR (mkT (mkState 0 (c_word8 c) (c_word9 c) None false (replicate (length codes) FIdle) HPoll [] [] [])
         (replicate (length codes) 0%nat) (replicate (length codes) 0)) (c_stop c) RTest.

(** The test body is through, and the receiver has been joined. *)
Definition torn_down (r : rstate) : Prop := finished (threads r) /\ stop r = 1 /\ receiver r = REnd.

(** Nobody is in the macro: the receiver has nothing to do. *)
Lemma finished_free t :
  tinv t -> length (friends (proto t)) = length codes -> finished t ->
  hakase (proto t) = HPoll /\ word8 (proto t) = 0.
Proof.
  intros Ht Hlen Hf. destruct (ti_inv _ Ht) as [_ H8 _ Hh _ _ _|j p _ Hj Hp _ _]; [done|].
  assert (j < length codes)%nat as Hlt by (rewrite <- Hlen; by eapply lookup_lt_Some).
  destruct (lookup_lt_is_Some_2 codes j Hlt) as [cs Hcs]. destruct (Hf j cs Hcs) as [Hi _].
  rewrite Hj in Hi. injection Hi as ->. by apply phase_critical in Hp.
Qed.

Lemma finished_tstep t t' :
  tinv t -> length (friends (proto t)) = length codes -> finished t -> tstep t t' -> finished t'.
Proof.
  intros Ht Hlen Hf Hst. destruct (finished_free t Ht Hlen Hf) as [Hh _].
  destruct Hst as [i k cs t Hi Hk Hcs Hlt|c k cs f v p' t Hst Hr _ _ _ _|p' t Hst _ _ Hid].
  - destruct (Hf i cs Hcs) as [_ Hk']. rewrite Hk in Hk'. injection Hk' as ->. lia.
  - exfalso. pose proof (ti_inv _ Ht) as Hinv. unfold runs in Hr.
    destruct (step_effect _ _ Hst) as [i Hi ->|i _ _ _ E1 E2|c' Hh' _ _ _ _|c' Hc _ _|_ _ E1 E2];
      [cbn in Hr| |congruence|by destruct (no_stray _ _ Hinv Hc)|];
      try rewrite E1, E2 in Hr; destruct Hr as [[E _]|[E _]]; symmetry in E; by apply cons_neq in E.
  - intros i cs Hcs. destruct (Hf i cs Hcs) as [Hi Hk]. split; [by apply Hid|done].
Qed.

(** While [stop] is 0 the receiver keeps serving; it is set when the test is through. *)
Record rinv (r : rstate) : Prop := {
  ri_threads : tsteps tinit (threads r);
  ri_stop : (stop r = 0 /\ receiver r <> REnd) \/ (stop r = 1 /\ finished (threads r))
}.

Lemma reachable_ok t : tsteps tinit t -> tinv t /\ length (friends (proto t)) = length codes.
Proof.
  intros Hs. split; [by eapply tsteps_inv; [apply tinit_inv|]|].
  rewrite (tsteps_length _ _ Hs). apply length_replicate.
Qed.

Lemma rstep_inv r r' : rinv r -> rstep r r' -> rinv r'.
Proof.
  intros [Hs Hst] Hr. destruct (reachable_ok _ Hs) as [Ht Hl].
  destruct Hr as [t' r H1 _|r _|r _ _ _|t' r _ H1 _|r Hf]; split; cbn [threads stop receiver];
    try (exact Hs || (eapply rtc_r; [exact Hs|exact H1])).
  - destruct Hst as [?|[? ?]]; [by left|right]. split; [done|by eapply finished_tstep].
  - destruct Hst as [[-> _]|?]; [left|by right]. by split.
  - destruct Hst as [[? _]|?]; [left|by right]. by split.
  - destruct Hst as [[? _]|[? ?]]; [left|right]; (split; [done|]); [by case_decide|by eapply finished_tstep].
  - by right.
Qed.

Lemma rsteps_inv r r' : rinv r -> rsteps r r' -> rinv r'.
Proof. intros Hi Hs. induction Hs as [|r1 r2 r3 H12 _ IH]; [done|]. apply IH. by eapply rstep_inv. Qed.

(** A receiver that has not been stopped can take its part in every step of the test. *)
Lemma lift_tstep t t' w :
  w <> REnd -> tstep t t' -> exists w', w' <> REnd /\ rsteps (mkR t 0 w) (mkR t' 0 w').
Proof.
  intros Hw Hst. destruct (decide (hakase (proto t') = hakase (proto t))) as [E|Hne].
  { exists w. split; [done|]. apply rtc_once. by apply (RThread t' (mkR t 0 w)). }
  exists (if decide (hakase (proto t') = HPoll) then RTest else RServe). split; [by case_decide|].
  destruct w; [|by apply rtc_once, (RReceive t' (mkR t 0 RServe))|done].
  eapply rtc_l; [by apply (RLoop (mkR t 0 RTest))|]. by apply rtc_once, (RReceive t' (mkR t 0 RServe)).
Qed.

Lemma lift_tsteps t t' w :
  w <> REnd -> tsteps t t' -> exists w', w' <> REnd /\ rsteps (mkR t 0 w) (mkR t' 0 w').
Proof.
  intros Hw Hs. revert w Hw. induction Hs as [t|t1 t2 t3 H12 _ IH]; intros w Hw; [by exists w|].
  destruct (lift_tstep t1 t2 w Hw H12) as (w1 & Hw1 & S1). destruct (IH w1 Hw1) as (w2 & Hw2 & S2).
  exists w2. split; [done|by etrans].
Qed.

(** A stopped receiver ends. *)
Lemma receiver_ends t w :
  tinv t -> length (friends (proto t)) = length codes -> finished t ->
  rsteps (mkR t 1 w) (mkR t 1 REnd).
Proof.
  intros Ht Hl Hf. destruct (finished_free t Ht Hl Hf) as [Hh H8].
  assert (rsteps (mkR t 1 RTest) (mkR t 1 REnd)) as Hend by (by apply rtc_once, (RLoop (mkR t 1 RTest))).
  destruct w; [exact Hend| |apply rtc_refl].
  eapply rtc_l; [|exact Hend]. by apply (RNothing (mkR t 1 RServe)).
Qed.

Lemma can_tear_down r : rinv r -> exists r', rsteps r r' /\ torn_down r'.
Proof.
  intros [Hs Hst]. destruct (reachable_ok _ Hs) as [Ht Hl]. destruct r as [t st w]. cbn [threads stop receiver] in *.
  destruct Hst as [[-> Hw]|[-> Hf]].
  - destruct (test_can_finish t Ht Hl) as (t1 & S1 & F1).
    destruct (lift_tsteps t t1 w Hw S1) as (w1 & _ & S2).
    destruct (reachable_ok t1) as [Ht1 Hl1]; [by etrans|].
    exists (mkR t1 1 REnd). split; [|done]. etrans; [exact S2|].
    eapply rtc_l; [by apply (RTeardown (mkR t1 0 w1))|]. by apply receiver_ends.
  - exists (mkR t 1 REnd). split; [by apply receiver_ends|done].
Qed.

(** A receiver that finds [stop] set at the start never serves. *)
Record deaf (r : rstate) : Prop := {
  df_threads : tsteps tinit (threads r);
  df_stop : stop r <> 0;
  df_receiver : receiver r <> RServe;
  df_host : hakase (proto (threads r)) = HPoll;
  df_ran : ran_on_host (proto (threads r)) = []
}.

Section Deaf.
Context (i : nat) (cs : list code).
Hypothesis Hcs : codes !! i = Some cs.
Hypothesis Hne : cs <> [].

Lemma deaf_nothing r : deaf r -> completed (proto (threads r)) = [] /\ ~ finished (threads r).
Proof.
  intros [H1 _ _ _ H5]. destruct (reachable_ok _ H1) as [Ht _].
  assert (completed (proto (threads r)) = []) as Hc.
  { destruct (ti_inv _ Ht) as [_ _ _ _ _ Hr _|j p _ _ Hp _ _]; [by rewrite <- Hr|].
    assert (ran_on_host (proto (threads r)) = completed (proto (threads r)) \/
      ran_on_host (proto (threads r)) = j :: completed (proto (threads r))) as [E|E] by (destruct Hp; auto); congruence. }
  split; [done|]. intros Hf. destruct (Hf i cs Hcs) as [Hi Hk].
  destruct (ti_threads _ Ht i cs Hcs) as (p & k & Hp & Hk' & Ek & _ & _).
  rewrite Hi in Hp. injection Hp as <-. rewrite Hk in Hk'. injection Hk' as <-.
  rewrite Hc, in_flight_idle in Ek. by destruct cs.
Qed.

Lemma deaf_step r r' : deaf r -> rstep r r' -> deaf r'.
Proof.
  intros Hd Hr. pose proof (deaf_nothing r Hd) as [_ Hnf]. destruct Hd as [H1 H2 H3 H4 H5].
  destruct Hr as [t' r Hst Eh|r _|r Hc _ _|t' r Hc _ _|r Hf]; [| |done|done|done].
  - split; cbn [threads stop receiver]; [by eapply rtc_r|done|done|congruence|].
    destruct (reachable_ok _ H1) as [Ht _].
    destruct Hst as [j k csj t _ _ _ _|c k csj f v p' t Hst Hr _ _ _ _|p' t Hst Er _ _]; cbn [proto] in *; [done| |congruence].
    destruct (step_effect _ _ Hst) as [j Hj ->|j _ _ _ E1 E2|c' Hh _ _ _ _|c' Hc _ _|_ _ E1 E2];
      [done|congruence|congruence|by destruct (no_stray _ _ (ti_inv _ Ht) Hc)|congruence].
  - split; cbn [threads stop receiver]; try done. by rewrite (proj2 (Z.eqb_neq _ _)).
Qed.

Lemma deaf_steps r r' : deaf r -> rsteps r r' -> deaf r'.
Proof. intros Hi Hs. induction Hs as [|r1 r2 r3 H12 _ IH]; [done|]. apply IH. by eapply deaf_step. Qed.
End Deaf.

(** In memory of zeros every run of the test can go on until it is torn down, and
    every run whose loops are through has these variables; with [stop] set nothing ever
    completes. *)
Lemma receiver_runs :
  (forall r, rsteps (rinit (mkContainer 0 0 0)) r -> finished (threads r) ->
     vars (threads r) = (fun cs => run_codes cs 0) <$> codes) /\
  (forall r, rsteps (rinit (mkContainer 0 0 0)) r -> exists r', rsteps r r' /\ torn_down r') /\
  (forall st r, st <> 0 -> (exists i cs, codes !! i = Some cs /\ cs <> []) ->
     rsteps (rinit (mkContainer st 0 0)) r -> completed (proto (threads r)) = [] /\ ~ finished (threads r)).
Proof.
  assert (rinv (rinit (mkContainer 0 0 0))) as Hi by (split; [apply rtc_refl|by left]).
  split_and!.
  - intros r Hs. apply (proj1 test_runs). by apply (rsteps_inv _ _ Hi Hs).
  - intros r Hs. apply can_tear_down. by apply (rsteps_inv _ _ Hi Hs).
  - intros st r Hst (i & cs & Hcs & Hne) Hs. apply (deaf_nothing i cs Hcs Hne).
    eapply (deaf_steps i cs Hcs Hne); [|exact Hs]. by split.
Qed.
End Test.

(** ** The tests *)

Definition test_func (i : Z) : Z := sext 32 (i + 1).
Definition increment (v : Z) : Z := sext 32 (v + 1).
Definition decrement (v : Z) : Z := sext 32 (v - 1).

(** [rand() % 20 + 10] *)
Definition iterations (rand : Z) : Z := rand mod 20 + 10.

(** A test: the iterations of its threads, and its check of the variables at the end. *)
Record test := mkTest { t_codes : list (list code); t_check : list Z -> bool }.

Definition first_var (vs : list Z) : Z := default 0 (vs !! 0%nat).

Definition MultipleExecution (rand : Z) : test :=
  let n := iterations rand in
  mkTest [replicate (Z.to_nat n) increment] (fun vs => n =? first_var vs).

(** [r] is the list of the values of [rand() % 2]; the test runs one loop that counts
    on both sides. *)
Definition ComplexMultipleExecution (r : list Z) : test :=
  mkTest [(fun x => if negb (x =? 0) then increment else decrement) <$> r]
    (fun vs => fold_left (fun o x => if negb (x =? 0) then sext 32 (o + 1) else sext 32 (o - 1)) r 0 =? first_var vs).

Definition MultipleExecutionWithFunctionCall (rand : Z) : test :=
  let n := iterations rand in
  mkTest [replicate (Z.to_nat n) test_func] (fun vs => n =? first_var vs).

(** [MultipleThreadSubFunc] of each thread, with its own [rand()]; [tc->i -= n] after the
    loop, and the sum over the threads. *)
Definition MultipleThread (rands : list Z) : test :=
  mkTest ((fun rand => replicate (Z.to_nat (iterations rand)) test_func) <$> rands)
    (fun vs => 0 =? fold_left (fun sum x => sext 32 (sum + x))
       (zip_with (fun i rand => sext 32 (i - iterations rand)) vs rands) 0).

(** When the fixture is set up in memory that holds 0, the test passes in every
    interleaving of its threads with the receiver, and every interleaving can go on until
    the receiver is joined. *)
Definition passes (x : test) : Prop :=
  let run := rtc (rstep (t_codes x)) in
  let start := rinit (t_codes x) (mkContainer 0 0 0) in
  (forall r, run start r -> finished (t_codes x) (threads r) -> t_check x (vars (threads r)) = true) /\
  (forall r, run start r -> exists r', run r r' /\ torn_down (t_codes x) r').

(** When [stop] holds anything else, no offload completes and the test never ends. *)
Definition hangs (x : test) : Prop := forall st r, st <> 0 ->
  rtc (rstep (t_codes x)) (rinit (t_codes x) (mkContainer st 0 0)) r ->
  completed (proto (threads r)) = [] /\ ~ finished (t_codes x) (threads r).

Lemma passes_when x : t_check x ((fun cs => run_codes cs 0) <$> t_codes x) = true -> passes x.
Proof.
  intros Hc. destruct (receiver_runs (t_codes x)) as (H1 & H2 & _). split; [|done].
  intros r Hs Hf. by rewrite (H1 r Hs Hf).
Qed.

Lemma hangs_when x cs css : t_codes x = cs :: css -> cs <> [] -> hangs x.
Proof.
  intros Hx Hne st r Hst. destruct (receiver_runs (t_codes x)) as (_ & _ & H3). apply H3; [done|].
  exists 0%nat, cs. by rewrite Hx.
Qed.

Lemma iterations_range rand : 10 <= iterations rand < 30.
Proof. unfold iterations. pose proof (Z.mod_pos_bound rand 20 ltac:(done)). lia. Qed.

Lemma run_increments f n v :
  (forall v, f v = sext 32 (v + 1)) -> 0 <= v -> v + Z.of_nat n < 2 ^ 31 ->
  run_codes (replicate n f) v = v + Z.of_nat n.
Proof.
  intros Hf. revert v. induction n as [|n IH]; intros v Hv Hn; [cbn; lia|].
  cbn [replicate]. unfold run_codes in *. cbn [fold_left]. rewrite Hf, sext_of_sint by (done || (unfold sint; lia)). rewrite IH; lia.
Qed.

Lemma run_iterations f rand :
  (forall v, f v = sext 32 (v + 1)) -> run_codes (replicate (Z.to_nat (iterations rand)) f) 0 = iterations rand.
Proof.
  intros Hf. pose proof (iterations_range rand). rewrite run_increments by (done || lia). lia.
Qed.

Lemma run_counts r v :
  fold_left (fun o x => if negb (x =? 0) then sext 32 (o + 1) else sext 32 (o - 1)) r v =
  run_codes ((fun x => if negb (x =? 0) then increment else decrement) <$> r) v.
Proof.
  revert v. induction r as [|x r IH]; intros v; [done|]. unfold run_codes in *. cbn. rewrite IH. by destruct (x =? 0).
Qed.

Lemma iterations_nonempty rand (f : code) : replicate (Z.to_nat (iterations rand)) f <> [].
Proof.
  intros E. apply (f_equal length) in E. rewrite length_replicate in E. cbn in E.
  pose proof (iterations_range rand). lia.
Qed.

End OffloadTests.
